(* ===== verification/_CoqProject ===== *)
-Q . S2P
Prelude.v
Unicode.v
Descriptors.v
Directory.v
Text.v
Config.v
Model.v
AudioMaps.v
Assemble.v
Specs.v
AemiImage.v
FlashMap.v
TraceSegment.v
CtfRead.v
Crc.v
NvmContract.v
NvmJournal.v
NvmShape.v
NvmMaps.v
NvmGate.v
NvmGateImage.v
NvmControls.v
NvmTable.v
Mailbox.v
MailboxYaml.v
MailboxEmit.v
MailboxTracked.v
MailboxRead.v
MailboxCheck.v
BuilderFormats.v
BuilderStreams.v
BuilderClusters.v
Srp.v
BuilderConfig.v
BuilderOverlay.v
BuilderAgree.v
BuilderHeader.v
BuilderArgs.v
ShippedConfigs.v
ShippedBuilds.v
NvmBuilds.v
Packing.v
TsnWire.v
PtpWire.v
AecpEngine.v
AecpResponses.v
AecpAgree.v
WireTruth.v
MrpWire.v
WireFrames.v
WireOracle.v
WireChecks.v
WireIdentity.v
WireVerdicts.v
WireLicence.v
WireAgree.v
CaptureFiles.v
