(* ===== verification/Prelude.v ===== *)
(** * Verification of the host programs of the Milan end station

    The repository builds an FPGA AVB/Milan end station.  What its Python decides
    before and around the gateware is modelled here: which configuration is legal,
    which descriptors the entity answers with and from which octets, which numbers
    the gateware is elaborated with, what the saved state and the CPU mailbox look
    like, how a trace is cut up and read back; and what its test tools put on the
    wire, answer and read off it.  Each file is a shallow embedding:
    a Python function is a Rocq function of the same name, a [dict] a finite map
    or a list of pairs where order matters, a class a record, a [raise] the error
    of the [result] monad with one constructor per message.

    ** Parts and how they interact

    One YAML configuration is loaded by the builder, which emits three things from
    it: the AEM overlay (a JSON document), the shape header the gateware compiles,
    and the command line of the SoC build.  The overlay becomes a model
    specification, the specification an AEM model (ROM, directory and tables), the
    model an image whose identity spans are filled in.  The same shape fixes the
    inventory of saved records, which the KLJ2 journal stores in flash.

    - [Prelude], [Unicode], [Text]: the error monad, lists, integers at a width,
      octets; [str] and UTF-8; [int(s, 16)], [hex], [%d].
    - [Descriptors]: [src/avdecc/aem_descriptors.py], the descriptor encoders.
    - [Directory]: the two-level directory and the name split of
      [src/avdecc/aem_assemble.py], with both of its generation-time gates.
    - [AudioMaps]: [src/avdecc/aem_maps.py], the gate over static AUDIO_MAPs.
    - [Model], [Specs]: the specification record, [builtin_spec] and
      [spec_from_overlay] of [src/avdecc/aem_specs.py].
    - [Assemble]: [build_model] of [src/avdecc/aem_assemble.py].
    - [AemiImage]: [src/avdecc/gen_aemi_image.py], identity spans and name table.
    - [Config], [BuilderFormats], [BuilderStreams], [BuilderClusters], [Srp],
      [BuilderConfig], [BuilderOverlay], [BuilderHeader], [BuilderArgs]:
      [src/sw/builder/endstation_builder.py] from the readers to the command line,
      in the order of the source.
    - [BuilderAgree]: what the builder emits against what [Specs], [Assemble] and
      [AemiImage] compute from it.
    - [ShippedConfigs], [ShippedBuilds]: [src/configs/endstation_*.yaml] with the
      headers and sweep fragments tracked under [src/configs/generated].
    - [Crc], [NvmContract], [NvmJournal], [NvmShape], [NvmMaps]: the saved state,
      [src/scripts/nvm_klj2.py], [nvm_contract.py], [nvm_shape.py],
      [nvm_map_checks.py] and the derivations of [check_nvm_record_space.py].
    - [NvmGate]: the gate of [check_nvm_record_space.py] itself, its checks as
      lists of findings and its controls as rewritings of an inventory or seams of
      the decoder; [NvmGateImage]: the image checks pass on every shape that fits;
      [NvmControls]: the controls are caught on the shapes that have what they
      rewrite; [NvmTable]: the
      record table the RTL suite reads; [NvmBuilds]: from a loaded configuration
      to its shape, inventory and table.
    - [Mailbox], [MailboxYaml]: [src/sw/mailbox/mailbox_model.py] and the shipped
      [mailbox.yaml]; [MailboxEmit], [MailboxRead], [MailboxCheck]:
      [mailbox_emit.py] and [gen_mailbox.py], what is written of the contract and
      the readers and the cross-check that look at it again; [MailboxTracked]: the
      two tracked files, line by line.
    - [TraceSegment], [CtfRead]: [src/sw/trace/trace_segment.py], [ctf_read.py].
    - [FlashMap]: [src/sw/litex/flash_map.py].

    The wire has three sides: the campaign, which builds frames and reads
    responses; the engine model, which answers commands; and the wire-truth
    reader, which decodes whatever a capture holds and judges it.  They share no
    code in the source, and their agreement is proved here.

    - [Packing], [TsnWire], [PtpWire]: [src/tb/verilator/tsn_fuzz/wire.py], the
      1722 and 802.1AS builders over keyword dictionaries and every field view.
    - [AecpEngine]: [src/tests/steps/aecp_engine_model.py] with the inventory of
      [aecp_engine_steps.py]; [AecpResponses]: what the engine answers;
      [AecpAgree]: the campaign's builder and views against the engine's.
    - [WireTruth], [WireChecks], [WireFrames], [WireIdentity]:
      [src/tb/tools/avtp_wire_truth_wire.py], [_checks.py], [_frames.py],
      [_identity.py]: capture files and decoders, the filing and the verdicts, the
      byte-vector oracle, the channel identity.
    - [MrpWire], [WireOracle]: the decoders on what a reference encoder and the
      oracle lay out; [WireVerdicts]: what the verdicts mean; [WireLicence]: from
      a declaration to the licence; [WireAgree], [CaptureFiles]: the campaign's
      stream PDUs through a capture file into the tables of the checks.

    Interfaces: [ClockRow] (in [Descriptors]) states what the clock-source tables
    need of a row; the overlay and the specification are its instances, which is
    why the two computations of a table can be compared.  [wf_config] (in
    [BuilderConfig]) is the contract of the loader: the theorems of the emitters
    are proved from it and from nothing else about the document.

    ** What the theorems show

    - Configuration: an accepted document is well-formed ([load_config_wf]); a
      stream document is answered with streams or a refusal ([streams_orderly]);
      cluster blocks partition the index space ([cluster_layout_partition]);
      reservations fit the declared percentage of the link ([load_srp_admits]) and
      the reset words say what was loaded ([srp_reset_words_fields]); format completion, its
      agreement with the descriptor layer, wire width and render slots
      ([base_format_complete_spec], [base_format_cover_agrees],
      [framer_wire_channels_spec], [render_slots_sound]).
    - Agreement: the overlay of a loaded configuration is accepted downstream
      ([overlay_accepted]), the advertised counts are the directory's
      ([advertised_counts_built]), the dynamic-map tables of the header are the
      model's ([dyn_in_agree], [dyn_out_agree]) and exactly these configurations
      have them ([dyn_in_accepted_iff]), the identity is the configuration's
      ([station_identity]), the internal clock is source 0 and clock sources and
      loopback names point where they say
      ([clock_sources_located], [loopback_names_sources]), render keys and capture
      words decode ([render_keys], [csrc_word_decode]), command line and datapath
      parameters state one design on a TDM bus master ([params_follow_options];
      the clock is printed with six digits, [freq_rounds]).
    - Shipped files, which check the model against the repository and say nothing
      of other inputs: five configurations reproduce the tracked headers and two
      the tracked sweep fragments ([shipped_configs_build], [shipped_sweep_opts]),
      and two builds the tracked record tables ([shipped_record_tables]); the
      shipped mailbox contract loads.
    - AEM model: the ROM is the descriptors the directory names
      ([build_model_rom]), the two directory accessors and the two name accessors
      agree, the mapping gate accepts exactly the conformant tables, and identity
      splicing touches its spans only.
    - Saved state: the decoder refines its specification ([klj2_decode_sound]),
      the encoder round-trips through it, one damaged octet is always seen, and
      the inventory is the record set the shape requires.  The gate over it says
      what it means to: its static checks pass exactly the inventories that are
      that set with distinct ids in range ([static_checks_exact]), a shape that
      fits passes every check down to the images ([gate_accepts]), the controls
      that drop, shift, double or shorten rows are reported by name on a shape with
      such rows ([controls_redden]), and the floor is refused exactly when no allocation exists ([conformance_exact]).
      Every line of the record table locates its record in the image
      ([record_table_exact]).
    - From the configuration to the saved state: the shape of every loaded
      configuration is a good one, and its records fit their blocks exactly when
      the streams and the names do ([saved_state_of_build]).
    - Mailbox: rings are disjoint, every message is claimed by one channel, the
      loader returns what the document says.  What the emitters write of any such
      contract is read back whole, and every table lists constants of the contract
      ([outputs_read_back], [variant_clean]); the cross-check reports nothing
      exactly when the carriers agree with the contract ([crosscheck_exact]); the
      shipped contract generates both tracked files character for character
      ([tracked_outputs]).
    - Traces: on metadata the reader can compute with, which it does not check
      itself, decoded packets are whole and what follows them is the events of the
      packet decoding stopped in ([decode_packets_whole]), and decoding ends on
      every input ([decode_total]); on other metadata it can hang or raise
      ([decode_hangs], [decode_crashes]).  Packing and unpacking are inverse.
    - Engine: no response is malformed ([never_malformed]), no response is answered
      ([no_storm]), every frame is counted once ([counters_account]), and each
      command class is answered as specified ([read_descriptor_answer],
      [aem_answer], [mvu_answer]); two independent builders produce the same
      command ([commands_agree]) and two readers the same response
      ([views_agree]).
    - Wire: builder and view round trips; a capture file of stream PDUs ends in the
      tables as it was built but for the event field, which reads 0
      ([campaign_capture_filed], [tap_capture_read]);
      frames of the oracle decode to their fields ([aaf_frame_reads],
      [crf_frame_reads], [msrp_frame_reads]); the MRP decoder ends on every input
      ([decode_mrpdu_ends]).
    - Verdicts: filing is by stream and in order ([captured_records]), a capture
      without traffic gets one verdict of each family and no pass
      ([nothing_unseen_passes]), the licence verdicts are the declarations on the
      wire ([licence_verdicts]; [advertise_frame_licences], for vectors whose unique
      ids do not overflow, which the reader carries into the address,
      [stream_id_carries]), the identity verdicts are the channels' tags
      ([tone_frames_exact]; the walking tags tell 23 channels apart,
      [walking_tag_reach]), and the run raises in two cases exactly
      ([checks_raise_iff]).

    ** Bounds and fuel

    Loops over lists are folds.  Four kinds of recursion run on fuel.
    [CtfRead.decode] supplies one more than the octets of the stream, and
    [decode_total] shows that is never spent.  [Text.hex_digits_of] gets one more
    than the bit length, and [hex_digits_of_spec] reads the digits back.
    [BuilderArgs.exp10_up] and [exp10_down] get more than the binary logarithm of
    the quotient, which a factor of ten per step cannot outlast
    ([exp10_spec]).  The loops of [WireTruth] ([pcap_loop], [pcapng_loop],
    [idb_options], [vectors], [messages]) get the octets of their input, and each
    turn reads at least two; [read_capture_ends] and [decode_mrpdu_ends] show that
    the fuel is never spent.

    ** What is not modelled, and why

    - Code outside the repository: the packer of the protocol-processor submodule,
      the gPTP engine generator, SHA-256, xz; each is an argument of the
      definitions that use it, with the law it is used under where there is one.
    - PyYAML and JSON: documents are values; the parsers are libraries.
    - The builder's scanners of SoC and platform text ([tdm_bus_wired] and its
      like) are the fields of [fabric] and [env]; [reboot_mac_statement], which
      evaluates another file, is a list of parameters.
    - Time stamps of captures are floats: the reader's stamps, the elapsed
      nanoseconds and the rate comparison of the checks are arguments.  Clause and
      detail of a verdict are text for a log.
    - The record-space gate: the commit deadline is a comparison of floats; the
      digest of one image and the literals of the RTL are read from other files;
      the allocation table of the design page is text.  The binding base and the
      layout version are read from the RTL of a submodule and are the fields of
      [Donor]; the name count of the image header is written by its packer and is
      an argument of [build_shape].
    - The mailbox outputs: the documentation strings and the prose of the reference
      page are arguments of the emitters; the fabric skeleton is SystemVerilog text
      and enters the cross-check by the registers it names.
    - Comment text of generated files, reports in floating point (resource
      estimate, utilisation, commit times) and file writing.
    - LiteX and Migen hardware construction, HDL test benches, the controller and
      campaign drivers (raw sockets and subprocesses), CI and lint scripts, and
      every language but Python. *)
From Stdlib Require Export ZArith Lia Bool String Ascii.
From stdpp Require Export base tactics list gmap strings sorting pretty.

#[global] Open Scope Z_scope.
#[export] Set Default Proof Using "Type".

(** * The error monad

    Python code that may raise is a function into [result E A], with one error
    constructor per [raise] (or per operation of the standard library that
    raises).  *)

Inductive result (E A : Type) : Type :=
  | Ok (a : A)
  | Err (e : E).
Arguments Ok {E A} a.
Arguments Err {E A} e.

Definition rbind {E A B} (m : result E A) (k : A -> result E B) : result E B :=
  match m with Ok a => k a | Err e => Err e end.

Declare Scope milan_scope.
Delimit Scope milan_scope with milan.
Notation "'let*' x := m 'in' k" := (rbind m (fun x => k))
  (at level 10, x pattern, m at level 100, k at level 200)
  : milan_scope.
#[global] Open Scope milan_scope.

(** [raise_if b e]: the guard [if b: raise e] of the sources. *)
Definition raise_if {E} (b : bool) (e : E) : result E unit :=
  if b then Err e else Ok tt.

Definition map_err {E F A} (f : E -> F) (m : result E A) : result F A :=
  match m with Ok a => Ok a | Err e => Err (f e) end.

Definition is_ok {E A} (m : result E A) : bool :=
  match m with Ok _ => true | Err _ => false end.

(** [for] loops whose body may raise: building a list, and threading a state. *)
Fixpoint mapR {E A B} (f : A -> result E B) (l : list A) : result E (list B) :=
  match l with
  | [] => Ok []
  | x :: l' => let* y := f x in let* ys := mapR f l' in Ok (y :: ys)
  end.

Fixpoint foldR {E A S} (f : S -> A -> result E S) (s : S) (l : list A) : result E S :=
  match l with
  | [] => Ok s
  | x :: l' => let* s' := f s x in foldR f s' l'
  end.

(** [enumerate(l)], with Python's integer index. *)
Fixpoint enum_from {A} (k : Z) (l : list A) : list (Z * A) :=
  match l with [] => [] | x :: l' => (k, x) :: enum_from (k + 1) l' end.
Definition enumerate {A} (l : list A) : list (Z * A) := enum_from 0 l.

(** [range(a, a + n)] for a natural count. *)
Fixpoint zrange (a : Z) (n : nat) : list Z :=
  match n with O => [] | S n' => a :: zrange (a + 1) n' end.

Definition zlen {A} (l : list A) : Z := Z.of_nat (length l).

(** [l[i]] of Python: a negative index counts from the end, [None] is
    [IndexError]. *)
Definition py_index {A} (l : list A) (i : Z) : option A :=
  if 0 <=? i then l !! Z.to_nat i
  else if 0 <=? zlen l + i then l !! Z.to_nat (zlen l + i) else None.

(** [l[off:off + n]] for non-negative [off] and [n]. *)
Definition zslice {A} (off n : Z) (l : list A) : list A :=
  take (Z.to_nat n) (drop (Z.to_nat off) l).

Definition sum_z (l : list Z) : Z := foldr Z.add 0 l.

(** [sorted(l)] of integers. *)
Definition sorted_z (l : list Z) : list Z := merge_sort Z.le l.

Definition max_z (d : Z) (l : list Z) : Z := foldr Z.max d l.

(** * Bytes and fixed-width fields

    A byte string is a list of integers in [0, 256). *)

Abbreviation bytes := (list Z).

Definition is_byte (b : Z) : Prop := 0 <= b < 256.

Definition is_byteb (b : Z) : bool := (0 <=? b) && (b <? 256).

Fixpoint le_bytes (n : nat) (v : Z) : bytes :=
  match n with O => [] | S n' => v mod 256 :: le_bytes n' (v / 256) end.

Definition be_bytes (n : nat) (v : Z) : bytes := rev (le_bytes n v).

Fixpoint of_le (l : bytes) : Z :=
  match l with [] => 0 | b :: l' => b + 256 * of_le l' end.

Definition of_be (l : bytes) : Z := of_le (rev l).

(** A field of [n] octets read from a byte string, big- and little-endian. *)
Definition rd_be (off n : Z) (b : bytes) : Z := of_be (zslice off n b).
Definition rd_le (off n : Z) (b : bytes) : Z := of_le (zslice off n b).

Definition zeros (n : nat) : bytes := repeat 0 n.

(** * Tactics *)

(** Split a successful computation into the successes of its steps. *)
Lemma rbind_Ok {E A B} (m : result E A) (k : A -> result E B) b :
  rbind m k = Ok b <-> exists a, m = Ok a /\ k a = Ok b.
Proof.
  destruct m as [a|e]; simpl.
  - split; [eauto|]. intros (a' & H & ?). congruence.
  - split; [discriminate|]. intros (a' & ? & ?). discriminate.
Qed.

Lemma raise_if_Ok {E} b (e : E) u : raise_if b e = Ok u <-> b = false.
Proof. unfold raise_if. destruct u, b; split; congruence. Qed.

Lemma Ok_inj {E A} (a b : A) : @Ok E A a = Ok b -> a = b.
Proof. congruence. Qed.

Ltac rsplit H :=
  cbv beta in H;
  lazymatch type of H with
  | rbind _ _ = Ok _ =>
      let a := fresh "v" in let H1 := fresh "Hm" in
      apply rbind_Ok in H; destruct H as (a & H1 & H);
      rsplit H1; rsplit H
  | raise_if _ _ = Ok _ => apply raise_if_Ok in H
  | Ok _ = Ok _ => apply Ok_inj in H
  | _ => idtac
  end.

(** Decompose boolean conjunctions, disjunctions and comparisons. *)
Ltac bool_prop :=
  repeat match goal with
  | H : _ && _ = true |- _ => apply andb_true_iff in H; destruct H
  | H : _ || _ = false |- _ => apply orb_false_iff in H; destruct H
  | H : negb _ = true |- _ => apply negb_true_iff in H
  | H : negb _ = false |- _ => apply negb_false_iff in H
  | H : (_ <? _)%Z = true |- _ => apply Z.ltb_lt in H
  | H : (_ <? _)%Z = false |- _ => apply Z.ltb_ge in H
  | H : (_ <=? _)%Z = true |- _ => apply Z.leb_le in H
  | H : (_ <=? _)%Z = false |- _ => apply Z.leb_gt in H
  | H : (_ =? _)%Z = true |- _ => apply Z.eqb_eq in H
  | H : (_ =? _)%Z = false |- _ => apply Z.eqb_neq in H
  | H : String.eqb _ _ = true |- _ => apply String.eqb_eq in H
  | H : String.eqb _ _ = false |- _ => apply String.eqb_neq in H
  | H : bool_decide _ = true |- _ => apply bool_decide_eq_true in H
  | H : bool_decide _ = false |- _ => apply bool_decide_eq_false in H
  end.

(** * Lemmas on the monad and its loops *)

Create HintDb milan discriminated.
Create Rewrite HintDb zlen.
Create Rewrite HintDb blen.

Lemma mapR_Ok {E A B} (f : A -> result E B) l l' :
  mapR f l = Ok l' <-> Forall2 (fun x y => f x = Ok y) l l'.
Proof.
  revert l'. induction l as [|x l IH]; intros l'; simpl.
  - split; [intros [= <-]; constructor | inversion 1; reflexivity].
  - split.
    + intros H. rsplit H. subst. constructor; [done|]. by apply IH.
    + inversion 1 as [|? y ? ys Hf Hr]; subst. apply IH in Hr.
      rewrite Hf. simpl. by rewrite Hr.
Qed.

Lemma mapR_total {E A B} (f : A -> result E B) l :
  Forall (fun x => exists y, f x = Ok y) l -> exists ys, mapR f l = Ok ys.
Proof.
  induction 1 as [|x l [y Hy] _ [ys Hys]]; [by exists []|].
  exists (y :: ys). cbn [mapR]. by rewrite Hy, Hys.
Qed.

Lemma mapR_pure {E A B} (f : A -> result E B) (g : A -> B) l :
  (forall x, f x = Ok (g x)) -> mapR f l = Ok (map g l).
Proof. intros H. induction l as [|x l IH]; cbn [mapR map]; [done|]. by rewrite H, IH. Qed.

Lemma omap_nil {A B} (f : A -> option B) l : omap f l = [] <-> forall x, In x l -> f x = None.
Proof.
  induction l as [|x l IH]; cbn [omap list_omap In]; [by split|]. destruct (f x) eqn:E.
  - split; [done|]. intros H. specialize (H x ltac:(by left)). congruence.
  - rewrite IH. split; [|by auto]. intros H y [<-|Hy]; auto.
Qed.

Lemma flat_map_nil {A B} (f : A -> list B) l : flat_map f l = [] <-> forall x, In x l -> f x = [].
Proof.
  induction l as [|x l IH]; cbn [flat_map In]; [by split|]. split.
  - intros [? ?]%app_eq_nil y [<-|Hy]; [done|]. by apply IH.
  - intros H. rewrite H by by left. cbn [app]. apply IH. auto.
Qed.

Lemma mapR_length {E A B} (f : A -> result E B) l l' :
  mapR f l = Ok l' -> length l' = length l.
Proof. rewrite mapR_Ok. intros H. symmetry. by eapply Forall2_length. Qed.

(** Everything a loop over an error monad does, as an invariant over the
    processed prefix. *)
Lemma foldR_invariant {E A S} (I : list A -> S -> Prop) (f : S -> A -> result E S) l s s' :
  I [] s ->
  (forall done x rest t t', l = done ++ x :: rest -> I done t -> f t x = Ok t' -> I (done ++ [x]) t') ->
  foldR f s l = Ok s' -> I l s'.
Proof.
  intros H0 Hstep.
  assert (forall rest done t, l = done ++ rest -> I done t -> foldR f t rest = Ok s' -> I l s') as G.
  { induction rest as [|x rest IH]; intros dn t Hl HI Hf; simpl in Hf.
    - injection Hf as <-. by rewrite Hl, app_nil_r.
    - rsplit Hf. apply (IH (dn ++ [x]) v); [by rewrite <-app_assoc|by eapply Hstep|done]. }
  intros Hf. by apply (G l [] s).
Qed.

Lemma foldR_app {E A S} (f : S -> A -> result E S) s l1 l2 :
  foldR f s (l1 ++ l2) = (let* t := foldR f s l1 in foldR f t l2).
Proof.
  revert s. induction l1 as [|x l1 IH]; intros s; simpl; [done|].
  destruct (f s x); simpl; [apply IH|done].
Qed.

(** * Lemmas on lists with integer indices *)

Lemma zlen_nonneg {A} (l : list A) : 0 <= zlen l.
Proof. unfold zlen. lia. Qed.

Lemma zlen_app {A} (l1 l2 : list A) : zlen (l1 ++ l2) = zlen l1 + zlen l2.
Proof. unfold zlen. rewrite length_app. lia. Qed.

Lemma zlen_cons {A} (x : A) l : zlen (x :: l) = 1 + zlen l.
Proof. unfold zlen. simpl. lia. Qed.

Lemma zlen_nil {A} : zlen (@nil A) = 0.
Proof. reflexivity. Qed.

Lemma zlen_map {A B} (f : A -> B) l : zlen (map f l) = zlen l.
Proof. unfold zlen. by rewrite length_map. Qed.

Lemma zlen_rev {A} (l : list A) : zlen (rev l) = zlen l.
Proof. unfold zlen. by rewrite length_rev. Qed.

Lemma zlen_concat_repeat {A} (b : list A) n :
  zlen (concat (repeat b n)) = Z.of_nat n * zlen b.
Proof.
  induction n as [|n IH]; cbn [repeat concat]; [by rewrite zlen_nil|].
  rewrite zlen_app, IH. lia.
Qed.

#[export] Hint Rewrite @zlen_concat_repeat @zlen_app @zlen_cons @zlen_nil @zlen_map @zlen_rev : zlen.

(** The elements of a concatenation. *)
Lemma concat_lookup {A} (L : list (list A)) j l c x :
  L !! j = Some l -> l !! c = Some x ->
  concat L !! (length (concat (take j L)) + c)%nat = Some x.
Proof.
  intros Hj Hc. apply list_elem_of_split_length in Hj as (l1 & l2 & -> & ->).
  rewrite take_app_length, concat_app. simpl. rewrite lookup_app_r by lia.
  replace (_ - _)%nat with c by lia. apply lookup_app_l_Some. done.
Qed.

Lemma length_concat_const {A} (L : list (list A)) n :
  Forall (fun l => length l = n) L -> length (concat L) = (n * length L)%nat.
Proof. induction 1 as [|l L Hl _ IH]; simpl; [lia|]. rewrite length_app, Hl, IH. lia. Qed.

Lemma enum_from_length {A} k (l : list A) : length (enum_from k l) = length l.
Proof. revert k. induction l; intros k; simpl; [done|]. by rewrite IHl. Qed.

Lemma enum_from_app {A} k (l1 l2 : list A) :
  enum_from k (l1 ++ l2) = enum_from k l1 ++ enum_from (k + zlen l1) l2.
Proof.
  revert k. induction l1 as [|x l1 IH]; intros k; simpl.
  - by rewrite zlen_nil, Z.add_0_r.
  - rewrite IH, zlen_cons. do 3 f_equal. lia.
Qed.

Lemma enum_from_lookup {A} k (l : list A) i :
  enum_from k l !! i = (fun x => (k + Z.of_nat i, x)) <$> l !! i.
Proof.
  revert k i. induction l as [|x l IH]; intros k [|i]; simpl; try done.
  - by rewrite Z.add_0_r.
  - rewrite IH. destruct (l !! i); simpl; [|done]. do 2 f_equal. lia.
Qed.

Lemma enum_from_In {A} k (l : list A) i x :
  In (i, x) (enum_from k l) -> k <= i < k + zlen l /\ In x l.
Proof.
  revert k. induction l as [|y l IH]; intros k; simpl; [done|].
  rewrite zlen_cons. intros [[= <- <-]|H].
  - split; [pose proof (zlen_nonneg l); lia|by left].
  - apply IH in H. split; [lia|]. right. tauto.
Qed.

Lemma zrange_length a n : length (zrange a n) = n.
Proof. revert a. induction n; intros a; simpl; [done|]. by rewrite IHn. Qed.

Lemma zrange_lookup a n i :
  zrange a n !! i = if decide (i < n)%nat then Some (a + Z.of_nat i) else None.
Proof.
  revert a i. induction n as [|n IH]; intros a i; cbn [zrange].
  - by rewrite lookup_nil, decide_False by lia.
  - destruct i as [|i]; cbn [lookup list_lookup].
    + rewrite decide_True by lia. f_equal. lia.
    + rewrite IH. repeat case_decide; try lia; [f_equal; lia|done].
Qed.

Lemma zrange_In a n z : In z (zrange a n) <-> a <= z < a + Z.of_nat n.
Proof.
  revert a. induction n as [|n IH]; intros a; cbn [zrange In]; [lia|].
  rewrite IH. lia.
Qed.

Lemma zrange_app a n m : zrange a (n + m) = zrange a n ++ zrange (a + Z.of_nat n) m.
Proof.
  revert a. induction n as [|n IH]; intros a; cbn [zrange Nat.add app].
  - f_equal. lia.
  - rewrite IH. do 3 f_equal. lia.
Qed.

Lemma sum_z_app l1 l2 : sum_z (l1 ++ l2) = sum_z l1 + sum_z l2.
Proof. induction l1; simpl; unfold sum_z in *; simpl; lia. Qed.

(** A sum does not depend on the order of its terms. *)
#[export] Instance sum_z_Proper : Proper ((≡ₚ) ==> eq) sum_z.
Proof. unfold sum_z. induction 1; cbn [foldr]; lia. Qed.

#[export] Instance zlen_Proper {A} : Proper ((≡ₚ) ==> eq) (@zlen A).
Proof. intros l l' H. unfold zlen. by rewrite H. Qed.

#[export] Instance map_Permutation_Proper {A B} (f : A -> B) : Proper ((≡ₚ) ==> (≡ₚ)) (map f).
Proof. intros l l'. apply Permutation_map. Qed.

Lemma max_z_ge d l x : In x l -> x <= max_z d l.
Proof. unfold max_z. induction l as [|y l IH]; simpl; [done|]. intros [->|H]; [lia|]. apply IH in H. lia. Qed.

Lemma max_z_In d l : max_z d l = d \/ In (max_z d l) l.
Proof.
  unfold max_z. induction l as [|y l IH]; simpl; [by left|].
  destruct (Z.max_spec y (foldr Z.max d l)) as [[_ ->]|[_ ->]]; [tauto|]. by right; left.
Qed.

(** * Lemmas on bytes *)

Lemma le_bytes_length n v : length (le_bytes n v) = n.
Proof. revert v. induction n; intros v; simpl; [done|]. by rewrite IHn. Qed.

Lemma be_bytes_length n v : length (be_bytes n v) = n.
Proof. unfold be_bytes. by rewrite length_rev, le_bytes_length. Qed.

Lemma zeros_length n : length (zeros n) = n.
Proof. apply repeat_length. Qed.

Lemma zlen_zeros n : zlen (zeros n) = Z.of_nat n.
Proof. unfold zlen. by rewrite zeros_length. Qed.

Lemma zlen_be_bytes n v : zlen (be_bytes n v) = Z.of_nat n.
Proof. unfold zlen. by rewrite be_bytes_length. Qed.

#[export] Hint Rewrite zlen_be_bytes zlen_zeros : zlen.

(** Octets, decided. *)
Lemma Forall_is_byteb l : forallb is_byteb l = true -> Forall is_byte l.
Proof.
  rewrite forallb_forall, List.Forall_forall. intros H x Hx%H. unfold is_byteb, is_byte in *. by bool_prop.
Qed.

Lemma le_bytes_bytes n v : Forall is_byte (le_bytes n v).
Proof.
  revert v. induction n; intros v; simpl; constructor; [|done].
  unfold is_byte. apply Z.mod_pos_bound. lia.
Qed.

Lemma be_bytes_bytes n v : Forall is_byte (be_bytes n v).
Proof. apply Forall_rev, le_bytes_bytes. Qed.

Lemma of_le_le_bytes n v : of_le (le_bytes n v) = v mod 256 ^ Z.of_nat n.
Proof.
  revert v. induction n as [|n IH]; intros v; cbn [le_bytes of_le].
  - by rewrite Z.mod_1_r.
  - rewrite IH, Nat2Z.inj_succ, Z.pow_succ_r by lia.
    rewrite Z.rem_mul_r by lia. reflexivity.
Qed.

Lemma of_be_be_bytes n v : of_be (be_bytes n v) = v mod 256 ^ Z.of_nat n.
Proof. unfold of_be, be_bytes. rewrite rev_involutive. apply of_le_le_bytes. Qed.

Lemma of_be_be_bytes_id n v : 0 <= v < 256 ^ Z.of_nat n -> of_be (be_bytes n v) = v.
Proof. intros H. rewrite of_be_be_bytes. by apply Z.mod_small. Qed.

Lemma of_le_le_bytes_id n v : 0 <= v < 256 ^ Z.of_nat n -> of_le (le_bytes n v) = v.
Proof. intros H. rewrite of_le_le_bytes. by apply Z.mod_small. Qed.

Lemma of_le_bound l : Forall is_byte l -> 0 <= of_le l < 256 ^ zlen l.
Proof.
  induction 1 as [|b l Hb Hl IH]; cbn [of_le].
  - by split.
  - rewrite zlen_cons, Z.pow_add_r by (pose proof (zlen_nonneg l); lia).
    unfold is_byte in Hb. lia.
Qed.

Lemma le_bytes_of_le l : Forall is_byte l -> le_bytes (length l) (of_le l) = l.
Proof.
  induction 1 as [|b l Hb Hl IH]; cbn [of_le le_bytes length]; [done|].
  unfold is_byte in Hb.
  replace (b + 256 * of_le l) with (of_le l * 256 + b) by lia.
  rewrite Z.add_comm, Z.mod_add, Z.mod_small, Z.div_add, Z.div_small by lia.
  by rewrite Z.add_0_l, IH.
Qed.

#[export] Hint Rewrite @length_app be_bytes_length le_bytes_length zeros_length : blen.
#[export] Hint Resolve be_bytes_bytes le_bytes_bytes : milan.

(** * Slices of concatenations: how every field is read back *)

Lemma zslice_skip {A} (a b : list A) k off n :
  zlen a = k -> k <= off -> zslice off n (a ++ b) = zslice (off - k) n b.
Proof.
  intros Hk Ho. unfold zslice, zlen in *. f_equal.
  rewrite drop_app_ge by lia. f_equal. lia.
Qed.

Lemma zslice_hit {A} (a b : list A) n : zlen a = n -> zslice 0 n (a ++ b) = a.
Proof.
  intros Hn. unfold zslice, zlen in *. simpl. rewrite drop_0, take_app_length'; [done|lia].
Qed.

Lemma zslice_all {A} (a : list A) n : zlen a = n -> zslice 0 n a = a.
Proof. intros Hn. rewrite <-(app_nil_r a) at 1. by apply zslice_hit. Qed.

Lemma zslice_length {A} (l : list A) off n :
  0 <= off -> 0 <= n -> off + n <= zlen l -> zlen (zslice off n l) = n.
Proof. unfold zslice, zlen. intros. rewrite length_take, length_drop. lia. Qed.

Lemma zslice_app_l {A} (l1 l2 : list A) off n :
  0 <= off -> 0 <= n -> off + n <= zlen l1 -> zslice off n (l1 ++ l2) = zslice off n l1.
Proof.
  unfold zslice, zlen. intros. rewrite drop_app_le by lia.
  rewrite take_app_le; [done|]. rewrite length_drop. lia.
Qed.

Lemma zslice_zslice {A} (l : list A) o n o' n' :
  0 <= o -> 0 <= o' -> 0 <= n' -> o' + n' <= n ->
  zslice o' n' (zslice o n l) = zslice (o + o') n' l.
Proof.
  intros. unfold zslice. apply list_eq. intros i.
  destruct (decide (i < Z.to_nat n')%nat).
  - rewrite !lookup_take_lt, !lookup_drop, lookup_take_lt, lookup_drop by lia. f_equal. lia.
  - by rewrite !lookup_take_ge by lia.
Qed.

Lemma Forall_zslice {A} (P : A -> Prop) off n (l : list A) :
  Forall P l -> Forall P (zslice off n l).
Proof. intros. by apply Forall_take, Forall_drop. Qed.

Lemma rd_be_nonneg (blob : bytes) off n : Forall is_byte blob -> 0 <= rd_be off n blob.
Proof.
  intros Hb. unfold rd_be, of_be. apply of_le_bound. apply Forall_rev. by apply Forall_zslice.
Qed.

Lemma rd_le_nonneg (blob : bytes) off n : Forall is_byte blob -> 0 <= rd_le off n blob.
Proof. intros Hb. unfold rd_le. apply of_le_bound. by apply Forall_zslice. Qed.

Lemma zslice_split {A} (l : list A) o n m :
  0 <= o -> 0 <= n -> 0 <= m -> zslice o (n + m) l = zslice o n l ++ zslice (o + n) m l.
Proof.
  intros Ho Hn Hm. unfold zslice.
  rewrite Z2Nat.inj_add, (Z2Nat.inj_add o n), <-drop_drop by lia.
  rewrite <-(take_drop (Z.to_nat n) (drop (Z.to_nat o) l)) at 1.
  destruct (decide (Z.to_nat n <= length (drop (Z.to_nat o) l))%nat).
  - rewrite take_app_ge by (rewrite length_take; lia). rewrite length_take.
    do 3 f_equal. lia.
  - rewrite (drop_ge (drop (Z.to_nat o) l)) by lia.
    rewrite !app_nil_r, take_nil, app_nil_r, take_take. f_equal. lia.
Qed.

(** Peel the field at a literal offset out of a concatenation of fields. *)
Ltac known_zlen :=
  lazymatch goal with
  | |- zlen (be_bytes _ _) = _ => apply zlen_be_bytes
  | |- zlen (zeros _) = _ => apply zlen_zeros
  | |- zlen (?x :: ?l) = _ => let n := eval vm_compute in (zlen (x :: l)) in exact (@eq_refl Z n)
  | |- _ => first [eassumption | autorewrite with zlen; reflexivity]
  end.

Ltac read_field :=
  repeat (rewrite <-?app_assoc;
    erewrite zslice_skip; [| known_zlen | cbn; lia];
    match goal with |- context [zslice ?o _ _] =>
      let o' := eval vm_compute in o in change o with o' end);
  rewrite <-?app_assoc;
  first [ rewrite zslice_hit by known_zlen | rewrite zslice_all by known_zlen ].

Lemma be_bytes_of_be n l : length l = n -> Forall is_byte l -> be_bytes n (of_be l) = l.
Proof.
  intros <- Hl. unfold be_bytes, of_be. rewrite <-length_rev.
  rewrite le_bytes_of_le by (by apply Forall_rev). apply rev_involutive.
Qed.

Lemma le_bytes_of_le_n n l : length l = n -> Forall is_byte l -> le_bytes n (of_le l) = l.
Proof. intros <-. apply le_bytes_of_le. Qed.

(** A slice read as a number, written back. *)
Lemma be_bytes_rd_be off n b : 0 <= off -> 0 <= n -> off + n <= zlen b -> Forall is_byte b ->
  be_bytes (Z.to_nat n) (rd_be off n b) = zslice off n b.
Proof.
  intros Ho Hn Hl Hb. apply be_bytes_of_be; [|by apply Forall_zslice].
  pose proof (zslice_length b off n Ho Hn Hl). unfold zlen in *. lia.
Qed.

(** * Sorted integers *)

Lemma In_sorted_z x l : In x (sorted_z l) <-> In x l.
Proof.
  rewrite <-!list_elem_of_In. unfold sorted_z. by rewrite (merge_sort_Permutation Z.le l).
Qed.

(** The sort of a list is any ascending list with its elements. *)
Lemma sorted_z_unique l l' : StronglySorted Z.le l' -> l ≡ₚ l' -> sorted_z l = l'.
Proof.
  intros Hs Hp. unfold sorted_z. apply (StronglySorted_unique Z.le).
  - apply StronglySorted_merge_sort; apply _.
  - done.
  - by rewrite merge_sort_Permutation.
Qed.
