(* ===== verification/Unicode.v ===== *)
(** Python strings and their UTF-8 encoding.

    A [str] is a list of code points.  [utf8_encode] is [str.encode()] and
    [utf8_decode] is [bytes.decode("utf-8")], both strict: a surrogate or a
    value past 0x10FFFF is not encodable, and overlong, truncated or surrogate
    sequences are not decodable.  The two are inverse to each other, which is
    what makes a name that was written into a descriptor readable back.

    Used by [Descriptors] ([cstr]) and [AemiImage] ([_text_from_name]). *)
From S2P Require Import Prelude.

Abbreviation pystr := (list Z).

(** A Rocq string literal (ASCII) as a Python string. *)
Fixpoint lit (s : string) : pystr :=
  match s with
  | EmptyString => []
  | String.String c s' => Z.of_nat (nat_of_ascii c) :: lit s'
  end.

Definition pystr_eqb (a b : pystr) : bool := bool_decide (a = b).

(** One code point. *)
Definition utf8_char (c : Z) : option bytes :=
  if c <? 0 then None
  else if c <? 128 then Some [c]
  else if c <? 2048 then Some [192 + c / 64; 128 + c mod 64]
  else if (55296 <=? c) && (c <? 57344) then None
  else if c <? 65536 then
    Some [224 + c / 4096; 128 + (c / 64) mod 64; 128 + c mod 64]
  else if c <? 1114112 then
    Some [240 + c / 262144; 128 + (c / 4096) mod 64; 128 + (c / 64) mod 64;
          128 + c mod 64]
  else None.

Fixpoint utf8_encode (s : pystr) : option bytes :=
  match s with
  | [] => Some []
  | c :: s' =>
      match utf8_char c, utf8_encode s' with
      | Some b, Some bs => Some (b ++ bs)
      | _, _ => None
      end
  end.

Definition is_cont (b : Z) : bool := (128 <=? b) && (b <? 192).

Definition ocons (c : Z) (o : option pystr) : option pystr :=
  match o with Some s => Some (c :: s) | None => None end.

(** A decoded code point is kept only when its shortest encoding is the one
    that was read. *)
Fixpoint utf8_decode (b : bytes) : option pystr :=
  match b with
  | [] => Some []
  | b0 :: t0 =>
      if (0 <=? b0) && (b0 <? 128) then ocons b0 (utf8_decode t0)
      else match t0 with
      | [] => None
      | b1 :: t1 =>
          if negb (is_cont b1) then None
          else if (194 <=? b0) && (b0 <? 224) then
            ocons ((b0 - 192) * 64 + (b1 - 128)) (utf8_decode t1)
          else match t1 with
          | [] => None
          | b2 :: t2 =>
              if negb (is_cont b2) then None
              else if (224 <=? b0) && (b0 <? 240) then
                let c := (b0 - 224) * 4096 + (b1 - 128) * 64 + (b2 - 128) in
                if (c <? 2048) || ((55296 <=? c) && (c <? 57344)) then None
                else ocons c (utf8_decode t2)
              else match t2 with
              | [] => None
              | b3 :: t3 =>
                  if negb (is_cont b3) then None
                  else if (240 <=? b0) && (b0 <? 245) then
                    let c := (b0 - 240) * 262144 + (b1 - 128) * 4096
                             + (b2 - 128) * 64 + (b3 - 128) in
                    if (c <? 65536) || (1114112 <=? c) then None
                    else ocons c (utf8_decode t3)
                  else None
              end
          end
      end
  end.

(** * The two directions are inverse *)

(** The digits of a code point in base 64. *)
Lemma base64_digits c :
  0 <= c mod 64 < 64 /\ 0 <= (c / 64) mod 64 < 64 /\ 0 <= (c / 4096) mod 64 < 64 /\
  c = c / 64 * 64 + c mod 64 /\ c / 64 = c / 4096 * 64 + (c / 64) mod 64 /\
  c / 4096 = c / 262144 * 64 + (c / 4096) mod 64.
Proof.
  assert (c / 4096 = c / 64 / 64) as -> by (rewrite Z.div_div by lia; done).
  assert (c / 262144 = c / 64 / 64 / 64) as -> by (rewrite !Z.div_div by lia; done).
  repeat split; try (apply Z.mod_pos_bound; lia);
    rewrite Z.mul_comm; apply Z.div_mod; lia.
Qed.

(** Decide the comparisons of the goal, one [lia] each. *)
Ltac decide_cmp :=
  repeat (match goal with
    | |- context [Z.leb ?a ?b] =>
        first [ rewrite (proj2 (Z.leb_le a b)) by lia | rewrite (proj2 (Z.leb_gt a b)) by lia ]
    | |- context [Z.ltb ?a ?b] =>
        first [ rewrite (proj2 (Z.ltb_lt a b)) by lia | rewrite (proj2 (Z.ltb_ge a b)) by lia ]
    end; cbn [andb orb negb]).

Ltac utf8_cases :=
  repeat match goal with
  | |- context [if ?b then _ else _] => destruct b eqn:?; try discriminate
  end; bool_prop; try lia.

Lemma utf8_char_decode c b rest :
  utf8_char c = Some b -> utf8_decode (b ++ rest) = ocons c (utf8_decode rest).
Proof.
  destruct (base64_digits c) as (H0 & H1 & H2 & E0 & E1 & E2).
  unfold utf8_char.
  revert H0 H1 H2 E0 E1 E2.
  generalize (c mod 64) ((c / 64) mod 64) ((c / 4096) mod 64) (c / 64) (c / 4096) (c / 262144).
  intros z y x q p w ??????.
  destruct (c <? 0) eqn:?; [done|].
  destruct (c <? 128) eqn:?; [intros [= <-]; cbn [app utf8_decode]; bool_prop; by decide_cmp|].
  destruct (c <? 2048) eqn:?.
  { intros [= <-]; cbn [app utf8_decode]; unfold is_cont; bool_prop. decide_cmp. f_equal. lia. }
  destruct ((55296 <=? c) && (c <? 57344)) eqn:Hs; [done|].
  destruct (c <? 65536) eqn:?.
  { intros [= <-]; cbn [app utf8_decode]; unfold is_cont; bool_prop. decide_cmp.
    match goal with |- context [ocons ?e _] => replace e with c by lia end.
    by rewrite Hs. }
  destruct (c <? 1114112) eqn:?; [|done].
  intros [= <-]; cbn [app utf8_decode]; unfold is_cont; bool_prop. decide_cmp.
  f_equal. lia.
Qed.

(** Strict UTF-8: what [encode] produced, [decode] gives back. *)
Lemma utf8_decode_encode s b : utf8_encode s = Some b -> utf8_decode b = Some s.
Proof.
  revert b. induction s as [|c s IH]; intros b; simpl; [by intros [= <-]|].
  destruct (utf8_char c) as [bc|] eqn:Hc; [|done].
  destruct (utf8_encode s) as [bs|]; [|done]. intros [= <-].
  rewrite (utf8_char_decode _ _ _ Hc), (IH bs eq_refl). done.
Qed.

Lemma utf8_encode_bytes s b : utf8_encode s = Some b -> Forall is_byte b.
Proof.
  revert b. induction s as [|c s IH]; intros b; simpl; [by intros [= <-]|].
  destruct (utf8_char c) as [bc|] eqn:Hc; [|done].
  destruct (utf8_encode s) as [bs|]; [|done]. intros [= <-].
  apply Forall_app_2; [|by apply IH].
  revert Hc. destruct (base64_digits c) as (H0 & H1 & H2 & E0 & E1 & E2).
  unfold utf8_char. utf8_cases; intros [= <-]; repeat constructor; lia.
Qed.
