(* ===== verification/Descriptors.v ===== *)
(** Descriptor bytes: the IEEE 1722.1-2021 clause 7.2 field layouts
    ([avdecc/aem_descriptors.py]).

    One definition per [d_*] encoder, in the error monad because the encoders
    raise: [struct.error] for a u32 out of range ([be32]), [ValueError] for a
    [bytes([...])] element out of range, [IndexError] for a stream without
    formats, [UnicodeEncodeError] for a string that has no UTF-8 form, and the
    [assert]s.  [be16] and [be64] mask and never raise.

    The theorems say where a controller finds each field of the bytes an
    encoder returned ([rd_be off n b]) and how long a descriptor is, whatever
    the arguments; the [assert]s of the source are kept as guards and shown
    never to fire by the same lemmas. *)
From S2P Require Import Prelude Unicode.

Inductive desc_error :=
  | EEncode          (* UnicodeEncodeError of str.encode() *)
  | EStruct          (* struct.error of AEM_U32.pack *)
  | EByteRange       (* ValueError of bytes([...]) *)
  | EIndex           (* IndexError of formats[0] *)
  | EAssert          (* a failed assert *)
  | EVersion         (* no VERSION parameter, or no digits in it *)
  | EKey.            (* KeyError of a dict lookup *)

(** * Gateware version *)

(** [\s] of a Python [str] pattern. *)
Definition is_space (c : Z) : bool :=
  (9 <=? c) && (c <=? 13) || (28 <=? c) && (c <=? 32) || (c =? 133) || (c =? 160)
  || (c =? 5760) || (8192 <=? c) && (c <=? 8202) || (c =? 8232) || (c =? 8233)
  || (c =? 8239) || (c =? 8287) || (c =? 12288).

Definition hex_digit (c : Z) : option Z :=
  if (48 <=? c) && (c <=? 57) then Some (c - 48)
  else if (65 <=? c) && (c <=? 70) then Some (c - 55)
  else if (97 <=? c) && (c <=? 102) then Some (c - 87)
  else None.

Fixpoint match_lit (p s : pystr) : option pystr :=
  match p, s with
  | [], _ => Some s
  | a :: p', b :: s' => if a =? b then match_lit p' s' else None
  | _ :: _, [] => None
  end.

Fixpoint skip_ws (s : pystr) : pystr :=
  match s with c :: s' => if is_space c then skip_ws s' else s | [] => [] end.

Definition match_ws1 (s : pystr) : option pystr :=
  match s with c :: s' => if is_space c then Some (skip_ws s') else None | [] => None end.

Fixpoint span_hex (s : pystr) : pystr :=
  match s with
  | c :: s' =>
      match hex_digit c with
      | Some _ => c :: span_hex s'
      | None => if c =? 95 then c :: span_hex s' else []
      end
  | [] => []
  end.

(** The pattern [_VERSION_RE] at the head of [s]; every [\s] run of it is
    followed by a non-space, so greedy matching never has to backtrack. *)
Definition version_re_at (s : pystr) : option pystr :=
  s ← match_lit (lit "parameter") s; s ← match_ws1 s;
  s ← match_lit (lit "logic") s; s ← match_lit (lit "[31:0]") (skip_ws s);
  s ← match_ws1 s; s ← match_lit (lit "VERSION") s;
  s ← match_lit (lit "=") (skip_ws s);
  s ← match_lit (lit "32'h") (skip_ws s);
  match span_hex s with [] => None | ds => Some ds end.

Fixpoint version_re_search (s : pystr) : option pystr :=
  match version_re_at s with
  | Some ds => Some ds
  | None => match s with [] => None | _ :: s' => version_re_search s' end
  end.

(** [int(digits.replace("_", ""), 16)]; [None] when no digit is left. *)
Fixpoint hex_value (acc : Z) (s : pystr) : Z :=
  match s with
  | [] => acc
  | c :: s' => hex_value (match hex_digit c with Some d => acc * 16 + d | None => acc end) s'
  end.

Definition parse_hex_underscored (ds : pystr) : option Z :=
  if forallb (fun c => c =? 95) ds then None else Some (hex_value 0 ds).

Definition rtl_version (text : pystr) : result desc_error (Z * Z) :=
  match version_re_search text with
  | None => Err EVersion
  | Some ds =>
      match parse_hex_underscored ds with
      | None => Err EVersion
      | Some v => Ok (Z.land (Z.shiftr v 16) 0xFFFF, Z.land v 0xFFFF)
      end
  end.

Definition dec (z : Z) : pystr := lit (pretty z).

Definition firmware_version_string (rev : Z) (text : pystr) : result desc_error pystr :=
  let* (major, minor) := rtl_version text in
  Ok (dec major ++ lit "." ++ dec minor ++ lit "." ++ dec rev).

(** * Descriptor type codes and model constants *)

Definition ENTITY := 0x0000.
Definition CONFIGURATION := 0x0001.
Definition AUDIO_UNIT := 0x0002.
Definition STREAM_INPUT := 0x0005.
Definition STREAM_OUTPUT := 0x0006.
Definition AVB_INTERFACE := 0x0009.
Definition CLOCK_SOURCE := 0x000A.
Definition LOCALE := 0x000C.
Definition STRINGS := 0x000D.
Definition STREAM_PORT_INPUT := 0x000E.
Definition STREAM_PORT_OUTPUT := 0x000F.
Definition AUDIO_CLUSTER := 0x0014.
Definition AUDIO_MAP := 0x0017.
Definition CONTROL := 0x001A.
Definition CLOCK_DOMAIN := 0x0024.
Definition NO_STRING := 0xFFFF.

Definition RATES : list Z := [0x0000BB80; 0x00017700; 0x0002EE00].
Definition FORMATS : list Z := [0x0205022000806000; 0x0215022002006000].
Definition OUT_FORMATS : list Z := [0x0205022000806000].
Definition CRF_FORMATS : list Z := [0x041060010000BB80].
Definition CTRL_TYPE_IDENTIFY := 0x90E0F00000000001.
Definition CTRL_LINEAR_UINT8 := 0x0001.

Definition OBJECT_NAMES : gmap string pystr :=
  list_to_map [("configuration", lit "Default"); ("audio_unit", lit "Audio Unit");
               ("avb_interface", lit "AVB Interface 0");
               ("clock_domain", lit "Clock Reference Format");
               ("control_identify", lit "Identify")]%string.
Definition LOCALE_IDENTIFIER : pystr := lit "en-EN".

(** * Field encoders *)

Definition cstr (s : pystr) : result desc_error bytes :=
  match utf8_encode s with
  | None => Err EEncode
  | Some e => let b := take 64 e in Ok (b ++ zeros (64 - length b))
  end.

Definition be16 (v : Z) : bytes := be_bytes 2 (Z.land v 0xFFFF).
Definition UINT32_MAX := 2 ^ 32 - 1.
Definition be32 (v : Z) : result desc_error bytes :=
  if (0 <=? v) && (v <=? UINT32_MAX) then Ok (be_bytes 4 v) else Err EStruct.
Definition be64 (v : Z) : bytes := be_bytes 8 (Z.land v 0xFFFFFFFFFFFFFFFF).

(** [bytes([...])]. *)
Definition octets (l : list Z) : result desc_error bytes :=
  if forallb is_byteb l then Ok l else Err EByteRange.

Definition assert_len (n : Z) (b : bytes) : result desc_error unit :=
  raise_if (negb (zlen b =? n)) EAssert.

(** * Descriptors *)

Record entity_strings := EntityStrings {
  e_name : pystr;
  e_firmware_version : pystr;
  e_group_name : pystr;
  e_serial_number : pystr;
  e_vendor_name : pystr;
}.

Definition d_entity (e : entity_strings) : result desc_error bytes :=
  let* caps := be32 0 in
  let* ctrl := be32 0 in
  let* avail := be32 0 in
  let* name := cstr (e_name e) in
  let* fw := cstr (e_firmware_version e) in
  let* group := cstr (e_group_name e) in
  let* serial := cstr (e_serial_number e) in
  Ok (be16 ENTITY ++ be16 0 ++ be64 0 ++ be64 0 ++ caps ++ be16 0 ++ be16 0
      ++ be16 0 ++ be16 0 ++ ctrl ++ avail ++ be64 0 ++ name ++ be16 2 ++ be16 0
      ++ fw ++ group ++ serial ++ be16 1 ++ be16 0).

(** The list [counts] of [d_configuration]. *)
Definition configuration_counts (n_inputs n_outputs n_clk_sources : Z) : list (Z * Z) :=
  [(AUDIO_UNIT, 1); (STREAM_INPUT, n_inputs); (STREAM_OUTPUT, n_outputs);
   (AVB_INTERFACE, 1); (CLOCK_DOMAIN, 1); (CLOCK_SOURCE, n_clk_sources);
   (CONTROL, 1); (LOCALE, 1)].

Definition d_configuration (n_inputs n_outputs n_clk_sources : Z) (name : pystr)
    : result desc_error bytes :=
  let counts := configuration_counts n_inputs n_outputs n_clk_sources in
  let* nm := cstr name in
  let b := be16 CONFIGURATION ++ be16 0 ++ nm ++ be16 1 ++ be16 (zlen counts) ++ be16 74 in
  let* _ := assert_len 74 b in
  Ok (b ++ concat (map (fun '(t, c) => be16 t ++ be16 c) counts)).

Definition d_audio_unit (rates : list Z) (current_rate n_in_ports n_out_ports : Z)
    (name : pystr) : result desc_error bytes :=
  let* nm := cstr name in
  let* cur := be32 current_rate in
  let b := be16 AUDIO_UNIT ++ be16 0 ++ nm ++ be16 NO_STRING ++ be16 0
           ++ be16 n_in_ports ++ be16 0 ++ be16 n_out_ports ++ be16 0
           ++ concat (repeat (be16 0) 28) ++ cur ++ be16 144 ++ be16 (zlen rates) in
  let* _ := assert_len 144 b in
  let* rs := mapR be32 rates in
  Ok (b ++ concat rs).

Definition AEM_DESCRIPTOR_MAX_BYTES := 508.
Definition STREAM_FORMATS_OFFSET := 138.
Definition STREAM_FORMAT_BYTES := 8.
Definition MAX_STREAM_FORMATS := (AEM_DESCRIPTOR_MAX_BYTES - STREAM_FORMATS_OFFSET) / STREAM_FORMAT_BYTES.

Definition d_stream (dtype index : Z) (name : pystr) (flags : Z) (formats : list Z)
    (buffer_len : Z) : result desc_error bytes :=
  let* nm := cstr name in
  let* f0 := match formats with [] => Err EIndex | f :: _ => Ok f end in
  let* buf := be32 buffer_len in
  let* _ := raise_if (negb (Z.land flags 0x2000 =? 0)) EAssert in
  let b := be16 dtype ++ be16 index ++ nm ++ be16 NO_STRING ++ be16 0 ++ be16 flags
           ++ be64 f0 ++ be16 STREAM_FORMATS_OFFSET ++ be16 (zlen formats)
           ++ concat (repeat (be64 0 ++ be16 0) 4) ++ be16 0 ++ buf
           ++ be16 (STREAM_FORMATS_OFFSET + STREAM_FORMAT_BYTES * zlen formats)
           ++ be16 0 ++ be16 0 in
  let* _ := assert_len 138 b in
  Ok (b ++ concat (map be64 formats)).

(** The resolved [gptp:] dataset; a field left out keeps the historical
    constant. *)
Record gptp_dataset := Gptp {
  gp_priority1 : option Z;
  gp_clock_class : option Z;
  gp_offset_scaled_log_variance : option Z;
  gp_clock_accuracy : option Z;
  gp_priority2 : option Z;
  gp_domain : option Z;
  gp_log_sync_interval : option Z;
  gp_log_announce_interval : option Z;
  gp_log_pdelay_interval : option Z;
  gp_port_number : option Z;
}.

Definition empty_gptp : gptp_dataset :=
  Gptp None None None None None None None None None None.

Definition d_avb_interface (gp : option gptp_dataset) (name : pystr)
    : result desc_error bytes :=
  let g := default empty_gptp gp in
  let* nm := cstr name in
  let* o1 := octets [default 0xF8 (gp_priority1 g); default 0xF8 (gp_clock_class g)] in
  let* o2 := octets [default 0x21 (gp_clock_accuracy g); default 0xF8 (gp_priority2 g);
                     default 0 (gp_domain g)] in
  let* o3 := octets [Z.land (default 0 (gp_log_sync_interval g)) 0xFF;
                     Z.land (default 0 (gp_log_announce_interval g)) 0xFF;
                     Z.land (default 0 (gp_log_pdelay_interval g)) 0xFF] in
  let b := be16 AVB_INTERFACE ++ be16 0 ++ nm ++ be16 NO_STRING ++ zeros 6
           ++ be16 0x0007 ++ be64 0 ++ o1
           ++ be16 (default 0x436A (gp_offset_scaled_log_variance g)) ++ o2 ++ o3
           ++ be16 (default 0 (gp_port_number g)) ++ be16 0 ++ be16 0 in
  let* _ := assert_len 102 b in
  Ok b.

(** The two row shapes [clock_source_shape] and [clock_source_table] read: the
    model's spec rows ([raw_type]/[loc_type]/[loc_index]) and the builder's
    overlay rows ([type]/[location_type]/[location_index]). *)
Class ClockRow (A : Type) := {
  row_kind : A -> string;             (* c.get("raw_type", c.get("type")) *)
  row_is_stream_input : A -> bool;    (* loc_t in (STREAM_INPUT, "STREAM_INPUT") *)
  row_loc_index : A -> Z;
}.

Record clock_source_spec := ClockSourceSpec {
  cs_name : pystr;
  cs_type : Z;
  cs_raw_type : string;
  cs_loc_type : Z;
  cs_loc_index : Z;
}.

#[export] Instance clock_row_spec : ClockRow clock_source_spec := {
  row_kind := cs_raw_type;
  row_is_stream_input c := cs_loc_type c =? STREAM_INPUT;
  row_loc_index := cs_loc_index;
}.

Section ClockRows.
Context {A : Type} `{ClockRow A}.

Fixpoint crf_index_from (k : Z) (rows : list A) : option Z :=
  match rows with
  | [] => None
  | c :: rows' => if String.eqb (row_kind c) "crf" then Some k else crf_index_from (k + 1) rows'
  end.

Definition clock_source_shape (rows : list A) : Z * option Z :=
  (zlen rows, crf_index_from 0 rows).

Definition CLKSRC_KIND (k : string) : result desc_error Z :=
  if String.eqb k "internal" then Ok 0
  else if String.eqb k "crf" then Ok 1
  else if String.eqb k "input_stream" then Ok 2
  else Err EKey.

Definition clock_source_table (rows : list A) : result desc_error (list (Z * option Z)) :=
  mapR (fun c =>
          let* k := CLKSRC_KIND (row_kind c) in
          Ok (k, if row_is_stream_input c then Some (row_loc_index c) else None)) rows.
End ClockRows.

Definition d_clock_source (index : Z) (name : pystr) (cs_type loc_type loc_index : Z)
    : result desc_error bytes :=
  let* nm := cstr name in
  let b := be16 CLOCK_SOURCE ++ be16 index ++ nm ++ be16 NO_STRING ++ be16 0x0002
           ++ be16 cs_type ++ be64 0 ++ be16 loc_type ++ be16 loc_index in
  let* _ := assert_len 86 b in
  Ok b.

Definition d_clock_domain (n_sources : Z) (name : pystr) : result desc_error bytes :=
  let sources := zrange 0 (Z.to_nat n_sources) in
  let* nm := cstr name in
  let b := be16 CLOCK_DOMAIN ++ be16 0 ++ nm ++ be16 NO_STRING ++ be16 0 ++ be16 76
           ++ be16 (zlen sources) in
  let* _ := assert_len 76 b in
  Ok (b ++ concat (map be16 sources)).

Definition d_control_identify (name : pystr) : result desc_error bytes :=
  let* nm := cstr name in
  let* lat := be32 500 in
  let* clat := be32 500 in
  let* reset := be32 0 in
  let b := be16 CONTROL ++ be16 0 ++ nm ++ be16 NO_STRING ++ lat ++ clat ++ be16 0
           ++ be16 CTRL_LINEAR_UINT8 ++ be64 CTRL_TYPE_IDENTIFY ++ reset
           ++ be16 104 ++ be16 1 ++ be16 NO_STRING ++ be16 0 ++ be16 0 in
  let* _ := assert_len 104 b in
  let* vals := octets [0; 255; 255; 0; 0] in
  Ok (b ++ vals ++ be16 0 ++ be16 NO_STRING).

Definition d_locale (identifier : pystr) : result desc_error bytes :=
  let* id := cstr identifier in
  let b := be16 LOCALE ++ be16 0 ++ id ++ be16 1 ++ be16 0 in
  let* _ := assert_len 72 b in
  Ok b.

Definition d_strings (strs : list pystr) : result desc_error bytes :=
  let* _ := raise_if (negb (zlen strs =? 7)) EAssert in
  let* cs := mapR cstr strs in
  let b := be16 STRINGS ++ be16 0 ++ concat cs in
  let* _ := assert_len 452 b in
  Ok b.

Record PortMapBounds := mkPortMapBounds {
  pb_clusters : Z;
  pb_base_cluster : Z;
  pb_maps : Z;
  pb_base_map : Z;
}.

Definition d_stream_port (dtype index flags : Z) (bounds : PortMapBounds)
    : result desc_error bytes :=
  let b := be16 dtype ++ be16 index ++ be16 0 ++ be16 flags ++ be16 0 ++ be16 0
           ++ be16 (pb_clusters bounds) ++ be16 (pb_base_cluster bounds)
           ++ be16 (pb_maps bounds) ++ be16 (pb_base_map bounds) in
  let* _ := assert_len 20 b in
  Ok b.

Definition d_audio_cluster (index : Z) (name : pystr) (signal_type : Z)
    : result desc_error bytes :=
  let* nm := cstr name in
  let* lat := be32 500 in
  let* blat := be32 500 in
  let* fmt := octets [0x40] in
  let* aes3 := octets [0x00] in
  let b := be16 AUDIO_CLUSTER ++ be16 index ++ nm ++ be16 NO_STRING ++ be16 signal_type
           ++ be16 0 ++ be16 0 ++ lat ++ blat ++ be16 1 ++ fmt ++ aes3 ++ be16 0 in
  let* _ := assert_len 90 b in
  Ok b.

(** One mapping of an AUDIO_MAP: [(stream, ch, cluster_off, cluster_ch)]. *)
Record map_row := MapRow { mr_si : Z; mr_sc : Z; mr_co : Z; mr_cc : Z }.

Definition map_row_bytes (r : map_row) : bytes :=
  be16 (mr_si r) ++ be16 (mr_sc r) ++ be16 (mr_co r) ++ be16 (mr_cc r).

Definition d_audio_map (index : Z) (rows : list map_row) : result desc_error bytes :=
  let b := be16 AUDIO_MAP ++ be16 index ++ be16 8 ++ be16 (zlen rows) in
  let* _ := assert_len 8 b in
  Ok (b ++ concat (map map_row_bytes rows)).

(** * Lengths and field positions *)

Lemma zlen_be16 v : zlen (be16 v) = 2.
Proof. apply zlen_be_bytes. Qed.

Lemma zlen_be64 v : zlen (be64 v) = 8.
Proof. apply zlen_be_bytes. Qed.

Lemma be32_Ok v b : be32 v = Ok b -> 0 <= v < 2 ^ 32 /\ b = be_bytes 4 v /\ zlen b = 4.
Proof.
  unfold be32, UINT32_MAX. destruct (_ && _) eqn:E; [|done]. intros [= <-].
  bool_prop. split_and!; [lia|lia|done|apply zlen_be_bytes].
Qed.

Lemma cstr_Ok s b : cstr s = Ok b ->
  exists e, utf8_encode s = Some e /\ b = take 64 e ++ zeros (64 - length (take 64 e)) /\ zlen b = 64.
Proof.
  unfold cstr. destruct (utf8_encode s) as [e|]; [|done]. intros [= <-].
  exists e. split_and!; try done. unfold zlen.
  rewrite length_app, zeros_length, length_take. lia.
Qed.

Lemma octets_Ok l b : octets l = Ok b -> b = l /\ Forall is_byte l /\ zlen b = zlen l.
Proof.
  unfold octets. destruct (forallb _ l) eqn:E; [|done]. intros [= <-].
  split_and!; try done. rewrite forallb_forall in E.
  apply List.Forall_forall. intros x Hx. apply E in Hx. unfold is_byteb in Hx.
  bool_prop. unfold is_byte. lia.
Qed.

Lemma zlen_concat_const {A} (f : A -> bytes) k l :
  (forall x, zlen (f x) = k) -> zlen (concat (map f l)) = k * zlen l.
Proof.
  intros Hf. induction l as [|x l IH]; cbn [map concat]; autorewrite with zlen; [lia|].
  rewrite Hf, IH. lia.
Qed.

Lemma zlen_concat_all k (ls : list bytes) :
  Forall (fun b => zlen b = k) ls -> zlen (concat ls) = k * zlen ls.
Proof.
  induction 1 as [|x l Hx _ IH]; cbn [concat]; autorewrite with zlen; [lia|].
  rewrite Hx, IH. lia.
Qed.


Lemma mapR_zlen {E A} (f : A -> result E bytes) k l ls :
  (forall x b, f x = Ok b -> zlen b = k) -> mapR f l = Ok ls -> zlen (concat ls) = k * zlen l.
Proof.
  intros Hf Hm. rewrite (zlen_concat_all k).
  - unfold zlen. by rewrite (mapR_length _ _ _ Hm).
  - apply mapR_Ok in Hm. induction Hm; constructor; eauto.
Qed.

#[export] Hint Rewrite zlen_be16 zlen_be64 : zlen.

(** Turn the successful steps of an encoder into length facts. *)
Ltac encoder_facts :=
  repeat match goal with
  | H : cstr _ = Ok ?v |- _ =>
      let L := fresh "Len" in
      pose proof H as L; apply cstr_Ok in L; destruct L as (? & _ & _ & L); revert H
  | H : be32 _ = Ok ?v |- _ =>
      let L := fresh "Len" in
      pose proof H as L; apply be32_Ok in L; destruct L as (? & ? & L); revert H
  | H : octets _ = Ok ?v |- _ =>
      let L := fresh "Len" in
      pose proof H as L; apply octets_Ok in L; destruct L as (? & ? & L); revert H
  end; intros.

Lemma of_be_be16 v : of_be (be16 v) = v mod 65536.
Proof.
  unfold be16. rewrite of_be_be_bytes. change 0xFFFF with (Z.ones 16).
  rewrite Z.land_ones by lia. change (256 ^ Z.of_nat 2) with (2 ^ 16).
  rewrite Z.mod_mod by lia. done.
Qed.

Lemma of_be_be64 v : of_be (be64 v) = v mod 2 ^ 64.
Proof.
  unfold be64. rewrite of_be_be_bytes. change 0xFFFFFFFFFFFFFFFF with (Z.ones 64).
  rewrite Z.land_ones by lia. change (256 ^ Z.of_nat 8) with (2 ^ 64).
  rewrite Z.mod_mod by lia. done.
Qed.

(** The element [k] of an array of equal-sized fields behind a prefix. *)
Lemma zslice_array {A} (f : A -> bytes) w pre l k x :
  (forall y, zlen (f y) = w) -> 0 <= w -> l !! Z.to_nat k = Some x -> 0 <= k ->
  zslice (zlen pre + w * k) w (pre ++ concat (map f l)) = f x.
Proof.
  intros Hf Hw Hl Hk. apply list_elem_of_split_length in Hl as (l1 & l2 & -> & Hk').
  rewrite map_app, concat_app. cbn [map concat].
  rewrite app_assoc. erewrite zslice_skip; [|reflexivity|].
  - autorewrite with zlen. rewrite (zlen_concat_const f w l1 Hf).
    replace (_ - _) with 0 by (unfold zlen in *; nia). apply zslice_hit, Hf.
  - autorewrite with zlen. rewrite (zlen_concat_const f w l1 Hf). unfold zlen in *. nia.
Qed.

(** Open an encoder: its successful steps as facts, its bytes as an explicit
    concatenation. *)
Ltac open_encoder H :=
  rsplit H; encoder_facts; subst; bool_prop.

Ltac len_tac :=
  autorewrite with zlen;
  repeat match goal with H : zlen _ = _ |- _ => rewrite H; clear H end;
  autorewrite with zlen.

Lemma d_entity_len e b : d_entity e = Ok b -> zlen b = 312.
Proof. unfold d_entity. intros H. open_encoder H. by len_tac. Qed.

Lemma d_configuration_len ni no nc name b :
  d_configuration ni no nc name = Ok b -> zlen b = 106.
Proof. unfold d_configuration. intros H. open_encoder H. by len_tac. Qed.

Lemma d_audio_unit_len rates cur ni no name b :
  d_audio_unit rates cur ni no name = Ok b -> zlen b = 144 + 4 * zlen rates.
Proof.
  unfold d_audio_unit. intros H. open_encoder H.
  match goal with Hr : mapR be32 _ = Ok _ |- _ =>
    pose proof (mapR_zlen be32 4 _ _ (fun x b E => proj2 (proj2 (be32_Ok x b E))) Hr) end.
  by len_tac.
Qed.

Lemma d_stream_len dtype index name flags formats buffer b :
  d_stream dtype index name flags formats buffer = Ok b -> zlen b = 138 + 8 * zlen formats.
Proof.
  unfold d_stream. intros H. open_encoder H.
  rewrite (zlen_app _ (concat _)), (zlen_concat_const be64 8 formats zlen_be64).
  by len_tac.
Qed.

Lemma d_avb_interface_len gp name b : d_avb_interface gp name = Ok b -> zlen b = 102.
Proof. unfold d_avb_interface. intros H. open_encoder H. by len_tac. Qed.

Lemma d_clock_source_len i name t lt li b : d_clock_source i name t lt li = Ok b -> zlen b = 86.
Proof. unfold d_clock_source. intros H. open_encoder H. by len_tac. Qed.

Lemma d_clock_domain_len n name b :
  0 <= n -> d_clock_domain n name = Ok b -> zlen b = 76 + 2 * n.
Proof.
  unfold d_clock_domain. intros Hn H. open_encoder H.
  rewrite (zlen_app _ (concat _)), (zlen_concat_const be16 2 _ zlen_be16).
  replace (zlen (zrange 0 (Z.to_nat n))) with n by (unfold zlen; rewrite zrange_length; lia).
  by len_tac.
Qed.

Lemma d_control_identify_len name b : d_control_identify name = Ok b -> zlen b = 113.
Proof. unfold d_control_identify. intros H. open_encoder H. by len_tac. Qed.

Lemma d_locale_len id b : d_locale id = Ok b -> zlen b = 72.
Proof. unfold d_locale. intros H. open_encoder H. by len_tac. Qed.

Lemma d_strings_len strs b : d_strings strs = Ok b -> zlen b = 452.
Proof.
  unfold d_strings, assert_len. intros H. rsplit H. subst. bool_prop. done.
Qed.

Lemma d_stream_port_len t i f p b : d_stream_port t i f p = Ok b -> zlen b = 20.
Proof. unfold d_stream_port. intros H. open_encoder H. by len_tac. Qed.

Lemma d_audio_cluster_len i name s b : d_audio_cluster i name s = Ok b -> zlen b = 90.
Proof. unfold d_audio_cluster. intros H. open_encoder H. by len_tac. Qed.

Lemma zlen_map_row r : zlen (map_row_bytes r) = 8.
Proof. unfold map_row_bytes. by len_tac. Qed.

Lemma d_audio_map_len i rows b : d_audio_map i rows = Ok b -> zlen b = 8 + 8 * zlen rows.
Proof.
  unfold d_audio_map. intros H. open_encoder H.
  rewrite (zlen_app _ (concat _)), (zlen_concat_const map_row_bytes 8 _ zlen_map_row).
  by len_tac.
Qed.

(** Every descriptor opens with its type and its index. *)
Definition self_typed (t i : Z) (b : bytes) : Prop :=
  rd_be 0 2 b = t mod 65536 /\ rd_be 2 2 b = i mod 65536.

Lemma self_typed_intro t i rest : self_typed t i (be16 t ++ be16 i ++ rest).
Proof. split; unfold rd_be; read_field; apply of_be_be16. Qed.

Ltac self_typed_tac H := open_encoder H; rewrite <-?app_assoc; apply self_typed_intro.

Lemma d_entity_typed e b : d_entity e = Ok b -> self_typed ENTITY 0 b.
Proof. unfold d_entity. intros H. self_typed_tac H. Qed.
Lemma d_configuration_typed ni no nc name b :
  d_configuration ni no nc name = Ok b -> self_typed CONFIGURATION 0 b.
Proof. unfold d_configuration. intros H. self_typed_tac H. Qed.
Lemma d_audio_unit_typed rates cur ni no name b :
  d_audio_unit rates cur ni no name = Ok b -> self_typed AUDIO_UNIT 0 b.
Proof. unfold d_audio_unit. intros H. self_typed_tac H. Qed.
Lemma d_stream_typed t i name flags formats buffer b :
  d_stream t i name flags formats buffer = Ok b -> self_typed t i b.
Proof. unfold d_stream. intros H. self_typed_tac H. Qed.
Lemma d_avb_interface_typed gp name b :
  d_avb_interface gp name = Ok b -> self_typed AVB_INTERFACE 0 b.
Proof. unfold d_avb_interface. intros H. self_typed_tac H. Qed.
Lemma d_clock_source_typed i name t lt li b :
  d_clock_source i name t lt li = Ok b -> self_typed CLOCK_SOURCE i b.
Proof. unfold d_clock_source. intros H. self_typed_tac H. Qed.
Lemma d_clock_domain_typed n name b :
  d_clock_domain n name = Ok b -> self_typed CLOCK_DOMAIN 0 b.
Proof. unfold d_clock_domain. intros H. self_typed_tac H. Qed.
Lemma d_control_identify_typed name b :
  d_control_identify name = Ok b -> self_typed CONTROL 0 b.
Proof. unfold d_control_identify. intros H. self_typed_tac H. Qed.
Lemma d_locale_typed id b : d_locale id = Ok b -> self_typed LOCALE 0 b.
Proof. unfold d_locale. intros H. self_typed_tac H. Qed.
Lemma d_strings_typed strs b : d_strings strs = Ok b -> self_typed STRINGS 0 b.
Proof. unfold d_strings. intros H. self_typed_tac H. Qed.
Lemma d_stream_port_typed t i f p b : d_stream_port t i f p = Ok b -> self_typed t i b.
Proof. unfold d_stream_port. intros H. self_typed_tac H. Qed.
Lemma d_audio_cluster_typed i name s b :
  d_audio_cluster i name s = Ok b -> self_typed AUDIO_CLUSTER i b.
Proof. unfold d_audio_cluster. intros H. self_typed_tac H. Qed.
Lemma d_audio_map_typed i rows b : d_audio_map i rows = Ok b -> self_typed AUDIO_MAP i b.
Proof. unfold d_audio_map. intros H. self_typed_tac H. Qed.

#[export] Hint Resolve d_entity_typed d_configuration_typed d_audio_unit_typed d_stream_typed
  d_avb_interface_typed d_clock_source_typed d_clock_domain_typed d_control_identify_typed
  d_locale_typed d_strings_typed d_stream_port_typed d_audio_cluster_typed
  d_audio_map_typed : milan.

(** The STREAM descriptor has the 2021 layout for every argument it
    accepts: its length is [138 + 8*N], [formats_offset] reads 138,
    [redundant_offset] points just past the formats, [current_format] is the
    first format, [timing] is 0 with TIMING_FIELD_VALID clear, and the k-th
    format is at [138 + 8*k]. *)
Theorem d_stream_layout dtype index name flags formats buffer b :
  d_stream dtype index name flags formats buffer = Ok b ->
  zlen b = 138 + 8 * zlen formats /\ self_typed dtype index b /\
  cstr name = Ok (zslice 4 64 b) /\
  rd_be 72 2 b = flags mod 65536 /\ Z.land flags 0x2000 = 0 /\
  (exists f0, formats !! 0%nat = Some f0 /\ rd_be 74 8 b = f0 mod 2 ^ 64) /\
  rd_be 82 2 b = 138 /\ rd_be 84 2 b = zlen formats mod 65536 /\
  rd_be 128 4 b = buffer /\
  rd_be 132 2 b = (138 + 8 * zlen formats) mod 65536 /\ rd_be 136 2 b = 0 /\
  (forall k f, formats !! k = Some f -> rd_be (138 + 8 * Z.of_nat k) 8 b = f mod 2 ^ 64).
Proof.
  intros H. split; [by eapply d_stream_len|]. split; [by eapply d_stream_typed|].
  unfold d_stream in H. open_encoder H.
  destruct formats as [|f0 fs]; [done|]. simplify_eq. unfold rd_be.
  split; [by read_field|].
  split; [read_field; apply of_be_be16|]. split; [done|].
  split; [exists v0; split; [done|]; read_field; apply of_be_be64|].
  do 2 (split; [read_field; apply of_be_be16|]).
  split; [read_field; apply of_be_be_bytes_id; cbn; lia|].
  do 2 (split; [read_field; apply of_be_be16|]).
  intros k f Hf.
  assert (forall pre, zlen pre = 138 ->
    zslice (138 + 8 * Z.of_nat k) 8 (pre ++ concat (map be64 (v0 :: fs))) = be64 f) as G.
  { intros pre <-. apply zslice_array; [apply zlen_be64|lia|by rewrite Nat2Z.id|lia]. }
  rewrite G; [apply of_be_be64|by len_tac].
Qed.

Lemma d_stream_layout_witness :
  exists b, d_stream STREAM_INPUT 0 (lit "Stream 1") 3 FORMATS 2126000 = Ok b /\
    zlen b = 154 /\ rd_be 146 8 b = 0x0215022002006000.
Proof.
  eexists. split; [reflexivity|].
  destruct (d_stream_layout STREAM_INPUT 0 (lit "Stream 1") 3 FORMATS 2126000 _ eq_refl)
    as (Hl & _ & _ & _ & _ & _ & _ & _ & _ & _ & _ & Hf).
  split; [exact Hl|]. exact (Hf 1%nat _ eq_refl).
Defined.
