(* ===== verification/Directory.v ===== *)
(** The descriptor directory and its two-level view
    ([two_level_directory], [check_two_level], [named_structure] and
    [check_named] of [avdecc/aem_assemble.py]).

    The directory is the list of [(type, index, base, length)] rows of the ROM.
    [two_level_directory] derives a type-direct-indexed table from it, which the
    gateware uses instead of a scan; [named_structure] splits the SET/GET_NAME
    table into a type mask plus exceptions.  The source proves both equivalent
    to the tables they replace by probing a finite set of keys at generation
    time.  Here the equivalence is a theorem for every key, so the probes can
    never fail on a directory the first pass accepted. *)
From S2P Require Import Prelude.

Record dir_entry := DirEntry {
  de_type : Z;
  de_index : Z;
  de_base : Z;
  de_len : Z;
}.

Inductive dir_error :=
  | NotContiguous (row t : Z)        (* the run of type t was closed before row *)
  | NotAscending (row t i want : Z)
  | EmptyDirectory                   (* ValueError of max(runs) *)
  | TypeTooHigh (t : Z)
  | TwoLevelDiverges (t i : Z)
  | NameDiverges (t i n : Z)
  | NameKeyError (t i : Z)           (* KeyError of base[(t, i)] *)
  | DirIndexError.                   (* IndexError of a table subscript *)

(** * Level 1 *)

Record level1 := Level1 {
  l1_AW : Z;
  l1_N : Z;
  l1_CNT : list Z;
  l1_ROW : list Z;
}.

(** [type -> [first row, count]], and the type of the previous row. *)
Abbreviation run_state := (gmap Z (Z * Z) * option Z)%type.

Definition run_step (st : run_state) (re : Z * dir_entry) : result dir_error run_state :=
  let '(runs, prev_t) := st in
  let '(row, e) := re in
  let t := de_type e in
  let* run := match runs !! t with
              | None => Ok (row, 0)
              | Some (r, c) =>
                  if bool_decide (prev_t = Some t) then Ok (r, c)
                  else Err (NotContiguous row t)
              end in
  let* _ := raise_if (negb (de_index e =? snd run)) (NotAscending row t (de_index e) (snd run)) in
  Ok (<[t := (fst run, snd run + 1)]> runs, Some t).

(** [int.bit_length]. *)
Definition bit_length (v : Z) : Z := if v =? 0 then 0 else Z.log2 (Z.abs v) + 1.

Definition run_of (runs : gmap Z (Z * Z)) (t : Z) : Z * Z := default (0, 0) (runs !! t).

Definition two_level_directory (directory : list dir_entry) : result dir_error level1 :=
  let* st := foldR run_step (∅, None) (enumerate directory) in
  let runs := fst st in
  let* max_t := match map fst (map_to_list runs) with
                | [] => Err EmptyDirectory
                | t :: ts => Ok (max_z t ts)
                end in
  let* _ := raise_if (256 <=? max_t) (TypeTooHigh max_t) in
  let aw := Z.max 1 (bit_length max_t) in
  let n := Z.shiftl 1 aw in
  Ok (Level1 aw n (map (fun t => snd (run_of runs t)) (zrange 0 (Z.to_nat n)))
                  (map (fun t => fst (run_of runs t)) (zrange 0 (Z.to_nat n)))).

(** The accessor's answer [(found, base, len)]; [None] is an [IndexError]. *)
Definition two_level_resolve (l1 : level1) (directory : list dir_entry) (t i : Z)
    : option (Z * Z * Z) :=
  if l1_N l1 <=? t then Some (0, 0, 0)
  else
    cnt ← py_index (l1_CNT l1) t;
    row ← py_index (l1_ROW l1) t;
    if cnt <=? i then Some (0, 0, 0)
    else e ← py_index directory (row + i); Some (1, de_base e, de_len e).

(** The scan the accessor replaces. *)
Definition linear (directory : list dir_entry) (t i : Z) : Z * Z * Z :=
  fold_left (fun f e => if (de_type e =? t) && (de_index e =? i)
                        then (1, de_base e, de_len e) else f) directory (0, 0, 0).

(** [sorted(...)] of a set of integer tuples. *)
Definition lex2 (a b : Z * Z) : Prop := a.1 < b.1 \/ a.1 = b.1 /\ a.2 <= b.2.
#[export] Instance lex2_dec a b : Decision (lex2 a b).
Proof. unfold lex2. apply _. Defined.
Definition sorted_pairs (l : list (Z * Z)) : list (Z * Z) := merge_sort lex2 (remove_dups l).

Definition two_level_probes (l1 : level1) (directory : list dir_entry) : list (Z * Z) :=
  flat_map (fun e => [(de_type e, de_index e); (de_type e, de_index e + 1);
                      (de_type e, 0xFFFF)]) directory
  ++ flat_map (fun t => [(t, 0); (t, 1)]) (zrange 0 (Z.to_nat (l1_N l1 + 4)))
  ++ [(0xFFFF, 0)].

Definition check_two_level (l1 : level1) (directory : list dir_entry)
    : result dir_error unit :=
  foldR (fun _ ti =>
           match two_level_resolve l1 directory ti.1 ti.2 with
           | None => Err DirIndexError
           | Some got => raise_if (negb (bool_decide (got = linear directory ti.1 ti.2)))
                                  (TwoLevelDiverges ti.1 ti.2)
           end) tt (sorted_pairs (two_level_probes l1 directory)).

(** * The name table *)

Record named_entry := Named { ne_type : Z; ne_index : Z; ne_nidx : Z; ne_addr : Z }.

Definition ne_key (e : named_entry) : Z * Z * Z := (ne_type e, ne_index e, ne_nidx e).

(** [{(t, i): b for ...}]: a later row overwrites an earlier one. *)
Definition base_map (directory : list dir_entry) : gmap (Z * Z) Z :=
  fold_left (fun m e => <[(de_type e, de_index e) := de_base e]> m) directory ∅.

(** [all(nidx == 0 and addr == base[(t, i)] + 4 ...)], which stops at the first
    entry that fails and raises [KeyError] where it reads a missing base. *)
Fixpoint all_at_base4 (base : gmap (Z * Z) Z) (t : Z) (l : list named_entry)
    : result dir_error bool :=
  match l with
  | [] => Ok true
  | e :: l' =>
      if negb (ne_nidx e =? 0) then Ok false
      else match base !! (t, ne_index e) with
      | None => Err (NameKeyError t (ne_index e))
      | Some b => if ne_addr e =? b + 4 then all_at_base4 base t l' else Ok false
      end
  end.

Definition structural (l1 : level1) (base : gmap (Z * Z) Z) (t : Z) (entries : list named_entry)
    : result dir_error bool :=
  if l1_N l1 <=? t then Ok false
  else
    let* a := all_at_base4 base t entries in
    if negb a then Ok false
    else match py_index (l1_CNT l1) t with
    | None => Err DirIndexError
    | Some cnt =>
        Ok (bool_decide (sorted_z (map ne_index entries) = zrange 0 (Z.to_nat cnt)))
    end.

Definition of_type (t : Z) (named : list named_entry) : list named_entry :=
  List.filter (fun e => ne_type e =? t) named.

(** The loop over [sorted(per_type.items())]. *)
Definition name_split_step (l1 : level1) (base : gmap (Z * Z) Z) (named : list named_entry)
    (acc : Z * list named_entry) (t : Z) : result dir_error (Z * list named_entry) :=
  let entries := of_type t named in
  let* s := structural l1 base t entries in
  if s : bool then Ok (Z.lor (fst acc) (Z.shiftl 1 t), snd acc)
  else Ok (fst acc, snd acc ++ entries).

Definition named_types (named : list named_entry) : list Z :=
  sorted_z (remove_dups (map ne_type named)).

Definition name_split (l1 : level1) (directory : list dir_entry) (named : list named_entry)
    : result dir_error (Z * list named_entry) :=
  foldR (name_split_step l1 (base_map directory) named) (0, []) (named_types named).

(** The RTL's name lookup [(found, address)]. *)
Definition named_resolve (l1 : level1) (directory : list dir_entry) (mask : Z)
    (exc : list named_entry) (t i nidx : Z) : option (Z * Z) :=
  match List.find (fun e => bool_decide (ne_key e = (t, i, nidx))) exc with
  | Some e => Some (1, ne_addr e)
  | None =>
      if (t <? l1_N l1) && (nidx =? 0) && Z.testbit mask t then
        cnt ← py_index (l1_CNT l1) t;
        if i <? cnt then
          row ← py_index (l1_ROW l1) t;
          e ← py_index directory (row + i); Some (1, de_base e + 4)
        else Some (0, 0)
      else Some (0, 0)
  end.

Definition want_map (named : list named_entry) : gmap (Z * Z * Z) Z :=
  fold_left (fun m e => <[ne_key e := ne_addr e]> m) named ∅.

Definition named_lookup (named : list named_entry) (t i n : Z) : Z * Z :=
  match want_map named !! (t, i, n) with Some a => (1, a) | None => (0, 0) end.

Definition lex3 (a b : Z * Z * Z) : Prop :=
  a.1.1 < b.1.1 \/ a.1.1 = b.1.1 /\ lex2 (a.1.2, a.2) (b.1.2, b.2).
#[export] Instance lex3_dec a b : Decision (lex3 a b).
Proof. unfold lex3. apply _. Defined.

Definition named_probes (l1 : level1) (named : list named_entry) : list (Z * Z * Z) :=
  merge_sort lex3 (remove_dups (
    map ne_key named
    ++ flat_map (fun e => [(ne_type e, ne_index e + 1, ne_nidx e);
                           (ne_type e, ne_index e, ne_nidx e + 1);
                           (ne_type e, 0xFFFF, ne_nidx e)]) named
    ++ map (fun t => (t, 0, 0)) (zrange 0 (Z.to_nat (l1_N l1 + 4))))).

Definition check_named (l1 : level1) (directory : list dir_entry) (named : list named_entry)
    (mask : Z) (exc : list named_entry) : result dir_error unit :=
  foldR (fun _ k =>
           let '(t, i, n) := k in
           match named_resolve l1 directory mask exc t i n with
           | None => Err DirIndexError
           | Some got => raise_if (negb (bool_decide (got = named_lookup named t i n)))
                                  (NameDiverges t i n)
           end) tt (named_probes l1 named).

Definition named_structure (l1 : level1) (directory : list dir_entry) (named : list named_entry)
    : result dir_error (Z * list named_entry) :=
  let* me := name_split l1 directory named in
  let* _ := check_named l1 directory named (fst me) (snd me) in
  Ok me.

(** * The run table describes the rows *)

Definition types_nonneg (directory : list dir_entry) : Prop :=
  Forall (fun e => 0 <= de_type e) directory.

(** What the loop of [two_level_directory] knows after the rows [l]. *)
Definition runs_ok (l : list dir_entry) (runs : gmap Z (Z * Z)) : Prop :=
  (forall t, runs !! t = None -> forall e, In e l -> de_type e <> t) /\
  (forall t r c, runs !! t = Some (r, c) ->
    0 <= r /\ 0 < c /\ r + c <= zlen l /\
    (forall j e, l !! j = Some e ->
       (de_type e = t <-> r <= Z.of_nat j < r + c) /\
       (de_type e = t -> de_index e = Z.of_nat j - r))).

Definition run_inv (l : list dir_entry) (st : run_state) : Prop :=
  runs_ok l (fst st) /\
  snd st = (de_type <$> last l) /\
  (forall e r c, last l = Some e -> fst st !! de_type e = Some (r, c) -> r + c = zlen l).

Lemma lookup_snoc_cases {A} (l : list A) x j e :
  (l ++ [x]) !! j = Some e -> (l !! j = Some e /\ (j < length l)%nat) \/ (j = length l /\ e = x).
Proof.
  intros H. apply lookup_app_Some in H as [H|[Hj H]].
  - left. split; [done|]. by eapply lookup_lt_Some.
  - right. apply list_lookup_singleton_Some in H. lia || (destruct H as [H <-]; split; [lia|done]).
Qed.

Lemma run_step_inv l e st st' :
  run_inv l st -> run_step st (zlen l, e) = Ok st' -> run_inv (l ++ [e]) st'.
Proof.
  intros ((Hnone & Hsome) & Hprev & Hlast) Hs. destruct st as [runs prev]. simpl in *.
  rsplit Hs. bool_prop. subst st'.
  assert (forall j e', l !! j = Some e' -> (j < length l)%nat) as Hlt
    by (intros; by eapply lookup_lt_Some).
  assert (exists r c, v = (r, c) /\ 0 <= r /\ 0 <= c /\ r + c = zlen l /\
    (forall j e', l !! j = Some e' ->
      (de_type e' = de_type e <-> r <= Z.of_nat j < r + c) /\
      (de_type e' = de_type e -> de_index e' = Z.of_nat j - r))) as (r & c & -> & Hr & Hc & Hrc & Hrows).
  { destruct (runs !! de_type e) as [[r c]|] eqn:Hrun.
    - case_bool_decide as Hp; [|done]. apply Ok_inj in Hm. subst v.
      destruct (Hsome _ _ _ Hrun) as (? & ? & ? & Hrows). exists r, c.
      split_and!; try done; [lia|].
      subst prev. destruct (last l) as [e0|] eqn:Hl; [|done]. simpl in Hp. injection Hp as Hp.
      eapply Hlast; [done|]. by rewrite Hp.
    - apply Ok_inj in Hm. subst v. exists (zlen l), 0.
      split_and!; try lia; [done|apply zlen_nonneg|].
      intros j e' Hj. pose proof (Hlt _ _ Hj). apply list_elem_of_lookup_2, list_elem_of_In in Hj.
      specialize (Hnone _ Hrun _ Hj). unfold zlen. split; [lia|done]. }
  simpl in *. split; [split|split].
  - intros t Ht e' He'. simpl in Ht. apply lookup_insert_None in Ht as [Ht Hne].
    apply in_app_iff in He' as [He'|[<-|[]]]; [by eapply Hnone|done].
  - intros t r' c' Ht. simpl in Ht. autorewrite with zlen.
    apply lookup_insert_Some in Ht as [[<- [= <- <-]]|[Hne Ht]].
    + split_and!; try lia. intros j e' Hj.
      apply lookup_snoc_cases in Hj as [[Hj ?]|[-> ->]].
      * destruct (Hrows _ _ Hj) as [Hi Hix]. split; [|done]. rewrite Hi. unfold zlen in *. lia.
      * unfold zlen in *. split; [split; [lia|done]|lia].
    + destruct (Hsome _ _ _ Ht) as (? & ? & ? & Hrows'). split_and!; try lia. intros j e' Hj.
      apply lookup_snoc_cases in Hj as [[Hj ?]|[-> ->]]; [by apply Hrows'|].
      unfold zlen in *. split; [split; [done|lia]|done].
  - by rewrite last_snoc.
  - intros e' r' c' Hl. rewrite last_snoc in Hl. injection Hl as <-. simpl.
    rewrite lookup_insert_eq. intros [= <- <-]. autorewrite with zlen. lia.
Qed.

Lemma run_foldR_inv l st :
  foldR run_step (∅, None) (enumerate l) = Ok st -> run_inv l st.
Proof.
  intros H.
  apply (foldR_invariant (fun dn st => exists n, dn = take n (enumerate l) /\
           run_inv (take n l) st) run_step (enumerate l) (∅, None)) in H.
  - destruct H as (n & Hn & Hinv).
    assert (take n l = l) as <-; [|done].
    apply take_ge. rewrite <-(enum_from_length 0 l). fold (enumerate l).
    rewrite Hn, length_take. lia.
  - exists O. split; [done|]. rewrite take_0.
    split; [split; simpl|split]; simpl; [done|intros t r c Ht; by rewrite lookup_empty in Ht|done|done].
  - intros dn x rest t t' Hl (n & Hn & Hinv) Hs.
    assert (length dn = n) as Hlen.
    { assert (length dn <= n)%nat by (rewrite Hn, length_take; lia).
      destruct (decide (length dn = n)); [done|]. exfalso.
      assert (length dn = length (enumerate l)) by (rewrite Hn, length_take in *; lia).
      assert (length (enumerate l) = length (dn ++ x :: rest)) as Hx by (by rewrite Hl).
      rewrite length_app in Hx. simpl in Hx. lia. }
    assert (enumerate l !! n = Some x) as Hx.
    { rewrite Hl, lookup_app_r, Hlen, Nat.sub_diag by lia. done. }
    unfold enumerate in Hx. rewrite enum_from_lookup in Hx.
    destruct (l !! n) as [e|] eqn:He; [|done]. simpl in Hx. injection Hx as <-.
    exists (S n). split.
    + rewrite (take_S_r _ _ (Z.of_nat n, e)), <-Hn; [done|].
      unfold enumerate. by rewrite enum_from_lookup, He.
    + rewrite (take_S_r _ _ _ He). eapply run_step_inv; [done|].
      replace (zlen (take n l)) with (Z.of_nat n); [done|].
      apply lookup_lt_Some in He. unfold zlen. rewrite length_take. lia.
Qed.

(** * The table and the lookup *)

Lemma bit_length_spec m : 0 <= m -> 0 <= bit_length m /\ m < 2 ^ Z.max 1 (bit_length m).
Proof.
  intros Hm. unfold bit_length. destruct (m =? 0) eqn:E; bool_prop; [subst; simpl; lia|].
  rewrite Z.abs_eq by lia. pose proof (Z.log2_spec m ltac:(lia)). pose proof (Z.log2_nonneg m).
  rewrite Z.max_r by lia. rewrite Z.add_1_r. lia.
Qed.

Lemma py_index_nonneg {A} (l : list A) i : 0 <= i -> py_index l i = l !! Z.to_nat i.
Proof. intros. unfold py_index. by rewrite (proj2 (Z.leb_le 0 i)) by lia. Qed.

Lemma py_index_map_zrange {A} (f : Z -> A) n t :
  0 <= t < Z.of_nat n -> py_index (map f (zrange 0 n)) t = Some (f t).
Proof.
  intros Ht. rewrite py_index_nonneg by lia.
  assert (zrange 0 n !! Z.to_nat t = Some t) as Hz.
  { rewrite zrange_lookup, decide_True by lia. f_equal. lia. }
  by rewrite list_lookup_fmap, Hz.
Qed.

(** What [two_level_directory] returns, in terms of a run table for the rows. *)
Lemma two_level_directory_spec directory l1 :
  types_nonneg directory -> two_level_directory directory = Ok l1 ->
  exists runs, runs_ok directory runs /\
    (forall e, In e directory -> de_type e < l1_N l1) /\
    (forall t, 0 <= t < l1_N l1 -> py_index (l1_CNT l1) t = Some (snd (run_of runs t)) /\
                                   py_index (l1_ROW l1) t = Some (fst (run_of runs t))).
Proof.
  intros Hnn H. unfold two_level_directory in H. rsplit H. bool_prop. subst l1.
  destruct v as [runs prev]. apply run_foldR_inv in Hm as (Hok & _ & _). simpl in *.
  exists runs. split; [done|].
  assert (forall t r, runs !! t = Some r -> t <= v0) as Hmax.
  { intros t r Ht. apply elem_of_map_to_list, list_elem_of_In in Ht.
    apply (in_map fst) in Ht. simpl in Ht.
    destruct (map fst (map_to_list runs)) as [|k ks]; [done|]. apply Ok_inj in Hm0. subst v0.
    destruct Ht as [->|Ht]; [|by apply max_z_ge].
    unfold max_z. clear. induction ks; simpl; lia. }
  assert (forall e, In e directory -> de_type e <= v0) as Hle.
  { intros e He. destruct (runs !! de_type e) eqn:E; [by eapply Hmax|].
    by destruct (proj1 Hok _ E _ He). }
  assert (forall e, In e directory -> 0 <= v0) as Hv0.
  { intros e He. specialize (Hle _ He). unfold types_nonneg in Hnn.
    rewrite List.Forall_forall in Hnn. specialize (Hnn _ He). lia. }
  cbn [l1_N l1_CNT l1_ROW].
  rewrite Z.shiftl_1_l. split.
  - intros e He. pose proof (bit_length_spec v0 (Hv0 _ He)). specialize (Hle _ He). lia.
  - intros t Ht. rewrite !py_index_map_zrange by lia. done.
Qed.

(** Outside the rows of type [t] and index [i] the scan finds nothing; the one
    row that carries them is what it finds. *)
Lemma linear_app l1 l2 t i : linear (l1 ++ l2) t i =
  fold_left (fun f e => if (de_type e =? t) && (de_index e =? i)
                        then (1, de_base e, de_len e) else f) l2 (linear l1 t i).
Proof. unfold linear. by rewrite fold_left_app. Qed.

Lemma linear_miss l t i :
  (forall e, In e l -> de_type e = t -> de_index e <> i) -> linear l t i = (0, 0, 0).
Proof.
  induction l as [|e l IH] using rev_ind; [done|]. intros H.
  rewrite linear_app, IH by (intros; apply H; [apply in_app_iff; by left|done]). simpl.
  destruct (de_type e =? t) eqn:Et; simpl; [|done].
  destruct (de_index e =? i) eqn:Ei; [|done]. bool_prop.
  destruct (H e); [apply in_app_iff; right; by left|done|done].
Qed.

Lemma linear_hit l t i j e :
  l !! j = Some e -> de_type e = t -> de_index e = i ->
  (forall j' e', l !! j' = Some e' -> de_type e' = t -> de_index e' = i -> j' = j) ->
  linear l t i = (1, de_base e, de_len e).
Proof.
  intros Hj Ht Hi Huniq.
  apply list_elem_of_split_length in Hj as Hs. destruct Hs as (l1 & l2 & -> & Hlen).
  rewrite linear_app. simpl.
  rewrite (proj2 (Z.eqb_eq _ _) Ht), (proj2 (Z.eqb_eq _ _) Hi). simpl.
  assert (forall e', In e' l2 -> (de_type e' =? t) && (de_index e' =? i) = false) as Hno.
  { intros e' He'. destruct (_ && _) eqn:E; [|done]. bool_prop. exfalso.
    apply list_elem_of_In, list_elem_of_lookup in He' as [k Hk].
    assert ((l1 ++ e :: l2) !! (length l1 + S k)%nat = Some e') as Hl'.
    { rewrite lookup_app_r by lia. replace (_ - _)%nat with (S k) by lia. done. }
    apply Huniq in Hl'; lia. }
  clear -Hno. induction l2 as [|e' l2 IH]; simpl; [done|].
  rewrite (Hno e') by (by left). apply IH. intros; apply Hno. by right.
Qed.

Lemma runs_ok_linear directory runs t i :
  runs_ok directory runs -> 0 <= i ->
  linear directory t i =
    (let '(row, cnt) := run_of runs t in
     if i <? cnt then
       match directory !! Z.to_nat (row + i) with
       | Some e => (1, de_base e, de_len e) | None => (0, 0, 0)
       end
     else (0, 0, 0)).
Proof.
  intros [Hnone Hsome] Hi. unfold run_of.
  destruct (runs !! t) as [[r c]|] eqn:Ht; simpl.
  - destruct (Hsome _ _ _ Ht) as (? & ? & ? & Hrows).
    destruct (i <? c) eqn:Hic; bool_prop.
    + destruct (lookup_lt_is_Some_2 directory (Z.to_nat (r + i))) as [e He];
        [unfold zlen in *; lia|].
      rewrite He. destruct (Hrows _ _ He) as [[_ Hty] Hix].
      specialize (Hty ltac:(lia)). specialize (Hix Hty).
      eapply linear_hit; [done|done|lia|]. intros j' e' He' Ht' Hi'.
      destruct (Hrows _ _ He') as [_ Hix']. specialize (Hix' Ht'). lia.
    + apply linear_miss. intros e He Hty Hix.
      apply list_elem_of_In, list_elem_of_lookup in He as [j Hj].
      destruct (Hrows _ _ Hj) as [Hr' Hix']. specialize (Hix' Hty).
      apply Hr' in Hty. lia.
  - rewrite (proj2 (Z.ltb_ge i 0)) by lia.
    apply linear_miss. intros e He Hty. by destruct (Hnone _ Ht _ He).
Qed.

Lemma two_level_resolve_linear directory l1 t i :
  types_nonneg directory -> two_level_directory directory = Ok l1 -> 0 <= t -> 0 <= i ->
  two_level_resolve l1 directory t i = Some (linear directory t i).
Proof.
  intros Hnn H Ht Hi.
  destruct (two_level_directory_spec _ _ Hnn H) as (runs & Hok & Hlt & Htab).
  rewrite (runs_ok_linear _ _ _ _ Hok Hi). unfold two_level_resolve.
  destruct (l1_N l1 <=? t) eqn:EN; bool_prop.
  - unfold run_of. destruct (runs !! t) as [[r c]|] eqn:E; simpl.
    + destruct (proj2 Hok _ _ _ E) as (? & ? & ? & Hrows).
      destruct (lookup_lt_is_Some_2 directory (Z.to_nat r)) as [e He]; [unfold zlen in *; lia|].
      destruct (Hrows _ _ He) as [[_ Hty] _]. specialize (Hty ltac:(lia)).
      apply list_elem_of_lookup_2, list_elem_of_In in He. apply Hlt in He. lia.
    + by rewrite (proj2 (Z.ltb_ge i 0)) by lia.
  - destruct (Htab t ltac:(lia)) as [-> ->]. simpl.
    destruct (run_of runs t) as [row cnt] eqn:Er. simpl.
    rewrite Z.ltb_antisym. destruct (cnt <=? i) eqn:Eci; simpl; [done|].
    bool_prop. unfold run_of in Er. destruct (runs !! t) as [[r c]|] eqn:E; simpl in Er;
      injection Er as <- <-; [|lia].
    destruct (proj2 Hok _ _ _ E) as (? & ? & ? & _).
    rewrite py_index_nonneg by lia.
    destruct (lookup_lt_is_Some_2 directory (Z.to_nat (r + i))) as [e He]; [unfold zlen in *; lia|].
    by rewrite He.
Qed.

(** * The name split *)

Lemma base_map_linear l t i :
  base_map l !! (t, i) = (let '(f, b, _) := linear l t i in if f =? 1 then Some b else None).
Proof.
  induction l as [|e l IH] using rev_ind; [done|].
  rewrite linear_app. unfold base_map in *. rewrite fold_left_app. simpl.
  destruct (de_type e =? t) eqn:Et, (de_index e =? i) eqn:Ei; simpl; bool_prop.
  { subst. by rewrite lookup_insert_eq. }
  all: rewrite lookup_insert_ne by (intros [= ? ?]; congruence); apply IH.
Qed.

Lemma two_level_row directory l1 t :
  types_nonneg directory -> two_level_directory directory = Ok l1 -> 0 <= t < l1_N l1 ->
  exists cnt row, py_index (l1_CNT l1) t = Some cnt /\ py_index (l1_ROW l1) t = Some row /\
    0 <= cnt /\
    forall i, 0 <= i < cnt ->
      exists e, py_index directory (row + i) = Some e /\ base_map directory !! (t, i) = Some (de_base e).
Proof.
  intros Hnn H Ht.
  destruct (two_level_directory_spec _ _ Hnn H) as (runs & Hok & _ & Htab).
  destruct (Htab t Ht) as [Hc Hr]. do 2 eexists. split_and!; [done|done| |].
  - unfold run_of. destruct (runs !! t) as [[r c]|] eqn:E; simpl; [|lia].
    destruct (proj2 Hok _ _ _ E) as (? & ? & ? & _). lia.
  - intros i Hi. pose proof (two_level_resolve_linear directory l1 t i Hnn H ltac:(lia) ltac:(lia)) as HR.
    unfold two_level_resolve in HR. rewrite (proj2 (Z.leb_gt _ _)) in HR by lia.
    rewrite Hc, Hr in HR. simpl in HR. rewrite (proj2 (Z.leb_gt _ i)) in HR by lia.
    destruct (py_index directory _) as [e|]; [|done]. exists e. split; [done|].
    simpl in HR. injection HR as HR. by rewrite base_map_linear, <-HR.
Qed.

Lemma In_named_types t named : In t (named_types named) <-> exists e, In e named /\ ne_type e = t.
Proof.
  unfold named_types. rewrite In_sorted_z, <-list_elem_of_In, elem_of_remove_dups, list_elem_of_In.
  rewrite in_map_iff. firstorder.
Qed.

Lemma In_of_type e t named : In e (of_type t named) <-> In e named /\ ne_type e = t.
Proof. unfold of_type. by rewrite List.filter_In, Z.eqb_eq. Qed.

(** A type in the mask, in terms of its entries. *)
Lemma structural_true l1 base t entries cnt :
  0 <= t -> py_index (l1_CNT l1) t = Some cnt -> 0 <= cnt ->
  structural l1 base t entries = Ok true ->
  t < l1_N l1 /\
  (forall e, In e entries -> ne_nidx e = 0 /\ exists b, base !! (t, ne_index e) = Some b /\ ne_addr e = b + 4) /\
  (forall i, 0 <= i < cnt <-> exists e, In e entries /\ ne_index e = i).
Proof.
  intros Ht Hcnt Hc H. unfold structural in H.
  destruct (l1_N l1 <=? t) eqn:EN; [done|]. bool_prop. rsplit H.
  destruct v; [|done]. simpl in H. rewrite Hcnt in H. apply Ok_inj in H. bool_prop.
  split; [lia|]. split.
  - clear H Hcnt. induction entries as [|e es IH]; [done|]. simpl in Hm.
    destruct (negb (ne_nidx e =? 0)) eqn:E0; [done|]. bool_prop.
    destruct (base !! (t, ne_index e)) as [b|] eqn:Eb; [|done].
    destruct (ne_addr e =? b + 4) eqn:Ea; [|done]. bool_prop.
    intros e' [<-|He']; [eauto|by apply IH].
  - intros i. transitivity (In i (sorted_z (map ne_index entries))).
    + rewrite H, zrange_In. lia.
    + rewrite In_sorted_z, in_map_iff. firstorder.
Qed.

(** The accumulated mask and exception list. *)
Definition split_inv (l1 : level1) (base : gmap (Z * Z) Z) (named : list named_entry)
    (dn : list Z) (acc : Z * list named_entry) : Prop :=
  0 <= fst acc /\
  (forall u, 0 <= u -> Z.testbit (fst acc) u = true <->
     In u dn /\ structural l1 base u (of_type u named) = Ok true) /\
  (forall e, In e (snd acc) <->
     In e named /\ In (ne_type e) dn /\
     structural l1 base (ne_type e) (of_type (ne_type e) named) = Ok false).

Lemma name_split_step_inv l1 base named dn acc acc' t :
  0 <= t -> split_inv l1 base named dn acc ->
  name_split_step l1 base named acc t = Ok acc' ->
  split_inv l1 base named (dn ++ [t]) acc'.
Proof.
  intros Ht (Hpos & Hmask & Hexc) H. unfold name_split_step in H. rsplit H.
  destruct v; apply Ok_inj in H; subst acc'; simpl.
  - split_and!; simpl.
    + apply Z.lor_nonneg. split; [done|]. apply Z.shiftl_nonneg. lia.
    + intros u Hu. rewrite Z.lor_spec, orb_true_iff, Hmask, Z.shiftl_spec by lia.
      rewrite in_app_iff. simpl. destruct (decide (t = u)) as [->|Hne].
      * rewrite Z.sub_diag. simpl. tauto.
      * assert (Z.testbit 1 (u - t) = false) as ->; [|intuition congruence].
        destruct (decide (u - t < 0)); [by apply Z.testbit_neg_r|].
        apply (Z.bits_above_log2 1); simpl; lia.
    + intros e. rewrite Hexc, in_app_iff. simpl. split; [tauto|].
      intros (? & [?|[<-|[]]] & Hs); [done|]. congruence.
  - split_and!; simpl; [done| |].
    + intros u Hu. rewrite Hmask by done. rewrite in_app_iff. simpl.
      split; [tauto|]. intros ([?|[<-|[]]] & Hs); [done|]. congruence.
    + intros e. rewrite in_app_iff, Hexc, In_of_type, in_app_iff. simpl. split.
      * intros [?|[? <-]]; [tauto|]. tauto.
      * intros (? & [?|[<-|[]]] & ?); tauto.
Qed.

Lemma name_split_spec l1 directory named mask exc :
  Forall (fun e => 0 <= ne_type e) named ->
  name_split l1 directory named = Ok (mask, exc) ->
  split_inv l1 (base_map directory) named (named_types named) (mask, exc).
Proof.
  intros Hnn H. unfold name_split in H.
  eapply (foldR_invariant (fun dn acc => split_inv l1 (base_map directory) named dn acc)) in H; [done| |].
  - unfold split_inv. simpl. split_and!; [done| |]; [|intros e; simpl; tauto].
    intros u Hu. rewrite Z.testbit_0_l. split; [done|by intros [[] _]].
  - intros dn t rest acc acc' Hl Hinv Hs. eapply name_split_step_inv; [|done|done].
    assert (In t (named_types named)) as Hin by (rewrite Hl; apply in_app_iff; right; by left).
    apply In_named_types in Hin as (e & He & <-). rewrite List.Forall_forall in Hnn. by apply Hnn.
Qed.

Lemma want_map_Some named k a :
  List.NoDup (map ne_key named) ->
  want_map named !! k = Some a <-> exists e, In e named /\ ne_key e = k /\ ne_addr e = a.
Proof.
  induction named as [|e l IH] using rev_ind; intros Hnd.
  { split; [done|]. by intros (e & [] & _). }
  unfold want_map in *. rewrite fold_left_app. simpl.
  rewrite map_app in Hnd. apply NoDup_app_remove_r in Hnd as Hnd'.
  specialize (IH Hnd'). split.
  - rewrite lookup_insert_Some. intros [[<- <-]|[Hne Hl]].
    + exists e. rewrite in_app_iff. simpl. tauto.
    + apply IH in Hl as (e' & ? & ? & ?). exists e'. rewrite in_app_iff. tauto.
  - intros (e' & [Hin|[<-|[]]]%in_app_iff & <- & <-); [|by rewrite lookup_insert_eq].
    rewrite lookup_insert_ne; [apply IH; eauto|]. intros Hk.
    apply NoDup_remove_2 in Hnd. rewrite app_nil_r in Hnd. apply Hnd. rewrite Hk. by apply in_map.
Qed.

Lemma named_resolve_lookup directory l1 named mask exc t i n :
  types_nonneg directory -> two_level_directory directory = Ok l1 ->
  Forall (fun e => 0 <= ne_type e) named -> List.NoDup (map ne_key named) ->
  name_split l1 directory named = Ok (mask, exc) -> 0 <= t -> 0 <= i ->
  named_resolve l1 directory mask exc t i n = Some (named_lookup named t i n).
Proof.
  intros Hd HL Hnt Hnd Hs Ht Hi.
  destruct (name_split_spec _ _ _ _ _ Hnt Hs) as (_ & Hmask & Hexc). simpl in *.
  unfold named_resolve, named_lookup.
  destruct (List.find _ exc) as [e|] eqn:Hf.
  { apply find_some in Hf as [Hin Hk]. bool_prop. apply Hexc in Hin as (Hin & _ & _).
    by rewrite (proj2 (want_map_Some named (t, i, n) (ne_addr e) Hnd) ltac:(eauto)). }
  (* a named key that is not an exception has a type in the mask *)
  assert (forall e, In e named -> ne_key e = (t, i, n) -> Z.testbit mask t = true) as Hnot.
  { intros e He Hk. apply Hmask; [done|].
    assert (In t (named_types named)) as Hint
      by (apply In_named_types; exists e; split; [done|]; unfold ne_key in Hk; congruence).
    split; [done|]. destruct (structural _ _ t _) as [[|]|er] eqn:Hst; [done| |].
    - pose proof (find_none _ _ Hf e) as Hno. simpl in Hno.
      assert (ne_type e = t) as Hty by (unfold ne_key in Hk; congruence).
      rewrite Hk in Hno. rewrite bool_decide_eq_true_2 in Hno by done.
      discriminate Hno. apply Hexc. rewrite Hty. auto.
    - exfalso. clear -Hs Hint Hst. unfold name_split in Hs. revert Hs Hint.
      generalize (named_types named) (0%Z, @nil named_entry).
      induction l as [|u l IH]; intros acc Hs Hint; simpl in *; [done|].
      rsplit Hs. destruct Hint as [->|Hint]; [|by eapply IH].
      unfold name_split_step in Hm. rewrite Hst in Hm. done. }
  destruct (decide (t < l1_N l1)) as [HtN|HtN].
  - destruct (two_level_row _ _ _ Hd HL (conj Ht HtN)) as (cnt & row & Hc & Hr & Hc0 & Hrow).
    destruct (Z.testbit mask t) eqn:Hbit.
    + apply Hmask in Hbit as [Hin Hst]; [|done].
      destruct (structural_true _ _ _ _ _ Ht Hc Hc0 Hst) as (_ & Hall & Hidx).
      rewrite (proj2 (Z.ltb_lt _ _)) by lia. simpl.
      destruct (n =? 0) eqn:En; simpl; bool_prop.
      * subst n. rewrite Hc. simpl. destruct (i <? cnt) eqn:Eic; bool_prop.
        -- destruct (Hrow i ltac:(lia)) as (e & He & Hb). rewrite Hr. simpl. rewrite He. simpl.
           destruct (proj1 (Hidx i) ltac:(lia)) as (ne & Hne & Hnei).
           destruct (Hall _ Hne) as (Hn0 & b & Hb' & Ha). apply In_of_type in Hne as [Hne Hty].
           rewrite (proj2 (want_map_Some named (t, i, 0) (ne_addr ne) Hnd)).
           { rewrite Hnei, Hb in Hb'. injection Hb' as <-. by rewrite Ha. }
           exists ne. unfold ne_key. split_and!; congruence.
        -- destruct (want_map named !! (t, i, 0)) eqn:E; [|done]. exfalso.
           apply want_map_Some in E as (ne & Hne & Hk & _); [|done]. unfold ne_key in Hk.
           destruct (proj2 (Hidx i)); [|lia]. exists ne. rewrite In_of_type. split_and!; congruence.
      * destruct (want_map named !! (t, i, n)) eqn:E; [|done]. exfalso.
        apply want_map_Some in E as (ne & Hne & Hk & _); [|done]. unfold ne_key in Hk.
        destruct (Hall ne) as [Hn0 _]; [apply In_of_type; split; congruence|]. congruence.
    + rewrite andb_false_r. destruct (want_map named !! (t, i, n)) eqn:E; [|done]. exfalso.
      apply want_map_Some in E as (ne & Hne & Hk & _); [|done].
      pose proof (Hnot _ Hne Hk). congruence.
  - rewrite (proj2 (Z.ltb_ge t _)) by lia. simpl.
    destruct (want_map named !! (t, i, n)) eqn:E; [|done]. exfalso.
    apply want_map_Some in E as (ne & Hne & Hk & _); [|done].
    pose proof (Hnot _ Hne Hk) as Hbit. apply Hmask in Hbit as [_ Hst]; [|done].
    unfold structural in Hst. by rewrite (proj2 (Z.leb_le _ _)) in Hst by lia.
Qed.

(** * When the first pass accepts a directory *)

(** The directory lists each type once, its rows together and indexed from 0. *)
Definition grouped (groups : list (Z * nat)) (directory : list dir_entry) : Prop :=
  map (fun e => (de_type e, de_index e)) directory
  = flat_map (fun g => map (pair g.1) (zrange 0 g.2)) groups.

Lemma run_group_ok t n rows k runs c0 r0 :
  map (fun e => (de_type e, de_index e)) rows = map (pair t) (zrange c0 n) ->
  runs !! t = Some (r0, c0) ->
  foldR run_step (runs, Some t) (enum_from k rows) = Ok (<[t := (r0, c0 + Z.of_nat n)]> runs, Some t).
Proof.
  revert rows k runs c0. induction n as [|n IH]; intros [|e rows] k runs c0 Hr Hl; simpl in *; try done.
  - by rewrite Z.add_0_r, insert_id.
  - injection Hr as Ht Hi Hr. rewrite Ht, Hi, Hl. rewrite bool_decide_eq_true_2 by done. simpl.
    rewrite Z.eqb_refl. simpl. erewrite IH; [|exact Hr|by rewrite lookup_insert_eq].
    rewrite insert_insert_eq. do 4 f_equal. lia.
Qed.

Lemma run_groups_ok groups directory k runs prev :
  List.NoDup (map fst groups) -> Forall (fun g => (0 < g.2)%nat) groups ->
  (forall g, In g groups -> runs !! g.1 = None) -> grouped groups directory ->
  exists st, foldR run_step (runs, prev) (enum_from k directory) = Ok st /\
    forall t, is_Some (fst st !! t) <-> is_Some (runs !! t) \/ In t (map fst groups).
Proof.
  unfold grouped. revert directory k runs prev.
  induction groups as [|[t [|n]] gs IH]; intros directory k runs prev Hnd Hpos Hfresh Hg; simpl in *.
  - destruct directory; [|done]. eexists. split; [done|]. simpl. tauto.
  - inversion Hpos. simpl in *. lia.
  - destruct directory as [|e directory]; [done|]. injection Hg as Ht Hi Hg.
    apply map_eq_app in Hg as (d1 & d2 & -> & Hd1 & Hd2).
    inversion Hnd as [|? ? Hnin Hnd']; subst. inversion Hpos; subst. simpl.
    pose proof (Hfresh _ (or_introl eq_refl)) as Hnew. simpl in Hnew. rewrite Hnew. simpl. rewrite Hi, Z.eqb_refl. simpl.
    rewrite enum_from_app, foldR_app.
    erewrite run_group_ok; [|exact Hd1|by rewrite lookup_insert_eq]. simpl.
    destruct (IH d2 (k + 1 + zlen d1) (<[de_type e:=(k, 0 + 1 + Z.of_nat n)]> (<[de_type e:=(k, 0 + 1)]> runs))
                (Some (de_type e))) as (st & -> & Hst); try done.
    { intros g Hgin. rewrite !lookup_insert_ne; [by apply Hfresh; right| |];
        intros Heq; apply Hnin; rewrite Heq; by apply in_map. }
    exists st. split; [done|]. intros u. rewrite Hst, insert_insert_eq.
    rewrite lookup_insert_is_Some'. intuition.
Qed.

Lemma two_level_directory_accepts groups directory :
  groups <> [] -> List.NoDup (map fst groups) ->
  Forall (fun g => 0 <= g.1 < 256 /\ (0 < g.2)%nat) groups -> grouped groups directory ->
  exists l1, two_level_directory directory = Ok l1.
Proof.
  intros Hne Hnd Hall Hg.
  destruct (run_groups_ok groups directory 0 ∅ None) as (st & Hst & Hdom); try done.
  { eapply Forall_impl; [done|]. simpl. tauto. }
  unfold two_level_directory, enumerate. rewrite Hst. simpl.
  assert (forall t, In t (map fst (map_to_list (fst st))) -> 0 <= t < 256) as Hb.
  { intros t Ht. apply in_map_iff in Ht as ((t' & r) & <- & Hin).
    apply list_elem_of_In, elem_of_map_to_list in Hin. simpl.
    destruct (proj1 (Hdom t') ltac:(eauto)) as [Hx|Hx]; [rewrite lookup_empty in Hx; by destruct Hx|].
    apply in_map_iff in Hx as (g & <- & Hgin). rewrite List.Forall_forall in Hall. by apply Hall. }
  destruct (map fst (map_to_list (fst st))) as [|k ks] eqn:Ek.
  - exfalso. destruct groups as [|[t n] gs]; [done|].
    destruct (proj2 (Hdom t)) as [r Hr]; [by right; left|].
    apply elem_of_map_to_list, list_elem_of_In in Hr. apply (in_map fst) in Hr. by rewrite Ek in Hr.
  - assert (max_z k ks < 256) as Hm.
    { destruct (max_z_In k ks) as [->|Hin]; [apply Hb; by left|apply Hb; by right]. }
    simpl. unfold raise_if. rewrite (proj2 (Z.leb_gt _ _)) by lia. simpl. eauto.
Qed.

Lemma py_index_CNT directory l1 t :
  types_nonneg directory -> two_level_directory directory = Ok l1 -> 0 <= t < l1_N l1 ->
  is_Some (py_index (l1_CNT l1) t).
Proof.
  intros Hnn H Ht. destruct (two_level_row _ _ _ Hnn H Ht) as (c & r & -> & _). eauto.
Qed.

Lemma foldR_unit_total {E A} (f : unit -> A -> result E unit) l :
  (forall x, In x l -> f tt x = Ok tt) -> foldR f tt l = Ok tt.
Proof.
  induction l as [|x l IH]; simpl; [done|]. intros H. rewrite H by tauto. simpl. auto.
Qed.

Lemma index_nonneg_of_accepted directory l1 e :
  types_nonneg directory -> two_level_directory directory = Ok l1 -> In e directory ->
  0 <= de_index e.
Proof.
  intros Hnn H He. destruct (two_level_directory_spec _ _ Hnn H) as (runs & [Hnone Hsome] & _).
  apply list_elem_of_In, list_elem_of_lookup in He as [j Hj].
  destruct (runs !! de_type e) as [[r c]|] eqn:E.
  - destruct (Hsome _ _ _ E) as (? & ? & ? & Hrows). destruct (Hrows _ _ Hj) as [Hi Hx].
    specialize (Hx eq_refl). destruct Hi as [Hi _]. specialize (Hi eq_refl). lia.
  - apply list_elem_of_lookup_2, list_elem_of_In in Hj. by destruct (Hnone _ E _ Hj).
Qed.

Lemma check_two_level_ok directory l1 :
  types_nonneg directory -> two_level_directory directory = Ok l1 ->
  check_two_level l1 directory = Ok tt.
Proof.
  intros Hnn H. unfold check_two_level. apply foldR_unit_total. intros [t i] Hin. simpl.
  assert (0 <= t /\ 0 <= i) as [Ht Hi].
  { unfold sorted_pairs in Hin. apply list_elem_of_In in Hin.
    rewrite merge_sort_Permutation, elem_of_remove_dups, list_elem_of_In in Hin.
    unfold two_level_probes in Hin. apply in_app_iff in Hin as [Hin|Hin].
    - apply in_flat_map in Hin as (e & He & Hin).
      pose proof (index_nonneg_of_accepted _ _ _ Hnn H He).
      unfold types_nonneg in Hnn. rewrite List.Forall_forall in Hnn. specialize (Hnn _ He).
      destruct Hin as [[= <- <-]|[[= <- <-]|[[= <- <-]|[]]]]; lia.
    - apply in_app_iff in Hin as [Hin|[[= <- <-]|[]]]; [|lia].
      apply in_flat_map in Hin as (u & Hu & Hin). apply zrange_In in Hu.
      destruct Hin as [[= <- <-]|[[= <- <-]|[]]]; lia. }
  rewrite (two_level_resolve_linear directory) by done. by rewrite bool_decide_eq_true_2.
Qed.

Lemma named_structure_ok directory l1 named :
  types_nonneg directory -> two_level_directory directory = Ok l1 ->
  Forall (fun e => 0 <= ne_type e /\ 0 <= ne_index e) named -> List.NoDup (map ne_key named) ->
  (forall e, In e named -> is_Some (base_map directory !! (ne_type e, ne_index e))) ->
  exists me, named_structure l1 directory named = Ok me.
Proof.
  intros Hnn H Hnt Hnd Hbase.
  assert (Forall (fun e => 0 <= ne_type e) named) as Hnt0
    by (eapply Forall_impl; [done|]; simpl; lia).
  assert (exists me, name_split l1 directory named = Ok me) as [[mask exc] Hme].
  { unfold name_split.
    assert (forall t, In t (named_types named) -> 0 <= t /\ exists b,
      structural l1 (base_map directory) t (of_type t named) = Ok b) as Hst.
    { intros t Ht. apply In_named_types in Ht as (e & He & <-).
      rewrite List.Forall_forall in Hnt0. split; [auto|]. unfold structural.
      destruct (_ <=? _) eqn:EN; [eauto|]. bool_prop.
      assert (exists b, all_at_base4 (base_map directory) (ne_type e)
                          (of_type (ne_type e) named) = Ok b) as [b ->].
      { assert (forall e', In e' (of_type (ne_type e) named) ->
          is_Some (base_map directory !! (ne_type e, ne_index e'))) as Hin.
        { intros e' [He' <-]%In_of_type. auto. }
        induction (of_type _ named) as [|e' l IH]; simpl; [eauto|].
        destruct (negb _); [eauto|]. destruct (Hin e' ltac:(by left)) as [b ->].
        destruct (_ =? _); [|eauto]. apply IH. intros. apply Hin. by right. }
      destruct b; simpl; [|eauto].
      destruct (py_index_CNT directory l1 (ne_type e)) as [c ->]; [done|done| |eauto].
      split; [auto|lia]. }
    generalize (0, @nil named_entry). induction (named_types named) as [|t ts IH]; intros acc; simpl; [eauto|].
    destruct (Hst t ltac:(by left)) as [_ [b Hb]]. unfold name_split_step at 1. rewrite Hb. simpl.
    destruct b; apply IH; intros; apply Hst; by right. }
  exists (mask, exc). unfold named_structure. rewrite Hme. simpl.
  assert (check_named l1 directory named mask exc = Ok tt) as ->; [|done].
  unfold check_named. apply foldR_unit_total. intros [[t i] n] Hin. simpl.
  assert (0 <= t /\ 0 <= i) as [Ht Hi].
  { unfold named_probes in Hin. apply list_elem_of_In in Hin.
    rewrite merge_sort_Permutation, elem_of_remove_dups, list_elem_of_In in Hin.
    rewrite List.Forall_forall in Hnt. rewrite !in_app_iff in Hin. destruct Hin as [Hin|[Hin|Hin]].
    - apply in_map_iff in Hin as (e & [= <- <- <-] & He). auto.
    - apply in_flat_map in Hin as (e & He & Hin). specialize (Hnt _ He).
      destruct Hin as [[= <- <- <-]|[[= <- <- <-]|[[= <- <- <-]|[]]]]; lia.
    - apply in_map_iff in Hin as (u & [= <- <- <-] & Hu). apply zrange_In in Hu. lia. }
  rewrite (named_resolve_lookup directory l1 named) by done. by rewrite bool_decide_eq_true_2.
Qed.

(** * Properties *)

(** A directory with two runs, the accessor's tables for it, and a name table
    whose first type is structural and whose second is not. *)
Definition sample_directory : list dir_entry :=
  [DirEntry 0 0 0 312; DirEntry 5 0 312 144; DirEntry 5 1 456 144; DirEntry 9 0 600 90].
Definition sample_level1 : level1 :=
  Level1 4 16 [1; 0; 0; 0; 0; 2; 0; 0; 0; 1; 0; 0; 0; 0; 0; 0]
              [0; 0; 0; 0; 0; 1; 0; 0; 0; 3; 0; 0; 0; 0; 0; 0].
Definition sample_named : list named_entry :=
  [Named 0 0 0 48; Named 0 0 1 180; Named 5 0 0 316; Named 5 1 0 460].

(** C16: The type-indexed table that [two_level_directory] derives resolves every
    (type, index) key exactly as the scan over the descriptor directory does, so
    the gateware's accessor and the reference lookup agree on found, base and
    length for all keys and not only for the probed ones. *)
Theorem two_level_equivalence directory l1 t i :
  types_nonneg directory -> two_level_directory directory = Ok l1 -> 0 <= t -> 0 <= i ->
  two_level_resolve l1 directory t i = Some (linear directory t i).
Proof. apply two_level_resolve_linear. Qed.

Lemma two_level_equivalence_witness :
  two_level_directory sample_directory = Ok sample_level1 /\
  two_level_resolve sample_level1 sample_directory 5 1 = Some (1, 456, 144) /\
  two_level_resolve sample_level1 sample_directory 5 2 = Some (0, 0, 0).
Proof.
  split; [vm_compute; reflexivity|].
  rewrite !(two_level_equivalence sample_directory) by
    (repeat constructor; simpl; lia || vm_compute; (reflexivity || discriminate)).
  split; reflexivity.
Defined.

(** The generation-time self check [check_two_level] accepts every table that
    [two_level_directory] returned: none of its probes diverges and none raises
    [IndexError]. *)
Theorem check_two_level_total directory l1 :
  types_nonneg directory -> two_level_directory directory = Ok l1 ->
  check_two_level l1 directory = Ok tt.
Proof. apply check_two_level_ok. Qed.

Lemma check_two_level_total_witness : check_two_level sample_level1 sample_directory = Ok tt.
Proof.
  apply check_two_level_total; [repeat constructor; simpl; lia|vm_compute; reflexivity].
Defined.

(** [two_level_directory] accepts exactly the directories whose rows come in
    one contiguous ascending run per type below 256: every such directory gets a
    table (no error path is taken), and in every accepted directory each row's
    (type, index) key resolves to that row itself. *)
Theorem two_level_directory_complete groups directory :
  groups <> [] -> List.NoDup (map fst groups) ->
  Forall (fun g => 0 <= g.1 < 256 /\ (0 < g.2)%nat) groups -> grouped groups directory ->
  exists l1, two_level_directory directory = Ok l1 /\
    forall j e, directory !! j = Some e ->
      two_level_resolve l1 directory (de_type e) (de_index e) = Some (1, de_base e, de_len e).
Proof.
  intros Hne Hnd Hall Hg.
  destruct (two_level_directory_accepts groups directory) as [l1 H]; try done.
  exists l1. split; [done|]. intros j e Hj.
  assert (types_nonneg directory) as Hnn.
  { apply List.Forall_forall. intros e' He'. apply (in_map (fun e => (de_type e, de_index e))) in He'.
    rewrite Hg in He'. apply in_flat_map in He' as (g & Hgin & Hin).
    apply in_map_iff in Hin as (i & [= <- _] & _).
    rewrite List.Forall_forall in Hall. apply Hall in Hgin. lia. }
  pose proof (proj1 (list_elem_of_In _ _) (list_elem_of_lookup_2 _ _ _ Hj)) as Hin.
  rewrite two_level_resolve_linear; [|done|done| |by eapply index_nonneg_of_accepted].
  2:{ unfold types_nonneg in Hnn. rewrite List.Forall_forall in Hnn. auto. }
  f_equal. eapply linear_hit; [done|done|done|]. intros j' e' Hj' Ht' Hi'.
  destruct (two_level_directory_spec _ _ Hnn H) as (runs & [Hnone Hsome] & _).
  destruct (runs !! de_type e) as [[r c]|] eqn:E; [|by destruct (Hnone _ E _ Hin)].
  destruct (Hsome _ _ _ E) as (_ & _ & _ & Hrows).
  pose proof (proj2 (Hrows _ _ Hj) eq_refl). pose proof (proj2 (Hrows _ _ Hj') Ht'). lia.
Qed.

Lemma two_level_directory_complete_witness :
  exists l1, two_level_directory sample_directory = Ok l1 /\
    forall j e, sample_directory !! j = Some e ->
      two_level_resolve l1 sample_directory (de_type e) (de_index e) = Some (1, de_base e, de_len e).
Proof.
  apply (two_level_directory_complete [(0, 1%nat); (5, 2%nat); (9, 1%nat)]).
  - discriminate.
  - repeat constructor; simpl; lia.
  - repeat constructor; simpl; lia.
  - reflexivity.
Defined.

(** The structural split of the SET/GET_NAME table (a type mask plus an
    exception list) answers every (type, index, name index) lookup exactly as the
    full name table does, hit or miss. *)
Theorem named_structure_equivalence directory l1 named mask exc t i n :
  types_nonneg directory -> two_level_directory directory = Ok l1 ->
  Forall (fun e => 0 <= ne_type e) named -> List.NoDup (map ne_key named) ->
  named_structure l1 directory named = Ok (mask, exc) -> 0 <= t -> 0 <= i ->
  named_resolve l1 directory mask exc t i n = Some (named_lookup named t i n).
Proof.
  intros Hnn H Hnt Hnd Hs Ht Hi. unfold named_structure in Hs. rsplit Hs. subst.
  by apply named_resolve_lookup.
Qed.

Lemma named_structure_equivalence_witness :
  named_structure sample_level1 sample_directory sample_named
    = Ok (32, [Named 0 0 0 48; Named 0 0 1 180]) /\
  named_resolve sample_level1 sample_directory 32 [Named 0 0 0 48; Named 0 0 1 180] 5 1 0
    = Some (1, 460).
Proof.
  split; [vm_compute; reflexivity|].
  rewrite (named_structure_equivalence sample_directory sample_level1 sample_named).
  - reflexivity.
  - repeat constructor; simpl; lia.
  - vm_compute; reflexivity.
  - repeat constructor; simpl; lia.
  - repeat constructor; simpl; intuition discriminate.
  - vm_compute; reflexivity.
  - lia.
  - lia.
Defined.

(** On an accepted directory the only way [named_structure] can fail is the
    [KeyError] of a name whose descriptor the ROM does not hold: if every named
    (type, index) is a directory row, the split succeeds and its self check
    [check_named] passes. *)
Theorem named_structure_total directory l1 named :
  types_nonneg directory -> two_level_directory directory = Ok l1 ->
  Forall (fun e => 0 <= ne_type e /\ 0 <= ne_index e) named -> List.NoDup (map ne_key named) ->
  (forall e, In e named -> is_Some (base_map directory !! (ne_type e, ne_index e))) ->
  exists me, named_structure l1 directory named = Ok me.
Proof. apply named_structure_ok. Qed.

Lemma named_structure_total_witness :
  exists me, named_structure sample_level1 sample_directory sample_named = Ok me.
Proof.
  apply named_structure_total.
  - repeat constructor; simpl; lia.
  - vm_compute; reflexivity.
  - repeat constructor; simpl; lia.
  - repeat constructor; simpl; intuition discriminate.
  - intros e He. simpl in He. destruct He as [<-|[<-|[<-|[<-|[]]]]]; eexists; reflexivity.
Defined.
