(* ===== verification/Text.v ===== *)
(** Text the model builders parse and print: [int(s, 16)], [hex(n)], [%d] and
    the code-point order of [sorted] on strings.

    [int(s, 16)] follows the language reference: surrounding white space, one
    sign, an optional [0x] prefix, digits with single underscores between them.
    Decimal digits outside ASCII, which Python also accepts, are not modelled. *)
From S2P Require Import Prelude Unicode Descriptors.

Definition strip_ws (s : pystr) : pystr := rev (skip_ws (rev (skip_ws s))).

(** Digits with single underscores between them; [last] is whether a digit came
    just before. *)
Fixpoint hex_digits_us (acc : Z) (last : bool) (s : pystr) : option Z :=
  match s with
  | [] => if last then Some acc else None
  | c :: s' =>
      match hex_digit c with
      | Some d => hex_digits_us (acc * 16 + d) true s'
      | None => if (c =? 95) && last then hex_digits_us acc false s' else None
      end
  end.

Definition strip_0x (s : pystr) : pystr :=
  match s with
  | 48 :: x :: s' =>
      if (x =? 120) || (x =? 88) then (match s' with 95 :: s'' => s'' | _ => s' end) else s
  | _ => s
  end.

(** [int(s, 16)]; [None] is [ValueError]. *)
Definition py_int16 (s : pystr) : option Z :=
  match strip_ws s with
  | 45 :: s' => Z.opp <$> hex_digits_us 0 false (strip_0x s')
  | 43 :: s' => hex_digits_us 0 false (strip_0x s')
  | s' => hex_digits_us 0 false (strip_0x s')
  end.

(** Decimal digits with single underscores between them. *)
Fixpoint dec_digits_us (acc : Z) (last : bool) (s : pystr) : option Z :=
  match s with
  | [] => if last then Some acc else None
  | c :: s' =>
      if (48 <=? c) && (c <=? 57) then dec_digits_us (acc * 10 + (c - 48)) true s'
      else if (c =? 95) && last then dec_digits_us acc false s' else None
  end.

Definition hex_char (d : Z) : Z := if d <? 10 then 48 + d else 87 + d.

Fixpoint hex_digits_of (fuel : nat) (v : Z) : pystr :=
  match fuel with
  | O => []
  | S fuel' => (if v <? 16 then [] else hex_digits_of fuel' (v / 16)) ++ [hex_char (v mod 16)]
  end.

(** [hex(v)]. *)
Definition py_hex (v : Z) : pystr :=
  let digits := hex_digits_of (S (Z.to_nat (Z.log2 (Z.abs v)))) (Z.abs v) in
  if v <? 0 then lit "-0x" ++ digits else lit "0x" ++ digits.

(** [sep.join(parts)]. *)
Fixpoint join (sep : pystr) (parts : list pystr) : pystr :=
  match parts with
  | [] => []
  | [p] => p
  | p :: ps => p ++ sep ++ join sep ps
  end.

(** [s.split(sep)]. *)
Fixpoint split_on (sep : Z) (s : pystr) : list pystr :=
  match s with
  | [] => [[]]
  | c :: s' =>
      match split_on sep s' with
      | [] => [[c]]
      | w :: ws => if c =? sep then [] :: w :: ws else (c :: w) :: ws
      end
  end.

(** [str] of a list of strings that need no escape. *)
Definition repr_list (l : list pystr) : pystr :=
  lit "[" ++ join (lit ", ") (map (fun s => lit "'" ++ s ++ lit "'") l) ++ lit "]".

(** The order of [str]. *)
Fixpoint str_leb (a b : pystr) : bool :=
  match a, b with
  | [], _ => true
  | _ :: _, [] => false
  | x :: a', y :: b' => if x <? y then true else if x =? y then str_leb a' b' else false
  end.

Definition str_le (a b : pystr) : Prop := str_leb a b = true.
#[export] Instance str_le_dec a b : Decision (str_le a b).
Proof. unfold str_le. apply _. Defined.

Definition sorted_strs (l : list pystr) : list pystr := merge_sort str_le l.

Lemma str_le_total a b : str_le a b \/ str_le b a.
Proof.
  unfold str_le. revert b. induction a as [|x a IH]; intros [|y b]; simpl; try tauto.
  destruct (x <? y) eqn:E1, (y <? x) eqn:E2; try tauto; bool_prop.
  assert (x = y) as -> by lia. rewrite Z.eqb_refl. apply IH.
Qed.

Lemma str_le_trans a b c : str_le a b -> str_le b c -> str_le a c.
Proof.
  unfold str_le. revert b c. induction a as [|x a IH]; intros [|y b] [|z c]; simpl; try done.
  destruct (x <? y) eqn:E1, (y <? z) eqn:E2; intros H1 H2; bool_prop.
  - by rewrite (proj2 (Z.ltb_lt x z)) by lia.
  - destruct (y =? z) eqn:E3; [|done]. bool_prop. by rewrite (proj2 (Z.ltb_lt x z)) by lia.
  - destruct (x =? y) eqn:E3; [|done]. bool_prop. by rewrite (proj2 (Z.ltb_lt x z)) by lia.
  - destruct (x =? y) eqn:E3; [|done]. destruct (y =? z) eqn:E4; [|done]. bool_prop. subst.
    rewrite Z.ltb_irrefl, Z.eqb_refl. by eapply IH.
Qed.

Lemma str_le_antisym a b : str_le a b -> str_le b a -> a = b.
Proof.
  unfold str_le. revert b. induction a as [|x a IH]; intros [|y b]; simpl; try done.
  destruct (x <? y) eqn:E1, (y <? x) eqn:E2; intros H1 H2; bool_prop; try lia.
  - by rewrite (proj2 (Z.eqb_neq y x)) in H2 by lia.
  - by rewrite (proj2 (Z.eqb_neq x y)) in H1 by lia.
  - assert (x = y) as -> by lia. rewrite Z.eqb_refl in *. f_equal. by apply IH.
Qed.

(** * [int(hex(v), 16) = v] *)

Lemma hex_char_digit d : 0 <= d < 16 -> hex_digit (hex_char d) = Some d.
Proof.
  intros Hd. unfold hex_char, hex_digit.
  destruct (d <? 10) eqn:E; bool_prop.
  - rewrite (proj2 (Z.leb_le 48 _)), (proj2 (Z.leb_le _ 57)) by lia. simpl. f_equal. lia.
  - rewrite (proj2 (Z.leb_gt _ 57)) by lia. rewrite andb_false_r.
    rewrite (proj2 (Z.leb_gt _ 70)) by lia. rewrite andb_false_r.
    rewrite (proj2 (Z.leb_le 97 _)), (proj2 (Z.leb_le _ 102)) by lia. simpl. f_equal. lia.
Qed.

Lemma hex_digits_us_app acc l s :
  Forall (fun c => is_Some (hex_digit c)) s -> l = true \/ s <> [] ->
  forall c d, hex_digit c = Some d ->
  hex_digits_us acc l (s ++ [c])
  = (v ← hex_digits_us acc l s; Some (v * 16 + d)).
Proof.
  intros Hs. revert acc l. induction Hs as [|x s [dx Hx] Hs IH]; intros acc l Hl c d Hc; simpl.
  - destruct Hl as [->|]; [|done]. by rewrite Hc.
  - rewrite Hx. apply IH; [by left|done].
Qed.

Lemma hex_digits_of_spec fuel v acc :
  0 <= v < 16 ^ Z.of_nat fuel -> (0 < fuel)%nat ->
  Forall (fun c => is_Some (hex_digit c)) (hex_digits_of fuel v) /\
  hex_digits_of fuel v <> [] /\
  hex_digits_us 0 acc (hex_digits_of fuel v) = Some v.
Proof.
  revert v. induction fuel as [|fuel IH]; intros v Hv Hf; [lia|].
  pose proof (Z.mod_pos_bound v 16 ltac:(lia)) as Hm.
  pose proof (hex_char_digit _ Hm) as Hd. cbn [hex_digits_of].
  destruct (v <? 16) eqn:E; bool_prop.
  - split_and!; [by repeat constructor|done|]. simpl. rewrite Hd. f_equal. rewrite Z.mod_small; lia.
  - assert (0 < fuel)%nat as Hf'.
    { destruct fuel; [simpl in Hv; lia|lia]. }
    destruct (IH (v / 16)) as (Ha & Hn & Hu); [|done|].
    { split; [apply Z.div_pos; lia|]. apply Z.div_lt_upper_bound; [lia|].
      rewrite <-Z.pow_succ_r, <-Nat2Z.inj_succ by lia. lia. }
    split_and!.
    + apply Forall_app. split; [done|by repeat constructor].
    + intros Hx. by apply app_eq_nil in Hx as [_ ?].
    + rewrite (hex_digits_us_app _ _ _ Ha ltac:(by right) _ _ Hd), Hu. simpl. f_equal.
      pose proof (Z.div_mod v 16 ltac:(lia)). lia.
Qed.

(** * Lines and literals *)

Lemma match_lit_app p s : match_lit p (p ++ s) = Some s.
Proof. induction p as [|c p IH]; simpl; [done|]. by rewrite Z.eqb_refl. Qed.

(** A decimal digit. *)
Definition is_digit (c : Z) : bool := (48 <=? c) && (c <=? 57).

Lemma split_on_app sep w s : ~ In sep w -> split_on sep (w ++ sep :: s) = w :: split_on sep s.
Proof.
  intros Hw. induction w as [|c w IH]; cbn [app split_on].
  - destruct (split_on sep s) as [|x xs] eqn:E; [|by rewrite Z.eqb_refl].
    destruct s; cbn [split_on] in E; [done|]. by destruct (split_on sep s); [|destruct (z =? sep)].
  - rewrite IH by (intros ?; apply Hw; by right).
    rewrite (proj2 (Z.eqb_neq c sep)); [done|]. intros ->. apply Hw. by left.
Qed.

Lemma split_on_word sep w : ~ In sep w -> split_on sep w = [w].
Proof.
  induction w as [|c w IH]; intros Hw; cbn [split_on]; [done|]. rewrite IH by (intros ?; apply Hw; by right).
  rewrite (proj2 (Z.eqb_neq c sep)); [done|]. intros ->. apply Hw. by left.
Qed.

(** Splitting undoes joining when no part holds the separator. *)
Lemma split_join sep parts : parts <> [] -> Forall (fun p => ~ In sep p) parts ->
  split_on sep (join [sep] parts) = parts.
Proof.
  induction parts as [|p parts IH]; intros Hne Hs; [done|]. apply Forall_cons in Hs as [Hp Hs].
  destruct parts as [|q parts]; [by apply split_on_word|].
  change (join [sep] (p :: q :: parts)) with (p ++ sep :: join [sep] (q :: parts)).
  rewrite split_on_app by done. f_equal. by apply IH.
Qed.

(** * [int(str(v)) = v] *)

Definition dec_value (acc : Z) (ds : pystr) : Z := fold_left (fun a c => a * 10 + (c - 48)) ds acc.

Lemma dec_digits_value ds : forall acc b, Forall (fun c => is_digit c = true) ds -> ds <> [] ->
  dec_digits_us acc b ds = Some (dec_value acc ds).
Proof.
  induction ds as [|c ds IH]; intros acc b Hd Hn; [done|]. apply Forall_cons in Hd as [Hc Hd].
  cbn [dec_digits_us dec_value fold_left]. unfold is_digit in Hc. rewrite Hc.
  destruct ds as [|c' ds]; [done|]. by apply IH.
Qed.

Lemma pretty_digits x : forall s, exists ds, lit (pretty_N_go x s) = ds ++ lit s
  /\ Forall (fun c => is_digit c = true) ds /\ dec_value 0 ds = Z.of_N x /\ (x <> 0%N -> hd 48 ds <> 48).
Proof.
  induction x as [x IH] using (well_founded_induction N.lt_wf_0). intros s.
  destruct (decide (x = 0%N)) as [->|Hx].
  - exists []. rewrite pretty_N_go_0. split_and!; [done|constructor|done|done].
  - rewrite pretty_N_go_step by lia.
    destruct (IH (x `div` 10)%N ltac:(by apply N.div_lt; lia) (String.String (pretty_N_char (x `mod` 10)) s))
      as (ds & Hl & Hd & Hv & Hh).
    pose proof (N.mod_lt x 10 ltac:(lia)) as Hm.
    assert (lit (String.String (pretty_N_char (x `mod` 10)) s) = (48 + Z.of_N (x `mod` 10)) :: lit s) as Hc.
    { clear -Hm. revert Hm. generalize (x `mod` 10)%N. intros n Hn. rewrite <-(N2Nat.id n).
      assert (N.to_nat n < 10)%nat as Hk by lia. generalize dependent (N.to_nat n). clear. intros k Hk.
      do 10 (destruct k as [|k]; [reflexivity|]). lia. }
    exists (ds ++ [48 + Z.of_N (x `mod` 10)]). split_and!.
    + by rewrite Hl, Hc, <-app_assoc.
    + apply Forall_app. split; [done|]. repeat constructor. unfold is_digit. rewrite andb_true_iff, !Z.leb_le.
      clear -Hm. generalize dependent (x `mod` 10)%N. lia.
    + unfold dec_value in *. rewrite fold_left_app, Hv. cbn [fold_left].
      pose proof (N.div_mod x 10 ltac:(lia)). lia.
    + intros _. destruct ds as [|d ds].
      2:{ apply Hh. intros E. rewrite E, pretty_N_go_0 in Hl. apply (f_equal length) in Hl.
          rewrite length_app in Hl. cbn [length] in Hl. lia. }
      cbn [app hd]. cbn in Hv. pose proof (N.div_mod x 10 ltac:(lia)). lia.
Qed.

Lemma dec_head n : 0 < n -> hd 48 (dec n) <> 48.
Proof.
  intros Hn. unfold dec. destruct n as [|p|p]; [lia| |lia]. change (pretty (Z.pos p)) with (pretty_N_go (N.pos p) "").
  destruct (pretty_digits (N.pos p) "") as (ds & -> & _ & _ & Hh). rewrite app_nil_r. by apply Hh.
Qed.

Lemma dec_spec n : 0 <= n -> Forall (fun c => is_digit c = true) (dec n) /\ dec n <> []
  /\ dec_digits_us 0 false (dec n) = Some n.
Proof.
  intros Hn. unfold dec. destruct n as [|p|p]; [|change (pretty (Z.pos p)) with (pretty (N.pos p))|lia].
  - split_and!; [repeat constructor|done|done].
  - change (pretty (N.pos p)) with (pretty_N_go (N.pos p) "").
    destruct (pretty_digits (N.pos p) "") as (ds & Hl & Hd & Hv & Hne). rewrite Hl, app_nil_r.
    assert (ds <> []) by (intros ->; by apply Hne). split_and!; [done|done|]. rewrite dec_digits_value by done. by rewrite Hv.
Qed.
