(* ===== verification/Config.v ===== *)
(** YAML values, the readers every loader of the end-station builder shares,
    and its refusals ([sw/builder/endstation_builder.py]).

    [yaml.safe_load] returns a [yaml].  A boolean is an integer to
    [isinstance(v, int)] and not to [type(v) is int], which is why the two
    readings [int_like] and [exact_int] are kept apart.  A float, a date or any
    other scalar is [YOther] with what the code can learn from it: its truth
    value, what [int()] makes of it, and whether it equals that integer.  Mapping keys are strings.

    One constructor of [config_error] per [raise ConfigError], with the context
    text the code builds at run time when there is one; the prose of the message
    is dropped.  The last constructors are the exceptions of the language that
    an ill-typed document reaches. *)
From S2P Require Import Prelude Unicode Descriptors Text.

#[local] Unset Elimination Schemes.
Inductive yaml :=
  | YNull
  | YBool (b : bool)
  | YInt (z : Z)
  | YStr (s : pystr)
  | YOther (truth : bool) (as_int : option Z) (integral : bool)
  | YList (l : list yaml)
  | YMap (m : list (string * yaml)).
#[local] Set Elimination Schemes.

Abbreviation dict := (list (string * yaml)).

Inductive config_error :=
  | EMissing (ctx : pystr) (key : string)          (* _req *)
  | ENotString (ctx : pystr)                       (* quote the hexadecimal value *)
  | EHexText (ctx : pystr)
  | EHexWide (ctx : pystr) (digits bits : Z)
  | EMac (ctx : pystr)
  | EMacZero (ctx : pystr)
  | EMacGroup (ctx : pystr)
  | EModelIdReserved (ctx : pystr)
  | EPow2 (ctx : pystr)
  | EFactoryOffset (ctx : pystr)
  | EBufferFloor (ctx : pystr)
  | EBufferWide (ctx : pystr)
  | EFormatCount (ctx : pystr) (n : Z)
  | EFormatFamily (ctx : pystr)
  | ECrfWord (ctx : pystr)
  | ENoStream (ctx : pystr)
  | EStreamCount (ctx : pystr) (n : Z)
  | EChannels (ctx : pystr)
  | EFormatsList (ctx : pystr)
  | EUpToHead (ctx : pystr)
  | EUpToListener (ctx : pystr)
  | EClusters (ctx : pystr)
  | EMapMode (ctx : pystr)
  | EMapModeListener (ctx : pystr)
  | EMapPageMode (ctx : pystr)
  | EMapPage (ctx : pystr)
  | EOffsetOnListener (ctx : pystr)
  (* cluster layout *)
  | EPolicy
  | EEmptyPool (output : bool) (port : Z)
  | EMapPageDiffer (pages : list Z)
  | EMapPageRange (page : Z)
  | ENoNamer (role : string)
  (* render lane *)
  | ENoRenderLane (want : Z)
  | ERenderWidth (want width : Z)
  | ERenderPartial (want slots : Z)
  (* stream reservation *)
  | ESrpMapping
  | ESrpClass
  | ESrpVid
  | ESrpVidStart
  | ESrpTimer (leaf : string)
  | ESrpQueueField
  | ESrpQueueBoard
  | ESrpPolicy
  | ESrpInterval
  | ESrpIntervalOne
  | ESrpMaxFrame
  | ESrpPct
  | ESrpDmac
  | ESrpLatency
  | ESrpBool (key : string)
  | ESrpGeometry (rate : Z)
  | ESrpFrame (talker bytes : Z)
  | ESrpBudget (total limit : Z)
  | ESrpRows (rows : Z)
  (* entity, names *)
  | EFirmwareKey
  | EFirmwareRev
  | ETooLong (key : string)
  | EAemString (ctx : pystr)
  | ENames
  | EClockNames
  | EClockNameUnused (key : string)
  | EClockNameNumbered
  | EVendorOui
  | ECapsAbsent
  | ECapsDiffer
  (* board, soc, features, platform *)
  | ETarget
  | EConstraints
  | EPhy
  | EGtxInvert
  | EFlashboot
  | ENumQueues
  | EClockOrder
  | EEthPort
  | ESocMapping
  | ESocKeys
  | ECpu
  | ESoftwareProfile
  | ESocFull
  | EXlen
  | EBaremetalClock
  | EBaremetalCpu
  | EBaremetalL2
  | EBaremetalFlash
  | EFeatures
  | EFeatureBool (name : string)
  | EServoPruned
  | EMaapPruned
  | EI2sPruned
  | ELpfOrphan
  | EPlatformMapping
  | EPlatformKeys
  | EMacMissing
  | EPpMem
  | ERxFilter
  | EFabricGptp
  | ENoGptp
  (* clocking, gptp *)
  | ERate (rate : Z)
  | ENoSources
  | EUnknownSources
  | ESourceTwice
  | EDefaultSource
  | ECrfOutputMapping
  | ERateCount (n : Z)
  | ERateTwice
  | ERateMissing
  | EAudioPll (hz : Z)
  | ECrfSink
  | ECrfSource
  | EGptpKeys
  | EGptpU8 (key : string) (v : Z)
  | EGptpPinned (key : string) (v : Z)
  | EGptpDomain (v : Z)
  | EGptpLatency (key : string)
  | EEngine                                         (* the generator could not be read *)
  (* interface, stream sets *)
  | EKind
  | EWordLength (bits : Z)
  | EMappingRule
  | EPhysical
  | EPhysicalRange (key : string) (v : Z)
  | EPools
  | EPoolsPolicy
  | EFabricKeys
  | EFabricPolicy
  | ELoopbackLane
  | EChannelNames
  | EChannelNamesFew
  | ESerialClock (need : Z)
  | EOutputClock
  | EMixedModes
  | ENoCrfOutput (listeners : Z)
  (* schema, identity *)
  | ENotMapping
  | ESchemaId
  | ESchemaMajor
  | EOuiDiffers (oui : Z) (mid : Z)
  (* writable names, dynamic outputs *)
  | ECapacityDecl                                   (* N_NAME_MAX_C cannot be read *)
  | ENameCapacity (names capacity : Z)
  | EMissingCounts (names : list string)
  | EOutputSources                                  (* a ValueError of aem_specs *)
  | EOutputTopology (port : Z)
  (* exceptions of the language *)
  | EType                                           (* TypeError, AttributeError *)
  | EValue                                          (* ValueError *)
  | EKeyErr                                         (* KeyError *)
  | EAssertion.                                     (* AssertionError *)

(** * Readers *)

Fixpoint get (d : dict) (key : string) : option yaml :=
  match d with
  | [] => None
  | (k, v) :: d' => if String.eqb k key then Some v else get d' key
  end.

(** [d.get(key, dflt)]. *)
Definition get_or (d : dict) (key : string) (dflt : yaml) : yaml := default dflt (get d key).

Definition req (d : dict) (key : string) (ctx : pystr) : result config_error yaml :=
  match get d key with Some v => Ok v | None => Err (EMissing ctx key) end.

Definition truthy (v : yaml) : bool :=
  match v with
  | YNull => false
  | YBool b => b
  | YInt z => negb (z =? 0)
  | YStr s => match s with [] => false | _ => true end
  | YOther t _ _ => t
  | YList l => match l with [] => false | _ => true end
  | YMap m => match m with [] => false | _ => true end
  end.

(** [isinstance(v, int)]. *)
Definition int_like (v : yaml) : option Z :=
  match v with YBool b => Some (if b then 1 else 0) | YInt z => Some z | _ => None end.

(** [type(v) is int]. *)
Definition exact_int (v : yaml) : option Z := match v with YInt z => Some z | _ => None end.

Definition str_of (v : yaml) : option pystr := match v with YStr s => Some s | _ => None end.

(** [v == n]: a boolean and an integral float compare as numbers. *)
Definition num_is (v : yaml) (n : Z) : bool :=
  match v with
  | YInt z => z =? n
  | YBool b => (if b then 1 else 0) =? n
  | YOther _ (Some z) true => z =? n
  | _ => false
  end.

(** [v == "text"]. *)
Definition str_is (v : yaml) (t : string) : bool :=
  match v with YStr s => pystr_eqb s (lit t) | _ => false end.

(** The word of a closed vocabulary a value is, if any: [v in (...)]. *)
Definition word_of (words : list string) (v : yaml) : option string :=
  List.find (str_is v) words.

(** [int(s)] of a string. *)
Definition py_int10 (s : pystr) : option Z :=
  match strip_ws s with
  | 45 :: s' => Z.opp <$> dec_digits_us 0 false s'
  | 43 :: s' => dec_digits_us 0 false s'
  | s' => dec_digits_us 0 false s'
  end.

(** [int(v)]. *)
Definition py_int (v : yaml) : result config_error Z :=
  match v with
  | YBool b => Ok (if b then 1 else 0)
  | YInt z => Ok z
  | YStr s => match py_int10 s with Some z => Ok z | None => Err EValue end
  | YOther _ (Some z) _ => Ok z
  | YOther _ None _ | YNull | YList _ | YMap _ => Err EType
  end.

Definition as_dict (v : yaml) : option dict := match v with YMap m => Some m | _ => None end.
Definition as_list (v : yaml) : option (list yaml) := match v with YList l => Some l | _ => None end.

(** [d.get(key) or {}], as a mapping; [None] when it is something else. *)
Definition sub_dict (d : dict) (key : string) : option dict :=
  match get d key with
  | Some v => if truthy v then as_dict v else Some []
  | None => Some []
  end.

Definition keys_of (d : dict) : list string := map fst d.

(** [set(d) - known] is empty. *)
Definition only_keys (d : dict) (known : list string) : bool :=
  forallb (fun k => existsb (String.eqb k) known) (keys_of d).

Definition range_ctx (ctx : pystr) (k : Z) : pystr := ctx ++ lit "[" ++ dec k ++ lit "]".

(** * Refusing and crashing

    A loader is to answer every document with a value or a [ConfigError];
    [orderly m] says that [m] does not end in an exception of the language. *)

Definition refusal (e : config_error) : bool :=
  match e with EType | EValue | EKeyErr | EAssertion => false | _ => true end.

Definition orderly {A} (m : result config_error A) : Prop :=
  match m with Ok _ => True | Err e => refusal e = true end.

(** * Fixed-width text *)

(** [f"{v:0nX}"] for a non-negative [v]: upper-case digits, padded to [n]. *)
Definition to_upper (c : Z) : Z := if (97 <=? c) && (c <=? 122) then c - 32 else c.
Definition hex_upper (v : Z) : pystr :=
  map to_upper (hex_digits_of (S (Z.to_nat (Z.log2 v))) v).
Definition hex_pad (n : nat) (v : Z) : pystr :=
  repeat 48 (n - length (hex_upper v))%nat ++ hex_upper v.

(** [f"0x{v:016X}"], the text of a stream format or of an EUI-64. *)
Definition hex64 (v : Z) : pystr := lit "0x" ++ hex_pad 16 v.

(** * The text reads back *)

Lemma hex_digit_range c : is_Some (hex_digit c) <-> 48 <= c <= 57 \/ 65 <= c <= 70 \/ 97 <= c <= 102.
Proof.
  unfold hex_digit.
  destruct ((48 <=? c) && (c <=? 57)) eqn:E1, ((65 <=? c) && (c <=? 70)) eqn:E2,
    ((97 <=? c) && (c <=? 102)) eqn:E3; rewrite ?andb_true_iff, ?andb_false_iff in *;
    bool_prop; split; intros H; try (by eexists); try (by destruct H); lia.
Qed.

Lemma hex_digit_upper c : is_Some (hex_digit c) -> hex_digit (to_upper c) = hex_digit c.
Proof.
  rewrite hex_digit_range. unfold to_upper. intros Hc.
  destruct ((97 <=? c) && (c <=? 122)) eqn:E; [|done]. bool_prop. unfold hex_digit.
  repeat match goal with |- context [?a <=? ?b] => destruct (Z.leb_spec a b); try lia end.
  simpl. f_equal. lia.
Qed.

Lemma hex_digits_us_upper acc l s :
  Forall (fun c => is_Some (hex_digit c)) s ->
  hex_digits_us acc l (map to_upper s) = hex_digits_us acc l s.
Proof.
  intros Hs. revert acc l. induction Hs as [|c s Hc _ IH]; intros acc l; [done|].
  cbn [map hex_digits_us]. rewrite (hex_digit_upper _ Hc).
  destruct Hc as [d ->]. apply IH.
Qed.

Lemma hex_digits_us_zeros n s l : s <> [] ->
  Forall (fun c => is_Some (hex_digit c)) s ->
  hex_digits_us 0 l (repeat 48 n ++ s) = hex_digits_us 0 false s.
Proof.
  intros Hn Hs. revert l. induction n as [|n IH]; intros l; cbn [repeat app hex_digits_us].
  - destruct s as [|c s]; [done|]. apply Forall_cons in Hs as [[d Hc] _].
    cbn [hex_digits_us]. by rewrite Hc.
  - apply (IH true).
Qed.

Lemma hex_upper_spec v : 0 <= v ->
  Forall (fun c => is_Some (hex_digit c)) (hex_upper v) /\ hex_upper v <> [] /\
  hex_digits_us 0 false (hex_upper v) = Some v.
Proof.
  intros Hv. unfold hex_upper.
  destruct (hex_digits_of_spec (S (Z.to_nat (Z.log2 v))) v false) as (Ha & Hn & Hu); [|lia|].
  { split; [done|]. destruct (Z.eq_dec v 0) as [->|]; [done|].
    rewrite Nat2Z.inj_succ, Z2Nat.id by apply Z.log2_nonneg.
    apply Z.lt_le_trans with (2 ^ Z.succ (Z.log2 v)); [apply Z.log2_spec; lia|].
    apply Z.pow_le_mono_l. split; [lia|done]. }
  split_and!.
  - apply Forall_map. eapply Forall_impl; [exact Ha|]. intros c Hc. by rewrite hex_digit_upper.
  - destruct (hex_digits_of _ _); done.
  - by rewrite hex_digits_us_upper.
Qed.

Lemma hex_pad_spec n v : 0 <= v ->
  Forall (fun c => is_Some (hex_digit c)) (hex_pad n v) /\ hex_pad n v <> [] /\
  hex_digits_us 0 false (hex_pad n v) = Some v.
Proof.
  intros Hv. destruct (hex_upper_spec v Hv) as (Ha & Hn & Hu). unfold hex_pad. split_and!.
  - apply Forall_app. split; [|done]. apply Forall_forall. intros c Hc.
    apply list_elem_of_In, repeat_spec in Hc. subst. by eexists.
  - intros [_ ?]%app_eq_nil. done.
  - by rewrite hex_digits_us_zeros.
Qed.

Lemma hex_digit_not_space c : is_Some (hex_digit c) -> is_space c = false.
Proof.
  rewrite hex_digit_range. intros Hc. unfold is_space.
  repeat match goal with
  | |- context [?a <=? ?b] => destruct (Z.leb_spec a b); try lia
  | |- context [?a =? ?b] => destruct (Z.eqb_spec a b); try lia
  end; reflexivity.
Qed.

Lemma strip_ws_id c s d : is_space c = false -> is_space d = false ->
  strip_ws (c :: s ++ [d]) = c :: s ++ [d].
Proof.
  intros Hc Hd. unfold strip_ws. cbn [skip_ws]. rewrite Hc.
  rewrite app_comm_cons, rev_app_distr. cbn [rev app skip_ws]. rewrite Hd.
  change (rev (d :: (rev s ++ [c]))) with (rev (rev s ++ [c]) ++ [d]).
  by rewrite rev_app_distr, rev_involutive.
Qed.

(** What the builder prints with [hex64], [int(text, 16)] reads back. *)
Lemma hex64_int16 v : 0 <= v -> py_int16 (hex64 v) = Some v.
Proof.
  intros Hv. destruct (hex_pad_spec 16 v Hv) as (Ha & Hn & Hu). unfold py_int16, hex64.
  assert (strip_ws (lit "0x" ++ hex_pad 16 v) = lit "0x" ++ hex_pad 16 v) as ->.
  { destruct (exists_last Hn) as (l & c & E). rewrite E in Ha |- *.
    apply Forall_app in Ha as [_ Hc]. apply Forall_cons in Hc as [Hc _].
    rewrite app_assoc. apply (strip_ws_id 48 (120 :: l)); [done|by apply hex_digit_not_space]. }
  change (lit "0x" ++ hex_pad 16 v) with (48 :: 120 :: hex_pad 16 v).
  cbn [strip_0x]. change ((120 =? 120) || (120 =? 88)) with true. cbn match.
  destruct (hex_pad 16 v) as [|c l] eqn:E; [done|].
  destruct (Z.eq_dec c 95) as [->|Hc]; [apply Forall_cons in Ha as [[d Hd] _]; done|].
  destruct c as [|c|c]; try exact Hu. do 7 (destruct c; try exact Hu). done.
Qed.

(** ** [orderly] through the monad *)

Lemma orderly_Ok {A} (a : A) : orderly (Ok a).
Proof. exact I. Qed.

Lemma orderly_Err {A} e : refusal e = true -> orderly (@Err _ A e).
Proof. done. Qed.

Lemma orderly_bind {A B} (m : result config_error A) (k : A -> result config_error B) :
  orderly m -> (forall a, m = Ok a -> orderly (k a)) -> orderly (rbind m k).
Proof. destruct m as [a|e]; simpl; [|done]. intros _ H. by apply H. Qed.

Lemma orderly_raise_if b e : refusal e = true -> orderly (raise_if b e).
Proof. by destruct b. Qed.

Lemma orderly_mapR {A B} (f : A -> result config_error B) l :
  Forall (fun x => orderly (f x)) l -> orderly (mapR f l).
Proof.
  induction 1 as [|x l Hx _ IH]; [done|]. cbn [mapR].
  apply orderly_bind; [done|]. intros y _. apply orderly_bind; [done|]. done.
Qed.

Lemma orderly_foldR {A S} (f : S -> A -> result config_error S) s l :
  Forall (fun x => forall t, orderly (f t x)) l -> orderly (foldR f s l).
Proof.
  intros H. revert s. induction H as [|x l Hx _ IH]; intros s; [done|]. cbn [foldR].
  apply orderly_bind; [done|]. intros t _. apply IH.
Qed.

Lemma orderly_req d key ctx : orderly (req d key ctx).
Proof. unfold req. by destruct (get d key). Qed.

Create HintDb orderly discriminated.
#[export] Hint Resolve orderly_Ok orderly_Err orderly_raise_if orderly_req : orderly.

Ltac orderly :=
  repeat first
    [ progress intros
    | apply orderly_bind
    | apply orderly_Ok
    | solve [eauto with orderly]
    | match goal with |- orderly (match ?x with _ => _ end) => destruct x end ].
