(* ===== verification/Model.v ===== *)
(** The model specification: the dict [avdecc/aem_specs.py] builds and
    [avdecc/aem_assemble.py] consumes, as records.

    A key the code reads with [.get] is an [option]; one it subscripts is a
    plain field. *)
From S2P Require Import Prelude Unicode Descriptors Directory.
From S2P Require Config.

Record stream_spec := StreamSpec {
  st_name : pystr;
  st_kind : option string;
  st_formats : list Z;
  st_buffer : Z;                  (* outputs: the encoder's default, 0 *)
}.

(** [s.get("kind", "aaf")]. *)
Definition kind_of (s : stream_spec) : string := default "aaf"%string (st_kind s).

(** A capture-crossbar source template. *)
Record cluster_source := ClusterSource {
  sr_src : Z;
  sr_idxh : Z;
  sr_idx : Z;
  sr_half : Z;
  sr_valid : option bool;
}.

Record port_spec := PortSpec {
  po_clusters : Z;
  po_base_cluster : Z;
  po_maps : Z;
  po_base_map : Z;
  po_map_mode : option string;
  po_map_page : option Z;
  po_stream_index : option Z;
  po_cluster_sources : option (list cluster_source);
  po_identity_offset : option Z;
}.

(** [p.get("map_mode", "static") == "dynamic"]. *)
Definition is_dynamic (p : port_spec) : bool :=
  String.eqb (default "static"%string (po_map_mode p)) "dynamic".

Record model_spec := ModelSpec {
  sp_entity : entity_strings;
  sp_names : option (gmap string pystr);
  sp_locale : option pystr;
  sp_gptp : option gptp_dataset;
  sp_rates : list Z;
  sp_current_rate : Z;
  sp_rates_string : pystr;
  sp_stream_inputs : list stream_spec;
  sp_stream_outputs : list stream_spec;
  sp_clock_sources : list clock_source_spec;
  sp_ports_in : list port_spec;
  sp_ports_out : list port_spec;
  sp_audio_maps : list (list map_row);
  sp_cluster_names_in : option (list pystr);
  sp_cluster_names_out : option (list pystr);
  sp_lint_waivers : list Config.yaml;
}.

(** Where a mapping stands, the [where] prefix of every map refusal. *)
Record map_where := MapWhere {
  w_input : bool;
  w_port : Z;
  w_map : Z;
  w_row : map_row;
}.

Inductive model_error :=
  | EDesc (e : desc_error)
  | EDir (e : dir_error)
  | EStopIteration                     (* next(...) of an empty generator *)
  | EListIndex                         (* IndexError *)
  | EKeyError
  | EMaxEmpty                          (* max() of an empty sequence *)
  | EClusterNames (n_in n_out : Z)
  | ERomTooLarge (size : Z)
  | ETooManyPorts
  | ENumberOfMaps (port maps : Z)
  | EBaseMap (port base_map : Z)
  | ETooManyRows (port base_map rows : Z)
  | EClusterOffset (w : map_where)
  | EClusterChannel (w : map_where)
  | EStreamIndex (w : map_where)
  | ENoAudioFormat (w : map_where)
  | EDuplicateCluster (w : map_where)
  | EDuplicateStream (w prev : map_where)
  | ENewDeviations (l : list pystr)
  | EMapPages (pages : list Z)
  | EMapPageRange (page : Z)
  | EMapKeys (keys : Z)
  | EDynOutWithoutIn
  | ENoClusterSources (port : Z)
  | EClusterSourceCount (port n clusters : Z)
  | EHexParse
  | ESchema | ESchemaVersion | ERates | ENoFirmware | ENoCrf
  | ERetiredSource (t : string) | EUnknownSource (t : string)
  | EUnknownNames | ENoPool (port : Z) | EClusterRole (role : string).

(** [next(x for x in l if p(x))]. *)
Definition py_next {A} (p : A -> bool) (l : list A) : result model_error A :=
  match List.find p l with Some x => Ok x | None => Err EStopIteration end.

(** [l[i]], raising [IndexError]. *)
Definition sub {A} (l : list A) (i : Z) : result model_error A :=
  match py_index l i with Some x => Ok x | None => Err EListIndex end.

(** [max(l)], raising [ValueError] when empty. *)
Definition py_max (l : list Z) : result model_error Z :=
  match l with [] => Err EMaxEmpty | x :: l' => Ok (max_z x l') end.

Lemma py_max_spec l m : py_max l = Ok m -> In m l /\ forall x, In x l -> x <= m.
Proof.
  destruct l as [|y l]; [done|]. intros [= <-]. split.
  - destruct (max_z_In y l) as [->|H]; [by left|by right].
  - intros x [->|H]; [|by apply max_z_ge].
    clear. unfold max_z. induction l; simpl; lia.
Qed.

Lemma py_max_total l : l <> [] -> exists m, py_max l = Ok m.
Proof. destruct l; [done|]. eauto. Qed.

Lemma sub_Ok {A} (l : list A) i x : sub l i = Ok x <-> py_index l i = Some x.
Proof. unfold sub. destruct (py_index l i); split; congruence. Qed.

Lemma py_next_Ok {A} (p : A -> bool) l x : py_next p l = Ok x -> In x l /\ p x = true.
Proof.
  unfold py_next. destruct (List.find p l) eqn:E; [|done]. intros [= ->].
  by apply find_some.
Qed.
