(* ===== verification/AudioMaps.v ===== *)
(** AUDIO_MAP bounds and the per-port serving tables ([avdecc/aem_maps.py]).

    [direction_tables] is the gate over one direction: it returns the tables the
    gateware answers GET_AUDIO_MAP from, or refuses.  [direction_ok] states the
    clauses it enforces, each a bound taken from another descriptor; the two are
    proved equivalent, and the tables a successful run returns are described
    entry by entry. *)
From S2P Require Import Prelude Unicode Descriptors Directory Text Model.

(** * Formats *)

(** AAF stream_format -> channels_per_frame. *)
Definition fmt_channels (fmt : Z) : option Z :=
  if negb (Z.shiftr fmt 56 =? 0x02) then None
  else Some (Z.land (Z.shiftr fmt 22) 0x3FF).

Definition MILAN_BASE_CHANNELS : list Z := [1; 2; 4; 6; 8].

(** An element of a formats list: an integer, or its hexadecimal text. *)
Inductive fmt_item := FmtInt (n : Z) | FmtStr (s : pystr).

Definition fmt_value (f : fmt_item) : result model_error Z :=
  match f with
  | FmtInt n => Ok n
  | FmtStr s => match py_int16 s with Some n => Ok n | None => Err EHexParse end
  end.

(** The Base channel counts one format covers, [rate_fmt] being its stem with
    the [ut] bit and the channel count zeroed. *)
Definition format_cover (rate_fmt n : Z) : gset Z :=
  let ut := Z.land (Z.shiftr n 52) 1 in
  let ch := Z.land (Z.shiftr n 22) 0x3FF in
  if negb (Z.land n (Z.lnot (Z.lor (Z.shiftl 1 52) (Z.shiftl 0x3FF 22))) =? rate_fmt) then ∅
  else if negb (ut =? 0) then list_to_set (List.filter (fun c => c <=? ch) MILAN_BASE_CHANNELS)
  else {[ch]} ∩ list_to_set MILAN_BASE_CHANNELS.

Definition base_channel_cover (fmts : list fmt_item) (rate_fmt : Z) : result model_error (gset Z) :=
  foldR (fun got f => let* n := fmt_value f in Ok (got ∪ format_cover rate_fmt n)) ∅ fmts.

(** * Bounds *)

Definition SMAP_MAX_PORTS := 32.
Definition SMAP_MAX_ROWS := 62.
Definition SMAP_CLUSTER_CHANNELS := 1.

(** One direction of the gate. *)
Record MapDirection := mkMapDirection {
  md_input : bool;                  (* direction == "INPUT" *)
  md_ports : list port_spec;
  md_n_streams : Z;
  md_stream_specs : list stream_spec;
}.

(** The text [where]: the port's tag, the map and the mapping. *)
Definition where_text (w : map_where) : pystr :=
  let r := w_row w in
  lit "STREAM_PORT_" ++ lit (if w_input w then "INPUT" else "OUTPUT") ++ lit "["
  ++ dec (w_port w) ++ lit "] AUDIO_MAP[" ++ dec (w_map w) ++ lit "] mapping ("
  ++ dec (mr_si r) ++ lit "," ++ dec (mr_sc r) ++ lit "," ++ dec (mr_co r) ++ lit ","
  ++ dec (mr_cc r) ++ lit ")".

(** The deviation [_map_row_bounds] records: the stream channel lies past the
    widest format. *)
Definition deviation_text (w : map_where) (widest : Z) (formats : list Z) : pystr :=
  where_text w ++ lit ": stream_channel " ++ dec (mr_sc (w_row w)) ++ lit " >= "
  ++ dec widest ++ lit ", the widest channels_per_frame stream " ++ dec (mr_si (w_row w))
  ++ lit " advertises (" ++ repr_list (map py_hex formats)
  ++ lit ") - 7.2.6 / IEEE 1722-2016 7.3.1".

Definition KNOWN_MAP_DEVIATIONS : list pystr :=
  map (fun c =>
    lit "STREAM_PORT_OUTPUT[0] AUDIO_MAP[0] mapping (0," ++ dec c ++ lit "," ++ dec c
    ++ lit ",0): stream_channel " ++ dec c
    ++ lit " >= 2, the widest channels_per_frame stream 0 advertises (['0x205022000806000']) - 7.2.6 / IEEE 1722-2016 7.3.1")
    (zrange 2 6).

(** [set(got) - set(allow)] must be empty; the recorded deviations, sorted. *)
Definition assert_no_map_deviations (deviations allow : list pystr)
    : result model_error (list pystr) :=
  let got := remove_dups deviations in
  let new := List.filter (fun d => negb (bool_decide (d ∈ allow))) got in
  match new with
  | [] => Ok (sorted_strs got)
  | _ => Err (ENewDeviations (sorted_strs new))
  end.

Definition static_map_of (k : Z) (p : port_spec) (maps : list (list map_row))
    : result model_error (Z * list map_row) :=
  let* _ := raise_if (negb (po_maps p =? 1)) (ENumberOfMaps k (po_maps p)) in
  let bm := po_base_map p in
  let* _ := raise_if (negb ((0 <=? bm) && (bm <? zlen maps))) (EBaseMap k bm) in
  let* rows := sub maps bm in
  let* _ := raise_if (SMAP_MAX_ROWS <? zlen rows) (ETooManyRows k bm (zlen rows)) in
  Ok (bm, rows).

(** [[c for c in map(fmt_channels, formats) if c is not None]]. *)
Definition audio_channels (formats : list Z) : list Z := omap fmt_channels formats.

(** Refuses a mapping out of bounds; returns the recorded deviation. *)
Definition map_row_bounds (w : map_where) (row : map_row) (p : port_spec) (side : MapDirection)
    : result model_error (option pystr) :=
  let* _ := raise_if (po_clusters p <=? mr_co row) (EClusterOffset w) in
  let* _ := raise_if (SMAP_CLUSTER_CHANNELS <=? mr_cc row) (EClusterChannel w) in
  let* _ := raise_if (md_n_streams side <=? mr_si row) (EStreamIndex w) in
  let* s := sub (md_stream_specs side) (mr_si row) in
  match audio_channels (st_formats s) with
  | [] => Err (ENoAudioFormat w)
  | c :: cs =>
      let widest := max_z c cs in
      Ok (if widest <=? mr_sc row then Some (deviation_text w widest (st_formats s)) else None)
  end.

(** The direction-asymmetric duplicate rule: [seen] is one port's cluster
    channels, [cfg_stream_ch] the stream channels of every output port so far. *)
Definition map_duplicate_rule (w : map_where) (row : map_row) (side : MapDirection)
    (seen : gset (Z * Z)) (cfg_stream_ch : gmap (Z * Z) map_where)
    : result model_error (gset (Z * Z) * gmap (Z * Z) map_where) :=
  if md_input side then
    let key := (mr_co row, mr_cc row) in
    if bool_decide (key ∈ seen) then Err (EDuplicateCluster w)
    else Ok ({[key]} ∪ seen, cfg_stream_ch)
  else
    let key := (mr_si row, mr_sc row) in
    match cfg_stream_ch !! key with
    | Some prev => Err (EDuplicateStream w prev)
    | None => Ok (seen, <[key := w]> cfg_stream_ch)
    end.

(** * One direction *)

Record dir_state := DirState {
  ds_addr : list Z;
  ds_rows : list Z;
  ds_moff : list Z;
  ds_dev : list pystr;
  ds_cfg : gmap (Z * Z) map_where;
}.

Definition row_step (side : MapDirection) (k bm : Z) (p : port_spec)
    (st : list pystr * gset (Z * Z) * gmap (Z * Z) map_where) (row : map_row)
    : result model_error (list pystr * gset (Z * Z) * gmap (Z * Z) map_where) :=
  let '(dev, seen, cfg) := st in
  let w := MapWhere (md_input side) k bm row in
  let* d := map_row_bounds w row p side in
  let* sc := map_duplicate_rule w row side seen cfg in
  Ok (dev ++ (match d with Some x => [x] | None => [] end), fst sc, snd sc).

Section Tables.
(** The ROM offset of one descriptor in the model being assembled. *)
Variable base_of : Z -> Z -> result model_error Z.

Definition port_step (side : MapDirection) (maps : list (list map_row)) (st : dir_state)
    (kp : Z * port_spec) : result model_error dir_state :=
  let '(k, p) := kp in
  if is_dynamic p then
    Ok (DirState (ds_addr st ++ [0]) (ds_rows st ++ [0]) (ds_moff st ++ [0]) (ds_dev st) (ds_cfg st))
  else
    let* br := static_map_of k p maps in
    let* r := foldR (row_step side k (fst br) p) (ds_dev st, ∅, ds_cfg st) (snd br) in
    let* a := base_of AUDIO_MAP (fst br) in
    let* img := map_err EDesc (d_audio_map (fst br) (snd br)) in
    let* hi := sub img 4 in
    let* lo := sub img 5 in
    Ok (DirState (ds_addr st ++ [a]) (ds_rows st ++ [zlen (snd br)])
                 (ds_moff st ++ [Z.lor (Z.shiftl hi 8) lo]) (fst (fst r)) (snd r)).

Definition direction_tables (side : MapDirection) (maps : list (list map_row))
    : result model_error dir_state :=
  foldR (port_step side maps) (DirState [] [] [] [] ∅) (enumerate (md_ports side)).

Record smap_tables := SmapTables {
  sm_in_n : Z; sm_out_n : Z;
  sm_in_addr : list Z; sm_in_rows : list Z; sm_in_moff : list Z;
  sm_out_addr : list Z; sm_out_rows : list Z; sm_out_moff : list Z;
  sm_deviations : list pystr;
}.

(** [l or [0]]. *)
Definition or_zero (l : list Z) : list Z := match l with [] => [0] | _ => l end.

Definition static_map_tables (spec : model_spec) (n_str_in n_str_out : Z)
    : result model_error smap_tables :=
  let* _ := raise_if ((SMAP_MAX_PORTS <? zlen (sp_ports_in spec))
                      || (SMAP_MAX_PORTS <? zlen (sp_ports_out spec))) ETooManyPorts in
  let maps := sp_audio_maps spec in
  let inputs := mkMapDirection true (sp_ports_in spec) n_str_in (sp_stream_inputs spec) in
  let outputs := mkMapDirection false (sp_ports_out spec) n_str_out (sp_stream_outputs spec) in
  let* i := direction_tables inputs maps in
  let* o := direction_tables outputs maps in
  Ok (SmapTables (zlen (ds_addr i)) (zlen (ds_addr o))
        (or_zero (ds_addr i)) (or_zero (ds_rows i)) (or_zero (ds_moff i))
        (or_zero (ds_addr o)) (or_zero (ds_rows o)) (or_zero (ds_moff o))
        (ds_dev i ++ ds_dev o)).
End Tables.

(** * The specification of one direction *)

(** Every per-mapping bound. *)
Definition row_ok (side : MapDirection) (p : port_spec) (r : map_row) : Prop :=
  mr_co r < po_clusters p /\ mr_cc r < SMAP_CLUSTER_CHANNELS /\ mr_si r < md_n_streams side /\
  exists s, py_index (md_stream_specs side) (mr_si r) = Some s /\ audio_channels (st_formats s) <> [].

(** The map a static port serves, and its bounds. *)
Definition port_ok (side : MapDirection) (maps : list (list map_row)) (p : port_spec)
    (rows : list map_row) : Prop :=
  po_maps p = 1 /\ 0 <= po_base_map p /\ maps !! Z.to_nat (po_base_map p) = Some rows /\
  zlen rows <= SMAP_MAX_ROWS /\ (forall r, In r rows -> row_ok side p r) /\
  (md_input side = true -> List.NoDup (map (fun r => (mr_co r, mr_cc r)) rows)).

Definition served (maps : list (list map_row)) (p : port_spec) : list map_row :=
  if is_dynamic p then [] else default [] (maps !! Z.to_nat (po_base_map p)).

Definition stream_channels (maps : list (list map_row)) (ports : list port_spec) : list (Z * Z) :=
  map (fun r => (mr_si r, mr_sc r)) (concat (map (served maps) ports)).

(** The whole direction: each static port in bounds, and on the output side one
    entry per stream channel across the configuration. *)
Definition direction_ok (side : MapDirection) (maps : list (list map_row)) : Prop :=
  (forall p, In p (md_ports side) -> is_dynamic p = false -> port_ok side maps p (served maps p)) /\
  (md_input side = false -> List.NoDup (stream_channels maps (md_ports side))).

(** The deviation of one row, when its stream channel is past the widest
    format. *)
Definition row_deviation (side : MapDirection) (k bm : Z) (r : map_row) : list pystr :=
  match py_index (md_stream_specs side) (mr_si r) with
  | Some s =>
      match audio_channels (st_formats s) with
      | c :: cs => if max_z c cs <=? mr_sc r
                   then [deviation_text (MapWhere (md_input side) k bm r) (max_z c cs) (st_formats s)]
                   else []
      | [] => []
      end
  | None => []
  end.

Definition direction_deviations (side : MapDirection) (maps : list (list map_row)) : list pystr :=
  flat_map (fun kp => flat_map (row_deviation side (fst kp) (po_base_map (snd kp)))
                               (served maps (snd kp))) (enumerate (md_ports side)).

(** * Rows *)

Lemma map_row_bounds_spec w row p side :
  (row_ok side p row ->
     exists d, map_row_bounds w row p side = Ok d /\
       (match d with Some x => [x] | None => [] end)
       = (match py_index (md_stream_specs side) (mr_si row) with
          | Some s => match audio_channels (st_formats s) with
                      | c :: cs => if max_z c cs <=? mr_sc row
                                   then [deviation_text w (max_z c cs) (st_formats s)] else []
                      | [] => [] end
          | None => [] end)) /\
  (is_ok (map_row_bounds w row p side) = true -> row_ok side p row).
Proof.
  unfold map_row_bounds, row_ok, sub, raise_if. split.
  - intros (H1 & H2 & H3 & s & Hs & Hc).
    rewrite !(proj2 (Z.leb_gt _ _)) by done. simpl. rewrite Hs. simpl.
    destruct (audio_channels (st_formats s)) as [|c cs]; [done|].
    eexists. split; [done|]. by destruct (_ <=? _).
  - repeat (destruct (_ <=? _) eqn:? at 1; simpl; [done|]). bool_prop.
    destruct (py_index _ _) as [s|] eqn:Hs; simpl; [|done].
    destruct (audio_channels _) as [|c cs] eqn:Hc; [done|]. intros _.
    split_and!; try done. exists s. rewrite Hc. done.
Qed.

(** The key a direction keeps unique, and whether it is already used. *)
Definition row_key (side : MapDirection) (r : map_row) : Z * Z :=
  if md_input side then (mr_co r, mr_cc r) else (mr_si r, mr_sc r).

Definition occupied (side : MapDirection) (seen : gset (Z * Z)) (cfg : gmap (Z * Z) map_where)
    (key : Z * Z) : Prop :=
  if md_input side then key ∈ seen else is_Some (cfg !! key).

Lemma duplicate_rule_spec w row side seen cfg :
  (~ occupied side seen cfg (row_key side row) ->
     exists seen' cfg', map_duplicate_rule w row side seen cfg = Ok (seen', cfg') /\
       forall key, occupied side seen' cfg' key <->
                   key = row_key side row \/ occupied side seen cfg key) /\
  (is_ok (map_duplicate_rule w row side seen cfg) = true ->
     ~ occupied side seen cfg (row_key side row)).
Proof.
  unfold map_duplicate_rule, occupied, row_key. destruct (md_input side); split.
  - intros Hn. rewrite bool_decide_eq_false_2 by done. do 2 eexists. split; [done|]. set_solver.
  - case_bool_decide; [done|]. done.
  - intros Hn. apply eq_None_not_Some in Hn. rewrite Hn. do 2 eexists. split; [done|].
    intros key. rewrite lookup_insert_is_Some'. split; intros [?|?]; auto.
  - destruct (cfg !! _); [done|]. intros _ [? ?]. done.
Qed.

Lemma row_step_total side k bm p dev seen cfg r :
  row_ok side p r -> ~ occupied side seen cfg (row_key side r) ->
  exists seen' cfg',
    row_step side k bm p (dev, seen, cfg) r = Ok (dev ++ row_deviation side k bm r, seen', cfg') /\
    forall key, occupied side seen' cfg' key <-> key = row_key side r \/ occupied side seen cfg key.
Proof.
  intros Hr Ho. unfold row_step.
  destruct (proj1 (map_row_bounds_spec (MapWhere (md_input side) k bm r) r p side) Hr)
    as (d & -> & Hd).
  destruct (proj1 (duplicate_rule_spec (MapWhere (md_input side) k bm r) r side seen cfg) Ho)
    as (seen' & cfg' & -> & Hocc). simpl. exists seen', cfg'. split; [|done].
  by rewrite Hd.
Qed.

Lemma row_step_sound side k bm p dev seen cfg r st :
  row_step side k bm p (dev, seen, cfg) r = Ok st ->
  row_ok side p r /\ ~ occupied side seen cfg (row_key side r).
Proof.
  unfold row_step. intros H. rsplit H. split.
  - eapply map_row_bounds_spec. by rewrite Hm.
  - eapply duplicate_rule_spec. by rewrite Hm0.
Qed.

Lemma rows_total side k bm p rows : forall dev seen cfg,
  (forall r, In r rows -> row_ok side p r) -> List.NoDup (map (row_key side) rows) ->
  (forall r, In r rows -> ~ occupied side seen cfg (row_key side r)) ->
  exists seen' cfg',
    foldR (row_step side k bm p) (dev, seen, cfg) rows
      = Ok (dev ++ flat_map (row_deviation side k bm) rows, seen', cfg') /\
    forall key, occupied side seen' cfg' key <->
      In key (map (row_key side) rows) \/ occupied side seen cfg key.
Proof.
  induction rows as [|r rows IH]; intros dev seen cfg Hok Hnd Hfr; cbn [foldR flat_map map In].
  - exists seen, cfg. rewrite app_nil_r. split; [done|]. tauto.
  - inversion Hnd as [|? ? Hnin Hnd']; subst.
    destruct (row_step_total side k bm p dev seen cfg r) as (s1 & c1 & -> & H1);
      [apply Hok; by left|apply Hfr; by left|]. cbn [rbind].
    destruct (IH (dev ++ row_deviation side k bm r) s1 c1) as (s2 & c2 & -> & H2).
    + intros. apply Hok. by right.
    + done.
    + intros r' Hr'. rewrite H1. intros [Heq|Ho].
      * apply Hnin. rewrite <-Heq. by apply in_map.
      * eapply Hfr; [by right|done].
    + exists s2, c2. rewrite <-app_assoc. split; [done|]. intros key. rewrite H2, H1.
      split; intuition congruence.
Qed.

Lemma rows_sound side k bm p rows : forall dev seen cfg st,
  foldR (row_step side k bm p) (dev, seen, cfg) rows = Ok st ->
  (forall r, In r rows -> row_ok side p r) /\ List.NoDup (map (row_key side) rows) /\
  (forall r, In r rows -> ~ occupied side seen cfg (row_key side r)).
Proof.
  induction rows as [|r rows IH]; intros dev seen cfg st H; cbn [foldR map In] in *.
  - split_and!; try done. constructor.
  - rsplit H. apply row_step_sound in Hm as Hs. destruct Hs as [Hr Ho].
    destruct (row_step_total side k bm p dev seen cfg r Hr Ho) as (s1 & c1 & Heq & H1).
    rewrite Heq in Hm. apply Ok_inj in Hm. subst v.
    apply IH in H as (Hall & Hnd & Hfr). split_and!.
    + intros r' [<-|?]; auto.
    + constructor; [|done]. intros Hin. apply in_map_iff in Hin as (r' & Hk & Hr').
      apply (Hfr _ Hr'). rewrite H1. by left.
    + intros r' [<-|Hr']; [done|]. intros Ho'. apply (Hfr _ Hr'). rewrite H1. by right.
Qed.

(** * Ports *)

Lemma d_audio_map_total i rows : exists b, d_audio_map i rows = Ok b /\
  py_index b 4 = Some 0 /\ py_index b 5 = Some 8.
Proof.
  unfold d_audio_map, assert_len.
  replace (zlen (be16 AUDIO_MAP ++ be16 i ++ be16 8 ++ be16 (zlen rows)) =? 8) with true
    by (symmetry; apply Z.eqb_eq; by len_tac).
  eexists. split; [done|]. unfold py_index. simpl. split; reflexivity.
Qed.

Section Direction.
Context (base_of : Z -> Z -> result model_error Z) (side : MapDirection)
        (maps : list (list map_row)).
Hypothesis Hbase : forall k, 0 <= k < zlen maps -> exists a, base_of AUDIO_MAP k = Ok a.

Definition addr_of (p : port_spec) (a : Z) : Prop :=
  if is_dynamic p then a = 0 else base_of AUDIO_MAP (po_base_map p) = Ok a.

Definition port_moff (p : port_spec) : Z := if is_dynamic p then 0 else 8.

Definition fresh (cfg : gmap (Z * Z) map_where) (p : port_spec) : Prop :=
  md_input side = false ->
  List.NoDup (stream_channels maps [p]) /\
  forall key, In key (stream_channels maps [p]) -> cfg !! key = None.

Lemma static_map_of_spec k p br :
  static_map_of k p maps = Ok br <->
  po_maps p = 1 /\ 0 <= po_base_map p /\ fst br = po_base_map p /\
  maps !! Z.to_nat (po_base_map p) = Some (snd br) /\ zlen (snd br) <= SMAP_MAX_ROWS.
Proof using Type.
  unfold static_map_of. split.
  - intros H. rsplit H. bool_prop. subst br. simpl.
    apply sub_Ok in Hm1. unfold py_index in Hm1. rewrite (proj2 (Z.leb_le _ _)) in Hm1 by done.
    split_and!; try done; lia.
  - destruct br as [bm rows]. simpl. intros (H1 & H2 & -> & H4 & H5).
    rewrite H1. simpl. apply lookup_lt_Some in H4 as Hlt.
    rewrite (proj2 (Z.leb_le _ _)), (proj2 (Z.ltb_lt _ (zlen maps))) by (unfold zlen; lia).
    simpl. unfold sub, py_index. rewrite (proj2 (Z.leb_le _ _)), H4 by done. simpl.
    unfold raise_if. rewrite (proj2 (Z.ltb_ge _ _)) by done. done.
Qed.

Lemma stream_channels_one p rows :
  is_dynamic p = false -> maps !! Z.to_nat (po_base_map p) = Some rows ->
  stream_channels maps [p] = map (fun r => (mr_si r, mr_sc r)) rows.
Proof using Type. intros Hd Hr. unfold stream_channels, served. simpl. by rewrite Hd, Hr, app_nil_r. Qed.

Lemma port_step_total k p st :
  (is_dynamic p = false -> port_ok side maps p (served maps p)) -> fresh (ds_cfg st) p ->
  exists a cfg', port_step base_of side maps st (k, p)
      = Ok (DirState (ds_addr st ++ [a]) (ds_rows st ++ [zlen (served maps p)])
              (ds_moff st ++ [port_moff p])
              (ds_dev st ++ flat_map (row_deviation side k (po_base_map p)) (served maps p)) cfg') /\
    addr_of p a /\
    (md_input side = false -> forall key, is_Some (cfg' !! key) <->
       In key (stream_channels maps [p]) \/ is_Some (ds_cfg st !! key)).
Proof using All.
  intros Hok Hfr. unfold port_step, addr_of, port_moff.
  destruct (is_dynamic p) eqn:Hd.
  - exists 0, (ds_cfg st). unfold stream_channels, served. rewrite Hd. simpl.
    rewrite Hd, app_nil_r. split_and!; try done. intros _ key. simpl. tauto.
  - specialize (Hok eq_refl) as (H1 & H2 & H3 & H4 & H5 & H6). unfold fresh in Hfr.
    rewrite (stream_channels_one _ _ Hd H3) in *.
    set (rows := served maps p) in *.
    rewrite (proj2 (static_map_of_spec k p (po_base_map p, rows))) by done. cbn [rbind fst snd].
    destruct (rows_total side k (po_base_map p) p rows (ds_dev st) ∅ (ds_cfg st))
      as (seen' & cfg' & -> & Hocc).
    + done.
    + unfold row_key. destruct (md_input side); [by apply H6|by apply Hfr].
    + intros r Hr. unfold occupied, row_key. destruct (md_input side); [set_solver|].
      rewrite (proj2 (Hfr eq_refl)); [by intros [? ?]|]. by apply (in_map (fun r => (mr_si r, mr_sc r))).
    + cbn [rbind fst snd].
      destruct (Hbase (po_base_map p)) as [a Ha].
      { apply lookup_lt_Some in H3. unfold zlen. lia. }
      destruct (d_audio_map_total (po_base_map p) rows) as (b & Hb & Hi & Lo).
      rewrite Ha, Hb. cbn [rbind map_err]. unfold sub. rewrite Hi, Lo. cbn [rbind].
      exists a, cfg'. split_and!; try done.
      intros Hin key. specialize (Hocc key). unfold occupied, row_key in Hocc.
      rewrite Hin in Hocc. exact Hocc.
Qed.

Lemma port_step_sound k p st st' :
  port_step base_of side maps st (k, p) = Ok st' ->
  (is_dynamic p = false -> port_ok side maps p (served maps p)) /\ fresh (ds_cfg st) p.
Proof using Type.
  unfold port_step, fresh. intros H. destruct (is_dynamic p) eqn:Hd.
  - split; [done|]. unfold stream_channels, served. simpl. rewrite Hd. simpl.
    intros _. split; [constructor|done].
  - rsplit H. apply static_map_of_spec in Hm as (H1 & H2 & H3 & H4 & H5).
    rewrite (stream_channels_one _ _ Hd H4). unfold served. rewrite Hd, H4. simpl.
    apply rows_sound in Hm0 as (Hall & Hnd & Hocc). unfold row_key, occupied in *. split.
    + intros _. split_and!; try done. intros Hi. by rewrite Hi in Hnd.
    + intros Hi. rewrite Hi in *. split; [done|]. intros key Hk.
      apply in_map_iff in Hk as (r & <- & Hr). apply eq_None_not_Some. by apply Hocc.
Qed.

Lemma stream_channels_cons p ports :
  stream_channels maps (p :: ports) = stream_channels maps [p] ++ stream_channels maps ports.
Proof using Type. unfold stream_channels. simpl. rewrite map_app. by rewrite app_nil_r. Qed.

Definition ports_ok (cfg : gmap (Z * Z) map_where) (ports : list port_spec) : Prop :=
  (forall p, In p ports -> is_dynamic p = false -> port_ok side maps p (served maps p)) /\
  (md_input side = false -> List.NoDup (stream_channels maps ports) /\
     forall key, In key (stream_channels maps ports) -> cfg !! key = None).

Lemma ports_total ports : forall k st,
  ports_ok (ds_cfg st) ports ->
  exists addrs cfg', foldR (port_step base_of side maps) st (enum_from k ports)
      = Ok (DirState (ds_addr st ++ addrs) (ds_rows st ++ map (fun p => zlen (served maps p)) ports)
              (ds_moff st ++ map port_moff ports)
              (ds_dev st ++ flat_map (fun kp => flat_map (row_deviation side (fst kp) (po_base_map (snd kp)))
                                        (served maps (snd kp))) (enum_from k ports)) cfg') /\
    Forall2 addr_of ports addrs.
Proof using All.
  induction ports as [|p ports IH]; intros k st [Hok Hnd]; cbn [foldR enum_from map flat_map].
  - exists [], (ds_cfg st). rewrite !app_nil_r. destruct st. split; [done|constructor].
  - rewrite stream_channels_cons in Hnd.
    destruct (port_step_total k p st) as (a & cfg1 & -> & Ha & Hc1).
    { intros Hd. apply Hok; [by left|done]. }
    { intros Hi. destruct (Hnd Hi) as [Hn Hf]. split; [by apply NoDup_app_remove_r in Hn|].
      intros key Hk. apply Hf. apply in_app_iff. by left. }
    cbn [rbind].
    edestruct (IH (k + 1)) as (addrs & cfg2 & -> & Hall); simpl; cycle 1.
    + exists (a :: addrs), cfg2. rewrite <-!app_assoc. split; [done|by constructor].
    + split; [intros p' Hp' Hd; apply Hok; [by right|done]|].
      intros Hi. destruct (Hnd Hi) as [Hn Hf]. split; [by apply NoDup_app_remove_l in Hn|].
      intros key Hk. apply eq_None_not_Some. rewrite (Hc1 Hi). intros [Hin|Hs].
      * revert Hn Hin Hk. clear. generalize (stream_channels maps [p]), (stream_channels maps ports).
        intros l1 l2 Hn H1 H2. induction l1 as [|x l1 IH]; [done|]. simpl in *.
        inversion Hn as [|? ? Hx Hn']; subst. destruct H1 as [->|H1]; [|by apply IH].
        apply Hx, in_app_iff. by right.
      * rewrite Hf in Hs; [by destruct Hs|]. apply in_app_iff. by right.
Qed.

Lemma ports_sound ports : forall k st st',
  foldR (port_step base_of side maps) st (enum_from k ports) = Ok st' -> ports_ok (ds_cfg st) ports.
Proof using All.
  induction ports as [|p ports IH]; intros k st st' H; cbn [foldR enum_from] in H.
  - split; [done|]. intros _. split; [constructor|done].
  - rsplit H. apply port_step_sound in Hm as Hs. destruct Hs as [Hok Hfr].
    destruct (port_step_total k p st Hok Hfr) as (a & cfg1 & Heq & _ & Hc1).
    rewrite Heq in Hm. apply Ok_inj in Hm. subst v. apply IH in H as [Hok' Hnd'].
    split; [intros p' [<-|Hp']; auto|]. intros Hi. specialize (Hc1 Hi).
    destruct (Hfr Hi) as [Hn1 Hf1]. destruct (Hnd' Hi) as [Hn2 Hf2].
    rewrite stream_channels_cons. simpl in Hf2. split.
    + revert Hf2 Hc1 Hn1 Hn2. generalize (stream_channels maps [p]), (stream_channels maps ports).
      intros l1 l2 Hf2 Hc1 Hn1 Hn2. apply NoDup_ListNoDup, NoDup_app.
      rewrite <-!NoDup_ListNoDup in *. split_and!; try done. intros x Hx1 Hx2.
      rewrite list_elem_of_In in *. apply Hf2 in Hx2. rewrite eq_None_not_Some, Hc1 in Hx2. tauto.
    + intros key [Hk|Hk]%in_app_iff; [by apply Hf1|].
      apply Hf2 in Hk. rewrite eq_None_not_Some, Hc1 in Hk. rewrite eq_None_not_Some. tauto.
Qed.

Lemma direction_ok_ports : direction_ok side maps <-> ports_ok ∅ (md_ports side).
Proof using Type.
  unfold direction_ok, ports_ok. split; intros [H1 H2]; (split; [done|]).
  - intros Hi. split; [by apply H2|done].
  - intros Hi. by apply H2.
Qed.
End Direction.

(** * Properties *)

(** Two static output ports over one AAF stream, and a dynamic input. *)
Definition sample_port (clusters base maps base_map : Z) (mode : option string) : port_spec :=
  PortSpec clusters base maps base_map mode None None None None.
Definition sample_maps : list (list map_row) :=
  [[MapRow 0 0 0 0; MapRow 0 1 1 0]; [MapRow 0 2 0 0]].
Definition sample_streams : list stream_spec :=
  [StreamSpec (lit "S") None [0x0205022000806000] 0].
Definition sample_side : MapDirection :=
  mkMapDirection false [sample_port 2 0 1 0 None; sample_port 2 2 1 1 None] 1 sample_streams.
Definition sample_base (t k : Z) : result model_error Z := Ok (1000 + 100 * k).

(** C37: One direction of the AUDIO_MAP gate refuses exactly the models that
    break a bound: it succeeds if and only if every static port declares one
    existing map of at most 62 mappings, each inside its own port's clusters,
    its cluster's channel count and its direction's streams with an audio
    format, and the duplicate rule of that direction holds (inputs: one entry
    per cluster channel of a port; outputs: one entry per stream channel across
    the configuration). *)
Theorem direction_tables_iff base_of side maps :
  (forall k, 0 <= k < zlen maps -> exists a, base_of AUDIO_MAP k = Ok a) ->
  is_ok (direction_tables base_of side maps) = true <-> direction_ok side maps.
Proof.
  intros Hb. rewrite direction_ok_ports. unfold direction_tables, enumerate. split.
  - destruct (foldR _ _ _) as [st|] eqn:E; [|done]. intros _.
    by apply (ports_sound base_of side maps Hb) in E.
  - intros H. destruct (ports_total base_of side maps Hb (md_ports side) 0 (DirState [] [] [] [] ∅) H)
      as (a & c & -> & _). done.
Qed.

Lemma direction_tables_iff_witness :
  direction_ok sample_side sample_maps /\
  ~ direction_ok sample_side [[MapRow 0 0 0 0; MapRow 0 1 1 0]; [MapRow 0 1 0 0]].
Proof.
  split.
  - apply (direction_tables_iff sample_base); [intros k Hk; eexists; reflexivity|reflexivity].
  - intros H. apply (direction_tables_iff sample_base) in H; [discriminate H|].
    intros k Hk. eexists. reflexivity.
Defined.

(** What the serving tables hold when [static_map_tables] succeeds: per
    port, in descriptor order, the ROM offset of the port's own map, its number
    of mappings and the descriptor's mappings offset 8, with zeros for a dynamic
    port; the recorded deviations are exactly the mappings whose stream channel
    is past the widest format of their stream. *)
Theorem static_map_tables_contents base_of spec n_in n_out t :
  (forall k, 0 <= k < zlen (sp_audio_maps spec) -> exists a, base_of AUDIO_MAP k = Ok a) ->
  static_map_tables base_of spec n_in n_out = Ok t ->
  let maps := sp_audio_maps spec in
  sm_in_n t = zlen (sp_ports_in spec) /\ sm_out_n t = zlen (sp_ports_out spec) /\
  sm_in_n t <= 32 /\ sm_out_n t <= 32 /\
  sm_in_rows t = or_zero (map (fun p => zlen (served maps p)) (sp_ports_in spec)) /\
  sm_out_rows t = or_zero (map (fun p => zlen (served maps p)) (sp_ports_out spec)) /\
  sm_in_moff t = or_zero (map port_moff (sp_ports_in spec)) /\
  sm_out_moff t = or_zero (map port_moff (sp_ports_out spec)) /\
  (exists ia oa, sm_in_addr t = or_zero ia /\ sm_out_addr t = or_zero oa /\
     Forall2 (addr_of base_of) (sp_ports_in spec) ia /\
     Forall2 (addr_of base_of) (sp_ports_out spec) oa) /\
  sm_deviations t
  = direction_deviations (mkMapDirection true (sp_ports_in spec) n_in (sp_stream_inputs spec)) maps
    ++ direction_deviations (mkMapDirection false (sp_ports_out spec) n_out (sp_stream_outputs spec)) maps.
Proof.
  intros Hb H. unfold static_map_tables in H. rsplit H. bool_prop. subst t. cbv zeta.
  unfold direction_tables, enumerate in *. cbn [md_ports] in *.
  pose proof (ports_sound base_of _ _ Hb _ _ _ _ Hm0) as Hi.
  pose proof (ports_sound base_of _ _ Hb _ _ _ _ Hm1) as Ho.
  destruct (ports_total base_of _ _ Hb _ 0 _ Hi) as (ia & ic & Ei & Fi).
  destruct (ports_total base_of _ _ Hb _ 0 _ Ho) as (oa & oc & Eo & Fo).
  cbn [md_ports] in Ei, Eo, Fi, Fo. rewrite Ei in Hm0. rewrite Eo in Hm1. apply Ok_inj in Hm0, Hm1. subst. simpl.
  assert (zlen ia = zlen (sp_ports_in spec)) as Li by (unfold zlen; by rewrite (Forall2_length _ _ _ Fi)).
  assert (zlen oa = zlen (sp_ports_out spec)) as Lo by (unfold zlen; by rewrite (Forall2_length _ _ _ Fo)).
  rewrite Li, Lo. unfold SMAP_MAX_PORTS in *. split_and!; try done. by exists ia, oa.
Qed.

Definition sample_model_spec : model_spec :=
  ModelSpec (EntityStrings [] [] [] [] []) None None None [] 0 [] sample_streams sample_streams []
    [sample_port 8 0 0 0 (Some "dynamic"%string)] (md_ports sample_side) sample_maps None None [].

Lemma static_map_tables_contents_witness :
  exists t, static_map_tables sample_base sample_model_spec 1 1 = Ok t /\
    sm_out_rows t = [2; 1] /\ sm_in_moff t = [0] /\ zlen (sm_deviations t) = 1.
Proof.
  eexists. split; [vm_compute; reflexivity|].
  match goal with |- sm_out_rows ?t = _ /\ _ =>
    destruct (static_map_tables_contents sample_base sample_model_spec 1 1 t)
      as (_ & _ & _ & _ & _ & Hr & Hm & _ & _ & _) end.
  - intros k Hk. eexists. reflexivity.
  - vm_compute; reflexivity.
  - rewrite Hr, Hm. split_and!; reflexivity.
Defined.

(** The deviation gate passes exactly when every deviation of the model is on
    the recorded list, and then returns each of them once, in order. *)
Theorem assert_no_map_deviations_spec deviations allow :
  (is_ok (assert_no_map_deviations deviations allow) = true <->
     forall d, In d deviations -> In d allow) /\
  (forall l, assert_no_map_deviations deviations allow = Ok l ->
     List.NoDup l /\ (forall d, In d l <-> In d deviations) /\ StronglySorted str_le l).
Proof.
  unfold assert_no_map_deviations.
  destruct (List.filter _ (remove_dups deviations)) as [|d l] eqn:E; simpl; split.
  - split; [|done]. intros _ d Hd.
    destruct (decide (d ∈ allow)) as [Hin|Hno]; [by apply list_elem_of_In|].
    assert (In d []) as []. rewrite <-E. apply List.filter_In. split.
    + by apply list_elem_of_In, elem_of_remove_dups, list_elem_of_In.
    + by rewrite bool_decide_eq_false_2.
  - intros l [= <-]. unfold sorted_strs. split_and!.
    + apply NoDup_ListNoDup. rewrite merge_sort_Permutation. apply NoDup_remove_dups.
    + intros d. rewrite <-!list_elem_of_In, merge_sort_Permutation. apply elem_of_remove_dups.
    + apply StronglySorted_merge_sort; [exact str_le_trans|exact str_le_total].
  - split; [done|]. intros Hall. exfalso.
    assert (In d (d :: l)) as Hd by (by left). rewrite <-E in Hd. apply List.filter_In in Hd as [Hd Hn].
    bool_prop. apply Hn. apply list_elem_of_In, Hall, list_elem_of_In.
    by apply elem_of_remove_dups, list_elem_of_In.
  - done.
Qed.
