(* ===== verification/Assemble.v ===== *)
(** From a spec to the ROM and its tables ([avdecc/aem_assemble.py]).

    [build_model] is the one entry point: it lays the descriptors out in append
    order ([entity_descriptors], [port_descriptors]), concatenates them
    ([rom_image]), and derives every table the gateware reads from that layout.
    [base_of] inside [build_model] resolves against the directory being
    assembled, so it is passed on as a closure exactly as the source does. *)
From S2P Require Import Prelude Unicode Descriptors Directory Text Model AudioMaps.
From S2P Require Config.

(** One placed descriptor: [(type, index, bytes)]. *)
Abbreviation desc := (Z * Z * bytes)%type.

Definition lift {A} (m : result desc_error A) : result model_error A := map_err EDesc m.
Definition lift_dir {A} (m : result dir_error A) : result model_error A := map_err EDir m.

(** One [for k, x in enumerate(l): descs.append((t, k, d(k, x)))]. *)
Definition desc_rows {A} (t : Z) (d : Z -> A -> result desc_error bytes) (l : list A)
    : result model_error (list desc) :=
  mapR (fun kx => let* b := lift (d (fst kx) (snd kx)) in Ok (t, fst kx, b)) (enumerate l).

Definition one_row (t : Z) (d : result desc_error bytes) : result model_error (list desc) :=
  let* b := lift d in Ok [(t, 0, b)].

Definition port_bounds (p : port_spec) : PortMapBounds :=
  mkPortMapBounds (po_clusters p) (po_base_cluster p)
    (if is_dynamic p then 0 else po_maps p) (if is_dynamic p then 0 else po_base_map p).

(** [d[k]] of a dict. *)
Definition key {A} (m : gmap string A) (k : string) : result model_error A :=
  match m !! k with Some v => Ok v | None => Err EKeyError end.

Definition entity_descriptors (spec : model_spec) : result model_error (list desc) :=
  let si := sp_stream_inputs spec in
  let so := sp_stream_outputs spec in
  let names := default ∅ (sp_names spec) ∪ OBJECT_NAMES in
  let* d_ent := one_row ENTITY (d_entity (sp_entity spec)) in
  let* n_conf := key names "configuration" in
  let* d_conf := one_row CONFIGURATION
    (d_configuration (zlen si) (zlen so) (zlen (sp_clock_sources spec)) n_conf) in
  let* n_unit := key names "audio_unit" in
  let* d_unit := one_row AUDIO_UNIT
    (d_audio_unit (sp_rates spec) (sp_current_rate spec) (zlen (sp_ports_in spec))
                  (zlen (sp_ports_out spec)) n_unit) in
  let* d_in := desc_rows STREAM_INPUT
    (fun k s => d_stream STREAM_INPUT k (st_name s) 0x0003 (st_formats s) (st_buffer s)) si in
  let* d_out := desc_rows STREAM_OUTPUT
    (fun k s => d_stream STREAM_OUTPUT k (st_name s)
                  (if String.eqb (kind_of s) "crf" then 0x0003 else 0x0002) (st_formats s) 0) so in
  let* n_avb := key names "avb_interface" in
  let* d_avb := one_row AVB_INTERFACE (d_avb_interface (sp_gptp spec) n_avb) in
  let* d_cs := desc_rows CLOCK_SOURCE
    (fun k cs => d_clock_source k (cs_name cs) (cs_type cs) (cs_loc_type cs) (cs_loc_index cs))
    (sp_clock_sources spec) in
  let* n_dom := key names "clock_domain" in
  let* d_dom := one_row CLOCK_DOMAIN (d_clock_domain (zlen (sp_clock_sources spec)) n_dom) in
  let* n_ctl := key names "control_identify" in
  let* d_ctl := one_row CONTROL (d_control_identify n_ctl) in
  let locale := match sp_locale spec with
                | None | Some [] => LOCALE_IDENTIFIER
                | Some l => l
                end in
  let* d_loc := one_row LOCALE (d_locale locale) in
  let* d_str := one_row STRINGS
    (d_strings [e_name (sp_entity spec); sp_rates_string spec; e_vendor_name (sp_entity spec);
                []; []; []; []]) in
  Ok (d_ent ++ d_conf ++ d_unit ++ d_in ++ d_out ++ d_avb ++ d_cs ++ d_dom ++ d_ctl ++ d_loc ++ d_str).

(** [spec.get(key) or [default] * n]. *)
Definition cluster_names (l : option (list pystr)) (dflt : pystr) (n : Z) : list pystr :=
  match l with
  | None | Some [] => repeat dflt (Z.to_nat n)
  | Some l => l
  end.

(** The loop [for k in range(first, first + n)] over one direction's clusters. *)
Definition cluster_rows (first n : Z) (names : list pystr) (signal_type : Z)
    : result model_error (list desc) :=
  mapR (fun k => let* name := sub names (k - first) in
                 let* b := lift (d_audio_cluster k name signal_type) in
                 Ok (AUDIO_CLUSTER, k, b)) (zrange first (Z.to_nat n)).

Definition port_descriptors (spec : model_spec) : result model_error (list desc) :=
  let* d_in := desc_rows STREAM_PORT_INPUT
    (fun k p => d_stream_port STREAM_PORT_INPUT k 0x0001 (port_bounds p)) (sp_ports_in spec) in
  let* d_out := desc_rows STREAM_PORT_OUTPUT
    (fun k p => d_stream_port STREAM_PORT_OUTPUT k 0x0000 (port_bounds p)) (sp_ports_out spec) in
  let n_in := sum_z (map po_clusters (sp_ports_in spec)) in
  let n_out := sum_z (map po_clusters (sp_ports_out spec)) in
  let names_in := cluster_names (sp_cluster_names_in spec) (lit "Input") n_in in
  let names_out := cluster_names (sp_cluster_names_out spec) (lit "Output") n_out in
  let* _ := raise_if (negb (zlen names_in =? n_in) || negb (zlen names_out =? n_out))
                     (EClusterNames (zlen names_in) (zlen names_out)) in
  let* c_in := cluster_rows 0 n_in names_in NO_STRING in
  let* c_out := cluster_rows n_in n_out names_out AUDIO_UNIT in
  let* d_map := desc_rows AUDIO_MAP (fun k rows => d_audio_map k rows) (sp_audio_maps spec) in
  Ok (d_in ++ d_out ++ c_in ++ c_out ++ d_map).

(** The flat ROM and its directory: one loop over the descriptors. *)
Definition rom_step (st : bytes * list dir_entry) (d : desc) : bytes * list dir_entry :=
  let '(rom, directory) := st in
  let '(t, i, img) := d in
  (rom ++ img, directory ++ [DirEntry t i (zlen rom) (zlen img)]).

Definition rom_image (descs : list desc) : result model_error (bytes * list dir_entry) :=
  let st := fold_left rom_step descs ([], []) in
  let* _ := raise_if (0x10000 <? zlen (fst st) + 64) (ERomTooLarge (zlen (fst st))) in
  Ok st.

(** [base_of] of one directory. *)
Definition base_in (directory : list dir_entry) (t i : Z) : result model_error Z :=
  let* e := py_next (fun e => (de_type e =? t) && (de_index e =? i)) directory in
  Ok (de_base e).

(** * Tables over the layout *)

Section Tables.
Variable base_of : Z -> Z -> result model_error Z.

(** [(rom_addr, nbytes, source)]. *)
Definition read_overlays : result model_error (list (Z * Z * string)) :=
  let* E := base_of ENTITY 0 in
  let* A := base_of AVB_INTERFACE 0 in
  Ok [(E + 4, 8, "ENTITY_ID"); (E + 12, 8, "MODEL_ID"); (E + 20, 4, "ECAPS");
      (E + 24, 2, "TALKER_SRC"); (E + 26, 2, "TALKER_CAP"); (E + 28, 2, "LISTEN_SINK");
      (E + 30, 2, "LISTEN_CAP"); (E + 32, 4, "CTRL_CAP"); (E + 36, 4, "AVAIL_IDX");
      (E + 40, 8, "ASSOC_ID"); (E + 48, 8, "ENT_NAME8"); (E + 310, 2, "CURRENT_CFG");
      (A + 70, 6, "MAC"); (A + 78, 8, "CLOCK_ID")]%string.

Definition writeback_targets (spec : model_spec) : result model_error (list (string * Z)) :=
  let* au := base_of AUDIO_UNIT 0 in
  let* so := base_of STREAM_OUTPUT 0 in
  let* fmts := mapR (fun k => let* b := base_of STREAM_INPUT k in
                              Ok (("STREAM_IN" ++ pretty k ++ "_FMT")%string, b + 74))
                    (zrange 0 (length (sp_stream_inputs spec))) in
  let* dom := base_of CLOCK_DOMAIN 0 in
  let* ctl := base_of CONTROL 0 in
  let* maps := mapR (fun k => let* b := base_of AUDIO_MAP k in
                              Ok (("AUDIO_MAP_" ++ pretty k)%string, b))
                    (zrange 0 (length (sp_audio_maps spec))) in
  Ok ([("SAMPLING_RATE"%string, au + 136); ("STREAM_FORMAT"%string, so + 74)] ++ fmts
      ++ [("CLOCK_SRC_IDX"%string, dom + 70); ("CONTROL_CUR"%string, ctl + 108)] ++ maps).

Record per_stream := PerStream {
  ps_in_crf : list bool;
  ps_in_fmt0 : list Z;
  ps_out_fmt0 : list Z;
  ps_in_wb : list Z;
  ps_out_wb : list Z;
  ps_emit : bool;
}.

Definition per_stream_tables (spec : model_spec) : result model_error per_stream :=
  let si := sp_stream_inputs spec in
  let so := sp_stream_outputs spec in
  let* f_in := mapR (fun s => sub (st_formats s) 0) si in
  let* f_out := mapR (fun s => sub (st_formats s) 0) so in
  let* wb_in := mapR (fun k => let* b := base_of STREAM_INPUT k in Ok (b + 74)) (zrange 0 (length si)) in
  let* wb_out := mapR (fun k => let* b := base_of STREAM_OUTPUT k in Ok (b + 74)) (zrange 0 (length so)) in
  Ok (PerStream (map (fun s => String.eqb (kind_of s) "crf") si) f_in f_out wb_in wb_out
        ((2 <? zlen si) || (1 <? zlen so))).
End Tables.

Definition NAMED_TYPES : list Z :=
  [CONFIGURATION; AUDIO_UNIT; STREAM_INPUT; STREAM_OUTPUT; AVB_INTERFACE; CLOCK_SOURCE;
   CLOCK_DOMAIN; CONTROL; AUDIO_CLUSTER].

Definition named_addresses (directory : list dir_entry) (entity_base : Z) : list named_entry :=
  let E := entity_base in
  [Named ENTITY 0 0 (E + 48); Named ENTITY 0 1 (E + 180)]
  ++ map (fun e => Named (de_type e) (de_index e) 0 (de_base e + 4))
         (List.filter (fun e => existsb (Z.eqb (de_type e)) NAMED_TYPES) directory).

(** * Dynamic map engines *)

Definition RENDER_PHYS_LANES : list (string * (Z * Z)) := [("i2s", (0, 2)); ("tdm", (2, 8))]%string.
Definition CHMAP_PHYS_DEPTH : Z := max_z 0 (map (fun l => fst (snd l) + snd (snd l)) RENDER_PHYS_LANES).

Record dynmap := DynMap {
  dm_keys : Z; dm_page : Z; dm_nports : Z;
  dm_pdyn : list bool; dm_pbase : list Z; dm_pcls : list Z; dm_pnmaps : list Z;
  dm_nstrin : Z; dm_saaf : list bool; dm_sch : list Z; dm_phys : Z;
}.

(** [((formats[0] >> 22) & 0x3FF)]. *)
Definition first_channels (s : stream_spec) : result model_error Z :=
  let* f := sub (st_formats s) 0 in Ok (Z.land (Z.shiftr f 22) 0x3FF).

(** [{int(p["map_page"]) for p in dyn_in if p.get("map_page")}]. *)
Definition explicit_pages (dyn_in : list port_spec) : list Z :=
  remove_dups (omap (fun p => match po_map_page p with
                              | Some n => if n =? 0 then None else Some n
                              | None => None end) dyn_in).

(** [None] is [EMIT = False]. *)
Definition dynmap_tables (spec : model_spec) : result model_error (option dynmap) :=
  let si := sp_stream_inputs spec in
  let pin := sp_ports_in spec in
  let dyn_in := List.filter is_dynamic pin in
  match dyn_in with
  | [] => Ok None
  | _ =>
      let explicit := explicit_pages dyn_in in
      let* _ := raise_if (1 <? zlen explicit) (EMapPages (sorted_z explicit)) in
      let* page := match explicit with
                   | n :: _ => Ok n
                   | [] => let* m := py_max (map po_clusters dyn_in) in Ok (Z.min m 8)
                   end in
      let* _ := raise_if (negb ((1 <=? page) && (page <=? 9))) (EMapPageRange page) in
      let* keys := py_max (map (fun p => po_base_cluster p + po_clusters p) dyn_in) in
      let* _ := raise_if (64 <? keys) (EMapKeys keys) in
      let si_aaf := map (fun s => String.eqb (kind_of s) "aaf") si in
      let* si_ch := mapR (fun s => if String.eqb (kind_of s) "aaf" then first_channels s else Ok 0) si in
      Ok (Some (DynMap keys page (zlen pin) (map is_dynamic pin) (map po_base_cluster pin)
            (map po_clusters pin)
            (map (fun p => if is_dynamic p then - ((- po_clusters p) / page) else po_maps p) pin)
            (zlen si) si_aaf si_ch CHMAP_PHYS_DEPTH))
  end.

Record init_row := InitRow { in_v : bool; in_co : Z }.

Record odmap := OdMap {
  od_keys : Z; od_nports : Z; od_pdyn : list bool; od_pcls : list Z; od_pcbase : list Z;
  od_pstr : list Z; od_slotb : list Z; od_sch : list Z;
  od_csrc : list cluster_source; od_init : list init_row;
}.

(** The packetizer's pair-slot prefix sum. *)
Fixpoint slot_bases (acc : Z) (so_ch : list Z) : list Z :=
  match so_ch with [] => [] | c :: l => acc :: slot_bases (acc + (c + 1) / 2) l end.

Definition invalid_source : cluster_source := ClusterSource 0 0 0 0 (Some false).

(** [p.get("stream_index", j)]. *)
Definition port_stream (j : Z) (p : port_spec) : Z := default j (po_stream_index p).

(** One stream channel of the identity image; the conditions are evaluated left
    to right and stop at the first false one. *)
Definition identity_row (so_ch : list Z) (stream clusters ic0 c : Z) (srcs : list cluster_source)
    : result model_error init_row :=
  let co := ic0 + c in
  let* ch := sub so_ch stream in
  if negb (c <? ch) then Ok (InitRow false 0)
  else if negb (co <? clusters) then Ok (InitRow false 0)
  else
    let* s := sub srcs co in
    let ok := default true (sr_valid s) && ((sr_src s =? 4) || (sr_half s =? c mod 2)) in
    Ok (InitRow ok (if ok then co else 0)).

Definition port_sources (j : Z) (p : port_spec) : result model_error (list cluster_source) :=
  let* srcs := match po_cluster_sources p with
               | Some srcs => Ok srcs
               | None =>
                   if is_dynamic p then Err (ENoClusterSources j)
                   else Ok (repeat invalid_source (Z.to_nat (po_clusters p)))
               end in
  let* _ := raise_if (negb (zlen srcs =? po_clusters p))
                     (EClusterSourceCount j (zlen srcs) (po_clusters p)) in
  Ok srcs.

(** The loop over the output ports: [pcbase], [csrc] and [init]. *)
Definition odmap_port_step (so_ch : list Z)
    (st : list Z * list cluster_source * list init_row) (jp : Z * port_spec)
    : result model_error (list Z * list cluster_source * list init_row) :=
  let '(pcbase, csrc, init) := st in
  let '(j, p) := jp in
  let* srcs := port_sources j p in
  let* rows := mapR (fun c => identity_row so_ch (port_stream j p) (po_clusters p)
                                (default 0 (po_identity_offset p)) c srcs) (zrange 0 8) in
  Ok (pcbase ++ [zlen csrc], csrc ++ srcs, init ++ rows).

Definition odmap_tables (spec : model_spec) (dynmap_emit : bool) : result model_error (option odmap) :=
  let so := sp_stream_outputs spec in
  let pout := sp_ports_out spec in
  let emit := existsb is_dynamic pout in
  let* _ := raise_if (emit && negb dynmap_emit) EDynOutWithoutIn in
  if emit then
    let* so_ch := mapR first_channels so in
    let* st := foldR (odmap_port_step so_ch) ([], [], []) (enumerate pout) in
    let '(pcbase, csrc, init) := st in
    let* slotb := mapR (fun jp => sub (slot_bases 0 so_ch) (port_stream (fst jp) (snd jp))) (enumerate pout) in
    let* sch := mapR (fun jp => sub so_ch (port_stream (fst jp) (snd jp))) (enumerate pout) in
    Ok (Some (OdMap (8 * zlen pout) (zlen pout) (map is_dynamic pout) (map po_clusters pout) pcbase
                (map (fun jp => port_stream (fst jp) (snd jp)) (enumerate pout)) slotb sch csrc init))
  else Ok None.

(** * The model *)

Record aem_model := AemModel {
  am_rom : bytes;
  am_directory : list dir_entry;
  am_rom_size : Z;
  am_overlays : list (Z * Z * string);
  am_wb : list (string * Z);
  am_named : list named_entry;
  am_n_clksrc : Z;
  am_crf_clksrc : option Z;
  am_clksrc_table : list (Z * option Z);
  am_l1 : level1;
  am_name_mask : Z;
  am_name_exc : list named_entry;
  am_rates : list Z;
  am_formats : list Z;
  am_crf_fmts : list Z;
  am_per_stream : per_stream;
  am_dynmap : option dynmap;
  am_odmap : option odmap;
  am_smap : smap_tables;
  am_lint_waivers : list Config.yaml;
}.

Definition build_model (spec : model_spec) : result model_error aem_model :=
  let si := sp_stream_inputs spec in
  let so := sp_stream_outputs spec in
  let* d1 := entity_descriptors spec in
  let* d2 := port_descriptors spec in
  let* image := rom_image (d1 ++ d2) in
  let '(rom, directory) := image in
  let base_of := base_in directory in
  let* overlays := read_overlays base_of in
  let* wb := writeback_targets base_of spec in
  let* eb := base_of ENTITY 0 in
  let named := named_addresses directory eb in
  let* aaf := py_next (fun s => String.eqb (kind_of s) "aaf") si in
  let* crf := py_next (fun s => bool_decide (st_kind s = Some "crf"%string)) si in
  let* ps := per_stream_tables base_of spec in
  let* dyn := dynmap_tables spec in
  let* od := odmap_tables spec (match dyn with Some _ => true | None => false end) in
  let* smap := static_map_tables base_of spec (zlen si) (zlen so) in
  let* l1 := lift_dir (two_level_directory directory) in
  let* _ := lift_dir (check_two_level l1 directory) in
  let* ns := lift_dir (named_structure l1 directory named) in
  let '(n_cs, crf_ix) := clock_source_shape (sp_clock_sources spec) in
  let* table := lift (clock_source_table (sp_clock_sources spec)) in
  Ok (AemModel rom directory (zlen rom) overlays wb named n_cs crf_ix table l1 (fst ns) (snd ns)
        (sp_rates spec) (st_formats aaf) (st_formats crf) ps dyn od smap (sp_lint_waivers spec)).

(** * The layout *)

(** The directory [rom_image] builds, as a function of the descriptors. *)
Fixpoint place (base : Z) (descs : list desc) : list dir_entry :=
  match descs with
  | [] => []
  | (t, i, img) :: ds => DirEntry t i base (zlen img) :: place (base + zlen img) ds
  end.

Definition rom_of (descs : list desc) : bytes := concat (map snd descs).

Lemma rom_fold descs : forall rom dir,
  fold_left rom_step descs (rom, dir) = (rom ++ rom_of descs, dir ++ place (zlen rom) descs).
Proof.
  induction descs as [|[[t i] img] ds IH]; intros rom dir; cbn [fold_left place rom_step].
  - unfold rom_of. simpl. by rewrite !app_nil_r.
  - rewrite IH. unfold rom_of. cbn [map concat snd]. rewrite zlen_app, <-!app_assoc. done.
Qed.

Lemma rom_image_Ok descs rom dir :
  rom_image descs = Ok (rom, dir) <->
  rom = rom_of descs /\ dir = place 0 descs /\ zlen (rom_of descs) <= 65472.
Proof.
  unfold rom_image. rewrite rom_fold. simpl. unfold raise_if.
  destruct (65536 <? _) eqn:E; simpl; bool_prop.
  - split; [done|]. lia.
  - split; [intros [= <- <-]; split_and!; [done|done|lia] | by intros (-> & -> & _)].
Qed.

Lemma place_keys base descs :
  map (fun e => (de_type e, de_index e)) (place base descs) = map fst descs.
Proof.
  revert base. induction descs as [|[[t i] img] ds IH]; intros base; simpl; [done|]. by rewrite IH.
Qed.

Lemma place_app base d1 d2 : place base (d1 ++ d2) = place base d1 ++ place (base + zlen (rom_of d1)) d2.
Proof.
  revert base. induction d1 as [|[[t i] img] d1 IH]; intros base; simpl.
  - unfold rom_of. simpl. by rewrite zlen_nil, Z.add_0_r.
  - rewrite IH. unfold rom_of. cbn [map concat snd]. rewrite zlen_app. do 3 f_equal. lia.
Qed.

(** Row [j] of the directory and descriptor [j] are one thing. *)
Lemma place_split descs j e :
  place 0 descs !! j = Some e ->
  exists d1 d2 img, descs = d1 ++ (de_type e, de_index e, img) :: d2 /\ length d1 = j /\
    de_base e = zlen (rom_of d1) /\ de_len e = zlen img.
Proof.
  assert (forall base, place base descs !! j = Some e ->
    exists d1 d2 img, descs = d1 ++ (de_type e, de_index e, img) :: d2 /\ length d1 = j /\
      de_base e = base + zlen (rom_of d1) /\ de_len e = zlen img) as G; [|apply G].
  revert j. induction descs as [|[[t i] img] ds IH]; intros j base H; [done|].
  destruct j as [|j]; simpl in H.
  - injection H as <-. exists [], ds, img. unfold rom_of. simpl. rewrite zlen_nil. split_and!; try done; lia.
  - apply IH in H as (d1 & d2 & img' & -> & <- & Hb & Hl).
    exists ((t, i, img) :: d1), d2, img'. split_and!; try done.
    rewrite Hb. unfold rom_of. cbn [map concat snd]. rewrite zlen_app. lia.
Qed.

Lemma rom_of_app d1 d2 : rom_of (d1 ++ d2) = rom_of d1 ++ rom_of d2.
Proof. unfold rom_of. by rewrite map_app, concat_app. Qed.

Lemma rom_of_cons t i img ds : rom_of ((t, i, img) :: ds) = img ++ rom_of ds.
Proof. reflexivity. Qed.

Lemma rom_slice d1 t i img d2 :
  zslice (zlen (rom_of d1)) (zlen img) (rom_of (d1 ++ (t, i, img) :: d2)) = img.
Proof.
  rewrite rom_of_app, rom_of_cons. erewrite zslice_skip; [|done|lia].
  rewrite Z.sub_diag. by apply zslice_hit.
Qed.

Lemma place_slice descs j e :
  place 0 descs !! j = Some e ->
  exists img, descs !! j = Some (de_type e, de_index e, img) /\
    zslice (de_base e) (de_len e) (rom_of descs) = img /\ de_len e = zlen img /\
    0 <= de_base e /\ de_base e + de_len e <= zlen (rom_of descs).
Proof.
  intros H. apply place_split in H as (d1 & d2 & img & -> & <- & -> & ->).
  exists img. split_and!; try done.
  - by rewrite list_lookup_middle.
  - apply rom_slice.
  - apply zlen_nonneg.
  - rewrite rom_of_app, rom_of_cons, !zlen_app. pose proof (zlen_nonneg (rom_of d2)). lia.
Qed.

(** * Blocks: one type at a time *)

Definition is_block (t : Z) (n : nat) (ds : list desc) : Prop :=
  map fst ds = map (pair t) (zrange 0 n) /\
  Forall (fun d => self_typed t (d.1.2) (d.2)) ds.

Lemma enum_from_map_zrange {A B} (f : Z -> B) (l : list A) k :
  map (fun kx => f (fst kx)) (enum_from k l) = map f (zrange k (length l)).
Proof. revert k. induction l as [|x l IH]; intros k; simpl; [done|]. by rewrite IH. Qed.

Lemma mapR_map_keys {E A B C} (f : A -> result E B) (g : A -> C) (h : B -> C) l l' :
  (forall x y, f x = Ok y -> h y = g x) -> mapR f l = Ok l' -> map h l' = map g l.
Proof.
  intros Hf H. apply mapR_Ok in H. induction H; simpl; [done|]. f_equal; auto.
Qed.

Lemma lift_Ok {A} (m : result desc_error A) x : lift m = Ok x <-> m = Ok x.
Proof. unfold lift, map_err. destruct m; split; congruence. Qed.

Lemma desc_rows_block {A} t (d : Z -> A -> result desc_error bytes) l ds :
  (forall k x b, d k x = Ok b -> self_typed t k b) ->
  desc_rows t d l = Ok ds -> is_block t (length l) ds.
Proof.
  intros Hd H. unfold desc_rows in H. split.
  - unfold enumerate in H. rewrite <-(enum_from_map_zrange (pair t)).
    eapply mapR_map_keys; [|exact H]. intros x y Hx. rsplit Hx. by subst.
  - apply mapR_Ok in H. induction H as [|x y l1 l2 Hxy _ IH]; constructor; [|done].
    rsplit Hxy. subst y. simpl. apply lift_Ok in Hm. eauto.
Qed.

Lemma one_row_block t d ds :
  (forall b, d = Ok b -> self_typed t 0 b) -> one_row t d = Ok ds -> is_block t 1 ds.
Proof.
  intros Hd H. unfold one_row in H. rsplit H. subst. apply lift_Ok in Hm.
  split; [done|]. repeat constructor; simpl; by apply Hd.
Qed.

Lemma cluster_rows_keys first n names st ds :
  cluster_rows first n names st = Ok ds ->
  map fst ds = map (pair AUDIO_CLUSTER) (zrange first (Z.to_nat n)) /\
  Forall (fun d => self_typed AUDIO_CLUSTER (d.1.2) (d.2)) ds.
Proof.
  unfold cluster_rows. intros H. split.
  - eapply mapR_map_keys; [|done]. intros x y Hx. rsplit Hx. by subst.
  - apply mapR_Ok in H. induction H as [|x y l1 l2 Hxy _ IH]; constructor; [|done].
    rsplit Hxy. subst y. simpl. apply lift_Ok in Hm0. eauto with milan.
Qed.

(** The append order of [build_model], as (type, count) groups. *)
Definition layout_groups (spec : model_spec) : list (Z * nat) :=
  let n_in := sum_z (map po_clusters (sp_ports_in spec)) in
  let n_out := sum_z (map po_clusters (sp_ports_out spec)) in
  [(ENTITY, 1%nat); (CONFIGURATION, 1%nat); (AUDIO_UNIT, 1%nat);
   (STREAM_INPUT, length (sp_stream_inputs spec)); (STREAM_OUTPUT, length (sp_stream_outputs spec));
   (AVB_INTERFACE, 1%nat); (CLOCK_SOURCE, length (sp_clock_sources spec)); (CLOCK_DOMAIN, 1%nat);
   (CONTROL, 1%nat); (LOCALE, 1%nat); (STRINGS, 1%nat);
   (STREAM_PORT_INPUT, length (sp_ports_in spec)); (STREAM_PORT_OUTPUT, length (sp_ports_out spec));
   (AUDIO_CLUSTER, (Z.to_nat n_in + Z.to_nat n_out)%nat); (AUDIO_MAP, length (sp_audio_maps spec))].

Definition rows_of_groups (groups : list (Z * nat)) : list (Z * Z) :=
  flat_map (fun g => map (pair g.1) (zrange 0 g.2)) groups.

Definition descs_typed (descs : list desc) : Prop :=
  Forall (fun d => self_typed (d.1.1) (d.1.2) (d.2)) descs.

Lemma block_typed t n ds : is_block t n ds -> descs_typed ds.
Proof.
  intros [Hk Ht]. unfold descs_typed. rewrite Forall_forall in *. intros [[t' i] b] Hin. simpl in *.
  specialize (Ht _ Hin). simpl in Ht. apply list_elem_of_In, (in_map fst) in Hin. rewrite Hk in Hin.
  apply in_map_iff in Hin as (k & [= <- <-] & _). done.
Qed.

Ltac blocks H := rsplit H; subst;
  repeat match goal with
  | E : one_row _ _ = Ok _ |- _ => apply one_row_block in E; [|intros; eauto with milan]
  | E : desc_rows _ _ _ = Ok _ |- _ => apply desc_rows_block in E; [|intros; eauto with milan]
  | E : cluster_rows _ _ _ _ = Ok _ |- _ => apply cluster_rows_keys in E; destruct E
  end.

Lemma layout_keys spec d1 d2 :
  entity_descriptors spec = Ok d1 -> port_descriptors spec = Ok d2 ->
  map fst (d1 ++ d2) = rows_of_groups (layout_groups spec) /\ descs_typed (d1 ++ d2).
Proof.
  intros H1 H2. unfold entity_descriptors in H1. blocks H1. unfold port_descriptors in H2. blocks H2.
  bool_prop.
  assert (0 <= sum_z (map po_clusters (sp_ports_in spec))) as Hn
    by (match goal with E : zlen _ = sum_z _ |- _ => rewrite <-E end; apply zlen_nonneg).
  split.
  - rewrite !map_app. unfold rows_of_groups, layout_groups. cbn [flat_map fst snd]. rewrite app_nil_r.
    repeat match goal with
    | E : is_block _ _ ?d |- context [map fst ?d] => rewrite (proj1 E)
    | E : map fst ?d = _ |- context [map fst ?d] => rewrite E
    end.
    rewrite zrange_app, map_app, Z2Nat.id, Z.add_0_l by done. by rewrite <-!app_assoc.
  - unfold descs_typed. rewrite !Forall_app.
    repeat match goal with E : is_block _ _ _ |- _ => apply block_typed in E end.
    unfold descs_typed in *. split_and!; try done.
    all: match goal with
      | E : map fst ?d = _, F : Forall _ ?d |- Forall _ ?d =>
          rewrite Forall_forall in *; intros [[t' i] b] Hin; specialize (F _ Hin); simpl in *;
          apply list_elem_of_In, (in_map fst) in Hin; rewrite E in Hin;
          apply in_map_iff in Hin as (k & [= <- <-] & _); done
      end.
Qed.

(** * The layout passes the directory gates *)

Definition present (groups : list (Z * nat)) : list (Z * nat) :=
  List.filter (fun g => (0 <? g.2)%nat) groups.

Lemma rows_of_present groups : rows_of_groups (present groups) = rows_of_groups groups.
Proof.
  unfold rows_of_groups, present. induction groups as [|[t [|n]] gs IH]; simpl; [done|done|].
  by rewrite IH.
Qed.

Lemma layout_types spec : map fst (layout_groups spec) =
  [ENTITY; CONFIGURATION; AUDIO_UNIT; STREAM_INPUT; STREAM_OUTPUT; AVB_INTERFACE; CLOCK_SOURCE;
   CLOCK_DOMAIN; CONTROL; LOCALE; STRINGS; STREAM_PORT_INPUT; STREAM_PORT_OUTPUT; AUDIO_CLUSTER;
   AUDIO_MAP].
Proof. reflexivity. Qed.

Lemma NoDup_map_filter {A B} (f : A -> B) p l :
  List.NoDup (map f l) -> List.NoDup (map f (List.filter p l)).
Proof.
  induction l as [|x l IH]; simpl; [done|]. inversion 1 as [|? ? Hn Hd]; subst.
  destruct (p x); [|by apply IH]. simpl. constructor; [|by apply IH].
  intros Hin. apply Hn. apply in_map_iff in Hin as (y & <- & [Hy _]%List.filter_In). by apply in_map.
Qed.

Lemma layout_types_nodup spec : List.NoDup (map fst (layout_groups spec)).
Proof.
  rewrite layout_types. apply NoDup_ListNoDup.
  refine (bool_decide_eq_true_1 _ _). vm_compute. reflexivity.
Qed.

Lemma layout_types_range spec g : In g (layout_groups spec) -> 0 <= g.1 < 256.
Proof.
  intros H. apply (in_map fst) in H. rewrite layout_types in H.
  simpl in H. repeat destruct H as [<-|H]; try done; vm_compute; split; congruence.
Qed.

Lemma layout_grouped spec descs :
  map fst descs = rows_of_groups (layout_groups spec) ->
  grouped (present (layout_groups spec)) (place 0 descs).
Proof.
  intros H. unfold grouped. rewrite place_keys, H.
  symmetry. apply rows_of_present.
Qed.

Lemma layout_types_nonneg spec descs :
  map fst descs = rows_of_groups (layout_groups spec) -> types_nonneg (place 0 descs).
Proof.
  intros H. apply List.Forall_forall. intros e He.
  apply (in_map (fun e => (de_type e, de_index e))) in He. rewrite place_keys, H in He.
  apply in_flat_map in He as (g & Hg & Hin). apply in_map_iff in Hin as (k & [= <- _] & _).
  apply layout_types_range in Hg. lia.
Qed.

Lemma layout_accepted spec descs :
  map fst descs = rows_of_groups (layout_groups spec) ->
  exists l1, two_level_directory (place 0 descs) = Ok l1.
Proof.
  intros H. apply (two_level_directory_accepts (present (layout_groups spec))).
  - done.
  - unfold present. apply NoDup_map_filter, layout_types_nodup.
  - apply List.Forall_forall. intros g Hg. unfold present in Hg.
    apply List.filter_In in Hg as [Hg Hp]. apply Nat.ltb_lt in Hp.
    split; [by eapply layout_types_range|done].
  - by apply layout_grouped.
Qed.

Lemma zrange_NoDup a n : List.NoDup (zrange a n).
Proof.
  revert a. induction n as [|n IH]; intros a; simpl; constructor; [|done].
  rewrite zrange_In. lia.
Qed.

Lemma rows_of_groups_nodup groups :
  List.NoDup (map fst groups) -> List.NoDup (rows_of_groups groups).
Proof.
  unfold rows_of_groups. induction groups as [|[t n] gs IH]; simpl; [constructor|].
  inversion 1 as [|? ? Hn Hd]; subst. rewrite <-NoDup_ListNoDup. apply NoDup_app. split_and!.
  - apply NoDup_ListNoDup. apply Finite.Injective_map_NoDup; [by intros x y [= ->]|apply zrange_NoDup].
  - intros [u i] H1 H2. rewrite list_elem_of_In in *.
    apply in_map_iff in H1 as (k & [= <- <-] & _). apply in_flat_map in H2 as (g & Hg & Hin).
    apply in_map_iff in Hin as (k' & [= Heq _] & _). apply Hn. rewrite <-Heq. by apply in_map.
  - apply NoDup_ListNoDup. by apply IH.
Qed.

Lemma layout_keys_nodup spec (descs : list desc) :
  map fst descs = rows_of_groups (layout_groups spec) -> List.NoDup (map fst descs).
Proof. intros ->. apply rows_of_groups_nodup, layout_types_nodup. Qed.

(** A descriptor of the layout, found through [base_of]. *)
Lemma base_in_desc descs t i img :
  List.NoDup (map fst descs) -> In (t, i, img) descs ->
  exists b, base_in (place 0 descs) t i = Ok b /\ In (DirEntry t i b (zlen img)) (place 0 descs) /\
    zslice b (zlen img) (rom_of descs) = img /\ 0 <= b /\ b + zlen img <= zlen (rom_of descs).
Proof.
  intros Hnd Hin. unfold base_in, py_next.
  assert (exists e, In e (place 0 descs) /\ (de_type e =? t) && (de_index e =? i) = true) as (e0 & He0 & Hp0).
  { assert (In (t, i) (map (fun e => (de_type e, de_index e)) (place 0 descs))) as Hk
      by (rewrite place_keys; apply (in_map fst) in Hin; exact Hin).
    apply in_map_iff in Hk as (e & [= <- <-] & He). exists e. by rewrite !Z.eqb_refl. }
  destruct (List.find _ _) as [e|] eqn:Hf; cycle 1.
  { by rewrite (find_none _ _ Hf _ He0) in Hp0. }
  apply find_some in Hf as [He Hp]. bool_prop. exists (de_base e). split; [done|].
  apply list_elem_of_In, list_elem_of_lookup in He as Hj. destruct Hj as [j Hj].
  apply place_slice in Hj as (img' & Hd & Hs & Hl & Hb & Hle).
  assert (img' = img) as ->.
  { apply list_elem_of_lookup_2, list_elem_of_In in Hd.
    clear -Hnd Hin Hd H H0. subst t i. revert Hnd Hin Hd.
    induction descs as [|[[t i] b] ds IH]; simpl; [done|]. intros Hnd.
    inversion Hnd as [|? ? Hn Hnd']; subst. intros [E1|H1] [E2|H2].
    - congruence.
    - injection E1 as -> -> ->. destruct Hn. apply (in_map fst) in H2. exact H2.
    - injection E2 as -> -> ->. destruct Hn. apply (in_map fst) in H1. exact H1.
    - by apply IH. }
  rewrite <-Hl. split_and!; try done.
  rewrite <-H, <-H0. apply list_elem_of_In in He. by destruct e.
Qed.

(** Reading a field of a placed descriptor out of the ROM. *)
Lemma rom_read b (img rom : bytes) off n :
  zslice b (zlen img) rom = img -> 0 <= b -> 0 <= off -> 0 <= n -> off + n <= zlen img ->
  zslice (b + off) n rom = zslice off n img.
Proof. intros Hs. intros. rewrite <-Hs at 1. rewrite zslice_zslice; [done|lia..]. Qed.

(** What a successful [build_model] went through. *)
Record built (spec : model_spec) (m : aem_model) := Built {
  bu_d1 : list desc;
  bu_d2 : list desc;
  bu_entity : entity_descriptors spec = Ok bu_d1;
  bu_port : port_descriptors spec = Ok bu_d2;
  bu_rom : am_rom m = rom_of (bu_d1 ++ bu_d2);
  bu_dir : am_directory m = place 0 (bu_d1 ++ bu_d2);
  bu_bound : zlen (am_rom m) <= 65472;
  bu_size : am_rom_size m = zlen (am_rom m);
  bu_overlays : read_overlays (base_in (am_directory m)) = Ok (am_overlays m);
  bu_wb : writeback_targets (base_in (am_directory m)) spec = Ok (am_wb m);
  bu_l1 : two_level_directory (am_directory m) = Ok (am_l1 m);
  bu_named : exists eb, base_in (am_directory m) ENTITY 0 = Ok eb /\
    am_named m = named_addresses (am_directory m) eb;
  bu_split : named_structure (am_l1 m) (am_directory m) (am_named m)
             = Ok (am_name_mask m, am_name_exc m);
  bu_dyn : dynmap_tables spec = Ok (am_dynmap m);
  bu_od : odmap_tables spec (match am_dynmap m with Some _ => true | None => false end) = Ok (am_odmap m);
  bu_smap : static_map_tables (base_in (am_directory m)) spec (zlen (sp_stream_inputs spec))
              (zlen (sp_stream_outputs spec)) = Ok (am_smap m);
}.

Lemma lift_dir_Ok {A} (m : result dir_error A) x : lift_dir m = Ok x <-> m = Ok x.
Proof. unfold lift_dir, map_err. destruct m; split; congruence. Qed.

Lemma build_model_built spec m : build_model spec = Ok m -> inhabited (built spec m).
Proof.
  unfold build_model. intros H.
  apply rbind_Ok in H as (d1 & H1 & H). apply rbind_Ok in H as (d2 & H2 & H).
  apply rbind_Ok in H as ([rom dir] & H3 & H). apply rom_image_Ok in H3 as (-> & -> & H3).
  cbv beta iota in H. rsplit H. unfold clock_source_shape in H. rsplit H.
  apply lift_dir_Ok in Hm8, Hm9, Hm10. subst m. destruct v10. constructor.
  econstructor; simpl; try done. eauto.
Qed.

(** * Names *)

Lemma place_key_unique spec descs e e' :
  map fst descs = rows_of_groups (layout_groups spec) ->
  In e (place 0 descs) -> In e' (place 0 descs) ->
  de_type e = de_type e' -> de_index e = de_index e' -> e = e'.
Proof.
  intros Hk He He' Ht Hi. apply layout_keys_nodup in Hk. rewrite <-(place_keys 0) in Hk.
  revert He He'. induction (place 0 descs) as [|x l IH]; simpl; [done|].
  simpl in Hk. inversion Hk as [|? ? Hn Hd]; subst. intros [->|H1] [->|H2]; [done| | |by apply IH].
  - destruct Hn. rewrite Ht, Hi. by apply (in_map (fun e => (de_type e, de_index e))).
  - destruct Hn. rewrite <-Ht, <-Hi. by apply (in_map (fun e => (de_type e, de_index e))).
Qed.

Lemma base_map_is_Some directory e :
  In e directory -> is_Some (base_map directory !! (de_type e, de_index e)).
Proof.
  intros He. rewrite base_map_linear. unfold linear.
  enough (forall l f, (In e l \/ f.1.1 = 1) -> (fold_left (fun f e0 =>
     if (de_type e0 =? de_type e) && (de_index e0 =? de_index e)
     then (1, de_base e0, de_len e0) else f) l f).1.1 = 1) as G.
  { specialize (G directory (0, 0, 0) ltac:(by left)).
    destruct (fold_left _ _ _) as [[f b] n]. simpl in G. subst f. simpl. eauto. }
  induction l as [|x l IH]; intros f Hf; simpl; [destruct Hf as [[]|]; done|].
  apply IH. destruct Hf as [[->|Hin]|Hf].
  - right. by rewrite !Z.eqb_refl.
  - by left.
  - right. by destruct (_ && _).
Qed.

Lemma In_named_addresses directory eb ne :
  In ne (named_addresses directory eb) ->
  (ne = Named ENTITY 0 0 (eb + 48) \/ ne = Named ENTITY 0 1 (eb + 180)) \/
  exists e, In e directory /\ In (de_type e) NAMED_TYPES /\
    ne = Named (de_type e) (de_index e) 0 (de_base e + 4).
Proof.
  unfold named_addresses. intros [<-|[<-|H]]; [tauto|tauto|]. right.
  apply in_map_iff in H as (e & <- & [He Hp]%List.filter_In). exists e. split_and!; try done.
  apply existsb_exists in Hp as (t & Ht & Heq). bool_prop. by subst.
Qed.

Lemma named_addresses_nodup spec descs eb :
  map fst descs = rows_of_groups (layout_groups spec) ->
  List.NoDup (map ne_key (named_addresses (place 0 descs) eb)).
Proof.
  intros Hk. unfold named_addresses. rewrite map_app. cbn [map app ne_key ne_type ne_index ne_nidx].
  set (fl := List.filter _ _).
  assert (forall n, ~ In (ENTITY, 0, n) (map ne_key (map
    (fun e => Named (de_type e) (de_index e) 0 (de_base e + 4)) fl))) as Hno.
  { intros n Hin. apply in_map_iff in Hin as (ne & Hkey & Hin). apply in_map_iff in Hin as (e & <- & Hin).
    unfold ne_key in Hkey. simpl in Hkey. injection Hkey as Ht _ _. subst fl.
    apply List.filter_In in Hin as [_ Hp]. rewrite Ht in Hp. discriminate Hp. }
  constructor; [intros [H|H]; [discriminate H|by eapply Hno]|]. constructor; [by eapply Hno|].
  clear Hno. rewrite map_map. subst fl.
  assert (List.NoDup (map (fun e => (de_type e, de_index e, 0))
    (List.filter (fun e => existsb (Z.eqb (de_type e)) NAMED_TYPES) (place 0 descs)))) as G; [|exact G].
  apply NoDup_map_filter. apply layout_keys_nodup in Hk. rewrite <-(place_keys 0) in Hk.
  rewrite <-(map_map (fun e => (de_type e, de_index e)) (fun k => (k, 0))).
  apply Finite.Injective_map_NoDup; [by intros x y [= ->]|done].
Qed.

Lemma layout_index_nonneg spec descs e :
  map fst descs = rows_of_groups (layout_groups spec) -> In e (place 0 descs) -> 0 <= de_index e.
Proof.
  intros H He. apply (in_map (fun e => (de_type e, de_index e))) in He. rewrite place_keys, H in He.
  apply in_flat_map in He as (g & Hg & Hin). apply in_map_iff in Hin as (k & [= _ <-] & Hk).
  apply zrange_In in Hk. lia.
Qed.

(** Every gate of [build_model] on the directory of a layout passes. *)
Lemma layout_gates spec (descs : list desc) eb :
  map fst descs = rows_of_groups (layout_groups spec) ->
  exists l1 me, two_level_directory (place 0 descs) = Ok l1 /\
    check_two_level l1 (place 0 descs) = Ok tt /\
    named_structure l1 (place 0 descs) (named_addresses (place 0 descs) eb) = Ok me.
Proof.
  intros Hk. destruct (layout_accepted _ _ Hk) as [l1 Hl1].
  pose proof (layout_types_nonneg _ _ Hk) as Hnn.
  assert (In (ENTITY, 0) (map (fun e => (de_type e, de_index e)) (place 0 descs))) as Hent
    by (rewrite place_keys, Hk; by left).
  destruct (named_structure_ok (place 0 descs) l1 (named_addresses (place 0 descs) eb)) as [me Hme]; try done.
  - apply List.Forall_forall. intros ne Hne.
    apply In_named_addresses in Hne as [[-> | ->]|(e & He & Ht & ->)]; simpl; [by split|by split|].
    unfold types_nonneg in Hnn. rewrite List.Forall_forall in Hnn.
    split; [by apply Hnn|by eapply layout_index_nonneg].
  - by eapply named_addresses_nodup.
  - intros ne Hne. apply in_map_iff in Hent as (e0 & [= Ht0 Hi0] & He0).
    apply base_map_is_Some in He0. rewrite Ht0, Hi0 in He0.
    apply In_named_addresses in Hne as [[-> | ->]|(e & He & _ & ->)]; simpl.
    + done.
    + done.
    + by apply base_map_is_Some.
  - exists l1, me. split_and!; try done. by apply check_two_level_ok.
Qed.

(** * Fields of placed descriptors *)

Lemma d_audio_unit_current rates cur ni no name b :
  d_audio_unit rates cur ni no name = Ok b -> rd_be 136 4 b = cur.
Proof.
  unfold d_audio_unit. intros H. open_encoder H. unfold rd_be. read_field.
  apply of_be_be_bytes_id. cbn. lia.
Qed.

Lemma d_stream_current dtype index name flags f0 fs buffer b :
  d_stream dtype index name flags (f0 :: fs) buffer = Ok b -> rd_be 74 8 b = f0 mod 2 ^ 64.
Proof.
  unfold d_stream. intros H. open_encoder H. simplify_eq. unfold rd_be. read_field.
  apply of_be_be64.
Qed.

Lemma d_clock_domain_current n name b : d_clock_domain n name = Ok b -> rd_be 70 2 b = 0.
Proof. unfold d_clock_domain. intros H. open_encoder H. unfold rd_be. read_field. apply of_be_be16. Qed.

Lemma d_control_current name b : d_control_identify name = Ok b -> rd_be 108 1 b = 0.
Proof.
  unfold d_control_identify. intros H. open_encoder H. unfold rd_be.
  rewrite !app_assoc. rewrite <-(app_assoc _ (be16 0) (be16 NO_STRING)).
  rewrite <-(app_assoc _ [0; 255; 255; 0; 0] (be16 0 ++ be16 NO_STRING)).
  erewrite (zslice_skip _ _ 104); [reflexivity|by len_tac|lia].
Qed.

Lemma one_row_In t d ds : one_row t d = Ok ds -> exists b, d = Ok b /\ ds = [(t, 0, b)].
Proof. unfold one_row. intros H. rsplit H. apply lift_Ok in Hm. subst. eauto. Qed.

Lemma desc_rows_In {A} t (d : Z -> A -> result desc_error bytes) l ds k x :
  desc_rows t d l = Ok ds -> l !! k = Some x ->
  exists b, d (Z.of_nat k) x = Ok b /\ In (t, Z.of_nat k, b) ds.
Proof.
  unfold desc_rows, enumerate. intros H Hk. apply mapR_Ok in H.
  assert (enum_from 0 l !! k = Some (Z.of_nat k, x)) as He by (by rewrite enum_from_lookup, Hk).
  destruct (Forall2_lookup_l _ _ _ _ _ H He) as (y & Hy & Hd). cbv beta in Hd. rsplit Hd.
  apply lift_Ok in Hm. simpl in Hm. exists v. split; [done|]. subst y.
  by apply list_elem_of_lookup_2, list_elem_of_In in Hy.
Qed.

(** The descriptors of the entity part, by name. *)
Record entity_part (spec : model_spec) (ds : list desc) := EntityPart {
  ep_entity : exists b, d_entity (sp_entity spec) = Ok b /\ In (ENTITY, 0, b) ds;
  ep_unit : exists ni no name b,
    d_audio_unit (sp_rates spec) (sp_current_rate spec) ni no name = Ok b /\ In (AUDIO_UNIT, 0, b) ds;
  ep_in : forall k s, sp_stream_inputs spec !! k = Some s -> exists b,
    d_stream STREAM_INPUT (Z.of_nat k) (st_name s) 0x0003 (st_formats s) (st_buffer s) = Ok b /\
    In (STREAM_INPUT, Z.of_nat k, b) ds;
  ep_out : forall k s, sp_stream_outputs spec !! k = Some s -> exists flags b,
    d_stream STREAM_OUTPUT (Z.of_nat k) (st_name s) flags (st_formats s) 0 = Ok b /\
    In (STREAM_OUTPUT, Z.of_nat k, b) ds;
  ep_avb : exists name b, d_avb_interface (sp_gptp spec) name = Ok b /\ In (AVB_INTERFACE, 0, b) ds;
  ep_dom : exists n name b, d_clock_domain n name = Ok b /\ In (CLOCK_DOMAIN, 0, b) ds /\ 0 <= n;
  ep_ctl : exists name b, d_control_identify name = Ok b /\ In (CONTROL, 0, b) ds;
}.

Lemma entity_descriptors_part spec ds : entity_descriptors spec = Ok ds -> entity_part spec ds.
Proof.
  unfold entity_descriptors. intros H. rsplit H. subst ds.
  constructor.
  - apply one_row_In in Hm as (b & Hb & ->). exists b. split; [done|]. by left.
  - apply one_row_In in Hm3 as (b & Hb & ->). do 4 eexists. split; [done|].
    rewrite !in_app_iff. simpl. tauto.
  - intros k s Hk. destruct (desc_rows_In _ _ _ _ _ _ Hm4 Hk) as (b & Hb & Hin).
    exists b. split; [done|]. rewrite !in_app_iff. tauto.
  - intros k s Hk. destruct (desc_rows_In _ _ _ _ _ _ Hm5 Hk) as (b & Hb & Hin).
    do 2 eexists. split; [done|]. rewrite !in_app_iff. tauto.
  - apply one_row_In in Hm7 as (b & Hb & ->). do 2 eexists. split; [done|].
    rewrite !in_app_iff. simpl. tauto.
  - apply one_row_In in Hm10 as (b & Hb & ->). do 3 eexists. split; [done|].
    split; [|apply zlen_nonneg]. rewrite !in_app_iff. simpl. tauto.
  - apply one_row_In in Hm12 as (b & Hb & ->). do 2 eexists. split; [done|].
    rewrite !in_app_iff. simpl. tauto.
Qed.

Lemma port_descriptors_maps spec ds k rows :
  port_descriptors spec = Ok ds -> sp_audio_maps spec !! k = Some rows ->
  exists b, d_audio_map (Z.of_nat k) rows = Ok b /\ In (AUDIO_MAP, Z.of_nat k, b) ds.
Proof.
  unfold port_descriptors. intros H Hk. rsplit H. subst ds.
  destruct (desc_rows_In _ _ _ _ _ _ Hm4 Hk) as (b & Hb & Hin).
  exists b. split; [done|]. rewrite !in_app_iff. tauto.
Qed.

(** [base_of] of a built model, at a descriptor the layout holds. *)
Lemma built_base spec m (B : built spec m) t i img :
  In (t, i, img) (bu_d1 _ _ B ++ bu_d2 _ _ B) ->
  exists b, base_in (am_directory m) t i = Ok b /\ In (DirEntry t i b (zlen img)) (am_directory m) /\
    zslice b (zlen img) (am_rom m) = img /\ 0 <= b /\ b + zlen img <= zlen (am_rom m).
Proof.
  intros Hin. destruct B as [d1 d2 He Hp Hr Hd]. simpl in *. rewrite Hr, Hd.
  destruct (layout_keys spec d1 d2 He Hp) as [Hk _]. apply layout_keys_nodup in Hk.
  by apply base_in_desc.
Qed.

(** A field of such a descriptor, read out of the ROM. *)
Lemma built_field spec m (B : built spec m) t i img b off n :
  In (t, i, img) (bu_d1 _ _ B ++ bu_d2 _ _ B) -> base_in (am_directory m) t i = Ok b ->
  0 <= off -> 0 <= n -> off + n <= zlen img ->
  rd_be (b + off) n (am_rom m) = rd_be off n img.
Proof.
  intros Hin Hb ? ? ?. destruct (built_base _ _ B _ _ _ Hin) as (b' & Hb' & _ & Hs & ? & ?).
  rewrite Hb in Hb'. injection Hb' as <-. unfold rd_be. f_equal. by eapply rom_read.
Qed.

(** * Properties *)

(** A small end station: one AAF and one CRF input, one AAF output, a dynamic
    port in each direction. *)
Definition sample_entity : entity_strings :=
  EntityStrings (lit "Dut") (lit "1.2.0") [] (lit "SN-1") (lit "Kebag Logic").
Definition sample_spec : model_spec :=
  ModelSpec sample_entity None None None RATES 48000 (lit "48/96/192 kHz")
    [StreamSpec (lit "Stream 1") (Some "aaf"%string) FORMATS 2126000;
     StreamSpec (lit "CRF") (Some "crf"%string) CRF_FORMATS 2126000]
    [StreamSpec (lit "Stream Output 0") None OUT_FORMATS 0]
    [ClockSourceSpec (lit "Internal") 0 "internal" CLOCK_SOURCE 0;
     ClockSourceSpec (lit "CRF Clock") 2 "crf" STREAM_INPUT 1]
    [PortSpec 2 0 0 0 (Some "dynamic"%string) (Some 8) None None None]
    [PortSpec 2 2 0 0 (Some "dynamic"%string) None (Some 0)
       (Some [ClusterSource 2 0 0 0 (Some true); ClusterSource 2 0 0 1 (Some true)]) (Some 0)]
    [] None None [].

(** C7: What [build_model] lays out: the ROM fits the 16-bit store with its 64
    scratch octets, the directory lists exactly the (type, index) sequence of
    the append order, its rows tile the ROM from 0 without gap or overlap, every
    row's octets are a descriptor carrying that row's own type and index, and
    the derived two-level table finds every row. *)
Theorem build_model_rom spec m :
  build_model spec = Ok m ->
  am_rom_size m = zlen (am_rom m) /\ zlen (am_rom m) + 64 <= 65536 /\
  map (fun e => (de_type e, de_index e)) (am_directory m) = rows_of_groups (layout_groups spec) /\
  zlen (am_rom m) = sum_z (map de_len (am_directory m)) /\
  forall j e, am_directory m !! j = Some e ->
    de_base e = sum_z (map de_len (take j (am_directory m))) /\
    self_typed (de_type e) (de_index e) (zslice (de_base e) (de_len e) (am_rom m)) /\
    two_level_resolve (am_l1 m) (am_directory m) (de_type e) (de_index e)
      = Some (1, de_base e, de_len e).
Proof.
  intros H. apply build_model_built in H as [[d1 d2 He Hp Hr Hd Hbd Hsz _ _ Hl1 _ _ _ _ _]].
  destruct (layout_keys spec d1 d2 He Hp) as [Hk Hty]. rewrite Hr, Hd in *.
  set (ds := d1 ++ d2) in *.
  assert (forall l base, zlen (rom_of l) = sum_z (map de_len (place base l))) as Hsum.
  { induction l as [|[[t i] b] l IH]; intros base; [done|].
    rewrite rom_of_cons, zlen_app, (IH (base + zlen b)). done. }
  split; [done|]. split; [lia|]. split; [by rewrite place_keys|]. split; [apply Hsum|].
  intros j e Hj. split; [|split].
  - apply place_split in Hj as (a & c & img & Heq & <- & Hb & _). rewrite Hb, (Hsum a 0), Heq, place_app.
    rewrite take_app_length'; [done|]. clear. generalize 0. induction a as [|[[t i] b] a IH]; intros z; simpl; [done|].
    by rewrite <-IH.
  - apply place_slice in Hj as (img & Hin & -> & _).
    unfold descs_typed in Hty. rewrite Forall_lookup in Hty. apply (Hty j _ Hin).
  - pose proof (layout_types_nonneg _ _ Hk) as Hnn.
    pose proof (proj1 (list_elem_of_In _ _) (list_elem_of_lookup_2 _ _ _ Hj)) as Hin.
    unfold types_nonneg in Hnn. rewrite two_level_resolve_linear; [|done|done| |].
    + f_equal. eapply linear_hit; [done|done|done|]. intros j' e' Hj' Ht Hi.
      assert (e' = e) as ->.
      { eapply place_key_unique; [exact Hk| |exact Hin|done|done].
        by apply list_elem_of_In, (list_elem_of_lookup_2 _ j'). }
      apply layout_keys_nodup in Hk. rewrite <-(place_keys 0) in Hk. apply NoDup_ListNoDup in Hk.
      eapply (NoDup_lookup _ _ _ _ Hk); rewrite list_lookup_fmap; [by rewrite Hj'|by rewrite Hj].
    + rewrite List.Forall_forall in Hnn. by apply Hnn.
    + exact (layout_index_nonneg _ _ _ Hk Hin).
Qed.

Lemma build_model_rom_witness :
  exists m, build_model sample_spec = Ok m /\ am_rom_size m = 2411 /\
    zlen (am_rom m) + 64 <= 65536.
Proof.
  destruct (build_model sample_spec) as [m|e] eqn:E; [|vm_compute in E; discriminate E].
  exists m. destruct (build_model_rom sample_spec m E) as (Hs & Hb & _ & _ & _).
  split; [reflexivity|]. split; [|exact Hb].
  vm_compute in E. injection E as <-. reflexivity.
Defined.

(** The errors of each stage: only the directory gates raise [EDir]. *)
Definition never_dir {A} (m : result model_error A) : Prop := forall e, m <> Err (EDir e).

Lemma nd_rbind {A B} (m : result model_error A) (k : A -> result model_error B) :
  never_dir m -> (forall a, m = Ok a -> never_dir (k a)) -> never_dir (rbind m k).
Proof.
  intros Hm Hk e. destruct m as [a|e'] eqn:E; simpl; [by apply Hk|].
  intros [= ->]. by apply (Hm e).
Qed.
Lemma nd_ok {A} (a : A) : never_dir (Ok a).
Proof. done. Qed.
Lemma nd_raise b e : (forall d, e <> EDir d) -> never_dir (raise_if b e).
Proof. intros He d. unfold raise_if. destruct b; [|done]. intros [= ->]. by apply (He d). Qed.
Lemma nd_lift {A} (m : result desc_error A) : never_dir (lift m).
Proof. unfold lift, map_err. by destruct m. Qed.
Lemma nd_map_err {A} (m : result desc_error A) : never_dir (map_err EDesc m).
Proof. apply nd_lift. Qed.
Lemma nd_mapR {A B} (f : A -> result model_error B) l :
  (forall x, never_dir (f x)) -> never_dir (mapR f l).
Proof.
  intros Hf. induction l as [|x l IH]; simpl; [apply nd_ok|].
  apply nd_rbind; [done|]. intros y _. apply nd_rbind; [done|]. intros; apply nd_ok.
Qed.
Lemma nd_foldR {A S} (f : S -> A -> result model_error S) l s :
  (forall s x, never_dir (f s x)) -> never_dir (foldR f s l).
Proof.
  intros Hf. revert s. induction l as [|x l IH]; intros s; simpl; [apply nd_ok|].
  apply nd_rbind; [done|]. intros; apply IH.
Qed.
Lemma nd_sub {A} (l : list A) i : never_dir (sub l i).
Proof. unfold sub. by destruct (py_index l i). Qed.
Lemma nd_key {A} (m : gmap string A) k : never_dir (key m k).
Proof. unfold key. by destruct (m !! k). Qed.
Lemma nd_next {A} (p : A -> bool) l : never_dir (py_next p l).
Proof. unfold py_next. by destruct (List.find p l). Qed.
Lemma nd_max l : never_dir (py_max l).
Proof. by destruct l. Qed.

Create HintDb nodir.
#[local] Hint Resolve nd_ok nd_lift nd_map_err nd_sub nd_key nd_next nd_max : nodir.
#[local] Hint Extern 2 (never_dir (raise_if _ _)) => apply nd_raise; discriminate : nodir.
#[local] Hint Extern 2 (never_dir (Err _)) => discriminate : nodir.

Ltac nodir_step :=
  lazymatch goal with
  | |- never_dir (rbind _ _) => apply nd_rbind; [|intros]
  | |- never_dir (mapR _ _) => apply nd_mapR; intros
  | |- never_dir (foldR _ _ _) => apply nd_foldR; intros
  | |- never_dir (match ?x with _ => _ end) => destruct x
  | |- never_dir (if ?x then _ else _) => destruct x
  | |- never_dir (let _ := _ in _) => cbv zeta
  | |- _ => solve [eauto with nodir]
  end.
Ltac nodir := repeat nodir_step.

Lemma nd_base dir t i : never_dir (base_in dir t i).
Proof. unfold base_in. nodir. Qed.
Lemma nd_desc_rows {A} t (d : Z -> A -> result desc_error bytes) l : never_dir (desc_rows t d l).
Proof. unfold desc_rows. nodir. Qed.
Lemma nd_one_row t d : never_dir (one_row t d).
Proof. unfold one_row. nodir. Qed.
Lemma nd_cluster_rows f n names st : never_dir (cluster_rows f n names st).
Proof. unfold cluster_rows. nodir. Qed.
Lemma nd_first_channels s : never_dir (first_channels s).
Proof. unfold first_channels. nodir. Qed.
#[local] Hint Resolve nd_base nd_desc_rows nd_one_row nd_cluster_rows nd_first_channels : nodir.

Lemma nd_entity spec : never_dir (entity_descriptors spec).
Proof. unfold entity_descriptors. nodir. Qed.
Lemma nd_port spec : never_dir (port_descriptors spec).
Proof. unfold port_descriptors. nodir. Qed.
Lemma nd_overlays dir : never_dir (read_overlays (base_in dir)).
Proof. unfold read_overlays. nodir. Qed.
Lemma nd_writeback dir spec : never_dir (writeback_targets (base_in dir) spec).
Proof. unfold writeback_targets. nodir. Qed.
Lemma nd_per_stream dir spec : never_dir (per_stream_tables (base_in dir) spec).
Proof. unfold per_stream_tables. nodir. Qed.
Lemma nd_dynmap spec : never_dir (dynmap_tables spec).
Proof. unfold dynmap_tables. nodir. Qed.
Lemma nd_odmap spec b : never_dir (odmap_tables spec b).
Proof. unfold odmap_tables, odmap_port_step, identity_row, port_sources. nodir. Qed.
Lemma nd_direction dir side maps : never_dir (direction_tables (base_in dir) side maps).
Proof.
  unfold direction_tables, port_step, static_map_of, row_step, map_row_bounds, map_duplicate_rule.
  nodir.
Qed.
Lemma nd_smap dir spec n m : never_dir (static_map_tables (base_in dir) spec n m).
Proof. unfold static_map_tables. nodir; apply nd_direction. Qed.

(** The three generation-time gates on the directory and the name table are
    unreachable from [build_model]: whatever the spec, it never fails with a
    non-contiguous or non-ascending run, a type past the table, a divergence of
    the two-level lookup or of the name split, or a name without a descriptor. *)
Theorem build_model_never_dir_error spec e : build_model spec <> Err (EDir e).
Proof.
  revert e. change (never_dir (build_model spec)). unfold build_model.
  apply nd_rbind; [apply nd_entity|]. intros d1 H1.
  apply nd_rbind; [apply nd_port|]. intros d2 H2.
  destruct (layout_keys spec d1 d2 H1 H2) as [Hk _].
  apply nd_rbind; [unfold rom_image; nodir|]. intros [rom dir] H3.
  apply rom_image_Ok in H3 as (-> & -> & _).
  apply nd_rbind; [apply nd_overlays|intros]. apply nd_rbind; [apply nd_writeback|intros].
  apply nd_rbind; [apply nd_base|]. intros eb Heb.
  apply nd_rbind; [apply nd_next|intros]. apply nd_rbind; [apply nd_next|intros].
  apply nd_rbind; [apply nd_per_stream|intros]. apply nd_rbind; [apply nd_dynmap|intros].
  apply nd_rbind; [apply nd_odmap|intros]. apply nd_rbind; [apply nd_smap|intros].
  destruct (layout_gates spec (d1 ++ d2) eb Hk) as (l1 & me & Hl & Hc & Hn).
  rewrite Hl. cbn [lift_dir map_err rbind]. rewrite Hc. cbn [lift_dir map_err rbind].
  rewrite Hn. cbn [lift_dir map_err rbind]. nodir.
Qed.

(** Octet spans of the ROM. *)
Definition span_disjoint (a b : Z * Z * string) : Prop :=
  a.1.1 + a.1.2 <= b.1.1 \/ b.1.1 + b.1.2 <= a.1.1.

(** Where the overlays lie. *)
Lemma overlays_layout spec m :
  build_model spec = Ok m ->
  (forall a n s, In (a, n, s) (am_overlays m) -> exists e, In e (am_directory m) /\
     (de_type e = ENTITY \/ de_type e = AVB_INTERFACE) /\ 0 <= de_base e /\
     de_base e + 4 <= a /\ 0 < n /\ a + n <= de_base e + de_len e /\ a + n <= zlen (am_rom m)) /\
  ForallOrdPairs span_disjoint (am_overlays m).
Proof.
  intros H. apply build_model_built in H as [B].
  pose proof (entity_descriptors_part _ _ (bu_entity _ _ B)) as P.
  destruct (ep_entity _ _ P) as (ei & Hei & Hine). destruct (ep_avb _ _ P) as (nm & ai & Hai & Hina).
  apply d_entity_len in Hei. apply d_avb_interface_len in Hai.
  destruct (built_base _ _ B ENTITY 0 ei) as (E & HE & Ein & _ & E0 & E1); [apply in_app_iff; by left|].
  destruct (built_base _ _ B AVB_INTERFACE 0 ai) as (A & HA & Ain & _ & A0 & A1); [apply in_app_iff; by left|].
  pose proof (bu_overlays _ _ B) as Ho. unfold read_overlays in Ho.
  rewrite HE, HA in Ho. cbn [rbind] in Ho. apply Ok_inj in Ho. rewrite <-Ho. clear Ho.
  rewrite Hei in *. rewrite Hai in *. split.
  - intros a n s Hin. cbn [In] in Hin.
    repeat destruct Hin as [[= <- <- _]|Hin]; try done;
      first [ exists (DirEntry ENTITY 0 E 312); cbn; split_and!; solve [done|by left|lia]
            | exists (DirEntry AVB_INTERFACE 0 A 102); cbn; split_and!; solve [done|by right|lia] ].
  - (* the two descriptors are one before the other *)
    assert (E + 312 <= A \/ A + 102 <= E) as Hd.
    { pose proof (bu_dir _ _ B) as Hdir. rewrite Hdir in Ein, Ain.
      apply list_elem_of_In, list_elem_of_lookup in Ein as [j Hj].
      apply list_elem_of_In, list_elem_of_lookup in Ain as [k Hk].
      assert (forall ds j k base, place base ds !! j = Some (DirEntry ENTITY 0 E 312) ->
        place base ds !! k = Some (DirEntry AVB_INTERFACE 0 A 102) ->
        E + 312 <= A \/ A + 102 <= E) as G; [|by eapply G].
      clear. intros ds. induction ds as [|[[t i] img] ds IH]; intros j k base Hj Hk; [done|].
      assert (forall ds base l e, place base ds !! l = Some e -> base <= de_base e) as Hge.
      { clear. induction ds as [|[[t i] img] ds IH]; intros base [|l] e H; try done; simpl in H.
        - injection H as <-. simpl. lia.
        - apply IH in H. pose proof (zlen_nonneg img). lia. }
      destruct j as [|j], k as [|k]; simpl in Hj, Hk.
      - congruence.
      - injection Hj as _ _ <- Hl. apply Hge in Hk. simpl in Hk. lia.
      - injection Hk as _ _ <- Hl. apply Hge in Hj. simpl in Hj. lia.
      - exact (IH _ _ _ Hj Hk). }
    repeat first [apply FOP_nil | apply FOP_cons | apply List.Forall_nil | apply List.Forall_cons];
      unfold span_disjoint; cbn [fst snd]; lia.
Qed.

(** Every live overlay of a built model lies inside the ENTITY or the
    AVB_INTERFACE descriptor of its ROM, no two overlays overlap, and none
    touches a descriptor's leading type and index words. *)
Theorem read_overlays_inside spec m :
  build_model spec = Ok m ->
  (forall a n s, In (a, n, s) (am_overlays m) -> exists e, In e (am_directory m) /\
     (de_type e = ENTITY \/ de_type e = AVB_INTERFACE) /\
     de_base e + 4 <= a /\ 0 < n /\ a + n <= de_base e + de_len e /\ a + n <= zlen (am_rom m)) /\
  ForallOrdPairs span_disjoint (am_overlays m).
Proof.
  intros H. destruct (overlays_layout spec m H) as [Hin Hd]. split; [|done].
  intros a n s Hs. destruct (Hin a n s Hs) as (e & ? & ? & ? & ? & ? & ? & ?). by exists e.
Qed.

Lemma read_overlays_inside_witness :
  exists m, build_model sample_spec = Ok m /\ ForallOrdPairs span_disjoint (am_overlays m).
Proof.
  destruct (build_model sample_spec) as [m|e] eqn:E; [|vm_compute in E; discriminate E].
  exists m. split; [reflexivity|]. exact (proj2 (read_overlays_inside sample_spec m E)).
Defined.

Lemma mapR_zrange_In {E B} (f : Z -> result E B) n l k :
  mapR f (zrange 0 n) = Ok l -> (k < n)%nat -> exists y, f (Z.of_nat k) = Ok y /\ In y l.
Proof.
  intros H Hk. apply mapR_Ok in H.
  assert (zrange 0 n !! k = Some (Z.of_nat k)) as Hz by (rewrite zrange_lookup, decide_True by lia; f_equal; lia).
  destruct (Forall2_lookup_l _ _ _ _ _ H Hz) as (y & Hy & Hf). exists y. split; [done|].
  by apply list_elem_of_lookup_2, list_elem_of_In in Hy.
Qed.

(** A SET_* write-back lands on the field the command is about: read at its
    target, the ROM of a built model holds the current sampling rate, each
    stream's first format (the STREAM_FORMAT symbol being output 0), clock source
    index 0, IDENTIFY value 0, and the opening words of each AUDIO_MAP. *)
Theorem writeback_targets_fields spec m :
  build_model spec = Ok m ->
  (exists a, In ("SAMPLING_RATE"%string, a) (am_wb m) /\ rd_be a 4 (am_rom m) = sp_current_rate spec) /\
  (forall s f, sp_stream_outputs spec !! 0%nat = Some s -> st_formats s !! 0%nat = Some f ->
     exists a, In ("STREAM_FORMAT"%string, a) (am_wb m) /\ rd_be a 8 (am_rom m) = f mod 2 ^ 64) /\
  (forall k s f, sp_stream_inputs spec !! k = Some s -> st_formats s !! 0%nat = Some f ->
     exists a, In (("STREAM_IN" ++ pretty (Z.of_nat k) ++ "_FMT")%string, a) (am_wb m) /\
       rd_be a 8 (am_rom m) = f mod 2 ^ 64) /\
  (exists a, In ("CLOCK_SRC_IDX"%string, a) (am_wb m) /\ rd_be a 2 (am_rom m) = 0) /\
  (exists a, In ("CONTROL_CUR"%string, a) (am_wb m) /\ rd_be a 1 (am_rom m) = 0) /\
  (forall k rows, sp_audio_maps spec !! k = Some rows ->
     exists a, In (("AUDIO_MAP_" ++ pretty (Z.of_nat k))%string, a) (am_wb m) /\
       rd_be a 2 (am_rom m) = AUDIO_MAP /\ rd_be (a + 2) 2 (am_rom m) = Z.of_nat k mod 65536).
Proof.
  intros H. apply build_model_built in H as [B].
  pose proof (entity_descriptors_part _ _ (bu_entity _ _ B)) as P.
  pose proof (bu_wb _ _ B) as Hwb. unfold writeback_targets in Hwb. rsplit Hwb. rewrite <-Hwb. clear Hwb.
  assert (forall t i img, In (t, i, img) (bu_d1 _ _ B) ->
            In (t, i, img) (bu_d1 _ _ B ++ bu_d2 _ _ B)) as Hl by (intros; apply in_app_iff; by left).
  split; [|split; [|split; [|split; [|split]]]].
  - exists (v + 136). split; [by left|].
    destruct (ep_unit _ _ P) as (ni & no & nm & b & Hb & Hin).
    rewrite (built_field _ _ B _ _ _ _ 136 4 (Hl _ _ _ Hin) Hm);
      [by eapply d_audio_unit_current|lia|lia|].
    apply d_audio_unit_len in Hb. pose proof (zlen_nonneg (sp_rates spec)). lia.
  - intros s f Hs Hf. exists (v0 + 74). split; [by right; left|].
    destruct (ep_out _ _ P 0%nat s Hs) as (fl & b & Hb & Hin).
    rewrite (built_field _ _ B _ _ _ _ 74 8 (Hl _ _ _ Hin) Hm0); [|lia|lia|].
    + destruct (st_formats s) as [|f0 fs]; [done|]. injection Hf as ->. by eapply d_stream_current.
    + apply d_stream_len in Hb. pose proof (zlen_nonneg (st_formats s)). lia.
  - intros k s f Hs Hf. apply lookup_lt_Some in Hs as Hk.
    destruct (mapR_zrange_In _ _ _ k Hm1 Hk) as (y & Hy & Hyin). rsplit Hy. subst y.
    exists (v5 + 74). split; [rewrite !in_app_iff; tauto|].
    destruct (ep_in _ _ P k s Hs) as (b & Hb & Hin).
    rewrite (built_field _ _ B _ _ _ _ 74 8 (Hl _ _ _ Hin) Hm5); [|lia|lia|].
    + destruct (st_formats s) as [|f0 fs]; [done|]. injection Hf as ->. by eapply d_stream_current.
    + apply d_stream_len in Hb. pose proof (zlen_nonneg (st_formats s)). lia.
  - exists (v2 + 70). split; [rewrite !in_app_iff; simpl; tauto|].
    destruct (ep_dom _ _ P) as (n & nm & b & Hb & Hin & Hn).
    rewrite (built_field _ _ B _ _ _ _ 70 2 (Hl _ _ _ Hin) Hm2); [by eapply d_clock_domain_current|lia|lia|].
    apply d_clock_domain_len in Hb; lia.
  - exists (v3 + 108). split; [rewrite !in_app_iff; simpl; tauto|].
    destruct (ep_ctl _ _ P) as (nm & b & Hb & Hin).
    rewrite (built_field _ _ B _ _ _ _ 108 1 (Hl _ _ _ Hin) Hm3); [by eapply d_control_current|lia|lia|].
    apply d_control_identify_len in Hb. lia.
  - intros k rows Hk. apply lookup_lt_Some in Hk as Hlt.
    destruct (mapR_zrange_In _ _ _ k Hm4 Hlt) as (y & Hy & Hyin). rsplit Hy. subst y.
    exists v5. split; [rewrite !in_app_iff; tauto|].
    destruct (port_descriptors_maps _ _ _ _ (bu_port _ _ B) Hk) as (b & Hb & Hin).
    assert (In (AUDIO_MAP, Z.of_nat k, b) (bu_d1 _ _ B ++ bu_d2 _ _ B)) as Hin'
      by (apply in_app_iff; by right).
    pose proof (d_audio_map_typed _ _ _ Hb) as [Ht Hi]. apply d_audio_map_len in Hb.
    pose proof (zlen_nonneg rows). rewrite <-(Z.add_0_r v5) at 1.
    rewrite (built_field _ _ B _ _ _ _ 0 2 Hin' Hm5), (built_field _ _ B _ _ _ _ 2 2 Hin' Hm5) by lia.
    by rewrite Ht, Hi.
Qed.

Lemma writeback_targets_fields_witness :
  exists m, build_model sample_spec = Ok m /\
    exists a, In ("STREAM_IN1_FMT"%string, a) (am_wb m) /\ rd_be a 8 (am_rom m) = 0x041060010000BB80.
Proof.
  destruct (build_model sample_spec) as [m|e] eqn:E; [|vm_compute in E; discriminate E].
  exists m. split; [reflexivity|].
  destruct (writeback_targets_fields sample_spec m E) as (_ & _ & Hin & _).
  exact (Hin 1%nat _ _ eq_refl eq_refl).
Defined.

(** * The dynamic map engines *)

Lemma ceil_pages n page : 0 < page -> let k := - ((- n) / page) in (k - 1) * page < n <= k * page.
Proof.
  intros Hp k. subst k. pose proof (Z.div_mod (- n) page ltac:(lia)).
  pose proof (Z.mod_pos_bound (- n) page Hp). nia.
Qed.

(** The listener-side map engine's constants of an accepted model: one page
    size of 1 to 9 rows (so the last row of a page ends inside the 80-octet
    response scratch), which every dynamic port that names a page names; at most
    64 keys, covering every dynamic port's clusters; and per dynamic port the
    least number of pages that holds its clusters. *)
Theorem dynmap_tables_bounds spec d :
  dynmap_tables spec = Ok (Some d) ->
  1 <= dm_page d <= 9 /\ 8 * dm_page d + 5 < 80 /\ dm_keys d <= 64 /\
  dm_nports d = zlen (sp_ports_in spec) /\
  forall k p, sp_ports_in spec !! k = Some p -> is_dynamic p = true ->
    po_base_cluster p + po_clusters p <= dm_keys d /\
    (forall n, po_map_page p = Some n -> n <> 0 -> n = dm_page d) /\
    exists n, dm_pnmaps d !! k = Some n /\ (n - 1) * dm_page d < po_clusters p <= n * dm_page d.
Proof.
  unfold dynmap_tables. destruct (List.filter is_dynamic (sp_ports_in spec)) as [|q qs] eqn:Ef; [done|].
  intros H. rsplit H. bool_prop. injection H as <-. cbn [dm_page dm_keys dm_nports dm_pnmaps].
  split; [done|]. split; [lia|]. split; [done|]. split; [done|]. intros k p Hk Hd.
  assert (In p (q :: qs)) as Hp.
  { rewrite <-Ef. apply List.filter_In. split; [|done]. by apply list_elem_of_In, (list_elem_of_lookup_2 _ k). }
  split; [|split].
  - apply py_max_spec in Hm2 as [_ Hmax]. apply Hmax.
    exact (in_map (fun p => po_base_cluster p + po_clusters p) _ _ Hp).
  - intros n Hn Hn0.
    assert (n ∈ explicit_pages (q :: qs)) as He.
    { unfold explicit_pages. apply elem_of_remove_dups, list_elem_of_omap. exists p.
      split; [by apply list_elem_of_In|]. rewrite Hn. by rewrite (proj2 (Z.eqb_neq _ _) Hn0). }
    destruct (explicit_pages (q :: qs)) as [|x [|y l]]; [by apply elem_of_nil in He| |].
    + apply list_elem_of_singleton in He. simpl in Hm0. congruence.
    + rewrite !zlen_cons in *. pose proof (zlen_nonneg l). lia.
  - exists (- ((- po_clusters p) / v0)). split; [|apply ceil_pages; lia].
    by rewrite list_lookup_fmap, Hk; simpl; rewrite Hd.
Qed.

Lemma dynmap_tables_bounds_witness :
  exists d, dynmap_tables sample_spec = Ok (Some d) /\ dm_page d = 8 /\ dm_keys d = 2 /\
    exists n, dm_pnmaps d !! 0%nat = Some n /\ (n - 1) * dm_page d < 2 <= n * dm_page d.
Proof.
  eexists. split; [vm_compute; reflexivity|]. split; [reflexivity|]. split; [reflexivity|].
  match goal with |- exists n, dm_pnmaps ?d !! _ = _ /\ _ =>
    destruct (dynmap_tables_bounds sample_spec d) as (_ & _ & _ & _ & Hp);
      [vm_compute; reflexivity|] end.
  exact (proj2 (proj2 (Hp 0%nat _ eq_refl eq_refl))).
Defined.

(** What the loop over the output ports builds, port by port. *)
Lemma odmap_fold so_ch ports : forall k pb cs ini st,
  foldR (odmap_port_step so_ch) (pb, cs, ini) (enum_from k ports) = Ok st ->
  exists S R, st = (pb ++ map (fun i => zlen cs + zlen (concat (take i S))) (seq 0 (length ports)),
                    cs ++ concat S, ini ++ concat R) /\
    Forall2 (fun jp srcs => port_sources (fst jp) (snd jp) = Ok srcs) (enum_from k ports) S /\
    Forall2 (fun jp rows => exists srcs, port_sources (fst jp) (snd jp) = Ok srcs /\
      mapR (fun c => identity_row so_ch (port_stream (fst jp) (snd jp)) (po_clusters (snd jp))
                       (default 0 (po_identity_offset (snd jp))) c srcs) (zrange 0 8) = Ok rows)
      (enum_from k ports) R.
Proof.
  induction ports as [|p ports IH]; intros k pb cs ini st H; cbn [enum_from foldR] in H.
  - apply Ok_inj in H. subst. exists [], []. simpl. rewrite !app_nil_r. split; [done|]. split; constructor.
  - apply rbind_Ok in H as (st1 & H1 & H). unfold odmap_port_step in H1. rsplit H1. subst st1.
    apply IH in H as (S & R & -> & HS & HR).
    exists (v :: S), (v0 :: R). split_and!.
    + cbn [length seq map concat take]. rewrite zlen_nil, Z.add_0_r, <-!app_assoc. cbn [app].
      do 4 f_equal. rewrite <-seq_shift, map_map. apply map_ext. intros i. cbn [take concat].
      rewrite !zlen_app. lia.
    + by constructor.
    + constructor; [by exists v|done].
Qed.

Lemma port_sources_spec j p srcs :
  port_sources j p = Ok srcs -> zlen srcs = po_clusters p.
Proof. unfold port_sources. intros H. rsplit H. bool_prop. by subst. Qed.

(** The talker-side map engine's tables of an accepted model: eight identity
    rows per output port in port order, and the per-cluster source templates of
    the ports one after the other, starting at the port's base.  An identity row
    is valid only for a stream channel the port's stream carries, a cluster of
    that port, and a live source template whose half is the channel's parity
    (tone sources excepted); an invalid row names cluster 0. *)
Theorem odmap_tables_identity spec emit o :
  odmap_tables spec emit = Ok (Some o) ->
  Forall (fun p => 0 <= default 0 (po_identity_offset p)) (sp_ports_out spec) ->
  emit = true /\ zlen (od_init o) = 8 * zlen (sp_ports_out spec) /\
  forall j p c, sp_ports_out spec !! j = Some p -> (c < 8)%nat ->
  exists row base ch, od_init o !! (8 * j + c)%nat = Some row /\ od_pcbase o !! j = Some base /\
    od_sch o !! j = Some ch /\
    (in_v row = false -> in_co row = 0) /\
    (in_v row = true ->
       in_co row = default 0 (po_identity_offset p) + Z.of_nat c /\ 0 <= in_co row < po_clusters p /\
       Z.of_nat c < ch /\
       exists s, od_csrc o !! Z.to_nat (base + in_co row) = Some s /\
         default true (sr_valid s) = true /\ (sr_src s = 4 \/ sr_half s = Z.of_nat c mod 2)).
Proof.
  unfold odmap_tables. intros H Hoff. rsplit H. destruct (existsb _ _); [|done]. cbn [andb] in Hm.
  bool_prop. rsplit H. destruct v1 as [[pb cs] ini] eqn:Ev. rsplit H. injection H as <-.
  unfold enumerate in Hm1. apply odmap_fold in Hm1 as (S & R & Heq & HS & HR).
  injection Heq as -> -> ->. cbn [od_init od_pcbase od_sch od_csrc app].
  assert (Forall (fun l => length l = 8%nat) R) as HR8.
  { clear -HR. induction HR as [|x rows l1 l2 (srcs & _ & Hx) _ IH]; constructor; [|done].
    by apply mapR_length in Hx. }
  pose proof (Forall2_length _ _ _ HR) as HlR. rewrite enum_from_length in HlR.
  split; [done|]. split; [unfold zlen; rewrite (length_concat_const _ 8) by done; lia|].
  intros j p c Hj Hc.
  assert (enum_from 0 (sp_ports_out spec) !! j = Some (Z.of_nat j, p)) as He
    by (by rewrite enum_from_lookup, Hj).
  destruct (Forall2_lookup_l _ _ _ _ _ HR He) as (rows & Hrows & srcs & Hsrc & Hid).
  destruct (Forall2_lookup_l _ _ _ _ _ HS He) as (srcs' & Hsl & Hsrc'). cbn [fst snd] in *.
  rewrite Hsrc in Hsrc'. injection Hsrc' as <-.
  apply mapR_Ok in Hid.
  assert (zrange 0 8 !! c = Some (Z.of_nat c)) as Hz by (rewrite zrange_lookup, decide_True by lia; f_equal; lia).
  destruct (Forall2_lookup_l _ _ _ _ _ Hid Hz) as (row & Hrow & Hidrow).
  apply mapR_Ok in Hm3. unfold enumerate in Hm3.
  destruct (Forall2_lookup_l _ _ _ _ _ Hm3 He) as (ch & Hch & Hchs). simpl in Hchs.
  exists row, (zlen (concat (take j S))), ch. split_and!; [| |done| |].
  - rewrite <-(concat_lookup R j rows c row Hrows Hrow).
    f_equal. rewrite (length_concat_const _ 8) by (by apply Forall_take).
    rewrite length_take. apply lookup_lt_Some in Hrows. lia.
  - rewrite list_lookup_fmap, lookup_seq_lt by (by apply lookup_lt_Some in Hj). simpl. by rewrite zlen_nil.
  - unfold identity_row in Hidrow. rewrite Hchs in Hidrow. cbn [rbind] in Hidrow.
    destruct (negb (_ <? ch)); [by simplify_eq|]. destruct (negb (_ <? _)); [by simplify_eq|].
    rsplit Hidrow. subst row. simpl. by intros ->.
  - unfold identity_row in Hidrow. rewrite Hchs in Hidrow. cbn [rbind] in Hidrow.
    destruct (Z.of_nat c <? ch) eqn:E1; [|by simplify_eq/=].
    destruct (_ <? po_clusters p) eqn:E2; [|by simplify_eq/=]. cbn [negb] in Hidrow.
    rsplit Hidrow. subst row. cbn [in_v in_co]. intros Hv. rewrite Hv. bool_prop.
    assert (0 <= default 0 (po_identity_offset p)).
    { rewrite Forall_lookup in Hoff. by apply (Hoff j). }
    split_and!; [done|lia|done|done|].
    exists v4. split_and!; [|done|apply orb_true_iff in H0; destruct H0; bool_prop; tauto].
    apply sub_Ok in Hm1. rewrite py_index_nonneg in Hm1 by lia.
    rewrite <-(concat_lookup S j srcs _ v4 Hsl Hm1). f_equal. unfold zlen. lia.
Qed.

Lemma odmap_tables_identity_witness :
  exists o, odmap_tables sample_spec true = Ok (Some o) /\ zlen (od_init o) = 8 /\
    od_init o !! 1%nat = Some (InitRow true 1).
Proof.
  eexists. split; [vm_compute; reflexivity|].
  match goal with |- zlen (od_init ?o) = _ /\ _ =>
    destruct (odmap_tables_identity sample_spec true o) as (_ & Hl & _);
      [vm_compute; reflexivity|repeat constructor; simpl; lia|split; [exact Hl|reflexivity]] end.
Defined.
