(* ===== verification/Specs.v ===== *)
(** The two specs a model can be built from ([avdecc/aem_specs.py]):
    [builtin_spec], and [spec_from_overlay] over a builder-emitted overlay.

    The overlay is JSON; its records hold the keys the code reads, an [option]
    where the code uses [.get].  Keys it subscripts unconditionally are plain
    fields, except the kind of a stream input, which one place subscripts and
    another reads with [.get]. *)
From S2P Require Import Prelude Unicode Descriptors Directory Text Model AudioMaps Assemble.
From S2P Require Config.

Definition CS_TYPE (t : string) : option Z :=
  if String.eqb t "internal" then Some 0x0000
  else if String.eqb t "crf" then Some 0x0002
  else if String.eqb t "input_stream" then Some 0x0002
  else None.

(** Retired source types, with the issue that retired each: none today. *)
Definition CS_RETIRED : gmap string string := ∅.

(** * The builtin model *)

(** The f-string [f"{prefix} {n}"] over a range. *)
Definition numbered (prefix : string) (a : Z) (n : nat) : list pystr :=
  map (fun k => lit prefix ++ lit " " ++ dec k) (zrange a n).

(** [text] is milan_csr.sv, which [firmware_version_string] reads. *)
Definition builtin_spec (text : pystr) : result model_error model_spec :=
  let* fw := map_err EDesc (firmware_version_string 0 text) in
  Ok (ModelSpec
    (EntityStrings (lit "Milan FPGA Talker") fw [] (lit "AX7101-0001") (lit "Kebag Logic"))
    None None
    (Some (Gptp (Some 0xF8) (Some 0xF8) (Some 0x436A) (Some 0xFE) (Some 0xF8) (Some 0)
                (Some (-3)) (Some 0) (Some 0) (Some 1)))
    RATES 0x0000BB80 (lit "48/96/192 kHz")
    [StreamSpec (lit "Stream 1") (Some "aaf"%string) FORMATS 2126000;
     StreamSpec (lit "CRF") (Some "crf"%string) CRF_FORMATS 2126000]
    [StreamSpec (lit "Stream Output 0") None OUT_FORMATS 0]
    [ClockSourceSpec (lit "Internal") 0x0000 "internal" CLOCK_SOURCE 0;
     ClockSourceSpec (lit "CRF Clock") 0x0002 "crf" STREAM_INPUT 1;
     ClockSourceSpec (lit "Stream Clock") 0x0002 "input_stream" STREAM_INPUT 0]
    [PortSpec 8 0 0 0 (Some "dynamic"%string) (Some 8) None None None]
    [PortSpec 8 8 1 0 None None None None None]
    [map (fun ch => MapRow 0 ch ch 0) (zrange 0 8)]
    (Some (numbered "I2S Out" 0 2 ++ numbered "Virtual Out" 2 6))
    (Some (numbered "I2S In" 0 2 ++ numbered "Virtual In" 2 6))
    []).

(** * Overlays *)

Record pool_role := PoolRole { pr_role : string; pr_width : Z; pr_offset : Z }.

Record ovl_stream := OvlStream {
  os_name : pystr;
  os_kind : option string;
  os_formats : list pystr;
  os_buffer_length_ns : option Z;
}.

Record ovl_clock := OvlClock {
  oc_name : pystr; oc_type : string; oc_location_type : string; oc_location_index : Z }.

Record ovl_port := OvlPort {
  op_clusters : Z;
  op_base_cluster : Z;
  op_maps : Z;
  op_base_map : Z;
  op_map_mode : option string;
  op_map_page : option Z;
  op_stream_index : option Z;
  op_primary_role : option string;
  op_pool : list pool_role;             (* an absent pool reads as empty *)
}.

Record ovl_cluster := OvlCluster { ol_index : Z; ol_direction : string; ol_name : pystr }.
Record ovl_map := OvlMap { om_index : Z; om_mappings : list map_row }.

Record ovl_entity := OvlEntity {
  oe_name : pystr;
  oe_firmware_version : option pystr;
  oe_group_name : option pystr;
  oe_serial_number : pystr;
  oe_vendor_name : option pystr;
  oe_locale : option pystr;
}.

Record overlay := Overlay {
  ov_schema : option string;
  ov_schema_version : option string;
  ov_entity : ovl_entity;
  ov_sampling_rates_hz : list Z;
  ov_current_sampling_rate_hz : Z;
  ov_stream_inputs : list ovl_stream;
  ov_stream_outputs : list ovl_stream;
  ov_clock_sources : list ovl_clock;
  ov_ports_in : list ovl_port;
  ov_ports_out : list ovl_port;
  ov_audio_maps : list ovl_map;
  ov_audio_clusters : list ovl_cluster;
  ov_names : option (gmap string pystr);
  ov_gptp : option gptp_dataset;
  ov_loopback_lane : option bool;       (* cluster_fabric.loopback_lane *)
  ov_model_lint_waivers : list Config.yaml;
}.

Definition out_identity_offset (p : ovl_port) : Z :=
  match List.find (fun g => bool_decide (op_primary_role p = Some (pr_role g))) (op_pool p) with
  | Some g => pr_offset g
  | None => 0
  end.

Definition hex16 (s : pystr) : result model_error Z :=
  match py_int16 s with Some v => Ok v | None => Err EHexParse end.

(** The received stream channels [(stream, channel)] of the AAF inputs. *)
Definition rx_channels (streams : list ovl_stream) : result model_error (list (Z * Z)) :=
  let* l := mapR (fun ks =>
      if negb (String.eqb (default "aaf"%string (os_kind (snd ks))) "aaf") then Ok []
      else
        let* f0 := sub (os_formats (snd ks)) 0 in
        let* f := hex16 f0 in
        Ok (map (fun c => (fst ks, c)) (zrange 0 (Z.to_nat (Z.land (Z.shiftr f 22) 0x3FF)))))
    (enumerate streams) in
  Ok (concat l).

Definition ovl_is_dynamic (p : ovl_port) : bool :=
  String.eqb (default "static"%string (op_map_mode p)) "dynamic".

(** [next((k for k, (si, c) in enumerate(rx) if si == j and c == 0), 0)]. *)
Fixpoint rx_start (k j : Z) (rx : list (Z * Z)) : Z :=
  match rx with
  | [] => 0
  | (si, c) :: rx' => if (si =? j) && (c =? 0) then k else rx_start (k + 1) j rx'
  end.

(** The source template of cluster [n] of one role segment. *)
Definition cluster_source_of (lb_lane : bool) (rx : list (Z * Z)) (j : Z) (role : string) (n : Z)
    : result model_error cluster_source :=
  if String.eqb role "physical" then
    Ok (ClusterSource 2 0 (n / 2) (n mod 2) (Some (n / 2 <? 4)))
  else if String.eqb role "pilot" then Ok (ClusterSource 4 0 0 0 (Some true))
  else if String.eqb role "loopback" then
    let* sc := match rx with
               | [] => Ok (0, n)
               | _ => sub rx ((rx_start 0 j rx + n) mod zlen rx)
               end in
    Ok (ClusterSource 5 (fst sc) (snd sc / 2) (snd sc mod 2)
          (Some (lb_lane && (fst sc <? 8) && (snd sc <? 8))))
  else if String.eqb role "virtual" then Ok (ClusterSource 0 0 0 (n mod 2) (Some false))
  else Err (EClusterRole role).

Definition out_cluster_sources (ovl : overlay) (j : Z) (p : ovl_port)
    : result model_error (option (list cluster_source)) :=
  if negb (ovl_is_dynamic p) then Ok None
  else
    let* _ := raise_if (match op_pool p with [] => true | _ => false end) (ENoPool j) in
    let* rx := rx_channels (ov_stream_inputs ovl) in
    let lb_lane := default true (ov_loopback_lane ovl) in
    let* srcs := mapR (fun g => mapR (cluster_source_of lb_lane rx j (pr_role g))
                                     (zrange 0 (Z.to_nat (pr_width g)))) (op_pool p) in
    Ok (Some (concat srcs)).

(** The singleton object names an overlay declares. *)
Definition overlay_names (ovl : overlay) : result model_error (gmap string pystr) :=
  let names := default ∅ (ov_names ovl) in
  let* _ := raise_if (negb (bool_decide (dom names ⊆ dom OBJECT_NAMES))) EUnknownNames in
  Ok names.

(** [any(s["kind"] == "crf" for s in ...)], which subscripts. *)
Fixpoint any_crf (l : list ovl_stream) : result model_error bool :=
  match l with
  | [] => Ok false
  | s :: l' =>
      match os_kind s with
      | None => Err EKeyError
      | Some k => if String.eqb k "crf" then Ok true else any_crf l'
      end
  end.

Definition clock_check (c : ovl_clock) : result model_error unit :=
  let* _ := raise_if (bool_decide (is_Some (CS_RETIRED !! oc_type c))) (ERetiredSource (oc_type c)) in
  raise_if (match CS_TYPE (oc_type c) with None => true | _ => false end) (EUnknownSource (oc_type c)).

Definition loc_type (s : string) : result model_error Z :=
  if String.eqb s "CLOCK_SOURCE" then Ok CLOCK_SOURCE
  else if String.eqb s "STREAM_INPUT" then Ok STREAM_INPUT
  else Err EKeyError.

Definition stream_in_spec (s : ovl_stream) : result model_error stream_spec :=
  let* k := match os_kind s with Some k => Ok k | None => Err EKeyError end in
  let* fs := mapR hex16 (os_formats s) in
  Ok (StreamSpec (os_name s) (Some k) fs (default 2126000 (os_buffer_length_ns s))).

Definition stream_out_spec (s : ovl_stream) : result model_error stream_spec :=
  let* fs := mapR hex16 (os_formats s) in
  Ok (StreamSpec (os_name s) (Some (default "aaf"%string (os_kind s))) fs 0).

Definition clock_spec (c : ovl_clock) : result model_error clock_source_spec :=
  let* t := match CS_TYPE (oc_type c) with Some t => Ok t | None => Err EKeyError end in
  let* l := loc_type (oc_location_type c) in
  Ok (ClockSourceSpec (oc_name c) t (oc_type c) l (oc_location_index c)).

Definition port_in_spec (p : ovl_port) : port_spec :=
  PortSpec (op_clusters p) (op_base_cluster p) (op_maps p) (op_base_map p)
    (Some (default "static"%string (op_map_mode p))) (op_map_page p) None None None.

Definition port_out_spec (ovl : overlay) (jp : Z * ovl_port) : result model_error port_spec :=
  let '(j, p) := jp in
  let* srcs := out_cluster_sources ovl j p in
  Ok (PortSpec (op_clusters p) (op_base_cluster p) (op_maps p) (op_base_map p)
        (Some (default "static"%string (op_map_mode p))) None (Some (default j (op_stream_index p)))
        srcs (Some (out_identity_offset p))).

Definition map_le (a b : ovl_map) : Prop := om_index a <= om_index b.
#[export] Instance map_le_dec a b : Decision (map_le a b).
Proof. unfold map_le. apply _. Defined.
Definition cluster_le (a b : ovl_cluster) : Prop := ol_index a <= ol_index b.
#[export] Instance cluster_le_dec a b : Decision (cluster_le a b).
Proof. unfold cluster_le. apply _. Defined.

(** [[c["name"] for c in sorted(clusters) if c["direction"] == dir] or None]. *)
Definition direction_names (dir : string) (l : list ovl_cluster) : option (list pystr) :=
  match map ol_name (List.filter (fun c => String.eqb (ol_direction c) dir) (merge_sort cluster_le l)) with
  | [] => None
  | names => Some names
  end.

(** [str(v).startswith("2.")]; an absent version reads as the empty string. *)
Definition version_2 (v : option string) : bool :=
  match v with Some s => String.prefix "2." s | None => false end.

Definition spec_from_overlay (ovl : overlay) : result model_error model_spec :=
  let* _ := raise_if (negb (bool_decide (ov_schema ovl = Some "kebag-logic/aem-overlay"%string))) ESchema in
  let* _ := raise_if (negb (version_2 (ov_schema_version ovl))) ESchemaVersion in
  let ent := ov_entity ovl in
  let rates_hz := ov_sampling_rates_hz ovl in
  let* _ := raise_if (existsb (fun hz => negb (existsb (Z.eqb hz) [48000; 96000; 192000])) rates_hz) ERates in
  let* fw := match oe_firmware_version ent with Some f => Ok f | None => Err ENoFirmware end in
  let* crf := any_crf (ov_stream_inputs ovl) in
  let* _ := raise_if (negb crf) ENoCrf in
  let* _ := foldR (fun _ c => clock_check c) tt (ov_clock_sources ovl) in
  let* names := overlay_names ovl in
  let* si := mapR stream_in_spec (ov_stream_inputs ovl) in
  let* so := mapR stream_out_spec (ov_stream_outputs ovl) in
  let* cs := mapR clock_spec (ov_clock_sources ovl) in
  let* pout := mapR (port_out_spec ovl) (enumerate (ov_ports_out ovl)) in
  Ok (ModelSpec
    (EntityStrings (oe_name ent) fw (default [] (oe_group_name ent)) (oe_serial_number ent)
       (default (lit "Kebag Logic") (oe_vendor_name ent)))
    (Some names) (oe_locale ent) (ov_gptp ovl) rates_hz (ov_current_sampling_rate_hz ovl)
    (join (lit "/") (map (fun hz => dec (hz / 1000)) rates_hz) ++ lit " kHz")
    si so cs (map port_in_spec (ov_ports_in ovl)) pout
    (map om_mappings (merge_sort map_le (ov_audio_maps ovl)))
    (direction_names "input" (ov_audio_clusters ovl))
    (direction_names "output" (ov_audio_clusters ovl))
    (ov_model_lint_waivers ovl)).

(** * What a spec derived from an overlay satisfies *)

(** A template the capture crossbar can hold. *)
Definition template_ok (lb_lane : bool) (s : cluster_source) : Prop :=
  0 <= sr_half s < 2 /\
  (sr_valid s = Some true ->
     sr_src s = 2 /\ 0 <= sr_idx s < 4 \/
     sr_src s = 4 \/
     sr_src s = 5 /\ lb_lane = true /\ sr_idxh s < 8 /\ sr_idx s < 4).

Lemma cluster_source_of_ok lb rx j role n s :
  0 <= n -> cluster_source_of lb rx j role n = Ok s -> template_ok lb s.
Proof.
  intros Hn H. unfold cluster_source_of in H. unfold template_ok.
  destruct (role =? "physical")%string; [|destruct (role =? "pilot")%string;
    [|destruct (role =? "loopback")%string; [|destruct (role =? "virtual")%string; [|done]]]].
  - injection H as <-. simpl. split; [apply Z.mod_pos_bound; lia|]. intros [= Hv]. bool_prop.
    left. split; [done|]. split; [apply Z.div_pos; lia|done].
  - injection H as <-. simpl. split; [lia|]. tauto.
  - rsplit H. subst s. simpl. split; [apply Z.mod_pos_bound; lia|]. intros [= Hv]. bool_prop.
    right. right. split_and!; try done. apply Z.div_lt_upper_bound; lia.
  - injection H as <-. simpl. split; [apply Z.mod_pos_bound; lia|done].
Qed.

(** The source templates of a dynamic output port: one per cluster of its
    role pool, each within the crossbar's encoding; a valid one is a physical
    pair hold below 4, the tone, or a loopback pair of a stream below 8 and only
    when the bitstream elaborates the loopback lane. *)
Theorem out_cluster_sources_ok ovl j p srcs :
  out_cluster_sources ovl j p = Ok (Some srcs) ->
  ovl_is_dynamic p = true /\ op_pool p <> [] /\
  zlen srcs = sum_z (map (fun g => Z.max 0 (pr_width g)) (op_pool p)) /\
  Forall (template_ok (default true (ov_loopback_lane ovl))) srcs.
Proof.
  unfold out_cluster_sources. destruct (ovl_is_dynamic p); [|done]. cbn [negb]. intros H. rsplit H.
  injection H as <-. split; [done|]. split; [intros E; by rewrite E in Hm|].
  assert (forall (l : list pool_role) vs, mapR (fun g => mapR (cluster_source_of (default true (ov_loopback_lane ovl)) v0 j
            (pr_role g)) (zrange 0 (Z.to_nat (pr_width g)))) l = Ok vs ->
    zlen (concat vs) = sum_z (map (fun g => Z.max 0 (pr_width g)) l) /\
    Forall (template_ok (default true (ov_loopback_lane ovl))) (concat vs)) as G; [|by apply G].
  intros l vs Hl. apply mapR_Ok in Hl.
  induction Hl as [|g rows l vs Hg _ [IHl IHf]]; cbn [concat map]; [split; [done|constructor]|].
  apply mapR_length in Hg as Hlen. rewrite zrange_length in Hlen.
  rewrite zlen_app, IHl. split; [unfold zlen, sum_z; simpl; lia|].
  apply Forall_app. split; [|done].
  apply mapR_Ok in Hg. apply Forall_lookup. intros i s Hs.
  destruct (Forall2_lookup_r _ _ _ _ _ Hg Hs) as (n & Hn & Hc).
  apply list_elem_of_lookup_2, list_elem_of_In, zrange_In in Hn.
  eapply cluster_source_of_ok; [|done]. lia.
Qed.

Lemma any_crf_true l : any_crf l = Ok true -> exists s, In s l /\ os_kind s = Some "crf"%string.
Proof.
  induction l as [|s l IH]; simpl; [done|].
  destruct (os_kind s) as [k|] eqn:E; [|done].
  destruct (k =? "crf")%string eqn:Ek; bool_prop.
  - intros _. exists s. subst. split; [by left|done].
  - intros H. apply IH in H as (s' & ? & ?). exists s'. split; [by right|done].
Qed.

Lemma Forall2_In_l {A B} (R : A -> B -> Prop) l1 l2 x :
  Forall2 R l1 l2 -> In x l1 -> exists y, In y l2 /\ R x y.
Proof.
  induction 1 as [|a b l1 l2 H _ IH]; [done|]. intros [->|Hx]; [exists b; split; [by left|done]|].
  destruct (IH Hx) as (y & ? & ?). exists y. split; [by right|done].
Qed.

Lemma Forall2_In_r {A B} (R : A -> B -> Prop) l1 l2 y :
  Forall2 R l1 l2 -> In y l2 -> exists x, In x l1 /\ R x y.
Proof.
  induction 1 as [|a b l1 l2 H _ IH]; [done|]. intros [->|Hx]; [exists a; split; [by left|done]|].
  destruct (IH Hx) as (x & ? & ?). exists x. split; [by right|done].
Qed.

Lemma CS_TYPE_kind t v : CS_TYPE t = Some v -> exists k, CLKSRC_KIND t = Ok k.
Proof.
  unfold CS_TYPE, CLKSRC_KIND.
  destruct (t =? "internal")%string; [eauto|]. destruct (t =? "crf")%string; [eauto|].
  destruct (t =? "input_stream")%string; [eauto|done].
Qed.

(** Every refusal [build_model] reserves for an inconsistent model that an
    overlay could cause is made earlier: a spec [spec_from_overlay] returns has a
    CRF input, only supported sampling rates, object names this consumer
    renders, a clock source table that needs no unknown kind, and explicit
    source templates on every dynamic output port. *)
Theorem spec_from_overlay_sound ovl spec :
  spec_from_overlay ovl = Ok spec ->
  (exists s, In s (sp_stream_inputs spec) /\ st_kind s = Some "crf"%string) /\
  Forall (fun hz => In hz [48000; 96000; 192000]) (sp_rates spec) /\
  (forall names, sp_names spec = Some names -> dom names ⊆ dom OBJECT_NAMES) /\
  (exists table, clock_source_table (sp_clock_sources spec) = Ok table) /\
  (forall p, In p (sp_ports_out spec) -> is_dynamic p = true -> is_Some (po_cluster_sources p)) /\
  zlen (sp_stream_inputs spec) = zlen (ov_stream_inputs ovl) /\
  zlen (sp_ports_out spec) = zlen (ov_ports_out ovl).
Proof.
  unfold spec_from_overlay. intros H. rsplit H. subst spec. bool_prop.
  cbn [sp_stream_inputs sp_rates sp_names sp_clock_sources sp_ports_out].
  split; [|split; [|split; [|split; [|split; [|split]]]]].
  - subst v3. apply any_crf_true in Hm3 as (s & Hs & Hk).
    apply mapR_Ok in Hm7. destruct (Forall2_In_l _ _ _ _ Hm7 Hs) as (y & Hy & Hf).
    exists y. split; [done|]. unfold stream_in_spec in Hf. rewrite Hk in Hf. rsplit Hf. by subst.
  - apply List.Forall_forall. intros hz Hhz.
    destruct (existsb (Z.eqb hz) [48000; 96000; 192000]) eqn:E.
    + apply existsb_exists in E as (x & Hx & Heq). bool_prop. by subst.
    + exfalso. match goal with Hr : existsb _ (ov_sampling_rates_hz _) = false |- _ =>
        rewrite <-not_true_iff_false in Hr; apply Hr end.
      apply existsb_exists. exists hz. by rewrite E.
  - intros names [= <-]. unfold overlay_names in Hm6. rsplit Hm6. by bool_prop; subst.
  - apply mapR_Ok in Hm9. clear -Hm9. unfold clock_source_table.
    induction Hm9 as [|c s l l' Hc _ [t IH]]; [by eexists|]. cbn [mapR].
    unfold clock_spec in Hc. rsplit Hc. subst s.
    match goal with |- context [CLKSRC_KIND (row_kind ?x)] => change (row_kind x) with (oc_type c) end.
    destruct (CS_TYPE (oc_type c)) as [ct|] eqn:E; [|done]. apply CS_TYPE_kind in E as [k ->].
    cbn [rbind]. rewrite IH. by eexists.
  - intros p Hp Hd. apply mapR_Ok in Hm10. destruct (Forall2_In_r _ _ _ _ Hm10 Hp) as ([j q] & _ & Hq).
    unfold port_out_spec in Hq. rsplit Hq. subst p. cbn in *.
    unfold is_dynamic in Hd. cbn in Hd. unfold out_cluster_sources, ovl_is_dynamic in Hm11.
    rewrite Hd in Hm11. cbn [negb] in Hm11. rsplit Hm11. subst. by eexists.
  - unfold zlen. by rewrite (mapR_length _ _ _ Hm7).
  - unfold zlen. rewrite (mapR_length _ _ _ Hm10). unfold enumerate. by rewrite enum_from_length.
Qed.

(** An overlay with a dynamic output port fed by every role. *)
Definition sample_overlay : overlay :=
  Overlay (Some "kebag-logic/aem-overlay"%string) (Some "2.2"%string)
    (OvlEntity (lit "Dut") (Some (lit "2.96.0")) None (lit "SN-1") None None)
    [48000] 48000
    [OvlStream (lit "Stream 1") (Some "aaf"%string) [lit "0205022000806000"] None;
     OvlStream (lit "CRF") (Some "crf"%string) [lit "041060010000BB80"] None]
    [OvlStream (lit "Out 0") None [lit "0205022000806000"] None]
    [OvlClock (lit "Internal") "internal" "CLOCK_SOURCE" 0; OvlClock (lit "CRF") "crf" "STREAM_INPUT" 1]
    [OvlPort 2 0 0 0 (Some "dynamic"%string) (Some 8) None None []]
    [OvlPort 5 2 0 0 (Some "dynamic"%string) None None (Some "pilot"%string)
       [PoolRole "physical" 2 0; PoolRole "pilot" 1 2; PoolRole "loopback" 2 3]]
    [] [] None None (Some false) [].

Lemma out_cluster_sources_ok_witness :
  exists srcs, out_cluster_sources sample_overlay 0
      (OvlPort 5 2 0 0 (Some "dynamic"%string) None None (Some "pilot"%string)
         [PoolRole "physical" 2 0; PoolRole "pilot" 1 2; PoolRole "loopback" 2 3]) = Ok (Some srcs) /\
    zlen srcs = 5 /\ Forall (template_ok false) srcs.
Proof.
  eexists. split; [vm_compute; reflexivity|].
  match goal with |- zlen ?s = _ /\ _ =>
    destruct (out_cluster_sources_ok sample_overlay 0
      (OvlPort 5 2 0 0 (Some "dynamic"%string) None None (Some "pilot"%string)
         [PoolRole "physical" 2 0; PoolRole "pilot" 1 2; PoolRole "loopback" 2 3]) s)
      as (_ & _ & Hl & Hf); [vm_compute; reflexivity|split; [exact Hl|exact Hf]] end.
Defined.

Lemma spec_from_overlay_sound_witness :
  exists spec, spec_from_overlay sample_overlay = Ok spec /\
    (exists table, clock_source_table (sp_clock_sources spec) = Ok table) /\
    is_ok (build_model spec) = true.
Proof.
  eexists. split; [vm_compute; reflexivity|].
  match goal with |- context [build_model ?s] =>
    destruct (spec_from_overlay_sound sample_overlay s) as (_ & _ & _ & Ht & _);
      [vm_compute; reflexivity|split; [exact Ht|vm_compute; reflexivity]] end.
Defined.

(** The version line of the gateware this model was taken from. *)
Definition csr_text : pystr := lit "  parameter logic [31:0] VERSION = 32'h0002_0060".

(** The compatibility model builds: its ROM is 3651 octets, its entity carries
    the gateware's own version, its static output map puts exactly the recorded
    stream-channel deviations on the list and no other, and the name split leaves
    only the two ENTITY names as exceptions. *)
Theorem builtin_model_builds :
  exists spec m, builtin_spec csr_text = Ok spec /\ build_model spec = Ok m /\
    am_rom_size m = 3651 /\ e_firmware_version (sp_entity spec) = lit "2.96.0" /\
    sm_deviations (am_smap m) = KNOWN_MAP_DEVIATIONS /\
    is_ok (assert_no_map_deviations (sm_deviations (am_smap m)) KNOWN_MAP_DEVIATIONS) = true /\
    am_name_exc m = [Named ENTITY 0 0 48; Named ENTITY 0 1 180] /\
    am_crf_clksrc m = Some 1.
Proof.
  destruct (builtin_spec csr_text) as [spec|e] eqn:Es; [|vm_compute in Es; discriminate Es].
  destruct (build_model spec) as [m|e] eqn:Em;
    vm_compute in Es; apply Ok_inj in Es; subst spec; vm_compute in Em; [|discriminate Em].
  apply Ok_inj in Em. subst m.
  do 2 eexists. split; [reflexivity|]. split; [vm_compute; reflexivity|].
  split_and!; vm_compute; reflexivity.
Qed.
