(* ===== verification/AemiImage.v ===== *)
(** The descriptor image document ([avdecc/gen_aemi_image.py]): the identity
    spans of a built model filled in, and the name table read back out of the
    ROM.

    The image packer is the protocol-processor submodule's [gen_desc_image];
    its [name_bytes], [NAME_BYTES] and [LAYOUT_VERSION] are section variables. *)
From S2P Require Import Prelude Unicode Descriptors Directory Text Model AudioMaps Assemble Specs.
From S2P Require Config.

Inductive image_error :=
  | INoCapsDeclaration
  | IAemUnsupported (caps : Z)
  | INoAdpBlock
  | IParse                          (* ValueError of int() or bytes() *)
  | IOverflow                       (* OverflowError of to_bytes *)
  | INotEui48
  | IUnresolvedSpan (src : string) (base n : Z)
  | ISpanLength (src : string) (n len : Z)
  | IDuplicateKeys
  | INameWithoutDescriptor (t i : Z)
  | IDuplicateName (t i sem : Z)
  | IMixedNames (t : Z)
  | INameIndices (t i : Z)
  | INameAddress (t i sem : Z)
  | INameOutside (t i sem : Z)
  | INameLength
  | INameAfterNul
  | INameUtf8
  | INameNotExact
  | INamePacker.                    (* name_bytes itself raised *)

Definition AEM_SUPPORTED_C := 0x00000008.

Definition UNBAKED_SPANS : list string := ["AVAIL_IDX"; "ENT_NAME8"]%string.

(** * entity_capabilities *)

(** The pattern at the head of [s]: its hexadecimal group. *)
Definition caps_re_at (s : pystr) : option pystr :=
  s ← match_lit (lit "ADP_ENTITY_CAPS_C") s;
  s ← match_lit (lit "=") (skip_ws s);
  s ← match_lit (lit "32'h") (skip_ws s);
  let ds := span_hex s in
  _ ← match_lit (lit ";") (skip_ws (drop (length ds) s));
  match ds with [] => None | _ => Some ds end.

(** [re.search]: the group and the number of newlines before the match. *)
Fixpoint caps_re_search (newlines : Z) (s : pystr) : option (pystr * Z) :=
  match caps_re_at s with
  | Some ds => Some (ds, newlines)
  | None =>
      match s with
      | [] => None
      | c :: s' => caps_re_search (if c =? 10 then newlines + 1 else newlines) s'
      end
  end.

(** [text] is pp_adp_pkg.sv; the result is the mask and its line number. *)
Definition adp_entity_capabilities_declaration (text : pystr) : result image_error (Z * Z) :=
  match caps_re_search 0 text with
  | None => Err INoCapsDeclaration
  | Some (ds, newlines) =>
      match parse_hex_underscored ds with
      | None => Err IParse
      | Some caps =>
          let* _ := raise_if (Z.land caps AEM_SUPPORTED_C =? 0) (IAemUnsupported caps) in
          Ok (caps, newlines + 1)
      end
  end.

Definition adp_entity_capabilities (text : pystr) : result image_error Z :=
  let* d := adp_entity_capabilities_declaration text in Ok (fst d).

(** * Identity *)

(** A number of the overlay: a JSON integer or its hexadecimal text. *)
Inductive json_num := JInt (n : Z) | JStr (s : pystr).

Record adp_block := AdpBlock {
  adp_mac_address : pystr;
  adp_entity_id : json_num;
  adp_talker_stream_sources : json_num;
  adp_talker_capabilities : json_num;
  adp_listener_stream_sinks : json_num;
  adp_listener_capabilities : json_num;
}.

(** [int.to_bytes(n, "big")]. *)
Definition to_bytes_big (n : nat) (v : Z) : result image_error bytes :=
  if (0 <=? v) && (v <? 256 ^ Z.of_nat n) then Ok (be_bytes n v) else Err IOverflow.

Definition u_field (v : json_num) (n : nat) : result image_error bytes :=
  let* z := match v with
            | JInt z => Ok z
            | JStr s => match py_int16 s with Some z => Ok z | None => Err IParse end
            end in
  to_bytes_big n z.

Definition mac_bytes (s : pystr) : result image_error bytes :=
  let* l := mapR (fun x => match py_int16 x with Some z => Ok z | None => Err IParse end)
                 (split_on 58 s) in
  if forallb is_byteb l then Ok l else Err IParse.

Definition identity_from_overlay (adp : option adp_block) (entity_model_id : json_num)
    (pkg_text : pystr) : result image_error (gmap string bytes) :=
  match adp with
  | None => Err INoAdpBlock
  | Some adp =>
      let* mac := mac_bytes (adp_mac_address adp) in
      let* _ := raise_if (negb (zlen mac =? 6)) INotEui48 in
      let clock_id := take 3 mac ++ [0xFF; 0xFE] ++ drop 3 mac in
      let* entity_id := u_field (adp_entity_id adp) 8 in
      let* model_id := u_field entity_model_id 8 in
      let* caps := adp_entity_capabilities pkg_text in
      let* ecaps := to_bytes_big 4 caps in
      let* tsrc := u_field (adp_talker_stream_sources adp) 2 in
      let* tcap := u_field (adp_talker_capabilities adp) 2 in
      let* lsink := u_field (adp_listener_stream_sinks adp) 2 in
      let* lcap := u_field (adp_listener_capabilities adp) 2 in
      Ok (list_to_map [("ENTITY_ID", entity_id); ("MODEL_ID", model_id); ("ECAPS", ecaps);
            ("TALKER_SRC", tsrc); ("TALKER_CAP", tcap); ("LISTEN_SINK", lsink);
            ("LISTEN_CAP", lcap); ("CTRL_CAP", zeros 4); ("ASSOC_ID", zeros 8);
            ("CURRENT_CFG", zeros 2); ("MAC", mac); ("CLOCK_ID", clock_id)]%string)
  end.

(** [rom[base:base + n] = val] of a bytearray. *)
Definition splice (rom : bytes) (base n : Z) (val : bytes) : bytes :=
  take (Z.to_nat base) rom ++ val ++ drop (Z.to_nat (base + n)) rom.

Definition identity_step (ident : gmap string bytes) (rom : bytes) (o : Z * Z * string)
    : result image_error bytes :=
  let '(base, n, src) := o in
  if existsb (String.eqb src) UNBAKED_SPANS then Ok rom
  else match ident !! src with
  | None => Err (IUnresolvedSpan src base n)
  | Some val =>
      let* _ := raise_if (negb (zlen val =? n)) (ISpanLength src n (zlen val)) in
      Ok (splice rom base n val)
  end.

Definition apply_identity (rom : bytes) (overlays : list (Z * Z * string))
    (ident : gmap string bytes) : result image_error bytes :=
  foldR (identity_step ident) rom overlays.

(** * Directory and names *)

Abbreviation dir_map := (gmap (Z * Z) (Z * Z)).
Abbreviation slot_map := (gmap (Z * Z) (gmap Z Z)).

Definition descriptor_directory (directory : list dir_entry) : result image_error dir_map :=
  let m := fold_left (fun (m : dir_map) e => <[(de_type e, de_index e) := (de_base e, de_len e)]> m)
                     directory ∅ in
  let* _ := raise_if (negb (Z.of_nat (size m) =? zlen directory)) IDuplicateKeys in
  Ok m.

Definition named_slots_step (directory : dir_map) (named : slot_map) (e : named_entry)
    : result image_error slot_map :=
  let key := (ne_type e, ne_index e) in
  let* _ := raise_if (bool_decide (directory !! key = None)) (INameWithoutDescriptor (ne_type e) (ne_index e)) in
  let slots := default ∅ (named !! key) in
  let* _ := raise_if (bool_decide (is_Some (slots !! ne_nidx e)))
                     (IDuplicateName (ne_type e) (ne_index e) (ne_nidx e)) in
  Ok (<[key := <[ne_nidx e := ne_addr e]> slots]> named).

Definition named_slots (names : list named_entry) (directory : dir_map) : result image_error slot_map :=
  foldR (named_slots_step directory) ∅ names.

(** [raw.partition(b"\x00")]: the head, and the tail when the separator is
    found. *)
Fixpoint partition_nul (raw : bytes) : bytes * option bytes :=
  match raw with
  | [] => ([], None)
  | b :: raw' =>
      if b =? 0 then ([], Some raw')
      else let '(h, t) := partition_nul raw' in (b :: h, t)
  end.

(** Keys of a dict, sorted. *)
Definition sorted_keys {A} (m : gmap Z A) : list Z := sorted_z (map fst (map_to_list m)).

(** The types of the directory and the indices of one type, both sorted. *)
Definition dir_types (directory : dir_map) : list Z :=
  sorted_z (remove_dups (map (fun kv => fst (fst kv)) (map_to_list directory))).
Definition dir_indices (directory : dir_map) (t : Z) : list Z :=
  sorted_z (map (fun kv => snd (fst kv))
    (List.filter (fun kv => fst (fst kv) =? t) (map_to_list directory))).

Record doc_row := DocRow {
  dr_configuration : Z;
  dr_type : Z;
  dr_index : Z;
  dr_bytes : pystr;                  (* bytes.hex() *)
  dr_name_index : option Z;
}.

(** [bytes.hex()]. *)
Definition bytes_hex (b : bytes) : pystr :=
  flat_map (fun x => [hex_char (x / 16); hex_char (x mod 16)]) b.

Record document := Document {
  doc_version : Z;
  doc_names : list pystr;
  doc_descriptors : list doc_row;
  doc_lint_waivers : option (list Config.yaml);
}.

Section Image.
Variable name_bytes : pystr -> option bytes.
Variable NAME_BYTES : Z.
Variable LAYOUT_VERSION : Z.

Definition text_from_name (raw : bytes) : result image_error pystr :=
  let* _ := raise_if (negb (zlen raw =? NAME_BYTES)) INameLength in
  let '(head, tail) := partition_nul raw in
  let* _ := raise_if (match tail with
                      | Some t => existsb (fun b => negb (b =? 0)) t
                      | None => false end) INameAfterNul in
  match utf8_decode (match tail with Some _ => head | None => raw end) with
  | None => Err INameUtf8
  | Some text =>
      match name_bytes text with
      | None => Err INamePacker
      | Some b => let* _ := raise_if (negb (bool_decide (b = raw))) INameNotExact in Ok text
      end
  end.

(** Where the layout puts semantic name [sem] of a descriptor at [base]. *)
Definition expected_addr (t base sem : Z) : Z :=
  if sem =? 0 then base + (if t =? ENTITY then 48 else 4) else base + 180.

Definition expected_slots (t : Z) : list Z := if t =? ENTITY then [0; 1] else [0].

(** One name: the inner loop over the semantic indices. *)
Definition name_slot_step (rom : bytes) (t i base len : Z) (slots : gmap Z Z)
    (names : list pystr) (sem : Z) : result image_error (list pystr) :=
  match slots !! sem with
  | None => Err (INameIndices t i)
  | Some addr =>
      let* _ := raise_if (negb (addr =? expected_addr t base sem)) (INameAddress t i sem) in
      let* _ := raise_if ((addr <? base) || (base + len <? addr + NAME_BYTES)) (INameOutside t i sem) in
      let* text := text_from_name (zslice addr NAME_BYTES rom) in
      Ok (names ++ [text])
  end.

Definition name_index_step (rom : bytes) (directory : dir_map) (named : slot_map) (t : Z)
    (st : list pystr * gmap (Z * Z) Z) (i : Z) : result image_error (list pystr * gmap (Z * Z) Z) :=
  let '(names, first_name) := st in
  match named !! (t, i) with
  | None => Ok st
  | Some slots =>
      let* _ := raise_if (negb (bool_decide (sorted_keys slots = expected_slots t))) (INameIndices t i) in
      let '(base, len) := default (0, 0) (directory !! (t, i)) in
      let* names' := foldR (name_slot_step rom t i base len slots) names (expected_slots t) in
      Ok (names', <[(t, i) := zlen names]> first_name)
  end.

Definition name_type_step (rom : bytes) (directory : dir_map) (named : slot_map)
    (st : list pystr * gmap (Z * Z) Z) (t : Z) : result image_error (list pystr * gmap (Z * Z) Z) :=
  let indices := dir_indices directory t in
  let present := map (fun i => bool_decide (is_Some (named !! (t, i)))) indices in
  let* _ := raise_if (existsb id present && negb (forallb id present)) (IMixedNames t) in
  foldR (name_index_step rom directory named t) st indices.

Definition name_table (rom : bytes) (directory : dir_map) (named : slot_map)
    : result image_error (list pystr * gmap (Z * Z) Z) :=
  foldR (name_type_step rom directory named) ([], ∅) (dir_types directory).

Definition descriptor_rows (rom : bytes) (directory : list dir_entry) (first_name : gmap (Z * Z) Z)
    : list doc_row :=
  map (fun e => DocRow 0 (de_type e) (de_index e) (bytes_hex (zslice (de_base e) (de_len e) rom))
                  (first_name !! (de_type e, de_index e))) directory.

Definition model_to_document (m : aem_model) (ident : gmap string bytes) : result image_error document :=
  let* rom := apply_identity (am_rom m) (am_overlays m) ident in
  let* directory := descriptor_directory (am_directory m) in
  let* named := named_slots (am_named m) directory in
  let* nf := name_table rom directory named in
  Ok (Document LAYOUT_VERSION (fst nf) (descriptor_rows rom (am_directory m) (snd nf))
        (match am_lint_waivers m with [] => None | l => Some l end)).
End Image.

(** * Splicing *)

Lemma splice_length rom base n val :
  0 <= base -> 0 <= n -> base + n <= zlen rom -> zlen val = n -> zlen (splice rom base n val) = zlen rom.
Proof.
  intros. unfold splice. rewrite !zlen_app. unfold zlen in *.
  rewrite length_take, length_drop. lia.
Qed.

Lemma splice_lookup_out rom base n val (i : nat) :
  0 <= base -> 0 <= n -> base + n <= zlen rom -> zlen val = n ->
  Z.of_nat i < base \/ base + n <= Z.of_nat i -> splice rom base n val !! i = rom !! i.
Proof.
  intros Hb Hn Hl Hv Hi. unfold splice, zlen in *. destruct Hi as [Hi|Hi].
  - rewrite lookup_app_l by (rewrite length_take; lia). by rewrite lookup_take_lt by lia.
  - rewrite lookup_app_r, lookup_app_r; rewrite ?length_take; [|lia..].
    rewrite lookup_drop. f_equal. lia.
Qed.

Lemma splice_slice rom base n val :
  0 <= base -> 0 <= n -> base + n <= zlen rom -> zlen val = n ->
  zslice base n (splice rom base n val) = val.
Proof.
  intros. unfold splice. erewrite (zslice_skip _ _ base); [|unfold zlen in *; rewrite length_take; lia|lia].
  rewrite Z.sub_diag. by apply zslice_hit.
Qed.

Lemma zslice_ext {A} (l l' : list A) off n :
  0 <= off -> 0 <= n ->
  (forall i, off <= Z.of_nat i < off + n -> l !! i = l' !! i) -> zslice off n l = zslice off n l'.
Proof.
  intros Ho Hn H. unfold zslice. apply list_eq. intros i.
  destruct (decide (i < Z.to_nat n)%nat).
  - rewrite !lookup_take_lt, !lookup_drop by done. apply H. lia.
  - by rewrite !lookup_take_ge by lia.
Qed.

Definition baked (s : string) : Prop := existsb (String.eqb s) UNBAKED_SPANS = false.

Definition span_in (len : Z) (o : Z * Z * string) : Prop :=
  0 <= o.1.1 /\ 0 <= o.1.2 /\ o.1.1 + o.1.2 <= len.

Lemma apply_identity_spec ident overlays : forall rom rom',
  Forall (span_in (zlen rom)) overlays -> ForallOrdPairs span_disjoint overlays ->
  apply_identity rom overlays ident = Ok rom' ->
  zlen rom' = zlen rom /\
  (forall b n s, In (b, n, s) overlays -> baked s -> exists val,
     ident !! s = Some val /\ zlen val = n /\ zslice b n rom' = val) /\
  (forall i : nat, (forall b n s, In (b, n, s) overlays -> baked s -> ~ (b <= Z.of_nat i < b + n)) ->
     rom' !! i = rom !! i).
Proof.
  unfold apply_identity. induction overlays as [|[[b n] s] os IH]; intros rom rom' Hin Hdis H; cbn [foldR] in H.
  - apply Ok_inj in H. subst. split_and!; done.
  - apply rbind_Ok in H as (rom1 & H1 & H). inversion Hin as [|? ? [Hb0 [Hn0 Hle]] Hin']; subst.
    inversion Hdis as [|? ? Hd Hdis']; subst. simpl in Hb0, Hn0, Hle.
    unfold identity_step in H1. destruct (existsb (String.eqb s) UNBAKED_SPANS) eqn:Eb.
    + apply Ok_inj in H1. subst rom1. apply IH in H as (Hl & Hs & Ho); [|done|done].
      split_and!; [done| |].
      * intros b' n' s' [[= <- <- <-]|Hin2] Hbk; [unfold baked in Hbk; congruence|by apply Hs].
      * intros i Hi. apply Ho. intros. by eapply Hi; [right|].
    + destruct (ident !! s) as [val|] eqn:Ei; [|done]. rsplit H1. bool_prop. subst rom1.
      assert (zlen (splice rom b n val) = zlen rom) as Hlen by (by apply splice_length).
      apply IH in H as (Hl & Hs & Ho); [|by rewrite Hlen|done]. rewrite Hlen in *.
      split_and!; [done| |].
      * intros b' n' s' [[= <- <- <-]|Hin2] Hbk; [|by apply Hs].
        exists val. split_and!; [done|done|]. transitivity (zslice b n (splice rom b n val)); [|by apply splice_slice].
        apply zslice_ext; [done|done|]. intros i Hi. apply Ho. intros b2 n2 s2 Hin2 _.
        rewrite List.Forall_forall in Hd. specialize (Hd _ Hin2). unfold span_disjoint in Hd. simpl in Hd. lia.
      * intros i Hi. rewrite Ho; [|intros; by eapply Hi; [right|]].
        apply splice_lookup_out; try done. specialize (Hi b n s ltac:(by left) Eb). lia.
Qed.

Lemma apply_identity_total ident overlays : forall rom,
  (forall b n s, In (b, n, s) overlays -> baked s -> exists val, ident !! s = Some val /\ zlen val = n) ->
  exists rom', apply_identity rom overlays ident = Ok rom'.
Proof.
  unfold apply_identity. induction overlays as [|[[b n] s] os IH]; intros rom H; cbn [foldR]; [eauto|].
  assert (forall b' n' s', In (b', n', s') os -> baked s' -> exists val, ident !! s' = Some val /\ zlen val = n') as H'
    by (intros; eapply H; [by right|done]).
  unfold identity_step at 1. destruct (existsb (String.eqb s) UNBAKED_SPANS) eqn:Eb; [apply IH; done|].
  destruct (H b n s ltac:(by left) Eb) as (val & -> & Hl). rewrite Hl, Z.eqb_refl. simpl. by apply IH.
Qed.

(** * Properties of the identity *)

Definition sample_overlays : list (Z * Z * string) :=
  [(4, 8, "ENTITY_ID"); (12, 2, "AVAIL_IDX"); (14, 2, "TALKER_CAP")]%string.
Definition sample_ident : gmap string bytes :=
  list_to_map [("ENTITY_ID", [1; 2; 3; 4; 5; 6; 7; 8]); ("TALKER_CAP", [0x48; 1])]%string.

(** Baking the identity into a ROM writes each resolved span's value at its
    address and nothing else: the length stays, every other octet stays (the two
    spans left to the running device included), provided the spans lie in the ROM
    and do not overlap, which [read_overlays_inside] shows for a built model. *)
Theorem apply_identity_exact ident overlays rom rom' :
  Forall (span_in (zlen rom)) overlays -> ForallOrdPairs span_disjoint overlays ->
  apply_identity rom overlays ident = Ok rom' ->
  zlen rom' = zlen rom /\
  (forall b n s, In (b, n, s) overlays -> baked s -> exists val,
     ident !! s = Some val /\ zlen val = n /\ zslice b n rom' = val) /\
  (forall i : nat, (forall b n s, In (b, n, s) overlays -> baked s -> ~ (b <= Z.of_nat i < b + n)) ->
     rom' !! i = rom !! i).
Proof. apply apply_identity_spec. Qed.

Lemma apply_identity_exact_witness :
  exists rom', apply_identity (zeros 20) sample_overlays sample_ident = Ok rom' /\
    zslice 14 2 rom' = [0x48; 1] /\ rom' !! 12%nat = Some 0.
Proof.
  eexists. split; [vm_compute; reflexivity|].
  match goal with |- zslice _ _ ?r = _ /\ _ =>
    destruct (apply_identity_exact sample_ident sample_overlays (zeros 20) r) as (_ & Hs & _) end.
  - repeat constructor; simpl; unfold zlen; simpl; lia.
  - unfold sample_overlays.
    repeat first [apply FOP_nil | apply FOP_cons | apply List.Forall_nil | apply List.Forall_cons];
      unfold span_disjoint; cbn [fst snd]; lia.
  - vm_compute; reflexivity.
  - split; [|reflexivity].
    destruct (Hs 14 2 "TALKER_CAP"%string) as (val & Hv & _ & Hz);
      [right; right; left; reflexivity|reflexivity|].
    rewrite Hz. vm_compute in Hv. injection Hv as <-. reflexivity.
Defined.

Lemma u_field_len v n b : u_field v n = Ok b -> zlen b = Z.of_nat n.
Proof.
  unfold u_field, to_bytes_big. intros H. rsplit H. destruct (_ && _); [|done].
  injection H as <-. apply zlen_be_bytes.
Qed.

Lemma to_bytes_big_len n v b : to_bytes_big n v = Ok b -> zlen b = Z.of_nat n.
Proof. unfold to_bytes_big. destruct (_ && _); [|done]. intros [= <-]. apply zlen_be_bytes. Qed.

(** A built model's identity is never refused and never partial: with an
    identity resolved from an overlay, every span of [read_overlays] that is not
    listed as dynamic gets a value of the span's width, and in the resulting ROM
    the AVB_INTERFACE clock identity is its MAC widened with FF-FE. *)
Theorem identity_complete spec m adp model_id pkg ident :
  build_model spec = Ok m -> identity_from_overlay adp model_id pkg = Ok ident ->
  exists rom' mac clk, apply_identity (am_rom m) (am_overlays m) ident = Ok rom' /\
    zlen rom' = zlen (am_rom m) /\
    ident !! "MAC"%string = Some mac /\ zlen mac = 6 /\
    ident !! "CLOCK_ID"%string = Some clk /\ clk = take 3 mac ++ [0xFF; 0xFE] ++ drop 3 mac /\
    exists A, base_in (am_directory m) AVB_INTERFACE 0 = Ok A /\
      zslice (A + 70) 6 rom' = mac /\ zslice (A + 78) 8 rom' = clk.
Proof.
  intros Hm Hi. destruct adp as [adp|]; [|done]. unfold identity_from_overlay in Hi. rsplit Hi. bool_prop.
  apply u_field_len in Hm2, Hm3, Hm6, Hm7, Hm8, Hm9. apply to_bytes_big_len in Hm5.
  assert (zlen (take 3 v ++ [255; 254] ++ drop 3 v) = 8) as Hclk.
  { rewrite !zlen_app. unfold zlen in *. rewrite length_take, length_drop. cbn [length]. lia. }
  set (clk := take 3 v ++ [255; 254] ++ drop 3 v) in *.
  assert (Forall (span_in (zlen (am_rom m))) (am_overlays m) /\ ForallOrdPairs span_disjoint (am_overlays m))
    as [Hin Hdis].
  { split; [|by apply (overlays_layout spec)].
    apply List.Forall_forall. intros [[b n] s] Hb.
    destruct (proj1 (overlays_layout spec m Hm) _ _ _ Hb) as (e & _ & _ & ? & ? & ? & ? & ?).
    unfold span_in. simpl. lia. }
  apply build_model_built in Hm as [B]. pose proof (bu_overlays _ _ B) as Ho.
  unfold read_overlays in Ho. rsplit Ho.
  destruct (apply_identity_total ident (am_overlays m) (am_rom m)) as [rom' Hrom].
  { intros b n s Hb Hbk. rewrite <-Ho in Hb. simpl in Hb.
    repeat destruct Hb as [[= <- <- <-]|Hb];
      first [done | discriminate Hbk | (rewrite <-Hi; eexists; split; [reflexivity|]; done)]. }
  destruct (apply_identity_spec _ _ _ _ Hin Hdis Hrom) as (Hl & Hs & _).
  exists rom', v, clk. split; [done|]. split; [done|]. split; [by rewrite <-Hi|]. split; [done|].
  split; [by rewrite <-Hi|]. split; [done|].
  exists v10. split_and!; [done| |].
  - destruct (Hs (v10 + 70) 6 "MAC"%string) as (val & Hv & _ & Hz); [rewrite <-Ho; simpl; tauto|done|].
    rewrite Hz. rewrite <-Hi in Hv. injection Hv as <-. done.
  - destruct (Hs (v10 + 78) 8 "CLOCK_ID"%string) as (val & Hv & _ & Hz); [rewrite <-Ho; simpl; tauto|done|].
    rewrite Hz. rewrite <-Hi in Hv. injection Hv as <-. done.
Qed.

Definition sample_adp : adp_block :=
  AdpBlock (lit "02:00:00:00:00:01") (JStr (lit "0x020000FFFE000001")) (JInt 1) (JStr (lit "4801"))
           (JInt 2) (JStr (lit "4801")).
Definition sample_pkg : pystr := lit "localparam ADP_ENTITY_CAPS_C = 32'h0000_C588;".

Lemma identity_complete_witness :
  exists m ident, build_model sample_spec = Ok m /\
    identity_from_overlay (Some sample_adp) (JInt 7) sample_pkg = Ok ident /\
    exists rom', apply_identity (am_rom m) (am_overlays m) ident = Ok rom' /\
      zlen rom' = zlen (am_rom m).
Proof.
  assert (is_ok (build_model sample_spec) = true) as E0 by (vm_compute; reflexivity).
  assert (is_ok (identity_from_overlay (Some sample_adp) (JInt 7) sample_pkg) = true) as F0
    by (vm_compute; reflexivity).
  destruct (build_model sample_spec) as [m|e] eqn:E; [|discriminate E0].
  destruct (identity_from_overlay (Some sample_adp) (JInt 7) sample_pkg) as [ident|e] eqn:F;
    [|discriminate F0].
  exists m, ident. split; [reflexivity|]. split; [reflexivity|].
  destruct (identity_complete sample_spec m (Some sample_adp) (JInt 7) sample_pkg ident E F)
    as (rom' & mac & clk & Hr & Hl & _). exists rom'. split; [exact Hr|exact Hl].
Defined.

(** * The name table *)

Lemma partition_nul_spec raw : forall h t, partition_nul raw = (h, t) ->
  match t with
  | Some tl => raw = h ++ 0 :: tl
  | None => raw = h
  end.
Proof.
  induction raw as [|b raw IH]; intros h t; simpl; [by intros [= <- <-]|].
  destruct (b =? 0) eqn:E; bool_prop; [by intros [= <- <-]; subst|].
  destruct (partition_nul raw) as [h' t']. intros [= <- <-]. specialize (IH _ _ eq_refl).
  destruct t'; by subst.
Qed.

Section NameTable.
Context (name_bytes : pystr -> option bytes) (NAME_BYTES : Z).
Context (rom : bytes) (directory : dir_map) (named : slot_map).

(** What one name table row holds for one descriptor. *)
Definition name_row_ok (names : list pystr) (t i : Z) (k : Z) : Prop :=
  0 <= k /\ exists slots base len, named !! (t, i) = Some slots /\ directory !! (t, i) = Some (base, len) /\
    forall j sem, expected_slots t !! j = Some sem ->
      slots !! sem = Some (expected_addr t base sem) /\
      base <= expected_addr t base sem /\ expected_addr t base sem + NAME_BYTES <= base + len /\
      exists text, names !! (Z.to_nat k + j)%nat = Some text /\
        name_bytes text = Some (zslice (expected_addr t base sem) NAME_BYTES rom) /\
        zlen (zslice (expected_addr t base sem) NAME_BYTES rom) = NAME_BYTES.

Definition name_table_ok (st : list pystr * gmap (Z * Z) Z) : Prop :=
  forall t i k, snd st !! (t, i) = Some k -> name_row_ok (fst st) t i k.

Lemma text_from_name_spec raw text :
  text_from_name name_bytes NAME_BYTES raw = Ok text ->
  name_bytes text = Some raw /\ zlen raw = NAME_BYTES.
Proof using Type.
  unfold text_from_name. intros H. rsplit H. bool_prop.
  destruct (partition_nul raw) as [h t]. rsplit H.
  destruct (utf8_decode _) as [tx|]; [|done]. destruct (name_bytes tx) as [b|] eqn:Eb; [|done].
  rsplit H. bool_prop. by subst.
Qed.

Lemma name_slots_fold t i base len slots sems : forall names names',
  foldR (name_slot_step name_bytes NAME_BYTES rom t i base len slots) names sems = Ok names' ->
  exists texts, names' = names ++ texts /\ length texts = length sems /\
    forall j sem, sems !! j = Some sem ->
      slots !! sem = Some (expected_addr t base sem) /\
      base <= expected_addr t base sem /\ expected_addr t base sem + NAME_BYTES <= base + len /\
      exists text, texts !! j = Some text /\
        name_bytes text = Some (zslice (expected_addr t base sem) NAME_BYTES rom) /\
        zlen (zslice (expected_addr t base sem) NAME_BYTES rom) = NAME_BYTES.
Proof using Type.
  induction sems as [|s sems IH]; intros names names' H; cbn [foldR] in H.
  - apply Ok_inj in H. subst. exists []. by rewrite app_nil_r.
  - apply rbind_Ok in H as (n1 & H1 & H). unfold name_slot_step in H1.
    destruct (slots !! s) as [addr|] eqn:Es; [|done]. rsplit H1. bool_prop. subst n1 addr.
    apply text_from_name_spec in Hm1 as [Hb Hz].
    apply IH in H as (texts & -> & Hl & Hall). exists (v1 :: texts).
    rewrite <-app_assoc. split; [done|]. split; [simpl; lia|].
    intros [|j] sem Hj; simpl in Hj; [|by apply Hall].
    injection Hj as <-. split_and!; [done|done|done|]. exists v1. done.
Qed.

Lemma name_row_mono names texts t i k : name_row_ok names t i k -> name_row_ok (names ++ texts) t i k.
Proof using Type.
  intros (Hk & slots & base & len & Hn & Hd & Hj). split; [done|]. exists slots, base, len.
  split_and!; try done. intros j sem Hs. destruct (Hj j sem Hs) as (? & ? & ? & text & Ht & ? & ?).
  split_and!; try done. exists text. split_and!; try done. by apply lookup_app_l_Some.
Qed.

Lemma name_index_step_ok t st i st' :
  is_Some (directory !! (t, i)) -> name_table_ok st ->
  name_index_step name_bytes NAME_BYTES rom directory named t st i = Ok st' ->
  name_table_ok st' /\ (is_Some (named !! (t, i)) -> is_Some (snd st' !! (t, i))) /\
  (forall key, is_Some (snd st !! key) -> is_Some (snd st' !! key)).
Proof using Type.
  intros [[base len] Hd] Hok H. destruct st as [names first]. unfold name_index_step in H.
  destruct (named !! (t, i)) as [slots|] eqn:Hn.
  - rsplit H. rewrite Hd in H. simpl in H. rsplit H. subst st'.
    apply name_slots_fold in Hm0 as (texts & -> & Hl & Hall). simpl. split; [|split].
    + intros t' i' k Hk. simpl in *. apply lookup_insert_Some in Hk as [[[= <- <-] <-]|[Hne Hk]].
      * split; [apply zlen_nonneg|]. exists slots, base, len. split_and!; [done|done|].
        intros j sem Hj. destruct (Hall j sem Hj) as (? & ? & ? & text & Ht & ? & ?).
        split_and!; [done|done|done|]. exists text. split_and!; [|done|done].
        unfold zlen. rewrite lookup_app_r by lia. rewrite <-Ht. f_equal. lia.
      * by apply name_row_mono, Hok.
    + intros _. rewrite lookup_insert_eq. by eexists.
    + intros key Hk. rewrite lookup_insert_is_Some'. by right.
  - apply Ok_inj in H. subst. split_and!; [done|by intros [? ?]|done].
Qed.
End NameTable.

Lemma In_dir_indices (directory : dir_map) t i :
  In i (dir_indices directory t) <-> is_Some (directory !! (t, i)).
Proof.
  unfold dir_indices. rewrite In_sorted_z, in_map_iff. split.
  - intros ([[t' i'] v] & <- & [Hin Ht]%List.filter_In). simpl in *. bool_prop. subst.
    apply list_elem_of_In, elem_of_map_to_list in Hin. eauto.
  - intros [v Hv]. exists ((t, i), v). split; [done|]. apply List.filter_In. simpl.
    rewrite Z.eqb_refl. split; [|done]. by apply list_elem_of_In, elem_of_map_to_list.
Qed.

Lemma In_dir_types (directory : dir_map) t i v : directory !! (t, i) = Some v -> In t (dir_types directory).
Proof.
  intros H. unfold dir_types. rewrite In_sorted_z, <-list_elem_of_In, elem_of_remove_dups, list_elem_of_In.
  apply in_map_iff. exists ((t, i), v). split; [done|]. by apply list_elem_of_In, elem_of_map_to_list.
Qed.

(** The name table and the descriptors agree octet for octet: every named
    descriptor of the directory gets a first row in the flat table, its row for
    each semantic name (48 and 180 octets into the ENTITY, 4 octets into any other
    descriptor) lies inside the descriptor, and packing the text of that row gives
    back exactly the octets READ_DESCRIPTOR serves there. *)
Theorem name_table_coherent name_bytes NAME_BYTES rom directory named names first_name :
  name_table name_bytes NAME_BYTES rom directory named = Ok (names, first_name) ->
  (forall t i k, first_name !! (t, i) = Some k ->
     name_row_ok name_bytes NAME_BYTES rom directory named names t i k) /\
  (forall t i, is_Some (directory !! (t, i)) -> is_Some (named !! (t, i)) ->
     is_Some (first_name !! (t, i))).
Proof.
  intros H. unfold name_table in H.
  pose (Inv := fun (st : list pystr * gmap (Z * Z) Z) => name_table_ok name_bytes NAME_BYTES rom directory named st).
  apply (foldR_invariant (fun dn st => Inv st /\ forall t i, In t dn -> is_Some (directory !! (t, i)) ->
           is_Some (named !! (t, i)) -> is_Some (snd st !! (t, i)))) in H.
  - destruct H as [H1 H2]. split; [exact H1|].
    intros t i [v Hd] Hn. apply (H2 t i); [by eapply In_dir_types|by exists v|done].
  - split; [|done]. intros t i k Hk. simpl in Hk. by rewrite lookup_empty in Hk.
  - intros dn t rest st st' _ [Hinv Hdone] Hs. unfold name_type_step in Hs. rsplit Hs.
    apply (foldR_invariant (fun dn2 s => Inv s /\
      (forall i, In i dn2 -> is_Some (named !! (t, i)) -> is_Some (snd s !! (t, i))) /\
      (forall key, is_Some (snd st !! key) -> is_Some (snd s !! key)))) in Hs.
    + destruct Hs as (Hi & Hnew & Hkeep). split; [done|]. intros t' i Ht' Hd Hn.
      apply in_app_iff in Ht' as [Ht'|[<-|[]]]; [by apply Hkeep, Hdone|].
      apply Hnew; [by apply In_dir_indices|done].
    + split_and!; done.
    + intros dn2 i rest2 s s' Hl (Hi & Hnew & Hkeep) Hstep.
      assert (is_Some (directory !! (t, i))) as Hd
        by (apply In_dir_indices; rewrite Hl; apply in_app_iff; right; by left).
      destruct (name_index_step_ok _ _ _ _ _ _ _ _ _ Hd Hi Hstep) as (Hi' & Hn' & Hk').
      split; [done|]. split.
      * intros i' [Hi2|[<-|[]]]%in_app_iff Hn; [by apply Hk', Hnew|by apply Hn'].
      * intros key Hkey. by apply Hk', Hkeep.
Qed.

(** The packer's [name_bytes] on texts of at most 64 octets. *)
Definition sample_name_bytes (s : pystr) : option bytes :=
  match utf8_encode s with
  | Some e => if zlen e <=? 64 then Some (e ++ zeros (64 - length e)) else None
  | None => None
  end.

(** One ENTITY of 312 octets named "Dut", its group name empty. *)
Definition sample_rom : bytes := zeros 48 ++ [68; 117; 116] ++ zeros 261.
Definition sample_dir_map : dir_map := {[ (ENTITY, 0) := (0, 312) ]}.
Definition sample_slots : slot_map := {[ (ENTITY, 0) := {[ 0 := 48; 1 := 180 ]} ]}.

Lemma name_table_coherent_witness :
  exists names first_name,
    name_table sample_name_bytes 64 sample_rom sample_dir_map sample_slots = Ok (names, first_name) /\
    names = [lit "Dut"; []] /\ is_Some (first_name !! (ENTITY, 0)).
Proof.
  destruct (name_table sample_name_bytes 64 sample_rom sample_dir_map sample_slots) as [[names first]|e] eqn:H;
    [|vm_compute in H; discriminate H].
  exists names, first. split; [reflexivity|].
  destruct (name_table_coherent sample_name_bytes 64 sample_rom sample_dir_map sample_slots names first H)
    as [_ Hc].
  split; [vm_compute in H; injection H as <- _; reflexivity|].
  apply Hc; eexists; reflexivity.
Defined.
