(* ===== verification/FlashMap.v ===== *)
(** The QSPI flash map and its checker ([sw/litex/flash_map.py], over the
    literals of [sw/litex/milan_soc.py]).

    [check_map] reports problems instead of raising; the theorem says what an
    empty report means for the device: slots in ascending order, erase-block
    aligned, pairwise disjoint and inside the flash. *)
From S2P Require Import Prelude.

Record flash_row := FlashRow { fr_name : string; fr_off : Z; fr_size : Z; fr_kind : string }.

Inductive flash_problem :=
  | NonPositiveSize (name : string) (size : Z)
  | OffsetUnaligned (name : string) (off : Z)
  | SizeUnaligned (name : string) (size : Z)
  | Overlaps (name : string) (off : Z) (prev : option string) (prev_end : Z)
  | PastDevice (name : string) (fin : Z).

Record flash_state := FlashState {
  fs_problems : list flash_problem;
  fs_prev_end : Z;
  fs_prev_name : option string;
}.

(** [if b: problems.append(p)]. *)
Definition report_if (b : bool) (p : flash_problem) : list flash_problem := if b then [p] else [].

(** One turn of the loop; [erase] is non-zero ([ZeroDivisionError] otherwise). *)
Definition check_row (flash_size erase : Z) (st : flash_state) (r : flash_row) : flash_state :=
  let fin := fr_off r + fr_size r in
  let problems := fs_problems st
    ++ report_if (fr_size r <=? 0) (NonPositiveSize (fr_name r) (fr_size r))
    ++ report_if (negb (fr_off r mod erase =? 0)) (OffsetUnaligned (fr_name r) (fr_off r))
    ++ report_if (negb (fr_size r mod erase =? 0)) (SizeUnaligned (fr_name r) (fr_size r))
    ++ report_if (fr_off r <? fs_prev_end st)
         (Overlaps (fr_name r) (fr_off r) (fs_prev_name st) (fs_prev_end st))
    ++ report_if (flash_size <? fin) (PastDevice (fr_name r) fin) in
  if fs_prev_end st <? fin then FlashState problems fin (Some (fr_name r))
  else FlashState problems (fs_prev_end st) (fs_prev_name st).

Definition check_map (rows : list flash_row) (flash_size erase : Z) : list flash_problem :=
  fs_problems (fold_left (check_row flash_size erase) rows (FlashState [] 0 None)).

(** * The map of the SoC source *)

Definition FLASHBOOT_LAYOUT : list (string * (Z * Z)) :=
  [("bitstream", (0x000000, 0x400000)); ("aem", (0x400000, 0x010000))]%string.
Definition FLASHBOOT_RESERVED : list (string * (Z * Z)) :=
  [("journal", (0xEE0000, 0x020000)); ("user", (0xF00000, 0x100000))]%string.
Definition FLASH_SIZE := 0x1000000.
Definition FLASH_ERASE_BLOCK := 0x10000.

Definition READ_ONLY : list string := map fst FLASHBOOT_LAYOUT.

Definition row_le (a b : flash_row) : Prop := fr_off a <= fr_off b.
#[export] Instance row_le_dec a b : Decision (row_le a b).
Proof. unfold row_le. apply _. Defined.

Definition load_map (layout reserved : list (string * (Z * Z))) : list flash_row :=
  merge_sort row_le
    (map (fun e => FlashRow (fst e) (fst (snd e)) (snd (snd e)) "image") layout
     ++ map (fun e => FlashRow (fst e) (fst (snd e)) (snd (snd e)) "reserved") reserved).

(** * What an empty report means *)

Definition slot_ok (flash_size erase : Z) (r : flash_row) : Prop :=
  0 < fr_size r /\ fr_off r mod erase = 0 /\ fr_size r mod erase = 0 /\
  0 <= fr_off r /\ fr_off r + fr_size r <= flash_size.

Definition before (a b : flash_row) : Prop := fr_off a + fr_size a <= fr_off b.

Lemma report_if_nil b p : report_if b p = [] <-> b = false.
Proof. by destruct b. Qed.

Lemma app_nil_iff {A} (a b : list A) : a ++ b = [] <-> a = [] /\ b = [].
Proof. split; [apply app_eq_nil|by intros [-> ->]]. Qed.

(** The problems the loop adds to, and its high-water mark. *)
Lemma check_rows_spec flash_size erase rows : forall st,
  fs_problems (fold_left (check_row flash_size erase) rows st) = [] <->
  fs_problems st = [] /\
  Forall (fun r => 0 < fr_size r /\ fr_off r mod erase = 0 /\ fr_size r mod erase = 0 /\
                   fs_prev_end st <= fr_off r /\ fr_off r + fr_size r <= flash_size) rows /\
  ForallOrdPairs before rows.
Proof.
  induction rows as [|r rows IH]; intros st; cbn [fold_left].
  - split; [intros H; split_and!; [done|constructor|constructor]|by intros [? _]].
  - rewrite IH. unfold check_row at 1 2.
    set (probs := fs_problems st ++ _).
    assert (probs = [] <-> fs_problems st = [] /\ 0 < fr_size r /\ fr_off r mod erase = 0 /\
      fr_size r mod erase = 0 /\ fs_prev_end st <= fr_off r /\ fr_off r + fr_size r <= flash_size) as Hp.
    { subst probs. rewrite !app_nil_iff, !report_if_nil, !negb_false_iff, !Z.eqb_eq, !Z.ltb_ge, Z.leb_gt.
      tauto. }
    destruct (fs_prev_end st <? fr_off r + fr_size r) eqn:E; bool_prop; cbn [fs_problems fs_prev_end].
    + rewrite Hp. split.
      * intros ((H0 & H1 & H2 & H3 & H4 & H5) & Hall & Hord). split_and!; [done| |].
        -- constructor; [done|]. eapply Forall_impl; [done|]. simpl. intros r' (? & ? & ? & ? & ?).
           split_and!; try done. lia.
        -- constructor; [|done]. apply List.Forall_forall. intros r' Hr'.
           rewrite List.Forall_forall in Hall. apply Hall in Hr'. unfold before. tauto.
      * intros (H0 & Hall & Hord). inversion Hall as [|? ? Hr Hrs]; subst.
        inversion Hord as [|? ? Hb Hord']; subst. split_and!; try tauto.
        apply List.Forall_forall. intros r' Hr'. rewrite List.Forall_forall in Hb, Hrs.
        specialize (Hb _ Hr'). specialize (Hrs _ Hr'). unfold before in Hb. tauto.
    + rewrite Hp. split; [intros ((? & ? & ? & ? & ? & ?) & _ & _); lia|].
      intros (H0 & Hall & _). inversion Hall as [|? ? Hr Hrs]; subst. lia.
Qed.

(** The flash map checker reports no problem exactly when every slot has a
    positive size, starts and ends on erase blocks, lies inside the device, and
    each slot ends before every later one starts; so an accepted map's slots are
    pairwise disjoint, a slot swallowed by a larger one included. *)
Theorem check_map_iff rows flash_size erase :
  check_map rows flash_size erase = [] <->
  Forall (slot_ok flash_size erase) rows /\ ForallOrdPairs before rows.
Proof.
  unfold check_map. rewrite check_rows_spec. cbn [fs_problems fs_prev_end]. unfold slot_ok. tauto.
Qed.

(** The flash map of the SoC sources is accepted, and no image slot shares an
    octet with a writable one. *)
Theorem soc_flash_map_ok :
  check_map (load_map FLASHBOOT_LAYOUT FLASHBOOT_RESERVED) FLASH_SIZE FLASH_ERASE_BLOCK = [] /\
  forall a b, In a (load_map FLASHBOOT_LAYOUT FLASHBOOT_RESERVED) ->
    In b (load_map FLASHBOOT_LAYOUT FLASHBOOT_RESERVED) ->
    fr_kind a = "image"%string -> fr_kind b = "reserved"%string -> before a b.
Proof.
  split; [vm_compute; reflexivity|]. intros a b Ha Hb.
  assert (load_map FLASHBOOT_LAYOUT FLASHBOOT_RESERVED =
    [FlashRow "bitstream" 0 0x400000 "image"; FlashRow "aem" 0x400000 0x10000 "image";
     FlashRow "journal" 0xEE0000 0x20000 "reserved"; FlashRow "user" 0xF00000 0x100000 "reserved"]%string)
    as E by (vm_compute; reflexivity).
  rewrite E in Ha, Hb. unfold before. simpl in Ha, Hb.
  destruct Ha as [<-|[<-|[<-|[<-|[]]]]], Hb as [<-|[<-|[<-|[<-|[]]]]]; simpl; intros; try discriminate; lia.
Qed.
