(* ===== verification/TraceSegment.v ===== *)
(** Workstation trace bundles ([sw/trace/trace_segment.py]): naming, packing,
    unpacking and rotation.

    A bundle directory is a finite map from file names to contents.  The xz
    codec ([lzma]) is the standard library's C extension: [compress] and
    [decompress_tolerant] are section variables, with the one fact the round
    trip relies on (decompressing a whole stream gives the input back and
    reports no truncation) as a hypothesis of that theorem.  Writing a file and
    renaming it is one insertion. *)
From S2P Require Import Prelude Unicode Descriptors Directory Text.

Abbreviation bundle := (gmap pystr bytes).

Definition SEGMENT_BYTES := 256 * 1024.
Definition PINNED_SEGMENT := 0.
Definition USER_RESERVE_BLOCKS := 5.

(** The default budget: the user slot less the reserved erase blocks. *)
Definition DEFAULT_LOG_BUDGET (user_slot_bytes user_erase_bytes : Z) : Z :=
  user_slot_bytes - USER_RESERVE_BLOCKS * user_erase_bytes.

(** * Names *)

Definition ascii_digit (c : Z) : option Z :=
  if (48 <=? c) && (c <=? 57) then Some (c - 48) else None.

(** [(\d{n})]: the value of exactly [n] digits and what follows them. *)
Fixpoint match_digits (n : nat) (acc : Z) (s : pystr) : option (Z * pystr) :=
  match n with
  | O => Some (acc, s)
  | S n' =>
      match s with
      | c :: s' => d ← ascii_digit c; match_digits n' (acc * 10 + d) s'
      | [] => None
      end
  end.

(** [$]: the end, or a newline before the end. *)
Definition at_end (s : pystr) : bool := match s with [] => true | [10] => true | _ => false end.

(** [SEG_RE.match(name)]: the ordinal of [seg-NNNNNN.ctf] or
    [seg-NNNNNN.ctf.xz] (ASCII digits). *)
Definition segment_number (name : pystr) : option Z :=
  s ← match_lit (lit "seg-") name;
  ns ← match_digits 6 0 s;
  s ← match_lit (lit ".ctf") (snd ns);
  match match_lit (lit ".xz") s with
  | Some s' => if at_end s' then Some (fst ns) else None
  | None => if at_end s then Some (fst ns) else None
  end.

(** [f"{n:06d}"] for [n >= 0]. *)
Definition dec06 (n : Z) : pystr :=
  map (fun k => 48 + (n / 10 ^ (5 - k)) mod 10) (zrange 0 6).
Definition pad06 (n : Z) : pystr := if n <? 1000000 then dec06 n else dec n.

Definition seg_le (a b : Z * pystr) : Prop := fst a < fst b \/ fst a = fst b /\ str_le (snd a) (snd b).
#[export] Instance seg_le_dec a b : Decision (seg_le a b).
Proof. unfold seg_le. apply _. Defined.

(** [segments(dir)]: the numbered entries, oldest first. *)
Definition segments (dir : bundle) : list (Z * pystr) :=
  merge_sort seg_le (omap (fun kv => (fun n => (n, fst kv)) <$> segment_number (fst kv)) (map_to_list dir)).

(** [path.suffix == ".xz"]. *)
Definition is_xz (name : pystr) : bool :=
  bool_decide (drop (length name - 3) name = lit ".xz").

(** * Rotation *)

(** [{n: size for n, p in segs}]: one entry per ordinal, the last one wins. *)
Definition size_table (dir : bundle) (segs : list (Z * pystr)) : gmap Z Z :=
  fold_left (fun m np => <[fst np := zlen (default [] (dir !! snd np))]> m) segs ∅.

Definition table_total (sizes : gmap Z Z) : Z := sum_z (map snd (map_to_list sizes)).

(** The eviction loop, which stops at the first segment met within budget. *)
Fixpoint rotate_loop (budget : Z) (evict_pinned dry_run : bool) (sizes : gmap Z Z)
    (segs : list (Z * pystr)) (total : Z) (removed : list Z) (dir : bundle)
    : Z * list Z * bundle :=
  match segs with
  | [] => (total, removed, dir)
  | (n, name) :: segs' =>
      if total <=? budget then (total, removed, dir)
      else if (n =? PINNED_SEGMENT) && negb evict_pinned then
        rotate_loop budget evict_pinned dry_run sizes segs' total removed dir
      else
        rotate_loop budget evict_pinned dry_run sizes segs' (total - default 0 (sizes !! n))
          (removed ++ [n]) (if dry_run then dir else delete name dir)
  end.

Record rotate_result := RotateResult {
  rr_code : Z; rr_total : Z; rr_removed : list Z; rr_dir : bundle }.

Definition cmd_rotate (dir : bundle) (budget : Z) (evict_pinned dry_run : bool) : rotate_result :=
  let segs := segments dir in
  let sizes := size_table dir segs in
  let '(total, removed, dir') :=
    rotate_loop budget evict_pinned dry_run sizes segs (table_total sizes) [] dir in
  RotateResult (if budget <? total then 1 else 0) total removed dir'.

(** * Packing and unpacking *)

Section Codec.
Variable compress : bytes -> bytes.
(** (plaintext, truncated) *)
Variable decompress_tolerant : bytes -> bytes * bool.
Variable METADATA : bytes.

(** The file name one raw segment packs to; [src] is the path's last
    component. *)
Definition packed_name (src : pystr) : pystr :=
  match segment_number src with
  | Some n => lit "seg-" ++ pad06 n ++ lit ".ctf.xz"
  | None => src ++ lit ".xz"
  end.

(** The loop over the raw segments: [Err] is the refusal (exit code 1) with
    what had been written by then. *)
Fixpoint pack_loop (raw : list (pystr * bytes)) (dir : bundle) : result bundle bundle :=
  match raw with
  | [] => Ok dir
  | (src, data) :: raw' =>
      if SEGMENT_BYTES <? zlen data then Err dir
      else pack_loop raw' (<[packed_name src := compress data]> dir)
  end.

Definition cmd_pack (raw : list (pystr * bytes)) (dir : bundle) : result bundle bundle :=
  let* dir' := pack_loop raw dir in
  Ok (match dir' !! lit "metadata" with
      | Some _ => dir'
      | None => <[lit "metadata" := METADATA]> dir'
      end).

Record unpacked := Unpacked { un_stream : bytes; un_metadata : bytes; un_truncated : list Z }.

Definition unpack_segment (dir : bundle) (np : Z * pystr) : bytes * bool :=
  let blob := default [] (dir !! snd np) in
  if is_xz (snd np) then decompress_tolerant blob else (blob, false).

Definition cmd_unpack (dir : bundle) : unpacked :=
  let segs := segments dir in
  Unpacked (concat (map (fun np => fst (unpack_segment dir np)) segs))
    (default METADATA (dir !! lit "metadata"))
    (map fst (List.filter (fun np => snd (unpack_segment dir np)) segs)).
End Codec.

(** * Segments of a directory *)

Lemma In_segments dir n name :
  In (n, name) (segments dir) <-> is_Some (dir !! name) /\ segment_number name = Some n.
Proof.
  unfold segments. rewrite <-list_elem_of_In, merge_sort_Permutation, list_elem_of_omap. split.
  - intros ([k v] & Hin & Hk). simpl in Hk. destruct (segment_number k) eqn:E; [|done].
    simpl in Hk. injection Hk as -> ->. apply elem_of_map_to_list in Hin. eauto.
  - intros [[v Hv] Hn]. exists (name, v). split; [by apply elem_of_map_to_list|].
    simpl. by rewrite Hn.
Qed.

Lemma segments_sorted dir : StronglySorted seg_le (segments dir).
Proof.
  unfold segments. apply StronglySorted_merge_sort.
  - intros [a s] [b t] [c u] H1 H2. unfold seg_le in *. simpl in *.
    destruct H1 as [H1|[-> H1]], H2 as [H2|[<- H2]]; try (left; lia).
    right. split; [done|]. by eapply str_le_trans.
  - intros [a s] [b t]. unfold seg_le. simpl. destruct (Ztrichotomy a b) as [?|[->|?]]; [lia| |lia].
    destruct (str_le_total s t); tauto.
Qed.

Lemma segments_NoDup dir : List.NoDup (segments dir).
Proof.
  apply NoDup_ListNoDup. unfold segments. rewrite merge_sort_Permutation.
  assert (forall l : list (pystr * bytes), base.NoDup (map fst l) -> base.NoDup
    (omap (fun kv => (fun n => (n, fst kv)) <$> segment_number (fst kv)) l)) as G.
  { induction l as [|[k v] l IH]; simpl; [constructor|]. intros Hnd.
    inversion Hnd as [|? ? Hn Hnd']; subst. destruct (segment_number k) as [n|]; simpl; [|by apply IH].
    constructor; [|by apply IH]. intros Hin. apply list_elem_of_omap in Hin as ([k' v'] & Hin & Hk).
    simpl in Hk. destruct (segment_number k'); [|done]. injection Hk as _ ->. apply Hn.
    apply list_elem_of_In. apply list_elem_of_In in Hin. by apply (in_map fst) in Hin. }
  apply G, NoDup_fst_map_to_list.
Qed.

(** * The eviction loop *)

Definition seg_size (dir : bundle) (np : Z * pystr) : Z := zlen (default [] (dir !! snd np)).

Definition evictable (evict_pinned : bool) (np : Z * pystr) : bool :=
  negb ((fst np =? PINNED_SEGMENT) && negb evict_pinned).

Lemma rotate_loop_spec budget ep dry sizes segs : forall total removed dir,
  exists prefix rest, segs = prefix ++ rest /\
    let E := List.filter (evictable ep) prefix in
    let total' := total - sum_z (map (fun np => default 0 (sizes !! fst np)) E) in
    rotate_loop budget ep dry sizes segs total removed dir
      = (total', removed ++ map fst E,
         if dry then dir else fold_left (fun d np => delete (snd np) d) E dir) /\
    (total' <= budget \/ rest = []) /\
    (forall E1 x, E = E1 ++ [x] ->
       budget < total - sum_z (map (fun np => default 0 (sizes !! fst np)) E1)).
Proof.
  induction segs as [|[n name] segs IH]; intros total removed dir; cbn [rotate_loop].
  - exists [], []. simpl. rewrite app_nil_r, Z.sub_0_r. split_and!; [done|by destruct dry|by right|].
    intros E1 x H. by destruct E1.
  - destruct (total <=? budget) eqn:Et; bool_prop.
    { exists [], ((n, name) :: segs). simpl. rewrite app_nil_r, Z.sub_0_r.
      split_and!; [done|by destruct dry|by left|]. intros E1 x H. by destruct E1. }
    destruct ((n =? PINNED_SEGMENT) && negb ep) eqn:Ep.
    + destruct (IH total removed dir) as (p & r & -> & Heq & Hd & Hm).
      exists ((n, name) :: p), r. cbn [List.filter].
      replace (evictable ep (n, name)) with false by (unfold evictable; simpl; by rewrite Ep).
      split; [done|]. split; [exact Heq|]. split; [exact Hd|exact Hm].
    + destruct (IH (total - default 0 (sizes !! n)) (removed ++ [n])
                   (if dry then dir else delete name dir)) as (p & r & -> & Heq & Hd & Hm).
      exists ((n, name) :: p), r. cbn [List.filter].
      replace (evictable ep (n, name)) with true by (unfold evictable; simpl; by rewrite Ep).
      cbn [map sum_z foldr fold_left fst snd]. rewrite Heq. split; [done|]. split; [|split].
      * rewrite <-app_assoc. cbn [app]. f_equal; [f_equal; unfold sum_z; lia|by destruct dry].
      * destruct Hd as [Hd| ->]; [left; unfold sum_z in *; lia|by right].
      * intros [|y E1] x HE; cbn [app] in HE.
        -- simpl. lia.
        -- injection HE as <- HE. specialize (Hm _ _ HE). simpl. unfold sum_z in *. lia.
Qed.

Lemma sum_z_perm l l' : l ≡ₚ l' -> sum_z l = sum_z l'.
Proof. unfold sum_z. induction 1; simpl; lia. Qed.

Lemma size_table_spec dir segs :
  List.NoDup (map fst segs) ->
  (forall np, In np segs -> size_table dir segs !! fst np = Some (seg_size dir np)) /\
  (forall n, is_Some (size_table dir segs !! n) -> In n (map fst segs)) /\
  table_total (size_table dir segs) = sum_z (map (seg_size dir) segs).
Proof.
  unfold size_table. induction segs as [|np segs IH] using rev_ind; intros Hnd.
  - split_and!; [done| |reflexivity]. intros n [v Hv]. simpl in Hv. by rewrite lookup_empty in Hv.
  - rewrite map_app in Hnd. apply NoDup_remove in Hnd as Hr. rewrite app_nil_r in Hr.
    destruct Hr as [Hnd' Hnin]. destruct (IH Hnd') as (Hl & Hk & Ht). clear IH.
    rewrite fold_left_app. cbn [fold_left].
    set (m := fold_left _ segs ∅) in *.
    assert (m !! fst np = None) as Hfresh.
    { apply eq_None_not_Some. intros Hs. by apply Hnin, Hk. }
    split_and!.
    + intros q Hq. apply in_app_iff in Hq as [Hq|[<-|[]]]; [|by rewrite lookup_insert_eq].
      rewrite lookup_insert_ne; [by apply Hl|]. intros Heq. apply Hnin. rewrite Heq. by apply in_map.
    + intros n. rewrite lookup_insert_is_Some'. rewrite map_app, in_app_iff. simpl.
      intros [<-|Hn]; [tauto|]. left. by apply Hk.
    + unfold table_total in *. rewrite (sum_z_perm _ (map snd ((fst np, seg_size dir np) :: map_to_list m))).
      * cbn [map snd]. rewrite map_app, sum_z_app, <-Ht. unfold sum_z. simpl. lia.
      * apply (fmap_Permutation snd). by apply map_to_list_insert.
Qed.

Lemma fold_delete_lookup (E : list (Z * pystr)) : forall (dir : bundle) name,
  fold_left (fun d np => delete (snd np) d) E dir !! name
  = if bool_decide (name ∈ map snd E) then None else dir !! name.
Proof.
  induction E as [|np E IH]; intros dir name; cbn [fold_left map].
  - by rewrite bool_decide_eq_false_2 by apply not_elem_of_nil.
  - rewrite IH. destruct (decide (name = snd np)) as [->|Hne].
    + rewrite lookup_delete_eq. rewrite (bool_decide_eq_true_2 (_ ∈ _ :: _)) by (by left).
      by case_bool_decide.
    + rewrite lookup_delete_ne by done.
      rewrite (bool_decide_ext (name ∈ snd np :: map snd E) (name ∈ map snd E)); [done|].
      rewrite list_elem_of_In. split; [intros [?|?]; [congruence|by apply list_elem_of_In]|].
      intros H. right. by apply list_elem_of_In.
Qed.

Lemma filter_sum {A} (p : A -> bool) (f : A -> Z) l :
  sum_z (map f l) = sum_z (map f (List.filter p l)) + sum_z (map f (List.filter (fun x => negb (p x)) l)).
Proof.
  unfold sum_z. induction l as [|x l IH]; simpl; [done|]. destruct (p x); simpl; lia.
Qed.

(** Rotation evicts oldest first and accounts for what it does.  When every
    ordinal names one file, the evicted segments are the unpinned ones of a prefix
    of the age order, the reported total is exactly the octets of the segments
    that stay, a dry run changes nothing while a real one deletes just the evicted
    files, the exit code is 0 exactly when the rest fits the budget, and eviction
    neither stops early nor goes one segment further than needed. *)
Theorem cmd_rotate_spec dir budget ep dry :
  List.NoDup (map fst (segments dir)) ->
  let r := cmd_rotate dir budget ep dry in
  exists prefix rest, segments dir = prefix ++ rest /\
    let E := List.filter (evictable ep) prefix in
    let kept := List.filter (fun np => negb (evictable ep np)) prefix ++ rest in
    rr_removed r = map fst E /\
    rr_total r = sum_z (map (seg_size dir) kept) /\
    (forall name, rr_dir r !! name =
       if negb dry && bool_decide (name ∈ map snd E) then None else dir !! name) /\
    (rr_code r = 0 <-> rr_total r <= budget) /\
    (rr_total r <= budget \/ rest = []) /\
    (forall E1 x, E = E1 ++ [x] -> budget < rr_total r + seg_size dir x).
Proof.
  intros Hnd r. subst r. unfold cmd_rotate.
  destruct (size_table_spec dir (segments dir) Hnd) as (Hsz & _ & Htot).
  set (sizes := size_table dir (segments dir)) in *.
  destruct (rotate_loop_spec budget ep dry sizes (segments dir) (table_total sizes) [] dir)
    as (p & rest & Hseg & Heq & Hstop & Hmin).
  rewrite Heq. cbn [rr_code rr_total rr_removed rr_dir app].
  exists p, rest. split; [done|].
  assert (forall l, incl l (segments dir) ->
    map (fun np => default 0 (sizes !! fst np)) l = map (seg_size dir) l) as Hm.
  { intros l Hl. apply map_ext_in. intros np Hnp. by rewrite Hsz by (by apply Hl). }
  set (E := List.filter (evictable ep) p) in *.
  assert (incl E (segments dir)) as HE.
  { intros x Hx. subst E. apply List.filter_In in Hx as [Hx _]. rewrite Hseg. apply in_app_iff. by left. }
  rewrite (Hm E HE) in *.
  assert (table_total sizes - sum_z (map (seg_size dir) E)
    = sum_z (map (seg_size dir) (List.filter (fun np => negb (evictable ep np)) p ++ rest))) as Hkept.
  { rewrite Htot, Hseg, !map_app, !sum_z_app. rewrite (filter_sum (evictable ep) (seg_size dir) p).
    fold E. lia. }
  split; [done|]. split; [done|]. split; [|split; [|split]].
  - intros name. destruct dry; [done|]. cbn [negb andb]. apply fold_delete_lookup.
  - destruct (budget <? _) eqn:Eb; bool_prop; lia.
  - done.
  - intros E1 x Hx. specialize (Hmin E1 x Hx). rewrite Hm in Hmin.
    + rewrite Hx, map_app, sum_z_app. unfold sum_z at 2. simpl. lia.
    + intros y Hy. apply HE. rewrite Hx. apply in_app_iff. by left.
Qed.

Definition sample_bundle : bundle :=
  list_to_map [(lit "seg-000000.ctf.xz", zeros 40); (lit "seg-000001.ctf.xz", zeros 30);
               (lit "seg-000002.ctf", zeros 20); (lit "metadata", zeros 5)].

Lemma cmd_rotate_spec_witness :
  rr_removed (cmd_rotate sample_bundle 65 false false) = [1] /\
  exists prefix rest, segments sample_bundle = prefix ++ rest /\
    rr_removed (cmd_rotate sample_bundle 65 false false) = map fst (List.filter (evictable false) prefix).
Proof.
  split; [vm_compute; reflexivity|].
  destruct (cmd_rotate_spec sample_bundle 65 false false) as (p & r & Hs & Hr & _).
  - vm_compute. repeat constructor; simpl; intuition discriminate.
  - exists p, r. split; [exact Hs|exact Hr].
Defined.

(** Rotation under-counts a bundle in which one ordinal names two files (a raw
    segment beside its packed form): the size table keeps one of them, so here
    110 octets of segments are reported as 10, nothing is evicted under a budget
    of 50, and the exit code says the bundle fits. *)
Theorem cmd_rotate_duplicate_ordinals :
  let dir := <[lit "seg-000001.ctf" := zeros 100]> (<[lit "seg-000001.ctf.xz" := zeros 10]> ∅) : bundle in
  let r := cmd_rotate dir 50 false false in
  rr_total r = 10 /\ rr_removed r = [] /\ rr_code r = 0 /\
  sum_z (map (seg_size (rr_dir r)) (segments (rr_dir r))) = 110.
Proof. vm_compute. split_and!; reflexivity. Qed.

(** * Packed names *)

Lemma match_digits_bound n : forall acc s v r,
  0 <= acc -> match_digits n acc s = Some (v, r) ->
  acc * 10 ^ Z.of_nat n <= v < (acc + 1) * 10 ^ Z.of_nat n.
Proof.
  induction n as [|n IH]; intros acc s v r Ha H; cbn [match_digits] in H.
  - injection H as <- <-. change (10 ^ Z.of_nat 0) with 1. lia.
  - destruct s as [|c s]; [done|]. unfold ascii_digit in H.
    destruct (_ && _) eqn:E; [|done]. simpl in H. bool_prop.
    apply IH in H; [|lia]. rewrite Nat2Z.inj_succ, Z.pow_succ_r by lia.
    pose proof (Z.pow_pos_nonneg 10 (Z.of_nat n) ltac:(lia) ltac:(lia)). nia.
Qed.

Lemma segment_number_range name n : segment_number name = Some n -> 0 <= n < 1000000.
Proof.
  unfold segment_number. intros H.
  destruct (match_lit (lit "seg-") name) as [s|]; [|done]. cbn [mbind option_bind] in H.
  destruct (match_digits 6 0 s) as [[v r]|] eqn:E; [|done]. cbn [mbind option_bind fst snd] in H.
  apply match_digits_bound in E; [|lia]. change (10 ^ Z.of_nat 6) with 1000000 in E.
  destruct (match_lit (lit ".ctf") r) as [s2|]; [|done]. cbn [mbind option_bind] in H.
  assert (v = n) as ->; [|lia].
  destruct (match_lit (lit ".xz") s2) as [s3|]; [destruct (at_end s3)|destruct (at_end s2)]; congruence.
Qed.

Lemma match_digits_dec06 n rest :
  0 <= n < 1000000 -> match_digits 6 0 (dec06 n ++ rest) = Some (n, rest).
Proof.
  intros Hn.
  assert (forall x, ascii_digit (48 + x mod 10) = Some (x mod 10)) as Hd.
  { intros x. pose proof (Z.mod_pos_bound x 10 ltac:(lia)). unfold ascii_digit.
    rewrite (proj2 (Z.leb_le _ _)), (proj2 (Z.leb_le _ 57)) by lia. simpl. f_equal. lia. }
  unfold dec06. cbn [zrange map app match_digits].
  rewrite !Hd. cbn [mbind option_bind]. f_equal. f_equal.
  change (10 ^ (5 - 0)) with 100000. change (10 ^ (5 - (0 + 1))) with 10000.
  change (10 ^ (5 - (0 + 1 + 1))) with 1000. change (10 ^ (5 - (0 + 1 + 1 + 1))) with 100.
  change (10 ^ (5 - (0 + 1 + 1 + 1 + 1))) with 10. change (10 ^ (5 - (0 + 1 + 1 + 1 + 1 + 1))) with 1.
  rewrite Z.div_1_r.
  assert (forall a b, 0 < a -> b = a * 10 -> n / a = 10 * (n / b) + (n / a) mod 10) as Hstep.
  { intros a b Ha ->. rewrite <-Z.div_div by lia. apply Z.div_mod. lia. }
  pose proof (Hstep 10 100 ltac:(lia) eq_refl). pose proof (Hstep 100 1000 ltac:(lia) eq_refl).
  pose proof (Hstep 1000 10000 ltac:(lia) eq_refl). pose proof (Hstep 10000 100000 ltac:(lia) eq_refl).
  pose proof (Hstep 100000 1000000 ltac:(lia) eq_refl).
  pose proof (Z.div_mod n 10 ltac:(lia)).
  assert (n / 1000000 = 0) by (apply Z.div_small; lia). lia.
Qed.

Lemma segment_number_packed src n :
  segment_number src = Some n -> segment_number (packed_name src) = Some n.
Proof.
  intros H. pose proof (segment_number_range _ _ H) as Hn. unfold packed_name. rewrite H.
  unfold pad06. rewrite (proj2 (Z.ltb_lt _ _)) by lia. unfold segment_number.
  rewrite match_lit_app. cbn [mbind option_bind]. rewrite match_digits_dec06 by done. reflexivity.
Qed.

Lemma is_xz_packed src n : segment_number src = Some n -> is_xz (packed_name src) = true.
Proof.
  intros H. pose proof (segment_number_range _ _ H) as Hn. unfold packed_name. rewrite H.
  unfold pad06. rewrite (proj2 (Z.ltb_lt _ _)) by lia. reflexivity.
Qed.

Lemma packed_name_inj s1 s2 n1 n2 :
  segment_number s1 = Some n1 -> segment_number s2 = Some n2 ->
  packed_name s1 = packed_name s2 -> n1 = n2.
Proof.
  intros H1 H2 H. apply segment_number_packed in H1, H2. congruence.
Qed.

#[export] Instance seg_le_anti : AntiSymm (=) seg_le.
Proof.
  intros [a s] [b t] H1 H2. unfold seg_le in *. simpl in *.
  destruct H1 as [?|[-> H1]], H2 as [?|[? H2]]; try lia. f_equal.
  unfold str_le in *. revert t H1 H2. induction s as [|x s IH]; intros [|y t]; simpl; try done.
  destruct (x <? y) eqn:E1, (y <? x) eqn:E2; bool_prop; intros; try lia.
  - destruct (y =? x) eqn:E; [|done]. bool_prop. lia.
  - destruct (x =? y) eqn:E; [|done]. bool_prop. lia.
  - destruct (x =? y) eqn:E; [|done]. bool_prop. subst. rewrite Z.eqb_refl in *. f_equal. by apply IH.
Qed.

(** * The packed directory *)

Definition numbered_raw (raw : list (pystr * bytes)) (ords : list Z) : Prop :=
  Forall2 (fun r n => segment_number (fst r) = Some n) raw ords /\ StronglySorted Z.lt ords.

Lemma numbered_In raw ords r :
  numbered_raw raw ords -> In r raw -> exists n, In n ords /\ segment_number (fst r) = Some n.
Proof.
  intros [H _] Hr. induction H as [|a n raw ords Ha _ IH]; [done|].
  destruct Hr as [<-|Hr]; [exists n; split; [by left|done]|].
  destruct (IH Hr) as (m & ? & ?). exists m. split; [by right|done].
Qed.

Lemma numbered_cons r raw n ords :
  numbered_raw (r :: raw) (n :: ords) ->
  segment_number (fst r) = Some n /\ numbered_raw raw ords /\ forall m, In m ords -> n < m.
Proof.
  intros [H Hs]. inversion H; subst. inversion Hs as [|? ? Hs' Hlt]; subst.
  split_and!; [done|done|]. by apply List.Forall_forall.
Qed.

Lemma pack_loop_spec compress raw : forall ords dir,
  numbered_raw raw ords -> Forall (fun r => zlen (snd r) <= SEGMENT_BYTES) raw ->
  exists dir', pack_loop compress raw dir = Ok dir' /\
    (forall r, In r raw -> dir' !! packed_name (fst r) = Some (compress (snd r))) /\
    (forall name, (forall r, In r raw -> name <> packed_name (fst r)) -> dir' !! name = dir !! name).
Proof.
  induction raw as [|[src data] raw IH]; intros ords dir Ho Hz; cbn [pack_loop].
  - exists dir. split_and!; done.
  - destruct ords as [|n ns]; [by destruct Ho as [Ho _]; inversion Ho|].
    apply numbered_cons in Ho as (Hn & Ho & Hlt). inversion Hz as [|? ? Hz1 Hz']; subst. simpl in Hz1, Hn.
    rewrite (proj2 (Z.ltb_ge _ _)) by done.
    destruct (IH ns (<[packed_name src := compress data]> dir) Ho Hz') as (dir' & Hd & Hr & Hout).
    exists dir'. split; [done|]. split.
    + intros r [<-|Hr']; [|by apply Hr]. simpl. rewrite Hout; [apply lookup_insert_eq|].
      intros r' Hr' Heq. destruct (numbered_In _ _ _ Ho Hr') as (m & Hm & Hsn).
      assert (n = m) as <- by (eapply packed_name_inj; [exact Hn|exact Hsn|exact Heq]).
      apply Hlt in Hm. lia.
    + intros name Hno. rewrite Hout by (intros r Hr'; apply Hno; by right).
      apply lookup_insert_ne. intros Heq. apply (Hno (src, data)); [by left|done].
Qed.

(** The segments of a packed directory, oldest first. *)
Definition packed_segments (raw : list (pystr * bytes)) (ords : list Z) : list (Z * pystr) :=
  zip_with (fun r n => (n, packed_name (fst r))) raw ords.

Lemma In_packed_segments raw ords n name :
  numbered_raw raw ords ->
  In (n, name) (packed_segments raw ords) <->
  exists r, In r raw /\ segment_number (fst r) = Some n /\ name = packed_name (fst r).
Proof.
  unfold packed_segments. revert ords. induction raw as [|r raw IH]; intros [|m ords] Ho; simpl.
  - split; [done|]. by intros (? & [] & _).
  - by destruct Ho as [Ho _]; inversion Ho.
  - by destruct Ho as [Ho _]; inversion Ho.
  - apply numbered_cons in Ho as (Hm & Ho & _). rewrite (IH _ Ho). split.
    + intros [[= <- <-]|(r' & ? & ? & ?)]; [exists r; tauto|exists r'; tauto].
    + intros (r' & [<-|Hr'] & Hn & ->); [left; congruence|right; by exists r'].
Qed.

Lemma packed_segments_sorted raw ords :
  numbered_raw raw ords ->
  StronglySorted seg_le (packed_segments raw ords) /\ List.NoDup (packed_segments raw ords).
Proof.
  unfold packed_segments. revert ords.
  induction raw as [|r raw IH]; intros [|m ords] Ho; simpl;
    [split; constructor|split; constructor|split; constructor|].
  apply numbered_cons in Ho as (Hm & Ho & Hlt). destruct (IH ords Ho) as [IHs IHn]. split.
  - constructor; [done|].
    apply List.Forall_forall. intros [n nm] Hin. left. simpl. apply Hlt.
    apply (In_packed_segments raw ords) in Hin as (r' & Hr' & Hn & _); [|done].
    destruct (numbered_In _ _ _ Ho Hr') as (n' & Hn' & Hs). congruence.
  - constructor; [|done]. intros Hin.
    apply (In_packed_segments raw ords) in Hin as (r' & Hr' & Hn & _); [|done].
    destruct (numbered_In _ _ _ Ho Hr') as (n' & Hn' & Hs).
    assert (n' = m) as -> by congruence. apply Hlt in Hn'. lia.
Qed.

Lemma metadata_not_packed raw ords r :
  numbered_raw raw ords -> In r raw -> lit "metadata" <> packed_name (fst r).
Proof.
  intros Ho Hr Heq. destruct (numbered_In _ _ _ Ho Hr) as (n & _ & Hn).
  apply segment_number_packed in Hn. by rewrite <-Heq in Hn.
Qed.

Lemma segments_packed compress METADATA raw ords dir0 :
  numbered_raw raw ords ->
  (forall r, In r raw -> dir0 !! packed_name (fst r) = Some (compress (snd r))) ->
  (forall name, (forall r, In r raw -> name <> packed_name (fst r)) -> dir0 !! name = None) ->
  segments (<[lit "metadata" := METADATA]> dir0) = packed_segments raw ords.
Proof.
  intros Ho Hin Hout. destruct (packed_segments_sorted raw ords Ho) as [Hs Hnd].
  eapply (StronglySorted_unique seg_le); [apply segments_sorted|done|].
  apply NoDup_Permutation; [apply NoDup_ListNoDup, segments_NoDup|by apply NoDup_ListNoDup|].
  intros [n name]. rewrite !list_elem_of_In, In_segments, (In_packed_segments raw ords) by done. split.
  - intros [[v Hv] Hn]. apply lookup_insert_Some in Hv as [[<- _]|[_ Hv]]; [done|].
    destruct (decide (Exists (fun r => name = packed_name (fst r)) raw)) as [Hex|Hno].
    + apply List.Exists_exists in Hex as (r & Hr & ->). exists r. split_and!; [done| |done].
      destruct (numbered_In _ _ _ Ho Hr) as (m & _ & Hm).
      rewrite Hm. apply segment_number_packed in Hm. congruence.
    + rewrite Hout in Hv; [done|]. intros r Hr Heq. apply Hno. apply List.Exists_exists. by exists r.
  - intros (r & Hr & Hn & ->). split; [|by apply segment_number_packed].
    rewrite lookup_insert_ne by (by eapply metadata_not_packed). rewrite Hin by done. by eexists.
Qed.

Lemma unpack_packed compress decompress_tolerant raw ords dir :
  (forall d, decompress_tolerant (compress d) = (d, false)) -> numbered_raw raw ords ->
  (forall r, In r raw -> dir !! packed_name (fst r) = Some (compress (snd r))) ->
  map (unpack_segment decompress_tolerant dir) (packed_segments raw ords)
  = map (fun r => (snd r, false)) raw.
Proof.
  intros Hc Ho Hin. unfold packed_segments. revert ords Ho.
  induction raw as [|r raw IH]; intros [|m ords] Ho; simpl; try done.
  - by destruct Ho as [Ho _]; inversion Ho.
  - apply numbered_cons in Ho as (Hm & Ho & _). f_equal.
    + unfold unpack_segment. cbn [snd]. rewrite (is_xz_packed _ _ Hm), Hin by (by left). simpl. apply Hc.
    + apply IH; [|done]. intros. apply Hin. by right.
Qed.

(** A packed bundle unpacks to what was packed: for raw segments within the
    256 KiB ceiling whose ordinals ascend, packing into an empty directory never
    refuses, and unpacking it gives one stream that is the segments' octets in
    order, with no segment noted as truncated and the metadata copied in. *)
Theorem pack_unpack_roundtrip compress decompress_tolerant METADATA raw ords :
  (forall d, decompress_tolerant (compress d) = (d, false)) -> numbered_raw raw ords ->
  Forall (fun r => zlen (snd r) <= SEGMENT_BYTES) raw ->
  exists dir, cmd_pack compress METADATA raw ∅ = Ok dir /\
    let u := cmd_unpack decompress_tolerant METADATA dir in
    un_stream u = concat (map snd raw) /\ un_truncated u = [] /\ un_metadata u = METADATA.
Proof.
  intros Hcodec Ho Hsize.
  destruct (pack_loop_spec compress raw ords ∅ Ho Hsize) as (dir0 & Hd0 & Hr0 & Hout0).
  unfold cmd_pack. rewrite Hd0. cbn [rbind].
  rewrite Hout0 by (intros r Hr; by eapply metadata_not_packed).
  rewrite lookup_empty. eexists. split; [done|]. unfold cmd_unpack. cbn [un_stream un_truncated un_metadata].
  rewrite (segments_packed compress METADATA raw ords dir0) by
    (first [done | intros name Hno; rewrite Hout0 by done; apply lookup_empty]).
  assert (map (unpack_segment decompress_tolerant (<[lit "metadata" := METADATA]> dir0))
            (packed_segments raw ords) = map (fun r => (snd r, false)) raw) as Hun.
  { apply (unpack_packed compress); [done|done|]. intros r Hr.
    rewrite lookup_insert_ne by (by eapply metadata_not_packed). by apply Hr0. }
  split; [|split].
  - rewrite <-(map_map (unpack_segment _ _) fst), Hun, map_map. done.
  - destruct (List.filter _ (packed_segments raw ords)) as [|np l] eqn:E; [done|]. exfalso.
    assert (In np (np :: l)) as Hin by (by left). rewrite <-E in Hin. apply List.filter_In in Hin as [Hin Hs].
    apply (in_map (unpack_segment decompress_tolerant (<[lit "metadata" := METADATA]> dir0))) in Hin.
    rewrite Hun in Hin. apply in_map_iff in Hin as (r & Hr & _). by rewrite <-Hr in Hs.
  - by rewrite lookup_insert_eq.
Qed.

Lemma pack_unpack_roundtrip_witness :
  let raw := [(lit "seg-000003.ctf", [1; 2; 3]); (lit "seg-000007.ctf", [4])] in
  exists dir, cmd_pack (fun d => 253 :: d) [9] raw ∅ = Ok dir /\
    un_stream (cmd_unpack (fun b => (tl b, false)) [9] dir) = [1; 2; 3; 4].
Proof.
  intros raw.
  destruct (pack_unpack_roundtrip (fun d => 253 :: d) (fun b => (tl b, false)) [9] raw [3; 7])
    as (dir & Hd & Hu & _).
  - intros d. reflexivity.
  - split; repeat constructor.
  - repeat constructor; unfold SEGMENT_BYTES, zlen; simpl; lia.
  - exists dir. split; [exact Hd|exact Hu].
Defined.
