(* ===== verification/CtfRead.v ===== *)
(** The CTF trace reader ([sw/trace/ctf_read.py]): field reads, packet
    validation and the decode loop over a possibly torn stream.

    The metadata is the parsed document ([Metadata]'s attributes); its TSDL text
    parser is not modelled here, its [_validate] is.  Text fields keep their
    octets: the reader's [decode("utf-8", "replace")] does not influence any
    decision.  The two [while] loops run on fuel; [decode] supplies one more than
    the length of the stream, and [decode_total] shows that is enough. *)
From S2P Require Import Prelude Unicode Descriptors.

Definition CTF_MAGIC := 0xC1FC1FC1.

(** An insertion-ordered dict. *)
Abbreviation dict A := (list (string * A)).

Fixpoint dict_get {A} (k : string) (d : dict A) : option A :=
  match d with
  | [] => None
  | (k', v) :: d' => if String.eqb k k' then Some v else dict_get k d'
  end.

Fixpoint dict_set {A} (k : string) (v : A) (d : dict A) : dict A :=
  match d with
  | [] => [(k, v)]
  | (k', v') :: d' => if String.eqb k k' then (k', v) :: d' else (k', v') :: dict_set k v d'
  end.

(** [dict(pairs)]. *)
Definition dict_of {A} (l : list (string * A)) : dict A :=
  fold_left (fun d kv => dict_set (fst kv) (snd kv) d) l [].

(** * Field types *)

Record int_type := IntType { it_size : Z; it_signed : bool; it_align : Z }.

Inductive ctf_type :=
  | TInt (t : int_type) (labels : option (gmap Z pystr))    (* IntType, EnumType *)
  | TStr.

Definition nbytes (t : int_type) : Z := it_size t / 8.

(** [IntType.__init__]: the numbers of the declaration, refused when they are not
    whole bytes. *)
Definition int_type_init (size : Z) (signed : bool) (align : Z) : option int_type :=
  if negb (size mod 8 =? 0) || negb (align mod 8 =? 0) then None
  else Some (IntType size signed align).

Definition type_size (t : ctf_type) : Z := match t with TInt i _ => it_size i | TStr => 0 end.

Abbreviation members := (list (string * ctf_type)).

Record metadata := Metadata {
  m_byte_order : string;
  m_packet_header : members;
  m_packet_context : members;
  m_event_header : members;
  m_event_context : members;
  m_events : gmap Z (string * members);
}.

(** [_validate]: the fields the decoder cannot do without. *)
Definition metadata_valid (m : metadata) : bool :=
  existsb (String.eqb "magic") (map fst (m_packet_header m))
  && forallb (fun want => existsb (String.eqb want) (map fst (m_packet_context m)))
             ["packet_size"; "content_size"]%string
  && existsb (String.eqb "id") (map fst (m_event_header m)).

(** * The cursor *)

Inductive value := VInt (z : Z) | VStr (b : bytes).

(** [TruncatedTrace]. *)
Inductive torn :=
  | UnterminatedString
  | IntegerPastEnd
  | UnknownEvent.

Definition align_off (off nbits : Z) : Z :=
  let nbytes := Z.max 1 (nbits / 8) in
  let rem := off mod nbytes in
  if rem =? 0 then off else off + (nbytes - rem).

(** [buf.find(b"\0", off)]. *)
Fixpoint find_nul (k : Z) (b : bytes) : option Z :=
  match b with
  | [] => None
  | x :: b' => if x =? 0 then Some k else find_nul (k + 1) b'
  end.

(** [int.from_bytes(raw, order, signed=...)]. *)
Definition from_bytes (little signed : bool) (raw : bytes) : Z :=
  let v := if little then of_le raw else of_be raw in
  if signed && (256 ^ zlen raw <=? 2 * v) then v - 256 ^ zlen raw else v.

(** One field: its value and the cursor after it. *)
Definition read (little : bool) (buf : bytes) (off : Z) (t : ctf_type) : result torn (value * Z) :=
  match t with
  | TStr =>
      match find_nul off (drop (Z.to_nat off) buf) with
      | None => Err UnterminatedString
      | Some fin => Ok (VStr (zslice off (fin - off) buf), fin + 1)
      end
  | TInt i _ =>
      let o := align_off off (it_align i) in
      let n := nbytes i in
      let* _ := raise_if (zlen buf <? o + n) IntegerPastEnd in
      Ok (VInt (from_bytes little (it_signed i) (zslice o n buf)), o + n)
  end.

Fixpoint read_members (little : bool) (buf : bytes) (off : Z) (ms : members) (out : dict value)
    : result torn (dict value * Z) :=
  match ms with
  | [] => Ok (out, off)
  | (name, t) :: ms' =>
      let* vo := read little buf off t in
      read_members little buf (snd vo) ms' (dict_set name (fst vo) out)
  end.

Definition read_struct (little : bool) (buf : bytes) (off : Z) (ms : members)
    : result torn (dict value * Z) := read_members little buf off ms [].

(** A value as a record shows it: the label of an enumeration, the number a
    label stands for when it has none ([<n>]), or the plain value. *)
Inductive shown := ShLabel (s : pystr) | ShNoLabel (z : Z) | ShInt (z : Z) | ShText (b : bytes).

Definition label (t : ctf_type) (v : value) : shown :=
  match t, v with
  | TInt _ (Some labels), VInt z =>
      match labels !! z with Some s => ShLabel s | None => ShNoLabel z end
  | _, VInt z => ShInt z
  | _, VStr b => ShText b
  end.

Definition label_all (ms : members) (d : dict value) : dict shown :=
  map (fun kv => (fst kv, match dict_get (fst kv) (dict_of ms) with
                          | Some t => label t (snd kv)
                          | None => label TStr (snd kv)
                          end)) d.

(** * Timestamps *)

(** [_extend_ts]; [None] is the [TypeError] of arithmetic on a text. *)
Definition extend_ts (event_header : members) (eh : dict value) (base_ts last_ts : value)
    : option value :=
  match dict_get "timestamp" (dict_of event_header) with
  | None => Some last_ts
  | Some t =>
      match dict_get "timestamp" eh with
      | Some raw_value =>
          let bits := type_size t in
          if 64 <=? bits then Some raw_value
          else match base_ts, raw_value, last_ts with
          | VInt base, VInt raw, VInt last =>
              let mask := Z.shiftl 1 bits - 1 in
              let ts := Z.lor (Z.land base (Z.lnot mask)) raw in
              Some (VInt (if ts <? last then ts + (mask + 1) else ts))
          | _, _, _ => None
          end
      | None => None
      end
  end.

(** * Decoding *)

Record event := Event {
  ev_ts : value;
  ev_name : string;
  ev_id : Z;
  ev_packet : Z;
  ev_ctx : dict shown;
  ev_payload : dict shown;
}.

Record packet := Packet {
  pk_header : dict value;
  pk_context : dict value;
  pk_events : list event;
  pk_offset : Z;
  pk_size : Z;
}.

Inductive note :=
  | BadMagic (off : Z)
  | ImpossibleSizes (packet : Z)
  | PacketTruncated (packet : Z)
  | PacketTorn (packet : Z) (why : torn).

Inductive outcome :=
  | Clean
  | Note (n : note)
  | Crash                       (* an exception other than TruncatedTrace *)
  | OutOfFuel.

(** How the event loop of one packet ended. *)
Inductive events_end := EvDone | EvTorn (why : torn) | EvCrash | EvFuel.

Section Decode.
Variable meta : metadata.

Definition little : bool :=
  String.eqb (m_byte_order meta) "le" || String.eqb (m_byte_order meta) "little_endian".

(** One event record: the record and the cursor after it. *)
Definition decode_event (buf : bytes) (off : Z) (base_ts last_ts : value) (npackets : Z)
    : result (option torn) (event * Z) :=
  let* he := map_err Some (read_struct little buf off (m_event_header meta)) in
  let '(eh, off1) := he in
  let* eid := match dict_get "id" eh with
              | Some (VInt z) => Ok z
              | Some (VStr _) => Err (Some UnknownEvent)
              | None => Err None
              end in
  let* nm := match m_events meta !! eid with
             | Some nm => Ok nm
             | None => Err (Some UnknownEvent)
             end in
  let '(name, ms) := nm in
  let* ce := map_err Some (read_struct little buf off1 (m_event_context meta)) in
  let '(cc, off2) := ce in
  let* pe := map_err Some (read_struct little buf off2 ms) in
  let '(payload, off3) := pe in
  match extend_ts (m_event_header meta) eh base_ts last_ts with
  | None => Err None
  | Some ts =>
      Ok (Event ts name eid npackets (label_all (m_event_context meta) cc) (label_all ms payload), off3)
  end.

(** [while cur.off < content_end]: the records read, in order. *)
Fixpoint decode_events (fuel : nat) (buf : bytes) (off content_end : Z) (base_ts last_ts : value)
    (npackets : Z) (acc : list event) : list event * events_end :=
  match fuel with
  | O => (acc, EvFuel)
  | S fuel' =>
      if off <? content_end then
        match decode_event buf off base_ts last_ts npackets with
        | Err (Some why) => (acc, EvTorn why)
        | Err None => (acc, EvCrash)
        | Ok (ev, off') =>
            decode_events fuel' buf off' content_end base_ts (ev_ts ev) npackets (acc ++ [ev])
        end
      else (acc, EvDone)
  end.

(** The sizes and the base time of a packet context. *)
Definition context_numbers (ctx : dict value) : option (Z * Z * value) :=
  match dict_get "packet_size" ctx, dict_get "content_size" ctx with
  | Some (VInt p), Some (VInt c) =>
      Some (p / 8, c / 8, default (VInt 0) (dict_get "timestamp_begin" ctx))
  | _, _ => None
  end.

(** What the body of the outer loop does with the stream at [off]: stop with a
    note (and the events of an unfinished packet), or accept one packet. *)
Inductive packet_step :=
  | StepStop (evs : list event) (o : outcome)
  | StepPacket (p : packet).

Definition decode_packet (fuel : nat) (buf : bytes) (off npackets : Z) : packet_step :=
  match read_struct little buf off (m_packet_header meta) with
  | Err why => StepStop [] (Note (PacketTorn npackets why))
  | Ok (hdr, off1) =>
      match dict_get "magic" hdr with
      | Some (VStr _) => StepStop [] Crash
      | None => StepStop [] (Note (BadMagic off))
      | Some (VInt magic) =>
          if negb (magic =? CTF_MAGIC) then StepStop [] (Note (BadMagic off))
          else match read_struct little buf off1 (m_packet_context meta) with
          | Err why => StepStop [] (Note (PacketTorn npackets why))
          | Ok (ctx, off2) =>
              match context_numbers ctx with
              | None => StepStop [] Crash
              | Some (psize, csize, base_ts) =>
                  if (psize =? 0) || (psize <? csize) then StepStop [] (Note (ImpossibleSizes npackets))
                  else if zlen buf <? off + psize then StepStop [] (Note (PacketTruncated npackets))
                  else match decode_events fuel buf off2 (off + csize) base_ts base_ts npackets [] with
                  | (evs, EvDone) => StepPacket (Packet hdr ctx evs off psize)
                  | (evs, EvTorn why) => StepStop evs (Note (PacketTorn npackets why))
                  | (evs, EvCrash) => StepStop evs Crash
                  | (evs, EvFuel) => StepStop evs OutOfFuel
                  end
              end
          end
      end
  end.

(** An erased or zero-padded tail. *)
Definition erased (buf : bytes) (off : Z) : bool :=
  bool_decide (zslice off 4 buf = [255; 255; 255; 255]) || bool_decide (zslice off 4 buf = [0; 0; 0; 0]).

Fixpoint decode_loop (fuel : nat) (inner : nat) (buf : bytes) (off : Z) (packets : list packet)
    (events : list event) : list packet * list event * outcome :=
  match fuel with
  | O => (packets, events, OutOfFuel)
  | S fuel' =>
      if off <? zlen buf then
        if erased buf off then (packets, events, Clean)
        else match decode_packet inner buf off (zlen packets) with
        | StepStop evs o => (packets, events ++ evs, o)
        | StepPacket p =>
            decode_loop fuel' inner buf (off + pk_size p) (packets ++ [p]) (events ++ pk_events p)
        end
      else (packets, events, Clean)
  end.

Definition decode (buf : bytes) : list packet * list event * outcome :=
  decode_loop (S (length buf)) (S (length buf)) buf 0 [] [].
End Decode.

(** * Reading within a stream and past its end *)

Lemma dict_get_set {A} k k' (v : A) d :
  dict_get k (dict_set k' v d) = if String.eqb k k' then Some v else dict_get k d.
Proof.
  induction d as [|[k2 v2] d IH]; cbn [dict_set dict_get]; [done|].
  destruct (k' =? k2)%string eqn:E; cbn [dict_get]; bool_prop.
  - subst. by destruct (k =? k2)%string.
  - destruct (k =? k2)%string eqn:E2; [|done]. bool_prop. subst.
    destruct (k2 =? k')%string eqn:E3; [|done]. bool_prop. congruence.
Qed.

Definition members_ok (ms : members) : Prop := Forall (fun nt => 0 <= type_size (snd nt)) ms.

(** No negative sizes anywhere ([IntType] itself would accept a negative multiple
    of eight; barectf declares none). *)
Definition sizes_ok (m : metadata) : Prop :=
  members_ok (m_packet_header m) /\ members_ok (m_packet_context m) /\
  members_ok (m_event_header m) /\ members_ok (m_event_context m) /\
  forall i nm, m_events m !! i = Some nm -> members_ok (snd nm).

Lemma find_nul_range k b r : find_nul k b = Some r -> k <= r < k + zlen b.
Proof.
  revert k. induction b as [|x b IH]; intros k H; simpl in H; [done|]. rewrite zlen_cons.
  pose proof (zlen_nonneg b). destruct (x =? 0); [injection H as <-; lia|]. apply IH in H. lia.
Qed.

Lemma find_nul_app k b tl r : find_nul k b = Some r -> find_nul k (b ++ tl) = Some r.
Proof.
  revert k. induction b as [|x b IH]; intros k H; simpl in *; [done|].
  destruct (x =? 0); [done|]. by apply IH.
Qed.

Lemma align_off_ge off a : 0 <= off -> off <= align_off off a.
Proof.
  intros H. unfold align_off. destruct (_ =? 0); [lia|].
  pose proof (Z.mod_pos_bound off (Z.max 1 (a / 8)) ltac:(lia)). lia.
Qed.

Lemma read_spec l buf off t v o :
  0 <= off -> 0 <= type_size t -> read l buf off t = Ok (v, o) ->
  off <= o <= Z.max off (zlen buf) /\
  (forall tl, read l (buf ++ tl) off t = Ok (v, o)) /\
  (forall z, v = VInt z -> exists s n, off <= s /\ 0 <= n /\ s + n <= zlen buf /\
     (Forall is_byte buf -> z < 256 ^ n)) /\
  match t with TInt i _ => 8 <= it_size i -> off < o | TStr => off < o end.
Proof.
  intros Ho Hs H. destruct t as [i labels|]; cbn [read type_size] in *.
  - rsplit H. injection H as <- <-. bool_prop.
    assert (0 <= nbytes i) as Hn by (apply Z.div_pos; lia). pose proof (align_off_ge off (it_align i) Ho).
    split; [lia|]. split; [|split].
    + intros tl. rewrite zlen_app. pose proof (zlen_nonneg tl). unfold raise_if.
      rewrite (proj2 (Z.ltb_ge _ _)) by lia. cbn [rbind].
      by rewrite zslice_app_l by lia.
    + intros z [= <-]. exists (align_off off (it_align i)), (nbytes i). split_and!; try lia.
      intros Hb. set (raw := zslice _ _ buf).
      assert (zlen raw = nbytes i) as Hl by (apply zslice_length; lia).
      assert (Forall is_byte raw) as Hr by (by apply Forall_zslice).
      unfold from_bytes. rewrite Hl.
      assert (0 <= (if l then of_le raw else of_be raw) < 256 ^ nbytes i) as Hv.
      { destruct l; [rewrite <-Hl; by apply of_le_bound|]. unfold of_be.
        rewrite <-Hl, <-(zlen_rev raw). apply of_le_bound. by apply Forall_rev. }
      destruct (_ && _); lia.
    + intros H8. assert (1 <= nbytes i) by (apply Z.div_le_lower_bound; lia). lia.
  - destruct (find_nul off (drop (Z.to_nat off) buf)) as [fin|] eqn:E; [|done]. injection H as <- <-.
    apply find_nul_range in E as Hr. unfold zlen in Hr. rewrite length_drop in Hr.
    split; [unfold zlen; lia|]. split; [|split; [done|lia]].
    intros tl. rewrite drop_app_le by lia. rewrite (find_nul_app _ _ _ _ E).
    rewrite zslice_app_l by (unfold zlen; lia). done.
Qed.

Lemma read_members_spec l buf ms : forall off out d o,
  0 <= off -> members_ok ms -> read_members l buf off ms out = Ok (d, o) ->
  off <= o <= Z.max off (zlen buf) /\
  (forall tl, read_members l (buf ++ tl) off ms out = Ok (d, o)) /\
  (forall k z, dict_get k d = Some (VInt z) -> dict_get k out = Some (VInt z) \/
     exists s n, off <= s /\ 0 <= n /\ s + n <= zlen buf /\ (Forall is_byte buf -> z < 256 ^ n)).
Proof.
  induction ms as [|[name t] ms IH]; intros off out d o Ho Hok H; cbn [read_members] in H.
  - injection H as <- <-. split_and!; try lia; [done|by left].
  - inversion Hok as [|? ? Ht Hok']; subst. simpl in Ht. rsplit H. destruct v as [v off1]. cbn [fst snd] in H.
    destruct (read_spec _ _ _ _ _ _ Ho Ht Hm) as (H1 & H2 & H3 & _).
    destruct (IH off1 _ d o ltac:(lia) Hok' H) as (H4 & H5 & H6). split; [lia|]. split.
    + intros tl. cbn [read_members]. rewrite H2. cbn [rbind fst snd]. apply H5.
    + intros k z Hk. apply H6 in Hk as [Hk|(s & n & ? & ? & ? & ?)];
        [|right; exists s, n; split_and!; [lia|lia|lia|done]].
      assert (dict_get k out = Some (VInt z) \/ v = VInt z) as [?|Hv]; [|by left|].
      { rewrite dict_get_set in Hk. destruct (k =? name)%string; [injection Hk as ->; by right|by left]. }
      right. destruct (H3 z Hv) as (s & n & ? & ? & ? & ?). by exists s, n.
Qed.

Lemma read_struct_spec l buf off ms d o :
  0 <= off -> members_ok ms -> read_struct l buf off ms = Ok (d, o) ->
  off <= o <= Z.max off (zlen buf) /\
  (forall tl, read_struct l (buf ++ tl) off ms = Ok (d, o)) /\
  (forall k z, dict_get k d = Some (VInt z) ->
     exists s n, off <= s /\ 0 <= n /\ s + n <= zlen buf /\ (Forall is_byte buf -> z < 256 ^ n)).
Proof.
  intros Ho Hok H. destruct (read_members_spec l buf ms off [] d o Ho Hok H) as (H1 & H2 & H3).
  split_and!; [lia|lia|done|]. intros k z Hk. by destruct (H3 k z Hk) as [?|?].
Qed.

Section Prefix.
Context (meta : metadata) (Hsz : sizes_ok meta).

Lemma decode_event_spec buf off base last np ev o :
  0 <= off -> decode_event meta buf off base last np = Ok (ev, o) ->
  off <= o <= Z.max off (zlen buf) /\
  forall tl, decode_event meta (buf ++ tl) off base last np = Ok (ev, o).
Proof using All.
  destruct Hsz as (_ & _ & Heh & Hec & Hev). intros Ho H. unfold decode_event in *.
  destruct (read_struct _ buf off (m_event_header meta)) as [[eh off1]|] eqn:E1; [|done].
  destruct (read_struct_spec _ _ _ _ _ _ Ho Heh E1) as (R1 & S1 & _). cbn [map_err rbind] in H.
  destruct (dict_get "id" eh) as [[eid|]|] eqn:Eid; [|done|done]. cbn [rbind] in H.
  destruct (m_events meta !! eid) as [[name ms]|] eqn:Em; [|done]. cbn [rbind] in H.
  specialize (Hev _ _ Em). simpl in Hev.
  destruct (read_struct _ buf off1 (m_event_context meta)) as [[cc off2]|] eqn:E2; [|done].
  destruct (read_struct_spec _ _ off1 _ _ _ ltac:(lia) Hec E2) as (R2 & S2 & _). cbn [map_err rbind] in H.
  destruct (read_struct _ buf off2 ms) as [[pl off3]|] eqn:E3; [|done].
  destruct (read_struct_spec _ _ off2 _ _ _ ltac:(lia) Hev E3) as (R3 & S3 & _). cbn [map_err rbind] in H.
  destruct (extend_ts _ eh base last) as [ts|] eqn:Et; [|done]. injection H as <- <-.
  split; [lia|]. intros tl. rewrite S1. cbn [map_err rbind]. rewrite Eid. cbn [rbind]. rewrite Em. cbn [rbind].
  rewrite S2. cbn [map_err rbind]. rewrite S3. cbn [map_err rbind]. by rewrite Et.
Qed.

Lemma decode_events_app fuel : forall buf off ce base last np acc evs tl,
  0 <= off -> decode_events meta fuel buf off ce base last np acc = (evs, EvDone) ->
  decode_events meta fuel (buf ++ tl) off ce base last np acc = (evs, EvDone).
Proof using All.
  induction fuel as [|fuel IH]; intros buf off ce base last np acc evs tl Ho H; cbn [decode_events] in *; [done|].
  destruct (off <? ce); [|done].
  destruct (decode_event meta buf off base last np) as [[ev o]|[?|]] eqn:E; [|done|done].
  destruct (decode_event_spec _ _ _ _ _ _ _ Ho E) as [R S]. rewrite S. apply IH; [lia|done].
Qed.

Lemma decode_packet_app fuel buf off np p tl :
  0 <= off -> Forall is_byte buf -> decode_packet meta fuel buf off np = StepPacket p ->
  decode_packet meta fuel (buf ++ tl) off np = StepPacket p /\ off + 4 <= zlen buf.
Proof using All.
  destruct Hsz as (Hph & Hpc & _). intros Ho Hb H. unfold decode_packet in *.
  destruct (read_struct _ buf off (m_packet_header meta)) as [[hdr off1]|] eqn:E1; [|done].
  destruct (read_struct_spec _ _ _ _ _ _ Ho Hph E1) as (R1 & S1 & W1). rewrite S1.
  destruct (dict_get "magic" hdr) as [[magic|]|] eqn:Em; [|done|done].
  destruct (negb (magic =? CTF_MAGIC)) eqn:Emg; [done|]. bool_prop.
  destruct (read_struct _ buf off1 (m_packet_context meta)) as [[ctx off2]|] eqn:E2; [|done].
  destruct (read_struct_spec _ _ off1 _ _ _ ltac:(lia) Hpc E2) as (R2 & S2 & _). rewrite S2.
  destruct (context_numbers ctx) as [[[psize csize] base]|]; [|done].
  destruct (_ || _); [done|]. destruct (zlen buf <? off + psize) eqn:El; [done|]. bool_prop.
  rewrite zlen_app. pose proof (zlen_nonneg tl). rewrite (proj2 (Z.ltb_ge _ _)) by lia.
  destruct (decode_events meta fuel buf off2 _ _ _ _ _) as [evs []] eqn:E3; try done. injection H as <-.
  rewrite (decode_events_app _ _ off2 _ _ _ _ _ _ _ ltac:(lia) E3). split; [done|].
  destruct (W1 _ _ Em) as (s & n & ? & ? & ? & Hz). specialize (Hz Hb). subst magic. unfold CTF_MAGIC in Hz.
  assert (3 < n); [|lia]. apply (Z.pow_lt_mono_r_iff 256); lia.
Qed.

Lemma decode_packet_offset fuel buf off np p :
  decode_packet meta fuel buf off np = StepPacket p ->
  pk_offset p = off /\ off + pk_size p <= zlen buf /\ pk_size p <> 0 /\
  dict_get "magic" (pk_header p) = Some (VInt CTF_MAGIC) /\
  exists c, dict_get "packet_size" (pk_context p) = Some (VInt c) /\ pk_size p = c / 8.
Proof using Type.
  unfold decode_packet. intros H.
  destruct (read_struct _ buf off (m_packet_header meta)) as [[hdr off1]|]; [|done].
  destruct (dict_get "magic" hdr) as [[magic|]|] eqn:Em; [|done|done].
  destruct (negb (magic =? CTF_MAGIC)) eqn:Emg; [done|]. bool_prop.
  destruct (read_struct _ buf off1 (m_packet_context meta)) as [[ctx off2]|]; [|done].
  destruct (context_numbers ctx) as [[[psize csize] base]|] eqn:Ec; [|done].
  destruct ((psize =? 0) || _) eqn:Es; [done|]. destruct (zlen buf <? off + psize) eqn:El; [done|].
  destruct (decode_events _ _ _ _ _ _ _ _ _) as [evs []]; try done. injection H as <-. bool_prop.
  cbn. subst magic. split_and!; try done. unfold context_numbers in Ec.
  destruct (dict_get "packet_size" ctx) as [[c|]|]; [|done|done]. exists c. split; [done|].
  destruct (dict_get "content_size" ctx) as [[c2|]|]; [|done|done].
  destruct (dict_get "timestamp_begin" ctx) as [[ts|]|]; congruence.
Qed.
End Prefix.

(** * What a packet holds

    The events of a packet, read one after the other: [events_run] relates the
    cursor and the last timestamp before and after a run of them. *)
Section Runs.
Context (meta : metadata) (buf : bytes).

Inductive events_run (content_end np : Z) (base : value) :
    Z -> value -> list event -> Z -> value -> Prop :=
  | RunNil off last : events_run content_end np base off last [] off last
  | RunCons off last ev off' evs fin last' :
      off < content_end -> decode_event meta buf off base last np = Ok (ev, off') ->
      events_run content_end np base off' (ev_ts ev) evs fin last' ->
      events_run content_end np base off last (ev :: evs) fin last'.

(** The header and the context of a packet at [off]: the values, and the cursor
    after them. *)
Definition packet_head (off : Z) (hdr ctx : dict value) (fin psize csize : Z) (base : value) : Prop :=
  exists off1, read_struct (little meta) buf off (m_packet_header meta) = Ok (hdr, off1)
    /\ dict_get "magic" hdr = Some (VInt CTF_MAGIC)
    /\ read_struct (little meta) buf off1 (m_packet_context meta) = Ok (ctx, fin)
    /\ context_numbers ctx = Some (psize, csize, base)
    /\ psize <> 0 /\ csize <= psize /\ off + psize <= zlen buf.

(** Packet number [np] of the stream is whole: its events run from the end of its
    context to the end of its content. *)
Definition packet_whole (np : Z) (p : packet) : Prop :=
  exists fin csize base fin' last,
    packet_head (pk_offset p) (pk_header p) (pk_context p) fin (pk_size p) csize base
    /\ events_run (pk_offset p + csize) np base fin base (pk_events p) fin' last
    /\ pk_offset p + csize <= fin'.

(** The packet at [off] could not be finished: [evs] is the run of its events up
    to the one that could not be read. *)
Definition packet_broken (off np : Z) (evs : list event) : Prop :=
  exists hdr ctx fin psize csize base fin' last why,
    packet_head off hdr ctx fin psize csize base
    /\ events_run (off + csize) np base fin base evs fin' last
    /\ fin' < off + csize /\ decode_event meta buf fin' base last np = Err why.

Lemma decode_events_run fuel : forall off ce base last np acc evs e,
  decode_events meta fuel buf off ce base last np acc = (evs, e) ->
  exists new fin last', evs = acc ++ new /\ events_run ce np base off last new fin last' /\
    (e = EvDone -> ce <= fin) /\
    ((exists why, e = EvTorn why) \/ e = EvCrash ->
       fin < ce /\ exists why, decode_event meta buf fin base last' np = Err why).
Proof using Type.
  induction fuel as [|fuel IH]; intros off ce base last np acc evs e H; cbn [decode_events] in H.
  { injection H as <- <-. exists [], off, last. rewrite app_nil_r. split_and!; [done|constructor|done|].
    by intros [[? ?]|?]. }
  destruct (Z.ltb_spec off ce) as [Hlt|Hge].
  2:{ injection H as <- <-. exists [], off, last. rewrite app_nil_r. split_and!; [done|constructor|done|].
      by intros [[? ?]|?]. }
  destruct (decode_event meta buf off base last np) as [[ev off']|[why|]] eqn:E.
  2-3: injection H as <- <-; exists [], off, last; rewrite app_nil_r;
    split_and!; [done|constructor|done|intros _; split; [done|by eexists]].
  apply IH in H as (new & fin & last' & -> & Hrun & H1 & H2).
  exists (ev :: new), fin, last'. rewrite <-app_assoc. split_and!; [done|by econstructor|done|done].
Qed.

Lemma decode_packet_run fuel off np :
  match decode_packet meta fuel buf off np with
  | StepPacket p => pk_offset p = off /\ packet_whole np p
  | StepStop evs o => o = OutOfFuel \/ evs = [] \/ packet_broken off np evs
  end.
Proof using Type.
  unfold decode_packet.
  destruct (read_struct _ buf off (m_packet_header meta)) as [[hdr off1]|] eqn:E1; [|by right; left].
  destruct (dict_get "magic" hdr) as [[magic|]|] eqn:Em; [|by right; left..].
  destruct (negb (magic =? CTF_MAGIC)) eqn:Emg; [by right; left|]. bool_prop. subst magic.
  destruct (read_struct _ buf off1 (m_packet_context meta)) as [[ctx off2]|] eqn:E2; [|by right; left].
  destruct (context_numbers ctx) as [[[psize csize] base]|] eqn:Ec; [|by right; left].
  destruct ((psize =? 0) || _) eqn:Es; [by right; left|]. destruct (zlen buf <? off + psize) eqn:El; [by right; left|].
  bool_prop.
  assert (packet_head off hdr ctx off2 psize csize base) as Hh by (exists off1; split_and!; (done || lia)).
  destruct (decode_events _ _ _ _ _ _ _ _ _) as [evs e] eqn:Ev.
  apply decode_events_run in Ev as (new & fin & last & -> & Hrun & Hdone & Hbad). cbn [app].
  destruct e as [|why| |]; [| | |by left].
  - split; [done|]. exists off2, csize, base, fin, last. cbn. by split_and!; [..|apply Hdone].
  - right; right. destruct Hbad as [Hf [w Hw]]; [left; by eexists|].
    exists hdr, ctx, off2, psize, csize, base, fin, last, w. by split_and!.
  - right; right. destruct Hbad as [Hf [w Hw]]; [by right|].
    exists hdr, ctx, off2, psize, csize, base, fin, last, w. by split_and!.
Qed.
End Runs.

(** * Well-formed metadata *)

(** Every member of that name is an integer. *)
Definition int_field (k : string) (ms : members) : Prop :=
  forall t, In (k, t) ms -> exists i l, t = TInt i l.

(** What barectf's documents declare: the fields the decoder computes with are
    integers, the packet size is unsigned, and an event header is not empty. *)
Record wf_meta (m : metadata) : Prop := WfMeta {
  wf_sizes : sizes_ok m;
  wf_valid : metadata_valid m = true;
  wf_magic : int_field "magic" (m_packet_header m);
  wf_psize : forall t, In ("packet_size"%string, t) (m_packet_context m) ->
               exists i l, t = TInt i l /\ it_signed i = false;
  wf_csize : int_field "content_size" (m_packet_context m);
  wf_begin : int_field "timestamp_begin" (m_packet_context m);
  wf_id : int_field "id" (m_event_header m);
  wf_ts : int_field "timestamp" (m_event_header m);
  wf_progress : exists nt, In nt (m_event_header m) /\
                  match snd nt with TInt i _ => 8 <= it_size i | TStr => True end;
}.

Lemma read_members_field (Q : value -> Prop) k l buf ms : forall off out d o,
  0 <= off -> members_ok ms -> read_members l buf off ms out = Ok (d, o) ->
  (forall t off v o, 0 <= off -> In (k, t) ms -> read l buf off t = Ok (v, o) -> Q v) ->
  (forall v, dict_get k out = Some v -> Q v) ->
  (forall v, dict_get k d = Some v -> Q v) /\
  (In k (map fst ms) \/ is_Some (dict_get k out) -> is_Some (dict_get k d)).
Proof.
  induction ms as [|[name t] ms IH]; intros off out d o Ho Hok H HQ Hout; cbn [read_members] in H.
  - injection H as <- <-. split; [done|]. by intros [[]|].
  - inversion Hok as [|? ? Ht Hok']; subst. rsplit H. destruct v as [v off1]. cbn [fst snd] in H.
    destruct (read_spec _ _ _ _ _ _ Ho Ht Hm) as (H1 & _).
    destruct (IH off1 _ d o ltac:(lia) Hok' H) as [H4 H5].
    + intros. eapply HQ; [|by right|done]. done.
    + intros v'. rewrite dict_get_set. destruct (k =? name)%string eqn:E; [|apply Hout].
      bool_prop. subst. intros [= <-]. eapply HQ; [exact Ho|by left|exact Hm].
    + split; [done|]. intros Hk. apply H5. rewrite dict_get_set. cbn [map fst In] in Hk.
      destruct (k =? name)%string eqn:E; [right; by eexists|]. bool_prop.
      destruct Hk as [[Hk|Hk]|Hk]; [by subst|by left|by right].
Qed.

(** An integer field of a structure that was read. *)
Lemma read_struct_int k l buf ms off d o :
  0 <= off -> members_ok ms -> read_struct l buf off ms = Ok (d, o) -> int_field k ms ->
  (forall v, dict_get k d = Some v -> exists z, v = VInt z) /\
  (In k (map fst ms) -> is_Some (dict_get k d)).
Proof.
  intros Ho Hok H Hi.
  destruct (read_members_field (fun v => exists z, v = VInt z) k l buf ms off [] d o Ho Hok H) as [H1 H2].
  - intros t o1 v o2 _ Hin Hr. destruct (Hi t Hin) as (i & lb & ->). cbn [read] in Hr. rsplit Hr.
    injection Hr as <- _. by eexists.
  - done.
  - split; [done|]. intros. apply H2. by left.
Qed.

Lemma read_struct_unsigned k l buf ms off d o :
  0 <= off -> members_ok ms -> Forall is_byte buf -> read_struct l buf off ms = Ok (d, o) ->
  (forall t, In (k, t) ms -> exists i lb, t = TInt i lb /\ it_signed i = false) ->
  forall z, dict_get k d = Some (VInt z) -> 0 <= z.
Proof.
  intros Ho Hok Hb H Hi z Hz.
  destruct (read_members_field (fun v => forall z, v = VInt z -> 0 <= z) k l buf ms off [] d o Ho Hok H)
    as [H1 _]; [| done|by eapply H1].
  intros t o1 v o2 _ Hin Hr. destruct (Hi t Hin) as (i & lb & -> & Hs). cbn [read] in Hr. rsplit Hr.
  injection Hr as <- _. intros z' [= <-]. unfold from_bytes. rewrite Hs. cbn [andb].
  set (raw := zslice _ _ buf). assert (Forall is_byte raw) as Hr' by (by apply Forall_zslice).
  destruct l; [by apply of_le_bound|]. unfold of_be. apply of_le_bound. by apply Forall_rev.
Qed.

(** * The loops *)

Section Loops.
Context (meta : metadata) (Hwf : wf_meta meta).

Lemma decode_packet_pos fuel buf off np p :
  0 <= off -> Forall is_byte buf -> decode_packet meta fuel buf off np = StepPacket p -> 0 < pk_size p.
Proof using All.
  destruct (wf_sizes _ Hwf) as (Hph & Hpc & _). intros Ho Hb H.
  destruct (decode_packet_offset _ _ _ _ _ _ H) as (_ & _ & Hne & _ & c & Hc & Hs).
  unfold decode_packet in H.
  destruct (read_struct _ buf off (m_packet_header meta)) as [[hdr off1]|] eqn:E1; [|done].
  destruct (read_struct_spec _ _ _ _ _ _ Ho Hph E1) as (R1 & _).
  destruct (dict_get "magic" hdr) as [[magic|]|]; [|done|done]. destruct (negb _); [done|].
  destruct (read_struct _ buf off1 (m_packet_context meta)) as [[ctx off2]|] eqn:E2; [|done].
  destruct (context_numbers ctx) as [[[psize csize] base]|]; [|done].
  destruct (_ || _); [done|]. destruct (_ <? _); [done|].
  destruct (decode_events _ _ _ _ _ _ _ _ _) as [evs []]; try done. injection H as <-. cbn in *.
  pose proof (read_struct_unsigned "packet_size" _ _ _ off1 _ _ ltac:(lia) Hpc Hb E2 (wf_psize _ Hwf) c Hc).
  subst psize. pose proof (Z.div_pos c 8 ltac:(lia) ltac:(lia)). lia.
Qed.

Fixpoint contiguous (off : Z) (ps : list packet) : Prop :=
  match ps with
  | [] => True
  | p :: ps' => pk_offset p = off /\ 0 < pk_size p /\ contiguous (off + pk_size p) ps'
  end.

Definition packet_ok (len : Z) (p : packet) : Prop :=
  0 <= pk_offset p /\ pk_offset p + pk_size p <= len /\
  dict_get "magic" (pk_header p) = Some (VInt CTF_MAGIC).

Definition stream_end (off : Z) (ps : list packet) : Z := off + sum_z (map pk_size ps).

(** Packet [k] of [ps] is whole, counting from [np]. *)
Definition packets_whole (buf : bytes) (np : Z) (ps : list packet) : Prop :=
  forall k p, ps !! k = Some p -> packet_whole meta buf (np + Z.of_nat k) p.

Lemma decode_loop_spec fuel inner buf : forall off packets events ps es o,
  0 <= off -> Forall is_byte buf ->
  decode_loop meta fuel inner buf off packets events = (ps, es, o) ->
  exists new rest, ps = packets ++ new /\ es = events ++ concat (map pk_events new) ++ rest /\
    contiguous off new /\ Forall (packet_ok (zlen buf)) new /\ (o = Clean -> rest = []) /\
    packets_whole buf (zlen packets) new /\
    (rest = [] \/ o = OutOfFuel \/ packet_broken meta buf (stream_end off new) (zlen ps) rest).
Proof using All.
  induction fuel as [|fuel IH]; intros off packets events ps es o Ho Hb H; cbn [decode_loop] in H.
  { injection H as <- <- <-. exists [], []. simpl. rewrite !app_nil_r. split_and!; try done. by left. }
  destruct (off <? zlen buf).
  2:{ injection H as <- <- <-. exists [], []. simpl. rewrite !app_nil_r. split_and!; try done. by left. }
  destruct (erased buf off).
  { injection H as <- <- <-. exists [], []. simpl. rewrite !app_nil_r. split_and!; try done. by left. }
  pose proof (decode_packet_run meta buf inner off (zlen packets)) as Hrun.
  destruct (decode_packet meta inner buf off (zlen packets)) as [evs o'|p] eqn:E.
  { injection H as <- <- <-. exists [], evs. simpl. rewrite app_nil_r. split_and!; try done.
    - intros ->. unfold decode_packet in E. exfalso. revert E. clear.
      repeat first [discriminate | case_match].
    - unfold stream_end. cbn [map]. change (sum_z []) with 0. rewrite Z.add_0_r. tauto. }
  destruct (decode_packet_offset _ _ _ _ _ _ E) as (H1 & H2 & _ & H3 & _).
  pose proof (decode_packet_pos _ _ _ _ _ Ho Hb E) as Hpos.
  apply IH in H as (new & rest & -> & -> & Hc & Hall & Hr & Hw & Hbr); [|lia|done].
  exists (p :: new), rest. rewrite <-!app_assoc. cbn [app map concat]. rewrite <-!app_assoc.
  split_and!; try done.
  - constructor; [|done]. split_and!; [lia|lia|done].
  - intros [|k] q Hq; cbn in Hq; [injection Hq as <-; rewrite Z.add_0_r; apply Hrun|].
    specialize (Hw k q Hq). rewrite zlen_app in Hw. change (zlen [p]) with 1 in Hw.
    replace (zlen packets + Z.of_nat (S k)) with (zlen packets + 1 + Z.of_nat k) by lia. exact Hw.
  - replace (stream_end off (p :: new)) with (stream_end (off + pk_size p) new)
      by (unfold stream_end, sum_z; cbn [map foldr]; lia).
    rewrite <-app_assoc in Hbr. exact Hbr.
Qed.

Lemma decode_events_fuel f f' buf : forall off ce base last np acc evs,
  (f <= f')%nat -> decode_events meta f buf off ce base last np acc = (evs, EvDone) ->
  decode_events meta f' buf off ce base last np acc = (evs, EvDone).
Proof using Type.
  revert f'. induction f as [|f IH]; intros f' off ce base last np acc evs Hf H; cbn [decode_events] in H; [done|].
  destruct f' as [|f']; [lia|]. cbn [decode_events]. destruct (off <? ce); [|done].
  destruct (decode_event meta buf off base last np) as [[ev o]|[|]]; [|done|done].
  apply IH; [lia|done].
Qed.

Lemma decode_packet_fuel f f' buf off np p :
  (f <= f')%nat -> decode_packet meta f buf off np = StepPacket p ->
  decode_packet meta f' buf off np = StepPacket p.
Proof using Type.
  unfold decode_packet. intros Hf H.
  destruct (read_struct _ _ _ _) as [[hdr off1]|]; [|done]. destruct (dict_get "magic" hdr) as [[m|]|]; [|done|done].
  destruct (negb _); [done|]. destruct (read_struct _ _ _ _) as [[ctx off2]|]; [|done].
  destruct (context_numbers ctx) as [[[ps cs] b]|]; [|done]. destruct (_ || _); [done|].
  destruct (_ <? _); [done|]. destruct (decode_events meta f _ _ _ _ _ _ _) as [evs []] eqn:E; try done.
  by rewrite (decode_events_fuel f f' _ _ _ _ _ _ _ _ Hf E).
Qed.

Lemma decode_loop_prefix f1 i1 f2 i2 buf tl : forall off packets ev1 ev2,
  (f1 <= f2)%nat -> (i1 <= i2)%nat -> 0 <= off -> Forall is_byte (buf ++ tl) ->
  (decode_loop meta f1 i1 buf off packets ev1).1.1 `prefix_of`
  (decode_loop meta f2 i2 (buf ++ tl) off packets ev2).1.1.
Proof using All.
  intros off packets ev1 ev2 Hf Hi Ho Hb. apply Forall_app in Hb as Hbb. destruct Hbb as [Hb1 _].
  assert (forall f i off packets ev, 0 <= off ->
    packets `prefix_of` (decode_loop meta f i (buf ++ tl) off packets ev).1.1) as Hext.
  { intros f i off' packets' ev Ho'.
    destruct (decode_loop meta f i (buf ++ tl) off' packets' ev) as [[ps es] o] eqn:E.
    destruct (decode_loop_spec _ _ _ _ _ _ _ _ _ Ho' Hb E) as (new & rest & -> & _). by exists new. }
  revert f2 off packets ev1 ev2 Hf Ho.
  induction f1 as [|f1 IH]; intros f2 off packets ev1 ev2 Hf Ho; cbn [decode_loop]; [by apply Hext|].
  destruct (off <? zlen buf) eqn:El; [|by apply Hext].
  destruct (erased buf off) eqn:Ee; [by apply Hext|].
  destruct (decode_packet meta i1 buf off (zlen packets)) as [evs o|p] eqn:E; [by apply Hext|].
  destruct f2 as [|f2]; [lia|].
  destruct (decode_packet_app meta (wf_sizes _ Hwf) _ _ _ _ _ tl Ho Hb1 E) as [Ea H4].
  pose proof (decode_packet_pos _ _ _ _ _ Ho Hb1 E) as Hpos.
  cbn [decode_loop]. rewrite zlen_app. pose proof (zlen_nonneg tl). bool_prop.
  rewrite (proj2 (Z.ltb_lt _ _)) by lia.
  assert (erased (buf ++ tl) off = false) as ->.
  { unfold erased in *. by rewrite zslice_app_l by lia. }
  rewrite (decode_packet_fuel i1 i2 _ _ _ _ Hi Ea). apply IH; lia.
Qed.
End Loops.

(** * Termination, and no other exception *)

Lemma read_members_progress l buf ms : forall off out d o,
  0 <= off -> members_ok ms ->
  (exists nt, In nt ms /\ match snd nt with TInt i _ => 8 <= it_size i | TStr => True end) ->
  read_members l buf off ms out = Ok (d, o) -> off < o.
Proof.
  induction ms as [|[name t] ms IH]; intros off out d o Ho Hok Hex H; cbn [read_members] in H.
  - by destruct Hex as (? & [] & _).
  - inversion Hok as [|? ? Ht Hok']; subst. rsplit H. destruct v as [v off1]. cbn [fst snd] in H.
    destruct (read_spec _ _ _ _ _ _ Ho Ht Hm) as (H1 & _ & _ & Hp).
    destruct (read_members_spec l buf ms off1 _ d o ltac:(lia) Hok' H) as (H2 & _).
    destruct Hex as (nt & [<-|Hin] & Hnt).
    + simpl in Hnt. destruct t as [i lb|]; cbn in Hp; [specialize (Hp Hnt)|]; lia.
    + assert (off1 < o); [|lia]. eapply (IH off1 _ d o); [lia|done|by exists nt|exact H].
Qed.

Lemma existsb_names k (ms : members) : existsb (String.eqb k) (map fst ms) = true -> In k (map fst ms).
Proof. intros H. apply existsb_exists in H as (x & Hx & E). bool_prop. by subst. Qed.

Lemma In_dict_of {A} k (l : list (string * A)) v : dict_get k (dict_of l) = Some v -> In (k, v) l.
Proof.
  unfold dict_of. induction l as [|[k' v'] l IH] using rev_ind; [done|].
  rewrite fold_left_app. cbn [fold_left fst snd]. rewrite dict_get_set. rewrite in_app_iff.
  destruct (k =? k')%string eqn:E; bool_prop; [intros [= ->]; subst; right; by left|].
  intros H. left. by apply IH.
Qed.

Section Total.
Context (meta : metadata) (Hwf : wf_meta meta).

(** A number, and the timestamps computed from numbers. *)
Definition is_int (v : value) : Prop := exists z, v = VInt z.

Lemma extend_ts_int buf l off eh o base last :
  0 <= off -> read_struct l buf off (m_event_header meta) = Ok (eh, o) -> is_int base -> is_int last ->
  exists ts, extend_ts (m_event_header meta) eh base last = Some (VInt ts).
Proof using All.
  intros Ho E1 [b ->] [lst ->]. destruct (wf_sizes _ Hwf) as (_ & _ & Heh & _). unfold extend_ts.
  destruct (dict_get "timestamp" (dict_of (m_event_header meta))) as [t|] eqn:Et; [|by eexists].
  destruct (read_struct_int "timestamp" _ _ _ _ _ _ Ho Heh E1 (wf_ts _ Hwf)) as [Hti Htp].
  destruct Htp as [v Hts]; [apply In_dict_of in Et; by apply (in_map fst) in Et|].
  rewrite Hts. destruct (Hti _ Hts) as [raw ->]. destruct (64 <=? _); by eexists.
Qed.

Lemma decode_event_total buf off base last np :
  0 <= off -> is_int base -> is_int last ->
  decode_event meta buf off base last np <> Err None /\
  forall ev o, decode_event meta buf off base last np = Ok (ev, o) ->
    off < o <= Z.max off (zlen buf) /\ is_int (ev_ts ev).
Proof using All.
  intros Ho Hib Hil. destruct (wf_sizes _ Hwf) as (_ & _ & Heh & Hec & Hev). split.
  - unfold decode_event.
    destruct (read_struct _ buf off (m_event_header meta)) as [[eh off1]|] eqn:E1; [|done]. cbn [map_err rbind].
    destruct (read_struct_int "id" _ _ _ _ _ _ Ho Heh E1 (wf_id _ Hwf)) as [Hi Hp].
    pose proof (wf_valid _ Hwf) as Hv. unfold metadata_valid in Hv. bool_prop.
    destruct Hp as [v Hid]; [by apply existsb_names|]. rewrite Hid. destruct (Hi _ Hid) as [eid ->]. cbn [rbind].
    destruct (m_events meta !! eid) as [[name ms]|]; [|done]. cbn [rbind].
    destruct (read_struct _ buf off1 (m_event_context meta)) as [[cc off2]|]; [|done]. cbn [map_err rbind].
    destruct (read_struct _ buf off2 ms) as [[pl off3]|]; [|done]. cbn [map_err rbind].
    by destruct (extend_ts_int _ _ _ _ _ _ _ Ho E1 Hib Hil) as [ts ->].
  - intros ev o H. destruct (decode_event_spec meta (wf_sizes _ Hwf) _ _ _ _ _ _ _ Ho H) as [R _].
    unfold decode_event in H.
    destruct (read_struct _ buf off (m_event_header meta)) as [[eh off1]|] eqn:E1; [|done].
    pose proof (read_members_progress _ _ _ _ _ _ _ Ho Heh (wf_progress _ Hwf) E1).
    destruct (extend_ts_int _ _ _ _ _ _ _ Ho E1 Hib Hil) as [ts Hts].
    assert (off1 <= o /\ is_int (ev_ts ev)) as [? ?]; [|split; [lia|done]].
    rsplit H. destruct v as [eh' o1]. cbn [map_err] in Hm. injection Hm as -> ->.
    rsplit H. destruct v0 as [name ms]. rsplit H. destruct v0 as [cc off2]. rsplit H. destruct v0 as [pl off3].
    rewrite Hts in H. injection H as <- <-. split; [|by eexists].
    unfold map_err in Hm1, Hm2.
    destruct (read_struct _ _ o1 _) as [[? ?]|] eqn:E2 in Hm1; [|done]. injection Hm1 as -> ->.
    destruct (read_struct _ _ off2 ms) as [[? ?]|] eqn:E3 in Hm2; [|done]. injection Hm2 as -> ->.
    destruct (m_events meta !! v) as [nm|] eqn:Em; [|done]. injection Hm0 as ->.
    destruct (read_struct_spec _ _ o1 _ _ _ ltac:(lia) Hec E2) as (R2 & _).
    destruct (read_struct_spec _ _ off2 _ _ _ ltac:(lia) (Hev _ _ Em) E3) as (R3 & _). lia.
Qed.

Lemma decode_events_total fuel buf : forall off ce base last np acc,
  0 <= off -> zlen buf - off < Z.of_nat fuel -> off <= zlen buf -> is_int base -> is_int last ->
  (decode_events meta fuel buf off ce base last np acc).2 <> EvFuel /\
  (decode_events meta fuel buf off ce base last np acc).2 <> EvCrash.
Proof using All.
  induction fuel as [|fuel IH]; intros off ce base last np acc Ho Hf Hle Hib Hil; [lia|].
  cbn [decode_events].
  destruct (off <? ce); [|done].
  destruct (decode_event_total buf off base last np Ho Hib Hil) as [Hc Hp].
  destruct (decode_event meta buf off base last np) as [[ev o]|[why|]] eqn:E; [|done|done].
  destruct (Hp _ _ eq_refl). apply IH; [lia|lia|lia|done|done].
Qed.

Lemma decode_packet_total fuel buf off np evs o :
  0 <= off <= zlen buf -> zlen buf - off < Z.of_nat fuel ->
  decode_packet meta fuel buf off np = StepStop evs o -> exists n, o = Note n.
Proof using All.
  intros Ho Hf H. destruct (wf_sizes _ Hwf) as (Hph & Hpc & _). unfold decode_packet in H.
  pose proof (wf_valid _ Hwf) as Hv. unfold metadata_valid in Hv. bool_prop.
  destruct (read_struct _ buf off (m_packet_header meta)) as [[hdr off1]|] eqn:E1;
    [|injection H as _ <-; by eexists].
  destruct (read_struct_spec _ _ off _ _ _ ltac:(lia) Hph E1) as (R1 & _).
  destruct (read_struct_int "magic" _ _ _ off _ _ ltac:(lia) Hph E1 (wf_magic _ Hwf)) as [Hi Hp].
  destruct Hp as [v Hmg]; [by apply existsb_names|]. rewrite Hmg in H. destruct (Hi _ Hmg) as [z ->].
  destruct (negb _); [injection H as _ <-; by eexists|].
  destruct (read_struct _ buf off1 (m_packet_context meta)) as [[ctx off2]|] eqn:E2;
    [|injection H as _ <-; by eexists].
  destruct (read_struct_spec _ _ off1 _ _ _ ltac:(lia) Hpc E2) as (R2 & _).
  assert (exists ps cs b, context_numbers ctx = Some (ps, cs, VInt b)) as (ps & cs & bs & Hn).
  { unfold context_numbers.
    match goal with Hw : forallb _ _ = true |- _ => cbn [forallb] in Hw; bool_prop end.
    destruct (read_struct_int "packet_size" _ _ _ off1 _ _ ltac:(lia) Hpc E2) as [Hi1 Hp1].
    { intros t Ht. destruct (wf_psize _ Hwf t Ht) as (i & lb & -> & _). by eexists _, _. }
    destruct Hp1 as [v1 Hv1]; [by apply existsb_names|]. rewrite Hv1. destruct (Hi1 _ Hv1) as [z1 ->].
    destruct (read_struct_int "content_size" _ _ _ off1 _ _ ltac:(lia) Hpc E2 (wf_csize _ Hwf)) as [Hi2 Hp2].
    destruct Hp2 as [v2 Hv2]; [by apply existsb_names|]. rewrite Hv2. destruct (Hi2 _ Hv2) as [z2 ->].
    destruct (dict_get "timestamp_begin" ctx) as [v3|] eqn:Hv3; [|by do 3 eexists].
    destruct (read_struct_int "timestamp_begin" _ _ _ off1 _ _ ltac:(lia) Hpc E2 (wf_begin _ Hwf)) as [Hi3 _].
    destruct (Hi3 _ Hv3) as [z3 ->]. by do 3 eexists. }
  rewrite Hn in H. destruct (_ || _); [injection H as _ <-; by eexists|].
  destruct (_ <? _); [injection H as _ <-; by eexists|].
  destruct (decode_events_total fuel buf off2 (off + cs) (VInt bs) (VInt bs) np [])
    as [Hnf Hnc]; [lia|lia|lia|by eexists|by eexists|].
  destruct (decode_events _ _ _ _ _ _ _ _ _) as [es []]; try done. injection H as _ <-. by eexists.
Qed.

Lemma decode_loop_total fuel buf : forall off packets events,
  0 <= off <= zlen buf -> zlen buf - off < Z.of_nat fuel -> Forall is_byte buf ->
  let o := (decode_loop meta fuel (S (length buf)) buf off packets events).2 in
  o = Clean \/ exists n, o = Note n.
Proof using All.
  induction fuel as [|fuel IH]; intros off packets events Ho Hf Hb; [lia|]. cbn [decode_loop].
  destruct (off <? zlen buf) eqn:El; [|by left]. destruct (erased buf off); [by left|].
  destruct (decode_packet meta (S (length buf)) buf off (zlen packets)) as [evs o|p] eqn:E.
  - right. simpl. eapply decode_packet_total; [exact Ho| |exact E]. unfold zlen. lia.
  - destruct (decode_packet_offset _ _ _ _ _ _ E) as (_ & H2 & _).
    pose proof (decode_packet_pos meta Hwf _ _ _ _ _ (proj1 Ho) Hb E). apply IH; [lia|lia|done].
Qed.
End Total.

(** * Properties *)

(** A small barectf-like document: one event type with a 32-bit payload. *)
Definition u8 : ctf_type := TInt (IntType 8 false 8) None.
Definition u32 : ctf_type := TInt (IntType 32 false 8) None.
Definition sample_meta : metadata :=
  Metadata "le" [("magic", u32)]
    [("packet_size", u32); ("content_size", u32); ("timestamp_begin", u8)]
    [("id", u8); ("timestamp", u8)] [("sev", TInt (IntType 8 false 8) (Some {[1 := lit "INFO"]}))]
    {[7 := ("boot"%string, [("arg", u32)])]}.

Definition sample_packet : bytes :=
  [0xC1; 0x1F; 0xFC; 0xC1; 160; 0; 0; 0; 160; 0; 0; 0; 5; 7; 9; 1; 1; 2; 3; 4].

Lemma sample_meta_wf : wf_meta sample_meta.
Proof.
  split; try reflexivity.
  - unfold sizes_ok, members_ok. split_and!; try (repeat constructor; simpl; lia).
    intros i nm. simpl. intros H. apply lookup_singleton_Some in H as [_ <-]. repeat constructor; simpl; lia.
  - intros t [[= <-]|[]]. by eexists _, _.
  - intros t [[= <-]|[Hd|[Hd|[]]]]; [by eexists _, _|discriminate Hd|discriminate Hd].
  - intros t [Hd|[[= <-]|[Hd|[]]]]; [discriminate Hd|by eexists _, _|discriminate Hd].
  - intros t [Hd|[Hd|[[= <-]|[]]]]; [discriminate Hd|discriminate Hd|by eexists _, _].
  - intros t [[= <-]|[Hd|[]]]; [by eexists _, _|discriminate Hd].
  - intros t [Hd|[[= <-]|[]]]; [discriminate Hd|by eexists _, _].
  - exists ("id"%string, u8). split; [by left|simpl; lia].
Qed.

(** C38: Decoding always returns, on metadata the decoder can compute with: it has
    the fields the reader asks for, its magic, sizes, ids and timestamps are
    integers, its packet size is unsigned, no field has a negative size and the
    event header takes an octet or more.  Then, whatever octets a stream holds,
    both loops end within one turn per octet and no exception other than the
    reader's own truncation escapes, so the outcome is a clean end or a note.  Of
    these conditions the reader checks only that the fields are there; on metadata
    without the others it can hang or raise ([decode_hangs], [decode_crashes]). *)
Theorem decode_total meta buf :
  wf_meta meta -> Forall is_byte buf ->
  (decode meta buf).2 = Clean \/ exists n, (decode meta buf).2 = Note n.
Proof.
  intros Hwf Hb. apply (decode_loop_total meta Hwf); [|unfold zlen; lia|done].
  pose proof (zlen_nonneg buf). lia.
Qed.

Lemma decode_total_witness :
  (decode sample_meta (sample_packet ++ [1; 2; 3])).2 = Clean \/
  exists n, (decode sample_meta (sample_packet ++ [1; 2; 3])).2 = Note n.
Proof.
  apply decode_total; [exact sample_meta_wf|]. repeat constructor; unfold is_byte; lia.
Defined.

(** What the reader accepts and cannot decode: an [id] of no octets in an event
    header of nothing else. *)
Definition weightless_meta : metadata :=
  Metadata "le" [("magic", u32)] [("packet_size", u32); ("content_size", u32)]
    [("id", TInt (IntType 0 false 8) None)] [] {[0 := ("tick"%string, [])]}.

Definition weightless_packet : bytes := [0xC1; 0x1F; 0xFC; 0xC1; 160; 0; 0; 0; 160; 0; 0; 0; 1; 1; 1; 1; 1; 1; 1; 1].

(** Such metadata passes the checks of the reader, and on this packet the event
    loop never ends: it runs out of any fuel, reading the same empty event at the
    same place. *)
Theorem decode_hangs fuel :
  metadata_valid weightless_meta = true /\
  exists evs, decode_packet weightless_meta fuel weightless_packet 0 0 = StepStop evs OutOfFuel.
Proof.
  split; [reflexivity|].
  assert (forall fuel acc, exists evs, decode_events weightless_meta fuel weightless_packet 12 20 (VInt 0) (VInt 0) 0 acc
    = (evs, EvFuel)) as H.
  { clear. induction fuel as [|fuel IH]; intros acc; [by exists acc|]. cbn [decode_events].
    change (12 <? 20) with true. cbv iota.
    assert (decode_event weightless_meta weightless_packet 12 (VInt 0) (VInt 0) 0
      = Ok (Event (VInt 0) "tick" 0 0 [] [], 12)) as -> by (vm_compute; reflexivity).
    apply IH. }
  destruct (H fuel []) as [evs E]. exists evs. revert E.
  assert (forall r, decode_events weightless_meta fuel weightless_packet 12 20 (VInt 0) (VInt 0) 0 [] = r ->
    decode_packet weightless_meta fuel weightless_packet 0 0 =
    match r with
    | (evs, EvDone) => StepPacket (Packet [("magic"%string, VInt CTF_MAGIC)]
                         [("packet_size"%string, VInt 160); ("content_size"%string, VInt 160)] evs 0 20)
    | (evs, EvTorn why) => StepStop evs (Note (PacketTorn 0 why))
    | (evs, EvCrash) => StepStop evs Crash
    | (evs, EvFuel) => StepStop evs OutOfFuel
    end) as G by (by intros r <-).
  by intros E%G.
Qed.

(** A packet size that is text passes them too, and raises. *)
Theorem decode_crashes :
  let meta := Metadata "le" [("magic", u32)] [("packet_size", TStr); ("content_size", u32)] [("id", u8)] [] ∅ in
  metadata_valid meta = true
  /\ (decode meta [0xC1; 0x1F; 0xFC; 0xC1; 65; 0; 0; 0; 0; 0]).2 = Crash.
Proof. split; [reflexivity|vm_compute; reflexivity]. Qed.

(** C21: What a decode returns is a run of whole packets, on metadata the decoder can
    compute with: the fields the reader asks for, integers for magic, sizes, ids and
    timestamps, an unsigned packet size, no negative size, and an event header
    that takes an octet or more (none but the first checked by the reader).  From
    octet 0, each packet of positive size starts where the previous one ended, lies inside the stream and carries the CTF
    magic; its events are those read one after the other from the end of its
    context to the end of its content.  The returned events are the packets'
    events in order, and then nothing more, or, only when the decode ended with a
    note, the events of the packet it stopped in, up to the one that could not be
    read. *)
Theorem decode_packets_whole meta buf ps es o :
  wf_meta meta -> Forall is_byte buf -> decode meta buf = (ps, es, o) ->
  contiguous 0 ps /\ Forall (packet_ok (zlen buf)) ps /\ packets_whole meta buf 0 ps /\
  exists rest, es = concat (map pk_events ps) ++ rest /\
    (rest = [] \/ (exists n, o = Note n) /\ packet_broken meta buf (stream_end 0 ps) (zlen ps) rest).
Proof.
  intros Hwf Hb H.
  assert (o = Clean \/ exists n, o = Note n) as Ho.
  { pose proof (decode_loop_total meta Hwf (S (length buf)) buf 0 [] []) as T. change (decode_loop _ _ _ _ _ _ _) with (decode meta buf) in T.
    rewrite H in T. apply T; [pose proof (zlen_nonneg buf); lia|unfold zlen; lia|done]. }
  destruct (decode_loop_spec meta Hwf _ _ _ _ _ _ _ _ _ ltac:(done) Hb H)
    as (new & rest & -> & -> & Hc & Hp & Hr & Hw & Hbr).
  split_and!; [done..|]. exists rest. split; [done|].
  destruct Hbr as [->|[->|Hbr]]; [by left|by destruct Ho as [|[]]|].
  destruct Ho as [->|Ho]; [left; by apply Hr|right; by split].
Qed.

Lemma decode_packets_whole_witness :
  exists ps es o, decode sample_meta (sample_packet ++ sample_packet) = (ps, es, o) /\ o = Clean /\
    length ps = 2%nat /\ contiguous 0 ps.
Proof.
  do 3 eexists. split; [vm_compute; reflexivity|]. split; [reflexivity|]. split; [reflexivity|].
  refine (proj1 (decode_packets_whole sample_meta (sample_packet ++ sample_packet) _ _ _
            sample_meta_wf _ _)).
  - repeat constructor; unfold is_byte; lia.
  - vm_compute; reflexivity.
Defined.

(** A torn trace decodes to a prefix: cutting a stream anywhere leaves the
    packets before the cut as they were and adds none, so what a truncated
    segment yields is exactly some of what the whole one would have. *)
Theorem decode_torn_prefix meta buf tl :
  wf_meta meta -> Forall is_byte (buf ++ tl) ->
  (decode meta buf).1.1 `prefix_of` (decode meta (buf ++ tl)).1.1.
Proof.
  intros Hwf Hb. apply (decode_loop_prefix meta Hwf); [| |lia|done]; rewrite length_app; lia.
Qed.

Lemma decode_torn_prefix_witness :
  (decode sample_meta (sample_packet ++ take 12 sample_packet)).1.1 `prefix_of`
  (decode sample_meta ((sample_packet ++ take 12 sample_packet) ++ drop 12 sample_packet)).1.1 /\
  length (decode sample_meta (sample_packet ++ take 12 sample_packet)).1.1 = 1%nat.
Proof.
  split; [|vm_compute; reflexivity].
  apply decode_torn_prefix; [exact sample_meta_wf|]. repeat constructor; unfold is_byte; lia.
Defined.

(** Events of an unfinished packet are returned although the packet is not:
    a packet whose second record has an unknown id yields no packet, one event and
    a note. *)
Theorem decode_keeps_torn_events :
  let buf := [0xC1; 0x1F; 0xFC; 0xC1; 176; 0; 0; 0; 176; 0; 0; 0; 5; 7; 9; 1; 1; 2; 3; 4; 99; 10] in
  let '(ps, es, o) := decode sample_meta buf in
  ps = [] /\ length es = 1%nat /\ o = Note (PacketTorn 0 UnknownEvent).
Proof. vm_compute. split_and!; reflexivity. Qed.

Lemma lor_low a raw bits :
  0 <= bits -> 0 <= raw < 2 ^ bits ->
  Z.lor (Z.land a (Z.lnot (Z.ones bits))) raw = a / 2 ^ bits * 2 ^ bits + raw.
Proof.
  intros Hb Hr. rewrite <-Z.ldiff_land, Z.ldiff_ones_r by done.
  rewrite Z.shiftl_mul_pow2, Z.shiftr_div_pow2 by done.
  set (A := a / 2 ^ bits * 2 ^ bits). assert (Z.land A raw = 0) as H0.
  { apply Z.bits_inj'; intros n Hn. rewrite Z.land_spec, Z.bits_0. subst A.
    destruct (Z.ltb_spec n bits); [by rewrite Z.mul_pow2_bits_low|].
    destruct (Z.eq_dec raw 0) as [->|]; [by rewrite Z.bits_0, andb_false_r|].
    rewrite (Z.bits_above_log2 raw n), andb_false_r; [done|lia|].
    apply Z.log2_lt_pow2; [lia|]. apply Z.lt_le_trans with (2 ^ bits); [lia|].
    apply Z.pow_le_mono_r; lia. }
  by rewrite Z.add_nocarry_lxor, Z.lxor_lor.
Qed.

(** The timestamp rebuilt from a [bits]-wide event field agrees with that field
    modulo [2^bits], never lies a whole period or more past the base period's end,
    and does not run backwards as long as the previous event was within one period
    of the base. *)
Theorem extend_ts_spec event_header eh i lb raw base_ts last_ts ts :
  dict_get "timestamp" (dict_of event_header) = Some (TInt i lb) ->
  dict_get "timestamp" eh = Some (VInt raw) ->
  0 <= it_size i < 64 -> 0 <= raw < 2 ^ it_size i ->
  extend_ts event_header eh (VInt base_ts) (VInt last_ts) = Some (VInt ts) ->
  ts mod 2 ^ it_size i = raw /\
  base_ts / 2 ^ it_size i * 2 ^ it_size i <= ts < (base_ts / 2 ^ it_size i + 2) * 2 ^ it_size i /\
  (last_ts < (base_ts / 2 ^ it_size i + 1) * 2 ^ it_size i -> last_ts <= ts).
Proof.
  intros Ht Hr Hs Hraw H. unfold extend_ts in H. rewrite Ht, Hr in H. cbn [type_size] in H.
  set (bits := it_size i) in *. rewrite (proj2 (Z.leb_gt _ _)) in H by lia.
  assert (Z.shiftl 1 bits - 1 = Z.ones bits) as Hm.
  { rewrite Z.shiftl_1_l, Z.ones_equiv. lia. }
  rewrite Hm, (lor_low _ _ _ (proj1 Hs) Hraw) in H.
  replace (Z.ones bits + 1) with (2 ^ bits) in H by (rewrite Z.ones_equiv; lia).
  set (q := base_ts / 2 ^ bits) in *. assert (0 < 2 ^ bits) by (apply Z.pow_pos_nonneg; lia).
  injection H as <-. split.
  - destruct (_ <? last_ts).
    + replace (q * 2 ^ bits + raw + 2 ^ bits) with (raw + (q + 1) * 2 ^ bits) by lia.
      rewrite Z.mod_add by lia. by apply Z.mod_small.
    + rewrite Z.add_comm, Z.mod_add by lia. by apply Z.mod_small.
  - destruct (q * 2 ^ bits + raw <? last_ts) eqn:E; bool_prop; nia.
Qed.

Lemma extend_ts_spec_witness :
  extend_ts [("timestamp"%string, u8)] [("timestamp"%string, VInt 3)] (VInt 250) (VInt 251)
    = Some (VInt 259) /\
  259 mod 2 ^ 8 = 3 /\ 251 <= 259.
Proof.
  split; [reflexivity|].
  destruct (extend_ts_spec [("timestamp"%string, u8)] [("timestamp"%string, VInt 3)]
    (IntType 8 false 8) None 3 250 251 259) as (Hm & _ & Hl); try reflexivity; simpl; try lia.
  split; [exact Hm|lia].
Defined.

(** Past one period the rebuilt timestamp can run backwards: the base stays the
    packet's first timestamp, so with an 8-bit field, a base of 0 and raw values
    200, 100, 50 the second event is placed at 356 and the third at 306. *)
Theorem extend_ts_second_wrap :
  let f raw last := extend_ts [("timestamp"%string, u8)] [("timestamp"%string, VInt raw)]
                        (VInt 0) (VInt last) in
  f 200 0 = Some (VInt 200) /\ f 100 200 = Some (VInt 356) /\ f 50 356 = Some (VInt 306) /\ 306 < 356.
Proof. split_and!; reflexivity. Qed.
