(* ===== verification/Crc.v ===== *)
(** The two checksums of the saved-state image ([scripts/nvm_klj2.py]): the
    table-driven CRC-16 of a record frame, and the CRC-32 of the container
    ([zlib.crc32] of the standard library, in its bitwise form).

    Each is related to the shift register it implements, and each is shown to
    tell apart any two messages of one length that differ in one octet. *)
From S2P Require Import Prelude.

(** * Machine words *)

Definition word (n x : Z) : Prop := 0 <= x < 2 ^ n.

Lemma word_bits n x : 0 <= n -> word n x <-> (0 <= x /\ forall i, n <= i -> Z.testbit x i = false).
Proof.
  intros Hn. unfold word. split.
  - intros [H0 H1]. split; [done|]. intros i Hi.
    rewrite <-(Z.mod_small x (2 ^ n)) by lia. rewrite Z.mod_pow2_bits_high; [done|lia].
  - intros [H0 H1]. split; [done|].
    assert (x = x mod 2 ^ n) as ->; [|apply Z.mod_pos_bound; lia].
    apply Z.bits_inj'. intros i Hi. destruct (Z.lt_ge_cases i n).
    + by rewrite Z.mod_pow2_bits_low.
    + rewrite Z.mod_pow2_bits_high by lia. by apply H1.
Qed.

Lemma word_lxor n x y : 0 <= n -> word n x -> word n y -> word n (Z.lxor x y).
Proof.
  intros Hn Hx Hy. apply word_bits in Hx, Hy; [|done..]. apply word_bits; [done|].
  destruct Hx as [? Hx], Hy as [? Hy]. split; [by apply Z.lxor_nonneg|].
  intros i Hi. by rewrite Z.lxor_spec, Hx, Hy.
Qed.

Lemma word_land_ones n x : 0 <= n -> word n (Z.land x (Z.ones n)).
Proof. intros Hn. rewrite Z.land_ones by done. apply Z.mod_pos_bound. lia. Qed.

Lemma word_shiftr n x k : 0 <= k -> word n x -> word n (Z.shiftr x k).
Proof.
  unfold word. intros Hk Hx. rewrite Z.shiftr_div_pow2 by done.
  split; [apply Z.div_pos; lia|]. apply Z.div_lt_upper_bound; [lia|]. nia.
Qed.

Lemma word_le n m x : 0 <= n <= m -> word n x -> word m x.
Proof. unfold word. intros H Hx. pose proof (Z.pow_le_mono_r 2 n m). lia. Qed.

Lemma word_byte x : word 8 x <-> is_byte x.
Proof. reflexivity. Qed.

Lemma lxor_cancel_l x a b : Z.lxor x a = Z.lxor x b -> a = b.
Proof.
  intros H. assert (Z.lxor x (Z.lxor x a) = Z.lxor x (Z.lxor x b)) as H' by by rewrite H.
  by rewrite <-!Z.lxor_assoc, Z.lxor_nilpotent, !Z.lxor_0_l in H'.
Qed.

Lemma lxor_cancel_r x a b : Z.lxor a x = Z.lxor b x -> a = b.
Proof. rewrite !(Z.lxor_comm _ x). apply lxor_cancel_l. Qed.

(** A register stepped [n] times stays a word, and keeps two registers apart,
    when one step does. *)
Lemma iter_word n (f : Z -> Z) k x :
  (forall y, word n y -> word n (f y)) -> word n x -> word n (Nat.iter k f x).
Proof. intros Hf Hx. induction k; simpl; auto. Qed.

Lemma iter_inj n (f : Z -> Z) k x y :
  (forall y, word n y -> word n (f y)) ->
  (forall x y, word n x -> word n y -> f x = f y -> x = y) ->
  word n x -> word n y -> Nat.iter k f x = Nat.iter k f y -> x = y.
Proof.
  intros Hw Hf Hx Hy. induction k as [|k IH]; simpl; [done|]. intros H.
  apply IH, (Hf _ _ (iter_word n f k x Hw Hx) (iter_word n f k y Hw Hy) H).
Qed.

(** The same for a register fed a message. *)
Lemma fold_word n (f : Z -> Z -> Z) l s :
  (forall s b, word n s -> is_byte b -> word n (f s b)) ->
  word n s -> Forall is_byte l -> word n (fold_left f l s).
Proof. intros Hf Hs Hl. revert s Hs. induction Hl; intros s Hs; simpl; auto. Qed.

Lemma fold_inj n (f : Z -> Z -> Z) l s t :
  (forall s b, word n s -> is_byte b -> word n (f s b)) ->
  (forall s t b, word n s -> word n t -> is_byte b -> f s b = f t b -> s = t) ->
  word n s -> word n t -> Forall is_byte l -> fold_left f l s = fold_left f l t -> s = t.
Proof.
  intros Hw Hf Hs Ht Hl. revert s t Hs Ht.
  induction Hl as [|b l Hb Hl IH]; intros s t Hs Ht H; simpl in H; [done|].
  apply (Hf _ _ b Hs Ht Hb). apply IH; auto.
Qed.

(** * CRC-16, CCITT-FALSE *)

(** One shift of the register: the body of the table's inner loop. *)
Definition crc16_bit (c : Z) : Z :=
  if Z.land c 0x8000 =? 0 then Z.land (Z.shiftl c 1) 0xFFFF
  else Z.land (Z.lxor (Z.shiftl c 1) 0x1021) 0xFFFF.

Definition CRC16_TAB : list Z :=
  Eval vm_compute in map (fun b => Nat.iter 8 crc16_bit (Z.shiftl b 8)) (zrange 0 256).

Definition crc16_step (crc b : Z) : Z :=
  Z.lxor (Z.land (Z.shiftl crc 8) 0xFFFF)
         (nth (Z.to_nat (Z.land (Z.lxor (Z.shiftr crc 8) b) 0xFF)) CRC16_TAB 0).

Definition crc16_ccitt (data : bytes) (crc : Z) : Z := fold_left crc16_step data crc.

(** The donor's register: the octet enters at the top, then eight shifts. *)
Definition crc16_ref_step (crc b : Z) : Z := Nat.iter 8 crc16_bit (Z.lxor crc (Z.shiftl b 8)).

Lemma CRC16_TAB_entry b : is_byte b ->
  nth (Z.to_nat b) CRC16_TAB 0 = Nat.iter 8 crc16_bit (Z.shiftl b 8).
Proof.
  intros Hb. assert (CRC16_TAB = map (fun b => Nat.iter 8 crc16_bit (Z.shiftl b 8)) (zrange 0 256)) as ->.
  { vm_compute. reflexivity. }
  unfold is_byte in Hb. apply nth_lookup_Some.
  rewrite list_lookup_fmap, zrange_lookup, decide_True by lia. cbn [fmap option_fmap option_map].
  do 3 f_equal. lia.
Qed.

Lemma testbit_land_8000 c : (Z.land c 0x8000 =? 0) = negb (Z.testbit c 15).
Proof.
  destruct (Z.testbit c 15) eqn:E; simpl.
  - apply Z.eqb_neq. intros H. assert (Z.testbit (Z.land c 0x8000) 15 = false) as H' by by rewrite H, Z.bits_0.
    by rewrite Z.land_spec, E in H'.
  - apply Z.eqb_eq, Z.bits_inj'. intros i Hi. rewrite Z.land_spec, Z.bits_0.
    change 0x8000 with (2 ^ 15). rewrite Z.pow2_bits_eqb by lia.
    destruct (Z.eqb_spec 15 i) as [<-|]; [by rewrite E|apply andb_false_r].
Qed.

Lemma crc16_bit_testbit c i : 0 <= i ->
  Z.testbit (crc16_bit c) i =
  (i <? 16) && xorb (Z.testbit (Z.shiftl c 1) i) (Z.testbit c 15 && Z.testbit 0x1021 i).
Proof.
  intros Hi. unfold crc16_bit. rewrite testbit_land_8000.
  change 0xFFFF with (Z.ones 16).
  destruct (Z.testbit c 15); cbn [negb andb]; rewrite Z.land_spec, Z.testbit_ones_nonneg by lia;
    rewrite ?Z.lxor_spec, ?xorb_false_r; apply andb_comm.
Qed.

Lemma crc16_bit_word c : word 16 (crc16_bit c).
Proof.
  unfold crc16_bit. change 0xFFFF with (Z.ones 16). case_match; by apply word_land_ones.
Qed.

Lemma crc16_bit_lxor a b : crc16_bit (Z.lxor a b) = Z.lxor (crc16_bit a) (crc16_bit b).
Proof.
  apply Z.bits_inj'. intros i Hi.
  rewrite Z.lxor_spec, !crc16_bit_testbit, Z.shiftl_lxor, !Z.lxor_spec by done.
  destruct (i <? 16), (Z.testbit (Z.shiftl a 1) i), (Z.testbit (Z.shiftl b 1) i),
    (Z.testbit a 15), (Z.testbit b 15), (Z.testbit 0x1021 i); reflexivity.
Qed.

Lemma crc16_bits_lxor k a b :
  Nat.iter k crc16_bit (Z.lxor a b) = Z.lxor (Nat.iter k crc16_bit a) (Nat.iter k crc16_bit b).
Proof. induction k as [|k IH]; simpl; [done|]. by rewrite IH, crc16_bit_lxor. Qed.

Lemma crc16_bit_inj x y : word 16 x -> word 16 y -> crc16_bit x = crc16_bit y -> x = y.
Proof.
  intros Hx Hy H. apply word_bits in Hx as [_ Hx]; [|lia]. apply word_bits in Hy as [_ Hy]; [|lia].
  assert (forall i, 0 <= i -> Z.testbit (crc16_bit x) i = Z.testbit (crc16_bit y) i) as G by by rewrite H.
  assert (Z.testbit x 15 = Z.testbit y 15) as Ht.
  { specialize (G 0 ltac:(lia)). rewrite !crc16_bit_testbit, !Z.shiftl_spec in G by lia.
    rewrite !Z.testbit_neg_r in G by lia. cbn in G. by rewrite !andb_true_r in G. }
  apply Z.bits_inj'. intros i Hi. destruct (Z.lt_ge_cases i 15).
  - specialize (G (i + 1) ltac:(lia)). rewrite !crc16_bit_testbit, !Z.shiftl_spec in G by lia.
    rewrite (proj2 (Z.ltb_lt _ _)) in G by lia. rewrite Ht in G. cbn [andb] in G.
    replace (i + 1 - 1) with i in G by lia.
    destruct (Z.testbit x i), (Z.testbit y i), (Z.testbit y 15 && Z.testbit 4129 (i + 1)); done.
  - destruct (Z.eq_dec i 15) as [->|]; [done|]. by rewrite Hx, Hy by lia.
Qed.

(** Eight shifts of a low octet bring it to the top untouched. *)
Lemma crc16_low_octet b : is_byte b -> Nat.iter 8 crc16_bit b = Z.shiftl b 8.
Proof.
  intros Hb. assert (forallb (fun b => Nat.iter 8 crc16_bit b =? Z.shiftl b 8) (zrange 0 256) = true) as H
    by (vm_compute; reflexivity).
  apply Z.eqb_eq. rewrite forallb_forall in H. apply H, zrange_In. unfold is_byte in Hb. lia.
Qed.

Lemma split_octets c : word 16 c ->
  exists hi lo, is_byte hi /\ is_byte lo /\ c = Z.lxor (Z.shiftl hi 8) lo
    /\ Z.shiftr c 8 = hi /\ Z.land (Z.shiftl c 8) 0xFFFF = Z.shiftl lo 8.
Proof.
  intros Hc. exists (c / 256), (c mod 256).
  pose proof (Z.mod_pos_bound c 256 ltac:(lia)) as Hm. unfold word in Hc.
  assert (is_byte (c / 256)) as Hd.
  { split; [apply Z.div_pos; lia|]. apply Z.div_lt_upper_bound; lia. }
  rewrite Z.shiftr_div_pow2, !Z.shiftl_mul_pow2 by lia. change (2 ^ 8) with 256.
  change 0xFFFF with (Z.ones 16). rewrite Z.land_ones by lia. split_and!; [done|done| |done|].
  - rewrite <-Z.add_nocarry_lxor; [pose proof (Z.div_mod c 256 ltac:(lia)); lia|].
    apply Z.bits_inj'. intros i Hi. rewrite Z.land_spec, Z.bits_0. change 256 with (2 ^ 8).
    destruct (Z.lt_ge_cases i 8).
    + by rewrite Z.mul_pow2_bits_low.
    + rewrite Z.mod_pow2_bits_high, andb_false_r by lia. done.
  - change (2 ^ 16) with (256 * 256). by rewrite Z.mul_mod_distr_r by lia.
Qed.

Lemma crc16_step_ref crc b : word 16 crc -> is_byte b -> crc16_step crc b = crc16_ref_step crc b.
Proof.
  intros Hc Hb. destruct (split_octets crc Hc) as (hi & lo & Hhi & Hlo & Hs & Hr & Hl).
  unfold crc16_step, crc16_ref_step. rewrite Hl, Hr, Hs. change 0xFF with (Z.ones 8).
  assert (word 8 (Z.lxor hi b)) as Hx by by apply word_lxor.
  rewrite Z.land_ones, Z.mod_small by (exact Hx || lia).
  rewrite CRC16_TAB_entry by exact Hx.
  replace (Z.lxor (Z.lxor (Z.shiftl hi 8) lo) (Z.shiftl b 8))
    with (Z.lxor lo (Z.shiftl (Z.lxor hi b) 8)).
  - by rewrite crc16_bits_lxor, (crc16_low_octet lo).
  - rewrite Z.shiftl_lxor. apply Z.bits_inj'. intros i Hi. rewrite !Z.lxor_spec.
    by destruct (Z.testbit lo i), (Z.testbit (Z.shiftl hi 8) i), (Z.testbit (Z.shiftl b 8) i).
Qed.

Lemma word_shiftl_byte b : is_byte b -> word 16 (Z.shiftl b 8).
Proof. intros Hb. rewrite Z.shiftl_mul_pow2 by lia. unfold is_byte in Hb. unfold word. lia. Qed.

Lemma crc16_ref_word s b : word 16 s -> is_byte b -> word 16 (crc16_ref_step s b).
Proof.
  intros Hs Hb. apply iter_word; [intros; apply crc16_bit_word|].
  apply word_lxor; [lia|done|by apply word_shiftl_byte].
Qed.

Lemma crc16_step_word s b : word 16 s -> is_byte b -> word 16 (crc16_step s b).
Proof. intros. rewrite crc16_step_ref by done. by apply crc16_ref_word. Qed.

Lemma crc16_ref_inj s t a b : word 16 s -> word 16 t -> is_byte a -> is_byte b ->
  crc16_ref_step s a = crc16_ref_step t b -> Z.lxor s (Z.shiftl a 8) = Z.lxor t (Z.shiftl b 8).
Proof.
  intros. eapply (iter_inj 16 crc16_bit 8); [intros; apply crc16_bit_word|exact crc16_bit_inj| | |done];
    apply word_lxor; try lia; try done; by apply word_shiftl_byte.
Qed.

Lemma crc16_fold data s : Forall is_byte data -> word 16 s ->
  fold_left crc16_step data s = fold_left crc16_ref_step data s.
Proof.
  intros Hd. revert s. induction Hd as [|b l Hb Hl IH]; intros s Hs; [done|].
  simpl. rewrite crc16_step_ref by done. by apply IH, crc16_ref_word.
Qed.

Lemma crc16_ccitt_word data crc : Forall is_byte data -> word 16 crc -> word 16 (crc16_ccitt data crc).
Proof. intros. apply fold_word; auto using crc16_step_word. Qed.

(** The table-driven CRC-16 of a record frame computes the bit-serial
    register of the gateware it mirrors, octet for octet, from any starting
    value of sixteen bits. *)
Theorem crc16_table_equivalence data crc :
  Forall is_byte data -> 0 <= crc < 65536 ->
  crc16_ccitt data crc = fold_left crc16_ref_step data crc /\ 0 <= crc16_ccitt data crc < 65536.
Proof. intros Hd Hc. split; [by apply crc16_fold|by apply crc16_ccitt_word]. Qed.

Lemma crc16_table_equivalence_witness :
  crc16_ccitt [49; 50; 51; 52; 53; 54; 55; 56; 57] 0xFFFF = 0x29B1 /\
  (crc16_ccitt [49; 50; 51] 0xFFFF = fold_left crc16_ref_step [49; 50; 51] 0xFFFF
   /\ 0 <= crc16_ccitt [49; 50; 51] 0xFFFF < 65536).
Proof.
  split; [vm_compute; reflexivity|].
  apply (crc16_table_equivalence [49; 50; 51] 0xFFFF); [|lia].
  repeat constructor; lia.
Defined.

Lemma crc16_ccitt_app a b crc : crc16_ccitt (a ++ b) crc = crc16_ccitt b (crc16_ccitt a crc).
Proof. apply fold_left_app. Qed.

(** Two frames of one length that differ in one octet have different CRC-16s. *)
Lemma crc16_one_octet pre suf a b crc :
  Forall is_byte pre -> Forall is_byte suf -> is_byte a -> is_byte b -> word 16 crc ->
  crc16_ccitt (pre ++ a :: suf) crc = crc16_ccitt (pre ++ b :: suf) crc -> a = b.
Proof.
  intros Hp Hs Ha Hb Hc. rewrite !crc16_ccitt_app. unfold crc16_ccitt at 1 3. cbn [fold_left].
  assert (word 16 (crc16_ccitt pre crc)) as Hw by by apply crc16_ccitt_word.
  intros H. apply (fold_inj 16) in H; auto using crc16_step_word.
  - rewrite !crc16_step_ref in H by done. apply crc16_ref_inj in H; [|done..].
    apply lxor_cancel_l in H. rewrite !Z.shiftl_mul_pow2 in H by lia. lia.
  - intros s t c Hs' Ht Hbc HE. rewrite !crc16_step_ref in HE by done.
    apply crc16_ref_inj in HE; [|done..]. by apply lxor_cancel_r in HE.
Qed.

(** * CRC-32: [zlib.crc32] *)

Definition crc32_bit (c : Z) : Z :=
  if Z.land c 1 =? 0 then Z.shiftr c 1 else Z.lxor (Z.shiftr c 1) 0xEDB88320.

Definition crc32_step (c b : Z) : Z := Nat.iter 8 crc32_bit (Z.lxor c b).

Definition crc32 (data : bytes) : Z :=
  Z.lxor (fold_left crc32_step data 0xFFFFFFFF) 0xFFFFFFFF.

Lemma land_1 c : (Z.land c 1 =? 0) = negb (Z.testbit c 0).
Proof.
  change 1 with (Z.ones 1). rewrite Z.land_ones by lia. change (2 ^ 1) with 2.
  rewrite <-Z.bit0_mod. by destruct (Z.testbit c 0).
Qed.

Lemma crc32_bit_word c : word 32 c -> word 32 (crc32_bit c).
Proof.
  intros Hc. unfold crc32_bit. case_match; [apply word_shiftr; [lia|done]|].
  apply word_lxor; [lia|apply word_shiftr; [lia|done]|unfold word; lia].
Qed.

Lemma crc32_bit_testbit c i : 0 <= i ->
  Z.testbit (crc32_bit c) i = xorb (Z.testbit c (i + 1)) (Z.testbit c 0 && Z.testbit 0xEDB88320 i).
Proof.
  intros Hi. unfold crc32_bit. rewrite land_1.
  destruct (Z.testbit c 0); cbn [negb andb]; rewrite ?Z.lxor_spec, Z.shiftr_spec, ?xorb_false_r by done; done.
Qed.

Lemma crc32_bit_inj x y : word 32 x -> word 32 y -> crc32_bit x = crc32_bit y -> x = y.
Proof.
  intros Hx Hy H. apply word_bits in Hx as [_ Hx]; [|lia]. apply word_bits in Hy as [_ Hy]; [|lia].
  assert (forall i, 0 <= i -> Z.testbit (crc32_bit x) i = Z.testbit (crc32_bit y) i) as G by by rewrite H.
  assert (Z.testbit x 0 = Z.testbit y 0) as H0.
  { specialize (G 31 ltac:(lia)). rewrite !crc32_bit_testbit in G by lia.
    rewrite Hx, Hy in G by lia. cbn in G. by rewrite !andb_true_r in G. }
  apply Z.bits_inj'. intros i Hi. destruct (Z.eq_dec i 0) as [->|]; [done|].
  specialize (G (i - 1) ltac:(lia)). rewrite !crc32_bit_testbit, H0 in G by lia.
  replace (i - 1 + 1) with i in G by lia.
  destruct (Z.testbit x i), (Z.testbit y i), (Z.testbit y 0 && Z.testbit 3988292384 (i - 1)); done.
Qed.

Lemma byte_word32 b : is_byte b -> word 32 b.
Proof. unfold is_byte, word. lia. Qed.

Lemma crc32_step_word s b : word 32 s -> is_byte b -> word 32 (crc32_step s b).
Proof.
  intros Hs Hb. apply iter_word; [exact crc32_bit_word|].
  apply word_lxor; [lia|done|by apply byte_word32].
Qed.

Lemma crc32_step_inj s t a b : word 32 s -> word 32 t -> is_byte a -> is_byte b ->
  crc32_step s a = crc32_step t b -> Z.lxor s a = Z.lxor t b.
Proof.
  intros. eapply (iter_inj 32 crc32_bit 8); [exact crc32_bit_word|exact crc32_bit_inj| | |done];
    apply word_lxor; try lia; try done; by apply byte_word32.
Qed.

Lemma crc32_word data : Forall is_byte data -> word 32 (crc32 data).
Proof.
  intros Hd. apply word_lxor; [lia| |unfold word; lia].
  apply fold_word; [exact crc32_step_word|unfold word; lia|done].
Qed.

(** Two images of one length that differ in one octet have different CRC-32s. *)
Lemma crc32_one_octet pre suf a b :
  Forall is_byte pre -> Forall is_byte suf -> is_byte a -> is_byte b ->
  crc32 (pre ++ a :: suf) = crc32 (pre ++ b :: suf) -> a = b.
Proof.
  intros Hp Hs Ha Hb H. unfold crc32 in H. apply lxor_cancel_r in H.
  rewrite !fold_left_app in H. cbn [fold_left] in H.
  assert (word 32 (fold_left crc32_step pre 0xFFFFFFFF)) as Hw.
  { apply fold_word; [exact crc32_step_word|unfold word; lia|done]. }
  apply (fold_inj 32) in H; auto using crc32_step_word.
  - apply crc32_step_inj in H; [|done..]. by apply lxor_cancel_l in H.
  - intros s t c Hs' Ht Hc HE. apply crc32_step_inj in HE; [|done..]. by apply lxor_cancel_r in HE.
Qed.
