(* ===== verification/NvmContract.v ===== *)
(** The saved-state contract ([scripts/nvm_contract.py]): the measured
    constants, the record-id allocation and its inverse
    ([nvm_klj2.id_blocks], [rid_of_key], [key_of_id]), the ledger of persisted
    items and the switches a negative control moves.

    Groups and descriptor types are the dict keys of the source, as
    enumerations; [group_name] gives the string a key sorts by. *)
From S2P Require Import Prelude Unicode Text.

(** * Keys *)

Inductive group :=
  | CFG_IDX | SUID | RATE | CLKSRC | MCR | BINDING | FMT_IN | FMT_OUT | PT_OFS
  | MAPS_IN | MAPS_OUT | NAME.

#[export] Instance group_eq_dec : EqDecision group.
Proof. solve_decision. Defined.

Definition all_groups : list group :=
  [CFG_IDX; SUID; RATE; CLKSRC; MCR; BINDING; FMT_IN; FMT_OUT; PT_OFS;
   MAPS_IN; MAPS_OUT; NAME].

#[export] Instance group_countable : Countable group.
Proof.
  refine (inj_countable' (fun g => match g with
    | CFG_IDX => 0 | SUID => 1 | RATE => 2 | CLKSRC => 3 | MCR => 4 | BINDING => 5
    | FMT_IN => 6 | FMT_OUT => 7 | PT_OFS => 8 | MAPS_IN => 9 | MAPS_OUT => 10 | NAME => 11
    end)%nat (fun n => nth n all_groups CFG_IDX) _).
  by intros [].
Defined.

Definition group_name (g : group) : pystr :=
  lit match g with
      | CFG_IDX => "CFG_IDX" | SUID => "SUID" | RATE => "RATE" | CLKSRC => "CLKSRC"
      | MCR => "MCR" | BINDING => "BINDING" | FMT_IN => "FMT_IN" | FMT_OUT => "FMT_OUT"
      | PT_OFS => "PT_OFS" | MAPS_IN => "MAPS_IN" | MAPS_OUT => "MAPS_OUT" | NAME => "NAME"
      end.

(** [Key]: how a record is addressed once its id has been inverted. *)
Definition Key : Type := group * Z.

(** [Record]: one inventory row; no id when the group's block cannot reach the
    index. *)
Record nvm_record := {
  r_group : group;
  r_index : Z;
  r_id : option Z;
  r_plen : Z;
  r_block : Z
}.

Definition r_key (r : nvm_record) : Key := (r_group r, r_index r).

(** * The fixed points *)

Definition MAX_PAYLOAD := 1024.
Definition REC_HDR := 8.
Definition NAME_BYTES := 64.

(** [Contract]: the numbers a control may move; [FIXED] is the pristine one. *)
Record Contract := {
  ID_SPACE : Z;
  ERASE_BLOCK : Z;
  T_NVM_COMMIT_TIMEOUT_MS : Z
}.

Definition FIXED : Contract :=
  {| ID_SPACE := 256; ERASE_BLOCK := 64 * 1024; T_NVM_COMMIT_TIMEOUT_MS := 8000 |}.

Definition KLJ2_MAGIC := 0x324A4C4B.
Definition KLJ2_FMT_VER := 0x00020000.
Definition REC_MAGIC := 0x1722.

Inductive verdict :=
  | VD_OK | VD_MAGIC | VD_VER | VD_LEN | VD_CRC | VD_ENT | VD_SHAPE | VD_REC
  | VD_STALE | VD_BLANK | VD_INCOMPLETE | VD_ERASE | VD_PROGRAM | VD_VERIFY.

#[export] Instance verdict_eq_dec : EqDecision verdict.
Proof. solve_decision. Defined.

(** The number a verdict is published as: [range(14)] in this order. *)
Definition verdict_code (v : verdict) : Z :=
  match v with
  | VD_OK => 0 | VD_MAGIC => 1 | VD_VER => 2 | VD_LEN => 3 | VD_CRC => 4 | VD_ENT => 5
  | VD_SHAPE => 6 | VD_REC => 7 | VD_STALE => 8 | VD_BLANK => 9 | VD_INCOMPLETE => 10
  | VD_ERASE => 11 | VD_PROGRAM => 12 | VD_VERIFY => 13
  end.

Definition ERASED := 0xFF.
Definition VENDOR_DEFAULT_NAME : bytes := lit "Kebag Milan Endstation".
Definition KLJ2_HDR := 40.
Definition KLJ2_TRAILER := 4.
Definition ALIGN := 4.

(** Payload widths in octets; the map and name groups are sized elsewhere and
    have no entry. *)
Definition PAY (g : group) : option Z :=
  match g with
  | CFG_IDX => Some 2 | SUID => Some 8 | RATE => Some 4 | CLKSRC => Some 2 | MCR => Some 66
  | BINDING => Some 20 | FMT_IN => Some 8 | FMT_OUT => Some 8 | PT_OFS => Some 4
  | MAPS_IN | MAPS_OUT | NAME => None
  end.

Definition MAP_ENTRY := 8.

(** {base, block} of each group; the base of BINDING is read from the donor. *)
Definition ALLOC (g : group) : option Z * Z :=
  match g with
  | CFG_IDX => (Some 0x00, 1)
  | SUID => (Some 0x01, 1)
  | RATE => (Some 0x02, 8)
  | CLKSRC => (Some 0x0A, 8)
  | MCR => (Some 0x12, 8)
  | BINDING => (None, 16)
  | FMT_IN => (Some 0x30, 16)
  | FMT_OUT => (Some 0x40, 16)
  | PT_OFS => (Some 0x50, 16)
  | MAPS_IN => (Some 0x60, 16)
  | MAPS_OUT => (Some 0x70, 16)
  | NAME => (Some 0x80, 128)
  end.

(** * The descriptor counts *)

(** The keys of [descriptor_counts] the contract reads. *)
Inductive dtype :=
  | ENTITY | CONFIGURATION | AUDIO_UNIT | STREAM_INPUT | STREAM_OUTPUT | AVB_INTERFACE
  | CLOCK_SOURCE | CLOCK_DOMAIN | CONTROL | AUDIO_CLUSTER
  | STREAM_PORT_INPUT | STREAM_PORT_OUTPUT.

(** A dict from the generated overlay: a type it does not name is absent. *)
Definition counts : Type := dtype -> option Z.

Inductive nvm_error :=
  | NKeyError                        (* a dict without the key that is read *)
  | NStruct                          (* struct.error: a field out of range *)
  | NValue                           (* max() of nothing *)
  | NOverflow (stem : pystr)         (* record allocation overflow *)
  | NMapTail                         (* noncanonical map tail *)
  | NMapKey.                         (* duplicate stream/channel key *)

(** [dc["X"]]. *)
Definition dc_get (dc : counts) (t : dtype) : result nvm_error Z :=
  match dc t with Some n => Ok n | None => Err NKeyError end.

(** The ledger: the groups in its order, and the cardinality a shape requires. *)
Inductive card_rule := Singleton | PerDescriptor (t : dtype).

Definition LEDGER : list (group * card_rule) :=
  [(CFG_IDX, Singleton);
   (SUID, Singleton);
   (RATE, PerDescriptor AUDIO_UNIT);
   (CLKSRC, PerDescriptor CLOCK_DOMAIN);
   (MCR, PerDescriptor CLOCK_DOMAIN);
   (BINDING, PerDescriptor STREAM_INPUT);
   (FMT_IN, PerDescriptor STREAM_INPUT);
   (FMT_OUT, PerDescriptor STREAM_OUTPUT);
   (PT_OFS, PerDescriptor STREAM_OUTPUT);
   (MAPS_IN, PerDescriptor STREAM_PORT_INPUT);
   (MAPS_OUT, PerDescriptor STREAM_PORT_OUTPUT)].

Definition NAME_SLOTS : list (dtype * Z) :=
  [(ENTITY, 2); (CONFIGURATION, 1); (AUDIO_UNIT, 1); (STREAM_INPUT, 1);
   (STREAM_OUTPUT, 1); (AVB_INTERFACE, 1); (CLOCK_SOURCE, 1);
   (CLOCK_DOMAIN, 1); (CONTROL, 1); (AUDIO_CLUSTER, 1)].

(** The switches of the negative controls the codec reads. *)
Record Seams := {
  NAME_PRESENCE_FROM_CONTENT : bool;
  DECODE_ALLOW_ABSENT : bool;
  ERASED_HEADER_ONLY : bool
}.

Definition SEAM : Seams :=
  {| NAME_PRESENCE_FROM_CONTENT := false; DECODE_ALLOW_ABSENT := false;
     ERASED_HEADER_ONLY := false |}.

(** * The three subjects *)

Record Donor := { d_base : Z; d_layout : Z }.

Record Ident := { i_seq : Z; i_entity_id : Z; i_model_id : Z }.

(** One [stream_ports] entry of the overlay; [p_dynamic] is
    [map_mode == "dynamic"]. *)
Record stream_port := { p_index : Z; p_clusters : Z; p_dynamic : bool }.

Record Shape := {
  s_stem : pystr;
  s_names : Z;
  s_dc : counts;
  s_spi : list stream_port;
  s_spo : list stream_port
}.

(** * The allocation *)

Definition block_of (g : group) : Z := snd (ALLOC g).

(** A group's base with BINDING resolved; only BINDING has none of its own. *)
Definition base_of (base : Z) (g : group) : Z :=
  match g with
  | BINDING => base
  | _ => match fst (ALLOC g) with Some b => b | None => base end
  end.

Definition id_blocks (base : Z) : list (group * option Z * Z) :=
  map (fun g => (g, if decide (g = BINDING) then Some base else fst (ALLOC g), block_of g))
      all_groups.

Definition rid_of_key (key : Key) (base : Z) : Z := base_of base (fst key) + snd key.

Fixpoint key_in (blocks : list (group * option Z * Z)) (rid : Z) : option Key :=
  match blocks with
  | [] => None
  | (g, b, blk) :: rest =>
      match b with
      | Some b => if (b <=? rid) && (rid <? b + blk) then Some (g, rid - b) else key_in rest rid
      | None => key_in rest rid
      end
  end.

Definition key_of_id (rid base : Z) : option Key := key_in (id_blocks base) rid.

(** Where the donor may put the BINDING block: past MCR, before FMT_IN.  The
    landed value is 0x20. *)
Definition base_ok (base : Z) : Prop := 0x1A <= base <= 0x20.

Definition in_block (k : Key) : Prop := 0 <= snd k < block_of (fst k).

Lemma id_blocks_eq base :
  id_blocks base = map (fun g => (g, Some (base_of base g), block_of g)) all_groups.
Proof. reflexivity. Qed.

(** Which of the blocks an id falls in, as a disjunction [lia] reads. *)
Ltac block_cases :=
  repeat match goal with
  | H : context [if (?a <=? ?b) && (?c <? ?d) then _ else _] |- _ =>
      destruct (Z.leb_spec a b), (Z.ltb_spec c d); cbn [andb] in H
  | |- context [if (?a <=? ?b) && (?c <? ?d) then _ else _] =>
      destruct (Z.leb_spec a b), (Z.ltb_spec c d); cbn [andb]; try lia
  end.

Lemma key_of_id_rid base k : base_ok base -> in_block k ->
  key_of_id (rid_of_key k base) base = Some k.
Proof.
  intros Hb. destruct k as [g i]. unfold in_block, base_ok in *. cbn [fst snd]. intros Hi.
  unfold key_of_id, rid_of_key. rewrite id_blocks_eq.
  destruct g; cbn in Hi; cbn -[Z.add Z.sub Z.leb Z.ltb]; block_cases; do 2 f_equal; lia.
Qed.

Lemma key_in_sound blocks rid g i : key_in blocks rid = Some (g, i) ->
  exists b blk, In (g, Some b, blk) blocks /\ b <= rid < b + blk /\ i = rid - b.
Proof.
  induction blocks as [|[[g' [b|]] blk] rest IH]; simpl; [done| |].
  - destruct ((b <=? rid) && (rid <? b + blk)) eqn:E.
    + intros [= <- <-]. bool_prop. exists b, blk. split_and!; try lia. by left.
    + intros H. destruct (IH H) as (b' & blk' & ? & ?). exists b', blk'. split; [by right|done].
  - intros H. destruct (IH H) as (b' & blk' & ? & ?). exists b', blk'. split; [by right|done].
Qed.

Lemma key_of_id_sound base rid k : key_of_id rid base = Some k ->
  in_block k /\ rid = rid_of_key k base.
Proof.
  destruct k as [g i]. unfold key_of_id. rewrite id_blocks_eq. intros H.
  destruct (key_in_sound _ _ _ _ H) as (b & blk & Hin & Hr & ->).
  apply in_map_iff in Hin as (g' & [= -> <- <-] & _). unfold in_block, rid_of_key. cbn [fst snd]. lia.
Qed.

(** The record-id allocation is a bijection between the keys whose index
    lies in its group's block and the ids the blocks own, for every base the
    gateware may give the binding block: inverting an id gives a key exactly
    when the key is in its block and allocates that id, distinct keys have
    distinct ids, and every id fits the eight bits of [record_id]. *)
Theorem allocation_bijective base :
  base_ok base ->
  (forall rid k, key_of_id rid base = Some k <-> in_block k /\ rid = rid_of_key k base)
  /\ (forall k k', in_block k -> in_block k' -> rid_of_key k base = rid_of_key k' base -> k = k')
  /\ (forall k, in_block k -> 0 <= rid_of_key k base < ID_SPACE FIXED).
Proof.
  intros Hb. split_and!.
  - intros rid k. split; [apply key_of_id_sound|]. intros [Hk ->]. by apply key_of_id_rid.
  - intros k k' Hk Hk' He. apply (key_of_id_rid base) in Hk, Hk'; [|done..].
    rewrite He in Hk. congruence.
  - intros [g i] Hi. unfold in_block, base_ok, rid_of_key in *. cbn [fst snd] in *.
    destruct g; cbn in Hi |- *; lia.
Qed.

Lemma allocation_bijective_witness :
  base_ok 0x20 /\ key_of_id 0xA6 0x20 = Some (NAME, 38)
  /\ (forall rid k, key_of_id rid 0x20 = Some k <-> in_block k /\ rid = rid_of_key k 0x20).
Proof.
  split; [unfold base_ok; lia|]. split; [vm_compute; reflexivity|].
  apply (allocation_bijective 0x20). unfold base_ok. lia.
Defined.

Lemma rid_inj base k k' : base_ok base -> in_block k -> in_block k' ->
  rid_of_key k base = rid_of_key k' base -> k = k'.
Proof.
  intros Hb Hk Hk' He. apply (key_of_id_rid base) in Hk, Hk'; [|done..].
  rewrite He in Hk. congruence.
Qed.

Lemma rid_bound base k : base_ok base -> in_block k -> 0 <= rid_of_key k base < 256.
Proof.
  destruct k as [g i]. unfold in_block, base_ok, rid_of_key. cbn [fst snd]. intros Hb Hi.
  destruct g; cbn in Hi |- *; lia.
Qed.
