(* ===== verification/NvmJournal.v ===== *)
(** The saved-state image ([scripts/nvm_klj2.py]): record frames, the KLJ2
    container that holds them, and the decoder that applies every record of an
    image or none.

    A dict indexed by record id or by key is a finite map.  The decoder's
    [return VD_X, {}] is the error of a computation in the error monad;
    [klj2_decode] turns it back into the pair.  The record loop is
    [for _ in range(nrec)], so it needs no fuel.  Payload lengths are
    non-negative. *)
From S2P Require Import Prelude Unicode Text Crc NvmContract.

(** * Encoding *)

(** [erased_record]. *)
Definition erased_record (plen : Z) : bytes := repeat ERASED (Z.to_nat (REC_HDR + plen)).

(** A value [struct.pack] accepts for an unsigned field of [n] octets. *)
Definition fits (n v : Z) : bool := (0 <=? v) && (v <? 256 ^ n).

(** The frame's header without its CRC: [">HBBH"]. *)
Definition record_head (rid plen layout : Z) : bytes :=
  be_bytes 2 REC_MAGIC ++ be_bytes 1 layout ++ be_bytes 1 rid ++ be_bytes 2 plen.

Definition frame_record (rid : Z) (payload : bytes) (layout : Z) : result nvm_error bytes :=
  let* _ := raise_if (negb (fits 1 layout && fits 1 rid && fits 2 (zlen payload))) NStruct in
  let hdr := record_head rid (zlen payload) layout in
  Ok (hdr ++ be_bytes 2 (crc16_ccitt (hdr ++ payload) 0xFFFF) ++ payload).

(** The record area before its padding, and the offset of each record in it. *)
Definition concat_frames (frames : gmap Z bytes) (rids : list Z) : gmap Z Z * bytes :=
  fold_left (fun ob rid =>
      (<[rid := zlen (snd ob)]> (fst ob), snd ob ++ default [] (frames !! rid)))
    rids (∅, []).

Definition pad_of (n : Z) : Z := (- n) mod ALIGN.

Definition header_words (nrec img_len layout : Z) (ident : Ident) : list Z :=
  [KLJ2_MAGIC; KLJ2_FMT_VER; i_seq ident; nrec; img_len;
   Z.land (i_entity_id ident) 0xFFFFFFFF; Z.land (Z.shiftr (i_entity_id ident) 32) 0xFFFFFFFF;
   Z.land (i_model_id ident) 0xFFFFFFFF; Z.land (Z.shiftr (i_model_id ident) 32) 0xFFFFFFFF;
   layout].

Definition klj2_assemble (frames : gmap Z bytes) (donor : Donor) (ident : Ident)
    : result nvm_error (bytes * gmap Z Z) :=
  let rids := sorted_z (map fst (map_to_list frames)) in
  let ob := concat_frames frames rids in
  let body := snd ob ++ zeros (Z.to_nat (pad_of (zlen (snd ob)))) in
  let img_len := KLJ2_HDR + zlen body + KLJ2_TRAILER in
  let words := header_words (Z.of_nat (size frames)) img_len (d_layout donor) ident in
  let* _ := raise_if (negb (forallb (fits 4) words)) NStruct in
  let blob := concat (map (le_bytes 4) words) ++ body in
  Ok (blob ++ le_bytes 4 (Z.land (crc32 blob) 0xFFFFFFFF), fst ob).

(** * Decoding *)

Definition all_erased (b : bytes) : bool := forallb (Z.eqb ERASED) b.

(** [sorted((rid, key))]: tuples compare id first, then the group's name, then
    the index. *)
Definition rk_leb (a b : Z * Key) : bool :=
  if fst a <? fst b then true
  else if fst b <? fst a then false
  else if decide (fst (snd a) = fst (snd b)) then snd (snd a) <=? snd (snd b)
  else str_leb (group_name (fst (snd a))) (group_name (fst (snd b))).

Definition rk_le (a b : Z * Key) : Prop := rk_leb a b = true.
#[export] Instance rk_le_dec a b : Decision (rk_le a b).
Proof. unfold rk_le. apply _. Defined.

Definition required_order (expect : gmap Key Z) (base : Z) : list (Z * Key) :=
  merge_sort rk_le (map (fun kp => (rid_of_key (fst kp) base, fst kp)) (map_to_list expect)).

(** The loop's variables. *)
Record dstate := {
  ds_applied : gmap Key bytes;
  ds_erased : gset Key;
  ds_pos : Z;
  ds_last : Z
}.

Definition next_required (order : list (Z * Key)) (last : Z) : option (Z * Key) :=
  List.find (fun rk => last <? fst rk) order.

(** An erased span at the cursor: the next required record, never written. *)
Definition decode_erased (seam : Seams) (blob : bytes) (fin : Z) (expect : gmap Key Z)
    (order : list (Z * Key)) (st : dstate) : result verdict dstate :=
  match next_required order (ds_last st) with
  | None => Err VD_REC
  | Some (rid, key) =>
      let plen := default 0 (expect !! key) in
      let* _ := raise_if (fin <? ds_pos st + REC_HDR + plen) VD_LEN in
      let span := zslice (ds_pos st + REC_HDR) plen blob in
      let* _ := raise_if (negb (ERASED_HEADER_ONLY seam) && negb (all_erased span)) VD_REC in
      Ok {| ds_applied := ds_applied st; ds_erased := {[key]} ∪ ds_erased st;
            ds_pos := ds_pos st + REC_HDR + plen; ds_last := rid |}
  end.

(** A framed record at the cursor. *)
Definition decode_framed (blob : bytes) (fin : Z) (donor : Donor) (expect : gmap Key Z)
    (st : dstate) : result verdict dstate :=
  let pos := ds_pos st in
  let rmagic := rd_be pos 2 blob in
  let rver := rd_be (pos + 2) 1 blob in
  let rid := rd_be (pos + 3) 1 blob in
  let plen := rd_be (pos + 4) 2 blob in
  let rcrc := rd_be (pos + 6) 2 blob in
  let* _ := raise_if (negb (rmagic =? REC_MAGIC) || negb (rver =? d_layout donor)) VD_REC in
  let* _ := raise_if (fin <? pos + REC_HDR + plen) VD_LEN in
  let pay := zslice (pos + REC_HDR) plen blob in
  let* _ := raise_if (negb (crc16_ccitt (zslice pos 6 blob ++ pay) 0xFFFF =? rcrc)) VD_REC in
  let* _ := raise_if (rid <=? ds_last st) VD_REC in
  match key_of_id rid (d_base donor) with
  | None => Err VD_REC
  | Some key =>
      let* _ := raise_if (negb (bool_decide (expect !! key = Some plen))) VD_REC in
      Ok {| ds_applied := <[key := pay]> (ds_applied st); ds_erased := ds_erased st;
            ds_pos := pos + REC_HDR + plen; ds_last := rid |}
  end.

Definition decode_record (seam : Seams) (blob : bytes) (fin : Z) (donor : Donor)
    (expect : gmap Key Z) (order : list (Z * Key)) (st : dstate) : result verdict dstate :=
  let* _ := raise_if (fin <? ds_pos st + REC_HDR) VD_LEN in
  if all_erased (zslice (ds_pos st) REC_HDR blob)
  then decode_erased seam blob fin expect order st
  else decode_framed blob fin donor expect st.

Fixpoint decode_records (n : nat) (seam : Seams) (blob : bytes) (fin : Z) (donor : Donor)
    (expect : gmap Key Z) (order : list (Z * Key)) (st : dstate) : result verdict dstate :=
  match n with
  | O => Ok st
  | S n' =>
      let* st' := decode_record seam blob fin donor expect order st in
      decode_records n' seam blob fin donor expect order st'
  end.

Definition word_at (blob : bytes) (i : Z) : Z := rd_le (4 * i) 4 blob.

(** The container's own tests, in the order they are made. *)
Definition check_container (blob : bytes) (donor : Donor) (ident : Ident) : result verdict unit :=
  let img_len := word_at blob 4 in
  let* _ := raise_if (zlen blob <? KLJ2_HDR + KLJ2_TRAILER) VD_LEN in
  let* _ := raise_if (all_erased (zslice 0 KLJ2_HDR blob)) VD_BLANK in
  let* _ := raise_if (negb (word_at blob 0 =? KLJ2_MAGIC)) VD_MAGIC in
  let* _ := raise_if (negb (Z.shiftr (word_at blob 1) 16 =? Z.shiftr KLJ2_FMT_VER 16)) VD_VER in
  let* _ := raise_if (negb ((44 <=? img_len) && (img_len <=? 65536))
                      || negb (zlen blob =? img_len)) VD_LEN in
  let* _ := raise_if (negb (Z.land (crc32 (zslice 0 (zlen blob - 4) blob)) 0xFFFFFFFF
                            =? rd_le (img_len - 4) 4 blob)) VD_CRC in
  let* _ := raise_if (negb (Z.lor (word_at blob 5) (Z.shiftl (word_at blob 6) 32)
                            =? i_entity_id ident)) VD_ENT in
  let* _ := raise_if (negb (Z.lor (word_at blob 7) (Z.shiftl (word_at blob 8) 32)
                            =? i_model_id ident)) VD_SHAPE in
  raise_if (negb (word_at blob 9 =? d_layout donor)) VD_REC.

Definition start : dstate :=
  {| ds_applied := ∅; ds_erased := ∅; ds_pos := KLJ2_HDR; ds_last := -1 |}.

Definition decode_image (seam : Seams) (blob : bytes) (donor : Donor) (ident : Ident)
    (expect : gmap Key Z) : result verdict (gmap Key bytes) :=
  let* _ := check_container blob donor ident in
  let fin := word_at blob 4 - KLJ2_TRAILER in
  let order := required_order expect (d_base donor) in
  let* st := decode_records (Z.to_nat (word_at blob 3)) seam blob fin donor expect order start in
  let* _ := raise_if (negb (ds_pos st + pad_of (ds_pos st - KLJ2_HDR) =? fin)) VD_LEN in
  let missing : gset Key := (dom expect ∖ dom (ds_applied st)) ∖ ds_erased st in
  let* _ := raise_if (negb (bool_decide (missing = ∅)) && negb (DECODE_ALLOW_ABSENT seam))
                     VD_INCOMPLETE in
  Ok (ds_applied st).

Definition klj2_decode (seam : Seams) (blob : bytes) (donor : Donor) (ident : Ident)
    (expect : gmap Key Z) : verdict * gmap Key bytes :=
  match decode_image seam blob donor ident expect with
  | Ok applied => (VD_OK, applied)
  | Err v => (v, ∅)
  end.

(** * Record content *)

(** ["%d" % n]. *)
Definition decimal (n : Z) : pystr := lit (pretty n).

(** [name_table]: an override or the vendor default with the ordinal. *)
Definition name_table (overrides : gmap Z bytes) (ordinal : Z) : bytes :=
  match overrides !! ordinal with
  | Some b => b
  | None =>
      let v := zslice 0 NAME_BYTES (VENDOR_DEFAULT_NAME ++ lit " " ++ decimal ordinal) in
      v ++ zeros (Z.to_nat (NAME_BYTES - zlen v))
  end.

Definition payload_bytes (g : group) (index rid plen : Z) (nval : option (Z -> bytes)) : bytes :=
  match nval with
  | Some f =>
      if decide (g = NAME) then f index
      else map (fun j => Z.land (rid * 131 + j * 17) 0xFF) (zrange 0 (Z.to_nat plen))
  | None => map (fun j => Z.land (rid * 131 + j * 17) 0xFF) (zrange 0 (Z.to_nat plen))
  end.

(** ordinal -> the octets restored for it, over the ordinals of the shape. *)
Definition names_from_image (seam : Seams) (applied : gmap Key bytes) (n_names : Z) : gmap Z bytes :=
  fold_left (fun out k =>
      match applied !! (NAME, k) with
      | None => out
      | Some pay =>
          if NAME_PRESENCE_FROM_CONTENT seam && forallb (Z.eqb 0) pay then out
          else <[k := pay]> out
      end) (zrange 0 (Z.to_nat n_names)) ∅.

(** * What the octets of one record say *)

(** A record of an image: a key and its payload, or an erased span. *)
Definition entry : Type := Key * option bytes.

(** The frame [frame_record] writes when its fields fit. *)
Definition record_frame (rid : Z) (payload : bytes) (layout : Z) : bytes :=
  let hdr := record_head rid (zlen payload) layout in
  hdr ++ be_bytes 2 (crc16_ccitt (hdr ++ payload) 0xFFFF) ++ payload.

Definition entry_bytes (base layout : Z) (expect : gmap Key Z) (e : entry) : bytes :=
  match snd e with
  | Some p => record_frame (rid_of_key (fst e) base) p layout
  | None => erased_record (default 0 (expect !! fst e))
  end.

Lemma fits_true n v : fits n v = true <-> 0 <= v < 256 ^ n.
Proof. unfold fits. rewrite andb_true_iff, Z.leb_le, Z.ltb_lt. tauto. Qed.

Lemma frame_record_Ok rid p layout b :
  frame_record rid p layout = Ok b <->
  0 <= layout < 256 /\ 0 <= rid < 256 /\ zlen p < 65536 /\ b = record_frame rid p layout.
Proof.
  unfold frame_record, raise_if. pose proof (zlen_nonneg p).
  destruct (fits 1 layout && fits 1 rid && fits 2 (zlen p)) eqn:E; cbn [negb rbind].
  - bool_prop. rewrite !fits_true in *. split; [intros HE%Ok_inj; subst b; split_and!; lia || done|].
    by intros (_ & _ & _ & ->).
  - split; [done|]. intros (H1 & H2 & H3 & _). exfalso.
    assert (fits 1 layout && fits 1 rid && fits 2 (zlen p) = true) as K; [|congruence].
    rewrite !andb_true_iff, !fits_true. lia.
Qed.

Lemma zlen_le n v : zlen (le_bytes n v) = Z.of_nat n.
Proof. unfold zlen. by rewrite le_bytes_length. Qed.
#[local] Hint Rewrite zlen_le : zlen.

Lemma record_head_length rid n layout : zlen (record_head rid n layout) = 6.
Proof. unfold record_head. by autorewrite with zlen. Qed.

Lemma record_frame_length rid p layout : zlen (record_frame rid p layout) = REC_HDR + zlen p.
Proof. unfold record_frame. autorewrite with zlen. rewrite record_head_length. unfold REC_HDR. lia. Qed.

Lemma erased_record_length n : 0 <= n -> zlen (erased_record n) = REC_HDR + n.
Proof. intros. unfold erased_record, zlen, REC_HDR. rewrite repeat_length. lia. Qed.

Lemma record_frame_bytes rid p layout : Forall is_byte p -> Forall is_byte (record_frame rid p layout).
Proof.
  intros. unfold record_frame, record_head. rewrite !Forall_app. split_and!; auto with milan.
Qed.

Lemma erased_record_bytes n : Forall is_byte (erased_record n).
Proof. apply Forall_forall. intros x ->%list_elem_of_In%repeat_spec. by unfold is_byte, ERASED. Qed.

Lemma all_erased_iff b : all_erased b = true <-> b = repeat ERASED (length b).
Proof.
  unfold all_erased. induction b as [|x b IH]; cbn [forallb repeat length]; [done|].
  rewrite andb_true_iff, Z.eqb_eq, IH. split; [by intros [<- ->]; rewrite repeat_length|].
  intros [= -> ->]. by rewrite repeat_length.
Qed.

Lemma all_erased_repeat n : all_erased (repeat ERASED n) = true.
Proof. apply all_erased_iff. by rewrite repeat_length. Qed.

(** A field at an offset of a frame that sits at [pos] of the image. *)
Lemma rd_be_at blob pos f o n : zslice pos (zlen f) blob = f ->
  0 <= pos -> 0 <= o -> 0 <= n -> o + n <= zlen f -> rd_be (pos + o) n blob = rd_be o n f.
Proof.
  intros Hf ? ? ? ?. unfold rd_be. by rewrite <-Hf, zslice_zslice by lia.
Qed.

Lemma zslice_at {A} (blob : list A) pos f o n : zslice pos (zlen f) blob = f ->
  0 <= pos -> 0 <= o -> 0 <= n -> o + n <= zlen f -> zslice (pos + o) n blob = zslice o n f.
Proof. intros Hf ? ? ? ?. by rewrite <-Hf, zslice_zslice by lia. Qed.

Lemma zslice_app_hit {A} (a b : list A) off n :
  zlen a = off -> zlen b = n -> zslice off n (a ++ b) = b.
Proof. intros Ha Hb. rewrite (zslice_skip a b off) by lia. replace (off - off) with 0 by lia. by apply zslice_all. Qed.

(** The pieces of a frame. *)
Lemma frame_head rid p layout : zslice 0 6 (record_frame rid p layout) = record_head rid (zlen p) layout.
Proof. apply zslice_hit, record_head_length. Qed.

Lemma frame_payload rid p layout : zslice 8 (zlen p) (record_frame rid p layout) = p.
Proof.
  unfold record_frame. cbv zeta. rewrite app_assoc. apply zslice_app_hit; [|done].
  autorewrite with zlen. by rewrite record_head_length.
Qed.

Lemma frame_magic rid p layout : rd_be 0 2 (record_frame rid p layout) = REC_MAGIC.
Proof. reflexivity. Qed.

Lemma frame_layout rid p layout : 0 <= layout < 256 -> rd_be 2 1 (record_frame rid p layout) = layout.
Proof.
  intros H. unfold rd_be, record_frame, record_head. cbv zeta. rewrite <-!app_assoc.
  rewrite (zslice_skip _ _ 2) by (rewrite ?zlen_be_bytes; lia). rewrite zslice_hit by (by rewrite zlen_be_bytes).
  by apply of_be_be_bytes_id.
Qed.

Lemma frame_rid rid p layout : 0 <= rid < 256 -> rd_be 3 1 (record_frame rid p layout) = rid.
Proof.
  intros H. unfold rd_be, record_frame, record_head. cbv zeta. rewrite <-!app_assoc.
  rewrite (zslice_skip _ _ 2), (zslice_skip _ _ 1) by (rewrite ?zlen_be_bytes; lia).
  rewrite zslice_hit by (by rewrite zlen_be_bytes). by apply of_be_be_bytes_id.
Qed.

Lemma frame_plen rid p layout : zlen p < 65536 -> rd_be 4 2 (record_frame rid p layout) = zlen p.
Proof.
  intros H. pose proof (zlen_nonneg p). unfold rd_be, record_frame, record_head. cbv zeta. rewrite <-!app_assoc.
  rewrite (zslice_skip _ _ 2), (zslice_skip _ _ 1), (zslice_skip _ _ 1) by (rewrite ?zlen_be_bytes; lia).
  rewrite zslice_hit by (by rewrite zlen_be_bytes). apply of_be_be_bytes_id. lia.
Qed.

Lemma frame_crc rid p layout : Forall is_byte p ->
  rd_be 6 2 (record_frame rid p layout) = crc16_ccitt (record_head rid (zlen p) layout ++ p) 0xFFFF.
Proof.
  intros Hp. unfold rd_be, record_frame. cbv zeta.
  rewrite (zslice_skip _ _ 6) by (rewrite ?record_head_length; lia).
  rewrite zslice_hit by (by rewrite zlen_be_bytes). apply of_be_be_bytes_id.
  apply crc16_ccitt_word; [|unfold word; lia]. unfold record_head. rewrite !Forall_app.
  split_and!; auto with milan.
Qed.

Lemma frame_not_erased rid p layout : all_erased (zslice 0 REC_HDR (record_frame rid p layout)) = false.
Proof. reflexivity. Qed.

(** A framed record read at the cursor is the frame of the fields it names. *)
Lemma frame_of_fields blob pos : Forall is_byte blob -> 0 <= pos ->
  let rid := rd_be (pos + 3) 1 blob in
  let plen := rd_be (pos + 4) 2 blob in
  let layout := rd_be (pos + 2) 1 blob in
  let pay := zslice (pos + 8) plen blob in
  pos + 8 + plen <= zlen blob -> 0 <= plen ->
  rd_be pos 2 blob = REC_MAGIC ->
  crc16_ccitt (zslice pos 6 blob ++ pay) 0xFFFF = rd_be (pos + 6) 2 blob ->
  zslice pos (8 + plen) blob = record_frame rid pay layout /\ zlen pay = plen.
Proof.
  intros Hb Hp. cbv zeta. intros Hl Hn Hm Hc.
  assert (zlen (zslice (pos + 8) (rd_be (pos + 4) 2 blob) blob) = rd_be (pos + 4) 2 blob) as Hz
    by (apply zslice_length; lia).
  split; [|done]. unfold record_frame. cbv zeta. rewrite Hz.
  assert (record_head (rd_be (pos + 3) 1 blob) (rd_be (pos + 4) 2 blob) (rd_be (pos + 2) 1 blob)
          = zslice pos 6 blob) as ->.
  { unfold record_head. rewrite <-Hm.
    change 2%nat with (Z.to_nat 2). change 1%nat with (Z.to_nat 1). rewrite !be_bytes_rd_be by (done || lia).
    change 6 with (2 + (1 + (1 + 2))). rewrite !zslice_split by lia. do 3 f_equal; f_equal; lia. }
  rewrite Hc. change 2%nat with (Z.to_nat 2). rewrite be_bytes_rd_be by (done || lia).
  replace (8 + rd_be (pos + 4) 2 blob) with (6 + (2 + rd_be (pos + 4) 2 blob)) by lia.
  rewrite !zslice_split by lia. do 3 f_equal. lia.
Qed.

(** * The required order *)

Lemma group_name_inj g g' : group_name g = group_name g' -> g = g'.
Proof. destruct g, g'; (reflexivity || discriminate). Qed.

#[export] Instance rk_le_total : Total rk_le.
Proof.
  intros [r [g i]] [r' [g' i']]. unfold rk_le, rk_leb. cbn [fst snd].
  destruct (Z.ltb_spec r r'), (Z.ltb_spec r' r); try tauto.
  destruct (decide (g = g')) as [->|Hne].
  - rewrite decide_True by done. rewrite !Z.leb_le. lia.
  - rewrite decide_False by congruence. apply str_le_total.
Qed.

#[export] Instance rk_le_trans : Transitive rk_le.
Proof.
  intros [r1 [g1 i1]] [r2 [g2 i2]] [r3 [g3 i3]]. unfold rk_le, rk_leb. cbn [fst snd].
  destruct (Z.ltb_spec r1 r2), (Z.ltb_spec r2 r1), (Z.ltb_spec r2 r3), (Z.ltb_spec r3 r2),
    (Z.ltb_spec r1 r3), (Z.ltb_spec r3 r1); try done; try lia.
  destruct (decide (g1 = g2)), (decide (g2 = g3)), (decide (g1 = g3)) as [|H13];
    rewrite ?Z.leb_le; try congruence; try lia.
  - subst. intros Ha Hb. exfalso. apply n. apply group_name_inj. by apply str_le_antisym.
  - apply str_le_trans.
Qed.

Lemma required_order_In expect base r k :
  In (r, k) (required_order expect base) <-> is_Some (expect !! k) /\ r = rid_of_key k base.
Proof.
  rewrite <-list_elem_of_In. unfold required_order. rewrite merge_sort_Permutation.
  rewrite list_elem_of_In, in_map_iff. split.
  - intros ([k' n] & [= <- <-] & Hin). cbn [fst]. split; [|done].
    apply list_elem_of_In, elem_of_map_to_list in Hin. by exists n.
  - intros [[n Hn] ->]. exists (k, n). split; [done|]. apply list_elem_of_In, elem_of_map_to_list, Hn.
Qed.

Lemma required_order_sorted expect base : StronglySorted rk_le (required_order expect base).
Proof. apply StronglySorted_merge_sort; apply _. Qed.

Lemma next_required_Some order last r k :
  next_required order last = Some (r, k) -> In (r, k) order /\ last < r.
Proof. unfold next_required. intros H. apply List.find_some in H as [? ?]. bool_prop. done. Qed.

(** Past the records already read, the first one left is the next. *)
Lemma next_required_app pre r k suf last :
  (forall rk, In rk pre -> fst rk <= last) -> last < r ->
  next_required (pre ++ (r, k) :: suf) last = Some (r, k).
Proof.
  unfold next_required. induction pre as [|rk pre IH]; intros Hp Hl; cbn [app List.find].
  - cbn [fst]. by rewrite (proj2 (Z.ltb_lt _ _)).
  - rewrite (proj2 (Z.ltb_ge _ _)) by (apply Hp; by left). apply IH; [|done].
    intros. apply Hp. by right.
Qed.

Lemma erased_span (blob : bytes) pos n : 0 <= pos -> 0 <= n -> pos + REC_HDR + n <= zlen blob ->
  all_erased (zslice pos REC_HDR blob) = true ->
  all_erased (zslice (pos + REC_HDR) n blob) = true ->
  zslice pos (REC_HDR + n) blob = erased_record n.
Proof.
  unfold REC_HDR. intros Hp Hn Hl H1 H2.
  rewrite all_erased_iff in H1, H2. rewrite zslice_split by lia. rewrite H1, H2, <-repeat_app.
  unfold erased_record. f_equal.
  pose proof (zslice_length blob pos 8 ltac:(lia) ltac:(lia) ltac:(lia)) as L1.
  pose proof (zslice_length blob (pos + 8) n ltac:(lia) ltac:(lia) ltac:(lia)) as L2.
  unfold zlen, REC_HDR in *. lia.
Qed.

Lemma all_erased_slice o m n : all_erased (zslice o m (erased_record n)) = true.
Proof.
  unfold all_erased, erased_record, zslice. apply forallb_forall. intros x Hx.
  apply list_elem_of_In, elem_of_take in Hx as (i & Hi & _).
  rewrite lookup_drop in Hi. apply list_elem_of_lookup_2, list_elem_of_In, repeat_spec in Hi.
  subst x. apply Z.eqb_refl.
Qed.

(** * One step of the record loop *)

Section Step.
Context (blob : bytes) (fin : Z) (donor : Donor) (expect : gmap Key Z).

Let base := d_base donor.
Let layout := d_layout donor.
Let order := required_order expect base.
Let eb := entry_bytes base layout expect.

(** The loop's variables after a record. *)
Definition advance (st : dstate) (e : entry) : dstate :=
  {| ds_applied := match snd e with Some p => <[fst e := p]> (ds_applied st) | None => ds_applied st end;
     ds_erased := match snd e with Some _ => ds_erased st | None => {[fst e]} ∪ ds_erased st end;
     ds_pos := ds_pos st + zlen (eb e);
     ds_last := rid_of_key (fst e) base |}.

(** A record that the image holds at the cursor and the shape requires. *)
Definition readable (st : dstate) (e : entry) : Prop :=
  zslice (ds_pos st) (zlen (eb e)) blob = eb e
  /\ ds_pos st + zlen (eb e) <= fin
  /\ ds_last st < rid_of_key (fst e) base
  /\ is_Some (expect !! fst e)
  /\ (forall p, snd e = Some p -> expect !! fst e = Some (zlen p)).

(** What an encoder can have put there. *)
Definition encodable (st : dstate) (e : entry) : Prop :=
  match snd e with
  | Some p => Forall is_byte p /\ zlen p < 65536 /\ 0 <= layout < 256
              /\ 0 <= rid_of_key (fst e) base < 256
              /\ key_of_id (rid_of_key (fst e) base) base = Some (fst e)
  | None => next_required order (ds_last st) = Some (rid_of_key (fst e) base, fst e)
  end.

(** Whatever the loop accepts is a record of the shape, encoded. *)
Lemma decode_record_sound st st' :
  Forall is_byte blob -> fin <= zlen blob -> 0 <= ds_pos st ->
  (forall k n, expect !! k = Some n -> 0 <= n) ->
  decode_record SEAM blob fin donor expect order st = Ok st' ->
  exists e, readable st e /\ st' = advance st e.
Proof.
  intros Hb Hfin Hpos Hexp H. unfold decode_record in H. rsplit H. bool_prop.
  destruct (all_erased (zslice (ds_pos st) REC_HDR blob)) eqn:He.
  - unfold decode_erased in H. destruct (next_required order (ds_last st)) as [[rid key]|] eqn:En; [|done].
    cbv zeta in H. rsplit H. cbn [ERASED_HEADER_ONLY SEAM negb andb] in Hm1. bool_prop. subst st'.
    destruct (next_required_Some _ _ _ _ En) as [Hin Hlt].
    apply required_order_In in Hin as [[n Hn] ->]. pose proof (Hexp _ _ Hn). rewrite Hn in *.
    cbn [default from_option id] in *.
    assert (eb (key, None) = erased_record n) as Heb by (unfold eb, entry_bytes; cbn [fst snd]; by rewrite Hn).
    exists (key, None). unfold readable, advance. cbn [fst snd]. rewrite Heb, erased_record_length by done.
    split; [split_and!|f_equal; lia]; try done; try lia.
    by apply erased_span; [lia|lia|unfold REC_HDR in *; lia|done|done].
  - unfold decode_framed in H. cbv zeta in H. rsplit H.
    destruct (key_of_id (rd_be (ds_pos st + 3) 1 blob) (d_base donor)) as [key|] eqn:Ek; [|done].
    rsplit H. bool_prop. subst st'. destruct (key_of_id_sound _ _ _ Ek) as [_ Hrid].
    pose proof (rd_be_nonneg blob (ds_pos st + 4) 2 Hb).
    destruct (frame_of_fields blob (ds_pos st) Hb Hpos) as [Hf Hz]; [unfold REC_HDR in *; lia|done|done|done|].
    exists (key, Some (zslice (ds_pos st + REC_HDR) (rd_be (ds_pos st + 4) 2 blob) blob)).
    assert (eb (key, Some (zslice (ds_pos st + REC_HDR) (rd_be (ds_pos st + 4) 2 blob) blob))
            = zslice (ds_pos st) (8 + rd_be (ds_pos st + 4) 2 blob) blob) as Heb.
    { rewrite Hf. unfold eb, entry_bytes. cbn [fst snd]. f_equal; [done|]. unfold layout. congruence. }
    unfold readable, advance. cbn [fst snd]. unfold REC_HDR in *.
    rewrite Heb, zslice_length by lia.
    split; [split_and!|f_equal; [lia|done]]; try done; try lia.
    + unfold base. by rewrite <-Hrid.
    + intros p [= <-]. by rewrite Hz.
Qed.

(** Every record an encoder writes where the shape wants it is accepted. *)
Lemma decode_framed_complete st key p :
  0 <= ds_pos st -> readable st (key, Some p) -> encodable st (key, Some p) ->
  decode_framed blob fin donor expect st = Ok (advance st (key, Some p)).
Proof.
  intros Hpos (Hs & Hl & Hlast & _ & Hp) (Hpb & Hpl & Hlay & Hrid & Hkey).
  cbn [fst snd] in *. specialize (Hp p eq_refl).
  unfold eb, entry_bytes in Hs, Hl. cbn [fst snd] in Hs, Hl.
  set (rid := rid_of_key key base) in *. pose proof (zlen_nonneg p).
  pose proof (record_frame_length rid p layout) as Hfl. unfold REC_HDR in Hfl.
  assert (forall o n, 0 <= o -> 0 <= n -> o + n <= 8 ->
    rd_be (ds_pos st + o) n blob = rd_be o n (record_frame rid p layout)) as Hf.
  { intros. apply (rd_be_at _ _ _ _ _ Hs); lia. }
  assert (zslice (ds_pos st + REC_HDR) (zlen p) blob = p) as Epay.
  { rewrite (zslice_at _ _ _ _ _ Hs) by (unfold REC_HDR; lia). apply frame_payload. }
  assert (zslice (ds_pos st) 6 blob = record_head rid (zlen p) layout) as Eh.
  { rewrite <-(Z.add_0_r (ds_pos st)), (zslice_at _ _ _ _ _ Hs) by lia. apply frame_head. }
  unfold decode_framed. cbv zeta.
  rewrite <-(Z.add_0_r (ds_pos st)) at 1. rewrite !Hf by lia.
  rewrite frame_magic, frame_layout, frame_rid, frame_plen, frame_crc, Epay, Eh by done.
  unfold layout, base, raise_if in *. rewrite !Z.eqb_refl. cbn [negb orb rbind].
  rewrite (proj2 (Z.ltb_ge _ _)) by (unfold REC_HDR; lia). cbn [rbind].
  rewrite (proj2 (Z.leb_gt _ _)) by lia. cbn [rbind].
  rewrite Hkey, Hp, bool_decide_eq_true_2 by done. cbn [negb rbind].
  unfold advance. cbn [fst snd]. unfold eb, entry_bytes. cbn [fst snd].
  do 2 f_equal. rewrite record_frame_length. lia.
Qed.

Lemma decode_erased_complete st key :
  0 <= ds_pos st -> (forall k n, expect !! k = Some n -> 0 <= n) ->
  readable st (key, None) -> encodable st (key, None) ->
  decode_erased SEAM blob fin expect order st = Ok (advance st (key, None))
  /\ all_erased (zslice (ds_pos st) REC_HDR blob) = true.
Proof.
  intros Hpos Hexp (Hs & Hl & _ & [n Hn] & _) Hnx. cbn [fst snd encodable] in *.
  assert (eb (key, None) = erased_record n) as Heb by (unfold eb, entry_bytes; cbn [fst snd]; by rewrite Hn).
  pose proof (Hexp _ _ Hn). rewrite Heb in Hs, Hl.
  pose proof (erased_record_length n ltac:(lia)) as Hel.
  assert (forall o m, 0 <= o -> 0 <= m -> o + m <= REC_HDR + n ->
    all_erased (zslice (ds_pos st + o) m blob) = true) as Hall.
  { intros o m ? ? ?. rewrite (zslice_at _ _ _ _ _ Hs) by lia.
    apply all_erased_slice. }
  split.
  - unfold decode_erased, raise_if. unfold encodable in Hnx. cbn [fst snd] in Hnx.
    rewrite Hnx, Hn. cbn [default from_option id]. cbv zeta.
    rewrite (proj2 (Z.ltb_ge _ _)) by lia. cbn [rbind].
    rewrite Hall by (unfold REC_HDR; lia). cbn [negb andb ERASED_HEADER_ONLY SEAM rbind].
    unfold advance. cbn [fst snd]. rewrite Heb, Hel. do 2 f_equal. lia.
  - rewrite <-(Z.add_0_r (ds_pos st)). apply Hall; unfold REC_HDR; lia.
Qed.

Lemma decode_record_complete st e :
  0 <= ds_pos st -> (forall k n, expect !! k = Some n -> 0 <= n) ->
  readable st e -> encodable st e ->
  decode_record SEAM blob fin donor expect order st = Ok (advance st e).
Proof.
  intros Hpos Hexp Hr He. unfold decode_record, raise_if.
  pose proof Hr as (Hs & Hl & _ & [n Hn] & _).
  assert (REC_HDR <= zlen (eb e)) as Hlen.
  { destruct e as [k [p|]]; unfold eb, entry_bytes; cbn [fst snd] in *.
    - rewrite record_frame_length. pose proof (zlen_nonneg p). lia.
    - rewrite Hn. pose proof (Hexp _ _ Hn). rewrite erased_record_length by done. simpl. lia. }
  rewrite (proj2 (Z.ltb_ge _ _)) by lia. cbn [rbind].
  destruct e as [k [p|]].
  - rewrite <-(Z.add_0_r (ds_pos st)) at 1.
    rewrite (zslice_at _ _ _ 0 REC_HDR Hs) by (unfold REC_HDR in *; lia).
    unfold eb, entry_bytes. cbn [fst snd]. rewrite frame_not_erased.
    by apply decode_framed_complete.
  - destruct (decode_erased_complete st k Hpos Hexp Hr He) as [-> ->]. done.
Qed.

(** * The record loop *)

Fixpoint chain (P : dstate -> entry -> Prop) (st : dstate) (es : list entry) : Prop :=
  match es with
  | [] => True
  | e :: es' => P st e /\ chain P (advance st e) es'
  end.

Definition run (st : dstate) (es : list entry) : dstate := fold_left advance es st.

Definition rid_of (e : entry) : Z := rid_of_key (fst e) base.
Definition ascending (es : list entry) : Prop := StronglySorted (fun e e' => rid_of e < rid_of e') es.

Lemma decode_records_sound n st st' :
  Forall is_byte blob -> fin <= zlen blob -> 0 <= ds_pos st ->
  (forall k n, expect !! k = Some n -> 0 <= n) ->
  decode_records n SEAM blob fin donor expect order st = Ok st' ->
  exists es, length es = n /\ chain readable st es /\ st' = run st es.
Proof.
  intros Hb Hfin Hpos Hexp. revert st Hpos. induction n as [|n IH]; intros st Hpos H; cbn [decode_records] in H.
  - apply Ok_inj in H as <-. by exists [].
  - rsplit H. destruct (decode_record_sound _ _ Hb Hfin Hpos Hexp Hm) as (e & He & ->).
    apply IH in H; [|unfold advance; cbn [ds_pos]; pose proof (zlen_nonneg (eb e)); lia].
    destruct H as (es & <- & Hc & ->). by exists (e :: es).
Qed.

Lemma decode_records_complete es st :
  0 <= ds_pos st -> (forall k n, expect !! k = Some n -> 0 <= n) ->
  chain (fun st e => readable st e /\ encodable st e) st es ->
  decode_records (length es) SEAM blob fin donor expect order st = Ok (run st es).
Proof.
  intros Hpos Hexp. revert st Hpos. induction es as [|e es IH]; intros st Hpos; [done|].
  intros [[Hr He] Hc]. cbn [length decode_records].
  rewrite (decode_record_complete st e) by done. cbn [rbind]. apply IH; [|done].
  unfold advance. cbn [ds_pos]. pose proof (zlen_nonneg (eb e)). lia.
Qed.

Lemma decode_records_app seam n m st :
  decode_records (n + m) seam blob fin donor expect order st
  = let* st' := decode_records n seam blob fin donor expect order st in
    decode_records m seam blob fin donor expect order st'.
Proof.
  revert st. induction n as [|n IH]; intros st; cbn [Nat.add decode_records rbind]; [done|].
  destruct (decode_record seam blob fin donor expect order st) as [st'|]; cbn [rbind]; [apply IH|done].
Qed.

Lemma run_pos es st : ds_pos (run st es) = ds_pos st + zlen (concat (map eb es)).
Proof.
  unfold run. revert st. induction es as [|e es IH]; intros st; cbn [fold_left map concat].
  - rewrite zlen_nil. lia.
  - rewrite IH, zlen_app. unfold advance. cbn [ds_pos]. lia.
Qed.

(** The last id the loop has read is the greatest. *)
Lemma run_last es st : ascending es -> (forall e, In e es -> ds_last st < rid_of e) ->
  ds_last st <= ds_last (run st es) /\ (forall e, In e es -> rid_of e <= ds_last (run st es))
  /\ (forall b, ds_last st < b -> (forall e, In e es -> rid_of e < b) -> ds_last (run st es) < b).
Proof.
  unfold run. revert st. induction es as [|e es IH]; intros st Ha Hl; cbn [fold_left In].
  - split_and!; [lia|by intros ? []|auto].
  - apply StronglySorted_inv in Ha as [Ha Hlt]. rewrite Forall_forall in Hlt.
    pose proof (Hl e (or_introl eq_refl)) as He.
    destruct (IH (advance st e) Ha) as (H1 & H2 & H3).
    { intros e' He'. apply Hlt. by apply list_elem_of_In. }
    change (ds_last (advance st e)) with (rid_of e) in *. split_and!; [lia|by intros e' [<-|?]; auto|].
    intros b _ Hb. apply H3; auto.
Qed.

(** What a chain of accepted records says about the image and the keys. *)
Lemma chain_readable es st : 0 <= ds_pos st -> chain readable st es ->
  zslice (ds_pos st) (zlen (concat (map eb es))) blob = concat (map eb es)
  /\ ascending es
  /\ (forall e, In e es -> ds_last st < rid_of e /\ is_Some (expect !! fst e)
       /\ (forall p, snd e = Some p -> expect !! fst e = Some (zlen p))).
Proof.
  revert st. induction es as [|e es IH]; intros st Hpos; cbn [chain map concat In].
  - intros _. split_and!; [by unfold zslice, zlen; simpl|constructor|done].
  - intros [(Hs & Hl & Hlast & Hk & Hp) Hc]. pose proof (zlen_nonneg (eb e)).
    apply IH in Hc as (Hz & Ha & Hin); [|unfold advance; cbn [ds_pos]; lia].
    unfold advance in Hz, Hin. cbn [ds_pos ds_last] in Hz, Hin. split_and!.
    + rewrite zlen_app, zslice_split by (lia || apply zlen_nonneg). by rewrite Hs, Hz.
    + constructor; [done|]. apply Forall_forall. intros e' He'%list_elem_of_In.
      apply Hin in He' as [? _]. done.
    + intros e' [<-|He']; [done|]. apply Hin in He' as (? & ? & ?). split_and!; [unfold rid_of in *; lia|done..].
Qed.

(** The records of an encoded area, in the shape's order, all readable. *)
Lemma encoded_chain es pre suf done more st :
  blob = pre ++ concat (map eb es) ++ suf -> zlen pre = ds_pos st ->
  ds_pos st + zlen (concat (map eb es)) <= fin ->
  order = done ++ map (fun e => (rid_of e, fst e)) es ++ more ->
  (forall rk, In rk done -> fst rk <= ds_last st) -> ascending es ->
  (forall e, In e es -> ds_last st < rid_of e /\ is_Some (expect !! fst e)
    /\ (forall p, snd e = Some p -> expect !! fst e = Some (zlen p) /\ Forall is_byte p /\ zlen p < 65536
        /\ 0 <= layout < 256 /\ 0 <= rid_of e < 256 /\ key_of_id (rid_of e) base = Some (fst e))) ->
  chain (fun st e => readable st e /\ encodable st e) st es.
Proof.
  revert pre done st. induction es as [|e es IH]; intros pre done st Hb Hpre Hfin Ho Hd Ha Hin; [constructor|].
  cbn [map concat] in *. apply StronglySorted_inv in Ha as [Ha Hlt].
  destruct (Hin e (or_introl eq_refl)) as (Hl & Hk & Hp). rewrite zlen_app in Hfin.
  pose proof (zlen_nonneg (concat (map eb es))). split; [split|].
  - unfold readable. split_and!; [|lia|done|done|intros p Hs; by apply Hp].
    rewrite Hb, <-Hpre, <-app_assoc. rewrite (zslice_skip pre _ (zlen pre)) by lia.
    rewrite Z.sub_diag. by apply zslice_hit.
  - unfold encodable. destruct (snd e) as [p|] eqn:Hs.
    + destruct (Hp p eq_refl) as (_ & Hr). exact Hr.
    + rewrite Ho. by apply next_required_app.
  - apply (IH (pre ++ eb e) (done ++ [(rid_of e, fst e)])).
    + by rewrite Hb, <-!app_assoc.
    + rewrite zlen_app, Hpre. reflexivity.
    + unfold advance. cbn [ds_pos]. lia.
    + by rewrite Ho, <-app_assoc.
    + unfold advance. cbn [ds_last]. intros rk [Hrk|[<-|[]]]%in_app_iff; [|by cbn].
      specialize (Hd _ Hrk). fold (rid_of e). lia.
    + done.
    + intros e' He'. unfold advance. cbn [ds_last]. split; [|by apply Hin; right].
      rewrite Forall_forall in Hlt. apply Hlt. by apply list_elem_of_In.
Qed.

Lemma run_erased es st k : k ∈ ds_erased (run st es) <-> In (k, None) es \/ k ∈ ds_erased st.
Proof.
  unfold run. revert st. induction es as [|[k' o] es IH]; intros st; cbn [fold_left In]; [tauto|].
  rewrite IH. unfold advance. cbn [ds_erased fst snd]. destruct o as [p|].
  - split; [tauto|]. by intros [[?|?]|?]; [done|tauto..].
  - rewrite elem_of_union, elem_of_singleton. split; [intros [?|[->|?]]; tauto|].
    intros [[[= ->]|?]|?]; tauto.
Qed.

Lemma run_applied_other es st k : (forall p, ~ In (k, Some p) es) ->
  ds_applied (run st es) !! k = ds_applied st !! k.
Proof.
  unfold run. revert st. induction es as [|[k' o] es IH]; intros st Hn; cbn [fold_left]; [done|].
  rewrite IH by (intros p Hp; apply (Hn p); by right). unfold advance. cbn [ds_applied fst snd].
  destruct o as [p|]; [|done]. apply lookup_insert_ne. intros ->. apply (Hn p). by left.
Qed.

Lemma run_applied_in es st k p : ascending es -> In (k, Some p) es ->
  ds_applied (run st es) !! k = Some p.
Proof.
  unfold run. revert st. induction es as [|e es IH]; intros st Ha; cbn [fold_left In]; [done|].
  apply StronglySorted_inv in Ha as [Ha Hlt]. intros [->|Hin]; [|by apply IH].
  fold (run (advance st (k, Some p)) es). rewrite run_applied_other.
  - unfold advance. cbn [ds_applied fst snd]. apply lookup_insert_eq.
  - intros q Hq. rewrite Forall_forall in Hlt. apply list_elem_of_In, Hlt in Hq.
    unfold rid_of in Hq. cbn [fst] in Hq. lia.
Qed.
Lemma run_applied_inv es st k p : ds_applied (run st es) !! k = Some p ->
  In (k, Some p) es \/ ds_applied st !! k = Some p.
Proof.
  unfold run. revert st. induction es as [|[k' o] es IH]; intros st; cbn [fold_left In]; [tauto|].
  intros [H|H]%IH; [tauto|]. unfold advance in H. cbn [ds_applied fst snd] in H.
  destruct o as [q|]; [|tauto]. destruct (decide (k' = k)) as [->|].
  - rewrite lookup_insert_eq in H. injection H as ->. tauto.
  - rewrite lookup_insert_ne in H by done. tauto.
Qed.

End Step.

(** * The container *)

Lemma zlen_words (words : list Z) : zlen (concat (map (le_bytes 4) words)) = 4 * zlen words.
Proof.
  induction words as [|w words IH]; cbn [map concat]; [done|].
  autorewrite with zlen. rewrite IH. lia.
Qed.

(** Every word of a packed header is read back. *)
Lemma word_at_header words rest i w : words !! Z.to_nat i = Some w -> 0 <= i -> fits 4 w = true ->
  word_at (concat (map (le_bytes 4) words) ++ rest) i = w.
Proof.
  intros Hw Hi Hf. apply fits_true in Hf. unfold word_at.
  revert i Hw Hi. induction words as [|v words IH]; intros i Hw Hi; [done|].
  cbn [map concat]. unfold rd_le. rewrite <-app_assoc.
  destruct (Z.to_nat i) as [|j] eqn:Ej; cbn in Hw.
  - injection Hw as ->. replace i with 0 by lia. rewrite zslice_hit by (by rewrite zlen_le).
    by apply of_le_le_bytes_id.
  - rewrite (zslice_skip _ _ 4) by (rewrite ?zlen_le; lia).
    replace (4 * i - 4) with (4 * (i - 1)) by lia. apply IH; [|lia].
    by replace (Z.to_nat (i - 1)) with j by lia.
Qed.

(** A 64-bit identity split in two words and joined. *)
Lemma join_words v : 0 <= v < 2 ^ 64 ->
  Z.lor (Z.land v 0xFFFFFFFF) (Z.shiftl (Z.land (Z.shiftr v 32) 0xFFFFFFFF) 32) = v.
Proof.
  intros Hv. change 0xFFFFFFFF with (Z.ones 32). apply Z.bits_inj'. intros i Hi.
  assert (forall j, 64 <= j -> Z.testbit v j = false) as Hhi.
  { apply word_bits; [lia|exact Hv]. }
  rewrite Z.lor_spec, Z.land_spec, Z.testbit_ones_nonneg, Z.shiftl_spec by lia.
  destruct (Z.ltb_spec i 32).
  - rewrite (Z.testbit_neg_r _ (i - 32)) by lia. by rewrite andb_true_r, orb_false_r.
  - rewrite andb_false_r, orb_false_l, Z.land_spec, Z.shiftr_spec, Z.testbit_ones_nonneg by lia.
    replace (i - 32 + 32) with i by lia. destruct (Z.ltb_spec (i - 32) 32); [apply andb_true_r|].
    rewrite andb_false_r, Hhi by lia. done.
Qed.

Lemma check_container_Ok blob donor ident u :
  check_container blob donor ident = Ok u ->
  44 <= zlen blob <= 65536 /\ word_at blob 4 = zlen blob
  /\ Z.land (crc32 (zslice 0 (zlen blob - 4) blob)) 0xFFFFFFFF = rd_le (zlen blob - 4) 4 blob
  /\ Z.lor (word_at blob 5) (Z.shiftl (word_at blob 6) 32) = i_entity_id ident
  /\ Z.lor (word_at blob 7) (Z.shiftl (word_at blob 8) 32) = i_model_id ident
  /\ word_at blob 9 = d_layout donor.
Proof.
  unfold check_container. cbv zeta. intros H. rsplit H. bool_prop.
  match goal with HE : zlen blob = word_at blob 4 |- _ => rewrite <-HE in * end.
  split_and!; (done || lia).
Qed.

Lemma land_crc32 data : Forall is_byte data -> Z.land (crc32 data) 0xFFFFFFFF = crc32 data.
Proof.
  intros Hd. change 0xFFFFFFFF with (Z.ones 32). rewrite Z.land_ones by lia.
  apply Z.mod_small. by apply crc32_word.
Qed.

(** No test fails with the verdict that means success. *)
Lemma rbind_not {E A B} (m : result E A) (k : A -> result E B) e :
  m <> Err e -> (forall a, k a <> Err e) -> rbind m k <> Err e.
Proof. destruct m; cbn [rbind]; [auto|]. by intros H _ [= ->]. Qed.

Lemma raise_if_not {E} b (e e' : E) : e' <> e -> raise_if b e' <> Err e.
Proof. unfold raise_if. destruct b; congruence. Qed.

Ltac never_ok :=
  repeat first
    [ apply raise_if_not; discriminate
    | apply rbind_not; [|intros ?]
    | discriminate
    | case_match ].

Lemma decode_record_not_ok seam blob fin donor expect order st :
  decode_record seam blob fin donor expect order st <> Err VD_OK.
Proof. unfold decode_record, decode_erased, decode_framed. cbv zeta. never_ok. Qed.

Lemma decode_records_not_ok n seam blob fin donor expect order st :
  decode_records n seam blob fin donor expect order st <> Err VD_OK.
Proof.
  revert st. induction n as [|n IH]; intros st; cbn [decode_records]; [done|].
  apply rbind_not; [apply decode_record_not_ok|auto].
Qed.

Lemma decode_image_not_ok seam blob donor ident expect :
  decode_image seam blob donor ident expect <> Err VD_OK.
Proof.
  unfold decode_image, check_container. cbv zeta.
  repeat first [apply decode_records_not_ok | progress never_ok].
Qed.

Lemma klj2_decode_OK seam blob donor ident expect applied :
  klj2_decode seam blob donor ident expect = (VD_OK, applied) <->
  decode_image seam blob donor ident expect = Ok applied.
Proof.
  pose proof (decode_image_not_ok seam blob donor ident expect) as Hn. unfold klj2_decode.
  destruct decode_image as [a|v]; split; congruence.
Qed.

(** * Accepted images *)

(** What a successful decode has read: a chain of records from the start of the
    area to its padding, one for each key the shape requires. *)
Lemma decode_image_run (blob : bytes) (donor : Donor) (ident : Ident) (expect : gmap Key Z) applied :
  Forall is_byte blob -> (forall k n, expect !! k = Some n -> 0 <= n) ->
  decode_image SEAM blob donor ident expect = Ok applied ->
  exists es, check_container blob donor ident = Ok tt
    /\ word_at blob 3 = zlen es
    /\ applied = ds_applied (run donor expect start es)
    /\ chain donor expect (readable blob (word_at blob 4 - KLJ2_TRAILER) donor expect) start es
    /\ (let pos := ds_pos (run donor expect start es) in
        pos + pad_of (pos - KLJ2_HDR) = word_at blob 4 - KLJ2_TRAILER)
    /\ (forall k, is_Some (expect !! k) <-> In k (map fst es)).
Proof.
  intros Hb Hexp H. unfold decode_image in H. cbv zeta in H. rsplit H. destruct v.
  pose proof Hm as (Hlen & Hil & _)%check_container_Ok.
  apply decode_records_sound in Hm0 as (es & Hn & Hc & ->); [|done|unfold KLJ2_TRAILER; lia|done|done].
  cbn [DECODE_ALLOW_ABSENT SEAM negb] in Hm2. rewrite andb_true_r in Hm2. bool_prop.
  exists es. split_and!; [done| |done|done|done|].
  - unfold zlen. rewrite Hn. apply eq_sym, Z2Nat.id. by apply rd_le_nonneg.
  - pose proof Hc as (_ & _ & Hin)%chain_readable; [|done]. intros k. rewrite in_map_iff. split.
    + intros Hk. apply elem_of_dom in Hk.
      destruct (decide (k ∈ dom (ds_applied (run donor expect start es)))) as [Hd|Hd].
      * apply elem_of_dom in Hd as [p [Hp|Hp]%run_applied_inv]; [by exists (k, Some p)|done].
      * destruct (decide (k ∈ ds_erased (run donor expect start es))) as [He|He].
        2: { exfalso. assert (k ∈ (∅ : gset Key)) as []%not_elem_of_empty.
             rewrite <-Hm2. by rewrite !elem_of_difference. }
        apply run_erased in He as [He|He]; [by exists (k, None)|done].
    + intros (e & <- & (_ & He & _)%Hin). exact He.
Qed.

(** The header's record count of an accepted image is the number of keys. *)
Lemma decode_image_count (blob : bytes) (donor : Donor) (ident : Ident) (expect : gmap Key Z) applied :
  Forall is_byte blob -> (forall k n, expect !! k = Some n -> 0 <= n) ->
  decode_image SEAM blob donor ident expect = Ok applied -> word_at blob 3 = Z.of_nat (size expect).
Proof.
  intros Hb Hexp H. destruct (decode_image_run _ _ _ _ _ Hb Hexp H) as (es & _ & -> & _ & Hc & _ & Hk).
  apply chain_readable in Hc as (_ & Ha & _); [|done].
  assert (NoDup (map fst es)) as Hn.
  { clear -Ha. induction Ha as [|e es _ IH He]; cbn [map]; constructor; [|done].
    rewrite list_elem_of_In, in_map_iff. intros (e' & E & Hin%list_elem_of_In).
    rewrite Forall_forall in He. specialize (He _ Hin). unfold rid_of in He. rewrite E in He. lia. }
  replace (zlen es) with (Z.of_nat (length (map fst es))) by (unfold zlen; f_equal; apply length_map).
  rewrite <-(size_list_to_set (C := gset Key) _ Hn), <-size_dom. do 2 f_equal. apply set_eq. intros k. by rewrite elem_of_dom, elem_of_list_to_set, list_elem_of_In, Hk.
Qed.

(** C1: An image the decoder accepts is the whole saved state: its record area
    is the encoding of one record per key the shape requires, each exactly once,
    in strictly ascending record id, with nothing after the last but the
    alignment padding; every record is either a frame of the required payload
    length or a fully erased span; what is applied is the payload of each
    framed record and nothing else; and the container's checksum, lengths and
    record count agree with it.  A set that omits or repeats a record, or
    stores one at the wrong length, is never accepted. *)
Theorem klj2_decode_sound (blob : bytes) (donor : Donor) (ident : Ident) (expect : gmap Key Z) applied :
  Forall is_byte blob -> (forall k n, expect !! k = Some n -> 0 <= n) ->
  klj2_decode SEAM blob donor ident expect = (VD_OK, applied) ->
  exists (es : list entry) pad,
    let area := concat (map (entry_bytes (d_base donor) (d_layout donor) expect) es) in
    zslice KLJ2_HDR (zlen blob - KLJ2_HDR - KLJ2_TRAILER) blob = area ++ pad
    /\ zlen pad = pad_of (zlen area)
    /\ word_at blob 3 = zlen es
    /\ StronglySorted (fun e e' => rid_of_key (fst e) (d_base donor) < rid_of_key (fst e') (d_base donor)) es
    /\ (forall k, is_Some (expect !! k) <-> In k (map fst es))
    /\ (forall k p, In (k, Some p) es -> expect !! k = Some (zlen p))
    /\ (forall k p, applied !! k = Some p <-> In (k, Some p) es)
    /\ crc32 (zslice 0 (zlen blob - 4) blob) = rd_le (zlen blob - 4) 4 blob.
Proof.
  intros Hb Hexp H. apply klj2_decode_OK in H.
  destruct (decode_image_run _ _ _ _ _ Hb Hexp H) as (es & Hc & Hn & Happ & Hch & Hpos & Hk).
  apply check_container_Ok in Hc as (Hlen & Hil & Hcrc & _). rewrite Hil in *.
  apply chain_readable in Hch as (Hz & Ha & Hin); [|done].
  rewrite run_pos in Hpos. cbn [start ds_pos] in *.
  set (area := concat (map (entry_bytes (d_base donor) (d_layout donor) expect) es)) in *.
  pose proof (zlen_nonneg area) as Hpa.
  replace (KLJ2_HDR + zlen area - KLJ2_HDR) with (zlen area) in Hpos by lia.
  pose proof (Z.mod_pos_bound (- zlen area) ALIGN ltac:(done)) as Hpad. fold (pad_of (zlen area)) in Hpad.
  exists es, (zslice (KLJ2_HDR + zlen area) (pad_of (zlen area)) blob). cbv zeta. fold area.
  unfold KLJ2_HDR, KLJ2_TRAILER in *. split_and!.
  - transitivity (zslice 40 (zlen area + pad_of (zlen area)) blob); [f_equal; lia|].
    rewrite zslice_split by lia. by rewrite Hz.
  - apply zslice_length; lia.
  - done.
  - exact Ha.
  - exact Hk.
  - intros k p He. by apply (Hin (k, Some p) He).
  - subst applied. intros k p. split.
    + by intros [?|?]%run_applied_inv.
    + by apply run_applied_in.
  - rewrite land_crc32 in Hcrc by (by apply Forall_zslice). exact Hcrc.
Qed.

(** A small image: a configuration index, and a system id never written. *)
Definition sample_expect : gmap Key Z := {[ (CFG_IDX, 0) := 2; (SUID, 0) := 8 ]}.
Definition sample_donor : Donor := {| d_base := 0x20; d_layout := 1 |}.
Definition sample_ident : Ident :=
  {| i_seq := 7; i_entity_id := 0x0011223344556677; i_model_id := 0x8899AABBCCDDEEFF |}.
Definition sample_frames : gmap Z bytes :=
  {[ 0 := record_frame 0 [0; 5] 1; 1 := erased_record 8 ]}.
Definition sample_image : bytes :=
  match klj2_assemble sample_frames sample_donor sample_ident with Ok (b, _) => b | Err _ => [] end.

Lemma sample_image_bytes : Forall is_byte sample_image.
Proof. apply Forall_is_byteb. vm_compute. reflexivity. Qed.

Lemma sample_expect_nonneg k n : sample_expect !! k = Some n -> 0 <= n.
Proof. unfold sample_expect. rewrite lookup_insert_Some, lookup_singleton_Some. lia. Qed.

Lemma klj2_decode_sound_witness :
  zlen sample_image = 72 /\
  exists (es : list entry) pad, word_at sample_image 3 = zlen es
    /\ zslice 40 28 sample_image
       = concat (map (entry_bytes 0x20 1 sample_expect) es) ++ pad.
Proof.
  split; [vm_compute; reflexivity|].
  assert (klj2_decode SEAM sample_image sample_donor sample_ident sample_expect
          = (VD_OK, {[ (CFG_IDX, 0) := [0; 5] ]})) as K by (vm_compute; reflexivity).
  destruct (klj2_decode_sound sample_image sample_donor sample_ident sample_expect _
              sample_image_bytes sample_expect_nonneg K) as (es & pad & H1 & _ & H3 & _).
  exists es, pad. split; [exact H3|]. exact H1.
Defined.

(** * One damaged octet *)

Lemma decode_OK_crc (seam : Seams) (blob : bytes) (donor : Donor) (ident : Ident) (expect : gmap Key Z) applied :
  klj2_decode seam blob donor ident expect = (VD_OK, applied) ->
  44 <= zlen blob
  /\ Z.land (crc32 (zslice 0 (zlen blob - 4) blob)) 0xFFFFFFFF = rd_le (zlen blob - 4) 4 blob.
Proof.
  intros H. apply klj2_decode_OK in H. unfold decode_image in H. cbv zeta in H. rsplit H.
  apply check_container_Ok in Hm as (? & _ & ? & _). split; [lia|done].
Qed.

(** The octet lies before the trailer: the checksums differ. *)
Lemma damage_in_body (pre suf : bytes) a b n :
  Forall is_byte pre -> Forall is_byte suf -> is_byte a -> is_byte b ->
  n = zlen pre + 1 + zlen suf -> zlen pre < n - 4 -> 4 <= n ->
  crc32 (zslice 0 (n - 4) (pre ++ a :: suf)) = rd_le (n - 4) 4 (pre ++ a :: suf) ->
  crc32 (zslice 0 (n - 4) (pre ++ b :: suf)) = rd_le (n - 4) 4 (pre ++ b :: suf) -> a = b.
Proof.
  intros Hpre Hsuf Ha Hb Hn Hcase Hn4 Hc Hc'. pose proof (zlen_nonneg pre). unfold rd_le in *.
  assert (forall c, zslice (n - 4) 4 (pre ++ c :: suf) = zslice (n - 4 - zlen pre - 1) 4 suf) as Ht.
  { intros c. rewrite (zslice_skip pre _ (zlen pre)) by lia.
    change (c :: suf) with ([c] ++ suf). by rewrite (zslice_skip [c] _ 1) by (done || lia). }
  assert (forall c, zslice 0 (n - 4) (pre ++ c :: suf)
                    = pre ++ c :: zslice 0 (n - 4 - zlen pre - 1) suf) as Hd.
  { intros c. unfold zslice. cbn [Z.to_nat]. rewrite !drop_0, take_app_ge by (unfold zlen in *; lia). f_equal.
    replace (Z.to_nat (n - 4) - length pre)%nat with (S (Z.to_nat (n - 4 - zlen pre - 1)))
      by (unfold zlen in *; lia). done. }
  rewrite !Ht in *. rewrite <-Hc', !Hd in Hc.
  by apply crc32_one_octet in Hc; [|done|apply Forall_zslice|..].
Qed.

(** The octet lies in the trailer: the stored checksums differ. *)
Lemma damage_in_trailer (pre suf : bytes) a b n :
  Forall is_byte pre -> Forall is_byte suf -> is_byte a -> is_byte b ->
  n = zlen pre + 1 + zlen suf -> n - 4 <= zlen pre -> 4 <= n ->
  crc32 (zslice 0 (n - 4) (pre ++ a :: suf)) = rd_le (n - 4) 4 (pre ++ a :: suf) ->
  crc32 (zslice 0 (n - 4) (pre ++ b :: suf)) = rd_le (n - 4) 4 (pre ++ b :: suf) -> a = b.
Proof.
  intros Hpre Hsuf Ha Hb Hn Hcase Hn4 Hc Hc'. pose proof (zlen_nonneg suf). unfold rd_le in *.
  assert (forall c, zslice 0 (n - 4) (pre ++ c :: suf) = zslice 0 (n - 4) pre) as Hd.
  { intros c. apply zslice_app_l; lia. }
  rewrite !Hd in *. rewrite Hc in Hc'.
  assert (forall c, is_byte c -> le_bytes 4 (of_le (zslice (n - 4) 4 (pre ++ c :: suf)))
                    = zslice (n - 4) 4 (pre ++ c :: suf)) as Hle.
  { intros c Hcb. apply le_bytes_of_le_n.
    - assert (zlen (zslice (n - 4) 4 (pre ++ c :: suf)) = 4) as L; [|unfold zlen in L; lia].
      apply zslice_length; try lia. autorewrite with zlen. lia.
    - apply Forall_zslice, Forall_app. split; [done|by constructor]. }
  assert (zslice (n - 4) 4 (pre ++ a :: suf) = zslice (n - 4) 4 (pre ++ b :: suf)) as He
    by (rewrite <-(Hle a Ha), <-(Hle b Hb); by f_equal).
  assert (forall c, zslice (n - 4) 4 (pre ++ c :: suf) = drop (Z.to_nat (n - 4)) pre ++ c :: suf) as Hf.
  { intros c. unfold zslice. rewrite drop_app_le by (unfold zlen in *; lia).
    apply take_ge. rewrite length_app, length_drop. cbn [length]. unfold zlen in *. lia. }
  rewrite !Hf in He. apply app_inv_head in He. congruence.
Qed.

(** C23: No damage confined to one octet of an accepted image goes unnoticed:
    whatever octet is changed, in the header, a record, the padding or the
    checksum itself, the decoder no longer accepts, so none of the damaged
    state is applied. *)
Theorem klj2_single_octet_damage (pre suf : bytes) (a b : Z) (donor : Donor) (ident : Ident)
    (expect : gmap Key Z) applied :
  Forall is_byte (pre ++ a :: suf) -> is_byte b -> b <> a ->
  klj2_decode SEAM (pre ++ a :: suf) donor ident expect = (VD_OK, applied) ->
  fst (klj2_decode SEAM (pre ++ b :: suf) donor ident expect) <> VD_OK
  /\ snd (klj2_decode SEAM (pre ++ b :: suf) donor ident expect) = ∅.
Proof.
  intros Hall Hb Hne H. apply Forall_app in Hall as Hall'. destruct Hall' as [Hpre [Ha Hsuf]%Forall_cons].
  assert (Forall is_byte (pre ++ b :: suf)) as Hallb by (apply Forall_app; split; [done|by constructor]).
  assert (fst (klj2_decode SEAM (pre ++ b :: suf) donor ident expect) <> VD_OK) as Hn.
  { intros H'. destruct (klj2_decode SEAM (pre ++ b :: suf) donor ident expect) as [v app'] eqn:E.
    cbn [fst] in H'. subst v. apply decode_OK_crc in H as [Hl Hc], E as [Hl' Hc'].
    rewrite land_crc32 in Hc by (by apply Forall_zslice). rewrite land_crc32 in Hc' by (by apply Forall_zslice).
    assert (zlen (pre ++ b :: suf) = zlen (pre ++ a :: suf)) as Hz
      by (unfold zlen; by rewrite !length_app).
    rewrite Hz in Hc'. set (n := zlen (pre ++ a :: suf)) in *.
    assert (n = zlen pre + 1 + zlen suf) as Hn by (unfold n; autorewrite with zlen; lia).
    apply Hne, eq_sym. destruct (Z.lt_ge_cases (zlen pre) (n - 4)).
    - apply (damage_in_body pre suf a b n); (done || lia).
    - apply (damage_in_trailer pre suf a b n); (done || lia). }
  split; [done|]. clear H. unfold klj2_decode in *.
  destruct decode_image as [app'|v]; [by destruct Hn|reflexivity].
Qed.

Lemma klj2_single_octet_damage_witness :
  fst (klj2_decode SEAM (take 48 sample_image ++ 9 :: drop 49 sample_image)
         sample_donor sample_ident sample_expect) <> VD_OK.
Proof.
  assert (Forall is_byte (take 48 sample_image ++ 0 :: drop 49 sample_image)) as Hb.
  { apply Forall_is_byteb. vm_compute. reflexivity. }
  assert (klj2_decode SEAM (take 48 sample_image ++ 0 :: drop 49 sample_image)
            sample_donor sample_ident sample_expect = (VD_OK, {[ (CFG_IDX, 0) := [0; 5] ]})) as K
    by (vm_compute; reflexivity).
  assert (is_byte 9) as H9 by (unfold is_byte; lia).
  assert (9 <> 0) as Hne by lia.
  destruct (klj2_single_octet_damage (take 48 sample_image) (drop 49 sample_image) 0 9
              sample_donor sample_ident sample_expect _ Hb H9 Hne K) as [H _].
  exact H.
Defined.

(** * Assembled images decode *)

Lemma required_order_NoDup expect base : NoDup (required_order expect base).
Proof.
  unfold required_order. rewrite merge_sort_Permutation. apply (NoDup_fmap_1 snd).
  replace (snd <$> map (fun kp => (rid_of_key (fst kp) base, fst kp)) (map_to_list expect))
    with ((map_to_list expect).*1); [apply NoDup_fst_map_to_list|].
  induction (map_to_list expect) as [|x l IH]; simpl; [done|by f_equal].
Qed.

(** A shape whose keys lie in their blocks lists its records in strictly
    ascending id. *)
Lemma required_order_ascending (expect : gmap Key Z) base : base_ok base ->
  (forall k, is_Some (expect !! k) -> in_block k) ->
  StronglySorted (fun a b => fst a < fst b) (required_order expect base).
Proof.
  intros Hb Hk.
  assert (forall rk, In rk (required_order expect base) -> in_block (snd rk) /\ fst rk = rid_of_key (snd rk) base) as Hin.
  { intros [r k] H%required_order_In. split; [apply Hk; tauto|tauto]. }
  pose proof (required_order_sorted expect base) as Hs.
  pose proof (required_order_NoDup expect base) as Hn.
  induction Hs as [|a l Hs IH Hle]; [constructor|].
  apply NoDup_cons in Hn as [Hni Hn]. constructor.
  - apply IH; [intros; apply Hin; by right|done].
  - rewrite Forall_forall in *. intros b Hbl. specialize (Hle b Hbl).
    destruct (Hin a (or_introl eq_refl)) as [Ha Hra].
    destruct (Hin b (or_intror (proj1 (list_elem_of_In _ _) Hbl))) as [Hbb Hrb].
    unfold rk_le, rk_leb in Hle. destruct (Z.ltb_spec (fst a) (fst b)); [done|].
    destruct (Z.ltb_spec (fst b) (fst a)); [done|]. exfalso. apply Hni.
    assert (snd a = snd b) as Hsnd by (apply (rid_inj base); [done..|lia]).
    replace a with b; [done|]. destruct a, b; cbn in *. by subst.
Qed.

Lemma concat_frames_snd (frames : gmap Z bytes) (rids : list Z) (ob : gmap Z Z * bytes) :
  snd (fold_left (fun ob rid =>
      (<[rid := zlen (snd ob)]> (fst ob), snd ob ++ default [] (frames !! rid))) rids ob)
  = (snd ob ++ concat (map (fun r => default [] (frames !! r)) rids) : bytes).
Proof.
  revert ob. induction rids as [|r rids IH]; intros ob; cbn [fold_left map concat]; [by rewrite app_nil_r|].
  rewrite IH. cbn [snd]. by rewrite app_assoc.
Qed.

(** The container's tests all pass on what [klj2_assemble] builds. *)
Lemma assembled_container (nrec : Z) (body : bytes) (donor : Donor) (ident : Ident) (hdr := concat (map (le_bytes 4)
    (header_words nrec (KLJ2_HDR + zlen body + KLJ2_TRAILER) (d_layout donor) ident))) :
  forallb (fits 4) (header_words nrec (KLJ2_HDR + zlen body + KLJ2_TRAILER) (d_layout donor) ident) = true ->
  Forall is_byte body -> KLJ2_HDR + zlen body + KLJ2_TRAILER <= 65536 ->
  0 <= i_entity_id ident < 2 ^ 64 -> 0 <= i_model_id ident < 2 ^ 64 ->
  let blob := (hdr ++ body) ++ le_bytes 4 (Z.land (crc32 (hdr ++ body)) 0xFFFFFFFF) in
  check_container blob donor ident = Ok tt
  /\ word_at blob 4 = KLJ2_HDR + zlen body + KLJ2_TRAILER /\ word_at blob 3 = nrec
  /\ zlen blob = KLJ2_HDR + zlen body + KLJ2_TRAILER.
Proof.
  set (words := header_words _ _ _ _) in *.
  intros Hf Hbody Hlen He Hm. cbv zeta. set (crc := le_bytes 4 _).
  assert (zlen hdr = 40) as Hh by (unfold hdr; by rewrite zlen_words).
  assert (zlen ((hdr ++ body) ++ crc) = KLJ2_HDR + zlen body + KLJ2_TRAILER) as Hz.
  { rewrite !zlen_app, Hh. unfold crc. rewrite zlen_le. unfold KLJ2_HDR, KLJ2_TRAILER. lia. }
  rewrite forallb_forall in Hf.
  assert (forall i w, words !! i = Some w -> word_at ((hdr ++ body) ++ crc) (Z.of_nat i) = w) as Hw.
  { intros i w Hi. rewrite <-app_assoc. apply word_at_header; [by rewrite Nat2Z.id|lia|].
    apply Hf, list_elem_of_In. by apply list_elem_of_lookup_2 in Hi. }
  pose proof (zlen_nonneg body). unfold KLJ2_HDR, KLJ2_TRAILER in *.
  split_and!; [|by apply (Hw 4%nat)|by apply (Hw 3%nat)|done].
  unfold check_container, raise_if. cbv zeta.
  rewrite (Hw 0%nat _ eq_refl : word_at _ 0 = _), (Hw 1%nat _ eq_refl : word_at _ 1 = _),
    (Hw 4%nat _ eq_refl : word_at _ 4 = _), (Hw 5%nat _ eq_refl : word_at _ 5 = _),
    (Hw 6%nat _ eq_refl : word_at _ 6 = _), (Hw 7%nat _ eq_refl : word_at _ 7 = _),
    (Hw 8%nat _ eq_refl : word_at _ 8 = _), (Hw 9%nat _ eq_refl : word_at _ 9 = _).
  rewrite !join_words, Hz by done. rewrite !Z.eqb_refl. unfold KLJ2_HDR, KLJ2_TRAILER.
  rewrite (proj2 (Z.ltb_ge _ _)) by lia. cbn [rbind negb].
  rewrite (proj2 (Z.leb_le 44 _)), (proj2 (Z.leb_le _ 65536)) by lia. cbn [rbind negb andb orb].
  replace (40 + zlen body + 4 - 4) with (zlen (hdr ++ body)) by (rewrite zlen_app; lia).
  change (all_erased (zslice 0 40 ((hdr ++ body) ++ crc))) with false. cbn [rbind].
  rewrite zslice_hit by done. unfold rd_le.
  rewrite (zslice_app_hit (hdr ++ body) crc) by (done || apply zlen_le).
  unfold crc. rewrite of_le_le_bytes_id, Z.eqb_refl; [reflexivity|].
  change 0xFFFFFFFF with (Z.ones 32). apply word_land_ones. lia.
Qed.

(** What a shape requires and what is saved for it: every required key has a
    record of its length, written or never written. *)
Record saved_state (donor : Donor) (expect : gmap Key Z) (content : Key -> option bytes)
    (frames : gmap Z bytes) : Prop := {
  ss_base : base_ok (d_base donor);
  ss_layout : 0 <= d_layout donor < 256;
  ss_keys : forall k n, expect !! k = Some n -> in_block k /\ 0 <= n < 65536;
  ss_content : forall k n p, expect !! k = Some n -> content k = Some p -> Forall is_byte p /\ zlen p = n;
  ss_frames : forall r b, frames !! r = Some b <->
    exists k, is_Some (expect !! k) /\ r = rid_of_key k (d_base donor)
              /\ b = entry_bytes (d_base donor) (d_layout donor) expect (k, content k)
}.

Section Assembled.
Context (donor : Donor) (expect : gmap Key Z) (content : Key -> option bytes) (frames : gmap Z bytes).
Hypothesis S : saved_state donor expect content frames.

Let base := d_base donor.
Let order := required_order expect base.
Definition entries_of : list entry := map (fun rk => (snd rk, content (snd rk))) order.
Let eb := entry_bytes base (d_layout donor) expect.

Lemma order_in rk : In rk order -> is_Some (expect !! snd rk) /\ fst rk = rid_of_key (snd rk) base.
Proof using Type. destruct rk. apply required_order_In. Qed.

Lemma order_ascending : StronglySorted (fun a b => fst a < fst b) order.
Proof using All.
  apply required_order_ascending; [apply S|]. intros k [n Hn]. by eapply S.
Qed.

Lemma frames_rids : sorted_z (map fst (map_to_list frames)) = map fst order.
Proof using All.
  pose proof order_ascending as Ha. apply sorted_z_unique.
  - clear -Ha. induction Ha as [|a l Ha IH Hl]; cbn [map]; constructor; [done|].
    apply Forall_map. eapply Forall_impl; [done|]. intros b Hb. cbn in Hb. cbn. lia.
  - apply NoDup_Permutation.
    + apply NoDup_fst_map_to_list.
    + clear -Ha. induction Ha as [|a l Ha IH Hl]; cbn [map]; constructor; [|done].
      rewrite list_elem_of_In, in_map_iff. intros (b & Hb & Hin%list_elem_of_In).
      rewrite Forall_forall in Hl. specialize (Hl _ Hin). lia.
    + intros r. rewrite !list_elem_of_In, !in_map_iff. split.
      * intros ([r' b] & <- & Hin%list_elem_of_In%elem_of_map_to_list). cbn [fst].
        apply (ss_frames _ _ _ _ S) in Hin as (k & Hk & -> & _).
        exists (rid_of_key k base, k). split; [done|]. by apply required_order_In.
      * intros (rk & <- & Hin). destruct (order_in rk Hin) as [Hk Hr].
        exists (fst rk, eb (snd rk, content (snd rk))). split; [done|].
        apply list_elem_of_In, elem_of_map_to_list, S. by exists (snd rk).
Qed.

Lemma frames_body : snd (concat_frames frames (map fst order)) = concat (map eb entries_of).
Proof using All.
  unfold concat_frames. rewrite concat_frames_snd. cbn [snd app]. f_equal.
  unfold entries_of. rewrite !map_map. apply map_ext_in. intros rk Hrk.
  destruct (order_in rk Hrk) as [Hk Hr].
  assert (frames !! fst rk = Some (eb (snd rk, content (snd rk)))) as ->; [|done].
  apply S. by exists (snd rk).
Qed.

Lemma frames_size : size frames = length entries_of.
Proof using All.
  unfold entries_of. rewrite length_map. rewrite <-(length_map fst), <-frames_rids.
  unfold sorted_z. rewrite merge_sort_Permutation, length_map. symmetry. apply length_map_to_list.
Qed.

Lemma entries_bytes : Forall is_byte (concat (map eb entries_of)).
Proof using All.
  apply Forall_concat. apply Forall_map. unfold entries_of. apply Forall_map, Forall_forall.
  intros rk Hrk%list_elem_of_In. destruct (order_in rk Hrk) as [[n Hn] _].
  unfold eb, entry_bytes. cbn [fst snd]. destruct (content (snd rk)) as [p|] eqn:Hp.
  - apply record_frame_bytes. by eapply S.
  - apply erased_record_bytes.
Qed.

Lemma entries_in k o : In (k, o) entries_of <-> is_Some (expect !! k) /\ o = content k.
Proof using Type.
  unfold entries_of. rewrite in_map_iff. split.
  - intros ([r k'] & [= <- <-] & Hin). cbn [snd]. destruct (order_in _ Hin). done.
  - intros [Hk ->]. exists (rid_of_key k base, k). split; [done|]. by apply required_order_In.
Qed.

Lemma entries_ascending : ascending donor entries_of.
Proof using All.
  pose proof order_ascending as Ha. unfold ascending, entries_of.
  assert (forall rk, In rk order -> fst rk = rid_of_key (snd rk) (d_base donor)) as Hin
    by (intros; by apply order_in).
  revert Ha Hin. generalize order. intros l. induction l as [|a l IH]; intros Ha Hin; cbn [map]; constructor.
  - apply IH; [by inversion Ha|]. intros; apply Hin; by right.
  - apply Forall_map. apply StronglySorted_inv in Ha as [_ Hl]. rewrite Forall_forall in Hl |- *.
    intros b Hbl. specialize (Hl b Hbl). unfold rid_of. cbn [fst].
    rewrite <-(Hin a) by (by left). rewrite <-(Hin b) by (right; by apply list_elem_of_In). done.
Qed.

Lemma entries_order : order = map (fun e => (rid_of donor e, fst e)) entries_of.
Proof using All.
  unfold entries_of. rewrite map_map. cbn [fst]. rewrite <-(map_id order) at 1.
  apply map_ext_in. intros rk Hrk. destruct (order_in rk Hrk) as [_ Hr].
  destruct rk as [r k]. cbn [fst snd] in *. by subst r.
Qed.

(** What the encoder's side of the record loop needs of each entry. *)
Lemma entries_ok e : In e entries_of ->
  ds_last start < rid_of donor e /\ is_Some (expect !! fst e)
  /\ (forall p, snd e = Some p -> expect !! fst e = Some (zlen p) /\ Forall is_byte p /\ zlen p < 65536
      /\ 0 <= d_layout donor < 256 /\ 0 <= rid_of donor e < 256
      /\ key_of_id (rid_of donor e) (d_base donor) = Some (fst e)).
Proof using All.
  intros He. unfold entries_of in He. apply in_map_iff in He as (rk & <- & Hrk).
  destruct (order_in rk Hrk) as [[n Hn] Hr]. cbn [fst snd]. unfold rid_of. cbn [fst].
  destruct (ss_keys _ _ _ _ S _ _ Hn) as [Hk Hnb].
  pose proof (rid_bound base _ (ss_base _ _ _ _ S) Hk).
  fold base. split; [change (ds_last start) with (-1); lia|]. split; [by exists n|]. intros p Hp.
  destruct (ss_content _ _ _ _ S _ _ _ Hn Hp) as [Hpb Hpn].
  split_and!; try done; try lia; [by rewrite Hpn|apply S..|].
  apply key_of_id_rid; [apply S|done].
Qed.

Lemma entries_chain blob fin st pre suf :
  st = start -> blob = pre ++ concat (map eb entries_of) ++ suf -> zlen pre = KLJ2_HDR ->
  KLJ2_HDR + zlen (concat (map eb entries_of)) <= fin ->
  chain donor expect (fun st e => readable blob fin donor expect st e /\ encodable donor expect st e)
    st entries_of.
Proof using All.
  intros -> Hb Hpre Hfin. eapply (encoded_chain blob fin donor expect entries_of pre suf [] []); try done.
  - rewrite app_nil_r. apply entries_order.
  - apply entries_ascending.
  - apply entries_ok.
Qed.

Lemma entries_applied k :
  ds_applied (run donor expect start entries_of) !! k
  = match expect !! k with Some _ => content k | None => None end.
Proof using All.
  destruct (expect !! k) as [n|] eqn:Hk; [destruct (content k) as [p|] eqn:Hc|].
  - apply run_applied_in; [apply entries_ascending|]. apply entries_in. split; [by exists n|done].
  - rewrite run_applied_other; [done|]. intros p [_ Hp]%entries_in. congruence.
  - rewrite run_applied_other; [done|]. intros p [[? ?] _]%entries_in. congruence.
Qed.

Lemma entries_complete :
  ((dom expect ∖ dom (ds_applied (run donor expect start entries_of)))
     ∖ ds_erased (run donor expect start entries_of) : gset Key) = ∅.
Proof using All.
  apply elem_of_equiv_empty_L. intros k. rewrite !elem_of_difference, elem_of_dom, not_elem_of_dom.
  intros [[[n Hn] Ha] He]. rewrite entries_applied, Hn in Ha. apply He. apply run_erased. left.
  apply entries_in. split; [by exists n|done].
Qed.
End Assembled.

(** The record area of an image, from any frames. *)
Definition area_of (frames : gmap Z bytes) : bytes :=
  concat (map (fun r => default [] (frames !! r)) (sorted_z (map fst (map_to_list frames)))).

(** An image assembled from any frames of octets: the container is sound, and
    the header counts the frames. *)
Lemma assembled_image (donor : Donor) (ident : Ident) (frames : gmap Z bytes) blob offs :
  klj2_assemble frames donor ident = Ok (blob, offs) ->
  Forall is_byte (area_of frames) -> zlen blob <= 65536 ->
  0 <= i_entity_id ident < 2 ^ 64 -> 0 <= i_model_id ident < 2 ^ 64 ->
  exists hdr suf, blob = hdr ++ area_of frames ++ suf /\ zlen hdr = KLJ2_HDR
    /\ check_container blob donor ident = Ok tt
    /\ word_at blob 3 = Z.of_nat (size frames) /\ word_at blob 4 = zlen blob
    /\ zlen blob = KLJ2_HDR + (zlen (area_of frames) + pad_of (zlen (area_of frames))) + KLJ2_TRAILER
    /\ Forall is_byte blob.
Proof.
  intros Ha Hab Hlen He Hm. unfold klj2_assemble in Ha. cbv zeta in Ha. rsplit Ha. bool_prop.
  unfold concat_frames in *. rewrite concat_frames_snd in *. cbn [snd app] in *.
  fold (area_of frames) in *. set (area := area_of frames) in *.
  set (body := area ++ zeros (Z.to_nat (pad_of (zlen area)))) in *.
  apply (f_equal fst) in Ha. cbn [fst] in Ha.
  assert (Forall is_byte body) as Hb.
  { apply Forall_app. split; [done|]. apply Forall_forall. intros x Hx%list_elem_of_In%repeat_spec.
    subst x. done. }
  pose proof (Z.mod_pos_bound (- zlen area) ALIGN ltac:(done)) as Hpad. fold (pad_of (zlen area)) in Hpad.
  assert (zlen body = zlen area + pad_of (zlen area)) as Hbody.
  { unfold body. rewrite zlen_app, zlen_zeros. lia. }
  set (hdr := concat (map (le_bytes 4) _)) in Ha.
  assert (zlen hdr = KLJ2_HDR) as Hh by (unfold hdr; by rewrite zlen_words).
  assert (KLJ2_HDR + zlen body + KLJ2_TRAILER <= 65536) as Hfit.
  { rewrite <-Ha, !zlen_app, zlen_le, Hh in Hlen. unfold KLJ2_TRAILER. lia. }
  destruct (assembled_container _ _ _ _ Hm0 Hb Hfit He Hm) as (Hc & H4 & H3 & Hz).
  fold hdr in Hc, H4, H3, Hz. rewrite Ha in Hc, H4, H3, Hz.
  eexists hdr, _. split_and!; [| |done|done|congruence|by rewrite Hz, Hbody|].
  - rewrite <-Ha. unfold body. rewrite <-!app_assoc. reflexivity.
  - exact Hh.
  - rewrite <-Ha, !Forall_app. split_and!; [|done|apply le_bytes_bytes].
    unfold hdr. apply Forall_concat, Forall_map, Forall_forall. intros w _. apply le_bytes_bytes.
Qed.

Lemma saved_area donor expect content frames : saved_state donor expect content frames ->
  area_of frames = concat (map (entry_bytes (d_base donor) (d_layout donor) expect) (entries_of donor expect content)).
Proof.
  intros HS. unfold area_of. rewrite (frames_rids _ _ _ _ HS), <-(frames_body _ _ _ _ HS).
  unfold concat_frames. by rewrite concat_frames_snd.
Qed.

Lemma decode_assembled (donor : Donor) (ident : Ident) (expect : gmap Key Z) content frames blob offs :
  saved_state donor expect content frames ->
  klj2_assemble frames donor ident = Ok (blob, offs) -> zlen blob <= 65536 ->
  0 <= i_entity_id ident < 2 ^ 64 -> 0 <= i_model_id ident < 2 ^ 64 ->
  exists applied, decode_image SEAM blob donor ident expect = Ok applied
    /\ forall k, applied !! k = match expect !! k with Some _ => content k | None => None end.
Proof.
  intros HS Ha Hlen He Hm. pose proof (saved_area _ _ _ _ HS) as HA.
  destruct (assembled_image _ _ _ _ _ Ha) as (hdr & suf & Hblob & Hh & Hc & H3 & H4 & Hz & _); [|done..|].
  { rewrite HA. apply (entries_bytes _ _ _ _ HS). }
  set (es := entries_of donor expect content) in *.
  exists (ds_applied (run donor expect start es)). split; [|apply (entries_applied _ _ _ _ HS)].
  unfold decode_image. rewrite Hc. cbn [rbind]. cbv zeta.
  rewrite H4, H3, Nat2Z.id, (frames_size _ _ _ _ HS). fold es.
  assert (zlen blob - KLJ2_TRAILER = KLJ2_HDR + (zlen (area_of frames) + pad_of (zlen (area_of frames)))) as -> by lia.
  pose proof (Z.mod_pos_bound (- zlen (area_of frames)) ALIGN ltac:(done)) as Hpad.
  fold (pad_of (zlen (area_of frames))) in Hpad.
  rewrite HA in *.
  rewrite (decode_records_complete blob _ donor expect es start); cycle 1.
  - done.
  - intros k n Hn. destruct (ss_keys _ _ _ _ HS _ _ Hn). lia.
  - eapply (entries_chain _ _ _ _ HS blob _ _ hdr); [done|exact Hblob|exact Hh|fold es; lia].
  - cbn [rbind]. rewrite run_pos. cbn [start ds_pos].
    set (area := concat _). replace (KLJ2_HDR + zlen area - KLJ2_HDR) with (zlen area) by lia.
    rewrite <-Z.add_assoc, Z.eqb_refl. cbn [negb raise_if rbind].
    rewrite bool_decide_eq_true_2; [reflexivity|].
    apply (entries_complete _ _ _ _ HS).
Qed.

(** The octets of a required record set before its padding. *)
Definition area_length (expect : gmap Key Z) : Z :=
  sum_z (map (fun kn => REC_HDR + snd kn) (map_to_list expect)).

Lemma area_length_order expect base :
  area_length expect = sum_z (map (fun rk => REC_HDR + default 0 (expect !! snd rk)) (required_order expect base)).
Proof.
  unfold area_length, required_order. rewrite merge_sort_Permutation, map_map. cbn [snd].
  f_equal. apply map_ext_in. intros [k n] Hk%list_elem_of_In%elem_of_map_to_list. cbn [fst snd]. by rewrite Hk.
Qed.

(** The encoded records occupy just those octets. *)
Lemma entries_area donor expect content frames : saved_state donor expect content frames ->
  zlen (concat (map (entry_bytes (d_base donor) (d_layout donor) expect) (entries_of donor expect content)))
  = area_length expect
  /\ 8 * zlen (entries_of donor expect content) <= area_length expect.
Proof.
  intros HS. unfold entries_of. rewrite (area_length_order expect (d_base donor)), map_map, zlen_map.
  assert (forall rk, In rk (required_order expect (d_base donor)) -> is_Some (expect !! snd rk)) as Hin
    by (intros [r k] H%required_order_In; tauto).
  revert Hin. generalize (required_order expect (d_base donor)) as l. unfold sum_z.
  induction l as [|rk l IH]; intros Hin; cbn [map concat foldr]; [done|].
  destruct IH as [IH1 IH2]; [intros; apply Hin; by right|].
  destruct (Hin rk (or_introl eq_refl)) as [n Hn]. destruct (ss_keys _ _ _ _ HS _ _ Hn) as [_ ?].
  rewrite zlen_app, zlen_cons, IH1, Hn. cbn [default from_option id].
  assert (zlen (entry_bytes (d_base donor) (d_layout donor) expect (snd rk, content (snd rk))) = REC_HDR + n) as ->.
  { unfold entry_bytes. cbn [fst snd]. destruct (content (snd rk)) as [p|] eqn:Hp.
    - rewrite record_frame_length. destruct (ss_content _ _ _ _ HS _ _ _ Hn Hp) as [_ ->]. done.
    - rewrite Hn. cbn [default from_option id]. apply erased_record_length. lia. }
  unfold REC_HDR in *. lia.
Qed.

(** Frames that fit the slot always assemble. *)
Lemma assemble_fits donor ident (frames : gmap Z bytes) :
  0 <= d_layout donor < 256 -> 0 <= i_seq ident < 2 ^ 32 ->
  8 * Z.of_nat (size frames) <= zlen (area_of frames) ->
  KLJ2_HDR + (zlen (area_of frames) + pad_of (zlen (area_of frames))) + KLJ2_TRAILER <= 65536 ->
  exists blob offs, klj2_assemble frames donor ident = Ok (blob, offs)
    /\ zlen blob = KLJ2_HDR + (zlen (area_of frames) + pad_of (zlen (area_of frames))) + KLJ2_TRAILER.
Proof.
  intros Hlay Hseq Hn Hfit. unfold klj2_assemble. cbv zeta. unfold concat_frames.
  rewrite concat_frames_snd. cbn [snd app]. fold (area_of frames).
  pose proof (Z.mod_pos_bound (- zlen (area_of frames)) ALIGN ltac:(done)) as Hpad.
  fold (pad_of (zlen (area_of frames))) in Hpad.
  rewrite zlen_app, zlen_zeros, Z2Nat.id by lia. set (words := header_words _ _ _ _).
  assert (forallb (fits 4) words = true) as ->.
  { unfold words, header_words, KLJ2_HDR, KLJ2_TRAILER, KLJ2_MAGIC, KLJ2_FMT_VER in *.
    assert (forall x, 0 <= Z.land x 0xFFFFFFFF < 256 ^ 4) as Hl
      by (intros x; change (256 ^ 4) with (2 ^ 32); change 0xFFFFFFFF with (Z.ones 32); apply word_land_ones; lia).
    cbn [forallb]. rewrite !andb_true_iff, !fits_true. split_and!; try apply Hl; try lia. }
  cbn [negb raise_if rbind]. do 2 eexists. split; [reflexivity|].
  rewrite !zlen_app, zlen_le, zlen_words, zlen_zeros. change (zlen words) with 10.
  unfold KLJ2_HDR, KLJ2_TRAILER. lia.
Qed.

(** * Where the records lie *)

(** The offset returned for a record is where its frame starts in the area. *)
Lemma concat_frames_offset (frames : gmap Z bytes) rids (ob : gmap Z Z * bytes) rid :
  NoDup rids ->
  let out := fold_left (fun ob rid =>
      (<[rid := zlen (snd ob)]> (fst ob), snd ob ++ default [] (frames !! rid))) rids ob in
  (~ In rid rids -> fst out !! rid = fst ob !! rid)
  /\ (In rid rids -> exists pre suf, snd out = pre ++ default [] (frames !! rid) ++ suf /\ fst out !! rid = Some (zlen pre)).
Proof.
  revert ob. induction rids as [|r rids IH]; intros ob Hn; cbn [fold_left In]; [tauto|].
  apply NoDup_cons in Hn as [Hni Hn]. rewrite list_elem_of_In in Hni.
  destruct (IH (<[r := zlen (snd ob)]> (fst ob), snd ob ++ default [] (frames !! r)) Hn) as [Hout Hin].
  split.
  - intros Hx. rewrite Hout by tauto. cbn [fst]. apply lookup_insert_ne. tauto.
  - intros [<-|Hx]; [|by apply Hin].
    exists (snd ob), (concat (map (fun r => default [] (frames !! r)) rids)). split.
    + rewrite concat_frames_snd. cbn [snd]. by rewrite <-app_assoc.
    + rewrite Hout by done. cbn [fst]. apply lookup_insert_eq.
Qed.

(** The offsets [klj2_assemble] returns, from the start of the record area,
    locate every frame in the image. *)
Lemma assembled_locates (donor : Donor) (ident : Ident) (frames : gmap Z bytes) blob offs rid b :
  klj2_assemble frames donor ident = Ok (blob, offs) -> frames !! rid = Some b ->
  exists off, offs !! rid = Some off /\ zslice (KLJ2_HDR + off) (zlen b) blob = b.
Proof.
  intros Ha Hb. unfold klj2_assemble in Ha. cbv zeta in Ha. rsplit Ha.
  set (rids := sorted_z (map fst (map_to_list frames))) in *. set (words := header_words _ _ _ _) in *.
  pose proof (f_equal fst Ha) as Hblob. pose proof (f_equal snd Ha) as Hoffs. cbn [fst snd] in Hblob, Hoffs.
  assert (NoDup rids) as Hn by (unfold rids, sorted_z; rewrite merge_sort_Permutation; apply NoDup_fst_map_to_list).
  assert (In rid rids) as Hr.
  { unfold rids. apply In_sorted_z. change rid with (fst (rid, b)).
    by apply in_map, list_elem_of_In, elem_of_map_to_list. }
  destruct (proj2 (concat_frames_offset frames rids (∅, []) rid Hn) Hr) as (pre & suf & Hs & Ho).
  fold (concat_frames frames rids) in Hs, Ho. rewrite Hb in Hs. cbn [default from_option id] in Hs.
  exists (zlen pre). split; [by rewrite <-Hoffs|]. rewrite <-Hblob, Hs.
  assert (zlen (concat (map (le_bytes 4) words)) = KLJ2_HDR) as Hh by (by rewrite zlen_words).
  pose proof (zlen_nonneg pre). rewrite <-!app_assoc.
  rewrite (zslice_skip _ _ KLJ2_HDR) by (exact Hh || lia).
  replace (KLJ2_HDR + zlen pre - KLJ2_HDR) with (zlen pre) by lia.
  rewrite (zslice_skip pre _ (zlen pre)) by (done || lia). rewrite Z.sub_diag. by apply zslice_hit.
Qed.

(** The octets of the area, whatever the order of its records. *)
Lemma zlen_concat (l : list bytes) : zlen (concat l) = sum_z (map zlen l).
Proof. unfold sum_z. induction l as [|b l IH]; cbn [concat map foldr]; [done|]. by rewrite zlen_app, IH. Qed.

Lemma area_of_length (frames : gmap Z bytes) :
  zlen (area_of frames) = sum_z (map (fun rb => zlen (snd rb)) (map_to_list frames)).
Proof.
  unfold area_of, sorted_z. rewrite merge_sort_Permutation, zlen_concat, !map_map.
  f_equal. apply map_ext_in. intros [r b] Hr%list_elem_of_In%elem_of_map_to_list. cbn [fst snd]. by rewrite Hr.
Qed.

(** A saved state that fits the slot always assembles, to a predictable size. *)
Lemma assemble_total donor ident expect content frames : saved_state donor expect content frames ->
  0 <= i_seq ident < 2 ^ 32 ->
  KLJ2_HDR + (area_length expect + pad_of (area_length expect)) + KLJ2_TRAILER <= 65536 ->
  exists blob offs, klj2_assemble frames donor ident = Ok (blob, offs)
    /\ zlen blob = KLJ2_HDR + (area_length expect + pad_of (area_length expect)) + KLJ2_TRAILER.
Proof.
  intros HS Hseq Hfit. destruct (entries_area _ _ _ _ HS) as [Ha Hn].
  rewrite <-(saved_area _ _ _ _ HS) in Ha. rewrite <-Ha in *.
  apply assemble_fits; [apply HS|done| |done].
  rewrite (frames_size _ _ _ _ HS). exact Hn.
Qed.

(** C15: Saving then restoring is the identity.  Take any set of required keys in
    their blocks and any content for them, some records written and some never
    written; whenever the frames assemble into an image that fits a slot, the
    decoder accepts that image, applies exactly the payload of every written
    record, and leaves every never-written one to its default. *)
Theorem klj2_round_trip (donor : Donor) (ident : Ident) (expect : gmap Key Z) content frames blob offs :
  saved_state donor expect content frames ->
  klj2_assemble frames donor ident = Ok (blob, offs) -> zlen blob <= 65536 ->
  0 <= i_entity_id ident < 2 ^ 64 -> 0 <= i_model_id ident < 2 ^ 64 ->
  exists applied, klj2_decode SEAM blob donor ident expect = (VD_OK, applied)
    /\ forall k, applied !! k = match expect !! k with Some _ => content k | None => None end.
Proof.
  intros HS Ha Hl He Hm. destruct (decode_assembled _ _ _ _ _ _ _ HS Ha Hl He Hm) as (applied & Hd & Hk).
  exists applied. split; [by apply klj2_decode_OK|done].
Qed.

Definition sample_content (k : Key) : option bytes := if decide (k = (CFG_IDX, 0)) then Some [0; 5] else None.

Lemma sample_saved_state : saved_state sample_donor sample_expect sample_content sample_frames.
Proof.
  split.
  - unfold base_ok. cbn. lia.
  - cbn. lia.
  - intros k n. unfold sample_expect. rewrite lookup_insert_Some, lookup_singleton_Some.
    unfold in_block. intros [[<- <-]|(_ & <- & <-)]; cbn; lia.
  - intros k n p. unfold sample_expect, sample_content. rewrite lookup_insert_Some, lookup_singleton_Some.
    case_decide; [|done]. subst k. intros [[_ <-]|(? & _)]; [|done]. intros [= <-].
    split; [|done]. apply Forall_is_byteb. reflexivity.
  - intros r b. unfold sample_frames. rewrite lookup_insert_Some, lookup_singleton_Some. split.
    + intros [[<- <-]|(_ & <- & <-)]; [exists (CFG_IDX, 0)|exists (SUID, 0)]; split_and!;
        (by eexists) || reflexivity.
    + intros (k & Hk & -> & ->). unfold sample_expect in Hk.
      apply lookup_insert_is_Some' in Hk as [<-|[n Hk]]; [by left|].
      apply lookup_singleton_Some in Hk as [<- _]. right. split; [done|]. split; reflexivity.
Qed.

Lemma klj2_round_trip_witness :
  exists applied, klj2_decode SEAM sample_image sample_donor sample_ident sample_expect = (VD_OK, applied)
    /\ applied !! (CFG_IDX, 0) = Some [0; 5] /\ applied !! (SUID, 0) = None.
Proof.
  assert (is_ok (klj2_assemble sample_frames sample_donor sample_ident) = true) as K
    by (vm_compute; reflexivity).
  destruct (klj2_assemble sample_frames sample_donor sample_ident) as [[blob offs]|e] eqn:E; [|discriminate K].
  assert (sample_image = blob) as Hb by (unfold sample_image; rewrite E; reflexivity).
  assert (zlen blob <= 65536) as Hl by (rewrite <-Hb; vm_compute; discriminate).
  assert (0 <= i_entity_id sample_ident < 2 ^ 64) as He by (cbn; lia).
  assert (0 <= i_model_id sample_ident < 2 ^ 64) as Hm by (cbn; lia).
  destruct (klj2_round_trip sample_donor sample_ident sample_expect sample_content sample_frames
              blob offs sample_saved_state E Hl He Hm) as (applied & Hd & Hk).
  exists applied. rewrite Hb. split; [exact Hd|]. rewrite !Hk. split; reflexivity.
Defined.
