(* ===== verification/NvmShape.v ===== *)
(** The persisted shape of one configuration ([scripts/nvm_shape.py]): the
    inventory of records, the counts derived from the ledger, the constants the
    firmware is built with; and, from the gate that grades it
    ([scripts/check_nvm_record_space.py]), the exact key set and payload lengths
    a shape requires and the frames of an image.

    [commit_worst_ms] is a floating-point estimate and is not modelled. *)
From S2P Require Import Prelude Unicode Text Crc NvmContract NvmJournal.

(** * Counts *)

(** [dc.get(t, 0)] summed over the writable-name slots. *)
Definition expected_names (dc : counts) : Z :=
  sum_z (map (fun ts => default 0 (dc (fst ts)) * snd ts) NAME_SLOTS).

Definition cardinality (dc : counts) (rule : card_rule) : result nvm_error Z :=
  match rule with Singleton => Ok 1 | PerDescriptor t => dc_get dc t end.

Definition expected_records (dc : counts) : result nvm_error (list (group * Z)) :=
  mapR (fun gr => let* n := cardinality dc (snd gr) in Ok (fst gr, n)) LEDGER.

Definition conformant_floor (names : Z) (dc : counts) : result nvm_error Z :=
  let* recs := expected_records dc in
  Ok (sum_z (map snd recs) + names).

(** * The inventory *)

Definition output_map_entries (shape : Shape) (port : stream_port) : result nvm_error Z :=
  if p_dynamic port then
    let* n := dc_get (s_dc shape) STREAM_OUTPUT in
    Ok (Z.max (p_clusters port) (n * 8))
  else Ok (p_clusters port).

(** [add]: one row, with an id only when the group's block reaches the index. *)
Definition row (base : Z) (g : group) (index payload : Z) : nvm_record :=
  {| r_group := g; r_index := index;
     r_id := if block_of g <=? index then None else Some (base_of base g + index);
     r_plen := payload; r_block := block_of g |}.

(** [PAY[g]], for a group that has an entry. *)
Definition pay (g : group) : Z := default 0 (PAY g).

Definition range_rows (base : Z) (gs : list group) (n : Z) : list nvm_record :=
  flat_map (fun i => map (fun g => row base g i (pay g)) gs) (zrange 0 (Z.to_nat n)).

Definition inventory (shape : Shape) (base : Z) : result nvm_error (list nvm_record) :=
  let dc := s_dc shape in
  let* audio_units := dc_get dc AUDIO_UNIT in
  let* clock_domains := dc_get dc CLOCK_DOMAIN in
  let* inputs := dc_get dc STREAM_INPUT in
  let* outputs := dc_get dc STREAM_OUTPUT in
  let maps_in := map (fun p => row base MAPS_IN (p_index p) (p_clusters p * MAP_ENTRY)) (s_spi shape) in
  let* maps_out := mapR (fun p =>
      let* n := output_map_entries shape p in
      Ok (row base MAPS_OUT (p_index p) (n * MAP_ENTRY))) (s_spo shape) in
  Ok ([row base CFG_IDX 0 (pay CFG_IDX); row base SUID 0 (pay SUID)]
      ++ range_rows base [RATE] audio_units
      ++ range_rows base [CLKSRC; MCR] clock_domains
      ++ range_rows base [BINDING; FMT_IN] inputs
      ++ range_rows base [FMT_OUT; PT_OFS] outputs
      ++ maps_in ++ maps_out
      ++ map (fun n => row base NAME n NAME_BYTES) (zrange 0 (Z.to_nat (s_names shape)))).

Definition closed_record_census (shape : Shape) (base : Z) : result nvm_error (Z * Z) :=
  let* records := inventory shape base in
  let* _ := raise_if (existsb (fun r => bool_decide (r_id r = None)) records) (NOverflow (s_stem shape)) in
  Ok (sum_z (map (fun r => REC_HDR + r_plen r) records), zlen records).

(** * What a shape requires: the gate's independent derivation *)

(** The key set, listed without repetition. *)
Definition record_keys (shape : Shape) : result nvm_error (list Key) :=
  let* recs := expected_records (s_dc shape) in
  Ok (flat_map (fun gc => map (pair (fst gc)) (zrange 0 (Z.to_nat (snd gc)))) recs
      ++ map (pair NAME) (zrange 0 (Z.to_nat (expected_names (s_dc shape))))).

(** [{p["index"]: f(p) for p in ports}]. *)
Definition port_dict (f : stream_port -> Z) (ports : list stream_port) : gmap Z Z :=
  fold_left (fun m p => <[p_index p := f p]> m) ports ∅.

(** The size of the complete stream/channel key space of the outputs. *)
Definition output_key_count (outputs : Z) : Z :=
  zlen (flat_map (fun s => map (pair s) (zrange 0 8)) (zrange 0 (Z.to_nat outputs))).

Definition expected_payloads (shape : Shape) : result nvm_error (gmap Key Z) :=
  let spi_cl := port_dict (fun p => p_clusters p * MAP_ENTRY) (s_spi shape) in
  let* outputs := dc_get (s_dc shape) STREAM_OUTPUT in
  let spo_cl := port_dict (fun p =>
      MAP_ENTRY * Z.max (p_clusters p) (if p_dynamic p then output_key_count outputs else 0))
      (s_spo shape) in
  let* keys := record_keys shape in
  Ok (fold_left (fun m k =>
      <[k := match fst k with
             | MAPS_IN => default 0 (spi_cl !! snd k)
             | MAPS_OUT => default 0 (spo_cl !! snd k)
             | NAME => NAME_BYTES
             | g => pay g
             end]> m) keys ∅).

(** The framed record of every row that has an id. *)
Definition frames_with (payload : nvm_record -> Z -> bytes) (recs : list nvm_record) (layout : Z)
    : result nvm_error (gmap Z bytes) :=
  foldR (fun out r =>
      match r_id r with
      | None => Ok out
      | Some rid => let* b := frame_record rid (payload r rid) layout in Ok (<[rid := b]> out)
      end) ∅ recs.

(** [_frames_for] with nothing dropped. *)
Definition frames_for (recs : list nvm_record) (donor : Donor) (nval : Z -> bytes)
    : result nvm_error (gmap Z bytes) :=
  frames_with (fun r rid => payload_bytes (r_group r) (r_index r) rid (r_plen r) (Some nval))
    recs (d_layout donor).

(** * The firmware's constants *)

Definition FW_MAP_PORTS := 16.

Definition WRITER_TIMING_MS : list (string * Z) :=
  [("MILAN_NVM_HEARTBEAT_MS", 250);
   ("MILAN_NVM_DEBOUNCE_MS", 1000);
   ("MILAN_NVM_ERASE_TIMEOUT_MS", 3500);
   ("MILAN_NVM_PROGRAM_TIMEOUT_MS", 50);
   ("MILAN_NVM_RESTORE_TIMEOUT_MS", 3000)]%string.

Definition map_const (label : string) (k : Z) : string :=
  ("MILAN_NVM_MAP" ++ label ++ "_ENTRIES_" ++ pretty k)%string.

Definition map_consts (label : string) (entries : gmap Z Z) : list (string * Z) :=
  map (fun k => (map_const label k, default 0 (entries !! k))) (zrange 0 (Z.to_nat FW_MAP_PORTS)).

Definition firmware_constants (shape : Shape) (donor : Donor) : result nvm_error (list (string * Z)) :=
  let dc := s_dc shape in
  let* si := dc_get dc STREAM_INPUT in
  let* so := dc_get dc STREAM_OUTPUT in
  let* pi := dc_get dc STREAM_PORT_INPUT in
  let* po := dc_get dc STREAM_PORT_OUTPUT in
  let* au := dc_get dc AUDIO_UNIT in
  let* cd := dc_get dc CLOCK_DOMAIN in
  let* outs := mapR (fun p => let* n := output_map_entries shape p in Ok (p_index p, n)) (s_spo shape) in
  Ok ([("MILAN_NVM_N_STREAM_IN", si); ("MILAN_NVM_N_STREAM_OUT", so);
       ("MILAN_NVM_N_SPORT_IN", pi); ("MILAN_NVM_N_SPORT_OUT", po);
       ("MILAN_NVM_N_AUDIO_UNIT", au); ("MILAN_NVM_N_CLK_DOM", cd);
       ("MILAN_NVM_N_NAME", s_names shape); ("MILAN_NVM_BIND_BASE", d_base donor);
       ("MILAN_NVM_REC_LAYOUT", d_layout donor)]%string
      ++ map_consts "IN" (port_dict p_clusters (s_spi shape))
      ++ map_consts "OUT" (fold_left (fun m kn => <[fst kn := snd kn]> m) outs ∅)
      ++ WRITER_TIMING_MS).

(** * Shapes *)

(** A shape the generators report: every descriptor type the ledger reads is
    counted, each port direction is indexed from zero, and the image header
    carries the names the counts imply. *)
Record shape_ok (shape : Shape) : Prop := {
  so_counts : forall t n, s_dc shape t = Some n -> 0 <= n;
  so_ledger : forall g t, In (g, PerDescriptor t) LEDGER -> is_Some (s_dc shape t);
  so_spi : forall n, s_dc shape STREAM_PORT_INPUT = Some n ->
           map p_index (s_spi shape) ≡ₚ zrange 0 (Z.to_nat n);
  so_spo : forall n, s_dc shape STREAM_PORT_OUTPUT = Some n ->
           map p_index (s_spo shape) ≡ₚ zrange 0 (Z.to_nat n);
  so_clusters : forall p, In p (s_spi shape ++ s_spo shape) -> 0 <= p_clusters p;
  so_names : s_names shape = expected_names (s_dc shape)
}.

Lemma NoDup_zrange a n : NoDup (zrange a n).
Proof.
  revert a. induction n as [|n IH]; intros a; cbn [zrange]; constructor; [|done].
  rewrite list_elem_of_In, zrange_In. lia.
Qed.

(** The counts of a good shape, by name. *)
Record dims := { n_au : Z; n_cd : Z; n_si : Z; n_so : Z; n_pi : Z; n_po : Z }.

Definition dims_of (shape : Shape) (d : dims) : Prop :=
  s_dc shape AUDIO_UNIT = Some (n_au d) /\ s_dc shape CLOCK_DOMAIN = Some (n_cd d)
  /\ s_dc shape STREAM_INPUT = Some (n_si d) /\ s_dc shape STREAM_OUTPUT = Some (n_so d)
  /\ s_dc shape STREAM_PORT_INPUT = Some (n_pi d) /\ s_dc shape STREAM_PORT_OUTPUT = Some (n_po d).

Lemma shape_dims shape : shape_ok shape -> exists d, dims_of shape d.
Proof.
  intros S.
  assert (forall g t, In (g, PerDescriptor t) LEDGER -> exists n, s_dc shape t = Some n) as H
    by (intros; by eapply S).
  destruct (H RATE AUDIO_UNIT) as [au ?]; [cbn; tauto|].
  destruct (H CLKSRC CLOCK_DOMAIN) as [cd ?]; [cbn; tauto|].
  destruct (H FMT_IN STREAM_INPUT) as [si ?]; [cbn; tauto|].
  destruct (H FMT_OUT STREAM_OUTPUT) as [so ?]; [cbn; tauto|].
  destruct (H MAPS_IN STREAM_PORT_INPUT) as [pi ?]; [cbn; tauto|].
  destruct (H MAPS_OUT STREAM_PORT_OUTPUT) as [po ?]; [cbn; tauto|].
  by exists (Build_dims au cd si so pi po).
Qed.

Definition cards (d : dims) : list (group * Z) :=
  [(CFG_IDX, 1); (SUID, 1); (RATE, n_au d); (CLKSRC, n_cd d); (MCR, n_cd d);
   (BINDING, n_si d); (FMT_IN, n_si d); (FMT_OUT, n_so d); (PT_OFS, n_so d);
   (MAPS_IN, n_pi d); (MAPS_OUT, n_po d)].

Definition keys_of_cards (gcs : list (group * Z)) : list Key :=
  flat_map (fun gc => map (pair (fst gc)) (zrange 0 (Z.to_nat (snd gc)))) gcs.

(** How many entries a port's map record holds. *)
Definition entries (outputs : Z) (p : stream_port) : Z :=
  if p_dynamic p then Z.max (p_clusters p) (outputs * 8) else p_clusters p.

Lemma expected_records_eq shape d : dims_of shape d ->
  expected_records (s_dc shape) = Ok (cards d).
Proof.
  intros (H1 & H2 & H3 & H4 & H5 & H6).
  unfold expected_records, LEDGER, cardinality, dc_get, cards. cbn [mapR fst snd rbind].
  rewrite H1, H2, H3, H4, H5, H6. reflexivity.
Qed.

Lemma record_keys_eq shape d : dims_of shape d ->
  record_keys shape = Ok (keys_of_cards (cards d ++ [(NAME, expected_names (s_dc shape))])).
Proof.
  intros D. unfold record_keys. rewrite (expected_records_eq shape d D). cbn [rbind]. unfold keys_of_cards.
  by rewrite flat_map_app; cbn [flat_map fst snd]; rewrite app_nil_r.
Qed.

Definition inventory_rows (shape : Shape) (d : dims) (base : Z) : list nvm_record :=
  [row base CFG_IDX 0 (pay CFG_IDX); row base SUID 0 (pay SUID)]
  ++ range_rows base [RATE] (n_au d)
  ++ range_rows base [CLKSRC; MCR] (n_cd d)
  ++ range_rows base [BINDING; FMT_IN] (n_si d)
  ++ range_rows base [FMT_OUT; PT_OFS] (n_so d)
  ++ map (fun p => row base MAPS_IN (p_index p) (p_clusters p * MAP_ENTRY)) (s_spi shape)
  ++ map (fun p => row base MAPS_OUT (p_index p) (entries (n_so d) p * MAP_ENTRY)) (s_spo shape)
  ++ map (fun n => row base NAME n NAME_BYTES) (zrange 0 (Z.to_nat (s_names shape))).

Lemma name_row shape d base k : 0 <= k < s_names shape -> In (row base NAME k NAME_BYTES) (inventory_rows shape d base).
Proof.
  intros Hk. unfold inventory_rows. rewrite !in_app_iff. do 7 right.
  apply in_map_iff. exists k. split; [done|]. apply zrange_In. lia.
Qed.

Lemma output_map_entries_eq shape d p : dims_of shape d ->
  output_map_entries shape p = Ok (entries (n_so d) p).
Proof.
  intros (H1 & H2 & H3 & H4 & H5 & H6).
  unfold output_map_entries, entries, dc_get. rewrite H4. by destruct (p_dynamic p).
Qed.

Lemma inventory_eq shape d base : dims_of shape d ->
  inventory shape base = Ok (inventory_rows shape d base).
Proof.
  intros D. pose proof (fun p => output_map_entries_eq shape d p D) as Ho. destruct D as (H1 & H2 & H3 & H4 & H5 & H6).
  unfold inventory, inventory_rows. cbv zeta.
  rewrite (mapR_pure _ (fun p => row base MAPS_OUT (p_index p) (entries (n_so d) p * MAP_ENTRY)))
    by (intros p; by rewrite Ho).
  unfold dc_get. rewrite H1, H2, H3, H4. reflexivity.
Qed.

(** * Keys *)

Lemma map_flat_map {A B C} (f : B -> C) (g : A -> list B) l :
  map f (flat_map g l) = flat_map (fun x => map f (g x)) l.
Proof. induction l as [|x l IH]; cbn [flat_map map]; [done|]. by rewrite map_app, IH. Qed.

Lemma flat_map_pair {A B} (f g : A -> B) l :
  flat_map (fun i => [f i; g i]) l ≡ₚ map f l ++ map g l.
Proof.
  induction l as [|x l IH]; cbn [flat_map map app]; [done|]. rewrite IH.
  constructor. by rewrite Permutation_middle.
Qed.

Lemma flat_map_single {A B} (f : A -> B) l : flat_map (fun i => [f i]) l = map f l.
Proof. induction l as [|x l IH]; cbn [flat_map map app]; [done|by f_equal]. Qed.

Lemma inventory_keys_perm shape d base : dims_of shape d -> shape_ok shape ->
  map r_key (inventory_rows shape d base)
  ≡ₚ keys_of_cards (cards d ++ [(NAME, expected_names (s_dc shape))]).
Proof.
  intros (H1 & H2 & H3 & H4 & H5 & H6) S. unfold inventory_rows, range_rows, keys_of_cards, cards.
  rewrite !map_app, !map_flat_map, !map_map. cbn [map app flat_map fst snd r_key row r_group r_index].
  unfold r_key. cbn [row r_group r_index]. rewrite flat_map_single, !flat_map_pair, app_nil_r.
  assert (forall (g : group) l, map (fun p => (g, p_index p)) l = map (pair g) (map p_index l)) as Hp
    by (intros; by rewrite map_map).
  rewrite !Hp. rewrite <-(so_names _ S).
  rewrite (so_spi _ S _ H5), (so_spo _ S _ H6). cbn [Z.to_nat Pos.to_nat zrange map app].
  rewrite <-!app_assoc. reflexivity.
Qed.

Lemma keys_of_cards_In g i gcs :
  In (g, i) (keys_of_cards gcs) <-> exists n, In (g, n) gcs /\ 0 <= i < n.
Proof.
  unfold keys_of_cards. rewrite in_flat_map. split.
  - intros ([g' n] & Hin & Hi). apply in_map_iff in Hi as (j & [= -> ->] & Hj).
    apply zrange_In in Hj. cbn [fst snd] in *. exists n. split; [done|lia].
  - intros (n & Hin & Hi). exists (g, n). split; [done|]. apply in_map, zrange_In. cbn [snd]. lia.
Qed.

Lemma keys_of_cards_NoDup gcs : NoDup (map fst gcs) -> NoDup (keys_of_cards gcs).
Proof.
  induction gcs as [|[g n] gcs IH]; cbn [map fst]; [constructor|]. intros [Hg Hn]%NoDup_cons.
  unfold keys_of_cards. cbn [flat_map fst snd]. apply NoDup_app. split_and!; [|
    |by apply IH].
  - apply (NoDup_fmap_2 (pair g)), NoDup_zrange.
  - intros [g' i] Hin Hin'. apply list_elem_of_In in Hin, Hin'.
    apply in_map_iff in Hin as (j & [= <- <-] & _). apply keys_of_cards_In in Hin' as (m & Hm & _).
    apply Hg, list_elem_of_In, in_map_iff. by exists (g, m).
Qed.

Lemma required_keys_NoDup (d : dims) n : NoDup (keys_of_cards (cards d ++ [(NAME, n)])).
Proof.
  apply keys_of_cards_NoDup. unfold cards. cbn [map fst app].
  apply (bool_decide_unpack _). vm_compute. exact I.
Qed.

(** * Payload lengths *)

Lemma fold_insert_lookup {K} `{Countable K} {A} (f : K -> A) ks (m : gmap K A) k :
  fold_left (fun m k => <[k := f k]> m) ks m !! k
  = if decide (k ∈ ks) then Some (f k) else m !! k.
Proof.
  revert m. induction ks as [|k' ks IH]; intros m; cbn [fold_left].
  - by rewrite decide_False by apply not_elem_of_nil.
  - rewrite IH. destruct (decide (k ∈ ks)) as [Hin|Hni].
    + by rewrite decide_True by (by right).
    + destruct (decide (k' = k)) as [->|].
      * rewrite lookup_insert_eq, decide_True by (by left). done.
      * rewrite lookup_insert_ne by done. by rewrite decide_False by (by rewrite not_elem_of_cons).
Qed.

Lemma port_dict_other f ports m i : ~ In i (map p_index ports) ->
  fold_left (fun m p => <[p_index p := f p]> m) ports m !! i = (m : gmap Z Z) !! i.
Proof.
  revert m. induction ports as [|p ports IH]; intros m Hn; cbn [fold_left]; [done|].
  rewrite IH by (intros ?; apply Hn; by right). apply lookup_insert_ne. intros <-. apply Hn. by left.
Qed.

Lemma port_dict_lookup f ports p : NoDup (map p_index ports) -> In p ports ->
  port_dict f ports !! p_index p = Some (f p).
Proof.
  unfold port_dict. generalize (∅ : gmap Z Z) as m. induction ports as [|q ports IH]; intros m Hn; [done|].
  cbn [map] in Hn. apply NoDup_cons in Hn as [Hq Hn]. cbn [fold_left]. intros [->|Hin]; [|by apply IH].
  rewrite port_dict_other by (by rewrite <-list_elem_of_In). apply lookup_insert_eq.
Qed.

Lemma output_key_count_eq n : 0 <= n -> output_key_count n = n * 8.
Proof.
  intros Hn. unfold output_key_count.
  assert (forall l : list Z, zlen (flat_map (fun s => map (pair s) (zrange 0 8)) l) = zlen l * 8) as ->.
  { induction l as [|x l IH]; cbn [flat_map]; [done|]. rewrite zlen_app, IH, zlen_cons.
    change (zlen (map (pair x) (zrange 0 8))) with 8. lia. }
  unfold zlen. rewrite zrange_length. lia.
Qed.

(** The length of each required record. *)
Definition payload_of (shape : Shape) (outputs : Z) (k : Key) : Z :=
  match fst k with
  | MAPS_IN => default 0 (port_dict (fun p => p_clusters p * MAP_ENTRY) (s_spi shape) !! snd k)
  | MAPS_OUT => default 0 (port_dict (fun p =>
      MAP_ENTRY * Z.max (p_clusters p) (if p_dynamic p then output_key_count outputs else 0))
      (s_spo shape) !! snd k)
  | NAME => NAME_BYTES
  | g => pay g
  end.

Definition required (shape : Shape) (d : dims) : list Key :=
  keys_of_cards (cards d ++ [(NAME, expected_names (s_dc shape))]).

Definition payloads (shape : Shape) (d : dims) : gmap Key Z :=
  fold_left (fun m k => <[k := payload_of shape (n_so d) k]> m) (required shape d) ∅.

Lemma expected_payloads_eq shape d : dims_of shape d -> expected_payloads shape = Ok (payloads shape d).
Proof.
  intros D. unfold expected_payloads. cbv zeta. rewrite (record_keys_eq shape d D).
  destruct D as (_ & _ & _ & H4 & _). unfold dc_get. rewrite H4. reflexivity.
Qed.

Lemma payloads_lookup shape d k :
  payloads shape d !! k = if decide (k ∈ required shape d) then Some (payload_of shape (n_so d) k) else None.
Proof. unfold payloads. by rewrite fold_insert_lookup. Qed.

Lemma spi_NoDup shape d : dims_of shape d -> shape_ok shape -> NoDup (map p_index (s_spi shape)).
Proof. intros (_ & _ & _ & _ & H & _) S. rewrite (so_spi _ S _ H). apply NoDup_zrange. Qed.
Lemma spo_NoDup shape d : dims_of shape d -> shape_ok shape -> NoDup (map p_index (s_spo shape)).
Proof. intros (_ & _ & _ & _ & _ & H) S. rewrite (so_spo _ S _ H). apply NoDup_zrange. Qed.

Lemma range_rows_In base gs n r : In r (range_rows base gs n) ->
  exists g i, In g gs /\ 0 <= i < n /\ r = row base g i (pay g).
Proof.
  unfold range_rows. intros (i & Hi & (g & <- & Hg)%in_map_iff)%in_flat_map.
  apply zrange_In in Hi. exists g, i. split_and!; [done|lia..|done].
Qed.

(** The inventory stores each record at the length the requirement derives. *)
Lemma inventory_payloads shape d base r : dims_of shape d -> shape_ok shape ->
  In r (inventory_rows shape d base) -> r_plen r = payload_of shape (n_so d) (r_key r).
Proof.
  intros D S. unfold inventory_rows. rewrite !in_app_iff.
  assert (0 <= n_so d) as Hso by (apply (so_counts _ S STREAM_OUTPUT), D).
  intros [[<-|[<-|[]]]|[H|[H|[H|[H|[H|[H|H]]]]]]]; try reflexivity.
  1-4: apply range_rows_In in H as (g & i & Hg & _ & ->); cbn [In] in Hg;
    unfold payload_of; cbn [r_key row r_group r_index r_plen fst snd];
    intuition subst; reflexivity.
  - apply in_map_iff in H as (p & <- & Hp). unfold payload_of. cbn [r_key row r_group r_index r_plen fst snd].
    by rewrite (port_dict_lookup _ _ _ (spi_NoDup _ _ D S) Hp).
  - apply in_map_iff in H as (p & <- & Hp). unfold payload_of. cbn [r_key row r_group r_index r_plen fst snd].
    rewrite (port_dict_lookup _ _ _ (spo_NoDup _ _ D S) Hp). cbn [default from_option id].
    rewrite output_key_count_eq by done. unfold entries.
    assert (0 <= p_clusters p) by (apply (so_clusters _ S), in_app_iff; by right).
    destruct (p_dynamic p); unfold MAP_ENTRY; lia.
  - by apply in_map_iff in H as (n & <- & _).
Qed.

Lemma keys_of_cards_length gcs : (forall gc, In gc gcs -> 0 <= snd gc) ->
  zlen (keys_of_cards gcs) = sum_z (map snd gcs).
Proof.
  unfold keys_of_cards, sum_z. induction gcs as [|gc gcs IH]; intros H; cbn [flat_map map foldr]; [done|].
  rewrite zlen_app, IH by (intros; apply H; by right). f_equal. unfold zlen.
  rewrite length_map, zrange_length. specialize (H gc (or_introl eq_refl)). lia.
Qed.

Lemma expected_names_nonneg shape : shape_ok shape -> 0 <= expected_names (s_dc shape).
Proof.
  intros S.
  assert (forall t, 0 <= default 0 (s_dc shape t)) as H.
  { intros t. destruct (s_dc shape t) as [n|] eqn:E; cbn; [by apply (so_counts _ S t)|lia]. }
  unfold expected_names, NAME_SLOTS, sum_z. cbn [map foldr fst snd].
  pose proof (H ENTITY); pose proof (H CONFIGURATION); pose proof (H AUDIO_UNIT);
    pose proof (H STREAM_INPUT); pose proof (H STREAM_OUTPUT); pose proof (H AVB_INTERFACE);
    pose proof (H CLOCK_SOURCE); pose proof (H CLOCK_DOMAIN); pose proof (H CONTROL);
    pose proof (H AUDIO_CLUSTER). lia.
Qed.

Lemma cards_nonneg shape d gc : dims_of shape d -> shape_ok shape ->
  In gc (cards d ++ [(NAME, expected_names (s_dc shape))]) -> 0 <= snd gc.
Proof.
  intros (H1 & H2 & H3 & H4 & H5 & H6) S. pose proof (so_counts _ S) as H.
  apply H in H1, H2, H3, H4, H5, H6. pose proof (expected_names_nonneg _ S).
  unfold cards. cbn [app In]. intuition (subst; cbn [snd]; lia).
Qed.

(** The inventory of a shape is exactly what the shape requires, by two
    derivations that share no code: the rows the generator walk emits carry each
    required (group, index) key once and no other, at the payload length the
    independent table gives it, and their number is the conformance floor of
    the ledger plus the writable names. *)
Theorem inventory_exact shape base :
  shape_ok shape ->
  exists recs keys pays,
    inventory shape base = Ok recs /\ record_keys shape = Ok keys
    /\ expected_payloads shape = Ok pays
    /\ NoDup (map r_key recs) /\ map r_key recs ≡ₚ keys
    /\ (forall r, In r recs -> pays !! r_key r = Some (r_plen r))
    /\ (forall k, is_Some (pays !! k) <-> In k keys)
    /\ conformant_floor (s_names shape) (s_dc shape) = Ok (zlen recs).
Proof.
  intros S. destruct (shape_dims _ S) as [d D]. pose proof (inventory_keys_perm _ _ base D S) as HP.
  exists (inventory_rows shape d base), (required shape d), (payloads shape d).
  assert (forall r, In r (inventory_rows shape d base) -> In (r_key r) (required shape d)) as Hin.
  { intros r Hr. apply list_elem_of_In. unfold required. rewrite <-HP. by apply list_elem_of_In, in_map. }
  split_and!.
  - by apply inventory_eq.
  - by apply record_keys_eq.
  - by apply expected_payloads_eq.
  - rewrite HP. apply required_keys_NoDup.
  - exact HP.
  - intros r Hr. rewrite payloads_lookup, decide_True by (by apply list_elem_of_In, Hin).
    by rewrite <-(inventory_payloads shape d base r D S Hr).
  - intros k. rewrite payloads_lookup, <-list_elem_of_In. case_decide; split; done.
  - unfold conformant_floor. rewrite (expected_records_eq shape d D). cbn [rbind].
    rewrite <-(zlen_map r_key).
    replace (zlen (map r_key (inventory_rows shape d base))) with (zlen (required shape d))
      by (unfold zlen; by rewrite HP).
    unfold required. rewrite keys_of_cards_length by (intros gc; by apply cards_nonneg).
    rewrite map_app, sum_z_app, (so_names _ S). unfold sum_z. cbn [map foldr snd]. f_equal. lia.
Qed.

(** A small shape: one port per direction, the output one dynamic. *)
Definition sample_counts : counts := fun t =>
  Some match t with
       | STREAM_INPUT | STREAM_OUTPUT => 2
       | CLOCK_SOURCE | AUDIO_CLUSTER => 3
       | _ => 1
       end.

Definition sample_shape : Shape := {|
  s_stem := lit "endstation_sample";
  s_names := 17;
  s_dc := sample_counts;
  s_spi := [{| p_index := 0; p_clusters := 1; p_dynamic := false |}];
  s_spo := [{| p_index := 0; p_clusters := 2; p_dynamic := true |}]
|}.

Lemma sample_shape_ok : shape_ok sample_shape.
Proof.
  split; cbn [s_dc s_spi s_spo s_names sample_shape].
  - intros [] n; cbn; intros [= <-]; lia.
  - intros g t _. eexists. reflexivity.
  - intros n [= <-]. reflexivity.
  - intros n [= <-]. reflexivity.
  - intros p [<-|[<-|[]]]; cbn; lia.
  - vm_compute. reflexivity.
Qed.

Lemma inventory_exact_witness :
  exists recs keys, inventory sample_shape 0x20 = Ok recs /\ record_keys sample_shape = Ok keys
    /\ map r_key recs ≡ₚ keys /\ conformant_floor 17 sample_counts = Ok (zlen recs).
Proof.
  destruct (inventory_exact sample_shape 0x20 sample_shape_ok)
    as (recs & keys & pays & H1 & H2 & _ & _ & H5 & _ & _ & H8).
  exists recs, keys. split; [exact H1|]. split; [exact H2|]. split; [exact H5|exact H8].
Defined.

(** * Record ids *)

Lemma inventory_row_id shape d base r : In r (inventory_rows shape d base) ->
  r_id r = (if block_of (r_group r) <=? r_index r then None else Some (rid_of_key (r_key r) base))
  /\ r_block r = block_of (r_group r).
Proof.
  assert (forall g i p, r_id (row base g i p) = (if block_of (r_group (row base g i p)) <=? r_index (row base g i p)
      then None else Some (rid_of_key (r_key (row base g i p)) base))
    /\ r_block (row base g i p) = block_of (r_group (row base g i p))) as Hrow by done.
  unfold inventory_rows. rewrite !in_app_iff.
  intros [[<-|[<-|[]]]|[H|[H|[H|[H|[H|[H|H]]]]]]]; try apply Hrow.
  1-4: apply range_rows_In in H as (g & i & _ & _ & ->); apply Hrow.
  all: apply in_map_iff in H as (? & <- & _); apply Hrow.
Qed.

Lemma inventory_index_nonneg shape d base r : dims_of shape d -> shape_ok shape ->
  In r (inventory_rows shape d base) -> 0 <= r_index r.
Proof.
  intros D S Hr. apply (in_map r_key), list_elem_of_In in Hr. rewrite (inventory_keys_perm _ _ base D S) in Hr.
  apply list_elem_of_In in Hr. unfold r_key in Hr. apply keys_of_cards_In in Hr as (n & _ & ?). lia.
Qed.

(** Every row has an id exactly when every group's block holds its cardinality. *)
Lemma inventory_allocated shape d base : dims_of shape d -> shape_ok shape ->
  (forall r, In r (inventory_rows shape d base) -> is_Some (r_id r))
  <-> Forall (fun gc => snd gc <= block_of (fst gc)) (cards d ++ [(NAME, expected_names (s_dc shape))]).
Proof.
  intros D S. rewrite Forall_forall.
  assert (forall g i, In (g, i) (map r_key (inventory_rows shape d base))
    <-> exists n, In (g, n) (cards d ++ [(NAME, expected_names (s_dc shape))]) /\ 0 <= i < n) as HK.
  { intros g i. rewrite <-keys_of_cards_In, <-!list_elem_of_In. by rewrite (inventory_keys_perm _ _ base D S). }
  split.
  - intros Hid [g n] Hin%list_elem_of_In. cbn [fst snd]. destruct (Z.le_gt_cases n (block_of g)) as [|Hgt]; [done|].
    assert (0 <= block_of g) by (by destruct g).
    assert (In (g, block_of g) (map r_key (inventory_rows shape d base))) as (r & Hk & Hr)%in_map_iff
      by (apply HK; exists n; split; [done|lia]).
    injection Hk as Hg Hi. destruct (Hid r Hr) as [rid Hrid]. destruct (inventory_row_id _ _ _ _ Hr) as [E _].
    rewrite Hrid, Hg, Hi, (proj2 (Z.leb_le _ _)) in E by lia. done.
  - intros Hb r Hr. destruct (inventory_row_id _ _ _ _ Hr) as [-> _].
    destruct (proj1 (HK (r_group r) (r_index r)) ltac:(by apply (in_map r_key) in Hr)) as (n & Hin & Hi).
    apply list_elem_of_In, Hb in Hin. cbn [fst snd] in Hin. rewrite (proj2 (Z.leb_gt _ _)) by lia. by eexists.
Qed.

Lemma inventory_id_cases shape d base r rid : dims_of shape d -> shape_ok shape ->
  In r (inventory_rows shape d base) -> r_id r = Some rid ->
  in_block (r_key r) /\ rid = rid_of_key (r_key r) base.
Proof.
  intros D S Hr Hid. pose proof (inventory_index_nonneg _ _ _ _ D S Hr).
  destruct (inventory_row_id _ _ _ _ Hr) as [He _]. rewrite Hid in He.
  destruct (Z.leb_spec (block_of (r_group r)) (r_index r)); [done|]. injection He as ->.
  split; [|done]. unfold in_block, r_key. cbn [fst snd]. lia.
Qed.

Lemma default_nonneg (o : option Z) : (forall n, o = Some n -> 0 <= n) -> 0 <= default 0 o.
Proof. destruct o as [n|]; cbn; [by auto|lia]. Qed.

Lemma port_dict_nonneg f ports k n : (forall p, In p ports -> 0 <= f p) ->
  port_dict f ports !! k = Some n -> 0 <= n.
Proof.
  intros Hf. unfold port_dict.
  assert (forall (m : gmap Z Z), (forall k n, m !! k = Some n -> 0 <= n) ->
    fold_left (fun m p => <[p_index p := f p]> m) ports m !! k = Some n -> 0 <= n) as G.
  { induction ports as [|p ports IH]; intros m Hm; cbn [fold_left]; [apply Hm|].
    apply IH; [intros; apply Hf; by right|]. intros k' n' [[_ <-]|[_ H]]%lookup_insert_Some.
    - apply Hf. by left.
    - by eapply Hm. }
  apply G. intros k' n'. by rewrite lookup_empty.
Qed.

Lemma payload_of_nonneg shape outputs k : shape_ok shape -> 0 <= payload_of shape outputs k.
Proof.
  intros S. destruct k as [[] i]; unfold payload_of; cbn [fst snd]; try (cbn; lia); try by unfold NAME_BYTES.
  all: apply default_nonneg; intros n; apply port_dict_nonneg; intros p Hp.
  all: assert (0 <= p_clusters p) by (apply (so_clusters _ S), in_app_iff; tauto); unfold MAP_ENTRY; lia.
Qed.

(** Record ids of an inventory.  A row has an id exactly when its index is
    inside its group's block; the id is the allocation of its key and inverts
    to it; no two rows of the inventory share an id; and every id fits the
    port's eight-bit namespace.  The census of closed records is an error
    exactly when some row has no id, and otherwise counts the framed octets of
    every row. *)
Theorem inventory_ids shape base recs :
  shape_ok shape -> base_ok base -> inventory shape base = Ok recs ->
  (forall r, In r recs -> r_id r = None <-> block_of (r_group r) <= r_index r)
  /\ (forall r rid, In r recs -> r_id r = Some rid ->
        key_of_id rid base = Some (r_key r) /\ 0 <= rid < ID_SPACE FIXED)
  /\ (forall i j r r' rid, recs !! i = Some r -> recs !! j = Some r' ->
        r_id r = Some rid -> r_id r' = Some rid -> i = j)
  /\ (closed_record_census shape base =
        if existsb (fun r => bool_decide (r_id r = None)) recs then Err (NOverflow (s_stem shape))
        else Ok (sum_z (map (fun r => zlen (erased_record (r_plen r))) recs), zlen recs)).
Proof.
  intros S Hb HI. destruct (shape_dims _ S) as [d D]. pose proof HI as HI'.
  rewrite (inventory_eq _ _ base D) in HI. apply Ok_inj in HI. subst recs. split_and!.
  - intros r Hr. destruct (inventory_row_id _ _ _ _ Hr) as [-> _].
    destruct (Z.leb_spec (block_of (r_group r)) (r_index r)); split; (done || lia).
  - intros r rid Hr Hid. destruct (inventory_id_cases _ _ _ _ _ D S Hr Hid) as [Hk ->].
    split; [by apply key_of_id_rid|by apply rid_bound].
  - intros i j r r' rid Hi Hj Hid Hid'.
    pose proof (list_elem_of_lookup_2 _ _ _ Hi) as Hr%list_elem_of_In.
    pose proof (list_elem_of_lookup_2 _ _ _ Hj) as Hr'%list_elem_of_In.
    destruct (inventory_id_cases _ _ _ _ _ D S Hr Hid) as [Hk ->].
    destruct (inventory_id_cases _ _ _ _ _ D S Hr' Hid') as [Hk' He].
    apply (rid_inj base) in He; [|done..].
    assert (NoDup (map r_key (inventory_rows shape d base))) as Hn
      by (rewrite (inventory_keys_perm _ _ base D S); apply required_keys_NoDup).
    eapply (NoDup_lookup _ i j _ Hn); rewrite list_lookup_fmap; [by rewrite Hi|by rewrite Hj, He].
  - unfold closed_record_census. rewrite HI'. cbn [rbind]. unfold raise_if.
    destruct (existsb _ _); [done|]. cbn [rbind]. do 3 f_equal. apply map_ext_in. intros r Hr.
    symmetry. apply erased_record_length.
    rewrite (inventory_payloads shape d base r D S Hr). by apply payload_of_nonneg.
Qed.

Lemma inventory_ids_witness :
  shape_ok sample_shape /\ base_ok 0x20 /\
  exists recs, inventory sample_shape 0x20 = Ok recs
    /\ (forall r rid, In r recs -> r_id r = Some rid ->
          key_of_id rid 0x20 = Some (r_key r) /\ 0 <= rid < ID_SPACE FIXED).
Proof.
  assert (base_ok 0x20) as Hb by (unfold base_ok; lia).
  split; [exact sample_shape_ok|]. split; [exact Hb|].
  assert (is_ok (inventory sample_shape 0x20) = true) as K by (vm_compute; reflexivity).
  destruct (inventory sample_shape 0x20) as [recs|e] eqn:E; [|discriminate K].
  exists recs. split; [reflexivity|].
  destruct (inventory_ids sample_shape 0x20 recs sample_shape_ok Hb E) as (_ & H & _). exact H.
Defined.

(** * The image of a shape *)

(** What a full image saves under each key. *)
Definition content_of (base : Z) (pays : gmap Key Z) (nval : Z -> bytes) (k : Key) : option bytes :=
  Some (payload_bytes (fst k) (snd k) (rid_of_key k base) (default 0 (pays !! k)) (Some nval)).

Definition aem_name (b : bytes) : Prop := Forall is_byte b /\ zlen b = NAME_BYTES.

Lemma payload_bytes_ok g i rid n nval : (forall k, aem_name (nval k)) -> 0 <= n ->
  (g = NAME -> n = NAME_BYTES) ->
  Forall is_byte (payload_bytes g i rid n (Some nval)) /\ zlen (payload_bytes g i rid n (Some nval)) = n.
Proof.
  intros Hv Hn Hg. unfold payload_bytes. case_decide.
  - rewrite Hg by done. apply Hv.
  - split.
    + apply Forall_map, Forall_forall. intros j _. change 0xFF with (Z.ones 8).
      apply word_byte. apply word_land_ones. lia.
    + rewrite zlen_map. unfold zlen. rewrite zrange_length. lia.
Qed.

Lemma frames_with_spec (payload : nvm_record -> Z -> bytes) layout (recs : list nvm_record) (fr : nvm_record -> bytes) :
  (forall r rid, In r recs -> r_id r = Some rid -> frame_record rid (payload r rid) layout = Ok (fr r)) ->
  (forall r, In r recs -> is_Some (r_id r)) -> NoDup (map r_id recs) ->
  exists frames, frames_with payload recs layout = Ok frames
    /\ forall x b, frames !! x = Some b <-> exists r, In r recs /\ r_id r = Some x /\ b = fr r.
Proof.
  intros Hf Hid Hn. unfold frames_with.
  assert (forall (m : gmap Z bytes),
    (forall r x, In r recs -> r_id r = Some x -> m !! x = None) ->
    exists frames, foldR (fun out r => match r_id r with
        | None => Ok out
        | Some rid => let* b := frame_record rid (payload r rid) layout in Ok (<[rid := b]> out) end) m recs = Ok frames
      /\ forall x b, frames !! x = Some b <-> (exists r, In r recs /\ r_id r = Some x /\ b = fr r) \/ m !! x = Some b) as G.
  { induction recs as [|r recs IH]; intros m Hm; cbn [foldR].
    - exists m. split; [done|]. intros x b. split; [tauto|]. by intros [(r & [] & _)|?].
    - destruct (Hid r (or_introl eq_refl)) as [rid Hr]. rewrite Hr, (Hf r rid) by (done || by left). cbn [rbind].
      cbn [map] in Hn. apply NoDup_cons in Hn as [Hni Hn].
      assert (forall r' x, In r' recs -> r_id r' = Some x -> rid <> x) as Hne.
      { intros r' x Hr' Hx <-. apply Hni. rewrite Hr, <-Hx. by apply list_elem_of_In, in_map. }
      destruct (IH ltac:(intros; apply Hf; [by right|done]) ltac:(intros; apply Hid; by right) Hn
                  (<[rid := fr r]> m)) as (frames & HF & Hfr).
      { intros r' x Hr' Hx. rewrite lookup_insert_ne by (by eapply Hne). eapply Hm; [by right|done]. }
      exists frames. split; [done|]. intros x b. rewrite Hfr, lookup_insert_Some. cbn [In]. split.
      + intros [(r' & ? & ? & ->)|[[<- <-]|[? ?]]]; [left; exists r'; tauto|left; exists r; tauto|tauto].
      + intros [(r' & [<-|Hin] & Hx & ->)|Hx].
        * right; left. split; [congruence|done].
        * left. by exists r'.
        * right; right. split; [|done]. intros <-. rewrite (Hm r rid) in Hx; [done|by left|done]. }
  destruct (G ∅) as (frames & H1 & H2); [intros; apply lookup_empty|].
  exists frames. split; [done|]. intros x b. rewrite H2, lookup_empty. split; [|tauto]. by intros [?|?].
Qed.

Section Image.
Context (shape : Shape) (d : dims) (donor : Donor) (nval : Z -> bytes).
Hypothesis D : dims_of shape d.
Hypothesis S : shape_ok shape.
Hypothesis Hb : base_ok (d_base donor).
Hypothesis Hlay : 0 <= d_layout donor < 256.
Hypothesis Hv : forall k, aem_name (nval k).

Let base := d_base donor.
Let recs := inventory_rows shape d base.
Hypothesis Hid : forall r, In r recs -> is_Some (r_id r).
Hypothesis Hlen : forall r, In r recs -> r_plen r < 65536.

Lemma pays_row k n : payloads shape d !! k = Some n <->
  exists r, In r recs /\ r_key r = k /\ r_plen r = n.
Proof using All.
  assert (forall k, k ∈ required shape d <-> In k (map r_key recs)) as Hreq.
  { intros k'. unfold required. rewrite <-(inventory_keys_perm _ _ base D S). apply list_elem_of_In. }
  rewrite payloads_lookup. split.
  - case_decide as Hk; [|done]. intros [= <-]. apply Hreq, in_map_iff in Hk as (r & <- & Hr).
    exists r. split_and!; [done..|]. by apply (inventory_payloads shape d base).
  - intros (r & Hr & <- & <-). rewrite decide_True by (by apply Hreq, in_map).
    by rewrite (inventory_payloads shape d base r D S Hr).
Qed.

Lemma pays_of_row r : In r recs -> payloads shape d !! r_key r = Some (r_plen r).
Proof using All. intros Hr. apply pays_row. by exists r. Qed.

Lemma allocated_row r : In r recs ->
  in_block (r_key r) /\ r_id r = Some (rid_of_key (r_key r) base) /\ 0 <= r_plen r
  /\ (r_group r = NAME -> r_plen r = NAME_BYTES).
Proof using All.
  intros Hr. destruct (Hid r Hr) as [rid Hrid].
  destruct (inventory_id_cases _ _ _ _ _ D S Hr Hrid) as [? ->].
  rewrite (inventory_payloads shape d base r D S Hr). split_and!; [done..|by apply payload_of_nonneg|].
  unfold r_key, payload_of. cbn [fst]. by intros ->.
Qed.

Definition row_payload (r : nvm_record) : bytes :=
  payload_bytes (r_group r) (r_index r) (rid_of_key (r_key r) base) (r_plen r) (Some nval).

Lemma row_payload_ok r : In r recs -> Forall is_byte (row_payload r) /\ zlen (row_payload r) = r_plen r.
Proof using All. intros Hr. destruct (allocated_row r Hr) as (_ & _ & ? & ?). by apply payload_bytes_ok. Qed.

Lemma allocated_ids_NoDup : NoDup (map r_id recs).
Proof using All.
  apply (NoDup_fmap_1 (fun o => (fun z => key_of_id z base) <$> o)).
  replace _ with (map (fun k => Some (Some k)) (map r_key recs)).
  - apply NoDup_fmap_2; [by intros x y [= ->]|]. unfold recs.
    rewrite (inventory_keys_perm _ _ base D S). apply required_keys_NoDup.
  - change ((?f <$> map ?g ?l)) with (map f (map g l)). rewrite !map_map. apply map_ext_in. intros r Hr.
    destruct (allocated_row r Hr) as (Hk & -> & _). cbn [fmap option_fmap option_map]. by rewrite key_of_id_rid.
Qed.

(** The frames of a fully allocated inventory are a saved state. *)
Lemma frames_for_saved_state :
  exists frames, frames_for recs donor nval = Ok frames
    /\ saved_state donor (payloads shape d) (content_of base (payloads shape d) nval) frames.
Proof using All.
  set (fr := fun r => record_frame (rid_of_key (r_key r) base) (row_payload r) (d_layout donor)).
  destruct (frames_with_spec (fun r rid => payload_bytes (r_group r) (r_index r) rid (r_plen r) (Some nval))
              (d_layout donor) recs fr) as (frames & HF & Hfr);
    [|exact Hid|apply allocated_ids_NoDup|].
  - intros r rid Hr Hrid. destruct (allocated_row r Hr) as (Hk & He & _). rewrite Hrid in He. injection He as ->.
    fold (row_payload r). destruct (row_payload_ok r Hr) as [_ Hz].
    apply frame_record_Ok. rewrite Hz. pose proof (rid_bound base _ Hb Hk). split_and!; try lia; auto.
  - assert (forall r, In r recs -> entry_bytes base (d_layout donor) (payloads shape d)
      (r_key r, content_of base (payloads shape d) nval (r_key r)) = fr r) as Heb.
    { intros r Hr. unfold fr, entry_bytes, content_of. cbn [fst snd]. by rewrite (pays_of_row r Hr). }
    exists frames. split; [done|]. split; [done|done| | |].
    + intros k n (r & Hr & <- & <-)%pays_row. destruct (allocated_row r Hr) as (? & _ & ? & _). auto.
    + intros k n p Hk [= <-]. rewrite Hk. apply pays_row in Hk as (r & Hr & <- & <-). by apply row_payload_ok.
    + intros x b. rewrite Hfr. split.
      * intros (r & Hr & Hx & ->). exists (r_key r). destruct (allocated_row r Hr) as (_ & He & _).
        rewrite Hx in He. injection He as ->. rewrite (pays_of_row r Hr).
        split_and!; [by eexists|done|]. symmetry. by apply Heb.
      * intros (k & [n Hk] & -> & ->). apply pays_row in Hk as (r & Hr & <- & <-). exists r.
        destruct (allocated_row r Hr) as (_ & -> & _). split_and!; [done..|]. by apply Heb.
Qed.

(** What comes back of an image with this content. *)
Lemma restored_row (applied : gmap Key bytes) r :
  (forall k, applied !! k = match payloads shape d !! k with
                            | Some _ => content_of base (payloads shape d) nval k | None => None end) ->
  In r recs -> exists rid, r_id r = Some rid
    /\ applied !! r_key r = Some (payload_bytes (r_group r) (r_index r) rid (r_plen r) (Some nval)).
Proof using All.
  intros Hk Hr. destruct (allocated_row r Hr) as (_ & HE & _).
  exists (rid_of_key (r_key r) base). split; [done|].
  rewrite Hk, (pays_of_row r Hr). unfold content_of. by rewrite (pays_of_row r Hr).
Qed.

Lemma area_of_rows : area_length (payloads shape d) = sum_z (map (fun r => REC_HDR + r_plen r) recs).
Proof using All.
  unfold area_length. rewrite <-(map_map (fun r => (r_key r, r_plen r)) (fun kn => REC_HDR + snd kn)).
  apply sum_z_Proper, map_Permutation_Proper, NoDup_Permutation.
  - apply NoDup_map_to_list.
  - apply (NoDup_fmap_1 fst). change (?f <$> map ?g ?l) with (map f (map g l)). rewrite map_map.
    unfold recs. rewrite (inventory_keys_perm _ _ base D S). apply required_keys_NoDup.
  - intros [k n]. rewrite elem_of_map_to_list, pays_row, list_elem_of_In, in_map_iff. split.
    + intros (r & ? & <- & <-). by exists r.
    + intros (r & [= <- <-] & ?). by exists r.
Qed.
End Image.

Lemma sum_row_bound (recs : list nvm_record) r : (forall r, In r recs -> 0 <= r_plen r) -> In r recs ->
  r_plen r <= sum_z (map (fun r => REC_HDR + r_plen r) recs).
Proof.
  unfold sum_z, REC_HDR. induction recs as [|r' recs IH]; intros H; cbn [map foldr In]; [done|].
  assert (0 <= foldr Z.add 0 (map (fun r => 8 + r_plen r) recs)) as Hs.
  { clear IH. assert (forall r, In r recs -> 0 <= r_plen r) as H' by (intros; apply H; by right). clear H.
    induction recs as [|x recs IH]; cbn [map foldr]; [lia|].
    pose proof (H' x (or_introl eq_refl)). specialize (IH (fun r h => H' r (or_intror h))). lia. }
  pose proof (H r' (or_introl eq_refl)). intros [->|Hr]; [lia|].
  specialize (IH (fun r h => H r (or_intror h)) Hr). lia.
Qed.

(** The names of an image that holds every ordinal. *)
Lemma names_from_image_eq (applied : gmap Key bytes) n (f : Z -> bytes) :
  (forall k, 0 <= k < n -> applied !! (NAME, k) = Some (f k)) ->
  names_from_image SEAM applied n = fold_left (fun m k => <[k := f k]> m) (zrange 0 (Z.to_nat n)) ∅.
Proof.
  intros Ha. unfold names_from_image. cbn [NAME_PRESENCE_FROM_CONTENT SEAM andb].
  assert (forall l (m : gmap Z bytes), (forall k, In k l -> 0 <= k < n) ->
    fold_left (fun out k => match applied !! (NAME, k) with None => out | Some pay => <[k := pay]> out end) l m
    = fold_left (fun m k => <[k := f k]> m) l m) as G.
  { induction l as [|j l IH]; intros m Hl; cbn [fold_left]; [done|].
    rewrite Ha by (apply Hl; by left). apply IH. intros; apply Hl; by right. }
  apply G. intros k Hk%zrange_In. lia.
Qed.

Lemma names_from_image_lookup (applied : gmap Key bytes) n (f : Z -> bytes) k :
  (forall k, 0 <= k < n -> applied !! (NAME, k) = Some (f k)) -> 0 <= k < n ->
  names_from_image SEAM applied n !! k = Some (f k).
Proof.
  intros Ha Hk. rewrite (names_from_image_eq _ _ f Ha), fold_insert_lookup, decide_True; [done|].
  apply list_elem_of_In, zrange_In. lia.
Qed.

(** C3: The whole saved state of a shape survives a save and a restore.  For
    every good shape whose inventory is fully allocated and fits a flash slot,
    the frames build, assemble into an image of the predicted length, and the
    decoder, graded against the independently derived requirement, accepts it
    and applies every record's payload; every writable name comes back octet for
    octet, the empty name (64 zero octets) included. *)
Theorem image_round_trip shape (donor : Donor) (ident : Ident) nval recs pays octets count :
  shape_ok shape -> base_ok (d_base donor) -> 0 <= d_layout donor < 256 ->
  0 <= i_seq ident < 2 ^ 32 -> 0 <= i_entity_id ident < 2 ^ 64 -> 0 <= i_model_id ident < 2 ^ 64 ->
  (forall k, aem_name (nval k)) ->
  closed_record_census shape (d_base donor) = Ok (octets, count) ->
  KLJ2_HDR + (octets + 3) + KLJ2_TRAILER <= ERASE_BLOCK FIXED ->
  inventory shape (d_base donor) = Ok recs -> expected_payloads shape = Ok pays ->
  exists frames blob offs applied,
    frames_for recs donor nval = Ok frames
    /\ klj2_assemble frames donor ident = Ok (blob, offs)
    /\ zlen blob = KLJ2_HDR + (octets + pad_of octets) + KLJ2_TRAILER
    /\ klj2_decode SEAM blob donor ident pays = (VD_OK, applied)
    /\ (forall r, In r recs -> exists rid, r_id r = Some rid
          /\ applied !! r_key r = Some (payload_bytes (r_group r) (r_index r) rid (r_plen r) (Some nval)))
    /\ (forall k, 0 <= k < s_names shape -> names_from_image SEAM applied (s_names shape) !! k = Some (nval k)).
Proof.
  intros S Hb Hlay Hseq He Hm Hv HC Hfit HI HP. destruct (shape_dims _ S) as [d D].
  unfold closed_record_census in HC. rewrite HI in HC. cbn [rbind] in HC. rsplit HC. injection HC as HC _.
  rewrite (inventory_eq _ _ (d_base donor) D) in HI. apply Ok_inj in HI. subst recs.
  rewrite (expected_payloads_eq _ _ D) in HP. apply Ok_inj in HP. subst pays.
  set (recs := inventory_rows shape d (d_base donor)) in *.
  assert (forall r, In r recs -> is_Some (r_id r)) as Hid.
  { intros r Hr. destruct (r_id r) as [rid|] eqn:E; [by eexists|]. exfalso.
    assert (existsb (fun r => bool_decide (r_id r = None)) recs = true) as K; [|congruence].
    apply existsb_exists. exists r. split; [done|]. by apply bool_decide_eq_true. }
  assert (forall r, In r recs -> r_plen r < 65536) as Hlen.
  { intros r Hr. assert (r_plen r <= octets); [|cbn in Hfit; unfold KLJ2_HDR, KLJ2_TRAILER in *; lia].
    rewrite <-HC. apply sum_row_bound; [|done]. intros r' Hr'.
    rewrite (inventory_payloads shape d (d_base donor) r' D S Hr'). by apply payload_of_nonneg. }
  assert (area_length (payloads shape d) = octets) as Ha
    by (rewrite (area_of_rows shape d donor nval D S Hb Hlay Hv Hid Hlen); exact HC).
  destruct (frames_for_saved_state shape d donor nval D S Hb Hlay Hv Hid Hlen) as (frames & HF & HS).
  pose proof (Z.mod_pos_bound (- octets) ALIGN ltac:(done)) as Hp. fold (pad_of octets) in Hp.
  unfold ALIGN in Hp. change (ERASE_BLOCK FIXED) with 65536 in Hfit.
  destruct (assemble_total donor ident _ _ _ HS Hseq) as (blob & offs & HA & HZ); [rewrite Ha; lia|].
  rewrite Ha in HZ. assert (zlen blob <= 65536) as Hfit' by lia.
  destruct (decode_assembled donor ident _ _ _ _ _ HS HA Hfit' He Hm) as (applied & Hd & Hk).
  assert (forall r, In r recs -> exists rid, r_id r = Some rid
    /\ applied !! r_key r = Some (payload_bytes (r_group r) (r_index r) rid (r_plen r) (Some nval))) as Hrows.
  { intros r. by apply (restored_row shape d donor nval D S Hb Hlay Hv Hid Hlen). }
  exists frames, blob, offs, applied. split_and!; [done..|by apply klj2_decode_OK|done|].
  intros k Hkn. apply names_from_image_lookup; [|done]. intros k' Hk'.
  destruct (Hrows (row (d_base donor) NAME k' NAME_BYTES)) as (rid & _ & HN); [|exact HN].
  by apply name_row.
Qed.

Definition empty_first_name (k : Z) : bytes :=
  if k =? 0 then zeros 64 else name_table ∅ 1.

Lemma empty_first_name_ok k : aem_name (empty_first_name k).
Proof.
  unfold empty_first_name. destruct (k =? 0).
  - split; [apply Forall_is_byteb|]; vm_compute; reflexivity.
  - split; [apply Forall_is_byteb|]; vm_compute; reflexivity.
Qed.

Lemma image_round_trip_witness :
  exists recs pays octets, inventory sample_shape 0x20 = Ok recs /\ expected_payloads sample_shape = Ok pays
    /\ octets = 1642
    /\ exists frames blob offs applied,
      frames_for recs sample_donor empty_first_name = Ok frames
      /\ klj2_assemble frames sample_donor sample_ident = Ok (blob, offs)
      /\ klj2_decode SEAM blob sample_donor sample_ident pays = (VD_OK, applied)
      /\ names_from_image SEAM applied 17 !! 0 = Some (zeros 64).
Proof.
  assert (is_ok (inventory sample_shape 0x20) = true) as K1 by (vm_compute; reflexivity).
  assert (is_ok (expected_payloads sample_shape) = true) as K2 by (vm_compute; reflexivity).
  destruct (inventory sample_shape 0x20) as [recs|] eqn:E1; [|discriminate K1].
  destruct (expected_payloads sample_shape) as [pays|] eqn:E2; [|discriminate K2].
  assert (closed_record_census sample_shape 0x20 = Ok (1642, 32)) as E3 by (vm_compute; reflexivity).
  assert (base_ok (d_base sample_donor)) as Hb by (unfold base_ok; cbn; lia).
  assert (0 <= d_layout sample_donor < 256) as Hl by (cbn; lia).
  assert (0 <= i_seq sample_ident < 2 ^ 32) as Hs by (cbn; lia).
  assert (0 <= i_entity_id sample_ident < 2 ^ 64) as He by (cbn; lia).
  assert (0 <= i_model_id sample_ident < 2 ^ 64) as Hm by (cbn; lia).
  assert (KLJ2_HDR + (1642 + 3) + KLJ2_TRAILER <= ERASE_BLOCK FIXED) as Hf by (vm_compute; discriminate).
  destruct (image_round_trip sample_shape sample_donor sample_ident empty_first_name recs pays 1642 32
              sample_shape_ok Hb Hl Hs He Hm empty_first_name_ok E3 Hf E1 E2)
    as (frames & blob & offs & applied & H1 & H2 & _ & H4 & _ & H6).
  exists recs, pays, 1642. split; [reflexivity|]. split; [reflexivity|]. split; [reflexivity|].
  exists frames, blob, offs, applied. split; [exact H1|]. split; [exact H2|]. split; [exact H4|].
  apply (H6 0). cbn. lia.
Defined.

(** * The firmware's constants *)

Lemma map_consts_In label entries k : 0 <= k < FW_MAP_PORTS ->
  In (map_const label k, default 0 (entries !! k)) (map_consts label entries).
Proof. intros Hk. unfold map_consts. apply in_map_iff. exists k. split; [done|]. apply zrange_In. unfold FW_MAP_PORTS in *. lia. Qed.

Lemma map_consts_names label entries :
  map fst (map_consts label entries) = map (map_const label) (zrange 0 (Z.to_nat FW_MAP_PORTS)).
Proof. unfold map_consts. by rewrite map_map. Qed.

(** The map constants name each port's entries, and zero for a port the shape
    does not have. *)
Definition firmware_map_of (shape : Shape) (d : dims) (output : bool) : gmap Z Z :=
  if output then port_dict (entries (n_so d)) (s_spo shape) else port_dict p_clusters (s_spi shape).

Lemma fold_pairs (f : stream_port -> Z) ports m :
  fold_left (fun m kn => <[fst kn := snd kn]> m) (map (fun p => (p_index p, f p)) ports) m
  = fold_left (fun m p => <[p_index p := f p]> m) ports (m : gmap Z Z).
Proof. revert m. induction ports as [|p ports IH]; intros m; cbn [map fold_left]; [done|apply IH]. Qed.

Lemma firmware_constants_eq shape d (donor : Donor) : dims_of shape d ->
  firmware_constants shape donor =
  Ok ([("MILAN_NVM_N_STREAM_IN", n_si d); ("MILAN_NVM_N_STREAM_OUT", n_so d);
       ("MILAN_NVM_N_SPORT_IN", n_pi d); ("MILAN_NVM_N_SPORT_OUT", n_po d);
       ("MILAN_NVM_N_AUDIO_UNIT", n_au d); ("MILAN_NVM_N_CLK_DOM", n_cd d);
       ("MILAN_NVM_N_NAME", s_names shape); ("MILAN_NVM_BIND_BASE", d_base donor);
       ("MILAN_NVM_REC_LAYOUT", d_layout donor)]%string
      ++ map_consts "IN" (firmware_map_of shape d false)
      ++ map_consts "OUT" (firmware_map_of shape d true)
      ++ WRITER_TIMING_MS).
Proof.
  intros D. pose proof (fun p => output_map_entries_eq shape d p D) as Ho.
  unfold firmware_constants. cbv zeta.
  rewrite (mapR_pure _ (fun p => (p_index p, entries (n_so d) p))) by (intros p; by rewrite Ho).
  destruct D as (H1 & H2 & H3 & H4 & H5 & H6). unfold dc_get. rewrite H1, H2, H3, H4, H5, H6. cbn [rbind].
  rewrite fold_pairs. reflexivity.
Qed.

Lemma inventory_map_row shape d base r : dims_of shape d -> shape_ok shape ->
  In r (inventory_rows shape d base) -> r_group r = MAPS_IN \/ r_group r = MAPS_OUT ->
  exists n, firmware_map_of shape d (bool_decide (r_group r = MAPS_OUT)) !! r_index r = Some n
            /\ r_plen r = n * MAP_ENTRY.
Proof.
  intros D S. unfold inventory_rows. rewrite !in_app_iff.
  intros [[<-|[<-|[]]]|[H|[H|[H|[H|[H|[H|H]]]]]]] Hg; cbn [row r_group] in Hg; try (by destruct Hg).
  1-4: apply range_rows_In in H as (g & i & Hin & _ & ->); cbn [In row r_group] in *; intuition congruence.
  - apply in_map_iff in H as (p & <- & Hp). cbn [row r_group r_index r_plen]. exists (p_clusters p).
    split; [|done]. by apply port_dict_lookup; [apply (spi_NoDup shape d)|].
  - apply in_map_iff in H as (p & <- & Hp). cbn [row r_group r_index r_plen]. exists (entries (n_so d) p).
    split; [|done]. by apply port_dict_lookup; [apply (spo_NoDup shape d)|].
  - apply in_map_iff in H as (n & <- & _). by destruct Hg.
Qed.

(** The constants the firmware is built with and the inventory agree.  Every
    constant has one value; the counts are the descriptor counts; for each map
    record of the inventory on a port the tables hold, the constant of that port
    times the entry size is the record's payload length; and a port the shape
    does not have is given zero entries. *)
Theorem firmware_constants_agree shape (donor : Donor) recs :
  shape_ok shape -> inventory shape (d_base donor) = Ok recs ->
  exists consts, firmware_constants shape donor = Ok consts /\ NoDup (map fst consts)
    /\ (forall r, In r recs -> r_index r < FW_MAP_PORTS -> r_group r = MAPS_IN ->
          exists n, In (map_const "IN" (r_index r), n) consts /\ r_plen r = n * MAP_ENTRY)
    /\ (forall r, In r recs -> r_index r < FW_MAP_PORTS -> r_group r = MAPS_OUT ->
          exists n, In (map_const "OUT" (r_index r), n) consts /\ r_plen r = n * MAP_ENTRY)
    /\ (forall k n, s_dc shape STREAM_PORT_OUTPUT = Some n -> n <= k < FW_MAP_PORTS ->
          In (map_const "OUT" k, 0) consts)
    /\ (forall k n, s_dc shape STREAM_PORT_INPUT = Some n -> n <= k < FW_MAP_PORTS ->
          In (map_const "IN" k, 0) consts).
Proof.
  intros S HI. destruct (shape_dims _ S) as [d D].
  rewrite (inventory_eq _ _ (d_base donor) D) in HI. apply Ok_inj in HI. subst recs.
  eexists. split; [by apply firmware_constants_eq|]. split_and!.
  - rewrite !map_app, !map_consts_names. apply (bool_decide_unpack _). vm_compute. exact I.
  - intros r Hr Hi Hg. destruct (inventory_map_row _ _ _ _ D S Hr (or_introl Hg)) as (n & Hn & Hp).
    rewrite Hg in Hn. change (bool_decide (MAPS_IN = MAPS_OUT)) with false in Hn. exists n. split; [|done]. rewrite !in_app_iff. right; left.
    pose proof (map_consts_In "IN" (firmware_map_of shape d false) (r_index r)) as H.
    rewrite Hn in H. apply H. split; [by eapply inventory_index_nonneg|done].
  - intros r Hr Hi Hg. destruct (inventory_map_row _ _ _ _ D S Hr (or_intror Hg)) as (n & Hn & Hp).
    rewrite Hg in Hn. change (bool_decide (MAPS_OUT = MAPS_OUT)) with true in Hn. exists n. split; [|done]. rewrite !in_app_iff. right; right; left.
    pose proof (map_consts_In "OUT" (firmware_map_of shape d true) (r_index r)) as H.
    rewrite Hn in H. apply H. split; [by eapply inventory_index_nonneg|done].
  - intros k n Hn Hk. pose proof (so_counts _ S _ _ Hn).
    pose proof (map_consts_In "OUT" (firmware_map_of shape d true) k ltac:(lia)) as H1.
    cbn [firmware_map_of] in H1. unfold port_dict in H1. rewrite port_dict_other in H1; [rewrite !in_app_iff; tauto|].
    intros Hin. rewrite <-list_elem_of_In, (so_spo _ S _ Hn), list_elem_of_In in Hin.
    apply zrange_In in Hin. lia.
  - intros k n Hn Hk. pose proof (so_counts _ S _ _ Hn).
    pose proof (map_consts_In "IN" (firmware_map_of shape d false) k ltac:(lia)) as H1.
    cbn [firmware_map_of] in H1. unfold port_dict in H1. rewrite port_dict_other in H1; [rewrite !in_app_iff; tauto|].
    intros Hin. rewrite <-list_elem_of_In, (so_spi _ S _ Hn), list_elem_of_In in Hin.
    apply zrange_In in Hin. lia.
Qed.

Lemma firmware_constants_agree_witness :
  exists consts, firmware_constants sample_shape sample_donor = Ok consts /\ NoDup (map fst consts)
    /\ In ("MILAN_NVM_MAPOUT_ENTRIES_1"%string, 0) consts.
Proof.
  assert (is_ok (inventory sample_shape (d_base sample_donor)) = true) as K by (vm_compute; reflexivity).
  destruct (inventory sample_shape (d_base sample_donor)) as [recs|] eqn:E; [|discriminate K].
  destruct (firmware_constants_agree sample_shape sample_donor recs sample_shape_ok E)
    as (consts & H1 & H2 & _ & _ & H5 & _).
  exists consts. split; [exact H1|]. split; [exact H2|].
  apply (H5 1 1); [reflexivity|]. unfold FW_MAP_PORTS. lia.
Defined.
