(* ===== verification/NvmMaps.v ===== *)
(** The channel-map records of the saved state ([scripts/nvm_map_checks.py]):
    the map store's restore, and the check that saves a full fan-out set,
    clears the store and restores it from a decoded journal.

    The digest comparison [check_1x1_digest] pins one file's SHA-256 and is not
    modelled. *)
From S2P Require Import Prelude Unicode Text Crc NvmContract NvmJournal NvmShape.

Definition EMIT_IDENT : Ident :=
  {| i_seq := 7; i_entity_id := 0x0011223344556677; i_model_id := 0x8899AABBCCDDEEFF |}.

Definition UNUSED : bytes := repeat 0xFF (Z.to_nat MAP_ENTRY).

(** A stream key (stream, channel) and what feeds it (cluster, channel). *)
Abbreviation mapping := ((Z * Z) * (Z * Z))%type.

(** [struct.pack(">4H", ...)] of fields that fit. *)
Definition pack_mapping (m : mapping) : bytes :=
  be_bytes 2 (fst (fst m)) ++ be_bytes 2 (snd (fst m))
  ++ be_bytes 2 (fst (snd m)) ++ be_bytes 2 (snd (snd m)).

(** [payload[pos:pos + MAP_ENTRY] for pos in range(0, len(payload), MAP_ENTRY)]. *)
Definition map_entries (payload : bytes) : list bytes :=
  map (fun i => zslice (MAP_ENTRY * i) MAP_ENTRY payload)
      (zrange 0 (Z.to_nat ((zlen payload + (MAP_ENTRY - 1)) / MAP_ENTRY))).

Definition restore_step (st : gmap (Z * Z) (Z * Z) * bool) (entry : bytes)
    : result nvm_error (gmap (Z * Z) (Z * Z) * bool) :=
  if bool_decide (entry = UNUSED) then Ok (fst st, true)
  else
    let* _ := raise_if (snd st || negb (zlen entry =? MAP_ENTRY)) NMapTail in
    let key := (rd_be 0 2 entry, rd_be 2 2 entry) in
    let* _ := raise_if (bool_decide (is_Some (fst st !! key))) NMapKey in
    Ok (<[key := (rd_be 4 2 entry, rd_be 6 2 entry)]> (fst st), snd st).

Definition restore (payload : bytes) : result nvm_error (gmap (Z * Z) (Z * Z)) :=
  let* st := foldR restore_step (∅, false) (map_entries payload) in
  Ok (fst st).

(** * The full round trip of one port *)

Inductive finding :=
  | FCapacity (port count : Z)          (* cannot save count keys *)
  | FJournal (port : Z) (v : verdict) (applied : Z)
  | FLost (port : Z)                    (* restore lost keys *)
  | FOversized.                         (* over-capacity journal not refused *)

(** The first [count] keys of the stream/channel key space. *)
Definition fanout_keys (outputs count : Z) : list (Z * Z) :=
  zslice 0 count (flat_map (fun s => map (pair s) (zrange 0 8)) (zrange 0 (Z.to_nat outputs))).

(** [struct.pack]'s range check over a key. *)
Definition key_fits (k : Z * Z) : bool := fits 2 (fst k) && fits 2 (snd k).

(** [{r: erased_record(p) for ... in recs if r is not None}]. *)
Definition erased_frames (recs : list nvm_record) : gmap Z bytes :=
  fold_left (fun m r => match r_id r with
                        | Some rid => <[rid := erased_record (r_plen r)]> m
                        | None => m end) recs ∅.

Definition decode_emit (frames : gmap Z bytes) (donor : Donor) (expect : gmap Key Z)
    : result nvm_error (verdict * gmap Key bytes) :=
  let* bo := klj2_assemble frames donor EMIT_IDENT in
  Ok (klj2_decode SEAM (fst bo) donor EMIT_IDENT expect).

Definition round_trip_map (shape : Shape) (recs : list nvm_record) (donor : Donor)
    (expect : gmap Key Z) (target : nvm_record) (count : Z) : result nvm_error (list finding) :=
  let* outputs := dc_get (s_dc shape) STREAM_OUTPUT in
  let keys := fanout_keys outputs count in
  let* _ := raise_if (negb (forallb key_fits keys)) NStruct in
  let packed := concat (map (fun k => pack_mapping (k, (0, 0))) keys) in
  let plen := r_plen target in
  if plen <? zlen packed then Ok [FCapacity (r_index target) count]
  else
    let payload := packed ++ concat (repeat UNUSED (Z.to_nat ((plen - zlen packed) / MAP_ENTRY))) in
    let rid := default 0 (r_id target) in
    let* frame := frame_record rid payload (d_layout donor) in
    let* va := decode_emit (<[rid := frame]> (erased_frames recs)) donor expect in
    if negb (bool_decide (fst va = VD_OK))
       || negb (bool_decide (dom (snd va) = ({[r_key target]} : gset Key)))
    then Ok [FJournal (r_index target) (fst va) (Z.of_nat (size (snd va)))]
    else
      let* live := restore (default [] (snd va !! r_key target)) in
      if negb (bool_decide (live = list_to_map (map (fun k => (k, (0, 0))) keys)))
      then Ok [FLost (r_index target)]
      else
        let extra := pack_mapping ((zlen keys, 0), (0, 0)) in
        let* big := frame_record rid (payload ++ extra) (d_layout donor) in
        let* vb := decode_emit (<[rid := big]> (erased_frames recs)) donor expect in
        if negb (bool_decide (fst vb = VD_REC)) || negb (bool_decide (snd vb = ∅))
        then Ok [FOversized] else Ok [].

(** [{row[1]: row for row in recs if row[0] == "MAPS_OUT"}]. *)
Definition output_rows (recs : list nvm_record) : gmap Z nvm_record :=
  fold_left (fun m r => if decide (r_group r = MAPS_OUT) then <[r_index r := r]> m else m) recs ∅.

Definition check_output_maps (shape : Shape) (recs : list nvm_record) (donor : Donor)
    (expect : gmap Key Z) : result nvm_error (list finding) :=
  if existsb (fun r => match r_id r with None => true | Some rid => 255 <? rid end) recs then Ok []
  else
    foldR (fun findings port =>
      let* outputs := dc_get (s_dc shape) STREAM_OUTPUT in
      let keys := outputs * 8 in
      if negb (p_dynamic port) || (keys <=? p_clusters port) then Ok findings
      else match output_rows recs !! p_index port with
           | None => Ok findings
           | Some target =>
               let* f1 := round_trip_map shape recs donor expect target (p_clusters port + 1) in
               let* f2 := round_trip_map shape recs donor expect target keys in
               Ok (findings ++ f1 ++ f2)
           end) [] (s_spo shape).

(** * The map record's format *)

Definition mapping_ok (m : mapping) : Prop :=
  0 <= fst (fst m) < 65536 /\ 0 <= snd (fst m) < 65536
  /\ 0 <= fst (snd m) < 65536 /\ 0 <= snd (snd m) < 65536
  /\ m <> ((65535, 65535), (65535, 65535)).

Lemma pack_mapping_length m : zlen (pack_mapping m) = MAP_ENTRY.
Proof. unfold pack_mapping, zlen. rewrite !length_app, !be_bytes_length. reflexivity. Qed.

Lemma UNUSED_length : zlen UNUSED = MAP_ENTRY.
Proof. reflexivity. Qed.

(** A payload made of whole entries is read entry by entry. *)
Lemma map_entries_concat (l : list bytes) : (forall e, In e l -> zlen e = MAP_ENTRY) ->
  map_entries (concat l) = l.
Proof.
  intros H. assert (forall (l : list bytes), (forall e, In e l -> zlen e = MAP_ENTRY) ->
    zlen (concat l) = MAP_ENTRY * zlen l) as Hz.
  { clear. induction l as [|e l IH]; intros H; cbn [concat]; [done|].
    rewrite zlen_app, zlen_cons, IH, (H e) by (intros; (apply H; by right) || by left). lia. }
  unfold map_entries. rewrite (Hz l H).
  replace ((MAP_ENTRY * zlen l + (MAP_ENTRY - 1)) / MAP_ENTRY) with (zlen l).
  2: { unfold MAP_ENTRY. apply (Z.div_unique _ _ _ 7); lia. }
  unfold zlen at 1. rewrite Nat2Z.id.
  assert (forall (pre : list bytes), (forall e, In e pre -> zlen e = MAP_ENTRY) ->
    map (fun i => zslice (MAP_ENTRY * i) MAP_ENTRY (concat (pre ++ l))) (zrange (zlen pre) (length l)) = l) as G.
  { clear Hz. induction l as [|e l IH]; intros pre Hp; cbn [length zrange map]; [done|]. f_equal.
    - rewrite concat_app. cbn [concat]. rewrite (zslice_skip _ _ (MAP_ENTRY * zlen pre)).
      + rewrite Z.sub_diag. apply zslice_hit, H. by left.
      + clear -Hp. induction pre as [|x pre IH]; cbn [concat]; [done|].
        rewrite zlen_app, zlen_cons, IH, (Hp x) by (intros; (apply Hp; by right) || by left). lia.
      + lia.
    - specialize (IH ltac:(intros; apply H; by right) (pre ++ [e])).
      rewrite <-app_assoc in IH. cbn [app] in IH. rewrite zlen_app in IH. change (zlen [e]) with 1 in IH.
      apply IH. intros x [Hx|[<-|[]]]%in_app_iff; [by apply Hp|apply H; by left]. }
  apply (G []). by intros e [].
Qed.

Lemma pack_fields m : mapping_ok m ->
  (rd_be 0 2 (pack_mapping m), rd_be 2 2 (pack_mapping m)) = fst m
  /\ (rd_be 4 2 (pack_mapping m), rd_be 6 2 (pack_mapping m)) = snd m.
Proof.
  destruct m as [[s c] [k h]]. unfold mapping_ok, pack_mapping, rd_be. cbn [fst snd].
  intros (? & ? & ? & ? & _).
  repeat first
    [ rewrite zslice_hit by (unfold zlen; by rewrite be_bytes_length)
    | rewrite (zslice_skip (be_bytes 2 _) _ 2) by (unfold zlen; rewrite ?be_bytes_length; lia) ].
  rewrite zslice_all by (unfold zlen; by rewrite be_bytes_length).
  rewrite !of_be_be_bytes_id by (cbn; lia). done.
Qed.

Lemma pack_not_unused m : mapping_ok m -> pack_mapping m <> UNUSED.
Proof.
  intros Hm H. destruct (pack_fields m Hm) as [H1 H2]. rewrite H in H1, H2.
  destruct m as [k v]. cbn [fst snd] in *. destruct Hm as (_ & _ & _ & _ & Hne). apply Hne.
  rewrite <-H1, <-H2. reflexivity.
Qed.

Lemma restore_step_pack st m : mapping_ok m -> snd st = false -> fst st !! fst m = None ->
  restore_step st (pack_mapping m) = Ok (<[fst m := snd m]> (fst st), false).
Proof.
  intros Hm Hs Hn. unfold restore_step. rewrite bool_decide_eq_false_2 by (by apply pack_not_unused).
  rewrite Hs, pack_mapping_length. cbn [orb negb Z.eqb raise_if rbind].
  destruct (pack_fields m Hm) as [-> ->]. rewrite Hn. rewrite Z.eqb_refl. cbn [negb rbind raise_if].
  rewrite bool_decide_eq_false_2 by (by intros [? ?]). reflexivity.
Qed.

Lemma restore_unused st n : foldR restore_step st (repeat UNUSED n) = Ok (fst st, (negb (n =? 0)%nat) || snd st).
Proof.
  revert st. induction n as [|n IH]; intros [m b]; cbn [repeat foldR]; [done|].
  unfold restore_step at 1. rewrite bool_decide_eq_true_2 by done. cbn [rbind fst]. rewrite IH. cbn [fst snd].
  f_equal. f_equal. by rewrite orb_true_r.
Qed.

Lemma restore_packed (ms : list mapping) (m0 : gmap (Z * Z) (Z * Z)) n :
  (forall m, In m ms -> mapping_ok m) -> NoDup (map fst ms) ->
  (forall m, In m ms -> m0 !! fst m = None) ->
  exists b, foldR restore_step (m0, false) (map pack_mapping ms ++ repeat UNUSED n)
  = Ok (list_to_map ms ∪ m0, b).
Proof.
  revert m0. induction ms as [|m ms IH]; intros m0 Hok Hn H0; cbn [map app foldR].
  - rewrite restore_unused, list_to_map_nil. exists (negb (n =? 0)%nat || false). cbn [fst snd]. by rewrite map_empty_union.
  - cbn [map] in Hn. apply NoDup_cons in Hn as [Hni Hn].
    rewrite restore_step_pack; [|apply Hok; by left|done|apply H0; by left]. cbn [rbind fst].
    destruct (IH (<[fst m := snd m]> m0)) as [b Hb]; [intros; apply Hok; by right|done| |].
    + intros x Hx. rewrite lookup_insert_ne; [apply H0; by right|].
      intros He. apply Hni. rewrite He. by apply list_elem_of_In, in_map.
    + exists b. rewrite Hb. do 2 f_equal. destruct m as [k v]. cbn [fst snd]. rewrite list_to_map_cons.
      rewrite <-insert_union_l, <-insert_union_r; [done|].
      apply not_elem_of_list_to_map_1. exact Hni.
Qed.

Definition unpack (e : bytes) : mapping := ((rd_be 0 2 e, rd_be 2 2 e), (rd_be 4 2 e, rd_be 6 2 e)).

Lemma rd_be_word off e : Forall is_byte e -> 0 <= off -> off + 2 <= zlen e -> 0 <= rd_be off 2 e < 65536.
Proof.
  intros He Ho Hl. unfold rd_be, of_be.
  pose proof (of_le_bound (rev (zslice off 2 e)) ltac:(by apply Forall_rev, Forall_zslice)) as H.
  rewrite zlen_rev, zslice_length in H by lia. exact H.
Qed.

Lemma pack_unpack e : Forall is_byte e -> zlen e = MAP_ENTRY -> e <> UNUSED ->
  pack_mapping (unpack e) = e /\ mapping_ok (unpack e).
Proof.
  unfold MAP_ENTRY. intros He Hl Hne.
  assert (pack_mapping (unpack e) = e) as HE.
  { unfold pack_mapping, unpack. cbn [fst snd]. change 2%nat with (Z.to_nat 2).
    rewrite !be_bytes_rd_be by (done || lia).
    rewrite <-(zslice_all e 8) at 5 by done. change 8 with (2 + (2 + (2 + 2))). by rewrite !zslice_split by lia. }
  split; [done|]. unfold mapping_ok, unpack. cbn [fst snd]. split_and!; try apply rd_be_word; try done; try lia.
  intros Hff. apply Hne. rewrite <-HE. unfold unpack in *. rewrite Hff. reflexivity.
Qed.

Lemma restore_inv (es : list bytes) (m0 m : gmap (Z * Z) (Z * Z)) (u u' : bool) : (forall e, In e es -> Forall is_byte e) ->
  foldR restore_step (m0, u) es = Ok (m, u') ->
  exists ms n, es = map pack_mapping ms ++ repeat UNUSED n /\ (forall x, In x ms -> mapping_ok x)
    /\ NoDup (map fst ms) /\ (forall x, In x ms -> m0 !! fst x = None)
    /\ m = list_to_map ms ∪ m0 /\ (u = true -> ms = []).
Proof.
  revert m0 u. induction es as [|e es IH]; intros m0 u Hb; cbn [foldR].
  - intros [= <- <-]. exists [], 0%nat. split_and!; try done; [constructor|].
    by rewrite list_to_map_nil, map_empty_union.
  - intros H. rsplit H. specialize (IH (fst v) (snd v) ltac:(intros; apply Hb; by right)).
    rewrite <-surjective_pairing in IH. destruct (IH H) as (ms & n & -> & Hok & Hn & H0 & -> & Hu). clear IH H.
    unfold restore_step in Hm. case_bool_decide as Hc.
    + apply Ok_inj in Hm. subst v e. cbn [fst snd] in *. rewrite (Hu eq_refl) in *.
      exists [], (S n). split_and!; try done; constructor.
    + cbn [fst snd] in Hm. rsplit Hm. bool_prop. subst v u. cbn [fst snd] in *.
      assert (m0 !! (rd_be 0 2 e, rd_be 2 2 e) = None) as Hnone.
      { destruct (m0 !! _) eqn:E; [|done]. exfalso.
        match goal with HN : ~ is_Some _ |- _ => apply HN; by eexists end. }
      destruct (pack_unpack e) as [He Hok']; [apply Hb; by left|done..|].
      exists (unpack e :: ms), n. cbn [map app]. rewrite He. split_and!; [done| | | | |done].
      * intros x [<-|Hx]; [done|by apply Hok].
      * constructor; [|done]. intros (x & Hx & Hin)%list_elem_of_In%in_map_iff.
        specialize (H0 x Hin). rewrite Hx in H0. unfold unpack in H0. cbn [fst] in H0.
        by rewrite lookup_insert_eq in H0.
      * intros x [<-|Hx]; [done|]. specialize (H0 x Hx). apply lookup_insert_None in H0. tauto.
      * unfold unpack. rewrite list_to_map_cons. rewrite <-insert_union_l, <-insert_union_r; [done|].
        apply not_elem_of_list_to_map_1. intros (x & Hx & Hin)%list_elem_of_In%in_map_iff.
        specialize (H0 x Hin). rewrite Hx in H0. by rewrite lookup_insert_eq in H0.
Qed.

Lemma concat_map_entries payload : concat (map_entries payload) = payload.
Proof.
  unfold map_entries. set (n := Z.to_nat _).
  assert (forall k j, concat (map (fun i => zslice (MAP_ENTRY * i) MAP_ENTRY payload) (zrange (Z.of_nat k) j))
    = zslice (MAP_ENTRY * Z.of_nat k) (MAP_ENTRY * Z.of_nat j) payload) as G.
  { intros k j. revert k. induction j as [|j IH]; intros k; cbn [zrange map concat].
    - unfold zslice. by rewrite Z.mul_0_r.
    - replace (Z.of_nat k + 1) with (Z.of_nat (S k)) by lia. rewrite IH.
      replace (MAP_ENTRY * Z.of_nat (S k)) with (MAP_ENTRY * Z.of_nat k + MAP_ENTRY) by lia.
      rewrite <-zslice_split by (unfold MAP_ENTRY; lia). f_equal. lia. }
  pose proof (G 0%nat n) as H0. change (Z.of_nat 0) with 0 in H0. rewrite H0, Z.mul_0_r.
  unfold zslice. change (Z.to_nat 0) with 0%nat. rewrite drop_0. apply take_ge.
  unfold n, MAP_ENTRY, zlen.
  pose proof (Z.div_mod (Z.of_nat (length payload) + 7) 8 ltac:(lia)) as Hd.
  pose proof (Z.mod_pos_bound (Z.of_nat (length payload) + 7) 8 ltac:(lia)).
  assert (0 <= (Z.of_nat (length payload) + (8 - 1)) / 8) by (apply Z.div_pos; lia).
  rewrite Z2Nat.id by done. change (8 - 1) with 7. lia.
Qed.

(** The map record format is canonical.  A payload restores exactly when it
    is a run of packed mappings with distinct (stream, channel) keys followed by
    unused entries only, and what is restored is those mappings; so saving a set
    of mappings and restoring it gives the set back, and a hole, a partial entry
    or a repeated key is always refused. *)
Theorem restore_canonical (payload : bytes) (m : gmap (Z * Z) (Z * Z)) :
  Forall is_byte payload ->
  restore payload = Ok m <->
  exists (ms : list mapping) n,
    payload = concat (map pack_mapping ms) ++ concat (repeat UNUSED n)
    /\ (forall x, In x ms -> mapping_ok x) /\ NoDup (map fst ms) /\ m = list_to_map ms.
Proof.
  intros Hb. unfold restore. split.
  - intros H. rsplit H. destruct v as [m' u]. cbn [fst] in H. subst m'.
    apply restore_inv in Hm as (ms & n & He & Hok & Hn & _ & -> & _).
    + exists ms, n. rewrite map_union_empty. split_and!; [|done..].
      rewrite <-(concat_map_entries payload), He, concat_app. done.
    + intros e (i & <- & _)%in_map_iff. by apply Forall_zslice.
  - intros (ms & n & -> & Hok & Hn & ->). rewrite <-concat_app, map_entries_concat.
    + destruct (restore_packed ms ∅ n Hok Hn) as [b ->]; [intros; apply lookup_empty|].
      cbn [rbind fst]. by rewrite map_union_empty.
    + intros e [(x & <- & _)%in_map_iff|He%repeat_spec]%in_app_iff; [apply pack_mapping_length|by subst e].
Qed.

Lemma restore_canonical_witness :
  restore ([0; 1; 0; 7; 0; 3; 0; 0] ++ repeat 255 8) = Ok {[ (1, 7) := (3, 0) ]}.
Proof.
  apply (restore_canonical ([0; 1; 0; 7; 0; 3; 0; 0] ++ repeat 255 8) {[ (1, 7) := (3, 0) ]}).
  - apply Forall_is_byteb. vm_compute. reflexivity.
  - exists [((1, 7), (3, 0))], 1%nat. split; [vm_compute; reflexivity|]. split.
    + intros x [<-|[]]. unfold mapping_ok. cbn. split_and!; (lia || discriminate).
    + split; [|vm_compute; reflexivity]. apply (bool_decide_unpack _). vm_compute. exact I.
Defined.
