(* ===== verification/NvmGate.v ===== *)
(** The record-space gate ([scripts/check_nvm_record_space.py]): the
    completeness of an inventory against the key set its shape requires, the
    checks on ids, payloads and image length, the checks that build an image and
    read it back, the conformance floor, and the negative controls that rewrite
    an inventory.

    A finding is a value that carries what its text prints; [SEAM] and [FIXED]
    are arguments, so a control is another argument.  The commit deadline is a
    floating-point comparison and is not modelled, nor are the digest of one
    image, the comparison with a committed fixture and the printing. *)
From S2P Require Import Prelude Unicode Text Crc NvmContract NvmJournal NvmShape NvmMaps.

(** * Findings *)

Inductive gate_finding :=
  | GNames (want got : Z)                  (* two derivations of the names disagree *)
  | GSwapped (missing extra : list Key * Z)  (* first six of each, and how many more *)
  | GMissing (k : Key) (cls : pystr * pystr)
  | GMissingMore (n : Z)
  | GExtra (k : Key)
  | GExtraMore (n : Z)
  | GDuplicate (k : Key) (n : Z) (ids : list pystr)
  | GNoId (k : Key) (block need : Z)
  | GIdSpace (k : Key) (rid : Z)
  | GIdClash (rid : Z) (first second : Key)
  | GPayload (k : Key) (plen : Z)
  | GImage (image : Z)
  | GUndecodable (v : verdict) (applied : Z)
  | GNotRestored (k : Key) (rid : Z)
  | GEmptyRefused (v : verdict)
  | GEmptyAbsent
  | GEmptyChanged (first : bytes)
  | GNameCount (got names : Z)
  | GIncomplete (k : Key) (rid : Z) (v : verdict) (applied : Z)
  | GErasedAll (v : verdict) (applied : Z)
  | GErasedOne (rid : Z) (v : verdict) (applied others : Z)
  | GTorn (v : verdict) (applied : Z)
  | GShort (rid : Z) (v : verdict) (applied : Z)
  | GFloor (stem : pystr) (floor : Z).

(** * Keys in order *)

(** [sorted] over keys compares the group's name, then the index. *)
Definition key_leb (a b : Key) : bool :=
  if decide (fst a = fst b) then snd a <=? snd b
  else str_leb (group_name (fst a)) (group_name (fst b)).

Definition key_le (a b : Key) : Prop := key_leb a b = true.
#[export] Instance key_le_dec a b : Decision (key_le a b).
Proof. unfold key_le. apply _. Defined.

Definition sorted_keys (ks : gset Key) : list Key := merge_sort key_le (elements ks).

(** [_fmt]: the first six keys, and how many there are beyond them. *)
Definition shown (keys : list Key) : list Key * Z := (take 6 keys, Z.max 0 (zlen keys - 6)).

(** The class and the clause of a ledger entry. *)
Definition ledger_clause (g : group) : option (pystr * pystr) :=
  match g with
  | CFG_IDX | SUID => Some (lit "singleton", lit "donor 07 5.1 design decision")
  | RATE => Some (lit "per-descriptor", lit "Milan 5.3.5.1")
  | CLKSRC => Some (lit "per-descriptor", lit "Milan 5.3.11.1")
  | MCR => Some (lit "per-descriptor", lit "donor 07 5.1 design decision")
  | BINDING => Some (lit "per-descriptor", lit "Milan 5.3.8.2/.3/.7")
  | FMT_IN => Some (lit "per-descriptor", lit "Milan 5.3.8.1")
  | FMT_OUT => Some (lit "per-descriptor", lit "Milan 5.3.7.1")
  | PT_OFS => Some (lit "per-descriptor", lit "Milan 5.3.7.6")
  | MAPS_IN => Some (lit "per-descriptor", lit "Milan 5.3.10.1")
  | MAPS_OUT => Some (lit "per-descriptor", lit "Milan 5.3.9.1")
  | NAME => None
  end.

Definition class_of (g : group) : pystr * pystr :=
  default (lit "per-name", lit "Milan 5.3.13") (ledger_clause g).

(** ["0x%02X"], and the dashes of a row that has no id. *)
Definition upper (c : Z) : Z := if 97 <=? c then c - 32 else c.
Definition id_text (rid : option Z) : pystr :=
  match rid with
  | None => lit "--"
  | Some r => lit "0x" ++ (if r <? 16 then lit "0" else [])
              ++ map upper (hex_digits_of (S (Z.to_nat (Z.log2 r))) r)
  end.

(** * Check 0: the key set *)

Definition with_key (k : Key) (recs : list nvm_record) : list nvm_record :=
  List.filter (fun r => bool_decide (r_key r = k)) recs.

Definition key_findings (mark : Key -> gate_finding) (more : Z -> gate_finding) (keys : list Key)
    : list gate_finding :=
  map mark (take 6 keys) ++ (if 6 <? zlen keys then [more (zlen keys - 6)] else []).

Definition duplicates (recs : list nvm_record) : list gate_finding :=
  flat_map (fun k =>
      let n := zlen (with_key k recs) in
      if 1 <? n then [GDuplicate k n (sorted_strs (map id_text (map r_id (with_key k recs))))] else [])
    (sorted_keys (list_to_set (map r_key recs))).

Definition completeness (shape : Shape) (recs : list nvm_record) : result nvm_error (list gate_finding) :=
  let want_names := expected_names (s_dc shape) in
  let* keys := record_keys shape in
  let want : gset Key := list_to_set keys in
  let have : gset Key := list_to_set (map r_key recs) in
  let missing := sorted_keys (want ∖ have) in
  let extra := sorted_keys (have ∖ want) in
  Ok ((if want_names =? s_names shape then [] else [GNames want_names (s_names shape)])
      ++ (match missing, extra with _ :: _, _ :: _ => [GSwapped (shown missing) (shown extra)] | _, _ => [] end)
      ++ key_findings (fun k => GMissing k (class_of (fst k))) GMissingMore missing
      ++ key_findings GExtra GExtraMore extra
      ++ duplicates recs).

(** * Checks 1 to 4: ids, payloads and the image's length *)

(** The loop's variables: the findings, [seen] and [top]. *)
Record rstate := { rs_findings : list gate_finding; rs_seen : gmap Z Key; rs_top : Z }.

Definition record_step (fixed : Contract) (st : rstate) (r : nvm_record) : rstate :=
  match r_id r with
  | None =>
      {| rs_findings := rs_findings st ++ [GNoId (r_key r) (r_block r) (r_index r + 1)];
         rs_seen := rs_seen st; rs_top := rs_top st |}
  | Some rid =>
      {| rs_findings := rs_findings st
           ++ (if ID_SPACE fixed <=? rid then [GIdSpace (r_key r) rid] else [])
           ++ (match rs_seen st !! rid with Some k => [GIdClash rid k (r_key r)] | None => [] end)
           ++ (if MAX_PAYLOAD <? r_plen r then [GPayload (r_key r) (r_plen r)] else []);
         rs_seen := <[rid := r_key r]> (rs_seen st);
         rs_top := Z.max (rs_top st) rid |}
  end.

Definition record_findings (fixed : Contract) (recs : list nvm_record) : list gate_finding :=
  rs_findings (fold_left (record_step fixed) recs {| rs_findings := []; rs_seen := ∅; rs_top := -1 |}).

Definition image_length (recs : list nvm_record) : Z :=
  let body := sum_z (map (fun r => REC_HDR + r_plen r) recs) in
  KLJ2_HDR + (body + pad_of body) + KLJ2_TRAILER.

Definition slot_findings (fixed : Contract) (recs : list nvm_record) : list gate_finding :=
  if ERASE_BLOCK fixed <? image_length recs then [GImage (image_length recs)] else [].

(** Check 6: the floor of every shape fits the namespace. *)
Definition conformance_findings (fixed : Contract) (floors : list (pystr * Z)) : list gate_finding :=
  flat_map (fun cf => if ID_SPACE fixed <? snd cf then [GFloor (fst cf) (snd cf)] else []) floors.

(** * Checks 8 to 12: the image *)

(** [_Img]. *)
Record image_under_test := {
  im_shape : Shape;
  im_recs : list nvm_record;
  im_donor : Donor;
  im_ident : Ident;
  im_expect : gmap Key Z
}.

(** [_assemble] then [_decode]. *)
Definition decode_frames (seam : Seams) (img : image_under_test) (frames : gmap Z bytes)
    : result nvm_error (verdict * gmap Key bytes) :=
  let* bo := klj2_assemble frames (im_donor img) (im_ident img) in
  Ok (klj2_decode seam (fst bo) (im_donor img) (im_ident img) (im_expect img)).

Definition count_of {K} `{Countable K} {A} (m : gmap K A) : Z := Z.of_nat (size m).

(** A record that has an id and does not come back as it was framed. *)
Definition not_restored (nval : Z -> bytes) (applied : gmap Key bytes) (r : nvm_record) : bool :=
  match r_id r with
  | None => false
  | Some rid =>
      negb (bool_decide (applied !! r_key r
        = Some (payload_bytes (r_group r) (r_index r) rid (r_plen r) (Some nval))))
  end.

Definition round_trip (seam : Seams) (img : image_under_test)
    : result nvm_error (gmap Z bytes * option (gmap Key bytes) * list gate_finding) :=
  let nval := name_table ∅ in
  let* base_frames := frames_for (im_recs img) (im_donor img) nval in
  let* va := decode_frames seam img base_frames in
  if negb (bool_decide (fst va = VD_OK))
  then Ok (base_frames, None, [GUndecodable (fst va) (count_of (snd va))])
  else Ok (base_frames, Some (snd va),
           match List.find (not_restored nval (snd va)) (im_recs img) with
           | Some r => [GNotRestored (r_key r) (default 0 (r_id r))]
           | None => []
           end).

Definition empty_name : bytes := zeros (Z.to_nat NAME_BYTES).

Definition empty_name_survives (seam : Seams) (img : image_under_test) : result nvm_error (list gate_finding) :=
  let names := s_names (im_shape img) in
  let* frames := frames_for (im_recs img) (im_donor img) (name_table {[0 := empty_name]}) in
  let* va := decode_frames seam img frames in
  if negb (bool_decide (fst va = VD_OK)) then Ok [GEmptyRefused (fst va)]
  else
    let got := names_from_image seam (snd va) names in
    Ok ((match got !! 0 with
         | None => [GEmptyAbsent]
         | Some b => if bool_decide (b = empty_name) then [] else [GEmptyChanged (zslice 0 16 b)]
         end)
        ++ (if count_of got =? names then [] else [GNameCount (count_of got) names])).

(** The id of the first record of a key that has one. *)
Definition drop_id (recs : list nvm_record) (k : Key) : option Z :=
  match List.find (fun r => bool_decide (r_key r = k) && bool_decide (is_Some (r_id r))) recs with
  | Some r => r_id r
  | None => None
  end.

Definition refused (va : verdict * gmap Key bytes) : bool :=
  negb (bool_decide (fst va = VD_OK)) && bool_decide (snd va = ∅).

(** The loop over the mandatory keys, which stops at the first finding. *)
Fixpoint incomplete_keys (seam : Seams) (img : image_under_test) (base_frames : gmap Z bytes) (keys : list Key)
    : result nvm_error (list gate_finding) :=
  match keys with
  | [] => Ok []
  | k :: rest =>
      match drop_id (im_recs img) k with
      | None => incomplete_keys seam img base_frames rest
      | Some rid =>
          let* va := decode_frames seam img (delete rid base_frames) in
          if refused va then incomplete_keys seam img base_frames rest
          else Ok [GIncomplete k rid (fst va) (count_of (snd va))]
      end
  end.

Definition incomplete_is_refused (seam : Seams) (img : image_under_test) (base_frames : gmap Z bytes) :=
  incomplete_keys seam img base_frames (sorted_keys (dom (im_expect img))).

(** [max(frames)]. *)
Definition last_id (frames : gmap Z bytes) : result nvm_error Z :=
  match map fst (map_to_list frames) with
  | [] => Err NValue
  | r :: rest => Ok (max_z r rest)
  end.

Definition plen_of_frame (fr : bytes) : Z := zlen fr - REC_HDR.

(** [b[:-1] + b"\x00"]. *)
Definition torn_span (b : bytes) : bytes := zslice 0 (zlen b - 1) b ++ [0].

Definition erased_record_rule (seam : Seams) (img : image_under_test) (base_frames : gmap Z bytes)
    : result nvm_error (list gate_finding) :=
  let blank := (fun fr => erased_record (plen_of_frame fr)) <$> base_frames in
  let* v0 := decode_frames seam img blank in
  let f0 := if bool_decide (fst v0 = VD_OK) && bool_decide (snd v0 = ∅) then []
            else [GErasedAll (fst v0) (count_of (snd v0))] in
  let* victim := last_id base_frames in
  let span := erased_record (plen_of_frame (default [] (base_frames !! victim))) in
  let one := <[victim := span]> base_frames in
  let* v1 := decode_frames seam img one in
  let others := count_of base_frames - 1 in
  let present := match key_of_id victim (d_base (im_donor img)) with
                 | Some key => bool_decide (is_Some (snd v1 !! key))
                 | None => false
                 end in
  let f1 := if bool_decide (fst v1 = VD_OK) && negb present && (count_of (snd v1) =? others) then []
            else [GErasedOne victim (fst v1) (count_of (snd v1)) others] in
  let* v2 := decode_frames seam img (<[victim := torn_span span]> one) in
  let f2 := if bool_decide (fst v2 = VD_REC) && bool_decide (snd v2 = ∅) then []
            else [GTorn (fst v2) (count_of (snd v2))] in
  let* v3 := decode_frames seam img (delete victim one) in
  let f3 := if refused v3 then [] else [GShort victim (fst v3) (count_of (snd v3))] in
  Ok (f0 ++ f1 ++ f2 ++ f3).

Definition check_image (fixed : Contract) (seam : Seams) (shape : Shape) (recs : list nvm_record)
    (donor : Donor) : result nvm_error (list gate_finding) :=
  if existsb (fun r => match r_id r with None => true | Some rid => ID_SPACE fixed <=? rid end) recs then Ok []
  else
    let* expect := expected_payloads shape in
    let img := {| im_shape := shape; im_recs := recs; im_donor := donor; im_ident := EMIT_IDENT;
                  im_expect := expect |} in
    let* baf := round_trip seam img in
    let '(base_frames, applied, f0) := baf in
    match applied with
    | None => Ok f0
    | Some _ =>
        let* f1 := if s_names shape =? 0 then Ok [] else empty_name_survives seam img in
        let* f2 := incomplete_is_refused seam img base_frames in
        let* f3 := erased_record_rule seam img base_frames in
        Ok (f0 ++ f1 ++ f2 ++ f3)
    end.

(** * The controls that rewrite an inventory *)

(** What [check_one] does with [SEAM.OMIT] and [SEAM.XFORM]. *)
Definition perturbed (omit : option (nvm_record -> bool)) (xform : option (list nvm_record -> list nvm_record))
    (recs : list nvm_record) : list nvm_record :=
  let recs := match omit with Some keep => List.filter keep recs | None => recs end in
  match xform with Some f => f recs | None => recs end.

Definition omit_singleton (r : nvm_record) : bool := negb (bool_decide (r_group r = SUID)).
Definition omit_indexed (r : nvm_record) : bool := negb (bool_decide (r_group r = PT_OFS)).
Definition omit_index (r : nvm_record) : bool :=
  negb (bool_decide (r_group r = FMT_IN) && (r_index r =? 0)).
Definition omit_names (r : nvm_record) : bool := negb (bool_decide (r_group r = NAME)).

(** [shift]: every row of the group one index and one id up. *)
Definition shift (g : group) (recs : list nvm_record) : list nvm_record :=
  map (fun r => if decide (r_group r = g)
                then {| r_group := r_group r; r_index := r_index r + 1; r_id := Z.succ <$> r_id r;
                        r_plen := r_plen r; r_block := r_block r |}
                else r) recs.

Definition shift_index := shift FMT_IN.
Definition shift_name := shift NAME.

Definition dup_index (recs : list nvm_record) : list nvm_record :=
  recs ++ match List.find (fun r => bool_decide (r_group r = FMT_OUT) && (r_index r =? 0)
                                    && bool_decide (is_Some (r_id r))) recs with
          | Some r => [{| r_group := r_group r; r_index := r_index r; r_id := (fun i => i + 12) <$> r_id r;
                          r_plen := r_plen r; r_block := r_block r |}]
          | None => []
          end.

(** What [check_one] does with [SEAM.OLD_OUTPUT_LENGTH]: a channel-map record of an
    output port gets the length its clusters need. *)
Definition old_output_length (shape : Shape) (recs : list nvm_record) : result nvm_error (list nvm_record) :=
  let clusters := port_dict p_clusters (s_spo shape) in
  mapR (fun r =>
    if decide (r_group r = MAPS_OUT) then
      match clusters !! r_index r with
      | None => Err NKeyError
      | Some n => Ok {| r_group := r_group r; r_index := r_index r; r_id := r_id r;
                        r_plen := n * MAP_ENTRY; r_block := r_block r |}
      end
    else Ok r) recs.

(** * What the key-set check decides *)

#[export] Instance key_le_total : Total key_le.
Proof.
  intros [g i] [g' i']. unfold key_le, key_leb. cbn [fst snd].
  destruct (decide (g = g')) as [->|Hne].
  - rewrite decide_True by done. rewrite !Z.leb_le. lia.
  - rewrite decide_False by congruence. apply str_le_total.
Qed.

#[export] Instance key_le_trans : Transitive key_le.
Proof.
  intros [g1 i1] [g2 i2] [g3 i3]. unfold key_le, key_leb. cbn [fst snd].
  destruct (decide (g1 = g2)), (decide (g2 = g3)), (decide (g1 = g3)) as [|H13];
    rewrite ?Z.leb_le; try congruence; try lia.
  - subst. intros Ha Hb. exfalso. apply n. apply group_name_inj. by apply str_le_antisym.
  - apply str_le_trans.
Qed.

Lemma sorted_keys_In k ks : In k (sorted_keys ks) <-> k ∈ ks.
Proof. unfold sorted_keys. by rewrite <-list_elem_of_In, merge_sort_Permutation, elem_of_elements. Qed.

Lemma sorted_keys_nil ks : sorted_keys ks = [] <-> ks = ∅.
Proof.
  split; [|by intros ->]. intros H. apply elem_of_equiv_empty_L. intros k Hk%sorted_keys_In. by rewrite H in Hk.
Qed.

(** The keys of a group in a row sort to the row. *)
Lemma key_findings_nil mark more keys : key_findings mark more keys = [] <-> keys = [].
Proof.
  unfold key_findings. split; [|by intros ->]. intros H. apply app_eq_nil in H as [H _].
  by destruct keys.
Qed.

Lemma with_key_length k recs : length (with_key k recs) = length (List.filter (fun k' => bool_decide (k' = k)) (map r_key recs)).
Proof.
  unfold with_key. induction recs as [|r recs IH]; cbn [map List.filter]; [done|].
  destruct (bool_decide (r_key r = k)); cbn [length]; by rewrite IH.
Qed.

(** A list names a member once exactly when its elements are distinct. *)
Lemma NoDup_count {A} `{EqDecision A} (l : list A) :
  NoDup l <-> forall x, In x l -> (length (List.filter (fun y => bool_decide (y = x)) l) <= 1)%nat.
Proof.
  induction l as [|a l IH]; [split; [done|constructor]|]. rewrite NoDup_cons, IH, list_elem_of_In. split.
  - intros [Ha Hl] x. cbn [List.filter In]. intros Hx. case_bool_decide as E.
    + subst x. cbn [length]. destruct (List.filter _ l) as [|y l'] eqn:E; [cbn; lia|].
      assert (In y (y :: l')) as Hy by (by left). rewrite <-E in Hy.
      apply filter_In in Hy as [Hy ->%bool_decide_eq_true]. done.
    + apply Hl. destruct Hx; [congruence|done].
  - intros H. split.
    + intros Ha. specialize (H a (or_introl eq_refl)). cbn [List.filter] in H.
      rewrite bool_decide_eq_true_2 in H by done. cbn [length] in H.
      assert (In a (List.filter (fun y => bool_decide (y = a)) l)) as Hin
        by (apply filter_In; split; [done|by apply bool_decide_eq_true]).
      destruct (List.filter _ l); [done|cbn in H; lia].
    + intros x Hx. specialize (H x (or_intror Hx)). cbn [List.filter] in H.
      case_bool_decide; cbn [length] in H; lia.
Qed.

Lemma duplicates_nil recs : duplicates recs = [] <-> NoDup (map r_key recs).
Proof.
  unfold duplicates. rewrite flat_map_nil, NoDup_count.
  assert (forall k, zlen (with_key k recs) = Z.of_nat (length (List.filter (fun k' => bool_decide (k' = k)) (map r_key recs)))) as E
    by (intros k; unfold zlen; by rewrite with_key_length).
  split; intros H k Hk.
  - specialize (H k). rewrite sorted_keys_In, elem_of_list_to_set, list_elem_of_In, E in H.
    specialize (H Hk). destruct (Z.ltb_spec 1 (Z.of_nat (length (List.filter (fun k' => bool_decide (k' = k)) (map r_key recs))))); [done|lia].
  - rewrite sorted_keys_In, elem_of_list_to_set, list_elem_of_In in Hk. specialize (H k Hk).
    rewrite E. by rewrite (proj2 (Z.ltb_ge _ _)) by lia.
Qed.

(** The pieces of the key-set check, for a shape whose keys are derived. *)
Lemma completeness_eq shape recs keys : record_keys shape = Ok keys ->
  completeness shape recs = Ok
    ((if expected_names (s_dc shape) =? s_names shape then [] else [GNames (expected_names (s_dc shape)) (s_names shape)])
     ++ (let missing := sorted_keys (list_to_set keys ∖ list_to_set (map r_key recs)) in
         let extra := sorted_keys (list_to_set (map r_key recs) ∖ list_to_set keys) in
         (match missing, extra with _ :: _, _ :: _ => [GSwapped (shown missing) (shown extra)] | _, _ => [] end)
         ++ key_findings (fun k => GMissing k (class_of (fst k))) GMissingMore missing
         ++ key_findings GExtra GExtraMore extra)
     ++ duplicates recs).
Proof. intros H. unfold completeness. rewrite H. cbn [rbind]. by rewrite <-!app_assoc. Qed.

Lemma record_keys_dims shape keys : record_keys shape = Ok keys -> exists d, dims_of shape d.
Proof.
  unfold record_keys, expected_records, LEDGER, cardinality, dc_get. cbn [mapR fst snd rbind]. intros H.
  unfold dims_of.
  destruct (s_dc shape AUDIO_UNIT) as [au|]; [|done]. destruct (s_dc shape CLOCK_DOMAIN) as [cd|]; [|done].
  destruct (s_dc shape STREAM_INPUT) as [si|]; [|done]. destruct (s_dc shape STREAM_OUTPUT) as [so|]; [|done].
  destruct (s_dc shape STREAM_PORT_INPUT) as [pi|]; [|done]. destruct (s_dc shape STREAM_PORT_OUTPUT) as [po|]; [|done].
  by exists (Build_dims au cd si so pi po).
Qed.

Lemma record_keys_NoDup shape keys : record_keys shape = Ok keys -> NoDup keys.
Proof.
  intros H. destruct (record_keys_dims _ _ H) as [d D]. rewrite (record_keys_eq _ _ D) in H.
  apply Ok_inj in H as <-. apply required_keys_NoDup.
Qed.

Lemma completeness_nil shape recs keys :
  record_keys shape = Ok keys ->
  completeness shape recs = Ok [] <->
  expected_names (s_dc shape) = s_names shape /\ map r_key recs ≡ₚ keys.
Proof.
  intros HK. rewrite (completeness_eq _ _ _ HK). pose proof (record_keys_NoDup _ _ HK) as HN.
  cbv zeta. split.
  - intros H%Ok_inj. rewrite !app_nil, !key_findings_nil, !sorted_keys_nil, duplicates_nil in H.
    destruct H as (Hn & (_ & Hm & Hx) & Hd). split; [by destruct (Z.eqb_spec (expected_names (s_dc shape)) (s_names shape))|].
    apply NoDup_Permutation; [done..|]. intros k. split; intros Hk; apply dec_stable; intros Hni.
    + assert (k ∈ (∅ : gset Key)) as []%not_elem_of_empty. rewrite <-Hx. apply elem_of_difference. by rewrite !elem_of_list_to_set.
    + assert (k ∈ (∅ : gset Key)) as []%not_elem_of_empty. rewrite <-Hm. apply elem_of_difference. by rewrite !elem_of_list_to_set.
  - intros [Hn Hp].
    assert (list_to_set (map r_key recs) = (list_to_set keys : gset Key)) as ->
      by (apply set_eq; intros k; by rewrite !elem_of_list_to_set, Hp).
    rewrite Hn, Z.eqb_refl, difference_diag_L. change (sorted_keys ∅) with (@nil Key).
    rewrite (proj2 (duplicates_nil recs)); [done|]. by rewrite Hp.
Qed.

(** * What the record checks decide *)

Definition row_fits (fixed : Contract) (r : nvm_record) : Prop :=
  (exists rid, r_id r = Some rid /\ rid < ID_SPACE fixed) /\ r_plen r <= MAX_PAYLOAD.

Lemma mark_nil (b : bool) (f : gate_finding) : (if b then [f] else []) = [] <-> b = false.
Proof. by destruct b. Qed.

Lemma record_step_nil fixed st r :
  rs_findings (record_step fixed st r) = [] <->
  rs_findings st = [] /\ row_fits fixed r /\ (forall rid, r_id r = Some rid -> rs_seen st !! rid = None).
Proof.
  unfold record_step, row_fits. destruct (r_id r) as [rid|]; cbn [rs_findings].
  - rewrite !app_nil, !mark_nil, Z.leb_gt, Z.ltb_ge. destruct (rs_seen st !! rid) eqn:E; split.
    + by intros (_ & _ & [=] & _).
    + intros (_ & _ & H). by rewrite (H rid eq_refl) in E.
    + intros (? & ? & _ & ?). split_and!; [done|by exists rid|done|by intros ? [= <-]].
    + intros (? & [(? & [= <-] & ?) ?] & _). done.
  - rewrite app_nil. split; [by intros [_ [=]]|]. by intros (_ & [(? & [=] & _) _] & _).
Qed.

Lemma fold_records_nil fixed recs st :
  rs_findings (fold_left (record_step fixed) recs st) = [] <->
  rs_findings st = [] /\ (forall r, In r recs -> row_fits fixed r) /\ NoDup (map r_id recs)
  /\ (forall r rid, In r recs -> r_id r = Some rid -> rs_seen st !! rid = None).
Proof.
  revert st. induction recs as [|r recs IH]; intros st; cbn [fold_left map].
  - split; [|by intros (? & _)]. intros H. split_and!; [done|by intros ? []|constructor|by intros ? ? []].
  - rewrite IH, record_step_nil, NoDup_cons, list_elem_of_In, in_map_iff. split.
    + intros ((Hf & Hr & Hs) & Hrs & Hn & Hseen). pose proof Hr as [(rid & Hid & _) _].
      unfold record_step in Hseen. rewrite Hid in Hseen. cbn [rs_seen] in Hseen.
      split_and!; [done|by intros r' [<-|?]; auto| |done|].
      * intros (r' & E & Hr'). rewrite Hid in E. specialize (Hseen r' rid Hr' E).
        by rewrite lookup_insert_eq in Hseen.
      * intros r' rid' [<-|Hr'] E; [by apply Hs|]. specialize (Hseen r' rid' Hr' E).
        apply lookup_insert_None in Hseen as [? _]. done.
    + intros (Hf & Hrs & [Hni Hn] & Hseen). pose proof (Hrs r (or_introl eq_refl)) as Hr.
      split_and!; [done..| | |done|].
      * intros rid Hid. by apply (Hseen r); [left|].
      * intros r' Hr'. apply Hrs. by right.
      * intros r' rid' Hr' E. pose proof Hr as [(rid & Hid & _) _].
        unfold record_step. rewrite Hid. cbn [rs_seen]. apply lookup_insert_None. split; [by apply (Hseen r'); [right|]|].
        intros ->. apply Hni. exists r'. by rewrite Hid.
Qed.

(** The record checks are exact: they find nothing just when every row has an id
    inside the namespace, no two rows share one, and every payload is one the
    port delimits. *)
Lemma record_findings_nil fixed recs :
  record_findings fixed recs = [] <->
  (forall r, In r recs -> row_fits fixed r) /\ NoDup (map r_id recs).
Proof.
  unfold record_findings. rewrite fold_records_nil. cbn [rs_findings rs_seen]. split; [tauto|].
  intros [? ?]. split_and!; [done..|]. intros. apply lookup_empty.
Qed.

(** C31: The checks of the key set and of the ids are exact.  For a shape whose required
    keys the ledger derives and any list of rows whatever, the two checks find
    nothing just when the two derivations of the name count agree, the rows carry
    each required key once and no other, no two rows share an id, and each row
    has an id inside the namespace and a payload the port can delimit.  Counting
    the rows of each group would not do: a shifted index is always seen. *)
Theorem static_checks_exact fixed shape recs keys :
  record_keys shape = Ok keys ->
  completeness shape recs = Ok [] /\ record_findings fixed recs = [] <->
  expected_names (s_dc shape) = s_names shape /\ map r_key recs ≡ₚ keys
  /\ NoDup (map r_id recs)
  /\ (forall r, In r recs -> (exists rid, r_id r = Some rid /\ rid < ID_SPACE fixed) /\ r_plen r <= MAX_PAYLOAD).
Proof. intros HK. rewrite (completeness_nil _ _ _ HK), record_findings_nil. unfold row_fits. tauto. Qed.

(** * The conformance floor *)

Lemma conformant_floor_eq shape d : dims_of shape d -> shape_ok shape ->
  conformant_floor (s_names shape) (s_dc shape) = Ok (zlen (required shape d)).
Proof.
  intros D S. unfold conformant_floor. rewrite (expected_records_eq shape d D). cbn [rbind].
  unfold required. rewrite keys_of_cards_length by (intros gc; by apply cards_nonneg).
  rewrite map_app, sum_z_app, (so_names _ S). unfold sum_z. cbn [map foldr snd]. f_equal. lia.
Qed.

(** An allocation of ids to the keys of a shape in a namespace of [space]: one
    id for each key, no id twice. *)
Definition allocates (space : Z) (keys : list Key) (alloc : Key -> Z) : Prop :=
  (forall k, In k keys -> 0 <= alloc k < space)
  /\ (forall k k', In k keys -> In k' keys -> alloc k = alloc k' -> k = k').

Lemma allocates_bound space keys alloc : NoDup keys -> 0 <= space -> allocates space keys alloc -> zlen keys <= space.
Proof.
  intros Hn Hs [Hr Hi]. rewrite <-(zlen_map alloc).
  assert (NoDup (map alloc keys)) as Hna.
  { clear Hr. induction Hn as [|k keys Hk Hn IH]; cbn [map]; constructor.
    - rewrite list_elem_of_In, in_map_iff. intros (k' & E & Hk'). apply Hk, list_elem_of_In.
      by rewrite <-(Hi k' k (or_intror Hk') (or_introl eq_refl) E).
    - apply IH. intros; apply Hi; auto; by right. }
  assert (length (map alloc keys) <= length (zrange 0 (Z.to_nat space)))%nat as H.
  { apply submseteq_length, NoDup_submseteq; [done|]. intros z. rewrite !list_elem_of_In, in_map_iff, zrange_In.
    intros (k & <- & Hk%Hr). lia. }
  rewrite zrange_length in H. unfold zlen. lia.
Qed.

(** A place for each element of a list. *)
Fixpoint place {A} `{EqDecision A} (x : A) (l : list A) : Z :=
  match l with [] => 0 | y :: l' => if decide (x = y) then 0 else 1 + place x l' end.

Lemma place_spec {A} `{EqDecision A} (x : A) l : In x l -> 0 <= place x l < zlen l.
Proof.
  induction l as [|y l IH]; cbn [place In]; [done|]. rewrite zlen_cons. pose proof (zlen_nonneg l).
  case_decide; [lia|]. intros [->|Hx]; [done|]. specialize (IH Hx). lia.
Qed.

Lemma place_inj {A} `{EqDecision A} (x y : A) l : In x l -> In y l -> place x l = place y l -> x = y.
Proof.
  induction l as [|z l IH]; cbn [place In]; [done|]. intros Hx Hy.
  case_decide as E1; case_decide as E2; [congruence| | |].
  - destruct Hy as [->|Hy]; [done|]. pose proof (place_spec y l Hy). lia.
  - destruct Hx as [->|Hx]; [done|]. pose proof (place_spec x l Hx). lia.
  - intros E. apply IH; [by destruct Hx|by destruct Hy|lia].
Qed.

(** The conformance check is exact: it reports a shape just when no allocation
    whatever gives each item its own record id in the namespace, so a finding is
    a proof that the record contract has to change and its absence that it need
    not. *)
Theorem conformance_exact fixed shape keys floor :
  shape_ok shape -> 0 <= ID_SPACE fixed -> record_keys shape = Ok keys ->
  conformant_floor (s_names shape) (s_dc shape) = Ok floor ->
  conformance_findings fixed [(s_stem shape, floor)] = [] <-> exists alloc, allocates (ID_SPACE fixed) keys alloc.
Proof.
  intros S Hs HK HF. destruct (shape_dims _ S) as [d D]. pose proof (record_keys_NoDup _ _ HK) as HN.
  rewrite (record_keys_eq _ _ D) in HK. apply Ok_inj in HK as <-.
  rewrite (conformant_floor_eq _ _ D S) in HF. apply Ok_inj in HF as <-. fold (required shape d) in *.
  unfold conformance_findings. cbn [flat_map fst snd]. rewrite app_nil_r. split.
  - destruct (Z.ltb_spec (ID_SPACE fixed) (zlen (required shape d))); [done|]. intros _.
    exists (fun k => place k (required shape d)). split.
    + intros k Hk. pose proof (place_spec _ _ Hk). lia.
    + intros k k'. apply place_inj.
  - intros [alloc Ha]. by rewrite (proj2 (Z.ltb_ge _ _)) by (by eapply allocates_bound).
Qed.
