(* ===== verification/NvmGateImage.v ===== *)
(** The gate's image checks on a good shape ([check_image] of
    [scripts/check_nvm_record_space.py], [check_output_maps] of
    [scripts/nvm_map_checks.py]): how an image decodes when one record of a saved
    state is erased, dropped, torn or written at another length, and that the
    checks built on those images find nothing when the shape is good. *)
From S2P Require Import Prelude Unicode Text Crc NvmContract NvmJournal NvmShape NvmMaps NvmGate.

(** * Saved states with a record erased or dropped *)

Lemma pad_mono a b : a <= b -> a + pad_of a <= b + pad_of b.
Proof. unfold pad_of, ALIGN. intros. Z.div_mod_to_equations. lia. Qed.


Lemma max_z_default d l : d <= max_z d l.
Proof. unfold max_z. induction l as [|y l IH]; cbn [foldr]; lia. Qed.

Section Variants.
Context (donor : Donor) (expect : gmap Key Z) (content : Key -> option bytes) (frames : gmap Z bytes).
Hypothesis HS : saved_state donor expect content frames.

Let base := d_base donor.
Let eb := entry_bytes base (d_layout donor) expect.

Lemma saved_rid_inj k k' : is_Some (expect !! k) -> is_Some (expect !! k') ->
  rid_of_key k base = rid_of_key k' base -> k = k'.
Proof using All.
  intros [n Hn] [n' Hn']. apply (rid_inj base); [apply HS|by eapply HS|by eapply HS].
Qed.

Lemma saved_frame k : is_Some (expect !! k) -> frames !! rid_of_key k base = Some (eb (k, content k)).
Proof using All. intros Hk. apply (ss_frames _ _ _ _ HS). by exists k. Qed.

(** The frame of a required record has its header and its length. *)
Lemma entry_length k n : expect !! k = Some n -> zlen (eb (k, content k)) = REC_HDR + n.
Proof using All.
  intros Hn. unfold eb, entry_bytes. cbn [fst snd]. destruct (content k) as [p|] eqn:Hp.
  - rewrite record_frame_length. destruct (ss_content _ _ _ _ HS _ _ _ Hn Hp) as [_ ->]. done.
  - rewrite Hn. apply erased_record_length. by eapply HS.
Qed.

(** One record written anew, or erased. *)
Lemma saved_set key o : is_Some (expect !! key) ->
  (forall p, o = Some p -> Forall is_byte p /\ expect !! key = Some (zlen p)) ->
  saved_state donor expect (fun k => if decide (k = key) then o else content k)
    (<[rid_of_key key base := eb (key, o)]> frames).
Proof using All.
  intros Hkey Ho. split; [apply HS..| |].
  - intros k n p Hn. case_decide as E; [subst k|by apply (ss_content _ _ _ _ HS)].
    intros [Hp Hz]%Ho. split; [done|congruence].
  - intros r b. rewrite lookup_insert_Some, (ss_frames _ _ _ _ HS). split.
    + intros [[<- <-]|[Hne (k & Hk & -> & ->)]].
      * exists key. rewrite decide_True by done. done.
      * exists k. rewrite decide_False by (by intros ->). done.
    + intros (k & Hk & -> & ->). case_decide as E; [left; by subst k|right].
      split; [|by exists k]. intros Hr. apply E. symmetry. by apply saved_rid_inj.
Qed.

Lemma saved_erase key : is_Some (expect !! key) ->
  saved_state donor expect (fun k => if decide (k = key) then None else content k)
    (<[rid_of_key key base := erased_record (default 0 (expect !! key))]> frames).
Proof using All. intros Hkey. by apply (saved_set key None). Qed.

Lemma saved_blank :
  saved_state donor expect (fun _ => None) ((fun fr => erased_record (plen_of_frame fr)) <$> frames).
Proof using All.
  split; [apply HS..|done|]. intros r b. rewrite lookup_fmap, fmap_Some.
  assert (forall k n, expect !! k = Some n -> erased_record (plen_of_frame (eb (k, content k))) = eb (k, None)) as He.
  { intros k n Hn. unfold plen_of_frame. rewrite (entry_length k n Hn), Z.add_simpl_l. unfold eb, entry_bytes. cbn [fst snd].
    by rewrite Hn. }
  split.
  - intros (fr & (k & [n Hn] & -> & ->)%(ss_frames _ _ _ _ HS) & ->). exists k.
    split_and!; [by exists n|done|]. by apply (He k n).
  - intros (k & [n Hn] & -> & ->). exists (eb (k, content k)). rewrite (He k n Hn).
    split; [|done]. apply saved_frame. by exists n.
Qed.

Lemma saved_drop key : is_Some (expect !! key) -> saved_state donor (delete key expect) content (delete (rid_of_key key base) frames).
Proof using All.
  intros Hkey. split; [apply HS..| | |].
  - intros k n [_ Hn]%lookup_delete_Some. by eapply HS.
  - intros k n p [_ Hn]%lookup_delete_Some. by apply (ss_content _ _ _ _ HS).
  - assert (forall k, k <> key -> eb (k, content k) = entry_bytes base (d_layout donor) (delete key expect) (k, content k)) as He
      by (intros k Hk; unfold eb, entry_bytes; cbn [fst snd]; by rewrite lookup_delete_ne).
    intros r b. rewrite lookup_delete_Some, (ss_frames _ _ _ _ HS). split.
    + intros [Hr (k & Hk & -> & ->)]. assert (k <> key) by (by intros ->).
      exists k. rewrite lookup_delete_ne by done. split_and!; [done..|by apply He].
    + intros (k & [n [Hk Hn]%lookup_delete_Some] & -> & ->). split.
      * intros Hr. apply Hk.
        symmetry. apply saved_rid_inj; [by exists n|done|by rewrite Hr].
      * exists k. split_and!; [by exists n|done|]. symmetry. by apply He.
Qed.

Lemma area_length_drop key n : expect !! key = Some n ->
  area_length expect = REC_HDR + n + area_length (delete key expect).
Proof using Type.
  intros Hn. unfold area_length. rewrite <-(insert_delete_id expect key n Hn) at 1.
  rewrite map_to_list_insert by apply lookup_delete_eq. reflexivity.
Qed.

Lemma saved_size : size frames = size expect.
Proof using All.
  rewrite (frames_size _ _ _ _ HS). unfold entries_of. rewrite length_map. unfold required_order.
  by rewrite merge_sort_Permutation, length_map, length_map_to_list.
Qed.

(** The image of these records with other octets in the place of one. *)
Section Replaced.
Context (key : Key) (n : Z) (bad : bytes).
Hypothesis Hn : expect !! key = Some n.

Let bf := <[rid_of_key key base := bad]> frames.

Definition entries_at (rks : list (Z * Key)) : list entry := map (fun rk => (snd rk, content (snd rk))) rks.

Lemma order_split : exists before after,
  required_order expect base = before ++ (rid_of_key key base, key) :: after
  /\ entries_of donor expect content = entries_at before ++ (key, content key) :: entries_at after.
Proof using All.
  assert (In (rid_of_key key base, key) (required_order expect base)) as Hin
    by (apply required_order_In; split; [by exists n|done]).
  apply in_split in Hin as (l1 & l2 & Hl). exists l1, l2. split; [done|].
  unfold entries_of. fold base. rewrite Hl, map_app. reflexivity.
Qed.

Lemma replaced_ids : sorted_z (map fst (map_to_list bf)) = map fst (required_order expect base).
Proof using All.
  unfold base. rewrite <-(frames_rids _ _ _ _ HS). apply sorted_z_unique.
  - unfold sorted_z. apply StronglySorted_merge_sort; apply _.
  - transitivity (map fst (map_to_list frames)); [|unfold sorted_z; by rewrite merge_sort_Permutation].
    apply NoDup_Permutation; [apply NoDup_fst_map_to_list..|]. intros r.
    assert (forall m : gmap Z bytes, r ∈ map fst (map_to_list m) <-> r ∈ dom m) as E.
    { intros m. rewrite elem_of_dom. split.
      - intros ([? b] & -> & Hin)%list_elem_of_fmap. apply elem_of_map_to_list in Hin. by exists b.
      - intros [b Hb]. apply list_elem_of_fmap. exists (r, b). by rewrite elem_of_map_to_list. }
    rewrite !E. unfold bf. rewrite dom_insert_lookup_L; [done|]. eexists. apply saved_frame. by exists n.
Qed.

(** Beside the replaced record the order has no other row of its id. *)
Lemma replaced_other before after rk : required_order expect base = before ++ (rid_of_key key base, key) :: after ->
  In rk (before ++ after) -> default [] (bf !! fst rk) = eb (snd rk, content (snd rk)).
Proof using All.
  intros Hl Hrk. destruct rk as [r k]. cbn [fst snd].
  assert (In (r, k) (required_order expect base)) as [Hk ->]%required_order_In.
  { rewrite Hl, in_app_iff. cbn [In]. apply in_app_iff in Hrk. tauto. }
  unfold bf. rewrite lookup_insert_ne; [by rewrite saved_frame|]. intros E.
  assert (k = key) as -> by (apply saved_rid_inj; [done|by exists n|done]).
  pose proof (required_order_NoDup expect base) as HN. rewrite Hl in HN.
  apply list_elem_of_In in Hrk.
  rewrite <-Permutation_middle in HN. apply NoDup_cons in HN as [HN _]. done.
Qed.

Lemma replaced_area before after : required_order expect base = before ++ (rid_of_key key base, key) :: after ->
  area_of bf = concat (map eb (entries_at before)) ++ bad ++ concat (map eb (entries_at after)).
Proof using All.
  intros Hl. pose proof (replaced_other before after) as Ho. unfold area_of.
  rewrite replaced_ids, Hl, !map_app, concat_app. cbn [map concat fst].
  assert (bf !! rid_of_key key base = Some bad) as -> by apply lookup_insert_eq. cbn [default from_option id].
  unfold entries_at. rewrite !map_map. f_equal; [|f_equal]; f_equal; apply map_ext_in; intros rk Hrk;
    apply Ho; try done; apply in_app_iff; tauto.
Qed.

Lemma replaced_size : size bf = size expect.
Proof using All.
  unfold bf. rewrite map_size_insert_Some by (eexists; apply saved_frame; by exists n). apply saved_size.
Qed.
End Replaced.

(** The last id of a saved state is that of a required key. *)
Lemma saved_last : expect <> ∅ -> exists key n, expect !! key = Some n
  /\ last_id frames = Ok (rid_of_key key base)
  /\ forall k, is_Some (expect !! k) -> rid_of_key k base <= rid_of_key key base.
Proof using All.
  intros Hne. unfold last_id.
  assert (forall r, In r (map fst (map_to_list frames)) <-> exists k, is_Some (expect !! k) /\ r = rid_of_key k base) as Hin.
  { intros r. rewrite in_map_iff. split.
    - intros ([r' b] & <- & Hb%list_elem_of_In%elem_of_map_to_list). apply (ss_frames _ _ _ _ HS) in Hb as (k & ? & ? & _).
      by exists k.
    - intros (k & Hk & ->). exists (rid_of_key k base, eb (k, content k)). split; [done|].
      by apply list_elem_of_In, elem_of_map_to_list, saved_frame. }
  destruct (map fst (map_to_list frames)) as [|r rest].
  - apply map_choose in Hne as (k & n & Hk).
    destruct (proj2 (Hin (rid_of_key k base))). by exists k; split; [exists n|].
  - assert (In (max_z r rest) (r :: rest)) as (key & [n Hn] & Hk)%Hin.
    { destruct (max_z_In r rest) as [->|?]; [by left|by right]. }
    exists key, n. split_and!; [done|by rewrite <-Hk|]. intros k Hkk. rewrite <-Hk.
    destruct (proj2 (Hin (rid_of_key k base))) as [->|Hr]; [by exists k|apply max_z_default|by apply max_z_ge].
Qed.

(** What an image of these records decodes to. *)
Context (ident : Ident).
Hypothesis Hseq : 0 <= i_seq ident < 2 ^ 32.
Hypothesis He : 0 <= i_entity_id ident < 2 ^ 64.
Hypothesis Hm : 0 <= i_model_id ident < 2 ^ 64.
Hypothesis Hfit : KLJ2_HDR + (area_length expect + pad_of (area_length expect)) + KLJ2_TRAILER <= 65536.

Definition decoded (fs : gmap Z bytes) : result nvm_error (verdict * gmap Key bytes) :=
  let* bo := klj2_assemble fs donor ident in Ok (klj2_decode SEAM (fst bo) donor ident expect).

Lemma decoded_saved : exists applied, decoded frames = Ok (VD_OK, applied)
  /\ forall k, applied !! k = match expect !! k with Some _ => content k | None => None end.
Proof using All.
  destruct (assemble_total donor ident _ _ _ HS Hseq Hfit) as (blob & offs & HA & HZ).
  destruct (decode_assembled _ _ _ _ _ _ _ HS HA ltac:(lia) He Hm) as (applied & Hd & Hk).
  exists applied. unfold decoded. rewrite HA. cbn [rbind fst]. by rewrite (proj2 (klj2_decode_OK _ _ _ _ _ _) Hd).
Qed.

(** An image that leaves one required record out is refused, and nothing of it is applied. *)
Lemma decoded_drop key : is_Some (expect !! key) ->
  exists v, decoded (delete (rid_of_key key base) frames) = Ok (v, ∅) /\ v <> VD_OK.
Proof using All.
  intros Hkey. pose proof (saved_drop key Hkey) as HS'. destruct Hkey as [n Hn].
  destruct (ss_keys _ _ _ _ HS _ _ Hn) as [_ Hn0].
  pose proof (area_length_drop key n Hn) as HA.
  assert (area_length (delete key expect) <= area_length expect) as Hle by (rewrite HA; unfold REC_HDR; lia).
  apply pad_mono in Hle.
  destruct (assemble_total donor ident _ _ _ HS' Hseq ltac:(lia)) as (blob & offs & Has & HZ).
  destruct (assembled_image _ _ _ _ _ Has) as (_ & _ & _ & _ & _ & H3 & _ & _ & Hb); [|lia|done..|].
  { rewrite (saved_area _ _ _ _ HS'). apply (entries_bytes _ _ _ _ HS'). }
  unfold decoded. rewrite Has. cbn [rbind fst]. unfold klj2_decode.
  destruct (decode_image SEAM blob donor ident expect) as [applied|v] eqn:E.
  - exfalso. apply decode_image_count in E; [|done|intros k m Hk; by eapply HS].
    rewrite E in H3. rewrite map_size_delete_Some in H3.
    + rewrite saved_size in H3. assert (size expect <> 0%nat); [|lia].
      apply map_size_non_empty_iff. intros ->. by rewrite lookup_empty in Hn.
    + eexists. apply saved_frame. by exists n.
  - exists v. split; [done|]. intros ->. by apply (decode_image_not_ok SEAM blob donor ident expect).
Qed.


(** The frames take eight octets each, whatever the length of one of them. *)
Lemma replaced_room key n : expect !! key = Some n ->
  8 * Z.of_nat (size frames) <= area_length expect - (REC_HDR + n) + REC_HDR.
Proof using HS.
  intros Hn. pose proof (saved_drop key ltac:(by exists n)) as HS'.
  destruct (entries_area _ _ _ _ HS') as [_ H8]. unfold zlen in H8. rewrite <-(frames_size _ _ _ _ HS') in H8.
  rewrite map_size_delete_Some in H8 by (eexists; apply saved_frame; by exists n).
  rewrite (area_length_drop key n Hn). unfold REC_HDR in *. lia.
Qed.

(** The image is built, and its container is sound. *)
Lemma replaced_image key n bad before after (bf := <[rid_of_key key base := bad]> frames)
    (a := area_length expect - (REC_HDR + n) + zlen bad) :
  expect !! key = Some n -> Forall is_byte bad -> REC_HDR <= zlen bad ->
  KLJ2_HDR + (a + pad_of a) + KLJ2_TRAILER <= 65536 ->
  required_order expect base = before ++ (rid_of_key key base, key) :: after ->
  entries_of donor expect content = entries_at before ++ (key, content key) :: entries_at after ->
  exists blob offs hdr suf, klj2_assemble bf donor ident = Ok (blob, offs)
    /\ blob = hdr ++ concat (map eb (entries_at before)) ++ bad ++ suf
    /\ zlen hdr = KLJ2_HDR /\ check_container blob donor ident = Ok tt
    /\ word_at blob 3 = Z.of_nat (length (entries_at before) + (1 + length after)) /\ word_at blob 4 = zlen blob
    /\ KLJ2_HDR + zlen (concat (map eb (entries_at before))) + zlen bad <= zlen blob - KLJ2_TRAILER.
Proof using All.
  intros Hn Hbad Hz8 Hfit' Hl Hes. pose proof (replaced_area key n bad Hn before after Hl) as HA. fold bf in HA.
  pose proof (replaced_size key n bad Hn) as Hsz. fold bf in Hsz.
  destruct (entries_area _ _ _ _ HS) as [Hlen _]. pose proof (entries_bytes _ _ _ _ HS) as Hb.
  assert (Z.of_nat (size bf) = zlen (entries_of donor expect content)) as Hsz'
    by (by rewrite Hsz, <-saved_size, (frames_size _ _ _ _ HS)).
  rewrite Hes in Hlen, Hb, Hsz'. fold base in Hlen, Hb. fold eb in Hlen, Hb.
  rewrite map_app, concat_app in Hlen, Hb. cbn [map concat] in Hlen, Hb.
  rewrite !zlen_app, (entry_length key n Hn) in Hlen. rewrite zlen_app, zlen_cons in Hsz'.
  rewrite !Forall_app in Hb. destruct Hb as (Hb1 & _ & Hb2).
  assert (zlen (area_of bf) = a) as HZ by (unfold a; rewrite HA, !zlen_app; lia).
  assert (Forall is_byte (area_of bf)) as Hab by (rewrite HA, !Forall_app; done).
  destruct (assemble_fits donor ident bf) as (blob & offs & Has & Hblob); [apply HS|done| |by rewrite HZ|].
  { pose proof (replaced_room key n Hn) as Hroom. rewrite <-saved_size in Hsz. rewrite HZ, Hsz. unfold a. lia. }
  rewrite HZ in Hblob.
  destruct (assembled_image _ _ _ _ _ Has Hab ltac:(lia) He Hm) as (hdr & suf & Hbl & Hh & Hc & H3 & H4 & _ & _).
  exists blob, offs, hdr, (concat (map eb (entries_at after)) ++ suf). rewrite HA, <-!app_assoc in Hbl.
  pose proof (Z.mod_pos_bound (- a) ALIGN ltac:(done)) as Hpp. fold (pad_of a) in Hpp.
  pose proof (zlen_nonneg (concat (map eb (entries_at after)))).
  split_and!; try done.
  - rewrite H3, Hsz'. unfold zlen, entries_at. rewrite !length_map. lia.
  - unfold REC_HDR in *. lia.
Qed.

(** If the record loop refuses those octets where they stand, the image is
    refused: every record before them is read. *)
Lemma decoded_replaced key n bad (a := area_length expect - (REC_HDR + n) + zlen bad) :
  expect !! key = Some n -> Forall is_byte bad -> REC_HDR <= zlen bad ->
  KLJ2_HDR + (a + pad_of a) + KLJ2_TRAILER <= 65536 ->
  (forall blob fin st, zslice (ds_pos st) (zlen bad) blob = bad -> 0 <= ds_pos st -> ds_pos st + zlen bad <= fin ->
     next_required (required_order expect base) (ds_last st) = Some (rid_of_key key base, key) ->
     ds_last st < rid_of_key key base ->
     decode_record SEAM blob fin donor expect (required_order expect base) st = Err VD_REC) ->
  decoded (<[rid_of_key key base := bad]> frames) = Ok (VD_REC, ∅).
Proof using All.
  intros Hn Hbad Hz8 Hfit' Hrec. destruct (order_split key n bad Hn) as (before & after & Hl & Hes).
  destruct (replaced_image key n bad before after Hn Hbad Hz8 Hfit' Hl Hes)
    as (blob & offs & hdr & suf & Has & Hbl & Hh & Hc & H3 & H4 & Hfin).
  pose proof (entries_ascending _ _ _ _ HS) as Hasc. rewrite Hes in Hasc.
  pose proof (entries_ok _ _ _ _ HS) as Hok. rewrite Hes in Hok.
  set (es0 := entries_at before) in *. pose proof (zlen_nonneg (concat (map eb es0))) as Hz0.
  unfold decoded. rewrite Has. cbn [rbind fst]. unfold klj2_decode, decode_image. rewrite Hc. cbn [rbind].
  cbv zeta. rewrite H3, Nat2Z.id, decode_records_app, H4. set (fin := zlen blob - KLJ2_TRAILER) in *.
  assert (ascending donor es0) as Hasc0 by (by eapply StronglySorted_app_1_l).
  assert (forall e, In e es0 -> In e (es0 ++ (key, content key) :: entries_at after)) as Hsub
    by (intros; apply in_app_iff; by left).
  rewrite (decode_records_complete blob fin donor expect es0 start); cycle 1.
  - done.
  - intros k m Hkm. by eapply HS.
  - eapply (encoded_chain blob fin donor expect es0 hdr (bad ++ suf) []); try done.
    + cbn [start ds_pos]. fold base eb. unfold REC_HDR in *. lia.
    + rewrite (entries_order _ _ _ _ HS), Hes, map_app. reflexivity.
    + intros e Hin. apply (Hok e), Hsub, Hin.
  - cbn [rbind length Nat.add decode_records].
    destruct (run_last donor expect es0 start Hasc0) as (_ & Hle & Hlt); [intros e Hin; by apply Hok, Hsub|].
    assert (ds_last (run donor expect start es0) < rid_of_key key base) as Hkl.
    { apply Hlt; [apply (Hok (key, content key)), in_app_iff; right; by left|].
      intros e Hin. apply (StronglySorted_app_1_elem_of _ _ _ e (key, content key) Hasc); [by apply list_elem_of_In|by left]. }
    fold base. rewrite Hrec; [done|rewrite run_pos; cbn [start ds_pos]; fold base eb..| |done].
    + rewrite Hbl, app_assoc. rewrite (zslice_skip _ _ (KLJ2_HDR + zlen (concat (map eb es0)))) by (rewrite ?zlen_app; lia).
      rewrite Z.sub_diag. by apply zslice_hit.
    + unfold KLJ2_HDR. lia.
    + lia.
    + rewrite Hl. apply next_required_app; [|done]. intros rk Hrk.
      assert (In (snd rk, content (snd rk)) es0) as Hin by (apply in_map_iff; by exists rk).
      apply Hle in Hin. unfold rid_of in Hin. cbn [fst] in Hin. destruct rk as [r k].
      assert (In (r, k) (required_order expect base)) as [_ ->]%required_order_In; [|done].
      rewrite Hl. apply in_app_iff. by left.
Qed.

Lemma torn_length n : 0 <= n -> zlen (torn_span (erased_record n)) = REC_HDR + n.
Proof using Type.
  intros. unfold torn_span. rewrite zlen_app, erased_record_length by done.
  rewrite zslice_length; rewrite ?erased_record_length; unfold REC_HDR; rewrite ?zlen_cons, ?zlen_nil; clear -H; lia.
Qed.

(** The record loop refuses a torn span, erased but for its last octet, where it
    stands. *)
Lemma torn_record key n blob fin st (torn := torn_span (erased_record n)) :
  expect !! key = Some n -> 0 <= n ->
  zslice (ds_pos st) (zlen torn) blob = torn -> 0 <= ds_pos st -> ds_pos st + zlen torn <= fin ->
  next_required (required_order expect base) (ds_last st) = Some (rid_of_key key base, key) ->
  decode_record SEAM blob fin donor expect (required_order expect base) st = Err VD_REC.
Proof using Type.
  intros Hn Hk Hs Hp Hf Hnx. pose proof (torn_length n Hk) as Hz. fold torn in Hz.
  unfold decode_record, raise_if. rewrite (proj2 (Z.ltb_ge _ _)) by lia. cbn [rbind].
  rewrite <-(Z.add_0_r (ds_pos st)) at 1.
  rewrite (zslice_at _ _ _ 0 REC_HDR Hs) by (unfold REC_HDR in *; lia).
  destruct (decide (n = 0)) as [E|Hne].
  - assert (torn = [255; 255; 255; 255; 255; 255; 255; 0]) as Ht by (unfold torn; by rewrite E). rewrite Ht in *.
    change (all_erased (zslice 0 REC_HDR [255; 255; 255; 255; 255; 255; 255; 0])) with false.
    unfold decode_framed. cbv zeta. rewrite <-(Z.add_0_r (ds_pos st)) at 1.
    rewrite (rd_be_at _ _ _ 0 2 Hs) by (change (zlen _) with 8; lia). reflexivity.
  - assert (torn = erased_record 0 ++ (repeat ERASED (Z.to_nat (n - 1)) ++ [0])) as Ht.
    { unfold torn, torn_span. rewrite erased_record_length by lia. unfold erased_record.
      rewrite app_assoc, <-repeat_app. f_equal.
      replace (Z.to_nat (REC_HDR + n)) with (Z.to_nat (REC_HDR + n - 1) + 1)%nat by (unfold REC_HDR; lia).
      rewrite repeat_app, zslice_hit.
      - f_equal. unfold REC_HDR. lia.
      - unfold zlen. rewrite repeat_length. unfold REC_HDR. lia. }
    rewrite Ht. rewrite zslice_hit by (by rewrite erased_record_length).
    replace (all_erased (erased_record 0)) with true by reflexivity.
    unfold decode_erased, raise_if. rewrite Hnx, Hn. cbn [default from_option id]. cbv zeta.
    rewrite (proj2 (Z.ltb_ge _ _)) by lia. cbn [rbind].
    rewrite (zslice_at _ _ _ REC_HDR n Hs) by (unfold REC_HDR in *; lia).
    rewrite Ht, zslice_app_hit by (first [by rewrite erased_record_length | rewrite zlen_app; unfold zlen; rewrite repeat_length; cbn [length]; lia]).
    unfold all_erased. rewrite forallb_app. cbn [forallb]. change (ERASED =? 0) with false.
    by rewrite andb_false_r.
Qed.

(** An image one of whose records is torn is refused as a bad record. *)
Lemma decoded_torn key n : expect !! key = Some n ->
  decoded (<[rid_of_key key base := torn_span (erased_record n)]> frames) = Ok (VD_REC, ∅).
Proof using All.
  intros Hn. destruct (ss_keys _ _ _ _ HS _ _ Hn) as [_ Hk]. pose proof (torn_length n ltac:(lia)) as Hz.
  apply (decoded_replaced key n); [done| |unfold REC_HDR in *; lia| |].
  - unfold torn_span. apply Forall_app. split; [apply Forall_zslice, erased_record_bytes|by repeat constructor].
  - rewrite Hz. by replace (area_length expect - (REC_HDR + n) + (REC_HDR + n)) with (area_length expect) by lia.
  - intros. apply (torn_record key n); first [done | lia].
Qed.

(** The record loop refuses a sound frame whose length is not the one required. *)
Lemma wrong_length_record key n p blob fin st (rid := rid_of_key key base) :
  let bad := record_frame rid p (d_layout donor) in
  expect !! key = Some n -> zlen p <> n -> Forall is_byte p -> zlen p < 65536 ->
  zslice (ds_pos st) (zlen bad) blob = bad -> 0 <= ds_pos st -> ds_pos st + zlen bad <= fin -> ds_last st < rid ->
  decode_record SEAM blob fin donor expect (required_order expect base) st = Err VD_REC.
Proof using HS.
  intros bad Hn Hne Hpb Hpl Hs Hp Hf Hlast. pose proof (ss_layout _ _ _ _ HS) as Hlay.
  destruct (ss_keys _ _ _ _ HS _ _ Hn) as [Hk _]. pose proof (rid_bound base _ (ss_base _ _ _ _ HS) Hk) as Hrid.
  pose proof (zlen_nonneg p) as Hp0. pose proof (record_frame_length rid p (d_layout donor)) as Hfl.
  fold bad in Hfl. unfold REC_HDR in Hfl.
  assert (forall o m, 0 <= o -> 0 <= m -> o + m <= 8 -> rd_be (ds_pos st + o) m blob = rd_be o m bad) as Hr
    by (intros; apply (rd_be_at _ _ _ _ _ Hs); lia).
  unfold decode_record, raise_if. rewrite (proj2 (Z.ltb_ge _ _)) by (unfold REC_HDR; lia). cbn [rbind].
  rewrite <-(Z.add_0_r (ds_pos st)) at 1. rewrite (zslice_at _ _ _ 0 REC_HDR Hs) by (unfold REC_HDR; lia).
  unfold bad at 1. rewrite frame_not_erased. unfold decode_framed. cbv zeta.
  rewrite <-(Z.add_0_r (ds_pos st)) at 1. rewrite !Hr by lia.
  assert (zslice (ds_pos st + REC_HDR) (zlen p) blob = p) as Epay.
  { rewrite (zslice_at blob (ds_pos st) bad REC_HDR (zlen p) Hs) by (unfold REC_HDR; lia). apply frame_payload. }
  assert (zslice (ds_pos st) 6 blob = record_head rid (zlen p) (d_layout donor)) as Eh.
  { rewrite <-(Z.add_0_r (ds_pos st)), (zslice_at blob (ds_pos st) bad 0 6 Hs) by lia. apply frame_head. }
  unfold bad. rewrite frame_magic, frame_layout, frame_rid, frame_plen, frame_crc, Epay, Eh by done.
  unfold raise_if. rewrite !Z.eqb_refl. cbn [negb orb rbind].
  rewrite (proj2 (Z.ltb_ge _ _)) by (unfold REC_HDR; lia). cbn [rbind].
  rewrite (proj2 (Z.leb_gt _ _)) by lia. cbn [rbind]. fold base. unfold rid.
  rewrite (key_of_id_rid base key (ss_base _ _ _ _ HS) Hk), Hn.
  rewrite bool_decide_eq_false_2 by congruence. reflexivity.
Qed.

(** An image that holds a record at a length that is not its own is refused. *)
Lemma decoded_wrong_length key n p (a := area_length expect - n + zlen p) :
  expect !! key = Some n -> zlen p <> n -> Forall is_byte p -> zlen p < 65536 ->
  KLJ2_HDR + (a + pad_of a) + KLJ2_TRAILER <= 65536 ->
  decoded (<[rid_of_key key base := record_frame (rid_of_key key base) p (d_layout donor)]> frames) = Ok (VD_REC, ∅).
Proof using All.
  intros Hn Hne Hpb Hpl Hfit'. pose proof (zlen_nonneg p).
  apply (decoded_replaced key n); [done|by apply record_frame_bytes|rewrite record_frame_length; lia| |].
  - rewrite record_frame_length. by replace (area_length expect - (REC_HDR + n) + (REC_HDR + zlen p)) with a by (unfold a; lia).
  - intros. by apply (wrong_length_record key n p).
Qed.

End Variants.

(** * The image checks on a saved state *)

Section Checks.
Context (img : image_under_test) (content : Key -> option bytes) (frames : gmap Z bytes).

Let donor := im_donor img.
Let ident := im_ident img.
Let expect := im_expect img.
Let base := d_base donor.

Hypothesis HS : saved_state donor expect content frames.
Hypothesis Hseq : 0 <= i_seq ident < 2 ^ 32.
Hypothesis He : 0 <= i_entity_id ident < 2 ^ 64.
Hypothesis Hm : 0 <= i_model_id ident < 2 ^ 64.
Hypothesis Hfit : KLJ2_HDR + (area_length expect + pad_of (area_length expect)) + KLJ2_TRAILER <= 65536.

Lemma checked_saved content' frames' : saved_state donor expect content' frames' ->
  exists applied, decode_frames SEAM img frames' = Ok (VD_OK, applied)
    /\ forall k, applied !! k = match expect !! k with Some _ => content' k | None => None end.
Proof using All. intros HS'. exact (decoded_saved _ _ _ _ HS' _ Hseq He Hm Hfit). Qed.

Lemma checked_drop key : is_Some (expect !! key) ->
  exists v, decode_frames SEAM img (delete (rid_of_key key base) frames) = Ok (v, ∅) /\ refused (v, ∅) = true.
Proof using All.
  intros Hkey. destruct (decoded_drop _ _ _ _ HS _ Hseq He Hm Hfit key Hkey) as (v & Hd & Hv).
  exists v. split; [exact Hd|]. unfold refused. cbn [fst snd]. rewrite bool_decide_eq_false_2 by done. by rewrite bool_decide_eq_true_2.
Qed.

(** Every image that leaves a mandatory record out is refused. *)
Lemma incomplete_keys_refused keys :
  (forall k, In k keys -> is_Some (expect !! k)) ->
  (forall k rid, drop_id (im_recs img) k = Some rid -> rid = rid_of_key k base) ->
  incomplete_keys SEAM img frames keys = Ok [].
Proof using All.
  intros Hin Hid. induction keys as [|k keys IH]; cbn [incomplete_keys]; [done|].
  assert (incomplete_keys SEAM img frames keys = Ok []) as IH' by (apply IH; intros; apply Hin; by right).
  destruct (drop_id (im_recs img) k) as [rid|] eqn:E; [|done]. rewrite (Hid k rid E).
  destruct (checked_drop k (Hin k (or_introl eq_refl))) as (v & Hd & Hr). rewrite Hd. cbn [rbind]. by rewrite Hr.
Qed.

(** The four faces of the erased-record rule, for a state every record of which
    is written. *)
Lemma erased_record_rule_holds : expect <> ∅ -> (forall k, is_Some (expect !! k) -> is_Some (content k)) ->
  erased_record_rule SEAM img frames = Ok [].
Proof using All.
  intros Hne Hall. destruct (saved_last _ _ _ _ HS Hne) as (key & n & Hn & Hv & Hmax). fold base in Hv, Hmax.
  assert (is_Some (expect !! key)) as Hkey by (by exists n).
  assert (plen_of_frame (default [] (frames !! rid_of_key key base)) = n) as Hpl.
  { unfold base. rewrite (saved_frame _ _ _ _ HS key Hkey). cbn [default from_option id]. unfold plen_of_frame.
    rewrite (entry_length _ _ _ _ HS key n Hn). lia. }
  pose proof (saved_erase _ _ _ _ HS key Hkey) as HS1. fold base in HS1. rewrite Hn in HS1. cbn [default from_option id] in HS1.
  destruct (checked_saved _ _ (saved_blank _ _ _ _ HS)) as (a0 & H0 & Ha0).
  destruct (checked_saved _ _ HS1) as (a1 & H1 & Ha1).
  destruct (checked_drop key Hkey) as (v3 & H3 & Hr3).
  assert (a0 = ∅) as ->.
  { apply map_eq. intros k. rewrite Ha0, lookup_empty. by destruct (expect !! k). }
  assert (dom a1 = dom expect ∖ ({[key]} : gset Key)) as Hdom.
  { apply set_eq. intros k. rewrite elem_of_difference, elem_of_singleton, !elem_of_dom, Ha1.
    destruct (expect !! k) as [m|] eqn:E; [|by split; [intros []|intros [[] _]]]. case_decide as Hk.
    - split; [by intros []|]. by intros [_ ?].
    - split; [by split|]. intros _. apply Hall. by rewrite E. }
  assert (count_of a1 = count_of frames - 1) as Hcnt.
  { unfold count_of. rewrite <-(size_dom a1), Hdom, size_difference, size_singleton, size_dom, (saved_size _ _ _ _ HS).
    - assert (size expect <> 0%nat) by (by rewrite map_size_non_empty_iff). fold expect. lia.
    - apply singleton_subseteq_l, elem_of_dom, Hkey. }
  unfold erased_record_rule. rewrite H0. cbn [rbind fst snd]. rewrite Hv. cbn [rbind].
  rewrite Hpl, H1. cbn [rbind fst snd]. rewrite insert_insert_eq, delete_insert_eq, H3.
  assert (decode_frames SEAM img (<[rid_of_key key base := torn_span (erased_record n)]> frames) = Ok (VD_REC, ∅)) as ->
    by exact (decoded_torn _ _ _ _ HS _ Hseq He Hm Hfit key n Hn).
  cbn [rbind fst snd]. rewrite Hr3, Hcnt, Z.eqb_refl. fold donor base.
  rewrite key_of_id_rid by (first [apply HS | by eapply HS]).
  rewrite Ha1, Hn, decide_True by done. reflexivity.
Qed.
End Checks.

(** * A good shape passes *)

Lemma lit_bytes s : Forall is_byte (lit s).
Proof.
  induction s as [|c s IH]; cbn [lit]; constructor; [|done]. unfold is_byte.
  pose proof (nat_ascii_bounded c). lia.
Qed.

(** Every entry of the name table fills its record. *)
Lemma name_table_ok (overrides : gmap Z bytes) :
  (forall k b, overrides !! k = Some b -> aem_name b) -> forall k, aem_name (name_table overrides k).
Proof.
  intros Ho k. unfold name_table. destruct (overrides !! k) as [b|] eqn:E; [by eapply Ho|].
  set (full := VENDOR_DEFAULT_NAME ++ lit " " ++ decimal k).
  assert (zlen (zslice 0 NAME_BYTES full) <= NAME_BYTES) as Hl.
  { unfold zslice, zlen, NAME_BYTES. rewrite length_take. lia. }
  split.
  - apply Forall_app. split.
    + apply Forall_zslice. unfold full, VENDOR_DEFAULT_NAME, decimal. rewrite !Forall_app.
      split_and!; apply lit_bytes.
    + apply Forall_forall. intros x ->%list_elem_of_In%repeat_spec. done.
  - rewrite zlen_app, zlen_zeros. lia.
Qed.

Lemma empty_name_ok : aem_name empty_name.
Proof. split; [|done]. apply Forall_is_byteb. reflexivity. Qed.

Lemma fold_insert_size {A} (f : Z -> A) ks : NoDup ks ->
  size (fold_left (fun m k => <[k := f k]> m) ks (∅ : gmap Z A)) = length ks.
Proof.
  intros Hn. rewrite <-(size_list_to_set (C := gset Z) _ Hn), <-size_dom. f_equal. apply set_eq. intros k.
  rewrite elem_of_dom, elem_of_list_to_set, fold_insert_lookup, lookup_empty.
  case_decide; by split.
Qed.

(** * The output maps of a good shape *)

(** The frames of a journal no record of which is written. *)
Lemma erased_frames_spec (recs : list nvm_record) :
  (forall r, In r recs -> is_Some (r_id r)) -> NoDup (map r_id recs) ->
  forall x b, erased_frames recs !! x = Some b <->
    exists r, In r recs /\ r_id r = Some x /\ b = erased_record (r_plen r).
Proof.
  intros Hid Hn. unfold erased_frames.
  assert (forall (m : gmap Z bytes), (forall r x, In r recs -> r_id r = Some x -> m !! x = None) -> forall x b,
    fold_left (fun m r => match r_id r with Some rid => <[rid := erased_record (r_plen r)]> m | None => m end) recs m !! x = Some b
    <-> (exists r, In r recs /\ r_id r = Some x /\ b = erased_record (r_plen r)) \/ m !! x = Some b) as G.
  { induction recs as [|r recs IH]; intros m Hm x b; cbn [fold_left].
    - split; [tauto|]. by intros [(r & [] & _)|?].
    - destruct (Hid r (or_introl eq_refl)) as [rid Hr]. cbn [map] in Hn. apply NoDup_cons in Hn as [Hni Hn].
      assert (forall r' x, In r' recs -> r_id r' = Some x -> rid <> x) as Hne.
      { intros r' y Hr' Hy <-. apply Hni. rewrite Hr, <-Hy. by apply list_elem_of_In, in_map. }
      rewrite Hr, IH; [|intros; apply Hid; by right|done|].
      + rewrite lookup_insert_Some. cbn [In]. split.
        * intros [(r' & ? & ? & ->)|[[<- <-]|[? ?]]]; [left; exists r'; tauto|left; exists r; tauto|tauto].
        * intros [(r' & [<-|Hin] & Hx & ->)|Hx].
          -- right; left. split; [congruence|done].
          -- left. by exists r'.
          -- right; right. split; [|done]. intros <-. by rewrite (Hm r rid (or_introl eq_refl) Hr) in Hx.
      + intros r' y Hr' Hy. rewrite lookup_insert_ne by (by eapply Hne). eapply Hm; [by right|done]. }
  intros x b. rewrite G by (intros; apply lookup_empty). rewrite lookup_empty. split; [|tauto]. by intros [?|?].
Qed.

Lemma fanout_keys_spec outputs count : 0 <= outputs <= 65535 -> 0 <= count ->
  zlen (fanout_keys outputs count) = Z.min count (outputs * 8) /\ NoDup (fanout_keys outputs count)
  /\ (forall k, In k (fanout_keys outputs count) -> 0 <= fst k < 65535 /\ 0 <= snd k < 8).
Proof.
  intros Ho Hc. unfold fanout_keys.
  assert (zlen (flat_map (fun s => map (pair s) (zrange 0 8)) (zrange 0 (Z.to_nat outputs))) = outputs * 8) as Hl
    by (apply (output_key_count_eq outputs); lia).
  set (all := flat_map _ _) in *.
  assert (NoDup all) as Hn.
  { unfold all. generalize (NoDup_zrange 0 (Z.to_nat outputs)). generalize (zrange 0 (Z.to_nat outputs)).
    intros l. induction l as [|s l IH]; intros HN; cbn [flat_map]; [constructor|]. apply NoDup_cons in HN as [Hs HN].
    apply NoDup_app. split_and!; [apply (NoDup_fmap_2 (pair s)), NoDup_zrange| |by apply IH].
    intros [s' c] Hin Hin'. apply list_elem_of_In, in_map_iff in Hin as (c' & [= <- <-] & _).
    apply list_elem_of_In, in_flat_map in Hin' as (s' & Hs' & (c'' & [= -> _] & _)%in_map_iff). by apply Hs, list_elem_of_In. }
  assert (zslice 0 count all = take (Z.to_nat count) all) as -> by done.
  split_and!.
  - unfold zlen in *. rewrite length_take. lia.
  - eapply sublist_NoDup; [exact Hn|apply sublist_take].
  - intros k Hk%list_elem_of_In%elem_of_take.
    destruct Hk as (i & Hi%list_elem_of_lookup_2%list_elem_of_In & _). unfold all in Hi.
    apply in_flat_map in Hi as (s & Hs%zrange_In & (c & <- & Hch%zrange_In)%in_map_iff). cbn [fst snd]. lia.
Qed.

(** The record that saves a set of stream keys, all fed from one cluster. *)
Lemma packed_keys (keys : list (Z * Z)) m :
  (forall k, In k keys -> 0 <= fst k < 65535 /\ 0 <= snd k < 8) -> NoDup keys -> zlen keys <= m ->
  let packed := concat (map (fun k => pack_mapping (k, (0, 0))) keys) in
  let payload := packed ++ concat (repeat UNUSED (Z.to_nat ((MAP_ENTRY * m - zlen packed) / MAP_ENTRY))) in
  zlen packed = MAP_ENTRY * zlen keys /\ zlen payload = MAP_ENTRY * m /\ Forall is_byte payload
  /\ restore payload = Ok (list_to_map (map (fun k => (k, (0, 0))) keys)).
Proof.
  intros Hk Hn Hm packed payload.
  assert (zlen packed = MAP_ENTRY * zlen keys) as Hz.
  { unfold packed. clear. induction keys as [|k keys IH]; cbn [map concat]; [done|].
    rewrite zlen_app, zlen_cons, IH, pack_mapping_length. lia. }
  assert (payload = concat (map pack_mapping (map (fun k => (k, (0, 0))) keys) ++ repeat UNUSED (Z.to_nat (m - zlen keys)))) as Hp.
  { unfold payload, packed. rewrite concat_app, map_map. do 3 f_equal.
    fold packed. rewrite Hz. unfold MAP_ENTRY. f_equal. Z.div_mod_to_equations. lia. }
  split_and!; [done| | |].
  - unfold payload. rewrite zlen_app, Hz, zlen_concat_repeat, UNUSED_length. unfold MAP_ENTRY.
    rewrite Z2Nat.id by (Z.div_mod_to_equations; lia). Z.div_mod_to_equations. lia.
  - rewrite Hp. apply Forall_concat, Forall_app. split; apply Forall_forall; intros b Hb%list_elem_of_In.
    + apply in_map_iff in Hb as (x & <- & _). unfold pack_mapping. rewrite !Forall_app. split_and!; apply be_bytes_bytes.
    + apply repeat_spec in Hb as ->. by apply Forall_is_byteb.
  - unfold restore. rewrite Hp, map_entries_concat.
    + destruct (restore_packed (map (fun k => (k, (0, 0))) keys) ∅ (Z.to_nat (m - zlen keys))) as [b ->].
      * intros x (k & <- & Hin)%in_map_iff. destruct (Hk k Hin). unfold mapping_ok. cbn [fst snd]. split_and!; try lia.
        intros [= ?]. 
      * by rewrite map_map, map_id.
      * intros. apply lookup_empty.
      * cbn [rbind fst]. by rewrite map_union_empty.
    + intros e [(x & <- & _)%in_map_iff|Hin%repeat_spec]%in_app_iff; [apply pack_mapping_length|by subst e].
Qed.

(** A channel-map row of the inventory belongs to a port. *)
Lemma inventory_output_port shape d base r : In r (inventory_rows shape d base) -> r_group r = MAPS_OUT ->
  exists p, In p (s_spo shape) /\ r = row base MAPS_OUT (p_index p) (entries (n_so d) p * MAP_ENTRY).
Proof.
  unfold inventory_rows. rewrite !in_app_iff.
  intros [[<-|[<-|[]]]|[H|[H|[H|[H|[H|[H|H]]]]]]] Hg; try discriminate Hg.
  1-4: apply range_rows_In in H as (g & i & Hin & _ & ->); cbn [In row r_group] in *; intuition congruence.
  - apply in_map_iff in H as (p & <- & _). discriminate Hg.
  - apply in_map_iff in H as (p & <- & Hp). by exists p.
  - apply in_map_iff in H as (m & <- & _). discriminate Hg.
Qed.

Section Gate.
Context (shape : Shape) (d : dims) (donor : Donor).
Hypothesis D : dims_of shape d.
Hypothesis S : shape_ok shape.
Hypothesis Hb : base_ok (d_base donor).
Hypothesis Hlay : 0 <= d_layout donor < 256.

Let base := d_base donor.
Let recs := inventory_rows shape d base.
Hypothesis Hrows : forall r, In r recs -> row_fits FIXED r.
Hypothesis Hslot : image_length recs <= 65536.

Let img := {| im_shape := shape; im_recs := recs; im_donor := donor; im_ident := EMIT_IDENT;
              im_expect := payloads shape d |}.

Lemma gate_ids : forall r, In r recs -> is_Some (r_id r).
Proof using All. intros r Hr. destruct (Hrows r Hr) as [(rid & Hid & _) _]. by exists rid. Qed.

Lemma gate_lengths : forall r, In r recs -> r_plen r < 65536.
Proof using All. intros r Hr. destruct (Hrows r Hr) as [_ Hp]. unfold MAX_PAYLOAD in Hp. lia. Qed.

(** The frames of the inventory, with any table of names. *)
Lemma gate_saved nval : (forall k, aem_name (nval k)) ->
  exists frames, frames_for recs donor nval = Ok frames
    /\ saved_state donor (payloads shape d) (content_of base (payloads shape d) nval) frames.
Proof using All.
  intros Hv. exact (frames_for_saved_state shape d donor nval D S Hb Hlay Hv gate_ids gate_lengths).
Qed.

Lemma gate_fits :
  KLJ2_HDR + (area_length (payloads shape d) + pad_of (area_length (payloads shape d))) + KLJ2_TRAILER <= 65536.
Proof using All.
  rewrite (area_of_rows shape d donor (name_table ∅) D S Hb Hlay (name_table_ok ∅ ltac:(done)) gate_ids gate_lengths).
  exact Hslot.
Qed.

(** An image of the inventory decodes, and each row comes back. *)
Lemma gate_decoded nval : (forall k, aem_name (nval k)) ->
  exists frames applied, frames_for recs donor nval = Ok frames
    /\ saved_state donor (payloads shape d) (content_of base (payloads shape d) nval) frames
    /\ decode_frames SEAM img frames = Ok (VD_OK, applied)
    /\ forall r, In r recs -> exists rid, r_id r = Some rid
        /\ applied !! r_key r = Some (payload_bytes (r_group r) (r_index r) rid (r_plen r) (Some nval)).
Proof using All.
  intros Hv. destruct (gate_saved nval Hv) as (frames & HF & HS).
  destruct (checked_saved img _ frames HS ltac:(done) ltac:(done) ltac:(done) gate_fits _ _ HS) as (applied & HD & HA).
  exists frames, applied. split_and!; [done..|]. intros r.
  by apply (restored_row shape d donor nval D S Hb Hlay Hv gate_ids gate_lengths).
Qed.

Lemma gate_round_trip : exists frames applied,
  round_trip SEAM img = Ok (frames, Some applied, [])
  /\ saved_state donor (payloads shape d) (content_of base (payloads shape d) (name_table ∅)) frames.
Proof using All.
  destruct (gate_decoded (name_table ∅) (name_table_ok ∅ ltac:(done))) as (frames & applied & HF & HS & HD & HR).
  exists frames, applied. split; [|done]. unfold round_trip. cbn [im_recs im_donor img]. rewrite HF. cbn [rbind].
  rewrite HD. cbn [rbind fst snd]. change (negb (bool_decide (VD_OK = VD_OK))) with false.
  assert (List.find (not_restored (name_table ∅) applied) recs = None) as ->; [|done].
  destruct (List.find _ recs) as [r|] eqn:E; [|done]. apply List.find_some in E as [Hr Hn].
  destruct (HR r Hr) as (rid & Hid & Hp). unfold not_restored in Hn. rewrite Hid, bool_decide_eq_true_2 in Hn by done.
  done.
Qed.

Lemma gate_empty_name : 0 < s_names shape -> empty_name_survives SEAM img = Ok [].
Proof using All.
  intros Hn. set (nval := name_table {[0 := empty_name]}).
  assert (forall k, aem_name (nval k)) as Hv.
  { apply name_table_ok. intros k b [<- <-]%lookup_singleton_Some. apply empty_name_ok. }
  destruct (gate_decoded nval Hv) as (frames & applied & HF & _ & HD & HR).
  assert (forall k, 0 <= k < s_names shape -> applied !! (NAME, k) = Some (nval k)) as Hk.
  { intros k Hk. destruct (HR _ (name_row shape d base k Hk)) as (rid & _ & Hp). exact Hp. }
  unfold empty_name_survives. cbn [im_recs im_donor img im_shape]. fold nval. rewrite HF. cbn [rbind].
  rewrite HD. cbn [rbind fst snd]. change (negb (bool_decide (VD_OK = VD_OK))) with false. cbn [negb].
  rewrite (names_from_image_lookup _ _ nval 0 Hk) by lia.
  change (nval 0) with empty_name. rewrite bool_decide_eq_true_2 by done.
  unfold count_of. rewrite (names_from_image_eq _ _ nval Hk), fold_insert_size by apply NoDup_zrange.
  rewrite zrange_length, Z2Nat.id, Z.eqb_refl by lia. done.
Qed.

Lemma gate_drop_id k rid : drop_id recs k = Some rid -> rid = rid_of_key k base.
Proof using All.
  unfold drop_id. destruct (List.find _ recs) as [r|] eqn:E; [|done]. apply List.find_some in E as [Hr Hc].
  bool_prop. intros Hid. subst k. by destruct (inventory_id_cases shape d base r rid D S Hr Hid) as [_ ->].
Qed.

Lemma gate_expect_nonempty : payloads shape d <> ∅.
Proof using All.
  intros E. assert (is_Some (payloads shape d !! (SUID, 0))) as Hk; [|by rewrite E, lookup_empty in Hk; destruct Hk].
  exists (r_plen (row base SUID 0 (pay SUID))).
  apply (pays_row shape d donor (name_table ∅) D S Hb Hlay (name_table_ok ∅ ltac:(done)) gate_ids gate_lengths).
  exists (row base SUID 0 (pay SUID)). split_and!; [right; by left|done..].
Qed.

Lemma gate_image : check_image FIXED SEAM shape recs donor = Ok [].
Proof using All.
  unfold check_image.
  assert (existsb (fun r => match r_id r with None => true | Some rid => ID_SPACE FIXED <=? rid end) recs = false) as ->.
  { apply not_true_is_false. intros (r & Hr & Hc)%existsb_exists. destruct (Hrows r Hr) as [(rid & Hid & Hlt) _].
    rewrite Hid in Hc. bool_prop. lia. }
  rewrite (expected_payloads_eq shape d D). cbn [rbind]. fold img.
  destruct gate_round_trip as (frames & applied & HR & HS). rewrite HR. cbn [rbind].
  assert ((if s_names shape =? 0 then Ok [] else empty_name_survives SEAM img) = Ok []) as ->.
  { destruct (Z.eqb_spec (s_names shape) 0); [done|]. apply gate_empty_name.
    pose proof (expected_names_nonneg _ S). rewrite (so_names _ S) in *. lia. }
  cbn [rbind]. unfold incomplete_is_refused.
  rewrite (incomplete_keys_refused img _ frames HS ltac:(done) ltac:(done) ltac:(done) gate_fits); [|
    |exact gate_drop_id].
  - cbn [rbind]. rewrite (erased_record_rule_holds img _ frames HS ltac:(done) ltac:(done) ltac:(done) gate_fits);
      [done|apply gate_expect_nonempty|]. intros k _. by eexists.
  - intros k Hk%sorted_keys_In. by apply elem_of_dom.
Qed.

(** The journal with every record erased is a saved state too. *)
Lemma gate_erased : saved_state donor (payloads shape d) (fun _ => None) (erased_frames recs).
Proof using All.
  destruct (gate_saved (name_table ∅) (name_table_ok ∅ ltac:(done))) as (frames & _ & HS).
  pose proof (name_table_ok ∅ ltac:(done)) as Hv.
  split; [apply HS..|done|]. intros x b.
  rewrite (erased_frames_spec recs gate_ids (allocated_ids_NoDup shape d donor _ D S Hb Hlay Hv gate_ids gate_lengths)).
  assert (forall r, In r recs -> erased_record (r_plen r)
    = entry_bytes (d_base donor) (d_layout donor) (payloads shape d) (r_key r, None)) as He.
  { intros r Hr. unfold entry_bytes. cbn [fst snd].
    by rewrite (pays_of_row shape d donor _ D S Hb Hlay Hv gate_ids gate_lengths r Hr). }
  split.
  - intros (r & Hr & Hx & ->). exists (r_key r).
    destruct (allocated_row shape d donor _ D S Hb Hlay Hv gate_ids gate_lengths r Hr) as (_ & Hid & _).
    rewrite Hx in Hid. injection Hid as ->. split_and!; [|done|by apply He].
    rewrite (pays_of_row shape d donor _ D S Hb Hlay Hv gate_ids gate_lengths r Hr). by eexists.
  - intros (k & [m Hk] & -> & ->).
    apply (pays_row shape d donor _ D S Hb Hlay Hv gate_ids gate_lengths) in Hk as (r & Hr & <- & _).
    destruct (allocated_row shape d donor _ D S Hb Hlay Hv gate_ids gate_lengths r Hr) as (_ & Hid & _).
    exists r. split_and!; [done..|]. symmetry. by apply He.
Qed.

Hypothesis Hroom : image_length recs + MAP_ENTRY <= 65536.

Lemma gate_area : area_length (payloads shape d) = sum_z (map (fun r => REC_HDR + r_plen r) recs).
Proof using All.
  exact (area_of_rows shape d donor (name_table ∅) D S Hb Hlay (name_table_ok ∅ ltac:(done)) gate_ids gate_lengths).
Qed.

(** A record of the inventory rewritten with a payload of its length is decoded
    alone; with a payload of another length the journal is refused. *)
Lemma gate_row_written r payload (rid := rid_of_key (r_key r) base)
    (fs := <[rid := record_frame rid payload (d_layout donor)]> (erased_frames recs)) :
  In r recs -> Forall is_byte payload -> zlen payload = r_plen r ->
  r_id r = Some rid /\ frame_record rid payload (d_layout donor) = Ok (record_frame rid payload (d_layout donor))
  /\ decode_emit fs donor (payloads shape d) = Ok (VD_OK, {[r_key r := payload]}).
Proof using All.
  intros Hr Hpb Hz. pose proof (name_table_ok ∅ ltac:(done)) as Hv.
  destruct (allocated_row shape d donor _ D S Hb Hlay Hv gate_ids gate_lengths r Hr) as (Hk & Hid & _).
  pose proof (pays_of_row shape d donor _ D S Hb Hlay Hv gate_ids gate_lengths r Hr) as Hpay.
  pose proof (gate_lengths r Hr). pose proof (rid_bound base _ Hb Hk).
  split_and!; [done|apply frame_record_Ok; split_and!; [lia..|done]|].
  assert (is_Some (payloads shape d !! r_key r)) as Hkey by (by eexists).
  assert (Forall is_byte payload /\ payloads shape d !! r_key r = Some (zlen payload)) as Hset by (by rewrite Hz).
  pose proof (saved_set _ _ _ _ gate_erased (r_key r) (Some payload) Hkey ltac:(by intros ? [= <-])) as HS1.
  destruct (decoded_saved _ _ _ _ HS1 EMIT_IDENT ltac:(done) ltac:(done) ltac:(done) gate_fits) as (applied & Hd & Ha).
  replace applied with ({[r_key r := payload]} : gmap Key bytes) in Hd; [exact Hd|].
  apply map_eq. intros k. rewrite Ha, lookup_singleton. destruct (decide (r_key r = k)) as [<-|Hne].
  - by rewrite Hpay, decide_True.
  - destruct (payloads shape d !! k); [by rewrite decide_False|done].
Qed.

Lemma gate_row_oversized r payload (rid := rid_of_key (r_key r) base)
    (fs := <[rid := record_frame rid payload (d_layout donor)]> (erased_frames recs)) :
  In r recs -> Forall is_byte payload -> zlen payload = r_plen r + MAP_ENTRY ->
  frame_record rid payload (d_layout donor) = Ok (record_frame rid payload (d_layout donor))
  /\ decode_emit fs donor (payloads shape d) = Ok (VD_REC, ∅).
Proof using All.
  intros Hr Hpb Hz. pose proof (name_table_ok ∅ ltac:(done)) as Hv.
  destruct (allocated_row shape d donor _ D S Hb Hlay Hv gate_ids gate_lengths r Hr) as (Hk & _ & _).
  pose proof (pays_of_row shape d donor _ D S Hb Hlay Hv gate_ids gate_lengths r Hr) as Hpay.
  destruct (Hrows r Hr) as [_ Hp]. pose proof (rid_bound base _ Hb Hk).
  unfold MAX_PAYLOAD, MAP_ENTRY in *. split; [apply frame_record_Ok; split_and!; [lia..|done]|].
  apply (decoded_wrong_length _ _ _ _ gate_erased EMIT_IDENT ltac:(done) ltac:(done) ltac:(done) gate_fits
    (r_key r) (r_plen r)); [done|lia|done|lia|].
  rewrite Hz, gate_area. unfold image_length, pad_of, ALIGN in *. Z.div_mod_to_equations. lia.
Qed.

(** Saving the first [count] stream keys in a port's record, clearing the store
    and restoring it from the journal gives them all back; one entry more than
    the record holds is refused. *)
Lemma gate_map_trip p count (target := row base MAPS_OUT (p_index p) (entries (n_so d) p * MAP_ENTRY)) :
  In target recs -> p_dynamic p = true -> 0 <= count ->
  round_trip_map shape recs donor (payloads shape d) target count = Ok [].
Proof using All.
  intros Ht Hdyn Hc. assert (0 <= n_so d) as Hso by (apply (so_counts _ S STREAM_OUTPUT), D).
  assert (r_plen target = MAP_ENTRY * Z.max (p_clusters p) (n_so d * 8)) as Hpl
    by (cbn [r_plen target row]; unfold entries; rewrite Hdyn; lia).
  destruct (Hrows target Ht) as [_ Hp]. unfold MAX_PAYLOAD in Hp. pose proof Hpl as Hpl8. unfold MAP_ENTRY in Hpl8.
  destruct (fanout_keys_spec (n_so d) count ltac:(lia) Hc) as (Hz & Hn & Hk).
  set (keys := fanout_keys (n_so d) count) in *.
  assert (forall k, In k keys -> key_fits k = true) as Hfits.
  { intros k [H1 H2]%Hk. unfold key_fits. rewrite andb_true_iff, !fits_true. change (256 ^ 2) with 65536. lia. }
  destruct (packed_keys keys (Z.max (p_clusters p) (n_so d * 8)) Hk Hn ltac:(lia)) as (Hzp & Hzl & Hpb & Hres).
  rewrite <-Hpl in Hzl, Hpb, Hres.
  set (packed := concat (map _ keys)) in *. set (payload := packed ++ _) in *.
  destruct (gate_row_written target payload Ht Hpb Hzl) as (Hid & HF & HD).
  set (extra := pack_mapping ((zlen keys, 0), (0, 0))).
  destruct (gate_row_oversized target (payload ++ extra) Ht) as (HF' & HD').
  { apply Forall_app. split; [done|]. unfold extra, pack_mapping. rewrite !Forall_app. split_and!; apply be_bytes_bytes. }
  { rewrite zlen_app, Hzl. apply (f_equal (Z.add _)), pack_mapping_length. }
  unfold round_trip_map, dc_get. rewrite (proj1 (proj2 (proj2 (proj2 D)))). cbn [rbind]. fold keys packed.
  unfold raise_if. rewrite (proj2 (forallb_forall _ _) Hfits). cbn [negb rbind]. cbv zeta.
  rewrite (proj2 (Z.ltb_ge _ _)) by (rewrite Hzp; unfold MAP_ENTRY; lia). rewrite Hid. cbn [default from_option id].
  fold payload extra. rewrite HF. cbn [rbind]. rewrite HD. cbn [rbind fst snd].
  change (negb (bool_decide (VD_OK = VD_OK))) with false. cbn [orb].
  rewrite bool_decide_eq_true_2 by apply dom_singleton_L. cbn [negb].
  rewrite lookup_singleton_eq. cbn [default from_option id]. rewrite Hres. cbn [rbind].
  rewrite bool_decide_eq_true_2 by done. cbn [negb].
  rewrite HF'. cbn [rbind]. by rewrite HD'.
Qed.

Lemma output_rows_In rs i r : output_rows rs !! i = Some r -> In r rs /\ r_group r = MAPS_OUT /\ r_index r = i.
Proof using Type.
  unfold output_rows.
  assert (forall (m : gmap Z nvm_record), fold_left (fun m r =>
      if decide (r_group r = MAPS_OUT) then <[r_index r := r]> m else m) rs m !! i = Some r ->
    (In r rs /\ r_group r = MAPS_OUT /\ r_index r = i) \/ m !! i = Some r) as G.
  { clear. induction rs as [|r' rs IH]; intros m H; cbn [fold_left In] in *; [by right|].
    apply IH in H as [?|H]; [tauto|]. destruct (decide (r_group r' = MAPS_OUT)); [|by right].
    apply lookup_insert_Some in H as [[<- <-]|[_ ?]]; [left; tauto|by right]. }
  intros H. apply G in H as [?|H]; [done|]. by rewrite lookup_empty in H.
Qed.

Lemma gate_output_maps : check_output_maps shape recs donor (payloads shape d) = Ok [].
Proof using All.
  unfold check_output_maps.
  assert (existsb (fun r => match r_id r with None => true | Some rid => 255 <? rid end) recs = false) as ->.
  { apply not_true_is_false. intros (r & Hr & Hc)%existsb_exists. destruct (Hrows r Hr) as [(rid & Hid & Hlt) _].
    rewrite Hid in Hc. bool_prop. change (ID_SPACE FIXED) with 256 in Hlt. lia. }
  assert (forall p, In p (s_spo shape) -> In p (s_spo shape)) as Hsub by done. revert Hsub.
  generalize (s_spo shape) at 1 3 as ports. intros ports Hsub. induction ports as [|p ports IH]; cbn [foldR]; [done|].
  unfold dc_get at 1. rewrite (proj1 (proj2 (proj2 (proj2 D)))). cbn [rbind].
  assert (In p (s_spo shape)) as Hp by (apply Hsub; by left).
  specialize (IH (fun q Hq => Hsub q (or_intror Hq))).
  destruct (p_dynamic p) eqn:Hdyn; cbn [negb orb]; [|exact IH].
  destruct (Z.leb_spec (n_so d * 8) (p_clusters p)); [exact IH|].
  destruct (output_rows recs !! p_index p) as [r|] eqn:Er; [|exact IH].
  apply output_rows_In in Er as (Hr & Hg & Hi). destruct (inventory_output_port shape d _ r Hr Hg) as (q & Hq & ->).
  cbn [row r_index] in Hi.
  assert (q = p) as ->.
  { apply list_elem_of_In, list_elem_of_lookup in Hq as [a Ha].
    pose proof Hp as [b Hb']%list_elem_of_In%list_elem_of_lookup.
    assert (a = b) as ->; [|congruence].
    eapply (NoDup_lookup _ a b (p_index p) (spo_NoDup shape d D S)); rewrite list_lookup_fmap;
      [by rewrite Ha, <-Hi|by rewrite Hb']. }
  assert (0 <= p_clusters p) by (apply (so_clusters _ S), in_app_iff; by right).
  rewrite !(gate_map_trip p) by (done || lia). cbn [rbind app]. exact IH.
Qed.
End Gate.

(** * Records of the length of the clusters *)

Lemma output_rows_Some rs r : In r rs -> r_group r = MAPS_OUT -> is_Some (output_rows rs !! r_index r).
Proof.
  intros Hr Hg. unfold output_rows. generalize (∅ : gmap Z nvm_record) as m.
  induction rs as [|r' rs IH]; intros m; [done|]. cbn [fold_left]. destruct Hr as [->|Hr]; [|by apply IH].
  rewrite decide_True by done. clear IH.
  assert (is_Some ((<[r_index r:=r]> m : gmap Z nvm_record) !! r_index r)) as Hs by (rewrite lookup_insert_eq; by eexists).
  revert Hs. generalize (<[r_index r:=r]> m : gmap Z nvm_record) as m'.
  induction rs as [|q rs IH]; intros m' Hs; [done|]. cbn [fold_left]. apply IH.
  destruct (decide (r_group q = MAPS_OUT)); [|done]. destruct (decide (r_index q = r_index r)) as [->|].
  - rewrite lookup_insert_eq. by eexists.
  - by rewrite lookup_insert_ne.
Qed.

(** A set of keys the record has no room for is not saved, whatever the donor. *)
Lemma capacity_reported shape d recs donor expect target count : dims_of shape d -> 0 <= n_so d <= 65535 ->
  0 <= count <= n_so d * 8 -> r_plen target < MAP_ENTRY * count ->
  round_trip_map shape recs donor expect target count = Ok [FCapacity (r_index target) count].
Proof.
  intros D Hso Hc Hp. destruct (fanout_keys_spec (n_so d) count Hso ltac:(lia)) as (Hz & Hn & Hk).
  destruct (packed_keys (fanout_keys (n_so d) count) count Hk Hn ltac:(lia)) as (Hzp & _).
  unfold round_trip_map, dc_get. rewrite (proj1 (proj2 (proj2 (proj2 D)))). cbn [rbind].
  assert (forallb key_fits (fanout_keys (n_so d) count) = true) as ->.
  { apply forallb_forall. intros k [H1 H2]%Hk. unfold key_fits. rewrite andb_true_iff, !fits_true.
    change (256 ^ 2) with 65536. lia. }
  unfold raise_if. cbn [negb rbind]. cbv zeta. rewrite (proj2 (Z.ltb_lt _ _)); [done|].
  rewrite Hzp, Hz, Z.min_l by lia. done.
Qed.

(** What the output-map check says of records as long as the clusters need: each
    dynamic port with more stream keys than clusters can save neither one key more
    than it has clusters nor all of them. *)
Definition short_ports (shape : Shape) (outputs : Z) : list NvmMaps.finding :=
  flat_map (fun p => if p_dynamic p && (p_clusters p <? outputs * 8)
                     then [FCapacity (p_index p) (p_clusters p + 1); FCapacity (p_index p) (outputs * 8)] else [])
    (s_spo shape).

Section OldLength.
Context (shape : Shape) (d : dims) (base : Z).
Hypothesis D : dims_of shape d.
Hypothesis S : shape_ok shape.
Hypothesis Hb : base_ok base.
Let recs := inventory_rows shape d base.
Hypothesis Hrows : forall r, In r recs -> r_index r < block_of (r_group r).

Lemma inventory_id_small r : In r recs -> exists rid, r_id r = Some rid /\ 0 <= rid < 256.
Proof using All.
  intros Hr. pose proof (Hrows r Hr) as Hi. destruct (inventory_row_id _ _ _ _ Hr) as [Hid _].
  rewrite (proj2 (Z.leb_gt _ _) Hi) in Hid. exists (rid_of_key (r_key r) base). split; [done|].
  apply rid_bound; [done|]. unfold in_block, r_key. cbn [fst snd].
  pose proof (inventory_index_nonneg _ _ _ _ D S Hr). lia.
Qed.

Lemma inventory_output_row p : In p (s_spo shape) ->
  exists r, In r recs /\ r_group r = MAPS_OUT /\ r_index r = p_index p.
Proof using Type.
  intros Hp. exists (row base MAPS_OUT (p_index p) (entries (n_so d) p * MAP_ENTRY)). split; [|done].
  unfold recs, inventory_rows. rewrite !in_app_iff. do 6 right. left. apply in_map_iff. by exists p.
Qed.

Lemma old_output_rows : exists recs', old_output_length shape recs = Ok recs' /\
  Forall2 (fun r r' => r_id r' = r_id r /\ r_group r' = r_group r /\ r_index r' = r_index r /\
    (r_group r = MAPS_OUT -> forall p, In p (s_spo shape) -> p_index p = r_index r ->
     r_plen r' = p_clusters p * MAP_ENTRY)) recs recs'.
Proof using All.
  assert (forall r, In r recs -> r_group r = MAPS_OUT -> exists p, In p (s_spo shape) /\ p_index p = r_index r) as Hport.
  { intros r Hr Hg. destruct (inventory_output_port shape d _ r Hr Hg) as (p & Hp & ->). by exists p. }
  unfold old_output_length. cbv zeta. revert Hport. generalize recs as rs. clear Hrows. intros rs Hport.
  induction rs as [|r rs IH]; [by exists []|]. destruct IH as (rs' & E & HF); [intros; apply Hport; [by right|done]|].
  cbn [mapR]. rewrite E. destruct (decide (r_group r = MAPS_OUT)) as [Hg|Hg].
  - destruct (Hport r (or_introl eq_refl) Hg) as (p & Hp & Hi).
    rewrite <-Hi, (port_dict_lookup _ _ _ (spo_NoDup shape d D S) Hp). cbn [rbind]. eexists. split; [reflexivity|].
    constructor; [|done]. cbn. rewrite Hi. split_and!; try done. intros _ q Hq Hqi.
    pose proof (port_dict_lookup p_clusters _ _ (spo_NoDup shape d D S) Hp) as L1.
    pose proof (port_dict_lookup p_clusters _ _ (spo_NoDup shape d D S) Hq) as L2. rewrite Hqi, <-Hi in L2. congruence.
  - cbn [rbind]. eexists. split; [reflexivity|]. by constructor.
Qed.

Lemma output_rows_old recs' p : Forall2 (fun r r' => r_id r' = r_id r /\ r_group r' = r_group r /\
    r_index r' = r_index r /\ (r_group r = MAPS_OUT -> forall p, In p (s_spo shape) -> p_index p = r_index r ->
     r_plen r' = p_clusters p * MAP_ENTRY)) recs recs' -> In p (s_spo shape) ->
  exists target, output_rows recs' !! p_index p = Some target /\ r_index target = p_index p /\
    r_plen target = p_clusters p * MAP_ENTRY.
Proof using Type.
  intros HF Hp. destruct (inventory_output_row p Hp) as (r & Hr & Hg & Hi).
  apply list_elem_of_In, list_elem_of_lookup in Hr as [a Ha].
  destruct (Forall2_lookup_l _ _ _ _ _ HF Ha) as (r' & Ha' & _ & Hg' & Hi' & _).
  destruct (output_rows_Some recs' r') as [target Ht];
    [apply list_elem_of_In; by eapply list_elem_of_lookup_2|congruence|].
  rewrite Hi', Hi in Ht. exists target. split; [done|]. apply output_rows_In in Ht as (Hin & Hgt & Hit). split; [done|].
  apply list_elem_of_In, list_elem_of_lookup in Hin as [b Hb'].
  destruct (Forall2_lookup_r _ _ _ _ _ HF Hb') as (q & _ & _ & Hgq & Hiq & Hpl). apply Hpl; congruence.
Qed.

Lemma outputs_bounded : 0 <= n_so d <= 65535.
Proof using All.
  assert (0 <= n_so d) as Hn by (apply (so_counts _ S STREAM_OUTPUT), D). split; [done|].
  destruct (Z.eq_dec (n_so d) 0) as [->|]; [done|].
  assert (In (row base FMT_OUT (n_so d - 1) (pay FMT_OUT)) recs) as Hin.
  { unfold recs, inventory_rows. rewrite !in_app_iff. do 4 right. left. unfold range_rows.
    apply in_flat_map. exists (n_so d - 1). split; [apply zrange_In; lia|by left]. }
  specialize (Hrows _ Hin). cbn in Hrows. lia.
Qed.

Lemma old_length_reported : exists recs', old_output_length shape recs = Ok recs' /\
  forall donor expect, check_output_maps shape recs' donor expect = Ok (short_ports shape (n_so d)).
Proof using All.
  destruct old_output_rows as (recs' & E & HF). exists recs'. split; [done|]. intros donor expect.
  unfold check_output_maps.
  assert (existsb (fun r => match r_id r with None => true | Some rid => 255 <? rid end) recs' = false) as ->.
  { apply not_true_is_false. intros (r' & Hr & Hc)%existsb_exists.
    apply list_elem_of_In, list_elem_of_lookup in Hr as [a Ha].
    destruct (Forall2_lookup_r _ _ _ _ _ HF Ha) as (r & Hr & Hid & _). apply list_elem_of_lookup_2, list_elem_of_In in Hr.
    destruct (inventory_id_small r Hr) as (rid & Hrid & Hlt). rewrite Hid, Hrid in Hc. bool_prop. lia. }
  unfold short_ports. match goal with |- foldR ?f [] _ = Ok (flat_map ?g _) =>
    assert (forall ports acc, (forall p, In p ports -> In p (s_spo shape)) -> foldR f acc ports = Ok (acc ++ flat_map g ports))
      as G; [|exact (G (s_spo shape) [] (fun _ H => H))] end.
  induction ports as [|p ports IH]; intros acc Hsub; cbn [foldR flat_map]; [by rewrite app_nil_r|].
  unfold dc_get at 1. rewrite (proj1 (proj2 (proj2 (proj2 D)))). cbn [rbind].
  assert (In p (s_spo shape)) as Hp by (apply Hsub; by left).
  assert (IH' := fun acc => IH acc (fun q Hq => Hsub q (or_intror Hq))).
  destruct (p_dynamic p); cbn [negb orb andb]; [|exact (IH' acc)].
  rewrite Z.leb_antisym. destruct (Z.ltb_spec (p_clusters p) (n_so d * 8)); cbn [negb]; [|exact (IH' acc)].
  destruct (output_rows_old recs' p HF Hp) as (target & -> & Hi & Hpl).
  assert (0 <= p_clusters p) by (apply (so_clusters _ S), in_app_iff; by right).
  rewrite !(capacity_reported shape d) by (done || apply outputs_bounded || (rewrite ?Hpl; unfold MAP_ENTRY; lia)).
  cbn [rbind]. rewrite Hi. rewrite (IH' _), <-!app_assoc. done.
Qed.
End OldLength.

(** C4: The gate passes every good shape it should.  Take any shape whose counts,
    ports and names agree; if every row of its inventory has an id and a payload
    the port can delimit, and the image fits one erase block, then the key-set
    check and the id checks find nothing, and the image checks find nothing: the
    image encodes and decodes, every record comes back, an empty name survives,
    every image that leaves a mandatory record out is refused with nothing
    applied, and a blank, an erased, a torn and a missing record are each told
    apart.  With room for one map entry more, the output-map check finds nothing
    either: the full fan-out of each port is saved and restored, and one entry
    past its record is refused. *)
Theorem gate_accepts shape (donor : Donor) recs pays :
  shape_ok shape -> base_ok (d_base donor) -> 0 <= d_layout donor < 256 ->
  inventory shape (d_base donor) = Ok recs -> expected_payloads shape = Ok pays ->
  (forall r, In r recs -> r_index r < block_of (r_group r) /\ r_plen r <= MAX_PAYLOAD) ->
  image_length recs <= ERASE_BLOCK FIXED ->
  completeness shape recs = Ok [] /\ record_findings FIXED recs = [] /\ slot_findings FIXED recs = []
  /\ check_image FIXED SEAM shape recs donor = Ok []
  /\ (image_length recs + MAP_ENTRY <= ERASE_BLOCK FIXED -> check_output_maps shape recs donor pays = Ok []).
Proof.
  intros S Hb Hlay HI HP Hr Hslot. destruct (shape_dims _ S) as [d D].
  rewrite (inventory_eq _ _ (d_base donor) D) in HI. apply Ok_inj in HI. subst recs.
  rewrite (expected_payloads_eq _ _ D) in HP. apply Ok_inj in HP. subst pays.
  set (recs := inventory_rows shape d (d_base donor)) in *.
  assert (forall r, In r recs -> row_fits FIXED r) as Hrows.
  { intros r Hin. destruct (Hr r Hin) as [Hi Hp]. destruct (inventory_row_id _ _ _ _ Hin) as [Hid _].
    rewrite (proj2 (Z.leb_gt _ _) Hi) in Hid. split; [|done]. exists (rid_of_key (r_key r) (d_base donor)). split; [done|].
    apply rid_bound; [done|]. unfold in_block, r_key. cbn [fst snd].
    pose proof (inventory_index_nonneg _ _ _ _ D S Hin). lia. }
  split_and!.
  - apply (completeness_nil _ _ _ (record_keys_eq _ _ D)). split; [symmetry; apply S|by apply inventory_keys_perm].
  - apply record_findings_nil. split; [done|].
    apply (allocated_ids_NoDup shape d donor (name_table ∅) D S Hb Hlay (name_table_ok ∅ ltac:(done))).
    + by apply (gate_ids shape d donor).
    + by apply (gate_lengths shape d donor).
  - unfold slot_findings. by rewrite (proj2 (Z.ltb_ge _ _)).
  - by apply gate_image.
  - intros Hroom. by apply gate_output_maps.
Qed.
