(* ===== verification/NvmControls.v ===== *)
(** The gate's negative controls ([MUTATIONS] of
    [scripts/check_nvm_record_space.py]): those that rewrite an inventory are
    caught on every good shape, those that turn a rule of the codec off on a
    sample shape, where the theorems of the gate are also instantiated. *)
From S2P Require Import Prelude Unicode Text Crc NvmContract NvmJournal NvmShape NvmMaps NvmGate NvmGateImage.

(** * The controls redden *)

Lemma key_le_antisym a b : key_le a b -> key_le b a -> a = b.
Proof.
  destruct a as [g i], b as [g' i']. unfold key_le, key_leb. cbn [fst snd].
  destruct (decide (g = g')) as [->|Hne].
  - rewrite decide_True by done. rewrite !Z.leb_le. intros. f_equal. lia.
  - rewrite decide_False by congruence. intros H1 H2. by destruct Hne; apply group_name_inj, str_le_antisym.
Qed.

(** The least key of a set is the first to be reported. *)
Lemma sorted_keys_head k ks : k ∈ ks -> (forall k', k' ∈ ks -> key_le k k') -> exists rest, sorted_keys ks = k :: rest.
Proof.
  intros Hk Hmin. pose proof (proj2 (sorted_keys_In k ks) Hk) as Hin.
  assert (StronglySorted key_le (sorted_keys ks)) as Hs by (apply StronglySorted_merge_sort; apply _).
  destruct (sorted_keys ks) as [|h rest] eqn:E; [done|]. exists rest. f_equal.
  apply key_le_antisym; [|apply Hmin, sorted_keys_In; rewrite E; by left].
  destruct Hin as [<-|Hin]; [apply Hmin, sorted_keys_In; rewrite E; by left|].
  apply StronglySorted_inv in Hs as [_ Hs]. rewrite Forall_forall in Hs. by apply Hs, list_elem_of_In.
Qed.

Lemma sorted_keys_single k : sorted_keys {[k]} = [k].
Proof. unfold sorted_keys. by rewrite elements_singleton. Qed.

Section Controls.
Context (shape : Shape) (d : dims) (base : Z).
Hypothesis D : dims_of shape d.
Hypothesis S : shape_ok shape.

Let recs := inventory_rows shape d base.
Let want := required shape d.

Lemma rows_keys k : In k (map r_key recs) <-> In k want.
Proof using All.
  rewrite <-!list_elem_of_In. unfold recs, want, required. by rewrite (inventory_keys_perm shape d base D S).
Qed.

Lemma control_eq recs' : exists fs, completeness shape recs' = Ok fs
  /\ forall f, In f (let missing := sorted_keys (list_to_set want ∖ list_to_set (map r_key recs')) in
                     let extra := sorted_keys (list_to_set (map r_key recs') ∖ list_to_set want) in
         (match missing, extra with _ :: _, _ :: _ => [GSwapped (shown missing) (shown extra)] | _, _ => [] end)
         ++ key_findings (fun k => GMissing k (class_of (fst k))) GMissingMore missing
         ++ duplicates recs') -> In f fs.
Proof using All.
  eexists. split; [apply (completeness_eq _ _ _ (record_keys_eq _ _ D))|]. cbv zeta. intros f.
  fold want. rewrite !in_app_iff. tauto.
Qed.

(** Dropping rows of one group, the first included, reports that group's first
    key as missing. *)
Lemma omitted_reported (keep : nvm_record -> bool) g :
  (forall r, keep r = false -> r_group r = g) -> In (g, 0) want ->
  (forall r, In r recs -> r_key r = (g, 0) -> keep r = false) ->
  exists fs, completeness shape (perturbed (Some keep) None recs) = Ok fs
    /\ In (GMissing (g, 0) (class_of g)) fs.
Proof using All.
  intros Hg Hw Hk. destruct (control_eq (perturbed (Some keep) None recs)) as (fs & HC & Hin).
  exists fs. split; [done|]. apply Hin. cbv zeta. rewrite !in_app_iff. right; left. unfold perturbed.
  destruct (sorted_keys_head (g, 0) (list_to_set want ∖ list_to_set (map r_key (List.filter keep recs)))) as [rest ->].
  - rewrite elem_of_difference, !elem_of_list_to_set, !list_elem_of_In. split; [done|].
    intros (r & Hr & [Hrin Hkeep]%filter_In)%in_map_iff. by rewrite (Hk r Hrin Hr) in Hkeep.
  - intros [g' i]. rewrite elem_of_difference, !elem_of_list_to_set, !list_elem_of_In. intros [Hwi Hni].
    pose proof Hwi as (r & Hr & Hrin)%rows_keys%in_map_iff.
    destruct (keep r) eqn:Hkeep; [exfalso; apply Hni, in_map_iff; exists r; split; [done|by apply filter_In]|].
    apply Hg in Hkeep. unfold r_key in Hr. rewrite Hkeep in Hr. injection Hr as <- <-.
    unfold key_le, key_leb. cbn [fst snd]. rewrite decide_True by done. apply Z.leb_le.
    by apply (inventory_index_nonneg shape d base r D S).
  - unfold key_findings. cbn [take map]. rewrite in_app_iff. left. by left.
Qed.

(** Shifting the indices of a group is reported by the key that went and the key
    that came, though no count of rows moves. *)
Lemma shifted_reported g n : 0 < n -> (forall i, In (g, i) want <-> 0 <= i < n) ->
  length (shift g recs) = length recs /\
  exists fs, completeness shape (perturbed None (Some (shift g)) recs) = Ok fs
    /\ In (GSwapped ([(g, 0)], 0) ([(g, n)], 0)) fs.
Proof using All.
  intros Hn Hi. split; [unfold shift; apply length_map|].
  destruct (control_eq (perturbed None (Some (shift g)) recs)) as (fs & HC & Hin).
  exists fs. split; [done|]. apply Hin. cbv zeta. rewrite !in_app_iff. left. unfold perturbed.
  assert (forall k, In k (map r_key (shift g recs)) <->
    (if decide (fst k = g) then In (g, snd k - 1) want else In k want)) as Hk.
  { intros [g' i]. cbn [fst snd]. unfold shift. rewrite map_map, in_map_iff. split.
    - intros (r & Hr & Hrin). destruct (decide (r_group r = g)) as [E|E]; unfold r_key in Hr; cbn in Hr; injection Hr as <- <-.
      + rewrite decide_True by done. apply rows_keys, in_map_iff. exists r. split; [|done].
        unfold r_key. rewrite E. f_equal. lia.
      + rewrite decide_False by done. apply rows_keys, in_map_iff. by exists r.
    - case_decide as E; intros (r & [= Hg Hr] & Hrin)%rows_keys%in_map_iff; exists r; (split; [|done]).
      + rewrite decide_True by done. unfold r_key. cbn. rewrite E, Hg, Hr. f_equal. lia.
      + rewrite decide_False by congruence. unfold r_key. by rewrite Hg, Hr. }
  assert (list_to_set want ∖ list_to_set (map r_key (shift g recs)) = ({[(g, 0)]} : gset Key)) as ->.
  { apply set_eq. intros [g' i]. rewrite elem_of_difference, !elem_of_list_to_set, !list_elem_of_In, Hk, elem_of_singleton.
    cbn [fst snd]. case_decide as E; [subst g'; rewrite !Hi|].
    - split; [intros; f_equal; lia|]. intros [= ->]. lia.
    - split; [by intros []|]. by intros [= ? ?]. }
  assert (list_to_set (map r_key (shift g recs)) ∖ list_to_set want = ({[(g, n)]} : gset Key)) as ->.
  { apply set_eq. intros [g' i]. rewrite elem_of_difference, !elem_of_list_to_set, !list_elem_of_In, Hk, elem_of_singleton.
    cbn [fst snd]. case_decide as E; [subst g'; rewrite !Hi|].
    - split; [intros; f_equal; lia|]. intros [= ->]. lia.
    - split; [by intros []|]. by intros [= ? ?]. }
  rewrite !sorted_keys_single. by left.
Qed.

(** A second row for a key is reported though the key set has not moved. *)
Lemma duplicate_reported : In (FMT_OUT, 0) want ->
  exists fs ids, completeness shape (perturbed None (Some dup_index) recs) = Ok fs
    /\ In (GDuplicate (FMT_OUT, 0) 2 ids) fs.
Proof using All.
  intros Hw. destruct (control_eq (perturbed None (Some dup_index) recs)) as (fs & HC & Hin).
  pose proof Hw as (r & Hr & Hrin)%rows_keys%in_map_iff.
  destruct (List.find (fun r => bool_decide (r_group r = FMT_OUT) && (r_index r =? 0)
    && bool_decide (is_Some (r_id r))) recs) as [r'|] eqn:EF; cycle 1.
  { apply (find_none _ _ EF r) in Hrin as Hf. unfold r_key in Hr. injection Hr as Hg Hi.
    destruct (inventory_row_id _ _ _ _ Hrin) as [Hid _]. rewrite Hg, Hi in Hid. change (block_of FMT_OUT <=? 0) with false in Hid.
    rewrite Hid, Hg, Hi in Hf. cbn in Hf. done. }
  pose proof EF as [Hr' Hf]%List.find_some. bool_prop.
  set (dup := {| r_group := r_group r'; r_index := r_index r'; r_id := (fun i => i + 12) <$> r_id r';
                r_plen := r_plen r'; r_block := r_block r' |}).
  assert (r_key dup = (FMT_OUT, 0)) as Hdup by (unfold r_key; cbn; by f_equal).
  assert (zlen (with_key (FMT_OUT, 0) (recs ++ [dup])) = 2) as H2.
  { unfold zlen. rewrite with_key_length, map_app, List.filter_app, length_app. cbn [map List.filter].
    rewrite Hdup, bool_decide_eq_true_2 by done.
    assert (length (List.filter (fun k : Key => bool_decide (k = (FMT_OUT, 0%Z))) (map r_key recs)) = 1)%nat as ->; [|done].
    apply Nat.le_antisymm.
    - apply NoDup_count; [|by apply rows_keys]. unfold recs. rewrite (inventory_keys_perm shape d base D S).
      apply required_keys_NoDup.
    - destruct (List.filter _ (map r_key recs)) eqn:E; [|cbn; lia]. exfalso.
      assert (In (FMT_OUT, 0) (List.filter (fun k : Key => bool_decide (k = (FMT_OUT, 0%Z))) (map r_key recs))) as Hin0
        by (apply filter_In; split; [by apply rows_keys|by apply bool_decide_eq_true]).
      by rewrite E in Hin0. }
  exists fs. eexists. split; [done|]. apply Hin. cbv zeta. rewrite !in_app_iff. right; right. unfold perturbed, dup_index.
  rewrite EF. fold dup. unfold duplicates. apply in_flat_map. exists (FMT_OUT, 0). split.
  - apply sorted_keys_In, elem_of_list_to_set, list_elem_of_In. rewrite map_app, in_app_iff. right. left. exact Hdup.
  - rewrite H2. by left.
Qed.
End Controls.

(** A group of the ledger has the keys its count says. *)
Lemma required_group shape d g n i : In (g, n) (cards d ++ [(NAME, expected_names (s_dc shape))]) ->
  In (g, i) (required shape d) <-> 0 <= i < n.
Proof.
  intros Hg. unfold required. rewrite keys_of_cards_In. split; [|by exists n].
  intros (m & Hm & Hi). assert (m = n) as ->; [|done].
  assert (NoDup (map fst (cards d ++ [(NAME, expected_names (s_dc shape))]))) as HN
    by (apply (bool_decide_unpack _); vm_compute; exact I).
  apply list_elem_of_In, list_elem_of_lookup in Hg as [a Ha]. apply list_elem_of_In, list_elem_of_lookup in Hm as [b Hb].
  assert (a = b) as -> by (eapply (NoDup_lookup _ a b g HN); rewrite list_lookup_fmap; [by rewrite Ha|by rewrite Hb]).
  congruence.
Qed.

(** C32: Eight of the negative controls redden on the shapes that have what they
    rewrite.  On a good shape the key-set check reports, with the finding the table
    of the controls names: for [omit_singleton] the singleton that went; for
    [omit_indexed] and [dup_index], where the shape has an output stream, the first
    presentation offset and the doubled format; for [omit_index] and
    [shift_index], where it has an input stream, the first format, and the key that
    went with the key that came though no count moved; for [omit_names] and
    [shift_name], where it has a name, the first name, and the same of the names.
    [old_output_length] gives the output records the length of their clusters:
    where the binding base is one the allocation admits and every row of the
    inventory has an id, the output-map check reports exactly the ports that are
    dynamic and have more stream keys than clusters, each for one key more than its
    clusters and for all its keys; on a shape without such a port it has nothing to
    report. *)
Theorem controls_redden shape base recs :
  shape_ok shape -> inventory shape base = Ok recs ->
  let reports omit xform f := exists fs, completeness shape (perturbed omit xform recs) = Ok fs /\ In f fs in
  reports (Some omit_singleton) None (GMissing (SUID, 0) (class_of SUID))
  /\ (forall n, s_dc shape STREAM_OUTPUT = Some n -> 0 < n ->
        reports (Some omit_indexed) None (GMissing (PT_OFS, 0) (class_of PT_OFS))
        /\ exists ids, reports None (Some dup_index) (GDuplicate (FMT_OUT, 0) 2 ids))
  /\ (forall n, s_dc shape STREAM_INPUT = Some n -> 0 < n ->
        reports (Some omit_index) None (GMissing (FMT_IN, 0) (class_of FMT_IN))
        /\ length (shift_index recs) = length recs
        /\ reports None (Some shift_index) (GSwapped ([(FMT_IN, 0)], 0) ([(FMT_IN, n)], 0)))
  /\ (0 < s_names shape ->
        reports (Some omit_names) None (GMissing (NAME, 0) (class_of NAME))
        /\ length (shift_name recs) = length recs
        /\ reports None (Some shift_name) (GSwapped ([(NAME, 0)], 0) ([(NAME, s_names shape)], 0)))
  /\ (forall n, s_dc shape STREAM_OUTPUT = Some n -> base_ok base ->
        (forall r, In r recs -> r_index r < block_of (r_group r)) ->
        exists recs', old_output_length shape recs = Ok recs'
          /\ forall donor expect, check_output_maps shape recs' donor expect = Ok (short_ports shape n)).
Proof.
  intros S HI reports. subst reports. cbv beta. destruct (shape_dims _ S) as [d D].
  rewrite (inventory_eq _ _ base D) in HI. apply Ok_inj in HI. subst recs.
  assert (forall g n, In (g, n) (cards d ++ [(NAME, expected_names (s_dc shape))]) -> forall i,
    In (g, i) (required shape d) <-> 0 <= i < n) as Hg by (intros; by apply required_group).
  unfold cards in Hg. cbn [app In] in Hg. pose proof D as (H1 & H2 & H3 & H4 & H5 & H6).
  split_and!.
  - apply omitted_reported; try done.
    + intros r. unfold omit_singleton. intros ?. by bool_prop.
    + apply (Hg SUID 1); [tauto|lia].
    + intros r _ [= E _]. unfold omit_singleton. by rewrite E.
  - intros n Hn Hpos. rewrite H4 in Hn. injection Hn as <-. split.
    + apply omitted_reported; try done.
      * intros r. unfold omit_indexed. intros ?. by bool_prop.
      * apply (Hg PT_OFS (n_so d)); [tauto|lia].
      * intros r _ [= E _]. unfold omit_indexed. by rewrite E.
    + destruct (duplicate_reported shape d base D S) as (fs & ids & ? & ?); [|by exists ids, fs].
      apply (Hg FMT_OUT (n_so d)); [tauto|lia].
  - intros n Hn Hpos. rewrite H3 in Hn. injection Hn as <-. split.
    + apply omitted_reported; try done.
      * intros r. unfold omit_index. intros ?. by bool_prop.
      * apply (Hg FMT_IN (n_si d)); [tauto|lia].
      * intros r _ [= E E']. unfold omit_index. by rewrite E, E'.
    + apply shifted_reported; [done..|]. apply Hg. tauto.
  - intros Hpos. rewrite (so_names _ S) in *. split.
    + apply omitted_reported; try done.
      * intros r. unfold omit_names. intros ?. by bool_prop.
      * apply (Hg NAME (expected_names (s_dc shape))); [tauto|lia].
      * intros r _ [= E _]. unfold omit_names. by rewrite E.
    + apply shifted_reported; [done..|]. apply Hg. tauto.
  - intros n Hn Hb Hrows. rewrite H4 in Hn. injection Hn as <-. by apply old_length_reported.
Qed.

(** * On the sample shape *)

Definition sample_rows : list nvm_record :=
  match inventory sample_shape 0x20 with Ok recs => recs | Err _ => [] end.

Definition sample_keys : list Key := match record_keys sample_shape with Ok keys => keys | Err _ => [] end.

Lemma sample_inventory : inventory sample_shape 0x20 = Ok sample_rows.
Proof. vm_compute. reflexivity. Qed.

Lemma sample_record_keys : record_keys sample_shape = Ok sample_keys.
Proof. vm_compute. reflexivity. Qed.

(** The image controls, which turn a rule of the codec off, redden too, each with
    the finding its table names. *)
Example image_controls_redden :
  check_image FIXED {| NAME_PRESENCE_FROM_CONTENT := false; DECODE_ALLOW_ABSENT := true; ERASED_HEADER_ONLY := false |}
    sample_shape sample_rows sample_donor = Ok [GIncomplete (BINDING, 0) 0x20 VD_OK 31; GShort 0x90 VD_OK 31]
  /\ check_image FIXED {| NAME_PRESENCE_FROM_CONTENT := true; DECODE_ALLOW_ABSENT := false; ERASED_HEADER_ONLY := false |}
    sample_shape sample_rows sample_donor = Ok [GEmptyAbsent; GNameCount 16 17]
  /\ check_image FIXED {| NAME_PRESENCE_FROM_CONTENT := false; DECODE_ALLOW_ABSENT := false; ERASED_HEADER_ONLY := true |}
    sample_shape sample_rows sample_donor = Ok [GTorn VD_OK 31].
Proof. split; [|split]; vm_compute; reflexivity. Qed.

(** The finding that names both sides says the cardinalities agree; it is
    reported whenever something is missing and something is extra. *)
Example swapped_counts_differ :
  match completeness sample_shape (perturbed (Some omit_singleton) (Some shift_index) sample_rows) with
  | Ok (f :: _) => f = GSwapped ([(FMT_IN, 0); (SUID, 0)], 0) ([(FMT_IN, 2)], 0)
  | _ => False
  end.
Proof. vm_compute. reflexivity. Qed.

(** A defect that moves no count: the stream formats shifted by one. *)
Lemma static_checks_exact_witness :
  record_keys sample_shape = Ok sample_keys
  /\ ~ map r_key (shift_index sample_rows) ≡ₚ sample_keys
  /\ (completeness sample_shape sample_rows = Ok [] /\ record_findings FIXED sample_rows = []).
Proof.
  split; [exact sample_record_keys|]. split.
  - intros HP.
    assert (completeness sample_shape (shift_index sample_rows) = Ok [] /\ record_findings FIXED (shift_index sample_rows) = [])
      as [HC _].
    { apply (static_checks_exact FIXED sample_shape (shift_index sample_rows) sample_keys sample_record_keys).
      split; [reflexivity|]. split; [exact HP|].
      apply and_comm. apply (proj1 (record_findings_nil FIXED (shift_index sample_rows))). vm_compute. reflexivity. }
    assert (match completeness sample_shape (shift_index sample_rows) with Ok [] => true | _ => false end = false) as K
      by (vm_compute; reflexivity).
    rewrite HC in K. discriminate K.
  - split; vm_compute; reflexivity.
Defined.

(** Sixteen ids are too few for the sample shape, whatever the allocation. *)
Lemma conformance_exact_witness :
  conformance_findings {| ID_SPACE := 16; ERASE_BLOCK := 65536; T_NVM_COMMIT_TIMEOUT_MS := 8000 |}
    [(s_stem sample_shape, 32)] = [GFloor (s_stem sample_shape) 32]
  /\ ~ exists alloc, allocates 16 sample_keys alloc.
Proof.
  split; [reflexivity|]. intros Ha.
  assert (0 <= 16) as H0 by lia.
  assert (conformant_floor (s_names sample_shape) (s_dc sample_shape) = Ok 32) as HF by (vm_compute; reflexivity).
  pose proof (proj2 (conformance_exact {| ID_SPACE := 16; ERASE_BLOCK := 65536; T_NVM_COMMIT_TIMEOUT_MS := 8000 |}
    sample_shape sample_keys 32 sample_shape_ok H0 sample_record_keys HF) Ha) as K.
  discriminate K.
Defined.

Lemma controls_redden_witness :
  (exists fs, completeness sample_shape (perturbed None (Some shift_name) sample_rows) = Ok fs
    /\ In (GSwapped ([(NAME, 0)], 0) ([(NAME, 17)], 0)) fs)
  /\ exists recs', old_output_length sample_shape sample_rows = Ok recs'
    /\ check_output_maps sample_shape recs' sample_donor ∅ = Ok [FCapacity 0 3; FCapacity 0 16].
Proof.
  destruct (controls_redden sample_shape 0x20 sample_rows sample_shape_ok sample_inventory) as (_ & _ & _ & H & HL).
  split.
  - assert (0 < s_names sample_shape) as Hn by (cbn; lia).
    destruct (H Hn) as (_ & _ & K). exact K.
  - assert (forallb (fun r => r_index r <? block_of (r_group r)) sample_rows = true) as Hb by (vm_compute; reflexivity).
    destruct (HL _ eq_refl ltac:(unfold base_ok; lia)) as (recs' & E & K).
    + intros r Hr. rewrite forallb_forall in Hb. apply Z.ltb_lt. exact (Hb r Hr).
    + exists recs'. split; [exact E|]. exact (K sample_donor ∅).
Defined.
