(* ===== verification/NvmTable.v ===== *)
(** The record table of [scripts/check_nvm_record_space.py]
    ([render_record_table]): the text the RTL suite reads, one line per record
    with its offset in the image.

    [record_table_exact] shows that every line locates its record.  The tables
    of two shipped configurations are compared in [NvmBuilds]. *)
From S2P Require Import Prelude Unicode Text Descriptors Crc NvmContract NvmJournal NvmShape NvmMaps NvmGate.

(** * The text *)

(** The rows that have an id, with it. *)
Definition live_rows (recs : list nvm_record) : list (Z * nvm_record) :=
  flat_map (fun r => match r_id r with Some rid => [(rid, r)] | None => [] end) recs.

Definition id_le (a b : Z * nvm_record) : Prop := fst a <= fst b.
#[export] Instance id_le_dec a b : Decision (id_le a b).
Proof. unfold id_le. apply _. Defined.

(** [0x%08X]. *)
Definition crc_text (v : Z) : pystr :=
  let digits := map upper (hex_digits_of (S (Z.to_nat (Z.log2 v))) v) in
  lit "0x" ++ repeat 48 (8 - length digits) ++ digits.

Definition record_line (offs : gmap Z Z) (row : Z * nvm_record) : pystr :=
  let '(rid, r) := row in
  join (lit " ") [lit "rec"; id_text (Some rid); dec (default 0 (offs !! rid)); dec (REC_HDR + r_plen r);
                  dec (r_plen r); group_name (r_group r); dec (r_index r)].

Definition table_lines (stem : pystr) (layout nrec : Z) (blob : bytes) (offs : gmap Z Z)
    (rows : list (Z * nvm_record)) : list pystr :=
  [lit "# GENERATED by scripts/check_nvm_record_space.py --emit-record-table";
   lit "# DO NOT EDIT: the gate rebuilds this file and reports a mismatch.";
   lit "shape " ++ stem;
   lit "layout " ++ dec layout;
   lit "hdrbytes " ++ dec KLJ2_HDR;
   lit "imglen " ++ dec (zlen blob);
   lit "crc32 " ++ crc_text (Z.land (crc32 (zslice 0 (zlen blob - 4) blob)) 0xFFFFFFFF);
   lit "nrec " ++ dec nrec;
   lit "# rec <id> <area_offset> <framed_len> <payload_len> <group> <index>"]
  ++ map (record_line offs) rows.

(** The payload of a row of the table: every record follows the arithmetic rule. *)
Definition table_payload (r : nvm_record) (rid : Z) : bytes :=
  payload_bytes (r_group r) (r_index r) rid (r_plen r) None.

Definition render_record_table (shape : Shape) (recs : list nvm_record) (donor : Donor) : result nvm_error pystr :=
  let* frames := frames_with table_payload recs (d_layout donor) in
  let* bo := klj2_assemble frames donor EMIT_IDENT in
  Ok (join [10] (table_lines (s_stem shape) (d_layout donor) (count_of frames) (fst bo) (snd bo)
                   (merge_sort id_le (live_rows recs))) ++ [10]).

(** * Every line locates its record *)

#[export] Instance id_le_total : Total id_le.
Proof. intros a b. unfold id_le. lia. Qed.
#[export] Instance id_le_trans : Transitive id_le.
Proof. intros a b c. unfold id_le. lia. Qed.

Lemma live_rows_all (recs : list nvm_record) : (forall r, In r recs -> is_Some (r_id r)) ->
  map fst (live_rows recs) = map (fun r => default 0 (r_id r)) recs
  /\ map snd (live_rows recs) = recs.
Proof.
  unfold live_rows. induction recs as [|r recs IH]; intros Hid; cbn [flat_map map]; [done|].
  destruct (Hid r (or_introl eq_refl)) as [rid ->]. destruct IH as [H1 H2]; [intros; apply Hid; by right|].
  cbn [app map fst snd default from_option id]. by rewrite H1, H2.
Qed.

Lemma table_payload_ok r rid : 0 <= r_plen r ->
  zlen (table_payload r rid) = r_plen r /\ Forall is_byte (table_payload r rid).
Proof.
  intros Hn. unfold table_payload, payload_bytes. split.
  - rewrite zlen_map. unfold zlen. rewrite zrange_length. lia.
  - apply Forall_map, Forall_forall. intros j _. change 0xFF with (Z.ones 8). apply word_byte, word_land_ones. lia.
Qed.

Section Table.
Context (donor : Donor) (recs : list nvm_record).
Hypothesis Hlay : 0 <= d_layout donor < 256.
Hypothesis Hrow : forall r, In r recs -> exists rid, r_id r = Some rid /\ 0 <= rid < 256 /\ 0 <= r_plen r < 65536.
Hypothesis Hids : NoDup (map r_id recs).

Let frame (r : nvm_record) : bytes :=
  record_frame (default 0 (r_id r)) (table_payload r (default 0 (r_id r))) (d_layout donor).

Lemma row_ids r : In r recs -> is_Some (r_id r).
Proof using Hrow. intros Hr. destruct (Hrow r Hr) as (rid & -> & _). by eexists. Qed.

Lemma frame_length r : In r recs -> zlen (frame r) = REC_HDR + r_plen r.
Proof using Hrow.
  intros Hr. destruct (Hrow r Hr) as (rid & E & _ & ?). unfold frame. rewrite E, record_frame_length.
  f_equal. apply table_payload_ok. lia.
Qed.

(** The frames are those of the rows, and nothing else. *)
Lemma table_frames : exists frames, frames_with table_payload recs (d_layout donor) = Ok frames
  /\ (forall r rid, In r recs -> r_id r = Some rid -> frames !! rid = Some (frame r))
  /\ map_to_list frames ≡ₚ map (fun r => (default 0 (r_id r), frame r)) recs.
Proof using All.
  destruct (frames_with_spec table_payload (d_layout donor) recs frame) as (frames & HF & Hfr);
    [|by apply row_ids|done|].
  { intros r rid Hr E. destruct (Hrow r Hr) as (rid' & E' & ? & ?). rewrite E in E'. injection E' as <-.
    unfold frame. rewrite E. apply frame_record_Ok. rewrite (proj1 (table_payload_ok r rid ltac:(lia))).
    split_and!; (done || lia). }
  exists frames. split; [done|]. split; [intros r rid ? ?; apply Hfr; by exists r|].
  apply NoDup_Permutation; [apply NoDup_map_to_list| |].
  - apply (NoDup_fmap_1 (fun xb : Z * bytes => Some (fst xb))).
    replace ((fun xb : Z * bytes => Some (fst xb)) <$> _) with (map r_id recs); [done|].
    change (?f <$> map ?g ?l) with (map f (map g l)). rewrite map_map. apply map_ext_in. intros r Hr. cbn [fst].
    by destruct (row_ids r Hr) as [rid ->].
  - intros [x b]. rewrite elem_of_map_to_list, Hfr, list_elem_of_In, in_map_iff. split.
    + intros (r & Hr & E & ->). exists r. by rewrite E.
    + intros (r & [= <- <-] & Hr). exists r. destruct (row_ids r Hr) as [rid E]. by rewrite E.
Qed.

Lemma table_area (frames : gmap Z bytes) :
  map_to_list frames ≡ₚ map (fun r => (default 0 (r_id r), frame r)) recs ->
  Z.of_nat (size frames) = zlen recs /\ zlen (area_of frames) = sum_z (map (fun r => REC_HDR + r_plen r) recs).
Proof using Hrow.
  intros HP. split.
  - rewrite <-(length_map_to_list frames), HP, length_map. done.
  - rewrite area_of_length, HP, map_map. f_equal. apply map_ext_in. intros r Hr. by apply frame_length.
Qed.

Lemma rows_bound : 8 * zlen recs <= sum_z (map (fun r => REC_HDR + r_plen r) recs).
Proof using Hrow.
  assert (forall r, In r recs -> 0 <= r_plen r) as Hp by (intros r Hr; destruct (Hrow r Hr) as (? & _ & _ & ?); lia).
  clear -Hp. unfold sum_z, REC_HDR. induction recs as [|r l IH]; cbn [map foldr]; [done|].
  rewrite zlen_cons. pose proof (Hp r (or_introl eq_refl)). pose proof (IH ltac:(intros; apply Hp; by right)). lia.
Qed.
End Table.

(** C33: Every line of the table locates its record.  Whenever the ids of the rows are
    distinct octets, the payload lengths fit their field and the image fits one
    erase block, the table is rendered: one line per row, in ascending order of
    the ids, with the length of the image the gate computes; and the octets of
    the image at the offset a line states are the frame of the row it names. *)
Theorem record_table_exact shape recs (donor : Donor) :
  0 <= d_layout donor < 256 ->
  (forall r, In r recs -> exists rid, r_id r = Some rid /\ 0 <= rid < 256 /\ 0 <= r_plen r < 65536) ->
  NoDup (map r_id recs) -> image_length recs <= 65536 ->
  exists blob offs rows,
    render_record_table shape recs donor
      = Ok (join [10] (table_lines (s_stem shape) (d_layout donor) (zlen recs) blob offs rows) ++ [10])
    /\ zlen blob = image_length recs
    /\ map snd rows ≡ₚ recs /\ StronglySorted id_le rows
    /\ forall rid r, In (rid, r) rows -> r_id r = Some rid /\ exists off, offs !! rid = Some off
         /\ zslice (KLJ2_HDR + off) (REC_HDR + r_plen r) blob
            = record_frame rid (table_payload r rid) (d_layout donor).
Proof.
  intros Hlay Hrow Hids Hfit.
  destruct (table_frames donor recs Hlay Hrow Hids) as (frames & HF & Hat & HP).
  destruct (table_area donor recs Hrow frames HP) as [Hsize Harea].
  destruct (assemble_fits donor EMIT_IDENT frames) as (blob & offs & HA & Hblob); [done|done| | |].
  { rewrite Hsize, Harea. by apply rows_bound. }
  { unfold image_length in Hfit. by rewrite Harea. }
  destruct (live_rows_all recs ltac:(by apply row_ids)) as [_ Hsnd].
  exists blob, offs, (merge_sort id_le (live_rows recs)). split_and!.
  - unfold render_record_table, count_of. rewrite HF. cbn [rbind]. rewrite HA. cbn [rbind fst snd]. by rewrite Hsize.
  - rewrite Hblob, Harea. done.
  - by rewrite merge_sort_Permutation, Hsnd.
  - apply StronglySorted_merge_sort; apply _.
  - intros rid r Hin. apply list_elem_of_In in Hin. rewrite merge_sort_Permutation in Hin.
    apply list_elem_of_In, in_flat_map in Hin as (r' & Hr' & Hin).
    destruct (r_id r') as [rid'|] eqn:E; [|done]. destruct Hin as [[= <- <-]|[]].
    split; [done|]. specialize (Hat r' rid' Hr' E). rewrite E in Hat. cbn [default from_option id] in Hat.
    destruct (assembled_locates _ _ _ _ _ _ _ HA Hat) as (off & Ho & Hs). exists off. split; [done|].
    pose proof (frame_length donor recs Hrow r' Hr') as HL. cbn beta in HL. rewrite E in HL. cbn [default from_option id] in HL.
    by rewrite HL in Hs.
Qed.
