(* ===== verification/Mailbox.v ===== *)
(** The packet-mailbox contract ([sw/mailbox/mailbox_model.py]): validation of
    the register blocks, ring layout, filter rules and publication block, and
    the flat constant list every output carries.

    The items [yaml.safe_load] returns have the type of the record they become;
    a missing key ([_need]) and a scalar of another type are refused before
    this model starts.  [doc] and [cite] strings are dropped: no check reads
    them.  A dict keyed by name is an association list in source order. *)
From S2P Require Import Prelude.

Definition REGISTER_SPACE_BYTES := 0x400.
Definition TERM_FIELD_BYTES := 8.
Definition ACCESS_KINDS : list string := ["ro"; "rw"; "wo"; "rw1c"]%string.

(** [ContractError], a constructor per refusal, and the two errors of the
    standard library the code can meet. *)
Inductive contract_error :=
  | EFieldBits (name : string)
  | EFieldOverlap (name : string)
  | EAccess (name : string)
  | EOffset (name : string) (offset : Z)
  | EOffsetTaken (name : string) (offset : Z)
  | EWordTwice (index : Z)
  | ETest (test : string)
  | ETermPast (offset : Z)
  | ETermMask
  | EShift                              (* ValueError: negative shift count *)
  | EMsgNoSubtype
  | EMsgTypes
  | ETupleCount
  | EDst
  | ETupleRange (ethertype : Z)
  | ETupleTwice
  | ETermCount (channel : string)
  | EFrameBytes (channel : string)
  | ERate (channel : string)
  | ERingRecord (channel : string)
  | ERingSize (label : string)
  | ERingPlace (label : string)
  | ERingOverlap
  | EChannelIds
  | ETpid (channel : string) (ethertype : Z)
  | EClaim (channel : string) (ethertype : Z)
  | EBoundTalkers
  | EBoundSpill
  | EBlockSpill (label : string)
  | EBlockCollide (label : string) (k at_ : Z)
  | EPubCounts
  | EPubRegisters
  | EPubSourceRegisters
  | EPubSources
  | EPubSinkRegisters
  | EPubSinks
  | EPubPlace
  | EPubOverlap (label : string)
  | EInterfaces
  | ETick
  | ERecords
  | ETestNone
  | EDsts
  | EReadOrder
  | EMsgByte
  | EConstantTwice (name : string)
  | EKey                                (* KeyError of a name table *)
  | EMaxEmpty                           (* ValueError: max() of nothing *)
  | EIntLiteral.                        (* ValueError of int() *)

(** * Data *)

Record Field := { f_name : string; f_lsb : Z; f_width : Z }.

Record Register := { r_name : string; r_offset : Z; r_access : string; r_fields : list Field }.

Record Word := { w_index : Z; w_fields : list Field }.

Record Term := { t_test : string; t_offset : Z; t_msg_mask : Z }.

Inductive dst_kind := DstNone | DstMac | DstOwn.
#[export] Instance dst_kind_eq_dec : EqDecision dst_kind.
Proof. solve_decision. Defined.

Record Match := {
  m_dst : dst_kind;
  m_mac : Z;
  m_ethertype : Z;
  m_subtype : option Z;
  m_msg_mask : Z
}.
#[export] Instance Match_eq_dec : EqDecision Match.
Proof. solve_decision. Defined.

Record Channel := {
  ch_name : string;
  ch_ident : Z;
  ch_rx_base : Z;
  ch_rx_words : Z;
  ch_tx_base : Z;
  ch_tx_words : Z;
  ch_max_frame_bytes : Z;
  ch_tuples : list Match;
  ch_burst : Z;
  ch_refill_ms : Z;
  ch_terms : list Term
}.

Record EventType := { ev_name : string; ev_value : Z; ev_type_words : list Word }.

(** A register block: where it starts, the bytes per instance, its registers. *)
Record Contract := {
  major : Z; minor : Z; magic : Z; window_bytes : Z;
  interfaces : Z; timers : Z; tick_ms : Z; index_bits : Z;
  registers : list Register;
  if_base : Z; if_stride : Z; if_registers : list Register;
  iff_base : Z; iff_stride : Z; iff_registers : list Register;
  bound_talkers : Z;
  bnd_base : Z; bnd_stride : Z; bnd_entry_stride : Z; bnd_registers : list Register;
  pub_sources : Z; pub_sinks : Z;
  pub_base : Z; pub_stride : Z;
  pub_source_base : Z; pub_source_stride : Z; pub_sink_base : Z; pub_sink_stride : Z;
  pub_registers : list Register;
  pub_source_registers : list Register;
  pub_sink_registers : list Register;
  ch_base : Z; ch_stride : Z; ch_registers : list Register;
  evt_base : Z; evt_words : Z;
  rx_kind : Z; rx_header : list Word;
  tx_kind : Z; tx_header : list Word;
  ev_words : Z; ev_header : list Word;
  event_types : list EventType;
  ethertype_byte : Z; subtype_byte : Z; msg_type_byte : Z; dst_byte : Z;
  max_terms : Z; max_tuples : Z;
  tpids : list Z;
  dsts : list (string * Z);
  tests : list (string * Z);
  tmr_ops : list (string * Z);
  channels : list Channel
}.

(** The items a channel is read from. *)
Record raw_term := { rt_test : string; rt_offset : option Z; rt_msg_types : option (list Z) }.

Inductive raw_dst := RawOwn | RawInt (z : Z) | RawOther.

Record raw_match := {
  rm_dst : raw_dst;
  rm_ethertype : Z;
  rm_subtype : option Z;
  rm_msg_types : option (list Z)
}.

Record raw_channel := {
  rc_name : string; rc_ident : Z;
  rc_rx_base : Z; rc_rx_words : Z; rc_tx_base : Z; rc_tx_words : Z;
  rc_max_frame_bytes : Z;
  rc_match : list raw_match;
  rc_burst : Z; rc_refill_ms : Z;
  rc_accept : list raw_term
}.

(** The document: every item but the channels in its contract field, and the
    channels' items. *)
Record document := { doc_items : Contract; doc_channels : list raw_channel }.

(** [dataclasses.replace] of what [load] and [with_interfaces] set. *)
Definition rebuild (c : Contract) (n : Z) (rxh txh evh : list Word) (evs : list EventType)
    (chs : list Channel) : Contract := {|
  major := major c; minor := minor c; magic := magic c; window_bytes := window_bytes c;
  interfaces := n; timers := timers c; tick_ms := tick_ms c; index_bits := index_bits c;
  registers := registers c;
  if_base := if_base c; if_stride := if_stride c; if_registers := if_registers c;
  iff_base := iff_base c; iff_stride := iff_stride c; iff_registers := iff_registers c;
  bound_talkers := bound_talkers c;
  bnd_base := bnd_base c; bnd_stride := bnd_stride c; bnd_entry_stride := bnd_entry_stride c;
  bnd_registers := bnd_registers c;
  pub_sources := pub_sources c; pub_sinks := pub_sinks c;
  pub_base := pub_base c; pub_stride := pub_stride c;
  pub_source_base := pub_source_base c; pub_source_stride := pub_source_stride c;
  pub_sink_base := pub_sink_base c; pub_sink_stride := pub_sink_stride c;
  pub_registers := pub_registers c; pub_source_registers := pub_source_registers c;
  pub_sink_registers := pub_sink_registers c;
  ch_base := ch_base c; ch_stride := ch_stride c; ch_registers := ch_registers c;
  evt_base := evt_base c; evt_words := evt_words c;
  rx_kind := rx_kind c; rx_header := rxh; tx_kind := tx_kind c; tx_header := txh;
  ev_words := ev_words c; ev_header := evh; event_types := evs;
  ethertype_byte := ethertype_byte c; subtype_byte := subtype_byte c;
  msg_type_byte := msg_type_byte c; dst_byte := dst_byte c;
  max_terms := max_terms c; max_tuples := max_tuples c;
  tpids := tpids c; dsts := dsts c; tests := tests c; tmr_ops := tmr_ops c;
  channels := chs |}.

(** * Fields and registers *)

Definition field_mask (f : Field) : Z := Z.shiftl (Z.shiftl 1 (f_width f) - 1) (f_lsb f).

Definition field_step (used : Z) (f : Field) : result contract_error Z :=
  let* _ := raise_if ((f_width f <? 1) || (f_lsb f <? 0) || (32 <? f_lsb f + f_width f))
                     (EFieldBits (f_name f)) in
  let* _ := raise_if (negb (Z.land used (field_mask f) =? 0)) (EFieldOverlap (f_name f)) in
  Ok (Z.lor used (field_mask f)).

Definition fields (raw : list Field) : result contract_error (list Field) :=
  let* _ := foldR field_step 0 raw in Ok raw.

Definition register_step (limit : Z) (seen : gset Z) (r : Register) : result contract_error (gset Z) :=
  let* _ := raise_if (negb (existsb (String.eqb (r_access r)) ACCESS_KINDS)) (EAccess (r_name r)) in
  let* _ := raise_if (negb (r_offset r mod 4 =? 0) || (r_offset r <? 0) || (limit <=? r_offset r))
                     (EOffset (r_name r) (r_offset r)) in
  let* _ := raise_if (bool_decide (r_offset r ∈ seen)) (EOffsetTaken (r_name r) (r_offset r)) in
  let* _ := fields (r_fields r) in
  Ok ({[r_offset r]} ∪ seen).

Definition read_registers (raw : list Register) (limit : Z) : result contract_error (list Register) :=
  let* _ := foldR (register_step limit) ∅ raw in Ok raw.

Definition word_le (a b : Word) : Prop := w_index a <= w_index b.
#[export] Instance word_le_dec a b : Decision (word_le a b).
Proof. unfold word_le. apply _. Defined.

Definition word_step (seen : list Z) (w : Word) : result contract_error (list Z) :=
  let* _ := raise_if (existsb (Z.eqb (w_index w)) seen) (EWordTwice (w_index w)) in
  let* _ := fields (w_fields w) in
  Ok (seen ++ [w_index w]).

Definition words (raw : list Word) : result contract_error (list Word) :=
  let* _ := foldR word_step [] raw in Ok (merge_sort word_le raw).

Definition power_of_two (v : Z) : bool := (0 <? v) && (Z.land v (v - 1) =? 0).

(** * Channels *)

(** [sum(1 << int(m) for m in types)]: a negative shift is an error. *)
Definition sum_shifts (types : list Z) : result contract_error Z :=
  foldR (fun acc m => if m <? 0 then Err EShift else Ok (acc + Z.shiftl 1 m)) 0 types.

Definition read_term (tests : list (string * Z)) (max_bytes : Z) (item : raw_term)
    : result contract_error Term :=
  let* _ := raise_if (negb (existsb (String.eqb (rt_test item)) (map fst tests))
                      || String.eqb (rt_test item) "none") (ETest (rt_test item)) in
  let offset := default 0 (rt_offset item) in
  let* _ := raise_if (negb (String.eqb (rt_test item) "any")
                      && (max_bytes <? offset + TERM_FIELD_BYTES)) (ETermPast offset) in
  let* mask := match rt_msg_types item with
               | None => Ok 0xFFFF
               | Some types => sum_shifts types
               end in
  let* _ := raise_if (0xFFFF <? mask) ETermMask in
  Ok {| t_test := rt_test item; t_offset := offset; t_msg_mask := mask |}.

Definition terms (raw : list raw_term) (tests : list (string * Z)) (max_bytes : Z)
    : result contract_error (list Term) := mapR (read_term tests max_bytes) raw.

Definition msg_mask (msg_types : option (list Z)) (subtype : option Z) : result contract_error Z :=
  match msg_types with
  | None => Ok 0xFFFF
  | Some types =>
      let* _ := raise_if (bool_decide (subtype = None)) EMsgNoSubtype in
      let* _ := raise_if (bool_decide (types = []) || negb (bool_decide (NoDup types))
                          || negb (forallb (fun m => (0 <=? m) && (m <=? 15)) types)) EMsgTypes in
      Ok (sum_z (map (Z.shiftl 1) types))
  end.

Definition tuple_step (out : list Match) (item : raw_match) : result contract_error (list Match) :=
  let ethertype := rm_ethertype item in
  let subtype := rm_subtype item in
  let* mask := msg_mask (rm_msg_types item) subtype in
  let* m := match rm_dst item with
            | RawOwn => Ok {| m_dst := DstOwn; m_mac := 0; m_ethertype := ethertype;
                              m_subtype := subtype; m_msg_mask := mask |}
            | RawInt d =>
                if (0 <? d) && (d <? Z.shiftl 1 48)
                then Ok {| m_dst := DstMac; m_mac := d; m_ethertype := ethertype;
                           m_subtype := subtype; m_msg_mask := mask |}
                else Err EDst
            | RawOther => Err EDst
            end in
  let* _ := raise_if (negb ((0 <? ethertype) && (ethertype <=? 0xFFFF))
                      || match subtype with
                         | Some s => negb ((0 <=? s) && (s <=? 0xFF))
                         | None => false
                         end) (ETupleRange ethertype) in
  let* _ := raise_if (bool_decide (m ∈ out)) ETupleTwice in
  Ok (out ++ [m]).

Definition tuples (raw : list raw_match) (max_tuples : Z) : result contract_error (list Match) :=
  let* _ := raise_if (negb ((1 <=? zlen raw) && (zlen raw <=? max_tuples))) ETupleCount in
  foldR tuple_step [] raw.

Definition read_channel (tests : list (string * Z)) (max_terms max_tuples : Z) (item : raw_channel)
    : result contract_error Channel :=
  let max_bytes := rc_max_frame_bytes item in
  let* ts := terms (rc_accept item) tests max_bytes in
  let* _ := raise_if (negb ((1 <=? zlen ts) && (zlen ts <=? max_terms))) (ETermCount (rc_name item)) in
  let* ms := tuples (rc_match item) max_tuples in
  let* _ := raise_if (negb ((14 <? max_bytes) && (max_bytes <=? 1514)) || negb (max_bytes mod 2 =? 0))
                     (EFrameBytes (rc_name item)) in
  let* _ := raise_if (negb ((1 <=? rc_burst item) && (rc_burst item <=? 255))
                      || negb ((1 <=? rc_refill_ms item) && (rc_refill_ms item <=? 65535)))
                     (ERate (rc_name item)) in
  Ok {| ch_name := rc_name item; ch_ident := rc_ident item;
        ch_rx_base := rc_rx_base item; ch_rx_words := rc_rx_words item;
        ch_tx_base := rc_tx_base item; ch_tx_words := rc_tx_words item;
        ch_max_frame_bytes := max_bytes; ch_tuples := ms;
        ch_burst := rc_burst item; ch_refill_ms := rc_refill_ms item; ch_terms := ts |}.

(** * Rings *)

Record span := { s_base : Z; s_words : Z; s_label : string }.

Definition span_end (s : span) : Z := s_base s + 4 * s_words s.

(** The event ring, then each channel's pair. *)
Definition ring_spans (c : Contract) : list span :=
  {| s_base := evt_base c; s_words := evt_words c; s_label := "event ring" |}
  :: flat_map (fun ch =>
       [ {| s_base := ch_rx_base ch; s_words := ch_rx_words ch; s_label := ch_name ch ++ " rx" |};
         {| s_base := ch_tx_base ch; s_words := ch_tx_words ch; s_label := ch_name ch ++ " tx" |} ])%string
       (channels c).

(** The order of the sort; labels only order spans of one base and size, which
    overlap either way. *)
Definition span_leb (a b : span) : bool :=
  if s_base a <? s_base b then true
  else if s_base b <? s_base a then false else s_words a <=? s_words b.
Definition span_le (a b : span) : Prop := span_leb a b = true.
#[export] Instance span_le_dec a b : Decision (span_le a b).
Proof. unfold span_le. apply _. Defined.

Fixpoint adjacent_apart (l : list span) : bool :=
  match l with
  | a :: ((b :: _) as l') => (span_end a <=? s_base b) && adjacent_apart l'
  | _ => true
  end.

Definition check_ring_record (ch : Channel) : result contract_error unit :=
  raise_if (ch_rx_words ch <? 2 + (ch_max_frame_bytes ch + 3) / 4) (ERingRecord (ch_name ch)).

Definition check_span (c : Contract) (s : span) : result contract_error unit :=
  let size := s_words s * 4 in
  let* _ := raise_if (negb (power_of_two (s_words s))) (ERingSize (s_label s)) in
  let* _ := raise_if (index_bits c <? 1) EShift in
  let* _ := raise_if (Z.shiftl 1 (index_bits c - 1) <? s_words s) (ERingSize (s_label s)) in
  raise_if (negb (s_base s mod size =? 0) || (s_base s <? REGISTER_SPACE_BYTES)
            || (window_bytes c <? s_base s + size)) (ERingPlace (s_label s)).

Definition check_rings (c : Contract) : result contract_error unit :=
  let* _ := mapR check_ring_record (channels c) in
  let* _ := mapR (check_span c) (ring_spans c) in
  raise_if (negb (adjacent_apart (merge_sort span_le (ring_spans c)))) ERingOverlap.

(** * Classification *)

(** What a tuple claims of a frame: its EtherType and its subtype, if it names
    one. *)
Abbreviation claim := (Z * option Z)%type.

Definition claim_of (m : Match) : claim := (m_ethertype m, m_subtype m).

Definition clash (a b : claim) : bool :=
  (fst a =? fst b)
  && match snd a, snd b with
     | Some s, Some t => s =? t
     | _, _ => true
     end.

Definition claim_step (c : Contract) (claims : list claim) (ch : Channel)
    : result contract_error (list claim) :=
  let* _ := mapR (fun m =>
      let* _ := raise_if (existsb (Z.eqb (m_ethertype m)) (tpids c)) (ETpid (ch_name ch) (m_ethertype m)) in
      raise_if (existsb (fun k => clash k (claim_of m)) claims) (EClaim (ch_name ch) (m_ethertype m)))
      (ch_tuples ch) in
  Ok (claims ++ map claim_of (ch_tuples ch)).

Definition check_channels (c : Contract) : result contract_error unit :=
  let idents := sorted_z (map ch_ident (channels c)) in
  let* _ := raise_if (negb (bool_decide (idents = zrange 0 (length idents))) || (8 <? zlen idents))
                     EChannelIds in
  let* _ := foldR (claim_step c) [] (channels c) in
  Ok tt.

(** * Register blocks *)

Record block := {
  b_label : string;
  b_stride : Z;
  b_registers : list Register;
  b_count : Z;
  b_at : Z -> Z            (* where instance k starts *)
}.

Definition blocks (c : Contract) : list block :=
  [ {| b_label := "interface"; b_stride := if_stride c; b_registers := if_registers c;
       b_count := interfaces c; b_at := fun k => if_base c + k * if_stride c |};
    {| b_label := "interface filter"; b_stride := iff_stride c; b_registers := iff_registers c;
       b_count := interfaces c; b_at := fun k => iff_base c + k * iff_stride c |};
    {| b_label := "bound-talker entry"; b_stride := bnd_entry_stride c; b_registers := bnd_registers c;
       b_count := interfaces c * bound_talkers c;
       b_at := fun k => bnd_base c + k / bound_talkers c * bnd_stride c
                        + k mod bound_talkers c * bnd_entry_stride c |};
    {| b_label := "channel"; b_stride := ch_stride c; b_registers := ch_registers c;
       b_count := zlen (channels c); b_at := fun k => ch_base c + k * ch_stride c |} ]%string.

Definition place_register (b : block) (k : Z) (globals_at : gset Z) (r : Register)
    : result contract_error (gset Z) :=
  let at_ := b_at b k + r_offset r in
  let* _ := raise_if ((REGISTER_SPACE_BYTES <=? at_) || bool_decide (at_ ∈ globals_at))
                     (EBlockCollide (b_label b) k at_) in
  Ok ({[at_]} ∪ globals_at).

Definition place_block (globals_at : gset Z) (b : block) : result contract_error (gset Z) :=
  let* _ := raise_if (existsb (fun r => b_stride b <=? r_offset r) (b_registers b))
                     (EBlockSpill (b_label b)) in
  foldR (fun g k => foldR (place_register b k) g (b_registers b)) globals_at
        (zrange 0 (Z.to_nat (b_count b))).

Definition check_blocks (c : Contract) : result contract_error unit :=
  let globals_at : gset Z := list_to_set (map r_offset (registers c)) in
  let* _ := raise_if (negb ((1 <=? bound_talkers c) && (bound_talkers c <=? 32))) EBoundTalkers in
  let* _ := raise_if (bnd_stride c <? bound_talkers c * bnd_entry_stride c) EBoundSpill in
  let* _ := foldR place_block globals_at (blocks c) in
  Ok tt.

(** * The publication block *)

Definition past (limit : Z) (regs : list Register) : bool := existsb (fun r => limit <=? r_offset r) regs.

Definition pub_end (c : Contract) : Z := pub_base c + interfaces c * pub_stride c.

Definition check_publication (c : Contract) : result contract_error unit :=
  let* _ := raise_if (negb ((1 <=? pub_sources c) && (pub_sources c <=? 32))
                      || negb ((1 <=? pub_sinks c) && (pub_sinks c <=? 32))) EPubCounts in
  let* _ := raise_if (past (pub_source_base c) (pub_registers c)) EPubRegisters in
  let* _ := raise_if (past (pub_source_stride c) (pub_source_registers c)) EPubSourceRegisters in
  let* _ := raise_if (pub_sink_base c <? pub_source_base c + pub_sources c * pub_source_stride c) EPubSources in
  let* _ := raise_if (past (pub_sink_stride c) (pub_sink_registers c)) EPubSinkRegisters in
  let* _ := raise_if (pub_stride c <? pub_sink_base c + pub_sinks c * pub_sink_stride c) EPubSinks in
  let start := pub_base c in
  let* _ := raise_if (negb (start mod 4 =? 0) || (start <? REGISTER_SPACE_BYTES)
                      || (window_bytes c <? pub_end c)) EPubPlace in
  let* _ := mapR (fun s => raise_if ((s_base s <? pub_end c) && (start <? span_end s)) (EPubOverlap (s_label s)))
                 (ring_spans c) in
  Ok tt.

(** * The contract *)

Definition check_contract (c : Contract) : result contract_error unit :=
  let* _ := raise_if (negb ((1 <=? interfaces c) && (interfaces c <=? 4))
                      || negb ((1 <=? timers c) && (timers c <=? 64))) EInterfaces in
  let* _ := raise_if (negb ((1 <=? tick_ms c) && (tick_ms c <=? 255))) ETick in
  let* _ := raise_if (negb (ev_words c =? 4)
                      || negb (bool_decide (map w_index (rx_header c) = [0; 1]))
                      || negb (bool_decide (map w_index (tx_header c) = [0; 1]))) ERecords in
  let* _ := raise_if (negb (bool_decide (head (tests c) = Some ("none"%string, 0)))) ETestNone in
  let* _ := raise_if (negb (bool_decide (dsts c = [("none", 0); ("mac", 1); ("own", 2)]%string))) EDsts in
  let* _ := raise_if ((ethertype_byte c <? dst_byte c + 6) || (subtype_byte c <? ethertype_byte c + 2)) EReadOrder in
  let* _ := raise_if (negb (msg_type_byte c =? subtype_byte c + 1)) EMsgByte in
  let* _ := check_rings c in
  let* _ := check_channels c in
  let* _ := check_blocks c in
  check_publication c.

Definition ident_le (a b : Channel) : Prop := ch_ident a <= ch_ident b.
#[export] Instance ident_le_dec a b : Decision (ident_le a b).
Proof. unfold ident_le. apply _. Defined.

(** [load]: the items in the order they are read, then the channels, then the
    cross-item rules. *)
Definition load (doc : document) : result contract_error Contract :=
  let c := doc_items doc in
  let limit := REGISTER_SPACE_BYTES in
  let* _ := read_registers (registers c) limit in
  let* _ := read_registers (if_registers c) limit in
  let* _ := read_registers (iff_registers c) limit in
  let* _ := read_registers (bnd_registers c) limit in
  let* _ := read_registers (pub_registers c) limit in
  let* _ := read_registers (pub_source_registers c) limit in
  let* _ := read_registers (pub_sink_registers c) limit in
  let* _ := read_registers (ch_registers c) limit in
  let* rxh := words (rx_header c) in
  let* txh := words (tx_header c) in
  let* evh := words (ev_header c) in
  let* evs := mapR (fun e => let* ws := words (ev_type_words e) in
                             Ok {| ev_name := ev_name e; ev_value := ev_value e; ev_type_words := ws |})
                   (event_types c) in
  let* chs := mapR (read_channel (tests c) (max_terms c) (max_tuples c)) (doc_channels doc) in
  let contract := rebuild c (interfaces c) rxh txh evh evs (merge_sort ident_le chs) in
  let* _ := check_contract contract in
  Ok contract.

Definition with_interfaces (c : Contract) (n : Z) : result contract_error Contract :=
  let variant := rebuild c n (rx_header c) (tx_header c) (ev_header c) (event_types c) (channels c) in
  let* _ := check_contract variant in
  Ok variant.

(** * The constant list *)

Record Constant := { k_name : string; k_value : Z; k_hexa : bool }.

Definition K (hexa : bool) (name : string) (v : Z) : Constant :=
  {| k_name := name; k_value := v; k_hexa := hexa |}.

Definition field_constants (prefix : string) (fs : list Field) : list Constant :=
  flat_map (fun f => [ K false (prefix ++ "_" ++ f_name f ++ "_LSB") (f_lsb f);
                       K false (prefix ++ "_" ++ f_name f ++ "_WIDTH") (f_width f) ])%string fs.

(** A block's registers: offset, then fields. *)
Definition registers_with (prefix : string) (regs : list Register) : list Constant :=
  flat_map (fun r => K true (prefix ++ r_name r)%string (r_offset r) :: field_constants (r_name r) (r_fields r)) regs.

Definition register_constants (c : Contract) : list Constant :=
  registers_with "REG_" (registers c)
  ++ [K true "IF_BASE" (if_base c); K true "IF_STRIDE" (if_stride c)]%string
  ++ registers_with "IF_REG_" (if_registers c)
  ++ [K true "IFF_BASE" (iff_base c); K true "IFF_STRIDE" (iff_stride c)]%string
  ++ registers_with "IFF_REG_" (iff_registers c)
  ++ [K true "BND_BASE" (bnd_base c); K true "BND_STRIDE" (bnd_stride c);
      K true "BND_ENTRY_STRIDE" (bnd_entry_stride c)]%string
  ++ registers_with "BND_REG_" (bnd_registers c)
  ++ [K true "PUB_BASE" (pub_base c); K true "PUB_STRIDE" (pub_stride c)]%string
  ++ registers_with "PUB_REG_" (pub_registers c)
  ++ [K true "PUB_SRC_BASE" (pub_source_base c); K true "PUB_SRC_STRIDE" (pub_source_stride c)]%string
  ++ registers_with "PUB_SRC_REG_" (pub_source_registers c)
  ++ [K true "PUB_SINK_BASE" (pub_sink_base c); K true "PUB_SINK_STRIDE" (pub_sink_stride c)]%string
  ++ registers_with "PUB_SINK_REG_" (pub_sink_registers c)
  ++ [K true "CH_BASE" (ch_base c); K true "CH_STRIDE" (ch_stride c)]%string
  ++ registers_with "CH_REG_" (ch_registers c).

Definition word_constants (prefix : string) (ws : list Word) : list Constant :=
  flat_map (fun w => field_constants (prefix ++ pretty (w_index w))%string (w_fields w)) ws.

Definition record_constants (c : Contract) : list Constant :=
  [K false "RX_KIND" (rx_kind c); K false "RX_HDR_WORDS" (zlen (rx_header c));
    K false "TX_KIND" (tx_kind c); K false "TX_HDR_WORDS" (zlen (tx_header c));
    K false "EV_WORDS" (ev_words c); K true "EVT_BASE" (evt_base c); K false "EVT_WORDS" (evt_words c)]%string
  ++ word_constants "RXREC_W" (rx_header c)
  ++ word_constants "TXREC_W" (tx_header c)
  ++ word_constants "EVREC_W" (ev_header c)
  ++ flat_map (fun e => K false ("EV_TYPE_" ++ ev_name e)%string (ev_value e)
                        :: word_constants ("EV_" ++ ev_name e ++ "_W")%string (ev_type_words e)) (event_types c).

(** [str.upper] on ASCII. *)
Definition upper_ascii (a : ascii) : ascii :=
  let n := nat_of_ascii a in
  if ((97 <=? n) && (n <=? 122))%nat then ascii_of_nat (n - 32) else a.
Fixpoint upper (s : string) : string :=
  match s with
  | EmptyString => EmptyString
  | String.String a s' => String.String (upper_ascii a) (upper s')
  end.

(** [{name: value, ...}[name]]: the last entry of a name wins. *)
Definition table_get (table : list (string * Z)) (name : string) : result contract_error Z :=
  match List.find (fun nv => String.eqb (fst nv) name) (rev table) with
  | Some (_, v) => Ok v
  | None => Err EKey
  end.

Definition dst_name (d : dst_kind) : string :=
  match d with DstNone => "none" | DstMac => "mac" | DstOwn => "own" end.

Definition tuple_constants (c : Contract) (ch : Channel) (k : Z) : result contract_error (list Constant) :=
  let m := default {| m_dst := DstNone; m_mac := 0; m_ethertype := 0; m_subtype := None; m_msg_mask := 0 |}
                   (ch_tuples ch !! Z.to_nat k) in
  let p := ("CH_" ++ upper (ch_name ch) ++ "_M" ++ pretty k)%string in
  let* d := table_get (dsts c) (dst_name (m_dst m)) in
  Ok [K false (p ++ "_DST") d; K true (p ++ "_DST_HI") (Z.shiftr (m_mac m) 32);
      K true (p ++ "_DST_LO") (Z.land (m_mac m) 0xFFFFFFFF); K true (p ++ "_ETHERTYPE") (m_ethertype m);
      K false (p ++ "_HAS_SUBTYPE") (match m_subtype m with Some _ => 1 | None => 0 end);
      K true (p ++ "_SUBTYPE") (default 0 (m_subtype m)); K true (p ++ "_MSG_MASK") (m_msg_mask m)]%string.

Definition term_constants (c : Contract) (ch : Channel) (k : Z) : result contract_error (list Constant) :=
  let t := default {| t_test := "none"; t_offset := 0; t_msg_mask := 0 |} (ch_terms ch !! Z.to_nat k) in
  let p := ("CH_" ++ upper (ch_name ch) ++ "_T" ++ pretty k)%string in
  let* v := table_get (tests c) (t_test t) in
  Ok [K false (p ++ "_TEST") v; K false (p ++ "_OFFSET") (t_offset t);
      K true (p ++ "_MSG_MASK") (t_msg_mask t)]%string.

Definition one_channel_constants (c : Contract) (ch : Channel) : result contract_error (list Constant) :=
  let p := ("CH_" ++ upper (ch_name ch))%string in
  let* ms := mapR (tuple_constants c ch) (zrange 0 (Z.to_nat (max_tuples c))) in
  let* ts := mapR (term_constants c ch) (zrange 0 (Z.to_nat (max_terms c))) in
  Ok ([K false p (ch_ident ch);
       K true (p ++ "_RX_BASE") (ch_rx_base ch); K false (p ++ "_RX_WORDS") (ch_rx_words ch);
       K true (p ++ "_TX_BASE") (ch_tx_base ch); K false (p ++ "_TX_WORDS") (ch_tx_words ch);
       K false (p ++ "_MAX_FRAME_BYTES") (ch_max_frame_bytes ch);
       K false (p ++ "_RATE_BURST") (ch_burst ch); K false (p ++ "_RATE_REFILL_MS") (ch_refill_ms ch)]%string
      ++ concat ms ++ concat ts).

Definition channel_constants (c : Contract) : result contract_error (list Constant) :=
  let* l := mapR (one_channel_constants c) (channels c) in Ok (concat l).

Definition global_constants (c : Contract) : list Constant :=
  [K false "VERSION_MAJOR" (major c); K false "VERSION_MINOR" (minor c); K true "MAGIC" (magic c);
   K true "WINDOW_BYTES" (window_bytes c); K true "REGISTER_SPACE_BYTES" REGISTER_SPACE_BYTES;
   K false "N_IF" (interfaces c); K false "N_TIMERS" (timers c); K false "N_BOUND" (bound_talkers c);
   K false "N_PUB_SOURCES" (pub_sources c); K false "N_PUB_SINKS" (pub_sinks c);
   K false "TICK_MS" (tick_ms c); K false "N_CH" (zlen (channels c)); K false "INDEX_BITS" (index_bits c);
   K false "MAX_TERMS" (max_terms c); K false "MAX_TUPLES" (max_tuples c);
   K false "TERM_FIELD_BYTES" TERM_FIELD_BYTES; K false "DST_BYTE" (dst_byte c);
   K false "ETHERTYPE_BYTE" (ethertype_byte c); K false "SUBTYPE_BYTE" (subtype_byte c);
   K false "MSG_TYPE_BYTE" (msg_type_byte c)]%string.

Definition unique_step (seen : list string) (k : Constant) : result contract_error (list string) :=
  let* _ := raise_if (existsb (String.eqb (k_name k)) seen) (EConstantTwice (k_name k)) in
  Ok (k_name k :: seen).

Definition constants (c : Contract) : result contract_error (list Constant) :=
  let* chs := channel_constants c in
  let out := global_constants c
    ++ map (fun nv => K false ("DST_" ++ upper (fst nv))%string (snd nv)) (dsts c)
    ++ map (fun nv => K false ("TEST_" ++ upper (fst nv))%string (snd nv)) (tests c)
    ++ map (fun nv => K false ("TMR_OP_" ++ upper (fst nv))%string (snd nv)) (tmr_ops c)
    ++ register_constants c ++ record_constants c ++ chs in
  let* _ := foldR unique_step [] out in
  Ok out.

(** * Fields share no bit *)

Definition field_ok (f : Field) : Prop := 1 <= f_width f /\ 0 <= f_lsb f /\ f_lsb f + f_width f <= 32.

Definition fields_apart (f g : Field) : Prop :=
  f_lsb f + f_width f <= f_lsb g \/ f_lsb g + f_width g <= f_lsb f.

Definition in_field (f : Field) (i : Z) : Prop := f_lsb f <= i < f_lsb f + f_width f.

Lemma shiftl_1_pred w : 0 <= w -> Z.shiftl 1 w - 1 = Z.ones w.
Proof. intros Hw. rewrite Z.shiftl_1_l, Z.ones_equiv. lia. Qed.

Lemma field_mask_bit f i : field_ok f -> 0 <= i -> Z.testbit (field_mask f) i = true <-> in_field f i.
Proof.
  intros (Hw & Hl & _) Hi. unfold field_mask, in_field.
  rewrite Z.shiftl_spec, shiftl_1_pred by (done || lia).
  destruct (Z.lt_ge_cases i (f_lsb f)).
  - rewrite Z.testbit_neg_r by lia. split; [done|lia].
  - rewrite Z.testbit_ones_nonneg, Z.ltb_lt by lia. lia.
Qed.

Lemma field_mask_nonneg f : field_ok f -> 0 <= field_mask f.
Proof.
  intros (Hw & Hl & _). unfold field_mask. apply Z.shiftl_nonneg.
  rewrite shiftl_1_pred, Z.ones_equiv by lia.
  pose proof (Z.pow_pos_nonneg 2 (f_width f)). lia.
Qed.

(** A test of shared bits, and the union of the fields read so far. *)
Lemma land_zero_bits a b : 0 <= a -> 0 <= b ->
  Z.land a b = 0 <-> forall i, 0 <= i -> Z.testbit a i = true -> Z.testbit b i = true -> False.
Proof.
  intros Ha Hb. split.
  - intros H i Hi H1 H2. assert (Z.testbit (Z.land a b) i = false) as K by by rewrite H, Z.bits_0.
    rewrite Z.land_spec, H1, H2 in K. done.
  - intros H. apply Z.bits_inj'. intros i Hi. rewrite Z.land_spec, Z.bits_0.
    destruct (Z.testbit a i) eqn:E1, (Z.testbit b i) eqn:E2; try done. by destruct (H i Hi E1 E2).
Qed.

Definition covers (used : Z) (fs : list Field) : Prop :=
  0 <= used /\ forall i, 0 <= i -> Z.testbit used i = true <-> exists f, In f fs /\ in_field f i.

Lemma apart_bits f g : field_ok f -> field_ok g ->
  fields_apart f g <-> forall i, 0 <= i -> in_field f i -> in_field g i -> False.
Proof.
  unfold field_ok, fields_apart, in_field. intros (? & ? & _) (? & ? & _). split; [lia|].
  intros Hd. pose proof (Hd (Z.max (f_lsb f) (f_lsb g)) ltac:(lia)). lia.
Qed.

Lemma field_step_iff used fs f : covers used fs -> (forall g, In g fs -> field_ok g) ->
  is_ok (field_step used f) = true <-> field_ok f /\ forall g, In g fs -> fields_apart g f.
Proof.
  intros [Hu Hc] Hok. unfold field_step, raise_if.
  destruct ((f_width f <? 1) || (f_lsb f <? 0) || (32 <? f_lsb f + f_width f)) eqn:E; cbn [rbind is_ok].
  - split; [done|]. intros [(? & ? & ?) _]. exfalso.
    rewrite !orb_true_iff, !Z.ltb_lt in E. lia.
  - bool_prop. assert (field_ok f) as Hf by (unfold field_ok; lia).
    destruct (Z.eqb_spec (Z.land used (field_mask f)) 0) as [Hz|Hz]; cbn [negb rbind is_ok].
    + split; [|done]. intros _. split; [done|]. intros g Hg. apply apart_bits; [by apply Hok|done|].
      intros i Hi B1 B2. apply (proj1 (land_zero_bits _ _ Hu (field_mask_nonneg f Hf)) Hz i Hi).
      * apply Hc; [done|]. by exists g.
      * by apply field_mask_bit.
    + split; [done|]. intros [_ Ha]. exfalso. apply Hz, land_zero_bits; [done|by apply field_mask_nonneg|].
      intros i Hi B1 B2. apply Hc in B1 as (g & Hg & Hgi); [|done]. apply field_mask_bit in B2; [|done..].
      by apply (proj1 (apart_bits g f (Hok g Hg) Hf) (Ha g Hg) i Hi).
Qed.

Lemma covers_step used fs f : covers used fs -> field_ok f -> covers (Z.lor used (field_mask f)) (fs ++ [f]).
Proof.
  intros [Hu Hc] Hf. split; [apply Z.lor_nonneg; split; [done|by apply field_mask_nonneg]|].
  intros i Hi. rewrite Z.lor_spec, orb_true_iff, Hc, field_mask_bit by done. split.
  - intros [(g & ? & ?)|?]; [exists g|exists f]; (split; [apply in_app_iff|done]); [by left|right; by left].
  - intros (g & [?|[<-|[]]]%in_app_iff & ?); [left; by exists g|by right].
Qed.

Lemma fold_fields_iff l pre used : covers used pre -> (forall g, In g pre -> field_ok g) ->
  is_ok (foldR field_step used l) = true <->
  (forall f, In f l -> field_ok f) /\ (forall f g, In f pre -> In g l -> fields_apart f g)
  /\ (forall i j f g, (i < j)%nat -> l !! i = Some f -> l !! j = Some g -> fields_apart f g).
Proof.
  revert pre used. induction l as [|f l IH]; intros pre used Hc Hp; cbn [foldR].
  - split; [|done]. intros _. split_and!; [by intros ? []|by intros ? ? ? []|by intros ? ? ? ? ? ?].
  - pose proof (field_step_iff used pre f Hc Hp) as Hs.
    destruct (field_step used f) as [used'|e] eqn:E; cbn [rbind is_ok] in *.
    + destruct (proj1 Hs eq_refl) as [Hf Ha].
      assert (used' = Z.lor used (field_mask f)) as ->.
      { unfold field_step in E. rsplit E. by symmetry. }
      rewrite (IH (pre ++ [f])); [|by apply covers_step|].
      2: { intros g [?|[<-|[]]]%in_app_iff; auto. }
      split.
      * intros (H1 & H2 & H3). split_and!.
        -- by intros g [<-|?]; auto.
        -- intros g h Hg [<-|Hh]; [by apply Ha|]. apply H2; [apply in_app_iff; by left|done].
        -- intros [|i] [|j] g h Hij; try lia; cbn [lookup list_lookup].
           ++ intros [= <-] Hh. apply H2; [apply in_app_iff; right; by left|].
              apply list_elem_of_In. by apply list_elem_of_lookup_2 in Hh.
           ++ apply H3. lia.
      * intros (H1 & H2 & H3). split_and!.
        -- intros g Hg. apply H1. by right.
        -- intros g h [Hg|[<-|[]]]%in_app_iff Hh; [apply H2; [done|by right]|].
           apply list_elem_of_In, list_elem_of_lookup in Hh as [j Hj].
           apply (H3 0%nat (S j)); [lia|done|done].
        -- intros i j g h Hij Hg Hh. apply (H3 (S i) (S j)); [lia|done|done].
    + split; [done|]. intros (H1 & H2 & _). destruct Hs as [_ Hs].
      discriminate Hs. split; [apply H1; by left|]. intros g Hg. apply H2; [done|by left].
Qed.

(** A register word's fields are accepted exactly when every field is
    non-empty and lies in the 32-bit word and no two fields share a bit. *)
Theorem fields_iff raw :
  fields raw = Ok raw <->
  (forall f, In f raw -> field_ok f)
  /\ (forall i j f g, (i < j)%nat -> raw !! i = Some f -> raw !! j = Some g -> fields_apart f g).
Proof.
  assert (covers 0 []) as H0.
  { split; [done|]. intros i Hi. rewrite Z.bits_0. split; [done|by intros (? & [] & _)]. }
  pose proof (fold_fields_iff raw [] 0 H0 ltac:(by intros ? [])) as G.
  unfold fields. destruct (foldR field_step 0 raw) as [u|e] eqn:E; cbn [is_ok rbind] in *.
  - split; [|done]. intros _. destruct G as [G _]. destruct (G eq_refl) as (? & _ & ?). done.
  - split; [done|]. intros [H1 H2]. destruct G as [_ G]. discriminate G. split_and!; [done|by intros ? ? []|done].
Qed.

(** * Register blocks *)

Definition register_ok (limit : Z) (r : Register) : Prop :=
  In (r_access r) ACCESS_KINDS /\ r_offset r mod 4 = 0 /\ 0 <= r_offset r < limit
  /\ fields (r_fields r) = Ok (r_fields r).

Lemma fields_Ok raw fs : fields raw = Ok fs -> fs = raw.
Proof. unfold fields. intros H. rsplit H. done. Qed.

(** What an accepted register list is: every register well placed, no offset
    used twice. *)
Lemma read_registers_sound raw limit out : read_registers raw limit = Ok out ->
  out = raw /\ (forall r, In r raw -> register_ok limit r) /\ NoDup (map r_offset raw).
Proof.
  unfold read_registers. intros H. rsplit H. split; [done|].
  assert (forall l pre seen, (forall x, x ∈ seen <-> In x (map r_offset pre)) ->
    foldR (register_step limit) seen l = Ok v ->
    (forall r, In r l -> register_ok limit r) /\ NoDup (map r_offset l)
    /\ (forall r, In r l -> ~ In (r_offset r) (map r_offset pre))) as G.
  { clear. induction l as [|r l IH]; intros pre seen Hs Hf; cbn [foldR] in Hf.
    - split_and!; [by intros ? []|constructor|by intros ? []].
    - rsplit Hf. unfold register_step in Hm. rsplit Hm. bool_prop. subst v0.
      match goal with HE : fields _ = Ok ?fs |- _ => pose proof (fields_Ok _ _ HE); subst fs end.
      match goal with HE : r_offset r ∉ seen |- _ => rename HE into Hns end. rewrite Hs in Hns.
      destruct (IH (pre ++ [r]) ({[r_offset r]} ∪ seen)) as (R1 & R2 & R3); [|done|].
      { intros x. rewrite elem_of_union, elem_of_singleton, Hs, map_app, in_app_iff. cbn. intuition congruence. }
      assert (forall r', In r' l -> ~ In (r_offset r') (map r_offset pre) /\ r_offset r' <> r_offset r) as H4.
      { intros r' Hr'. specialize (R3 r' Hr'). rewrite map_app, in_app_iff in R3. cbn in R3. intuition congruence. }
      split_and!.
      + intros r' [<-|Hr']; [|by apply R1]. split_and!; [|done|lia..|done].
        match goal with HE : existsb _ _ = true |- _ => apply existsb_exists in HE as (a & ? & Ha) end.
        apply String.eqb_eq in Ha. by rewrite Ha.
      + cbn [map]. constructor; [|done]. intros (r' & He & Hr')%list_elem_of_In%in_map_iff.
        destruct (H4 r' Hr') as [_ ?]. done.
      + intros r' [<-|Hr']; [done|]. by apply H4. }
  destruct (G raw [] ∅) as (? & ? & _); [|done|done].
  intros x. split; [by intros ?%not_elem_of_empty|by intros []].
Qed.

(** * Rings *)

(** A power of two in the code's sense is one. *)
Lemma power_of_two_iff v : power_of_two v = true <-> exists k, 0 <= k /\ v = 2 ^ k.
Proof.
  unfold power_of_two. rewrite andb_true_iff, Z.ltb_lt, Z.eqb_eq. split.
  - intros [Hv Hl]. exists (Z.log2 v). pose proof (Z.log2_nonneg v). split; [done|].
    pose proof (Z.log2_spec v Hv) as [Hlo Hhi].
    destruct (Z.eq_dec v (2 ^ Z.log2 v)) as [|Hne]; [done|]. exfalso.
    assert (Z.testbit (Z.land v (v - 1)) (Z.log2 v) = false) as K by by rewrite Hl, Z.bits_0.
    rewrite Z.land_spec, Z.bit_log2 in K by done.
    assert (Z.log2 (v - 1) = Z.log2 v) as Hlg by (apply Z.log2_unique; lia).
    rewrite <-Hlg in K at 1. rewrite Z.bit_log2 in K; [done|]. pose proof (Z.pow_pos_nonneg 2 (Z.log2 v)). lia.
  - intros (k & Hk & ->). pose proof (Z.pow_pos_nonneg 2 k ltac:(lia) Hk). split; [done|].
    replace (2 ^ k - 1) with (Z.ones k) by (rewrite Z.ones_equiv; lia).
    rewrite Z.land_ones by done. by rewrite Z.mod_same by lia.
Qed.

Definition spans_apart (a b : span) : Prop := span_end a <= s_base b \/ span_end b <= s_base a.

#[export] Instance span_le_total : Total span_le.
Proof.
  intros a b. unfold span_le, span_leb.
  destruct (Z.ltb_spec (s_base a) (s_base b)), (Z.ltb_spec (s_base b) (s_base a)); try tauto.
  rewrite !Z.leb_le. lia.
Qed.

#[export] Instance span_le_trans : Transitive span_le.
Proof.
  intros a b c. unfold span_le, span_leb.
  destruct (Z.ltb_spec (s_base a) (s_base b)), (Z.ltb_spec (s_base b) (s_base a)),
    (Z.ltb_spec (s_base b) (s_base c)), (Z.ltb_spec (s_base c) (s_base b)),
    (Z.ltb_spec (s_base a) (s_base c)), (Z.ltb_spec (s_base c) (s_base a)); rewrite ?Z.leb_le; done || lia.
Qed.

Lemma span_le_base a b : span_le a b -> s_base a <= s_base b.
Proof.
  unfold span_le, span_leb.
  destruct (Z.ltb_spec (s_base a) (s_base b)), (Z.ltb_spec (s_base b) (s_base a)); done || lia.
Qed.

(** Apart from its neighbour in sorted order means apart from every other. *)
Lemma adjacent_apart_all l : StronglySorted span_le l -> (forall s, In s l -> 0 < s_words s) ->
  adjacent_apart l = true -> StronglySorted (fun a b => span_end a <= s_base b) l.
Proof.
  induction 1 as [|a l Hs IH Hle]; intros Hw Ha; constructor.
  - apply IH; [intros; apply Hw; by right|]. destruct l; [done|]. cbn [adjacent_apart] in Ha. bool_prop. done.
  - destruct l as [|b l]; [constructor|]. cbn [adjacent_apart] in Ha. bool_prop. constructor; [done|].
    apply StronglySorted_inv in Hs as [_ Hb]. eapply Forall_impl; [exact Hb|].
    intros x Hx%span_le_base. cbn. unfold span_end in *. lia.
Qed.

Lemma apart_of_sorted l l' i j a b : l ≡ₚ l' -> StronglySorted (fun a b => span_end a <= s_base b) l' ->
  l !! i = Some a -> l !! j = Some b -> i <> j -> spans_apart a b.
Proof.
  intros HP HS. apply Permutation_inj in HP as [_ (f & Hf & Hl)]. intros Hi Hj Hne.
  rewrite Hl in Hi, Hj. assert (f i <> f j) as Hfn by (intros He; apply Hne; by apply Hf).
  assert (forall l i j a b, StronglySorted (fun a b => span_end a <= s_base b) l -> (i < j)%nat ->
    l !! i = Some a -> l !! j = Some b -> span_end a <= s_base b) as G.
  { clear. intros l i j a b HS. revert i j. induction HS as [|x l HS IH Hx]; intros [|i] [|j] Hij Ha Hb; try done; try lia.
    - cbn in Ha. injection Ha as ->. rewrite Forall_forall in Hx. apply Hx.
      cbn in Hb. by apply list_elem_of_lookup_2 in Hb.
    - apply (IH i j); [lia|done|done]. }
  destruct (Nat.lt_total (f i) (f j)) as [H|[H|H]]; [left|done|right]; by eapply G.
Qed.

Record ring_ok (c : Contract) (s : span) : Prop := {
  ro_power : exists k, 0 <= k < index_bits c /\ s_words s = 2 ^ k;
  ro_aligned : s_base s mod (4 * s_words s) = 0;
  ro_window : REGISTER_SPACE_BYTES <= s_base s /\ span_end s <= window_bytes c
}.

Lemma check_span_Ok c s u : check_span c s = Ok u -> ring_ok c s.
Proof.
  unfold check_span. cbv zeta. intros H. rsplit H. bool_prop.
  match goal with HE : power_of_two _ = true |- _ => apply power_of_two_iff in HE as (k & Hk & Hw) end.
  split.
  - exists k. split; [|done]. split; [done|].
    match goal with HE : s_words s <= Z.shiftl 1 _ |- _ => rewrite Z.shiftl_1_l, Hw in HE end.
    assert (k <= index_bits c - 1) by (apply (Z.pow_le_mono_r_iff 2); lia). lia.
  - by rewrite Z.mul_comm.
  - unfold span_end. lia.
Qed.

Lemma check_rings_sound c : is_ok (check_rings c) = true ->
  (forall s, In s (ring_spans c) -> ring_ok c s)
  /\ (forall i j a b, i <> j -> ring_spans c !! i = Some a -> ring_spans c !! j = Some b -> spans_apart a b)
  /\ (forall ch, In ch (channels c) -> 2 + (ch_max_frame_bytes ch + 3) / 4 <= ch_rx_words ch).
Proof.
  destruct (check_rings c) as [u|] eqn:E; [|done]. intros _. unfold check_rings in E. rsplit E. bool_prop.
  apply mapR_Ok in Hm, Hm0.
  assert (forall s, In s (ring_spans c) -> ring_ok c s) as Hr.
  { intros s Hs%list_elem_of_In%list_elem_of_lookup_1. destruct Hs as [i Hi].
    destruct (Forall2_lookup_l _ _ _ _ _ Hm0 Hi) as (w & _ & Hw). by eapply check_span_Ok. }
  split_and!; [done| |].
  - intros i j a b Hij Hi Hj. eapply apart_of_sorted; [symmetry; apply (merge_sort_Permutation span_le)| |done..].
    apply adjacent_apart_all; [apply StronglySorted_merge_sort; apply _| |done].
    intros s Hs%list_elem_of_In. rewrite (merge_sort_Permutation span_le) in Hs. apply list_elem_of_In, Hr in Hs as [(k & ? & ->) _ _].
    apply Z.pow_pos_nonneg; lia.
  - intros ch Hch%list_elem_of_In%list_elem_of_lookup_1. destruct Hch as [i Hi].
    destruct (Forall2_lookup_l _ _ _ _ _ Hm Hi) as (w & _ & Hw). unfold check_ring_record in Hw. rsplit Hw.
    bool_prop. done.
Qed.

(** C24: In a contract the cross-item rules accept, every ring is a power of two
    of words no larger than half the index space, aligned to its own size and
    inside the ring window; any two rings, not only neighbours in the sort, are
    disjoint; and each receive ring holds a record of the channel's largest
    frame. *)
Theorem rings_disjoint (c : Contract) :
  check_contract c = Ok tt ->
  (forall s, In s (ring_spans c) ->
     (exists k, 0 <= k < index_bits c /\ s_words s = 2 ^ k)
     /\ s_base s mod (4 * s_words s) = 0
     /\ REGISTER_SPACE_BYTES <= s_base s /\ span_end s <= window_bytes c)
  /\ (forall i j a b, i <> j -> ring_spans c !! i = Some a -> ring_spans c !! j = Some b ->
        span_end a <= s_base b \/ span_end b <= s_base a)
  /\ (forall ch, In ch (channels c) -> 2 + (ch_max_frame_bytes ch + 3) / 4 <= ch_rx_words ch).
Proof.
  intros H. unfold check_contract in H. rsplit H.
  match goal with HE : check_rings c = Ok _ |- _ => rename HE into Hr end.
  destruct (check_rings_sound c) as (H1 & H2 & H3); [by rewrite Hr|]. split_and!; [|exact H2|exact H3].
  intros s Hs. destruct (H1 s Hs) as [? ? [? ?]]. done.
Qed.

(** * Classification *)

(** A frame of an EtherType and a subtype is what a tuple reads. *)
Definition matches (k : claim) (ethertype subtype : Z) : Prop :=
  fst k = ethertype /\ (snd k = None \/ snd k = Some subtype).

Lemma clash_of_matches a b e s : matches a e s -> matches b e s -> clash a b = true.
Proof.
  destruct a as [ea sa], b as [eb sb]. unfold matches, clash. cbn [fst snd].
  intros [-> Ha] [-> Hb]. rewrite Z.eqb_refl. cbn [andb].
  destruct Ha as [-> | ->], Hb as [-> | ->]; rewrite ?Z.eqb_refl; done.
Qed.

Lemma claim_step_Ok c claims ch claims' : claim_step c claims ch = Ok claims' ->
  claims' = claims ++ map claim_of (ch_tuples ch)
  /\ (forall m, In m (ch_tuples ch) -> ~ In (m_ethertype m) (tpids c)
        /\ forall k, In k claims -> clash k (claim_of m) = false).
Proof.
  unfold claim_step. intros H. rsplit H. split; [done|].
  apply mapR_Ok in Hm. intros m Hin%list_elem_of_In%list_elem_of_lookup_1. destruct Hin as [i Hi].
  destruct (Forall2_lookup_l _ _ _ _ _ Hm Hi) as (u & _ & Hu). rsplit Hu. split.
  - intros Hin. assert (existsb (Z.eqb (m_ethertype m)) (tpids c) = true) as K; [|congruence].
    apply existsb_exists. exists (m_ethertype m). split; [done|apply Z.eqb_refl].
  - intros k Hk. destruct (clash k (claim_of m)) eqn:E; [|done].
    assert (existsb (fun k => clash k (claim_of m)) claims = true) as K; [|congruence].
    apply existsb_exists. by exists k.
Qed.

Lemma claims_apart c chs claims out : foldR (claim_step c) claims chs = Ok out ->
  (forall ch m, In ch chs -> In m (ch_tuples ch) -> ~ In (m_ethertype m) (tpids c)
     /\ forall k, In k claims -> clash k (claim_of m) = false)
  /\ (forall i j a b m n, (i < j)%nat -> chs !! i = Some a -> chs !! j = Some b ->
        In m (ch_tuples a) -> In n (ch_tuples b) -> clash (claim_of m) (claim_of n) = false).
Proof.
  revert claims. induction chs as [|ch chs IH]; intros claims H; cbn [foldR] in H.
  - split; [by intros ? ? []|by intros ? ? ? ? ? ? ? ?].
  - rsplit H. apply claim_step_Ok in Hm as [-> Hch]. destruct (IH _ H) as [H1 H2]. split.
    + intros ch' m [<-|Hin] Hm; [by apply Hch|]. destruct (H1 ch' m Hin Hm) as [? Hk]. split; [done|].
      intros k Hk'. apply Hk, in_app_iff. by left.
    + intros [|i] [|j] a b m n Hij Ha Hb Hm Hn; try lia; cbn [lookup list_lookup] in Ha, Hb.
      * injection Ha as <-. apply list_elem_of_lookup_2, list_elem_of_In in Hb.
        destruct (H1 b n Hb Hn) as [_ Hk]. apply Hk, in_app_iff. right. by apply in_map.
      * apply (H2 i j a b); (done || lia).
Qed.

(** C27: Classification is unambiguous.  In a contract the cross-item rules
    accept, no EtherType and subtype, and so no frame, is matched by tuples of
    two different channels, whatever the destinations; no tuple names a VLAN
    tag's TPID, so a tagged frame matches nothing; and the channel ids are
    exactly 0 to N-1 with N at most eight. *)
Theorem classification_unique (c : Contract) :
  check_contract c = Ok tt ->
  (forall i j a b m n ethertype subtype, i <> j -> channels c !! i = Some a -> channels c !! j = Some b ->
     In m (ch_tuples a) -> In n (ch_tuples b) ->
     ~ (matches (claim_of m) ethertype subtype /\ matches (claim_of n) ethertype subtype))
  /\ (forall ch m subtype tpid, In ch (channels c) -> In m (ch_tuples ch) -> In tpid (tpids c) ->
        ~ matches (claim_of m) tpid subtype)
  /\ map ch_ident (channels c) ≡ₚ zrange 0 (length (channels c)) /\ zlen (channels c) <= 8.
Proof.
  intros H. unfold check_contract in H. rsplit H.
  match goal with HE : check_channels c = Ok _ |- _ => unfold check_channels in HE; cbv zeta in HE; rsplit HE end.
  bool_prop. match goal with HE : foldR (claim_step c) _ _ = Ok _ |- _ => apply claims_apart in HE as [Hc1 Hc2] end.
  match goal with HE : sorted_z _ = _ |- _ => rename HE into Hids end.
  assert (length (sorted_z (map ch_ident (channels c))) = length (channels c)) as Hlen.
  { unfold sorted_z. by rewrite merge_sort_Permutation, length_map. }
  split_and!.
  - intros i j a b m n e s Hij Ha Hb Hm Hn [M1 M2].
    destruct (Nat.lt_total i j) as [Hlt|[|Hlt]]; [|done|].
    + pose proof (Hc2 i j a b m n Hlt Ha Hb Hm Hn). pose proof (clash_of_matches _ _ _ _ M1 M2). congruence.
    + pose proof (Hc2 j i b a n m Hlt Hb Ha Hn Hm). pose proof (clash_of_matches _ _ _ _ M2 M1). congruence.
  - intros ch m s tpid Hch Hm Ht [He _]. destruct (Hc1 ch m Hch Hm) as [Hn _]. apply Hn.
    unfold claim_of in He. cbn [fst] in He. by rewrite He.
  - rewrite <-Hlen, <-Hids. symmetry. apply (merge_sort_Permutation Z.le).
  - unfold zlen in *. rewrite Hlen in *. lia.
Qed.

(** * Register addresses *)

(** Every address the blocks hold, in the order they are placed. *)
Definition block_addresses (b : block) : list Z :=
  flat_map (fun k => map (fun r => b_at b k + r_offset r) (b_registers b)) (zrange 0 (Z.to_nat (b_count b))).

Lemma foldR_flat {E A B S} (f : S -> B -> result E S) (g : A -> list B) l s :
  foldR (fun s x => foldR f s (g x)) s l = foldR f s (flat_map g l).
Proof.
  revert s. induction l as [|x l IH]; intros s; cbn [foldR flat_map]; [done|].
  rewrite foldR_app. destruct (foldR f s (g x)); cbn [rbind]; [apply IH|done].
Qed.

(** One address placed: below the register space and not taken. *)
Definition place_address (g : gset Z) (a : Z) : bool := (a <? REGISTER_SPACE_BYTES) && negb (bool_decide (a ∈ g)).

Lemma place_registers_Ok b k regs g g' : foldR (place_register b k) g regs = Ok g' ->
  (forall a, a ∈ g' <-> a ∈ g \/ In a (map (fun r => b_at b k + r_offset r) regs))
  /\ NoDup (map (fun r => b_at b k + r_offset r) regs)
  /\ (forall a, In a (map (fun r => b_at b k + r_offset r) regs) -> a < REGISTER_SPACE_BYTES /\ a ∉ g).
Proof.
  revert g. induction regs as [|r regs IH]; intros g H; cbn [foldR map] in *.
  - apply Ok_inj in H as <-. split_and!; [|constructor|by intros ? []]. intros a. split; [tauto|by intros [?|[]]].
  - rsplit H. unfold place_register in Hm. cbv zeta in Hm. rsplit Hm. bool_prop. subst v.
    destruct (IH _ H) as (I1 & I2 & I3). split_and!.
    + intros a. rewrite I1, elem_of_union, elem_of_singleton. cbn [In]. intuition congruence.
    + constructor; [|done]. intros Hin%list_elem_of_In. apply I3 in Hin as [_ Hn]. apply Hn.
      apply elem_of_union_l. by apply elem_of_singleton.
    + intros a [<-|Hin]; [split; [lia|done]|]. apply I3 in Hin as [? Hn]. split; [done|].
      intros ?. apply Hn. by apply elem_of_union_r.
Qed.

(** Placing a whole list of instances, and of blocks. *)
Lemma place_all_Ok {X} (step : gset Z -> X -> result contract_error (gset Z)) (addr : X -> list Z) l g g' :
  (forall g x g', step g x = Ok g' -> (forall a, a ∈ g' <-> a ∈ g \/ In a (addr x)) /\ NoDup (addr x)
     /\ (forall a, In a (addr x) -> a < REGISTER_SPACE_BYTES /\ a ∉ g)) ->
  foldR step g l = Ok g' ->
  (forall a, a ∈ g' <-> a ∈ g \/ In a (flat_map addr l)) /\ NoDup (flat_map addr l)
  /\ (forall a, In a (flat_map addr l) -> a < REGISTER_SPACE_BYTES /\ a ∉ g).
Proof.
  intros Hstep. revert g. induction l as [|x l IH]; intros g H; cbn [foldR flat_map] in *.
  - apply Ok_inj in H as <-. split_and!; [|constructor|by intros ? []]. intros a. split; [tauto|by intros [?|[]]].
  - rsplit H. destruct (Hstep _ _ _ Hm) as (S1 & S2 & S3). destruct (IH _ H) as (I1 & I2 & I3). split_and!.
    + intros a. rewrite I1, S1, in_app_iff. tauto.
    + apply NoDup_app. split_and!; [done| |done]. intros a Ha%list_elem_of_In Hb%list_elem_of_In.
      apply I3 in Hb as [_ Hn]. apply Hn, S1. by right.
    + intros a [Ha|Ha]%in_app_iff; [by apply S3|]. apply I3 in Ha as [? Hn]. split; [done|].
      intros ?. apply Hn, S1. by left.
Qed.

Lemma place_block_Ok g b g' : place_block g b = Ok g' ->
  (forall a, a ∈ g' <-> a ∈ g \/ In a (block_addresses b)) /\ NoDup (block_addresses b)
  /\ (forall a, In a (block_addresses b) -> a < REGISTER_SPACE_BYTES /\ a ∉ g).
Proof.
  unfold place_block. intros H. rsplit H.
  apply (place_all_Ok _ (fun k => map (fun r => b_at b k + r_offset r) (b_registers b)) _ _ _) in H; [done|].
  intros g0 k g1. apply place_registers_Ok.
Qed.

(** The host's register map is a function.  In a contract the cross-item
    rules accept, the addresses of every instance of every register block
    (interface, interface filter, bound-talker entry, channel) are pairwise
    distinct, below the register space, and none is a global register's; no
    register of a block reaches past its instance; and an interface's
    bound-talker entries stay in its stride. *)
Theorem register_addresses_distinct (c : Contract) :
  check_contract c = Ok tt ->
  NoDup (flat_map block_addresses (blocks c))
  /\ (forall a, In a (flat_map block_addresses (blocks c)) ->
        a < REGISTER_SPACE_BYTES /\ ~ In a (map r_offset (registers c)))
  /\ (forall b r, In b (blocks c) -> In r (b_registers b) -> r_offset r < b_stride b)
  /\ bound_talkers c * bnd_entry_stride c <= bnd_stride c.
Proof.
  intros H. unfold check_contract in H. rsplit H.
  match goal with HE : check_blocks c = Ok _ |- _ => unfold check_blocks in HE; cbv zeta in HE; rsplit HE end.
  bool_prop. match goal with HE : foldR place_block _ _ = Ok _ |- _ => rename HE into Hp end.
  pose proof Hp as Hp'. apply (place_all_Ok place_block block_addresses) in Hp as (_ & Hn & Ha);
    [|intros g b g'; apply place_block_Ok].
  split_and!; [done| | |done].
  - intros a Hin. destruct (Ha a Hin) as [? Hg]. split; [done|]. intros Hr. apply Hg.
    apply elem_of_list_to_set. by apply list_elem_of_In.
  - clear -Hp'. revert Hp'. generalize (list_to_set (map r_offset (registers c)) : gset Z) as g.
    induction (blocks c) as [|b bs IH]; intros g Hf b' r Hb Hr; [done|]. cbn [foldR] in Hf. rsplit Hf.
    destruct Hb as [->|Hb]; [|by apply (IH _ Hf b' r)]. unfold place_block in Hm. rsplit Hm.
    destruct (Z.lt_ge_cases (r_offset r) (b_stride b')) as [|Hge]; [done|].
    assert (existsb (fun r => b_stride b' <=? r_offset r) (b_registers b') = true) as K; [|congruence].
    apply existsb_exists. exists r. split; [done|]. by apply Z.leb_le.
Qed.

(** * The publication block *)

Lemma past_false limit regs r : past limit regs = false -> In r regs -> r_offset r < limit.
Proof.
  unfold past. intros Hp Hr. destruct (Z.lt_ge_cases (r_offset r) limit) as [|Hge]; [done|].
  assert (existsb (fun r => limit <=? r_offset r) regs = true) as K; [|congruence].
  apply existsb_exists. exists r. split; [done|]. by apply Z.leb_le.
Qed.

(** The three kinds of word a publication block holds for an interface: its own
    registers, the registers of a source entry, the registers of a sink entry. *)
Inductive pub_word := PubIf (r : Register) | PubSource (s : Z) (r : Register) | PubSink (k : Z) (r : Register).

Definition pub_valid (c : Contract) (w : pub_word) : Prop :=
  match w with
  | PubIf r => In r (pub_registers c)
  | PubSource s r => 0 <= s < pub_sources c /\ In r (pub_source_registers c)
  | PubSink k r => 0 <= k < pub_sinks c /\ In r (pub_sink_registers c)
  end.

Definition pub_offset (c : Contract) (w : pub_word) : Z :=
  match w with
  | PubIf r => r_offset r
  | PubSource s r => pub_source_base c + s * pub_source_stride c + r_offset r
  | PubSink k r => pub_sink_base c + k * pub_sink_stride c + r_offset r
  end.

Definition pub_address (c : Contract) (i : Z) (w : pub_word) : Z := pub_base c + i * pub_stride c + pub_offset c w.

(** A register block as [read_registers] accepts it, with a register in it. *)
Definition registers_ok (regs : list Register) : Prop :=
  regs <> [] /\ (forall r, In r regs -> register_ok REGISTER_SPACE_BYTES r) /\ NoDup (map r_offset regs).

Lemma registers_inj regs r r' : registers_ok regs -> In r regs -> In r' regs ->
  r_offset r = r_offset r' -> r = r'.
Proof.
  intros (_ & _ & Hn) Hr Hr' He. apply list_elem_of_In, list_elem_of_lookup in Hr as [i Hi], Hr' as [j Hj].
  assert (i = j) as ->; [|congruence].
  eapply (NoDup_lookup _ i j (r_offset r) Hn); rewrite list_lookup_fmap; [by rewrite Hi|by rewrite Hj, He].
Qed.

Lemma entry_unique base stride a b x y : 0 <= x < stride -> 0 <= y < stride ->
  base + a * stride + x = base + b * stride + y -> a = b /\ x = y.
Proof. intros. assert (a = b) by nia. subst. lia. Qed.

Lemma check_publication_Ok c u : check_publication c = Ok u ->
  (forall r, In r (pub_registers c) -> r_offset r < pub_source_base c)
  /\ (forall r, In r (pub_source_registers c) -> r_offset r < pub_source_stride c)
  /\ (forall r, In r (pub_sink_registers c) -> r_offset r < pub_sink_stride c)
  /\ pub_source_base c + pub_sources c * pub_source_stride c <= pub_sink_base c
  /\ pub_sink_base c + pub_sinks c * pub_sink_stride c <= pub_stride c
  /\ REGISTER_SPACE_BYTES <= pub_base c /\ pub_end c <= window_bytes c
  /\ (forall s, In s (ring_spans c) -> pub_end c <= s_base s \/ span_end s <= pub_base c).
Proof.
  unfold check_publication. cbv zeta. intros H. rsplit H. bool_prop.
  split_and!; try done; try (intros r Hr; by eapply past_false).
  match goal with HE : mapR _ (ring_spans c) = Ok _ |- _ => apply mapR_Ok in HE; rename HE into Hm' end.
  intros s Hs%list_elem_of_In%list_elem_of_lookup_1. destruct Hs as [i Hi].
  destruct (Forall2_lookup_l _ _ _ _ _ Hm' Hi) as (w & _ & Hw). rsplit Hw.
  apply andb_false_iff in Hw as [Hw|Hw]; bool_prop; [by left|by right].
Qed.

Lemma registers_ok_nonneg regs r : registers_ok regs -> In r regs -> 0 <= r_offset r.
Proof. intros (_ & H & _) Hr. destruct (H r Hr) as (_ & _ & ? & _). lia. Qed.

Lemma registers_ok_limit regs limit : registers_ok regs -> (forall r, In r regs -> r_offset r < limit) -> 0 < limit.
Proof.
  intros H Hl. destruct regs as [|r regs]; [by destruct H|].
  pose proof (registers_ok_nonneg _ r H (or_introl eq_refl)). specialize (Hl r (or_introl eq_refl)). lia.
Qed.

Section Publication.
Context (c : Contract).
Hypothesis P : exists u, check_publication c = Ok u.
Hypothesis R1 : registers_ok (pub_registers c).
Hypothesis R2 : registers_ok (pub_source_registers c).
Hypothesis R3 : registers_ok (pub_sink_registers c).

(** Where each kind of word lies in the interface's stride. *)
Lemma pub_offset_range w : pub_valid c w ->
  match w with
  | PubIf _ => 0 <= pub_offset c w < pub_source_base c
  | PubSource _ _ => pub_source_base c <= pub_offset c w < pub_sink_base c
  | PubSink _ _ => pub_sink_base c <= pub_offset c w < pub_stride c
  end.
Proof using All.
  destruct P as [u Hu]. apply check_publication_Ok in Hu as (P1 & P2 & P3 & P4 & P5 & _).
  destruct w as [r|s r|k r]; cbn [pub_valid pub_offset].
  - intros Hr. pose proof (registers_ok_nonneg _ _ R1 Hr). specialize (P1 r Hr). lia.
  - intros [Hs Hr]. pose proof (registers_ok_nonneg _ _ R2 Hr). specialize (P2 r Hr). nia.
  - intros [Hk Hr]. pose proof (registers_ok_nonneg _ _ R3 Hr). specialize (P3 r Hr). nia.
Qed.

Lemma pub_bases : 0 < pub_source_base c <= pub_sink_base c /\ pub_sink_base c <= pub_stride c.
Proof using All.
  destruct P as [u Hu]. pose proof Hu as Hu'. unfold check_publication in Hu'. cbv zeta in Hu'. rsplit Hu'. bool_prop.
  apply check_publication_Ok in Hu as (P1 & P2 & P3 & P4 & P5 & _).
  pose proof (registers_ok_limit _ _ R1 P1). pose proof (registers_ok_limit _ _ R2 P2).
  pose proof (registers_ok_limit _ _ R3 P3). nia.
Qed.

Lemma pub_offset_stride w : pub_valid c w -> 0 <= pub_offset c w < pub_stride c.
Proof using All. intros Hw. pose proof pub_bases. pose proof (pub_offset_range w Hw). destruct w; lia. Qed.

Lemma pub_offset_inj w v : pub_valid c w -> pub_valid c v -> pub_offset c w = pub_offset c v -> w = v.
Proof using All.
  intros Hw Hv He. pose proof (pub_offset_range w Hw) as Rw. pose proof (pub_offset_range v Hv) as Rv.
  pose proof pub_bases. destruct P as [u Hu]. apply check_publication_Ok in Hu as (P1 & P2 & P3 & _).
  destruct w as [r|s r|k r], v as [r'|s' r'|k' r']; try (exfalso; lia); cbn [pub_valid pub_offset] in *.
  - f_equal. by apply (registers_inj (pub_registers c)).
  - destruct Hw as [_ Hr], Hv as [_ Hr'].
    pose proof (registers_ok_nonneg _ _ R2 Hr). pose proof (registers_ok_nonneg _ _ R2 Hr').
    pose proof (P2 r Hr). pose proof (P2 r' Hr').
    apply entry_unique in He as [-> He]; [|lia..]. f_equal. by apply (registers_inj (pub_source_registers c)).
  - destruct Hw as [_ Hr], Hv as [_ Hr'].
    pose proof (registers_ok_nonneg _ _ R3 Hr). pose proof (registers_ok_nonneg _ _ R3 Hr').
    pose proof (P3 r Hr). pose proof (P3 r' Hr').
    apply entry_unique in He as [-> He]; [|lia..]. f_equal. by apply (registers_inj (pub_sink_registers c)).
Qed.
End Publication.

(** The publication block of a contract the cross-item rules accept, with no
    empty register list.  Every register word of every interface (its own, of
    each source entry, of each sink entry) has its own address, lies inside the
    interface's stride and in the window above the register space, and no
    address of the block falls in any ring. *)
Theorem publication_clear (c : Contract) :
  check_contract c = Ok tt ->
  registers_ok (pub_registers c) -> registers_ok (pub_source_registers c) -> registers_ok (pub_sink_registers c) ->
  (forall i w, 0 <= i < interfaces c -> pub_valid c w ->
     0 <= pub_offset c w < pub_stride c
     /\ REGISTER_SPACE_BYTES <= pub_address c i w < window_bytes c
     /\ forall s, In s (ring_spans c) -> pub_address c i w < s_base s \/ span_end s <= pub_address c i w)
  /\ (forall i j w v, 0 <= i < interfaces c -> 0 <= j < interfaces c -> pub_valid c w -> pub_valid c v ->
        pub_address c i w = pub_address c j v -> i = j /\ w = v).
Proof.
  intros H R1 R2 R3. unfold check_contract in H. rsplit H.
  assert (exists u, check_publication c = Ok u) as P by by eexists.
  apply check_publication_Ok in H as (_ & _ & _ & _ & _ & P6 & P7 & P8).
  assert (forall i w, 0 <= i < interfaces c -> pub_valid c w ->
    0 <= pub_offset c w < pub_stride c /\ pub_base c <= pub_address c i w < pub_end c) as Hin.
  { intros i w Hi Hw. pose proof (pub_offset_stride c P R1 R2 R3 w Hw) as Ho. split; [done|].
    unfold pub_address, pub_end. nia. }
  split.
  - intros i w Hi Hw. destruct (Hin i w Hi Hw) as [Ho Ha]. split_and!; try lia.
    intros s Hs. destruct (P8 s Hs); lia.
  - intros i j w x Hi Hj Hw Hx He. unfold pub_address in He.
    pose proof (proj1 (Hin i w Hi Hw)). pose proof (proj1 (Hin j x Hj Hx)).
    apply entry_unique in He as [-> He]; [|done..]. split; [done|].
    by apply (pub_offset_inj c P R1 R2 R3).
Qed.

(** * What [load] accepts *)

Definition term_ok (c : Contract) (max_bytes : Z) (t : Term) : Prop :=
  In (t_test t) (map fst (tests c)) /\ t_test t <> "none"%string
  /\ (t_test t <> "any"%string -> t_offset t + TERM_FIELD_BYTES <= max_bytes) /\ t_msg_mask t <= 0xFFFF.

Definition tuple_ok (m : Match) : Prop :=
  0 < m_ethertype m <= 0xFFFF /\ (forall s, m_subtype m = Some s -> 0 <= s <= 0xFF)
  /\ (m_dst m = DstMac /\ 0 < m_mac m < 2 ^ 48 \/ m_dst m = DstOwn /\ m_mac m = 0)
  /\ (m_msg_mask m = 0xFFFF \/ is_Some (m_subtype m)).

Definition channel_ok (c : Contract) (ch : Channel) : Prop :=
  (forall t, In t (ch_terms ch) -> term_ok c (ch_max_frame_bytes ch) t)
  /\ 1 <= zlen (ch_terms ch) <= max_terms c
  /\ (forall m, In m (ch_tuples ch) -> tuple_ok m) /\ NoDup (ch_tuples ch)
  /\ 1 <= zlen (ch_tuples ch) <= max_tuples c
  /\ 14 < ch_max_frame_bytes ch <= 1514 /\ ch_max_frame_bytes ch mod 2 = 0
  /\ 1 <= ch_burst ch <= 255 /\ 1 <= ch_refill_ms ch <= 65535.

Lemma read_term_Ok tests max_bytes item t : read_term tests max_bytes item = Ok t ->
  In (t_test t) (map fst tests) /\ t_test t <> "none"%string
  /\ (t_test t <> "any"%string -> t_offset t + TERM_FIELD_BYTES <= max_bytes) /\ t_msg_mask t <= 0xFFFF.
Proof.
  unfold read_term. cbv zeta. intros H. rsplit H. subst t. cbn [t_test t_offset t_msg_mask]. bool_prop.
  match goal with HE : existsb _ _ = true |- _ => apply existsb_exists in HE as (a & Ha & He) end.
  apply String.eqb_eq in He. split_and!; [by rewrite He|done| |done].
  intros Hany. match goal with HE : _ && _ = false |- _ => apply andb_false_iff in HE as [HE|HE]; bool_prop; done end.
Qed.

Lemma msg_mask_Ok types subtype mask : msg_mask types subtype = Ok mask ->
  mask = 0xFFFF \/ is_Some subtype.
Proof.
  unfold msg_mask. destruct types as [l|]; [|intros [= <-]; by left]. intros H. rsplit H. bool_prop.
  right. destruct subtype; [by eexists|done].
Qed.

Lemma tuple_step_Ok out item out' : tuple_step out item = Ok out' ->
  exists m, out' = out ++ [m] /\ (m ∉ out) /\ tuple_ok m.
Proof.
  unfold tuple_step. cbv zeta. intros H. rsplit H. bool_prop. exists v0. split; [done|]. split; [done|].
  apply msg_mask_Ok in Hm.
  assert (0 < rm_ethertype item <= 0xFFFF) as He by lia.
  assert (forall s, rm_subtype item = Some s -> 0 <= s <= 0xFF) as Hs.
  { intros s Hs. rewrite Hs in *. bool_prop. lia. }
  destruct (rm_dst item) as [|d|]; [| |done].
  - apply Ok_inj in Hm0. subst v0. unfold tuple_ok. cbn. split_and!; try done; try lia. by right.
  - destruct ((0 <? d) && (d <? Z.shiftl 1 48)) eqn:E; [|done]. bool_prop. apply Ok_inj in Hm0. subst v0.
    unfold tuple_ok. cbn [m_ethertype m_subtype m_dst m_mac m_msg_mask].
    split_and!; try done; try lia. left. split; [done|]. rewrite Z.shiftl_1_l in *. lia.
Qed.

Lemma tuples_Ok raw n out : tuples raw n = Ok out ->
  (forall m, In m out -> tuple_ok m) /\ NoDup out /\ 1 <= zlen out <= n.
Proof.
  unfold tuples. intros H. rsplit H. bool_prop.
  assert (forall l pre out, foldR tuple_step pre l = Ok out -> (forall m, In m pre -> tuple_ok m) -> NoDup pre ->
    (forall m, In m out -> tuple_ok m) /\ NoDup out /\ zlen out = zlen pre + zlen l) as G.
  { clear. induction l as [|x l IH]; intros pre out Hf Hp Hn; cbn [foldR] in Hf.
    - apply Ok_inj in Hf as <-. split_and!; [done..|]. rewrite zlen_nil. lia.
    - rsplit Hf. apply tuple_step_Ok in Hm as (m & -> & Hni & Hm).
      destruct (IH _ _ Hf) as (? & ? & Hz).
      + intros m' [?|[<-|[]]]%in_app_iff; auto.
      + apply NoDup_app. split_and!; [done| |apply NoDup_singleton].
        intros y Hy ->%list_elem_of_singleton. done.
      + split_and!; [done..|]. rewrite Hz, zlen_app, zlen_cons, zlen_cons, zlen_nil. lia. }
  destruct (G raw [] out H) as (? & ? & Hz); [by intros ? []|constructor|].
  split_and!; [done..| |]; rewrite Hz, zlen_nil; lia.
Qed.

Lemma read_channel_Ok c item ch : read_channel (tests c) (max_terms c) (max_tuples c) item = Ok ch -> channel_ok c ch.
Proof.
  unfold read_channel. cbv zeta. intros H. rsplit H. bool_prop. subst ch. unfold channel_ok.
  cbn [ch_terms ch_tuples ch_max_frame_bytes ch_burst ch_refill_ms].
  apply tuples_Ok in Hm1 as (T1 & T2 & T3). split_and!; try done; try lia.
  intros t Ht. unfold terms in Hm. apply mapR_Ok in Hm.
  apply list_elem_of_In, list_elem_of_lookup_1 in Ht as [i Hi].
  destruct (Forall2_lookup_r _ _ _ _ _ Hm Hi) as (x & _ & Hx). by apply read_term_Ok in Hx.
Qed.

Lemma words_Ok raw ws : words raw = Ok ws ->
  ws ≡ₚ raw /\ NoDup (map w_index ws) /\ forall w, In w ws -> fields (w_fields w) = Ok (w_fields w).
Proof.
  unfold words. intros H. rsplit H. subst ws.
  assert (merge_sort word_le raw ≡ₚ raw) as HP by apply merge_sort_Permutation.
  assert (forall l pre v, foldR word_step pre l = Ok v -> NoDup pre ->
    NoDup (pre ++ map w_index l) /\ forall w, In w l -> fields (w_fields w) = Ok (w_fields w)) as G.
  { clear. induction l as [|x l IH]; intros pre v Hf Hn; cbn [foldR map] in *.
    - rewrite app_nil_r. split; [done|by intros ? []].
    - rsplit Hf. unfold word_step in Hm. rsplit Hm. subst v0.
      match goal with HE : fields _ = Ok ?fs |- _ => pose proof (fields_Ok _ _ HE); subst fs; rename HE into HF end.
      assert (w_index x ∉ pre) as Hni.
      { intros Hin%list_elem_of_In. assert (existsb (Z.eqb (w_index x)) pre = true) as K; [|congruence].
        apply existsb_exists. exists (w_index x). split; [done|apply Z.eqb_refl]. }
      destruct (IH _ _ Hf) as [I1 I2].
      + apply NoDup_app. split_and!; [done| |apply NoDup_singleton].
        intros y Hy ->%list_elem_of_singleton. done.
      + rewrite <-app_assoc in I1. split; [done|]. intros w [<-|?]; auto. }
  destruct (G raw [] v Hm) as [G1 G2]; [constructor|]. cbn [app] in G1. split_and!; [done|by rewrite HP|].
  intros w Hw%list_elem_of_In. rewrite HP in Hw. apply G2. by apply list_elem_of_In.
Qed.

Lemma sorted_idents l : StronglySorted Z.le (map ch_ident (merge_sort ident_le l)).
Proof.
  assert (StronglySorted ident_le (merge_sort ident_le l)) as HSS.
  { apply StronglySorted_merge_sort; [intros a b d; unfold ident_le; lia|intros a b; unfold ident_le; lia]. }
  induction HSS as [|a l' HSS IH Hl]; cbn [map]; constructor; [done|]. apply Forall_map. exact Hl.
Qed.

(** A document [load] accepts gives a contract that passes every cross-item
    rule, with channels in the order of their ids 0 to N-1, every register block
    well placed, no offset used twice, every word's fields inside the word and
    apart, and every channel within its limits: known tests on fields inside the
    largest frame, distinct tuples with a 16-bit EtherType, an octet subtype and
    a usable destination. *)
Theorem load_sound (doc : document) (c : Contract) :
  load doc = Ok c ->
  check_contract c = Ok tt
  /\ map ch_ident (channels c) = zrange 0 (length (channels c))
  /\ (forall regs, In regs [registers c; if_registers c; iff_registers c; bnd_registers c; pub_registers c;
                            pub_source_registers c; pub_sink_registers c; ch_registers c] ->
        (forall r, In r regs -> register_ok REGISTER_SPACE_BYTES r) /\ NoDup (map r_offset regs))
  /\ (forall ws, In ws [rx_header c; tx_header c; ev_header c] ->
        NoDup (map w_index ws) /\ forall w, In w ws -> fields (w_fields w) = Ok (w_fields w))
  /\ (forall ch, In ch (channels c) -> channel_ok c ch).
Proof.
  unfold load. cbv zeta. intros H. rsplit H. destruct v12. rename Hm12 into Hcheck. rename H into Hc.
  assert (forall x, In x (channels c) -> channel_ok c x) as Hch.
  { intros x Hx%list_elem_of_In. rewrite <-Hc in Hx. cbn [rebuild channels] in Hx.
    rewrite (merge_sort_Permutation ident_le) in Hx. apply list_elem_of_lookup_1 in Hx as [i Hi].
    apply mapR_Ok in Hm11. destruct (Forall2_lookup_r _ _ _ _ _ Hm11 Hi) as (y & _ & Hy).
    apply read_channel_Ok in Hy. rewrite <-Hc. exact Hy. }
  assert (map ch_ident (channels c) = zrange 0 (length (channels c))) as Hid.
  { rewrite Hc in Hcheck. unfold check_contract in Hcheck. rsplit Hcheck.
    match goal with HE : check_channels c = Ok _ |- _ => unfold check_channels in HE; cbv zeta in HE; rsplit HE end.
    bool_prop. match goal with HE : sorted_z _ = _ |- _ => rename HE into Hids end.
    assert (sorted_z (map ch_ident (channels c)) = map ch_ident (channels c)) as HS.
    { apply sorted_z_unique; [|done]. rewrite <-Hc. cbn [rebuild channels].
      apply sorted_idents. }
    rewrite HS in Hids. by rewrite Hids, length_map at 1. }
  rewrite Hc in Hcheck. split_and!; [done|done| | |done].
  - intros regs Hin. rewrite <-Hc in Hin. cbn [rebuild registers if_registers iff_registers bnd_registers
      pub_registers pub_source_registers pub_sink_registers ch_registers In] in Hin.
    repeat match goal with HE : read_registers _ _ = Ok _ |- _ =>
      apply read_registers_sound in HE as (_ & ? & ?) end.
    intuition (subst; done).
  - intros ws Hin. rewrite <-Hc in Hin. cbn [rebuild rx_header tx_header ev_header In] in Hin.
    apply words_Ok in Hm7 as (_ & ? & ?), Hm8 as (_ & ? & ?), Hm9 as (_ & ? & ?).
    intuition (subst; done).
Qed.

(** A term that names one message type twice is accepted, and reads another
    type: the mask is a sum of shifts, so the repeated bit carries into the
    next.  [msg_mask] refuses the same list for a match tuple. *)
Theorem repeated_message_type tests test max_bytes t :
  In test (map fst tests) -> test <> "none"%string -> TERM_FIELD_BYTES <= max_bytes -> 0 <= t <= 14 ->
  read_term tests max_bytes {| rt_test := test; rt_offset := None; rt_msg_types := Some [t; t] |}
  = Ok {| t_test := test; t_offset := 0; t_msg_mask := Z.shiftl 1 (t + 1) |}
  /\ forall subtype, is_ok (msg_mask (Some [t; t]) subtype) = false.
Proof.
  intros Ht Hn Hb Hr. split.
  - unfold read_term. cbn [rt_test rt_offset rt_msg_types default from_option id].
    assert (existsb (String.eqb test) (map fst tests) = true) as ->.
    { apply existsb_exists. exists test. split; [done|apply String.eqb_refl]. }
    rewrite (proj2 (String.eqb_neq test "none") Hn). cbn [negb orb raise_if rbind].
    rewrite (proj2 (Z.ltb_ge _ _)) by lia. rewrite andb_false_r. cbn [raise_if rbind].
    unfold sum_shifts. cbn [foldR]. rewrite (proj2 (Z.ltb_ge t 0)) by lia. cbn [rbind].
    replace (0 + Z.shiftl 1 t + Z.shiftl 1 t) with (Z.shiftl 1 (t + 1)).
    + rewrite (proj2 (Z.ltb_ge _ _)); [done|]. rewrite Z.shiftl_1_l.
      pose proof (Z.pow_le_mono_r 2 (t + 1) 15). lia.
    + rewrite !Z.shiftl_1_l, Z.pow_add_r by lia. lia.
  - intros subtype. unfold msg_mask, raise_if. case_bool_decide; [done|]. cbn [rbind].
    rewrite (bool_decide_eq_false_2 (NoDup [t; t])); [by rewrite orb_true_r|].
    intros [Hni _]%NoDup_cons. apply Hni. by left.
Qed.

(** * The constant list *)

Lemma unique_fold l seen out : foldR unique_step seen l = Ok out ->
  NoDup (map k_name l) /\ forall k, In k l -> ~ In (k_name k) seen.
Proof.
  revert seen. induction l as [|k l IH]; intros seen H; cbn [foldR map] in *.
  - split; [constructor|by intros ? []].
  - rsplit H. unfold unique_step in Hm. rsplit Hm. subst v. destruct (IH _ H) as [I1 I2].
    assert (~ In (k_name k) seen) as Hk.
    { intros Hin. assert (existsb (String.eqb (k_name k)) seen = true) as K; [|congruence].
      apply existsb_exists. exists (k_name k). split; [done|apply String.eqb_refl]. }
    split.
    + constructor; [|done]. intros (k' & He & Hk')%list_elem_of_In%in_map_iff.
      apply (I2 k' Hk'). left. by rewrite He.
    + intros k' [<-|Hk']; [done|]. intros Hin. apply (I2 k' Hk'). by right.
Qed.

Lemma constants_parts c l : constants c = Ok l ->
  NoDup (map k_name l)
  /\ (forall k, In k (register_constants c) \/ In k (record_constants c) \/ In k (global_constants c) -> In k l)
  /\ (forall ch, In ch (channels c) -> exists lc, one_channel_constants c ch = Ok lc /\ forall k, In k lc -> In k l).
Proof.
  unfold constants. cbv zeta. intros H. rsplit H. subst l. apply unique_fold in Hm0 as [Hn _].
  unfold channel_constants in Hm. apply rbind_Ok in Hm as (v' & Hm1 & Hm). rsplit Hm. subst v. split_and!; [done| |].
  - intros k Hk. rewrite !in_app_iff. tauto.
  - intros ch Hch. apply mapR_Ok in Hm1. apply list_elem_of_In, list_elem_of_lookup_1 in Hch as [i Hi].
    destruct (Forall2_lookup_l _ _ _ _ _ Hm1 Hi) as (lc & Hl & Hlc). exists lc. split; [done|].
    intros k Hk. rewrite !in_app_iff. do 6 right. apply in_concat. exists lc. split; [|done].
    apply list_elem_of_In. by apply list_elem_of_lookup_2 in Hl.
Qed.

Lemma registers_with_In prefix regs r : In r regs -> In (K true (prefix ++ r_name r)%string (r_offset r)) (registers_with prefix regs).
Proof. intros Hr. apply in_flat_map. exists r. split; [done|by left]. Qed.

(** The constant list every output carries is a table: no two constants share
    a name, so a name has one value, and the contract can be read back from it:
    each channel's id and ring geometry, each global register's offset, and each
    match tuple's EtherType and destination, whose two words join to the 48-bit
    address. *)
Theorem constants_faithful (c : Contract) (l : list Constant) :
  constants c = Ok l ->
  NoDup (map k_name l)
  /\ (forall ch (p := ("CH_" ++ upper (ch_name ch))%string), In ch (channels c) ->
        In (K false p (ch_ident ch)) l
        /\ In (K true (p ++ "_RX_BASE") (ch_rx_base ch)) l /\ In (K false (p ++ "_RX_WORDS") (ch_rx_words ch)) l
        /\ In (K true (p ++ "_TX_BASE") (ch_tx_base ch)) l /\ In (K false (p ++ "_TX_WORDS") (ch_tx_words ch)) l)%string
  /\ (forall r, In r (registers c) -> In (K true ("REG_" ++ r_name r)%string (r_offset r)) l)
  /\ (forall ch k m (p := ("CH_" ++ upper (ch_name ch) ++ "_M" ++ pretty (Z.of_nat k))%string),
        In ch (channels c) -> ch_tuples ch !! k = Some m -> Z.of_nat k < max_tuples c ->
        exists hi lo, In (K true (p ++ "_DST_HI")%string hi) l /\ In (K true (p ++ "_DST_LO")%string lo) l
          /\ m_mac m = hi * 2 ^ 32 + lo /\ 0 <= lo < 2 ^ 32
          /\ In (K true (p ++ "_ETHERTYPE")%string (m_ethertype m)) l).
Proof.
  intros H. apply constants_parts in H as (Hn & Hg & Hc). split_and!; [done| | |].
  - intros ch p Hch. destruct (Hc ch Hch) as (lc & Hlc & Hin). unfold one_channel_constants in Hlc. cbv zeta in Hlc.
    fold p in Hlc. rsplit Hlc. subst lc. split_and!; apply Hin; cbn [app In]; tauto.
  - intros r Hr. apply Hg. left. unfold register_constants. rewrite in_app_iff. left. by apply registers_with_In.
  - intros ch k m p Hch Hm Hk. destruct (Hc ch Hch) as (lc & Hlc & Hin). unfold one_channel_constants in Hlc.
    cbv zeta in Hlc. rsplit Hlc. subst lc. apply mapR_Ok in Hm0.
    assert (zrange 0 (Z.to_nat (max_tuples c)) !! k = Some (Z.of_nat k)) as Hz
      by (rewrite zrange_lookup, decide_True by lia; done).
    destruct (Forall2_lookup_l _ _ _ _ _ Hm0 Hz) as (lt & Hlt & Htc).
    unfold tuple_constants in Htc. cbv zeta in Htc. rewrite Nat2Z.id, Hm in Htc. cbn [default from_option id] in Htc.
    fold p in Htc. rsplit Htc.
    assert (forall x, In x lt -> In x l) as Hin'.
    { intros x Hx. apply Hin. rewrite !in_app_iff. right; left. apply in_concat. exists lt. split; [|done].
      apply list_elem_of_In. by apply list_elem_of_lookup_2 in Hlt. }
    exists (Z.shiftr (m_mac m) 32), (Z.land (m_mac m) 0xFFFFFFFF).
    rewrite Z.shiftr_div_pow2 by lia. change 0xFFFFFFFF with (Z.ones 32). rewrite Z.land_ones by lia.
    pose proof (Z.mod_pos_bound (m_mac m) (2 ^ 32) ltac:(lia)). pose proof (Z.div_mod (m_mac m) (2 ^ 32) ltac:(lia)).
    split_and!; try lia; apply Hin'; rewrite <-Htc, ?Z.shiftr_div_pow2 by lia;
      change 0xFFFFFFFF with (Z.ones 32); rewrite ?Z.land_ones by lia; cbn [In]; tauto.
Qed.
