(* ===== verification/MailboxYaml.v ===== *)
(** The shipped packet-mailbox contract ([sw/mailbox/mailbox.yaml]) as the items
    [Mailbox.load] reads, and what the theorems of [Mailbox] say of it: it
    loads, and its rings, filter rules, register map, publication block and
    constant list are as those theorems promise.  Comments and [doc] strings of
    the file are dropped. *)
From S2P Require Import Prelude Mailbox.

Definition F (name : string) (lsb width : Z) : Field :=
  {| f_name := name; f_lsb := lsb; f_width := width |}.
Definition R (name : string) (offset : Z) (access : string) (fs : list Field) : Register :=
  {| r_name := name; r_offset := offset; r_access := access; r_fields := fs |}.
Definition W (index : Z) (fs : list Field) : Word := {| w_index := index; w_fields := fs |}.
Definition T (test : string) (offset : option Z) (types : option (list Z)) : raw_term :=
  {| rt_test := test; rt_offset := offset; rt_msg_types := types |}.
Definition M (dst : raw_dst) (ethertype : Z) (subtype : option Z) (types : option (list Z)) : raw_match :=
  {| rm_dst := dst; rm_ethertype := ethertype; rm_subtype := subtype; rm_msg_types := types |}.

Definition mailbox_items : Contract := {|
  major := 2;
  minor := 3;
  magic := 0x4d42;
  window_bytes := 0x8000;
  interfaces := 1;
  timers := 16;
  tick_ms := 10;
  index_bits := 16;
  registers := [ R "ID" 0 "ro" [F "MINOR" 0 8; F "MAJOR" 8 8; F "MAGIC" 16 16];
     R "CAPS" 4 "ro" [F "N_CH" 0 4; F "N_IF" 4 4; F "N_TIMERS" 8 8; F "EVT_WORDS_LOG2" 16 4];
     R "IRQ_STATUS" 8 "rw1c" [F "RX" 0 8; F "EVT" 8 1; F "ERR" 31 1];
     R "IRQ_ENABLE" 12 "rw" [F "RX" 0 8; F "EVT" 8 1; F "ERR" 31 1];
     R "NOW_MS" 16 "ro" [F "MS" 0 32];
     R "LINK" 20 "ro" [F "UP" 0 4];
     R "TICK_CTL" 24 "rw" [F "EN" 0 1];
     R "OWN_EID_LO" 32 "rw" [F "EID" 0 32];
     R "OWN_EID_HI" 36 "rw" [F "EID" 0 32];
     R "FILTER_EN" 40 "rw" [F "OPEN" 0 8];
     R "MAAP_BASE_LO" 44 "rw" [F "ADDR" 0 32];
     R "MAAP_BASE_HI" 48 "rw" [F "ADDR" 0 16];
     R "MAAP_COUNT" 52 "rw" [F "COUNT" 0 16];
     R "TMR_DEADLINE" 56 "rw" [F "MS" 0 32];
     R "TMR_CMD" 60 "wo" [F "SLOT" 0 8; F "TAG" 8 16; F "OP" 30 2];
     R "EVT_HEAD" 96 "ro" [F "WORDS" 0 16];
     R "EVT_TAIL" 100 "rw" [F "WORDS" 0 16];
     R "BUS_ERR" 112 "ro" [F "COUNT" 0 16];
     R "FILTER_MISMATCH" 116 "ro" [F "COUNT" 0 16] ];
  if_base := 64;
  if_stride := 16;
  if_registers := [ R "GM_LO" 0 "ro" [F "ID" 0 32];
     R "GM_HI" 4 "ro" [F "ID" 0 32];
     R "DOMAIN" 8 "ro" [F "NUMBER" 0 8] ];
  iff_base := 128;
  iff_stride := 8;
  iff_registers := [ R "OWN_MAC_LO" 0 "rw" [F "MAC" 0 32];
     R "OWN_MAC_HI" 4 "rw" [F "MAC" 0 16] ];
  bound_talkers := 16;
  bnd_base := 0x200;
  bnd_stride := 0x100;
  bnd_entry_stride := 16;
  bnd_registers := [ R "BOUND_EID_LO" 0 "rw" [F "EID" 0 32];
     R "BOUND_EID_HI" 4 "rw" [F "EID" 0 32];
     R "BOUND_EN" 8 "rw" [F "EN" 0 1] ];
  pub_sources := 16;
  pub_sinks := 16;
  pub_base := 0x800;
  pub_stride := 0x200;
  pub_source_base := 128;
  pub_source_stride := 8;
  pub_sink_base := 0x100;
  pub_sink_stride := 16;
  pub_registers := [ R "DA_GATE" 0 "rw" [F "OPEN" 0 16];
     R "LICENCE" 4 "rw" [F "ACTIVE" 0 16];
     R "IDLE_SLOPE" 8 "rw" [F "BPS" 0 32];
     R "SR_DOMAIN" 12 "rw" [F "VID" 0 12; F "PRIORITY" 16 3; F "ADOPTED" 24 1];
     R "TALKER_DECL" 16 "rw" [F "DECLARED" 0 16] ];
  pub_source_registers := [ R "SRC_SID_LO" 0 "rw" [F "SID" 0 32];
     R "SRC_SID_HI" 4 "rw" [F "SID" 0 32] ];
  pub_sink_registers := [ R "SID_LO" 0 "rw" [F "SID" 0 32];
     R "SID_HI" 4 "rw" [F "SID" 0 32];
     R "BINDING" 8 "rw" [F "BOUND" 0 1; F "SID_VALID" 1 1; F "STARTED" 2 1] ];
  ch_base := 0x100;
  ch_stride := 32;
  ch_registers := [ R "RX_HEAD" 0 "ro" [F "WORDS" 0 16];
     R "RX_TAIL" 4 "rw" [F "WORDS" 0 16];
     R "TX_HEAD" 8 "rw" [F "WORDS" 0 16];
     R "TX_TAIL" 12 "ro" [F "WORDS" 0 16];
     R "RX_DROP" 16 "ro" [F "COUNT" 0 16];
     R "RATE_DROP" 20 "ro" [F "COUNT" 0 16];
     R "TX_ERR" 24 "ro" [F "COUNT" 0 16];
     R "RX_PASS" 28 "ro" [F "COUNT" 0 16] ];
  evt_base := 0x400;
  evt_words := 64;
  rx_kind := 1;
  rx_header := [W 0 [F "LEN" 0 16; F "IF" 16 4; F "KIND" 28 4]; W 1 [F "ARRIVAL_MS" 0 32]];
  tx_kind := 2;
  tx_header := [W 0 [F "LEN" 0 16; F "IF" 16 4; F "KIND" 28 4]; W 1 [F "SEQ" 0 16; F "RSVD" 16 16]];
  ev_words := 4;
  ev_header := [W 0 [F "TYPE" 0 8; F "IF" 8 4; F "SEQ" 16 16]];
  event_types := [ {| ev_name := "TIMER"; ev_value := 1; ev_type_words := [W 1 [F "TAG" 0 16; F "SLOT" 16 8]; W 2 [F "DEADLINE_MS" 0 32]; W 3 [F "NOW_MS" 0 32]] |};
     {| ev_name := "LINK"; ev_value := 2; ev_type_words := [W 1 [F "UP" 0 1]; W 3 [F "NOW_MS" 0 32]] |};
     {| ev_name := "GM"; ev_value := 3; ev_type_words := [W 1 [F "ID_LO" 0 32]; W 2 [F "ID_HI" 0 32]; W 3 [F "DOMAIN" 0 8]] |};
     {| ev_name := "TICK"; ev_value := 4; ev_type_words := [W 1 [F "COUNT" 0 16]; W 3 [F "NOW_MS" 0 32]] |} ];
  ethertype_byte := 12;
  subtype_byte := 14;
  msg_type_byte := 15;
  dst_byte := 0;
  max_terms := 3;
  max_tuples := 2;
  tpids := [0x8100; 0x88a8; 0x88e7];
  dsts := [("none", 0); ("mac", 1); ("own", 2)];
  tests := [("none", 0); ("any", 1); ("eq_own", 2); ("eq_zero", 3); ("range_overlap", 4); ("eq_bound", 5)];
  tmr_ops := [("arm", 1); ("cancel", 2)];
  channels := []
|}%string.

Definition mailbox_channels : list raw_channel :=
  [ {| rc_name := "adp"; rc_ident := 0; rc_rx_base := 0x1000; rc_rx_words := 256; rc_tx_base := 0x1400; rc_tx_words := 128;
       rc_max_frame_bytes := 128;
       rc_match := [M (RawInt 0x91e0f0010000) 0x22f0 (Some 250) None];
       rc_burst := 8; rc_refill_ms := 10;
       rc_accept := [T "eq_zero" (Some 18) (Some [2]);
         T "eq_own" (Some 18) (Some [2]);
         T "eq_bound" (Some 18) (Some [0; 1])] |};
    {| rc_name := "acmp"; rc_ident := 1; rc_rx_base := 0x1800; rc_rx_words := 256; rc_tx_base := 0x1c00; rc_tx_words := 256;
       rc_max_frame_bytes := 128;
       rc_match := [M (RawInt 0x91e0f0010000) 0x22f0 (Some 252) None; M RawOwn 0x22f0 (Some 252) None];
       rc_burst := 16; rc_refill_ms := 5;
       rc_accept := [T "eq_own" (Some 34) None;
         T "eq_own" (Some 42) None] |};
    {| rc_name := "aecp"; rc_ident := 2; rc_rx_base := 0x2000; rc_rx_words := 512; rc_tx_base := 0x2800; rc_tx_words := 512;
       rc_max_frame_bytes := 1514;
       rc_match := [M RawOwn 0x22f0 (Some 251) None];
       rc_burst := 16; rc_refill_ms := 5;
       rc_accept := [T "eq_own" (Some 18) (Some [0; 2; 4; 6; 8; 10; 12; 14]);
         T "eq_own" (Some 26) (Some [1; 3; 5; 7; 9; 11; 13; 15])] |};
    {| rc_name := "maap"; rc_ident := 3; rc_rx_base := 0x3000; rc_rx_words := 128; rc_tx_base := 0x3200; rc_tx_words := 128;
       rc_max_frame_bytes := 64;
       rc_match := [M (RawInt 0x91e0f000ff00) 0x22f0 (Some 254) None; M RawOwn 0x22f0 (Some 254) (Some [2])];
       rc_burst := 8; rc_refill_ms := 20;
       rc_accept := [T "range_overlap" (Some 26) (Some [1; 2; 3])] |};
    {| rc_name := "srp"; rc_ident := 4; rc_rx_base := 0x4000; rc_rx_words := 1024; rc_tx_base := 0x5000; rc_tx_words := 512;
       rc_max_frame_bytes := 1514;
       rc_match := [M (RawInt 0x180c200000e) 0x22ea None None; M (RawInt 0x180c2000021) 0x88f5 None None];
       rc_burst := 32; rc_refill_ms := 2;
       rc_accept := [T "any" None None] |} ]%string.

Definition mailbox_yaml : document := {| doc_items := mailbox_items; doc_channels := mailbox_channels |}.

Definition shipped : Contract :=
  match load mailbox_yaml with Ok c => c | Err _ => mailbox_items end.

Lemma shipped_loads : load mailbox_yaml = Ok shipped.
Proof.
  unfold shipped. assert (is_ok (load mailbox_yaml) = true) as K by (vm_compute; reflexivity).
  destruct (load mailbox_yaml) as [c|e]; [reflexivity|discriminate K].
Qed.

Lemma shipped_checked : check_contract shipped = Ok tt.
Proof. vm_compute. reflexivity. Qed.

Lemma shipped_constants : is_ok (constants shipped) = true.
Proof. vm_compute. reflexivity. Qed.

(** The contract file the repository ships is a valid contract: it loads, its
    five channels keep their ids, its 423 constants have distinct names, and the
    two-interface variant the test suite elaborates is accepted as well. *)
Theorem shipped_contract :
  load mailbox_yaml = Ok shipped
  /\ map ch_name (channels shipped) = ["adp"; "acmp"; "aecp"; "maap"; "srp"]%string
  /\ (exists l, constants shipped = Ok l /\ zlen l = 423 /\ NoDup (map k_name l))
  /\ is_ok (with_interfaces shipped 2) = true.
Proof.
  split; [exact shipped_loads|]. split; [vm_compute; reflexivity|]. split; [|vm_compute; reflexivity].
  pose proof shipped_constants as K. destruct (constants shipped) as [l|e] eqn:E; [|discriminate K].
  exists l. split; [done|]. split.
  - assert (match constants shipped with Ok l => zlen l | Err _ => 0 end = 423) as Hz by (vm_compute; reflexivity).
    by rewrite E in Hz.
  - by apply constants_parts in E as (? & _).
Qed.

Lemma rings_disjoint_witness :
  check_contract shipped = Ok tt /\ length (ring_spans shipped) = 11%nat /\
  forall i j a b, i <> j -> ring_spans shipped !! i = Some a -> ring_spans shipped !! j = Some b ->
    span_end a <= s_base b \/ span_end b <= s_base a.
Proof.
  split; [exact shipped_checked|]. split; [vm_compute; reflexivity|].
  destruct (rings_disjoint shipped shipped_checked) as (_ & H & _). exact H.
Defined.

Lemma classification_unique_witness :
  check_contract shipped = Ok tt /\
  forall ch m subtype, In ch (channels shipped) -> In m (ch_tuples ch) -> ~ matches (claim_of m) 0x8100 subtype.
Proof.
  split; [exact shipped_checked|]. intros ch m subtype Hch Hm.
  destruct (classification_unique shipped shipped_checked) as (_ & H & _).
  assert (tpids shipped = [0x8100; 0x88A8; 0x88E7]) as E by (vm_compute; reflexivity).
  apply (H ch m subtype 0x8100 Hch Hm). rewrite E. left. reflexivity.
Defined.

Lemma register_addresses_distinct_witness :
  check_contract shipped = Ok tt /\ length (flat_map block_addresses (blocks shipped)) = 93%nat
  /\ NoDup (flat_map block_addresses (blocks shipped)).
Proof.
  split; [exact shipped_checked|]. split; [vm_compute; reflexivity|].
  destruct (register_addresses_distinct shipped shipped_checked) as [H _]. exact H.
Defined.

(** The register lists of the shipped contract, as [load_sound] gives them. *)
Lemma shipped_pub_registers :
  registers_ok (pub_registers shipped) /\ registers_ok (pub_source_registers shipped)
  /\ registers_ok (pub_sink_registers shipped).
Proof.
  assert (forall raw, is_ok (read_registers raw REGISTER_SPACE_BYTES) = true -> raw <> [] -> registers_ok raw) as G.
  { intros raw K Hne. destruct (read_registers raw REGISTER_SPACE_BYTES) as [out|] eqn:E; [|done].
    apply read_registers_sound in E as (_ & ? & ?). done. }
  split_and!; (apply G; [vm_compute; reflexivity|vm_compute; discriminate]).
Qed.

Lemma publication_clear_witness :
  interfaces shipped = 1 /\
  forall i w, 0 <= i < 1 -> pub_valid shipped w ->
    REGISTER_SPACE_BYTES <= pub_address shipped i w < window_bytes shipped.
Proof.
  split; [reflexivity|]. destruct shipped_pub_registers as (R1 & R2 & R3).
  destruct (publication_clear shipped shipped_checked R1 R2 R3) as [H _].
  intros i w Hi Hw. destruct (H i w Hi Hw) as (_ & Ha & _). exact Ha.
Defined.

Lemma load_sound_witness :
  load mailbox_yaml = Ok shipped /\ map ch_ident (channels shipped) = zrange 0 (length (channels shipped))
  /\ forall ch, In ch (channels shipped) -> channel_ok shipped ch.
Proof.
  split; [exact shipped_loads|].
  destruct (load_sound mailbox_yaml shipped shipped_loads) as (_ & H1 & _ & _ & H2).
  split; [exact H1|exact H2].
Defined.

Lemma constants_faithful_witness :
  exists l, constants shipped = Ok l /\ NoDup (map k_name l)
    /\ forall r, In r (registers shipped) -> In (K true ("REG_" ++ r_name r)%string (r_offset r)) l.
Proof.
  pose proof shipped_constants as K. destruct (constants shipped) as [l|e] eqn:E; [|discriminate K].
  exists l. split; [reflexivity|].
  destruct (constants_faithful shipped l E) as (H1 & _ & H3 & _). split; [exact H1|exact H3].
Defined.
