(* ===== verification/MailboxEmit.v ===== *)
(** The emitters of the mailbox contract ([sw/mailbox/mailbox_emit.py]): the C
    header, the SystemVerilog package and the constant table of the reference page.

    The documentation string of a constant is an argument, [docs]: the contract
    model leaves documentation out.  The page's lines before its constant table,
    which are prose, are an argument of [emit_doc]. *)
From S2P Require Import Prelude Unicode Descriptors Directory Text Config Mailbox.

(** * The constants and the tables *)

Definition derived (c : Contract) : result contract_error (list Constant) :=
  let rings := evt_words c :: flat_map (fun ch => [ch_rx_words ch; ch_tx_words ch]) (channels c) in
  let* widest := match map ch_max_frame_bytes (channels c) with
                 | [] => Err EMaxEmpty
                 | f :: fs => Ok (max_z f fs)
                 end in
  Ok [K false "IF_W" (Z.max 1 (bit_length (interfaces c - 1)));
      K false "CH_W" (Z.max 1 (bit_length (zlen (channels c) - 1)));
      K false "RING_AW" (bit_length (max_z (evt_words c) (tail rings) - 1));
      K false "ADDR_W" (bit_length (window_bytes c / 4 - 1));
      K false "FRAME_BYTES_MAX" widest]%string.

Definition all_constants (c : Contract) : result contract_error (list Constant) :=
  let* l := constants c in
  let* d := derived c in
  Ok (l ++ d).

(** Table name and per-channel suffix. *)
Definition CHANNEL_TABLES : list (string * string) :=
  [("CH_RX_BASE_TBL", "RX_BASE"); ("CH_RX_WORDS_TBL", "RX_WORDS");
   ("CH_TX_BASE_TBL", "TX_BASE"); ("CH_TX_WORDS_TBL", "TX_WORDS");
   ("CH_MAX_FRAME_BYTES_TBL", "MAX_FRAME_BYTES");
   ("CH_RATE_BURST_TBL", "RATE_BURST"); ("CH_RATE_REFILL_MS_TBL", "RATE_REFILL_MS")]%string.

Definition TUPLE_TABLES : list (string * string) :=
  [("TUPLE_DST_TBL", "DST"); ("TUPLE_DST_HI_TBL", "DST_HI"); ("TUPLE_DST_LO_TBL", "DST_LO");
   ("TUPLE_ETHERTYPE_TBL", "ETHERTYPE"); ("TUPLE_HAS_SUBTYPE_TBL", "HAS_SUBTYPE");
   ("TUPLE_SUBTYPE_TBL", "SUBTYPE"); ("TUPLE_MSG_MASK_TBL", "MSG_MASK")]%string.

Definition TERM_TABLES : list (string * string) :=
  [("TERM_TEST_TBL", "TEST"); ("TERM_OFFSET_TBL", "OFFSET"); ("TERM_MASK_TBL", "MSG_MASK")]%string.

(** Prefix of a table's name, SystemVerilog size, index. *)
Definition TABLE_SHAPES : list (string * (string * string)) :=
  [("CH_", ("MBX_N_CH_C", "channel id"));
   ("TUPLE_", ("MBX_N_CH_C * MBX_MAX_TUPLES_C", "channel id * MAX_TUPLES + tuple"));
   ("TERM_", ("MBX_N_CH_C * MBX_MAX_TERMS_C", "channel id * MAX_TERMS + term"))]%string.

Definition channel_member (ch : Channel) (suffix : string) : string :=
  ("CH_" ++ upper (ch_name ch) ++ "_" ++ suffix)%string.

(** The entry of a channel at index [k] of a flattened table. *)
Definition indexed_member (kind : string) (ch : Channel) (suffix : string) (k : Z) : string :=
  ("CH_" ++ upper (ch_name ch) ++ "_" ++ kind ++ pretty k ++ "_" ++ suffix)%string.

Definition indexed_members (kind : string) (c : Contract) (n : Z) (suffix : string) : list string :=
  flat_map (fun ch => map (indexed_member kind ch suffix) (zrange 0 (Z.to_nat n))) (channels c).

(** [_tables]. *)
Definition tables (c : Contract) : list (string * list string) :=
  map (fun ts => (fst ts, map (fun ch => channel_member ch (snd ts)) (channels c))) CHANNEL_TABLES
  ++ map (fun ts => (fst ts, indexed_members "M" c (max_tuples c) (snd ts))) TUPLE_TABLES
  ++ map (fun ts => (fst ts, indexed_members "T" c (max_terms c) (snd ts))) TERM_TABLES.

(** * Emission *)

(** [_num], of a value that is not negative. *)
Definition num (sv : bool) (k : Constant) : pystr :=
  if sv then if k_hexa k then lit "32'h" ++ hex_pad 8 (k_value k) else lit "32'd" ++ dec (k_value k)
  else if k_hexa k then lit "0x" ++ hex_upper (k_value k) ++ lit "u" else dec (k_value k) ++ lit "u".

Definition header_lines (path comment : string) : list pystr :=
  map lit
    [comment ++ " SPDX-FileCopyrightText: 2026 Kebag Logic";
     comment ++ " SPDX-License-Identifier: CERN-OHL-W-2.0";
     comment;
     comment ++ " GENERATED by sw/mailbox/gen_mailbox.py from sw/mailbox/mailbox.yaml; DO NOT EDIT.";
     comment ++ " Regenerate with: python3 sw/mailbox/gen_mailbox.py --write";
     comment;
     comment ++ " " ++ path ++ ": the packet-mailbox contract (#665 lane F0)."]%string.

Definition c_head : list pystr :=
  header_lines "sw/firmware/ctrl/mbx/mbx_contract.h" "//"
  ++ map lit
    ["//";
     "// Every constant is `MBX_<name>`, the SystemVerilog package's";
     "// `MBX_<name>_C`. The *_TBL macros are brace initialisers listing those";
     "// names by channel id, for code that indexes a channel at run time.";
     EmptyString; "#ifndef MBX_CONTRACT_H"; "#define MBX_CONTRACT_H"; EmptyString]%string.

Definition c_constant_line (k : Constant) : pystr :=
  lit "#define MBX_" ++ lit (k_name k) ++ lit " " ++ num false k.

Definition c_table_line (t : string * list string) : pystr :=
  lit "#define MBX_" ++ lit (fst t) ++ lit " { " ++ join (lit ", ") (map (fun m => lit "MBX_" ++ lit m) (snd t)) ++ lit " }".

Definition c_lines (docs : string -> pystr) (consts : list Constant) (tbls : list (string * list string)) : list pystr :=
  c_head
  ++ flat_map (fun k => [lit "/* " ++ docs (k_name k) ++ lit " */"; c_constant_line k]) consts
  ++ [lit EmptyString] ++ map c_table_line tbls
  ++ [lit EmptyString; lit "#endif /* MBX_CONTRACT_H */"; lit EmptyString].

Definition emit_c_header (docs : string -> pystr) (c : Contract) : result contract_error pystr :=
  let* consts := all_constants c in
  Ok (join [10] (c_lines docs consts (tables c))).

Definition sv_head : list pystr :=
  header_lines "hdl/milan/mailbox/KL_mbx_pkg.sv" "//"
  ++ map lit
    ["//";
     "// Every constant is `MBX_<name>_C`, the C header's `MBX_<name>`. The";
     "// tables at the end list those names by channel id, so the RTL can index";
     "// a channel at run time without restating a number.";
     EmptyString; "`default_nettype none"; EmptyString; "package KL_mbx_pkg;"; EmptyString]%string.

Definition sv_tail : list pystr :=
  map lit
    [EmptyString;
     "  //! `value` placed into the field [lsb +: width] of a 32-bit word";
     "  function automatic logic [31:0] mbx_place_f(input logic [31:0] value, input int unsigned lsb,";
     "                                              input int unsigned width);";
     "    logic [31:0] mask;";
     "    mask = (width >= 32) ? 32'hFFFF_FFFF : ((32'd1 << width) - 32'd1);";
     "    return (value & mask) << lsb;";
     "  endfunction : mbx_place_f";
     EmptyString;
     "  //! the field [lsb +: width] of a 32-bit word";
     "  function automatic logic [31:0] mbx_field_f(input logic [31:0] word, input int unsigned lsb,";
     "                                              input int unsigned width);";
     "    logic [31:0] mask;";
     "    mask = (width >= 32) ? 32'hFFFF_FFFF : ((32'd1 << width) - 32'd1);";
     "    return (word >> lsb) & mask;";
     "  endfunction : mbx_field_f";
     EmptyString;
     "endpackage : KL_mbx_pkg"; EmptyString; "`default_nettype wire"; EmptyString]%string.

Definition sv_constant_line (k : Constant) : pystr :=
  lit "  localparam int unsigned MBX_" ++ lit (k_name k) ++ lit "_C = " ++ num true k ++ lit ";".

(** The size and the index of a table, by the first prefix its name has. *)
Definition table_shape (table : string) : string * string :=
  default (EmptyString, EmptyString) (snd <$> List.find (fun ps => String.prefix (fst ps) table) TABLE_SHAPES).

Definition sv_table_line (t : string * list string) : pystr :=
  lit "  localparam int unsigned MBX_" ++ lit (fst t) ++ lit "_C [" ++ lit (fst (table_shape (fst t))) ++ lit "] = '{"
  ++ join (lit ", ") (map (fun m => lit "MBX_" ++ lit m ++ lit "_C") (snd t)) ++ lit "};".

Definition sv_lines (docs : string -> pystr) (consts : list Constant) (tbls : list (string * list string)) : list pystr :=
  sv_head
  ++ flat_map (fun k => [lit "  //! " ++ docs (k_name k); sv_constant_line k]) consts
  ++ [lit EmptyString]
  ++ flat_map (fun t => [lit "  //! by " ++ lit (snd (table_shape (fst t))); sv_table_line t]) tbls
  ++ sv_tail.

Definition emit_sv_package (docs : string -> pystr) (c : Contract) : result contract_error pystr :=
  let* consts := all_constants c in
  Ok (join [10] (sv_lines docs consts (tables c))).

(** The last lines of [emit_doc]: the constant table. *)
Definition doc_constant_line (k : Constant) : pystr :=
  lit "| `MBX_" ++ lit (k_name k) ++ lit "` | `" ++ py_hex (k_value k) ++ lit "` |".

Definition emit_doc (page : list pystr) (c : Contract) : result contract_error pystr :=
  let* consts := all_constants c in
  Ok (join [10] (page ++ map doc_constant_line consts ++ [lit EmptyString])).
