(* ===== verification/MailboxRead.v ===== *)
(** The readers of the mailbox contract's outputs ([sw/mailbox/gen_mailbox.py]):
    the C header, the SystemVerilog package and the page's constant table are read
    back by name, and what each emitter writes is what its reader finds.

    The regular expressions are matched line by line, on ASCII text.  A
    SystemVerilog array size that spans lines, which [SV_TABLE] would accept, is
    not modelled. *)
From S2P Require Import Prelude Unicode Descriptors Text Config Mailbox MailboxEmit.

(** * Reading *)

(** [\w], and the longest run of it. *)
Definition is_word (c : Z) : bool :=
  is_digit c || (65 <=? c) && (c <=? 90) || (97 <=? c) && (c <=? 122) || (c =? 95).

Fixpoint span (f : Z -> bool) (s : pystr) : pystr * pystr :=
  match s with
  | c :: s' => if f c then let '(a, b) := span f s' in (c :: a, b) else ([], s)
  | [] => ([], [])
  end.

(** What comes before a suffix; [None] when there is not one. *)
Definition match_end (suffix s : pystr) : option pystr := (@rev Z) <$> match_lit (rev suffix) (rev s).

(** [s.removeprefix(p)], [s.removesuffix(p)]. *)
Definition remove_prefix (p s : pystr) : pystr := default s (match_lit p s).
Definition remove_suffix (p s : pystr) : pystr := default s (match_end p s).

Definition nonempty (s : pystr) : option pystr := match s with [] => None | _ => Some s end.

Definition is_hex_upper (c : Z) : bool := is_digit c || (65 <=? c) && (c <=? 70).
Definition is_hex_lower (c : Z) : bool := is_digit c || (97 <=? c) && (c <=? 102).

(** [int(body, 0)] of [0x[0-9A-F]+] or of decimal digits, which may not start with
    a zero unless all are. *)
Definition c_number (body : pystr) : option (result contract_error Z) :=
  match match_lit (lit "0x") body with
  | Some ds => if bool_decide (ds = []) || negb (forallb is_hex_upper ds) then None
               else Some (Ok (hex_value 0 ds))
  | None => if bool_decide (body = []) || negb (forallb is_digit body) then None
            else Some (if (hd 0 body =? 48) && negb (forallb (Z.eqb 48) body) then Err EIntLiteral
                       else Ok (dec_value 0 body))
  end.

(** [C_CONST] and [C_TABLE] on one line. *)
Definition c_const (line : pystr) : option (pystr * result contract_error Z) :=
  s ← match_lit (lit "#define MBX_") line;
  let '(name, s) := span is_word s in
  name ← nonempty name; s ← match_lit (lit " ") s; body ← match_end (lit "u") s; v ← c_number body;
  Some (name, v).

(** The members of a table: [n.strip()] and its affixes removed. *)
Definition c_member (n : pystr) : pystr := remove_prefix (lit "MBX_") (strip_ws n).
Definition sv_member (n : pystr) : pystr := remove_suffix (lit "_C") (c_member n).

Definition c_table (line : pystr) : option (pystr * list pystr) :=
  s ← match_lit (lit "#define MBX_") line;
  let '(name, s) := span is_word s in
  stem ← match_end (lit "_TBL") name; _ ← nonempty stem;
  s ← match_lit (lit " { ") s; body ← match_end (lit " }") s;
  Some (name, map c_member (split_on 44 body)).

(** [int] of the digits without their underscores. *)
Definition sv_number (hexa : bool) (digits : pystr) : result contract_error Z :=
  let ds := List.filter (fun c => negb (c =? 95)) digits in
  if bool_decide (ds = []) then Err EIntLiteral
  else if hexa then Ok (hex_value 0 ds)
  else if forallb is_digit ds then Ok (dec_value 0 ds) else Err EIntLiteral.

(** [SV_CONST] and [SV_TABLE] on one line. *)
Definition sv_const (line : pystr) : option (pystr * result contract_error Z) :=
  s ← match_lit (lit "localparam int unsigned MBX_") (skip_ws line);
  let '(name, s) := span is_word s in
  name ← match_end (lit "_C") name; name ← nonempty name;
  s ← match_lit (lit " = 32'") s;
  match s with
  | b :: s =>
      if (b =? 104) || (b =? 100) then
        ds ← match_end (lit ";") s; ds ← nonempty ds;
        if forallb (fun c => is_hex_upper c || (c =? 95)) ds then Some (name, sv_number (b =? 104) ds) else None
      else None
  | [] => None
  end.

Definition sv_table (line : pystr) : option (pystr * list pystr) :=
  s ← match_lit (lit "localparam int unsigned MBX_") (skip_ws line);
  let '(name, s) := span is_word s in
  name ← match_end (lit "_C") name; stem ← match_end (lit "_TBL") name; _ ← nonempty stem;
  s ← match_lit (lit " [") s;
  let '(size, s) := span (fun c => negb (c =? 93)) s in
  _ ← nonempty size; s ← match_lit (lit "] = '{") s; body ← match_end (lit "};") s;
  Some (name, map sv_member (split_on 44 body)).

(** [DOC_CONST] on one line. *)
Definition doc_const (line : pystr) : option (pystr * result contract_error Z) :=
  s ← match_lit (lit "| `MBX_") line;
  let '(name, s) := span is_word s in
  name ← nonempty name; s ← match_lit (lit "` | `0x") s; ds ← match_end (lit "` |") s; ds ← nonempty ds;
  if forallb is_hex_lower ds then Some (name, Ok (hex_value 0 ds)) else None.

(** A dict comprehension: the last value of a name stands. *)
Definition dict_of {A} (l : list (pystr * A)) : gmap pystr A :=
  fold_left (fun m nv => <[fst nv := snd nv]> m) l ∅.

Definition read_constants (read : pystr -> option (pystr * result contract_error Z)) (text : pystr)
    : result contract_error (gmap pystr Z) :=
  let* l := mapR (fun nv => let* v := snd nv in Ok (fst nv, v)) (omap read (split_on 10 text)) in
  Ok (dict_of l).

Definition parse_c (text : pystr) : result contract_error (gmap pystr Z * gmap pystr (list pystr)) :=
  let* consts := read_constants c_const text in
  Ok (consts, dict_of (omap c_table (split_on 10 text))).

Definition parse_sv (text : pystr) : result contract_error (gmap pystr Z * gmap pystr (list pystr)) :=
  let* consts := read_constants sv_const text in
  Ok (consts, dict_of (omap sv_table (split_on 10 text))).

Definition parse_doc (text : pystr) : result contract_error (gmap pystr Z) := read_constants doc_const text.

(** The name and value pairs a reader should find. *)
Definition constant_pairs (consts : list Constant) : list (pystr * Z) :=
  map (fun k => (lit (k_name k), k_value k)) consts.

(** * The pieces of a line *)

Definition word (w : pystr) : Prop := w <> [] /\ forallb is_word w = true.
Definition one_line (p : pystr) : Prop := forallb (fun c => negb (c =? 10)) p = true.

Lemma span_app f w c s : forallb f w = true -> f c = false -> span f (w ++ c :: s) = (w, c :: s).
Proof.
  intros Hw Hc. induction w as [|x w IH]; cbn [app span forallb] in *; [by rewrite Hc|].
  apply andb_true_iff in Hw as [-> Hw]. by rewrite IH.
Qed.

Lemma match_end_app suffix s : match_end suffix (s ++ suffix) = Some s.
Proof. unfold match_end. rewrite rev_app_distr, match_lit_app. cbn. by rewrite rev_involutive. Qed.

Lemma nonempty_word w : word w -> nonempty w = Some w.
Proof. by destruct w; intros []. Qed.

Lemma one_line_app a b : one_line (a ++ b) <-> one_line a /\ one_line b.
Proof. unfold one_line. by rewrite forallb_app, andb_true_iff. Qed.

Lemma forallb_weaken {A} (f g : A -> bool) l : (forall x, f x = true -> g x = true) -> forallb f l = true -> forallb g l = true.
Proof. rewrite !forallb_forall. eauto. Qed.

Lemma one_line_of f p : f 10 = false -> forallb f p = true -> one_line p.
Proof.
  intros Hf. apply forallb_weaken. intros x Hx. rewrite negb_true_iff, Z.eqb_neq. by intros ->; rewrite Hf in Hx.
Qed.

Lemma one_line_word w : word w -> one_line w.
Proof. intros [_ Hw]. by apply (one_line_of is_word). Qed.

Lemma one_line_In p : one_line p -> ~ In 10 p.
Proof. unfold one_line. rewrite forallb_forall. intros H Hin. by apply H in Hin. Qed.

(** ** Numbers *)

Lemma Forall_forallb {A} (f : A -> bool) l : Forall (fun x => f x = true) l <-> forallb f l = true.
Proof. rewrite forallb_forall, Forall_forall. by setoid_rewrite list_elem_of_In. Qed.

(** Upper-case digits are what is printed. *)
Lemma hex_upper_digits v : 0 <= v -> forallb is_hex_upper (hex_upper v) = true.
Proof.
  intros Hv. destruct (hex_upper_spec v Hv) as (Ha & _ & _). apply Forall_forallb.
  unfold hex_upper in *. rewrite Forall_map in *. eapply Forall_impl; [exact Ha|]. cbn beta. intros c Hc.
  apply hex_digit_range in Hc. unfold to_upper, is_hex_upper, is_digit in *.
  destruct ((97 <=? c) && (c <=? 122)) eqn:E; bool_prop; rewrite orb_true_iff, !andb_true_iff, !Z.leb_le; lia.
Qed.

Lemma hex_pad_digits n v : 0 <= v -> forallb is_hex_upper (hex_pad n v) = true.
Proof.
  intros Hv. unfold hex_pad. rewrite forallb_app, hex_upper_digits, andb_true_r by done.
  apply forallb_forall. by intros c ->%repeat_spec.
Qed.

(** Without underscores the two readers of hexadecimal agree. *)
Lemma hex_value_us ds : forall acc b, Forall (fun c => is_Some (hex_digit c)) ds -> ds <> [] ->
  hex_digits_us acc b ds = Some (hex_value acc ds).
Proof.
  induction ds as [|c ds IH]; intros acc b Hd Hn; [done|]. apply Forall_cons in Hd as [[d Hc] Hd].
  cbn [hex_digits_us hex_value]. rewrite Hc. destruct ds as [|c' ds]; [done|]. by apply IH.
Qed.

Lemma hex_upper_value v : 0 <= v -> hex_value 0 (hex_upper v) = v.
Proof.
  intros Hv. destruct (hex_upper_spec v Hv) as (Ha & Hn & Hu).
  rewrite (hex_value_us _ _ _ Ha Hn) in Hu. by injection Hu.
Qed.

Lemma hex_pad_value n v : 0 <= v -> hex_value 0 (hex_pad n v) = v.
Proof.
  intros Hv. destruct (hex_pad_spec n v Hv) as (Ha & Hn & Hu).
  rewrite (hex_value_us _ _ _ Ha Hn) in Hu. by injection Hu.
Qed.

Lemma dec_digits v : 0 <= v -> forallb is_digit (dec v) = true /\ dec v <> [] /\ dec_value 0 (dec v) = v.
Proof.
  intros Hv. destruct (dec_spec v Hv) as (Ha & Hn & Hu). rewrite (dec_digits_value _ _ _ Ha Hn) in Hu.
  injection Hu as Hu. by rewrite Forall_forallb in Ha.
Qed.

Lemma c_number_dec v : 0 <= v -> c_number (dec v) = Some (Ok v).
Proof.
  intros Hv. destruct (dec_digits v Hv) as (Hd & Hn & Hval). unfold c_number.
  destruct (Z.eq_dec v 0) as [->|Hne]; [done|]. pose proof (dec_head v ltac:(lia)) as Hh.
  destruct (dec v) as [|c ds] eqn:E; [done|]. cbn [hd] in Hh |- *.
  replace (match_lit (lit "0x") (c :: ds)) with (@None pystr)
    by (change (lit "0x") with [48; 120]; cbn [match_lit]; by rewrite (proj2 (Z.eqb_neq 48 c)) by congruence).
  rewrite bool_decide_false by done. rewrite Hd. cbn [orb negb]. rewrite (proj2 (Z.eqb_neq c 48)) by done.
  cbn [andb]. by rewrite Hval.
Qed.

Lemma c_number_hex v : 0 <= v -> c_number (lit "0x" ++ hex_upper v) = Some (Ok v).
Proof.
  intros Hv. unfold c_number. rewrite match_lit_app, hex_upper_digits by done.
  rewrite bool_decide_false by apply (hex_upper_spec v Hv). cbn [orb negb]. by rewrite hex_upper_value.
Qed.

(** The body of a number in the header. *)
Lemma num_c k : 0 <= k_value k -> exists body, num false k = body ++ lit "u" /\ c_number body = Some (Ok (k_value k))
  /\ one_line (num false k).
Proof.
  intros Hv. unfold num. destruct (k_hexa k).
  - exists (lit "0x" ++ hex_upper (k_value k)). rewrite <-app_assoc, !one_line_app.
    split_and!; [done|by apply c_number_hex|done| |done].
    by apply (one_line_of is_hex_upper), hex_upper_digits.
  - exists (dec (k_value k)). rewrite one_line_app. split_and!; [done|by apply c_number_dec| |done].
    by apply (one_line_of is_digit), dec_digits.
Qed.

Lemma no_underscore f ds : f 95 = false -> forallb f ds = true ->
  List.filter (fun c => negb (c =? 95)) ds = ds.
Proof.
  intros Hf. induction ds as [|c ds IH]; cbn [forallb List.filter]; [done|]. rewrite andb_true_iff. intros [Hc Hd].
  destruct (Z.eqb_spec c 95) as [->|]; [congruence|]. cbn [negb]. by rewrite IH.
Qed.

(** The digits of a number in the package. *)
Lemma num_sv k : 0 <= k_value k -> exists b ds, num true k = lit "32'" ++ b :: ds /\ (b = 104 \/ b = 100)
  /\ ds <> [] /\ forallb is_hex_upper ds = true /\ sv_number (b =? 104) ds = Ok (k_value k).
Proof.
  intros Hv. unfold num, sv_number. destruct (k_hexa k).
  - exists 104, (hex_pad 8 (k_value k)). pose proof (hex_pad_digits 8 _ Hv) as Hd.
    destruct (hex_pad_spec 8 _ Hv) as (_ & Hn & _).
    split_and!; [done|by left|done|done|]. rewrite (no_underscore is_hex_upper), bool_decide_false by done.
    cbn [Z.eqb Pos.eqb]. by rewrite hex_pad_value.
  - exists 100, (dec (k_value k)). destruct (dec_digits _ Hv) as (Hd & Hn & Hval).
    split_and!; [done|by right|done| |].
    + eapply forallb_weaken; [|exact Hd]. intros c Hc. unfold is_hex_upper. by rewrite Hc.
    + rewrite (no_underscore is_digit), bool_decide_false by done. cbn [Z.eqb Pos.eqb]. by rewrite Hd, Hval.
Qed.

Lemma py_hex_digits v : 0 <= v -> exists ds, py_hex v = lit "0x" ++ ds /\ ds <> []
  /\ forallb is_hex_lower ds = true /\ hex_value 0 ds = v.
Proof.
  intros Hv. unfold py_hex. rewrite (proj2 (Z.ltb_ge v 0)), Z.abs_eq by done.
  set (ds := hex_digits_of _ v). exists ds. split; [done|].
  destruct (hex_upper_spec v Hv) as (_ & Hn & _). unfold hex_upper in Hn. fold ds in Hn.
  destruct (hex_digits_of_spec (S (Z.to_nat (Z.log2 v))) v false) as (Ha & Hne & Hu); [|lia|].
  { split; [done|]. destruct (Z.eq_dec v 0) as [->|]; [done|].
    rewrite Nat2Z.inj_succ, Z2Nat.id by apply Z.log2_nonneg.
    apply Z.lt_le_trans with (2 ^ Z.succ (Z.log2 v)); [apply Z.log2_spec; lia|].
    apply Z.pow_le_mono_l. split; [lia|done]. }
  fold ds in Ha, Hne, Hu. rewrite (hex_value_us _ _ _ Ha Hne) in Hu. injection Hu as Hu.
  split_and!; [done| |done]. unfold ds. clear.
  generalize (S (Z.to_nat (Z.log2 v))) as n. intros n. revert v. induction n as [|n IH]; intros v; cbn [hex_digits_of]; [done|].
  rewrite forallb_app. destruct (v <? 16); [|rewrite IH]; cbn [forallb andb]; rewrite andb_true_r;
    pose proof (Z.mod_pos_bound v 16 ltac:(lia)); unfold hex_char, is_hex_lower, is_digit;
    destruct (Z.ltb_spec (v mod 16) 10); rewrite orb_true_iff, !andb_true_iff, !Z.leb_le; lia.
Qed.

(** * The lines are read back *)

Section Lines.
Context (k : Constant).
Hypothesis Hw : word (lit (k_name k)).
Hypothesis Hv : 0 <= k_value k.

Lemma c_constant_read : c_const (c_constant_line k) = Some (lit (k_name k), Ok (k_value k)).
Proof using All.
  destruct (num_c k Hv) as (body & E & Hb & _). unfold c_const, c_constant_line.
  rewrite match_lit_app. cbn [mbind option_bind].
  change (lit " " ++ num false k) with (32 :: num false k). rewrite span_app by (apply Hw || done).
  rewrite (nonempty_word _ Hw). cbn [mbind option_bind]. rewrite E.
  change (32 :: body ++ lit "u") with (lit " " ++ body ++ lit "u"). rewrite match_lit_app.
  cbn [mbind option_bind]. rewrite match_end_app. cbn [mbind option_bind]. by rewrite Hb.
Qed.

Lemma c_constant_one_line : one_line (c_constant_line k).
Proof using All.
  destruct (num_c k Hv) as (_ & _ & _ & Hn). unfold c_constant_line. rewrite !one_line_app.
  split_and!; [done|by apply one_line_word|done|done].
Qed.

Lemma c_constant_no_table : c_table (c_constant_line k) = None.
Proof using All.
  destruct (num_c k Hv) as (body & E & _ & _). unfold c_table, c_constant_line.
  rewrite match_lit_app. cbn [mbind option_bind].
  change (lit " " ++ num false k) with (32 :: num false k). rewrite span_app by (apply Hw || done).
  destruct (match_end (lit "_TBL") (lit (k_name k))) as [stem|]; [|done]. cbn [mbind option_bind].
  destruct (nonempty stem); [|done]. cbn [mbind option_bind].
  assert (match_lit (lit " { ") (32 :: num false k) = None) as ->; [|done].
  unfold num. destruct (k_hexa k); [done|]. destruct (dec_digits _ Hv) as (Hd & Hn & _).
  destruct (dec (k_value k)) as [|c ds]; [done|]. cbn [forallb] in Hd. apply andb_true_iff in Hd as [Hc _].
  change (lit " { ") with [32; 123; 32]. cbn [app match_lit]. rewrite Z.eqb_refl.
  rewrite (proj2 (Z.eqb_neq 123 c)); [done|]. by intros <-.
Qed.

Lemma sv_constant_read : sv_const (sv_constant_line k) = Some (lit (k_name k), Ok (k_value k)).
Proof using All.
  destruct (num_sv k Hv) as (b & ds & E & Hb & Hn & Hd & Hval). unfold sv_const, sv_constant_line.
  change (skip_ws (lit "  localparam int unsigned MBX_" ++ ?x)) with (lit "localparam int unsigned MBX_" ++ x).
  rewrite match_lit_app. cbn [mbind option_bind].
  replace (lit (k_name k) ++ lit "_C = " ++ num true k ++ lit ";")
    with ((lit (k_name k) ++ lit "_C") ++ 32 :: lit "= 32'" ++ b :: ds ++ lit ";")
    by (rewrite E, <-!app_assoc; reflexivity).
  rewrite span_app; [|by rewrite forallb_app, (proj2 Hw)|done].
  rewrite match_end_app. cbn [mbind option_bind]. rewrite (nonempty_word _ Hw). cbn [mbind option_bind].
  change (32 :: lit "= 32'" ++ b :: ds ++ lit ";") with (lit " = 32'" ++ b :: ds ++ lit ";").
  rewrite match_lit_app. cbn [mbind option_bind].
  assert ((b =? 104) || (b =? 100) = true) as -> by (destruct Hb as [-> | ->]; done).
  rewrite match_end_app. cbn [mbind option_bind]. destruct ds as [|c ds]; [done|]. cbn [nonempty mbind option_bind].
  rewrite (forallb_weaken is_hex_upper (fun c => is_hex_upper c || (c =? 95)) _ ltac:(cbn beta; by intros x ->) Hd).
  by rewrite Hval.
Qed.

Lemma sv_constant_one_line : one_line (sv_constant_line k).
Proof using All.
  destruct (num_sv k Hv) as (b & ds & E & Hb & _ & Hd & _). unfold sv_constant_line. rewrite E, !one_line_app.
  split_and!; [done|by apply one_line_word|done|done| |done].
  change (b :: ds) with ([b] ++ ds). rewrite one_line_app. split; [by destruct Hb as [-> | ->]|].
  by apply (one_line_of is_hex_upper).
Qed.

Lemma sv_constant_no_table : sv_table (sv_constant_line k) = None.
Proof using All.
  destruct (num_sv k Hv) as (b & ds & E & _). unfold sv_table, sv_constant_line.
  change (skip_ws (lit "  localparam int unsigned MBX_" ++ ?x)) with (lit "localparam int unsigned MBX_" ++ x).
  rewrite match_lit_app. cbn [mbind option_bind].
  replace (lit (k_name k) ++ lit "_C = " ++ num true k ++ lit ";")
    with ((lit (k_name k) ++ lit "_C") ++ 32 :: lit "= 32'" ++ b :: ds ++ lit ";")
    by (rewrite E, <-!app_assoc; reflexivity).
  rewrite span_app; [|by rewrite forallb_app, (proj2 Hw)|done].
  rewrite match_end_app. cbn [mbind option_bind].
  destruct (match_end (lit "_TBL") (lit (k_name k))) as [stem|]; [|done]. cbn [mbind option_bind].
  by destruct (nonempty stem).
Qed.

Lemma doc_constant_read : doc_const (doc_constant_line k) = Some (lit (k_name k), Ok (k_value k)).
Proof using All.
  destruct (py_hex_digits _ Hv) as (ds & E & Hn & Hd & Hval). unfold doc_const, doc_constant_line.
  rewrite match_lit_app. cbn [mbind option_bind]. rewrite E.
  change (lit "` | `" ++ (lit "0x" ++ ds) ++ lit "` |") with (96 :: lit " | `" ++ lit "0x" ++ ds ++ lit "` |").
  rewrite span_app by (apply Hw || done). rewrite (nonempty_word _ Hw). cbn [mbind option_bind].
  change (96 :: lit " | `" ++ lit "0x" ++ ds ++ lit "` |") with (lit "` | `0x" ++ ds ++ lit "` |").
  rewrite match_lit_app. cbn [mbind option_bind]. rewrite match_end_app. cbn [mbind option_bind].
  destruct ds as [|c ds]; [done|]. cbn [nonempty mbind option_bind]. by rewrite Hd, Hval.
Qed.

Lemma doc_constant_one_line : one_line (doc_constant_line k).
Proof using All.
  destruct (py_hex_digits _ Hv) as (ds & E & _ & Hd & _). unfold doc_constant_line. rewrite E, !one_line_app.
  split_and!; try done; [by apply one_line_word|by apply (one_line_of is_hex_lower)].
Qed.
End Lines.

(** ** Tables *)

(** A member is stripped of its affixes, wherever it stands in the list. *)
Lemma strip_word w pre : word w -> forallb is_space pre = true -> strip_ws (pre ++ w) = w.
Proof.
  intros [Hn Hw] Hp. unfold strip_ws.
  assert (forall x, word x -> skip_ws x = x) as Hskip.
  { intros [|c x] [? Hx]; [done|]. cbn [forallb skip_ws] in *. apply andb_true_iff in Hx as [Hc _].
    destruct (is_space c) eqn:Es; [|done]. exfalso. clear -Hc Es. unfold is_space, is_word, is_digit in *.
    repeat match goal with H : _ || _ = true |- _ => apply orb_true_iff in H as [H|H] end; bool_prop; lia. }
  assert (skip_ws (pre ++ w) = w) as ->.
  { induction pre as [|c pre IH]; cbn [app forallb skip_ws] in *; [by apply Hskip|].
    apply andb_true_iff in Hp as [-> Hp]. by apply IH. }
  rewrite Hskip, rev_involutive; [done|]. split.
  - intros E. apply Hn. by rewrite <-(rev_involutive w), E.
  - rewrite forallb_forall in *. intros x Hx%in_rev. by apply Hw.
Qed.

(** Splitting a comma-separated list gives its words, the later ones after a space. *)
Lemma split_members {A} (f : A -> pystr) l :
  l <> [] -> Forall (fun w => word (f w)) l ->
  map strip_ws (split_on 44 (join (lit ", ") (map f l))) = map f l.
Proof.
  intros Hne Hl.
  assert (forall w, word w -> ~ In 44 w) as Hc by (intros w [_ Hw] Hin; rewrite forallb_forall in Hw; by apply Hw in Hin).
  assert (forall pre, forallb is_space pre = true -> ~ In 44 pre ->
    map strip_ws (split_on 44 (pre ++ join (lit ", ") (map f l))) = map f l) as G; [|apply (G []); [done|intros []]].
  induction l as [|w l IH]; [done|]. apply Forall_cons in Hl as [Hw Hl]. intros pre Hp Hp44.
  destruct l as [|w' l].
  - cbn [map join]. rewrite split_on_word by (rewrite in_app_iff; intros [|]; [done|by apply (Hc (f w) Hw)]).
    cbn [map]. by rewrite strip_word.
  - change (join (lit ", ") (map f (w :: w' :: l))) with (f w ++ 44 :: [32] ++ join (lit ", ") (map f (w' :: l))).
    rewrite app_assoc, split_on_app by (rewrite in_app_iff; intros [|]; [done|by apply (Hc (f w) Hw)]).
    cbn [map]. rewrite strip_word by done. f_equal. apply (IH ltac:(done) Hl [32]); [done|by intros [|[]]].
Qed.

Lemma word_affix p w s : word w -> forallb is_word p = true -> forallb is_word s = true -> word (p ++ w ++ s).
Proof.
  intros [Hn Hw] Hp Hs. split; [by intros [_ [? _]%app_eq_nil]%app_eq_nil|].
  by rewrite !forallb_app, Hp, Hw, Hs.
Qed.

Lemma remove_prefix_app p s : remove_prefix p (p ++ s) = s.
Proof. unfold remove_prefix. by rewrite match_lit_app. Qed.

Lemma remove_suffix_app s p : remove_suffix p (s ++ p) = s.
Proof. unfold remove_suffix. by rewrite match_end_app. Qed.

Lemma one_line_join sep parts : one_line sep -> Forall one_line parts -> one_line (join sep parts).
Proof.
  intros Hs. induction parts as [|p parts IH]; intros Hp; [done|]. apply Forall_cons in Hp as [Hp Hps].
  destruct parts as [|q parts]; [done|]. change (join sep (p :: q :: parts)) with (p ++ sep ++ join sep (q :: parts)).
  rewrite !one_line_app. split_and!; [done..|by apply IH].
Qed.

(** What the name of a table needs: the suffix, and a size without a bracket. *)
Definition table_name_ok (name : string) : bool :=
  let size := lit (fst (table_shape name)) in
  match match_end (lit "_TBL") (lit name) with
  | Some stem => negb (bool_decide (stem = [])) && forallb is_word stem
                 && negb (bool_decide (size = [])) && forallb (fun c => negb (c =? 93) && negb (c =? 10)) size
                 && bool_decide (lit name = stem ++ lit "_TBL") && forallb (fun c => negb (c =? 10)) (lit (snd (table_shape name)))
  | None => false
  end.

Section Tables.
Context (t : string * list string).
Hypothesis Hname : table_name_ok (fst t) = true.
Hypothesis Hne : snd t <> [].
Hypothesis Hm : Forall (fun m => word (lit m)) (snd t).

Let size := lit (fst (table_shape (fst t))).

Lemma table_name_parts : exists stem, nonempty stem = Some stem /\ match_end (lit "_TBL") (lit (fst t)) = Some stem
  /\ word (lit (fst t)) /\ size <> [] /\ forallb (fun c => negb (c =? 93)) size = true /\ one_line size
  /\ one_line (lit (snd (table_shape (fst t)))).
Proof using Hname.
  unfold table_name_ok in Hname. fold size in Hname.
  destruct (match_end (lit "_TBL") (lit (fst t))) as [stem|] eqn:E; [|done]. exists stem.
  rewrite !andb_true_iff, !negb_true_iff, !bool_decide_eq_false, bool_decide_eq_true in Hname.
  destruct Hname as [[[[[H1 H2] H3] H4] H5] H6]. split_and!.
  - by destruct stem.
  - done.
  - rewrite H5. split; [by intros [_ ?]%app_eq_nil|]. by rewrite forallb_app, H2.
  - done.
  - eapply forallb_weaken; [|exact H4]. cbn beta. intros x. by rewrite andb_true_iff; intros [].
  - unfold one_line. eapply forallb_weaken; [|exact H4]. cbn beta. intros x. by rewrite andb_true_iff; intros [].
  - exact H6.
Qed.

Lemma c_table_read : c_table (c_table_line t) = Some (lit (fst t), map lit (snd t)).
Proof using All.
  destruct table_name_parts as (stem & Hs & Hend & Hw & _). unfold c_table, c_table_line.
  rewrite match_lit_app. cbn [mbind option_bind]. set (body := join _ _).
  change (lit " { " ++ body ++ lit " }") with (32 :: lit "{ " ++ body ++ lit " }").
  rewrite span_app by (apply Hw || done). rewrite Hend. cbn [mbind option_bind]. rewrite Hs. cbn [mbind option_bind].
  change (32 :: lit "{ " ++ body ++ lit " }") with (lit " { " ++ body ++ lit " }").
  rewrite match_lit_app. cbn [mbind option_bind]. rewrite match_end_app. cbn [mbind option_bind].
  do 2 f_equal. unfold c_member. rewrite <-(map_map strip_ws (remove_prefix (lit "MBX_"))). unfold body.
  rewrite (split_members (fun m => lit "MBX_" ++ lit m) (snd t) Hne), map_map.
  - apply map_ext. intros m. apply remove_prefix_app.
  - eapply Forall_impl; [exact Hm|]. cbn beta. intros m Hword.
    pose proof (word_affix (lit "MBX_") _ [] Hword eq_refl eq_refl) as K. by rewrite app_nil_r in K.
Qed.

Lemma c_table_no_constant : c_const (c_table_line t) = None.
Proof using Hname.
  destruct table_name_parts as (stem & _ & _ & Hw & _). unfold c_const, c_table_line.
  rewrite match_lit_app. cbn [mbind option_bind]. set (body := join _ _).
  change (lit " { " ++ body ++ lit " }") with (32 :: lit "{ " ++ body ++ lit " }").
  rewrite span_app by (apply Hw || done). rewrite (nonempty_word _ Hw). cbn [mbind option_bind].
  change (32 :: lit "{ " ++ body ++ lit " }") with (lit " " ++ (lit "{ " ++ body) ++ lit " }").
  rewrite match_lit_app. cbn [mbind option_bind].
  assert (match_end (lit "u") ((lit "{ " ++ body) ++ lit " }") = None) as ->; [|done].
  unfold match_end. by rewrite rev_app_distr.
Qed.

Lemma c_table_one_line : one_line (c_table_line t).
Proof using Hname Hm.
  destruct table_name_parts as (_ & _ & _ & Hw & _). unfold c_table_line. rewrite !one_line_app.
  split_and!; try done; [by apply one_line_word|]. apply one_line_join; [done|]. apply Forall_map.
  eapply Forall_impl; [exact Hm|]. cbn beta. intros m Hword. apply one_line_app. split; [done|by apply one_line_word].
Qed.

Lemma sv_table_read : sv_table (sv_table_line t) = Some (lit (fst t), map lit (snd t)).
Proof using All.
  destruct table_name_parts as (stem & Hs & Hend & Hw & Hsz & Hsize & _). unfold sv_table, sv_table_line. fold size.
  change (skip_ws (lit "  localparam int unsigned MBX_" ++ ?x)) with (lit "localparam int unsigned MBX_" ++ x).
  rewrite match_lit_app. cbn [mbind option_bind]. set (body := join _ _).
  replace (lit (fst t) ++ lit "_C [" ++ size ++ lit "] = '{" ++ body ++ lit "};")
    with ((lit (fst t) ++ lit "_C") ++ 32 :: lit "[" ++ size ++ 93 :: lit " = '{" ++ body ++ lit "};")
    by (rewrite <-!app_assoc; reflexivity).
  rewrite span_app; [|by rewrite forallb_app, (proj2 Hw)|done].
  rewrite match_end_app. cbn [mbind option_bind]. rewrite Hend. cbn [mbind option_bind]. rewrite Hs. cbn [mbind option_bind].
  change (32 :: lit "[" ++ ?x) with (lit " [" ++ x). rewrite match_lit_app. cbn [mbind option_bind].
  rewrite span_app by (exact Hsize || done).
  replace (nonempty size) with (Some size) by (by destruct size). cbn [mbind option_bind].
  change (93 :: lit " = '{" ++ body ++ lit "};") with (lit "] = '{" ++ body ++ lit "};").
  rewrite match_lit_app. cbn [mbind option_bind]. rewrite match_end_app. cbn [mbind option_bind].
  do 2 f_equal. unfold sv_member, c_member.
  rewrite <-(map_map strip_ws (fun n => remove_suffix (lit "_C") (remove_prefix (lit "MBX_") n))). unfold body.
  rewrite (split_members (fun m => lit "MBX_" ++ lit m ++ lit "_C") (snd t) Hne), map_map.
  - apply map_ext. intros m. by rewrite remove_prefix_app, remove_suffix_app.
  - eapply Forall_impl; [exact Hm|]. cbn beta. intros m Hword. by apply word_affix.
Qed.

Lemma sv_table_no_constant : sv_const (sv_table_line t) = None.
Proof using Hname.
  destruct table_name_parts as (stem & _ & _ & Hw & _). unfold sv_const, sv_table_line. fold size.
  change (skip_ws (lit "  localparam int unsigned MBX_" ++ ?x)) with (lit "localparam int unsigned MBX_" ++ x).
  rewrite match_lit_app. cbn [mbind option_bind]. set (body := join _ _).
  replace (lit (fst t) ++ lit "_C [" ++ size ++ lit "] = '{" ++ body ++ lit "};")
    with ((lit (fst t) ++ lit "_C") ++ 32 :: lit "[" ++ size ++ lit "] = '{" ++ body ++ lit "};")
    by (rewrite <-!app_assoc; reflexivity).
  rewrite span_app; [|by rewrite forallb_app, (proj2 Hw)|done].
  rewrite match_end_app. cbn [mbind option_bind]. by rewrite (nonempty_word _ Hw).
Qed.

Lemma sv_table_one_line : one_line (sv_table_line t).
Proof using Hname Hm.
  destruct table_name_parts as (_ & _ & _ & Hw & _ & _ & Hsz & _). unfold sv_table_line. fold size. rewrite !one_line_app.
  split_and!; try done; [by apply one_line_word|]. apply one_line_join; [done|]. apply Forall_map.
  eapply Forall_impl; [exact Hm|]. cbn beta. intros m Hword. rewrite !one_line_app.
  split_and!; [done|by apply one_line_word|done].
Qed.
End Tables.

(** * The files are read back *)

Lemma omap_map_both {X L V} (h : X -> V) (g : X -> L) (f : L -> option V) l :
  (forall x, In x l -> f (g x) = Some (h x)) -> omap f (map g l) = map h l.
Proof.
  induction l as [|x l IH]; intros H; [done|]. cbn [map omap list_omap]. rewrite H by by left.
  f_equal. apply IH. intros. apply H. by right.
Qed.

Lemma omap_map_none {X L V} (g : X -> L) (f : L -> option V) l :
  (forall x, In x l -> f (g x) = None) -> omap f (map g l) = [].
Proof.
  induction l as [|x l IH]; intros H; [done|]. cbn [map omap list_omap]. rewrite H by by left.
  apply IH. intros. apply H. by right.
Qed.

(** Lines in pairs, the first of which is not read. *)
Lemma omap_pairs {A B C} (f : B -> option C) (a g : A -> B) l :
  (forall x, In x l -> f (a x) = None) -> omap f (flat_map (fun x => [a x; g x]) l) = omap f (map g l).
Proof.
  induction l as [|x l IH]; intros H; [done|]. cbn [flat_map app map omap list_omap]. rewrite H by by left.
  rewrite <-IH by (intros; apply H; by right). reflexivity.
Qed.

Lemma Forall_flat_map {A B} (P : B -> Prop) (f : A -> list B) l :
  (forall x, In x l -> Forall P (f x)) -> Forall P (flat_map f l).
Proof.
  induction l as [|x l IH]; intros H; cbn [flat_map]; [constructor|]. apply Forall_app.
  split; [apply H; by left|]. apply IH. intros. apply H. by right.
Qed.

Definition good_constant (k : Constant) : Prop := word (lit (k_name k)) /\ 0 <= k_value k.
Definition good_table (t : string * list string) : Prop :=
  table_name_ok (fst t) = true /\ snd t <> [] /\ Forall (fun m => word (lit m)) (snd t).
Definition table_pairs (tbls : list (string * list string)) : list (pystr * list pystr) :=
  map (fun t => (lit (fst t), map lit (snd t))) tbls.

Lemma mapR_map_Ok {E A B C} (f : B -> result E C) (g : A -> B) (h : A -> C) l :
  (forall x, f (g x) = Ok (h x)) -> mapR f (map g l) = Ok (map h l).
Proof. intros H. induction l as [|x l IH]; cbn [map mapR]; [done|]. by rewrite H, IH. Qed.

(** Values that are all there are read as they stand. *)
Lemma read_pairs consts read text :
  omap read (split_on 10 text) = map (fun k => (lit (k_name k), Ok (E := contract_error) (k_value k))) consts ->
  read_constants read text = Ok (dict_of (constant_pairs consts)).
Proof.
  intros E. unfold read_constants. rewrite E. clear E. unfold constant_pairs.
  rewrite (mapR_map_Ok _ _ (fun k => (lit (k_name k), k_value k))) by done. done.
Qed.

Section Files.
Context (docs : string -> pystr) (consts : list Constant) (tbls : list (string * list string)).
Hypothesis Hc : forall k, In k consts -> good_constant k.
Hypothesis Hd : forall k, In k consts -> one_line (docs (k_name k)).
Hypothesis Ht : forall t, In t tbls -> good_table t.

Lemma c_text_split : split_on 10 (join [10] (c_lines docs consts tbls)) = c_lines docs consts tbls.
Proof using All.
  apply split_join; [done|]. apply (Forall_impl one_line); [|apply one_line_In].
  unfold c_lines. rewrite !Forall_app. split_and!.
  - by repeat constructor.
  - apply Forall_flat_map. intros k Hk. destruct (Hc k Hk). repeat constructor; [|by apply c_constant_one_line].
    rewrite !one_line_app. split_and!; [done|by apply Hd|done].
  - by repeat constructor.
  - apply Forall_map, Forall_forall. intros t Hin%list_elem_of_In. destruct (Ht t Hin) as (? & ? & ?).
    by apply c_table_one_line.
  - by repeat constructor.
Qed.

Lemma sv_text_split : split_on 10 (join [10] (sv_lines docs consts tbls)) = sv_lines docs consts tbls.
Proof using All.
  apply split_join; [done|]. apply (Forall_impl one_line); [|apply one_line_In].
  unfold sv_lines. rewrite !Forall_app. split_and!.
  - by repeat constructor.
  - apply Forall_flat_map. intros k Hk. destruct (Hc k Hk). repeat constructor; [|by apply sv_constant_one_line].
    rewrite one_line_app. split; [done|by apply Hd].
  - by repeat constructor.
  - apply Forall_flat_map. intros t Hin. destruct (Ht t Hin) as (Hn & ? & ?).
    destruct (table_name_parts t Hn) as (_ & _ & _ & _ & _ & _ & _ & Hi).
    repeat constructor; [|by apply sv_table_one_line]. rewrite one_line_app. by split.
  - by repeat constructor.
Qed.

Let pairs := map (fun k => (lit (k_name k), Ok (E := contract_error) (k_value k))) consts.

Lemma c_constants_read : omap c_const (c_lines docs consts tbls) = pairs.
Proof using Hc Ht.
  unfold c_lines. rewrite !omap_app, omap_pairs by (intros; reflexivity).
  rewrite (omap_map_both (fun k => (lit (k_name k), Ok (k_value k)))) by (intros k Hk; by apply c_constant_read; apply Hc).
  rewrite omap_map_none by (intros t Hin; apply c_table_no_constant, Ht, Hin).
  change (omap c_const c_head) with (@nil (pystr * result contract_error Z)). cbn [app].
  unfold pairs. by rewrite !app_nil_r.
Qed.

Lemma c_tables_read : omap c_table (c_lines docs consts tbls) = table_pairs tbls.
Proof using Hc Ht.
  unfold c_lines. rewrite !omap_app, omap_pairs by (intros; reflexivity).
  rewrite omap_map_none by (intros k Hk; by apply c_constant_no_table; apply Hc).
  rewrite (omap_map_both (fun t => (lit (fst t), map lit (snd t)))).
  - change (omap c_table c_head) with (@nil (pystr * list pystr)). cbn [app]. by rewrite app_nil_r.
  - intros t Hin. destruct (Ht t Hin) as (? & ? & ?). by apply c_table_read.
Qed.

Lemma sv_constants_read : omap sv_const (sv_lines docs consts tbls) = pairs.
Proof using Hc Ht.
  unfold sv_lines. rewrite !omap_app, !omap_pairs by (intros; reflexivity).
  rewrite (omap_map_both (fun k => (lit (k_name k), Ok (k_value k)))) by (intros k Hk; by apply sv_constant_read; apply Hc).
  rewrite omap_map_none by (intros t Hin; apply sv_table_no_constant, Ht, Hin).
  change (omap sv_const sv_head) with (@nil (pystr * result contract_error Z)).
  change (omap sv_const sv_tail) with (@nil (pystr * result contract_error Z)). cbn [app].
  unfold pairs. by rewrite !app_nil_r.
Qed.

Lemma sv_tables_read : omap sv_table (sv_lines docs consts tbls) = table_pairs tbls.
Proof using Hc Ht.
  unfold sv_lines. rewrite !omap_app, !omap_pairs by (intros; reflexivity).
  rewrite omap_map_none by (intros k Hk; by apply sv_constant_no_table; apply Hc).
  rewrite (omap_map_both (fun t => (lit (fst t), map lit (snd t)))).
  - change (omap sv_table sv_head) with (@nil (pystr * list pystr)).
    change (omap sv_table sv_tail) with (@nil (pystr * list pystr)). cbn [app]. by rewrite app_nil_r.
  - intros t Hin. destruct (Ht t Hin) as (? & ? & ?). by apply sv_table_read.
Qed.

Lemma c_parsed : parse_c (join [10] (c_lines docs consts tbls))
  = Ok (dict_of (constant_pairs consts), dict_of (table_pairs tbls)).
Proof using All.
  unfold parse_c. rewrite (read_pairs consts) by (rewrite c_text_split; apply c_constants_read).
  cbn [rbind]. by rewrite c_text_split, c_tables_read.
Qed.

Lemma sv_parsed : parse_sv (join [10] (sv_lines docs consts tbls))
  = Ok (dict_of (constant_pairs consts), dict_of (table_pairs tbls)).
Proof using All.
  unfold parse_sv. rewrite (read_pairs consts) by (rewrite sv_text_split; apply sv_constants_read).
  cbn [rbind]. by rewrite sv_text_split, sv_tables_read.
Qed.
End Files.

(** The page: its last lines are the table, and no line before them reads as a row. *)
Lemma doc_parsed page consts : Forall one_line page -> omap doc_const page = [] -> (forall k, In k consts -> good_constant k) ->
  parse_doc (join [10] (page ++ map doc_constant_line consts ++ [lit EmptyString])) = Ok (dict_of (constant_pairs consts)).
Proof.
  intros Hp Hn Hc. unfold parse_doc. apply (read_pairs consts). rewrite split_join.
  - rewrite !omap_app, Hn. cbn [app].
    rewrite (omap_map_both (fun k => (lit (k_name k), Ok (k_value k))));
      [by rewrite app_nil_r|]. intros k Hk. by apply doc_constant_read; apply Hc.
  - by destruct page, consts.
  - apply (Forall_impl one_line); [|apply one_line_In]. rewrite !Forall_app. split_and!; [done| |by repeat constructor].
    apply Forall_map, Forall_forall. intros k Hk%list_elem_of_In. by apply doc_constant_one_line; apply Hc.
Qed.
