(* ===== verification/MailboxCheck.v ===== *)
(** The cross-check of the mailbox contract's outputs
    ([sw/mailbox/gen_mailbox.py]): what the readers find in the header, the
    package and the page is compared with the contract.

    The registers the fabric skeleton names are an argument of [crosscheck]: the
    skeleton itself is SystemVerilog text. *)
From S2P Require Import Prelude Unicode Descriptors Text Config Mailbox MailboxYaml MailboxEmit MailboxTracked MailboxRead.

(** * The comparison *)

Inductive carrier := CHeader | SVPackage | ReferencePage.

Inductive check_finding :=
  | FMissing (where_ : carrier) (name : pystr)
  | FDiffers (where_ : carrier) (name : pystr) (got want : Z)
  | FUnknown (where_ : carrier) (name : pystr)
  | FTable (where_ : carrier) (table : pystr) (got : option (list pystr)) (want : list pystr)
  | FNeverDecoded (register : pystr)
  | FDecodesUnknown (register : pystr).

(** The names in the order they are first written. *)
Fixpoint first_names (seen : gset pystr) (l : list pystr) : list pystr :=
  match l with
  | [] => []
  | n :: l' => if decide (n ∈ seen) then first_names seen l' else n :: first_names ({[n]} ∪ seen) l'
  end.

Definition carrier_findings (label : carrier) (consts : list Constant) (got : gmap pystr Z) : list check_finding :=
  let want := dict_of (constant_pairs consts) in
  omap (fun name =>
      match got !! name with
      | None => Some (FMissing label name)
      | Some v => if v =? default 0 (want !! name) then None
                  else Some (FDiffers label name v (default 0 (want !! name)))
      end) (first_names ∅ (map fst (constant_pairs consts)))
  ++ map (FUnknown label) (sorted_strs (elements (dom got ∖ dom want))).

Definition table_findings (c_tables sv_tables : gmap pystr (list pystr)) (t : string * list string) : list check_finding :=
  let want := map lit (snd t) in
  flat_map (fun lg : carrier * gmap pystr (list pystr) =>
      if bool_decide (snd lg !! lit (fst t) = Some want) then []
      else [FTable (fst lg) (lit (fst t)) (snd lg !! lit (fst t)) want])
    [(CHeader, c_tables); (SVPackage, sv_tables)].

Definition every_register (c : Contract) : list Register :=
  registers c ++ if_registers c ++ iff_registers c ++ bnd_registers c ++ pub_registers c
  ++ pub_source_registers c ++ pub_sink_registers c ++ ch_registers c.

Definition skeleton_findings (c : Contract) (named : gset pystr) : list check_finding :=
  let every := map (fun r => lit (r_name r)) (every_register c) in
  flat_map (fun n => if decide (n ∈ named) then [] else [FNeverDecoded n]) every
  ++ map FDecodesUnknown (sorted_strs (elements (named ∖ list_to_set every))).

Definition crosscheck (c : Contract) (header package page : pystr) (named : gset pystr)
    : result contract_error (list check_finding) :=
  let* consts := all_constants c in
  let* ch := parse_c header in
  let* sv := parse_sv package in
  let* doc := parse_doc page in
  Ok (carrier_findings CHeader consts (fst ch) ++ carrier_findings SVPackage consts (fst sv)
      ++ carrier_findings ReferencePage consts doc
      ++ flat_map (table_findings (snd ch) (snd sv)) (tables c)
      ++ skeleton_findings c named).


(** [write_variant]: the outputs of the contract for [n] interfaces, and the findings
    of the cross-check on them. *)
Definition write_variant (docs : string -> pystr) (page : Contract -> list pystr) (named : Contract -> gset pystr)
    (c : Contract) (n : Z) : result contract_error (pystr * pystr * list check_finding) :=
  let* v := with_interfaces c n in
  let* package := emit_sv_package docs v in
  let* header := emit_c_header docs v in
  let* doc := emit_doc (page v) v in
  let* findings := crosscheck v header package doc (named v) in
  Ok (package, header, findings).

(** * Dictionaries *)

Lemma dict_of_snoc {A} (l : list (pystr * A)) nv : dict_of (l ++ [nv]) = <[nv.1 := nv.2]> (dict_of l).
Proof. unfold dict_of. by rewrite fold_left_app. Qed.

Lemma dict_of_dom {A} (l : list (pystr * A)) n : is_Some (dict_of l !! n) <-> In n (map fst l).
Proof.
  induction l as [|nv l IH] using rev_ind; [split; [by intros []|done]|].
  rewrite dict_of_snoc, map_app, in_app_iff, <-IH, lookup_insert_is_Some'. cbn [map In]. tauto.
Qed.

Lemma dict_of_In {A} (l : list (pystr * A)) n v : NoDup (map fst l) -> In (n, v) l -> dict_of l !! n = Some v.
Proof.
  induction l as [|[n' v'] l IH] using rev_ind; [by intros _ []|].
  rewrite dict_of_snoc, map_app, in_app_iff. cbn [fst snd map In].
  intros (Hn & Hd & _)%NoDup_app [Hin|[[= -> ->]|[]]]; [|by rewrite lookup_insert_eq].
  rewrite lookup_insert_ne; [by apply IH|]. intros ->. apply (Hd n); [|by constructor].
  apply list_elem_of_In, in_map_iff. by exists (n, v).
Qed.

Lemma first_names_In seen l n : In n (first_names seen l) <-> In n l /\ n ∉ seen.
Proof.
  revert seen. induction l as [|x l IH]; intros seen; cbn [first_names In]; [tauto|].
  case_decide as Hx; cbn [In]; rewrite IH.
  - split; [tauto|]. by intros [[->|?] ?].
  - destruct (decide (x = n)) as [->|Hne]; [tauto|]. rewrite not_elem_of_union, not_elem_of_singleton.
    split; [intros [?|(? & _ & ?)]; tauto|]. intros [[?|?] ?]; [tauto|]. right. split_and!; [done|congruence|done].
Qed.

(** * Findings *)

Lemma sorted_strs_nil (s : gset pystr) : sorted_strs (elements s) = [] <-> s = ∅.
Proof.
  split; [|by intros ->]. intros H. apply leibniz_equiv, elements_empty_inv.
  pose proof (merge_sort_Permutation str_le (elements s)) as P. unfold sorted_strs in H. rewrite H in P.
  by apply Permutation_nil.
Qed.

Lemma diff_empty (a b : gset pystr) : a ∖ b = ∅ <-> a ⊆ b.
Proof. split; [apply empty_difference_subseteq_L|apply subseteq_empty_difference_L]. Qed.

Lemma carrier_findings_nil label consts got :
  carrier_findings label consts got = [] <-> got = dict_of (constant_pairs consts).
Proof.
  unfold carrier_findings. set (want := dict_of (constant_pairs consts)).
  split.
  - intros [H1 H2]%app_eq_nil. apply map_eq_nil, sorted_strs_nil, diff_empty in H2. rewrite omap_nil in H1.
    apply map_eq. intros n. destruct (want !! n) as [v|] eqn:E.
    + assert (In n (first_names ∅ (map fst (constant_pairs consts)))) as K
        by (apply first_names_In; split; [by apply dict_of_dom; exists v|set_solver]).
      specialize (H1 n K). cbn beta in H1. rewrite E in H1. cbn [default from_option id] in H1.
      destruct (got !! n) as [w|]; [|done]. destruct (Z.eqb_spec w v); [by subst|done].
    + apply not_elem_of_dom. intros Hin%H2%elem_of_dom. by rewrite E in Hin; destruct Hin.
  - intros ->. fold want. rewrite (proj2 (omap_nil _ _)).
    + cbn [app]. by rewrite (proj2 (diff_empty (dom want) (dom want))).
    + intros n [[v Hv]%dict_of_dom _]%first_names_In. fold want in Hv. rewrite Hv. cbn [default from_option id].
      by rewrite Z.eqb_refl.
Qed.

Lemma table_findings_nil cts svs t :
  table_findings cts svs t = [] <->
  cts !! lit (fst t) = Some (map lit (snd t)) /\ svs !! lit (fst t) = Some (map lit (snd t)).
Proof.
  unfold table_findings. cbn [flat_map fst snd].
  case_bool_decide as H1; case_bool_decide as H2; cbn [app]; split; (done || (intros [? ?]; done)).
Qed.

Definition register_names (c : Contract) : gset pystr := list_to_set (map (fun r => lit (r_name r)) (every_register c)).

Lemma skeleton_findings_nil c named : skeleton_findings c named = [] <-> named = register_names c.
Proof.
  unfold skeleton_findings. fold (register_names c). split.
  - intros [H1 H2]%app_eq_nil. apply map_eq_nil, sorted_strs_nil, diff_empty in H2. rewrite flat_map_nil in H1.
    apply leibniz_equiv. intros n. split; [apply H2|].
    intros Hn%elem_of_list_to_set%list_elem_of_In. specialize (H1 n Hn). cbn beta in H1. by case_decide.
  - intros ->. rewrite (proj2 (flat_map_nil _ _)).
    + cbn [app]. by rewrite (proj2 (diff_empty _ _)).
    + intros n Hn. rewrite decide_True; [done|]. by apply elem_of_list_to_set, list_elem_of_In.
Qed.

(** C26: The cross-check is exact: it has no finding exactly when each of the three
    carriers reads back as the contract's constants, both tables of every name
    list the members in the contract's order, and the skeleton names the
    contract's registers and no other. *)
Theorem crosscheck_exact (c : Contract) (header package page : pystr) (named : gset pystr) :
  crosscheck c header package page named = Ok [] <->
  exists consts cts svs (want := dict_of (constant_pairs consts)),
    all_constants c = Ok consts
    /\ parse_c header = Ok (want, cts) /\ parse_sv package = Ok (want, svs) /\ parse_doc page = Ok want
    /\ (forall t, In t (tables c) ->
          cts !! lit (fst t) = Some (map lit (snd t)) /\ svs !! lit (fst t) = Some (map lit (snd t)))
    /\ named = register_names c.
Proof.
  unfold crosscheck. split.
  - intros H. apply rbind_Ok in H as (consts & Hk & H). apply rbind_Ok in H as ([ch cts] & Hc & H).
    apply rbind_Ok in H as ([sv svs] & Hs & H). apply rbind_Ok in H as (doc & Hd & H).
    apply Ok_inj in H. cbn [fst snd] in H. apply app_eq_nil in H as [H1 H]. apply app_eq_nil in H as [H2 H].
    apply app_eq_nil in H as [H3 H]. apply app_eq_nil in H as [H4 H5].
    apply carrier_findings_nil in H1, H2, H3. apply skeleton_findings_nil in H5. subst ch sv doc.
    exists consts, cts, svs. split_and!; [done..| |done].
    intros t Ht. apply table_findings_nil. rewrite flat_map_nil in H4. by apply H4.
  - intros (consts & cts & svs & H). cbv zeta in H. destruct H as (-> & -> & -> & -> & Ht & ->). cbn [rbind fst snd].
    rewrite !(proj2 (carrier_findings_nil _ _ _)) by done. rewrite (proj2 (skeleton_findings_nil _ _)) by done.
    rewrite (proj2 (flat_map_nil _ _)); [done|].
    intros t Hin. by apply table_findings_nil, Ht.
Qed.

(** * The tables' members are constants *)

Lemma string_app_assoc (a b c : string) : ((a ++ b) ++ c = a ++ b ++ c)%string.
Proof. induction a as [|x a IH]; [done|]. exact (f_equal (String.String x) IH). Qed.

Lemma mapR_at {E A B} (f : A -> result E B) l l' x : mapR f l = Ok l' -> In x l -> exists y, In y l' /\ f x = Ok y.
Proof.
  rewrite mapR_Ok. intros H (i & Hi)%list_elem_of_In%list_elem_of_lookup_1.
  destruct (Forall2_lookup_l _ _ _ _ _ H Hi) as (y & Hy & E'). exists y. split; [|done].
  apply list_elem_of_In. by apply list_elem_of_lookup_2 in Hy.
Qed.

Definition defined (l : list Constant) (m : string) : Prop := exists k, In k l /\ k_name k = m.

Lemma defined_In l l' m : (forall k, In k l' -> In k l) -> In m (map k_name l') -> defined l m.
Proof. intros H (k & E & Hk)%in_map_iff. exists k. split; [by apply H|done]. Qed.

(** Finds a name among the names of a closed list. *)
Ltac find_name := cbn [map In k_name K]; repeat first [left; reflexivity | right].

Section Members.
Context (c : Contract) (l : list Constant).
Hypothesis Hl : constants c = Ok l.

Lemma channel_members_defined ts ch : In ts CHANNEL_TABLES -> In ch (channels c) -> defined l (channel_member ch (snd ts)).
Proof using All.
  intros Hts Hch. apply constants_parts in Hl as (_ & _ & Hone). destruct (Hone ch Hch) as (lc & Hlc & Hin).
  unfold one_channel_constants in Hlc. cbv zeta in Hlc. rsplit Hlc. subst lc.
  eapply defined_In; [intros k Hk; apply Hin, in_app_iff; left; exact Hk|].
  repeat (destruct Hts as [<-|Hts]; [solve [find_name]|]). destruct Hts.
Qed.

Lemma tuple_members_defined ts ch k : In ts TUPLE_TABLES -> In ch (channels c) -> 0 <= k < max_tuples c ->
  defined l (indexed_member "M" ch (snd ts) k).
Proof using All.
  intros Hts Hch Hk. apply constants_parts in Hl as (_ & _ & Hone). destruct (Hone ch Hch) as (lc & Hlc & Hin).
  unfold one_channel_constants in Hlc. cbv zeta in Hlc. rsplit Hlc. subst lc.
  destruct (mapR_at _ _ _ k Hm) as (lt & Hlt & Htc); [apply zrange_In; lia|].
  unfold tuple_constants in Htc. cbv zeta in Htc. rsplit Htc. subst lt.
  eapply defined_In; [intros x Hx; apply Hin; rewrite !in_app_iff; right; left; apply in_concat; eauto|].
  unfold indexed_member. cbn [map k_name K]. rewrite !string_app_assoc.
  repeat (destruct Hts as [<-|Hts]; [solve [find_name]|]). destruct Hts.
Qed.

Lemma term_members_defined ts ch k : In ts TERM_TABLES -> In ch (channels c) -> 0 <= k < max_terms c ->
  defined l (indexed_member "T" ch (snd ts) k).
Proof using All.
  intros Hts Hch Hk. apply constants_parts in Hl as (_ & _ & Hone). destruct (Hone ch Hch) as (lc & Hlc & Hin).
  unfold one_channel_constants in Hlc. cbv zeta in Hlc. rsplit Hlc. subst lc.
  destruct (mapR_at _ _ _ k Hm0) as (lt & Hlt & Htc); [apply zrange_In; lia|].
  unfold term_constants in Htc. cbv zeta in Htc. rsplit Htc. subst lt.
  eapply defined_In; [intros x Hx; apply Hin; rewrite !in_app_iff; right; right; apply in_concat; eauto|].
  unfold indexed_member. cbn [map k_name K]. rewrite !string_app_assoc.
  repeat (destruct Hts as [<-|Hts]; [solve [find_name]|]). destruct Hts.
Qed.
End Members.

Definition TABLE_NAMES : list string := map fst (CHANNEL_TABLES ++ TUPLE_TABLES ++ TERM_TABLES).

Lemma tables_names c : map fst (tables c) = TABLE_NAMES.
Proof. reflexivity. Qed.

Lemma table_names_ok n : In n TABLE_NAMES -> table_name_ok n = true.
Proof. revert n. apply forallb_forall. vm_compute. reflexivity. Qed.

Lemma table_names_distinct : NoDup (map lit TABLE_NAMES).
Proof. apply (bool_decide_eq_true_1 _). vm_compute. reflexivity. Qed.

(** Every member of every table is a constant of the contract. *)
Lemma table_members_defined c l t m : constants c = Ok l -> In t (tables c) -> In m (snd t) -> defined l m.
Proof.
  intros Hl Ht Hm. unfold tables in Ht. rewrite !in_app_iff, !in_map_iff in Ht.
  destruct Ht as [(ts & <- & Hts)|[(ts & <- & Hts)|(ts & <- & Hts)]]; cbn [snd] in Hm.
  - apply in_map_iff in Hm as (ch & <- & Hch). by apply (channel_members_defined c l Hl).
  - apply in_flat_map in Hm as (ch & Hch & (k & <- & Hk%zrange_In)%in_map_iff).
    apply (tuple_members_defined c l Hl); [done..|lia].
  - apply in_flat_map in Hm as (ch & Hch & (k & <- & Hk%zrange_In)%in_map_iff).
    apply (term_members_defined c l Hl); [done..|lia].
Qed.

Lemma flat_map_cons {A B} (f : A -> list B) l : l <> [] -> (forall x, f x <> []) -> flat_map f l <> [].
Proof. destruct l as [|x l]; [done|]. intros _ H E. cbn [flat_map] in E. apply app_eq_nil in E as [E _]. by apply (H x). Qed.

Lemma table_members_nonempty c t : channels c <> [] -> 1 <= max_tuples c -> 1 <= max_terms c -> In t (tables c) -> snd t <> [].
Proof.
  intros Hch H1 H2 Ht. unfold tables in Ht. rewrite !in_app_iff, !in_map_iff in Ht.
  assert (forall kind suf n, 1 <= n -> indexed_members kind c n suf <> []) as Hi.
  { intros kind suf n Hn. apply flat_map_cons; [done|]. intros ch E%map_eq_nil.
    apply (f_equal length) in E. rewrite zrange_length in E. cbn [length] in E. lia. }
  destruct Ht as [(ts & <- & _)|[(ts & <- & _)|(ts & <- & _)]]; cbn [snd]; [|by apply Hi..].
  by intros ?%map_eq_nil.
Qed.

(** * What is written cross-checks *)

Section Outputs.
Context (c : Contract) (consts : list Constant) (docs : string -> pystr) (page : list pystr).
Hypothesis Hall : all_constants c = Ok consts.
Hypothesis Hgood : forall k, In k consts -> good_constant k.
Hypothesis Hdocs : forall k, In k consts -> one_line (docs (k_name k)).
Hypothesis Hpage : Forall one_line page /\ omap doc_const page = [].
Hypothesis Hsize : 1 <= max_tuples c /\ 1 <= max_terms c.

Lemma channels_there : channels c <> [].
Proof using Hall. unfold all_constants, derived in Hall. intros E. rewrite E in Hall. cbn in Hall. by destruct (constants c). Qed.

Lemma tables_good t : In t (tables c) -> good_table t.
Proof using All.
  intros Ht. split_and!.
  - apply table_names_ok. rewrite <-(tables_names c). by apply in_map.
  - destruct Hsize. by apply (table_members_nonempty c); [apply channels_there|..].
  - apply Forall_forall. intros m Hm%list_elem_of_In. unfold all_constants in Hall. rsplit Hall.
    destruct (table_members_defined c _ t m Hm0 Ht Hm) as (k & Hk & <-). apply Hgood. subst consts.
    apply in_app_iff. by left.
Qed.

Lemma table_read_back t : In t (tables c) -> dict_of (table_pairs (tables c)) !! lit (fst t) = Some (map lit (snd t)).
Proof using Type.
  intros Ht. apply dict_of_In.
  - unfold table_pairs. rewrite map_map. cbn [fst]. rewrite <-(map_map fst lit), tables_names. apply table_names_distinct.
  - unfold table_pairs. apply in_map_iff. by exists t.
Qed.

Let want := dict_of (constant_pairs consts).

Lemma outputs_parsed : exists header package doc (tbl := dict_of (table_pairs (tables c))),
  (emit_c_header docs c = Ok header /\ emit_sv_package docs c = Ok package /\ emit_doc page c = Ok doc)
  /\ parse_c header = Ok (want, tbl) /\ parse_sv package = Ok (want, tbl) /\ parse_doc doc = Ok want.
Proof using All.
  unfold emit_c_header, emit_sv_package, emit_doc. rewrite Hall. cbn [rbind].
  eexists _, _, _. cbv zeta. split; [by split_and!|]. split_and!.
  - apply c_parsed; [done..|apply tables_good].
  - apply sv_parsed; [done..|apply tables_good].
  - destruct Hpage. by apply doc_parsed.
Qed.

Lemma outputs_checked header package doc named :
  parse_c header = Ok (want, dict_of (table_pairs (tables c))) ->
  parse_sv package = Ok (want, dict_of (table_pairs (tables c))) -> parse_doc doc = Ok want ->
  crosscheck c header package doc named = Ok (skeleton_findings c named).
Proof using Hall.
  intros Eh Ep Ed. unfold crosscheck. rewrite Hall, Eh, Ep, Ed. cbn [rbind fst snd].
  rewrite !(proj2 (carrier_findings_nil _ _ _)) by done. rewrite (proj2 (flat_map_nil _ _)); [done|].
  intros t Ht. by apply table_findings_nil; split; apply table_read_back.
Qed.
End Outputs.

(** C25: The emitters and the readers agree: of any contract whose names are words and
    whose values are not negative, with one-line documentation and a page that
    has no row of its own, the header, the package and the page read back as
    exactly the contract's constants, the two tables of every name list its
    members in order, each a constant of the contract, and the cross-check's
    only findings are the skeleton's. *)
Theorem outputs_read_back (c : Contract) (consts : list Constant) (docs : string -> pystr) (page : list pystr) :
  all_constants c = Ok consts -> (forall k, In k consts -> good_constant k) ->
  (forall k, In k consts -> one_line (docs (k_name k))) -> Forall one_line page -> omap doc_const page = [] ->
  1 <= max_tuples c -> 1 <= max_terms c ->
  exists header package doc cts svs (want := dict_of (constant_pairs consts)),
    (emit_c_header docs c = Ok header /\ emit_sv_package docs c = Ok package /\ emit_doc page c = Ok doc)
    /\ parse_c header = Ok (want, cts) /\ parse_sv package = Ok (want, svs) /\ parse_doc doc = Ok want
    /\ (forall t, In t (tables c) ->
          cts !! lit (fst t) = Some (map lit (snd t)) /\ svs !! lit (fst t) = Some (map lit (snd t))
          /\ forall m, In m (snd t) -> defined consts m)
    /\ forall named, crosscheck c header package doc named = Ok (skeleton_findings c named).
Proof.
  intros Hall Hgood Hdocs Hp Hn H1 H2.
  destruct (outputs_parsed c consts docs page) as (h & p & d & Hemit & Eh & Ep & Ed); [done..|].
  exists h, p, d. do 2 eexists. split; [exact Hemit|]. split_and!; [exact Eh|exact Ep|exact Ed| |].
  - intros t Ht. split_and!; [by apply table_read_back..|]. intros m Hm.
    unfold all_constants in Hall. rsplit Hall. subst consts.
    destruct (table_members_defined c _ t m Hm0 Ht Hm) as (k & Hk & E). exists k. rewrite in_app_iff. auto.
  - intros named. by apply (outputs_checked c consts).
Qed.

(** A variant build cross-checks clean: the outputs written for another number of
    interfaces have no finding when the skeleton names the contract's registers. *)
Theorem variant_clean (c v : Contract) (n : Z) (consts : list Constant) (docs : string -> pystr)
    (page : Contract -> list pystr) (named : Contract -> gset pystr) :
  with_interfaces c n = Ok v -> named v = register_names v ->
  all_constants v = Ok consts -> (forall k, In k consts -> good_constant k) ->
  (forall k, In k consts -> one_line (docs (k_name k))) -> Forall one_line (page v) -> omap doc_const (page v) = [] ->
  1 <= max_tuples v -> 1 <= max_terms v ->
  exists package header, write_variant docs page named c n = Ok (package, header, []).
Proof.
  intros Hv Hreg Hall Hgood Hdocs Hp Hn H1 H2.
  destruct (outputs_parsed v consts docs (page v)) as (h & p & d & (E1 & E2 & E3) & Eh & Ep & Ed); [done..|].
  exists p, h. unfold write_variant. rewrite Hv. cbn [rbind]. rewrite E2. cbn [rbind]. rewrite E1. cbn [rbind].
  rewrite E3. cbn [rbind]. rewrite (outputs_checked v consts) by done.
  by rewrite (proj2 (skeleton_findings_nil _ _)) by done.
Qed.

(** * The shipped contract *)

Definition emittable (docs : string -> pystr) (r : result contract_error (list Constant)) : bool :=
  match r with
  | Ok consts => forallb (fun k => negb (bool_decide (lit (k_name k) = [])) && forallb is_word (lit (k_name k))
                                   && (0 <=? k_value k) && forallb (fun c => negb (c =? 10)) (docs (k_name k))) consts
  | Err _ => false
  end.

Lemma emittable_true docs r : emittable docs r = true ->
  exists consts, r = Ok consts /\ (forall k, In k consts -> good_constant k)
  /\ forall k, In k consts -> one_line (docs (k_name k)).
Proof.
  destruct r as [consts|]; [|done]. cbn [emittable]. rewrite forallb_forall. intros H. exists consts.
  assert (forall k, In k consts -> good_constant k /\ one_line (docs (k_name k))) as G.
  { intros k Hk. specialize (H k Hk). rewrite !andb_true_iff, negb_true_iff, bool_decide_eq_false, Z.leb_le in H.
    destruct H as [[[? ?] ?] ?]. by split_and!. }
  split_and!; [done|intros k Hk; by apply G..].
Qed.

Lemma shipped_emittable : emittable header_docs (all_constants shipped) = true.
Proof. vm_compute. reflexivity. Qed.

(** The contract for two interfaces, as the mailbox suite elaborates it. *)
Definition two_interfaces : Contract := match with_interfaces shipped 2 with Ok v => v | Err _ => shipped end.

Lemma two_interfaces_valid : with_interfaces shipped 2 = Ok two_interfaces.
Proof.
  unfold two_interfaces. assert (is_ok (with_interfaces shipped 2) = true) as K by (vm_compute; reflexivity).
  by destruct (with_interfaces shipped 2).
Qed.

Lemma two_interfaces_emittable : emittable header_docs (all_constants two_interfaces) = true.
Proof. vm_compute. reflexivity. Qed.

Lemma shipped_sizes : (1 <= max_tuples shipped /\ 1 <= max_terms shipped)
  /\ 1 <= max_tuples two_interfaces /\ 1 <= max_terms two_interfaces.
Proof. split_and!; apply Z.leb_le; vm_compute; reflexivity. Qed.

(** The head of the page's constant table. *)
Definition table_head : list pystr := map lit ["| Name | Value |"; "|---|---:|"]%string.

Lemma table_head_ok : Forall one_line table_head /\ omap doc_const table_head = [].
Proof. split; [by repeat constructor|done]. Qed.

Lemma outputs_read_back_witness : exists header package doc,
  (emit_c_header header_docs shipped = Ok header /\ emit_sv_package header_docs shipped = Ok package
   /\ emit_doc table_head shipped = Ok doc)
  /\ crosscheck shipped header package doc (register_names shipped) = Ok [].
Proof.
  destruct (emittable_true _ _ shipped_emittable) as (consts & Hall & Hgood & Hdocs).
  destruct table_head_ok as [Hp Hn]. destruct shipped_sizes as [[H1 H2] _].
  destruct (outputs_read_back shipped consts header_docs table_head Hall Hgood Hdocs Hp Hn H1 H2)
    as (h & p & d & cts & svs & E & _ & _ & _ & _ & Hx).
  exists h, p, d. split; [exact E|]. rewrite Hx. by rewrite (proj2 (skeleton_findings_nil _ _)) by done.
Defined.

Lemma variant_clean_witness : exists package header,
  write_variant header_docs (fun _ => table_head) register_names shipped 2 = Ok (package, header, []).
Proof.
  destruct (emittable_true _ _ two_interfaces_emittable) as (consts & Hall & Hgood & Hdocs).
  destruct table_head_ok as [Hp Hn]. destruct shipped_sizes as (_ & H1 & H2).
  exact (variant_clean shipped two_interfaces 2 consts header_docs (fun _ => table_head) register_names
           two_interfaces_valid eq_refl Hall Hgood Hdocs Hp Hn H1 H2).
Defined.
