(* ===== verification/BuilderFormats.v ===== *)
(** Stream formats and the capture and render front-ends of one configuration
    ([sw/builder/endstation_builder.py], the item-00 derivations).

    Three facts meet here: what a stream format word says, which formats a
    Stream Input must advertise (Milan v1.2 6.4), and how many channels per
    frame the fabric really puts on the wire.  [fabric] holds the answers of
    the scanners that read the SoC glue and the platform sources
    ([tdm_bus_wired], [tdm_bus_master], [board_audio_routing]): they are
    arguments, so every statement holds whatever those texts say. *)
From S2P Require Import Prelude Unicode Descriptors Text Config.
From S2P Require AudioMaps.

(** * Stream format words *)

(** rate -> (nsr, samples per frame), in source order. *)
Definition BASE_RATE_HZ : list (Z * (Z * Z)) :=
  [(48000, (0x5, 6)); (96000, (0x7, 12)); (192000, (0x9, 24))].
Definition BASE_CHANNELS : list Z := [1; 2; 4; 6; 8].

Definition base_rate (rate_hz : Z) : option (Z * Z) :=
  snd <$> List.find (fun r => fst r =? rate_hz) BASE_RATE_HZ.

Definition fmt_int (fmt : pystr) : result config_error Z :=
  match py_int16 fmt with Some n => Ok n | None => Err EValue end.

(** [channels_per_frame] of an AAF word, [None] for another subtype. *)
Definition channels_field (n : Z) : option Z :=
  if negb (Z.land (Z.shiftr n 56) 0x7F =? 0x02) then None
  else Some (Z.land (Z.shiftr n 22) 0x3FF).

Definition fmt_channels (fmt : pystr) : result config_error (option Z) :=
  let* n := fmt_int fmt in Ok (channels_field n).

Definition aaf_word (nsr spf channels : Z) (ut : bool) : Z :=
  Z.lor (Z.lor (Z.lor (Z.lor (Z.lor (Z.lor (Z.shiftl 0x02 56)
    (Z.shiftl (if ut then 1 else 0) 52)) (Z.shiftl nsr 48)) (Z.shiftl 0x02 40))
    (Z.shiftl 32 32)) (Z.shiftl channels 22)) (Z.shiftl spf 12).

Definition aaf_pcm32 (channels rate_hz : Z) (ut : bool) : result config_error Z :=
  match base_rate rate_hz with
  | Some (nsr, spf) => Ok (aaf_word nsr spf channels ut)
  | None => Err EKeyErr
  end.

Definition aaf_pcm32_48k (channels : Z) (ut : bool) : result config_error Z :=
  aaf_pcm32 channels 48000 ut.

(** The rate whose word with no channels and no [ut] is [stem]. *)
Fixpoint rate_of_stem (rates : list (Z * (Z * Z))) (stem : Z) : option Z :=
  match rates with
  | [] => None
  | (rate, (nsr, spf)) :: rates' =>
      if stem =? aaf_word nsr spf 0 false then Some rate else rate_of_stem rates' stem
  end.

Definition FORMAT_MASK := Z.lor (Z.shiftl 1 52) (Z.shiftl 0x3FF 22).

Definition base_format_row (n : Z) : option (Z * Z * bool) :=
  let ut := negb (Z.land (Z.shiftr n 52) 1 =? 0) in
  let ch := Z.land (Z.shiftr n 22) 0x3FF in
  rate ← rate_of_stem BASE_RATE_HZ (Z.land n (Z.lnot FORMAT_MASK));
  Some (rate, ch, ut).

Definition base_format_rate (fmt : pystr) : result config_error (option (Z * Z * bool)) :=
  let* n := fmt_int fmt in Ok (base_format_row n).

(** The Base channel counts one row covers. *)
Definition row_cover (ch : Z) (ut : bool) : gset Z :=
  if ut then list_to_set (List.filter (fun c => c <=? ch) BASE_CHANNELS)
  else {[ch]} ∩ list_to_set BASE_CHANNELS.

Definition cover_add (cover : gmap Z (gset Z)) (row : option (Z * Z * bool)) : gmap Z (gset Z) :=
  match row with
  | None => cover
  | Some (rate, ch, ut) =>
      let add := row_cover ch ut in
      if bool_decide (add = ∅) then cover
      else <[rate := default ∅ (cover !! rate) ∪ add]> cover
  end.

Definition base_format_cover (fmts : list pystr) : result config_error (gmap Z (gset Z)) :=
  foldR (fun cover f => let* row := base_format_rate f in Ok (cover_add cover row)) ∅ fmts.

(** One [ut] entry of the widest Base count per rate that misses a count. *)
Definition completion_step (cover : gmap Z (gset Z)) (out : list pystr) (rate : Z)
    : result config_error (list pystr) :=
  if bool_decide (list_to_set BASE_CHANNELS ⊆ default ∅ (cover !! rate)) then Ok out
  else let* w := aaf_pcm32 (max_z 1 BASE_CHANNELS) rate true in Ok (out ++ [hex64 w]).

Definition base_format_complete (fmts : list pystr) : result config_error (list pystr) :=
  let* cover := base_format_cover fmts in
  foldR (completion_step cover) fmts (sorted_z (map fst (map_to_list cover))).

(** * The front-ends of a build *)

(** What the scanners of the SoC glue and the platform sources answer for the
    board of the configuration. *)
Record fabric := Fabric {
  fb_tdm_wired : bool;          (* tdm_bus_wired() *)
  fb_tdm_master : bool;         (* tdm_bus_master() *)
  fb_routes_tdm : bool;         (* bar.routes_tdm(board) *)
  fb_routes_i2s : bool;         (* bar.routes_i2s_pmod(board) *)
}.

Definition AUDIO_IF_SLOTS (kind : string) : Z :=
  if String.eqb kind "tdm8" then 8 else if String.eqb kind "tdm16" then 16
  else if String.eqb kind "tdm32" then 32 else 0.

Definition WIRE_CHANS_MIN := 2.
Definition WIRE_CHANS_MAX := 8.
Definition TDM_SLOT_BITS := 32.

(** The parts of the configuration the front-end derivations read. *)
Record front_end := FrontEnd {
  fe_kind : string;                  (* interface.kind *)
  fe_channels : Z;                   (* interface.channels *)
  fe_render : Z;                     (* interface.physical_channels.render *)
  fe_i2s_playback : bool;            (* features.i2s_playback *)
  fe_talker_formats : list (list pystr);
}.

Section FrontEnds.
Context (fb : fabric) (cfg : front_end).

Definition interface_is_placeholder : bool :=
  negb (AUDIO_IF_SLOTS (fe_kind cfg) =? 0) && negb (fb_tdm_wired fb).

Definition audio_if_slots : Z :=
  if interface_is_placeholder then 0 else AUDIO_IF_SLOTS (fe_kind cfg).

Definition tdm_slot_bits : Z := if audio_if_slots =? 0 then 0 else TDM_SLOT_BITS.

Definition i2s_pair_blended : bool :=
  if interface_is_placeholder || negb (fb_tdm_master fb) then false
  else if AUDIO_IF_SLOTS (fe_kind cfg) =? 0 then false
  else fb_routes_tdm fb && fb_routes_i2s fb.

Definition render_lane : option string :=
  if fe_i2s_playback cfg then Some "i2s"%string
  else if negb (AUDIO_IF_SLOTS (fe_kind cfg) =? 0) then Some "tdm"%string
  else None.

(** lane -> (first key, width). *)
Definition RENDER_PHYS_LANES (lane : string) : Z * Z :=
  if String.eqb lane "i2s" then (0, 2) else (2, 8).

Definition render_lane_base : Z :=
  match render_lane with Some l => fst (RENDER_PHYS_LANES l) | None => 0 end.

Definition render_lane_width : Z :=
  match render_lane with
  | None => 0
  | Some l =>
      let width := snd (RENDER_PHYS_LANES l) in
      if String.eqb l "tdm" then Z.min width (AUDIO_IF_SLOTS (fe_kind cfg)) else width
  end.

Definition validate_render_lane : result config_error unit :=
  let want := fe_render cfg in
  if want <=? 0 then Ok tt
  else match render_lane with
  | None => Err (ENoRenderLane want)
  | Some lane =>
      let* _ := raise_if (render_lane_width <? want) (ERenderWidth want render_lane_width) in
      if String.eqb lane "tdm" then
        raise_if (negb (want =? AUDIO_IF_SLOTS (fe_kind cfg)))
                 (ERenderPartial want (AUDIO_IF_SLOTS (fe_kind cfg)))
      else Ok tt
  end.

Definition render_slots : Z :=
  if negb (bool_decide (render_lane = Some "tdm"%string)) || (audio_if_slots <=? 0) then 0
  else if fe_render cfg <=? 0 then 0
  else if fb_routes_tdm fb then fe_render cfg else 0.

Definition framer_pair_supply : Z :=
  if audio_if_slots =? 0 then 1
  else audio_if_slots / 2 + (if i2s_pair_blended then 1 else 0).

(** The widest [channels_per_frame] any talker advertises; [want or 2]. *)
Definition framer_declared_channels : result config_error Z :=
  let* want := foldR (fun want f =>
      let* c := fmt_channels f in
      Ok (match c with Some c => Z.max want c | None => want end))
    0 (concat (fe_talker_formats cfg)) in
  Ok (if want =? 0 then WIRE_CHANS_MIN else want).

Definition framer_wire_channels : result config_error Z :=
  let supply := Z.min WIRE_CHANS_MAX (framer_pair_supply * 2) in
  let* declared := framer_declared_channels in
  Ok (Z.max WIRE_CHANS_MIN (Z.min supply declared)).
End FrontEnds.

(** * Lemmas on format words *)

Lemma base_rate_In rate p : base_rate rate = Some p -> In rate [48000; 96000; 192000].
Proof.
  unfold base_rate, BASE_RATE_HZ. cbn [List.find fst].
  destruct (Z.eqb_spec 48000 rate); [subst; simpl; tauto|].
  destruct (Z.eqb_spec 96000 rate); [subst; simpl; tauto|].
  destruct (Z.eqb_spec 192000 rate); [subst; simpl; tauto|done].
Qed.

Lemma base_rate_Some rate : In rate [48000; 96000; 192000] -> is_Some (base_rate rate).
Proof. simpl. intros [<-|[<-|[<-|[]]]]; by eexists. Qed.

Lemma rate_of_stem_In stem rate : rate_of_stem BASE_RATE_HZ stem = Some rate ->
  In rate [48000; 96000; 192000].
Proof.
  unfold BASE_RATE_HZ. cbn [rate_of_stem].
  repeat (case_match; [intros [= <-]; simpl; tauto|]). done.
Qed.

(** Every word of the table reads back: 1024 channel counts, three rates, both
    values of [ut]. *)
Definition word_reads_back (rate ch : Z) (ut : bool) : bool :=
  match base_rate rate with
  | Some (nsr, spf) =>
      bool_decide (base_format_row (aaf_word nsr spf ch ut) = Some (rate, ch, ut)) &&
      bool_decide (channels_field (aaf_word nsr spf ch ut) = Some ch) &&
      (0 <=? aaf_word nsr spf ch ut) && (aaf_word nsr spf ch ut <? 2 ^ 64) &&
      (Z.shiftr (aaf_word nsr spf ch ut) 56 =? 2)
  | None => false
  end.

Lemma words_read_back :
  forallb (fun rate => forallb (fun ch => word_reads_back rate ch true && word_reads_back rate ch false)
    (zrange 0 1024)) [48000; 96000; 192000] = true.
Proof. vm_compute. reflexivity. Qed.

Lemma word_reads_back_ok rate ch ut :
  In rate [48000; 96000; 192000] -> 0 <= ch < 1024 -> word_reads_back rate ch ut = true.
Proof.
  intros Hr Hc. pose proof words_read_back as H.
  rewrite forallb_forall in H. specialize (H rate Hr).
  rewrite forallb_forall in H. specialize (H ch (proj2 (zrange_In 0 1024 ch) ltac:(lia))).
  apply andb_true_iff in H as [H1 H2]. by destruct ut.
Qed.

Lemma aaf_pcm32_Ok ch rate ut w : 0 <= ch < 1024 -> aaf_pcm32 ch rate ut = Ok w ->
  base_format_row w = Some (rate, ch, ut) /\ channels_field w = Some ch /\
  0 <= w < 2 ^ 64 /\ Z.shiftr w 56 = 2.
Proof.
  intros Hc. unfold aaf_pcm32. destruct (base_rate rate) as [[nsr spf]|] eqn:E; [|done].
  intros [= <-]. pose proof (word_reads_back_ok rate ch ut (base_rate_In _ _ E) Hc) as H.
  unfold word_reads_back in H. rewrite E in H. by bool_prop.
Qed.

Lemma aaf_pcm32_total ch rate ut : In rate [48000; 96000; 192000] ->
  exists w, aaf_pcm32 ch rate ut = Ok w.
Proof. intros [p Hp]%base_rate_Some. unfold aaf_pcm32. rewrite Hp. destruct p. by eexists. Qed.

Lemma fmt_int_hex64 w : 0 <= w -> fmt_int (hex64 w) = Ok w.
Proof. intros H. unfold fmt_int. by rewrite hex64_int16. Qed.

Lemma base_format_rate_hex64 w : 0 <= w -> base_format_rate (hex64 w) = Ok (base_format_row w).
Proof. intros H. unfold base_format_rate. by rewrite fmt_int_hex64. Qed.

Lemma land_shifted n k s : 0 <= s -> Z.land n (Z.shiftl k s) = Z.shiftl (Z.land (Z.shiftr n s) k) s.
Proof.
  intros Hs. apply Z.bits_inj'. intros i Hi.
  rewrite Z.land_spec, !Z.shiftl_spec, Z.land_spec by lia.
  destruct (Z.ltb_spec i s).
  - rewrite (Z.testbit_neg_r k) by lia. by rewrite !andb_false_r.
  - rewrite Z.shiftr_spec by lia. do 2 f_equal. lia.
Qed.

Lemma aaf_word_fields nsr spf ch (ut : bool) :
  Z.lor (aaf_word nsr spf 0 false)
    (Z.lor (Z.shiftl (if ut then 1 else 0) 52) (Z.shiftl ch 22)) = aaf_word nsr spf ch ut.
Proof.
  unfold aaf_word. rewrite !Z.shiftl_0_l.
  generalize (Z.shiftl (if ut then 1 else 0) 52) (Z.shiftl ch 22) (Z.shiftl nsr 48) (Z.shiftl 2 56)
    (Z.shiftl 2 40) (Z.shiftl 32 32) (Z.shiftl spf 12). intros a b c d e f g.
  apply Z.bits_inj'. intros i Hi. rewrite !Z.lor_spec, !Z.bits_0.
  repeat match goal with |- context [Z.testbit ?x i] => destruct (Z.testbit x i) end; reflexivity.
Qed.

Lemma rate_of_stem_word rates stem rate : rate_of_stem rates stem = Some rate ->
  exists nsr spf, In (rate, (nsr, spf)) rates /\ stem = aaf_word nsr spf 0 false.
Proof.
  induction rates as [|[r [a b]] rates IH]; cbn [rate_of_stem]; [done|].
  destruct (Z.eqb_spec stem (aaf_word a b 0 false)) as [->|].
  - intros [= <-]. exists a, b. split; [by left|done].
  - intros (x & y & ? & ?)%IH. exists x, y. split; [by right|done].
Qed.

Lemma ut_bit x : Z.land x 1 = if negb (Z.land x 1 =? 0) then 1 else 0.
Proof.
  change 1 with (Z.ones 1) at 1 2. rewrite Z.land_ones by lia. change (2 ^ 1) with 2.
  pose proof (Z.mod_pos_bound x 2 ltac:(lia)).
  destruct (Z.eqb_spec (x mod 2) 0); simpl; lia.
Qed.

(** A row determines its word. *)
Lemma base_format_row_word n rate ch ut : base_format_row n = Some (rate, ch, ut) ->
  exists nsr spf, base_rate rate = Some (nsr, spf) /\ n = aaf_word nsr spf ch ut.
Proof.
  unfold base_format_row. intros H. apply bind_Some in H as (r & Hr & E).
  apply (inj Some) in E. apply pair_eq in E as [[<- <-]%pair_eq <-].
  apply rate_of_stem_word in Hr as (nsr & spf & Hin & Hs). exists nsr, spf. split.
  - clear Hs. unfold BASE_RATE_HZ in Hin.
    destruct Hin as [E|[E|[E|[]]]]; injection E as <- <- <-; reflexivity.
  - rewrite <-aaf_word_fields, <-Hs, <-ut_bit, <-!land_shifted, <-!Z.land_lor_distr_r by lia.
    fold FORMAT_MASK. by rewrite Z.lor_comm, Z.lor_lnot_diag, Z.land_m1_r.
Qed.

(** * Coverage *)

(** What one row contributes to the cover of a rate. *)
Definition contribution (rate : Z) (row : option (Z * Z * bool)) : gset Z :=
  match row with
  | Some (r, ch, ut) => if r =? rate then row_cover ch ut else ∅
  | None => ∅
  end.

Definition contributions (rate : Z) (rows : list (option (Z * Z * bool))) : gset Z :=
  ⋃ (map (contribution rate) rows).

(** A cover holds only non-empty sets, at Base rates. *)
Definition cover_wf (cover : gmap Z (gset Z)) : Prop :=
  forall rate cs, cover !! rate = Some cs -> cs <> ∅ /\ In rate [48000; 96000; 192000].

Lemma cover_add_lookup cover row rate :
  default ∅ (cover_add cover row !! rate) = default ∅ (cover !! rate) ∪ contribution rate row.
Proof.
  destruct row as [[[r ch] ut]|]; cbn [cover_add contribution]; [|by rewrite (right_id_L ∅ (∪))].
  case_bool_decide as E.
  - rewrite E. destruct (r =? rate); by rewrite (right_id_L ∅ (∪)).
  - destruct (Z.eqb_spec r rate) as [->|Hne].
    + by rewrite lookup_insert_eq.
    + by rewrite lookup_insert_ne, (right_id_L ∅ (∪)).
Qed.

Lemma cover_add_wf cover n : cover_wf cover -> cover_wf (cover_add cover (base_format_row n)).
Proof.
  intros H. destruct (base_format_row n) as [[[r ch] ut]|] eqn:E; [|done]. cbn [cover_add].
  case_bool_decide as Ea; [done|]. intros rate cs.
  destruct (decide (r = rate)) as [->|Hne].
  - rewrite lookup_insert_eq. intros [= <-]. split.
    + intros [_ ?]%empty_union_L. done.
    + apply base_format_row_word in E as (? & ? & ? & _). by eapply base_rate_In.
  - rewrite lookup_insert_ne by done. apply H.
Qed.

Lemma base_format_cover_fold fmts cov cover :
  foldR (fun cover f => let* row := base_format_rate f in Ok (cover_add cover row)) cov fmts = Ok cover ->
  cover_wf cov ->
  cover_wf cover /\ exists rows, mapR base_format_rate fmts = Ok rows /\
    forall rate, default ∅ (cover !! rate) = default ∅ (cov !! rate) ∪ contributions rate rows.
Proof.
  revert cov. induction fmts as [|f fmts IH]; intros cov; cbn [foldR mapR]; intros H Hw.
  - injection H as <-. split; [done|]. exists []. split; [done|]. intros rate.
    change (contributions rate []) with (∅ : gset Z). by rewrite (right_id_L ∅ (∪)).
  - rsplit H. subst v. unfold base_format_rate in Hm0. rsplit Hm0. subst v0.
    destruct (IH _ H (cover_add_wf _ v Hw)) as (Hw' & rows & Hr & Hc).
    split; [done|]. exists (base_format_row v :: rows).
    unfold base_format_rate at 1. rewrite Hm. cbn [rbind]. rewrite Hr. split; [done|].
    intros rate. rewrite Hc, cover_add_lookup.
    change (contributions rate (base_format_row v :: rows)) with (contribution rate (base_format_row v) ∪ contributions rate rows).
    by rewrite (assoc_L (∪)).
Qed.

Lemma base_format_cover_Ok fmts cover : base_format_cover fmts = Ok cover ->
  cover_wf cover /\ exists rows, mapR base_format_rate fmts = Ok rows /\
    forall rate, default ∅ (cover !! rate) = contributions rate rows.
Proof.
  intros H. apply base_format_cover_fold in H as (Hw & rows & Hr & Hc); [|by intros ??].
  split; [done|]. exists rows. split; [done|]. intros rate. rewrite Hc, lookup_empty.
  cbn [default from_option]. by rewrite (left_id_L ∅ (∪)).
Qed.

Lemma base_format_cover_total fmts rows :
  mapR base_format_rate fmts = Ok rows -> exists cover, base_format_cover fmts = Ok cover.
Proof.
  unfold base_format_cover. generalize (∅ : gmap Z (gset Z)) at 1. revert rows.
  induction fmts as [|f fmts IH]; intros rows cov; cbn [foldR mapR]; [by eexists|].
  intros H. rsplit H. rewrite Hm. cbn [rbind]. by eapply IH.
Qed.

(** The entry the completion appends for one rate. *)
Definition completion_entry (rate : Z) : pystr :=
  match aaf_pcm32 8 rate true with Ok w => hex64 w | Err _ => [] end.

Definition covered (cover : gmap Z (gset Z)) (rate : Z) : bool :=
  bool_decide (list_to_set BASE_CHANNELS ⊆ default ∅ (cover !! rate)).

Lemma completion_fold cover rates out : Forall (fun r => In r [48000; 96000; 192000]) rates ->
  foldR (completion_step cover) out rates
  = Ok (out ++ map completion_entry (List.filter (fun r => negb (covered cover r)) rates)).
Proof.
  intros H. revert out. induction H as [|r rates Hr _ IH]; intros out; cbn [foldR List.filter map].
  - by rewrite app_nil_r.
  - unfold completion_step at 1, covered. case_bool_decide; cbn [rbind negb]; [apply IH|].
    destruct (aaf_pcm32_total 8 r true Hr) as [w Hw].
    change (max_z 1 BASE_CHANNELS) with 8. rewrite Hw. cbn [rbind map]. rewrite IH.
    unfold completion_entry at 2. rewrite Hw. by rewrite <-app_assoc.
Qed.

Lemma completion_entry_row rate : In rate [48000; 96000; 192000] ->
  exists w, fmt_int (completion_entry rate) = Ok w /\ base_format_row w = Some (rate, 8, true).
Proof.
  intros H. unfold completion_entry. destruct (aaf_pcm32_total 8 rate true H) as [w Hw].
  rewrite Hw. destruct (aaf_pcm32_Ok 8 rate true w ltac:(lia) Hw) as (Hr & _ & Hb & _).
  exists w. split; [|done]. apply fmt_int_hex64. lia.
Qed.

Lemma row_cover_full : row_cover 8 true = list_to_set BASE_CHANNELS.
Proof. reflexivity. Qed.

(** The rates a cover names, ascending, as the completion visits them. *)
Definition cover_rates (cover : gmap Z (gset Z)) : list Z := sorted_z (map fst (map_to_list cover)).

Lemma In_cover_rates cover rate : In rate (cover_rates cover) <-> is_Some (cover !! rate).
Proof.
  unfold cover_rates. rewrite In_sorted_z, in_map_iff. split.
  - intros ([r cs] & <- & H). apply list_elem_of_In, elem_of_map_to_list in H. by eexists.
  - intros [cs H]. exists (rate, cs). split; [done|]. by apply list_elem_of_In, elem_of_map_to_list.
Qed.

Lemma cover_rates_NoDup cover : NoDup (cover_rates cover).
Proof.
  unfold cover_rates, sorted_z. rewrite merge_sort_Permutation. apply NoDup_fst_map_to_list.
Qed.

Lemma cover_rates_base cover : cover_wf cover ->
  Forall (fun r => In r [48000; 96000; 192000]) (cover_rates cover).
Proof.
  intros H. apply List.Forall_forall. intros r [cs Hr]%In_cover_rates. exact (proj2 (H r cs Hr)).
Qed.

Lemma mapR_app {E A B} (f : A -> result E B) l1 l2 r1 r2 :
  mapR f l1 = Ok r1 -> mapR f l2 = Ok r2 -> mapR f (l1 ++ l2) = Ok (r1 ++ r2).
Proof. rewrite !mapR_Ok. apply Forall2_app. Qed.

Lemma contributions_app rate r1 r2 :
  contributions rate (r1 ++ r2) = contributions rate r1 ∪ contributions rate r2.
Proof.
  unfold contributions. rewrite map_app. apply union_list_app_L.
Qed.

Lemma cover_lookup_nonempty cover rate : cover_wf cover ->
  is_Some (cover !! rate) <-> default ∅ (cover !! rate) <> ∅.
Proof.
  intros H. destruct (cover !! rate) as [cs|] eqn:E; simpl.
  - split; [intros _; exact (proj1 (H rate cs E))|by eexists].
  - split; [by intros [? ?]|done].
Qed.

(** The cover of a completed list: full at every rate it names. *)
Lemma completion_contributions rate missing :
  Forall (fun r => In r [48000; 96000; 192000]) missing ->
  exists rows, mapR base_format_rate (map completion_entry missing) = Ok rows /\
    contributions rate rows = if bool_decide (rate ∈ missing) then list_to_set BASE_CHANNELS else ∅.
Proof.
  induction 1 as [|r missing Hr _ (rows & Hm & Hc)].
  { exists []. split; [done|]. rewrite bool_decide_eq_false_2; [done|]. apply not_elem_of_nil. }
  destruct (completion_entry_row r Hr) as (w & Hw & Hrow).
  exists (Some (r, 8, true) :: rows). cbn [map mapR]. unfold base_format_rate at 1.
  rewrite Hw. cbn [rbind]. rewrite Hrow, Hm. split; [done|].
  change (contributions rate (Some (r, 8, true) :: rows))
    with ((if r =? rate then row_cover 8 true else ∅) ∪ contributions rate rows).
  rewrite Hc, row_cover_full.
  destruct (Z.eqb_spec r rate) as [->|Hne].
  - rewrite (bool_decide_eq_true_2 (rate ∈ rate :: missing)) by (by left).
    case_bool_decide; [by rewrite (idemp_L (∪))|by rewrite (right_id_L ∅ (∪))].
  - rewrite (left_id_L ∅ (∪)). rewrite (bool_decide_ext (rate ∈ r :: missing) (rate ∈ missing)); [done|].
    rewrite elem_of_cons. split; [intros [E|?]; [by destruct Hne|done]|by right].
Qed.

(** The rates whose family is incomplete, in the order they are completed. *)
Definition missing_rates (cover : gmap Z (gset Z)) : list Z :=
  List.filter (fun r => negb (covered cover r)) (cover_rates cover).

Lemma In_missing_rates cover rate :
  In rate (missing_rates cover) <-> is_Some (cover !! rate) /\ covered cover rate = false.
Proof. unfold missing_rates. by rewrite filter_In, In_cover_rates, negb_true_iff. Qed.

Lemma missing_rates_base cover : cover_wf cover ->
  Forall (fun r => In r [48000; 96000; 192000]) (missing_rates cover).
Proof.
  intros H. apply List.Forall_forall. intros r [Hr _]%filter_In.
  exact (proj1 (List.Forall_forall _ _) (cover_rates_base _ H) r Hr).
Qed.

Lemma missing_rates_few cover : cover_wf cover -> (length (missing_rates cover) <= 3)%nat.
Proof.
  intros H. apply (List.NoDup_incl_length (l' := [48000; 96000; 192000])).
  - apply List.NoDup_filter, NoDup_ListNoDup, cover_rates_NoDup.
  - intros r Hr. exact (proj1 (List.Forall_forall _ _) (missing_rates_base _ H) r Hr).
Qed.

Lemma base_format_complete_eq fmts cover : base_format_cover fmts = Ok cover ->
  base_format_complete fmts = Ok (fmts ++ map completion_entry (missing_rates cover)).
Proof.
  intros H. unfold base_format_complete. rewrite H. cbn [rbind].
  apply completion_fold, cover_rates_base. by apply base_format_cover_Ok in H as [? _].
Qed.

Lemma completed_cover fmts cover : base_format_cover fmts = Ok cover ->
  exists cover', base_format_cover (fmts ++ map completion_entry (missing_rates cover)) = Ok cover' /\
    cover_wf cover' /\
    forall rate, default ∅ (cover' !! rate) = default ∅ (cover !! rate) ∪
      if bool_decide (rate ∈ missing_rates cover) then list_to_set BASE_CHANNELS else ∅.
Proof.
  intros Hcov. destruct (base_format_cover_Ok _ _ Hcov) as (Hw & rows & Hm & Hc).
  pose proof (missing_rates_base _ Hw) as Hmiss.
  destruct (completion_contributions 0 _ Hmiss) as (mrows & Hmr & _).
  destruct (base_format_cover_total _ _ (mapR_app _ _ _ _ _ Hm Hmr)) as [cover' Hcov'].
  destruct (base_format_cover_Ok _ _ Hcov') as (Hw' & rows' & Hm' & Hc').
  exists cover'. split_and!; try done. intros rate.
  destruct (completion_contributions rate _ Hmiss) as (r2 & Hr2 & E2).
  rewrite (mapR_app _ _ _ _ _ Hm Hr2) in Hm'. injection Hm' as <-.
  by rewrite Hc', contributions_app, <-Hc, E2.
Qed.

Lemma completed_dom cover cover' : cover_wf cover -> cover_wf cover' ->
  (forall rate, default ∅ (cover' !! rate) = default ∅ (cover !! rate) ∪
      if bool_decide (rate ∈ missing_rates cover) then list_to_set BASE_CHANNELS else ∅) ->
  forall rate, is_Some (cover' !! rate) <-> is_Some (cover !! rate).
Proof.
  intros Hw Hw' Hlook rate.
  rewrite (cover_lookup_nonempty _ _ Hw'), (cover_lookup_nonempty _ _ Hw), Hlook.
  case_bool_decide as Hi; [|by rewrite (right_id_L ∅ (∪))].
  apply list_elem_of_In, In_missing_rates in Hi as [Hs _].
  apply (cover_lookup_nonempty _ _ Hw) in Hs. split; [done|]. by intros _ [? _]%empty_union_L.
Qed.

Lemma completed_full fmts cover : base_format_cover fmts = Ok cover ->
  exists cover', base_format_cover (fmts ++ map completion_entry (missing_rates cover)) = Ok cover' /\
    forall rate, is_Some (cover' !! rate) -> covered cover' rate = true.
Proof.
  intros Hcov. destruct (base_format_cover_Ok _ _ Hcov) as (Hw & _).
  destruct (completed_cover _ _ Hcov) as (cover' & Hcov' & Hw' & Hlook).
  exists cover'. split; [done|]. intros rate Hs.
  apply (completed_dom _ _ Hw Hw' Hlook) in Hs. apply bool_decide_eq_true_2. rewrite Hlook.
  case_bool_decide as Hi; [apply union_subseteq_r|]. rewrite (right_id_L ∅ (∪)).
  destruct (covered cover rate) eqn:E; [by apply bool_decide_eq_true_1 in E|].
  destruct Hi. by apply list_elem_of_In, In_missing_rates.
Qed.

(** The family completion of a Stream Input (Milan v1.2 6.4).  Only entries are
    appended, one [ut] word of eight channels for each rate whose Base formats
    are not all covered, at most three; the completed list covers every Base
    channel count at every rate the given list supports, names no other rate,
    and completing it again changes nothing. *)
Theorem base_format_complete_spec fmts cover :
  base_format_cover fmts = Ok cover ->
  exists extra cover',
    base_format_complete fmts = Ok (fmts ++ extra) /\
    (forall f, In f extra <-> exists rate, f = completion_entry rate /\
       is_Some (cover !! rate) /\ covered cover rate = false) /\
    (length extra <= 3)%nat /\
    base_format_cover (fmts ++ extra) = Ok cover' /\
    (forall rate, is_Some (cover' !! rate) <-> is_Some (cover !! rate)) /\
    (forall rate, is_Some (cover' !! rate) -> covered cover' rate = true) /\
    base_format_complete (fmts ++ extra) = Ok (fmts ++ extra).
Proof.
  intros Hcov. destruct (base_format_cover_Ok _ _ Hcov) as (Hw & _).
  destruct (completed_cover _ _ Hcov) as (cover' & Hcov' & Hw' & Hlook).
  pose proof (completed_dom _ _ Hw Hw' Hlook) as Hdom.
  destruct (completed_full _ _ Hcov) as (c2 & Hc2 & Hfull).
  rewrite Hcov' in Hc2. apply Ok_inj in Hc2 as <-.
  exists (map completion_entry (missing_rates cover)), cover'. split_and!; try done.
  - by apply base_format_complete_eq.
  - intros f. rewrite in_map_iff. setoid_rewrite In_missing_rates.
    split; intros (r & ? & ?); exists r; by split.
  - rewrite length_map. by apply missing_rates_few.
  - rewrite (base_format_complete_eq _ _ Hcov').
    replace (missing_rates cover') with (@nil Z); [by rewrite app_nil_r|].
    destruct (missing_rates cover') as [|r l] eqn:E; [done|].
    assert (In r (missing_rates cover')) as [Hs Hc]%In_missing_rates by (rewrite E; by left).
    by rewrite (Hfull _ Hs) in Hc.
Qed.

(** [base_format_rate] is the inverse of [aaf_pcm32] on the words it knows: a
    word reads as (rate, channels, ut) exactly when it is the one built from
    them, and any other word reads as no Base rate. *)
Theorem base_format_rate_iff n rate ch ut : 0 <= n ->
  base_format_rate (hex64 n) = Ok (Some (rate, ch, ut)) <->
  0 <= ch < 1024 /\ aaf_pcm32 ch rate ut = Ok n.
Proof.
  intros Hn. rewrite base_format_rate_hex64 by done. split.
  - intros [= H]. pose proof H as H'. apply base_format_row_word in H as (nsr & spf & Hr & Hw).
    unfold base_format_row in H'. apply bind_Some in H' as (r & _ & E).
    apply (inj Some) in E. apply pair_eq in E as [[_ E]%pair_eq _].
    split; [|by unfold aaf_pcm32; rewrite Hr, Hw].
    rewrite <-E. change 0x3FF with (Z.ones 10). rewrite Z.land_ones by lia.
    apply Z.mod_pos_bound. lia.
  - intros [Hc H]. by destruct (aaf_pcm32_Ok ch rate ut n Hc H) as [-> _].
Qed.

(** ** The same cover as the image generator's *)

Lemma format_cover_contribution rate nsr spf n : base_rate rate = Some (nsr, spf) ->
  AudioMaps.format_cover (aaf_word nsr spf 0 false) n = contribution rate (base_format_row n).
Proof.
  intros Hr. unfold AudioMaps.format_cover, base_format_row.
  fold FORMAT_MASK. set (stem := Z.land n (Z.lnot FORMAT_MASK)).
  destruct (Z.eqb_spec stem (aaf_word nsr spf 0 false)) as [E|E]; cbn [negb].
  - assert (rate_of_stem BASE_RATE_HZ stem = Some rate) as ->.
    { rewrite E. destruct (word_reads_back rate 0 false) eqn:H.
      - unfold word_reads_back in H. rewrite Hr in H. bool_prop.
        unfold base_format_row in H. apply bind_Some in H as (r & Hs & Hp).
        apply (inj Some) in Hp. apply pair_eq in Hp as [[-> _]%pair_eq _].
        rewrite <-Hs. f_equal. clear -Hr. apply base_rate_In in Hr as Hi.
        destruct Hi as [<-|[<-|[<-|[]]]]; injection Hr as <- <-; reflexivity.
      - rewrite word_reads_back_ok in H by (eauto using base_rate_In; lia). done. }
    cbn [mbind option_bind contribution]. rewrite Z.eqb_refl. unfold row_cover.
    by destruct (Z.land (Z.shiftr n 52) 1 =? 0).
  - destruct (rate_of_stem BASE_RATE_HZ stem) as [r|] eqn:Es; [|done].
    cbn [mbind option_bind contribution]. destruct (Z.eqb_spec r rate) as [->|]; [|done].
    destruct E. clear -Es Hr. generalize dependent stem. intros stem Es.
    apply rate_of_stem_word in Es as (a & b & Hi & ->).
    assert (base_rate rate = Some (a, b)) as Hab.
    { unfold BASE_RATE_HZ in Hi. destruct Hi as [E|[E|[E|[]]]]; injection E as <- <- <-; reflexivity. }
    rewrite Hr in Hab. by injection Hab as -> ->.
Qed.

(** The image generator's own cover ([aem_maps.base_channel_cover]), asked for a
    rate, is the builder's cover at that rate: the completion the builder
    derives is judged by the same measure the gate on the image uses. *)
Theorem base_format_cover_agrees fmts cover rate nsr spf :
  base_format_cover fmts = Ok cover -> base_rate rate = Some (nsr, spf) ->
  AudioMaps.base_channel_cover (map AudioMaps.FmtStr fmts) (aaf_word nsr spf 0 false)
  = Ok (default ∅ (cover !! rate)).
Proof.
  intros Hc Hr. apply base_format_cover_Ok in Hc as (_ & rows & Hm & Hc). rewrite Hc. clear Hc.
  unfold AudioMaps.base_channel_cover.
  assert (forall got, foldR (fun got f => let* n := AudioMaps.fmt_value f in
      Ok (got ∪ AudioMaps.format_cover (aaf_word nsr spf 0 false) n)) got (map AudioMaps.FmtStr fmts)
    = Ok (got ∪ contributions rate rows)) as G.
  { revert rows Hm. induction fmts as [|f fmts IH]; intros rows Hm got; cbn [map foldR mapR] in *.
    - injection Hm as <-. change (contributions rate []) with (∅ : gset Z).
      by rewrite (right_id_L ∅ (∪)).
    - rsplit Hm. subst rows. unfold base_format_rate, fmt_int in Hm0. cbn [AudioMaps.fmt_value].
      destruct (py_int16 f) as [n|]; [|done]. cbn [rbind] in Hm0 |- *. injection Hm0 as <-.
      rewrite (IH _ Hm1), (format_cover_contribution _ _ _ _ Hr).
      change (contributions rate (base_format_row n :: v0))
        with (contribution rate (base_format_row n) ∪ contributions rate v0).
      by rewrite (assoc_L (∪)). }
  rewrite G. by rewrite (left_id_L ∅ (∪)).
Qed.

(** * The wire width *)

(** [c] is a channel count some talker's format list advertises. *)
Definition advertised (cfg : front_end) (c : Z) : Prop :=
  exists f, In f (concat (fe_talker_formats cfg)) /\ fmt_channels f = Ok (Some c).

Lemma AUDIO_IF_SLOTS_cases kind :
  AUDIO_IF_SLOTS kind = 0 \/ AUDIO_IF_SLOTS kind = 8 \/ AUDIO_IF_SLOTS kind = 16 \/ AUDIO_IF_SLOTS kind = 32.
Proof. unfold AUDIO_IF_SLOTS. repeat case_match; tauto. Qed.

Lemma framer_pair_supply_pos fb cfg : 1 <= framer_pair_supply fb cfg.
Proof.
  unfold framer_pair_supply, audio_if_slots. destruct (interface_is_placeholder fb cfg); [done|].
  destruct (AUDIO_IF_SLOTS_cases (fe_kind cfg)) as [->|[->|[->| ->]]];
    destruct (i2s_pair_blended fb cfg); done.
Qed.

Lemma framer_declared_spec cfg d : framer_declared_channels cfg = Ok d ->
  0 < d /\ (forall c, advertised cfg c -> c <= d) /\ (advertised cfg d \/ d = WIRE_CHANS_MIN).
Proof.
  unfold framer_declared_channels, advertised. intros H. rsplit H.
  assert (0 <= v /\ (forall f c, In f (concat (fe_talker_formats cfg)) ->
            fmt_channels f = Ok (Some c) -> c <= v) /\
          (v = 0 \/ exists f, In f (concat (fe_talker_formats cfg)) /\ fmt_channels f = Ok (Some v)))
    as (Hp & Hle & Hv).
  { eapply (foldR_invariant (fun dn v => 0 <= v /\
        (forall f c, In f dn -> fmt_channels f = Ok (Some c) -> c <= v) /\
        (v = 0 \/ exists f, In f dn /\ fmt_channels f = Ok (Some v)))); [| |exact Hm].
    - split; [lia|]. split; [done|]. by left.
    - intros dn f rest t t' _ (H0 & H1 & H2) Hf. cbv beta in Hf.
      destruct (fmt_channels f) as [o|] eqn:E; [|done]. cbn [rbind] in Hf. injection Hf as <-.
      split_and!.
      + destruct o; lia.
      + intros g c [Hg|[<-|[]]]%in_app_iff Hc; [specialize (H1 g c Hg Hc); destruct o; lia|].
        rewrite E in Hc. injection Hc as ->. lia.
      + destruct o as [c|].
        * destruct (Z.max_spec t c) as [[_ ->]|[_ ->]].
          -- right. exists f. split; [apply in_app_iff; right; by left|done].
          -- destruct H2 as [->|(g & Hg & Hc)]; [by left|]. right. exists g.
             split; [apply in_app_iff; by left|done].
        * destruct H2 as [->|(g & Hg & Hc)]; [by left|]. right. exists g.
          split; [apply in_app_iff; by left|done]. }
  subst d. destruct (Z.eqb_spec v 0) as [->|Hne]; unfold WIRE_CHANS_MIN.
  - split; [lia|]. split; [|by right]. intros c (f & Hf & Hc). specialize (Hle f c Hf Hc). lia.
  - split; [lia|]. split; [intros c (f & Hf & Hc); by apply (Hle f c)|].
    left. destruct Hv as [->|Hv]; [done|exact Hv].
Qed.

(** The width the framer stamps: within 2..8, never more channels than the
    capture front-end feeds and, past the minimum, never more than some talker
    advertises; and it is the largest such width. *)
Theorem framer_wire_channels_spec fb cfg w :
  framer_wire_channels fb cfg = Ok w ->
  WIRE_CHANS_MIN <= w <= WIRE_CHANS_MAX /\
  w <= 2 * framer_pair_supply fb cfg /\
  (w = WIRE_CHANS_MIN \/ exists c, advertised cfg c /\ w <= c) /\
  (forall c, advertised cfg c -> c <= w \/ w = WIRE_CHANS_MAX \/ w = 2 * framer_pair_supply fb cfg).
Proof.
  unfold framer_wire_channels. intros H. rsplit H. rename v into d, Hm into Hd.
  apply framer_declared_spec in Hd as (Hpos & Hle & Hd).
  pose proof (framer_pair_supply_pos fb cfg) as Hs. unfold WIRE_CHANS_MIN, WIRE_CHANS_MAX in *.
  subst w. split_and!; try lia.
  - destruct Hd as [Hd| ->]; [|lia].
    destruct (Z.le_gt_cases (Z.min (Z.min 8 (framer_pair_supply fb cfg * 2)) d) 2); [lia|].
    right. exists d. split; [done|lia].
  - intros c Hc. specialize (Hle c Hc). lia.
Qed.

(** The docstring promises an even width; nothing rounds, and a talker that
    advertises three channels on a driven TDM8 bus makes it three, which the
    elaboration guard of milan_datapath refuses. *)
Lemma framer_wire_channels_odd :
  framer_wire_channels (Fabric true true true false)
    (FrontEnd "tdm8" 8 0 false [[lit "0x0205022000C06000"]]) = Ok 3.
Proof. vm_compute. reflexivity. Qed.

Lemma framer_wire_channels_spec_witness :
  exists w, framer_wire_channels (Fabric true true true true)
      (FrontEnd "tdm8" 8 2 true [[hex64 0x0205022002006000]; [hex64 0x0205022000806000]]) = Ok w /\
    w = 8 /\ w <= 2 * 5.
Proof.
  exists 8. split; [vm_compute; reflexivity|]. split; [reflexivity|].
  destruct (framer_wire_channels_spec (Fabric true true true true)
    (FrontEnd "tdm8" 8 2 true [[hex64 0x0205022002006000]; [hex64 0x0205022000806000]]) 8)
    as (_ & H & _); [vm_compute; reflexivity|exact H].
Defined.

(** * The render lane *)

(** A declared physical render width is accepted exactly when every one of its
    channels has a key of the lane the build renders through: at most two on the
    DAC lane, the whole frame of a TDM8 bus on the TDM lane, none otherwise. *)
Theorem validate_render_lane_iff cfg :
  validate_render_lane cfg = Ok tt <->
  fe_render cfg <= 0 \/
  render_lane cfg = Some "i2s"%string /\ fe_render cfg <= 2 \/
  render_lane cfg = Some "tdm"%string /\ fe_kind cfg = "tdm8"%string /\ fe_render cfg = 8.
Proof.
  unfold validate_render_lane. destruct (Z.leb_spec (fe_render cfg) 0) as [Hz|Hz]; [tauto|].
  unfold render_lane_width, render_lane. destruct (fe_i2s_playback cfg).
  - change (("i2s" =? "tdm")%string) with false.
    change (snd (RENDER_PHYS_LANES "i2s")) with 2. unfold raise_if.
    destruct (Z.ltb_spec 2 (fe_render cfg)); cbn [rbind].
    + split; [done|]. intros [?|[[_ ?]|[? _]]]; [lia|lia|done].
    + split; [|done]. intros _. right. left. by split.
  - destruct (Z.eqb_spec (AUDIO_IF_SLOTS (fe_kind cfg)) 0) as [E|E]; cbn [negb].
    { split; [done|]. by intros [?|[[? _]|[? _]]]; [lia| |]. }
    change (("tdm" =? "tdm")%string) with true. change (snd (RENDER_PHYS_LANES "tdm")) with 8.
    unfold raise_if. cbn match. split.
    + intros H. right. right. destruct (Z.ltb_spec (Z.min 8 (AUDIO_IF_SLOTS (fe_kind cfg))) (fe_render cfg));
        [done|]. cbn [rbind] in H.
      destruct (Z.eqb_spec (fe_render cfg) (AUDIO_IF_SLOTS (fe_kind cfg))) as [Er|]; [|done].
      unfold AUDIO_IF_SLOTS in *. destruct (String.eqb_spec (fe_kind cfg) "tdm8"); [by split_and!|].
      exfalso. destruct (fe_kind cfg =? "tdm16")%string, (fe_kind cfg =? "tdm32")%string; lia.
    + intros [?|[[? _]|(_ & -> & ->)]]; [lia|done|reflexivity].
Qed.

(** An elaborated render serializer is the whole frame of a bus the fabric
    drives, on a header the board routes. *)
Theorem render_slots_sound fb cfg :
  validate_render_lane cfg = Ok tt -> 0 < render_slots fb cfg ->
  render_slots fb cfg = 8 /\ render_slots fb cfg = audio_if_slots fb cfg /\
  render_lane_base cfg = 2 /\ fb_tdm_wired fb = true /\ fb_routes_tdm fb = true.
Proof.
  intros Hv. unfold render_slots. case_bool_decide as El; [|done]. cbn [negb orb].
  destruct (Z.leb_spec (audio_if_slots fb cfg) 0) as [|Ha]; [done|].
  destruct (Z.leb_spec (fe_render cfg) 0); [done|].
  destruct (fb_routes_tdm fb); [|done]. intros _.
  apply validate_render_lane_iff in Hv as [?|[[E _]|(_ & Hk & Hr)]]; [lia|congruence|].
  unfold render_lane_base. rewrite El. unfold audio_if_slots, interface_is_placeholder in *.
  rewrite Hk in *. rewrite Hr. cbn in Ha |- *. by destruct (fb_tdm_wired fb).
Qed.

Lemma render_slots_sound_witness :
  exists fb cfg, 0 < render_slots fb cfg /\ render_lane_base cfg = 2.
Proof.
  exists (Fabric true true true false), (FrontEnd "tdm8" 8 8 false []).
  split; [vm_compute; reflexivity|].
  destruct (render_slots_sound (Fabric true true true false) (FrontEnd "tdm8" 8 8 false []))
    as (_ & _ & H & _); [vm_compute; reflexivity|vm_compute; reflexivity|exact H].
Defined.

Definition sample_formats : list pystr := [hex64 0x0205022000806000; hex64 0x0207022000C0C000].

Lemma base_format_complete_spec_witness :
  exists cover, base_format_cover sample_formats = Ok cover /\
    exists extra, base_format_complete sample_formats = Ok (sample_formats ++ extra) /\
      base_format_complete (sample_formats ++ extra) = Ok (sample_formats ++ extra).
Proof.
  assert (exists cover, base_format_cover sample_formats = Ok cover) as [cover Hc]
    by (eexists; vm_compute; reflexivity).
  exists cover. split; [exact Hc|].
  destruct (base_format_complete_spec sample_formats cover Hc) as (extra & _ & H1 & _ & _ & _ & _ & _ & H2).
  exists extra. split; [exact H1|exact H2].
Defined.

Lemma base_format_rate_iff_witness :
  base_format_rate (hex64 0x0215022002006000) = Ok (Some (48000, 8, true)).
Proof.
  apply (base_format_rate_iff 0x0215022002006000 48000 8 true); [lia|].
  split; [lia|vm_compute; reflexivity].
Defined.

Lemma base_format_cover_agrees_witness :
  exists cover, base_format_cover sample_formats = Ok cover /\
    AudioMaps.base_channel_cover (map AudioMaps.FmtStr sample_formats) (aaf_word 5 6 0 false)
    = Ok (default ∅ (cover !! 48000)).
Proof.
  assert (exists cover, base_format_cover sample_formats = Ok cover) as [cover Hc]
    by (eexists; vm_compute; reflexivity).
  exists cover. split; [exact Hc|]. by apply (base_format_cover_agrees sample_formats cover 48000 5 6 Hc).
Defined.
