(* ===== verification/BuilderStreams.v ===== *)
(** The declared streams of a configuration
    ([sw/builder/endstation_builder.py], [_hex_text] to [_streams]).

    [streams] takes the value under [streams.listeners] or [streams.talkers]
    and returns normalized streams or a refusal.  A stream entry that is not a
    mapping, and a [name] that is not text, end in [EType]: the first is the
    exception Python raises, the second passes the loader and fails where the
    name is encoded. *)
From S2P Require Import Prelude Unicode Descriptors Text Config BuilderFormats.

Definition EUI64_MAX := 2 ^ 64 - 1.
Definition MAC48_MAX := 2 ^ 48 - 1.
Definition CRF_FORMAT_DEFAULT : pystr := lit "0x041060010000BB80".
Definition BUFLEN_DEFAULT_NS := 2126000.
Definition PRESENTATION_TIME_OFFSET_NS := 2000000.

(** * Quoted hexadecimal fields *)

(** The optional prefix [(?:0[xX])?] of [HEX_TEXT]. *)
Definition hex_prefix (s : pystr) : pystr :=
  match s with
  | a :: x :: s' => if (a =? 48) && ((x =? 120) || (x =? 88)) then s' else s
  | _ => s
  end.

(** [HEX_TEXT.fullmatch]: the value of the digit group and how many digits it
    has, underscores removed. *)
Definition HEX_TEXT (s : pystr) : option (Z * Z) :=
  let group := hex_prefix s in
  n ← hex_digits_us 0 false group;
  Some (n, zlen (List.filter (fun c => negb (c =? 95)) group)).

Definition hex_text (v : yaml) (bits : Z) (ctx : pystr) : result config_error Z :=
  match v with
  | YStr s =>
      match HEX_TEXT s with
      | None => Err (EHexText ctx)
      | Some (n, digits) =>
          let* _ := raise_if (bits / 4 <? digits) (EHexWide ctx digits bits) in Ok n
      end
  | _ => Err (ENotString ctx)
  end.

Definition eui64 (v : yaml) (ctx : pystr) : result config_error Z := hex_text v 64 ctx.

Definition model_id (v : yaml) (ctx : pystr) : result config_error Z :=
  let* n := eui64 v ctx in
  let* _ := raise_if ((n =? 0) || (n =? EUI64_MAX)) (EModelIdReserved ctx) in
  Ok n.

Definition fmt64 (v : yaml) (ctx : pystr) : result config_error pystr :=
  let* n := eui64 v ctx in Ok (hex64 n).

Definition pow2 (v : yaml) (ctx : pystr) : result config_error Z :=
  match int_like v with
  | Some n => if (0 <? n) && (Z.land n (n - 1) =? 0) then Ok n else Err (EPow2 ctx)
  | None => Err (EPow2 ctx)
  end.

(** [v == 0] also holds of [False] and of a zero float. *)
Definition pow2_or_zero (v : yaml) (ctx : pystr) : result config_error Z :=
  if num_is v 0 then Ok 0 else pow2 v ctx.

(** ** MAC addresses *)

Definition is_hex (c : Z) : bool := match hex_digit c with Some _ => true | None => false end.

(** [MAC_OCTETS.fullmatch]: the twelve digits, when the text is six octets with
    one separator. *)
Definition MAC_OCTETS (s : pystr) : option pystr :=
  match s with
  | [a; b; p; c; d; p1; e; f; p2; g; h; p3; i; j; p4; k; l] =>
      let digits := [a; b; c; d; e; f; g; h; i; j; k; l] in
      if forallb is_hex digits && ((p =? 58) || (p =? 45)) && forallb (Z.eqb p) [p1; p2; p3; p4]
      then Some digits else None
  | _ => None
  end.

(** The digits of a station MAC; empty when neither form matches. *)
Definition mac_digits (s : pystr) : pystr :=
  match MAC_OCTETS s with
  | Some ds => ds
  | None =>
      match HEX_TEXT s with
      | Some _ => List.filter (fun c => negb (c =? 95)) (hex_prefix s)
      | None => []
      end
  end.

Definition mac48 (v : yaml) (ctx : pystr) : result config_error Z :=
  match v with
  | YStr s =>
      let digits := mac_digits s in
      let* _ := raise_if (negb (zlen digits =? 12)) (EMac ctx) in
      let n := hex_value 0 digits in
      let* _ := raise_if (n =? 0) (EMacZero ctx) in
      let* _ := raise_if (negb (Z.land (Z.shiftr n 40) 1 =? 0)) (EMacGroup ctx) in
      Ok n
  | _ => Err (ENotString ctx)
  end.

(** * One stream *)

Inductive direction := Listener | Talker.
#[export] Instance direction_eq_dec : EqDecision direction.
Proof. solve_decision. Defined.

Definition is_listener (d : direction) : bool := match d with Listener => true | Talker => false end.

Inductive map_mode := Static | Dynamic.
#[export] Instance map_mode_eq_dec : EqDecision map_mode.
Proof. solve_decision. Defined.

(** A normalized stream.  The buffer length of a talker is carried unread. *)
Record stream := Stream {
  s_name : pystr;
  s_channels : Z;
  s_formats : list pystr;
  s_clusters : Z;
  s_map_mode : map_mode;
  s_map_page : option Z;
  s_buffer_length_ns : yaml;
  s_presentation_time_offset_ns : option Z;
}.

Definition factory_offset (raw : dict) (ctx : pystr) : result config_error Z :=
  match exact_int (get_or raw "presentation_time_offset_ns" (YInt PRESENTATION_TIME_OFFSET_NS)) with
  | Some z => if z =? PRESENTATION_TIME_OFFSET_NS then Ok z else Err (EFactoryOffset ctx)
  | None => Err (EFactoryOffset ctx)
  end.

Definition stream_buffer_ns (d : direction) (raw : dict) (ctx : pystr) : result config_error yaml :=
  let length_ns := get_or raw "buffer_length_ns" (YInt BUFLEN_DEFAULT_NS) in
  match d with
  | Talker => Ok length_ns
  | Listener =>
      match exact_int length_ns with
      | None => Err (EBufferFloor ctx)
      | Some n =>
          let* _ := raise_if (n <? BUFLEN_DEFAULT_NS) (EBufferFloor ctx) in
          let* _ := raise_if (UINT32_MAX <? n) (EBufferWide ctx) in
          Ok length_ns
      end
  end.

(** The subtype octet of a format word. *)
Definition subtype_of (word : pystr) : result config_error Z :=
  let* n := fmt_int word in Ok (Z.shiftr n 56).

(** [any(int(word, 16) >> 56 != family for word in formats)], which stops at the
    first that differs. *)
Fixpoint any_other_family (family : Z) (formats : list pystr) : result config_error bool :=
  match formats with
  | [] => Ok false
  | w :: ws =>
      let* t := subtype_of w in if negb (t =? family) then Ok true else any_other_family family ws
  end.

Definition validate_stream_formats (formats : list pystr) (ctx : pystr) (crf : bool)
    : result config_error unit :=
  let* _ := raise_if (MAX_STREAM_FORMATS <? zlen formats) (EFormatCount ctx (zlen formats)) in
  let* family := if crf then subtype_of CRF_FORMAT_DEFAULT
                 else let* w := aaf_pcm32 0 48000 false in Ok (Z.shiftr w 56) in
  let* other := any_other_family family formats in
  let* _ := raise_if other (EFormatFamily ctx) in
  raise_if (crf && existsb (fun w => negb (pystr_eqb w CRF_FORMAT_DEFAULT)) formats) (ECrfWord ctx).

Definition crf_format (v : yaml) (ctx : pystr) : result config_error pystr :=
  let* word := fmt64 v ctx in
  let* _ := validate_stream_formats [word] ctx true in
  Ok word.

(** An [int] within bounds, or the given refusal. *)
Definition bounded_int (v : yaml) (lo hi : Z) (e : config_error) : result config_error Z :=
  match int_like v with
  | Some n => if (lo <=? n) && (n <=? hi) then Ok n else Err e
  | None => Err e
  end.

(** The format list a config declares, or the Base format of the stream's own
    channel count at the unit's rate. *)
Definition declared_formats (s : dict) (ch rate_hz : Z) (fctx : pystr)
    : result config_error (list pystr) :=
  match as_list (get_or s "formats" (YList [])) with
  | None => Err (EFormatsList fctx)
  | Some [] =>
      let* w := aaf_pcm32 ch rate_hz false in
      let* f := fmt64 (YStr (hex64 w)) fctx in Ok [f]
  | Some fmts => mapR (fun f => fmt64 f fctx) fmts
  end.

(** The row of a format carries the [ut] bit. *)
Definition up_to (f : pystr) : result config_error bool :=
  let* row := base_format_rate f in
  Ok (match row with Some (_, _, ut) => ut | None => false end).

Definition listener_formats (fmts : list pystr) (fctx : pystr) : result config_error (list pystr) :=
  let* _ := foldR (fun _ f => let* ut := up_to f in raise_if ut (EUpToListener fctx)) tt fmts in
  base_format_complete fmts.

Definition stream_formats (d : direction) (s : dict) (ch rate_hz : Z) (fctx : pystr)
    : result config_error (list pystr) :=
  let* fmts := declared_formats s ch rate_hz fctx in
  let* head := match fmts with f :: _ => up_to f | [] => Err EKeyErr end in
  let* _ := raise_if head (EUpToHead fctx) in
  let* fmts := match d with Listener => listener_formats fmts fctx | Talker => Ok fmts end in
  let* _ := validate_stream_formats fmts fctx false in
  Ok fmts.

Definition stream_map_mode (d : direction) (s : dict) (ctx : pystr) : result config_error map_mode :=
  let v := get_or s "map_mode" (YStr (lit (if is_listener d then "dynamic" else "static"))) in
  let* m := if str_is v "static" then Ok Static
            else if str_is v "dynamic" then Ok Dynamic else Err (EMapMode ctx) in
  let* _ := raise_if (is_listener d && bool_decide (m <> Dynamic)) (EMapModeListener ctx) in
  Ok m.

Definition stream_map_page (s : dict) (m : map_mode) (ctx : pystr) : result config_error (option Z) :=
  match get_or s "map_page" YNull with
  | YNull => Ok None
  | v =>
      let* _ := raise_if (bool_decide (m <> Dynamic)) (EMapPageMode ctx) in
      let* p := bounded_int v 1 11 (EMapPage ctx) in Ok (Some p)
  end.

Definition stream_name (d : direction) (k : Z) (s : dict) : result config_error pystr :=
  match get_or s "name" (YStr (lit "Stream " ++ lit (if is_listener d then "In" else "Out")
                               ++ lit " " ++ dec k)) with
  | YStr n => Ok n
  | _ => Err EType
  end.

Definition stream_offset (d : direction) (s : dict) (ctx : pystr) : result config_error (option Z) :=
  match d with
  | Talker => let* o := factory_offset s ctx in Ok (Some o)
  | Listener =>
      let* _ := raise_if (bool_decide (is_Some (get s "presentation_time_offset_ns")))
                         (EOffsetOnListener ctx) in Ok None
  end.

Definition one_stream (d : direction) (rate_hz : Z) (ctx : pystr) (kv : Z * yaml)
    : result config_error stream :=
  let sctx := range_ctx ctx (fst kv) in
  match snd kv with
  | YMap s =>
      let* chv := req s "channels" sctx in
      let* ch := bounded_int chv 1 32 (EChannels sctx) in
      let* fmts := stream_formats d s ch rate_hz (sctx ++ lit ".formats") in
      let* clusters := bounded_int (get_or s "clusters" chv) 1 32 (EClusters sctx) in
      let* m := stream_map_mode d s sctx in
      let* page := stream_map_page s m sctx in
      let* name := stream_name d (fst kv) s in
      let* buf := stream_buffer_ns d s sctx in
      let* off := stream_offset d s sctx in
      Ok (Stream name ch fmts clusters m page buf off)
  | _ => Err EType
  end.

Definition streams (lst : yaml) (ctx : pystr) (d : direction) (rate_hz : Z)
    : result config_error (list stream) :=
  match as_list lst with
  | None | Some [] => Err (ENoStream ctx)
  | Some l =>
      let* _ := raise_if (16 <? zlen l) (EStreamCount ctx (zlen l)) in
      mapR (one_stream d rate_hz ctx) (enumerate l)
  end.

(** * The grammar of quoted hexadecimal text *)

(** Digits with at most one underscore between two of them, and their values. *)
Inductive hex_run : pystr -> list Z -> Prop :=
  | HexOne c d : hex_digit c = Some d -> hex_run [c] [d]
  | HexNext c d s ds : hex_digit c = Some d -> hex_run s ds -> hex_run (c :: s) (d :: ds)
  | HexUnder c d s ds : hex_digit c = Some d -> hex_run s ds -> hex_run (c :: 95 :: s) (d :: ds).

Definition hex_number (acc : Z) (ds : list Z) : Z := fold_left (fun a d => a * 16 + d) ds acc.

Lemma hex_run_cons s ds : hex_run s ds -> exists c d s' ds', s = c :: s' /\ ds = d :: ds' /\ hex_digit c = Some d.
Proof. destruct 1; naive_solver. Qed.

Lemma hex_digits_us_run acc s n :
  (hex_digits_us acc false s = Some n <-> exists ds, hex_run s ds /\ n = hex_number acc ds) /\
  (hex_digits_us acc true s = Some n <->
     s = [] /\ n = acc \/ (exists ds, hex_run s ds /\ n = hex_number acc ds) \/
     exists s' ds, s = 95 :: s' /\ hex_run s' ds /\ n = hex_number acc ds).
Proof.
  revert acc. induction s as [|c s IH]; intros acc; cbn [hex_digits_us].
  - split; split; try done.
    + intros (ds & H & _). by apply hex_run_cons in H as (? & ? & ? & ? & ? & _).
    + intros [= ->]. by left.
    + intros [[_ ->]|[(ds & H & _)|(s' & ds & ? & _)]]; [done| |done].
      by apply hex_run_cons in H as (? & ? & ? & ? & ? & _).
  - destruct (hex_digit c) as [d|] eqn:Ed.
    + assert (c <> 95) as H95 by (intros ->; done).
      assert (hex_digits_us (acc * 16 + d) true s = Some n <->
        exists ds, hex_run (c :: s) ds /\ n = hex_number acc ds) as G.
      { rewrite (proj2 (IH (acc * 16 + d))). split.
        - intros [[-> ->]|[(ds & H & ->)|(s' & ds & -> & H & ->)]];
            [exists [d]|exists (d :: ds)|exists (d :: ds)]; (split; [by constructor|reflexivity]).
        - intros (ds & H & ->). inversion H as [c' d' Hd|c' d' s' ds' Hd Hr|c' d' s' ds' Hd Hr]; subst;
            rewrite Ed in Hd; injection Hd as <-; eauto 8. }
      split; [exact G|]. rewrite G. split; [tauto|].
      by intros [[? _]|[H|(s' & ds & [= -> _] & _)]]; [| |by destruct H95].
    + destruct (Z.eqb_spec c 95) as [->|Hc]; cbn [andb].
      * split; [split; [done|]|].
        { intros (ds & H & _). by apply hex_run_cons in H as (? & ? & ? & ? & [= <- <-] & _ & ?). }
        rewrite (proj1 (IH acc)). split.
        { intros (ds & H & ->). right. right. by exists s, ds. }
        intros [[? _]|[(ds & H & _)|(s' & ds & [= <-] & H & ->)]]; [done| |by exists ds].
        by apply hex_run_cons in H as (? & ? & ? & ? & [= <- <-] & _ & ?).
      * split; (split; [done|]).
        -- intros (ds & H & _). apply hex_run_cons in H as (? & ? & ? & ? & [= <- <-] & _ & ?). congruence.
        -- intros [[? _]|[(ds & H & _)|(s' & ds & [= ? _] & _)]]; [done| |done].
           apply hex_run_cons in H as (? & ? & ? & ? & [= <- <-] & _ & ?). congruence.
Qed.

Lemma hex_run_count s ds : hex_run s ds -> zlen (List.filter (fun c => negb (c =? 95)) s) = zlen ds.
Proof.
  assert (forall c d, hex_digit c = Some d -> (c =? 95) = false) as Hne.
  { intros c d Hd. apply Z.eqb_neq. intros ->. done. }
  induction 1 as [c d Hd|c d s ds Hd _ IH|c d s ds Hd _ IH]; cbn [List.filter];
    rewrite (Hne _ _ Hd); cbn [negb]; [done|..].
  - by rewrite !zlen_cons, IH.
  - change (95 =? 95) with true. cbn [negb]. by rewrite !zlen_cons, IH.
Qed.

Lemma hex_run_digits s ds : hex_run s ds -> Forall (fun d => 0 <= d < 16) ds.
Proof.
  assert (forall c d, hex_digit c = Some d -> 0 <= d < 16) as Hb.
  { intros c d. unfold hex_digit. repeat case_match; bool_prop; intros [= <-]; lia. }
  induction 1; constructor; eauto.
Qed.

Lemma hex_number_bound ds acc : 0 <= acc -> Forall (fun d => 0 <= d < 16) ds ->
  0 <= hex_number acc ds < (acc + 1) * 16 ^ zlen ds.
Proof.
  intros Ha H. revert acc Ha. induction H as [|d ds Hd _ IH]; intros acc Ha; cbn [hex_number fold_left].
  - change (16 ^ zlen []) with 1. lia.
  - specialize (IH (acc * 16 + d) ltac:(lia)). unfold hex_number in IH.
    rewrite zlen_cons, Z.pow_add_r by (pose proof (zlen_nonneg ds); lia).
    rewrite Z.pow_1_r. nia.
Qed.

(** A run of as many digits as the field has fits the field. *)
Lemma hex_run_fits bits s ds : 0 <= bits -> hex_run s ds -> zlen ds <= bits / 4 ->
  0 <= hex_number 0 ds < 2 ^ bits.
Proof.
  intros Hb Hr Hl. destruct (hex_number_bound ds 0 ltac:(lia) (hex_run_digits _ _ Hr)) as [Hlo Hhi].
  split; [done|]. rewrite Z.mul_1_l in Hhi. eapply Z.lt_le_trans; [exact Hhi|].
  change 16 with (2 ^ 4). rewrite <-Z.pow_mul_r by (pose proof (zlen_nonneg ds); lia).
  apply Z.pow_le_mono_r; [lia|]. pose proof (Z.mul_div_le bits 4). lia.
Qed.

Lemma hex_prefix_split s :
  exists prefix, s = prefix ++ hex_prefix s /\ In prefix [[]; lit "0x"; lit "0X"].
Proof.
  destruct s as [|a [|x s']]; [by exists []; split; [|left]|by exists []; split; [|left]|].
  cbn [hex_prefix]. destruct (Z.eqb_spec a 48) as [->|]; cbn [andb]; [|by exists []; split; [|left]].
  destruct (Z.eqb_spec x 120) as [->|]; cbn [orb].
  - exists (lit "0x"). split; [done|right; by left].
  - destruct (Z.eqb_spec x 88) as [->|]; [|by exists []; split; [|left]].
    exists (lit "0X"). split; [done|right; right; by left].
Qed.

Lemma hex_prefix_run prefix body ds :
  In prefix [[]; lit "0x"; lit "0X"] -> hex_run body ds -> hex_prefix (prefix ++ body) = body.
Proof.
  intros Hp Hr. destruct Hp as [<-|[<-|[<-|[]]]]; try done. cbn [app].
  destruct body as [|a [|x body]]; try done. cbn [hex_prefix].
  destruct ((a =? 48) && ((x =? 120) || (x =? 88))) eqn:E; [|done]. exfalso.
  apply andb_true_iff in E as [_ Ex]. rewrite orb_true_iff, !Z.eqb_eq in Ex.
  inversion Hr as [|c d s' ds' Hd Hr'|c d s' ds' Hd Hr']; subst; [|lia].
  apply hex_run_cons in Hr' as (c' & d' & ? & ? & [= <- _] & _ & Hx).
  destruct Ex as [->| ->]; done.
Qed.

(** A quoted field is accepted exactly when its text is an optional [0x] or
    [0X], then hex digits with single underscores between them and at most as
    many digits as the field has; the value is the number they spell, and fits. *)
Theorem hex_text_iff v bits ctx n : 0 <= bits ->
  hex_text v bits ctx = Ok n <->
  exists prefix body ds, v = YStr (prefix ++ body) /\
    In prefix [[]; lit "0x"; lit "0X"] /\ hex_run body ds /\ zlen ds <= bits / 4 /\
    n = hex_number 0 ds /\ 0 <= n < 2 ^ bits.
Proof.
  intros Hbits. unfold hex_text. split.
  - destruct v as [| | |s| | |]; try done. unfold HEX_TEXT.
    destruct (hex_digits_us 0 false (hex_prefix s)) as [m|] eqn:E; [|done]. cbn [mbind option_bind].
    apply hex_digits_us_run in E as (ds & Hr & ->). rewrite (hex_run_count _ _ Hr).
    intros H. rsplit H. bool_prop. subst n.
    destruct (hex_prefix_split s) as (p & Es & Hp).
    exists p, (hex_prefix s), ds. rewrite <-Es. split_and!; try done; by eapply hex_run_fits.
  - intros (p & body & ds & -> & Hp & Hr & Hl & -> & _).
    unfold HEX_TEXT. rewrite (hex_prefix_run _ _ _ Hp Hr).
    assert (hex_digits_us 0 false body = Some (hex_number 0 ds)) as ->.
    { apply hex_digits_us_run. by exists ds. }
    cbn [mbind option_bind]. rewrite (hex_run_count _ _ Hr).
    by rewrite (proj2 (Z.ltb_ge _ _) Hl).
Qed.

(** * What an accepted stream satisfies *)

(** A format the builder prints: sixteen digits of an AAF word. *)
Definition aaf_text (f : pystr) : Prop := exists n, f = hex64 n /\ 0 <= n < 2 ^ 64 /\ Z.shiftr n 56 = 2.

(** [ut] is not set in the current format. *)
Definition current_format_ok (fmts : list pystr) : Prop :=
  exists f rest, fmts = f :: rest /\ up_to f = Ok false.

Definition family_complete (fmts : list pystr) : Prop :=
  exists cover, base_format_cover fmts = Ok cover /\
    forall rate, is_Some (cover !! rate) -> covered cover rate = true.

Record wf_stream (d : direction) (s : stream) : Prop := WfStream {
  ws_channels : 1 <= s_channels s <= 32;
  ws_clusters : 1 <= s_clusters s <= 32;
  ws_count : 1 <= zlen (s_formats s) <= MAX_STREAM_FORMATS;
  ws_formats : Forall aaf_text (s_formats s);
  ws_current : current_format_ok (s_formats s);
  ws_complete : d = Listener -> family_complete (s_formats s);
  ws_mode : d = Listener -> s_map_mode s = Dynamic;
  ws_page : forall p, s_map_page s = Some p -> 1 <= p <= 11 /\ s_map_mode s = Dynamic;
  ws_buffer : d = Listener -> exists n, s_buffer_length_ns s = YInt n /\ BUFLEN_DEFAULT_NS <= n <= UINT32_MAX;
  ws_offset : s_presentation_time_offset_ns s =
              match d with Listener => None | Talker => Some PRESENTATION_TIME_OFFSET_NS end;
}.

Lemma bounded_int_Ok v lo hi e n : bounded_int v lo hi e = Ok n -> lo <= n <= hi /\ int_like v = Some n.
Proof.
  unfold bounded_int. destruct (int_like v) as [m|]; [|done].
  destruct ((lo <=? m) && (m <=? hi)) eqn:E; [|done]. intros [= <-]. by bool_prop.
Qed.

Lemma hex_text_range v bits ctx n : 0 <= bits -> hex_text v bits ctx = Ok n -> 0 <= n < 2 ^ bits.
Proof. intros Hb H. by apply hex_text_iff in H as (? & ? & ? & _ & _ & _ & _ & _ & ?). Qed.

Lemma fmt64_Ok v ctx f : fmt64 v ctx = Ok f -> exists n, f = hex64 n /\ 0 <= n < 2 ^ 64.
Proof.
  unfold fmt64, eui64. intros H. rsplit H. exists v0. split; [done|]. by eapply hex_text_range.
Qed.

Lemma subtype_of_hex64 n : 0 <= n -> subtype_of (hex64 n) = Ok (Z.shiftr n 56).
Proof. intros H. unfold subtype_of. by rewrite fmt_int_hex64. Qed.

(** The texts a [_fmt64] returned: every later reading of them succeeds. *)
Definition format_text (f : pystr) : Prop := exists n, f = hex64 n /\ 0 <= n < 2 ^ 64.

Lemma any_other_family_spec family fmts : Forall format_text fmts ->
  exists b, any_other_family family fmts = Ok b /\
    (b = false -> Forall (fun f => exists n, f = hex64 n /\ 0 <= n < 2 ^ 64 /\ Z.shiftr n 56 = family) fmts).
Proof.
  induction 1 as [|f fmts (n & -> & Hn) _ (b & Hb & IH)]; cbn [any_other_family].
  - by exists false.
  - rewrite subtype_of_hex64 by lia. cbn [rbind].
    destruct (Z.eqb_spec (Z.shiftr n 56) family); cbn [negb]; [|by exists true].
    exists b. split; [done|]. intros E. constructor; [by exists n|by apply IH].
Qed.

Lemma validate_aaf_Ok fmts ctx : Forall format_text fmts ->
  validate_stream_formats fmts ctx false = Ok tt ->
  zlen fmts <= MAX_STREAM_FORMATS /\ Forall aaf_text fmts.
Proof.
  intros Hf H. unfold validate_stream_formats in H. rsplit H. bool_prop. split; [done|].
  destruct (aaf_pcm32_Ok 0 48000 false v1 ltac:(lia) Hm1) as (_ & _ & _ & Hs). rewrite Hs in Hm0. subst v0 v2.
  destruct (any_other_family_spec 2 fmts Hf) as (b & Hb & Hall).
  rewrite Hb in Hm2. apply Ok_inj in Hm2 as ->. by apply Hall.
Qed.

Lemma declared_formats_Ok s ch rate ctx fmts : 1 <= ch <= 32 ->
  declared_formats s ch rate ctx = Ok fmts -> Forall format_text fmts /\ fmts <> [].
Proof.
  intros Hc. unfold declared_formats. destruct (as_list _) as [[|x l]|]; [| |done]; intros H.
  - rsplit H. subst fmts. split; [|done]. constructor; [|done]. by eapply fmt64_Ok.
  - apply mapR_Ok in H. inversion H as [|? f ? fs Hf Hr]; subst. split; [|done].
    constructor; [by eapply fmt64_Ok|]. clear -Hr.
    induction Hr; constructor; [by eapply fmt64_Ok|done].
Qed.

Lemma completion_entry_text rate : In rate [48000; 96000; 192000] -> format_text (completion_entry rate).
Proof.
  intros H. unfold completion_entry. destruct (aaf_pcm32_total 8 rate true H) as [w Hw]. rewrite Hw.
  destruct (aaf_pcm32_Ok 8 rate true w ltac:(lia) Hw) as (_ & _ & Hb & _). by exists w.
Qed.

Lemma format_texts_cover fmts : Forall format_text fmts -> exists cover, base_format_cover fmts = Ok cover.
Proof.
  intros H. apply (base_format_cover_total fmts (map (fun f => match fmt_int f with Ok n => base_format_row n | _ => None end) fmts)).
  induction H as [|f fmts (n & -> & Hn) _ IH]; cbn [map mapR]; [done|].
  rewrite base_format_rate_hex64, fmt_int_hex64 by lia. cbn [rbind]. by rewrite IH.
Qed.

(** The completed list of a listener. *)
Lemma complete_texts fmts : Forall format_text fmts ->
  exists extra, base_format_complete fmts = Ok (fmts ++ extra) /\ Forall format_text (fmts ++ extra) /\
    family_complete (fmts ++ extra).
Proof.
  intros H. destruct (format_texts_cover _ H) as [cover Hc].
  destruct (base_format_cover_Ok _ _ Hc) as [Hw _].
  exists (map completion_entry (missing_rates cover)). rewrite (base_format_complete_eq _ _ Hc).
  split; [done|]. split.
  - apply Forall_app. split; [done|]. apply Forall_map.
    eapply Forall_impl; [exact (missing_rates_base _ Hw)|]. apply completion_entry_text.
  - by apply completed_full.
Qed.

Lemma stream_formats_Ok d s ch rate ctx fmts : 1 <= ch <= 32 ->
  stream_formats d s ch rate ctx = Ok fmts ->
  1 <= zlen fmts <= MAX_STREAM_FORMATS /\ Forall aaf_text fmts /\ current_format_ok fmts /\
  (d = Listener -> family_complete fmts).
Proof.
  intros Hc H. unfold stream_formats in H. rsplit H. subst v2.
  destruct (declared_formats_Ok _ _ _ _ _ Hc Hm) as [Ht Hne].
  destruct v as [|f rest]; [done|]. rename v0 into head.
  assert (head = false) as -> by (by destruct head).
  assert (exists extra, fmts = (f :: rest) ++ extra /\ Forall format_text fmts /\
    (d = Listener -> family_complete fmts)) as (extra & -> & Htext & Hfam).
  { destruct d.
    - unfold listener_formats in Hm2. rsplit Hm2.
      destruct (complete_texts _ Ht) as (extra & He & Ht' & Hfull).
      rewrite He in Hm2. apply Ok_inj in Hm2 as <-. by exists extra.
    - apply Ok_inj in Hm2 as <-. exists []. by rewrite app_nil_r. }
  destruct v3. destruct (validate_aaf_Ok _ _ Htext Hm3) as [Hl Ha].
  split_and!; try done.
  - rewrite zlen_app, zlen_cons. pose proof (zlen_nonneg rest). pose proof (zlen_nonneg extra). lia.
  - by exists f, (rest ++ extra).
Qed.

Lemma one_stream_wf d rate ctx kv s : one_stream d rate ctx kv = Ok s -> wf_stream d s.
Proof.
  destruct kv as [k v]. unfold one_stream. cbn [fst snd]. destruct v as [| | | | | |m]; try done.
  intros H. rsplit H. subst s.
  repeat match goal with Hb : bounded_int _ _ _ _ = Ok _ |- _ => apply bounded_int_Ok in Hb as [? _] end.
  match goal with Hf : stream_formats _ _ _ _ _ = Ok _ |- _ =>
    apply stream_formats_Ok in Hf as (? & ? & ? & ?); [|done] end.
  constructor; cbn [s_channels s_clusters s_formats s_map_mode s_map_page s_buffer_length_ns
    s_presentation_time_offset_ns]; try done.
  - intros ->. match goal with Hm : stream_map_mode _ _ _ = Ok _ |- _ =>
      unfold stream_map_mode in Hm; rsplit Hm; subst end.
    match goal with Hm : is_listener Listener && _ = false |- _ => cbn [is_listener andb] in Hm;
      apply bool_decide_eq_false in Hm end.
    match goal with |- ?m = Dynamic => destruct (decide (m = Dynamic)); [done|by exfalso; auto] end.
  - intros p ->. match goal with Hp : stream_map_page _ _ _ = Ok _ |- _ => unfold stream_map_page in Hp;
      destruct (get_or m "map_page" YNull); rsplit Hp; try done; injection Hp as -> end;
    match goal with Hb : bounded_int _ _ _ _ = Ok _ |- _ => apply bounded_int_Ok in Hb as [? _] end;
    (split; [done|]); match goal with Hd : bool_decide (?m <> Dynamic) = false |- _ =>
      apply bool_decide_eq_false in Hd; destruct (decide (m = Dynamic)); [done|by exfalso; auto] end.
  - intros ->. match goal with Hb : stream_buffer_ns _ _ _ = Ok _ |- _ => unfold stream_buffer_ns in Hb;
      destruct (get_or m "buffer_length_ns" _) as [| |z| | | |]; cbn [exact_int] in Hb; try done;
      rsplit Hb; subst; bool_prop; by exists z end.
  - match goal with Ho : stream_offset _ _ _ = Ok _ |- _ => unfold stream_offset in Ho; destruct d;
      rsplit Ho; subst; [done|] end.
    match goal with Ho : factory_offset _ _ = Ok _ |- _ => unfold factory_offset in Ho;
      destruct (exact_int _) as [z|]; [|done]; destruct (Z.eqb_spec z PRESENTATION_TIME_OFFSET_NS); [|done];
      apply Ok_inj in Ho as <-; by subst end.
Qed.

(** Whatever the document under [streams.listeners] or [streams.talkers] holds,
    an accepted list has 1 to 16 streams and each is well-formed: channel and
    cluster counts in 1..32, 1 to [MAX_STREAM_FORMATS] AAF words printed in
    sixteen digits of which the first carries no [ut] bit; a listener's list
    covers the whole Base family of every rate it supports, its port is dynamic
    and its buffer meets the Milan floor within 32 bits; a talker has the 2 ms
    factory offset. *)
Theorem streams_wf lst ctx d rate ss : streams lst ctx d rate = Ok ss ->
  1 <= zlen ss <= 16 /\ Forall (wf_stream d) ss.
Proof.
  unfold streams. destruct (as_list lst) as [[|x l]|]; [done| |done]. intros H. rsplit H. bool_prop.
  assert (zlen ss = zlen (x :: l)) as Hl.
  { unfold zlen. rewrite (mapR_length _ _ _ H). unfold enumerate. by rewrite enum_from_length. }
  rewrite Hl. split; [split; [rewrite zlen_cons; pose proof (zlen_nonneg l); lia|done]|].
  apply mapR_Ok in H. clear -H. induction H; constructor; [by eapply one_stream_wf|done].
Qed.

(** * The loader refuses; it does not crash *)

Lemma orderly_bounded_int v lo hi e : refusal e = true -> orderly (bounded_int v lo hi e).
Proof. intros H. unfold bounded_int. orderly. Qed.

Lemma orderly_hex_text v bits ctx : orderly (hex_text v bits ctx).
Proof. unfold hex_text. destruct v; orderly. Qed.

Lemma orderly_fmt64 v ctx : orderly (fmt64 v ctx).
Proof. unfold fmt64, eui64. apply orderly_bind; [apply orderly_hex_text|done]. Qed.

#[export] Hint Resolve orderly_hex_text orderly_fmt64 : orderly.
#[export] Hint Extern 1 (orderly (bounded_int _ _ _ _)) => apply orderly_bounded_int : orderly.

Lemma orderly_aaf_pcm32 ch rate ut : In rate [48000; 96000; 192000] -> orderly (aaf_pcm32 ch rate ut).
Proof. intros H. by destruct (aaf_pcm32_total ch rate ut H) as [w ->]. Qed.

Lemma orderly_declared s ch rate ctx : In rate [48000; 96000; 192000] ->
  orderly (declared_formats s ch rate ctx).
Proof.
  intros H. unfold declared_formats. destruct (as_list _) as [[|x l]|]; [| |done].
  - apply orderly_bind; [by apply orderly_aaf_pcm32|]. orderly.
  - apply orderly_mapR, List.Forall_forall. intros f _. apply orderly_fmt64.
Qed.

Lemma up_to_text f : format_text f -> exists b, up_to f = Ok b.
Proof.
  intros (n & -> & Hn). unfold up_to. rewrite base_format_rate_hex64 by lia. by eexists.
Qed.

Lemma orderly_validate fmts ctx crf : Forall format_text fmts -> orderly (validate_stream_formats fmts ctx crf).
Proof.
  intros H. unfold validate_stream_formats. apply orderly_bind; [orderly|]. intros _ _.
  apply orderly_bind; [destruct crf; vm_compute; exact I|]. intros family _.
  destruct (any_other_family_spec family _ H) as (b & -> & _). cbn [rbind]. orderly.
Qed.

Lemma orderly_stream_formats d s ch rate ctx : In rate [48000; 96000; 192000] -> 1 <= ch <= 32 ->
  orderly (stream_formats d s ch rate ctx).
Proof.
  intros Hr Hc. unfold stream_formats. apply orderly_bind; [by apply orderly_declared|].
  intros fmts Hf. apply (declared_formats_Ok _ _ _ _ _ Hc) in Hf as [Ht Hne].
  destruct fmts as [|f rest]; [done|]. apply Forall_cons in Ht as Hh. destruct Hh as [Hh _].
  destruct (up_to_text f Hh) as [b ->]. cbn [rbind]. apply orderly_bind; [orderly|]. intros _ _.
  destruct (complete_texts _ Ht) as (extra & He & Ht' & _).
  destruct d; cbn [rbind].
  - unfold listener_formats. rewrite He. apply orderly_bind.
    + apply orderly_bind; [|done]. apply orderly_foldR. eapply Forall_impl; [exact Ht|].
      intros g Hg t. destruct (up_to_text g Hg) as [c ->]. cbn [rbind]. orderly.
    + intros fmts H. rsplit H. subst fmts. apply orderly_bind; [by apply orderly_validate|done].
  - apply orderly_bind; [by apply orderly_validate|done].
Qed.

(** A stream entry is a mapping whose name, if given, is text. *)
Definition entry_typed (v : yaml) : Prop :=
  exists m, v = YMap m /\ forall n, get m "name" = Some n -> exists t, n = YStr t.

Lemma orderly_one_stream d rate ctx k v : In rate [48000; 96000; 192000] -> entry_typed v ->
  orderly (one_stream d rate ctx (k, v)).
Proof.
  intros Hr (m & -> & Hn). unfold one_stream. cbn [fst snd].
  apply orderly_bind; [orderly|]. intros chv _.
  apply orderly_bind; [by apply orderly_bounded_int|]. intros ch [Hc _]%bounded_int_Ok.
  apply orderly_bind; [by apply orderly_stream_formats|]. intros fmts _.
  apply orderly_bind; [by apply orderly_bounded_int|]. intros cl _.
  apply orderly_bind; [unfold stream_map_mode; orderly|]. intros mm _.
  apply orderly_bind.
  { unfold stream_map_page. destruct (get_or m "map_page" YNull); orderly; by apply orderly_bounded_int. }
  intros page _. apply orderly_bind.
  { unfold stream_name, get_or. destruct (get m "name") as [n|] eqn:E; [|done].
    by destruct (Hn n eq_refl) as [t ->]. }
  intros name _. apply orderly_bind.
  { unfold stream_buffer_ns. destruct d; [|done]. destruct (exact_int _); orderly. }
  intros buf _. apply orderly_bind; [|done].
  unfold stream_offset, factory_offset. destruct d; orderly.
Qed.

(** At one of the Base rates, and on entries of the right type, every stream
    document is answered with normalized streams or with a [ConfigError]: no
    format text the checks let through makes a later parse, table lookup or
    completion raise. *)
Theorem streams_orderly lst ctx d rate :
  In rate [48000; 96000; 192000] ->
  (forall l, as_list lst = Some l -> Forall entry_typed l) ->
  orderly (streams lst ctx d rate).
Proof.
  intros Hr Ht. unfold streams. destruct (as_list lst) as [[|x l]|] eqn:E; [done| |done].
  apply orderly_bind; [orderly|]. intros _ _. apply orderly_mapR.
  apply List.Forall_forall. intros [k v] [_ Hv]%enum_from_In.
  apply orderly_one_stream; [done|]. by apply (proj1 (List.Forall_forall _ _) (Ht _ eq_refl)).
Qed.

Definition sample_listeners : yaml :=
  YList [YMap [("channels"%string, YInt 8); ("formats"%string, YList [YStr (lit "0x0205_0220_0200_6000")])];
         YMap [("channels"%string, YInt 2); ("buffer_length_ns"%string, YInt 2126000)]].

Lemma streams_wf_witness :
  exists ss, streams sample_listeners (lit "streams.listeners") Listener 48000 = Ok ss /\ zlen ss = 2 /\ Forall (wf_stream Listener) ss.
Proof.
  assert (exists ss, streams sample_listeners (lit "streams.listeners") Listener 48000 = Ok ss /\ zlen ss = 2)
    as (ss & H & Hl) by (eexists; split; [vm_compute; reflexivity|reflexivity]).
  exists ss. split; [exact H|]. split; [exact Hl|].
  apply (streams_wf sample_listeners (lit "streams.listeners") Listener 48000 ss H).
Defined.

Lemma streams_orderly_witness :
  orderly (streams (YList [YMap [("channels"%string, YInt 40)]]) (lit "streams.talkers") Talker 96000).
Proof.
  apply (streams_orderly (YList [YMap [("channels"%string, YInt 40)]]) (lit "streams.talkers") Talker 96000).
  - simpl. tauto.
  - intros l E. cbn [as_list] in E. assert (l = [YMap [("channels"%string, YInt 40)]]) as -> by congruence.
    constructor; [|constructor]. exists [("channels"%string, YInt 40)]. split; [reflexivity|]. simpl. discriminate.
Defined.

Lemma hex_text_iff_witness : hex_text (YStr (lit "0x1_2")) 64 (lit "x") = Ok 18.
Proof.
  apply (hex_text_iff (YStr (lit "0x1_2")) 64 (lit "x") 18); [lia|].
  exists (lit "0x"), (lit "1_2"), [1; 2]. split; [reflexivity|]. split; [right; left; reflexivity|].
  split; [|split; [vm_compute; discriminate|split; [reflexivity|lia]]].
  apply (HexUnder 49 1 [50] [2]); [reflexivity|]. apply HexOne. reflexivity.
Defined.
