(* ===== verification/BuilderClusters.v ===== *)
(** Cluster blocks, role pools and static map numbering
    ([sw/builder/endstation_builder.py], [ClusterRules] to [cluster_names]).

    One STREAM_PORT per stream; every port owns a block of AUDIO_CLUSTERs, cut
    into role segments, and a static port owns one AUDIO_MAP.  The ports are
    built by two folds over the streams that carry the running cluster and map
    numbers, as the code does. *)
From S2P Require Import Prelude Unicode Descriptors Text Config BuilderFormats BuilderStreams.
From S2P Require Specs.

Definition CLUSTER_POLICIES : list string :=
  ["cap-at-interface"; "cluster-per-stream-channel"; "role-pools"]%string.

Record ClusterRules := mkClusterRules {
  cr_policy : string;
  cr_iface_channels : Z;
  cr_phys : option (Z * Z);          (* render, capture *)
  cr_pools : dict;
  cr_lb_backed : bool;
}.

(** A pool segment; [g_first] is where its channel numbering starts. *)
Record segment := Seg { g_role : string; g_offset : Z; g_width : Z; g_first : Z }.

(** A STREAM_PORT.  Input ports carry no [lb_backed] and read as backed; output
    ports carry no [map_page]. *)
Record port := Port {
  p_index : Z;
  p_stream_index : Z;
  p_clusters : Z;
  p_base_cluster : Z;
  p_maps : Z;
  p_base_map : Z;
  p_map_mode : map_mode;
  p_map_page : option Z;
  p_pool : list segment;
  p_lb_backed : bool;
}.

Definition cluster_widths (rules : ClusterRules) : Z * Z :=
  match cr_phys rules with
  | None => (cr_iface_channels rules, cr_iface_channels rules)
  | Some p => p
  end.

Definition effective_clusters (rules : ClusterRules) (s : stream) : Z :=
  if String.eqb (cr_policy rules) "cap-at-interface"
  then Z.min (s_clusters s) (cr_iface_channels rules) else s_clusters s.

Definition legacy_pool (dir_base n ph : Z) : list segment :=
  let n_phys := Z.max 0 (Z.min n (ph - dir_base)) in
  (if n_phys =? 0 then [] else [Seg "physical" 0 n_phys dir_base]) ++
  (if n - n_phys =? 0 then [] else [Seg "virtual" n_phys (n - n_phys) (dir_base + n_phys)]).

(** The segments of the roles with a positive width, packed from [off]. *)
Fixpoint pack_roles (off port_index : Z) (roles : list (string * Z)) : list segment :=
  match roles with
  | [] => []
  | (role, width) :: roles' =>
      if 0 <? width then
        Seg role off width (if String.eqb role "loopback" then port_index else 0)
          :: pack_roles (off + width) port_index roles'
      else pack_roles off port_index roles'
  end.

(** [int(pools.get("loopback", 0))]. *)
Definition pool_loopback (pools : dict) : result config_error Z :=
  py_int (get_or pools "loopback" (YInt 0)).

Definition role_pool (rules : ClusterRules) (d : direction) (port_index : Z) (widths : Z * Z)
    : result config_error (list segment) :=
  let '(ph_render, ph_capture) := widths in
  let pools := cr_pools rules in
  let input := is_listener d in
  let pilot := if input then 0
               else if truthy (get_or pools "pilot" YNull) then 1 else 0 in
  let* loopback := if input then Ok 0 else pool_loopback pools in
  let segs := pack_roles 0 port_index
    [("physical"%string, if input then ph_render else ph_capture);
     ("pilot"%string, pilot); ("loopback"%string, loopback)] in
  match segs with
  | [] => if input && (ph_render =? 0) then Ok [] else Err (EEmptyPool (negb input) port_index)
  | _ => Ok segs
  end.

(** The cluster count and pool of one port. *)
Definition port_block (rules : ClusterRules) (d : direction) (dir_base i : Z) (s : stream)
    : result config_error (Z * list segment) :=
  let widths := cluster_widths rules in
  if String.eqb (cr_policy rules) "role-pools" then
    let* pool := role_pool rules d i widths in
    Ok (sum_z (map g_width pool), pool)
  else
    let n := effective_clusters rules s in
    Ok (n, legacy_pool dir_base n (if is_listener d then fst widths else snd widths)).

Record walk := Walk { w_ports : list port; w_base : Z; w_next_map : Z; w_dir_base : Z }.

Definition input_step (rules : ClusterRules) (w : walk) (ks : Z * stream)
    : result config_error walk :=
  let '(i, s) := ks in
  let* (n, pool) := port_block rules Listener (w_dir_base w) i s in
  let dyn := bool_decide (s_map_mode s = Dynamic) in
  let p := Port i i n (w_base w) (if dyn then 0 else 1) (if dyn then 0 else w_next_map w)
             (s_map_mode s) (s_map_page s) pool true in
  Ok (Walk (w_ports w ++ [p]) (w_base w + n)
        (if dyn then w_next_map w else w_next_map w + 1) (w_dir_base w + n)).

Definition input_ports (listeners : list stream) (rules : ClusterRules)
    : result config_error (list port) :=
  let* w := foldR (input_step rules) (Walk [] 0 0 0) (enumerate listeners) in
  Ok (w_ports w).

Definition output_step (rules : ClusterRules) (w : walk) (js : Z * stream)
    : result config_error walk :=
  let '(j, s) := js in
  let* (n, pool) := port_block rules Talker (w_dir_base w) j s in
  let dyn := bool_decide (s_map_mode s = Dynamic) in
  let p := Port j j n (w_base w) (if dyn then 0 else 1) (if dyn then 0 else w_next_map w)
             (s_map_mode s) None pool (cr_lb_backed rules) in
  Ok (Walk (w_ports w ++ [p]) (w_base w + n)
        (if dyn then w_next_map w else w_next_map w + 1) (w_dir_base w + n)).

Definition output_ports (talkers : list stream) (rules : ClusterRules) (base next_map : Z)
    : result config_error (list port) :=
  let* w := foldR (output_step rules) (Walk [] base next_map 0) (enumerate talkers) in
  Ok (w_ports w).

Definition p_dynamic (p : port) : bool := bool_decide (p_map_mode p = Dynamic).

Definition set_page (page : Z) (p : port) : port :=
  if p_dynamic p then
    Port (p_index p) (p_stream_index p) (p_clusters p) (p_base_cluster p) (p_maps p) (p_base_map p)
      (p_map_mode p) (Some page) (p_pool p) (p_lb_backed p)
  else p.

(** The pages some dynamic port declares, without repeats. *)
Definition declared_pages (dynp : list port) : list Z := remove_dups (omap p_map_page dynp).

Definition settle_map_page (ports_in : list port) : result config_error (list port) :=
  match List.filter p_dynamic ports_in with
  | [] => Ok ports_in
  | p0 :: ps =>
      let dynp := p0 :: ps in
      let* page :=
        match declared_pages dynp with
        | [] => Ok (Z.max 1 (Z.min (max_z (p_clusters p0) (map p_clusters ps)) 8))
        | [page] => Ok page
        | pages => Err (EMapPageDiffer (sorted_z pages))
        end in
      let* _ := raise_if (negb ((1 <=? page) && (page <=? 11))) (EMapPageRange page) in
      Ok (map (set_page page) ports_in)
  end.

Definition cluster_layout (listeners talkers : list stream) (rules : ClusterRules)
    : result config_error (list port * list port) :=
  let* _ := raise_if (negb (existsb (String.eqb (cr_policy rules)) CLUSTER_POLICIES)) EPolicy in
  let* ports_in := input_ports listeners rules in
  let* ports_in := settle_map_page ports_in in
  let* ports_out := output_ports talkers rules
    (sum_z (map p_clusters ports_in)) (sum_z (map p_maps ports_in)) in
  Ok (ports_in, ports_out).

(** * The power-on source *)

Definition PRIMARY_ROLE_ORDER (d : direction) : list string :=
  match d with
  | Listener => ["physical"; "virtual"]%string
  | Talker => ["physical"; "loopback"; "pilot"; "virtual"]%string
  end.

(** The last segment of a role, as a dict built over the pool holds it. *)
Definition by_role (pool : list segment) (role : string) : option segment :=
  List.find (fun g => String.eqb (g_role g) role) (rev pool).

Definition primary_segment (p : port) (d : direction) : option segment :=
  let candidate role :=
    if negb (p_lb_backed p) && String.eqb role "loopback" then None else by_role (p_pool p) role in
  match omap candidate (PRIMARY_ROLE_ORDER d) with
  | g :: _ => Some g
  | [] => head (p_pool p)
  end.

(** * Cluster names *)

Definition IFACE_LABEL (kind : string) : pystr :=
  if String.eqb kind "i2s_philips" then lit "I2S" else if String.eqb kind "tdm8" then lit "TDM8"
  else if String.eqb kind "tdm16" then lit "TDM16" else if String.eqb kind "tdm32" then lit "TDM32"
  else if String.eqb kind "aes3" then lit "AES3" else if String.eqb kind "spdif" then lit "S/PDIF"
  else lit "AUDIO".

Record naming := Naming {
  nm_label : pystr;
  nm_way : pystr;
  nm_names : list pystr;
  nm_rx : list (Z * Z);
}.

(** The received channels [(stream, channel)] in order. *)
Definition rx_space (listeners : list stream) : list (Z * Z) :=
  concat (map (fun ks => map (fun ch => (fst ks, ch)) (zrange 0 (Z.to_nat (s_channels (snd ks)))))
              (enumerate listeners)).

Definition cluster_naming (kind : string) (names : option (list pystr)) (listeners : list stream)
    (d : direction) : naming :=
  Naming (IFACE_LABEL kind) (lit (if is_listener d then "Out" else "In")) (default [] names)
    (rx_space listeners).

Definition chname (ctx : naming) (k : Z) (fallback : pystr) : pystr :=
  if k <? zlen (nm_names ctx) then default fallback (py_index (nm_names ctx) k) else fallback.

Definition name_physical (ctx : naming) (first n : Z) : pystr :=
  nm_label ctx ++ lit " " ++ nm_way ctx ++ lit " " ++ chname ctx (first + n) (dec (first + n)).
Definition name_virtual (ctx : naming) (first n : Z) : pystr :=
  lit "Virtual " ++ nm_way ctx ++ lit " " ++ dec (first + n).
Definition name_pilot (ctx : naming) (first n : Z) : pystr := lit "Pilot Tone".

(** The received channel a loopback cluster of talker [first] offers. *)
Definition loopback_channel (rx : list (Z * Z)) (first n : Z) : option (Z * Z) :=
  match rx with
  | [] => None
  | _ => rx !! Z.to_nat ((Specs.rx_start 0 first rx + n) mod zlen rx)
  end.

Definition name_loopback (ctx : naming) (first n : Z) : pystr :=
  match loopback_channel (nm_rx ctx) first n with
  | None => lit "Loopback ch " ++ dec n
  | Some (si, ch) =>
      lit "Loopback S" ++ dec si ++ lit " " ++ chname ctx ch (lit "ch " ++ dec ch)
  end.

Definition CLUSTER_NAMERS (role : string) : option (naming -> Z -> Z -> pystr) :=
  if String.eqb role "physical" then Some name_physical
  else if String.eqb role "virtual" then Some name_virtual
  else if String.eqb role "pilot" then Some name_pilot
  else if String.eqb role "loopback" then Some name_loopback else None.

Definition segment_names (ctx : naming) (g : segment) : result config_error (list pystr) :=
  match CLUSTER_NAMERS (g_role g) with
  | None => Err (ENoNamer (g_role g))
  | Some namer => Ok (map (namer ctx (g_first g)) (zrange 0 (Z.to_nat (g_width g))))
  end.

Definition cluster_names (ctx : naming) (p : port) : result config_error (list pystr) :=
  let* parts := mapR (segment_names ctx) (p_pool p) in
  let out := concat parts in
  let* _ := raise_if (negb (zlen out =? p_clusters p)) EAssertion in
  Ok out.

(** * Segments tile a port *)

(** The segments cover [off..n-1] one after the other, none empty. *)
Fixpoint tiles (off : Z) (pool : list segment) (n : Z) : Prop :=
  match pool with
  | [] => off = n
  | g :: pool' => g_offset g = off /\ 0 < g_width g /\ tiles (off + g_width g) pool' n
  end.

Lemma tiles_le off pool n : tiles off pool n -> off <= n.
Proof.
  revert off. induction pool as [|g pool IH]; intros off; cbn [tiles]; [lia|].
  intros (_ & Hw & H). apply IH in H. lia.
Qed.

Lemma tiles_width off pool n : tiles off pool n -> sum_z (map g_width pool) = n - off.
Proof.
  revert off. induction pool as [|g pool IH]; intros off; cbn [tiles map sum_z foldr]; [lia|].
  intros (_ & _ & H). apply IH in H. unfold sum_z in H. rewrite H. lia.
Qed.

(** Every offset of the port lies in exactly one segment. *)
Lemma tiles_cover off pool n c : tiles off pool n -> off <= c < n ->
  exists g, In g pool /\ g_offset g <= c < g_offset g + g_width g /\
    forall g', In g' pool -> g_offset g' <= c < g_offset g' + g_width g' -> g' = g.
Proof.
  revert off. induction pool as [|g pool IH]; intros off; cbn [tiles]; [lia|].
  intros (Ho & Hw & H) Hc.
  assert (forall g', In g' pool -> off + g_width g <= g_offset g') as Hge.
  { clear -H. revert H. generalize (off + g_width g). induction pool as [|h pool IH]; intros o; [done|].
    cbn [tiles]. intros (Ho & Hw & Ht) g' [<-|Hg]; [lia|]. specialize (IH _ Ht _ Hg). lia. }
  destruct (Z.lt_ge_cases c (off + g_width g)).
  - exists g. split; [by left|]. split; [lia|]. intros g' [<-|Hg] Hb; [done|]. apply Hge in Hg. lia.
  - destruct (IH _ H) as (h & Hh & Hb & Hu); [lia|]. exists h. split; [by right|]. split; [done|].
    intros g' [<-|Hg] Hb'; [lia|]. by apply Hu.
Qed.

Lemma pack_roles_tiles roles off i : exists n, tiles off (pack_roles off i roles) n.
Proof.
  revert off. induction roles as [|[r w] roles IH]; intros off; cbn [pack_roles]; [by exists off|].
  destruct (Z.ltb_spec 0 w); [|apply IH]. destruct (IH (off + w)) as [n Hn]. by exists n.
Qed.

Lemma pack_roles_total roles i : tiles 0 (pack_roles 0 i roles) (sum_z (map g_width (pack_roles 0 i roles))).
Proof. destruct (pack_roles_tiles roles 0 i) as [n Hn]. by rewrite (tiles_width _ _ _ Hn), Z.sub_0_r. Qed.

Lemma legacy_pool_tiles dir_base n ph : 0 <= n -> tiles 0 (legacy_pool dir_base n ph) n.
Proof.
  intros Hn. unfold legacy_pool. set (k := Z.max 0 (Z.min n (ph - dir_base))).
  assert (0 <= k <= n) as Hk by lia. clearbody k.
  destruct (Z.eqb_spec k 0) as [E|]; (destruct (Z.eqb_spec (n - k) 0) as [E2|]);
    cbn [app tiles g_offset g_width]; lia.
Qed.

(** Every role a layout uses has a namer. *)
Definition known_roles (pool : list segment) : Prop := Forall (fun g => is_Some (CLUSTER_NAMERS (g_role g))) pool.

Lemma pack_roles_known roles off i :
  Forall (fun r => is_Some (CLUSTER_NAMERS (fst r))) roles -> known_roles (pack_roles off i roles).
Proof.
  intros H. revert off. induction H as [|[r w] roles Hr _ IH]; intros off; cbn [pack_roles]; [constructor|].
  destruct (0 <? w); [|apply IH]. constructor; [exact Hr|apply IH].
Qed.

(** What the layout needs of the streams and of the interface. *)
Definition layout_inputs_ok (rules : ClusterRules) (l : list stream) : Prop :=
  0 <= cr_iface_channels rules /\ Forall (fun s => 0 <= s_clusters s) l.

Lemma port_block_ok rules d dir_base i s n pool :
  0 <= cr_iface_channels rules -> 0 <= s_clusters s ->
  port_block rules d dir_base i s = Ok (n, pool) -> tiles 0 pool n /\ known_roles pool.
Proof.
  intros Hi Hs. unfold port_block. destruct (cr_policy rules =? "role-pools")%string.
  - intros H. rsplit H. injection H as <- <-. unfold role_pool in Hm.
    destruct (cluster_widths rules) as [pr pc]. rsplit Hm.
    match type of Hm with match ?l with _ => _ end = _ => set (roles := l) in Hm end.
    assert (roles = v \/ roles = []) as Hr.
    { destruct roles; [by right|left; by injection Hm]. }
    destruct Hr as [<-|Hr].
    + split; [apply pack_roles_total|]. apply pack_roles_known. repeat constructor; by eexists.
    + rewrite Hr in Hm. destruct (is_listener d && (pr =? 0)); [|done]. injection Hm as <-.
      split; [done|constructor].
  - intros [= <- <-]. unfold effective_clusters. split.
    + apply legacy_pool_tiles. destruct (cr_policy rules =? "cap-at-interface")%string; lia.
    + unfold known_roles, legacy_pool. apply Forall_app. split; case_match; repeat constructor; by eexists.
Qed.

(** * Ports lie one after the other *)

(** The ports own consecutive cluster blocks from [base], number themselves from
    [k], and the static ones number their maps from [next_map]. *)
Fixpoint laid (k base next_map : Z) (ports : list port) : Prop :=
  match ports with
  | [] => True
  | p :: ports' =>
      p_index p = k /\ p_stream_index p = k /\ p_base_cluster p = base /\
      p_maps p = (if p_dynamic p then 0 else 1) /\
      p_base_map p = (if p_dynamic p then 0 else next_map) /\
      tiles 0 (p_pool p) (p_clusters p) /\ known_roles (p_pool p) /\
      laid (k + 1) (base + p_clusters p) (next_map + p_maps p) ports'
  end.

Lemma laid_app k base m l1 l2 :
  laid k base m (l1 ++ l2) <->
  laid k base m l1 /\
  laid (k + zlen l1) (base + sum_z (map p_clusters l1)) (m + sum_z (map p_maps l1)) l2.
Proof.
  revert k base m. induction l1 as [|p l1 IH]; intros k base m; cbn [app laid map].
  - change (zlen []) with 0. change (sum_z []) with 0. rewrite !Z.add_0_r. tauto.
  - rewrite IH, zlen_cons. change (sum_z (?x :: ?l)) with (x + sum_z l).
    rewrite !Z.add_assoc. tauto.
Qed.

Lemma laid_set_page page k base m ports : laid k base m (map (set_page page) ports) <-> laid k base m ports.
Proof.
  revert k base m. induction ports as [|p ports IH]; intros k base m; cbn [map laid]; [done|].
  assert (p_dynamic (set_page page p) = p_dynamic p /\ p_clusters (set_page page p) = p_clusters p /\
    p_maps (set_page page p) = p_maps p /\ p_index (set_page page p) = p_index p /\
    p_stream_index (set_page page p) = p_stream_index p /\
    p_base_cluster (set_page page p) = p_base_cluster p /\ p_base_map (set_page page p) = p_base_map p /\
    p_pool (set_page page p) = p_pool p) as (-> & -> & -> & -> & -> & -> & -> & ->).
  { unfold set_page. by destruct (p_dynamic p) eqn:E. }
  by rewrite IH.
Qed.

(** ** The two walks *)

(** What one step of either walk appends. *)
Definition walked (k : Z) (s : stream) (w w' : walk) (p : port) : Prop :=
  w_ports w' = w_ports w ++ [p] /\ laid k (w_base w) (w_next_map w) [p] /\
  p_map_mode p = s_map_mode s /\
  w_base w' = w_base w + p_clusters p /\ w_next_map w' = w_next_map w + p_maps p.

Lemma input_step_walked rules w k s w' :
  0 <= cr_iface_channels rules -> 0 <= s_clusters s ->
  input_step rules w (k, s) = Ok w' ->
  exists p, walked k s w w' p /\ p_map_page p = s_map_page s /\ p_lb_backed p = true.
Proof.
  intros Hi Hs H. unfold input_step in H. rsplit H. destruct v as [n pool]. rsplit H. subst w'.
  destruct (port_block_ok _ _ _ _ _ _ _ Hi Hs Hm) as [Ht Hk].
  eexists. split; [split; [reflexivity|]|split; reflexivity].
  unfold p_dynamic. cbn. unfold p_dynamic. cbn. split_and!; try done.
  case_bool_decide; lia.
Qed.

Lemma output_step_walked rules w k s w' :
  0 <= cr_iface_channels rules -> 0 <= s_clusters s ->
  output_step rules w (k, s) = Ok w' ->
  exists p, walked k s w w' p /\ p_map_page p = None /\ p_lb_backed p = cr_lb_backed rules.
Proof.
  intros Hi Hs H. unfold output_step in H. rsplit H. destruct v as [n pool]. rsplit H. subst w'.
  destruct (port_block_ok _ _ _ _ _ _ _ Hi Hs Hm) as [Ht Hk].
  eexists. split; [split; [reflexivity|]|split; reflexivity].
  unfold p_dynamic. cbn. unfold p_dynamic. cbn. split_and!; try done.
  case_bool_decide; lia.
Qed.

(** A walk over the streams lays one port per stream, in order. *)
Lemma walk_laid (step : walk -> Z * stream -> result config_error walk) (Q : stream -> port -> Prop) :
  (forall w k s w', 0 <= s_clusters s -> step w (k, s) = Ok w' -> exists p, walked k s w w' p /\ Q s p) ->
  forall l w w' k, Forall (fun s => 0 <= s_clusters s) l -> foldR step w (enum_from k l) = Ok w' ->
  exists ports, w_ports w' = w_ports w ++ ports /\ laid k (w_base w) (w_next_map w) ports /\
    Forall2 (fun s p => p_map_mode p = s_map_mode s /\ Q s p) l ports.
Proof.
  intros Hstep l. induction l as [|s l IH]; intros w w' k Hl H; cbn [enum_from foldR] in H.
  - injection H as <-. exists []. rewrite app_nil_r. split_and!; [done|done|constructor].
  - rsplit H. apply Forall_cons in Hl as [Hs Hl].
    destruct (Hstep _ _ _ _ Hs Hm) as (p & (Hp & Hlaid & Hmode & Hb & Hn) & HQ).
    destruct (IH _ _ _ Hl H) as (ports & -> & Hrest & Hall).
    exists (p :: ports). rewrite Hp, <-app_assoc. split; [done|]. split.
    + cbn [laid] in Hlaid |- *. rewrite Hb, Hn in Hrest. tauto.
    + constructor; [by split|done].
Qed.

Lemma input_ports_laid l rules ports : layout_inputs_ok rules l -> input_ports l rules = Ok ports ->
  laid 0 0 0 ports /\ Forall2 (fun s p => p_map_mode p = s_map_mode s /\
    p_map_page p = s_map_page s /\ p_lb_backed p = true) l ports.
Proof.
  intros [Hi Hl] H. unfold input_ports in H. rsplit H. subst ports.
  destruct (walk_laid (input_step rules) (fun s p => p_map_page p = s_map_page s /\ p_lb_backed p = true)
    (fun w k s w' Hs => input_step_walked rules w k s w' Hi Hs) l _ _ 0 Hl Hm) as (ports & -> & ? & ?).
  by split.
Qed.

Lemma output_ports_laid l rules base m ports : layout_inputs_ok rules l ->
  output_ports l rules base m = Ok ports ->
  laid 0 base m ports /\ Forall2 (fun s p => p_map_mode p = s_map_mode s /\
    p_map_page p = None /\ p_lb_backed p = cr_lb_backed rules) l ports.
Proof.
  intros [Hi Hl] H. unfold output_ports in H. rsplit H. subst ports.
  destruct (walk_laid (output_step rules) (fun s p => p_map_page p = None /\ p_lb_backed p = cr_lb_backed rules)
    (fun w k s w' Hs => output_step_walked rules w k s w' Hi Hs) l _ _ 0 Hl Hm) as (ports & -> & ? & ?).
  by split.
Qed.

(** ** One page for every dynamic input port *)

Lemma settle_map_page_Ok ports ports' : settle_map_page ports = Ok ports' ->
  (forall p, In p ports -> p_dynamic p = false) /\ ports' = ports \/
  exists page, 1 <= page <= 11 /\ ports' = map (set_page page) ports /\
    (forall p q, In p ports -> p_dynamic p = true -> p_map_page p = Some q -> q = page) /\
    ((forall p, In p ports -> p_dynamic p = true -> p_map_page p = None) -> page <= 8).
Proof.
  unfold settle_map_page. destruct (List.filter p_dynamic ports) as [|p0 ps] eqn:E.
  - intros [= <-]. left. split; [|done]. intros p Hp. destruct (p_dynamic p) eqn:Ed; [|done].
    assert (In p (List.filter p_dynamic ports)) as Hin by (by apply filter_In). by rewrite E in Hin.
  - intros H. right. rsplit H. subst ports'. bool_prop. exists v. split; [lia|]. split; [done|].
    assert (forall p q, In p ports -> p_dynamic p = true -> p_map_page p = Some q ->
      q ∈ declared_pages (p0 :: ps)) as Hdecl.
    { intros p q Hp Hd Hq. unfold declared_pages. apply elem_of_remove_dups, list_elem_of_omap.
      exists p. split; [|done]. apply list_elem_of_In. rewrite <-E. by apply filter_In. }
    destruct (declared_pages (p0 :: ps)) as [|q0 [|q1 qs]] eqn:Ep; [..|done].
    + apply Ok_inj in Hm as <-. split; [|lia]. intros p q Hp Hd Hq.
      by apply Hdecl, elem_of_nil in Hq.
    + apply Ok_inj in Hm as <-. split.
      * intros p q Hp Hd Hq. eapply Hdecl in Hq; [|done|done]. by apply list_elem_of_singleton in Hq.
      * intros Hnone. exfalso. assert (q0 ∈ declared_pages (p0 :: ps)) as Hq by (rewrite Ep; by left).
        apply elem_of_remove_dups, list_elem_of_omap in Hq as (p & Hp & Hq).
        apply list_elem_of_In in Hp. rewrite <-E in Hp. apply filter_In in Hp as [Hp Hd].
        by rewrite (Hnone p Hp Hd) in Hq.
Qed.

Lemma settle_laid ports ports' k base m : settle_map_page ports = Ok ports' ->
  laid k base m ports -> laid k base m ports' /\ zlen ports' = zlen ports.
Proof.
  intros H Hl. apply settle_map_page_Ok in H as [[_ ->]|(page & _ & -> & _)]; [done|].
  split; [by apply laid_set_page|by rewrite zlen_map].
Qed.

(** The whole layout: input ports, then output ports, one numbering of clusters
    and maps across both. *)
Lemma cluster_layout_laid L T rules pin pout :
  layout_inputs_ok rules L -> layout_inputs_ok rules T ->
  cluster_layout L T rules = Ok (pin, pout) ->
  zlen pin = zlen L /\ zlen pout = zlen T /\ laid 0 0 0 pin /\
  laid 0 (sum_z (map p_clusters pin)) (sum_z (map p_maps pin)) pout.
Proof.
  intros HL HT H. unfold cluster_layout in H. rsplit H. injection H as <- <-.
  destruct (input_ports_laid _ _ _ HL Hm0) as [Hin Hf].
  destruct (settle_laid _ _ _ _ _ Hm1 Hin) as [Hin' Hlen].
  destruct (output_ports_laid _ _ _ _ _ HT Hm2) as [Hout Hf'].
  apply Forall2_length in Hf, Hf'. unfold zlen in *. split_and!; try done; lia.
Qed.

Definition in_block (p : port) (c : Z) : Prop := p_base_cluster p <= c < p_base_cluster p + p_clusters p.

Fixpoint blocks_from (base : Z) (ports : list port) : Prop :=
  match ports with
  | [] => True
  | p :: ports' => p_base_cluster p = base /\ tiles 0 (p_pool p) (p_clusters p) /\
      blocks_from (base + p_clusters p) ports'
  end.

Lemma laid_blocks k base m ports : laid k base m ports -> blocks_from base ports.
Proof.
  revert k base m. induction ports as [|p ports IH]; intros k base m; cbn [laid blocks_from]; [done|].
  intros (_ & _ & Hb & _ & _ & Ht & _ & H). split_and!; [done|done|by eapply IH].
Qed.

Lemma blocks_from_app base l1 l2 :
  blocks_from base l1 -> blocks_from (base + sum_z (map p_clusters l1)) l2 -> blocks_from base (l1 ++ l2).
Proof.
  revert base. induction l1 as [|p l1 IH]; intros base; cbn [app blocks_from map].
  - change (sum_z []) with 0. by rewrite Z.add_0_r.
  - change (sum_z (?x :: ?l)) with (x + sum_z l). rewrite Z.add_assoc. intros (? & ? & H) H2.
    split_and!; [done|done|by apply IH].
Qed.

Lemma blocks_from_bound base ports i p : blocks_from base ports -> ports !! i = Some p ->
  base <= p_base_cluster p /\ 0 <= p_clusters p /\
  p_base_cluster p + p_clusters p <= base + sum_z (map p_clusters ports).
Proof.
  revert base i. induction ports as [|q ports IH]; intros base i; [done|].
  cbn [blocks_from map]. change (sum_z (?x :: ?l)) with (x + sum_z l). intros (Hb & Ht & H).
  apply tiles_le in Ht. destruct i as [|i]; cbn [lookup list_lookup]; intros Hp.
  - injection Hp as <-. assert (0 <= sum_z (map p_clusters ports)); [|lia].
    clear -H. revert H. generalize (base + p_clusters q).
    induction ports as [|r ports IH]; intros b; [done|]. cbn [blocks_from map].
    change (sum_z (?x :: ?l)) with (x + sum_z l). intros (_ & Ht%tiles_le & H%IH). lia.
  - destruct (IH _ _ H Hp). lia.
Qed.

Lemma blocks_from_cover base ports c : blocks_from base ports ->
  base <= c < base + sum_z (map p_clusters ports) ->
  exists i p, ports !! i = Some p /\ in_block p c /\
    forall i' p', ports !! i' = Some p' -> in_block p' c -> i' = i.
Proof.
  revert base. induction ports as [|q ports IH]; intros base; cbn [blocks_from map].
  { change (sum_z []) with 0. lia. }
  change (sum_z (?x :: ?l)) with (x + sum_z l). intros (Hb & Ht & H) Hc. unfold in_block.
  destruct (Z.lt_ge_cases c (base + p_clusters q)).
  - exists 0%nat, q. split; [done|]. split; [lia|]. intros [|i'] p' Hp' Hin; [done|].
    cbn [lookup list_lookup] in Hp'. destruct (blocks_from_bound _ _ _ _ H Hp'). lia.
  - destruct (IH _ H) as (i & p & Hp & Hin & Hu); [lia|]. exists (S i), p. split; [done|].
    split; [exact Hin|]. intros [|i'] p' Hp' Hin'; cbn [lookup list_lookup] in Hp'.
    + injection Hp' as <-. lia.
    + f_equal. by eapply Hu.
Qed.

Definition p_static (p : port) : bool := negb (p_dynamic p).

Lemma laid_static k base m ports : laid k base m ports ->
  map p_base_map (List.filter p_static ports) = zrange m (length (List.filter p_static ports)) /\
  sum_z (map p_maps ports) = zlen (List.filter p_static ports).
Proof.
  revert k base m. induction ports as [|p ports IH]; intros k base m; cbn [laid List.filter map]; [done|].
  change (sum_z (?x :: ?l)) with (x + sum_z l).
  intros (_ & _ & _ & Hm & Hb & _ & _ & H). apply IH in H as [H1 H2]. rewrite H2, Hm. clear H2.
  assert (p_static p = negb (p_dynamic p)) as E by done. rewrite E. clear E.
  rewrite Hm in H1. destruct (p_dynamic p); cbn [negb map length zrange].
  - rewrite Z.add_0_r in H1. by rewrite H1.
  - rewrite H1, Hb, zlen_cons. done.
Qed.

(** C35: The STREAM_PORTs of a layout, inputs first, partition the AUDIO_CLUSTERs:
    every cluster index below the total belongs to exactly one port and, inside
    its block, to exactly one role segment; and the static ports own the AUDIO_MAP
    indices 0, 1, 2, ... in order, without a gap. *)
Theorem cluster_layout_partition L T rules pin pout :
  layout_inputs_ok rules L -> layout_inputs_ok rules T ->
  cluster_layout L T rules = Ok (pin, pout) ->
  let ports := pin ++ pout in
  zlen pin = zlen L /\ zlen pout = zlen T /\
  (forall c, 0 <= c < sum_z (map p_clusters ports) ->
     exists i p g, ports !! i = Some p /\ in_block p c /\ In g (p_pool p) /\
       g_offset g <= c - p_base_cluster p < g_offset g + g_width g /\
       (forall i' p', ports !! i' = Some p' -> in_block p' c -> i' = i) /\
       (forall g', In g' (p_pool p) ->
          g_offset g' <= c - p_base_cluster p < g_offset g' + g_width g' -> g' = g)) /\
  map p_base_map (List.filter p_static ports) = zrange 0 (length (List.filter p_static ports)) /\
  sum_z (map p_maps ports) = zlen (List.filter p_static ports).
Proof.
  intros HL HT H ports. destruct (cluster_layout_laid _ _ _ _ _ HL HT H) as (H1 & H2 & Hin & Hout).
  assert (blocks_from 0 ports) as Hb.
  { apply blocks_from_app; eapply laid_blocks; [exact Hin|]. exact Hout. }
  split; [done|]. split; [done|]. split.
  - intros c Hc. destruct (blocks_from_cover _ _ _ Hb Hc) as (i & p & Hp & Hi & Hu).
    assert (tiles 0 (p_pool p) (p_clusters p)) as Ht.
    { clear -Hb Hp. revert Hb Hp. generalize 0 at 1. revert i. induction ports as [|q l IH]; intros i b; [done|].
      cbn [blocks_from]. intros (_ & Ht & H). destruct i; cbn [lookup list_lookup];
        [by intros [= <-]|]. by eapply IH. }
    destruct (tiles_cover _ _ _ (c - p_base_cluster p) Ht) as (g & Hg & Hgc & Hgu).
    { unfold in_block in Hi. lia. }
    exists i, p, g. split_and!; try done; apply Hgc.
  - destruct (laid_static _ _ _ _ Hin) as [M1 S1], (laid_static _ _ _ _ Hout) as [M2 S2].
    unfold ports. rewrite List.filter_app, !map_app, length_app, sum_z_app, zlen_app, zrange_app, M1, M2.
    rewrite S1, S2. by split.
Qed.

(** All dynamic input ports share one GET_AUDIO_MAP page in 1..11; it is the one
    any of their streams declares, and without a declaration at most 8. *)
Theorem cluster_layout_page L T rules pin pout :
  layout_inputs_ok rules L -> cluster_layout L T rules = Ok (pin, pout) ->
  Forall2 (fun s p => p_map_mode p = s_map_mode s) L pin /\
  exists page, 1 <= page <= 11 /\
    Forall (fun p => p_dynamic p = true -> p_map_page p = Some page) pin /\
    (forall s q, In s L -> s_map_mode s = Dynamic -> s_map_page s = Some q -> q = page) /\
    ((forall s, In s L -> s_map_page s = None) -> page <= 8).
Proof.
  intros HL H. unfold cluster_layout in H. rsplit H. injection H as <- <-.
  destruct (input_ports_laid _ _ _ HL Hm0) as [_ Hf].
  assert (forall s, In s L -> exists p, In p v0 /\ p_map_mode p = s_map_mode s /\
    p_map_page p = s_map_page s) as Hfrom.
  { intros s Hs. destruct (Specs.Forall2_In_l _ _ _ _ Hf Hs) as (p & Hp & ? & ? & ?). by exists p. }
  apply settle_map_page_Ok in Hm1 as [[Hnone ->]|(page & Hp & -> & Hall & Hdef)].
  - split; [eapply Forall2_impl; [exact Hf|]; by intros ? ? (? & _)|]. exists 1. split; [lia|].
    split; [|split; [|lia]].
    + apply List.Forall_forall. intros p Hp Hd. by rewrite (Hnone p Hp) in Hd.
    + intros s q Hs Hd Hq. destruct (Hfrom s Hs) as (p & Hp & Hm' & _).
      specialize (Hnone p Hp). unfold p_dynamic in Hnone. rewrite Hm', Hd in Hnone. done.
  - split; [|exists page; split; [done|]; split; [|split]].
    + clear -Hf. induction Hf as [|s p l l' (Hm & _) _ IH]; constructor; [|done].
      unfold set_page. by destruct (p_dynamic p).
    + apply List.Forall_forall. intros p' (p & <- & _)%in_map_iff Hd. unfold set_page in *.
      destruct (p_dynamic p) eqn:E; [done|congruence].
    + intros s q Hs Hd Hq. destruct (Hfrom s Hs) as (p & Hpi & Hm' & Hpg).
      apply (Hall p q Hpi); [unfold p_dynamic; by rewrite Hm', Hd|congruence].
    + intros Hn. apply Hdef. intros p Hpi _.
      destruct (Specs.Forall2_In_r _ _ _ _ Hf Hpi) as (s & Hs & _ & Hpg & _). rewrite Hpg. by apply Hn.
Qed.

(** * Names *)

Lemma segment_names_length ctx g names : segment_names ctx g = Ok names ->
  0 <= g_width g -> zlen names = g_width g.
Proof.
  unfold segment_names. destruct (CLUSTER_NAMERS _); [|done]. intros [= <-] Hw.
  rewrite zlen_map. unfold zlen. rewrite zrange_length. lia.
Qed.

(** Every cluster of a laid port gets one name: neither the refusal of an
    unknown role nor the assertion on the count is reachable. *)
Lemma cluster_names_ok ctx p : tiles 0 (p_pool p) (p_clusters p) -> known_roles (p_pool p) ->
  exists names, cluster_names ctx p = Ok names /\ zlen names = p_clusters p.
Proof.
  intros Ht Hk. unfold cluster_names.
  destruct (mapR_total (segment_names ctx) (p_pool p)) as [parts Hparts].
  { eapply Forall_impl; [exact Hk|]. intros g [f Hf]. unfold segment_names. rewrite Hf. by eexists. }
  rewrite Hparts. cbn [rbind].
  assert (zlen (concat parts) = p_clusters p) as Hlen.
  { apply mapR_Ok in Hparts. pose proof (tiles_width _ _ _ Ht) as Hw. rewrite Z.sub_0_r in Hw.
    rewrite <-Hw. clear Hw. revert Ht. generalize (p_clusters p) 0. clear Hk.
    induction Hparts as [|g names l l' Hg _ IH]; intros n o; [done|]. cbn [tiles map concat].
    intros (_ & Hw & Ht). change (sum_z (?x :: ?l)) with (x + sum_z l).
    rewrite zlen_app, (segment_names_length _ _ _ Hg) by lia. by rewrite (IH _ _ Ht). }
  rewrite Hlen, Z.eqb_refl. by exists (concat parts).
Qed.

(** The channel a loopback cluster is named for is the channel its capture
    template reads ([aem_specs._cluster_source]), over the same receive space. *)
Lemma loopback_name_source lb rx j n src : rx <> [] ->
  Specs.cluster_source_of lb rx j "loopback" n = Ok src ->
  exists si ch, loopback_channel rx j n = Some (si, ch) /\
    Model.sr_idxh src = si /\ 2 * Model.sr_idx src + Model.sr_half src = ch.
Proof.
  intros Hrx H. unfold Specs.cluster_source_of in H.
  change ("loopback" =? "physical")%string with false in H.
  change ("loopback" =? "pilot")%string with false in H.
  change ("loopback" =? "loopback")%string with true in H. cbn match in H. rsplit H. subst src.
  destruct rx as [|r rx']; [done|]. set (rx := r :: rx') in *.
  unfold loopback_channel. fold rx. change (match rx with [] => None | _ => ?a end) with a.
  unfold Model.sub, py_index in Hm.
  assert (0 <= (Specs.rx_start 0 j rx + n) mod zlen rx) as Hnn.
  { apply Z.mod_pos_bound. unfold rx. rewrite zlen_cons. pose proof (zlen_nonneg rx'). lia. }
  apply Z.leb_le in Hnn. rewrite Hnn in Hm.
  destruct (rx !! _) as [[si ch]|] eqn:E; [|done]. apply Ok_inj in Hm as <-.
  exists si, ch. split; [reflexivity|]. cbn. split; [done|].
  pose proof (Z.div_mod ch 2 ltac:(lia)). lia.
Qed.

(** * The power-on source of a port *)

Lemma by_role_In pool role g : by_role pool role = Some g -> In g pool /\ g_role g = role.
Proof.
  unfold by_role. intros H%find_some. destruct H as [Hin Hr]. apply String.eqb_eq in Hr.
  split; [|done]. by apply in_rev.
Qed.

Lemma by_role_None pool role : by_role pool role = None -> Forall (fun g => g_role g <> role) pool.
Proof.
  unfold by_role. intros H. apply List.Forall_forall. intros g Hg Hr.
  pose proof (find_none _ _ H g ltac:(by apply in_rev in Hg)) as Hf. cbv beta in Hf. by rewrite Hr, String.eqb_refl in Hf.
Qed.

Lemma primary_segment_cases p d g : primary_segment p d = Some g ->
  In g (p_pool p) /\
  ((exists role, In role (PRIMARY_ROLE_ORDER d) /\ g_role g = role /\
      (p_lb_backed p = false -> role <> "loopback"%string)) \/
   head (p_pool p) = Some g /\
   Forall (fun role => (p_lb_backed p = false /\ role = "loopback"%string) \/
     Forall (fun h => g_role h <> role) (p_pool p)) (PRIMARY_ROLE_ORDER d)).
Proof.
  unfold primary_segment.
  set (candidate := fun role => if negb (p_lb_backed p) && String.eqb role "loopback" then None
                                else by_role (p_pool p) role).
  destruct (omap candidate (PRIMARY_ROLE_ORDER d)) as [|h l] eqn:E.
  - intros H. split; [by destruct (p_pool p); [done|injection H as <-; left]|]. right. split; [done|].
    apply List.Forall_forall. intros role Hr. destruct (candidate role) as [x|] eqn:Ec.
    + assert (x ∈ omap candidate (PRIMARY_ROLE_ORDER d)) as Hx.
      { apply list_elem_of_omap. exists role. split; [by apply list_elem_of_In|done]. }
      rewrite E in Hx. by apply elem_of_nil in Hx.
    + unfold candidate in Ec. destruct (p_lb_backed p); cbn [negb andb] in Ec.
      * right. by apply by_role_None.
      * destruct (String.eqb_spec role "loopback") as [->|]; [by left|]. right. by apply by_role_None.
  - intros [= <-]. assert (h ∈ omap candidate (PRIMARY_ROLE_ORDER d)) as Hh by (rewrite E; by left).
    apply list_elem_of_omap in Hh as (role & Hr & Hc). apply list_elem_of_In in Hr.
    unfold candidate in Hc. destruct (negb (p_lb_backed p) && (role =? "loopback")%string) eqn:Eb; [done|].
    apply by_role_In in Hc as [Hin Hro]. split; [done|]. left. exists role. split_and!; try done.
    intros Hlb ->. by rewrite Hlb in Eb.
Qed.

(** When a build leaves the loopback lane out, the power-on source of a talker
    port is a loopback segment only if the port has nothing else: every segment
    of its pool is a loopback one. *)
Theorem primary_segment_unbacked p g :
  known_roles (p_pool p) -> primary_segment p Talker = Some g ->
  p_lb_backed p = false -> g_role g = "loopback"%string ->
  head (p_pool p) = Some g /\ Forall (fun h => g_role h = "loopback"%string) (p_pool p).
Proof.
  intros Hk H Hlb Hg. apply primary_segment_cases in H as [_ [(role & _ & Hr & Hne)|[Hh Hall]]].
  - specialize (Hne Hlb). congruence.
  - split; [done|]. apply List.Forall_forall. intros h Hin.
    pose proof (proj1 (List.Forall_forall _ _) Hk h Hin) as [f Hf]. unfold CLUSTER_NAMERS in Hf.
    assert (forall role, In role (PRIMARY_ROLE_ORDER Talker) -> role <> "loopback"%string -> g_role h <> role) as Hno.
    { intros role Hr Hne. destruct (proj1 (List.Forall_forall _ _) Hall role Hr) as [[_ ?]|Hf']; [done|].
      exact (proj1 (List.Forall_forall _ _) Hf' h Hin). }
    destruct (String.eqb_spec (g_role h) "physical"); [by destruct (Hno "physical"%string); [by left| |]|].
    destruct (String.eqb_spec (g_role h) "virtual"); [by destruct (Hno "virtual"%string); [do 3 right; by left| |]|].
    destruct (String.eqb_spec (g_role h) "pilot"); [by destruct (Hno "pilot"%string); [do 2 right; by left| |]|].
    by destruct (String.eqb_spec (g_role h) "loopback").
Qed.

Definition loopback_only : ClusterRules :=
  mkClusterRules "role-pools" 8 (Some (8, 0)) [("loopback"%string, YInt 8)] false.

Definition sample_listener : stream :=
  Stream (lit "Stream In 0") 8 [hex64 0x0205022002006000] 8 Dynamic None (YInt 2126000) None.
Definition sample_talker : stream :=
  Stream (lit "Stream Out 0") 8 [hex64 0x0205022002006000] 8 Static None (YInt 2126000) (Some 2000000).

(** The comment of [_output_ports] says a loopback cluster can never become the
    power-on source of a build without the lane.  With no capture channel and no
    pilot the fallback makes it one: the static map of this talker wires all its
    channels to clusters the build does not feed. *)
Lemma primary_segment_loopback_without_lane :
  exists pin p, cluster_layout [sample_listener] [sample_talker] loopback_only = Ok (pin, [p]) /\
    p_lb_backed p = false /\ p_dynamic p = false /\
    option_map g_role (primary_segment p Talker) = Some "loopback"%string.
Proof. do 2 eexists. split_and!; vm_compute; reflexivity. Qed.

Definition role_pools : ClusterRules :=
  mkClusterRules "role-pools" 8 (Some (2, 8)) [("pilot"%string, YBool true); ("loopback"%string, YInt 8)] true.

Lemma role_pools_ok s : 0 <= s_clusters s -> layout_inputs_ok role_pools [s].
Proof. intros H. split; [done|]. by constructor. Qed.

Lemma cluster_layout_partition_witness :
  exists pin pout, cluster_layout [sample_listener] [sample_talker] role_pools = Ok (pin, pout) /\
    sum_z (map p_clusters (pin ++ pout)) = 19 /\
    (exists i p g, (pin ++ pout) !! i = Some p /\ in_block p 10 /\ In g (p_pool p)).
Proof.
  assert (exists pin pout, cluster_layout [sample_listener] [sample_talker] role_pools = Ok (pin, pout) /\
    sum_z (map p_clusters (pin ++ pout)) = 19) as (pin & pout & H & Hs)
    by (do 2 eexists; split; vm_compute; reflexivity).
  exists pin, pout. split; [exact H|]. split; [exact Hs|].
  destruct (cluster_layout_partition [sample_listener] [sample_talker] role_pools pin pout)
    as (_ & _ & Hc & _); [apply role_pools_ok; vm_compute; discriminate
                         |apply role_pools_ok; vm_compute; discriminate|exact H|].
  destruct (Hc 10) as (i & p & g & H1 & H2 & H3 & _); [rewrite Hs; lia|].
  exists i, p, g. split; [exact H1|]. split; [exact H2|exact H3].
Defined.

Lemma cluster_layout_page_witness :
  exists pin pout, cluster_layout [sample_listener] [sample_talker] role_pools = Ok (pin, pout) /\
    exists page, 1 <= page <= 11.
Proof.
  assert (exists pin pout, cluster_layout [sample_listener] [sample_talker] role_pools = Ok (pin, pout))
    as (pin & pout & H) by (do 2 eexists; vm_compute; reflexivity).
  exists pin, pout. split; [exact H|].
  destruct (cluster_layout_page [sample_listener] [sample_talker] role_pools pin pout)
    as (_ & page & Hp & _); [apply role_pools_ok; vm_compute; discriminate|exact H|].
  exists page. exact Hp.
Defined.

Lemma primary_segment_unbacked_witness :
  exists p g, primary_segment p Talker = Some g /\ Forall (fun h => g_role h = "loopback"%string) (p_pool p).
Proof.
  exists (Port 0 0 8 0 1 0 Static None [Seg "loopback" 0 8 0] false), (Seg "loopback" 0 8 0).
  split; [reflexivity|].
  apply (primary_segment_unbacked (Port 0 0 8 0 1 0 Static None [Seg "loopback" 0 8 0] false) (Seg "loopback" 0 8 0));
    [repeat constructor; eexists; reflexivity|reflexivity|reflexivity|reflexivity].
Defined.
