(* ===== verification/Srp.v ===== *)
(** The stream reservation of a configuration
    ([sw/builder/endstation_builder.py], [load_srp] and its helpers).

    Frame geometry and idle slope of each talker, the admission test against
    the port, and the reset words of the 0x680 register group.  The percentage
    [utilization_pct] is a float printed for a reader and is left out. *)
From S2P Require Import Prelude Unicode Descriptors Text Config BuilderFormats BuilderStreams BuilderClusters.
From S2P Require Specs.

Record sr_class := SrClass { sc_class_id : Z; sc_priority : Z; sc_intervals_ps : Z }.

Definition SRP_SR_CLASSES (name : yaml) : option sr_class :=
  if str_is name "A" then Some (SrClass 6 3 8000) else None.

Definition SRP_RANK := 1.
Definition AVTP_AAF_HDR_BYTES := 24.
Definition AAF_SAMPLE_OCTETS := 4.
Definition L2_HDR_BYTES := 18.
Definition MILAN_TSPEC_HEADROOM_B := 1.
Definition SRP_L2_OVERHEAD_B := 22.
Definition SRP_MIN_L2_BYTES_B := 68.
Definition SRP_WIRE_OVERHEAD_B := 20.
Definition SRP_CTX_IDX_BITS := 5.
Definition CRF_SRP_MAXFRAME_B := 28 + MILAN_TSPEC_HEADROOM_B.
Definition SRP_QUEUE_BITS := 3.

(** The [srp:] section with its defaults, before any check. *)
Record srp_section := SrpSection {
  sx_sr_class : yaml;
  sx_vid : yaml;
  sx_stream_dmac_base : yaml;
  sx_accumulated_latency_ns : yaml;
  sx_class_queue : yaml;
  sx_enable_at_reset : yaml;
  sx_talker_declare_at_reset : yaml;
  sx_bandwidth_limit_pct : yaml;
  sx_join_time_ms : yaml;
  sx_leave_time_ms : yaml;
  sx_leaveall_time_ms : yaml;
  sx_tspec_policy : yaml;
  sx_max_frame_bytes : yaml;
  sx_interval_frames : yaml;
  sx_rtl_table : yaml;
}.

Definition SRP_DEFAULTS : srp_section :=
  SrpSection (YStr (lit "A")) (YInt 2) (YStr (lit "0x91E0F000FE01")) (YInt 0) (YInt 4)
    (YBool false) (YBool false) (YInt 75) (YInt 200) (YInt 5000) (YInt 10000)
    (YStr (lit "derived")) (YInt 224) (YInt 1) (YBool false).

Record geometry := Geometry {
  ge_samples_per_frame : Z;
  ge_payload_bytes : Z;
  ge_avtpdu_bytes : Z;
  ge_l2_frame_bytes : Z;
  ge_max_frame_bytes : Z;
}.

Definition srp_frame_geometry (channels rate_hz intervals_ps : Z) : result config_error geometry :=
  let* _ := raise_if (negb (rate_hz mod intervals_ps =? 0)) (ESrpGeometry rate_hz) in
  let spf := rate_hz / intervals_ps in
  let payload := spf * channels * AAF_SAMPLE_OCTETS in
  let avtpdu := AVTP_AAF_HDR_BYTES + payload in
  Ok (Geometry spf payload avtpdu (L2_HDR_BYTES + avtpdu) (avtpdu + MILAN_TSPEC_HEADROOM_B)).

Definition srp_idle_slope_bps (max_frame_bytes interval_frames intervals_ps : Z) : Z :=
  let f := max_frame_bytes + SRP_L2_OVERHEAD_B in
  let f := if f <? SRP_MIN_L2_BYTES_B then SRP_MIN_L2_BYTES_B else f in
  (f + SRP_WIRE_OVERHEAD_B) * interval_frames * intervals_ps * 8.

(** What a reservation is computed against. *)
Record SrpShape := mkSrpShape {
  sh_listeners : list stream;
  sh_talkers : list stream;
  sh_sampling_rate_hz : Z;
  sh_crf_output : bool;
  sh_num_queues : Z;
  sh_link_mbps : Z;
  sh_wire_channels : option Z;
}.

(** [d.get(key) or {}], a refusal when it is not a mapping. *)
Definition section_dict (v : option yaml) : result config_error dict :=
  match v with
  | None => Ok []
  | Some v => if truthy v then match as_dict v with Some m => Ok m | None => Err ESrpMapping end else Ok []
  end.

Definition load_section (raw : option yaml) : result config_error srp_section :=
  let* raw := section_dict raw in
  let* tm := section_dict (get raw "timers_ms") in
  let* ts := section_dict (get raw "tspec") in
  let d := SRP_DEFAULTS in
  Ok (SrpSection
    (get_or raw "sr_class" (sx_sr_class d)) (get_or raw "vid" (sx_vid d))
    (get_or raw "stream_dmac_base" (sx_stream_dmac_base d))
    (get_or raw "accumulated_latency_ns" (sx_accumulated_latency_ns d))
    (get_or raw "class_queue" (sx_class_queue d))
    (get_or raw "enable_at_reset" (sx_enable_at_reset d))
    (get_or raw "talker_declare_at_reset" (sx_talker_declare_at_reset d))
    (get_or raw "bandwidth_limit_pct" (sx_bandwidth_limit_pct d))
    (get_or tm "join" (sx_join_time_ms d)) (get_or tm "leave" (sx_leave_time_ms d))
    (get_or tm "leaveall" (sx_leaveall_time_ms d)) (get_or ts "policy" (sx_tspec_policy d))
    (get_or ts "max_frame_bytes" (sx_max_frame_bytes d))
    (get_or ts "interval_frames" (sx_interval_frames d))
    (get_or raw "rtl_table" (sx_rtl_table d))).

(** [type(v) is not int or v != expected] refuses. *)
Definition exactly (v : yaml) (expected : Z) (e : config_error) : result config_error unit :=
  raise_if (negb (bool_decide (exact_int v = Some expected))) e.

(** [type(v) is int and lo <= v <= hi], or the refusal. *)
Definition exact_range (v : yaml) (lo hi : Z) (e : config_error) : result config_error Z :=
  match exact_int v with
  | Some n => if (lo <=? n) && (n <=? hi) then Ok n else Err e
  | None => Err e
  end.

(** What validation leaves of a section, typed. *)
Record srp_checked := SrpChecked {
  sk_class : sr_class;
  sk_vid : Z;
  sk_class_queue : Z;
  sk_interval_frames : Z;
  sk_max_frame_bytes : Z;
  sk_bandwidth_limit_pct : Z;
}.

Definition srp_validate (s : srp_section) (num_queues : Z) : result config_error srp_checked :=
  let* cls := match SRP_SR_CLASSES (sx_sr_class s) with Some c => Ok c | None => Err ESrpClass end in
  let* vid := bounded_int (sx_vid s) 1 4094 ESrpVid in
  let* _ := raise_if (negb (vid =? 2)) ESrpVidStart in
  let* _ := exactly (sx_join_time_ms s) 200 (ESrpTimer "join") in
  let* _ := exactly (sx_leave_time_ms s) 5000 (ESrpTimer "leave") in
  let* _ := exactly (sx_leaveall_time_ms s) 10000 (ESrpTimer "leaveall") in
  let* queue := bounded_int (sx_class_queue s) 0 (Z.shiftl 1 SRP_QUEUE_BITS - 1) ESrpQueueField in
  let* _ := raise_if (num_queues <=? queue) ESrpQueueBoard in
  let* _ := raise_if (negb (str_is (sx_tspec_policy s) "derived")) ESrpPolicy in
  let* frames := exact_range (sx_interval_frames s) 1 0xFFFF ESrpInterval in
  let* _ := raise_if (negb (frames =? 1)) ESrpIntervalOne in
  let* mf := exact_range (sx_max_frame_bytes s) 1 0xFFFF ESrpMaxFrame in
  let* pct := exact_range (sx_bandwidth_limit_pct s) 1 75 ESrpPct in
  Ok (SrpChecked cls vid queue frames mf pct).

(** [.strip().lower()] against an ASCII word. *)
Definition to_lower (c : Z) : Z := if (65 <=? c) && (c <=? 90) then c + 32 else c.
Definition is_maap (v : yaml) : bool :=
  match v with YStr s => pystr_eqb (map to_lower (strip_ws s)) (lit "maap") | _ => false end.

Definition srp_dmac (s : srp_section) : result config_error Z :=
  let v := if is_maap (sx_stream_dmac_base s) then sx_stream_dmac_base SRP_DEFAULTS
           else sx_stream_dmac_base s in
  let* dmac := hex_text v 48 (lit "srp.stream_dmac_base") in
  let* _ := raise_if (Z.land (Z.shiftr dmac 40) 1 =? 0) ESrpDmac in
  Ok dmac.

Definition bool_bit (v : yaml) (key : string) : result config_error bool :=
  match v with YBool b => Ok b | _ => Err (ESrpBool key) end.

Definition srp_reset_bits (s : srp_section) : result config_error (bool * bool * bool) :=
  let* e := bool_bit (sx_enable_at_reset s) "enable_at_reset" in
  let* t := bool_bit (sx_talker_declare_at_reset s) "talker_declare_at_reset" in
  let* r := bool_bit (sx_rtl_table s) "rtl_table" in
  Ok (e, t, r).

(** One attribute row; a listener row has no destination and reserves nothing. *)
Record srp_row := SrpRow {
  sr_direction : direction;
  sr_stream_index : Z;
  sr_name : pystr;
  sr_channels : Z;
  sr_unique_id : option Z;
  sr_dest_mac : option pystr;
  sr_max_frame_bytes : Z;
  sr_interval_frames : Z;
  sr_latency_ns : Z;
  sr_idle_slope_bps : Z;
  sr_l2_frame_bytes : Z;
  sr_samples_per_frame : Z;
}.

(** [f"0x{v:012X}"]. *)
Definition hex48 (v : Z) : pystr := lit "0x" ++ hex_pad 12 v.

(** The loop's [tspec_policy == "derived"] always holds here: [srp_validate]
    refuses every other policy. *)
Definition talker_row (c : srp_checked) (shape : SrpShape) (dmac lat : Z) (ts : Z * stream)
    : result config_error srp_row :=
  let '(t, st) := ts in
  let ips := sc_intervals_ps (sk_class c) in
  let* geo := srp_frame_geometry (default (s_channels st) (sh_wire_channels shape))
                (sh_sampling_rate_hz shape) ips in
  let mf := ge_max_frame_bytes geo in
  let* _ := raise_if (0xFFFF <? mf) (ESrpFrame t mf) in
  Ok (SrpRow Talker t (s_name st) (s_channels st) (Some t) (Some (hex48 (dmac + t))) mf
        (sk_interval_frames c) lat (srp_idle_slope_bps mf (sk_interval_frames c) ips)
        (ge_l2_frame_bytes geo) (ge_samples_per_frame geo)).

Definition listener_row (c : srp_checked) (shape : SrpShape) (ks : Z * stream)
    : result config_error srp_row :=
  let '(k, sl) := ks in
  let ips := sc_intervals_ps (sk_class c) in
  let* geo := srp_frame_geometry (s_channels sl) (sh_sampling_rate_hz shape) ips in
  Ok (SrpRow Listener k (s_name sl) (s_channels sl) None None 0 0 0 0 (ge_l2_frame_bytes geo)
        (sh_sampling_rate_hz shape / ips)).

Definition srp_rows (c : srp_checked) (shape : SrpShape) (dmac lat : Z)
    : result config_error (list srp_row * Z) :=
  let* trows := mapR (talker_row c shape dmac lat) (enumerate (sh_talkers shape)) in
  let* lrows := mapR (listener_row c shape) (enumerate (sh_listeners shape)) in
  Ok (trows ++ lrows, sum_z (map sr_idle_slope_bps trows)).

Record budget := Budget {
  bg_crf_tk : Z; bg_crf_slope : Z; bg_total_slope : Z; bg_limit_bps : Z; bg_link_bps : Z }.

Definition srp_budget (c : srp_checked) (shape : SrpShape) (total_slope : Z)
    : result config_error budget :=
  let link_bps := sh_link_mbps shape * 1000000 in
  let limit_bps := link_bps * sk_bandwidth_limit_pct c / 100 in
  let crf_tk := if sh_crf_output shape then 1 else 0 in
  let crf_slope := if sh_crf_output shape
                   then srp_idle_slope_bps CRF_SRP_MAXFRAME_B 1 (sc_intervals_ps (sk_class c)) else 0 in
  let total := total_slope + crf_slope in
  let* _ := raise_if (limit_bps <? total) (ESrpBudget total limit_bps) in
  Ok (Budget crf_tk crf_slope total limit_bps link_bps).

(** The resolved section. *)
Record srp := Srp {
  srp_checked_of : srp_checked;
  srp_stream_dmac_base : Z;               (* printed by [hex48] *)
  srp_accumulated_latency_ns : Z;
  srp_enable_at_reset : bool;
  srp_talker_declare_at_reset : bool;
  srp_rtl_table : bool;
  srp_prio_rank : Z;
  srp_attr_rows : list srp_row;
  srp_total_idle_slope_bps : Z;
  srp_limit_bps : Z;
  srp_link_bps : Z;
  srp_ctx_rows_required : Z;
  srp_ctx_rows_available : Z;
  srp_crf_idle_slope_bps : Z;
}.

Definition load_srp (raw : option yaml) (shape : SrpShape) : result config_error srp :=
  let L := zlen (sh_listeners shape) in
  let T := zlen (sh_talkers shape) in
  let* s := load_section raw in
  let* c := srp_validate s (sh_num_queues shape) in
  let* dmac := srp_dmac s in
  let* lat := py_int (sx_accumulated_latency_ns s) in
  let* _ := raise_if (negb ((0 <=? lat) && (lat <=? 0xFFFFFFFF))) ESrpLatency in
  let* (en, td, rtl) := srp_reset_bits s in
  let* (rows, slope) := srp_rows c shape dmac lat in
  let* b := srp_budget c shape slope in
  let required := L + T + bg_crf_tk b in
  let* _ := raise_if (Z.shiftl 1 SRP_CTX_IDX_BITS <? required) (ESrpRows required) in
  Ok (Srp c dmac lat en td rtl
        (Z.lor (Z.shiftl (sc_priority (sk_class c)) 5) (Z.shiftl SRP_RANK 4))
        rows (bg_total_slope b) (bg_limit_bps b) (bg_link_bps b)
        required (2 * Z.max L T + bg_crf_tk b) (bg_crf_slope b)).

(** * The 0x680 reset words *)

Definition bit (b : bool) : Z := if b then 1 else 0.

Definition srp_reset_words (s : srp) : list (string * Z) :=
  let dmac := srp_stream_dmac_base s in
  let c := srp_checked_of s in
  [("LWSRP_CTRL", Z.lor (Z.lor (bit (srp_enable_at_reset s))
                               (Z.shiftl (bit (srp_talker_declare_at_reset s)) 1))
                        (Z.shiftl (sk_class_queue c) 2));
   ("LWSRP_VID", sk_vid c);
   ("LWSRP_DMAC_LO", Z.land dmac 0xFFFFFFFF);
   ("LWSRP_DMAC_HI", Z.land (Z.shiftr dmac 32) 0xFFFF);
   ("LWSRP_TSPEC", Z.lor (Z.shiftl (sk_interval_frames c) 16) (sk_max_frame_bytes c));
   ("LWSRP_LATENCY", srp_accumulated_latency_ns s)]%string.

Definition SRP_CSR_OFFSETS : list (string * Z) :=
  [("LWSRP_CTRL", 0x680); ("LWSRP_VID", 0x684); ("LWSRP_DMAC_LO", 0x688); ("LWSRP_DMAC_HI", 0x68C);
   ("LWSRP_TSPEC", 0x690); ("LWSRP_LATENCY", 0x6A0)]%string.

Definition SRP_FROZEN_RESETS : list (string * Z) :=
  [("LWSRP_CTRL", 0x10); ("LWSRP_VID", 0x2); ("LWSRP_DMAC_LO", 0xF000FE01); ("LWSRP_DMAC_HI", 0x91E0);
   ("LWSRP_TSPEC", 0x000100E0); ("LWSRP_LATENCY", 0)]%string.
Definition SRP_FROZEN_PRIO_RANK := 0x70.

(** * Elaboration parameters *)

Definition lwsrp_module_params (L T : Z) (crf_output : bool) (milan_clk_hz num_queues : Z)
    : list (string * Z) :=
  let N := Z.max L T in
  let crf_tk := if crf_output then 1 else 0 in
  [("KL_lwsrp_top.CLK_FREQ_HZ_P", milan_clk_hz);
   ("KL_lwsrp_top.N_CTX_P", N + (N + crf_tk));
   ("KL_lwsrp_top.N_LISTENERS_P", N);
   ("KL_lwsrp_top.N_TALKERS_P", N + crf_tk);
   ("KL_lwsrp_bw_gate.N_STREAMS_P", N + crf_tk);
   ("milan_datapath.N_STREAMS", Z.max L T);
   ("milan_datapath.MILAN_CLK_FREQ_HZ", milan_clk_hz);
   ("milan_csr.N_LISTENERS_P", L);
   ("milan_csr.N_TALKERS_P", T);
   ("milan_csr.NUM_QUEUES", num_queues)]%string.

(** * What an admitted reservation satisfies *)

Lemma exact_range_Ok v lo hi e n : exact_range v lo hi e = Ok n -> lo <= n <= hi.
Proof.
  unfold exact_range. destruct (exact_int v) as [m|]; [|done].
  destruct ((lo <=? m) && (m <=? hi)) eqn:E; [|done]. intros [= <-]. by bool_prop.
Qed.

(** The checked section is the Milan profile: class A, VID 2, one frame per
    interval, and a ceiling of at most 75 percent. *)
Lemma srp_validate_Ok s q c : srp_validate s q = Ok c ->
  sk_class c = SrClass 6 3 8000 /\ sk_vid c = 2 /\ sk_interval_frames c = 1 /\
  0 <= sk_class_queue c < 8 /\ sk_class_queue c < q /\
  1 <= sk_max_frame_bytes c <= 0xFFFF /\ 1 <= sk_bandwidth_limit_pct c <= 75.
Proof.
  intros H. unfold srp_validate in H. rsplit H. subst c. cbn. bool_prop.
  repeat match goal with
  | Hb : bounded_int _ _ _ _ = Ok _ |- _ => apply bounded_int_Ok in Hb as [? _]
  | Hb : exact_range _ _ _ _ = Ok _ |- _ => apply exact_range_Ok in Hb
  | Hc : match SRP_SR_CLASSES ?x with _ => _ end = Ok _ |- _ => unfold SRP_SR_CLASSES in Hc;
      destruct (str_is x "A"); [|done]; apply Ok_inj in Hc
  end.
  change (Z.shiftl 1 SRP_QUEUE_BITS - 1) with 7 in *. subst. split_and!; try done; lia.
Qed.

(** A row that reserves covers the slot its frames occupy on the wire: the
    tagged frame with its FCS, padded to the minimum, plus preamble and gap. *)
Definition slot_covered (r : srp_row) : Prop :=
  (Z.max SRP_MIN_L2_BYTES_B (sr_l2_frame_bytes r + 4) + SRP_WIRE_OVERHEAD_B) * 8 * 8000
  <= sr_idle_slope_bps r.

Lemma idle_slope_covers mf l2 : l2 + 4 <= mf + SRP_L2_OVERHEAD_B ->
  (Z.max SRP_MIN_L2_BYTES_B (l2 + 4) + SRP_WIRE_OVERHEAD_B) * 8 * 8000
  <= srp_idle_slope_bps mf 1 8000.
Proof.
  intros H. unfold srp_idle_slope_bps, SRP_MIN_L2_BYTES_B, SRP_L2_OVERHEAD_B, SRP_WIRE_OVERHEAD_B in *.
  destruct (Z.ltb_spec (mf + 22) 68); lia.
Qed.

Lemma talker_row_Ok c shape dmac lat t st r :
  sk_class c = SrClass 6 3 8000 -> sk_interval_frames c = 1 ->
  talker_row c shape dmac lat (t, st) = Ok r ->
  slot_covered r /\ sr_max_frame_bytes r <= 0xFFFF /\ sr_direction r = Talker /\
  sr_dest_mac r = Some (hex48 (dmac + t)).
Proof.
  intros Hc Hi H. unfold talker_row in H. rewrite Hc, Hi in H. cbn [sc_intervals_ps] in H. rsplit H. subst r.
  unfold srp_frame_geometry in Hm. rsplit Hm. subst v.
  unfold slot_covered. cbn [sr_l2_frame_bytes sr_idle_slope_bps sr_max_frame_bytes sr_direction sr_dest_mac
    ge_l2_frame_bytes ge_max_frame_bytes] in *. bool_prop. split_and!; try done.
  apply idle_slope_covers. unfold SRP_L2_OVERHEAD_B, MILAN_TSPEC_HEADROOM_B, L2_HDR_BYTES. lia.
Qed.

Lemma listener_row_Ok c shape ks r : listener_row c shape ks = Ok r ->
  sr_idle_slope_bps r = 0 /\ sr_direction r = Listener /\ sr_dest_mac r = None.
Proof. destruct ks. intros H. unfold listener_row in H. rsplit H. by subst r. Qed.

Lemma srp_rows_Ok c shape dmac lat rows slope :
  sk_class c = SrClass 6 3 8000 -> sk_interval_frames c = 1 ->
  srp_rows c shape dmac lat = Ok (rows, slope) ->
  slope = sum_z (map sr_idle_slope_bps rows) /\
  zlen rows = zlen (sh_listeners shape) + zlen (sh_talkers shape) /\
  Forall (fun r => sr_direction r = Talker -> slot_covered r /\ sr_max_frame_bytes r <= 0xFFFF) rows.
Proof.
  intros Hc Hi H. unfold srp_rows in H. rsplit H. apply pair_eq in H as [<- <-].
  pose proof (mapR_length _ _ _ Hm) as L1. pose proof (mapR_length _ _ _ Hm0) as L2.
  unfold enumerate in L1, L2. rewrite enum_from_length in L1, L2.
  apply mapR_Ok in Hm, Hm0. split_and!.
  - rewrite map_app, sum_z_app.
    assert (sum_z (map sr_idle_slope_bps v0) = 0) as ->; [|lia]. clear -Hm0.
    induction Hm0 as [|ks r l l' Hr _ IH]; [done|]. apply listener_row_Ok in Hr as [Hr _].
    cbn [map]. change (sum_z (?x :: ?l)) with (x + sum_z l). lia.
  - rewrite zlen_app. unfold zlen. lia.
  - apply Forall_app. split; apply List.Forall_forall; intros r Hr Hd.
    + destruct (Specs.Forall2_In_r _ _ _ _ Hm Hr) as ([t st] & _ & Ht).
      by destruct (talker_row_Ok _ _ _ _ _ _ _ Hc Hi Ht) as (? & ? & _).
    + destruct (Specs.Forall2_In_r _ _ _ _ Hm0 Hr) as (ks & _ & Hk).
      apply listener_row_Ok in Hk as (_ & Hk & _). congruence.
Qed.

(** The percentage a section declares: its own, or 75. *)
Definition declared_pct (raw : option yaml) : yaml :=
  match raw with Some (YMap m) => get_or m "bandwidth_limit_pct" (YInt 75) | _ => YInt 75 end.

Lemma load_section_pct raw sec : load_section raw = Ok sec -> sx_bandwidth_limit_pct sec = declared_pct raw.
Proof.
  unfold load_section. intros H. rsplit H. subst sec. cbn [sx_bandwidth_limit_pct SRP_DEFAULTS].
  destruct raw as [[]|]; cbn in Hm; repeat (case_match; try discriminate); by injection Hm as <-.
Qed.

Lemma srp_validate_pct sec q c : srp_validate sec q = Ok c ->
  exact_int (sx_bandwidth_limit_pct sec) = Some (sk_bandwidth_limit_pct c).
Proof.
  unfold srp_validate. intros H. rsplit H. subst c. cbn [sk_bandwidth_limit_pct].
  match goal with Hp : exact_range (sx_bandwidth_limit_pct sec) _ _ _ = Ok _ |- _ =>
    unfold exact_range in Hp; destruct (exact_int (sx_bandwidth_limit_pct sec)); [|done];
    destruct (_ && _); [by injection Hp as ->|done] end.
Qed.


(** * The reset words *)

Lemma ctrl_word_fields (en td : bool) q : 0 <= q < 8 ->
  let w := Z.lor (Z.lor (bit en) (Z.shiftl (bit td) 1)) (Z.shiftl q 2) in
  Z.testbit w 0 = en /\ Z.testbit w 1 = td /\ Z.shiftr w 2 = q /\ 0 <= w < 32.
Proof.
  intros Hq. assert (q = 0 \/ q = 1 \/ q = 2 \/ q = 3 \/ q = 4 \/ q = 5 \/ q = 6 \/ q = 7) as H by lia.
  destruct en, td; destruct H as [->|[->|[->|[->|[->|[->|[->| ->]]]]]]]; vm_compute; split_and!; done.
Qed.

Lemma tspec_word_fields m : 0 <= m < 2 ^ 16 ->
  let w := Z.lor (Z.shiftl 1 16) m in
  Z.shiftr w 16 = 1 /\ Z.land w 0xFFFF = m /\ 0 <= w < 2 ^ 32.
Proof.
  intros Hm w.
  assert (Z.shiftr w 16 = 1) as Hhi.
  { unfold w. rewrite Z.shiftr_lor, (Z.shiftr_div_pow2 m), (Z.div_small m) by lia. reflexivity. }
  assert (Z.land w 0xFFFF = m) as Hlo.
  { unfold w. change 0xFFFF with (Z.ones 16). rewrite Z.land_lor_distr_l, (Z.land_ones m) by lia.
    rewrite (Z.mod_small m) by lia. change (Z.land (Z.shiftl 1 16) (Z.ones 16)) with 0. by rewrite Z.lor_0_l. }
  split_and!; try done; change 0xFFFF with (Z.ones 16) in Hlo;
    rewrite Z.land_ones in Hlo by lia; rewrite Z.shiftr_div_pow2 in Hhi by lia;
    pose proof (Z.div_mod w (2 ^ 16) ltac:(lia)); lia.
Qed.

Lemma dmac_words n : 0 <= n < 2 ^ 48 ->
  0 <= Z.land n 0xFFFFFFFF < 2 ^ 32 /\ 0 <= Z.land (Z.shiftr n 32) 0xFFFF < 2 ^ 32 /\
  Z.land n 0xFFFFFFFF + Z.shiftl (Z.land (Z.shiftr n 32) 0xFFFF) 32 = n.
Proof.
  intros Hn. change 0xFFFFFFFF with (Z.ones 32). change 0xFFFF with (Z.ones 16).
  rewrite !Z.land_ones, Z.shiftl_mul_pow2, Z.shiftr_div_pow2 by lia.
  assert (0 <= n / 2 ^ 32 < 2 ^ 16) as Hd.
  { split; [apply Z.div_pos; lia|apply Z.div_lt_upper_bound; lia]. }
  rewrite (Z.mod_small (n / 2 ^ 32)) by lia.
  pose proof (Z.mod_pos_bound n (2 ^ 32) ltac:(lia)). pose proof (Z.div_mod n (2 ^ 32) ltac:(lia)). lia.
Qed.

Lemma group_bit n : Z.land (Z.shiftr n 40) 1 <> 0 -> Z.testbit n 40 = true.
Proof.
  intros H. rewrite Z.testbit_odd. change 1 with (Z.ones 1) in H. rewrite Z.land_ones in H by lia.
  change (2 ^ 1) with 2 in H. rewrite Zmod_odd in H. by destruct (Z.odd _).
Qed.

(** What the generated words say, read back field by field. *)
Theorem srp_reset_words_fields raw shape s : load_srp raw shape = Ok s ->
  exists ctrl vid lo hi tspec lat,
    srp_reset_words s = [("LWSRP_CTRL", ctrl); ("LWSRP_VID", vid); ("LWSRP_DMAC_LO", lo);
      ("LWSRP_DMAC_HI", hi); ("LWSRP_TSPEC", tspec); ("LWSRP_LATENCY", lat)]%string /\
    Forall (fun w => 0 <= w < 2 ^ 32) [ctrl; vid; lo; hi; tspec; lat] /\
    Z.testbit ctrl 0 = srp_enable_at_reset s /\ Z.testbit ctrl 1 = srp_talker_declare_at_reset s /\
    Z.shiftr ctrl 2 = sk_class_queue (srp_checked_of s) /\ ctrl < 32 /\
    lo + Z.shiftl hi 32 = srp_stream_dmac_base s /\
    Z.shiftr tspec 16 = sk_interval_frames (srp_checked_of s) /\
    Z.land tspec 0xFFFF = sk_max_frame_bytes (srp_checked_of s) /\
    Z.testbit (srp_stream_dmac_base s) 40 = true.
Proof.
  intros H. unfold load_srp in H. rsplit H. destruct v4 as [[en td] rtl]. rsplit H.
  destruct v4 as [rows slope]. rsplit H. subst s. unfold srp_reset_words.
  cbn [srp_checked_of srp_stream_dmac_base srp_enable_at_reset srp_talker_declare_at_reset
    srp_accumulated_latency_ns].
  destruct (srp_validate_Ok _ _ _ Hm0) as (_ & Hv & Hi & Hq & _ & Hmf & _).
  unfold srp_dmac in Hm1. rsplit Hm1. subst v1. apply hex_text_range in Hm8; [|lia].
  do 6 eexists. split; [reflexivity|]. rewrite Hv, Hi. bool_prop.
  destruct (ctrl_word_fields en td _ Hq) as (Hb0 & Hb1 & Hs & Hw).
  destruct (tspec_word_fields (sk_max_frame_bytes v0)) as (Ht & Htm & Htw); [lia|].
  destruct (dmac_words v6 Hm8) as (Hlo & Hhi & Hd). apply group_bit in Hm9.
  split_and!; try done; [repeat constructor; lia|lia].
Qed.

Lemma srp_validate_defaults q c : srp_validate SRP_DEFAULTS q = Ok c ->
  c = SrpChecked (SrClass 6 3 8000) 2 4 1 224 75.
Proof.
  unfold srp_validate.
  change (match SRP_SR_CLASSES (sx_sr_class SRP_DEFAULTS) with Some c => Ok c | None => Err ESrpClass end)
    with (@Ok config_error _ (SrClass 6 3 8000)).
  change (bounded_int (sx_class_queue SRP_DEFAULTS) 0 (Z.shiftl 1 SRP_QUEUE_BITS - 1) ESrpQueueField)
    with (@Ok config_error Z 4).
  cbn [rbind]. destruct (q <=? 4); vm_compute; [done|]. by intros [= <-].
Qed.

(** A configuration without an [srp:] section generates the words the gateware
    carried as literals, whatever its streams. *)
Theorem srp_default_words shape s : load_srp None shape = Ok s ->
  srp_reset_words s = SRP_FROZEN_RESETS /\ srp_prio_rank s = SRP_FROZEN_PRIO_RANK /\
  map fst (srp_reset_words s) = map fst SRP_CSR_OFFSETS.
Proof.
  intros H. unfold load_srp in H. rsplit H.
  destruct v4 as [[en td] rtl]. rsplit H. destruct v4 as [rows slope]. rsplit H. subst s.
  assert (v = SRP_DEFAULTS) as -> by (by injection Hm). apply srp_validate_defaults in Hm0 as ->.
  vm_compute in Hm1. apply Ok_inj in Hm1 as <-. vm_compute in Hm2. apply Ok_inj in Hm2 as <-.
  vm_compute in Hm4. injection Hm4 as <- <- <-. split_and!; reflexivity.
Qed.

(** The base address plus the talker index is printed in twelve digits and never
    checked against 48 bits: a group address at the top of the space, which the
    multicast test accepts, gives the second talker a thirteen-digit address. *)
Definition top_shape : SrpShape :=
  mkSrpShape [] [sample_talker; sample_talker] 48000 false 5 1000 (Some 2).

Lemma srp_dest_mac_overflow :
  exists s r, load_srp (Some (YMap [("stream_dmac_base"%string, YStr (lit "0xFFFFFFFFFFFF"))])) top_shape = Ok s /\
    srp_attr_rows s !! 1%nat = Some r /\ sr_dest_mac r = Some (lit "0x1000000000000").
Proof. do 2 eexists. split_and!; vm_compute; reflexivity. Qed.


Lemma srp_reset_words_fields_witness :
  exists s, load_srp None top_shape = Ok s /\ Z.testbit (srp_stream_dmac_base s) 40 = true.
Proof.
  assert (exists s, load_srp None top_shape = Ok s) as [s H] by (eexists; vm_compute; reflexivity).
  exists s. split; [exact H|].
  destruct (srp_reset_words_fields None top_shape s H)
    as (? & ? & ? & ? & ? & ? & _ & _ & _ & _ & _ & _ & _ & _ & _ & Hb).
  exact Hb.
Defined.

Lemma srp_default_words_witness :
  exists s, load_srp None top_shape = Ok s /\ srp_reset_words s = SRP_FROZEN_RESETS.
Proof.
  assert (exists s, load_srp None top_shape = Ok s) as [s H] by (eexists; vm_compute; reflexivity).
  exists s. split; [exact H|]. exact (proj1 (srp_default_words top_shape s H)).
Defined.
