(* ===== verification/BuilderConfig.v ===== *)
(** Loading an end-station configuration
    ([sw/builder/endstation_builder.py], [_load_document] to [load_config]).

    The input is the mapping [yaml.safe_load] returns; the result is the
    normalized configuration or the first refusal, in the order of the code.
    What the code reads from outside the configuration is [env]: the text of
    milan_csr.sv, the constants the gPTP and protocol-processor submodules
    declare, two numbers of the SoC glue, the routing answers per board and the
    SHA-256 of the canonical JSON of the model shape.

    Texts the code never checks (the vendor name, a lint waiver) are strings
    here; a document with another type there ends in [EType].  The source path
    and the file name, which only label artifacts, are left out. *)
From S2P Require Import Prelude Unicode Descriptors Text Config BuilderFormats BuilderStreams.
From S2P Require Import BuilderClusters Srp.

(** * Tables *)

Definition SCHEMA_ID : string := "kebag-logic/milan-endstation-config".
Definition MODEL_ID_OUI := 0x001BC5.
Definition MODEL_ID_HASH_BITS := 40.
Definition AEM_STRING_BYTES := 64.
Definition AEM_LAYOUT_REV := 3.
Definition MAX_AUDIO_UNIT_RATES := 8.
Definition PP_MEM_BYTES := 0x100000.
Definition AES3_UI_PER_FRAME := 128.
Definition AES3_OVERSAMPLE := 4.

Record board := Board {
  bd_phy : string; bd_link_mbps : Z; bd_sys_clk_hz_default : Z; bd_gmii_knobs : bool;
  bd_eth_ports : list string }.

Definition BOARDS : list (string * board) :=
  [("arty", Board "mii-100" 100 100000000 false []);
   ("ax7101", Board "gmii-1g" 1000 100000000 true ["e1"; "e2"])]%string.

Record iface_info := IfaceInfo { ii_channels : Z; ii_word_bits : list Z; ii_serdes : bool }.

Definition INTERFACES : list (string * iface_info) :=
  [("i2s_philips", IfaceInfo 2 [16; 24] false);
   ("tdm8", IfaceInfo 8 [16; 24; 32] false);
   ("tdm16", IfaceInfo 16 [16; 24; 32] false);
   ("tdm32", IfaceInfo 32 [16; 24; 32] false);
   ("aes3", IfaceInfo 2 [16; 20; 24] true);
   ("spdif", IfaceInfo 2 [16; 20; 24] true)]%string.

Definition CLOCK_SOURCE_CLASS_ORDER : list string := ["internal"; "crf"; "input_stream"]%string.
Definition CLOCK_SOURCE_NAMES : list (string * pystr) :=
  [("internal", lit "Internal"); ("crf", lit "CRF Clock"); ("stream", lit "Stream Clock")]%string.
Definition CLOCK_SOURCE_NAME_KEY_SOURCE (key : string) : string :=
  if String.eqb key "stream" then "input_stream" else key.

(** The entry of a table a value selects by name. *)
Definition select {A} (table : list (string * A)) (v : yaml) : option (string * A) :=
  List.find (fun r => str_is v (fst r)) table.

(** * What lies outside the configuration *)

Record gptp_pins := GptpPins {
  gpin_priority2 : Z; gpin_clock_class : Z; gpin_clock_accuracy : Z;
  gpin_offset_scaled_log_variance : Z; gpin_log_sync_interval : Z;
  gpin_log_announce_interval : Z; gpin_log_pdelay_interval : Z; gpin_port_number : Z }.

(** * The normalized configuration *)

Record entity := Entity {
  en_name : pystr;
  en_vendor_name : pystr;
  en_firmware_version : pystr;
  en_serial_number : pystr;
  en_group_name : pystr;
  en_entity_id : option pystr;              (* [None]: "mac-derived" *)
  en_locale : option pystr;
}.

Record constraints := Constraints {
  cn_sys_clk_hz : Z; cn_milan_clk_hz : Z; cn_l2_bytes : Z; cn_gtx_tx_invert : bool;
  cn_floorplan : bool; cn_flashboot : string; cn_uart_baudrate : Z; cn_num_queues : Z;
  cn_eth_port : option string }.

Record clocking := Clocking {
  ck_sampling_rate_hz : Z;
  ck_audio_unit_rates_hz : list Z;
  ck_media_clock_sources : list string;
  ck_default_source : string;
  ck_crf_sink : bool;
  ck_crf_format : pystr;
  ck_crf_output : bool;
  ck_crf_output_format : pystr;
  ck_crf_output_offset : Z;
  ck_audio_pll_hz : Z;
}.

Record gptp := GptpCfg { gc_dataset : gptp_dataset; gc_ingress_ns : Z; gc_egress_ns : Z }.

Record names := Names { na_objects : gmap string pystr; na_clock_sources : gmap string pystr }.

Record interface := Interface {
  if_kind : string;
  if_channels : Z;
  if_word_length_bits : Z;
  if_cluster_policy : string;
  if_serdes : bool;
  if_capture : Z;
  if_render : Z;
  if_cluster_pools : dict;
  if_channel_names : option (list pystr);
  if_loopback_lane : bool;
  if_serial_clk : option (Z * Z);           (* Hz, divider *)
}.

Record soc := Soc {
  so_cpu : string; so_cpu_count : yaml; so_xlen : Z; so_timing_opt : yaml; so_scala_args : yaml }.

Record platform := Platform { pf_mac : Z; pf_pp_mem_phys : Z }.

Record features := Features {
  ft_media_clock_servo : bool; ft_latency_taps : bool; ft_maap : bool; ft_i2s_playback : bool;
  ft_rx_mac_filter : bool; ft_render_lpf : bool; ft_datapath_probes : bool; ft_fabric_gptp : bool }.

Record config := Config {
  cf_entity : entity;
  cf_board_target : string;
  cf_board : board;
  cf_constraints : constraints;
  cf_clocking : clocking;
  cf_interface : interface;
  cf_listeners : list stream;
  cf_talkers : list stream;
  cf_soc : soc;
  cf_srp : srp;
  cf_platform : platform;
  cf_features : features;
  cf_gptp : option gptp;
  cf_names : names;
  cf_model_lint_waivers : list yaml;
  cf_ports_in : list port;
  cf_ports_out : list port;
}.

(** The shape the model id is hashed from. *)
Record shape := Shape {
  ms_aem_layout : Z;
  ms_cluster_policy : string;
  ms_interface : string * Z * Z;
  ms_rates_hz : list Z;
  ms_current_rate_hz : Z;
  ms_crf_sink : bool;
  ms_clock_sources : list string;
  ms_crf_format : pystr;
  ms_crf_output : bool;
  ms_crf_output_format : pystr;
  ms_listeners : list (Z * list pystr * Z * yaml);
  ms_talkers : list (Z * list pystr * Z);
  ms_ports_in : list (Z * Z * Z);
  ms_ports_out : list (Z * Z * Z);
  ms_dyn_maps_in : option (list (map_mode * Z));
  ms_gptp : option gptp_dataset;
  ms_cluster_pools : option (Z * Z * bool * Z);
}.

Record env := Env {
  ev_csr_text : pystr;
  ev_entity_caps : option Z;                (* ADP_ENTITY_CAPS_C, when readable *)
  ev_gptp_pins : option gptp_pins;          (* the engine generator, when readable *)
  ev_audio_clk_hz : Z;                      (* soc_audio_const("AUDIO_CLK_HZ") *)
  ev_baremetal_clk_hz : Z;
  ev_fabric : string -> fabric;
  ev_digest : shape -> Z;                   (* the first 8 octets of the SHA-256 *)
}.

(** * Small readers *)

Definition dict_of (v : yaml) : result config_error dict :=
  match v with YMap m => Ok m | _ => Err EType end.

Definition text_of (v : yaml) : result config_error pystr :=
  match v with YStr s => Ok s | _ => Err EType end.

(** A mapping with keys among [known], or the refusal. *)
Definition closed_dict (v : yaml) (known : list string) (e : config_error) : result config_error dict :=
  match v with YMap m => if only_keys m known then Ok m else Err e | _ => Err e end.

(** [d.get(key) or {}], of which [.get] is called next. *)
Definition or_empty (d : dict) (key : string) : yaml :=
  match get d key with Some v => if truthy v then v else YMap [] | None => YMap [] end.

Definition utf8_len (s : pystr) : result config_error Z :=
  match utf8_encode s with Some b => Ok (zlen b) | None => Err EValue end.

Definition aem_string (v : yaml) (ctx : pystr) : result config_error pystr :=
  match v with
  | YStr s =>
      let* _ := raise_if (match s with [] => true | _ => false end) (EAemString ctx) in
      match utf8_encode s with
      | None => Err (EAemString ctx)
      | Some raw =>
          let* _ := raise_if (existsb (Z.eqb 0) raw) (EAemString ctx) in
          let* _ := raise_if (AEM_STRING_BYTES <? zlen raw) (EAemString ctx) in
          Ok s
      end
  | _ => Err (EAemString ctx)
  end.

(** * Document and entity *)

(** The [schema_version] is compared as text: YAML [1.2] is a float, printed by
    [str]; here it is given as the text it prints. *)
Definition load_document (v : yaml) : result config_error dict :=
  match v with
  | YMap cfg =>
      let* _ := raise_if (negb (str_is (get_or cfg "schema" YNull) SCHEMA_ID)) ESchemaId in
      match get_or cfg "schema_version" (YStr []) with
      | YStr s => let* _ := raise_if (negb (bool_decide (match_lit (lit "1.") s <> None))) ESchemaMajor in Ok cfg
      | _ => Err ESchemaMajor
      end
  | _ => Err ENotMapping
  end.

Definition verify_entity_capabilities (e : env) (ent : dict) : result config_error unit :=
  match get ent "entity_capabilities" with
  | None => Ok tt
  | Some v =>
      let* declared := hex_text v 32 (lit "entity.entity_capabilities") in
      match ev_entity_caps e with
      | None => Err ECapsAbsent
      | Some caps => raise_if (negb (declared =? caps)) ECapsDiffer
      end
  end.

Definition short_text (s : pystr) (key : string) : result config_error unit :=
  let* n := utf8_len s in raise_if (63 <? n) (ETooLong key).

Definition load_entity (e : env) (cfg : dict) : result config_error entity :=
  let* entv := req cfg "entity" [] in
  let* ent := dict_of entv in
  let* _ := raise_if (bool_decide (is_Some (get ent "firmware_version"))) EFirmwareKey in
  let* rev := match exact_int (get_or ent "firmware_rev" (YInt 0)) with
              | Some r => if r <? 0 then Err EFirmwareRev else Ok r
              | None => Err EFirmwareRev
              end in
  let* name := req ent "name" (lit "entity") in
  let* name := text_of name in
  let* vendor := text_of (get_or ent "vendor_name" (YStr (lit "Kebag Logic"))) in
  let* fw := map_err (fun _ => EValue) (firmware_version_string rev (ev_csr_text e)) in
  let* serial := req ent "serial_number" (lit "entity") in
  let* serial := text_of serial in
  let* group := text_of (get_or ent "group_name" (YStr [])) in
  let eid := get_or ent "entity_id" (YStr (lit "mac-derived")) in
  let* eid := if str_is eid "mac-derived" then Ok None
              else let* f := fmt64 eid (lit "entity.entity_id") in Ok (Some f) in
  let* _ := short_text name "name" in
  let* _ := short_text serial "serial_number" in
  let* _ := short_text group "group_name" in
  let* _ := short_text fw "firmware_version" in
  let* locale := match get_or ent "locale" YNull with
                 | YNull => Ok None
                 | v => let* s := aem_string v (lit "entity.locale") in Ok (Some s)
                 end in
  let* _ := verify_entity_capabilities e ent in
  Ok (Entity name vendor fw serial group eid locale).

Definition vendor_oui (ent : dict) : result config_error Z :=
  match get ent "vendor_oui" with
  | None => Ok MODEL_ID_OUI
  | Some v =>
      let* oui := hex_text v 24 (lit "entity.vendor_oui") in
      let* _ := raise_if (negb (Z.land oui 0x010000 =? 0)) EVendorOui in
      Ok oui
  end.

(** * Board *)

Definition CONSTRAINT_KEYS : list string :=
  ["sys_clk_hz"; "milan_clk_hz"; "l2_bytes"; "phy"; "gtx_tx_invert"; "floorplan"; "flashboot";
   "uart_baudrate"; "num_queues"; "eth_port"]%string.

Definition load_board (cfg : dict) : result config_error (string * board * constraints) :=
  let* brdv := req cfg "board" [] in
  let* brd := dict_of brdv in
  let* target := req brd "target" (lit "board") in
  match select BOARDS target with
  | None => Err ETarget
  | Some (target, binfo) =>
      let* cv := req brd "constraints" (lit "board") in
      let* c := closed_dict cv CONSTRAINT_KEYS EConstraints in
      let ctx := lit "board.constraints" in
      let* sys_clk := py_int (get_or c "sys_clk_hz" (YInt (bd_sys_clk_hz_default binfo))) in
      let* milanv := req c "milan_clk_hz" ctx in
      let* milan := py_int milanv in
      let* l2v := req c "l2_bytes" ctx in
      let* l2 := pow2_or_zero l2v (ctx ++ lit ".l2_bytes") in
      let* phy := req c "phy" ctx in
      let invert := truthy (get_or c "gtx_tx_invert" (YBool false)) in
      let floorplan := truthy (get_or c "floorplan" (YBool false)) in
      let flashboot := get_or c "flashboot" (YStr (lit "baremetal")) in
      let* baud := py_int (get_or c "uart_baudrate" (YInt 115200)) in
      let* queues := py_int (get_or c "num_queues" (YInt 5)) in
      let eth_port := get_or c "eth_port" YNull in
      let* _ := raise_if (negb (str_is phy (bd_phy binfo))) EPhy in
      let* _ := raise_if (invert && negb (bd_gmii_knobs binfo)) EGtxInvert in
      let* flash := match word_of ["none"; "baremetal"]%string flashboot with
                    | Some w => Ok w | None => Err EFlashboot end in
      let* _ := raise_if (negb ((1 <=? queues) && (queues <=? 8))) ENumQueues in
      let* _ := raise_if (sys_clk <? milan) EClockOrder in
      let* eth := match eth_port with
                  | YNull => Ok None
                  | v => match word_of (bd_eth_ports binfo) v with
                         | Some w => Ok (Some w) | None => Err EEthPort end
                  end in
      Ok (target, binfo, Constraints sys_clk milan l2 invert floorplan flash baud queues eth)
  end.

(** * Media clock *)

(** The declared clock sources, as words of the class order. *)
Definition source_words (v : yaml) : result config_error (list string) :=
  match v with
  | YList l =>
      mapR (fun x => match word_of CLOCK_SOURCE_CLASS_ORDER x with
                     | Some w => Ok w | None => Err EUnknownSources end) l
  | YStr _ => Err EUnknownSources
  | _ => Err EType
  end.

Fixpoint no_repeat {A} (eqb : A -> A -> bool) (l : list A) : bool :=
  match l with [] => true | x :: l' => negb (existsb (eqb x) l') && no_repeat eqb l' end.

Definition load_clocking (e : env) (cfg : dict) : result config_error clocking :=
  let* clkv := req cfg "clocking" [] in
  let* clk := dict_of clkv in
  let* ratev := req clk "sampling_rate_hz" (lit "clocking") in
  let* rate := py_int ratev in
  let* _ := raise_if (negb (existsb (fun r => fst r =? rate) BASE_RATE_HZ)) (ERate rate) in
  let srcv := get_or clk "media_clock_sources" (YList [YStr (lit "internal"); YStr (lit "crf")]) in
  let* _ := raise_if (negb (truthy srcv)) ENoSources in
  let* srcs := source_words srcv in
  let* _ := raise_if (negb (no_repeat String.eqb srcs)) ESourceTwice in
  let* dflt := match get clk "default_source" with
               | Some v => match word_of srcs v with Some w => Ok w | None => Err EDefaultSource end
               | None => match srcs with s :: _ => Ok s | [] => Err EKeyErr end
               end in
  let* co := match or_empty clk "crf_output" with YMap m => Ok m | _ => Err ECrfOutputMapping end in
  let* rates := match get clk "audio_unit_rates_hz" with
                | None => Ok [rate]
                | Some (YList l) => mapR py_int l
                | Some _ => Err EType
                end in
  let crf_sink := truthy (get_or clk "crf_sink" (YBool true)) in
  let* crf_fmt := crf_format (get_or clk "crf_format" (YStr CRF_FORMAT_DEFAULT)) (lit "clocking.crf_format") in
  let crf_out := truthy (get_or co "enabled" (YBool false)) in
  let* crf_out_fmt := crf_format (get_or co "format" (YStr CRF_FORMAT_DEFAULT))
                                 (lit "clocking.crf_output.format") in
  let* off := factory_offset co (lit "clocking.crf_output") in
  let* pll := py_int (get_or clk "audio_pll_hz" (YInt (ev_audio_clk_hz e))) in
  let* _ := raise_if (MAX_AUDIO_UNIT_RATES <? zlen rates) (ERateCount (zlen rates)) in
  let* _ := raise_if (negb (no_repeat Z.eqb rates)) ERateTwice in
  let* _ := raise_if (negb (existsb (Z.eqb rate) rates)) ERateMissing in
  let* _ := raise_if (negb (pll =? ev_audio_clk_hz e)) (EAudioPll pll) in
  let has_crf := existsb (String.eqb "crf") srcs in
  let* _ := raise_if (crf_sink && negb has_crf) ECrfSink in
  let* _ := raise_if (has_crf && negb crf_sink) ECrfSource in
  Ok (Clocking rate rates srcs dflt crf_sink crf_fmt crf_out crf_out_fmt off pll).

(** * gPTP *)

Definition GPTP_KEYS : list string :=
  ["priority1"; "priority2"; "clock_class"; "clock_accuracy"; "offset_scaled_log_variance"; "domain";
   "log_sync_interval"; "log_announce_interval"; "log_pdelay_interval"; "ingress_latency_ns";
   "egress_latency_ns"]%string.

Definition gptp_domain_key (gp : dict) : result config_error Z :=
  let* v := py_int (get_or gp "domain" (YInt 0)) in
  let* _ := raise_if (negb (v =? 0)) (EGptpDomain v) in Ok v.

Definition gptp_latency_key (gp : dict) (k : string) : result config_error Z :=
  match get gp k with
  | None => Err (EGptpLatency k)
  | Some v =>
      let* n := py_int v in
      let* _ := raise_if (negb ((0 <=? n) && (n <=? 0xFFFF))) (EGptpLatency k) in Ok n
  end.

Definition gp_u8 (gp : dict) (k : string) (dflt : Z) : result config_error Z :=
  let* v := py_int (get_or gp k (YInt dflt)) in
  let* _ := raise_if (negb ((0 <=? v) && (v <=? 255))) (EGptpU8 k v) in Ok v.

Definition gp_pinned (gp : dict) (k : string) (pin : Z) : result config_error Z :=
  match get gp k with
  | None => Ok pin
  | Some v =>
      let* n := py_int v in
      let* _ := raise_if (negb (n =? pin)) (EGptpPinned k n) in Ok pin
  end.

Definition load_gptp (e : env) (cfg : dict) : result config_error (option gptp) :=
  match get_or cfg "gptp" YNull with
  | YNull => Ok None
  | v =>
      let* gp := closed_dict v GPTP_KEYS EGptpKeys in
      let* pins := match ev_gptp_pins e with Some p => Ok p | None => Err EEngine end in
      let* ingress := gptp_latency_key gp "ingress_latency_ns" in
      let* egress := gptp_latency_key gp "egress_latency_ns" in
      let* p1 := gp_u8 gp "priority1" 248 in
      let* p2 := gp_pinned gp "priority2" (gpin_priority2 pins) in
      let* cc := gp_pinned gp "clock_class" (gpin_clock_class pins) in
      let* ca := gp_pinned gp "clock_accuracy" (gpin_clock_accuracy pins) in
      let* lv := gp_pinned gp "offset_scaled_log_variance" (gpin_offset_scaled_log_variance pins) in
      let* dom := gptp_domain_key gp in
      let* ls := gp_pinned gp "log_sync_interval" (gpin_log_sync_interval pins) in
      let* la := gp_pinned gp "log_announce_interval" (gpin_log_announce_interval pins) in
      let* lp := gp_pinned gp "log_pdelay_interval" (gpin_log_pdelay_interval pins) in
      Ok (Some (GptpCfg
        (Gptp (Some p1) (Some cc) (Some lv) (Some ca) (Some p2) (Some dom) (Some ls) (Some la)
              (Some lp) (Some (gpin_port_number pins))) ingress egress))
  end.

(** * Names *)

Definition OBJECT_KEYS : list string :=
  ["configuration"; "audio_unit"; "avb_interface"; "clock_domain"; "control_identify"]%string.

(** [len(x.get("listeners") or [])]. *)
Definition listener_count (st : dict) : result config_error Z :=
  match get st "listeners" with
  | None => Ok 0
  | Some v =>
      if truthy v then
        match v with
        | YList l => Ok (zlen l)
        | YMap m => Ok (zlen m)
        | YStr s => Ok (zlen s)
        | _ => Err EType
        end
      else Ok 0
  end.

Definition object_name (raw : dict) (acc : gmap string pystr) (k : string)
    : result config_error (gmap string pystr) :=
  match get raw k with
  | None => Ok acc
  | Some x => let* s := aem_string x (lit "names." ++ lit k) in Ok (<[k := s]> acc)
  end.

Definition clock_name (clk : clocking) (cs : dict) (acc : gmap string pystr) (k : string)
    : result config_error (gmap string pystr) :=
  match get cs k with
  | None => Ok acc
  | Some v =>
      let* _ := raise_if (negb (existsb (String.eqb (CLOCK_SOURCE_NAME_KEY_SOURCE k))
                                        (ck_media_clock_sources clk))) (EClockNameUnused k) in
      let* s := aem_string v (lit "names.clock_sources." ++ lit k) in
      Ok (<[k := s]> acc)
  end.

(** The numbered name of the last listener's source must fit the field. *)
Definition check_numbered (cfg : dict) (sources : gmap string pystr) : result config_error unit :=
  match sources !! "stream"%string with
  | None => Ok tt
  | Some name =>
      let* stv := req cfg "streams" (lit "config") in
      let* st := dict_of stv in
      let* n_l := listener_count st in
      if 1 <? n_l then
        let* n := utf8_len (name ++ lit " " ++ dec (n_l - 1)) in
        raise_if (AEM_STRING_BYTES <? n) EClockNameNumbered
      else Ok tt
  end.

Definition load_names (cfg : dict) (clk : clocking) : result config_error names :=
  match get_or cfg "names" YNull with
  | YNull => Ok (Names ∅ ∅)
  | v =>
      let* raw := closed_dict v (OBJECT_KEYS ++ ["clock_sources"%string]) ENames in
      let* objects := foldR (object_name raw) ∅ OBJECT_KEYS in
      match get_or raw "clock_sources" YNull with
      | YNull => Ok (Names objects ∅)
      | csv =>
          let* cs := closed_dict csv (map fst CLOCK_SOURCE_NAMES) EClockNames in
          let* sources := foldR (clock_name clk cs) ∅ (map fst CLOCK_SOURCE_NAMES) in
          let* _ := check_numbered cfg sources in
          Ok (Names objects sources)
      end
  end.

(** * Audio interface *)

(** [int(pc.get(key, dflt))] within the interface width. *)
Definition load_physical (aif : dict) (channels : Z) : result config_error (Z * Z) :=
  let* (capture, render) :=
    match get_or aif "physical_channels" YNull with
    | YNull => Ok (channels, channels)
    | v =>
        let* pc := closed_dict v ["capture"; "render"]%string EPhysical in
        let* c := py_int (get_or pc "capture" (YInt channels)) in
        let* r := py_int (get_or pc "render" (YInt channels)) in Ok (c, r)
    end in
  let ok v := (0 <=? v) && (v <=? channels) in
  let* _ := raise_if (negb (ok capture)) (EPhysicalRange "capture" capture) in
  let* _ := raise_if (negb (ok render)) (EPhysicalRange "render" render) in
  Ok (capture, render).

(** Physical widths, role pools and the loopback lane. *)
Definition load_cluster_pools (aif cm : dict) (channels : Z) (policy : string)
    : result config_error (Z * Z * dict * bool) :=
  let* phys := load_physical aif channels in
  let role := String.eqb policy "role-pools" in
  let* pools := closed_dict (or_empty cm "pools") ["pilot"; "loopback"]%string EPools in
  let* _ := raise_if (negb (match pools with [] => true | _ => false end) && negb role) EPoolsPolicy in
  let* fab := closed_dict (or_empty cm "fabric") ["loopback_lane"%string] EFabricKeys in
  let* _ := raise_if (negb (match fab with [] => true | _ => false end) && negb role) EFabricPolicy in
  let lb_lane := truthy (get_or fab "loopback_lane" (YBool false)) in
  let* _ := if lb_lane then
              let* n := pool_loopback pools in raise_if (n =? 0) ELoopbackLane
            else Ok tt in
  Ok (fst phys, snd phys, pools, lb_lane).

Definition load_channel_names (aif : dict) (capture render : Z) : result config_error (option (list pystr)) :=
  match get_or aif "channel_names" YNull with
  | YNull => Ok None
  | YList (x :: l) =>
      let* ns := mapR (fun v => match v with
                       | YStr s => if (0 <? zlen s) && (zlen s <=? 48) then Ok s else Err EChannelNames
                       | _ => Err EChannelNames end) (x :: l) in
      let* _ := raise_if (zlen ns <? Z.max capture render) EChannelNamesFew in
      Ok (Some ns)
  | _ => Err EChannelNames
  end.

Definition load_interface (cfg : dict) (clk : clocking) : result config_error interface :=
  let* aifv := req cfg "audio_interface" [] in
  let* aif := dict_of aifv in
  let* kindv := req aif "kind" (lit "audio_interface") in
  match select INTERFACES kindv with
  | None => Err EKind
  | Some (kind, ii) =>
      let* wl := py_int (get_or aif "word_length_bits" (YInt 24)) in
      let* _ := raise_if (negb (existsb (Z.eqb wl) (ii_word_bits ii))) (EWordLength wl) in
      let* cm := dict_of (or_empty aif "cluster_mapping") in
      let* _ := raise_if (bool_decide (is_Some (get cm "rule"))) EMappingRule in
      let* policy := match word_of CLUSTER_POLICIES
                             (get_or cm "policy" (YStr (lit "cluster-per-stream-channel"))) with
                     | Some w => Ok w | None => Err EPolicy end in
      let* (capture, render, pools, lane) := load_cluster_pools aif cm (ii_channels ii) policy in
      let* cnames := load_channel_names aif capture render in
      let* serial :=
        if ii_serdes ii then
          let need := ck_sampling_rate_hz clk * AES3_UI_PER_FRAME * AES3_OVERSAMPLE in
          let* _ := raise_if (negb (ck_audio_pll_hz clk mod need =? 0)) (ESerialClock need) in
          Ok (Some (need, ck_audio_pll_hz clk / need))
        else Ok None in
      Ok (Interface kind (ii_channels ii) wl policy (ii_serdes ii) capture render pools cnames lane serial)
  end.

(** * Streams *)

Definition validate_output_clock_sources (talkers : yaml) (clk : clocking) : result config_error unit :=
  raise_if ((truthy talkers || ck_crf_output clk)
            && negb (existsb (String.eqb "internal") (ck_media_clock_sources clk))) EOutputClock.

Definition load_streams (cfg : dict) (clk : clocking) : result config_error (list stream * list stream) :=
  let* stv := req cfg "streams" [] in
  let* st := dict_of stv in
  let* _ := validate_output_clock_sources (get_or st "talkers" (YList [])) clk in
  let rate := ck_sampling_rate_hz clk in
  let* lv := req st "listeners" (lit "streams") in
  let* listeners := streams lv (lit "streams.listeners") Listener rate in
  let* tv := req st "talkers" (lit "streams") in
  let* talkers := streams tv (lit "streams.talkers") Talker rate in
  let modes := remove_dups (map s_map_mode talkers) in
  let* _ := raise_if (1 <? zlen modes) EMixedModes in
  let* _ := raise_if ((2 <=? zlen listeners) && negb (ck_crf_output clk)) (ENoCrfOutput (zlen listeners)) in
  Ok (listeners, talkers).

(** * SoC, platform, features *)

Definition SOC_KEYS : list string :=
  ["cpu"; "cpu_count"; "software_profile"; "xlen"; "full"; "timing_opt"; "scala_args"]%string.

Definition load_soc (e : env) (cfg : dict) (cons : constraints) : result config_error soc :=
  let* raw := match or_empty cfg "soc" with YMap m => Ok m | _ => Err ESocMapping end in
  let* _ := raise_if (negb (only_keys raw SOC_KEYS)) ESocKeys in
  let* cpu := match word_of ["vexiiriscv"; "naxriscv"]%string (get_or raw "cpu" (YStr (lit "vexiiriscv"))) with
              | Some w => Ok w | None => Err ECpu end in
  let* _ := raise_if (negb (str_is (get_or raw "software_profile" (YStr (lit "baremetal"))) "baremetal"))
                     ESoftwareProfile in
  let* _ := raise_if (match get_or raw "full" (YBool true) with YBool true => false | _ => true end) ESocFull in
  let* xlen := py_int (get_or raw "xlen" (YInt 32)) in
  let* _ := raise_if (negb ((xlen =? 32) || (xlen =? 64))) EXlen in
  let* _ := raise_if (negb (cn_milan_clk_hz cons =? ev_baremetal_clk_hz e)) EBaremetalClock in
  let count := get_or raw "cpu_count" (YInt 1) in
  let* _ := raise_if (negb (String.eqb cpu "vexiiriscv") || negb (xlen =? 32) || negb (num_is count 1))
                     EBaremetalCpu in
  let* _ := raise_if (negb (cn_l2_bytes cons =? 0) || truthy (get_or raw "scala_args" (YList []))) EBaremetalL2 in
  let* _ := raise_if (negb (existsb (String.eqb (cn_flashboot cons)) ["baremetal"; "none"]%string))
                     EBaremetalFlash in
  Ok (Soc cpu count xlen (get_or raw "timing_opt" (YBool true)) (get_or raw "scala_args" (YList []))).

Definition PLATFORM_KEYS : list string := ["mac_address"; "pp_mem_phys"; "rx_address_filter"]%string.

Definition load_platform (v : option yaml) : result config_error platform :=
  let* raw := match or_empty (match v with Some x => [("platform"%string, x)] | None => [] end) "platform" with
              | YMap m => Ok m | _ => Err EPlatformMapping end in
  let* _ := raise_if (negb (only_keys raw PLATFORM_KEYS)) EPlatformKeys in
  let* mem := py_int (get_or raw "pp_mem_phys" (YInt 0x4FE00000)) in
  let* macv := match get raw "mac_address" with Some m => Ok m | None => Err EMacMissing end in
  let* mac := mac48 macv (lit "platform.mac_address") in
  let* _ := raise_if ((mem <=? 0) || negb (mem mod 0x1000 =? 0)) EPpMem in
  let* _ := raise_if (negb (str_is (get_or raw "rx_address_filter" (YStr (lit "promiscuous"))) "promiscuous"))
                     ERxFilter in
  Ok (Platform mac mem).

(** [":".join(f"{octet:02x}" ...)] of a MAC-48. *)
Definition hex2 (b : Z) : pystr := [hex_char (b / 16); hex_char (b mod 16)].
Definition mac_text (mac : Z) : pystr := join (lit ":") (map hex2 (be_bytes 6 mac)).

Definition FEATURE_KEYS : list string :=
  ["media_clock_servo"; "latency_taps"; "maap"; "i2s_playback"; "rx_mac_filter"; "render_lpf";
   "datapath_probes"; "fabric_gptp"]%string.

Definition feature (raw : dict) (name : string) : result config_error bool :=
  match get_or raw name (YBool true) with YBool b => Ok b | _ => Err (EFeatureBool name) end.

Definition load_features (v : option yaml) : result config_error features :=
  let* raw := match or_empty (match v with Some x => [("features"%string, x)] | None => [] end) "features" with
              | YMap m => Ok m | _ => Err EFeatures end in
  let* _ := raise_if (negb (only_keys raw FEATURE_KEYS)) EFeatures in
  let* servo := feature raw "media_clock_servo" in
  let* taps := feature raw "latency_taps" in
  let* maap := feature raw "maap" in
  let* i2s := feature raw "i2s_playback" in
  let* rxf := feature raw "rx_mac_filter" in
  let* lpf := feature raw "render_lpf" in
  let* probes := feature raw "datapath_probes" in
  let* fabric := feature raw "fabric_gptp" in
  Ok (Features servo taps maap i2s rxf lpf probes fabric).

Definition validate_features (f : features) (clk : clocking) (kind : string) : result config_error unit :=
  let* _ := raise_if (negb (ft_media_clock_servo f)
              && existsb (fun s => negb (String.eqb s "internal")) (ck_media_clock_sources clk)) EServoPruned in
  let* _ := raise_if (negb (ft_maap f)) EMaapPruned in
  let* _ := raise_if (negb (ft_i2s_playback f) && String.eqb kind "i2s_philips") EI2sPruned in
  raise_if (ft_render_lpf f && negb (ft_i2s_playback f)) ELpfOrphan.

(** * Model identity *)

Definition model_shape (cfg : config) : result config_error shape :=
  let i := cf_interface cfg in
  let clk := cf_clocking cfg in
  let port_row p := (p_base_cluster p, p_clusters p, p_base_map p) in
  let* pools :=
    if String.eqb (if_cluster_policy i) "role-pools" then
      let* lb := pool_loopback (if_cluster_pools i) in
      Ok (Some (if_capture i, if_render i, truthy (get_or (if_cluster_pools i) "pilot" (YBool false)), lb))
    else Ok None in
  Ok (Shape AEM_LAYOUT_REV (if_cluster_policy i)
    (if_kind i, if_channels i, if_word_length_bits i)
    (ck_audio_unit_rates_hz clk) (ck_sampling_rate_hz clk) (ck_crf_sink clk)
    (ck_media_clock_sources clk) (ck_crf_format clk) (ck_crf_output clk) (ck_crf_output_format clk)
    (map (fun s => (s_channels s, s_formats s, s_clusters s, s_buffer_length_ns s)) (cf_listeners cfg))
    (map (fun s => (s_channels s, s_formats s, s_clusters s)) (cf_talkers cfg))
    (map port_row (cf_ports_in cfg)) (map port_row (cf_ports_out cfg))
    (if existsb p_dynamic (cf_ports_in cfg)
     then Some (map (fun p => (p_map_mode p, default 0 (p_map_page p))) (cf_ports_in cfg)) else None)
    (gc_dataset <$> cf_gptp cfg) pools).

Definition derive_model_id (e : env) (s : shape) (oui : Z) : Z :=
  Z.lor (Z.shiftl oui MODEL_ID_HASH_BITS) (Z.land (ev_digest e s) (Z.shiftl 1 MODEL_ID_HASH_BITS - 1)).

Inductive id_source := IdPin | IdHash | IdLiteral.

(** Pin, then hash, then literal; a declared OUI must prefix an id that wins. *)
Definition resolve_model_id (e : env) (ent : dict) (s : shape) : result config_error (Z * id_source) :=
  let* oui := vendor_oui ent in
  let hashed := derive_model_id e s oui in
  let* raw := req ent "entity_model_id" (lit "entity") in
  let derived := str_is raw "hash-derived" in
  let* literal := if derived then Ok 0 else model_id raw (lit "entity.entity_model_id") in
  let* (mid, src) :=
    match get ent "model_id_pin" with
    | Some pin => let* m := model_id pin (lit "entity.model_id_pin") in Ok (m, IdPin)
    | None =>
        if derived then
          let* m := model_id (YStr (hex64 hashed)) (lit "entity.entity_model_id") in Ok (m, IdHash)
        else Ok (literal, IdLiteral)
    end in
  let declared := bool_decide (is_Some (get ent "vendor_oui")) in
  let* _ := raise_if (match src with IdHash => false | _ => declared end
                      && negb (Z.shiftr mid MODEL_ID_HASH_BITS =? oui)) (EOuiDiffers oui mid) in
  Ok (mid, src).

(** * The whole configuration *)

Definition front_end_of (i : interface) (playback : bool) (talkers : list stream) : front_end :=
  FrontEnd (if_kind i) (if_channels i) (if_render i) playback (map s_formats talkers).

Definition rules_of (i : interface) : ClusterRules :=
  mkClusterRules (if_cluster_policy i) (if_channels i) (Some (if_render i, if_capture i))
    (if_cluster_pools i) (if_loopback_lane i).

(** [list(v or [])]: the entries of a list, the keys of a mapping or the
    characters of a text, none of them read here. *)
Definition load_waivers (cfg : dict) : result config_error (list yaml) :=
  match get cfg "model_lint_waivers" with
  | None => Ok []
  | Some v =>
      if truthy v then
        match v with
        | YList l => Ok l
        | YMap m => Ok (map (fun r => YStr (lit (fst r))) m)
        | YStr s => Ok (map (fun c => YStr [c]) s)
        | _ => Err EType
        end
      else Ok []
  end.

Definition load_config (e : env) (doc : yaml) : result config_error (config * (Z * id_source)) :=
  let* cfg := load_document doc in
  let* entv := req cfg "entity" [] in
  let* _ := req cfg "board" [] in
  let* ent := load_entity e cfg in
  let* (target, binfo, limits) := load_board cfg in
  let* clk := load_clocking e cfg in
  let* gp := load_gptp e cfg in
  let* nm := load_names cfg clk in
  let* iface := load_interface cfg clk in
  let* (listeners, talkers) := load_streams cfg clk in
  let* so := load_soc e cfg limits in
  let* wire := framer_wire_channels (ev_fabric e target) (front_end_of iface false talkers) in
  let* sr := load_srp (get cfg "srp")
    (mkSrpShape listeners talkers (ck_sampling_rate_hz clk) (ck_crf_output clk) (cn_num_queues limits)
       (bd_link_mbps binfo) (Some wire)) in
  let* pf := load_platform (get cfg "platform") in
  let* brdv := req cfg "board" [] in
  let* brd := dict_of brdv in
  let* ft := load_features (get brd "features") in
  let* _ := validate_features ft clk (if_kind iface) in
  let* _ := raise_if (negb (ft_fabric_gptp ft)) EFabricGptp in
  let* _ := raise_if (match gp with None => true | _ => false end) ENoGptp in
  let* waivers := load_waivers cfg in
  let* _ := validate_render_lane (front_end_of iface (ft_i2s_playback ft) talkers) in
  let* (pin, pout) := cluster_layout listeners talkers (rules_of iface) in
  let out := Config ent target binfo limits clk iface listeners talkers so sr pf ft gp nm waivers pin pout in
  let* s := model_shape out in
  let* entd := dict_of entv in
  let* mid := resolve_model_id e entd s in
  Ok (out, mid).

(** * What the loaders guarantee *)

Lemma hex_value_bound s acc : 0 <= acc -> 0 <= hex_value acc s < (acc + 1) * 16 ^ zlen s.
Proof.
  revert acc. induction s as [|c s IH]; intros acc Ha; cbn [hex_value].
  - change (16 ^ zlen []) with 1. lia.
  - rewrite zlen_cons, Z.pow_add_r by (pose proof (zlen_nonneg s); lia). rewrite Z.pow_1_r.
    pose proof (Z.pow_pos_nonneg 16 (zlen s) ltac:(lia) (zlen_nonneg s)).
    destruct (hex_digit c) as [d|] eqn:Ed.
    + assert (0 <= d < 16).
      { revert Ed. unfold hex_digit. repeat case_match; bool_prop; intros [= <-]; lia. }
      specialize (IH (acc * 16 + d) ltac:(lia)). nia.
    + specialize (IH acc Ha). nia.
Qed.

(** A station MAC is a non-zero unicast EUI-48. *)
Definition unicast48 (n : Z) : Prop := 0 < n < 2 ^ 48 /\ Z.testbit n 40 = false.

Lemma mac48_Ok v ctx n : mac48 v ctx = Ok n -> unicast48 n.
Proof.
  unfold mac48. destruct v as [| | |s| | |]; try done. intros H. rsplit H. bool_prop. subst n.
  pose proof (hex_value_bound (mac_digits s) 0 ltac:(lia)) as Hb.
  match goal with Hl : zlen (mac_digits s) = 12 |- _ => rewrite Hl in Hb end.
  change ((0 + 1) * 16 ^ 12) with (2 ^ 48) in Hb. split; [lia|].
  match goal with Hg : Z.land _ 1 = 0 |- _ =>
    apply (f_equal (fun z => Z.testbit z 0)) in Hg; rewrite Z.land_spec, Z.shiftr_spec in Hg by lia end.
  by rewrite andb_true_r in *.
Qed.

Lemma crf_format_Ok v ctx f : crf_format v ctx = Ok f -> f = CRF_FORMAT_DEFAULT.
Proof.
  intros H. unfold crf_format in H. rsplit H. subst v0. unfold validate_stream_formats in Hm0. rsplit Hm0.
  cbn [andb existsb] in *. destruct (pystr_eqb f CRF_FORMAT_DEFAULT) eqn:E; [|done].
  by apply bool_decide_eq_true in E.
Qed.

Lemma no_repeat_NoDup {A} (eqb : A -> A -> bool) l : (forall x y, eqb x y = true <-> x = y) ->
  no_repeat eqb l = true -> NoDup l.
Proof.
  intros He. induction l as [|x l IH]; cbn [no_repeat]; [constructor|]. intros H. bool_prop.
  constructor; [|by apply IH]. intros Hx%list_elem_of_In.
  assert (existsb (eqb x) l = true); [|congruence]. apply existsb_exists. exists x. by rewrite He.
Qed.

Lemma existsb_In {A} (eqb : A -> A -> bool) x l : (forall x y, eqb x y = true <-> x = y) ->
  existsb (eqb x) l = true <-> In x l.
Proof. intros He. rewrite existsb_exists. split; [intros (y & Hy & E); apply He in E; by subst|exists x; by rewrite He]. Qed.

Record wf_clocking (c : clocking) : Prop := WfClocking {
  wk_rate : In (ck_sampling_rate_hz c) [48000; 96000; 192000];
  wk_rates : In (ck_sampling_rate_hz c) (ck_audio_unit_rates_hz c);
  wk_rates_once : NoDup (ck_audio_unit_rates_hz c);
  wk_rates_count : 1 <= zlen (ck_audio_unit_rates_hz c) <= MAX_AUDIO_UNIT_RATES;
  wk_sources : Forall (fun w => In w CLOCK_SOURCE_CLASS_ORDER) (ck_media_clock_sources c);
  wk_sources_once : NoDup (ck_media_clock_sources c);
  wk_default : In (ck_default_source c) (ck_media_clock_sources c);
  wk_crf : ck_crf_sink c = true <-> In "crf"%string (ck_media_clock_sources c);
  wk_crf_format : ck_crf_format c = CRF_FORMAT_DEFAULT /\ ck_crf_output_format c = CRF_FORMAT_DEFAULT;
}.

Lemma source_words_Ok v ws : source_words v = Ok ws -> Forall (fun w => In w CLOCK_SOURCE_CLASS_ORDER) ws.
Proof.
  unfold source_words. destruct v as [| | | | |l|]; try done. intros H%mapR_Ok.
  induction H as [|x w l ws Hx _ IH]; constructor; [|done].
  destruct (word_of CLOCK_SOURCE_CLASS_ORDER x) as [w'|] eqn:E; [|done]. apply Ok_inj in Hx as <-.
  by apply find_some in E as [? _].
Qed.

Lemma load_clocking_wf e cfg c : load_clocking e cfg = Ok c -> wf_clocking c.
Proof.
  intros H. unfold load_clocking in H. rsplit H. subst c. bool_prop.
  rename v2 into rate, v5 into srcs, v9 into rates.
  assert (In rate [48000; 96000; 192000]) as Hrate.
  { match goal with Hr : existsb _ BASE_RATE_HZ = true |- _ => apply existsb_exists in Hr as (r & Hx & E) end.
    cbn in Hx. apply Z.eqb_eq in E. subst rate. destruct Hx as [<-|[<-|[<-|[]]]]; cbn; tauto. }
  assert (In rate rates) as Hin by (match goal with Hr : existsb (Z.eqb rate) rates = true |- _ =>
    by apply (existsb_In Z.eqb) in Hr; [|apply Z.eqb_eq] end).
  constructor; cbn [ck_sampling_rate_hz ck_audio_unit_rates_hz ck_media_clock_sources ck_default_source
    ck_crf_sink ck_crf_format ck_crf_output_format]; try done.
  - by eapply (no_repeat_NoDup Z.eqb); [apply Z.eqb_eq|].
  - split; [destruct rates; [done|rewrite zlen_cons; pose proof (zlen_nonneg rates); lia]|done].
  - by eapply source_words_Ok.
  - by eapply (no_repeat_NoDup String.eqb); [apply String.eqb_eq|].
  - match goal with Hd : match get v0 "default_source" with _ => _ end = Ok _ |- _ => rename Hd into Hdef end.
    destruct (get v0 "default_source") as [y|].
    + destruct (word_of srcs y) as [w|] eqn:E; [|done]. apply Ok_inj in Hdef as <-. by apply find_some in E as [? _].
    + destruct srcs; [done|]. apply Ok_inj in Hdef as <-. by left.
  - rewrite <-(existsb_In String.eqb) by apply String.eqb_eq.
    destruct (truthy (get_or v0 "crf_sink" (YBool true))), (existsb (String.eqb "crf") srcs); done.
  - split; by eapply crf_format_Ok.
Qed.

Record wf_interface (i : interface) : Prop := WfInterface {
  wi_kind : exists ii, In (if_kind i, ii) INTERFACES /\ if_channels i = ii_channels ii /\
              In (if_word_length_bits i) (ii_word_bits ii) /\ if_serdes i = ii_serdes ii;
  wi_channels : 2 <= if_channels i <= 32;
  wi_capture : 0 <= if_capture i <= if_channels i;
  wi_render : 0 <= if_render i <= if_channels i;
  wi_policy : In (if_cluster_policy i) CLUSTER_POLICIES;
  wi_lane : if_loopback_lane i = true ->
              if_cluster_policy i = "role-pools"%string /\
              exists n, pool_loopback (if_cluster_pools i) = Ok n /\ n <> 0;
  wi_names : forall ns, if_channel_names i = Some ns ->
               Z.max (if_capture i) (if_render i) <= zlen ns /\
               Forall (fun s => 1 <= zlen s <= 48) ns;
}.

Lemma load_physical_Ok aif channels c r : load_physical aif channels = Ok (c, r) ->
  0 <= c <= channels /\ 0 <= r <= channels.
Proof.
  unfold load_physical. intros H. apply rbind_Ok in H as ([c' r'] & _ & H). rsplit H.
  injection H as -> ->. bool_prop. lia.
Qed.

Lemma load_cluster_pools_Ok aif cm channels policy c r pools lane :
  load_cluster_pools aif cm channels policy = Ok (c, r, pools, lane) ->
  0 <= c <= channels /\ 0 <= r <= channels /\
  (lane = true -> policy = "role-pools"%string /\ exists n, pool_loopback pools = Ok n /\ n <> 0).
Proof.
  unfold load_cluster_pools. intros H. rsplit H. destruct v as [c' r'].
  injection H as -> -> -> <-. apply load_physical_Ok in Hm as [Hc Hr]. split_and!; try apply Hc; try apply Hr.
  intros Hl. rewrite Hl in Hm4. rsplit Hm4. bool_prop.
  destruct v2 as [|kv fab]; [cbn in Hl; done|]. cbn [negb andb] in Hm3. bool_prop.
  split; [done|]. by eexists.
Qed.

Lemma load_channel_names_Ok aif c r ns : load_channel_names aif c r = Ok (Some ns) ->
  Z.max c r <= zlen ns /\ Forall (fun s => 1 <= zlen s <= 48) ns.
Proof.
  unfold load_channel_names. destruct (get_or aif "channel_names" YNull) as [| | | | |[|x l]|]; try done.
  intros H. rsplit H. injection H as ->. bool_prop. split; [done|]. apply mapR_Ok in Hm.
  clear -Hm. induction Hm as [|y s l1 l2 Hy _ IH]; constructor; [|done].
  destruct y; try done. destruct ((0 <? zlen s0) && (zlen s0 <=? 48)) eqn:E; [|done].
  apply Ok_inj in Hy as <-. bool_prop. lia.
Qed.

Lemma load_interface_wf cfg clk i : load_interface cfg clk = Ok i -> wf_interface i.
Proof.
  intros H. unfold load_interface in H. apply rbind_Ok in H as (aifv & _ & H).
  apply rbind_Ok in H as (aif & _ & H). apply rbind_Ok in H as (kindv & _ & H).
  destruct (select INTERFACES kindv) as [[kind ii]|] eqn:Ek; [|done].
  apply rbind_Ok in H as (wl & _ & H). apply rbind_Ok in H as (? & Hwl%raise_if_Ok & H).
  apply rbind_Ok in H as (cm & _ & H). apply rbind_Ok in H as (? & _ & H).
  apply rbind_Ok in H as (policy & Hp & H). apply rbind_Ok in H as ([[[c r] pools] lane] & Hc & H).
  apply rbind_Ok in H as (cnames & Hn & H). apply rbind_Ok in H as (serial & _ & H).
  apply Ok_inj in H as <-. apply find_some in Ek as [Ek _].
  apply load_cluster_pools_Ok in Hc as (? & ? & Hlane). bool_prop.
  constructor; cbn [if_kind if_channels if_word_length_bits if_cluster_policy if_serdes if_capture if_render
    if_cluster_pools if_channel_names if_loopback_lane]; try done.
  - exists ii. split_and!; try done. by apply (existsb_In Z.eqb) in Hwl; [|apply Z.eqb_eq].
  - clear -Ek. unfold INTERFACES in Ek. cbn [In] in Ek.
    repeat (destruct Ek as [Ek|Ek]; [injection Ek as _ <-; cbn; lia|]). done.
  - destruct (word_of _ _) eqn:E; [|done]. apply Ok_inj in Hp as <-. by apply find_some in E as [? _].
  - intros ns ->. by apply load_channel_names_Ok in Hn.
Qed.

Lemma load_platform_mac v p : load_platform v = Ok p -> unicast48 (pf_mac p).
Proof. intros H. unfold load_platform in H. rsplit H. subst p. by eapply mac48_Ok. Qed.

Lemma load_entity_id e cfg ent eid : load_entity e cfg = Ok ent -> en_entity_id ent = Some eid ->
  exists n, eid = hex64 n /\ 0 <= n < 2 ^ 64.
Proof.
  intros H He. unfold load_entity in H. rsplit H. subst ent. cbn [en_entity_id] in He. subst.
  match goal with Hx : (if str_is _ _ then _ else _) = Ok (Some eid) |- _ =>
    destruct (str_is _ _); [done|]; rsplit Hx; injection Hx as ->; by eapply fmt64_Ok end.
Qed.

(** ** The whole configuration *)

Record wf_config (e : env) (cfg : config) : Prop := WfConfig {
  cw_clocking : wf_clocking (cf_clocking cfg);
  cw_interface : wf_interface (cf_interface cfg);
  cw_listeners : 1 <= zlen (cf_listeners cfg) <= 16 /\ Forall (wf_stream Listener) (cf_listeners cfg);
  cw_talkers : 1 <= zlen (cf_talkers cfg) <= 16 /\ Forall (wf_stream Talker) (cf_talkers cfg);
  cw_modes : exists m, Forall (fun s => s_map_mode s = m) (cf_talkers cfg);
  cw_crf_output : 2 <= zlen (cf_listeners cfg) -> ck_crf_output (cf_clocking cfg) = true;
  cw_internal : In "internal"%string (ck_media_clock_sources (cf_clocking cfg));
  cw_servo : ft_media_clock_servo (cf_features cfg) = false ->
               ck_media_clock_sources (cf_clocking cfg) = ["internal"%string];
  cw_blocks : ft_maap (cf_features cfg) = true /\ ft_fabric_gptp (cf_features cfg) = true;
  cw_gptp : is_Some (cf_gptp cfg);
  cw_layout : cluster_layout (cf_listeners cfg) (cf_talkers cfg) (rules_of (cf_interface cfg))
                = Ok (cf_ports_in cfg, cf_ports_out cfg);
  cw_render : validate_render_lane (front_end_of (cf_interface cfg) (ft_i2s_playback (cf_features cfg))
                (cf_talkers cfg)) = Ok tt;
  cw_names : forall k, is_Some (na_objects (cf_names cfg) !! k) -> In k OBJECT_KEYS;
  cw_mac : unicast48 (pf_mac (cf_platform cfg));
  cw_entity_id : forall eid, en_entity_id (cf_entity cfg) = Some eid ->
                   exists n, eid = hex64 n /\ 0 <= n < 2 ^ 64;
}.

Lemma load_streams_Ok cfg clk L T : load_streams cfg clk = Ok (L, T) ->
  (1 <= zlen L <= 16 /\ Forall (wf_stream Listener) L) /\
  (1 <= zlen T <= 16 /\ Forall (wf_stream Talker) T) /\
  (exists m, Forall (fun s => s_map_mode s = m) T) /\
  (2 <= zlen L -> ck_crf_output clk = true) /\
  In "internal"%string (ck_media_clock_sources clk).
Proof.
  unfold load_streams. intros H. rsplit H. injection H as -> ->.
  apply streams_wf in Hm3. pose proof (streams_wf _ _ _ _ _ Hm5) as Ht.
  split_and!; try apply Hm3; try apply Ht.
  - bool_prop. destruct T as [|s T]; [by exists Static|]. exists (s_map_mode s).
    apply List.Forall_forall. intros t Hin.
    assert (forall x : stream, In x (s :: T) -> s_map_mode x ∈ remove_dups (map s_map_mode (s :: T))) as Hd.
    { intros x Hx. by apply elem_of_remove_dups, list_elem_of_In, in_map. }
    specialize (Hd _ (or_introl eq_refl)) as Hs. specialize (Hd _ Hin).
    destruct (remove_dups _) as [|a [|b l]]; [by apply elem_of_nil in Hs| |].
    + apply list_elem_of_singleton in Hs, Hd. congruence.
    + rewrite !zlen_cons in Hm6. pose proof (zlen_nonneg l). lia.
  - intros Hl. apply Z.leb_le in Hl. rewrite Hl in Hm7. by destruct (ck_crf_output clk).
  - unfold validate_output_clock_sources in Hm1. apply raise_if_Ok in Hm1.
    assert (truthy (get_or v0 "talkers" (YList [])) = true) as Htr.
    { unfold req in Hm4. unfold get_or. destruct (get v0 "talkers") as [y|]; [|done].
      apply Ok_inj in Hm4 as ->. unfold streams in Hm5. cbn [default].
      destruct v4 as [| | | | |[|x l]|]; done. }
    rewrite Htr in Hm1. cbn [orb andb] in Hm1. bool_prop.
    by apply (existsb_In String.eqb) in Hm1; [|apply String.eqb_eq].
Qed.

Lemma validate_features_Ok ft clk kind : validate_features ft clk kind = Ok tt ->
  NoDup (ck_media_clock_sources clk) -> In "internal"%string (ck_media_clock_sources clk) ->
  ft_maap ft = true /\
  (ft_media_clock_servo ft = false -> ck_media_clock_sources clk = ["internal"%string]).
Proof.
  unfold validate_features. intros H Hnd Hin. rsplit H. bool_prop. split; [done|].
  intros Hs. rewrite Hs in Hm. cbn [negb andb] in Hm.
  assert (Forall (fun s => s = "internal"%string) (ck_media_clock_sources clk)) as Hall.
  { apply List.Forall_forall. intros s Hx. destruct (String.eqb_spec s "internal"); [done|].
    assert (existsb (fun s => negb (s =? "internal")%string) (ck_media_clock_sources clk) = true); [|congruence].
    apply existsb_exists. exists s. split; [done|]. by apply negb_true_iff, String.eqb_neq. }
  destruct (ck_media_clock_sources clk) as [|a [|b l]]; [done| |].
  - apply Forall_cons in Hall as [-> _]. done.
  - apply Forall_cons in Hall as [-> Hall]. apply Forall_cons in Hall as [-> _].
    apply NoDup_cons in Hnd as [Hn _]. exfalso. apply Hn. by left.
Qed.

Lemma object_names_known raw objects : foldR (object_name raw) ∅ OBJECT_KEYS = Ok objects ->
  forall k, is_Some (objects !! k) -> In k OBJECT_KEYS.
Proof.
  apply (foldR_invariant (fun _ (acc : gmap string pystr) => forall k, is_Some (acc !! k) -> In k OBJECT_KEYS)).
  - intros k [? Hk]. by rewrite lookup_empty in Hk.
  - intros seen x rest t t' Hl Hacc Hstep k Hk. unfold object_name in Hstep.
    destruct (get raw x); [|apply Ok_inj in Hstep as <-; by apply Hacc].
    rsplit Hstep. subst t'. destruct (decide (x = k)) as [->|Hne].
    + rewrite Hl. apply in_app_iff. right. by left.
    + rewrite lookup_insert_ne in Hk by done. by apply Hacc.
Qed.

Lemma load_names_Ok cfg clk nm : load_names cfg clk = Ok nm ->
  forall k, is_Some (na_objects nm !! k) -> In k OBJECT_KEYS.
Proof.
  unfold load_names. intros H.
  assert (nm = Names ∅ ∅ \/ exists raw, foldR (object_name raw) ∅ OBJECT_KEYS = Ok (na_objects nm)) as [->|[raw Hr]].
  { destruct (get_or cfg "names" YNull); try (left; by apply Ok_inj in H as <-); right;
      apply rbind_Ok in H as (raw & _ & H); exists raw; apply rbind_Ok in H as (objects & Ho & H);
      (destruct (get_or raw "clock_sources" YNull); rsplit H; subst nm; exact Ho). }
  - intros k [? Hk]. cbn [na_objects] in Hk. by rewrite lookup_empty in Hk.
  - by eapply object_names_known.
Qed.

Lemma model_id_Ok v ctx n : model_id v ctx = Ok n -> 0 < n < 2 ^ 64 - 1.
Proof.
  intros H. unfold model_id in H. rsplit H. subst v0. bool_prop.
  apply hex_text_range in Hm; [|lia]. unfold EUI64_MAX in *. lia.
Qed.

Lemma resolve_model_id_Ok e ent s mid src : resolve_model_id e ent s = Ok (mid, src) -> 0 < mid < 2 ^ 64 - 1.
Proof.
  unfold resolve_model_id. intros H. apply rbind_Ok in H as (oui & _ & H). apply rbind_Ok in H as (raw & _ & H).
  apply rbind_Ok in H as (literal & Hlit & H). apply rbind_Ok in H as ([m k] & Hm & H). rsplit H.
  injection H as -> ->. destruct (get ent "model_id_pin").
  - rsplit Hm. injection Hm as -> _. by eapply model_id_Ok.
  - destruct (str_is raw "hash-derived"); [|injection Hm as -> _; by eapply model_id_Ok].
    rsplit Hm. injection Hm as -> _. by eapply model_id_Ok.
Qed.

Lemma loaded_wf e doc cfg mid : load_config e doc = Ok (cfg, mid) -> wf_config e cfg.
Proof.
  unfold load_config. intros H. apply rbind_Ok in H as (doc' & _ & H).
  apply rbind_Ok in H as (entv & _ & H). apply rbind_Ok in H as (? & _ & H).
  apply rbind_Ok in H as (ent & Hent & H). apply rbind_Ok in H as ([[target binfo] limits] & Hb & H).
  apply rbind_Ok in H as (clk & Hclk & H). apply rbind_Ok in H as (gp & _ & H).
  apply rbind_Ok in H as (nm & Hnm & H). apply rbind_Ok in H as (iface & Hif & H).
  apply rbind_Ok in H as ([L T] & Hst & H). apply rbind_Ok in H as (so & _ & H).
  apply rbind_Ok in H as (wire & _ & H). apply rbind_Ok in H as (sr & Hsr & H).
  apply rbind_Ok in H as (pf & Hpf & H). apply rbind_Ok in H as (? & _ & H). apply rbind_Ok in H as (? & _ & H).
  apply rbind_Ok in H as (ft & _ & H). apply rbind_Ok in H as ([] & Hft & H).
  apply rbind_Ok in H as (? & Hfab%raise_if_Ok & H). apply rbind_Ok in H as (? & Hgp%raise_if_Ok & H).
  apply rbind_Ok in H as (waivers & _ & H). apply rbind_Ok in H as ([] & Hrl & H).
  apply rbind_Ok in H as ([pin pout] & Hlay & H). apply rbind_Ok in H as (s & _ & H).
  apply rbind_Ok in H as (entd & _ & H). apply rbind_Ok in H as ([m k] & _ & H).
  apply Ok_inj, pair_eq in H as [<- _].
  pose proof (load_clocking_wf _ _ _ Hclk) as Hk. destruct (load_streams_Ok _ _ _ _ Hst) as (HL & HT & Hmo & Hco & Hi).
  destruct (validate_features_Ok _ _ _ Hft (wk_sources_once _ Hk) Hi) as [Hma Hse]. bool_prop.
  constructor; cbn [cf_clocking cf_interface cf_listeners cf_talkers cf_features cf_gptp cf_ports_in
    cf_ports_out cf_srp cf_platform cf_entity cf_names]; try done.
  - by eapply load_interface_wf.
  - by destruct gp.
  - by eapply load_names_Ok.
  - by eapply load_platform_mac.
  - intros eid. by eapply load_entity_id.
Qed.

(** C9: A configuration [load_config] returns is well-formed: streams, clock sources,
    interface and cluster layout meet the rules above, talkers share one mapping
    mode, two listeners or more come with a CRF output, the render lane carries
    the declared width, and the identity is a unicast MAC with a usable model id. *)
Theorem load_config_wf e doc cfg mid src : load_config e doc = Ok (cfg, (mid, src)) ->
  wf_config e cfg /\ 0 < mid < 2 ^ 64 - 1.
Proof.
  intros H. split; [by eapply loaded_wf|]. revert H. unfold load_config. intros H.
  repeat (apply rbind_Ok in H as (? & ? & H); repeat match goal with x : _ * _ |- _ => destruct x end).
  apply Ok_inj, pair_eq in H as [_ H]. apply pair_eq in H as [-> ->]. by eapply resolve_model_id_Ok.
Qed.
