(* ===== verification/BuilderOverlay.v ===== *)
(** What the end-station builder emits for the descriptor layer
    ([sw/builder/endstation_builder.py], [adp_shape], [overlay_adp_block],
    [derive_entity_id], [emit_aem_overlay] with its [_overlay_*] parts,
    [resource_instances], and the two dynamic-map geometries of the shape header).

    The overlay is a JSON document.  The keys [avdecc/aem_specs.py] reads form a
    [Specs.overlay], the record the consumer's model takes; the others that have
    a reader are fields of [document].  A CLOCK_SOURCE, a map or a cluster repeats
    its position or its port under keys nothing reads; those are left out. *)
From S2P Require Import Prelude Unicode Descriptors Directory Text Model AudioMaps Assemble Specs.
From S2P Require Import Config BuilderFormats BuilderStreams BuilderClusters Srp BuilderConfig.
From S2P Require AemiImage.

(** * The advertised shape *)

Record advertised := Advertised {
  av_talker_stream_sources : Z;
  av_listener_stream_sinks : Z;
  av_talker_capabilities : Z;
  av_listener_capabilities : Z;
}.

Definition adp_shape (cfg : config) : advertised :=
  let clk := cf_clocking cfg in
  let n_src := zlen (cf_talkers cfg) + (if ck_crf_output clk then 1 else 0) in
  let n_sink := zlen (cf_listeners cfg) + (if ck_crf_sink clk then 1 else 0) in
  let IMPLEMENTED := 0x0001 in let MEDIA_CLOCK := 0x0800 in let AUDIO := 0x4000 in
  Advertised n_src n_sink
    (Z.lor (Z.lor IMPLEMENTED AUDIO) (if ck_crf_output clk then MEDIA_CLOCK else 0))
    (Z.lor (Z.lor IMPLEMENTED AUDIO) (if ck_crf_sink clk then MEDIA_CLOCK else 0)).

(** ["mac-derived"] inserts FF-FE between the halves of the station MAC; an
    explicit EUI-64 is the number it spells. *)
Definition derive_entity_id (cfg : config) : result config_error Z :=
  match en_entity_id (cf_entity cfg) with
  | Some eid => match py_int16 eid with Some n => Ok n | None => Err EValue end
  | None =>
      let* b := map_err (fun _ => EValue) (AemiImage.mac_bytes (mac_text (pf_mac (cf_platform cfg)))) in
      Ok (of_be (take 3 b ++ [0xFF; 0xFE] ++ drop 3 b))
  end.

Definition MAC48_UL_BIT := Z.shiftl 1 41.

(** One warning, naming the address, when it is locally administered. *)
Definition identity_warnings (cfg : config) : result config_error (list pystr) :=
  let mac := mac_text (pf_mac (cf_platform cfg)) in
  let* n := mac48 (YStr mac) (lit "platform.mac_address") in
  Ok (if Z.land n MAC48_UL_BIT =? 0 then [] else [mac]).

(** [f"0x{v:04X}"]. *)
Definition hex_word (v : Z) : pystr := lit "0x" ++ hex_pad 4 v.

Definition overlay_adp_block (cfg : config) : result config_error AemiImage.adp_block :=
  let sh := adp_shape cfg in
  let* eid := derive_entity_id cfg in
  Ok (AemiImage.AdpBlock (mac_text (pf_mac (cf_platform cfg)))
        (AemiImage.JStr (hex64 eid))
        (AemiImage.JInt (av_talker_stream_sources sh))
        (AemiImage.JStr (hex_word (av_talker_capabilities sh)))
        (AemiImage.JInt (av_listener_stream_sinks sh))
        (AemiImage.JStr (hex_word (av_listener_capabilities sh)))).

(** * The descriptor lists *)

Definition listener_row (s : stream) : Specs.ovl_stream :=
  Specs.OvlStream (s_name s) (Some "aaf"%string) (s_formats s) (exact_int (s_buffer_length_ns s)).
Definition talker_row (s : stream) : Specs.ovl_stream :=
  Specs.OvlStream (s_name s) (Some "aaf"%string) (s_formats s) None.
Definition crf_row (format : pystr) (buffer : option Z) : Specs.ovl_stream :=
  Specs.OvlStream (lit "CRF") (Some "crf"%string) [format] buffer.

Definition overlay_streams (cfg : config) : list Specs.ovl_stream * list Specs.ovl_stream :=
  let clk := cf_clocking cfg in
  (map listener_row (cf_listeners cfg) ++
     (if ck_crf_sink clk then [crf_row (ck_crf_format clk) (Some BUFLEN_DEFAULT_NS)] else []),
   map talker_row (cf_talkers cfg) ++
     (if ck_crf_output clk then [crf_row (ck_crf_output_format clk) None] else [])).

(** [{**CLOCK_SOURCE_NAMES, **names["clock_sources"]}[key]]. *)
Definition clock_source_name (cfg : config) (key : string) : pystr :=
  default [] ((na_clock_sources (cf_names cfg) ∪ list_to_map CLOCK_SOURCE_NAMES) !! key).

(** The name of the source that follows listener [k]. *)
Definition followed_name (cfg : config) (k : Z) : pystr :=
  let name := clock_source_name cfg "stream" in
  if zlen (cf_listeners cfg) =? 1 then name else name ++ lit " " ++ dec k.

Definition overlay_clock_sources (cfg : config) : list Specs.ovl_clock :=
  let srcs := ck_media_clock_sources (cf_clocking cfg) in
  let n := zlen (cf_listeners cfg) in
  let declared key := existsb (String.eqb key) srcs in
  (if declared "internal"%string
   then [Specs.OvlClock (clock_source_name cfg "internal") "internal" "CLOCK_SOURCE" 0] else []) ++
  (if declared "crf"%string
   then [Specs.OvlClock (clock_source_name cfg "crf") "crf" "STREAM_INPUT" n] else []) ++
  (if declared "input_stream"%string
   then map (fun k => Specs.OvlClock (followed_name cfg k) "input_stream" "STREAM_INPUT" k)
            (zrange 0 (Z.to_nat n)) else []).

(** The mappings of one port's AUDIO_MAP. *)
Definition map_rows (policy : string) (p : port) (d : direction) (channels : Z) : list map_row :=
  let row off ch := MapRow (p_stream_index p) ch (off + ch) 0 in
  if negb (String.eqb policy "role-pools") then
    map (row 0) (zrange 0 (Z.to_nat (p_clusters p)))
  else match primary_segment p d with
  | None => []
  | Some g => map (row (g_offset g)) (zrange 0 (Z.to_nat (Z.min channels (g_width g))))
  end.

(** The AUDIO_MAP of one port; a dynamic port has none.  The primary role of an
    output port is subscripted, so a port without segments is a [TypeError]. *)
Definition audio_map (policy : string) (d : direction) (l : list stream) (p : port)
    : result config_error (list Specs.ovl_map) :=
  if p_dynamic p then Ok []
  else
    let* _ := raise_if (negb (is_listener d) &&
                match primary_segment p d with None => true | Some _ => false end) EType in
    match py_index l (p_stream_index p) with
    | None => Err EKeyErr
    | Some s => Ok [Specs.OvlMap (p_base_map p) (map_rows policy p d (s_channels s))]
    end.

Definition overlay_audio_maps (cfg : config) : result config_error (list Specs.ovl_map) :=
  let policy := if_cluster_policy (cf_interface cfg) in
  let* ins := mapR (audio_map policy Listener (cf_listeners cfg)) (cf_ports_in cfg) in
  let* outs := mapR (audio_map policy Talker (cf_talkers cfg)) (cf_ports_out cfg) in
  Ok (merge_sort Specs.map_le (concat ins ++ concat outs)).

Definition direction_word (d : direction) : string :=
  match d with Listener => "input" | Talker => "output" end.

Definition naming_of (cfg : config) (d : direction) : naming :=
  cluster_naming (if_kind (cf_interface cfg)) (if_channel_names (cf_interface cfg)) (cf_listeners cfg) d.

(** Cluster [n] of a segment at [off], by its global index. *)
Definition cluster_row (names : list pystr) (base : Z) (d : direction) (off n : Z)
    : result config_error Specs.ovl_cluster :=
  match py_index names (off + n) with
  | None => Err EKeyErr
  | Some name => Ok (Specs.OvlCluster (base + (off + n)) (direction_word d) name)
  end.

(** The clusters of one port, segment by segment. *)
Definition port_audio_clusters (cfg : config) (d : direction) (p : port)
    : result config_error (list Specs.ovl_cluster) :=
  let* names := cluster_names (naming_of cfg d) p in
  let* rows := mapR (fun g => mapR (cluster_row names (p_base_cluster p) d (g_offset g))
                                   (zrange 0 (Z.to_nat (g_width g)))) (p_pool p) in
  Ok (concat rows).

Definition overlay_audio_clusters (cfg : config) : result config_error (list Specs.ovl_cluster) :=
  let* ins := mapR (port_audio_clusters cfg Listener) (cf_ports_in cfg) in
  let* outs := mapR (port_audio_clusters cfg Talker) (cf_ports_out cfg) in
  Ok (concat ins ++ concat outs).

Definition port_public (d : direction) (p : port) : Specs.ovl_port :=
  Specs.OvlPort (p_clusters p) (p_base_cluster p) (p_maps p) (p_base_map p)
    (if p_dynamic p then Some "dynamic"%string else None)
    (if p_dynamic p then
       match p_map_page p with Some page => if page =? 0 then None else Some page | None => None end
     else None)
    (Some (p_stream_index p)) (g_role <$> primary_segment p d)
    (map (fun g => Specs.PoolRole (g_role g) (g_width g) (g_offset g)) (p_pool p)).

Definition overlay_ports (cfg : config) : list Specs.ovl_port * list Specs.ovl_port :=
  (map (port_public Listener) (cf_ports_in cfg), map (port_public Talker) (cf_ports_out cfg)).

(** * The document *)

Definition OVERLAY_SCHEMA_ID : string := "kebag-logic/aem-overlay".
Definition OVERLAY_SCHEMA_VERSION : string := "2.2.0".

Record document := Document {
  do_overlay : Specs.overlay;
  do_model_id : pystr;
  do_adp : AemiImage.adp_block;
  do_entity_counts : Z * Z;                 (* talker sources, listener sinks *)
  do_descriptor_counts : list (string * Z);
  do_cluster_policy : string;
}.

Definition descriptor_counts (cfg : config) (n_clocks n_maps : Z) : list (string * Z) :=
  let clk := cf_clocking cfg in
  let n_crf := if ck_crf_sink clk then 1 else 0 in
  let n_crf_out := if ck_crf_output clk then 1 else 0 in
  let in_clusters := sum_z (map p_clusters (cf_ports_in cfg)) in
  let out_clusters := sum_z (map p_clusters (cf_ports_out cfg)) in
  [("ENTITY", 1); ("CONFIGURATION", 1); ("AUDIO_UNIT", 1);
   ("STREAM_INPUT", zlen (cf_listeners cfg) + n_crf);
   ("STREAM_OUTPUT", zlen (cf_talkers cfg) + n_crf_out);
   ("AVB_INTERFACE", 1); ("CLOCK_SOURCE", n_clocks);
   ("CLOCK_DOMAIN", 1); ("CONTROL", 1); ("LOCALE", 1); ("STRINGS", 1);
   ("STREAM_PORT_INPUT", zlen (cf_ports_in cfg)); ("STREAM_PORT_OUTPUT", zlen (cf_ports_out cfg));
   ("AUDIO_CLUSTER", in_clusters + out_clusters); ("AUDIO_MAP", n_maps)]%string.

Definition overlay_entity (e : entity) : Specs.ovl_entity :=
  Specs.OvlEntity (en_name e) (Some (en_firmware_version e)) (Some (en_group_name e))
    (en_serial_number e) (Some (en_vendor_name e)) (en_locale e).

Definition emit_aem_overlay (cfg : config) (mid : Z) : result config_error document :=
  let clk := cf_clocking cfg in
  let '(stream_inputs, stream_outputs) := overlay_streams cfg in
  let '(ports_in, ports_out) := overlay_ports cfg in
  let clock_sources := overlay_clock_sources cfg in
  let* audio_maps := overlay_audio_maps cfg in
  let* audio_clusters := overlay_audio_clusters cfg in
  let objects := na_objects (cf_names cfg) in
  let* adp := overlay_adp_block cfg in
  Ok (Document
    (Specs.Overlay (Some OVERLAY_SCHEMA_ID) (Some OVERLAY_SCHEMA_VERSION)
       (overlay_entity (cf_entity cfg)) (ck_audio_unit_rates_hz clk) (ck_sampling_rate_hz clk)
       stream_inputs stream_outputs clock_sources ports_in ports_out audio_maps audio_clusters
       (if bool_decide (objects = ∅) then None else Some objects)
       (gc_dataset <$> cf_gptp cfg) (Some (if_loopback_lane (cf_interface cfg)))
       (cf_model_lint_waivers cfg))
    (hex64 mid) adp
    (zlen (cf_talkers cfg) + (if ck_crf_output clk then 1 else 0),
     zlen (cf_listeners cfg) + (if ck_crf_sink clk then 1 else 0))
    (descriptor_counts cfg (zlen clock_sources) (zlen audio_maps))
    (if_cluster_policy (cf_interface cfg))).

(** A descriptor count by name. *)
Definition count_of (counts : list (string * Z)) (name : string) : option Z :=
  snd <$> List.find (fun r => String.eqb (fst r) name) counts.

(** * The shape header *)

Definition named_types : list string :=
  ["ENTITY"; "CONFIGURATION"; "AUDIO_UNIT"; "STREAM_INPUT"; "STREAM_OUTPUT"; "AVB_INTERFACE";
   "CLOCK_SOURCE"; "CLOCK_DOMAIN"; "CONTROL"; "AUDIO_CLUSTER"]%string.

(** [capacity] is what [nvm_name_capacity] reads from the RTL; [None] when there
    is not exactly one declaration. *)
Definition adp_name_entries (capacity : option Z) (counts : list (string * Z)) : result config_error Z :=
  let missing := List.filter (fun n => match count_of counts n with None => true | _ => false end)
                             named_types in
  let* _ := raise_if (match missing with [] => false | _ => true end) (EMissingCounts missing) in
  let entries := 1 + sum_z (map (fun n => default 0 (count_of counts n)) named_types) in
  let* cap := match capacity with Some c => Ok c | None => Err ECapacityDecl end in
  let* _ := raise_if (cap <? entries) (ENameCapacity entries cap) in
  Ok entries.

Record dyn_in := DynIn {
  di_keys : Z; di_page : Z; di_pbase : list Z; di_pcls : list Z; di_pnmaps : list Z;
  di_saaf : list bool; di_sch : list Z }.

(** [(int(format, 16) >> 22) & 0x3FF] of the first format. *)
Definition head_channels (s : Specs.ovl_stream) : result config_error Z :=
  match Specs.os_formats s with
  | [] => Err EKeyErr
  | f :: _ => match py_int16 f with Some n => Ok (Z.land (Z.shiftr n 22) 0x3FF) | None => Err EValue end
  end.

Definition is_aaf (s : Specs.ovl_stream) : bool :=
  String.eqb (default "aaf"%string (Specs.os_kind s)) "aaf".

(** One past the last cluster of a port. *)
Definition port_end (p : port) : Z := p_base_cluster p + p_clusters p.

Definition adp_dyn_in_geometry (cfg : config) (ovl : Specs.overlay) : result config_error (option dyn_in) :=
  if negb (existsb (fun s => bool_decide (s_map_mode s = Dynamic)) (cf_listeners cfg)) then Ok None
  else match List.filter p_dynamic (cf_ports_in cfg) with
  | [] => Err EKeyErr
  | p0 :: ps =>
      let* page := match p_map_page p0 with Some page => Ok page | None => Err EType end in
      let* nmaps := mapR (fun p => if p_dynamic p
                                   then if page =? 0 then Err EValue else Ok (- (- p_clusters p / page))
                                   else Ok (p_maps p)) (cf_ports_in cfg) in
      let* sch := mapR (fun s => if is_aaf s then head_channels s else Ok 0) (Specs.ov_stream_inputs ovl) in
      Ok (Some (DynIn (max_z (port_end p0) (map port_end ps)) page
        (map p_base_cluster (cf_ports_in cfg)) (map p_clusters (cf_ports_in cfg)) nmaps
        (map is_aaf (Specs.ov_stream_inputs ovl)) sch))
  end.

Record dyn_out := DynOut {
  do_pcls : list Z; do_pcbase : list Z; do_sch : list Z; do_csrc : list Model.cluster_source }.

Definition dyn_out_step (ovl : Specs.overlay) (so_ch : list Z) (od : dyn_out) (jp : Z * Specs.ovl_port)
    : result config_error dyn_out :=
  let '(j, p) := jp in
  let* ch := match py_index so_ch (default j (Specs.op_stream_index p)) with
             | Some c => Ok c | None => Err EKeyErr end in
  let* srcs := map_err (fun _ => EOutputSources) (Specs.out_cluster_sources ovl j p) in
  let* srcs := match srcs with
    | Some l => Ok l
    | None =>
        let* _ := raise_if (Specs.ovl_is_dynamic p) (EOutputTopology j) in
        Ok (repeat (Model.ClusterSource 0 0 0 0 (Some false)) (Z.to_nat (Specs.op_clusters p)))
    end in
  Ok (DynOut (do_pcls od ++ [Specs.op_clusters p]) (do_pcbase od ++ [zlen (do_csrc od)])
        (do_sch od ++ [ch]) (do_csrc od ++ srcs)).

Definition adp_dyn_out_geometry (cfg : config) (ovl : Specs.overlay) : result config_error (option dyn_out) :=
  if negb (existsb (fun s => bool_decide (s_map_mode s = Dynamic)) (cf_talkers cfg)) then Ok None
  else
    let* so_ch := mapR head_channels (Specs.ov_stream_outputs ovl) in
    let* od := foldR (dyn_out_step ovl so_ch) (DynOut [] [] [] []) (enumerate (Specs.ov_ports_out ovl)) in
    Ok (Some od).

(** The ownership masks: bit [k] is set when stream [k] maps dynamically. *)
Definition dmap_mask (l : list stream) : Z :=
  sum_z (map (fun ks => Z.shiftl 1 (fst ks))
    (List.filter (fun ks => bool_decide (s_map_mode (snd ks) = Dynamic)) (enumerate l))).

(** * The resource table *)

Definition CAL_CLUSTERS := 16.
Definition CAL_L2_BYTES := 65536.

(** [block_present]: every optional block has one declaration under [board.features]. *)
Definition block_present (f : features) (name : string) : bool :=
  if String.eqb name "media_clock_servo" then ft_media_clock_servo f
  else if String.eqb name "latency_taps" then ft_latency_taps f
  else if String.eqb name "maap" then ft_maap f
  else if String.eqb name "i2s_playback" then ft_i2s_playback f
  else if String.eqb name "rx_mac_filter" then ft_rx_mac_filter f
  else if String.eqb name "render_lpf" then ft_render_lpf f
  else if String.eqb name "datapath_probes" then ft_datapath_probes f
  else if String.eqb name "fabric_gptp" then ft_fabric_gptp f else true.

Definition resource_instances (cfg : config) (counts : list (string * Z))
    : result config_error (list (string * Z)) :=
  let L := zlen (cf_listeners cfg) in
  let T := zlen (cf_talkers cfg) in
  let ft := cf_features cfg in
  let one (b : bool) := if b then 1 else 0 in
  let* clusters := match count_of counts "AUDIO_CLUSTER" with Some n => Ok n | None => Err EKeyErr end in
  Ok ([("soc_infra", 1); ("cpu_vexii", 1);
       ("l2_size_delta_4k", (cn_l2_bytes (cf_constraints cfg) - CAL_L2_BYTES) / 4096);
       ("traffic_controller", 1); ("aecp_entity", 1);
       ("aem_rom_extra_cluster", Z.max 0 (clusters - CAL_CLUSTERS));
       ("crf_rx", one (ck_crf_sink (cf_clocking cfg)));
       ("csr", 1); ("ptp_timestamp", 1);
       ("rx_filter", one (ft_rx_mac_filter ft)); ("i2s_renderer", one (ft_i2s_playback ft));
       ("datapath_misc", 1);
       ("aaf_listener_engine", Z.min L 1); ("aaf_listener_ctx_extra", Z.max 0 (L - 1));
       ("aaf_talker_engine", Z.min T 1); ("aaf_talker_ctx_extra", Z.max 0 (T - 1));
       ("maap_claim_ctx", if ft_maap ft then Z.min T 1 else 0);
       ("maap_dmac_slot_extra", if ft_maap ft then Z.max 0 (T - 1) else 0);
       ("acmp_listener_ctx", Z.min L 1); ("acmp_lstn_ctx_extra", Z.max 0 (L - 1));
       ("lwsrp_base", 1); ("lwsrp_attr_ctx", (L - 1) + (T - 1));
       ("lwsrp_bw_slot_extra", Z.max 0 (T - 1))]%string ++
      map (fun name => (String.append "prune_" name, if block_present ft name then 0 else 1))
          ["media_clock_servo"; "latency_taps"; "render_lpf"]%string).

#[export] Instance clock_row_overlay : ClockRow ovl_clock := {
  row_kind := oc_type;
  row_is_stream_input c := String.eqb (oc_location_type c) "STREAM_INPUT";
  row_loc_index := oc_location_index;
}.

(** * The station identity *)

Lemma byte_digits b : is_byte b -> 0 <= b / 16 < 16 /\ 0 <= b mod 16 < 16 /\ b = b / 16 * 16 + b mod 16.
Proof.
  intros H. unfold is_byte in H. pose proof (Z.div_mod b 16 ltac:(lia)).
  pose proof (Z.mod_pos_bound b 16 ltac:(lia)). nia.
Qed.

Lemma six_bytes n : exists b0 b1 b2 b3 b4 b5, be_bytes 6 n = [b0; b1; b2; b3; b4; b5] /\
  Forall is_byte [b0; b1; b2; b3; b4; b5].
Proof.
  pose proof (be_bytes_length 6 n) as Hl. pose proof (be_bytes_bytes 6 n) as Hb.
  destruct (be_bytes 6 n) as [|b0 [|b1 [|b2 [|b3 [|b4 [|b5 [|]]]]]]]; try done.
  by exists b0, b1, b2, b3, b4, b5.
Qed.

Lemma hex_char_hex d : 0 <= d < 16 -> is_hex (hex_char d) = true.
Proof. intros H. unfold is_hex. by rewrite hex_char_digit. Qed.

Lemma mac_text_eq n b0 b1 b2 b3 b4 b5 : be_bytes 6 n = [b0; b1; b2; b3; b4; b5] ->
  mac_text n = [hex_char (b0 / 16); hex_char (b0 mod 16); 58; hex_char (b1 / 16); hex_char (b1 mod 16); 58;
                hex_char (b2 / 16); hex_char (b2 mod 16); 58; hex_char (b3 / 16); hex_char (b3 mod 16); 58;
                hex_char (b4 / 16); hex_char (b4 mod 16); 58; hex_char (b5 / 16); hex_char (b5 mod 16)].
Proof. intros E. unfold mac_text. by rewrite E. Qed.

(** The printed MAC is the canonical form [_mac48] accepts, and reads back. *)
Lemma mac48_mac_text n ctx : unicast48 n -> mac48 (YStr (mac_text n)) ctx = Ok n.
Proof.
  intros [Hn Hg]. destruct (six_bytes n) as (b0 & b1 & b2 & b3 & b4 & b5 & E & Hb).
  assert (of_be (be_bytes 6 n) = n) as Hof by (apply of_be_be_bytes_id; cbn; lia).
  repeat (apply Forall_cons in Hb as [? Hb]).
  repeat match goal with Hx : is_byte ?b |- _ => apply byte_digits in Hx as (? & ? & Hx) end.
  unfold mac48, mac_digits, MAC_OCTETS. rewrite (mac_text_eq _ _ _ _ _ _ _ E).
  cbn [forallb]. rewrite !hex_char_hex by done. change (58 =? 58) with true. cbn [andb orb].
  match goal with |- context [negb (zlen ?l =? 12)] => change (zlen l) with 12 end.
  change (negb (12 =? 12)) with false. cbn [raise_if rbind hex_value]. rewrite !hex_char_digit by done.
  match goal with |- context [raise_if (?v =? 0)] => assert (v = n) as -> end.
  { rewrite <-Hof, E. unfold of_be. cbn [rev app of_le]. lia. }
  destruct (Z.eqb_spec n 0); [lia|]. cbn [raise_if rbind].
  change 1 with (Z.ones 1) at 1. rewrite Z.land_ones by lia. change (2 ^ 1) with 2.
  rewrite <-Z.bit0_mod, Z.shiftr_spec by lia. change (0 + 40) with 40. by rewrite Hg.
Qed.

Lemma hex2_int16 b : is_byte b -> py_int16 (hex2 b) = Some b.
Proof.
  intros Hb.
  assert (forallb (fun b => bool_decide (py_int16 (hex2 b) = Some b)) (zrange 0 256) = true) as H
    by (vm_compute; reflexivity).
  rewrite forallb_forall in H. specialize (H b). apply bool_decide_eq_true in H; [done|].
  apply zrange_In. unfold is_byte in Hb. lia.
Qed.

(** The text between separators comes back, whatever follows. *)
Lemma split_on_join sep a b s : a <> sep -> b <> sep ->
  split_on sep (a :: b :: sep :: s) = [a; b] :: split_on sep s.
Proof.
  intros Ha Hb. cbn [split_on]. destruct (split_on sep s) as [|w ws] eqn:E.
  { exfalso. destruct s; cbn [split_on] in E; [done|].
    destruct (split_on sep s); [done|]. by destruct (z =? sep). }
  rewrite Z.eqb_refl. apply Z.eqb_neq in Ha, Hb. by rewrite Hb, Ha.
Qed.

Lemma hex_char_not_colon d : 0 <= d < 16 -> hex_char d <> 58.
Proof. intros H. unfold hex_char. destruct (d <? 10) eqn:E; bool_prop; lia. Qed.

Lemma mac_bytes_mac_text n : AemiImage.mac_bytes (mac_text n) = Ok (be_bytes 6 n).
Proof.
  destruct (six_bytes n) as (b0 & b1 & b2 & b3 & b4 & b5 & E & Hb).
  unfold AemiImage.mac_bytes. rewrite (mac_text_eq _ _ _ _ _ _ _ E), E.
  pose proof Hb as Hall. repeat (apply Forall_cons in Hb as [? Hb]).
  rewrite !split_on_join by (apply hex_char_not_colon, byte_digits; assumption).
  cbn [split_on].
  rewrite (proj2 (Z.eqb_neq (hex_char (b5 mod 16)) 58)) by (apply hex_char_not_colon, byte_digits; assumption).
  rewrite (proj2 (Z.eqb_neq (hex_char (b5 / 16)) 58)) by (apply hex_char_not_colon, byte_digits; assumption).
  change [hex_char (b0 / 16); hex_char (b0 mod 16)] with (hex2 b0).
  change [hex_char (b1 / 16); hex_char (b1 mod 16)] with (hex2 b1).
  change [hex_char (b2 / 16); hex_char (b2 mod 16)] with (hex2 b2).
  change [hex_char (b3 / 16); hex_char (b3 mod 16)] with (hex2 b3).
  change [hex_char (b4 / 16); hex_char (b4 mod 16)] with (hex2 b4).
  change [hex_char (b5 / 16); hex_char (b5 mod 16)] with (hex2 b5).
  cbn [mapR]. rewrite !hex2_int16 by assumption. cbn [rbind].
  assert (forallb is_byteb [b0; b1; b2; b3; b4; b5] = true) as ->; [|done].
  apply forallb_forall. intros b Hin. apply (proj1 (List.Forall_forall _ _) Hall) in Hin.
  unfold is_byteb, is_byte in *. by rewrite andb_true_iff, Z.leb_le, Z.ltb_lt.
Qed.

(** The EUI-64 of an EUI-48: FF-FE between its halves. *)
Definition eui64_of (mac : bytes) : bytes := take 3 mac ++ [0xFF; 0xFE] ++ drop 3 mac.

(** The derivation succeeds for every loaded configuration and is 64 bits wide. *)
Lemma derive_entity_id_Ok e cfg : wf_config e cfg ->
  exists eid, derive_entity_id cfg = Ok eid /\ 0 <= eid < 2 ^ 64 /\
    (en_entity_id (cf_entity cfg) = None ->
       be_bytes 8 eid = eui64_of (be_bytes 6 (pf_mac (cf_platform cfg)))) /\
    (forall n, en_entity_id (cf_entity cfg) = Some (hex64 n) -> 0 <= n -> eid = n).
Proof.
  intros Hw. unfold derive_entity_id. destruct (en_entity_id (cf_entity cfg)) as [t|] eqn:Et.
  - destruct (cw_entity_id _ _ Hw _ Et) as (n & -> & Hn). rewrite hex64_int16 by lia. exists n.
    split_and!; try done; try lia. intros m [= Hm] H0.
    assert (py_int16 (hex64 m) = py_int16 (hex64 n)) as E by (unfold hex64; by rewrite Hm).
    rewrite !hex64_int16 in E by lia. congruence.
  - rewrite mac_bytes_mac_text. cbn [map_err rbind].
    set (mac := be_bytes 6 _). assert (Forall is_byte (eui64_of mac) /\ length (eui64_of mac) = 8%nat) as [Hb Hl].
    { destruct (six_bytes (pf_mac (cf_platform cfg))) as (b0 & b1 & b2 & b3 & b4 & b5 & E & Hb).
      unfold eui64_of, mac. rewrite E. repeat (apply Forall_cons in Hb as [? Hb]).
      split; [|done]. repeat (constructor; [assumption || (unfold is_byte; lia)|]). done. }
    exists (of_be (eui64_of mac)). split; [done|]. split_and!; [..|done].
    + apply (of_le_bound (rev (eui64_of mac))). by apply Forall_rev.
    + eapply Z.lt_le_trans; [apply of_le_bound; by apply Forall_rev|].
      unfold zlen. by rewrite length_rev, Hl.
    + intros _. by apply be_bytes_of_be.
Qed.

(** * Every loaded configuration has an overlay *)

Lemma py_index_inside {A} (l : list A) i : 0 <= i < zlen l -> exists x, py_index l i = Some x.
Proof.
  intros H. rewrite py_index_nonneg by lia.
  destruct (l !! Z.to_nat i) as [x|] eqn:E; [by exists x|].
  apply lookup_ge_None in E. unfold zlen in H. lia.
Qed.

Lemma primary_segment_Some p d : p_pool p <> [] -> is_Some (primary_segment p d).
Proof.
  intros H. unfold primary_segment. destruct (omap _ _); [|by eexists].
  destruct (p_pool p); [done|]. by eexists.
Qed.

(** What the layout of a loaded configuration satisfies. *)
Lemma wf_layout_inputs e cfg : wf_config e cfg ->
  layout_inputs_ok (rules_of (cf_interface cfg)) (cf_listeners cfg) /\
  layout_inputs_ok (rules_of (cf_interface cfg)) (cf_talkers cfg).
Proof.
  intros Hw. destruct (cw_listeners _ _ Hw) as [_ HL], (cw_talkers _ _ Hw) as [_ HT].
  pose proof (wi_channels _ (cw_interface _ _ Hw)) as Hc. unfold layout_inputs_ok, rules_of. cbn [cr_iface_channels].
  split; (split; [lia|]); eapply Forall_impl; try exact HL; try exact HT;
    intros s Hs; destruct (ws_clusters _ _ Hs); lia.
Qed.

Lemma wf_laid e cfg : wf_config e cfg ->
  zlen (cf_ports_in cfg) = zlen (cf_listeners cfg) /\ zlen (cf_ports_out cfg) = zlen (cf_talkers cfg) /\
  laid 0 0 0 (cf_ports_in cfg) /\
  laid 0 (sum_z (map p_clusters (cf_ports_in cfg))) (sum_z (map p_maps (cf_ports_in cfg))) (cf_ports_out cfg).
Proof.
  intros Hw. destruct (wf_layout_inputs _ _ Hw) as [HL HT].
  exact (cluster_layout_laid _ _ _ _ _ HL HT (cw_layout _ _ Hw)).
Qed.

Lemma laid_In k base m ports p : laid k base m ports -> In p ports ->
  k <= p_stream_index p < k + zlen ports /\ p_index p = p_stream_index p /\
  tiles 0 (p_pool p) (p_clusters p) /\ known_roles (p_pool p).
Proof.
  revert k base m. induction ports as [|q ports IH]; intros k base m; [done|].
  cbn [laid]. rewrite zlen_cons. intros (Hi & Hs & _ & _ & _ & Ht & Hk & Hl) [<-|Hp].
  - pose proof (zlen_nonneg ports). split; [lia|]. split; [lia|]. by split.
  - destruct (IH _ _ _ Hl Hp) as (? & ?). split; [lia|done].
Qed.

(** An output port has at least one segment. *)
Lemma port_block_talker rules b i s n pool : 1 <= cr_iface_channels rules -> 1 <= s_clusters s ->
  port_block rules Talker b i s = Ok (n, pool) -> pool <> [].
Proof.
  intros Hc Hs. unfold port_block. destruct (cr_policy rules =? "role-pools")%string.
  - intros H. rsplit H. injection H as _ <-. unfold role_pool in Hm. destruct (cluster_widths rules).
    rsplit Hm. cbn [is_listener negb andb] in Hm. intros ->.
    match type of Hm with match ?l with _ => _ end = _ => by destruct l end.
  - intros [= <- <-]. assert (1 <= effective_clusters rules s) as Hm.
    { unfold effective_clusters. destruct (cr_policy rules =? "cap-at-interface")%string; lia. }
    unfold legacy_pool. set (k := Z.max 0 _). intros [E1 E2]%app_eq_nil.
    destruct (Z.eqb_spec k 0); [|done]. destruct (Z.eqb_spec (effective_clusters rules s - k) 0); [lia|done].
Qed.

(** A loopback segment is numbered by the talker that owns the port. *)
Definition loopback_first (i : Z) (pool : list segment) : Prop :=
  Forall (fun g => g_role g = "loopback"%string -> g_first g = i) pool.

Lemma pack_roles_first roles off i : loopback_first i (pack_roles off i roles).
Proof.
  revert off. induction roles as [|[r w] roles IH]; intros off; cbn [pack_roles]; [constructor|].
  destruct (0 <? w); [|apply IH]. constructor; [|apply IH]. cbn [g_role g_first]. intros ->. done.
Qed.

Lemma port_block_first rules b i s n pool : port_block rules Talker b i s = Ok (n, pool) -> loopback_first i pool.
Proof.
  unfold port_block. destruct (cr_policy rules =? "role-pools")%string.
  - intros H. rsplit H. injection H as _ <-. unfold role_pool in Hm. destruct (cluster_widths rules).
    rsplit Hm. cbn [is_listener negb andb] in Hm.
    match type of Hm with match ?l with _ => _ end = _ => set (roles := l) in Hm end.
    assert (v = roles) as -> by (destruct roles; [done|by apply Ok_inj in Hm]). apply pack_roles_first.
  - intros [= _ <-]. unfold legacy_pool, loopback_first. apply Forall_app. split; case_match; repeat constructor; done.
Qed.

(** What holds of every block the output walk cuts holds of every port. *)
Lemma output_steps_Forall rules (P : Z -> list segment -> Prop) T :
  (forall b i s n pool, In s T -> port_block rules Talker b i s = Ok (n, pool) -> P i pool) ->
  forall k w w', Forall (fun p => P (p_index p) (p_pool p)) (w_ports w) ->
  foldR (output_step rules) w (enum_from k T) = Ok w' -> Forall (fun p => P (p_index p) (p_pool p)) (w_ports w').
Proof.
  induction T as [|s T IH]; intros HP k w w' Hacc H; cbn [enum_from foldR] in H.
  - by apply Ok_inj in H as <-.
  - apply rbind_Ok in H as (w1 & Hstep & H).
    assert (Forall (fun p => P (p_index p) (p_pool p)) (w_ports w1)) as Hacc1.
    { unfold output_step in Hstep. apply rbind_Ok in Hstep as ([n pool] & Hb & Hstep).
      apply Ok_inj in Hstep as <-. cbn [w_ports]. apply Forall_app. split; [done|].
      constructor; [|done]. cbn [p_index p_pool]. eapply HP; [by left|exact Hb]. }
    eapply IH; [|exact Hacc1|exact H]. intros b i s' n pool Hin. apply HP. by right.
Qed.

Lemma wf_output_pools e cfg : wf_config e cfg ->
  Forall (fun p => p_pool p <> [] /\ loopback_first (p_index p) (p_pool p)) (cf_ports_out cfg).
Proof.
  intros Hw. pose proof (cw_layout _ _ Hw) as H. unfold cluster_layout in H. rsplit H.
  apply pair_eq in H as [_ <-]. unfold output_ports in Hm2. rsplit Hm2. subst v2.
  pose proof (wi_channels _ (cw_interface _ _ Hw)) as Hc. destruct (cw_talkers _ _ Hw) as [_ HT].
  eapply (output_steps_Forall _ (fun i pool => pool <> [] /\ loopback_first i pool)); [| |exact Hm3]; [|constructor].
  intros b i s n pool Hin Hb. pose proof (proj1 (List.Forall_forall _ _) HT s Hin) as Hs. split.
  - eapply port_block_talker; [| |exact Hb]; [cbn; lia|destruct (ws_clusters _ _ Hs); lia].
  - by eapply port_block_first.
Qed.

Lemma audio_map_Ok policy d l p : 0 <= p_stream_index p < zlen l -> (d = Talker -> p_pool p <> []) ->
  exists ms, audio_map policy d l p = Ok ms /\ zlen ms = (if p_dynamic p then 0 else 1).
Proof.
  intros Hs Hp. unfold audio_map. destruct (p_dynamic p); [by exists []|].
  destruct (py_index_inside l _ Hs) as [s ->].
  destruct d; cbn [is_listener negb andb raise_if rbind]; [by eexists|].
  destruct (primary_segment_Some p Talker (Hp eq_refl)) as [g ->]. by eexists.
Qed.

Lemma audio_maps_Ok policy d l ports :
  Forall (fun p => 0 <= p_stream_index p < zlen l) ports ->
  (d = Talker -> Forall (fun p => p_pool p <> []) ports) ->
  exists ms, mapR (audio_map policy d l) ports = Ok ms /\
    zlen (concat ms) = zlen (List.filter p_static ports).
Proof.
  intros Hi Hp. induction ports as [|p ports IH]; [by exists []|].
  apply Forall_cons in Hi as [Hi Hi'].
  destruct (audio_map_Ok policy d l p Hi) as (m & Hm & Hl).
  { intros Ht. by apply Hp, Forall_cons in Ht as [? _]. }
  destruct IH as (ms & Hms & Hlen); [done| |].
  { intros Ht. by apply Hp, Forall_cons in Ht as [_ ?]. }
  exists (m :: ms). cbn [mapR concat List.filter]. rewrite Hm, Hms. cbn [rbind]. split; [done|].
  rewrite zlen_app, Hl, Hlen. unfold p_static at 2. destruct (p_dynamic p); cbn [negb]; [lia|].
  by rewrite zlen_cons.
Qed.

(** All input ports of a loaded configuration are dynamic. *)
Lemma wf_inputs_dynamic e cfg : wf_config e cfg -> Forall (fun p => p_dynamic p = true) (cf_ports_in cfg).
Proof.
  intros Hw. destruct (wf_layout_inputs _ _ Hw) as [HL _].
  destruct (cluster_layout_page _ _ _ _ _ HL (cw_layout _ _ Hw)) as [Hf _].
  destruct (cw_listeners _ _ Hw) as [_ Hs]. clear -Hf Hs.
  induction Hf as [|s p L ports Hm _ IH]; [constructor|]. apply Forall_cons in Hs as [Hs Hs'].
  constructor; [|by apply IH]. unfold p_dynamic. apply bool_decide_eq_true.
  rewrite Hm. by apply (ws_mode _ _ Hs).
Qed.

Lemma laid_streams k base m ports : laid k base m ports ->
  Forall (fun p => k <= p_stream_index p < k + zlen ports) ports.
Proof. intros H. apply List.Forall_forall. intros p Hp. by apply (laid_In _ _ _ _ _ H Hp). Qed.

Lemma overlay_audio_maps_Ok e cfg : wf_config e cfg ->
  exists ms, overlay_audio_maps cfg = Ok ms /\ zlen ms = zlen (List.filter p_static (cf_ports_out cfg)).
Proof.
  intros Hw. destruct (wf_laid _ _ Hw) as (Hin & Hout & Hli & Hlo).
  apply laid_streams in Hli, Hlo. rewrite Hin in Hli. rewrite Hout in Hlo. cbn [Z.add] in Hli, Hlo.
  unfold overlay_audio_maps. set (policy := if_cluster_policy _).
  destruct (audio_maps_Ok policy Listener _ _ Hli) as (ins & -> & Hn); [done|].
  destruct (audio_maps_Ok policy Talker _ _ Hlo) as (outs & -> & Hm); [|].
  { intros _. eapply Forall_impl; [by eapply wf_output_pools|]. by intros p []. }
  cbn [rbind]. eexists. split; [done|]. rewrite merge_sort_Permutation, zlen_app, Hn, Hm.
  assert (List.filter p_static (cf_ports_in cfg) = []) as ->; [|done].
  pose proof (wf_inputs_dynamic _ _ Hw) as Hd. clear -Hd.
  induction Hd as [|p ports Hp _ IH]; [done|]. cbn [List.filter]. unfold p_static at 1. by rewrite Hp.
Qed.

(** ** Clusters, one by one *)

(** The rows of a run of clusters: consecutive indices, the names in order. *)
Definition cluster_run (names : list pystr) (d : direction) (base off n : Z) (rows : list ovl_cluster) : Prop :=
  map ol_index rows = zrange (base + off) (Z.to_nat n) /\ map ol_name rows = zslice off n names /\
  Forall (fun c => ol_direction c = direction_word d) rows.

Lemma cluster_row_run names base d off m : forall k, 0 <= off -> 0 <= k -> off + k + Z.of_nat m <= zlen names ->
  exists rows, mapR (cluster_row names base d off) (zrange k m) = Ok rows /\
    cluster_run names d base (off + k) (Z.of_nat m) rows.
Proof.
  induction m as [|m IH]; intros k Ho Hk Hl.
  - exists []. split; [done|]. split; [done|]. split; [|constructor]. unfold zslice. by rewrite take_0.
  - destruct (IH (k + 1)) as (rows & Hr & Hi & Hn & Hd); [lia|lia|lia|].
    destruct (py_index_inside names (off + k)) as [x Hx]; [lia|].
    exists (OvlCluster (base + (off + k)) (direction_word d) x :: rows).
    cbn [zrange mapR]. rewrite Hr. unfold cluster_row at 1. rewrite Hx. cbn [rbind]. split; [done|].
    unfold cluster_run. cbn [map ol_index ol_name]. rewrite Hi, Hn, !Nat2Z.id. cbn [zrange].
    split_and!; [by rewrite !Z.add_assoc| |by constructor].
    rewrite py_index_nonneg in Hx by lia. unfold zslice. rewrite (drop_S _ _ _ Hx), !Nat2Z.id. cbn [take].
    do 3 f_equal. lia.
Qed.

Lemma zslice_join {A} (l : list A) off n m : 0 <= off -> 0 <= n -> 0 <= m ->
  zslice off n l ++ zslice (off + n) m l = zslice off (n + m) l.
Proof.
  intros. unfold zslice. replace (Z.to_nat (off + n)) with (Z.to_nat off + Z.to_nat n)%nat by lia.
  rewrite <-drop_drop. replace (Z.to_nat (n + m)) with (Z.to_nat n + Z.to_nat m)%nat by lia.
  by rewrite take_take_drop.
Qed.

Lemma cluster_run_app names d base off n m rows rows' : 0 <= off -> 0 <= n -> 0 <= m ->
  cluster_run names d base off n rows -> cluster_run names d base (off + n) m rows' ->
  cluster_run names d base off (n + m) (rows ++ rows').
Proof.
  intros Ho Hn Hm (H1 & H2 & H3) (G1 & G2 & G3). unfold cluster_run.
  rewrite !map_app, H1, G1, H2, G2, zslice_join by done. split_and!; [|done|by apply Forall_app].
  replace (Z.to_nat (n + m)) with (Z.to_nat n + Z.to_nat m)%nat by lia.
  rewrite zrange_app. by rewrite Z2Nat.id, Z.add_assoc by done.
Qed.

Lemma cluster_rows_pool names base d pool n : tiles 0 pool n -> n <= zlen names ->
  exists rows, mapR (fun g => mapR (cluster_row names base d (g_offset g)) (zrange 0 (Z.to_nat (g_width g))))
                    pool = Ok rows /\
    cluster_run names d base 0 n (concat rows).
Proof.
  assert (forall off, 0 <= off -> tiles off pool n -> n <= zlen names ->
    exists rows, mapR (fun g => mapR (cluster_row names base d (g_offset g)) (zrange 0 (Z.to_nat (g_width g))))
                    pool = Ok rows /\ cluster_run names d base off (n - off) (concat rows)) as G.
  { induction pool as [|g pool IH]; intros off Ho Ht Hl; cbn [tiles] in Ht.
    - subst. exists []. rewrite Z.sub_diag. split; [done|]. split; [done|]. split; [|constructor].
      unfold zslice. by rewrite take_0.
    - destruct Ht as (<- & Hw & Ht). pose proof (tiles_le _ _ _ Ht) as Hle.
      destruct (IH (g_offset g + g_width g)) as (rows & Hr & Hrun); [lia|done|done|].
      destruct (cluster_row_run names base d (g_offset g) (Z.to_nat (g_width g)) 0) as (row & Hrow & Hrun');
        [lia|lia|lia|]. exists (row :: rows). cbn [mapR concat]. rewrite Hrow, Hr. cbn [rbind].
      split; [done|]. rewrite Z.add_0_r, Z2Nat.id in Hrun' by lia.
      replace (n - g_offset g) with (g_width g + (n - (g_offset g + g_width g))) by lia.
      apply cluster_run_app; [lia..|done|done]. }
  intros Ht Hl. destruct (G 0 ltac:(lia) Ht Hl) as (rows & Hr & Hrun). exists rows.
  by rewrite Z.sub_0_r in Hrun.
Qed.

Lemma port_audio_clusters_Ok cfg d p : tiles 0 (p_pool p) (p_clusters p) -> known_roles (p_pool p) ->
  exists names rows, cluster_names (naming_of cfg d) p = Ok names /\ zlen names = p_clusters p /\
    port_audio_clusters cfg d p = Ok rows /\ cluster_run names d (p_base_cluster p) 0 (p_clusters p) rows.
Proof.
  intros Ht Hk. destruct (cluster_names_ok (naming_of cfg d) p Ht Hk) as (names & Hn & Hl).
  destruct (cluster_rows_pool names (p_base_cluster p) d _ _ Ht) as (rows & Hr & Hrun); [lia|].
  exists names, (concat rows). unfold port_audio_clusters. rewrite Hn. cbn [rbind]. by rewrite Hr.
Qed.

Lemma blocks_sum_nonneg base ports : blocks_from base ports -> 0 <= sum_z (map p_clusters ports).
Proof.
  revert base. induction ports as [|p ports IH]; intros base; cbn [blocks_from map]; [done|].
  change (sum_z (?x :: ?l)) with (x + sum_z l). intros (_ & Ht & H). apply tiles_le in Ht. apply IH in H. lia.
Qed.

(** The clusters of a direction, in index order, every one once. *)
Lemma ports_clusters_Ok cfg d ports : forall k base m, laid k base m ports ->
  exists rows, mapR (port_audio_clusters cfg d) ports = Ok rows /\
    map ol_index (concat rows) = zrange base (Z.to_nat (sum_z (map p_clusters ports))) /\
    Forall (fun c => ol_direction c = direction_word d) (concat rows).
Proof.
  induction ports as [|p ports IH]; intros k base m Hl; [by exists []|].
  pose proof (blocks_sum_nonneg _ _ (laid_blocks _ _ _ _ Hl)) as Hs.
  cbn [laid] in Hl. destruct Hl as (_ & _ & Hb & _ & _ & Ht & Hk & Hl).
  pose proof (tiles_le _ _ _ Ht) as Hc. pose proof (blocks_sum_nonneg _ _ (laid_blocks _ _ _ _ Hl)) as Hs'.
  destruct (port_audio_clusters_Ok cfg d p Ht Hk) as (names & row & _ & _ & Hrow & (Hi & _ & Hd)).
  destruct (IH _ _ _ Hl) as (rows & Hrows & Hi' & Hd').
  exists (row :: rows). cbn [mapR concat map]. rewrite Hrow, Hrows. cbn [rbind]. split; [done|].
  split; [|by apply Forall_app]. rewrite map_app, Hi, Hi', Hb, Z.add_0_r.
  change (sum_z (?x :: ?l)) with (x + sum_z l).
  rewrite Z2Nat.inj_add, zrange_app by lia. by rewrite Z2Nat.id by lia.
Qed.

(** The AUDIO_CLUSTERs of the overlay: all inputs, then all outputs, numbered
    0, 1, 2, ... without a gap. *)
Lemma overlay_audio_clusters_Ok e cfg : wf_config e cfg ->
  exists ins outs, overlay_audio_clusters cfg = Ok (ins ++ outs) /\
    map ol_index (ins ++ outs) = zrange 0 (length (ins ++ outs)) /\
    zlen ins = sum_z (map p_clusters (cf_ports_in cfg)) /\
    zlen outs = sum_z (map p_clusters (cf_ports_out cfg)) /\
    Forall (fun c => ol_direction c = "input"%string) ins /\
    Forall (fun c => ol_direction c = "output"%string) outs.
Proof.
  intros Hw. destruct (wf_laid _ _ Hw) as (_ & _ & Hli & Hlo).
  pose proof (blocks_sum_nonneg _ _ (laid_blocks _ _ _ _ Hli)) as Hs.
  pose proof (blocks_sum_nonneg _ _ (laid_blocks _ _ _ _ Hlo)) as Hs'.
  destruct (ports_clusters_Ok cfg Listener _ _ _ _ Hli) as (ins & Hins & Hi & Hd).
  destruct (ports_clusters_Ok cfg Talker _ _ _ _ Hlo) as (outs & Houts & Hi' & Hd').
  exists (concat ins), (concat outs). unfold overlay_audio_clusters. rewrite Hins, Houts. cbn [rbind].
  assert (length (concat ins) = Z.to_nat (sum_z (map p_clusters (cf_ports_in cfg)))) as E1.
  { by rewrite <-(zrange_length 0 (Z.to_nat _)), <-Hi, length_map. }
  assert (length (concat outs) = Z.to_nat (sum_z (map p_clusters (cf_ports_out cfg)))) as E2.
  { by rewrite <-(zrange_length (sum_z (map p_clusters (cf_ports_in cfg))) (Z.to_nat _)), <-Hi', length_map. }
  split; [done|]. unfold zlen. rewrite length_app, E1, E2, !Z2Nat.id by done. split_and!; try done.
  rewrite map_app, Hi, Hi', zrange_app. by rewrite Z2Nat.id.
Qed.
