(* ===== verification/BuilderAgree.v ===== *)
(** The builder's artefacts agree with the AEM model
    ([sw/builder/endstation_builder.py] against [avdecc/aem_specs.py],
    [avdecc/aem_assemble.py] and [avdecc/gen_aemi_image.py]).

    Three programs compute the same numbers from one configuration: the builder
    for the shape header the gateware is elaborated with, the spec builder for
    the descriptors, and the image packer for the identity.  The theorems state
    that a loaded configuration's overlay is one the spec builder takes, and that
    what each side computes is equal. *)
From S2P Require Import Prelude Unicode Descriptors Directory Text Model AudioMaps Assemble Specs.
From S2P Require Import Config BuilderFormats BuilderStreams BuilderClusters Srp BuilderConfig BuilderOverlay.
From S2P Require AemiImage.

(** * The overlay of a loaded configuration *)

Lemma emit_Ok e cfg mid : wf_config e cfg ->
  exists doc maps ins outs adp, emit_aem_overlay cfg mid = Ok doc /\
    overlay_audio_maps cfg = Ok maps /\ overlay_audio_clusters cfg = Ok (ins ++ outs) /\
    overlay_adp_block cfg = Ok adp /\ do_adp doc = adp /\
    ov_audio_maps (do_overlay doc) = maps /\ ov_audio_clusters (do_overlay doc) = ins ++ outs /\
    zlen maps = zlen (List.filter p_static (cf_ports_out cfg)).
Proof.
  intros Hw. destruct (overlay_audio_maps_Ok _ _ Hw) as (maps & Hm & Hl).
  destruct (overlay_audio_clusters_Ok _ _ Hw) as (ins & outs & Hc & _).
  destruct (derive_entity_id_Ok _ _ Hw) as (eid & He & _).
  assert (exists adp, overlay_adp_block cfg = Ok adp) as [adp Ha].
  { unfold overlay_adp_block. rewrite He. by eexists. }
  unfold emit_aem_overlay. destruct (overlay_streams cfg) as [si so]. destruct (overlay_ports cfg) as [pin pout].
  rewrite Hm, Hc, Ha. cbn [rbind]. eexists _, maps, ins, outs, adp. split; [reflexivity|].
  by split_and!.
Qed.

(** The keys of the overlay that do not depend on the lists built under a check. *)
Lemma emit_inv cfg mid doc : emit_aem_overlay cfg mid = Ok doc ->
  let o := do_overlay doc in let clk := cf_clocking cfg in
  ov_stream_inputs o = fst (overlay_streams cfg) /\ ov_stream_outputs o = snd (overlay_streams cfg) /\
  ov_clock_sources o = overlay_clock_sources cfg /\
  ov_ports_in o = map (port_public Listener) (cf_ports_in cfg) /\
  ov_ports_out o = map (port_public Talker) (cf_ports_out cfg) /\
  ov_loopback_lane o = Some (if_loopback_lane (cf_interface cfg)) /\
  do_descriptor_counts doc = descriptor_counts cfg (zlen (overlay_clock_sources cfg)) (zlen (ov_audio_maps o)) /\
  do_model_id doc = hex64 mid /\ overlay_adp_block cfg = Ok (do_adp doc).
Proof.
  unfold emit_aem_overlay. destruct (overlay_streams cfg) as [si so] eqn:Es.
  destruct (overlay_ports cfg) as [pin pout] eqn:Ep. intros H. rsplit H. subst doc.
  unfold overlay_ports in Ep. injection Ep as <- <-. by split_and!.
Qed.

(** ** Formats *)

Lemma hex16_hex64 n : 0 <= n -> hex16 (hex64 n) = Ok n.
Proof. intros H. unfold hex16. by rewrite hex64_int16. Qed.

(** A list of format texts reads as a list of words. *)
Lemma formats_read fmts : Forall format_text fmts -> exists fs, mapR hex16 fmts = Ok fs /\
  Forall2 (fun t n => t = hex64 n /\ 0 <= n < 2 ^ 64) fmts fs.
Proof.
  induction 1 as [|t fmts (n & -> & Hn) _ (fs & Hfs & Hr)]; [by exists []|].
  exists (n :: fs). cbn [mapR]. rewrite hex16_hex64 by lia. cbn [rbind]. rewrite Hfs. split; [done|].
  by constructor.
Qed.

Lemma aaf_texts fmts : Forall aaf_text fmts -> Forall format_text fmts.
Proof. intros H. eapply Forall_impl; [exact H|]. intros t (n & -> & Hn & _). by exists n. Qed.

Lemma crf_default_text : format_text CRF_FORMAT_DEFAULT.
Proof. exists 0x041060010000BB80. split; [vm_compute; reflexivity|lia]. Qed.

Definition stream_texts (s : ovl_stream) : Prop :=
  Forall format_text (os_formats s) /\ os_formats s <> [] /\ is_Some (os_kind s).

Lemma wf_stream_texts d s b : wf_stream d s -> stream_texts (OvlStream (s_name s) (Some "aaf"%string) (s_formats s) b).
Proof.
  intros Hw. split; [by apply aaf_texts, (ws_formats _ _ Hw)|]. split; [|by eexists].
  cbn. intros E. destruct (ws_count _ _ Hw) as [Hc _]. rewrite E in Hc. by cbn in Hc.
Qed.

Lemma overlay_stream_texts e cfg : wf_config e cfg ->
  Forall stream_texts (fst (overlay_streams cfg)) /\ Forall stream_texts (snd (overlay_streams cfg)).
Proof.
  intros Hw. destruct (cw_listeners _ _ Hw) as [_ HL], (cw_talkers _ _ Hw) as [_ HT].
  destruct (wk_crf_format _ (cw_clocking _ _ Hw)) as [E1 E2]. unfold overlay_streams. rewrite E1, E2.
  assert (forall b, stream_texts (crf_row CRF_FORMAT_DEFAULT b)) as Hcrf.
  { intros b. split; [by constructor; [apply crf_default_text|]|]. split; [done|by eexists]. }
  cbn [fst snd]. split; apply Forall_app; (split; [apply Forall_map|case_match; [constructor; [apply Hcrf|constructor]|constructor]]).
  - eapply Forall_impl; [exact HL|]. intros s Hs. by eapply wf_stream_texts.
  - eapply Forall_impl; [exact HT|]. intros s Hs. by eapply wf_stream_texts.
Qed.

Lemma mapR_all {E A B} (f : A -> result E B) (R : A -> B -> Prop) l :
  Forall (fun x => exists y, f x = Ok y /\ R x y) l -> exists ys, mapR f l = Ok ys /\ Forall2 R l ys.
Proof.
  induction 1 as [|x l (y & Hy & HR) _ (ys & Hys & HRs)]; [by exists []|].
  exists (y :: ys). cbn [mapR]. rewrite Hy, Hys. by split; [|constructor].
Qed.

(** What [spec_from_overlay] makes of a stream. *)
Definition spec_stream_of (o : ovl_stream) (s : stream_spec) : Prop :=
  st_kind s = Some (default "aaf"%string (os_kind o)) /\
  Forall2 (fun t n => t = hex64 n /\ 0 <= n < 2 ^ 64) (os_formats o) (st_formats s).

Lemma streams_in_spec l : Forall stream_texts l ->
  exists ss, mapR stream_in_spec l = Ok ss /\ Forall2 spec_stream_of l ss.
Proof.
  intros H. apply mapR_all. eapply Forall_impl; [exact H|]. intros o (Ht & _ & [k Hk]).
  destruct (formats_read _ Ht) as (fs & Hfs & Hr). unfold stream_in_spec. rewrite Hk, Hfs. cbn [rbind].
  eexists. split; [reflexivity|]. unfold spec_stream_of. by rewrite Hk.
Qed.

Lemma streams_out_spec l : Forall stream_texts l ->
  exists ss, mapR stream_out_spec l = Ok ss /\ Forall2 spec_stream_of l ss.
Proof.
  intros H. apply mapR_all. eapply Forall_impl; [exact H|]. intros o (Ht & _ & [k Hk]).
  destruct (formats_read _ Ht) as (fs & Hfs & Hr). unfold stream_out_spec. rewrite Hfs. cbn [rbind].
  eexists. split; [reflexivity|]. unfold spec_stream_of. by rewrite Hk.
Qed.

(** ** Clock sources *)

(** A source the builder emits: its words are the consumer's. *)
Lemma overlay_clock_types cfg : Forall (fun c =>
    In (oc_type c, oc_location_type c)
       [("internal", "CLOCK_SOURCE"); ("crf", "STREAM_INPUT"); ("input_stream", "STREAM_INPUT")]%string)
  (overlay_clock_sources cfg).
Proof.
  unfold overlay_clock_sources. repeat apply Forall_app_2.
  - case_match; repeat constructor; cbn; tauto.
  - case_match; repeat constructor; cbn; tauto.
  - case_match; [|constructor]. apply Forall_map, List.Forall_forall. intros k _. cbn. tauto.
Qed.

Lemma clock_spec_Ok c : In (oc_type c, oc_location_type c)
    [("internal", "CLOCK_SOURCE"); ("crf", "STREAM_INPUT"); ("input_stream", "STREAM_INPUT")]%string ->
  clock_check c = Ok tt /\ exists s, clock_spec c = Ok s /\
    row_kind s = row_kind c /\ row_is_stream_input s = row_is_stream_input c /\ row_loc_index s = row_loc_index c.
Proof.
  destruct c as [n t l i]. cbn [oc_type oc_location_type].
  intros [[= <- <-]|[[= <- <-]|[[= <- <-]|[]]]]; (split; [done|]); eexists; (split; [vm_compute; reflexivity|]);
    by split_and!.
Qed.

Lemma overlay_clocks_spec cfg :
  foldR (fun _ c => clock_check c) tt (overlay_clock_sources cfg) = Ok tt /\
  exists ss, mapR clock_spec (overlay_clock_sources cfg) = Ok ss /\
    Forall2 (fun c s => row_kind s = row_kind c /\ row_is_stream_input s = row_is_stream_input c /\
               row_loc_index s = row_loc_index c) (overlay_clock_sources cfg) ss.
Proof.
  pose proof (overlay_clock_types cfg) as H. split.
  - induction H as [|c l Hc _ IH]; [done|]. cbn [foldR]. destruct (clock_spec_Ok c Hc) as [-> _]. exact IH.
  - apply mapR_all. eapply Forall_impl; [exact H|]. intros c Hc. by apply clock_spec_Ok.
Qed.

(** ** Output ports *)

Lemma head_text o : stream_texts o -> exists n rest, os_formats o = hex64 n :: rest /\ 0 <= n < 2 ^ 64.
Proof.
  intros (Ht & Hne & _). destruct (os_formats o) as [|t rest]; [done|].
  apply Forall_cons in Ht as [(n & -> & Hn) _]. by exists n, rest.
Qed.

Lemma sub_head {A} (x : A) l : sub (x :: l) 0 = Ok x.
Proof. done. Qed.

Lemma rx_channels_Ok l : Forall stream_texts l -> exists rx, rx_channels l = Ok rx.
Proof.
  intros H. unfold rx_channels.
  assert (forall k, exists rows, mapR (fun ks : Z * ovl_stream =>
      if negb (String.eqb (default "aaf"%string (os_kind (snd ks))) "aaf") then Ok []
      else
        let* f0 := sub (os_formats (snd ks)) 0 in
        let* f := hex16 f0 in
        Ok (map (fun c => (fst ks, c)) (zrange 0 (Z.to_nat (Z.land (Z.shiftr f 22) 0x3FF)))))
      (enum_from k l) = Ok rows) as G.
  { induction H as [|o l Ho _ IH]; intros k; [by eexists|]. cbn [enum_from mapR snd fst].
    destruct (IH (k + 1)) as [rows Hr]. rewrite Hr.
    destruct (negb _); cbn [rbind]; [by eexists|].
    destruct (head_text _ Ho) as (n & rest & E & Hn). rewrite E, sub_head. cbn [rbind].
    rewrite hex16_hex64 by lia. by eexists. }
  destruct (G 0) as [rows Hr]. unfold enumerate. rewrite Hr. by eexists.
Qed.

Lemma cluster_source_total lb rx j role n : is_Some (CLUSTER_NAMERS role) ->
  exists s, cluster_source_of lb rx j role n = Ok s.
Proof.
  intros [f Hf]. unfold CLUSTER_NAMERS in Hf. unfold cluster_source_of.
  destruct (role =? "physical")%string; [by eexists|].
  destruct (role =? "pilot")%string; [by eexists|].
  destruct (role =? "loopback")%string.
  - destruct rx as [|r rx]; [by eexists|]. set (l := r :: rx). unfold sub.
    assert (0 < zlen l) as Hl by (unfold l; rewrite zlen_cons; pose proof (zlen_nonneg rx); lia).
    destruct (py_index_inside l ((rx_start 0 j l + n) mod zlen l)) as [x Hx].
    { by apply Z.mod_pos_bound. }
    rewrite Hx. by eexists.
  - destruct (role =? "virtual")%string; [by eexists|done].
Qed.

(** The templates of a dynamic port: one per cluster of its pool. *)
Lemma out_sources_Ok ovl j p : Forall stream_texts (ov_stream_inputs ovl) -> known_roles (p_pool p) ->
  tiles 0 (p_pool p) (p_clusters p) -> p_pool p <> [] ->
  exists srcs, out_cluster_sources ovl j (port_public Talker p) = Ok srcs /\
    (if p_dynamic p then exists l, srcs = Some l /\ zlen l = p_clusters p else srcs = None).
Proof.
  intros Hi Hk Ht Hne. unfold out_cluster_sources, ovl_is_dynamic, port_public.
  cbn [op_map_mode op_pool]. destruct (p_dynamic p) eqn:Ed; cbn [default].
  2:{ change ("static" =? "dynamic")%string with false. cbn [negb]. by eexists. }
  change ("dynamic" =? "dynamic")%string with true. cbn [negb].
  destruct (p_pool p) as [|g pool] eqn:Ep; [done|]. cbn [map raise_if rbind]. rewrite <-Ep in *.
  change (PoolRole (g_role g) (g_width g) (g_offset g) :: map (fun g => PoolRole (g_role g) (g_width g) (g_offset g)) pool)
    with (map (fun g => PoolRole (g_role g) (g_width g) (g_offset g)) (g :: pool)). rewrite <-Ep.
  destruct (rx_channels_Ok _ Hi) as [rx Hrx]. rewrite Hrx. cbn [rbind].
  set (lb := default true (ov_loopback_lane ovl)).
  destruct (mapR_all (fun g => mapR (cluster_source_of lb rx j (pr_role g)) (zrange 0 (Z.to_nat (pr_width g))))
    (fun g l => length l = Z.to_nat (pr_width g))
    (map (fun g => PoolRole (g_role g) (g_width g) (g_offset g)) (p_pool p))) as (srcs & Hs & Hlen).
  { apply Forall_map. eapply Forall_impl; [exact Hk|]. intros h Hh. cbn [pr_role pr_width].
    destruct (mapR_total (cluster_source_of lb rx j (g_role h)) (zrange 0 (Z.to_nat (g_width h)))) as [l Hl].
    { apply List.Forall_forall. intros n _. by apply cluster_source_total. }
    exists l. split; [done|]. apply mapR_length in Hl. by rewrite Hl, zrange_length. }
  rewrite Hs. cbn [rbind]. eexists. split; [done|]. exists (concat srcs). split; [done|].
  pose proof (tiles_width _ _ _ Ht) as Hw. rewrite Z.sub_0_r in Hw. rewrite <-Hw. clear -Hlen Ht.
  revert Ht Hlen. generalize (p_clusters p) 0. revert srcs.
  induction (p_pool p) as [|h pool IH]; intros srcs n o Ht Hlen; cbn [map] in Hlen.
  - by inversion Hlen.
  - inversion Hlen as [|? l ? ls Hl Hls]; subst. cbn [pr_width tiles concat map] in *.
    destruct Ht as (_ & Hw & Ht). change (sum_z (?x :: ?l)) with (x + sum_z l).
    rewrite zlen_app, (IH _ _ _ Ht Hls). unfold zlen. lia.
Qed.

(** ** The consumer takes the overlay *)

Lemma object_keys_known (objects : gmap string pystr) :
  (forall k, is_Some (objects !! k) -> In k OBJECT_KEYS) -> dom objects ⊆ dom OBJECT_NAMES.
Proof.
  intros H k Hk. apply elem_of_dom in Hk. apply H in Hk. apply elem_of_dom.
  repeat (destruct Hk as [<-|Hk]; [by eexists|]). done.
Qed.

Lemma any_crf_app l c : Forall (fun o => is_Some (os_kind o)) l -> os_kind c = Some "crf"%string ->
  any_crf (l ++ [c]) = Ok true.
Proof.
  intros H Hc. induction H as [|o l [k Hk] _ IH]; cbn [any_crf app]; [by rewrite Hc|].
  rewrite Hk. by destruct (k =? "crf")%string.
Qed.

Lemma spec_ports_Ok ovl ports : Forall stream_texts (ov_stream_inputs ovl) ->
  Forall (fun p => known_roles (p_pool p) /\ tiles 0 (p_pool p) (p_clusters p) /\ p_pool p <> []) ports ->
  forall k, exists ps, mapR (port_out_spec ovl) (enum_from k (map (port_public Talker) ports)) = Ok ps.
Proof.
  intros Hi H. induction H as [|p ports (Hk & Ht & Hne) _ IH]; intros k; [by eexists|].
  cbn [map enum_from mapR]. destruct (IH (k + 1)) as [ps Hps]. rewrite Hps.
  unfold port_out_spec. destruct (out_sources_Ok ovl k p Hi Hk Ht Hne) as (srcs & Hs & _).
  rewrite Hs. cbn [rbind]. by eexists.
Qed.

Lemma wf_output_ports e cfg : wf_config e cfg ->
  Forall (fun p => known_roles (p_pool p) /\ tiles 0 (p_pool p) (p_clusters p) /\ p_pool p <> [])
    (cf_ports_out cfg).
Proof.
  intros Hw. destruct (wf_laid _ _ Hw) as (_ & _ & _ & Hl). pose proof (wf_output_pools _ _ Hw) as Hp.
  apply List.Forall_forall. intros p Hin. destruct (laid_In _ _ _ _ _ Hl Hin) as (_ & _ & Ht & Hk).
  split_and!; try done. by destruct (proj1 (List.Forall_forall _ _) Hp _ Hin).
Qed.

(** C2: The overlay of a loaded configuration is one [spec_from_overlay] takes, when
    the configuration declares the CRF sink the descriptor layer requires and
    advertises only Base rates: none of that layer's refusals is reachable. *)
Theorem overlay_accepted e cfg mid : wf_config e cfg -> ck_crf_sink (cf_clocking cfg) = true ->
  Forall (fun hz => In hz [48000; 96000; 192000]) (ck_audio_unit_rates_hz (cf_clocking cfg)) ->
  exists doc spec, emit_aem_overlay cfg mid = Ok doc /\ spec_from_overlay (do_overlay doc) = Ok spec.
Proof.
  intros Hw Hcrf Hrates. destruct (overlay_stream_texts _ _ Hw) as [Hin Hout].
  destruct (emit_Ok e cfg mid Hw) as (doc & maps & ins & outs & adp & Hemit & Hmaps & Hcl & Hadp & _).
  exists doc. pose proof (emit_inv _ _ _ Hemit) as (Esi & Eso & Ecs & Epi & Epo & _).
  assert (ov_schema (do_overlay doc) = Some "kebag-logic/aem-overlay"%string /\
    version_2 (ov_schema_version (do_overlay doc)) = true /\
    oe_firmware_version (ov_entity (do_overlay doc)) = Some (en_firmware_version (cf_entity cfg)) /\
    ov_sampling_rates_hz (do_overlay doc) = ck_audio_unit_rates_hz (cf_clocking cfg) /\
    dom (default ∅ (ov_names (do_overlay doc))) ⊆ dom OBJECT_NAMES) as (E1 & E2 & E3 & E4 & E5).
  { unfold emit_aem_overlay in Hemit. destruct (overlay_streams cfg), (overlay_ports cfg).
    rsplit Hemit. subst doc. cbn [do_overlay ov_schema ov_schema_version ov_entity overlay_entity
      oe_firmware_version ov_sampling_rates_hz ov_names]. split_and!; try done.
    pose proof (object_keys_known _ (cw_names _ _ Hw)) as Hn. case_bool_decide; cbn [default]; [set_solver|done]. }
  unfold spec_from_overlay. rewrite E1, E2, E3, E4, Esi, Eso, Ecs, Epo.
  rewrite (bool_decide_true (Some "kebag-logic/aem-overlay"%string = _)) by done. cbn [negb raise_if rbind].
  assert (existsb (fun hz => negb (existsb (Z.eqb hz) [48000; 96000; 192000]))
    (ck_audio_unit_rates_hz (cf_clocking cfg)) = false) as ->.
  { apply not_true_iff_false. intros (hz & Hhz & Hf)%existsb_exists. apply negb_true_iff in Hf.
    apply (proj1 (List.Forall_forall _ _) Hrates), (existsb_In Z.eqb) in Hhz; [congruence|apply Z.eqb_eq]. }
  cbn [raise_if rbind].
  assert (any_crf (fst (overlay_streams cfg)) = Ok true) as ->.
  { unfold overlay_streams. rewrite Hcrf. cbn [fst]. apply any_crf_app; [|done].
    apply Forall_map, List.Forall_forall. intros s _. by eexists. }
  destruct (overlay_clocks_spec cfg) as (Hck & cs & Hcs & _). rewrite Hck. cbn [negb raise_if rbind].
  unfold overlay_names. rewrite (bool_decide_true _ E5). cbn [negb raise_if rbind].
  destruct (streams_in_spec _ Hin) as (si & Hsi & _). destruct (streams_out_spec _ Hout) as (so & Hso & _).
  destruct (spec_ports_Ok (do_overlay doc) (cf_ports_out cfg)) with (k := 0) as [ps Hps].
  { by rewrite Esi. } { by apply (wf_output_ports e). }
  unfold enumerate. rewrite Hsi, Hso, Hcs, Hps. cbn [rbind]. by eexists.
Qed.

(** * One configuration, the same numbers *)

Section Agree.
Context (e : env) (cfg : config) (mid : Z) (doc : document) (spec : model_spec).
Context (Hw : wf_config e cfg) (Hemit : emit_aem_overlay cfg mid = Ok doc).
Context (Hspec : spec_from_overlay (do_overlay doc) = Ok spec).

Lemma spec_inv :
  Forall2 spec_stream_of (fst (overlay_streams cfg)) (sp_stream_inputs spec) /\
  Forall2 spec_stream_of (snd (overlay_streams cfg)) (sp_stream_outputs spec) /\
  Forall2 (fun c s => row_kind s = row_kind c /\ row_is_stream_input s = row_is_stream_input c /\
    row_loc_index s = row_loc_index c) (overlay_clock_sources cfg) (sp_clock_sources spec) /\
  sp_ports_in spec = map (fun p => port_in_spec (port_public Listener p)) (cf_ports_in cfg) /\
  mapR (port_out_spec (do_overlay doc)) (enumerate (map (port_public Talker) (cf_ports_out cfg)))
    = Ok (sp_ports_out spec) /\
  zlen (sp_audio_maps spec) = zlen (ov_audio_maps (do_overlay doc)).
Proof using All.
  pose proof (emit_inv _ _ _ Hemit) as (Esi & Eso & Ecs & Epi & Epo & _).
  pose proof Hspec as H. unfold spec_from_overlay in H. rsplit H. subst spec.
  cbn [sp_stream_inputs sp_stream_outputs sp_clock_sources sp_ports_in sp_ports_out sp_audio_maps].
  rewrite Esi in Hm7. rewrite Eso in Hm8. rewrite Ecs in Hm9. rewrite Epo in Hm10. rewrite Epi.
  destruct (overlay_stream_texts _ _ Hw) as [Hin Hout].
  destruct (streams_in_spec _ Hin) as (si & Hsi & Hfi). rewrite Hsi in Hm7. apply Ok_inj in Hm7 as <-.
  destruct (streams_out_spec _ Hout) as (so & Hso & Hfo). rewrite Hso in Hm8. apply Ok_inj in Hm8 as <-.
  destruct (overlay_clocks_spec cfg) as (_ & cs & Hcs & Hfc). rewrite Hcs in Hm9. apply Ok_inj in Hm9 as <-.
  split_and!; try done; [by rewrite map_map|]. rewrite zlen_map. by rewrite merge_sort_Permutation.
Qed.

(** ** Counts *)

Definition type_name (t : Z) : string :=
  default ""%string (snd <$> List.find (fun r => fst r =? t)
    [(ENTITY, "ENTITY"); (CONFIGURATION, "CONFIGURATION"); (AUDIO_UNIT, "AUDIO_UNIT");
     (STREAM_INPUT, "STREAM_INPUT"); (STREAM_OUTPUT, "STREAM_OUTPUT"); (AVB_INTERFACE, "AVB_INTERFACE");
     (CLOCK_SOURCE, "CLOCK_SOURCE"); (CLOCK_DOMAIN, "CLOCK_DOMAIN"); (CONTROL, "CONTROL");
     (LOCALE, "LOCALE"); (STRINGS, "STRINGS"); (STREAM_PORT_INPUT, "STREAM_PORT_INPUT");
     (STREAM_PORT_OUTPUT, "STREAM_PORT_OUTPUT"); (AUDIO_CLUSTER, "AUDIO_CLUSTER");
     (AUDIO_MAP, "AUDIO_MAP")]%string).

Lemma ports_out_clusters k l ps : mapR (port_out_spec (do_overlay doc)) (enum_from k (map (port_public Talker) l)) = Ok ps ->
  map po_clusters ps = map p_clusters l /\ length ps = length l.
Proof using All.
  revert k ps. induction l as [|p l IH]; intros k ps H; cbn [map enum_from mapR] in H.
  - by apply Ok_inj in H as <-.
  - rsplit H. subst ps. destruct (IH _ _ Hm0) as [E1 E2]. cbn [map length]. rewrite E1, E2.
    unfold port_out_spec in Hm. rsplit Hm. by subst.
Qed.

(** The builder's [descriptor_counts], row by row, are the groups the model is
    laid out in: same types, same order, same counts. *)
Lemma counts_layout :
  do_descriptor_counts doc = map (fun g => (type_name (fst g), Z.of_nat (snd g))) (layout_groups spec).
Proof using All.
  pose proof (emit_inv _ _ _ Hemit) as (_ & _ & _ & _ & _ & _ & Ecounts & _).
  destruct spec_inv as (Hi & Ho & Hc & Hpi & Hpo & Hm). unfold enumerate in Hpo.
  destruct (ports_out_clusters _ _ _ Hpo) as [Epo Elo].
  destruct (wf_laid _ _ Hw) as (_ & _ & Hli & Hlo).
  pose proof (blocks_sum_nonneg _ _ (laid_blocks _ _ _ _ Hli)) as Hs.
  pose proof (blocks_sum_nonneg _ _ (laid_blocks _ _ _ _ Hlo)) as Hs'.
  rewrite Ecounts. unfold layout_groups, descriptor_counts. cbn [map fst snd].
  rewrite <-(Forall2_length _ _ _ Hi), <-(Forall2_length _ _ _ Ho), <-(Forall2_length _ _ _ Hc), Elo, Hpi, Epo.
  rewrite map_map, length_map. cbn [port_in_spec port_public po_clusters op_clusters].
  unfold overlay_streams. cbn [fst snd]. rewrite !length_app, !length_map, !Nat2Z.inj_add, !Z2Nat.id by done.
  rewrite <-Hm. change (Z.of_nat (length (sp_audio_maps spec))) with (zlen (sp_audio_maps spec)).
  change (fun x => p_clusters x) with p_clusters.
  assert (forall A (b : bool) (x : A), Z.of_nat (length (if b then [x] else [])) = if b then 1 else 0) as Hif
    by (by intros A []). rewrite !Hif. reflexivity.
Qed.

(** How many rows of the built directory have a type [f] takes. *)
Lemma directory_census m f : build_model spec = Ok m ->
  zlen (List.filter (fun r => f (de_type r)) (am_directory m))
    = sum_z (map (fun g => if f (fst g) : bool then Z.of_nat (snd g) else 0) (layout_groups spec)).
Proof using Type.
  intros Hb. apply build_model_built in Hb as [B]. destruct B as [d1 d2 He Hp _ Hd].
  destruct (layout_keys spec d1 d2 He Hp) as [Hk _]. rewrite Hd.
  assert (zlen (List.filter (fun r => f (de_type r)) (place 0 (d1 ++ d2)))
    = zlen (List.filter (fun r => f (fst r)) (map fst (d1 ++ d2)))) as ->.
  { generalize 0 (d1 ++ d2). clear. intros base l. revert base.
    induction l as [|[[t i] b] l IH]; intros base; [done|]. cbn [place map List.filter fst de_type].
    destruct (f t); rewrite ?zlen_cons; by rewrite IH. }
  rewrite Hk. unfold rows_of_groups. clear. induction (layout_groups spec) as [|[t n] gs IH]; [done|].
  cbn [flat_map map fst snd]. rewrite List.filter_app, zlen_app, IH.
  change (sum_z (?x :: ?l)) with (x + sum_z l). f_equal. clear. generalize 0 at 1.
  induction n as [|n IH]; intros a; cbn [zrange map List.filter fst].
  - by destruct (f t).
  - specialize (IH (a + 1)). destruct (f t); [|exact IH]. rewrite zlen_cons, IH. lia.
Qed.

Lemma census_one groups g : List.NoDup (map fst groups) -> In g groups ->
  sum_z (map (fun g' : Z * nat => if fst g' =? fst g then Z.of_nat (snd g') else 0) groups) = Z.of_nat (snd g).
Proof using Type.
  induction groups as [|h groups IH]; [done|]. cbn [map]. change (sum_z (?x :: ?l)) with (x + sum_z l).
  intros Hnd Hin. apply List.NoDup_cons_iff in Hnd as [Hn Hnd]. destruct Hin as [->|Hin].
  - rewrite Z.eqb_refl.
    assert (sum_z (map (fun g' : Z * nat => if fst g' =? fst g then Z.of_nat (snd g') else 0) groups) = 0) as ->; [|lia].
    clear -Hn. induction groups as [|h groups IH]; [done|]. cbn [map In] in *.
    change (sum_z (?x :: ?l)) with (x + sum_z l). rewrite IH by tauto.
    destruct (Z.eqb_spec (fst h) (fst g)); [by exfalso; auto|done].
  - rewrite (IH Hnd Hin). destruct (Z.eqb_spec (fst h) (fst g)) as [E|]; [|lia].
    exfalso. apply Hn. rewrite E. by apply in_map.
Qed.

(** C11: What the builder advertises is what the image holds.  Every entry of
    [descriptor_counts] is the number of rows of that type in the directory of
    the built model; the ADP stream counts and the [entity_counts] block are the
    STREAM_OUTPUT and STREAM_INPUT ones; and the name capacity stated to the
    gateware is the number of writable name entries the model has. *)
Theorem advertised_counts_built m capacity entries :
  build_model spec = Ok m -> adp_name_entries capacity (do_descriptor_counts doc) = Ok entries ->
  (forall name n, In (name, n) (do_descriptor_counts doc) ->
     exists t, type_name t = name /\ n = zlen (List.filter (fun r => de_type r =? t) (am_directory m))) /\
  do_entity_counts doc = (av_talker_stream_sources (adp_shape cfg), av_listener_stream_sinks (adp_shape cfg)) /\
  count_of (do_descriptor_counts doc) "STREAM_OUTPUT" = Some (av_talker_stream_sources (adp_shape cfg)) /\
  count_of (do_descriptor_counts doc) "STREAM_INPUT" = Some (av_listener_stream_sinks (adp_shape cfg)) /\
  entries = zlen (am_named m).
Proof using All.
  intros Hb He. split; [|split; [|split; [|split]]].
  - intros name n Hin. rewrite counts_layout in Hin. apply in_map_iff in Hin as (g & [= <- <-] & Hg).
    exists (fst g). split; [done|].
    rewrite (directory_census m (fun t => t =? fst g) Hb). symmetry.
    apply census_one; [apply layout_types_nodup|done].
  - clear -Hemit. unfold emit_aem_overlay in Hemit. destruct (overlay_streams cfg), (overlay_ports cfg).
    rsplit Hemit. by subst doc.
  - pose proof (emit_inv _ _ _ Hemit) as (_ & _ & _ & _ & _ & _ & -> & _). done.
  - pose proof (emit_inv _ _ _ Hemit) as (_ & _ & _ & _ & _ & _ & -> & _). done.
  - pose proof Hb as Hb'. apply build_model_built in Hb' as [B]. destruct (bu_named _ _ B) as (eb & _ & ->).
    unfold named_addresses. rewrite zlen_app, zlen_map.
    rewrite (directory_census m (fun t => existsb (Z.eqb t) NAMED_TYPES) Hb).
    unfold adp_name_entries in He. rsplit He. rewrite <-He, counts_layout. unfold layout_groups. clear.
    generalize (length (sp_stream_inputs spec)) (length (sp_stream_outputs spec)) (length (sp_clock_sources spec))
      (length (sp_ports_in spec)) (length (sp_ports_out spec)) (length (sp_audio_maps spec))
      (Z.to_nat (sum_z (map po_clusters (sp_ports_in spec))) + Z.to_nat (sum_z (map po_clusters (sp_ports_out spec))))%nat.
    intros n1 n2 n3 n4 n5 n6 n7. cbv -[Z.add Z.of_nat]. lia.
Qed.
(** ** The dynamic-map engines *)

Lemma first_channels_agree o s : stream_texts o -> spec_stream_of o s ->
  exists c, head_channels o = Ok c /\ first_channels s = Ok c.
Proof using Type.
  intros Ho [_ Hf]. destruct (head_text _ Ho) as (n & rest & E & Hn). rewrite E in Hf.
  inversion Hf as [|? n' ? fs [E' Hn'] _ E1 E2]. unfold head_channels, first_channels. rewrite E, <-E2, sub_head.
  assert (py_int16 (hex64 n) = py_int16 (hex64 n')) as En by (by rewrite E').
  rewrite !hex64_int16 in En by lia. injection En as ->. rewrite hex64_int16 by lia. by eexists.
Qed.

Lemma kinds_agree o s : spec_stream_of o s -> String.eqb (kind_of s) "aaf" = is_aaf o.
Proof using Type. intros [Hk _]. unfold kind_of, is_aaf. by rewrite Hk. Qed.

Lemma input_tables_agree l ss : Forall stream_texts l -> Forall2 spec_stream_of l ss ->
  map (fun s => String.eqb (kind_of s) "aaf") ss = map is_aaf l /\
  exists cs, mapR (fun s => if String.eqb (kind_of s) "aaf" then first_channels s else Ok 0) ss = Ok cs /\
    mapR (fun s => if is_aaf s then head_channels s else Ok 0) l = Ok cs.
Proof using Type.
  intros Ht H. induction H as [|o s l ss Hos _ IH]; [split; [done|by exists []]|].
  apply Forall_cons in Ht as [Ho Ht]. destruct (IH Ht) as (E & cs & E1 & E2). cbn [map mapR].
  rewrite (kinds_agree _ _ Hos), E, E1, E2. split; [done|].
  destruct (is_aaf o); [|by exists (0 :: cs)].
  destruct (first_channels_agree _ _ Ho Hos) as (c & -> & ->). by exists (c :: cs).
Qed.

Lemma output_tables_agree l ss : Forall stream_texts l -> Forall2 spec_stream_of l ss ->
  exists cs, mapR first_channels ss = Ok cs /\ mapR head_channels l = Ok cs.
Proof using Type.
  intros Ht H. induction H as [|o s l ss Hos _ IH]; [by exists []|].
  apply Forall_cons in Ht as [Ho Ht]. destruct (IH Ht) as (cs & E1 & E2). cbn [mapR].
  destruct (first_channels_agree _ _ Ho Hos) as (c & -> & ->). rewrite E1, E2. by exists (c :: cs).
Qed.

Lemma filter_all {A} (f : A -> bool) l : Forall (fun x => f x = true) l -> List.filter f l = l.
Proof using Type. induction 1 as [|x l Hx _ IH]; [done|]. cbn [List.filter]. by rewrite Hx, IH. Qed.

(** The page every input port of the layout carries. *)
Lemma input_pages : exists page, 1 <= page <= 11 /\
  Forall (fun p => p_dynamic p = true /\ p_map_page p = Some page) (cf_ports_in cfg).
Proof using Hw.
  destruct (wf_layout_inputs _ _ Hw) as [HL _].
  destruct (cluster_layout_page _ _ _ _ _ HL (cw_layout _ _ Hw)) as (_ & page & Hp & Hall & _).
  exists page. split; [done|]. pose proof (wf_inputs_dynamic _ _ Hw) as Hd.
  apply List.Forall_forall. intros p Hin.
  pose proof (proj1 (List.Forall_forall _ _) Hd p Hin) as E. split; [done|].
  by apply (proj1 (List.Forall_forall _ _) Hall p Hin).
Qed.

Lemma explicit_pages_all page l : page <> 0 -> l <> [] ->
  Forall (fun p => po_map_page p = Some page) l -> explicit_pages l = [page].
Proof using Type.
  intros Hp Hne H. unfold explicit_pages.
  assert (omap (fun p => match po_map_page p with Some n => if n =? 0 then None else Some n | None => None end) l
    = repeat page (length l)) as ->.
  { clear Hne. induction H as [|p l Hl _ IH]; [done|]. cbn [omap list_omap repeat length]. rewrite Hl.
    apply Z.eqb_neq in Hp. rewrite Hp. by f_equal. }
  destruct l as [|p l]; [done|]. cbn [length]. clear H Hne. induction (length l) as [|n IH]; [done|].
  change (repeat page (S (S n))) with (page :: repeat page (S n)). cbn [remove_dups].
  destruct (decide_rel elem_of page (repeat page (S n))) as [|Hd]; [exact IH|]. exfalso. apply Hd. cbn [repeat]. by left.
Qed.

(** The model's dynamic-input tables as a function of the configuration's ports. *)
Lemma dynmap_eval : exists page p0 ps cs,
  cf_ports_in cfg = p0 :: ps /\ 1 <= page <= 11 /\
  Forall (fun p => p_dynamic p = true /\ p_map_page p = Some page) (p0 :: ps) /\
  mapR (fun s => if is_aaf s then head_channels s else Ok 0) (fst (overlay_streams cfg)) = Ok cs /\
  let keys := max_z (port_end p0) (map port_end ps) in
  dynmap_tables spec =
    if negb (page <=? 9) then Err (Model.EMapPageRange page)
    else if 64 <? keys then Err (Model.EMapKeys keys)
    else Ok (Some (DynMap keys page (zlen (p0 :: ps)) (map p_dynamic (p0 :: ps)) (map p_base_cluster (p0 :: ps))
           (map p_clusters (p0 :: ps)) (map (fun p => - (- p_clusters p / page)) (p0 :: ps))
           (zlen (sp_stream_inputs spec)) (map is_aaf (fst (overlay_streams cfg))) cs CHMAP_PHYS_DEPTH)).
Proof using All.
  destruct spec_inv as (Hsi & _ & _ & Epi & _). destruct (overlay_stream_texts _ _ Hw) as [Htx _].
  destruct (input_tables_agree _ _ Htx Hsi) as (Eaaf & cs & Ecs & Ech).
  destruct input_pages as (page & Hpg & Hall). destruct (cw_listeners _ _ Hw) as [HL _].
  destruct (wf_laid _ _ Hw) as (Hlen & _). unfold dynmap_tables. rewrite Epi, Eaaf, Ecs.
  set (pub := fun p => port_in_spec (port_public Listener p)).
  destruct (cf_ports_in cfg) as [|p0 ps]; [rewrite zlen_nil in Hlen; lia|].
  exists page, p0, ps, cs. do 4 (split; [done|]). cbn zeta.
  assert (Forall (fun p => is_dynamic (pub p) = true /\ po_map_page (pub p) = Some page) (p0 :: ps)) as Hpub.
  { eapply Forall_impl; [exact Hall|]. intros p [Hd Hp]. unfold pub, port_public, port_in_spec, is_dynamic. cbn.
    rewrite Hd, Hp. destruct (Z.eqb_spec page 0); [lia|]. by split. }
  assert (List.filter is_dynamic (map pub (p0 :: ps)) = map pub (p0 :: ps)) as ->.
  { apply filter_all, Forall_map. eapply Forall_impl; [exact Hpub|]. by intros p []. }
  assert (explicit_pages (map pub (p0 :: ps)) = [page]) as ->.
  { apply explicit_pages_all; [lia|done|]. apply Forall_map. eapply Forall_impl; [exact Hpub|]. by intros p []. }
  assert (map is_dynamic (map pub (p0 :: ps)) = map p_dynamic (p0 :: ps) /\
    map (fun p => if is_dynamic p then - (- po_clusters p / page) else po_maps p) (map pub (p0 :: ps))
      = map (fun p => - (- p_clusters p / page)) (p0 :: ps)) as [Edyn Enm].
  { rewrite !map_map. split; apply map_ext_in; intros p Hin;
      [|by rewrite (proj1 (proj1 (List.Forall_forall _ _) Hpub p Hin))].
    rewrite (proj1 (proj1 (List.Forall_forall _ _) Hpub p Hin)).
    by rewrite (proj1 (proj1 (List.Forall_forall _ _) Hall p Hin)). }
  change (1 <? zlen [page]) with false. cbn match. cbn [raise_if rbind].
  rewrite (proj2 (Z.leb_le 1 page)) by lia. cbn [andb].
  destruct (page <=? 9); cbn [negb raise_if rbind]; [|done].
  rewrite Edyn, Enm, zlen_map, !map_map.
  change (py_max (map _ (p0 :: ps))) with (@Ok model_error _ (max_z (port_end p0) (map port_end ps))).
  cbn [rbind]. by destruct (64 <? max_z (port_end p0) (map port_end ps)).
Qed.

(** C13: The dynamic-input geometry the builder puts in the shape header is, table by
    table, the one the AEM model is built with. *)
Theorem dyn_in_agree dm : dynmap_tables spec = Ok (Some dm) ->
  exists di, adp_dyn_in_geometry cfg (do_overlay doc) = Ok (Some di) /\
    di_keys di = dm_keys dm /\ di_page di = dm_page dm /\ di_pbase di = dm_pbase dm /\
    di_pcls di = dm_pcls dm /\ di_pnmaps di = dm_pnmaps dm /\ di_saaf di = dm_saaf dm /\
    di_sch di = dm_sch dm.
Proof using All.
  intros H. pose proof (emit_inv _ _ _ Hemit) as (Esi & _).
  destruct dynmap_eval as (page & p0 & ps & cs & Epin & Hpg & Hall & Ech & E). cbn zeta in E.
  rewrite E in H. clear E. destruct (negb (page <=? 9)); [done|].
  destruct (64 <? max_z (port_end p0) (map port_end ps)); [done|]. injection H as <-.
  destruct (cw_listeners _ _ Hw) as [HL Hwf].
  assert (existsb (fun s => bool_decide (s_map_mode s = Dynamic)) (cf_listeners cfg) = true) as Eany.
  { destruct (cf_listeners cfg) as [|s l]; [rewrite zlen_nil in HL; lia|]. apply Forall_cons in Hwf as [Hs _].
    cbn [existsb]. by rewrite (ws_mode _ _ Hs), bool_decide_true. }
  unfold adp_dyn_in_geometry. rewrite Eany, Esi, Ech, Epin, filter_all.
  2:{ eapply Forall_impl; [exact Hall|]. by intros p []. }
  apply Forall_cons in Hall as Hp0. destruct Hp0 as [[Hd0 Hp0] _]. rewrite Hp0. cbn [negb rbind].
  assert (mapR (fun p => if p_dynamic p then if page =? 0 then Err EValue else Ok (- (- p_clusters p / page))
    else Ok (p_maps p)) (p0 :: ps) = Ok (map (fun p => - (- p_clusters p / page)) (p0 :: ps))) as ->.
  { clear -Hall Hpg. induction Hall as [|p l [Hd _] _ IH]; [done|]. cbn [mapR map]. rewrite Hd, IH.
    destruct (Z.eqb_spec page 0); [lia|done]. }
  cbn [rbind]. eexists. split; [reflexivity|]. by split_and!.
Qed.

(** C20: Which loaded configurations the dynamic-input engine takes: the page is at
    most 9 mappings and every input cluster index is below 64.  The builder's own
    bound on the page is 11 and it has none on the clusters. *)
Theorem dyn_in_accepted_iff :
  (exists dm, dynmap_tables spec = Ok (Some dm)) <->
  Forall (fun p => (exists page, p_map_page p = Some page /\ page <= 9) /\ port_end p <= 64) (cf_ports_in cfg).
Proof using All.
  destruct dynmap_eval as (page & p0 & ps & cs & Epin & Hpg & Hall & _ & E). cbn zeta in E. rewrite E, Epin. clear E.
  assert (max_z (port_end p0) (map port_end ps) <= 64 <-> Forall (fun p => port_end p <= 64) (p0 :: ps)) as Hk.
  { rewrite Forall_cons. split.
    - intros H. assert (port_end p0 <= max_z (port_end p0) (map port_end ps)) as H0
        by (clear; unfold max_z; induction ps; cbn [map foldr] in *; lia).
      split; [lia|]. apply List.Forall_forall. intros p Hin.
      pose proof (max_z_ge (port_end p0) _ _ (in_map port_end _ _ Hin)). lia.
    - intros [H0 H]. destruct (max_z_In (port_end p0) (map port_end ps)) as [->|Hm]; [done|].
      apply in_map_iff in Hm as (p & <- & Hp). by apply (proj1 (List.Forall_forall _ _) H). }
  rewrite Forall_and, <-Hk. split.
  - intros [dm H]. destruct (Z.leb_spec page 9); [|done].
    destruct (Z.ltb_spec 64 (max_z (port_end p0) (map port_end ps))); [done|]. split; [|done].
    eapply Forall_impl; [exact Hall|]. intros p [_ Hp]. by exists page.
  - intros [H Hm]. apply Forall_cons in H as [(q & Hq & H9) _]. apply Forall_cons in Hall as [[_ Hp0] _].
    rewrite Hp0 in Hq. injection Hq as ->. rewrite (proj2 (Z.leb_le q 9) H9). cbn [negb].
    rewrite (proj2 (Z.ltb_ge 64 _) Hm). by eexists.
Qed.

(** What [port_out_spec] makes of a published port. *)
Lemma port_out_inv o j p q : port_out_spec o (j, port_public Talker p) = Ok q ->
  is_dynamic q = p_dynamic p /\ po_clusters q = p_clusters p /\ port_stream j q = p_stream_index p /\
  out_cluster_sources o j (port_public Talker p) = Ok (po_cluster_sources q).
Proof using Type.
  unfold port_out_spec. intros H. rsplit H. subst q. rewrite Hm. split_and!; try done.
  unfold is_dynamic, port_public. cbn. by destruct (p_dynamic p).
Qed.

(** One iteration on either side. *)
Lemma dyn_out_step_agree o so_ch k p q st st' od ch : port_out_spec o (k, port_public Talker p) = Ok q ->
  do_pcbase od = st.1.1 -> do_csrc od = st.1.2 ->
  odmap_port_step so_ch st (k, q) = Ok st' -> sub so_ch (port_stream k q) = Ok ch ->
  exists od', dyn_out_step o so_ch od (k, port_public Talker p) = Ok od' /\
    do_pcls od' = do_pcls od ++ [po_clusters q] /\ do_pcbase od' = st'.1.1 /\ do_csrc od' = st'.1.2 /\
    do_sch od' = do_sch od ++ [ch].
Proof using Type.
  intros Hq Eb Ec Hs Hch. destruct st as [[pcb csrc] init]. cbn [fst snd] in *.
  destruct (port_out_inv _ _ _ _ Hq) as (Hd & Hcl & Hst & Hsrc).
  rewrite Hst in Hch. apply sub_Ok in Hch.
  unfold odmap_port_step in Hs. rsplit Hs. subst st'. unfold port_sources in Hm. rsplit Hm. subst v1.
  unfold dyn_out_step. change (default k (op_stream_index (port_public Talker p))) with (p_stream_index p).
  change (op_clusters (port_public Talker p)) with (p_clusters p). rewrite Hch. cbn [rbind].
  rewrite Hsrc. cbn [map_err rbind].
  assert (ovl_is_dynamic (port_public Talker p) = p_dynamic p) as ->.
  { unfold ovl_is_dynamic, port_public. cbn. by destruct (p_dynamic p). }
  destruct (po_cluster_sources q) as [srcs|].
  - apply Ok_inj in Hm1 as <-. cbn [rbind]. eexists. split; [done|]. cbn [do_pcls do_pcbase do_csrc do_sch fst snd].
    by rewrite Eb, Ec, Hcl.
  - rewrite Hd in Hm1. destruct (p_dynamic p); [done|]. apply Ok_inj in Hm1 as <-. cbn [raise_if rbind].
    eexists. split; [done|]. cbn [do_pcls do_pcbase do_csrc do_sch fst snd]. by rewrite Eb, Ec, Hcl.
Qed.

Lemma dyn_out_fold_agree o so_ch ports : forall k ps st st' od sch,
  mapR (port_out_spec o) (enum_from k (map (port_public Talker) ports)) = Ok ps ->
  do_pcbase od = st.1.1 -> do_csrc od = st.1.2 ->
  foldR (odmap_port_step so_ch) st (enum_from k ps) = Ok st' ->
  mapR (fun jp => sub so_ch (port_stream (fst jp) (snd jp))) (enum_from k ps) = Ok sch ->
  exists od', foldR (dyn_out_step o so_ch) od (enum_from k (map (port_public Talker) ports)) = Ok od' /\
    do_pcls od' = do_pcls od ++ map po_clusters ps /\ do_pcbase od' = st'.1.1 /\ do_csrc od' = st'.1.2 /\
    do_sch od' = do_sch od ++ sch.
Proof using Type.
  induction ports as [|p ports IH]; intros k ps st st' od sch Hps Eb Ec Hf Hs; cbn [map enum_from mapR] in Hps.
  - apply Ok_inj in Hps as <-. cbn [enum_from foldR mapR] in Hf, Hs. apply Ok_inj in Hf as <-, Hs as <-.
    exists od. cbn [map enum_from foldR]. by rewrite !app_nil_r.
  - apply rbind_Ok in Hps as (q & Hq & Hps). apply rbind_Ok in Hps as (qs & Hqs & Hps). apply Ok_inj in Hps as <-.
    cbn [enum_from foldR mapR fst snd] in Hf, Hs. apply rbind_Ok in Hf as (st1 & Hst1 & Hf).
    apply rbind_Ok in Hs as (ch & Hch & Hs). apply rbind_Ok in Hs as (chs & Hchs & Hs). apply Ok_inj in Hs as <-.
    destruct (dyn_out_step_agree o so_ch k p q st st1 od ch Hq Eb Ec Hst1 Hch) as (od1 & Ho & E1 & E2 & E3 & E4).
    destruct (IH _ _ _ _ _ _ Hqs E2 E3 Hf Hchs) as (od' & Ho' & F1 & F2 & F3 & F4).
    exists od'. cbn [map enum_from foldR]. rewrite Ho. cbn [rbind]. rewrite Ho'. split; [done|].
    rewrite F1, F4, E1, E4, <-!app_assoc. by split_and!.
Qed.

(** An output port maps the way its talker is declared to. *)
Lemma output_modes : Forall2 (fun s p => p_map_mode p = s_map_mode s) (cf_talkers cfg) (cf_ports_out cfg).
Proof using Hw.
  destruct (wf_layout_inputs _ _ Hw) as [_ HT]. pose proof (cw_layout _ _ Hw) as H.
  unfold cluster_layout in H. rsplit H. apply pair_eq in H as [_ <-].
  apply (output_ports_laid _ _ _ _ _ HT) in Hm2 as [_ Hf].
  eapply Forall2_impl; [exact Hf|]. by intros s p [].
Qed.

Lemma dynamic_output_declared : existsb is_dynamic (sp_ports_out spec) = true ->
  existsb (fun s => bool_decide (s_map_mode s = Dynamic)) (cf_talkers cfg) = true.
Proof using All.
  intros (q & Hq & Hd)%existsb_exists. destruct spec_inv as (_ & _ & _ & _ & Hpo & _).
  apply mapR_Ok in Hpo. destruct (Forall2_In_r _ _ _ _ Hpo Hq) as ([j p'] & Hin & Hjp).
  apply enum_from_In in Hin as [_ (p & <- & Hp)%in_map_iff].
  destruct (port_out_inv _ _ _ _ Hjp) as [E _]. rewrite E in Hd. unfold p_dynamic in Hd. bool_prop.
  destruct (Forall2_In_r _ _ _ _ output_modes Hp) as (s & Hs & Em).
  apply existsb_exists. exists s. split; [done|]. apply bool_decide_eq_true. congruence.
Qed.

(** The same for the dynamic outputs: cluster counts, source bases, stream widths
    and the capture-source templates of every cluster. *)
Theorem dyn_out_agree b od : odmap_tables spec b = Ok (Some od) ->
  exists g, adp_dyn_out_geometry cfg (do_overlay doc) = Ok (Some g) /\
    do_pcls g = od_pcls od /\ do_pcbase g = od_pcbase od /\ do_sch g = od_sch od /\ do_csrc g = od_csrc od.
Proof using All.
  intros H. pose proof (emit_inv _ _ _ Hemit) as (_ & Eso & _ & _ & Epo & _).
  destruct spec_inv as (_ & Hso & _ & _ & Hpo & _). destruct (overlay_stream_texts _ _ Hw) as [_ Htx].
  destruct (output_tables_agree _ _ Htx Hso) as (cs & Ecs & Ech).
  unfold odmap_tables in H. rsplit H. destruct (existsb is_dynamic (sp_ports_out spec)) eqn:Ed; [|done].
  rewrite Ecs in H. cbn [rbind] in H. apply rbind_Ok in H as ([[pcb csrc] init] & Hf & H).
  rsplit H. injection H as <-. unfold adp_dyn_out_geometry.
  rewrite (dynamic_output_declared Ed), Eso, Epo, Ech. cbn [negb rbind].
  destruct (dyn_out_fold_agree _ cs _ 0 _ ([], [], []) _ (DynOut [] [] [] []) _ Hpo eq_refl eq_refl Hf Hm1) as
    (g & Hg & E1 & E2 & E3 & E4). unfold enumerate. rewrite Hg. cbn [rbind]. exists g.
  cbn [do_pcls do_sch app] in E1, E4. by split_and!.
Qed.

(** ** Identity *)

Lemma u_field_hex64 v : 0 <= v < 2 ^ 64 -> AemiImage.u_field (AemiImage.JStr (hex64 v)) 8 = Ok (be_bytes 8 v).
Proof using Type.
  intros H. unfold AemiImage.u_field. rewrite hex64_int16 by lia. cbn [rbind]. unfold AemiImage.to_bytes_big.
  change (256 ^ Z.of_nat 8) with (2 ^ 64).
  by rewrite (proj2 (Z.leb_le 0 v)), (proj2 (Z.ltb_lt v (2 ^ 64))) by lia.
Qed.

Lemma to_bytes_big_fits n v : 0 <= v < 256 ^ Z.of_nat n -> AemiImage.to_bytes_big n v = Ok (be_bytes n v).
Proof using Type.
  intros H. unfold AemiImage.to_bytes_big. by rewrite (proj2 (Z.leb_le 0 v)), (proj2 (Z.ltb_lt v _)) by lia.
Qed.

(** The identity baked into the image is the configuration's: the station MAC,
    the gPTP clock identity formed from it, the model id, and an entity id that
    is the same EUI-64 as the clock identity unless the configuration states its
    own; the ADP counts are the STREAM descriptor counts. *)
Theorem station_identity pkg_text caps : 0 < mid < 2 ^ 64 - 1 ->
  AemiImage.adp_entity_capabilities pkg_text = Ok caps -> 0 <= caps < 2 ^ 32 ->
  let mac := be_bytes 6 (pf_mac (cf_platform cfg)) in
  exists ident, AemiImage.identity_from_overlay (Some (do_adp doc)) (AemiImage.JStr (do_model_id doc)) pkg_text
                  = Ok ident /\
    ident !! "MAC"%string = Some mac /\ ident !! "CLOCK_ID"%string = Some (eui64_of mac) /\
    (en_entity_id (cf_entity cfg) = None -> ident !! "ENTITY_ID"%string = ident !! "CLOCK_ID"%string) /\
    ident !! "MODEL_ID"%string = Some (be_bytes 8 mid) /\
    ident !! "ECAPS"%string = Some (be_bytes 4 caps) /\
    ident !! "TALKER_SRC"%string = Some (be_bytes 2 (zlen (sp_stream_outputs spec))) /\
    ident !! "LISTEN_SINK"%string = Some (be_bytes 2 (zlen (sp_stream_inputs spec))).
Proof using All.
  intros Hmid Hcaps Hc mac. pose proof (emit_inv _ _ _ Hemit) as (_ & _ & _ & _ & _ & _ & _ & Eid & Eadp).
  destruct spec_inv as (Hsi & Hso & _). destruct (derive_entity_id_Ok _ _ Hw) as (eid & Hd & Hr & Hmac & _).
  unfold overlay_adp_block in Eadp. rewrite Hd in Eadp. cbn [rbind] in Eadp. apply Ok_inj in Eadp as <-.
  rewrite Eid. destruct (cw_listeners _ _ Hw) as [HL _], (cw_talkers _ _ Hw) as [HT _].
  assert (av_talker_stream_sources (adp_shape cfg) = zlen (sp_stream_outputs spec) /\
    av_listener_stream_sinks (adp_shape cfg) = zlen (sp_stream_inputs spec)) as [E1 E2].
  { apply Forall2_length in Hsi, Hso. unfold zlen. rewrite <-Hsi, <-Hso. unfold overlay_streams, adp_shape, zlen.
    cbn [av_talker_stream_sources av_listener_stream_sinks fst snd]. rewrite !length_app, !length_map.
    split; case_match; cbn [length]; lia. }
  assert (0 <= zlen (sp_stream_outputs spec) <= 17 /\ 0 <= zlen (sp_stream_inputs spec) <= 17) as [B1 B2].
  { rewrite <-E1, <-E2. unfold adp_shape. cbn [av_talker_stream_sources av_listener_stream_sinks].
    split; case_match; lia. }
  unfold AemiImage.identity_from_overlay. cbn [AemiImage.adp_mac_address AemiImage.adp_entity_id
    AemiImage.adp_talker_stream_sources AemiImage.adp_listener_stream_sinks AemiImage.adp_talker_capabilities
    AemiImage.adp_listener_capabilities].
  rewrite mac_bytes_mac_text. cbn [rbind]. fold mac.
  assert (zlen mac = 6) as -> by (unfold mac, zlen; by rewrite be_bytes_length).
  change (negb (6 =? 6)) with false. cbn [raise_if rbind].
  rewrite !u_field_hex64 by lia. cbn [rbind]. rewrite Hcaps. cbn [rbind].
  rewrite to_bytes_big_fits by (change (256 ^ Z.of_nat 4) with (2 ^ 32); lia). cbn [rbind].
  rewrite E1, E2. unfold AemiImage.u_field at 1. cbn [rbind].
  rewrite to_bytes_big_fits by (change (256 ^ Z.of_nat 2) with 65536; lia). cbn [rbind].
  assert (exists t l, AemiImage.u_field (AemiImage.JStr (hex_word (av_talker_capabilities (adp_shape cfg)))) 2 = Ok t /\
    AemiImage.u_field (AemiImage.JStr (hex_word (av_listener_capabilities (adp_shape cfg)))) 2 = Ok l) as (t & l & -> & ->).
  { unfold adp_shape. cbn [av_talker_capabilities av_listener_capabilities].
    destruct (ck_crf_output _), (ck_crf_sink _); do 2 eexists; split; vm_compute; reflexivity. }
  cbn [rbind]. unfold AemiImage.u_field. cbn [rbind].
  rewrite to_bytes_big_fits by (change (256 ^ Z.of_nat 2) with 65536; lia). cbn [rbind].
  eexists. split; [reflexivity|]. split_and!; try reflexivity.
  intros Hn. rewrite (Hmac Hn). reflexivity.
Qed.

(** ** Clock sources *)

Lemma input_kind_at k o : fst (overlay_streams cfg) !! k = Some o ->
  exists s, sp_stream_inputs spec !! k = Some s /\ kind_of s = default "aaf"%string (os_kind o).
Proof using All.
  intros Ho. destruct spec_inv as (Hsi & _).
  destruct (Forall2_lookup_l _ _ _ _ _ Hsi Ho) as (s & Hs & Hk & _). exists s. split; [done|].
  unfold kind_of. by rewrite Hk.
Qed.

Lemma clock_rows_agree {A B} `{ClockRow A, ClockRow B} (l : list A) (l' : list B) :
  Forall2 (fun c s => row_kind s = row_kind c /\ row_is_stream_input s = row_is_stream_input c /\
    row_loc_index s = row_loc_index c) l l' ->
  clock_source_shape l' = clock_source_shape l /\ clock_source_table l' = clock_source_table l.
Proof using Type.
  intros Hl. assert (zlen l' = zlen l) as El by (unfold zlen; by rewrite (Forall2_length _ _ _ Hl)).
  assert (forall k, crf_index_from k l' = crf_index_from k l) as Ei.
  { clear El. induction Hl as [|c s l l' (E & _) _ IH]; intros k; [done|]. cbn [crf_index_from]. by rewrite E, IH. }
  split; [unfold clock_source_shape; by rewrite El, Ei|]. clear El Ei. unfold clock_source_table.
  induction Hl as [|c s l l' (E1 & E2 & E3) _ IH]; [done|]. cbn [mapR]. by rewrite E1, E2, E3, IH.
Qed.

Lemma followed_located (b : bool) c :
  In c (if b then map (fun k => OvlClock (followed_name cfg k) "input_stream" "STREAM_INPUT" k)
                      (zrange 0 (Z.to_nat (zlen (cf_listeners cfg)))) else []) ->
  exists s, sp_stream_inputs spec !! Z.to_nat (oc_location_index c) = Some s /\
    (oc_type c = "crf"%string /\ False \/ oc_type c = "input_stream"%string /\ kind_of s = "aaf"%string).
Proof using All.
  destruct b; [|done]. intros (k & <- & Hk%zrange_In)%in_map_iff. cbn [oc_location_index oc_type].
  destruct (py_index_inside (cf_listeners cfg) k) as [x Hx]; [pose proof (zlen_nonneg (cf_listeners cfg)); lia|].
  rewrite py_index_nonneg in Hx by lia.
  destruct (input_kind_at (Z.to_nat k) (listener_row x)) as (s & Hs & Hkd).
  { unfold overlay_streams. cbn [fst]. apply lookup_app_l_Some. rewrite list_lookup_fmap, Hx. done. }
  exists s. split; [done|]. right. by split.
Qed.

(** C29: The clock sources: there is a source at index 0, and it is INTERNAL, the only one;
    a CRF source is index 1 and located on the CRF stream input; every source
    that follows a stream is located on an AAF stream input.  The table and the CRF
    index of the shape header, computed over the overlay's rows, are the ones
    computed over the model's. *)
Theorem clock_sources_located :
  clock_source_shape (ov_clock_sources (do_overlay doc)) = clock_source_shape (sp_clock_sources spec) /\
  clock_source_table (ov_clock_sources (do_overlay doc)) = clock_source_table (sp_clock_sources spec) /\
  (exists c0, ov_clock_sources (do_overlay doc) !! 0%nat = Some c0 /\ oc_type c0 = "internal"%string) /\
  forall i c, ov_clock_sources (do_overlay doc) !! i = Some c ->
    (oc_type c = "internal"%string /\ i = 0%nat /\ oc_location_index c = 0) \/
    exists s, sp_stream_inputs spec !! Z.to_nat (oc_location_index c) = Some s /\
      (oc_type c = "crf"%string /\ i = 1%nat /\ kind_of s = "crf"%string \/
       oc_type c = "input_stream"%string /\ kind_of s = "aaf"%string).
Proof using All.
  pose proof (emit_inv _ _ _ Hemit) as (_ & _ & -> & _). destruct spec_inv as (_ & _ & Hc & _).
  destruct (clock_rows_agree _ _ Hc) as [-> ->]. split; [done|]. split; [done|].
  pose proof (cw_internal _ _ Hw) as Hint. apply (existsb_In String.eqb) in Hint; [|apply String.eqb_eq].
  split; [unfold overlay_clock_sources; rewrite Hint; by eexists|].
  intros i c Hi. unfold overlay_clock_sources in Hi. rewrite Hint in Hi. destruct i as [|i]; cbn [app lookup list_lookup] in Hi.
  { injection Hi as <-. left. by split_and!. }
  right. destruct (existsb (String.eqb "crf") _) eqn:Ecrf.
  - destruct i as [|i]; cbn [app lookup list_lookup] in Hi.
    + injection Hi as <-. cbn [oc_location_index oc_type].
      assert (ck_crf_sink (cf_clocking cfg) = true) as Hsink.
      { apply (wk_crf _ (cw_clocking _ _ Hw)). by apply (existsb_In String.eqb) in Ecrf; [|apply String.eqb_eq]. }
      destruct (input_kind_at (Z.to_nat (zlen (cf_listeners cfg)))
        (crf_row (ck_crf_format (cf_clocking cfg)) (Some BUFLEN_DEFAULT_NS))) as (s & Hs & Hk).
      { unfold overlay_streams. cbn [fst]. rewrite Hsink. unfold zlen. rewrite Nat2Z.id.
        apply list_lookup_middle. by rewrite length_map. }
      exists s. split; [done|]. left. by split_and!.
    + apply list_elem_of_lookup_2, list_elem_of_In in Hi. apply followed_located in Hi as (s & Hs & [[_ []]|Hk]). exists s. by split; [|right].
  - apply list_elem_of_lookup_2, list_elem_of_In in Hi. apply followed_located in Hi as (s & Hs & [[_ []]|Hk]). exists s. by split; [|right].
Qed.

(** ** Loopback clusters *)

(** The current format of a listener carries the channels it declares. *)
Definition channels_match (s : stream) : Prop :=
  exists n rest, s_formats s = hex64 n :: rest /\ 0 <= n /\ Z.land (Z.shiftr n 22) 0x3FF = s_channels s.

(** One listener's received channels, by the format and by the declaration. *)
Lemma rx_channels_agree : Forall channels_match (cf_listeners cfg) ->
  rx_channels (ov_stream_inputs (do_overlay doc)) = Ok (rx_space (cf_listeners cfg)).
Proof using Hemit.
  intros H. pose proof (emit_inv _ _ _ Hemit) as (-> & _). unfold rx_channels, rx_space, overlay_streams, enumerate.
  cbn [fst]. rewrite enum_from_app.
  set (f := fun ks : Z * ovl_stream => _).
  assert (forall k, mapR f (enum_from k (map listener_row (cf_listeners cfg)))
    = Ok (map (fun ks => map (fun ch => (fst ks, ch)) (zrange 0 (Z.to_nat (s_channels (snd ks)))))
              (enum_from k (cf_listeners cfg)))) as G.
  { clear -H. induction H as [|s l (n & rest & E & Hn & Hc) _ IH]; intros k; [done|].
    cbn [map enum_from mapR]. rewrite IH. unfold f at 1. cbn [fst snd listener_row os_kind os_formats].
    change (negb (default "aaf" (Some "aaf") =? "aaf")%string) with false. cbn match.
    rewrite E, sub_head. cbn [rbind]. rewrite hex16_hex64 by done. cbn [rbind]. by rewrite Hc. }
  assert (forall A (g : A -> result model_error (list (Z * Z))) l1 l2 r1, mapR g l1 = Ok r1 ->
    Forall (fun x => g x = Ok []) l2 ->
    (let* l := mapR g (l1 ++ l2) in Ok (concat l)) = Ok (concat r1)) as Happ.
  { clear. intros A g l1 l2 r1 H1 H2. revert r1 H1. induction l1 as [|x l1 IH]; intros r1 H1; cbn [app mapR] in *.
    - apply Ok_inj in H1 as <-. induction H2 as [|x l2 Hx _ IH]; [done|]. cbn [mapR]. rewrite Hx. cbn [rbind].
      destruct (mapR g l2); [exact IH|done].
    - rsplit H1. subst r1. rewrite Hm. cbn [rbind]. specialize (IH _ Hm0).
      destruct (mapR g (l1 ++ l2)) as [r|]; [|done]. cbn [rbind concat] in *. apply Ok_inj in IH. by rewrite IH. }
  apply Happ; [apply G|]. destruct (ck_crf_sink _); [|constructor]. constructor; [|constructor]. done.
Qed.

(** The name a talker's loopback cluster carries is the name of the received
    channel its capture template reads, when every listener's current format has
    the channel count the listener declares. *)
Theorem loopback_names_sources p g n lb src : Forall channels_match (cf_listeners cfg) ->
  In p (cf_ports_out cfg) -> In g (p_pool p) -> g_role g = "loopback"%string ->
  (let* rx := map_err (fun _ => EOutputSources) (rx_channels (ov_stream_inputs (do_overlay doc))) in
   map_err (fun _ => EOutputSources) (cluster_source_of lb rx (p_index p) (g_role g) n)) = Ok src ->
  exists ch, ch = 2 * sr_idx src + sr_half src /\
    name_loopback (naming_of cfg Talker) (g_first g) n
      = lit "Loopback S" ++ dec (sr_idxh src) ++ lit " " ++
        chname (naming_of cfg Talker) ch (lit "ch " ++ dec ch).
Proof using All.
  intros Hm Hp Hg Hr H. rewrite (rx_channels_agree Hm) in H. cbn [map_err rbind] in H. rewrite Hr in H.
  destruct (cluster_source_of _ _ _ _ _) as [s|] eqn:Es; [|done]. apply Ok_inj in H as ->.
  destruct (proj1 (List.Forall_forall _ _) (wf_output_pools _ _ Hw) p Hp) as [_ Hfirst].
  rewrite (proj1 (List.Forall_forall _ _) Hfirst g Hg Hr).
  assert (rx_space (cf_listeners cfg) <> []) as Hne.
  { destruct (cw_listeners _ _ Hw) as [Hl HL]. destruct (cf_listeners cfg) as [|s l]; [rewrite zlen_nil in Hl; lia|].
    apply Forall_cons in HL as [Hs _]. destruct (ws_channels _ _ Hs) as [Hc _]. unfold rx_space, enumerate.
    cbn [enum_from map concat fst snd]. replace (Z.to_nat (s_channels s)) with (S (Z.to_nat (s_channels s - 1))) by lia.
    done. }
  destruct (loopback_name_source lb _ _ _ _ Hne Es) as (si & ch & Hl & <- & <-).
  eexists. split; [reflexivity|]. unfold name_loopback, naming_of, cluster_naming. cbn [nm_rx]. by rewrite Hl.
Qed.
End Agree.
