(* ===== verification/BuilderHeader.v ===== *)
(** The shape header the gateware is elaborated with
    ([sw/builder/endstation_builder.py], [emit_adp_shape_svh] and its parts).

    The header is a SystemVerilog include of [localparam]s between comments.  It
    is modelled as the list of its parameters in order, each with the list of its
    values (a scalar has one); widths, radix and comment text are left out.  An
    absent CRF clock source and the stream of a source that follows none are
    0xFFFF, as printed. *)
From S2P Require Import Prelude Unicode Descriptors Directory Text Model AudioMaps Assemble Specs.
From S2P Require Import Config BuilderFormats BuilderStreams BuilderClusters Srp BuilderConfig BuilderOverlay.

Definition localparams : Type := list (string * list Z).

(** [list(values) or [0]]: SystemVerilog has no array of length zero. *)
Definition sv_array (name : string) (values : list Z) : string * list Z :=
  (name, match values with [] => [0] | _ => values end).

Definition flag (b : bool) : Z := if b then 1 else 0.

Definition adp_shape_params (sh : advertised) (names : Z) (ovl : overlay) (counts : list (string * Z))
    : result config_error localparams :=
  let rows := ov_clock_sources ovl in
  let '(n_cs, crf_ix) := clock_source_shape rows in
  let* control := match count_of counts "CONTROL" with Some n => Ok n | None => Err EKeyErr end in
  let* table := map_err (fun _ => EKeyErr) (clock_source_table rows) in
  Ok ([("ADP_TALKER_SRC_C", [av_talker_stream_sources sh]);
       ("ADP_LISTENER_SINK_C", [av_listener_stream_sinks sh]);
       ("AEM_NAME_ENTRIES_C", [names]);
       ("AEM_N_AUDIO_UNIT_C", [default 0 (count_of counts "AUDIO_UNIT")]);
       ("AEM_N_CLKDOM_C", [default 0 (count_of counts "CLOCK_DOMAIN")]);
       ("AEM_N_CONTROL_C", [control]);
       ("ADP_TALKER_CAPS_C", [av_talker_capabilities sh]);
       ("ADP_LISTENER_CAPS_C", [av_listener_capabilities sh]);
       ("AEM_N_CLKSRC_C", [n_cs]);
       ("AEM_CRF_CLKSRC_C", [default 0xFFFF crf_ix]);
       ("AEM_CLKSRC_INTERNAL_C", [0]); ("AEM_CLKSRC_CRF_C", [1]); ("AEM_CLKSRC_AAF_C", [2]);
       sv_array "AEM_CLKSRC_KIND_C" (map fst table);
       sv_array "AEM_CLKSRC_SI_C" (map (fun r => default 0xFFFF (snd r)) table);
       ("AEM_N_AAF_CLKSRC_C", [zlen (List.filter (fun r => (fst r =? 2)%Z) table)])]%string).

(** ** Dynamic inputs *)

(** [int(formats[0], 16) >> 22 & 0x3FF] of a declared stream. *)
Definition declared_head_channels (s : stream) : result config_error Z :=
  match s_formats s with
  | [] => Err EKeyErr
  | f :: _ => let* n := fmt_int f in Ok (Z.land (Z.shiftr n 22) 0x3FF)
  end.

(** What stands for the geometry when no listener maps dynamically. *)
Definition static_in_geometry (cfg : config) : result config_error dyn_in :=
  let ports := cf_ports_in cfg in
  let or1 (d : Z) (l : list Z) := match l with [] => [d] | _ => l end in
  let dmax (l : list Z) := match l with [] => 1 | x :: l' => max_z x l' end in
  let page := Z.min (dmax (map p_clusters ports)) 8 in
  let* _ := raise_if (match ports with [] => false | _ => page =? 0 end) EValue in
  let* sch := mapR declared_head_channels (cf_listeners cfg) in
  Ok (DynIn (dmax (map port_end ports)) page
        (or1 0 (map p_base_cluster ports)) (or1 1 (map p_clusters ports))
        (or1 1 (map (fun p => Z.max 1 (- (- p_clusters p / page))) ports))
        (match cf_listeners cfg with [] => [false] | l => map (fun _ => true) l end)
        (or1 0 sch)).

(** The render keys [(cluster, interface channel)] of a port's physical clusters. *)
Definition physical_keys (p : port) : list (Z * Z) :=
  concat (map (fun g =>
    if String.eqb (g_role g) "physical"
    then map (fun n => (p_base_cluster p + g_offset g + n, g_first g + n)) (zrange 0 (Z.to_nat (g_width g)))
    else []) (p_pool p)).

Definition rphys_step (lane_base lane_width : Z) (table : list Z) (kc : Z * Z) : list Z :=
  let '(key, chan) := kc in
  let phys := lane_base + chan in
  if (key <? zlen table) && (chan <? lane_width) && (phys <? 64)
  then <[Z.to_nat key := Z.lor 0x40 phys]> table else table.

Definition in_rphys (lane_base lane_width keys : Z) (ports : list port) : list Z :=
  fold_left (rphys_step lane_base lane_width) (concat (map physical_keys ports))
    (zeros (Z.to_nat (Z.max 1 keys))).

Definition front (cfg : config) : front_end :=
  front_end_of (cf_interface cfg) (ft_i2s_playback (cf_features cfg)) (cf_talkers cfg).

Definition adp_dmap_in (cfg : config) (dm : option dyn_in) : result config_error localparams :=
  let* g := match dm with Some g => Ok g | None => static_in_geometry cfg end in
  let rphys := in_rphys (render_lane_base (front cfg)) (render_lane_width (front cfg)) (di_keys g)
                        (cf_ports_in cfg) in
  Ok ([("ADP_DMAP_IN_MASK_C", [dmap_mask (cf_listeners cfg)]);
       ("ADP_DMAP_OUT_MASK_C", [dmap_mask (cf_talkers cfg)]);
       ("ADP_DMAP_IN_KEYS_C", [Z.max 1 (di_keys g)]); ("ADP_DMAP_IN_PAGE_C", [di_page g]);
       ("ADP_DMAP_IN_NPORTS_C", [zlen (di_pbase g)]); ("ADP_DMAP_IN_NSTRIN_C", [zlen (di_sch g)]);
       sv_array "ADP_DMAP_IN_PBASE_C" (di_pbase g); sv_array "ADP_DMAP_IN_PCLS_C" (di_pcls g);
       sv_array "ADP_DMAP_IN_PNMAPS_C" (di_pnmaps g); sv_array "ADP_DMAP_IN_RPHYS_C" rphys;
       sv_array "ADP_DMAP_IN_SAAF_C" (map flag (di_saaf g)); sv_array "ADP_DMAP_IN_SCH_C" (di_sch g)]%string).

(** ** Dynamic outputs *)

(** The fabric word [{valid, half, src[2:0], idxh[3:0], idx[3:0]}]. *)
Definition csrc_word (s : cluster_source) : Z :=
  Z.lor (Z.lor (Z.lor (Z.lor (Z.shiftl (if default true (sr_valid s) then 1 else 0) 12)
    (Z.shiftl (Z.land (sr_half s) 1) 11)) (Z.shiftl (Z.land (sr_src s) 7) 8))
    (Z.shiftl (Z.land (sr_idxh s) 0xF) 4)) (Z.land (sr_idx s) 0xF).

(** Running totals before each element. *)
Fixpoint running (acc : Z) (l : list Z) : list Z :=
  match l with [] => [] | x :: l' => acc :: running (acc + x) l' end.

Definition adp_dmap_out (cfg : config) (od : option dyn_out) : localparams :=
  let '(pcls, pcbase, sch, csrc) :=
    match od with
    | Some g => (do_pcls g, do_pcbase g, do_sch g, map csrc_word (do_csrc g))
    | None =>
        let pcls := match cf_ports_out cfg with [] => [1] | l => map p_clusters l end in
        (pcls, running 0 pcls,
         match cf_talkers cfg with [] => [0] | l => map s_channels l end,
         zeros (Z.to_nat (Z.max 1 (sum_z pcls))))
    end in
  [("ADP_DMAP_OUT_NPORTS_C", [zlen pcls]); ("ADP_DMAP_OUT_NSRC_C", [zlen csrc]);
   sv_array "ADP_DMAP_OUT_PCLS_C" pcls; sv_array "ADP_DMAP_OUT_PCBASE_C" pcbase;
   sv_array "ADP_DMAP_OUT_SCH_C" sch; sv_array "ADP_DMAP_OUT_CSRC_C" csrc]%string.

(** ** Formats *)

(** The first declared format of a stream, or the fallback. *)
Definition head_format (f0 : Z) (s : stream) : result config_error Z :=
  match s_formats s with [] => Ok f0 | f :: _ => fmt_int f end.

Definition adp_formats (fb : fabric) (cfg : config) : result config_error localparams :=
  let clk := cf_clocking cfg in
  let offsets := map (fun s => default PRESENTATION_TIME_OFFSET_NS (s_presentation_time_offset_ns s)) (cf_talkers cfg)
                 ++ (if ck_crf_output clk then [ck_crf_output_offset clk] else []) in
  let* wire := framer_wire_channels fb (front cfg) in
  let* f0 := match cf_listeners cfg with [] => Ok 0 | s :: _ => head_format 0 s end in
  let* in_f0 := match cf_listeners cfg with [] => Ok [f0] | l => mapR (head_format f0) l end in
  let* out_f0 := match cf_talkers cfg with [] => Ok [f0] | l => mapR (head_format f0) l end in
  let* cf0 := fmt_int (ck_crf_format clk) in
  let* co0 := fmt_int (ck_crf_output_format clk) in
  Ok ([("ADP_SRP_DOM_DEF_VID_C", [sk_vid (srp_checked_of (cf_srp cfg))]);
       sv_array "ADP_STROUT_PRES_NS_C" offsets; ("TALKER_WIRE_CHANS_C", [wire]);
       ("ADP_STRIN0_FMT_C", [f0]); ("ADP_STRIN_NFMT_C", [zlen in_f0]); ("ADP_STROUT_NFMT_C", [zlen out_f0]);
       sv_array "ADP_STRIN_FMT_C" in_f0; sv_array "ADP_STROUT_FMT_C" out_f0;
       ("ADP_CRF_FMT_C", [cf0]); ("ADP_CRF_OUT_FMT_C", [co0])]%string).

(** * The header *)

Definition emit_adp_shape (fb : fabric) (capacity : option Z) (cfg : config) (doc : document)
    : result config_error localparams :=
  let ovl := do_overlay doc in
  let counts := do_descriptor_counts doc in
  let* names := adp_name_entries capacity counts in
  let* dm := adp_dyn_in_geometry cfg ovl in
  let* od := adp_dyn_out_geometry cfg ovl in
  let* p1 := adp_shape_params (adp_shape cfg) names ovl counts in
  let* p2 := adp_dmap_in cfg dm in
  let* p3 := adp_formats fb cfg in
  Ok (p1 ++ p2 ++ adp_dmap_out cfg od ++ p3).

(** * Capture-source words *)

(** The template a fabric word spells. *)
Definition csrc_fields (w : Z) : cluster_source :=
  ClusterSource (Z.land (Z.shiftr w 8) 7) (Z.land (Z.shiftr w 4) 0xF) (Z.land w 0xF)
    (Z.land (Z.shiftr w 11) 1) (Some (Z.testbit w 12)).

Definition fields_fit (s : cluster_source) : Prop :=
  0 <= sr_src s < 8 /\ 0 <= sr_idxh s < 16 /\ 0 <= sr_idx s < 16 /\ 0 <= sr_half s < 2.

(** Whether a template with these fields survives the packing. *)
Definition csrc_check (src idxh idx half : Z) (valid : bool) : bool :=
  let s := ClusterSource src idxh idx half (Some valid) in
  let w := csrc_word s in
  (0 <=? w) && (w <? 2 ^ 13) &&
  match csrc_fields w with
  | ClusterSource a b c d (Some v) => (a =? src) && (b =? idxh) && (c =? idx) && (d =? half) && Bool.eqb v valid
  | _ => false
  end.

Lemma csrc_check_all : forallb (fun src => forallb (fun idxh => forallb (fun idx => forallb (fun half =>
  csrc_check src idxh idx half true && csrc_check src idxh idx half false)
  (zrange 0 2)) (zrange 0 16)) (zrange 0 16)) (zrange 0 8) = true.
Proof. vm_compute. reflexivity. Qed.

(** The thirteen bits of a word hold a template whole. *)
Lemma csrc_word_fields s : fields_fit s ->
  0 <= csrc_word s < 2 ^ 13 /\
  csrc_fields (csrc_word s) =
    ClusterSource (sr_src s) (sr_idxh s) (sr_idx s) (sr_half s) (Some (default true (sr_valid s))).
Proof.
  intros (H1 & H2 & H3 & H4). destruct s as [src idxh idx half v]. cbn [sr_src sr_idxh sr_idx sr_half sr_valid] in *.
  assert (forall b, csrc_check src idxh idx half b = true) as H.
  { pose proof csrc_check_all as H. rewrite forallb_forall in H. specialize (H src).
    rewrite zrange_In in H. specialize (H ltac:(lia)). rewrite forallb_forall in H. specialize (H idxh).
    rewrite zrange_In in H. specialize (H ltac:(lia)). rewrite forallb_forall in H. specialize (H idx).
    rewrite zrange_In in H. specialize (H ltac:(lia)). rewrite forallb_forall in H. specialize (H half).
    rewrite zrange_In in H. specialize (H ltac:(lia)). apply andb_true_iff in H as [? ?]. by intros []. }
  specialize (H (default true v)). unfold csrc_check in H.
  change (csrc_word (ClusterSource src idxh idx half (Some (default true v))))
    with (csrc_word (ClusterSource src idxh idx half v)) in H.
  apply andb_true_iff in H as [Hb H]. bool_prop. split; [lia|]. cbn [default].
  destruct (csrc_fields _) as [a b c d [w|]]; [|done]. bool_prop.
  match goal with Hw : Bool.eqb _ _ = true |- _ => apply Bool.eqb_prop in Hw end. by subst.
Qed.

(** The words of the header decode to the capture templates of the model: a valid
    template of a dynamic output port loses nothing in its thirteen bits. *)
Theorem csrc_word_decode lb rx j role n s : 0 <= j < 16 -> 0 <= n < 32 ->
  Forall (fun sc => 0 <= fst sc /\ 0 <= snd sc) rx ->
  cluster_source_of lb rx j role n = Ok s -> sr_valid s = Some true ->
  0 <= csrc_word s < 2 ^ 13 /\ csrc_fields (csrc_word s) = s.
Proof.
  intros Hj Hn Hrx H Hv.
  assert (fields_fit s) as Hfit.
  { unfold cluster_source_of in H. destruct (role =? "physical")%string; [|destruct (role =? "pilot")%string;
      [|destruct (role =? "loopback")%string; [|destruct (role =? "virtual")%string; [|done]]]].
    - injection H as <-. unfold fields_fit. cbn [sr_src sr_idxh sr_idx sr_half].
      pose proof (Z.div_pos n 2 ltac:(lia) ltac:(lia)). pose proof (Z.div_lt_upper_bound n 2 16 ltac:(lia) ltac:(lia)).
      pose proof (Z.mod_pos_bound n 2 ltac:(lia)). lia.
    - injection H as <-. by vm_compute.
    - rsplit H. subst s. cbn [sr_valid] in Hv. injection Hv as Hv. bool_prop.
      assert (0 <= fst v /\ 0 <= snd v) as [Hf Hs].
      { destruct rx as [|r rx']; [apply Ok_inj in Hm as <-; cbn; lia|].
        apply sub_Ok in Hm. unfold py_index in Hm. destruct (0 <=? _); [|destruct (0 <=? _); [|done]];
          apply list_elem_of_lookup_2, list_elem_of_In in Hm; by apply (proj1 (List.Forall_forall _ _) Hrx). }
      unfold fields_fit. cbn [sr_src sr_idxh sr_idx sr_half].
      pose proof (Z.div_pos (snd v) 2 ltac:(lia) ltac:(lia)).
      pose proof (Z.div_lt_upper_bound (snd v) 2 16 ltac:(lia) ltac:(lia)).
      pose proof (Z.mod_pos_bound (snd v) 2 ltac:(lia)). lia.
    - injection H as <-. done. }
  destruct (csrc_word_fields s Hfit) as [Hb E]. split; [done|]. rewrite E.
  destruct s. cbn in *. by subst.
Qed.

(** * Render keys *)

Section RenderKeys.
Context (lane_base lane_width : Z).

(** Interface channel [ch] has a key the render crossbar decodes. *)
Definition rendered (ch : Z) : Prop := ch < lane_width /\ lane_base + ch < 64.

Lemma rphys_step_length table kc : length (rphys_step lane_base lane_width table kc) = length table.
Proof using Type. destruct kc as [k c]. unfold rphys_step. case_match; [apply length_insert|done]. Qed.

Lemma rphys_fold_length l : forall table,
  length (fold_left (rphys_step lane_base lane_width) l table) = length table.
Proof using Type.
  induction l as [|kc l IH]; intros table; [done|]. cbn [fold_left]. by rewrite IH, rphys_step_length.
Qed.

(** An index no later pair has keeps its entry. *)
Lemma rphys_fold_other l : forall table (i : nat), ~ In (Z.of_nat i) (map fst l) ->
  Forall (fun kc => 0 <= fst kc) l ->
  fold_left (rphys_step lane_base lane_width) l table !! i = table !! i.
Proof using Type.
  induction l as [|[k c] l IH]; intros table i Hi Hk; [done|]. cbn [fold_left map fst In] in *.
  apply Forall_cons in Hk as [Hk0 Hk]. cbn in Hk0. rewrite IH by tauto. unfold rphys_step.
  case_match; [|done]. apply list_lookup_insert_ne. intros E. apply Hi. left. lia.
Qed.

(** The table of a list of pairs with distinct keys: key [i] holds its channel's
    render key, when the lane decodes that channel. *)
Lemma rphys_fold_hit l table (i : nat) ch : NoDup (map fst l) -> Forall (fun kc => 0 <= fst kc) l ->
  In (Z.of_nat i, ch) l -> (i < length table)%nat -> rendered ch ->
  fold_left (rphys_step lane_base lane_width) l table !! i = Some (Z.lor 0x40 (lane_base + ch)).
Proof using Type.
  intros Hnd Hk Hin Hlt [Hc1 Hc2]. apply in_split in Hin as (l1 & l2 & ->).
  rewrite map_app in Hnd. apply NoDup_app in Hnd as (_ & _ & Hnd). cbn [map fst] in Hnd.
  apply NoDup_cons in Hnd as [Hn _]. apply Forall_app in Hk as [_ Hk]. apply Forall_cons in Hk as [_ Hk].
  rewrite fold_left_app. cbn [fold_left]. rewrite rphys_fold_other; [|by intros H; apply Hn, list_elem_of_In|done].
  set (t := fold_left _ l1 table). assert (length t = length table) as Hl by apply rphys_fold_length.
  unfold rphys_step. rewrite Nat2Z.id.
  assert ((Z.of_nat i <? zlen t) && (ch <? lane_width) && (lane_base + ch <? 64) = true) as ->.
  { unfold zlen. rewrite !andb_true_iff, !Z.ltb_lt. lia. }
  apply list_lookup_insert_eq. by rewrite Hl.
Qed.

(** An entry that is not zero was written for a pair of the list. *)
Lemma rphys_fold_sound l : forall table (i : nat) v,
  fold_left (rphys_step lane_base lane_width) l table !! i = Some v ->
  Forall (fun kc => 0 <= fst kc) l ->
  table !! i = Some v \/
  exists ch, In (Z.of_nat i, ch) l /\ rendered ch /\ v = Z.lor 0x40 (lane_base + ch).
Proof using Type.
  induction l as [|[k c] l IH]; intros table i v H Hk; [by left|]. cbn [fold_left] in H.
  apply Forall_cons in Hk as [Hk0 Hk]. cbn in Hk0.
  destruct (IH _ _ _ H Hk) as [Ht|(ch & Hin & Hr)]; [|right; exists ch; by split; [right|]].
  unfold rphys_step in Ht. destruct (_ && _ && _) eqn:E; [|by left].
  destruct (decide (Z.to_nat k = i)) as [<-|Hne].
  - right. exists c. rewrite !andb_true_iff, !Z.ltb_lt in E. destruct E as [[E1 E2] E3].
    rewrite list_lookup_insert_eq in Ht by (unfold zlen in E1; lia). injection Ht as <-.
    split; [left; f_equal; lia|]. done.
  - left. by rewrite list_lookup_insert_ne in Ht.
Qed.
End RenderKeys.

(** ** The keys of the ports are distinct *)

Lemma pool_keys_range base off pool n : tiles off pool n ->
  Forall (fun kc => base + off <= fst kc < base + n)
    (concat (map (fun g => if String.eqb (g_role g) "physical"
       then map (fun k => (base + g_offset g + k, g_first g + k)) (zrange 0 (Z.to_nat (g_width g))) else []) pool)).
Proof.
  revert off. induction pool as [|g pool IH]; intros off; cbn [tiles map concat]; [constructor|].
  intros (Ho & Hw & Ht). pose proof (tiles_le _ _ _ Ht). apply Forall_app. split.
  - case_match; [|constructor]. apply Forall_map, List.Forall_forall. intros k Hk%zrange_In. cbn [fst]. lia.
  - eapply Forall_impl; [by apply IH|]. intros kc Hkc. cbn in *. lia.
Qed.

Lemma NoDup_map_zrange f a n : (forall k, f k = f 0 + k) -> NoDup (map f (zrange a n)).
Proof.
  intros Hf. revert a. induction n as [|n IH]; intros a; cbn [zrange map]; constructor; [|done].
  intros (k & Hk & Hin)%list_elem_of_In%in_map_iff. apply zrange_In in Hin. rewrite (Hf k), (Hf a) in Hk. lia.
Qed.

(** Two lists of keys, one below the other. *)
Lemma NoDup_keys_app (l1 l2 : list (Z * Z)) m : NoDup (map fst l1) -> NoDup (map fst l2) ->
  Forall (fun kc => fst kc < m) l1 -> Forall (fun kc => m <= fst kc) l2 -> NoDup (map fst (l1 ++ l2)).
Proof.
  intros H1 H2 F1 F2. rewrite map_app. apply NoDup_app. split; [done|]. split; [|done].
  intros k (a & <- & Ha)%list_elem_of_In%in_map_iff (b & E & Hb)%list_elem_of_In%in_map_iff.
  pose proof (proj1 (List.Forall_forall _ _) F1 a Ha). pose proof (proj1 (List.Forall_forall _ _) F2 b Hb).
  cbn in *. lia.
Qed.

Lemma pool_keys_nodup base pool : forall off n, tiles off pool n ->
  NoDup (map fst (concat (map (fun g => if String.eqb (g_role g) "physical"
       then map (fun k => (base + g_offset g + k, g_first g + k)) (zrange 0 (Z.to_nat (g_width g))) else []) pool))).
Proof.
  induction pool as [|g pool IH]; intros off n; cbn [tiles map concat]; [constructor|].
  intros (Ho & Hw & Ht). apply (NoDup_keys_app _ _ (base + (off + g_width g))).
  - case_match; [|constructor]. rewrite map_map. apply NoDup_map_zrange. intros k. cbn [fst]. lia.
  - by eapply IH.
  - case_match; [|constructor]. apply Forall_map, List.Forall_forall. intros k Hk%zrange_In. cbn [fst]. lia.
  - eapply Forall_impl; [by eapply pool_keys_range|].
    intros kc Hkc. cbn in *. lia.
Qed.

Lemma ports_keys base ports : blocks_from base ports ->
  NoDup (map fst (concat (map physical_keys ports))) /\
  Forall (fun kc => base <= fst kc) (concat (map physical_keys ports)).
Proof.
  revert base. induction ports as [|p ports IH]; intros base; cbn [blocks_from map concat]; [split; constructor|].
  intros (Hb & Ht & H). destruct (IH _ H) as [Hnd Hge]. pose proof (tiles_le _ _ _ Ht) as Hc.
  pose proof (pool_keys_range (p_base_cluster p) _ _ _ Ht) as Hr. fold (physical_keys p) in Hr. rewrite Z.add_0_r in Hr.
  split.
  - apply (NoDup_keys_app _ _ (base + p_clusters p)); [by eapply pool_keys_nodup|done| |done].
    eapply Forall_impl; [exact Hr|]. intros kc Hk. cbn in *. lia.
  - apply Forall_app. split; [eapply Forall_impl; [exact Hr|]|eapply Forall_impl; [exact Hge|]];
      intros kc Hk; cbn in *; lia.
Qed.

(** Cluster [i] of the inputs is the one interface channel [ch] renders. *)
Definition physical_cluster (ports : list port) (i ch : Z) : Prop :=
  exists p g n, In p ports /\ In g (p_pool p) /\ g_role g = "physical"%string /\ 0 <= n < g_width g /\
    i = p_base_cluster p + g_offset g + n /\ ch = g_first g + n.

Lemma physical_keys_spec ports i ch :
  In (i, ch) (concat (map physical_keys ports)) <-> physical_cluster ports i ch.
Proof.
  unfold physical_cluster. rewrite in_concat. split.
  - intros (l & (p & <- & Hp)%in_map_iff & Hin). unfold physical_keys in Hin.
    apply in_concat in Hin as (l' & (g & <- & Hg)%in_map_iff & Hin).
    destruct (String.eqb_spec (g_role g) "physical"); [|done].
    apply in_map_iff in Hin as (n & E & Hn%zrange_In). apply pair_eq in E as [<- <-].
    exists p, g, n. split_and!; try done; lia.
  - intros (p & g & n & Hp & Hg & Hr & Hn & -> & ->). exists (physical_keys p).
    split; [by apply in_map|]. unfold physical_keys. apply in_concat. eexists. split; [by apply in_map|].
    rewrite Hr, String.eqb_refl. apply in_map_iff. exists n. split; [done|]. apply zrange_In. lia.
Qed.

(** C34: The render-key table of the header: entry [i] is the key of interface channel
    [ch], with its valid bit, exactly when input cluster [i] is the physical
    cluster of a channel the board's render lane decodes; every other entry is
    zero, so a virtual cluster never drives a physical pin. *)
Theorem render_keys e cfg lane_base lane_width keys (i : nat) v : wf_config e cfg ->
  in_rphys lane_base lane_width keys (cf_ports_in cfg) !! i = Some v ->
  (v = 0 /\ (forall ch, physical_cluster (cf_ports_in cfg) (Z.of_nat i) ch -> ~ rendered lane_base lane_width ch)) \/
  (exists ch, v = Z.lor 0x40 (lane_base + ch) /\ physical_cluster (cf_ports_in cfg) (Z.of_nat i) ch /\
     rendered lane_base lane_width ch).
Proof.
  intros Hw H. destruct (wf_laid _ _ Hw) as (_ & _ & Hl & _).
  destruct (ports_keys _ _ (laid_blocks _ _ _ _ Hl)) as [Hnd Hge].
  assert (Forall (fun kc : Z * Z => 0 <= fst kc) (concat (map physical_keys (cf_ports_in cfg)))) as Hpos by exact Hge.
  assert (i < length (zeros (Z.to_nat (Z.max 1 keys))))%nat as Hlt.
  { apply lookup_lt_Some in H. unfold in_rphys in H. by rewrite rphys_fold_length in H. }
  destruct (rphys_fold_sound _ _ _ _ _ _ H Hpos) as [Hz|(ch & Hin & Hr & ->)].
  - left. assert (v = 0) as ->.
    { unfold zeros in Hz. apply list_elem_of_lookup_2, list_elem_of_In, repeat_spec in Hz. done. }
    split; [done|]. intros ch Hp%physical_keys_spec Hr.
    unfold in_rphys in H. rewrite (rphys_fold_hit _ _ _ _ _ _ Hnd Hpos Hp Hlt Hr) in H. injection H as H.
    apply Z.lor_eq_0_iff in H as [H _]. done.
  - right. exists ch. split; [done|]. split; [by apply physical_keys_spec|done].
Qed.
