(* ===== verification/BuilderArgs.v ===== *)
(** The SoC command line and the datapath parameters
    ([sw/builder/endstation_builder.py], [_freq] to [emit_soc_argv]).

    The command line is a list of flags, each alone or with its value, flattened
    to the argument vector at the end; [datapath_params] is the dict of integer
    parameters the same configuration binds on the datapath.  Two defaults the SoC
    glue declares and the parameters of [reboot_mac_statement], which evaluates
    definitions out of that file, are arguments.

    [_freq] prints a double with [%g]: the division and the rounding to six
    digits are written out on integers. *)
From S2P Require Import Prelude Unicode Descriptors Text Config BuilderFormats BuilderStreams BuilderClusters.
From S2P Require Import Srp BuilderConfig BuilderOverlay BuilderHeader.

(** * Floating point, as far as [f"{hz / 1e6:g}"] needs it *)

(** [n / d] rounded to an integer, ties to even. *)
Definition round_half_even (n d : Z) : Z :=
  let q := n / d in
  let r := n mod d in
  if 2 * r <? d then q else if d <? 2 * r then q + 1 else if Z.even q then q else q + 1.

(** The double nearest to [n / d] for positive [n] and [d], as [(m, k)] with value
    [m / 2 ^ k]: [k] is the shift that brings the quotient to 53 bits. *)
Definition double_shift (n d : Z) : Z :=
  let k := 52 - (Z.log2 n - Z.log2 d) in
  if n * 2 ^ Z.max 0 k <? d * 2 ^ Z.max 0 (- k) * 2 ^ 52 then k + 1 else k.

Definition double_div (n d : Z) : Z * Z :=
  let k := double_shift n d in
  (round_half_even (n * 2 ^ Z.max 0 k) (d * 2 ^ Z.max 0 (- k)), k).

(** The decimal exponent of a positive rational: [10 ^ x <= n / d < 10 ^ (x + 1)]. *)
Fixpoint exp10_up (fuel : nat) (x n d : Z) : Z :=
  match fuel with
  | O => x
  | S f => if n <? 10 * d then x else exp10_up f (x + 1) n (10 * d)
  end.
Fixpoint exp10_down (fuel : nat) (x n d : Z) : Z :=
  match fuel with
  | O => x
  | S f => if d <=? n then x else exp10_down f (x - 1) (10 * n) d
  end.
Definition exp10 (n d : Z) : Z :=
  if d <=? n then exp10_up (S (Z.to_nat (Z.log2 (n / d)))) 0 n d
  else exp10_down (S (Z.to_nat (Z.log2 (d / n) + 1))) 0 n d.

(** [%.5e]: six digits and the exponent of the first. *)
Definition six_digits (n d : Z) : Z * Z :=
  let x := exp10 n d in
  let ds := round_half_even (n * 10 ^ Z.max 0 (5 - x)) (d * 10 ^ Z.max 0 (x - 5)) in
  if ds =? 10 ^ 6 then (10 ^ 5, x + 1) else (ds, x).

Fixpoint strip_zeros (s : pystr) : pystr :=
  match s with 48 :: s' => strip_zeros s' | _ => s end.

(** A fraction without its trailing zeros; no point when nothing is left. *)
Definition fraction (s : pystr) : pystr :=
  match rev (strip_zeros (rev s)) with [] => [] | f => lit "." ++ f end.

Definition exponent_text (x : Z) : pystr :=
  lit "e" ++ lit (if x <? 0 then "-" else "+") ++
  (if Z.abs x <? 10 then lit "0" else []) ++ dec (Z.abs x).

(** [f"{v:g}"] of a positive value with digits [ds] and exponent [x]. *)
Definition format_g (ds x : Z) : pystr :=
  let t := dec ds in
  if (-4 <=? x) && (x <? 6) then
    if x <? 0 then lit "0" ++ fraction (repeat 48 (Z.to_nat (- x - 1)) ++ t)
    else take (Z.to_nat (x + 1)) t ++ fraction (drop (Z.to_nat (x + 1)) t)
  else take 1 t ++ fraction (drop 1 t) ++ exponent_text x.

Definition mega : Z := 10 ^ 6.

(** The six digits of [hz / 1e6]. *)
Definition freq_digits (hz : Z) : Z * Z :=
  let '(m, k) := double_div hz mega in
  six_digits (m * 2 ^ Z.max 0 (- k)) (2 ^ Z.max 0 k).

Definition freq (hz : Z) : pystr :=
  (if hz =? 0 then lit "0"
   else let '(ds, x) := freq_digits (Z.abs hz) in
        (if hz <? 0 then lit "-" else []) ++ format_g ds x) ++ lit "e6".

(** * The command line *)

Record arg := Arg { ar_flag : string; ar_value : option pystr }.

Definition on (flag : string) : arg := Arg flag None.
Definition opt (flag : string) (value : pystr) : arg := Arg flag (Some value).

(** The argument vector. *)
Definition argv (l : list arg) : list pystr :=
  concat (map (fun a => lit (ar_flag a) :: match ar_value a with Some v => [v] | None => [] end) l).

Definition OPTIONAL_BLOCKS : list (string * (string * string)) :=
  [("media_clock_servo", ("--no-media-clock-servo", "MCSERVO_P"));
   ("latency_taps", ("--no-latency-taps", "LTAP_P"));
   ("maap", ("--no-maap", "MAAP_P"));
   ("i2s_playback", ("--no-i2s-playback", "I2SPB_P"));
   ("rx_mac_filter", ("--no-rx-mac-filter", "RXFILT_P"));
   ("render_lpf", ("--no-render-lpf", "LPF_P"));
   ("datapath_probes", ("--no-datapath-probes", "DPROBES_P"))]%string.

(** Arguments for the conditions that hold. *)
Definition only (b : bool) (l : list arg) : list arg := if b then l else [].

Definition pruned (cfg : config) : list (string * (string * string)) :=
  List.filter (fun b => negb (block_present (cf_features cfg) (fst b))) OPTIONAL_BLOCKS.

Definition emit_board_opts (cfg : config) : list arg :=
  let c := cf_constraints cfg in
  [opt "--board" (lit (cf_board_target cfg))] ++
  only (negb (cn_sys_clk_hz c =? bd_sys_clk_hz_default (cf_board cfg)))
       [opt "--sys-clk-freq" (freq (cn_sys_clk_hz c))] ++
  [opt "--milan-clk-freq" (freq (cn_milan_clk_hz c))] ++
  only (cn_gtx_tx_invert c) [on "--gtx-tx-invert"] ++
  only (cn_floorplan c) [on "--floorplan"] ++
  match cn_eth_port c with Some p => [opt "--eth-port" (lit p)] | None => [] end ++
  map (fun b => on (fst (snd b))) (pruned cfg).

Definition n_streams (cfg : config) : Z := Z.max (zlen (cf_listeners cfg)) (zlen (cf_talkers cfg)).

(** [cfg["gptp"][key]]; a configuration without the section has no corrections to read. *)
Definition latency (cfg : config) (f : gptp -> Z) : result config_error Z :=
  match cf_gptp cfg with Some g => Ok (f g) | None => Err EType end.

Section CommandLine.
Context (fb : fabric) (fs_default bits_default : Z).

Definition is_tdm (kind : string) : bool := existsb (String.eqb kind) ["tdm8"; "tdm16"; "tdm32"]%string.

Definition emit_design_opts (cfg : config) : result config_error (list arg) :=
  let fe := front cfg in
  let kind := if_kind (cf_interface cfg) in
  let fs_hz := ck_sampling_rate_hz (cf_clocking cfg) in
  let slot_bits := tdm_slot_bits fb fe in
  let rslots := render_slots fb fe in
  let* wire := framer_wire_channels fb fe in
  let* ingress := latency cfg gc_ingress_ns in
  let* egress := latency cfg gc_egress_ns in
  Ok (emit_board_opts cfg ++ [opt "--num-streams" (dec (n_streams cfg))] ++
      only (is_tdm kind && negb (interface_is_placeholder fb fe))
        ([opt "--audio-interface" (lit kind)] ++
         only (fb_tdm_master fb)
           ([on "--audio-interface-master"] ++
            only (negb (fs_hz =? fs_default)) [opt "--audio-fs-hz" (dec fs_hz)] ++
            only (negb (slot_bits =? bits_default)) [opt "--audio-word-bits" (dec slot_bits)]) ++
         only (negb (rslots =? 0)) [opt "--audio-interface-render" (dec rslots)]) ++
      only (negb (wire =? WIRE_CHANS_MIN)) [opt "--talker-wire-chans" (dec wire)] ++
      only (if_loopback_lane (cf_interface cfg)) [on "--loopback-lane"] ++
      [on "--fabric-gptp"] ++
      only (negb (ingress =? 0)) [opt "--gptp-ingress-lat-ns" (dec ingress)] ++
      only (negb (egress =? 0)) [opt "--gptp-egress-lat-ns" (dec egress)]).

(** [str(cpu_count)], of a value equal to 1. *)
Definition count_text (v : yaml) : result config_error pystr :=
  match v with
  | YInt z => Ok (dec z)
  | YBool b => Ok (lit (if b then "True" else "False"))
  | YOther _ (Some z) true => Ok (dec z ++ lit ".0")
  | _ => Err EType
  end.

(** One flag per element; the accepted values are the empty ones. *)
Definition scala_args (v : yaml) : result config_error (list arg) :=
  match v with
  | YList [] | YStr [] | YMap [] => Ok []
  | _ => Err EType
  end.

Definition emit_soc_argv (cfg : config) : result config_error (list pystr) :=
  let c := cf_constraints cfg in
  let s := cf_soc cfg in
  let* design := emit_design_opts cfg in
  let* scala := scala_args (so_scala_args s) in
  let* count := count_text (so_cpu_count s) in
  Ok (argv (design ++
    [opt "--cpu" (lit (so_cpu s)); opt "--software-profile" (lit "baremetal");
     opt "--xlen" (dec (so_xlen s)); on "--full"] ++
    only (negb (String.eqb (cn_flashboot c) "none"))
      [on "--with-spiflash"; opt "--flashboot" (lit (cn_flashboot c))] ++
    only (truthy (so_timing_opt s)) [on "--timing-opt"] ++
    [opt "--l2-bytes" (dec (cn_l2_bytes c))] ++ scala ++
    [opt "--uart-baudrate" (dec (cn_uart_baudrate c)); opt "--cpu-count" count])).

(** * The datapath parameters *)

Definition datapath_params (reboot : list (string * Z)) (cfg : config)
    : result config_error (gmap string Z) :=
  let fe := front cfg in
  let slots := audio_if_slots fb fe in
  let fs_hz := ck_sampling_rate_hz (cf_clocking cfg) in
  let slot_bits := tdm_slot_bits fb fe in
  let base := pf_pp_mem_phys (cf_platform cfg) in
  let when (b : bool) (l : list (string * Z)) := if b then l else [] in
  let* ingress := latency cfg gc_ingress_ns in
  let* egress := latency cfg gc_egress_ns in
  let* wire := framer_wire_channels fb fe in
  Ok (list_to_map (rev
    ([("MILAN_CLK_FREQ_HZ", cn_milan_clk_hz (cf_constraints cfg)); ("N_STREAMS", n_streams cfg);
      ("AUDIO_IF_SLOTS_P", slots); ("GPTP_PLANE_EN_P", 1)]%string ++
     when (negb (ingress =? 0)) [("GPTP_INGRESS_LAT_NS_P"%string, ingress)] ++
     when (negb (egress =? 0)) [("GPTP_EGRESS_LAT_NS_P"%string, egress)] ++
     [("PP_DESC_BASE_P"%string, base); ("PP_RESP_BASE_P"%string, base + PP_MEM_BYTES - 0x1000)] ++
     when (negb (wire =? WIRE_CHANS_MIN)) [("TALKER_WIRE_CHANS_P"%string, wire)] ++
     when (if_loopback_lane (cf_interface cfg)) [("LOOPBACK_P"%string, 1)] ++
     when (negb (slots =? 0) && fb_tdm_master fb)
       ([("AUDIO_IF_MASTER_P"%string, 1); ("AUDIO_IF_CLK_HZ_P"%string, 2 * slots * slot_bits * fs_hz)] ++
        when (negb (fs_hz =? fs_default)) [("AUDIO_IF_FS_HZ_P"%string, fs_hz)] ++
        when (negb (slot_bits =? bits_default)) [("AUDIO_IF_WORD_BITS_P"%string, slot_bits)] ++
        when (negb (render_slots fb fe =? 0)) [("AUDIO_IF_RENDER_SLOTS_P"%string, render_slots fb fe)] ++
        when (i2s_pair_blended fb fe) [("AUDIO_IF_I2S_PAIR_P"%string, 1)]) ++
     map (fun b => (snd (snd b), 0)) (pruned cfg) ++ reboot))).
End CommandLine.

(** * The decimal exponent *)

Lemma exp10_up_spec f : forall x n d, 0 < d <= n -> n < d * 10 ^ Z.of_nat f ->
  let y := exp10_up f x n d in x <= y /\ d * 10 ^ (y - x) <= n < 10 * (d * 10 ^ (y - x)).
Proof.
  induction f as [|f IH]; intros x n d Hd Hf; cbn [exp10_up].
  - rewrite Z.sub_diag. change (10 ^ 0) with 1. change (10 ^ Z.of_nat 0) with 1 in Hf. lia.
  - destruct (Z.ltb_spec n (10 * d)) as [Hn|Hn]; [rewrite Z.sub_diag; change (10 ^ 0) with 1; lia|].
    rewrite Nat2Z.inj_succ, Z.pow_succ_r in Hf by lia.
    destruct (IH (x + 1) n (10 * d)) as [Hx Hy]; [lia|lia|]. cbn zeta in *.
    set (y := exp10_up f (x + 1) n (10 * d)) in *.
    replace (y - x) with (Z.succ (y - (x + 1))) by lia. rewrite Z.pow_succ_r by lia. lia.
Qed.

Lemma exp10_down_spec f : forall x n d, 0 < n < 10 * d -> d <= n * 10 ^ Z.of_nat f ->
  let y := exp10_down f x n d in y <= x /\ d <= n * 10 ^ (x - y) < 10 * d.
Proof.
  induction f as [|f IH]; intros x n d Hn Hf; cbn [exp10_down].
  - rewrite Z.sub_diag. change (10 ^ 0) with 1. change (10 ^ Z.of_nat 0) with 1 in Hf. lia.
  - destruct (Z.leb_spec d n) as [Hd|Hd]; [rewrite Z.sub_diag; change (10 ^ 0) with 1; lia|].
    rewrite Nat2Z.inj_succ, Z.pow_succ_r in Hf by lia.
    destruct (IH (x - 1) (10 * n) d) as [Hx Hy]; [lia|lia|]. cbn zeta in *.
    set (y := exp10_down f (x - 1) (10 * n) d) in *.
    replace (x - y) with (Z.succ (x - 1 - y)) by lia. rewrite Z.pow_succ_r by lia. lia.
Qed.

(** The binary logarithm bounds the decimal one. *)
Lemma log2_pow10 q : 0 <= q -> q < 10 ^ Z.of_nat (S (Z.to_nat (Z.log2 q))).
Proof.
  intros Hq. destruct (Z.eq_dec q 0) as [->|]; [by vm_compute|].
  destruct (Z.log2_spec q ltac:(lia)) as [_ H]. pose proof (Z.log2_nonneg q).
  rewrite Nat2Z.inj_succ, Z2Nat.id by lia. eapply Z.lt_le_trans; [exact H|]. apply Z.pow_le_mono_l. lia.
Qed.

(** The fuel is enough: [exp10] is the exponent of the leading digit. *)
Lemma exp10_spec n d : 0 < n -> 0 < d ->
  let x := exp10 n d in
  d * 10 ^ Z.max 0 x <= n * 10 ^ Z.max 0 (- x) < 10 * (d * 10 ^ Z.max 0 x).
Proof.
  intros Hn Hd. unfold exp10. destruct (Z.leb_spec d n) as [H|H]; cbn zeta.
  - destruct (exp10_up_spec (S (Z.to_nat (Z.log2 (n / d)))) 0 n d) as [Hx Hy]; [lia| |].
    { pose proof (log2_pow10 (n / d) ltac:(apply Z.div_pos; lia)). pose proof (Z.mul_succ_div_gt n d Hd).
      set (P := 10 ^ _) in *. nia. }
    cbn zeta in *. set (x := exp10_up _ _ _ _) in *. rewrite Z.sub_0_r in Hy.
    rewrite (Z.max_r 0 x), (Z.max_l 0 (- x)) by lia. change (10 ^ 0) with 1. lia.
  - destruct (exp10_down_spec (S (Z.to_nat (Z.log2 (d / n) + 1))) 0 n d) as [Hx Hy]; [lia| |].
    { pose proof (log2_pow10 (d / n) ltac:(apply Z.div_pos; lia)) as L. pose proof (Z.mul_succ_div_gt d n Hn).
      assert (10 ^ Z.of_nat (S (Z.to_nat (Z.log2 (d / n)))) <= 10 ^ Z.of_nat (S (Z.to_nat (Z.log2 (d / n) + 1))))
        by (apply Z.pow_le_mono_r; lia).
      set (P := 10 ^ _) in L. set (Q := 10 ^ Z.of_nat (S (Z.to_nat (Z.log2 (d / n) + 1)))) in *. nia. }
    cbn zeta in *. set (x := exp10_down _ _ _ _) in *. rewrite Z.sub_0_l in Hy.
    rewrite (Z.max_l 0 x), (Z.max_r 0 (- x)) by lia. change (10 ^ 0) with 1. lia.
Qed.

(** * The command line and the parameters state one design *)

(** The value an option is given: [Some None] for a flag that takes none. *)
Definition option_of (design : list arg) (flag : string) : option (option pystr) :=
  option_map ar_value (List.find (fun a => String.eqb (ar_flag a) flag) design).

(** The value an association list binds last: what a [dict] built from it holds. *)
Fixpoint last_of (k : string) (l : list (string * Z)) : option Z :=
  match l with
  | [] => None
  | (k', v) :: l' => match last_of k l' with
                     | Some w => Some w
                     | None => if String.eqb k' k then Some v else None
                     end
  end.

(** The first of two answers. *)
Definition orelse {A} (a b : option A) : option A := match a with Some _ => a | None => b end.

Lemma orelse_none_l {A} (a : option A) : orelse None a = a.
Proof. done. Qed.
Lemma orelse_none_r {A} (a : option A) : orelse a None = a.
Proof. by destruct a. Qed.
Lemma orelse_some {A} (x : A) b : orelse (Some x) b = Some x.
Proof. done. Qed.
Lemma if_none {A} (b : bool) : (if b then None else @None A) = None.
Proof. by destruct b. Qed.

Lemma last_of_app k l1 l2 : last_of k (l1 ++ l2) = orelse (last_of k l2) (last_of k l1).
Proof.
  induction l1 as [|[k' v] l1 IH]; cbn [app last_of]; [by rewrite orelse_none_r|].
  rewrite IH. by destruct (last_of k l2).
Qed.

Lemma last_of_lookup k (l : list (string * Z)) : (list_to_map (rev l) : gmap string Z) !! k = last_of k l.
Proof.
  induction l as [|[k' v] l IH] using rev_ind; [apply lookup_empty|].
  rewrite rev_app_distr, last_of_app. cbn [rev app list_to_map foldr fst snd last_of uncurry].
  destruct (String.eqb_spec k' k) as [->|E]; [apply lookup_insert_eq|].
  by rewrite lookup_insert_ne.
Qed.

Lemma last_of_if k (b : bool) l : last_of k (if b then l else []) = if b then last_of k l else None.
Proof. by destruct b. Qed.

Lemma last_of_absent k l : ~ In k (map fst l) -> last_of k l = None.
Proof.
  induction l as [|[k' v] l IH]; cbn; [done|]. intros H.
  rewrite IH; [|tauto]. destruct (String.eqb_spec k' k); [tauto|done].
Qed.

Lemma option_of_app l1 l2 flag :
  option_of (l1 ++ l2) flag = orelse (option_of l1 flag) (option_of l2 flag).
Proof.
  unfold option_of. induction l1 as [|a l1 IH]; cbn [app List.find]; [done|].
  by destruct (String.eqb (ar_flag a) flag).
Qed.

Lemma option_of_only b l flag : option_of (only b l) flag = if b then option_of l flag else None.
Proof. by destruct b. Qed.

(** Keeping some of a list whose keys are distinct keeps or drops each key. *)
Lemma find_filter {A} (key : A -> string) (keep : A -> bool) (k : string) l :
  NoDup (map key l) ->
  List.find (fun a => String.eqb (key a) k) (List.filter keep l) =
  match List.find (fun a => String.eqb (key a) k) l with
  | Some a => if keep a then Some a else None
  | None => None
  end.
Proof.
  induction l as [|a l IH]; [done|]. cbn [map]. intros [Ha Hl]%NoDup_cons. specialize (IH Hl).
  cbn [List.filter List.find]. destruct (String.eqb_spec (key a) k) as [E|E].
  2:{ destruct (keep a); cbn [List.find]; [|done]. by rewrite (proj2 (String.eqb_neq _ _) E). }
  destruct (keep a); cbn [List.find]; [by rewrite E, String.eqb_refl|].
  rewrite IH. destruct (List.find _ l) as [b|] eqn:Eb; [|done].
  apply List.find_some in Eb as [Hb Eq%String.eqb_eq]. contradict Ha.
  apply list_elem_of_In, in_map_iff. exists b. by rewrite Eq.
Qed.

(** What the pruned blocks contribute, by flag and by parameter. *)
Lemma pruned_options cfg flag :
  option_of (map (fun b => on (fst (snd b))) (pruned cfg)) flag =
  match List.find (fun b => String.eqb (fst (snd b)) flag) OPTIONAL_BLOCKS with
  | Some b => if block_present (cf_features cfg) (fst b) then None else Some None
  | None => None
  end.
Proof.
  pose proof (find_filter (fun b : string * (string * string) => fst (snd b))
    (fun b => negb (block_present (cf_features cfg) (fst b))) flag OPTIONAL_BLOCKS) as F.
  change (List.filter _ OPTIONAL_BLOCKS) with (pruned cfg) in F. unfold option_of.
  assert (forall l : list (string * (string * string)),
    List.find (fun a => String.eqb (ar_flag a) flag) (map (fun b => on (fst (snd b))) l) =
    option_map (fun b => on (fst (snd b))) (List.find (fun b => String.eqb (fst (snd b)) flag) l)) as ->.
  { induction l as [|b l IH]; cbn [map List.find ar_flag on]; [done|]. by destruct (String.eqb _ _). }
  rewrite F by (apply (bool_decide_unpack _); by vm_compute).
  destruct (List.find _ OPTIONAL_BLOCKS) as [b|]; [|done]. by destruct (block_present _ _).
Qed.

Lemma pruned_params cfg k :
  last_of k (map (fun b => (snd (snd b), 0)) (pruned cfg)) =
  match List.find (fun b => String.eqb (snd (snd b)) k) OPTIONAL_BLOCKS with
  | Some b => if block_present (cf_features cfg) (fst b) then None else Some 0
  | None => None
  end.
Proof.
  pose proof (find_filter (fun b : string * (string * string) => snd (snd b))
    (fun b => negb (block_present (cf_features cfg) (fst b))) k OPTIONAL_BLOCKS) as F.
  change (List.filter _ OPTIONAL_BLOCKS) with (pruned cfg) in F.
  assert (forall l : list (string * (string * string)),
    last_of k (map (fun b => (snd (snd b), 0)) l) =
    option_map (fun _ => 0) (List.find (fun b => String.eqb (snd (snd b)) k) l)) as ->.
  { induction l as [|b l IH]; cbn [map List.find last_of]; [done|]. rewrite IH.
    destruct (String.eqb _ _); by destruct (List.find _ l). }
  rewrite F by (apply (bool_decide_unpack _); by vm_compute).
  destruct (List.find _ OPTIONAL_BLOCKS) as [b|]; [|done]. by destruct (block_present _ _).
Qed.

(** How an option writes its parameter: as a decimal, as a clock in the six digits
    of [freq], or as the name of the TDM format with that many slots, which no
    slots is not. *)
Definition in_decimal (v : Z) : option pystr := Some (dec v).
Definition in_megahertz (v : Z) : option pystr := Some (freq v).
Definition as_tdm_kind (slots : Z) : option pystr := if slots =? 0 then None else Some (lit "tdm" ++ dec slots).

(** The options that carry a value, with the parameter each states and how; the
    switches, with the parameter and the value; the options of the blocks left
    out. *)
Definition valued_options : list (string * (string * (Z -> option pystr))) :=
  [("--num-streams", ("N_STREAMS", in_decimal)); ("--gptp-ingress-lat-ns", ("GPTP_INGRESS_LAT_NS_P", in_decimal));
   ("--gptp-egress-lat-ns", ("GPTP_EGRESS_LAT_NS_P", in_decimal));
   ("--talker-wire-chans", ("TALKER_WIRE_CHANS_P", in_decimal));
   ("--audio-fs-hz", ("AUDIO_IF_FS_HZ_P", in_decimal)); ("--audio-word-bits", ("AUDIO_IF_WORD_BITS_P", in_decimal));
   ("--audio-interface-render", ("AUDIO_IF_RENDER_SLOTS_P", in_decimal));
   ("--milan-clk-freq", ("MILAN_CLK_FREQ_HZ", in_megahertz));
   ("--audio-interface", ("AUDIO_IF_SLOTS_P", as_tdm_kind))]%string.

Definition switch_options : list (string * (string * Z)) :=
  [("--fabric-gptp", ("GPTP_PLANE_EN_P", 1)); ("--loopback-lane", ("LOOPBACK_P", 1));
   ("--audio-interface-master", ("AUDIO_IF_MASTER_P", 1)); ("--no-media-clock-servo", ("MCSERVO_P", 0));
   ("--no-latency-taps", ("LTAP_P", 0)); ("--no-maap", ("MAAP_P", 0)); ("--no-i2s-playback", ("I2SPB_P", 0));
   ("--no-rx-mac-filter", ("RXFILT_P", 0)); ("--no-render-lpf", ("LPF_P", 0));
   ("--no-datapath-probes", ("DPROBES_P", 0))]%string.

Definition optioned_params : list string :=
  map (fun o => fst (snd o)) valued_options ++ map (fun s => fst (snd s)) switch_options.

Section Options.
Context (fb : fabric) (fs_default bits_default : Z).

(** A TDM kind that the board wires is one with slots on the datapath. *)
Lemma tdm_slots cfg :
  is_tdm (if_kind (cf_interface cfg)) && negb (interface_is_placeholder fb (front cfg)) =
  negb (audio_if_slots fb (front cfg) =? 0).
Proof.
  unfold audio_if_slots, is_tdm, interface_is_placeholder.
  change (fe_kind (front cfg)) with (if_kind (cf_interface cfg)). unfold AUDIO_IF_SLOTS.
  cbn [existsb]. rewrite orb_false_r.
  destruct (fb_tdm_wired fb); repeat case_match; cbn; congruence || done.
Qed.

(** The kind is named after its slots. *)
Lemma tdm_kind_text cfg :
  (if audio_if_slots fb (front cfg) =? 0 then None else Some (Some (lit (if_kind (cf_interface cfg))))) =
  option_map Some (as_tdm_kind (audio_if_slots fb (front cfg))).
Proof.
  unfold as_tdm_kind, audio_if_slots. destruct (interface_is_placeholder fb (front cfg)); [done|].
  change (fe_kind (front cfg)) with (if_kind (cf_interface cfg)). unfold AUDIO_IF_SLOTS.
  destruct (String.eqb_spec (if_kind (cf_interface cfg)) "tdm8") as [->|]; [done|].
  destruct (String.eqb_spec (if_kind (cf_interface cfg)) "tdm16") as [->|]; [done|].
  by destruct (String.eqb_spec (if_kind (cf_interface cfg)) "tdm32") as [->|].
Qed.

Lemma eth_port_option (port : option string) flag :
  "--eth-port"%string <> flag ->
  option_of match port with Some p => [opt "--eth-port" (lit p)] | None => [] end flag = None.
Proof.
  intros H. destruct port as [p|]; [|done].
  unfold option_of; cbn [List.find ar_flag opt]. by rewrite (proj2 (String.eqb_neq _ _) H).
Qed.

Lemma option_of_cons a l flag :
  option_of (a :: l) flag = if String.eqb (ar_flag a) flag then Some (ar_value a) else option_of l flag.
Proof. unfold option_of. cbn [List.find]. by destruct (String.eqb (ar_flag a) flag). Qed.

Lemma option_of_nil flag : option_of [] flag = None.
Proof. done. Qed.

Lemma last_of_cons k a l :
  last_of k (a :: l) = orelse (last_of k l) (if String.eqb (fst a) k then Some (snd a) else None).
Proof. destruct a as [k' v]. cbn. by destruct (last_of k l). Qed.

Lemma last_of_nil k : last_of k [] = None.
Proof. done. Qed.

(** Reading an option off the emission, and a parameter off the dict, for any
    name; [answered] settles a given one: every other name is another string. *)
Ltac read_options :=
  repeat (rewrite !option_of_app || rewrite !option_of_only);
  rewrite pruned_options, !option_of_cons, !option_of_nil; cbn [ar_flag ar_value opt on].

(** Every flag the emission can hold, in its order. *)
Definition design_flags : list string :=
  (["--board"] ++ ["--sys-clk-freq"] ++ ["--milan-clk-freq"] ++ ["--gtx-tx-invert"] ++ ["--floorplan"] ++
   ["--eth-port"] ++ map (fun b => fst (snd b)) OPTIONAL_BLOCKS) ++
  ["--num-streams"] ++
  (["--audio-interface"] ++ (["--audio-interface-master"] ++ ["--audio-fs-hz"] ++ ["--audio-word-bits"]) ++
   ["--audio-interface-render"]) ++
  ["--talker-wire-chans"] ++ ["--loopback-lane"] ++ ["--fabric-gptp"] ++
  ["--gptp-ingress-lat-ns"] ++ ["--gptp-egress-lat-ns"].

Lemma only_flags (b : bool) l k : map ar_flag l `sublist_of` k -> map ar_flag (only b l) `sublist_of` k.
Proof. destruct b; [done|]. intros _. apply sublist_nil_l. Qed.

Lemma eth_port_flags (port : option string) :
  map ar_flag match port with Some p => [opt "--eth-port" (lit p)] | None => [] end `sublist_of` ["--eth-port"%string].
Proof. destruct port; [done|apply sublist_nil_l]. Qed.

Lemma sublist_filter {A} (p : A -> bool) l : List.filter p l `sublist_of` l.
Proof. induction l as [|x l IH]; cbn; [done|]. destruct (p x); by constructor. Qed.

Lemma sublist_map {A B} (f : A -> B) l k : l `sublist_of` k -> map f l `sublist_of` map f k.
Proof. induction 1; cbn; by constructor. Qed.

Ltac read_params :=
  rewrite last_of_lookup; repeat (rewrite !last_of_app || rewrite !last_of_if);
  rewrite pruned_params, !last_of_cons, !last_of_nil; cbn [fst snd].

Ltac found_block :=
  match goal with |- context [List.find ?p OPTIONAL_BLOCKS] =>
    let r := eval lazy in (List.find p OPTIONAL_BLOCKS) in change (List.find p OPTIONAL_BLOCKS) with r
  end.

Ltac answered :=
  do 2 found_block; cbn [String.eqb Ascii.eqb Bool.eqb fst snd];
  rewrite ?if_none; cbn [orelse]; rewrite ?if_none, ?orelse_none_r.

(** What is asked of the two lists of one design. *)
Definition options_agree (design : list arg) (ps : gmap string Z) : Prop :=
  Forall (fun o => option_of design (fst o) = (ps !! fst (snd o) ≫= fun v => option_map Some (snd (snd o) v)))
    valued_options /\
  Forall (fun o => option_of design (fst o) = option_map (fun _ => None) (ps !! fst (snd o)) /\
                   (ps !! fst (snd o) = None \/ ps !! fst (snd o) = Some (snd (snd o)))) switch_options.

(** An emission names no flag twice. *)
Lemma design_flags_sublist cfg design :
  emit_design_opts fb fs_default bits_default cfg = Ok design -> map ar_flag design `sublist_of` design_flags.
Proof.
  unfold emit_design_opts, emit_board_opts. intros H. rsplit H. subst design.
  unfold design_flags. rewrite !map_app.
  repeat (apply sublist_app || apply eth_port_flags || apply only_flags || (rewrite !map_app)); try done.
  rewrite map_map. apply (sublist_map (fun b => fst (snd b))), sublist_filter.
Qed.

(** C18: The command line and the datapath parameters of one configuration state one
    design: a design option is named once; every option that states a datapath
    parameter by value has that parameter's value, in decimal, and is absent when
    the parameter is left at its default; the datapath clock is on the command
    line as its parameter in MHz with the six digits of [freq], which round a
    longer one; the audio interface is the TDM format of the slots of its
    parameter, and absent for none; and a switch is on the command line exactly
    when its parameter is bound.  The board must be the TDM bus master, since a
    slave gets the render option without its parameter; [reboot] adds parameters
    of other names. *)
Theorem params_follow_options reboot cfg design ps :
  emit_design_opts fb fs_default bits_default cfg = Ok design ->
  datapath_params fb fs_default bits_default reboot cfg = Ok ps ->
  fb_tdm_master fb = true ->
  Forall (fun k => ~ In k (map fst reboot)) optioned_params ->
  NoDup (map ar_flag design) /\ options_agree design ps.
Proof.
  intros Hd Hp Hm Hr. split.
  { eapply sublist_NoDup; [by apply (bool_decide_unpack (NoDup design_flags)); vm_compute|].
    by eapply design_flags_sublist. }

  unfold emit_design_opts, datapath_params in *. rewrite tdm_slots in Hd.
  rewrite Hm, andb_true_r in Hp.
  apply rbind_Ok in Hd as (wire & Hw & Hd). rewrite Hw in Hp.
  apply rbind_Ok in Hd as (ing & Hi & Hd). rewrite Hi in Hp.
  apply rbind_Ok in Hd as (egr & He & Hd). rewrite He in Hp.
  cbn [rbind] in Hp. apply Ok_inj in Hd as <-, Hp as <-.
  assert (A : forall k, In k optioned_params -> last_of k reboot = None)
    by (intros k Hk; apply last_of_absent; by apply (proj1 (List.Forall_forall _ _) Hr)).
  clear Hr.
  unfold emit_board_opts.
  match goal with |- options_agree ?d _ =>
    eassert (D : forall flag, option_of d flag = _) by (intros flag; read_options; reflexivity);
    generalize dependent d
  end.
  match goal with |- context [list_to_map (rev ?l)] =>
    eassert (M : forall k, (list_to_map (rev l) : gmap string Z) !! k = _)
      by (intros k; read_params; reflexivity);
    generalize dependent (list_to_map (rev l) : gmap string Z)
  end.
  intros ps M design D.
  split; repeat (apply Forall_cons; split; [cbn [fst snd]|]); try apply Forall_nil_2;
    rewrite D, M, ?eth_port_option, ?A by (done || (cbn; tauto)); answered; rewrite ?Hm; clear;
    try (rewrite if_negb; exact (tdm_kind_text cfg)).
  all: repeat match goal with |- context [if ?b then _ else _] => destruct b end; cbn [option_map negb]; auto.
Qed.
End Options.

(** Six significant digits: an integer clock with more is printed rounded, so the
    option names another frequency than the configuration. *)
Lemma freq_rounds : freq 83333000 = lit "83.333e6" /\ freq 83333333 = lit "83.3333e6".
Proof. split; vm_compute; reflexivity. Qed.

(** A null [soc.scala_args] is as empty as the check asks, and is not a list to
    walk when the command line is written. *)
Lemma scala_args_null : truthy YNull = false /\ scala_args YNull = Err EType.
Proof. done. Qed.
