(* ===== verification/ShippedConfigs.v ===== *)
(** The five shipped end-station configurations ([configs/endstation_*.yaml]) and
    the shape headers the repository tracks for them
    ([configs/generated/*/gen/adp_shape_defaults.svh]).

    Each configuration is the mapping [yaml.safe_load] reads from the file, each
    header the values of its [localparam]s in order.  The theorem runs the whole
    builder on every configuration and compares the header it emits with the
    tracked one; the model then builds from the overlay.

    What lies outside the configuration is fixed here for the two boards: the
    gPTP constants, the SoC clocks, the routing answers, and a constant in place
    of the SHA-256, which no value compared here depends on. *)
From S2P Require Import Prelude Unicode Descriptors Directory Text Model AudioMaps Assemble Specs.
From S2P Require Import Config BuilderFormats BuilderStreams BuilderClusters Srp BuilderConfig BuilderOverlay.
From S2P Require Import BuilderHeader.

Definition shipped_fabric (board : string) : fabric :=
  Fabric true true true (String.eqb board "arty").

Definition shipped_env : env :=
  Env csr_text (Some 0xC588) (Some (GptpPins 248 0xF8 0xFE 0x436A (-3) 0 0 1)) 24576000 50000000
    shipped_fabric (fun _ => 0).

(** [N_NAME_MAX_C] of KL_nvm_backend.sv. *)
Definition shipped_capacity : option Z := Some 128.

#[local] Open Scope string_scope.

(** [configs/endstation_arty_current.yaml]. *)
Definition arty_current : yaml :=
  YMap
  [("schema", YStr (lit "kebag-logic/milan-endstation-config"));
   ("schema_version", YStr (lit "1.2.0"));
   ("entity", YMap
    [("name", YStr (lit "Milan FPGA Talker"));
     ("entity_model_id", YStr (lit "hash-derived"));
     ("model_id_pin", YStr (lit "0x001BC50AC1000006"));
     ("entity_id", YStr (lit "mac-derived"));
     ("vendor_name", YStr (lit "Kebag Logic"));
     ("serial_number", YStr (lit "AX7101-0001"));
     ("group_name", YStr [])]);
   ("board", YMap
    [("target", YStr (lit "arty"));
     ("features", YMap [("fabric_gptp", YBool true)]);
     ("constraints", YMap
      [("sys_clk_hz", YInt 83333000);
       ("milan_clk_hz", YInt 50000000);
       ("l2_bytes", YInt 0);
       ("phy", YStr (lit "mii-100"));
       ("gtx_tx_invert", YBool false);
       ("floorplan", YBool false);
       ("flashboot", YStr (lit "baremetal"));
       ("uart_baudrate", YInt 115200);
       ("num_queues", YInt 5)])]);
   ("srp", YMap
    [("sr_class", YStr (lit "A"));
     ("vid", YInt 2);
     ("stream_dmac_base", YStr (lit "0x91E0F000FE01"));
     ("accumulated_latency_ns", YInt 0);
     ("class_queue", YInt 4);
     ("enable_at_reset", YBool false);
     ("talker_declare_at_reset", YBool false);
     ("bandwidth_limit_pct", YInt 75);
     ("timers_ms", YMap
      [("join", YInt 200);
       ("leave", YInt 5000);
       ("leaveall", YInt 10000)]);
     ("tspec", YMap
      [("policy", YStr (lit "derived"));
       ("max_frame_bytes", YInt 224);
       ("interval_frames", YInt 1)]);
     ("rtl_table", YBool true)]);
   ("platform", YMap
    [("mac_address", YStr (lit "02:4b:4c:4b:4c:02"));
     ("pp_mem_phys", YInt 0x4fe00000)]);
   ("clocking", YMap
    [("sampling_rate_hz", YInt 48000);
     ("audio_unit_rates_hz", YList [YInt 48000; YInt 96000; YInt 192000]);
     ("media_clock_sources", YList [YStr (lit "internal"); YStr (lit "crf"); YStr (lit "input_stream")]);
     ("default_source", YStr (lit "internal"));
     ("crf_sink", YBool true);
     ("audio_pll_hz", YInt 24576000)]);
   ("audio_interface", YMap
    [("kind", YStr (lit "i2s_philips"));
     ("word_length_bits", YInt 24);
     ("cluster_mapping", YMap [("policy", YStr (lit "cluster-per-stream-channel"))])]);
   ("streams", YMap
    [("listeners", YList
      [YMap
       [("name", YStr (lit "Stream 1"));
        ("channels", YInt 8);
        ("map_mode", YStr (lit "dynamic"));
        ("formats", YList [YStr (lit "0x0205022000806000")]);
        ("buffer_length_ns", YInt 2126000);
        ("clusters", YInt 8)]]);
     ("talkers", YList
      [YMap
       [("name", YStr (lit "Stream Output 0"));
        ("channels", YInt 2);
        ("clusters", YInt 8)]])]);
   ("gptp", YMap
    [("priority1", YInt 248);
     ("priority2", YInt 248);
     ("clock_class", YInt 248);
     ("offset_scaled_log_variance", YInt 0x436A);
     ("domain", YInt 0);
     ("log_announce_interval", YInt 0);
     ("log_pdelay_interval", YInt 0);
     ("ingress_latency_ns", YInt 0);
     ("egress_latency_ns", YInt 0)])].

(** [configs/generated/endstation_arty_current/gen/adp_shape_defaults.svh]. *)
Definition arty_current_header : localparams :=
  [("ADP_TALKER_SRC_C", [1]); ("ADP_LISTENER_SINK_C", [2]); ("AEM_NAME_ENTRIES_C", [29]);
   ("AEM_N_AUDIO_UNIT_C", [1]); ("AEM_N_CLKDOM_C", [1]); ("AEM_N_CONTROL_C", [1]);
   ("ADP_TALKER_CAPS_C", [16385]); ("ADP_LISTENER_CAPS_C", [18433]); ("AEM_N_CLKSRC_C", [3]);
   ("AEM_CRF_CLKSRC_C", [1]); ("AEM_CLKSRC_INTERNAL_C", [0]); ("AEM_CLKSRC_CRF_C", [1]);
   ("AEM_CLKSRC_AAF_C", [2]); ("AEM_CLKSRC_KIND_C", [0; 1; 2]); ("AEM_CLKSRC_SI_C", [65535; 1; 0]);
   ("AEM_N_AAF_CLKSRC_C", [1]); ("ADP_DMAP_IN_MASK_C", [1]); ("ADP_DMAP_OUT_MASK_C", [0]);
   ("ADP_DMAP_IN_KEYS_C", [8]); ("ADP_DMAP_IN_PAGE_C", [8]); ("ADP_DMAP_IN_NPORTS_C", [1]);
   ("ADP_DMAP_IN_NSTRIN_C", [2]); ("ADP_DMAP_IN_PBASE_C", [0]); ("ADP_DMAP_IN_PCLS_C", [8]);
   ("ADP_DMAP_IN_PNMAPS_C", [1]); ("ADP_DMAP_IN_RPHYS_C", [64; 65; 0; 0; 0; 0; 0; 0]);
   ("ADP_DMAP_IN_SAAF_C", [1; 0]); ("ADP_DMAP_IN_SCH_C", [2; 0]); ("ADP_DMAP_OUT_NPORTS_C", [1]);
   ("ADP_DMAP_OUT_NSRC_C", [8]); ("ADP_DMAP_OUT_PCLS_C", [8]); ("ADP_DMAP_OUT_PCBASE_C", [0]);
   ("ADP_DMAP_OUT_SCH_C", [2]); ("ADP_DMAP_OUT_CSRC_C", [0; 0; 0; 0; 0; 0; 0; 0]);
   ("ADP_SRP_DOM_DEF_VID_C", [2]); ("ADP_STROUT_PRES_NS_C", [2000000]); ("TALKER_WIRE_CHANS_C", [2]);
   ("ADP_STRIN0_FMT_C", [145524899430031360]); ("ADP_STRIN_NFMT_C", [1]); ("ADP_STROUT_NFMT_C", [1]);
   ("ADP_STRIN_FMT_C", [145524899430031360]); ("ADP_STROUT_FMT_C", [145524899430031360]);
   ("ADP_CRF_FMT_C", [292839533190364032]); ("ADP_CRF_OUT_FMT_C", [292839533190364032])]%Z.

(** [configs/endstation_arty_4x4.yaml]. *)
Definition arty_4x4 : yaml :=
  YMap
  [("schema", YStr (lit "kebag-logic/milan-endstation-config"));
   ("schema_version", YStr (lit "1.2.0"));
   ("entity", YMap
    [("name", YStr (lit "Milan FPGA 4x4"));
     ("entity_model_id", YStr (lit "hash-derived"));
     ("entity_id", YStr (lit "mac-derived"));
     ("vendor_name", YStr (lit "Kebag Logic"));
     ("serial_number", YStr (lit "ARTY-0001"));
     ("group_name", YStr [])]);
   ("board", YMap
    [("target", YStr (lit "arty"));
     ("features", YMap [("fabric_gptp", YBool true)]);
     ("constraints", YMap
      [("sys_clk_hz", YInt 83333000);
       ("milan_clk_hz", YInt 50000000);
       ("l2_bytes", YInt 0);
       ("phy", YStr (lit "mii-100"));
       ("gtx_tx_invert", YBool false);
       ("floorplan", YBool false);
       ("flashboot", YStr (lit "baremetal"));
       ("uart_baudrate", YInt 115200);
       ("num_queues", YInt 5)])]);
   ("srp", YMap
    [("sr_class", YStr (lit "A"));
     ("vid", YInt 2);
     ("stream_dmac_base", YStr (lit "0x91E0F000FE01"));
     ("class_queue", YInt 4);
     ("bandwidth_limit_pct", YInt 75);
     ("tspec", YMap [("policy", YStr (lit "derived")); ("interval_frames", YInt 1)])]);
   ("platform", YMap
    [("mac_address", YStr (lit "02:4b:4c:4b:4c:02"));
     ("pp_mem_phys", YInt 0x4fb00000)]);
   ("clocking", YMap
    [("sampling_rate_hz", YInt 48000);
     ("audio_unit_rates_hz", YList [YInt 48000]);
     ("media_clock_sources", YList [YStr (lit "internal"); YStr (lit "crf"); YStr (lit "input_stream")]);
     ("default_source", YStr (lit "internal"));
     ("crf_sink", YBool true);
     ("crf_output", YMap [("enabled", YBool true); ("format", YStr (lit "0x041060010000BB80"))]);
     ("audio_pll_hz", YInt 24576000)]);
   ("audio_interface", YMap
    [("kind", YStr (lit "tdm8"));
     ("word_length_bits", YInt 24);
     ("physical_channels", YMap [("capture", YInt 8); ("render", YInt 2)]);
     ("cluster_mapping", YMap [("policy", YStr (lit "cap-at-interface"))])]);
   ("streams", YMap
    [("listeners", YList
      [YMap
       [("name", YStr (lit "Stream In 0"));
        ("channels", YInt 4);
        ("map_mode", YStr (lit "dynamic"))];
       YMap
       [("name", YStr (lit "Stream In 1"));
        ("channels", YInt 4);
        ("map_mode", YStr (lit "dynamic"))];
       YMap
       [("name", YStr (lit "Stream In 2"));
        ("channels", YInt 4);
        ("map_mode", YStr (lit "dynamic"))];
       YMap
       [("name", YStr (lit "Stream In 3"));
        ("channels", YInt 4);
        ("map_mode", YStr (lit "dynamic"))]]);
     ("talkers", YList
      [YMap [("name", YStr (lit "Stream Out 0")); ("channels", YInt 4)];
       YMap [("name", YStr (lit "Stream Out 1")); ("channels", YInt 4)];
       YMap [("name", YStr (lit "Stream Out 2")); ("channels", YInt 4)];
       YMap [("name", YStr (lit "Stream Out 3")); ("channels", YInt 4)]])]);
   ("gptp", YMap
    [("priority1", YInt 248);
     ("priority2", YInt 248);
     ("clock_class", YInt 248);
     ("offset_scaled_log_variance", YInt 0x436A);
     ("domain", YInt 0);
     ("log_announce_interval", YInt 0);
     ("log_pdelay_interval", YInt 0);
     ("ingress_latency_ns", YInt 0);
     ("egress_latency_ns", YInt 0)])].

(** [configs/generated/endstation_arty_4x4/gen/adp_shape_defaults.svh]. *)
Definition arty_4x4_header : localparams :=
  [("ADP_TALKER_SRC_C", [5]); ("ADP_LISTENER_SINK_C", [5]); ("AEM_NAME_ENTRIES_C", [55]);
   ("AEM_N_AUDIO_UNIT_C", [1]); ("AEM_N_CLKDOM_C", [1]); ("AEM_N_CONTROL_C", [1]);
   ("ADP_TALKER_CAPS_C", [18433]); ("ADP_LISTENER_CAPS_C", [18433]); ("AEM_N_CLKSRC_C", [6]);
   ("AEM_CRF_CLKSRC_C", [1]); ("AEM_CLKSRC_INTERNAL_C", [0]); ("AEM_CLKSRC_CRF_C", [1]);
   ("AEM_CLKSRC_AAF_C", [2]); ("AEM_CLKSRC_KIND_C", [0; 1; 2; 2; 2; 2]);
   ("AEM_CLKSRC_SI_C", [65535; 4; 0; 1; 2; 3]); ("AEM_N_AAF_CLKSRC_C", [4]); ("ADP_DMAP_IN_MASK_C", [15]);
   ("ADP_DMAP_OUT_MASK_C", [0]); ("ADP_DMAP_IN_KEYS_C", [16]); ("ADP_DMAP_IN_PAGE_C", [4]);
   ("ADP_DMAP_IN_NPORTS_C", [4]); ("ADP_DMAP_IN_NSTRIN_C", [5]); ("ADP_DMAP_IN_PBASE_C", [0; 4; 8; 12]);
   ("ADP_DMAP_IN_PCLS_C", [4; 4; 4; 4]); ("ADP_DMAP_IN_PNMAPS_C", [1; 1; 1; 1]);
   ("ADP_DMAP_IN_RPHYS_C", [64; 65; 0; 0; 0; 0; 0; 0; 0; 0; 0; 0; 0; 0; 0; 0]);
   ("ADP_DMAP_IN_SAAF_C", [1; 1; 1; 1; 0]); ("ADP_DMAP_IN_SCH_C", [4; 4; 4; 4; 0]);
   ("ADP_DMAP_OUT_NPORTS_C", [4]); ("ADP_DMAP_OUT_NSRC_C", [16]); ("ADP_DMAP_OUT_PCLS_C", [4; 4; 4; 4]);
   ("ADP_DMAP_OUT_PCBASE_C", [0; 4; 8; 12]); ("ADP_DMAP_OUT_SCH_C", [4; 4; 4; 4]);
   ("ADP_DMAP_OUT_CSRC_C", [0; 0; 0; 0; 0; 0; 0; 0; 0; 0; 0; 0; 0; 0; 0; 0]);
   ("ADP_SRP_DOM_DEF_VID_C", [2]);
   ("ADP_STROUT_PRES_NS_C", [2000000; 2000000; 2000000; 2000000; 2000000]); ("TALKER_WIRE_CHANS_C", [4]);
   ("ADP_STRIN0_FMT_C", [145524899438419968]); ("ADP_STRIN_NFMT_C", [4]); ("ADP_STROUT_NFMT_C", [4]);
   ("ADP_STRIN_FMT_C", [145524899438419968; 145524899438419968; 145524899438419968; 145524899438419968]);
   ("ADP_STROUT_FMT_C", [145524899438419968; 145524899438419968; 145524899438419968; 145524899438419968]);
   ("ADP_CRF_FMT_C", [292839533190364032]); ("ADP_CRF_OUT_FMT_C", [292839533190364032])]%Z.

(** [configs/endstation_arty_8ch.yaml]. *)
Definition arty_8ch : yaml :=
  YMap
  [("schema", YStr (lit "kebag-logic/milan-endstation-config"));
   ("schema_version", YStr (lit "1.2.0"));
   ("entity", YMap
    [("name", YStr (lit "Milan FPGA 4x4 8ch"));
     ("entity_model_id", YStr (lit "hash-derived"));
     ("entity_id", YStr (lit "mac-derived"));
     ("vendor_name", YStr (lit "Kebag Logic"));
     ("serial_number", YStr (lit "ARTY-0002"));
     ("group_name", YStr [])]);
   ("board", YMap
    [("target", YStr (lit "arty"));
     ("features", YMap [("fabric_gptp", YBool true)]);
     ("constraints", YMap
      [("sys_clk_hz", YInt 83333000);
       ("milan_clk_hz", YInt 50000000);
       ("l2_bytes", YInt 0);
       ("phy", YStr (lit "mii-100"));
       ("gtx_tx_invert", YBool false);
       ("floorplan", YBool false);
       ("flashboot", YStr (lit "baremetal"));
       ("uart_baudrate", YInt 115200);
       ("num_queues", YInt 5)])]);
   ("srp", YMap
    [("sr_class", YStr (lit "A"));
     ("vid", YInt 2);
     ("stream_dmac_base", YStr (lit "0x91E0F000FE01"));
     ("class_queue", YInt 4);
     ("bandwidth_limit_pct", YInt 75);
     ("tspec", YMap [("policy", YStr (lit "derived")); ("interval_frames", YInt 1)])]);
   ("platform", YMap
    [("mac_address", YStr (lit "02:4b:4c:4b:4c:02"));
     ("pp_mem_phys", YInt 0x4fb00000)]);
   ("clocking", YMap
    [("sampling_rate_hz", YInt 48000);
     ("audio_unit_rates_hz", YList [YInt 48000]);
     ("media_clock_sources", YList [YStr (lit "internal"); YStr (lit "crf"); YStr (lit "input_stream")]);
     ("default_source", YStr (lit "internal"));
     ("crf_sink", YBool true);
     ("crf_output", YMap [("enabled", YBool true); ("format", YStr (lit "0x041060010000BB80"))]);
     ("audio_pll_hz", YInt 24576000)]);
   ("audio_interface", YMap
    [("kind", YStr (lit "tdm8"));
     ("word_length_bits", YInt 24);
     ("physical_channels", YMap [("capture", YInt 8); ("render", YInt 2)]);
     ("cluster_mapping", YMap [("policy", YStr (lit "cap-at-interface"))])]);
   ("streams", YMap
    [("listeners", YList
      [YMap
       [("name", YStr (lit "Stream In 0"));
        ("channels", YInt 8);
        ("map_mode", YStr (lit "dynamic"))];
       YMap
       [("name", YStr (lit "Stream In 1"));
        ("channels", YInt 8);
        ("map_mode", YStr (lit "dynamic"))];
       YMap
       [("name", YStr (lit "Stream In 2"));
        ("channels", YInt 8);
        ("map_mode", YStr (lit "dynamic"))];
       YMap
       [("name", YStr (lit "Stream In 3"));
        ("channels", YInt 8);
        ("map_mode", YStr (lit "dynamic"))]]);
     ("talkers", YList
      [YMap [("name", YStr (lit "Stream Out 0")); ("channels", YInt 8)];
       YMap [("name", YStr (lit "Stream Out 1")); ("channels", YInt 8)];
       YMap [("name", YStr (lit "Stream Out 2")); ("channels", YInt 8)];
       YMap [("name", YStr (lit "Stream Out 3")); ("channels", YInt 8)]])]);
   ("gptp", YMap
    [("priority1", YInt 248);
     ("priority2", YInt 248);
     ("clock_class", YInt 248);
     ("offset_scaled_log_variance", YInt 0x436A);
     ("domain", YInt 0);
     ("log_announce_interval", YInt 0);
     ("log_pdelay_interval", YInt 0);
     ("ingress_latency_ns", YInt 0);
     ("egress_latency_ns", YInt 0)])].

(** [configs/generated/endstation_arty_8ch/gen/adp_shape_defaults.svh]. *)
Definition arty_8ch_header : localparams :=
  [("ADP_TALKER_SRC_C", [5]); ("ADP_LISTENER_SINK_C", [5]); ("AEM_NAME_ENTRIES_C", [87]);
   ("AEM_N_AUDIO_UNIT_C", [1]); ("AEM_N_CLKDOM_C", [1]); ("AEM_N_CONTROL_C", [1]);
   ("ADP_TALKER_CAPS_C", [18433]); ("ADP_LISTENER_CAPS_C", [18433]); ("AEM_N_CLKSRC_C", [6]);
   ("AEM_CRF_CLKSRC_C", [1]); ("AEM_CLKSRC_INTERNAL_C", [0]); ("AEM_CLKSRC_CRF_C", [1]);
   ("AEM_CLKSRC_AAF_C", [2]); ("AEM_CLKSRC_KIND_C", [0; 1; 2; 2; 2; 2]);
   ("AEM_CLKSRC_SI_C", [65535; 4; 0; 1; 2; 3]); ("AEM_N_AAF_CLKSRC_C", [4]); ("ADP_DMAP_IN_MASK_C", [15]);
   ("ADP_DMAP_OUT_MASK_C", [0]); ("ADP_DMAP_IN_KEYS_C", [32]); ("ADP_DMAP_IN_PAGE_C", [8]);
   ("ADP_DMAP_IN_NPORTS_C", [4]); ("ADP_DMAP_IN_NSTRIN_C", [5]); ("ADP_DMAP_IN_PBASE_C", [0; 8; 16; 24]);
   ("ADP_DMAP_IN_PCLS_C", [8; 8; 8; 8]); ("ADP_DMAP_IN_PNMAPS_C", [1; 1; 1; 1]);
   ("ADP_DMAP_IN_RPHYS_C", [64; 65; 0; 0; 0; 0; 0; 0; 0; 0; 0; 0; 0; 0; 0; 0; 0; 0; 0; 0; 0; 0; 0; 0; 0; 0;
     0; 0; 0; 0; 0; 0]); ("ADP_DMAP_IN_SAAF_C", [1; 1; 1; 1; 0]); ("ADP_DMAP_IN_SCH_C", [8; 8; 8; 8; 0]);
   ("ADP_DMAP_OUT_NPORTS_C", [4]); ("ADP_DMAP_OUT_NSRC_C", [32]); ("ADP_DMAP_OUT_PCLS_C", [8; 8; 8; 8]);
   ("ADP_DMAP_OUT_PCBASE_C", [0; 8; 16; 24]); ("ADP_DMAP_OUT_SCH_C", [8; 8; 8; 8]);
   ("ADP_DMAP_OUT_CSRC_C", [0; 0; 0; 0; 0; 0; 0; 0; 0; 0; 0; 0; 0; 0; 0; 0; 0; 0; 0; 0; 0; 0; 0; 0; 0; 0;
     0; 0; 0; 0; 0; 0]); ("ADP_SRP_DOM_DEF_VID_C", [2]);
   ("ADP_STROUT_PRES_NS_C", [2000000; 2000000; 2000000; 2000000; 2000000]); ("TALKER_WIRE_CHANS_C", [8]);
   ("ADP_STRIN0_FMT_C", [145524899455197184]); ("ADP_STRIN_NFMT_C", [4]); ("ADP_STROUT_NFMT_C", [4]);
   ("ADP_STRIN_FMT_C", [145524899455197184; 145524899455197184; 145524899455197184; 145524899455197184]);
   ("ADP_STROUT_FMT_C", [145524899455197184; 145524899455197184; 145524899455197184; 145524899455197184]);
   ("ADP_CRF_FMT_C", [292839533190364032]); ("ADP_CRF_OUT_FMT_C", [292839533190364032])]%Z.

(** [configs/endstation_ax7101_1x1_tdm8.yaml]. *)
Definition ax7101_1x1_tdm8 : yaml :=
  YMap
  [("schema", YStr (lit "kebag-logic/milan-endstation-config"));
   ("schema_version", YStr (lit "1.2.0"));
   ("entity", YMap
    [("name", YStr (lit "Milan FPGA 1x1 TDM8"));
     ("entity_model_id", YStr (lit "hash-derived"));
     ("entity_id", YStr (lit "mac-derived"));
     ("vendor_name", YStr (lit "Kebag Logic"));
     ("serial_number", YStr (lit "AX7101-0001"));
     ("group_name", YStr [])]);
   ("board", YMap
    [("target", YStr (lit "ax7101"));
     ("features", YMap
      [("fabric_gptp", YBool true);
       ("i2s_playback", YBool false);
       ("latency_taps", YBool true);
       ("render_lpf", YBool false);
       ("datapath_probes", YBool true)]);
     ("constraints", YMap
      [("sys_clk_hz", YInt 100000000);
       ("milan_clk_hz", YInt 50000000);
       ("l2_bytes", YInt 0);
       ("phy", YStr (lit "gmii-1g"));
       ("gtx_tx_invert", YBool true);
       ("floorplan", YBool true);
       ("flashboot", YStr (lit "baremetal"));
       ("uart_baudrate", YInt 115200);
       ("num_queues", YInt 5);
       ("eth_port", YStr (lit "e1"))])]);
   ("srp", YMap
    [("sr_class", YStr (lit "A"));
     ("vid", YInt 2);
     ("stream_dmac_base", YStr (lit "0x91E0F000FE01"));
     ("class_queue", YInt 4);
     ("bandwidth_limit_pct", YInt 75);
     ("tspec", YMap [("policy", YStr (lit "derived")); ("interval_frames", YInt 1)])]);
   ("platform", YMap
    [("mac_address", YStr (lit "02:4b:4c:4b:4c:01"));
     ("pp_mem_phys", YInt 0x7f700000)]);
   ("soc", YMap
    [("software_profile", YStr (lit "baremetal"));
     ("xlen", YInt 32);
     ("scala_args", YList [])]);
   ("gptp", YMap
    [("priority1", YInt 248);
     ("priority2", YInt 248);
     ("clock_class", YInt 248);
     ("clock_accuracy", YInt 0xFE);
     ("domain", YInt 0);
     ("log_sync_interval", YInt (-3));
     ("log_announce_interval", YInt 0);
     ("log_pdelay_interval", YInt 0);
     ("ingress_latency_ns", YInt 656);
     ("egress_latency_ns", YInt 219)]);
   ("clocking", YMap
    [("sampling_rate_hz", YInt 48000);
     ("audio_unit_rates_hz", YList [YInt 48000]);
     ("media_clock_sources", YList [YStr (lit "internal"); YStr (lit "crf"); YStr (lit "input_stream")]);
     ("default_source", YStr (lit "internal"));
     ("crf_sink", YBool true);
     ("crf_output", YMap [("enabled", YBool true); ("format", YStr (lit "0x041060010000BB80"))]);
     ("audio_pll_hz", YInt 24576000)]);
   ("audio_interface", YMap
    [("kind", YStr (lit "tdm8"));
     ("word_length_bits", YInt 24);
     ("physical_channels", YMap [("capture", YInt 8); ("render", YInt 8)]);
     ("channel_names", YList [YStr (lit "FL"); YStr (lit "FR"); YStr (lit "FC"); YStr (lit "LFE"); YStr (lit "RL"); YStr (lit "RR"); YStr (lit "SL"); YStr (lit "SR")]);
     ("cluster_mapping", YMap
      [("policy", YStr (lit "role-pools"));
       ("pools", YMap [("pilot", YBool true); ("loopback", YInt 8)]);
       ("fabric", YMap [("loopback_lane", YBool true)])])]);
   ("streams", YMap
    [("listeners", YList
      [YMap
       [("name", YStr (lit "Stream In 0"));
        ("channels", YInt 8);
        ("map_mode", YStr (lit "dynamic"))]]);
     ("talkers", YList
      [YMap
       [("name", YStr (lit "Stream Out 0"));
        ("channels", YInt 8);
        ("map_mode", YStr (lit "dynamic"))]])])].

(** [configs/generated/endstation_ax7101_1x1_tdm8/gen/adp_shape_defaults.svh]. *)
Definition ax7101_1x1_tdm8_header : localparams :=
  [("ADP_TALKER_SRC_C", [2]); ("ADP_LISTENER_SINK_C", [2]); ("AEM_NAME_ENTRIES_C", [39]);
   ("AEM_N_AUDIO_UNIT_C", [1]); ("AEM_N_CLKDOM_C", [1]); ("AEM_N_CONTROL_C", [1]);
   ("ADP_TALKER_CAPS_C", [18433]); ("ADP_LISTENER_CAPS_C", [18433]); ("AEM_N_CLKSRC_C", [3]);
   ("AEM_CRF_CLKSRC_C", [1]); ("AEM_CLKSRC_INTERNAL_C", [0]); ("AEM_CLKSRC_CRF_C", [1]);
   ("AEM_CLKSRC_AAF_C", [2]); ("AEM_CLKSRC_KIND_C", [0; 1; 2]); ("AEM_CLKSRC_SI_C", [65535; 1; 0]);
   ("AEM_N_AAF_CLKSRC_C", [1]); ("ADP_DMAP_IN_MASK_C", [1]); ("ADP_DMAP_OUT_MASK_C", [1]);
   ("ADP_DMAP_IN_KEYS_C", [8]); ("ADP_DMAP_IN_PAGE_C", [8]); ("ADP_DMAP_IN_NPORTS_C", [1]);
   ("ADP_DMAP_IN_NSTRIN_C", [2]); ("ADP_DMAP_IN_PBASE_C", [0]); ("ADP_DMAP_IN_PCLS_C", [8]);
   ("ADP_DMAP_IN_PNMAPS_C", [1]); ("ADP_DMAP_IN_RPHYS_C", [66; 67; 68; 69; 70; 71; 72; 73]);
   ("ADP_DMAP_IN_SAAF_C", [1; 0]); ("ADP_DMAP_IN_SCH_C", [8; 0]); ("ADP_DMAP_OUT_NPORTS_C", [1]);
   ("ADP_DMAP_OUT_NSRC_C", [17]); ("ADP_DMAP_OUT_PCLS_C", [17]); ("ADP_DMAP_OUT_PCBASE_C", [0]);
   ("ADP_DMAP_OUT_SCH_C", [8]);
   ("ADP_DMAP_OUT_CSRC_C", [4608; 6656; 4609; 6657; 4610; 6658; 4611; 6659; 5120; 5376; 7424; 5377; 7425;
     5378; 7426; 5379; 7427]); ("ADP_SRP_DOM_DEF_VID_C", [2]);
   ("ADP_STROUT_PRES_NS_C", [2000000; 2000000]); ("TALKER_WIRE_CHANS_C", [8]);
   ("ADP_STRIN0_FMT_C", [145524899455197184]); ("ADP_STRIN_NFMT_C", [1]); ("ADP_STROUT_NFMT_C", [1]);
   ("ADP_STRIN_FMT_C", [145524899455197184]); ("ADP_STROUT_FMT_C", [145524899455197184]);
   ("ADP_CRF_FMT_C", [292839533190364032]); ("ADP_CRF_OUT_FMT_C", [292839533190364032])]%Z.

(** [configs/endstation_ax7101_8x8.yaml]. *)
Definition ax7101_8x8 : yaml :=
  YMap
  [("schema", YStr (lit "kebag-logic/milan-endstation-config"));
   ("schema_version", YStr (lit "1.2.0"));
   ("entity", YMap
    [("name", YStr (lit "Milan FPGA 8x8"));
     ("entity_model_id", YStr (lit "hash-derived"));
     ("entity_id", YStr (lit "mac-derived"));
     ("vendor_name", YStr (lit "Kebag Logic"));
     ("serial_number", YStr (lit "AX7101-0001"));
     ("group_name", YStr [])]);
   ("board", YMap
    [("target", YStr (lit "ax7101"));
     ("features", YMap
      [("fabric_gptp", YBool true);
       ("i2s_playback", YBool false);
       ("latency_taps", YBool false);
       ("render_lpf", YBool false);
       ("datapath_probes", YBool false)]);
     ("constraints", YMap
      [("sys_clk_hz", YInt 100000000);
       ("milan_clk_hz", YInt 50000000);
       ("l2_bytes", YInt 0);
       ("phy", YStr (lit "gmii-1g"));
       ("gtx_tx_invert", YBool true);
       ("floorplan", YBool true);
       ("flashboot", YStr (lit "baremetal"));
       ("uart_baudrate", YInt 115200);
       ("num_queues", YInt 5);
       ("eth_port", YStr (lit "e1"))])]);
   ("srp", YMap
    [("sr_class", YStr (lit "A"));
     ("vid", YInt 2);
     ("stream_dmac_base", YStr (lit "0x91E0F000FE01"));
     ("class_queue", YInt 4);
     ("bandwidth_limit_pct", YInt 75);
     ("tspec", YMap [("policy", YStr (lit "derived")); ("interval_frames", YInt 1)])]);
   ("platform", YMap
    [("mac_address", YStr (lit "02:4b:4c:4b:4c:01"));
     ("pp_mem_phys", YInt 0x7f700000)]);
   ("gptp", YMap
    [("priority1", YInt 248);
     ("priority2", YInt 248);
     ("clock_class", YInt 248);
     ("clock_accuracy", YInt 0xFE);
     ("domain", YInt 0);
     ("log_sync_interval", YInt (-3));
     ("log_announce_interval", YInt 0);
     ("log_pdelay_interval", YInt 0);
     ("ingress_latency_ns", YInt 656);
     ("egress_latency_ns", YInt 219)]);
   ("clocking", YMap
    [("sampling_rate_hz", YInt 48000);
     ("audio_unit_rates_hz", YList [YInt 48000]);
     ("media_clock_sources", YList [YStr (lit "internal"); YStr (lit "crf"); YStr (lit "input_stream")]);
     ("default_source", YStr (lit "internal"));
     ("crf_sink", YBool true);
     ("crf_output", YMap [("enabled", YBool true); ("format", YStr (lit "0x041060010000BB80"))]);
     ("audio_pll_hz", YInt 24576000)]);
   ("audio_interface", YMap
    [("kind", YStr (lit "tdm32"));
     ("word_length_bits", YInt 24);
     ("physical_channels", YMap [("capture", YInt 0); ("render", YInt 0)]);
     ("cluster_mapping", YMap
      [("policy", YStr (lit "role-pools"));
       ("pools", YMap [("pilot", YBool true); ("loopback", YInt 8)]);
       ("fabric", YMap [("loopback_lane", YBool false)])])]);
   ("model_lint_waivers", YList
    [YMap
     [("rule", YStr (lit "L1"));
      ("check", YStr (lit "port-cluster-minimum"));
      ("configuration", YInt 0);
      ("type", YStr (lit "STREAM_PORT_INPUT"));
      ("first", YInt 0);
      ("last", YInt 7);
      ("reason", YStr (lit "kebag-logic/milan-fpga#584: the D8 8x8 input role pools carry no AUDIO_CLUSTER"))]]);
   ("streams", YMap
    [("listeners", YList
      [YMap
       [("name", YStr (lit "Stream In 0"));
        ("channels", YInt 8);
        ("map_mode", YStr (lit "dynamic"))];
       YMap
       [("name", YStr (lit "Stream In 1"));
        ("channels", YInt 8);
        ("map_mode", YStr (lit "dynamic"))];
       YMap
       [("name", YStr (lit "Stream In 2"));
        ("channels", YInt 8);
        ("map_mode", YStr (lit "dynamic"))];
       YMap
       [("name", YStr (lit "Stream In 3"));
        ("channels", YInt 8);
        ("map_mode", YStr (lit "dynamic"))];
       YMap
       [("name", YStr (lit "Stream In 4"));
        ("channels", YInt 8);
        ("map_mode", YStr (lit "dynamic"))];
       YMap
       [("name", YStr (lit "Stream In 5"));
        ("channels", YInt 8);
        ("map_mode", YStr (lit "dynamic"))];
       YMap
       [("name", YStr (lit "Stream In 6"));
        ("channels", YInt 8);
        ("map_mode", YStr (lit "dynamic"))];
       YMap
       [("name", YStr (lit "Stream In 7"));
        ("channels", YInt 8);
        ("map_mode", YStr (lit "dynamic"))]]);
     ("talkers", YList
      [YMap
       [("name", YStr (lit "Stream Out 0"));
        ("channels", YInt 8);
        ("map_mode", YStr (lit "dynamic"));
        ("clusters", YInt 2)];
       YMap
       [("name", YStr (lit "Stream Out 1"));
        ("channels", YInt 8);
        ("map_mode", YStr (lit "dynamic"));
        ("clusters", YInt 2)];
       YMap
       [("name", YStr (lit "Stream Out 2"));
        ("channels", YInt 8);
        ("map_mode", YStr (lit "dynamic"));
        ("clusters", YInt 2)];
       YMap
       [("name", YStr (lit "Stream Out 3"));
        ("channels", YInt 8);
        ("map_mode", YStr (lit "dynamic"));
        ("clusters", YInt 2)];
       YMap
       [("name", YStr (lit "Stream Out 4"));
        ("channels", YInt 8);
        ("map_mode", YStr (lit "dynamic"));
        ("clusters", YInt 2)];
       YMap
       [("name", YStr (lit "Stream Out 5"));
        ("channels", YInt 8);
        ("map_mode", YStr (lit "dynamic"));
        ("clusters", YInt 2)];
       YMap
       [("name", YStr (lit "Stream Out 6"));
        ("channels", YInt 8);
        ("map_mode", YStr (lit "dynamic"));
        ("clusters", YInt 2)];
       YMap
       [("name", YStr (lit "Stream Out 7"));
        ("channels", YInt 8);
        ("map_mode", YStr (lit "dynamic"));
        ("clusters", YInt 2)]])])].

(** [configs/generated/endstation_ax7101_8x8/gen/adp_shape_defaults.svh]. *)
Definition ax7101_8x8_header : localparams :=
  [("ADP_TALKER_SRC_C", [9]); ("ADP_LISTENER_SINK_C", [9]); ("AEM_NAME_ENTRIES_C", [107]);
   ("AEM_N_AUDIO_UNIT_C", [1]); ("AEM_N_CLKDOM_C", [1]); ("AEM_N_CONTROL_C", [1]);
   ("ADP_TALKER_CAPS_C", [18433]); ("ADP_LISTENER_CAPS_C", [18433]); ("AEM_N_CLKSRC_C", [10]);
   ("AEM_CRF_CLKSRC_C", [1]); ("AEM_CLKSRC_INTERNAL_C", [0]); ("AEM_CLKSRC_CRF_C", [1]);
   ("AEM_CLKSRC_AAF_C", [2]); ("AEM_CLKSRC_KIND_C", [0; 1; 2; 2; 2; 2; 2; 2; 2; 2]);
   ("AEM_CLKSRC_SI_C", [65535; 8; 0; 1; 2; 3; 4; 5; 6; 7]); ("AEM_N_AAF_CLKSRC_C", [8]);
   ("ADP_DMAP_IN_MASK_C", [255]); ("ADP_DMAP_OUT_MASK_C", [255]); ("ADP_DMAP_IN_KEYS_C", [1]);
   ("ADP_DMAP_IN_PAGE_C", [1]); ("ADP_DMAP_IN_NPORTS_C", [8]); ("ADP_DMAP_IN_NSTRIN_C", [9]);
   ("ADP_DMAP_IN_PBASE_C", [0; 0; 0; 0; 0; 0; 0; 0]); ("ADP_DMAP_IN_PCLS_C", [0; 0; 0; 0; 0; 0; 0; 0]);
   ("ADP_DMAP_IN_PNMAPS_C", [0; 0; 0; 0; 0; 0; 0; 0]); ("ADP_DMAP_IN_RPHYS_C", [0]);
   ("ADP_DMAP_IN_SAAF_C", [1; 1; 1; 1; 1; 1; 1; 1; 0]);
   ("ADP_DMAP_IN_SCH_C", [8; 8; 8; 8; 8; 8; 8; 8; 0]); ("ADP_DMAP_OUT_NPORTS_C", [8]);
   ("ADP_DMAP_OUT_NSRC_C", [72]); ("ADP_DMAP_OUT_PCLS_C", [9; 9; 9; 9; 9; 9; 9; 9]);
   ("ADP_DMAP_OUT_PCBASE_C", [0; 9; 18; 27; 36; 45; 54; 63]);
   ("ADP_DMAP_OUT_SCH_C", [8; 8; 8; 8; 8; 8; 8; 8]);
   ("ADP_DMAP_OUT_CSRC_C", [5120; 1280; 3328; 1281; 3329; 1282; 3330; 1283; 3331; 5120; 1296; 3344; 1297;
     3345; 1298; 3346; 1299; 3347; 5120; 1312; 3360; 1313; 3361; 1314; 3362; 1315; 3363; 5120; 1328;
     3376; 1329; 3377; 1330; 3378; 1331; 3379; 5120; 1344; 3392; 1345; 3393; 1346; 3394; 1347; 3395;
     5120; 1360; 3408; 1361; 3409; 1362; 3410; 1363; 3411; 5120; 1376; 3424; 1377; 3425; 1378; 3426;
     1379; 3427; 5120; 1392; 3440; 1393; 3441; 1394; 3442; 1395; 3443]); ("ADP_SRP_DOM_DEF_VID_C", [2]);
   ("ADP_STROUT_PRES_NS_C", [2000000; 2000000; 2000000; 2000000; 2000000; 2000000; 2000000; 2000000;
     2000000]); ("TALKER_WIRE_CHANS_C", [8]); ("ADP_STRIN0_FMT_C", [145524899455197184]);
   ("ADP_STRIN_NFMT_C", [8]); ("ADP_STROUT_NFMT_C", [8]);
   ("ADP_STRIN_FMT_C", [145524899455197184; 145524899455197184; 145524899455197184; 145524899455197184;
     145524899455197184; 145524899455197184; 145524899455197184; 145524899455197184]);
   ("ADP_STROUT_FMT_C", [145524899455197184; 145524899455197184; 145524899455197184; 145524899455197184;
     145524899455197184; 145524899455197184; 145524899455197184; 145524899455197184]);
   ("ADP_CRF_FMT_C", [292839533190364032]); ("ADP_CRF_OUT_FMT_C", [292839533190364032])]%Z.

#[local] Close Scope string_scope.

Definition shipped : list (yaml * localparams) :=
  [(arty_current, arty_current_header);
   (arty_4x4, arty_4x4_header);
   (arty_8ch, arty_8ch_header);
   (ax7101_1x1_tdm8, ax7101_1x1_tdm8_header);
   (ax7101_8x8, ax7101_8x8_header)].

(** The builder, from the document to the header and the model. *)
Definition build_all (e : env) (capacity : option Z) (doc : yaml) : option (localparams * aem_model) :=
  match load_config e doc with
  | Err _ => None
  | Ok (cfg, (mid, _)) =>
      match emit_aem_overlay cfg mid with
      | Err _ => None
      | Ok d =>
          match emit_adp_shape (ev_fabric e (cf_board_target cfg)) capacity cfg d, spec_from_overlay (do_overlay d) with
          | Ok header, Ok spec => match build_model spec with Ok m => Some (header, m) | Err _ => None end
          | _, _ => None
          end
      end
  end.
