(* ===== verification/ShippedBuilds.v ===== *)
(** The builder run on the shipped configurations, and the theorems about a loaded
    configuration applied to one of them.

    [shipped_configs_build] and [shipped_sweep_opts] compare what the modelled
    builder emits with files the repository tracks.  The rest are instances: the
    hypotheses of the agreement theorems hold of
    [configs/endstation_ax7101_1x1_tdm8.yaml]. *)
From S2P Require Import Prelude Unicode Descriptors Directory Text Model AudioMaps Assemble Specs AemiImage.
From S2P Require Import Config BuilderFormats BuilderStreams BuilderClusters Srp BuilderConfig BuilderOverlay.
From S2P Require Import BuilderAgree BuilderHeader BuilderArgs ShippedConfigs.

(** * The tracked files *)

(** The builder accepts every shipped configuration, the shape header it emits is
    the tracked one value for value, and the overlay it emits builds a model. *)
Definition reproduces (doc : yaml) (header : localparams) : bool :=
  match build_all shipped_env shipped_capacity doc with
  | Some (h, _) => bool_decide (h = header)
  | None => false
  end.

Lemma reproduces_true doc header : reproduces doc header = true ->
  exists m, build_all shipped_env shipped_capacity doc = Some (header, m).
Proof.
  unfold reproduces. destruct (build_all _ _ doc) as [[h m]|]; [|done].
  intros ->%bool_decide_eq_true. by exists m.
Qed.

(** Every shipped configuration loads, and building it gives exactly the shape
    header the repository tracks for it and an AEM model. *)
Theorem shipped_configs_build :
  Forall (fun c => exists m, build_all shipped_env shipped_capacity (fst c) = Some (snd c, m)) shipped.
Proof.
  assert (forallb (fun c => reproduces (fst c) (snd c)) shipped = true) as H by (vm_compute; reflexivity).
  rewrite forallb_forall in H. apply List.Forall_forall. intros c Hc. apply reproduces_true, H, Hc.
Qed.

Fixpoint join_words (l : list pystr) : pystr :=
  match l with [] => [] | [w] => w | w :: l' => w ++ lit " " ++ join_words l' end.

(** [OPTS] of a sweep fragment, as [emit_sweep_opts] joins it. *)
Definition sweep_opts (doc : yaml) : result config_error pystr :=
  let* (cfg, _) := load_config shipped_env doc in
  let* words := emit_soc_argv (shipped_fabric (cf_board_target cfg)) 48000 32 cfg in
  Ok (join_words words).

(** The [OPTS] of [configs/generated/sweep_opts_arty.sh] and [sweep_opts_ax7101.sh]. *)
Definition arty_opts : pystr := lit
  "--board arty --sys-clk-freq 83.333e6 --milan-clk-freq 50e6 --num-streams 4 --audio-interface tdm8 --audio-interface-master --talker-wire-chans 4 --fabric-gptp --cpu vexiiriscv --software-profile baremetal --xlen 32 --full --with-spiflash --flashboot baremetal --timing-opt --l2-bytes 0 --uart-baudrate 115200 --cpu-count 1".
Definition ax7101_opts : pystr := lit
  "--board ax7101 --milan-clk-freq 50e6 --gtx-tx-invert --floorplan --eth-port e1 --no-i2s-playback --no-render-lpf --num-streams 1 --audio-interface tdm8 --audio-interface-master --audio-interface-render 8 --talker-wire-chans 8 --loopback-lane --fabric-gptp --gptp-ingress-lat-ns 656 --gptp-egress-lat-ns 219 --cpu vexiiriscv --software-profile baremetal --xlen 32 --full --with-spiflash --flashboot baremetal --timing-opt --l2-bytes 0 --uart-baudrate 115200 --cpu-count 1".

(** The command lines of the two configurations that own the tracked sweep
    fragments are the fragments' [OPTS], character for character. *)
Theorem shipped_sweep_opts :
  sweep_opts arty_4x4 = Ok arty_opts /\ sweep_opts ax7101_1x1_tdm8 = Ok ax7101_opts.
Proof. split; vm_compute; reflexivity. Qed.

(** * One configuration, loaded *)

(** The value of a result known to be one. *)
Definition the {E A} (r : result E A) : match r with Ok _ => A | Err _ => E end :=
  match r with Ok a => a | Err e => e end.

Definition tdm8_loaded := Eval vm_compute in the (load_config shipped_env ax7101_1x1_tdm8).
Definition tdm8_cfg : config := Eval vm_compute in fst tdm8_loaded.
Definition tdm8_mid : Z := Eval vm_compute in fst (snd tdm8_loaded).
Definition tdm8_overlay := Eval vm_compute in the (emit_aem_overlay tdm8_cfg tdm8_mid).
Definition tdm8_doc : document := tdm8_overlay.
Definition tdm8_specification := Eval vm_compute in the (spec_from_overlay (do_overlay tdm8_doc)).
Definition tdm8_spec : model_spec := tdm8_specification.

Lemma tdm8_load : load_config shipped_env ax7101_1x1_tdm8 = Ok tdm8_loaded.
Proof. vm_compute. reflexivity. Qed.

Lemma tdm8_wf : wf_config shipped_env tdm8_cfg.
Proof. exact (loaded_wf _ _ _ _ tdm8_load). Qed.

Lemma tdm8_emit : emit_aem_overlay tdm8_cfg tdm8_mid = Ok tdm8_doc.
Proof. vm_compute. reflexivity. Qed.

Lemma tdm8_from_overlay : spec_from_overlay (do_overlay tdm8_doc) = Ok tdm8_spec.
Proof. vm_compute. reflexivity. Qed.

(** * The theorems of the library at that configuration *)

Lemma load_config_wf_witness :
  exists cfg mid src, load_config shipped_env ax7101_1x1_tdm8 = Ok (cfg, (mid, src)) /\
    wf_config shipped_env cfg /\ 0 < mid < 2 ^ 64 - 1.
Proof.
  exists tdm8_cfg, tdm8_mid, (snd (snd tdm8_loaded)). split; [exact tdm8_load|].
  exact (load_config_wf shipped_env ax7101_1x1_tdm8 tdm8_cfg tdm8_mid _ tdm8_load).
Defined.

Lemma overlay_accepted_witness :
  exists doc spec, emit_aem_overlay tdm8_cfg tdm8_mid = Ok doc /\ spec_from_overlay (do_overlay doc) = Ok spec.
Proof.
  apply (overlay_accepted shipped_env tdm8_cfg tdm8_mid); [exact tdm8_wf|reflexivity|].
  repeat constructor; cbn; tauto.
Defined.

Lemma dyn_in_agree_witness :
  exists dm di, dynmap_tables tdm8_spec = Ok (Some dm) /\
    adp_dyn_in_geometry tdm8_cfg (do_overlay tdm8_doc) = Ok (Some di) /\
    di_keys di = dm_keys dm /\ di_page di = dm_page dm /\ di_pbase di = dm_pbase dm /\
    di_pcls di = dm_pcls dm /\ di_pnmaps di = dm_pnmaps dm /\ di_saaf di = dm_saaf dm /\
    di_sch di = dm_sch dm.
Proof.
  eexists. assert (E : dynmap_tables tdm8_spec = Ok (Some _)) by (vm_compute; reflexivity).
  destruct (dyn_in_agree _ _ _ _ _ tdm8_wf tdm8_emit tdm8_from_overlay _ E) as (di & H).
  exists di. split; [exact E|exact H].
Defined.

Lemma dyn_in_accepted_iff_witness :
  Forall (fun p => (exists page, p_map_page p = Some page /\ page <= 9) /\ port_end p <= 64) (cf_ports_in tdm8_cfg).
Proof.
  apply (proj1 (dyn_in_accepted_iff _ _ _ _ _ tdm8_wf tdm8_emit tdm8_from_overlay)).
  eexists. vm_compute. reflexivity.
Defined.

Lemma dyn_out_agree_witness :
  exists od g, odmap_tables tdm8_spec true = Ok (Some od) /\
    adp_dyn_out_geometry tdm8_cfg (do_overlay tdm8_doc) = Ok (Some g) /\
    do_pcls g = od_pcls od /\ do_pcbase g = od_pcbase od /\ do_sch g = od_sch od /\ do_csrc g = od_csrc od.
Proof.
  eexists. assert (E : odmap_tables tdm8_spec true = Ok (Some _)) by (vm_compute; reflexivity).
  destruct (dyn_out_agree _ _ _ _ _ tdm8_wf tdm8_emit tdm8_from_overlay true _ E) as (g & H).
  exists g. split; [exact E|exact H].
Defined.

Definition tdm8_model := Eval vm_compute in the (build_model tdm8_spec).

Lemma advertised_counts_built_witness :
  exists m entries, build_model tdm8_spec = Ok m /\
    adp_name_entries shipped_capacity (do_descriptor_counts tdm8_doc) = Ok entries /\ entries = zlen (am_named m).
Proof.
  exists tdm8_model. eexists.
  assert (Eb : build_model tdm8_spec = Ok tdm8_model) by (vm_compute; reflexivity).
  assert (Ee : adp_name_entries shipped_capacity (do_descriptor_counts tdm8_doc) = Ok _) by (vm_compute; reflexivity).
  split; [exact Eb|]. split; [exact Ee|].
  exact (proj2 (proj2 (proj2 (proj2
    (advertised_counts_built _ _ _ _ _ tdm8_wf tdm8_emit tdm8_from_overlay _ _ _ Eb Ee))))).
Defined.

Lemma clock_sources_located_witness :
  clock_source_table (ov_clock_sources (do_overlay tdm8_doc)) = clock_source_table (sp_clock_sources tdm8_spec).
Proof.
  exact (proj1 (proj2 (clock_sources_located _ _ _ _ _ tdm8_wf tdm8_emit tdm8_from_overlay))).
Defined.

(** The first output port and its loopback clusters. *)
Definition tdm8_port : port := Port 0 0 17 8 0 0 Dynamic None
  [Seg "physical" 0 8 0; Seg "pilot" 8 1 0; Seg "loopback" 9 8 0] true.
Definition tdm8_loopback : segment := Seg "loopback" 9 8 0.

Lemma loopback_names_sources_witness :
  exists src ch, ch = 2 * sr_idx src + sr_half src /\
    name_loopback (naming_of tdm8_cfg Talker) 0 3
      = lit "Loopback S" ++ dec (sr_idxh src) ++ lit " " ++
        chname (naming_of tdm8_cfg Talker) ch (lit "ch " ++ dec ch).
Proof.
  eexists.
  assert (E : (let* rx := map_err (fun _ => EOutputSources) (rx_channels (ov_stream_inputs (do_overlay tdm8_doc))) in
    map_err (fun _ => EOutputSources) (cluster_source_of true rx 0 "loopback" 3)) = Ok _) by (vm_compute; reflexivity).
  assert (M : Forall channels_match (cf_listeners tdm8_cfg)).
  { constructor; [|constructor]. exists 0x0205022002006000%Z. eexists.
    split; [vm_compute; reflexivity|]. split; [lia|vm_compute; reflexivity]. }
  exact (loopback_names_sources _ _ _ _ _ tdm8_wf tdm8_emit tdm8_from_overlay tdm8_port tdm8_loopback 3 true
    _ M ltac:(left; reflexivity) ltac:(right; right; left; reflexivity) eq_refl E).
Defined.

Lemma render_keys_witness :
  exists v, in_rphys 0 8 25 (cf_ports_in tdm8_cfg) !! 3%nat = Some v /\
    ((v = 0 /\ (forall ch, physical_cluster (cf_ports_in tdm8_cfg) 3 ch -> ~ rendered 0 8 ch)) \/
     (exists ch, v = Z.lor 0x40 ch /\ physical_cluster (cf_ports_in tdm8_cfg) 3 ch /\ rendered 0 8 ch)).
Proof.
  eexists. assert (E : in_rphys 0 8 25 (cf_ports_in tdm8_cfg) !! 3%nat = Some _) by (vm_compute; reflexivity).
  split; [exact E|]. exact (render_keys shipped_env tdm8_cfg 0 8 25 3 _ tdm8_wf E).
Defined.

Lemma csrc_word_decode_witness :
  exists s, cluster_source_of true [(0, 5)] 0 "loopback" 3 = Ok s /\ csrc_fields (csrc_word s) = s.
Proof.
  eexists. assert (E : cluster_source_of true [(0, 5)] 0 "loopback" 3 = Ok _) by (vm_compute; reflexivity).
  split; [exact E|].
  apply (csrc_word_decode true [(0, 5)] 0 "loopback" 3 _ ltac:(lia) ltac:(lia)
           ltac:(repeat constructor; cbn; lia) E eq_refl).
Defined.

Lemma params_follow_options_witness :
  exists design ps, emit_design_opts (shipped_fabric "ax7101") 48000 32 tdm8_cfg = Ok design /\
    NoDup (map ar_flag design) /\ options_agree design ps.
Proof.
  eexists. eexists.
  assert (E : emit_design_opts (shipped_fabric "ax7101") 48000 32 tdm8_cfg = Ok _) by (vm_compute; reflexivity).
  split; [exact E|].
  refine (params_follow_options (shipped_fabric "ax7101") 48000 32 [("REBOOT_MAC_MIN_MBPS_P"%string, 1000)] tdm8_cfg
    _ _ E eq_refl eq_refl _).
  apply List.Forall_forall. intros k Hk [<-|[]]. repeat destruct Hk as [Hk|Hk]; done.
Defined.

Lemma station_identity_witness :
  exists ident, AemiImage.identity_from_overlay (Some (do_adp tdm8_doc)) (AemiImage.JStr (do_model_id tdm8_doc))
      AemiImage.sample_pkg = Ok ident /\
    ident !! "CLOCK_ID"%string = Some (eui64_of (be_bytes 6 (pf_mac (cf_platform tdm8_cfg)))).
Proof.
  destruct (station_identity _ _ _ _ _ tdm8_wf tdm8_emit tdm8_from_overlay AemiImage.sample_pkg 0xC588
    ltac:(by vm_compute) ltac:(vm_compute; reflexivity) ltac:(by vm_compute)) as (ident & H & _ & Hc & _).
  exists ident. split; [exact H|exact Hc].
Defined.
