(* ===== verification/NvmBuilds.v ===== *)
(** From a configuration to its saved state: the shape the builder's overlay
    gives ([build] of [scripts/nvm_shape.py]), what the record inventory of a
    loaded configuration is, and the record tables of two shipped ones.

    [build] runs the builder and the image generator and reads their files back.
    Here the overlay is the builder's document; the name count is an argument,
    because the packer that writes it into the image header is not in the
    repository. *)
From S2P Require Import Prelude Unicode Text Descriptors Specs.
From S2P Require Import Config BuilderStreams BuilderClusters BuilderConfig BuilderOverlay BuilderAgree.
From S2P Require Import BuilderHeader ShippedConfigs ShippedBuilds.
From S2P Require Import Crc NvmContract NvmJournal NvmShape NvmMaps NvmGate NvmGateImage NvmTable.

(** * The shape of a build *)

(** The key of [descriptor_counts] a type is read under. *)
Definition dtype_name (t : dtype) : string :=
  match t with
  | ENTITY => "ENTITY" | CONFIGURATION => "CONFIGURATION" | AUDIO_UNIT => "AUDIO_UNIT"
  | STREAM_INPUT => "STREAM_INPUT" | STREAM_OUTPUT => "STREAM_OUTPUT" | AVB_INTERFACE => "AVB_INTERFACE"
  | CLOCK_SOURCE => "CLOCK_SOURCE" | CLOCK_DOMAIN => "CLOCK_DOMAIN" | CONTROL => "CONTROL"
  | AUDIO_CLUSTER => "AUDIO_CLUSTER"
  | STREAM_PORT_INPUT => "STREAM_PORT_INPUT" | STREAM_PORT_OUTPUT => "STREAM_PORT_OUTPUT"
  end%string.

Definition overlay_counts (doc : BuilderOverlay.document) : counts := fun t =>
  BuilderOverlay.count_of (do_descriptor_counts doc) (dtype_name t).

(** A port as the overlay publishes it, with the keys the inventory reads. *)
Definition shape_port (p : BuilderClusters.port) : stream_port :=
  {| p_index := BuilderClusters.p_index p; p_clusters := BuilderClusters.p_clusters p;
     p_dynamic := BuilderClusters.p_dynamic p |}.

Definition build_shape (stem : pystr) (names : Z) (cfg : config) (doc : BuilderOverlay.document) : Shape :=
  {| s_stem := stem; s_names := names; s_dc := overlay_counts doc;
     s_spi := map shape_port (cf_ports_in cfg); s_spo := map shape_port (cf_ports_out cfg) |}.

(** * The saved state of a loaded configuration *)

Lemma laid_indices ports : forall k base m, laid k base m ports ->
  map BuilderClusters.p_index ports = zrange k (length ports).
Proof.
  induction ports as [|p ports IH]; intros k base m; cbn [laid map length zrange]; [done|].
  intros (-> & _ & _ & _ & _ & _ & _ & Hl). by rewrite (IH _ _ _ Hl).
Qed.

Section Built.
Context (e : env) (cfg : config) (mid : Z) (doc : BuilderOverlay.document) (stem : pystr).
Context (Hw : wf_config e cfg) (Hemit : emit_aem_overlay cfg mid = Ok doc).

Let crf (b : bool) : Z := if b then 1 else 0.
Let inputs : Z := zlen (cf_listeners cfg) + crf (ck_crf_sink (cf_clocking cfg)).
Let outputs : Z := zlen (cf_talkers cfg) + crf (ck_crf_output (cf_clocking cfg)).
Let names : Z := expected_names (overlay_counts doc).
Let shape := build_shape stem names cfg doc.

Lemma built_counts t : overlay_counts doc t =
  Some match t with
       | STREAM_INPUT => inputs | STREAM_OUTPUT => outputs
       | CLOCK_SOURCE => zlen (overlay_clock_sources cfg)
       | AUDIO_CLUSTER => sum_z (map BuilderClusters.p_clusters (cf_ports_in cfg))
                          + sum_z (map BuilderClusters.p_clusters (cf_ports_out cfg))
       | STREAM_PORT_INPUT => zlen (cf_ports_in cfg) | STREAM_PORT_OUTPUT => zlen (cf_ports_out cfg)
       | _ => 1
       end.
Proof using Hemit.
  pose proof (emit_inv _ _ _ Hemit) as (_ & _ & _ & _ & _ & _ & Ecounts & _).
  unfold overlay_counts. rewrite Ecounts. by destruct t.
Qed.

Lemma built_dims : dims_of shape
  {| n_au := 1; n_cd := 1; n_si := inputs; n_so := outputs;
     n_pi := zlen (cf_ports_in cfg); n_po := zlen (cf_ports_out cfg) |}.
Proof using Hemit. unfold dims_of, shape. cbn [s_dc build_shape n_au n_cd n_si n_so n_pi n_po]. by rewrite !built_counts. Qed.

Lemma built_clusters p : In p (cf_ports_in cfg ++ cf_ports_out cfg) -> 0 <= BuilderClusters.p_clusters p.
Proof using Hw.
  destruct (wf_laid _ _ Hw) as (_ & _ & Hli & Hlo).
  intros [Hp|Hp]%in_app_iff; [apply (laid_In _ _ _ _ _ Hli) in Hp|apply (laid_In _ _ _ _ _ Hlo) in Hp];
    destruct Hp as (_ & _ & Ht & _); exact (tiles_le _ _ _ Ht).
Qed.

Lemma built_shape_ok : shape_ok shape.
Proof using All.
  destruct (wf_laid _ _ Hw) as (_ & _ & Hli & Hlo).
  pose proof (blocks_sum_nonneg _ _ (laid_blocks _ _ _ _ Hli)) as Hs.
  pose proof (blocks_sum_nonneg _ _ (laid_blocks _ _ _ _ Hlo)) as Hs'.
  split; unfold shape; cbn [s_dc s_spi s_spo s_names build_shape].
  - intros t n. rewrite built_counts. intros [= <-]. unfold inputs, outputs, crf.
    pose proof (zlen_nonneg (cf_listeners cfg)). pose proof (zlen_nonneg (cf_talkers cfg)).
    destruct t; repeat case_match; try lia; apply zlen_nonneg.
  - intros g t _. rewrite built_counts. by eexists.
  - intros n. rewrite built_counts. intros [= <-]. unfold zlen. rewrite Nat2Z.id, map_map.
    by rewrite <-(laid_indices _ _ _ _ Hli).
  - intros n. rewrite built_counts. intros [= <-]. unfold zlen. rewrite Nat2Z.id, map_map.
    by rewrite <-(laid_indices _ _ _ _ Hlo).
  - intros q. rewrite <-map_app. intros (p & <- & Hp)%in_map_iff. by apply built_clusters.
  - done.
Qed.

(** The name count of the gateware is the one the ledger derives. *)
Lemma built_names capacity entries : adp_name_entries capacity (do_descriptor_counts doc) = Ok entries -> entries = names.
Proof using Hemit.
  intros H. unfold adp_name_entries in H. rsplit H. subst entries. unfold names, expected_names, NAME_SLOTS.
  change named_types with (map dtype_name [ENTITY; CONFIGURATION; AUDIO_UNIT; STREAM_INPUT; STREAM_OUTPUT;
    AVB_INTERFACE; CLOCK_SOURCE; CLOCK_DOMAIN; CONTROL; AUDIO_CLUSTER]).
  rewrite map_map. change (fun t => default 0 (BuilderOverlay.count_of (do_descriptor_counts doc) (dtype_name t)))
    with (fun t => default 0 (overlay_counts doc t)).
  cbn [map fst snd]. rewrite !built_counts. unfold sum_z. cbn [foldr default from_option id]. lia.
Qed.

Lemma built_inventory base : exists recs, inventory shape base = Ok recs
  /\ map r_key recs ≡ₚ required shape
       {| n_au := 1; n_cd := 1; n_si := inputs; n_so := outputs;
          n_pi := zlen (cf_ports_in cfg); n_po := zlen (cf_ports_out cfg) |}
  /\ zlen recs = 5 + 2 * inputs + 2 * outputs + zlen (cf_ports_in cfg) + zlen (cf_ports_out cfg) + names
  /\ ((forall r, In r recs -> is_Some (r_id r)) <-> inputs <= 16 /\ outputs <= 16 /\ names <= 128).
Proof using All.
  pose proof built_shape_ok as S. rewrite (inventory_eq _ _ base built_dims). eexists. split; [done|].
  pose proof (inventory_keys_perm _ _ base built_dims S) as HP. split; [exact HP|]. split.
  - rewrite <-(zlen_map r_key). unfold zlen. rewrite HP. fold (zlen (keys_of_cards (cards
      {| n_au := 1; n_cd := 1; n_si := inputs; n_so := outputs;
         n_pi := zlen (cf_ports_in cfg); n_po := zlen (cf_ports_out cfg) |} ++ [(NAME, expected_names (s_dc shape))]))).
    rewrite keys_of_cards_length by (intros gc; apply (cards_nonneg shape _ gc built_dims S)).
    unfold sum_z. cbn [cards map app foldr snd n_au n_cd n_si n_so n_pi n_po].
    change (expected_names (s_dc shape)) with names. unfold zlen. lia.
  - rewrite (inventory_allocated _ _ base built_dims S).
    destruct (wf_laid _ _ Hw) as (Hpi & Hpo & _ & _).
    destruct (cw_listeners _ _ Hw) as [HL _]. destruct (cw_talkers _ _ Hw) as [HT _].
    change (expected_names (s_dc shape)) with names.
    unfold cards. cbn [app n_au n_cd n_si n_so n_pi n_po]. rewrite !Forall_cons, Forall_nil.
    cbn [fst snd block_of ALLOC]. rewrite Hpi, Hpo. intuition lia.
Qed.
End Built.

(** C5: The saved state of a configuration that loads.  The shape its overlay gives
    is a good one, with the name count the gateware is told; its inventory is the
    key set the gate requires, one row per item and index; and the census that
    sizes the firmware's buffer succeeds exactly when the streams of each
    direction, the CRF stream counted, fit their sixteen ids and the names their
    one hundred and twenty-eight.  The loader accepts sixteen streams without the
    CRF stream, so not every configuration it accepts has a saved state. *)
Theorem saved_state_of_build e cfg mid doc stem capacity entries base :
  wf_config e cfg -> emit_aem_overlay cfg mid = Ok doc ->
  adp_name_entries capacity (do_descriptor_counts doc) = Ok entries ->
  let shape := build_shape stem entries cfg doc in
  let inputs := zlen (cf_listeners cfg) + (if ck_crf_sink (cf_clocking cfg) then 1 else 0) in
  let outputs := zlen (cf_talkers cfg) + (if ck_crf_output (cf_clocking cfg) then 1 else 0) in
  shape_ok shape
  /\ (exists recs, inventory shape base = Ok recs /\ completeness shape recs = Ok []
        /\ zlen recs = 5 + 2 * inputs + 2 * outputs + zlen (cf_listeners cfg) + zlen (cf_talkers cfg) + entries)
  /\ (is_ok (closed_record_census shape base) = true <-> inputs <= 16 /\ outputs <= 16 /\ entries <= 128).
Proof.
  intros Hw Hemit ->%(built_names _ _ _ Hemit). cbv zeta.
  pose proof (built_shape_ok e cfg mid doc stem Hw Hemit) as S.
  pose proof (built_dims cfg mid doc stem Hemit) as D.
  destruct (built_inventory e cfg mid doc stem Hw Hemit base) as (recs & HI & HP & HL & Hid).
  destruct (wf_laid _ _ Hw) as (Hpi & Hpo & _ & _). rewrite Hpi, Hpo in HL.
  split; [exact S|]. split; [exists recs; split_and!; [done| |done]|].
  - apply (completeness_nil _ _ _ (record_keys_eq _ _ D)). split; [symmetry; apply S|exact HP].
  - rewrite <-Hid. unfold closed_record_census. rewrite HI. cbn [rbind]. unfold raise_if.
    destruct (existsb _ recs) eqn:E; cbn [rbind is_ok].
    + split; [done|]. intros H. apply existsb_exists in E as (r & Hr & E%bool_decide_eq_true).
      destruct (H r Hr) as [rid Hrid]. congruence.
    + split; [|done]. intros _ r Hr. destruct (r_id r) as [rid|] eqn:Er; [by eexists|].
      assert (existsb (fun r => bool_decide (r_id r = None)) recs = true) as K; [|congruence].
      apply existsb_exists. exists r. split; [done|]. by apply bool_decide_eq_true.
Qed.

(** * The tracked record tables *)

(** The tables are for the donor's binding base and record layout, both read from
    the RTL of the submodule; the tables themselves show them. *)
Definition table_donor : Donor := {| d_base := 0x20; d_layout := 2 |}.

(** [_emit_record_table]: build one configuration and render its table. *)
Definition emit_record_table (stem : pystr) (doc : yaml) : option pystr :=
  match load_config shipped_env doc with
  | Ok (cfg, (mid, _)) =>
      match emit_aem_overlay cfg mid with
      | Ok d =>
          match adp_name_entries shipped_capacity (do_descriptor_counts d) with
          | Ok entries =>
              let shape := build_shape stem entries cfg d in
              match (let* recs := inventory shape (d_base table_donor) in render_record_table shape recs table_donor) with
              | Ok text => Some text
              | Err _ => None
              end
          | Err _ => None
          end
      | Err _ => None
      end
  | Err _ => None
  end.

(** [tb/verilator/nvm_backend/records_endstation_ax7101_1x1_tdm8.txt]. *)
Definition tdm8_table : pystr := lit "# GENERATED by scripts/check_nvm_record_space.py --emit-record-table
# DO NOT EDIT: the gate rebuilds this file and reports a mismatch.
shape endstation_ax7101_1x1_tdm8
layout 2
hdrbytes 40
imglen 3336
crc32 0x6FEA9AD3
nrec 54
# rec <id> <area_offset> <framed_len> <payload_len> <group> <index>
rec 0x00 0 10 2 CFG_IDX 0
rec 0x01 10 16 8 SUID 0
rec 0x02 26 12 4 RATE 0
rec 0x0A 38 10 2 CLKSRC 0
rec 0x12 48 74 66 MCR 0
rec 0x20 122 28 20 BINDING 0
rec 0x21 150 28 20 BINDING 1
rec 0x30 178 16 8 FMT_IN 0
rec 0x31 194 16 8 FMT_IN 1
rec 0x40 210 16 8 FMT_OUT 0
rec 0x41 226 16 8 FMT_OUT 1
rec 0x50 242 12 4 PT_OFS 0
rec 0x51 254 12 4 PT_OFS 1
rec 0x60 266 72 64 MAPS_IN 0
rec 0x70 338 144 136 MAPS_OUT 0
rec 0x80 482 72 64 NAME 0
rec 0x81 554 72 64 NAME 1
rec 0x82 626 72 64 NAME 2
rec 0x83 698 72 64 NAME 3
rec 0x84 770 72 64 NAME 4
rec 0x85 842 72 64 NAME 5
rec 0x86 914 72 64 NAME 6
rec 0x87 986 72 64 NAME 7
rec 0x88 1058 72 64 NAME 8
rec 0x89 1130 72 64 NAME 9
rec 0x8A 1202 72 64 NAME 10
rec 0x8B 1274 72 64 NAME 11
rec 0x8C 1346 72 64 NAME 12
rec 0x8D 1418 72 64 NAME 13
rec 0x8E 1490 72 64 NAME 14
rec 0x8F 1562 72 64 NAME 15
rec 0x90 1634 72 64 NAME 16
rec 0x91 1706 72 64 NAME 17
rec 0x92 1778 72 64 NAME 18
rec 0x93 1850 72 64 NAME 19
rec 0x94 1922 72 64 NAME 20
rec 0x95 1994 72 64 NAME 21
rec 0x96 2066 72 64 NAME 22
rec 0x97 2138 72 64 NAME 23
rec 0x98 2210 72 64 NAME 24
rec 0x99 2282 72 64 NAME 25
rec 0x9A 2354 72 64 NAME 26
rec 0x9B 2426 72 64 NAME 27
rec 0x9C 2498 72 64 NAME 28
rec 0x9D 2570 72 64 NAME 29
rec 0x9E 2642 72 64 NAME 30
rec 0x9F 2714 72 64 NAME 31
rec 0xA0 2786 72 64 NAME 32
rec 0xA1 2858 72 64 NAME 33
rec 0xA2 2930 72 64 NAME 34
rec 0xA3 3002 72 64 NAME 35
rec 0xA4 3074 72 64 NAME 36
rec 0xA5 3146 72 64 NAME 37
rec 0xA6 3218 72 64 NAME 38
".

(** [tb/verilator/nvm_backend/records_endstation_ax7101_8x8.txt]. *)
Definition table_8x8 : pystr := lit "# GENERATED by scripts/check_nvm_record_space.py --emit-record-table
# DO NOT EDIT: the gate rebuilds this file and reports a mismatch.
shape endstation_ax7101_8x8
layout 2
hdrbytes 40
imglen 13256
crc32 0x01F55611
nrec 164
# rec <id> <area_offset> <framed_len> <payload_len> <group> <index>
rec 0x00 0 10 2 CFG_IDX 0
rec 0x01 10 16 8 SUID 0
rec 0x02 26 12 4 RATE 0
rec 0x0A 38 10 2 CLKSRC 0
rec 0x12 48 74 66 MCR 0
rec 0x20 122 28 20 BINDING 0
rec 0x21 150 28 20 BINDING 1
rec 0x22 178 28 20 BINDING 2
rec 0x23 206 28 20 BINDING 3
rec 0x24 234 28 20 BINDING 4
rec 0x25 262 28 20 BINDING 5
rec 0x26 290 28 20 BINDING 6
rec 0x27 318 28 20 BINDING 7
rec 0x28 346 28 20 BINDING 8
rec 0x30 374 16 8 FMT_IN 0
rec 0x31 390 16 8 FMT_IN 1
rec 0x32 406 16 8 FMT_IN 2
rec 0x33 422 16 8 FMT_IN 3
rec 0x34 438 16 8 FMT_IN 4
rec 0x35 454 16 8 FMT_IN 5
rec 0x36 470 16 8 FMT_IN 6
rec 0x37 486 16 8 FMT_IN 7
rec 0x38 502 16 8 FMT_IN 8
rec 0x40 518 16 8 FMT_OUT 0
rec 0x41 534 16 8 FMT_OUT 1
rec 0x42 550 16 8 FMT_OUT 2
rec 0x43 566 16 8 FMT_OUT 3
rec 0x44 582 16 8 FMT_OUT 4
rec 0x45 598 16 8 FMT_OUT 5
rec 0x46 614 16 8 FMT_OUT 6
rec 0x47 630 16 8 FMT_OUT 7
rec 0x48 646 16 8 FMT_OUT 8
rec 0x50 662 12 4 PT_OFS 0
rec 0x51 674 12 4 PT_OFS 1
rec 0x52 686 12 4 PT_OFS 2
rec 0x53 698 12 4 PT_OFS 3
rec 0x54 710 12 4 PT_OFS 4
rec 0x55 722 12 4 PT_OFS 5
rec 0x56 734 12 4 PT_OFS 6
rec 0x57 746 12 4 PT_OFS 7
rec 0x58 758 12 4 PT_OFS 8
rec 0x60 770 8 0 MAPS_IN 0
rec 0x61 778 8 0 MAPS_IN 1
rec 0x62 786 8 0 MAPS_IN 2
rec 0x63 794 8 0 MAPS_IN 3
rec 0x64 802 8 0 MAPS_IN 4
rec 0x65 810 8 0 MAPS_IN 5
rec 0x66 818 8 0 MAPS_IN 6
rec 0x67 826 8 0 MAPS_IN 7
rec 0x70 834 584 576 MAPS_OUT 0
rec 0x71 1418 584 576 MAPS_OUT 1
rec 0x72 2002 584 576 MAPS_OUT 2
rec 0x73 2586 584 576 MAPS_OUT 3
rec 0x74 3170 584 576 MAPS_OUT 4
rec 0x75 3754 584 576 MAPS_OUT 5
rec 0x76 4338 584 576 MAPS_OUT 6
rec 0x77 4922 584 576 MAPS_OUT 7
rec 0x80 5506 72 64 NAME 0
rec 0x81 5578 72 64 NAME 1
rec 0x82 5650 72 64 NAME 2
rec 0x83 5722 72 64 NAME 3
rec 0x84 5794 72 64 NAME 4
rec 0x85 5866 72 64 NAME 5
rec 0x86 5938 72 64 NAME 6
rec 0x87 6010 72 64 NAME 7
rec 0x88 6082 72 64 NAME 8
rec 0x89 6154 72 64 NAME 9
rec 0x8A 6226 72 64 NAME 10
rec 0x8B 6298 72 64 NAME 11
rec 0x8C 6370 72 64 NAME 12
rec 0x8D 6442 72 64 NAME 13
rec 0x8E 6514 72 64 NAME 14
rec 0x8F 6586 72 64 NAME 15
rec 0x90 6658 72 64 NAME 16
rec 0x91 6730 72 64 NAME 17
rec 0x92 6802 72 64 NAME 18
rec 0x93 6874 72 64 NAME 19
rec 0x94 6946 72 64 NAME 20
rec 0x95 7018 72 64 NAME 21
rec 0x96 7090 72 64 NAME 22
rec 0x97 7162 72 64 NAME 23
rec 0x98 7234 72 64 NAME 24
rec 0x99 7306 72 64 NAME 25
rec 0x9A 7378 72 64 NAME 26
rec 0x9B 7450 72 64 NAME 27
rec 0x9C 7522 72 64 NAME 28
rec 0x9D 7594 72 64 NAME 29
rec 0x9E 7666 72 64 NAME 30
rec 0x9F 7738 72 64 NAME 31
rec 0xA0 7810 72 64 NAME 32
rec 0xA1 7882 72 64 NAME 33
rec 0xA2 7954 72 64 NAME 34
rec 0xA3 8026 72 64 NAME 35
rec 0xA4 8098 72 64 NAME 36
rec 0xA5 8170 72 64 NAME 37
rec 0xA6 8242 72 64 NAME 38
rec 0xA7 8314 72 64 NAME 39
rec 0xA8 8386 72 64 NAME 40
rec 0xA9 8458 72 64 NAME 41
rec 0xAA 8530 72 64 NAME 42
rec 0xAB 8602 72 64 NAME 43
rec 0xAC 8674 72 64 NAME 44
rec 0xAD 8746 72 64 NAME 45
rec 0xAE 8818 72 64 NAME 46
rec 0xAF 8890 72 64 NAME 47
rec 0xB0 8962 72 64 NAME 48
rec 0xB1 9034 72 64 NAME 49
rec 0xB2 9106 72 64 NAME 50
rec 0xB3 9178 72 64 NAME 51
rec 0xB4 9250 72 64 NAME 52
rec 0xB5 9322 72 64 NAME 53
rec 0xB6 9394 72 64 NAME 54
rec 0xB7 9466 72 64 NAME 55
rec 0xB8 9538 72 64 NAME 56
rec 0xB9 9610 72 64 NAME 57
rec 0xBA 9682 72 64 NAME 58
rec 0xBB 9754 72 64 NAME 59
rec 0xBC 9826 72 64 NAME 60
rec 0xBD 9898 72 64 NAME 61
rec 0xBE 9970 72 64 NAME 62
rec 0xBF 10042 72 64 NAME 63
rec 0xC0 10114 72 64 NAME 64
rec 0xC1 10186 72 64 NAME 65
rec 0xC2 10258 72 64 NAME 66
rec 0xC3 10330 72 64 NAME 67
rec 0xC4 10402 72 64 NAME 68
rec 0xC5 10474 72 64 NAME 69
rec 0xC6 10546 72 64 NAME 70
rec 0xC7 10618 72 64 NAME 71
rec 0xC8 10690 72 64 NAME 72
rec 0xC9 10762 72 64 NAME 73
rec 0xCA 10834 72 64 NAME 74
rec 0xCB 10906 72 64 NAME 75
rec 0xCC 10978 72 64 NAME 76
rec 0xCD 11050 72 64 NAME 77
rec 0xCE 11122 72 64 NAME 78
rec 0xCF 11194 72 64 NAME 79
rec 0xD0 11266 72 64 NAME 80
rec 0xD1 11338 72 64 NAME 81
rec 0xD2 11410 72 64 NAME 82
rec 0xD3 11482 72 64 NAME 83
rec 0xD4 11554 72 64 NAME 84
rec 0xD5 11626 72 64 NAME 85
rec 0xD6 11698 72 64 NAME 86
rec 0xD7 11770 72 64 NAME 87
rec 0xD8 11842 72 64 NAME 88
rec 0xD9 11914 72 64 NAME 89
rec 0xDA 11986 72 64 NAME 90
rec 0xDB 12058 72 64 NAME 91
rec 0xDC 12130 72 64 NAME 92
rec 0xDD 12202 72 64 NAME 93
rec 0xDE 12274 72 64 NAME 94
rec 0xDF 12346 72 64 NAME 95
rec 0xE0 12418 72 64 NAME 96
rec 0xE1 12490 72 64 NAME 97
rec 0xE2 12562 72 64 NAME 98
rec 0xE3 12634 72 64 NAME 99
rec 0xE4 12706 72 64 NAME 100
rec 0xE5 12778 72 64 NAME 101
rec 0xE6 12850 72 64 NAME 102
rec 0xE7 12922 72 64 NAME 103
rec 0xE8 12994 72 64 NAME 104
rec 0xE9 13066 72 64 NAME 105
rec 0xEA 13138 72 64 NAME 106
".

(** From the configuration file to the record table, octet for octet: the two
    tables the repository tracks are the ones the modelled chain renders.  The
    builder loads the configuration and emits the overlay, the inventory is
    derived from its shape, the records are framed with their checksums, the
    image is assembled with its CRC-32, and the table states the offset of every
    record in it. *)
Theorem shipped_record_tables :
  emit_record_table (lit "endstation_ax7101_1x1_tdm8") ax7101_1x1_tdm8 = Some tdm8_table
  /\ emit_record_table (lit "endstation_ax7101_8x8") ax7101_8x8 = Some table_8x8.
Proof. split; vm_compute; reflexivity. Qed.

(** * Sixteen streams and a CRF stream *)

Definition numbered_listener (k : Z) : yaml :=
  YMap [("name", YStr (lit "Stream In " ++ dec k)); ("channels", YInt 1);
        ("map_mode", YStr (lit "dynamic"))]%string.

(** A document with other listeners. *)
Definition with_listeners (l : list yaml) (doc : yaml) : yaml :=
  let put (key : string) (f : yaml -> yaml) (y : yaml) :=
    match y with
    | YMap m => YMap (map (fun kv => if String.eqb (fst kv) key then (fst kv, f (snd kv)) else kv) m)
    | y => y
    end in
  put "streams"%string (put "listeners"%string (fun _ => YList l)) doc.

(** The builder loads sixteen listeners beside the CRF sink, which makes
    seventeen stream inputs, emits their overlay and their shape header, and the
    census of their records overflows. *)
Example sixteen_listeners_unsaved :
  match load_config shipped_env (with_listeners (map numbered_listener (zrange 0 16)) ax7101_8x8) with
  | Ok (cfg, (mid, _)) =>
      match emit_aem_overlay cfg mid with
      | Ok d => is_ok (emit_adp_shape (ev_fabric shipped_env (cf_board_target cfg)) shipped_capacity cfg d) = true
                /\ overlay_counts d STREAM_INPUT = Some 17
                /\ closed_record_census (build_shape (lit "16x8") 123 cfg d) 0x20 = Err (NOverflow (lit "16x8"))
      | Err _ => False
      end
  | Err _ => False
  end.
Proof. vm_compute. split; [|split]; reflexivity. Qed.

(** * Instances: the 1x1 configuration *)

Definition tdm8_shape : Shape := build_shape (lit "endstation_ax7101_1x1_tdm8") 39 tdm8_cfg tdm8_doc.
Definition tdm8_rows : list nvm_record :=
  match inventory tdm8_shape 0x20 with Ok recs => recs | Err _ => [] end.
Definition tdm8_pays : gmap Key Z :=
  match expected_payloads tdm8_shape with Ok pays => pays | Err _ => ∅ end.

Lemma tdm8_entries : adp_name_entries shipped_capacity (do_descriptor_counts tdm8_doc) = Ok 39.
Proof. vm_compute. reflexivity. Qed.

Lemma tdm8_shape_ok : shape_ok tdm8_shape.
Proof.
  unfold tdm8_shape. rewrite (built_names _ _ _ tdm8_emit _ _ tdm8_entries).
  exact (built_shape_ok _ _ _ _ _ tdm8_wf tdm8_emit).
Qed.

Lemma tdm8_inventory : inventory tdm8_shape 0x20 = Ok tdm8_rows.
Proof. vm_compute. reflexivity. Qed.

Lemma tdm8_payloads : expected_payloads tdm8_shape = Ok tdm8_pays.
Proof.
  assert (is_ok (expected_payloads tdm8_shape) = true) as K by (vm_compute; reflexivity).
  unfold tdm8_pays. destruct (expected_payloads tdm8_shape); [reflexivity|discriminate K].
Qed.

Lemma saved_state_of_build_witness :
  is_ok (closed_record_census tdm8_shape 0x20) = true
  /\ exists recs, inventory tdm8_shape 0x20 = Ok recs /\ zlen recs = 54.
Proof.
  destruct (saved_state_of_build _ _ _ _ (lit "endstation_ax7101_1x1_tdm8") _ _ 0x20 tdm8_wf tdm8_emit tdm8_entries)
    as (_ & (recs & HI & _ & HL) & Hc).
  split.
  - apply Hc. vm_compute. split; [discriminate|]. split; discriminate.
  - exists recs. split; [exact HI|]. rewrite HL. vm_compute. reflexivity.
Defined.

Lemma tdm8_row_bounds : forallb (fun r => (r_index r <? block_of (r_group r)) && (r_plen r <=? MAX_PAYLOAD)) tdm8_rows = true.
Proof. vm_compute. reflexivity. Qed.

(** The shipped configuration passes the gate. *)
Lemma gate_accepts_witness :
  image_length tdm8_rows = 3336
  /\ completeness tdm8_shape tdm8_rows = Ok []
  /\ check_image FIXED SEAM tdm8_shape tdm8_rows table_donor = Ok []
  /\ check_output_maps tdm8_shape tdm8_rows table_donor tdm8_pays = Ok [].
Proof.
  split; [vm_compute; reflexivity|].
  assert (base_ok (d_base table_donor)) as Hb by (unfold base_ok; cbn; lia).
  assert (0 <= d_layout table_donor < 256) as Hl by (cbn; lia).
  assert (image_length tdm8_rows <= ERASE_BLOCK FIXED) as Hi by (vm_compute; discriminate).
  assert (image_length tdm8_rows + MAP_ENTRY <= ERASE_BLOCK FIXED) as Hi' by (vm_compute; discriminate).
  assert (forall r, In r tdm8_rows -> r_index r < block_of (r_group r) /\ r_plen r <= MAX_PAYLOAD) as Hr.
  { intros r Hin. pose proof (proj1 (forallb_forall _ _) tdm8_row_bounds r Hin) as [H1 H2]%andb_true_iff.
    split; [apply Z.ltb_lt, H1|apply Z.leb_le, H2]. }
  destruct (gate_accepts tdm8_shape table_donor tdm8_rows tdm8_pays tdm8_shape_ok Hb Hl tdm8_inventory
              tdm8_payloads Hr Hi) as (H1 & _ & _ & H4 & H5).
  split; [exact H1|]. split; [exact H4|exact (H5 Hi')].
Defined.

(** The table of the shipped configuration, record by record. *)
Lemma record_table_exact_witness :
  exists blob (offs : gmap Z Z) rows, zlen blob = 3336 /\ zlen rows = 54
    /\ forall rid r, In (rid, r) rows -> exists off, offs !! rid = Some off
         /\ zslice (KLJ2_HDR + off) (REC_HDR + r_plen r) blob = record_frame rid (table_payload r rid) 2.
Proof.
  assert (0 <= d_layout table_donor < 256) as Hl by (cbn; lia).
  assert (forallb (fun r => match r_id r with
      | Some rid => (0 <=? rid) && (rid <? 256) && (0 <=? r_plen r) && (r_plen r <? 65536) | None => false end)
      tdm8_rows = true) as K by (vm_compute; reflexivity).
  assert (forall r, In r tdm8_rows -> exists rid, r_id r = Some rid /\ 0 <= rid < 256 /\ 0 <= r_plen r < 65536) as Hr.
  { intros r Hin. pose proof (proj1 (forallb_forall _ _) K r Hin) as E. cbv beta in E. destruct (r_id r) as [rid|]; [|discriminate E].
    exists rid. rewrite !andb_true_iff, !Z.leb_le, !Z.ltb_lt in E. split; [reflexivity|]. lia. }
  assert (NoDup (map r_id tdm8_rows)) as Hn by (apply (bool_decide_unpack _); vm_compute; exact I).
  assert (image_length tdm8_rows <= 65536) as Hi by (vm_compute; discriminate).
  destruct (record_table_exact tdm8_shape tdm8_rows table_donor Hl Hr Hn Hi)
    as (blob & offs & rows & _ & HL & HP & _ & Hat).
  exists blob, offs, rows. split; [exact HL|]. split.
  - apply Permutation_length in HP. rewrite length_map in HP. unfold zlen. rewrite HP. vm_compute. reflexivity.
  - intros rid r Hin. exact (proj2 (Hat rid r Hin)).
Defined.
