(* ===== verification/Packing.v ===== *)
(** Octets in and out of Python values: [struct.pack], [bytearray], slices,
    [int.from_bytes], and the keyword dictionaries the frame builders take.

    A builder reads its fields from a dictionary of values of several types, and
    what Python does with a value of the wrong type depends on the operation:
    [&] and [+] raise [TypeError], [struct.pack] raises [struct.error].  The
    operations of this file keep the two apart. *)
From S2P Require Import Prelude Text.

Inductive py_error :=
  | StructError                              (* struct.error *)
  | ValueError
  | IndexError
  | KeyError (name : string)
  | OperandType                              (* TypeError of an operator or of len() *)
  | UnexpectedKeyword (what name : string)   (* TypeError of _with_defaults *)
  | PositionalTwice (name : string)          (* TypeError: multiple values for an argument *)
  | AttributeError (name : string)
  | AssertionFailed
  | OverflowError                            (* int.to_bytes *)
  | ZeroDivision.

(** * Numbers as octets *)

(** [struct.pack] of one unsigned field of [n] octets, big-endian. *)
Definition pack (n : nat) (v : Z) : result py_error bytes :=
  if (0 <=? v) && (v <? 256 ^ Z.of_nat n) then Ok (be_bytes n v) else Err StructError.

(** [v.to_bytes(n, "big")]. *)
Definition to_be (n : nat) (v : Z) : result py_error bytes :=
  if (0 <=? v) && (v <? 256 ^ Z.of_nat n) then Ok (be_bytes n v) else Err OverflowError.

(** [struct.pack(">h", v)]. *)
Definition pack_s16 (v : Z) : result py_error bytes :=
  if (-32768 <=? v) && (v <? 32768) then Ok (be_bytes 2 (v mod 65536)) else Err StructError.

(** [bytearray.append]. *)
Definition append (f : bytes) (v : Z) : result py_error bytes :=
  if is_byteb v then Ok (f ++ [v]) else Err ValueError.

(** [b[i]] with [i >= 0]. *)
Definition octet (b : bytes) (i : Z) : result py_error Z :=
  match b !! Z.to_nat i with Some v => Ok v | None => Err IndexError end.

(** [buf[a:b] = v] on a bytearray, [0 <= a <= b]: the slice is replaced, so the
    buffer changes its length when [v] is not [b - a] octets long. *)
Definition set_slice (a b : Z) (v buf : bytes) : bytes :=
  take (Z.to_nat a) buf ++ v ++ drop (Z.to_nat b) buf.

(** [b[i] = v] on a bytearray, [i >= 0]. *)
Definition set_octet (b : bytes) (i v : Z) : result py_error bytes :=
  if zlen b <=? i then Err IndexError
  else if is_byteb v then Ok (<[Z.to_nat i := v]> b) else Err ValueError.

(** [f + b"\x00" * (n - len(f))]. *)
Definition pad_to (n : Z) (f : bytes) : bytes := f ++ zeros (Z.to_nat (n - zlen f)).

(** * Values of keyword arguments *)

Inductive value :=
  | VInt (z : Z)
  | VBool (b : bool)
  | VNone
  | VBytes (b : bytes)
  | VInts (l : list Z).

Abbreviation kwargs := (gmap string value).

Definition int_of (v : value) : result py_error Z :=
  match v with
  | VInt z => Ok z
  | VBool b => Ok (if b then 1 else 0)
  | VNone | VBytes _ | VInts _ => Err OperandType
  end.

(** [v + w] where [w] is a byte string. *)
Definition bytes_of (v : value) : result py_error bytes :=
  match v with VBytes b => Ok b | _ => Err OperandType end.

Definition truth (v : value) : bool :=
  match v with
  | VInt z => negb (z =? 0)
  | VBool b => b
  | VNone => false
  | VBytes b => negb (zlen b =? 0)
  | VInts l => negb (zlen l =? 0)
  end.

(** [bytes(v)]: a number is a count of zero octets. *)
Definition to_bytes (v : value) : result py_error bytes :=
  match v with
  | VInt n => if 0 <=? n then Ok (zeros (Z.to_nat n)) else Err ValueError
  | VBool b => Ok (zeros (if b then 1 else 0))
  | VNone => Err OperandType
  | VBytes b => Ok b
  | VInts l => if forallb is_byteb l then Ok l else Err ValueError
  end.

(** [int(v)]; a byte string is read as decimal text between ASCII spaces. *)
Definition ascii_space (c : Z) : bool := (9 <=? c) && (c <=? 13) || (c =? 32).

Fixpoint lstrip (b : bytes) : bytes :=
  match b with c :: b' => if ascii_space c then lstrip b' else b | [] => [] end.

Definition to_int (v : value) : result py_error Z :=
  match v with
  | VBytes b =>
      let r := match rev (lstrip (rev (lstrip b))) with
               | 45 :: s => Z.opp <$> dec_digits_us 0 false s
               | 43 :: s => dec_digits_us 0 false s
               | s => dec_digits_us 0 false s
               end in
      match r with Some z => Ok z | None => Err ValueError end
  | _ => int_of v
  end.

(** [len(v)] and the elements a [for] loop sees. *)
Definition elements (v : value) : result py_error (list Z) :=
  match v with VBytes b => Ok b | VInts l => Ok l | _ => Err OperandType end.

(** * Reading a field *)

(** [fld[name]]. *)
Definition field (fld : kwargs) (name : string) : result py_error value :=
  match fld !! name with Some v => Ok v | None => Err (KeyError name) end.

(** [fld[name] & m]. *)
Definition masked (fld : kwargs) (name : string) (m : Z) : result py_error Z :=
  let* v := field fld name in let* z := int_of v in Ok (Z.land z m).

(** [struct.pack] of [fld[name] & m], and of [fld[name]] as it is. *)
Definition pack_masked (n : nat) (fld : kwargs) (name : string) (m : Z) : result py_error bytes :=
  let* z := masked fld name m in pack n z.

Definition pack_field (n : nat) (fld : kwargs) (name : string) : result py_error bytes :=
  let* v := field fld name in
  let* z := map_err (fun _ => StructError) (int_of v) in pack n z.

(** [**fields] of a call whose positional parameters are [names]. *)
Definition no_positional (names : list string) (given : kwargs) : result py_error unit :=
  match List.find (fun n => bool_decide (is_Some (given !! n))) names with
  | Some n => Err (PositionalTwice n)
  | None => Ok tt
  end.

(** [kw.setdefault(name, v)]. *)
Definition setdefault (kw : kwargs) (name : string) (v : value) : kwargs :=
  match kw !! name with Some _ => kw | None => <[name := v]> kw end.

Lemma setdefault_ne kw n v m : m <> n -> setdefault kw n v !! m = kw !! m.
Proof. intros H. unfold setdefault. destruct (kw !! n); [done|]. by rewrite lookup_insert_ne by done. Qed.

(** [sorted(name for name in given if name not in defaults)]. *)
Definition unknown_names (defaults given : kwargs) : list string :=
  merge_sort String.le (map fst (map_to_list (filter (fun nv => defaults !! nv.1 = None) given))).

(** [_with_defaults]. *)
Definition with_defaults (defaults given : kwargs) (what : string) : result py_error kwargs :=
  match unknown_names defaults given with
  | n :: _ => Err (UnexpectedKeyword what n)
  | [] => Ok (given ∪ defaults)
  end.

(** [_split_fields]: a builder's own fields, and the rest for its caller. *)
Definition split_fields (defaults given : kwargs) : kwargs * kwargs :=
  (filter (fun nv => is_Some (defaults !! nv.1)) given ∪ defaults,
   filter (fun nv => defaults !! nv.1 = None) given).

Lemma split_rest defaults given n : defaults !! n = None -> snd (split_fields defaults given) !! n = given !! n.
Proof.
  intros Hd. unfold split_fields. cbn [snd]. rewrite map_lookup_filter.
  destruct (given !! n); cbn [mbind option_bind]; [|done]. by rewrite option_guard_True.
Qed.

Lemma split_own defaults given n d : defaults !! n = Some d ->
  fst (split_fields defaults given) !! n = Some (default d (given !! n)).
Proof.
  intros Hd. unfold split_fields. cbn [fst]. rewrite lookup_union, map_lookup_filter, Hd.
  destruct (given !! n); cbn [mbind option_bind]; [|done]. by rewrite option_guard_True by (cbn; eauto).
Qed.

(** * Views of a received frame *)

(** [raw[i]] under a guard on the length. *)
Definition raw_at (raw : bytes) (i : Z) : Z := nth (Z.to_nat i) raw 0.

(** [_be(off, n)]: -1 when the frame is too short. *)
Definition view_be (raw : bytes) (off n : Z) : Z :=
  if off + n <=? zlen raw then rd_be off n raw else -1.

(** * The values of a dictionary, where a theorem speaks of them *)

Definition int_field (fld : kwargs) (name : string) : Z :=
  match fld !! name with
  | Some v => match int_of v with Ok z => z | Err _ => 0 end
  | None => 0
  end.

Definition byte_field (fld : kwargs) (name : string) : bytes :=
  match fld !! name with Some (VBytes b) => b | _ => [] end.

(** [bytes(fld[name])]. *)
Definition made_bytes (fld : kwargs) (name : string) : bytes :=
  match fld !! name with
  | Some v => match to_bytes v with Ok b => b | Err _ => [] end
  | None => []
  end.

(** What a list of views reads from a frame is what the dictionary holds, each
    field at its width in bits. *)
Definition reads_back (fld : kwargs) (views : list (string * Z * (bytes -> Z))) (raw : bytes) : Prop :=
  Forall (fun '(name, bits, view) => view raw = int_field fld name mod 2 ^ bits) views.

(** The kinds of value the fields of a builder are meant to hold. *)
Inductive kind :=
  | KInt            (* any number: masked before it is packed *)
  | KU64            (* packed as it is, in eight octets *)
  | KNat            (* a count *)
  | KOptInt         (* a number or None *)
  | KBytes
  | KOptBytes
  | KAny.

Definition has_kind (v : value) (k : kind) : bool :=
  match k, v with
  | KInt, (VInt _ | VBool _) => true
  | KU64, VInt z => (0 <=? z) && (z <? 2 ^ 64)
  | KNat, VInt z => 0 <=? z
  | KOptInt, (VInt _ | VBool _ | VNone) => true
  | KBytes, VBytes _ => true
  | KOptBytes, (VBytes _ | VNone) => true
  | KAny, _ => true
  | _, _ => false
  end.

(** Every value of a dictionary has the kind its name is listed with. *)
Definition kinded (kinds : gmap string kind) (fld : kwargs) : Prop :=
  forall n v, fld !! n = Some v -> exists k, kinds !! n = Some k /\ has_kind v k = true.

(** * Lemmas *)

Lemma land_mask a m k : 0 <= k -> m = 2 ^ k - 1 -> Z.land a m = a mod 2 ^ k.
Proof. intros Hk ->. rewrite <-Z.land_ones by done. by rewrite Z.ones_equiv, Z.sub_1_r. Qed.

(** Masks with literal [2^k - 1] as remainders. *)
Ltac masks :=
  repeat match goal with
  | |- context [Z.land ?a ?m] =>
      let k := eval vm_compute in (Z.log2 (m + 1)) in
      rewrite (land_mask a m k) by (done || lia);
      let p := eval vm_compute in (2 ^ k) in change (2 ^ k) with p
  end.

Lemma land_low a b k : 0 <= b < 2 ^ k -> Z.land (Z.shiftl a k) b = 0.
Proof.
  intros Hb. destruct (Z.ltb_spec k 0); [rewrite Z.pow_neg_r in Hb by done; lia|].
  apply Z.bits_inj'. intros i Hi. rewrite Z.land_spec, Z.bits_0.
  destruct (Z.ltb_spec i k).
  - by rewrite Z.shiftl_spec_low.
  - assert (Z.testbit b i = false) as ->; [|by rewrite andb_false_r].
    destruct (Z.eq_dec b 0) as [->|]; [by rewrite Z.bits_0|].
    apply Z.bits_above_log2; [lia|]. apply Z.log2_lt_pow2; [lia|].
    apply Z.lt_le_trans with (2 ^ k); [lia|]. apply Z.pow_le_mono_r; lia.
Qed.

(** A number written across two adjacent fields. *)
Lemma le_bytes_app m n v : le_bytes (m + n) v = le_bytes m v ++ le_bytes n (v / 256 ^ Z.of_nat m).
Proof.
  revert v. induction m as [|m IH]; intros v; cbn [Nat.add le_bytes app].
  - by rewrite Z.div_1_r.
  - rewrite IH, Nat2Z.inj_succ, Z.pow_succ_r, Z.div_div by lia. done.
Qed.

Lemma be_bytes_app n m v : be_bytes n (v / 256 ^ Z.of_nat m) ++ be_bytes m v = be_bytes (m + n) v.
Proof. unfold be_bytes. by rewrite <-rev_app_distr, le_bytes_app. Qed.

Lemma be_bytes_mod n v : be_bytes n (v mod 256 ^ Z.of_nat n) = be_bytes n v.
Proof.
  rewrite <-of_be_be_bytes. apply be_bytes_of_be; [apply be_bytes_length|apply be_bytes_bytes].
Qed.

(** Fields joined by shift and or. *)
Lemma join_bits a b k : 0 <= k -> 0 <= b < 2 ^ k -> Z.lor (Z.shiftl a k) b = a * 2 ^ k + b.
Proof.
  intros Hk Hb. rewrite <-Z.lxor_lor, <-Z.add_nocarry_lxor by (by apply land_low).
  by rewrite Z.shiftl_mul_pow2.
Qed.

(** Two shifted fields, the upper one [j] bits above the lower. *)
Lemma join_shifts a b j k : 0 <= j -> 0 <= k -> 0 <= b < 2 ^ j ->
  Z.lor (Z.shiftl a (j + k)) (Z.shiftl b k) = Z.shiftl (a * 2 ^ j + b) k.
Proof.
  intros Hj Hk Hb. rewrite <-Z.shiftl_shiftl by done. rewrite <-Z.shiftl_lor. by rewrite join_bits.
Qed.

Lemma pack_Ok n v b : pack n v = Ok b <-> 0 <= v < 256 ^ Z.of_nat n /\ b = be_bytes n v.
Proof.
  unfold pack. split.
  - destruct (_ && _) eqn:E; [|done]. intros [= <-]. bool_prop. split; [lia|done].
  - intros [H ->]. destruct (_ && _) eqn:E; [done|]. exfalso.
    apply andb_false_iff in E as [E|E]; bool_prop; lia.
Qed.

Lemma pack_total n v : 0 <= v < 256 ^ Z.of_nat n -> pack n v = Ok (be_bytes n v).
Proof. intros H. by apply pack_Ok. Qed.

Lemma masked_Ok fld name m z : masked fld name m = Ok z -> z = Z.land (int_field fld name) m.
Proof.
  unfold masked, field, int_field. intros H. destruct (fld !! name) as [v|]; [|done].
  cbn [rbind] in H. destruct (int_of v) as [i|]; [|done]. by injection H.
Qed.

Lemma pack_masked_Ok n fld name m b :
  pack_masked n fld name m = Ok b -> b = be_bytes n (Z.land (int_field fld name) m).
Proof. unfold pack_masked. intros H. rsplit H. apply masked_Ok in Hm as ->. by apply pack_Ok in H as [_ ->]. Qed.

Lemma pack_field_Ok n fld name b :
  pack_field n fld name = Ok b ->
  0 <= int_field fld name < 256 ^ Z.of_nat n /\ b = be_bytes n (int_field fld name).
Proof.
  unfold pack_field, field, int_field. intros H. destruct (fld !! name) as [v|]; [|done].
  cbn [rbind] in H. destruct (int_of v) as [i|]; [|done]. by apply pack_Ok in H.
Qed.

(** Reads of a field that two dictionaries agree on. *)
Lemma same_field fld fld' name : fld' !! name = fld !! name ->
  field fld' name = field fld name /\ (forall m, masked fld' name m = masked fld name m) /\
  (forall n m, pack_masked n fld' name m = pack_masked n fld name m) /\
  (forall n, pack_field n fld' name = pack_field n fld name).
Proof. intros H. unfold pack_masked, pack_field, masked, field. by rewrite H. Qed.

Lemma bytes_of_Ok fld name v b :
  field fld name = Ok v -> bytes_of v = Ok b -> b = byte_field fld name.
Proof.
  unfold field, byte_field. intros Hf Hb. destruct (fld !! name) as [w|]; [|done].
  injection Hf as ->. destruct v; cbn [bytes_of] in Hb; congruence.
Qed.

Lemma made_bytes_Ok fld name v b :
  field fld name = Ok v -> to_bytes v = Ok b -> b = made_bytes fld name.
Proof.
  unfold field, made_bytes. intros Hf Hb. destruct (fld !! name) as [w|]; [|done].
  injection Hf as ->. by rewrite Hb.
Qed.

(** Replace the packing steps in the context by the octets they produced. *)
Ltac unpack :=
  repeat match goal with
  | H : pack_field _ _ _ = Ok _ |- _ => apply pack_field_Ok in H; destruct H as [? ->]
  | H : pack_masked _ _ _ _ = Ok _ |- _ => apply pack_masked_Ok in H; subst
  | H : masked _ _ _ = Ok _ |- _ => apply masked_Ok in H; subst
  | H : pack _ _ = Ok _ |- _ => apply pack_Ok in H; destruct H as [? ->]
  | H1 : field ?fld ?n = Ok ?v, H2 : bytes_of ?v = Ok ?b |- _ =>
      pose proof (bytes_of_Ok _ _ _ _ H1 H2); subst b; clear H1 H2
  | H1 : field ?fld ?n = Ok ?v, H2 : to_bytes ?v = Ok ?b |- _ =>
      pose proof (made_bytes_Ok _ _ _ _ H1 H2); subst b; clear H1 H2
  end.

Lemma raw_at_slice raw o n l i : zslice o n raw = l -> 0 <= o -> 0 <= i < n -> 0 < n ->
  raw_at raw (o + i) = raw_at l i.
Proof.
  intros <- Ho Hi Hn. unfold raw_at, zslice.
  rewrite !nth_lookup. f_equal.
  rewrite lookup_take_lt, lookup_drop by lia. f_equal. lia.
Qed.

Lemma raw_at_rd raw i : 0 <= i < zlen raw -> raw_at raw i = rd_be i 1 raw.
Proof.
  intros Hi. unfold rd_be. assert (zslice i 1 raw = [raw_at raw i]) as ->.
  - unfold zslice, raw_at, zlen in *. change (Z.to_nat 1) with 1%nat.
    assert (Z.to_nat i < length raw)%nat as Hl by lia.
    apply lookup_lt_is_Some in Hl as [x Hx]. rewrite nth_lookup, Hx.
    by rewrite (drop_S _ _ _ Hx).
  - unfold of_be. cbn [rev app of_le]. lia.
Qed.

Lemma rd_be_after pre rest o k n : zlen pre = o -> 0 <= k -> rd_be (o + k) n (pre ++ rest) = rd_be k n rest.
Proof.
  intros <- Hk. unfold rd_be. rewrite (zslice_skip pre rest (zlen pre)) by lia.
  do 2 f_equal. lia.
Qed.

Lemma In_unknown_names defaults given n :
  In n (unknown_names defaults given) <-> is_Some (given !! n) /\ defaults !! n = None.
Proof.
  unfold unknown_names. rewrite <-list_elem_of_In, (merge_sort_Permutation String.le), list_elem_of_In.
  rewrite in_map_iff. split.
  - intros ([k v] & <- & H). apply list_elem_of_In, elem_of_map_to_list, map_lookup_filter_Some in H as [H1 H2].
    cbn [fst] in *. split; [by eexists|done].
  - intros [[v Hv] Hd]. exists (n, v). split; [done|].
    by apply list_elem_of_In, elem_of_map_to_list, map_lookup_filter_Some.
Qed.

(** Every keyword of an accepted call is one the table declares, and a field
    reads as given or else as its default; the refusal names the first
    undeclared keyword in the order of the alphabet. *)
Theorem with_defaults_spec defaults given what :
  match with_defaults defaults given what with
  | Ok fld =>
      (forall n, is_Some (given !! n) -> is_Some (defaults !! n)) /\
      forall n, fld !! n = match given !! n with Some v => Some v | None => defaults !! n end
  | Err e =>
      exists n, e = UnexpectedKeyword what n /\ is_Some (given !! n) /\ defaults !! n = None /\
        forall k, is_Some (given !! k) -> defaults !! k = None -> String.le n k
  end.
Proof.
  pose proof (In_unknown_names defaults given) as HI. unfold with_defaults.
  assert (StronglySorted String.le (unknown_names defaults given)) as HS
    by (apply StronglySorted_merge_sort; apply _).
  destruct (unknown_names defaults given) as [|n l].
  - split.
    + intros n Hn. destruct (defaults !! n) eqn:E; [done|]. exfalso. by apply (HI n).
    + intros n. rewrite lookup_union. by destruct (given !! n), (defaults !! n).
  - exists n. pose proof (proj1 (HI n) ltac:(by left)) as [H1 H2]. split_and!; [done..|].
    intros k Hk Hd. pose proof (proj2 (HI k) (conj Hk Hd)) as [->|Hin]; [reflexivity|].
    inversion HS as [|? ? _ Hall]; subst. rewrite List.Forall_forall in Hall. by apply Hall.
Qed.

(** * Calls that cannot fail *)

Definition kindedb (kinds : gmap string kind) (fld : kwargs) : bool :=
  forallb (fun nv => match kinds !! nv.1 with Some k => has_kind nv.2 k | None => false end)
    (map_to_list fld).

Lemma kindedb_kinded kinds fld : kindedb kinds fld = true -> kinded kinds fld.
Proof.
  unfold kindedb. rewrite forallb_forall. intros H n v Hv.
  specialize (H (n, v)). cbn [fst snd] in H.
  assert (In (n, v) (map_to_list fld)) as Hin by (by apply list_elem_of_In, elem_of_map_to_list).
  apply H in Hin. destruct (kinds !! n) as [k|]; [by exists k|done].
Qed.

Lemma names_declared (kinds : gmap string kind) (defaults : kwargs) :
  forallb (fun nk => bool_decide (is_Some (defaults !! nk.1))) (map_to_list kinds) = true ->
  forall n, is_Some (kinds !! n) -> is_Some (defaults !! n).
Proof.
  rewrite forallb_forall. intros H n [k Hk].
  assert (In (n, k) (map_to_list kinds)) as Hin by (by apply list_elem_of_In, elem_of_map_to_list).
  apply H in Hin. by bool_prop.
Qed.

Section Kinds.
Context (kinds : gmap string kind) (defaults given : kwargs).
Hypothesis (Hnames : forall n, is_Some (kinds !! n) -> is_Some (defaults !! n)).
Hypothesis (Hdefaults : kinded kinds defaults) (Hgiven : kinded kinds given).

Lemma with_defaults_total what : exists m, with_defaults defaults given what = Ok m /\ kinded kinds m /\
  forall n, is_Some (kinds !! n) -> is_Some (m !! n).
Proof using All.
  pose proof (with_defaults_spec defaults given what) as H.
  destruct (with_defaults defaults given what) as [m|e].
  - destruct H as [_ H]. exists m. split; [done|]. split.
    + intros n v. rewrite H. destruct (given !! n) eqn:E; [intros [= <-]; by apply Hgiven|apply Hdefaults].
    + intros n Hn. rewrite H. destruct (given !! n); [by eexists|]. by apply Hnames.
  - exfalso. destruct H as (n & _ & [v Hv] & Hd & _).
    destruct (Hgiven _ _ Hv) as (k & Hk & _). destruct (Hnames n) as [w Hw]; [by exists k|]. congruence.
Qed.
End Kinds.

Section Reads.
Context (kinds : gmap string kind) (fld : kwargs).
Hypothesis (Hk : kinded kinds fld) (Hall : forall n, is_Some (kinds !! n) -> is_Some (fld !! n)).

Lemma field_total n k : kinds !! n = Some k -> exists v, field fld n = Ok v /\ has_kind v k = true.
Proof using All.
  intros Hn. destruct (Hall n) as [v Hv]; [by exists k|]. exists v. unfold field. rewrite Hv.
  split; [done|]. destruct (Hk _ _ Hv) as (k' & Hk' & ?). congruence.
Qed.

Lemma masked_total n m : kinds !! n = Some KInt -> masked fld n m = Ok (Z.land (int_field fld n) m).
Proof using All.
  intros Hn. destruct (field_total _ _ Hn) as (v & Hf & Hv). unfold masked, int_field.
  rewrite Hf. unfold field in Hf. destruct (fld !! n); [|done]. injection Hf as ->.
  by destruct v.
Qed.

Lemma pack_masked_total w n m : kinds !! n = Some KInt -> m = 256 ^ Z.of_nat w - 1 ->
  pack_masked w fld n m = Ok (be_bytes w (Z.land (int_field fld n) m)).
Proof using All.
  intros Hn ->. unfold pack_masked. rewrite masked_total by done. cbn [rbind].
  apply pack_Ok. split; [|done].
  rewrite (land_mask _ _ (8 * Z.of_nat w)).
  - rewrite Z.pow_mul_r by lia. change (2 ^ 8) with 256. apply Z.mod_pos_bound. lia.
  - lia.
  - rewrite Z.pow_mul_r by lia. done.
Qed.

Lemma pack_field_total n : kinds !! n = Some KU64 ->
  pack_field 8 fld n = Ok (be_bytes 8 (int_field fld n)).
Proof using All.
  intros Hn. destruct (field_total _ _ Hn) as (v & Hf & Hv). unfold pack_field, int_field.
  rewrite Hf. unfold field in Hf. destruct (fld !! n); [|done]. injection Hf as ->.
  destruct v; try done. cbn [has_kind] in Hv. bool_prop. cbn [rbind map_err int_of].
  apply pack_Ok. by split.
Qed.

Lemma bytes_field_total n : kinds !! n = Some KBytes ->
  exists b, field fld n = Ok (VBytes b).
Proof using All. intros Hn. destruct (field_total _ _ Hn) as ([] & Hf & Hv); try done. by eexists. Qed.
End Reads.

Lemma no_positional_total kinds given names :
  kinded kinds given -> Forall (fun n => kinds !! n = None) names ->
  no_positional names given = Ok tt.
Proof.
  intros Hk Hn. unfold no_positional.
  destruct (List.find _ names) as [n|] eqn:E; [|done]. exfalso.
  apply find_some in E as [Hin Hb]. bool_prop. destruct Hb as [v Hv].
  destruct (Hk _ _ Hv) as (k & Hk' & _). rewrite List.Forall_forall in Hn. apply Hn in Hin. congruence.
Qed.
