(* ===== verification/TsnWire.v ===== *)
(** The 1722 family on the wire: the frame builders and the field views of the
    field campaign ([tb/verilator/tsn_fuzz/wire.py], AECP, ACMP, ADP and AAF).

    A builder takes keyword arguments, merges them over its table of defaults and
    packs a frame; a view reads the fields of a frame by their offsets, -1 when
    the frame is too short.  The theorems relate the two: every field a builder
    was given is what the view of the finished frame returns, up to the width the
    builder masks it to.  [AVTPDU] offsets are frame offsets, after the Ethernet
    header. *)
From S2P Require Import Prelude Text Packing.

Definition ETHERTYPE_AVTP := 0x22F0.
Definition SUBTYPE_ADP := 0xFA.
Definition SUBTYPE_AECP := 0xFB.
Definition SUBTYPE_ACMP := 0xFC.
Definition SUBTYPE_AAF := 0x02.

Definition ENTITY_MAC : bytes := [0x02; 0x00; 0x00; 0xff; 0xfe; 0x01].
Definition CTRLR_MAC : bytes := [0x68; 0x05; 0xca; 0x95; 0xb2; 0xd1].
Definition ENTITY_ID := 0x020000FFFE000001.
Definition CTRLR_ID := 0x6805CA95B2D10000.

Definition MSG_AEM_COMMAND := 0.
Definition MSG_VU_COMMAND := 6.

Definition STATUS : gmap Z string := list_to_map
  [(0, "SUCCESS"); (1, "NOT_IMPLEMENTED"); (2, "NO_SUCH_DESCRIPTOR");
   (3, "ENTITY_LOCKED"); (4, "ENTITY_ACQUIRED"); (5, "NOT_AUTHENTICATED");
   (6, "AUTHENTICATION_DISABLED"); (7, "BAD_ARGUMENTS"); (8, "NO_RESOURCES");
   (9, "IN_PROGRESS"); (10, "ENTITY_MISBEHAVING"); (11, "NOT_SUPPORTED");
   (12, "STREAM_IS_RUNNING")]%string.

(** [_eth]. *)
Definition eth (dst src : value) (subtype byte15 word16 : Z) (body : bytes) :
    result py_error bytes :=
  let* dst := bytes_of dst in
  let* src := bytes_of src in
  let* et := pack 2 ETHERTYPE_AVTP in
  let* b14 := pack 1 subtype in
  let* b15 := pack 1 byte15 in
  let* w16 := pack 2 word16 in
  Ok (dst ++ src ++ et ++ b14 ++ b15 ++ w16 ++ body).

(** * AECP *)

Definition AECP_CMD_FIELDS : kwargs := list_to_map
  [("seq", VInt 0x1001); ("msg_type", VInt MSG_AEM_COMMAND); ("target", VInt ENTITY_ID);
   ("controller", VInt CTRLR_ID); ("dst", VBytes ENTITY_MAC); ("src", VBytes CTRLR_MAC);
   ("u", VInt 0); ("status", VInt 0); ("cdl", VNone); ("pad60", VBool false)]%string.

Definition aecp_cmd (command_type : Z) (payload : bytes) (fields : kwargs) : result py_error bytes :=
  let* _ := no_positional ["command_type"; "payload"]%string fields in
  let* fld := with_defaults AECP_CMD_FIELDS fields "aecp_cmd" in
  let* target := pack_field 8 fld "target" in
  let* controller := pack_field 8 fld "controller" in
  let* seq := pack_masked 2 fld "seq" 0xFFFF in
  let* u := masked fld "u" 1 in
  let* ct := pack 2 (Z.lor (Z.shiftl u 15) (Z.land command_type 0x7FFF)) in
  let body := target ++ controller ++ seq ++ ct ++ payload in
  let* cdl := field fld "cdl" in
  let real_cdl := match cdl with VNone => VInt (12 + zlen payload) | _ => cdl end in
  let* status := masked fld "status" 0x1F in
  let* real_cdl := int_of real_cdl in
  let word16 := Z.lor (Z.shiftl status 11) (Z.land real_cdl 0x7FF) in
  let* dst := field fld "dst" in
  let* src := field fld "src" in
  let* mt := masked fld "msg_type" 0x0F in
  let* f := eth dst src SUBTYPE_AECP mt word16 body in
  let* pad60 := field fld "pad60" in
  Ok (if truth pad60 && (zlen f <? 60) then pad_to 60 f else f).

Definition AECP_VU_CMD_FIELDS : kwargs := list_to_map
  [("seq", VInt 0x1001); ("protocol_id", VBytes [0x00; 0x1b; 0xc5; 0x0a; 0xc1; 0x00]);
   ("target", VInt ENTITY_ID); ("controller", VInt CTRLR_ID);
   ("dst", VBytes ENTITY_MAC); ("src", VBytes CTRLR_MAC)]%string.

Definition aecp_vu_cmd (vu_command : Z) (payload : bytes) (fields : kwargs) : result py_error bytes :=
  let* _ := no_positional ["vu_command"; "payload"]%string fields in
  let* fld := with_defaults AECP_VU_CMD_FIELDS fields "aecp_vu_cmd" in
  let* protocol_id := field fld "protocol_id" in
  let* target := pack_field 8 fld "target" in
  let* controller := pack_field 8 fld "controller" in
  let* seq := pack_masked 2 fld "seq" 0xFFFF in
  let* protocol_id := bytes_of protocol_id in
  let* vu := pack 2 (Z.land vu_command 0xFFFF) in
  let* zero := pack 2 0 in
  let body := target ++ controller ++ seq ++ protocol_id ++ vu ++ zero ++ payload in
  let cdl := 10 + zlen protocol_id + 4 + zlen payload in
  let* dst := field fld "dst" in
  let* src := field fld "src" in
  eth dst src SUBTYPE_AECP MSG_VU_COMMAND (Z.land cdl 0x7FF) body.

(** [AecpResp]: the properties of a received frame. *)
Definition resp_bool (raw : bytes) : bool := 18 <? zlen raw.
Definition resp_subtype (raw : bytes) : Z := if 14 <? zlen raw then raw_at raw 14 else -1.
Definition resp_message_type (raw : bytes) : Z :=
  if 15 <? zlen raw then Z.land (raw_at raw 15) 0x0F else -1.
Definition resp_sv (raw : bytes) : Z :=
  if 15 <? zlen raw then Z.land (Z.shiftr (raw_at raw 15) 7) 1 else -1.
Definition resp_version (raw : bytes) : Z :=
  if 15 <? zlen raw then Z.land (Z.shiftr (raw_at raw 15) 4) 7 else -1.
Definition resp_status (raw : bytes) : Z :=
  if 16 <? zlen raw then Z.land (Z.shiftr (raw_at raw 16) 3) 0x1F else -1.
Definition resp_cdl (raw : bytes) : Z :=
  if 17 <? zlen raw then Z.lor (Z.shiftl (Z.land (raw_at raw 16) 7) 8) (raw_at raw 17) else -1.
Definition resp_target_entity_id (raw : bytes) : Z := view_be raw 18 8.
Definition resp_controller_entity_id (raw : bytes) : Z := view_be raw 26 8.
Definition resp_sequence_id (raw : bytes) : Z := view_be raw 34 2.
Definition resp_u (raw : bytes) : Z :=
  if 36 <? zlen raw then Z.land (Z.shiftr (raw_at raw 36) 7) 1 else -1.
Definition resp_command_type (raw : bytes) : Z :=
  if 37 <? zlen raw then Z.lor (Z.shiftl (Z.land (raw_at raw 36) 0x7F) 8) (raw_at raw 37) else -1.
Definition resp_payload (raw : bytes) : bytes := drop 38 raw.
Definition resp_pdu (raw : bytes) : bytes := drop 15 raw.
Definition resp_cdl_ok (raw : bytes) : bool :=
  (26 <? zlen raw) && (resp_cdl raw =? zlen raw - 26).
Definition resp_status_name (raw : bytes) : string :=
  default ("status_" +:+ pretty (resp_status raw))%string (STATUS !! resp_status raw).

(** * ACMP *)

Definition ACMP_CONNECT_RX_COMMAND := 6.
Definition ACMP_MCAST_MAC : bytes := [0x91; 0xe0; 0xf0; 0x01; 0x00; 0x00].

Definition ACMP_PDU_FIELDS : kwargs := list_to_map
  [("stream_id", VInt 0); ("controller", VInt CTRLR_ID); ("talker", VInt ENTITY_ID);
   ("listener", VInt ENTITY_ID); ("talker_unique", VInt 0); ("listener_unique", VInt 0);
   ("dest_mac", VBytes [0x91; 0xe0; 0xf0; 0x00; 0x3a; 0x99]); ("connection_count", VInt 0);
   ("seq", VInt 1); ("flags", VInt 0); ("vlan", VInt 2); ("status", VInt 0); ("cdl", VInt 44);
   ("reserved", VInt 0); ("dst", VBytes ACMP_MCAST_MAC); ("src", VBytes CTRLR_MAC)]%string.

Definition acmp_pdu (message_type : Z) (fields : kwargs) : result py_error bytes :=
  let* _ := no_positional ["message_type"]%string fields in
  let* fld := with_defaults ACMP_PDU_FIELDS fields "acmp_pdu" in
  let* stream_id := pack_field 8 fld "stream_id" in
  let* controller := pack_field 8 fld "controller" in
  let* talker := pack_field 8 fld "talker" in
  let* listener := pack_field 8 fld "listener" in
  let* talker_unique := pack_masked 2 fld "talker_unique" 0xFFFF in
  let* listener_unique := pack_masked 2 fld "listener_unique" 0xFFFF in
  let* dest_mac := field fld "dest_mac" in
  let* dest_mac := to_bytes dest_mac in
  let* connection_count := pack_masked 2 fld "connection_count" 0xFFFF in
  let* seq := pack_masked 2 fld "seq" 0xFFFF in
  let* flags := pack_masked 2 fld "flags" 0xFFFF in
  let* vlan := pack_masked 2 fld "vlan" 0xFFFF in
  let* reserved := pack_masked 2 fld "reserved" 0xFFFF in
  let body := stream_id ++ controller ++ talker ++ listener ++ talker_unique
              ++ listener_unique ++ dest_mac ++ connection_count ++ seq ++ flags ++ vlan
              ++ reserved in
  let* status := masked fld "status" 0x1F in
  let* cdl := masked fld "cdl" 0x7FF in
  let word16 := Z.lor (Z.shiftl status 11) cdl in
  let* dst := field fld "dst" in
  let* src := field fld "src" in
  eth dst src SUBTYPE_ACMP (Z.land message_type 0x0F) word16 body.

(** [AcmpResp], over the header views of [AecpResp]. *)
Definition acmp_stream_id (raw : bytes) : Z := view_be raw 18 8.
Definition acmp_controller_entity_id (raw : bytes) : Z := view_be raw 26 8.
Definition acmp_talker_entity_id (raw : bytes) : Z := view_be raw 34 8.
Definition acmp_listener_entity_id (raw : bytes) : Z := view_be raw 42 8.
Definition acmp_talker_unique_id (raw : bytes) : Z := view_be raw 50 2.
Definition acmp_listener_unique_id (raw : bytes) : Z := view_be raw 52 2.
Definition acmp_stream_dest_mac (raw : bytes) : bytes := zslice 54 6 raw.
Definition acmp_connection_count (raw : bytes) : Z := view_be raw 60 2.
Definition acmp_sequence_id (raw : bytes) : Z := view_be raw 62 2.
Definition acmp_flags (raw : bytes) : Z := view_be raw 64 2.
Definition acmp_stream_vlan_id (raw : bytes) : Z := view_be raw 66 2.

(** * ADP *)

Definition ADP_ENTITY_AVAILABLE := 0.
Definition ADP_MCAST_MAC : bytes := [0x91; 0xe0; 0xf0; 0x01; 0x00; 0x00].

Definition ADP_PDU_FIELDS : kwargs := list_to_map
  [("message_type", VInt ADP_ENTITY_AVAILABLE); ("valid_time", VInt 10);
   ("entity_id", VInt CTRLR_ID); ("entity_model_id", VInt 0); ("entity_caps", VInt 0);
   ("talker_sources", VInt 0); ("talker_caps", VInt 0); ("listener_sinks", VInt 0);
   ("listener_caps", VInt 0); ("controller_caps", VInt 0); ("available_index", VInt 0);
   ("gptp_gm", VInt 0); ("gptp_domain", VInt 0); ("reserved0", VInt 0);
   ("current_config", VInt 0); ("identify_control", VInt 0); ("interface_index", VInt 0);
   ("association_id", VInt 0); ("reserved1", VInt 0); ("cdl", VInt 56);
   ("dst", VBytes ADP_MCAST_MAC); ("src", VBytes CTRLR_MAC)]%string.

Definition adp_pdu (fields : kwargs) : result py_error bytes :=
  let* fld := with_defaults ADP_PDU_FIELDS fields "adp_pdu" in
  let* entity_id := pack_field 8 fld "entity_id" in
  let* entity_model_id := pack_field 8 fld "entity_model_id" in
  let* entity_caps := pack_masked 4 fld "entity_caps" 0xFFFFFFFF in
  let* talker_sources := pack_masked 2 fld "talker_sources" 0xFFFF in
  let* talker_caps := pack_masked 2 fld "talker_caps" 0xFFFF in
  let* listener_sinks := pack_masked 2 fld "listener_sinks" 0xFFFF in
  let* listener_caps := pack_masked 2 fld "listener_caps" 0xFFFF in
  let* controller_caps := pack_masked 4 fld "controller_caps" 0xFFFFFFFF in
  let* available_index := pack_masked 4 fld "available_index" 0xFFFFFFFF in
  let* gptp_gm := pack_field 8 fld "gptp_gm" in
  let* gptp_domain := pack_masked 1 fld "gptp_domain" 0xFF in
  let* reserved0 := pack_masked 1 fld "reserved0" 0xFF in
  let* current_config := pack_masked 2 fld "current_config" 0xFFFF in
  let* identify_control := pack_masked 2 fld "identify_control" 0xFFFF in
  let* interface_index := pack_masked 2 fld "interface_index" 0xFFFF in
  let* association_id := pack_field 8 fld "association_id" in
  let* reserved1 := pack_masked 4 fld "reserved1" 0xFFFFFFFF in
  let body := entity_id ++ entity_model_id ++ entity_caps ++ talker_sources ++ talker_caps
              ++ listener_sinks ++ listener_caps ++ controller_caps ++ available_index
              ++ gptp_gm ++ gptp_domain ++ reserved0 ++ current_config ++ identify_control
              ++ interface_index ++ association_id ++ reserved1 in
  let* valid_time := masked fld "valid_time" 0x1F in
  let* cdl := masked fld "cdl" 0x7FF in
  let word16 := Z.lor (Z.shiftl valid_time 11) cdl in
  let* dst := field fld "dst" in
  let* src := field fld "src" in
  let* mt := masked fld "message_type" 0x0F in
  eth dst src SUBTYPE_ADP mt word16 body.

(** [AdpResp]. *)
Definition adp_valid_time (raw : bytes) : Z :=
  if 16 <? zlen raw then Z.land (Z.shiftr (raw_at raw 16) 3) 0x1F else -1.
Definition adp_entity_id (raw : bytes) : Z := view_be raw 18 8.
Definition adp_entity_model_id (raw : bytes) : Z := view_be raw 26 8.
Definition adp_entity_capabilities (raw : bytes) : Z := view_be raw 34 4.
Definition adp_talker_stream_sources (raw : bytes) : Z := view_be raw 38 2.
Definition adp_talker_capabilities (raw : bytes) : Z := view_be raw 40 2.
Definition adp_listener_stream_sinks (raw : bytes) : Z := view_be raw 42 2.
Definition adp_listener_capabilities (raw : bytes) : Z := view_be raw 44 2.
Definition adp_controller_capabilities (raw : bytes) : Z := view_be raw 46 4.
Definition adp_available_index (raw : bytes) : Z := view_be raw 50 4.
Definition adp_gptp_grandmaster_id (raw : bytes) : Z := view_be raw 54 8.
Definition adp_gptp_domain_number (raw : bytes) : Z := if 62 <? zlen raw then raw_at raw 62 else -1.
Definition adp_current_configuration_index (raw : bytes) : Z := view_be raw 64 2.
Definition adp_identify_control_index (raw : bytes) : Z := view_be raw 66 2.
Definition adp_interface_index (raw : bytes) : Z := view_be raw 68 2.
Definition adp_association_id (raw : bytes) : Z := view_be raw 70 8.

(** * AAF *)

Definition AAF_PDU_FIELDS : kwargs := list_to_map
  [("stream_id", VInt 0x0200000000010000); ("sequence_num", VInt 0); ("avtp_timestamp", VInt 0);
   ("tv", VInt 1); ("mr", VInt 0); ("tu", VInt 0); ("sv", VInt 0); ("version", VInt 0);
   ("gv", VInt 0); ("nsr", VInt 2); ("channels_per_frame", VInt 2); ("bit_depth", VInt 24);
   ("aaf_format", VInt 2); ("stream_data_length", VInt 48); ("sparse", VInt 0); ("evt", VInt 0);
   ("payload", VNone); ("dst", VBytes [0x91; 0xe0; 0xf0; 0x00; 0x3a; 0x99]);
   ("src", VBytes ENTITY_MAC); ("vlan", VNone)]%string.

Definition aaf_pdu (fields : kwargs) : result py_error bytes :=
  let* fld := with_defaults AAF_PDU_FIELDS fields "aaf_pdu" in
  let* stream_data_length := field fld "stream_data_length" in
  let* payload := field fld "payload" in
  let* payload := match payload with
                  | VNone => let* b := to_bytes stream_data_length in Ok (VBytes b)
                  | _ => Ok payload
                  end in
  let* sv := masked fld "sv" 1 in
  let* version := masked fld "version" 7 in
  let* mr := masked fld "mr" 1 in
  let* gv := masked fld "gv" 1 in
  let* tv := masked fld "tv" 1 in
  let b15 := Z.lor (Z.lor (Z.lor (Z.lor (Z.shiftl sv 7) (Z.shiftl version 4)) (Z.shiftl mr 3))
                    (Z.shiftl gv 1)) tv in
  let* h14 := pack 1 SUBTYPE_AAF in
  let* h15 := pack 1 b15 in
  let* sequence_num := pack_masked 1 fld "sequence_num" 0xFF in
  let* tu := pack_masked 1 fld "tu" 0x7F in
  let* stream_id := pack_field 8 fld "stream_id" in
  let* avtp_timestamp := pack_masked 4 fld "avtp_timestamp" 0xFFFFFFFF in
  let* fmt := masked fld "aaf_format" 0xFF in
  let* nsr := masked fld "nsr" 0x0F in
  let* channels := masked fld "channels_per_frame" 0x3FF in
  let* depth := masked fld "bit_depth" 0xFF in
  let fsd := Z.lor (Z.lor (Z.lor (Z.shiftl fmt 24) (Z.shiftl nsr 20)) (Z.shiftl channels 8)) depth in
  let* fsd := pack 4 fsd in
  let* sdl := int_of stream_data_length in
  let* sdl := pack 2 (Z.land sdl 0xFFFF) in
  let* sparse := masked fld "sparse" 1 in
  let* evt := masked fld "evt" 0x0F in
  let* flags := pack 2 (Z.lor (Z.shiftl sparse 12) evt) in
  let hdr := h14 ++ h15 ++ sequence_num ++ tu ++ stream_id ++ avtp_timestamp ++ fsd ++ sdl ++ flags in
  let* vlan := field fld "vlan" in
  let* dst := field fld "dst" in
  let* src := field fld "src" in
  let* tag := match vlan with
              | VNone => Ok []
              | _ => let* v := int_of vlan in
                     let* tpid := pack 2 0x8100 in
                     let* tci := pack 2 (Z.land v 0x0FFF) in Ok (tpid ++ tci)
              end in
  let* dst := bytes_of dst in
  let* src := bytes_of src in
  let* et := pack 2 ETHERTYPE_AVTP in
  let* payload := bytes_of payload in
  Ok (dst ++ src ++ tag ++ et ++ hdr ++ payload).

(** * Self-test of the 1722 codecs

    [_selftest_1722]: the vectors of the RTL test benches, each comparison of the
    source a conjunct. *)
Definition read_descriptor_vector : bytes :=
  [0x02; 0x00; 0x00; 0xff; 0xfe; 0x01; 0x68; 0x05; 0xca; 0x95; 0xb2; 0xd1; 0x22; 0xf0;
   0xfb; 0x00; 0x00; 0x14; 0x02; 0x00; 0x00; 0xff; 0xfe; 0x00; 0x00; 0x01;
   0x68; 0x05; 0xca; 0x95; 0xb2; 0xd1; 0x00; 0x00; 0x10; 0x01; 0x00; 0x04;
   0x00; 0x00; 0x00; 0x00; 0x00; 0x00; 0x00; 0x00].

Definition kw (l : list (string * value)) : kwargs := list_to_map l.

Definition selftest_1722 : result py_error bool :=
  let* z := pack 2 0 in
  let* f := aecp_cmd 4 (z ++ z ++ z ++ z) (kw [("seq", VInt 0x1001)]%string) in
  let r := f in
  let* a := acmp_pdu ACMP_CONNECT_RX_COMMAND (kw [("stream_id", VInt 0x0200000000010000)]%string) in
  let* d := adp_pdu (kw [("entity_id", VInt ENTITY_ID); ("valid_time", VInt 10)]%string) in
  let* p := aaf_pdu (kw [("stream_data_length", VInt 48)]%string) in
  let* p14 := octet p 14 in
  Ok (bool_decide (f = read_descriptor_vector)
      && (resp_subtype r =? 0xFB) && (resp_message_type r =? 0) && (resp_cdl r =? 20)
      && (resp_command_type r =? 4) && (resp_sequence_id r =? 0x1001)
      && (resp_target_entity_id r =? ENTITY_ID) && (zlen f =? 46)
      && resp_cdl_ok r
      && (zlen a =? 70)
      && (resp_subtype a =? 0xFC) && (resp_message_type a =? 6) && (resp_cdl a =? 44)
      && (acmp_stream_id a =? 0x0200000000010000) && (acmp_stream_vlan_id a =? 2)
      && (zlen d =? 82) && (zlen d - 14 =? 68)
      && (resp_subtype d =? 0xFA) && (adp_entity_id d =? ENTITY_ID)
      && (adp_valid_time d =? 10) && (resp_cdl d =? 56)
      && (zlen p =? 14 + 24 + 48) && (p14 =? 0x02)).

Example selftest_1722_passes : selftest_1722 = Ok true.
Proof. vm_compute. reflexivity. Qed.

(** * Frames as header and body *)

Definition avtpdu (dst src : bytes) (subtype byte15 word16 : Z) (body : bytes) : bytes :=
  dst ++ src ++ be_bytes 2 ETHERTYPE_AVTP ++ be_bytes 1 subtype ++ be_bytes 1 byte15
  ++ be_bytes 2 word16 ++ body.

Lemma eth_Ok dst src st b15 w16 body f :
  eth dst src st b15 w16 body = Ok f ->
  exists d s, bytes_of dst = Ok d /\ bytes_of src = Ok s /\
    0 <= st < 256 /\ 0 <= b15 < 256 /\ 0 <= w16 < 65536 /\ f = avtpdu d s st b15 w16 body.
Proof.
  unfold eth. intros H. rsplit H. exists v, v0.
  apply pack_Ok in Hm1 as [_ ->], Hm2 as [? ->], Hm3 as [? ->], Hm4 as [? ->].
  split_and!; try done; lia.
Qed.

(** Replace the steps of a builder by the octets they produced. *)
Ltac packed :=
  unpack;
  repeat match goal with
  | H : eth _ _ _ _ _ _ = Ok _ |- _ =>
      apply eth_Ok in H; destruct H as (? & ? & ? & ? & ? & ? & ? & ->); unpack
  end.

Section Header.
Context (dst src : bytes) (st b15 w16 : Z) (body : bytes).
Hypothesis (Hdst : zlen dst = 6) (Hsrc : zlen src = 6).
Hypothesis (Hst : 0 <= st < 256) (Hb15 : 0 <= b15 < 256) (Hw16 : 0 <= w16 < 65536).

Local Abbreviation frame := (avtpdu dst src st b15 w16 body).

Lemma avtpdu_length : zlen frame = 18 + zlen body.
Proof using Hdst Hsrc. unfold avtpdu. autorewrite with zlen. rewrite Hdst, Hsrc. lia. Qed.

Lemma avtpdu_body off n : 18 <= off -> zslice off n frame = zslice (off - 18) n body.
Proof using Hdst Hsrc.
  intros Ho. unfold avtpdu. rewrite !app_assoc. apply zslice_skip; [|done].
  autorewrite with zlen. rewrite Hdst, Hsrc. reflexivity.
Qed.

Lemma avtpdu_view off n : 18 <= off -> off + n <= 18 + zlen body ->
  view_be frame off n = rd_be (off - 18) n body.
Proof using Hdst Hsrc.
  intros Ho Hn. unfold view_be. rewrite avtpdu_length, (proj2 (Z.leb_le _ _)) by lia.
  unfold rd_be. by rewrite avtpdu_body.
Qed.

Lemma avtpdu_at off : 18 <= off -> raw_at frame off = raw_at body (off - 18).
Proof using Hdst Hsrc.
  intros Ho. unfold raw_at, avtpdu. rewrite !app_assoc.
  rewrite app_nth2.
  - f_equal. rewrite !length_app, !be_bytes_length. unfold zlen in *. lia.
  - rewrite !length_app, !be_bytes_length. unfold zlen in *. lia.
Qed.

Lemma avtpdu_word16 : zslice 14 4 frame = [st; b15; w16 / 256; w16 mod 256].
Proof using Hdst Hsrc Hst Hb15 Hw16.
  unfold avtpdu. erewrite (zslice_skip dst _ 6), (zslice_skip src _ 6), (zslice_skip _ _ 2) by (done || lia).
  cbn -[Z.div Z.modulo]. unfold zslice. cbn -[Z.div Z.modulo].
  rewrite (Z.mod_small st), (Z.mod_small b15) by lia.
  rewrite (Z.mod_small (w16 / 256)) by (Z.div_mod_to_equations; lia). reflexivity.
Qed.

Lemma avtpdu_head i : 0 <= i < 4 -> raw_at frame (14 + i) = raw_at [st; b15; w16 / 256; w16 mod 256] i.
Proof using Hdst Hsrc Hst Hb15 Hw16. intros Hi. apply (raw_at_slice _ _ 4); [apply avtpdu_word16|lia..]. Qed.

Lemma avtpdu_header :
  resp_subtype frame = st /\ resp_message_type frame = b15 mod 16 /\
  resp_sv frame = b15 / 128 /\ resp_version frame = b15 / 16 mod 8 /\
  resp_status frame = w16 / 2048 /\ resp_cdl frame = w16 mod 2048.
Proof using Hdst Hsrc Hst Hb15 Hw16.
  pose proof (zlen_nonneg body) as Hb. pose proof (avtpdu_length) as Hl.
  unfold resp_subtype, resp_message_type, resp_sv, resp_version, resp_status, resp_cdl.
  rewrite Hl, !(proj2 (Z.ltb_lt _ _)) by lia.
  assert (raw_at frame 14 = st) as -> by exact (avtpdu_head 0 ltac:(lia)).
  assert (raw_at frame 15 = b15) as -> by exact (avtpdu_head 1 ltac:(lia)).
  assert (raw_at frame 16 = w16 / 256) as -> by exact (avtpdu_head 2 ltac:(lia)).
  assert (raw_at frame 17 = w16 mod 256) as -> by exact (avtpdu_head 3 ltac:(lia)).
  rewrite join_bits by first [lia | by apply Z.mod_pos_bound]. rewrite !Z.shiftr_div_pow2 by lia. masks.
  change (2 ^ 7) with 128. change (2 ^ 4) with 16. change (2 ^ 3) with 8. change (2 ^ 8) with 256.
  split_and!; try done; Z.div_mod_to_equations; lia.
Qed.
End Header.

(** * ACMPDU *)

Definition ACMP_VIEWS : list (string * Z * (bytes -> Z)) :=
  [("status", 5, resp_status); ("cdl", 11, resp_cdl);
   ("stream_id", 64, acmp_stream_id); ("controller", 64, acmp_controller_entity_id);
   ("talker", 64, acmp_talker_entity_id); ("listener", 64, acmp_listener_entity_id);
   ("talker_unique", 16, acmp_talker_unique_id); ("listener_unique", 16, acmp_listener_unique_id);
   ("connection_count", 16, acmp_connection_count); ("seq", 16, acmp_sequence_id);
   ("flags", 16, acmp_flags); ("vlan", 16, acmp_stream_vlan_id)]%string.

(** The two words of a status or valid time with a control_data_length. *)
Lemma word16_parts a b : 0 <= Z.lor (Z.shiftl (Z.land a 0x1F) 11) (Z.land b 0x7FF) < 65536 /\
  Z.lor (Z.shiftl (Z.land a 0x1F) 11) (Z.land b 0x7FF) / 2048 = a mod 32 /\
  Z.lor (Z.shiftl (Z.land a 0x1F) 11) (Z.land b 0x7FF) mod 2048 = b mod 2048.
Proof.
  masks. rewrite join_bits by first [lia | by apply Z.mod_pos_bound]. change (2 ^ 11) with 2048.
  pose proof (Z.mod_pos_bound a 32 ltac:(lia)). pose proof (Z.mod_pos_bound b 2048 ltac:(lia)).
  split_and!; try lia; Z.div_mod_to_equations; lia.
Qed.

(** A masked field read back from the body. *)
Ltac body_field :=
  unfold rd_be; read_field; rewrite of_be_be_bytes;
  first [ reflexivity
        | masks; first [ reflexivity
          | match goal with |- _ = ?x mod ?m => exact (Z.mod_mod x m ltac:(done)) end ] ].

Ltac body_view :=
  match goal with |- ?view (avtpdu _ _ _ _ _ _) = _ => unfold view end;
  rewrite avtpdu_view by (autorewrite with zlen; first [done | lia]);
  cbn [Z.sub Z.add Z.opp Z.pos_sub]; body_field.

(** The header views and the length of the frame in the goal. *)
Ltac header_facts :=
  match goal with
  | |- context [avtpdu ?d ?s ?st ?b ?w ?body] =>
      let L := fresh "Hlen" in let V := fresh "Hhead" in
      pose proof (avtpdu_length d s st b w body ltac:(assumption) ltac:(assumption)) as L;
      pose proof (avtpdu_header d s st b w body ltac:(assumption) ltac:(assumption)
                    ltac:(assumption) ltac:(assumption) ltac:(assumption)) as V;
      destruct V as (? & ? & ? & ? & ? & ?)
  end.

Ltac unfold_views :=
  repeat apply List.Forall_cons; try apply List.Forall_nil; cbn beta iota.

Ltac header_view Hs Hc := etrans; [eassumption|]; first [exact Hs | exact Hc].

(** Every field of an ACMPDU is read back by its view, and the frame is the
    seventy octets the length check of a controller wants, whenever the three
    addresses are six octets long. *)
Theorem acmp_round_trip mt fields fld f :
  with_defaults ACMP_PDU_FIELDS fields "acmp_pdu" = Ok fld -> acmp_pdu mt fields = Ok f ->
  zlen (byte_field fld "dst") = 6 -> zlen (byte_field fld "src") = 6 ->
  zlen (made_bytes fld "dest_mac") = 6 ->
  zlen f = 70 /\ resp_subtype f = SUBTYPE_ACMP /\ resp_message_type f = mt mod 16 /\
  acmp_stream_dest_mac f = made_bytes fld "dest_mac" /\ reads_back fld ACMP_VIEWS f.
Proof.
  intros Hd H Hdst Hsrc Hmac. unfold acmp_pdu in H. rewrite Hd in H. rsplit H.
  subst. packed. header_facts. pose proof (word16_parts (int_field v0 "status") (int_field v0 "cdl")) as (_ & Hs & Hc).
  split_and!.
  - rewrite Hlen. autorewrite with zlen. by rewrite Hmac.
  - done.
  - etrans; [eassumption|]. masks. apply Z.mod_mod. done.
  - unfold acmp_stream_dest_mac. rewrite avtpdu_body by done. by read_field.
  - unfold_views; try (header_view Hs Hc); body_view.
Qed.

(** * ADPDU *)

Definition ADP_VIEWS : list (string * Z * (bytes -> Z)) :=
  [("valid_time", 5, adp_valid_time); ("cdl", 11, resp_cdl);
   ("message_type", 4, resp_message_type);
   ("gptp_domain", 8, adp_gptp_domain_number);
   ("entity_id", 64, adp_entity_id); ("entity_model_id", 64, adp_entity_model_id);
   ("entity_caps", 32, adp_entity_capabilities);
   ("talker_sources", 16, adp_talker_stream_sources); ("talker_caps", 16, adp_talker_capabilities);
   ("listener_sinks", 16, adp_listener_stream_sinks);
   ("listener_caps", 16, adp_listener_capabilities);
   ("controller_caps", 32, adp_controller_capabilities);
   ("available_index", 32, adp_available_index); ("gptp_gm", 64, adp_gptp_grandmaster_id);
   ("current_config", 16, adp_current_configuration_index);
   ("identify_control", 16, adp_identify_control_index);
   ("interface_index", 16, adp_interface_index); ("association_id", 64, adp_association_id)]%string.

(** An ADPDU is eighty-two octets on the wire and every field of it is read back
    by its view. *)
Theorem adp_round_trip fields fld f :
  with_defaults ADP_PDU_FIELDS fields "adp_pdu" = Ok fld -> adp_pdu fields = Ok f ->
  zlen (byte_field fld "dst") = 6 -> zlen (byte_field fld "src") = 6 ->
  zlen f = 82 /\ resp_subtype f = SUBTYPE_ADP /\ reads_back fld ADP_VIEWS f.
Proof.
  intros Hd H Hdst Hsrc. unfold adp_pdu in H. rewrite Hd in H. rsplit H.
  subst. packed. header_facts.
  pose proof (word16_parts (int_field v "valid_time") (int_field v "cdl")) as (_ & Hs & Hc).
  split_and!.
  - rewrite Hlen. by autorewrite with zlen.
  - done.
  - unfold_views; try (header_view Hs Hc);
      [etrans; [eassumption|]; masks; by apply Z.mod_mod | | body_view..].
    unfold adp_gptp_domain_number. rewrite Hlen. autorewrite with zlen. cbn [Z.ltb Z.compare].
    rewrite avtpdu_at, raw_at_rd by (autorewrite with zlen; first [done | lia]). body_field.
Qed.

(** * AECPDU commands *)

(** The control_data_length a command claims. *)
Definition cdl_of (fld : kwargs) (payload : bytes) : Z :=
  match fld !! "cdl"%string with
  | Some VNone => 12 + zlen payload
  | _ => int_field fld "cdl"
  end.

Definition AECP_VIEWS : list (string * Z * (bytes -> Z)) :=
  [("status", 5, resp_status); ("msg_type", 4, resp_message_type); ("u", 1, resp_u);
   ("target", 64, resp_target_entity_id); ("controller", 64, resp_controller_entity_id);
   ("seq", 16, resp_sequence_id)]%string.

Definition aecp_padding (fld : kwargs) (payload : bytes) : bytes :=
  if truth (default VNone (fld !! "pad60"%string)) && (38 + zlen payload <? 60)
  then zeros (Z.to_nat (22 - zlen payload)) else [].

Definition aecp_body (fld : kwargs) (ct : Z) (payload : bytes) : bytes :=
  be_bytes 8 (int_field fld "target") ++ be_bytes 8 (int_field fld "controller")
  ++ be_bytes 2 (Z.land (int_field fld "seq") 0xFFFF)
  ++ be_bytes 2 (Z.lor (Z.shiftl (Z.land (int_field fld "u") 1) 15) (Z.land ct 0x7FFF)) ++ payload.

Lemma aecp_body_length fld ct payload : zlen (aecp_body fld ct payload) = 20 + zlen payload.
Proof. unfold aecp_body. autorewrite with zlen. lia. Qed.

Lemma cdl_of_Ok fld payload v z :
  field fld "cdl" = Ok v ->
  int_of match v with VNone => VInt (12 + zlen payload) | _ => v end = Ok z -> z = cdl_of fld payload.
Proof.
  unfold field, cdl_of, int_field. intros Hf Hz. destruct (fld !! "cdl"%string) as [w|]; [|done].
  injection Hf as ->. destruct v; cbn [int_of] in *; congruence.
Qed.

Lemma field_Ok fld n v : field fld n = Ok v -> fld !! n = Some v.
Proof. unfold field. destruct (fld !! n); congruence. Qed.

Lemma avtpdu_app dst src st b15 w16 a b :
  avtpdu dst src st b15 w16 a ++ b = avtpdu dst src st b15 w16 (a ++ b).
Proof. unfold avtpdu. by rewrite <-!app_assoc. Qed.

(** A command frame is its header, its body and the padding. *)
Lemma aecp_cmd_frame ct payload fields fld f :
  with_defaults AECP_CMD_FIELDS fields "aecp_cmd" = Ok fld -> aecp_cmd ct payload fields = Ok f ->
  zlen (byte_field fld "dst") = 6 -> zlen (byte_field fld "src") = 6 ->
  0 <= int_field fld "target" < 2 ^ 64 /\ 0 <= int_field fld "controller" < 2 ^ 64 /\
  f = avtpdu (byte_field fld "dst") (byte_field fld "src") SUBTYPE_AECP
        (Z.land (int_field fld "msg_type") 0x0F)
        (Z.lor (Z.shiftl (Z.land (int_field fld "status") 0x1F) 11) (Z.land (cdl_of fld payload) 0x7FF))
        (aecp_body fld ct payload ++ aecp_padding fld payload).
Proof.
  intros Hd H Hdst Hsrc. unfold aecp_cmd in H. rewrite Hd in H. rsplit H. subst fld.
  packed.
  rewrite (cdl_of_Ok _ _ _ _ Hm6 Hm8). unfold aecp_padding. rewrite (field_Ok _ _ _ Hm13).
  split; [assumption|]. split; [assumption|]. rewrite avtpdu_length by done. fold (aecp_body v0 ct payload).
  rewrite aecp_body_length. replace (18 + (20 + zlen payload)) with (38 + zlen payload) by lia.
  cbn [default from_option id].
  destruct (_ && _); [|by rewrite app_nil_r]. unfold pad_to. rewrite avtpdu_app, avtpdu_length by done.
  rewrite aecp_body_length. do 4 f_equal. lia.
Qed.

Lemma command_word u ct : 0 <= Z.lor (Z.shiftl (Z.land u 1) 15) (Z.land ct 0x7FFF) < 65536 /\
  Z.lor (Z.shiftl (Z.land u 1) 15) (Z.land ct 0x7FFF) = 32768 * (u mod 2) + ct mod 32768.
Proof.
  masks. rewrite join_bits by first [lia | by apply Z.mod_pos_bound]. change (2 ^ 15) with 32768.
  pose proof (Z.mod_pos_bound u 2 ltac:(lia)). pose proof (Z.mod_pos_bound ct 32768 ltac:(lia)). lia.
Qed.

(** The octets 36 and 37 of a command: the u bit and the command type. *)
Lemma aecp_body_word fld ct payload rest :
  zslice 18 2 (aecp_body fld ct payload ++ rest)
  = let w := 32768 * (int_field fld "u" mod 2) + ct mod 32768 in [w / 256; w mod 256].
Proof.
  destruct (command_word (int_field fld "u") ct) as [H E].
  unfold aecp_body. read_field. rewrite E in H |- *. cbn -[Z.div Z.modulo Z.mul Z.add].
  rewrite (Z.mod_small (_ / 256)); [done|]. Z.div_mod_to_equations; lia.
Qed.

Lemma aecp_word_views dst src st b15 w16 fld ct payload rest :
  zlen dst = 6 -> zlen src = 6 ->
  let f := avtpdu dst src st b15 w16 (aecp_body fld ct payload ++ rest) in
  resp_u f = int_field fld "u" mod 2 ^ 1 /\ resp_command_type f = ct mod 2 ^ 15.
Proof.
  intros Hdst Hsrc. cbv zeta. unfold resp_u, resp_command_type.
  rewrite avtpdu_length, zlen_app, aecp_body_length by done.
  pose proof (zlen_nonneg payload). pose proof (zlen_nonneg rest).
  rewrite !(proj2 (Z.ltb_lt _ _)) by lia. rewrite !avtpdu_at by done.
  change (36 - 18) with (18 + 0). change (37 - 18) with (18 + 1).
  rewrite (raw_at_slice _ 18 2 _ 0 (aecp_body_word fld ct payload rest)) by done.
  rewrite (raw_at_slice _ 18 2 _ 1 (aecp_body_word fld ct payload rest)) by done.
  set (u := int_field fld "u"). unfold raw_at.
  change (Z.to_nat 0) with 0%nat. change (Z.to_nat 1) with 1%nat. cbn [nth].
  change (2 ^ 1) with 2. change (2 ^ 15) with 32768.
  rewrite join_bits by first [lia | by apply Z.mod_pos_bound].
  rewrite Z.shiftr_div_pow2 by done. masks. change (2 ^ 7) with 128. change (2 ^ 8) with 256.
  pose proof (Z.mod_pos_bound u 2 ltac:(lia)). pose proof (Z.mod_pos_bound ct 32768 ltac:(lia)).
  generalize dependent (u mod 2). generalize dependent (ct mod 32768). intros c Hc u' Hu.
  split; Z.div_mod_to_equations; lia.
Qed.

(** Every field of a command is read back by the views of a response, the length
    it claims is the one asked for or else that of the payload, and the payload
    stands where it is looked for, followed by the padding. *)
Theorem aecp_round_trip ct payload fields fld f :
  with_defaults AECP_CMD_FIELDS fields "aecp_cmd" = Ok fld -> aecp_cmd ct payload fields = Ok f ->
  zlen (byte_field fld "dst") = 6 -> zlen (byte_field fld "src") = 6 ->
  resp_subtype f = SUBTYPE_AECP /\ resp_cdl f = cdl_of fld payload mod 2048 /\
  resp_command_type f = ct mod 2 ^ 15 /\ resp_payload f = payload ++ aecp_padding fld payload /\
  reads_back fld AECP_VIEWS f.
Proof.
  intros Hd H Hdst Hsrc. destruct (aecp_cmd_frame _ _ _ _ _ Hd H Hdst Hsrc) as (Ht & Hc & ->).
  pose proof (word16_parts (int_field fld "status") (cdl_of fld payload)) as (Hw & Hs & Hcdl).
  assert (0 <= Z.land (int_field fld "msg_type") 0x0F < 256) as Hmt
    by (masks; pose proof (Z.mod_pos_bound (int_field fld "msg_type") 16 ltac:(lia)); lia).
  assert (0 <= SUBTYPE_AECP < 256) as Hst by done. header_facts.
  destruct (aecp_word_views (byte_field fld "dst") (byte_field fld "src") SUBTYPE_AECP
    (Z.land (int_field fld "msg_type") 0x0F)
    (Z.lor (Z.shiftl (Z.land (int_field fld "status") 0x1F) 11) (Z.land (cdl_of fld payload) 0x7FF))
    fld ct payload (aecp_padding fld payload) Hdst Hsrc) as [Hu Hct].
  split_and!; [done|header_view Hs Hcdl|exact Hct| |].
  - unfold resp_payload, avtpdu, aecp_body.
    rewrite !app_assoc, <-(app_assoc _ payload), drop_app_length'; [done|].
    rewrite !length_app, !be_bytes_length. unfold zlen in *. lia.
  - unfold_views; try (header_view Hs Hcdl);
      [etrans; [eassumption|]; masks; by apply Z.mod_mod | exact Hu | ..];
      (match goal with |- ?view (avtpdu _ _ _ _ _ _) = _ => unfold view end);
      rewrite avtpdu_view by (rewrite ?zlen_app, ?aecp_body_length; pose proof (zlen_nonneg payload);
        pose proof (zlen_nonneg (aecp_padding fld payload)); first [done | lia]);
      unfold aecp_body; cbn [Z.sub Z.add Z.opp Z.pos_sub]; body_field.
Qed.

(** A sender that leaves the length to the builder, and does not pad, gets a
    frame that passes the length rule of the response view exactly when its
    payload leaves the eleven bits of the field unfilled. *)
Theorem aecp_cdl_ok_iff ct payload fields fld f :
  with_defaults AECP_CMD_FIELDS fields "aecp_cmd" = Ok fld -> aecp_cmd ct payload fields = Ok f ->
  zlen (byte_field fld "dst") = 6 -> zlen (byte_field fld "src") = 6 ->
  fld !! "cdl"%string = Some VNone -> fld !! "pad60"%string = Some (VBool false) ->
  resp_cdl_ok f = true <-> zlen payload < 2036.
Proof.
  intros Hd H Hdst Hsrc Hcdl Hpad.
  destruct (aecp_round_trip _ _ _ _ _ Hd H Hdst Hsrc) as (_ & Hc & _).
  destruct (aecp_cmd_frame _ _ _ _ _ Hd H Hdst Hsrc) as (_ & _ & E).
  assert (zlen f = 38 + zlen payload) as Hl.
  { rewrite E, avtpdu_length, zlen_app, aecp_body_length by done.
    unfold aecp_padding. rewrite Hpad. cbn [default from_option id truth andb]. rewrite zlen_nil. lia. }
  unfold resp_cdl_ok. rewrite Hc, Hl. unfold cdl_of. rewrite Hcdl.
  pose proof (zlen_nonneg payload). rewrite (proj2 (Z.ltb_lt _ _)) by lia. cbn [andb].
  rewrite Z.eqb_eq. pose proof (Z.mod_pos_bound (12 + zlen payload) 2048 ltac:(lia)).
  split; [lia|]. intros Hp. rewrite Z.mod_small by lia. lia.
Qed.

(** * Vendor-unique commands *)

Definition AECP_VU_VIEWS : list (string * Z * (bytes -> Z)) :=
  [("target", 64, resp_target_entity_id); ("controller", 64, resp_controller_entity_id);
   ("seq", 16, resp_sequence_id)]%string.

(** A vendor-unique command carries the whole protocol identifier at octet 36 and
    the command code after it, in a frame whose claimed length is the one of the
    length rule. *)
Theorem aecp_vu_round_trip vu payload fields fld f :
  with_defaults AECP_VU_CMD_FIELDS fields "aecp_vu_cmd" = Ok fld ->
  aecp_vu_cmd vu payload fields = Ok f ->
  zlen (byte_field fld "dst") = 6 -> zlen (byte_field fld "src") = 6 ->
  let id := byte_field fld "protocol_id" in
  resp_subtype f = SUBTYPE_AECP /\ resp_message_type f = MSG_VU_COMMAND /\
  resp_cdl f = (zlen f - 26) mod 2048 /\ zslice 36 (zlen id) f = id /\
  rd_be (36 + zlen id) 2 f = vu mod 2 ^ 16 /\ drop (Z.to_nat (40 + zlen id)) f = payload /\
  reads_back fld AECP_VU_VIEWS f.
Proof.
  intros Hd H Hdst Hsrc. unfold aecp_vu_cmd in H. rewrite Hd in H. rsplit H.
  subst. packed. header_facts. cbv zeta. set (id := byte_field v0 "protocol_id") in *.
  pose proof (zlen_nonneg id). pose proof (zlen_nonneg payload).
  split_and!.
  - done.
  - done.
  - rewrite Hlen. etrans; [eassumption|]. autorewrite with zlen. masks.
    rewrite Z.mod_mod by done. f_equal. lia.
  - rewrite avtpdu_body by done. cbn [Z.sub Z.add Z.opp Z.pos_sub].
    do 3 (erewrite zslice_skip; [|apply zlen_be_bytes|done]). by apply zslice_hit.
  - unfold rd_be. rewrite avtpdu_body by lia. rewrite !app_assoc.
    rewrite <-(app_assoc _ (be_bytes 2 0) payload), <-app_assoc.
    erewrite (zslice_skip _ _ (18 + zlen id)) by (autorewrite with zlen; lia).
    replace (_ - _) with 0 by lia. rewrite zslice_hit by apply zlen_be_bytes.
    rewrite of_be_be_bytes. masks. by apply Z.mod_mod.
  - unfold avtpdu. rewrite !app_assoc. apply drop_app_length'.
    rewrite !length_app, !be_bytes_length. unfold zlen in *. lia.
  - unfold_views;
      (match goal with |- ?view (avtpdu _ _ _ _ _ _) = _ => unfold view end);
      rewrite avtpdu_view by (autorewrite with zlen; first [done | lia]);
      cbn [Z.sub Z.add Z.opp Z.pos_sub]; body_field.
Qed.

(** * AAF stream PDUs *)

Definition aaf_payload (fld : kwargs) : bytes :=
  match fld !! "payload"%string with
  | Some (VBytes b) => b
  | _ => made_bytes fld "stream_data_length"
  end.

Definition aaf_tag (fld : kwargs) : bytes :=
  match fld !! "vlan"%string with
  | Some VNone => []
  | _ => be_bytes 2 0x8100 ++ be_bytes 2 (int_field fld "vlan" mod 4096)
  end.

(** The flags octet and the format word as sums of their fields. *)
Definition aaf_flags (n : string -> Z) : Z :=
  128 * (n "sv"%string mod 2) + 16 * (n "version"%string mod 8) + 8 * (n "mr"%string mod 2)
  + 2 * (n "gv"%string mod 2) + n "tv"%string mod 2.

Definition aaf_format_word (n : string -> Z) : Z :=
  2 ^ 24 * (n "aaf_format"%string mod 256) + 2 ^ 20 * (n "nsr"%string mod 16)
  + 256 * (n "channels_per_frame"%string mod 1024) + n "bit_depth"%string mod 256.

Definition aaf_header (fld : kwargs) : bytes :=
  let n := int_field fld in
  be_bytes 1 SUBTYPE_AAF ++ be_bytes 1 (aaf_flags n) ++ be_bytes 1 (n "sequence_num"%string mod 256)
  ++ be_bytes 1 (n "tu"%string mod 128) ++ be_bytes 8 (n "stream_id"%string)
  ++ be_bytes 4 (n "avtp_timestamp"%string mod 2 ^ 32) ++ be_bytes 4 (aaf_format_word n)
  ++ be_bytes 2 (n "stream_data_length"%string mod 65536)
  ++ be_bytes 2 (4096 * (n "sparse"%string mod 2) + n "evt"%string mod 16).

Ltac mod_bounds :=
  repeat match goal with
  | |- context [?a mod Zpos ?m] =>
      let r := fresh "r" in
      pose proof (Z.mod_pos_bound a (Zpos m) ltac:(done)); set (r := a mod Zpos m) in *; clearbody r
  end.

Lemma aaf_flags_bits sv version mr gv tv :
  Z.lor (Z.lor (Z.lor (Z.lor (Z.shiftl (Z.land sv 1) 7) (Z.shiftl (Z.land version 7) 4))
    (Z.shiftl (Z.land mr 1) 3)) (Z.shiftl (Z.land gv 1) 1)) (Z.land tv 1)
  = 128 * (sv mod 2) + 16 * (version mod 8) + 8 * (mr mod 2) + 2 * (gv mod 2) + tv mod 2.
Proof.
  masks. mod_bounds.
  rewrite (join_shifts _ _ 3 4), (join_shifts _ _ 1 3), (join_shifts _ _ 2 1), join_bits by lia. lia.
Qed.

Lemma aaf_format_bits fmt nsr ch depth :
  Z.lor (Z.lor (Z.lor (Z.shiftl (Z.land fmt 255) 24) (Z.shiftl (Z.land nsr 15) 20))
    (Z.shiftl (Z.land ch 1023) 8)) (Z.land depth 255)
  = 2 ^ 24 * (fmt mod 256) + 2 ^ 20 * (nsr mod 16) + 256 * (ch mod 1024) + depth mod 256.
Proof.
  masks. mod_bounds.
  rewrite (join_shifts _ _ 4 20), (join_shifts _ _ 12 8), join_bits by lia. lia.
Qed.

Lemma aaf_frame fields fld f :
  with_defaults AAF_PDU_FIELDS fields "aaf_pdu" = Ok fld -> aaf_pdu fields = Ok f ->
  0 <= int_field fld "stream_id" < 2 ^ 64 /\
  f = byte_field fld "dst" ++ byte_field fld "src" ++ aaf_tag fld ++ be_bytes 2 ETHERTYPE_AVTP
      ++ aaf_header fld ++ aaf_payload fld.
Proof.
  intros Hd H. unfold aaf_pdu in H. rewrite Hd in H. rsplit H. subst fld. packed.
  split; [assumption|].
  assert (v27 = aaf_tag v) as ->.
  { unfold aaf_tag, int_field. rewrite (field_Ok _ _ _ Hm24).
    destruct v24; cbn [int_of rbind] in *; try done; [|destruct b|congruence];
      rsplit Hm27; packed; subst; masks; reflexivity. }
  assert (v31 = aaf_payload v) as ->.
  { unfold aaf_payload, made_bytes. rewrite (field_Ok _ _ _ Hm1), (field_Ok _ _ _ Hm0).
    destruct v1; try (injection Hm2 as <-; cbn [bytes_of] in *; congruence); try done.
    rsplit Hm2. rewrite Hm. subst. by injection Hm31. }
  assert (v19 = int_field v "stream_data_length") as ->
    by (unfold int_field; by rewrite (field_Ok _ _ _ Hm0), Hm19).
  unfold aaf_header, aaf_flags, aaf_format_word.
  rewrite <-aaf_flags_bits, <-aaf_format_bits. masks.
  rewrite (join_bits (int_field v "sparse" mod 2) (int_field v "evt" mod 16) 12)
    by (pose proof (Z.mod_pos_bound (int_field v "evt") 16 ltac:(done)); lia).
  change (2 ^ 12) with 4096. by rewrite (Z.mul_comm (_ mod 2)).
Qed.

(** A stream PDU is its header at octet 14, or 18 behind a VLAN tag, and the
    payload after it; every field of the header is read back from its place, the
    flags and the format word as the sums of their parts. *)
Theorem aaf_round_trip fields fld f :
  with_defaults AAF_PDU_FIELDS fields "aaf_pdu" = Ok fld -> aaf_pdu fields = Ok f ->
  zlen (byte_field fld "dst") = 6 -> zlen (byte_field fld "src") = 6 ->
  let n := int_field fld in
  let o := 14 + zlen (aaf_tag fld) in
  zlen f = o + 24 + zlen (aaf_payload fld) /\ drop (Z.to_nat (o + 24)) f = aaf_payload fld /\
  rd_be (o + 0) 1 f = SUBTYPE_AAF /\ rd_be (o + 1) 1 f = aaf_flags n /\
  rd_be (o + 2) 1 f = n "sequence_num"%string mod 256 /\ rd_be (o + 3) 1 f = n "tu"%string mod 128 /\
  rd_be (o + 4) 8 f = n "stream_id"%string /\
  rd_be (o + 12) 4 f = n "avtp_timestamp"%string mod 2 ^ 32 /\
  rd_be (o + 16) 4 f = aaf_format_word n /\
  rd_be (o + 20) 2 f = n "stream_data_length"%string mod 65536 /\
  rd_be (o + 22) 2 f = 4096 * (n "sparse"%string mod 2) + n "evt"%string mod 16.
Proof.
  intros Hd H Hdst Hsrc n o. destruct (aaf_frame _ _ _ Hd H) as [Hid ->].
  assert (zlen (byte_field fld "dst" ++ byte_field fld "src" ++ aaf_tag fld ++ be_bytes 2 ETHERTYPE_AVTP)
          = o) as Ho by (autorewrite with zlen; lia).
  assert (zlen (aaf_header fld) = 24) as Hh by (unfold aaf_header; by autorewrite with zlen).
  rewrite !app_assoc, <-!(app_assoc _ (aaf_header fld)).
  rewrite !app_assoc in Ho. split_and!.
  1: rewrite !zlen_app in *; lia.
  1: rewrite app_assoc; apply drop_app_length'; rewrite length_app; unfold zlen in *; lia.
  all: rewrite rd_be_after by done; unfold aaf_header, rd_be; read_field; rewrite of_be_be_bytes;
    fold n; apply Z.mod_small; unfold SUBTYPE_AAF, aaf_flags, aaf_format_word;
    match goal with |- 0 <= _ < ?m ^ Z.of_nat ?k =>
      let p := eval vm_compute in (m ^ Z.of_nat k) in change (m ^ Z.of_nat k) with p end;
    first [ exact Hid | apply (Z.mod_pos_bound _ (2 ^ 32)); done | lia | mod_bounds; lia ].
Qed.

(** * Calls that cannot fail *)

Definition ints (names : list string) : list (string * kind) := map (fun n => (n, KInt)) names.
Definition ids (names : list string) : list (string * kind) := map (fun n => (n, KU64)) names.

Definition AECP_CMD_KINDS : gmap string kind := list_to_map
  (ints ["seq"; "msg_type"; "u"; "status"]%string ++ ids ["target"; "controller"]%string
   ++ [("dst", KBytes); ("src", KBytes); ("cdl", KOptInt); ("pad60", KAny)]%string).

Definition ACMP_PDU_KINDS : gmap string kind := list_to_map
  (ids ["stream_id"; "controller"; "talker"; "listener"]%string
   ++ ints ["talker_unique"; "listener_unique"; "connection_count"; "seq"; "flags"; "vlan";
            "status"; "cdl"; "reserved"]%string
   ++ [("dest_mac", KBytes); ("dst", KBytes); ("src", KBytes)]%string).

Definition ADP_PDU_KINDS : gmap string kind := list_to_map
  (ids ["entity_id"; "entity_model_id"; "gptp_gm"; "association_id"]%string
   ++ ints ["message_type"; "valid_time"; "entity_caps"; "talker_sources"; "talker_caps";
            "listener_sinks"; "listener_caps"; "controller_caps"; "available_index";
            "gptp_domain"; "reserved0"; "current_config"; "identify_control";
            "interface_index"; "reserved1"; "cdl"]%string
   ++ [("dst", KBytes); ("src", KBytes)]%string).

Definition AAF_PDU_KINDS : gmap string kind := list_to_map
  (ids ["stream_id"]%string
   ++ ints ["sequence_num"; "avtp_timestamp"; "tv"; "mr"; "tu"; "sv"; "version"; "gv"; "nsr";
            "channels_per_frame"; "bit_depth"; "aaf_format"; "sparse"; "evt"]%string
   ++ [("stream_data_length", KNat); ("payload", KOptBytes); ("vlan", KOptInt);
       ("dst", KBytes); ("src", KBytes)]%string).

Lemma eth_total d s st b15 w16 body :
  0 <= st < 256 -> 0 <= b15 < 256 -> 0 <= w16 < 65536 ->
  eth (VBytes d) (VBytes s) st b15 w16 body = Ok (avtpdu d s st b15 w16 body).
Proof. intros. unfold eth. cbn [bytes_of rbind]. by rewrite !pack_total by done. Qed.

(** Run a builder on fields of the listed kinds. *)
Ltac kind_of_name := by vm_compute.

Ltac run_step Hk Hall :=
  match goal with
  | |- context [pack_field 8 ?m ?n] =>
      rewrite (pack_field_total _ _ Hk Hall n) by kind_of_name
  | |- context [pack_masked ?w ?m ?n ?msk] =>
      rewrite (pack_masked_total _ _ Hk Hall w n msk) by kind_of_name
  | |- context [masked ?m ?n ?msk] =>
      rewrite (masked_total _ _ Hk Hall n msk) by kind_of_name
  | |- context [field ?m ?n] =>
      let v := fresh "w" in let Hv := fresh "Hw" in let Hv' := fresh "Hkw" in
      first [ destruct (bytes_field_total _ _ Hk Hall n ltac:(kind_of_name)) as [v Hv]
            | destruct (field_total _ _ Hk Hall n _ ltac:(by vm_compute)) as (v & Hv & Hv') ];
      rewrite Hv
  end; cbn [rbind bytes_of to_bytes].

(** Merge the defaults: the dictionary has every field, each of its kind. *)
Ltac merge_defaults H :=
  lazymatch goal with
  | |- context [with_defaults ?D ?fields ?what] =>
      lazymatch type of H with
      | kinded ?K _ =>
          let fld := fresh "fld" in let Hk := fresh "Hk" in let Hall := fresh "Hall" in
          destruct (with_defaults_total K D fields
            (names_declared K D ltac:(by vm_compute)) (kindedb_kinded K D ltac:(by vm_compute))
            H what) as (fld & -> & Hk & Hall);
          cbn [rbind]; clear H; repeat run_step Hk Hall
      end
  end.

Lemma land_range a m k : 0 <= k -> m = 2 ^ k - 1 -> 0 <= Z.land a m < 2 ^ k.
Proof. intros Hk ->. rewrite (land_mask _ _ k) by done. apply Z.mod_pos_bound. lia. Qed.

Lemma acmp_total mt fields : kinded ACMP_PDU_KINDS fields -> exists f, acmp_pdu mt fields = Ok f.
Proof.
  intros H. unfold acmp_pdu. rewrite (no_positional_total _ _ _ H) by (repeat constructor).
  merge_defaults H. rewrite eth_total; [by eexists|done| |apply word16_parts].
  pose proof (land_range mt 15 4 ltac:(done) eq_refl). lia.
Qed.

Lemma adp_total fields : kinded ADP_PDU_KINDS fields -> exists f, adp_pdu fields = Ok f.
Proof.
  intros H. unfold adp_pdu. merge_defaults H.
  rewrite eth_total; [by eexists|done| |apply word16_parts].
  pose proof (land_range (int_field fld "message_type") 15 4 ltac:(done) eq_refl). lia.
Qed.

Lemma aecp_total ct payload fields :
  kinded AECP_CMD_KINDS fields -> exists f, aecp_cmd ct payload fields = Ok f.
Proof.
  intros H. unfold aecp_cmd. rewrite (no_positional_total _ _ _ H) by (repeat constructor).
  merge_defaults H. rewrite pack_total by apply command_word. cbn [rbind].
  repeat run_step Hk Hall.
  assert (exists z, int_of match w with VNone => VInt (12 + zlen payload) | _ => w end = Ok z) as [z ->]
    by (destruct w; try done; by eexists).
  cbn [rbind]. repeat run_step Hk Hall. rewrite eth_total; [cbn [rbind]|done| |apply word16_parts].
  - by eexists.
  - pose proof (land_range (int_field fld "msg_type") 15 4 ltac:(done) eq_refl). lia.
Qed.

Lemma aaf_total fields : kinded AAF_PDU_KINDS fields -> exists f, aaf_pdu fields = Ok f.
Proof.
  intros H. unfold aaf_pdu. merge_defaults H.
  assert (exists n, w = VInt n /\ 0 <= n) as (n & -> & Hn)
    by (destruct w; try done; cbn [has_kind] in *; bool_prop; by eexists).
  assert (exists b, match w0 with VNone => let* b := to_bytes (VInt n) in Ok (VBytes b) | _ => Ok w0 end
            = Ok (VBytes b)) as [b ->].
  { destruct w0; try done; [|by eexists]. cbn [to_bytes]. rewrite (proj2 (Z.leb_le 0 n) Hn). by eexists. }
  assert (pack_masked 1 fld "tu" 0x7F = Ok (be_bytes 1 (Z.land (int_field fld "tu") 0x7F))) as ->.
  { unfold pack_masked. run_step Hk Hall. apply pack_total.
    pose proof (land_range (int_field fld "tu") 127 7 ltac:(done) eq_refl). lia. }
  assert (exists tag, match w1 with VNone => Ok [] | _ =>
     let* v := int_of w1 in let* tpid := pack 2 0x8100 in
     let* tci := pack 2 (Z.land v 0x0FFF) in Ok (tpid ++ tci) end = Ok tag) as [tag ->].
  { destruct w1; try done; [| |by eexists]; cbn [int_of rbind];
      match goal with |- context [Z.land ?v 0x0FFF] =>
        pose proof (land_range v 0x0FFF 12 ltac:(done) eq_refl) end;
      rewrite !pack_total; cbn [rbind]; first [by eexists | done | lia]. }
  cbn [rbind int_of bytes_of].
  rewrite aaf_flags_bits, aaf_format_bits. rewrite !pack_total; cbn [rbind]; [by eexists|..].
  all: masks; first [done | mod_bounds; rewrite ?join_bits by lia; change (256 ^ Z.of_nat 4) with (2 ^ 32); lia].
Qed.

(** A call succeeds whatever the values, as long as its keywords are declared,
    numbers are numbers, byte strings are byte strings and the identifiers that
    are not masked fit their sixty-four bits. *)
Theorem builders_total mt ct payload fields :
  (kinded AECP_CMD_KINDS fields -> exists f, aecp_cmd ct payload fields = Ok f) /\
  (kinded ACMP_PDU_KINDS fields -> exists f, acmp_pdu mt fields = Ok f) /\
  (kinded ADP_PDU_KINDS fields -> exists f, adp_pdu fields = Ok f) /\
  (kinded AAF_PDU_KINDS fields -> exists f, aaf_pdu fields = Ok f).
Proof. auto using aecp_total, acmp_total, adp_total, aaf_total. Qed.
