(* ===== verification/PtpWire.v ===== *)
(** 802.1AS on the wire: the frame builders and the field view of the gPTP part of
    the field campaign ([tb/verilator/tsn_fuzz/wire.py], from [ts80] on).

    [ptp_frame] owns the common header; the builder of a message type owns its
    body and hands every other keyword on.  The theorems read the header and the
    bodies back through [PtpMsg], the time stamps included, and show that a
    trailing TLV changes nothing but the declared length. *)
From S2P Require Import Prelude Text Packing TsnWire.

Definition ETHERTYPE_GPTP := 0x88F7.
Definition GPTP_MCAST_MAC : bytes := [0x01; 0x80; 0xc2; 0x00; 0x00; 0x0e].
Definition GPTP_OUR_CID := 0x02A1B2FFFEC3D4E5.
Definition GPTP_PEER_MAC : bytes := [0x00; 0x80; 0xe1; 0x11; 0x22; 0x33].
Definition GPTP_PEER_CID := 0x0080E1FFFE112233.

Definition PTP_SYNC := 0x0.
Definition PTP_PDELAY_REQ := 0x2.
Definition PTP_PDELAY_RESP := 0x3.
Definition PTP_FOLLOW_UP := 0x8.
Definition PTP_PDELAY_RESP_FU := 0xA.
Definition PTP_ANNOUNCE := 0xB.

(** * Builders *)

Definition ts80 (ns : value) (seconds : option Z) : result py_error bytes :=
  let* sn := match seconds with
             | None => let* n := to_int ns in Ok (n / 1000000000, n mod 1000000000)
             | Some s => let* n := int_of ns in Ok (s, n)
             end in
  let* hi := pack 2 (Z.land (Z.shiftr (fst sn) 32) 0xFFFF) in
  let* lo := pack 4 (Z.land (fst sn) 0xFFFFFFFF) in
  let* ns := pack 4 (Z.land (snd sn) 0xFFFFFFFF) in
  Ok (hi ++ lo ++ ns).

Definition PTP_HEADER_FIELDS : kwargs := list_to_map
  [("transport_specific", VInt 1); ("reserved0", VInt 0); ("version_ptp", VInt 2);
   ("message_length", VNone); ("domain_number", VInt 0); ("reserved1", VInt 0);
   ("flags", VInt 0); ("correction_field", VInt 0); ("reserved2", VInt 0);
   ("source_clock_identity", VInt GPTP_PEER_CID); ("source_port_number", VInt 1);
   ("sequence_id", VInt 0); ("control", VInt 0x05); ("log_message_interval", VInt 0x7F);
   ("suffix", VBytes []); ("dst", VBytes GPTP_MCAST_MAC); ("src", VBytes GPTP_PEER_MAC);
   ("ethertype", VInt ETHERTYPE_GPTP)]%string.

Definition ptp_frame (message_type : Z) (body : bytes) (fields : kwargs) : result py_error bytes :=
  let* _ := no_positional ["message_type"; "body"]%string fields in
  let* fld := with_defaults PTP_HEADER_FIELDS fields "ptp_frame" in
  let* suffix := field fld "suffix" in
  let* message_length := field fld "message_length" in
  let* message_length := match message_length with
                         | VNone => let* s := elements suffix in Ok (VInt (34 + zlen body + zlen s))
                         | _ => Ok message_length
                         end in
  let* ts := masked fld "transport_specific" 0xF in
  let* r0 := masked fld "reserved0" 0xF in
  let* ver := masked fld "version_ptp" 0xF in
  let* ml := int_of message_length in
  let* b14 := pack 1 (Z.lor (Z.shiftl ts 4) (Z.land message_type 0xF)) in
  let* b15 := pack 1 (Z.lor (Z.shiftl r0 4) ver) in
  let* ml := pack 2 (Z.land ml 0xFFFF) in
  let* domain_number := pack_masked 1 fld "domain_number" 0xFF in
  let* reserved1 := pack_masked 1 fld "reserved1" 0xFF in
  let* flags := pack_masked 2 fld "flags" 0xFFFF in
  let* correction := pack_masked 8 fld "correction_field" 0xFFFFFFFFFFFFFFFF in
  let* reserved2 := pack_masked 4 fld "reserved2" 0xFFFFFFFF in
  let* cid := pack_field 8 fld "source_clock_identity" in
  let* port := pack_masked 2 fld "source_port_number" 0xFFFF in
  let* seq := pack_masked 2 fld "sequence_id" 0xFFFF in
  let* control := pack_masked 1 fld "control" 0xFF in
  let* interval := pack_masked 1 fld "log_message_interval" 0xFF in
  let hdr := b14 ++ b15 ++ ml ++ domain_number ++ reserved1 ++ flags ++ correction ++ reserved2
             ++ cid ++ port ++ seq ++ control ++ interval in
  let* dst := field fld "dst" in
  let* dst := bytes_of dst in
  let* src := field fld "src" in
  let* src := bytes_of src in
  let* ethertype := pack_field 2 fld "ethertype" in
  let* suffix := bytes_of suffix in
  Ok (dst ++ src ++ ethertype ++ hdr ++ body ++ suffix).

Definition ptp_sync (sequence_id : Z) (kw : kwargs) : result py_error bytes :=
  let* _ := no_positional ["sequence_id"]%string kw in
  let kw := setdefault kw "flags" (VInt 0x0208) in
  let kw := setdefault kw "control" (VInt 0x00) in
  let kw := setdefault kw "log_message_interval" (VInt 0xFD) in
  let* body := ts80 (VInt 0) None in
  ptp_frame PTP_SYNC body (<["sequence_id"%string := VInt sequence_id]> kw).

Definition PTP_FOLLOW_UP_FIELDS : kwargs := list_to_map
  [("origin_ns", VInt 0); ("tlv", VBool true); ("tlv_type", VInt 0x0003);
   ("cumulative_scaled_rate_offset", VInt 0); ("gm_time_base_indicator", VInt 0)]%string.

Definition ptp_follow_up (kw : kwargs) : result py_error bytes :=
  let '(own, kw) := split_fields PTP_FOLLOW_UP_FIELDS kw in
  let kw := setdefault kw "flags" (VInt 0x0008) in
  let kw := setdefault kw "control" (VInt 0x02) in
  let kw := setdefault kw "log_message_interval" (VInt 0xFD) in
  let* origin := field own "origin_ns" in
  let* body := ts80 origin None in
  let* tlv := field own "tlv" in
  let* info :=
    if truth tlv then
      let* ty := pack_field 2 own "tlv_type" in
      let* len := pack 2 28 in
      let* csro := pack_masked 4 own "cumulative_scaled_rate_offset" 0xFFFFFFFF in
      let* ind := pack_masked 2 own "gm_time_base_indicator" 0xFFFF in
      Ok (ty ++ len ++ [0x00; 0x80; 0xc2] ++ [0x00; 0x00; 0x01] ++ csro ++ ind
          ++ zeros 12 ++ zeros 4)
    else Ok [] in
  ptp_frame PTP_FOLLOW_UP (body ++ info) kw.

Definition ptp_pdelay_req (sequence_id body_octets : Z) (kw : kwargs) : result py_error bytes :=
  let* _ := no_positional ["sequence_id"; "body_octets"]%string kw in
  let kw := setdefault kw "control" (VInt 0x05) in
  let kw := setdefault kw "log_message_interval" (VInt 0x00) in
  let* body := to_bytes (VInt body_octets) in
  ptp_frame PTP_PDELAY_REQ body (<["sequence_id"%string := VInt sequence_id]> kw).

(** The parameters of the two Pdelay responses. *)
Definition pdelay_params : list string :=
  ["sequence_id"; "requesting_clock_identity"; "requesting_port_number"]%string.

Definition ptp_pdelay_resp (sequence_id t2_ns requesting_clock_identity requesting_port_number : Z)
    (kw : kwargs) : result py_error bytes :=
  let* _ := no_positional ("t2_ns"%string :: pdelay_params) kw in
  let kw := setdefault kw "flags" (VInt 0x0200) in
  let kw := setdefault kw "control" (VInt 0x05) in
  let* ts := ts80 (VInt t2_ns) None in
  let* cid := pack 8 requesting_clock_identity in
  let* port := pack 2 (Z.land requesting_port_number 0xFFFF) in
  ptp_frame PTP_PDELAY_RESP (ts ++ cid ++ port) (<["sequence_id"%string := VInt sequence_id]> kw).

Definition ptp_pdelay_resp_fu (sequence_id t3_ns requesting_clock_identity requesting_port_number : Z)
    (kw : kwargs) : result py_error bytes :=
  let* _ := no_positional ("t3_ns"%string :: pdelay_params) kw in
  let kw := setdefault kw "flags" (VInt 0x0000) in
  let kw := setdefault kw "control" (VInt 0x05) in
  let* ts := ts80 (VInt t3_ns) None in
  let* cid := pack 8 requesting_clock_identity in
  let* port := pack 2 (Z.land requesting_port_number 0xFFFF) in
  ptp_frame PTP_PDELAY_RESP_FU (ts ++ cid ++ port) (<["sequence_id"%string := VInt sequence_id]> kw).

Definition PTP_ANNOUNCE_FIELDS : kwargs := list_to_map
  [("gm_identity", VInt 0); ("gm_priority1", VInt 248); ("gm_priority2", VInt 248);
   ("gm_clock_quality", VInt 0xF8FE436A); ("current_utc_offset", VInt 0);
   ("steps_removed", VInt 0); ("time_source", VInt 0xA0); ("path_trace", VNone)]%string.

(** [struct.pack(">h", fld[name])]. *)
Definition pack_s16_field (fld : kwargs) (name : string) : result py_error bytes :=
  let* v := field fld name in
  let* z := map_err (fun _ => StructError) (int_of v) in pack_s16 z.

(** The one-hop default path is a list of the grandmaster identity, which is a
    packed number by the time the path is read. *)
Definition ptp_announce (kw : kwargs) : result py_error bytes :=
  let '(own, kw) := split_fields PTP_ANNOUNCE_FIELDS kw in
  let kw := setdefault kw "flags" (VInt 0x0008) in
  let kw := setdefault kw "control" (VInt 0x05) in
  let kw := setdefault kw "log_message_interval" (VInt 0x00) in
  let* path_trace := field own "path_trace" in
  let* utc := pack_s16_field own "current_utc_offset" in
  let* zero := pack 1 0 in
  let* priority1 := pack_masked 1 own "gm_priority1" 0xFF in
  let* quality := pack_masked 4 own "gm_clock_quality" 0xFFFFFFFF in
  let* priority2 := pack_masked 1 own "gm_priority2" 0xFF in
  let* gm := pack_field 8 own "gm_identity" in
  let* steps := pack_masked 2 own "steps_removed" 0xFFFF in
  let* source := pack_masked 1 own "time_source" 0xFF in
  let body := zeros 10 ++ utc ++ zero ++ priority1 ++ quality ++ priority2 ++ gm ++ steps ++ source in
  let path_trace := match path_trace with
                    | VNone => VInts [int_field own "gm_identity"]
                    | _ => path_trace
                    end in
  let* trace :=
    if truth path_trace then
      let* cids := elements path_trace in
      let* ty := pack 2 0x0008 in
      let* len := pack 2 (8 * zlen cids) in
      let* cids := mapR (pack 8) cids in
      Ok (ty ++ len ++ concat cids)
    else Ok [] in
  ptp_frame PTP_ANNOUNCE (body ++ trace) kw.

Definition ptp_suffix_tlv (data : bytes) : result py_error bytes :=
  let v := [0x00; 0x80; 0xc2] ++ [0x7f; 0x00; 0x01] ++ data in
  let v := if Z.land (zlen v) 1 =? 0 then v else v ++ [0x00] in
  let* ty := pack 2 0x0003 in
  let* len := pack 2 (zlen v) in
  Ok (ty ++ len ++ v).

(** * [PtpMsg] *)

Definition ptp_dst (raw : bytes) : bytes := zslice 0 6 raw.
Definition ptp_src (raw : bytes) : bytes := zslice 6 6 raw.
Definition ptp_ethertype (raw : bytes) : Z := view_be raw 12 2.
Definition ptp_bool (raw : bytes) : bool := (48 <=? zlen raw) && (ptp_ethertype raw =? ETHERTYPE_GPTP).
Definition ptp_transport_specific (raw : bytes) : Z :=
  if 14 <? zlen raw then Z.land (Z.shiftr (raw_at raw 14) 4) 0xF else -1.
Definition ptp_message_type (raw : bytes) : Z :=
  if 14 <? zlen raw then Z.land (raw_at raw 14) 0xF else -1.
Definition ptp_reserved0 (raw : bytes) : Z :=
  if 15 <? zlen raw then Z.land (Z.shiftr (raw_at raw 15) 4) 0xF else -1.
Definition ptp_version_ptp (raw : bytes) : Z :=
  if 15 <? zlen raw then Z.land (raw_at raw 15) 0xF else -1.
Definition ptp_message_length (raw : bytes) : Z := view_be raw 16 2.
Definition ptp_domain_number (raw : bytes) : Z := if 18 <? zlen raw then raw_at raw 18 else -1.
Definition ptp_reserved1 (raw : bytes) : Z := if 19 <? zlen raw then raw_at raw 19 else -1.
Definition ptp_flags (raw : bytes) : Z := view_be raw 20 2.
Definition ptp_correction_field (raw : bytes) : Z := view_be raw 22 8.
Definition ptp_reserved2 (raw : bytes) : Z := view_be raw 30 4.
Definition ptp_source_clock_identity (raw : bytes) : Z := view_be raw 34 8.
Definition ptp_source_port_number (raw : bytes) : Z := view_be raw 42 2.
Definition ptp_sequence_id (raw : bytes) : Z := view_be raw 44 2.
Definition ptp_control (raw : bytes) : Z := if 46 <? zlen raw then raw_at raw 46 else -1.
Definition ptp_log_message_interval (raw : bytes) : Z := if 47 <? zlen raw then raw_at raw 47 else -1.
Definition ptp_ts_seconds (raw : bytes) : Z := view_be raw 48 6.
Definition ptp_ts_ns (raw : bytes) : Z := view_be raw 54 4.
Definition ptp_ts_total_ns (raw : bytes) : Z :=
  if 58 <=? zlen raw then ptp_ts_seconds raw * 1000000000 + ptp_ts_ns raw else -1.
Definition ptp_requesting_clock_identity (raw : bytes) : Z := view_be raw 58 8.
Definition ptp_requesting_port_number (raw : bytes) : Z := view_be raw 66 2.
Definition ptp_current_utc_offset (raw : bytes) : Z := view_be raw 58 2.
Definition ptp_gm_priority1 (raw : bytes) : Z := if 61 <? zlen raw then raw_at raw 61 else -1.
Definition ptp_gm_clock_quality (raw : bytes) : Z := view_be raw 62 4.
Definition ptp_gm_priority2 (raw : bytes) : Z := if 66 <? zlen raw then raw_at raw 66 else -1.
Definition ptp_gm_identity (raw : bytes) : Z := view_be raw 67 8.
Definition ptp_steps_removed (raw : bytes) : Z := view_be raw 75 2.
Definition ptp_time_source (raw : bytes) : Z := if 77 <? zlen raw then raw_at raw 77 else -1.
Definition ptp_fu_tlv_type (raw : bytes) : Z := view_be raw 58 2.
Definition ptp_fu_csro (raw : bytes) : Z := view_be raw 68 4.
Definition ptp_pdu (raw : bytes) : bytes := drop 14 raw.

(** * Self-test of the 802.1AS codecs

    [_selftest_8021as]: each comparison of the source a conjunct. *)
Definition selftest_8021as : result py_error bool :=
  let* q := ptp_pdelay_req 0x1234 20 ∅ in
  let* q14 := octet q 14 in
  let* q15 := octet q 15 in
  let* s := ptp_sync 7 ∅ in
  let* fu := ptp_follow_up (kw [("sequence_id", VInt 7); ("origin_ns", VInt 1000000123);
                                ("cumulative_scaled_rate_offset", VInt 0x0BADF00D)]%string) in
  let* r := ptp_pdelay_resp 9 5000000000 GPTP_OUR_CID 1 ∅ in
  let* an := ptp_announce (kw [("sequence_id", VInt 3); ("gm_identity", VInt 0x00AACCFFFE010203);
                               ("gm_priority1", VInt 100)]%string) in
  let* an0 := ptp_announce (kw [("sequence_id", VInt 3); ("gm_identity", VInt 1);
                                ("path_trace", VInts [])]%string) in
  let* tv := ptp_suffix_tlv [0xa5; 0x5a] in
  let* ss := ptp_sync 7 (kw [("suffix", VBytes tv)]%string) in
  let* plain := ptp_sync 7 (kw [("message_length", VInt 56)]%string) in
  let* sa := ptp_announce (kw [("sequence_id", VInt 3); ("gm_identity", VInt 1);
                               ("suffix", VBytes tv)]%string) in
  Ok ((zlen q =? 68) && (q14 =? 0x12) && (q15 =? 0x02)
      && (ptp_ethertype q =? ETHERTYPE_GPTP) && (ptp_message_type q =? PTP_PDELAY_REQ)
      && (ptp_transport_specific q =? 1) && (ptp_version_ptp q =? 2)
      && (ptp_message_length q =? 54) && (ptp_sequence_id q =? 0x1234)
      && (ptp_log_message_interval q =? 0) && (ptp_source_clock_identity q =? GPTP_PEER_CID)
      && (zlen s =? 58) && (ptp_message_length s =? 44) && (ptp_flags s =? 0x0208)
      && (zlen fu =? 90) && (ptp_message_length fu =? 76) && (ptp_fu_tlv_type fu =? 0x0003)
      && (ptp_ts_seconds fu =? 1) && (ptp_ts_ns fu =? 123) && (ptp_fu_csro fu =? 0x0BADF00D)
      && (zlen r =? 68) && (ptp_requesting_clock_identity r =? GPTP_OUR_CID)
      && (ptp_requesting_port_number r =? 1) && (ptp_ts_seconds r =? 5) && (ptp_flags r =? 0x0200)
      && (zlen an =? 90) && (ptp_message_length an =? 76)
      && (ptp_gm_identity an =? 0x00AACCFFFE010203) && (ptp_gm_priority1 an =? 100)
      && (ptp_gm_clock_quality an =? 0xF8FE436A) && (ptp_time_source an =? 0xA0)
      && (zlen an0 =? 78) && (ptp_message_length an0 =? 64)
      && (zlen tv =? 12) && bool_decide (take 4 tv = [0x00; 0x03; 0x00; 0x08])
      && (Z.land (zlen tv) 1 =? 0)
      && (zlen ss =? 70) && (ptp_message_length ss =? 56)
      && bool_decide (take (length ss - length tv) ss = plain)
      && (zlen sa =? 102) && (ptp_message_length sa =? 88)
      && bool_decide (drop (length sa - length tv) sa = tv)).

Example selftest_8021as_passes : selftest_8021as = Ok true.
Proof. vm_compute. reflexivity. Qed.

(** * Frames as header, body and suffix *)

(** The messageLength a frame declares. *)
Definition ptp_length (fld : kwargs) (body : bytes) : Z :=
  match fld !! "message_length"%string with
  | Some VNone => 34 + zlen body + zlen (byte_field fld "suffix")
  | _ => int_field fld "message_length"
  end.

Definition ptp_header (fld : kwargs) (mt ml : Z) : bytes :=
  let n := int_field fld in
  be_bytes 1 (16 * (n "transport_specific"%string mod 16) + mt mod 16)
  ++ be_bytes 1 (16 * (n "reserved0"%string mod 16) + n "version_ptp"%string mod 16)
  ++ be_bytes 2 (ml mod 2 ^ 16) ++ be_bytes 1 (n "domain_number"%string mod 2 ^ 8)
  ++ be_bytes 1 (n "reserved1"%string mod 2 ^ 8) ++ be_bytes 2 (n "flags"%string mod 2 ^ 16)
  ++ be_bytes 8 (n "correction_field"%string mod 2 ^ 64)
  ++ be_bytes 4 (n "reserved2"%string mod 2 ^ 32) ++ be_bytes 8 (n "source_clock_identity"%string)
  ++ be_bytes 2 (n "source_port_number"%string mod 2 ^ 16)
  ++ be_bytes 2 (n "sequence_id"%string mod 2 ^ 16) ++ be_bytes 1 (n "control"%string mod 2 ^ 8)
  ++ be_bytes 1 (n "log_message_interval"%string mod 2 ^ 8).

Definition ptp_octets (fld : kwargs) (mt : Z) (body : bytes) : bytes :=
  byte_field fld "dst" ++ byte_field fld "src" ++ be_bytes 2 (int_field fld "ethertype")
  ++ ptp_header fld mt (ptp_length fld body) ++ body ++ byte_field fld "suffix".

Lemma ptp_header_length fld mt ml : zlen (ptp_header fld mt ml) = 34.
Proof. unfold ptp_header. by autorewrite with zlen. Qed.

Lemma ptp_length_Ok fld body s l v z :
  field fld "suffix" = Ok s -> field fld "message_length" = Ok l ->
  match l with
  | VNone => let* e := elements s in Ok (VInt (34 + zlen body + zlen e))
  | _ => Ok l
  end = Ok v -> int_of v = Ok z -> is_ok (bytes_of s) = true -> z = ptp_length fld body.
Proof.
  intros Hs%field_Ok Hl%field_Ok Hv Hz Hb. unfold ptp_length, byte_field, int_field.
  rewrite Hl, Hs. destruct s; try done. cbn [elements rbind] in Hv.
  destruct l; injection Hv as <-; cbn [int_of] in *; congruence.
Qed.

Lemma ptp_frame_Ok mt body fields f : ptp_frame mt body fields = Ok f ->
  exists fld, with_defaults PTP_HEADER_FIELDS fields "ptp_frame" = Ok fld /\
    0 <= int_field fld "source_clock_identity" < 2 ^ 64 /\
    0 <= int_field fld "ethertype" < 2 ^ 16 /\ f = ptp_octets fld mt body.
Proof.
  unfold ptp_frame. intros H. rsplit H. exists v0. split; [done|].
  rewrite (ptp_length_Ok _ _ _ _ _ _ Hm1 Hm2 Hm3 Hm7) in Hm10 by (by match goal with H : bytes_of v1 = Ok _ |- _ => rewrite H end).
  packed. split; [assumption|]. split; [assumption|].
  unfold ptp_octets, ptp_header. masks. rewrite !join_bits by (mod_bounds; lia).
  rewrite !(Z.mul_comm (_ mod 16)). rewrite <-!app_assoc. reflexivity.
Qed.

Section Frame.
Context (fld : kwargs) (mt : Z) (body : bytes).
Hypothesis (Hdst : zlen (byte_field fld "dst") = 6) (Hsrc : zlen (byte_field fld "src") = 6).
Hypothesis (Hcid : 0 <= int_field fld "source_clock_identity" < 2 ^ 64).
Hypothesis (Het : 0 <= int_field fld "ethertype" < 2 ^ 16).

Local Abbreviation frame := (ptp_octets fld mt body).
Local Abbreviation tail := (body ++ byte_field fld "suffix").

Lemma ptp_octets_length : zlen frame = 48 + zlen tail.
Proof using Hdst Hsrc.
  unfold ptp_octets. rewrite !zlen_app, ptp_header_length, zlen_be_bytes, Hdst, Hsrc. lia.
Qed.

Lemma ptp_octets_tail off n : 48 <= off -> zslice off n frame = zslice (off - 48) n tail.
Proof using Hdst Hsrc.
  intros Ho. unfold ptp_octets. rewrite !app_assoc, <-(app_assoc _ body). apply zslice_skip; [|done].
  rewrite !zlen_app, ptp_header_length, zlen_be_bytes, Hdst, Hsrc. reflexivity.
Qed.

Lemma ptp_octets_header off n : 14 <= off -> 0 <= n -> off + n <= 48 ->
  zslice off n frame = zslice (off - 14) n (ptp_header fld mt (ptp_length fld body)).
Proof using Hdst Hsrc.
  intros Ho Hn Hl. unfold ptp_octets.
  rewrite !app_assoc, <-(app_assoc _ body), <-(app_assoc _ (ptp_header _ _ _)).
  rewrite (zslice_skip _ _ 14) by (rewrite ?zlen_app, ?zlen_be_bytes, ?Hdst, ?Hsrc; done).
  apply zslice_app_l; [lia|done|]. rewrite ptp_header_length. lia.
Qed.

Lemma ptp_view off n : 48 <= off -> 0 <= n -> off + n <= 48 + zlen tail ->
  view_be frame off n = rd_be (off - 48) n tail.
Proof using Hdst Hsrc.
  intros Ho Hn Hl. unfold view_be. rewrite ptp_octets_length, (proj2 (Z.leb_le _ _)) by lia.
  unfold rd_be. by rewrite ptp_octets_tail.
Qed.

Lemma ptp_view_at off : 48 <= off < 48 + zlen tail -> raw_at frame off = rd_be (off - 48) 1 tail.
Proof using Hdst Hsrc.
  intros Ho. rewrite raw_at_rd by (rewrite ptp_octets_length; lia). unfold rd_be.
  by rewrite ptp_octets_tail by lia.
Qed.

Lemma ptp_header_view off n : 14 <= off -> 0 <= n -> off + n <= 48 ->
  view_be frame off n = rd_be (off - 14) n (ptp_header fld mt (ptp_length fld body)).
Proof using Hdst Hsrc.
  intros Ho Hn Hl. unfold view_be. pose proof (zlen_nonneg tail).
  rewrite ptp_octets_length, (proj2 (Z.leb_le _ _)) by lia.
  unfold rd_be. by rewrite ptp_octets_header.
Qed.

Lemma ptp_header_at off : 14 <= off < 48 ->
  raw_at frame off = rd_be (off - 14) 1 (ptp_header fld mt (ptp_length fld body)).
Proof using Hdst Hsrc.
  intros Ho. pose proof (zlen_nonneg tail). rewrite raw_at_rd by (rewrite ptp_octets_length; lia).
  unfold rd_be. by rewrite ptp_octets_header by lia.
Qed.
End Frame.

Definition PTP_VIEWS : list (string * Z * (bytes -> Z)) :=
  [("transport_specific", 4, ptp_transport_specific); ("reserved0", 4, ptp_reserved0);
   ("version_ptp", 4, ptp_version_ptp); ("ethertype", 16, ptp_ethertype);
   ("domain_number", 8, ptp_domain_number);
   ("reserved1", 8, ptp_reserved1); ("flags", 16, ptp_flags);
   ("correction_field", 64, ptp_correction_field); ("reserved2", 32, ptp_reserved2);
   ("source_clock_identity", 64, ptp_source_clock_identity);
   ("source_port_number", 16, ptp_source_port_number); ("sequence_id", 16, ptp_sequence_id);
   ("control", 8, ptp_control); ("log_message_interval", 8, ptp_log_message_interval)]%string.

(** A field of the header, at its offset. *)
Ltac header_field :=
  unfold ptp_header, rd_be; cbn [Z.sub Z.add Z.opp Z.pos_sub]; read_field;
  rewrite of_be_be_bytes; first [ reflexivity | by apply Z.mod_mod ].

(** The nibbles of an octet packed from two four-bit fields. *)
Lemma nibbles a b : let w := 16 * (a mod 16) + b mod 16 in
  w mod 256 = w /\ Z.land (Z.shiftr w 4) 0xF = a mod 2 ^ 4 /\ Z.land w 0xF = b mod 2 ^ 4.
Proof.
  cbv zeta. rewrite Z.shiftr_div_pow2 by done. masks. change (2 ^ 4) with 16.
  pose proof (Z.mod_pos_bound a 16 ltac:(done)). pose proof (Z.mod_pos_bound b 16 ltac:(done)).
  generalize dependent (a mod 16). generalize dependent (b mod 16). intros.
  split_and!; Z.div_mod_to_equations; lia.
Qed.

Lemma ptp_first_octets fld mt ml :
  rd_be 0 1 (ptp_header fld mt ml)
  = 16 * (int_field fld "transport_specific" mod 16) + mt mod 16 /\
  rd_be 1 1 (ptp_header fld mt ml)
  = 16 * (int_field fld "reserved0" mod 16) + int_field fld "version_ptp" mod 16.
Proof.
  split; unfold ptp_header, rd_be; read_field; rewrite of_be_be_bytes; apply nibbles.
Qed.

(** Every header field of a frame is read back by its view at its width; the
    message type, the addresses and the declared length are where a receiver
    looks for them, and body and suffix follow the thirty-four octets of the
    header. *)
Theorem ptp_round_trip mt body fields fld f :
  with_defaults PTP_HEADER_FIELDS fields "ptp_frame" = Ok fld -> ptp_frame mt body fields = Ok f ->
  zlen (byte_field fld "dst") = 6 -> zlen (byte_field fld "src") = 6 ->
  ptp_dst f = byte_field fld "dst" /\ ptp_src f = byte_field fld "src" /\
  ptp_message_type f = mt mod 2 ^ 4 /\ ptp_message_length f = ptp_length fld body mod 2 ^ 16 /\
  drop 48 f = body ++ byte_field fld "suffix" /\ reads_back fld PTP_VIEWS f.
Proof.
  intros Hd H Hdst Hsrc. destruct (ptp_frame_Ok _ _ _ _ H) as (fld' & Hd' & Hcid & Het & ->).
  rewrite Hd in Hd'. apply Ok_inj in Hd' as <-.
  pose proof (ptp_octets_length fld mt body Hdst Hsrc) as Hlen.
  pose proof (zlen_nonneg (body ++ byte_field fld "suffix")).
  destruct (ptp_first_octets fld mt (ptp_length fld body)) as [E0 E1].
  destruct (nibbles (int_field fld "transport_specific") mt) as (_ & Hts & Hmt).
  destruct (nibbles (int_field fld "reserved0") (int_field fld "version_ptp")) as (_ & Hr0 & Hver).
  split_and!.
  - unfold ptp_dst, ptp_octets. by apply zslice_hit.
  - unfold ptp_src, ptp_octets. rewrite (zslice_skip _ _ 6) by done. by apply zslice_hit.
  - unfold ptp_message_type. rewrite Hlen, (proj2 (Z.ltb_lt _ _)), ptp_header_at by (done || lia).
    change (14 - 14) with 0. by rewrite E0.
  - unfold ptp_message_length. rewrite ptp_header_view by done. header_field.
  - unfold ptp_octets. rewrite !app_assoc, <-(app_assoc _ body). apply drop_app_length'.
    rewrite !length_app. pose proof (ptp_header_length fld mt (ptp_length fld body)).
    rewrite be_bytes_length. unfold zlen in *. lia.
  - unfold_views;
    (match goal with |- ?view _ = _ => unfold view end);
    rewrite ?Hlen, ?(proj2 (Z.ltb_lt _ _)) by lia;
    rewrite ?ptp_header_view, ?ptp_header_at by done; try header_field.
    all: change (14 - 14) with 0; change (15 - 14) with 1; rewrite ?E0, ?E1; try assumption.
    unfold view_be. rewrite Hlen, (proj2 (Z.leb_le _ _)) by lia.
    unfold ptp_octets, rd_be. read_field. apply of_be_be_bytes.
Qed.

(** * Time stamps *)

Lemma ts80_Ok v b : ts80 v None = Ok b ->
  exists n, to_int v = Ok n /\ b = be_bytes 6 (n / 1000000000) ++ be_bytes 4 (n mod 1000000000).
Proof.
  unfold ts80. intros H. rsplit H. exists v1. split; [done|]. subst v0. cbn [fst snd] in *. packed.
  subst b. rewrite Z.shiftr_div_pow2 by done. masks. rewrite app_assoc. f_equal.
  - set (s := v1 / 1000000000). rewrite (be_bytes_mod 2), (be_bytes_mod 4). apply (be_bytes_app 2 4).
  - by rewrite (be_bytes_mod 4).
Qed.

Lemma ts80_length v b : ts80 v None = Ok b -> zlen b = 10.
Proof. intros (n & _ & ->)%ts80_Ok. by autorewrite with zlen. Qed.

(** An address the caller leaves alone or gives with six octets. *)
Definition six (v : option value) : Prop :=
  match v with
  | None => True
  | Some (VBytes b) => zlen b = 6
  | Some _ => False
  end.

Lemma ptp_frame_built mt body kw f :
  ptp_frame mt body kw = Ok f -> six (kw !! "dst"%string) -> six (kw !! "src"%string) ->
  exists fld, with_defaults PTP_HEADER_FIELDS kw "ptp_frame" = Ok fld /\ f = ptp_octets fld mt body /\
    zlen (byte_field fld "dst") = 6 /\ zlen (byte_field fld "src") = 6 /\
    forall n, fld !! n = match kw !! n with Some v => Some v | None => PTP_HEADER_FIELDS !! n end.
Proof.
  intros H Hd Hs. destruct (ptp_frame_Ok _ _ _ _ H) as (fld & Hw & _ & _ & ->). exists fld.
  pose proof (with_defaults_spec PTP_HEADER_FIELDS kw "ptp_frame") as Hsp. rewrite Hw in Hsp.
  destruct Hsp as [_ Hl]. split_and!; try done; unfold byte_field; rewrite Hl.
  - destruct (kw !! "dst"%string) as [[]|]; done.
  - destruct (kw !! "src"%string) as [[]|]; done.
Qed.

(** The time stamp a body starts with is the one [PtpMsg] reads, in nanoseconds. *)
Lemma ts_read_back fld mt v n ts rest :
  zlen (byte_field fld "dst") = 6 -> zlen (byte_field fld "src") = 6 ->
  ts80 v None = Ok ts -> to_int v = Ok n -> 0 <= n < 2 ^ 48 * 1000000000 ->
  ptp_ts_total_ns (ptp_octets fld mt (ts ++ rest)) = n.
Proof.
  intros Hdst Hsrc Hts Hn Hr. apply ts80_Ok in Hts as (n' & Hn' & ->).
  rewrite Hn in Hn'. apply Ok_inj in Hn' as <-.
  pose proof (zlen_nonneg rest). pose proof (zlen_nonneg (byte_field fld "suffix")).
  unfold ptp_ts_total_ns, ptp_ts_seconds, ptp_ts_ns.
  rewrite ptp_octets_length by done.
  rewrite (proj2 (Z.leb_le _ _)) by (autorewrite with zlen; lia).
  rewrite !ptp_view by (done || autorewrite with zlen; lia).
  cbn [Z.sub Z.add Z.opp Z.pos_sub]. unfold rd_be.
  rewrite <-!app_assoc, zslice_hit by (apply zlen_be_bytes).
  rewrite (zslice_skip _ _ 6), Z.sub_diag, zslice_hit by (done || apply zlen_be_bytes).
  rewrite !of_be_be_bytes.
  change (256 ^ Z.of_nat 6) with (2 ^ 48). change (256 ^ Z.of_nat 4) with (2 ^ 32).
  rewrite (Z.mod_small (n / _)), (Z.mod_small (n mod _)); Z.div_mod_to_equations; lia.
Qed.

(** * Message types *)

Lemma ptp_seq_field (kw : kwargs) seq (fld : kwargs) :
  (forall n, fld !! n = match <["sequence_id"%string := VInt seq]> kw !! n with
                        | Some v => Some v | None => PTP_HEADER_FIELDS !! n end) ->
  int_field fld "sequence_id" = seq.
Proof. intros H. unfold int_field. by rewrite H, lookup_insert_eq. Qed.

Lemma reads_seq fld f : reads_back fld PTP_VIEWS f -> ptp_sequence_id f = int_field fld "sequence_id" mod 2 ^ 16.
Proof.
  intros H. unfold reads_back in H. rewrite List.Forall_forall in H.
  exact (H ("sequence_id"%string, 16, ptp_sequence_id) ltac:(cbn; tauto)).
Qed.

Lemma pdelay_body mt seq t ts rci rpn (kw : kwargs) f :
  ts80 (VInt t) None = Ok ts -> 0 <= rci < 2 ^ 64 ->
  ptp_frame mt (ts ++ be_bytes 8 rci ++ be_bytes 2 (Z.land rpn 0xFFFF))
    (<["sequence_id"%string := VInt seq]> kw) = Ok f ->
  six (kw !! "dst"%string) -> six (kw !! "src"%string) -> 0 <= t < 2 ^ 48 * 1000000000 ->
  ptp_message_type f = mt mod 2 ^ 4 /\ ptp_sequence_id f = seq mod 2 ^ 16 /\
  ptp_ts_total_ns f = t /\ ptp_requesting_clock_identity f = rci /\
  ptp_requesting_port_number f = rpn mod 2 ^ 16.
Proof.
  intros Hts Hrci H Hd Hs Ht. pose proof H as Hf.
  apply ptp_frame_built in H as (fld & Hw & -> & Hdst & Hsrc & Hl);
    [|by rewrite lookup_insert_ne by done..].
  destruct (ptp_round_trip _ _ _ _ _ Hw Hf Hdst Hsrc) as (_ & _ & Hmt & _ & _ & Hv).
  pose proof (ts80_length _ _ Hts) as Hlen. pose proof (zlen_nonneg (byte_field fld "suffix")).
  split_and!; [done| | | |].
  - rewrite (reads_seq _ _ Hv). by rewrite (ptp_seq_field _ _ _ Hl).
  - by eapply ts_read_back.
  - unfold ptp_requesting_clock_identity. rewrite ptp_view by (done || autorewrite with zlen; lia).
    cbn [Z.sub Z.add Z.opp Z.pos_sub]. unfold rd_be. read_field. by rewrite of_be_be_bytes_id.
  - unfold ptp_requesting_port_number. rewrite ptp_view by (done || autorewrite with zlen; lia).
    cbn [Z.sub Z.add Z.opp Z.pos_sub]. body_field.
Qed.

(** Both Pdelay responses carry, whatever else the caller varies, the time and the
    port identity they were asked for. *)
Theorem pdelay_answer_round_trip (fu : bool) seq t rci rpn (kw : kwargs) f :
  (if fu then ptp_pdelay_resp_fu seq t rci rpn kw else ptp_pdelay_resp seq t rci rpn kw) = Ok f ->
  six (kw !! "dst"%string) -> six (kw !! "src"%string) -> 0 <= t < 2 ^ 48 * 1000000000 ->
  ptp_message_type f = (if fu then PTP_PDELAY_RESP_FU else PTP_PDELAY_RESP) /\
  ptp_sequence_id f = seq mod 2 ^ 16 /\ ptp_ts_total_ns f = t /\
  ptp_requesting_clock_identity f = rci /\ ptp_requesting_port_number f = rpn mod 2 ^ 16.
Proof.
  intros H Hd Hs Ht.
  destruct fu; [unfold ptp_pdelay_resp_fu in H|unfold ptp_pdelay_resp in H]; rsplit H; packed;
    apply pdelay_body with (t := t) in H; rewrite ?setdefault_ne by done; try done.
Qed.

(** The information TLV of a Follow_Up. *)
Definition fu_information (own : kwargs) : bytes :=
  be_bytes 2 (int_field own "tlv_type") ++ be_bytes 2 28 ++ [0x00; 0x80; 0xc2] ++ [0x00; 0x00; 0x01]
  ++ be_bytes 4 (Z.land (int_field own "cumulative_scaled_rate_offset") 0xFFFFFFFF)
  ++ be_bytes 2 (Z.land (int_field own "gm_time_base_indicator") 0xFFFF) ++ zeros 12 ++ zeros 4.

(** A Follow_Up gives back its precise origin time and, when it carries the
    information TLV, the TLV type and the rate offset; without the TLV the body
    ends with the time stamp. *)
Theorem follow_up_round_trip kw f v t :
  ptp_follow_up kw = Ok f -> six (kw !! "dst"%string) -> six (kw !! "src"%string) ->
  let own := fst (split_fields PTP_FOLLOW_UP_FIELDS kw) in
  own !! "origin_ns"%string = Some v -> to_int v = Ok t -> 0 <= t < 2 ^ 48 * 1000000000 ->
  let tlv := truth (default VNone (own !! "tlv"%string)) in
  ptp_message_type f = PTP_FOLLOW_UP /\ ptp_ts_total_ns f = t /\
  (tlv = true -> ptp_fu_tlv_type f = int_field own "tlv_type" /\
     ptp_fu_csro f = int_field own "cumulative_scaled_rate_offset" mod 2 ^ 32) /\
  exists suffix, drop 58 f = (if tlv then fu_information own else []) ++ suffix.
Proof.
  intros H Hd Hs own Ho Hv Ht tlv. unfold ptp_follow_up in H.
  rewrite (surjective_pairing (split_fields _ _)) in H. fold own in H. rsplit H.
  pose proof Hm as Ho'%field_Ok. rewrite Ho in Ho'. injection Ho' as <-.
  pose proof Hm1 as Htlv%field_Ok. unfold tlv. rewrite Htlv. cbn [default from_option id].
  assert (v3 = if truth v2 then fu_information own else []) as ->
    by (destruct (truth v2); [rsplit Hm2; packed; done|by apply Ok_inj in Hm2]).
  pose proof (ts80_length _ _ Hm0) as Hlen. pose proof H as Hf.
  apply ptp_frame_built in H as (fld & Hw & -> & Hdst & Hsrc & _);
    [|rewrite !setdefault_ne, split_rest by done; done..].
  destruct (ptp_round_trip _ _ _ _ _ Hw Hf Hdst Hsrc) as (_ & _ & Hmt & _ & Hdrop & _).
  pose proof (zlen_nonneg (byte_field fld "suffix")).
  split_and!; [done|by eapply ts_read_back| |].
  - intros Htr. rewrite Htr in *. unfold fu_information.
    assert (0 <= int_field own "tlv_type" < 2 ^ 16) as Hty
      by (rsplit Hm2; by match goal with H : pack_field 2 _ "tlv_type" = Ok _ |- _ =>
            apply pack_field_Ok in H as [? _] end).
    split; [unfold ptp_fu_tlv_type|unfold ptp_fu_csro];
      rewrite ptp_view by (done || autorewrite with zlen; lia); cbn [Z.sub Z.add Z.opp Z.pos_sub].
    + unfold rd_be. read_field. by rewrite of_be_be_bytes_id.
    + body_field.
  - exists (byte_field fld "suffix").
    replace 58%nat with (48 + 10)%nat by done. rewrite <-drop_drop, Hdrop, <-app_assoc.
    apply drop_app_length'. unfold zlen in Hlen. lia.
Qed.

(** * Announce *)

Definition ANNOUNCE_VIEWS : list (string * Z * (bytes -> Z)) :=
  [("current_utc_offset", 16, ptp_current_utc_offset); ("gm_clock_quality", 32, ptp_gm_clock_quality);
   ("gm_identity", 64, ptp_gm_identity); ("steps_removed", 16, ptp_steps_removed);
   ("gm_priority1", 8, ptp_gm_priority1); ("gm_priority2", 8, ptp_gm_priority2);
   ("time_source", 8, ptp_time_source)]%string.

(** The path a call announces: the grandmaster alone when it names none. *)
Definition announced_path (own : kwargs) : list Z :=
  match own !! "path_trace"%string with
  | Some VNone => [int_field own "gm_identity"]
  | Some (VInts l) => l
  | Some (VBytes b) => b
  | _ => []
  end.

Definition path_trace_tlv (path : list Z) : bytes :=
  match path with
  | [] => []
  | _ => be_bytes 2 0x0008 ++ be_bytes 2 (8 * zlen path) ++ concat (map (be_bytes 8) path)
  end.

Definition announce_body (own : kwargs) : bytes :=
  let n := int_field own in
  zeros 10 ++ be_bytes 2 (n "current_utc_offset"%string mod 65536) ++ be_bytes 1 0
  ++ be_bytes 1 (Z.land (n "gm_priority1"%string) 0xFF)
  ++ be_bytes 4 (Z.land (n "gm_clock_quality"%string) 0xFFFFFFFF)
  ++ be_bytes 1 (Z.land (n "gm_priority2"%string) 0xFF) ++ be_bytes 8 (n "gm_identity"%string)
  ++ be_bytes 2 (Z.land (n "steps_removed"%string) 0xFFFF)
  ++ be_bytes 1 (Z.land (n "time_source"%string) 0xFF).

Lemma announce_body_length own : zlen (announce_body own) = 30.
Proof. unfold announce_body. by autorewrite with zlen. Qed.

Lemma pack_s16_field_Ok fld name b : pack_s16_field fld name = Ok b ->
  b = be_bytes 2 (int_field fld name mod 65536).
Proof.
  unfold pack_s16_field, field, int_field. intros H. destruct (fld !! name) as [v|]; [|done].
  cbn [rbind] in H. destruct (int_of v) as [z|]; [|done]. cbn [map_err rbind] in H.
  unfold pack_s16 in H. destruct (_ && _); [|done]. by injection H.
Qed.

Lemma mapR_pack8 l ls : mapR (pack 8) l = Ok ls -> ls = map (be_bytes 8) l.
Proof.
  intros H%mapR_Ok. induction H as [|x y l ls Hx _ IH]; [done|]. cbn [map].
  apply pack_Ok in Hx as [_ ->]. by rewrite IH.
Qed.

Lemma ptp_announce_Ok kw f : ptp_announce kw = Ok f ->
  let own := fst (split_fields PTP_ANNOUNCE_FIELDS kw) in
  exists kw', ptp_frame PTP_ANNOUNCE (announce_body own ++ path_trace_tlv (announced_path own)) kw' = Ok f /\
    forall n, PTP_ANNOUNCE_FIELDS !! n = None ->
      n <> "flags"%string -> n <> "control"%string -> n <> "log_message_interval"%string ->
      kw' !! n = kw !! n.
Proof.
  intros H own. unfold ptp_announce in H.
  rewrite (surjective_pairing (split_fields _ _)) in H. fold own in H. rsplit H.
  apply pack_s16_field_Ok in Hm0 as ->. packed.
  assert (v8 = path_trace_tlv (announced_path own)) as ->.
  { unfold announced_path. rewrite (field_Ok _ _ _ Hm).
    assert (forall l, (let* cids := Ok l in let* ty := pack 2 8 in let* len := pack 2 (8 * zlen cids) in
      let* cids := mapR (pack 8) cids in Ok (ty ++ len ++ concat cids)) = Ok v8 ->
      l <> [] -> v8 = path_trace_tlv l) as Hne.
    { intros l Hl Hn. rsplit Hl. subst v0. packed.
      match goal with H : mapR (pack 8) _ = Ok _ |- _ => apply mapR_pack8 in H as -> end. by destruct l. }
    destruct v as [z|b| |b|l]; cbn [truth elements] in Hm8.
    - destruct (negb _); [done|by injection Hm8].
    - destruct b; [done|by injection Hm8].
    - by apply Hne.
    - destruct b as [|x b]; [by injection Hm8|]. by apply Hne.
    - destruct l as [|x l]; [by injection Hm8|]. by apply Hne. }
  eexists. split; [exact H|]. intros n Hn Ha Hb Hc. rewrite !setdefault_ne by done. by apply split_rest.
Qed.

(** An Announce gives back every field of its body, the offset from UTC modulo
    65536, and behind the body the path trace TLV: type 8, eight octets for each
    clock identity, the identities in order; no TLV for an empty path. *)
Theorem announce_round_trip kw f :
  ptp_announce kw = Ok f -> six (kw !! "dst"%string) -> six (kw !! "src"%string) ->
  let own := fst (split_fields PTP_ANNOUNCE_FIELDS kw) in
  ptp_message_type f = PTP_ANNOUNCE /\ reads_back own ANNOUNCE_VIEWS f /\
  exists suffix, drop 78 f = path_trace_tlv (announced_path own) ++ suffix.
Proof.
  intros H Hd Hs own. apply ptp_announce_Ok in H as (kw' & Hf & Hkw). fold own in Hf.
  pose proof Hf as H. apply ptp_frame_built in H as (fld & Hw & -> & Hdst & Hsrc & _);
    [|by rewrite Hkw..].
  destruct (ptp_round_trip _ _ _ _ _ Hw Hf Hdst Hsrc) as (_ & _ & Hmt & _ & Hdrop & _).
  pose proof (announce_body_length own) as Hlen.
  pose proof (zlen_nonneg (path_trace_tlv (announced_path own))).
  pose proof (zlen_nonneg (byte_field fld "suffix")).
  split_and!; [done| |].
  - unfold_views; (match goal with |- ?view _ = _ => unfold view end);
      rewrite ?ptp_octets_length by done;
      rewrite ?(proj2 (Z.ltb_lt _ _)) by (rewrite ?zlen_app; lia);
      rewrite ?ptp_view, ?ptp_view_at by (done || rewrite ?zlen_app; lia);
      unfold announce_body; cbn [Z.sub Z.add Z.opp Z.pos_sub]; body_field.
  - exists (byte_field fld "suffix").
    replace 78%nat with (48 + 30)%nat by done. rewrite <-drop_drop, Hdrop, <-app_assoc.
    apply drop_app_length'. unfold zlen in Hlen. lia.
Qed.

(** The offset is packed with its sign and read without it: one second behind
    UTC comes back as 65535. *)
Example utc_offset_unsigned :
  match ptp_announce (kw [("current_utc_offset", VInt (-1))]%string) with
  | Ok f => ptp_current_utc_offset f = 65535
  | Err _ => False
  end.
Proof. vm_compute. reflexivity. Qed.

(** * Trailing TLVs *)

(** The dictionary of the call without the suffix and with a length of its own. *)
Lemma suffix_dropped (fields fld : kwargs) ml :
  with_defaults PTP_HEADER_FIELDS fields "ptp_frame" = Ok fld ->
  exists fld', with_defaults PTP_HEADER_FIELDS
      (<["message_length"%string := VInt ml]> (delete "suffix"%string fields)) "ptp_frame" = Ok fld' /\
    fld' !! "suffix"%string = Some (VBytes []) /\ fld' !! "message_length"%string = Some (VInt ml) /\
    (forall n, n <> "suffix"%string -> n <> "message_length"%string -> fld' !! n = fld !! n) /\
    forall n, fld !! n = match fields !! n with Some v => Some v | None => PTP_HEADER_FIELDS !! n end.
Proof.
  intros Hw. set (fields' := <["message_length"%string := VInt ml]> (delete "suffix"%string fields)).
  pose proof (with_defaults_spec PTP_HEADER_FIELDS fields "ptp_frame") as HS. rewrite Hw in HS.
  destruct HS as [Hknown Hl].
  pose proof (with_defaults_spec PTP_HEADER_FIELDS fields' "ptp_frame") as HS.
  destruct (with_defaults PTP_HEADER_FIELDS fields' "ptp_frame") as [fld'|e].
  - destruct HS as [_ HS]. exists fld'. unfold fields' in HS. split_and!; [done| | | |exact Hl].
    + by rewrite HS, lookup_insert_ne, lookup_delete_eq by done.
    + by rewrite HS, lookup_insert_eq.
    + intros n H1 H2. rewrite HS, Hl. by rewrite lookup_insert_ne, lookup_delete_ne by done.
  - exfalso. destruct HS as (n & _ & Hn & Hd & _). unfold fields' in Hn.
    destruct (decide (n = "message_length"%string)) as [->|]; [done|].
    destruct (decide (n = "suffix"%string)) as [->|]; [done|].
    rewrite lookup_insert_ne, lookup_delete_ne in Hn by done.
    destruct (Hknown n Hn) as [? ?]. congruence.
Qed.

(** A suffix rides a frame without touching it: the frame is the one the same
    call gives without the suffix and with the longer length declared, and the
    suffix follows. *)
Theorem suffix_carried mt body (fields : kwargs) tlv f :
  ptp_frame mt body fields = Ok f -> fields !! "suffix"%string = Some (VBytes tlv) ->
  default VNone (fields !! "message_length"%string) = VNone ->
  exists f0, ptp_frame mt body
    (<["message_length"%string := VInt (34 + zlen body + zlen tlv)]> (delete "suffix"%string fields)) = Ok f0 /\
    f = f0 ++ tlv.
Proof.
  intros H Hs Hml. pose proof H as Hf. apply ptp_frame_Ok in Hf as (fld & Hw & _).
  destruct (suffix_dropped fields fld (34 + zlen body + zlen tlv) Hw) as (fld' & Hw' & Hs' & Hl' & Hsame & Hl).
  assert (field fld "suffix" = Ok (VBytes tlv)) as Fs by (unfold field; by rewrite Hl, Hs).
  assert (field fld "message_length" = Ok VNone) as Fm.
  { unfold field. rewrite Hl. by destruct (fields !! "message_length"%string) as [[]|]. }
  unfold ptp_frame in H |- *. rewrite Hw'. rewrite Hw in H. rsplit H.
  match goal with E : fld = ?x |- _ => subst x end.
  rewrite Fs in Hm1. apply Ok_inj in Hm1 as <-. rewrite Fm in Hm2. apply Ok_inj in Hm2 as <-.
  cbn [elements rbind] in Hm3. apply Ok_inj in Hm3 as <-.
  match goal with |- context [no_positional ?l ?k] => assert (no_positional l k = Ok tt) as -> end.
  { destruct v. revert Hm. unfold no_positional. cbn [List.find].
    by rewrite !lookup_insert_ne, !lookup_delete_ne by done. }
  cbn [rbind]. unfold field at 1 2. rewrite Hs', Hl'. cbn [rbind].
  repeat match goal with
  | |- context [masked fld' ?n ?m] =>
      rewrite (proj1 (proj2 (same_field fld fld' n (Hsame n ltac:(done) ltac:(done)))) m)
  | |- context [pack_masked ?w fld' ?n ?m] =>
      rewrite (proj1 (proj2 (proj2 (same_field fld fld' n (Hsame n ltac:(done) ltac:(done))))) w m)
  | |- context [pack_field ?w fld' ?n] =>
      rewrite (proj2 (proj2 (proj2 (same_field fld fld' n (Hsame n ltac:(done) ltac:(done))))) w)
  | |- context [field fld' ?n] =>
      rewrite (proj1 (same_field fld fld' n (Hsame n ltac:(done) ltac:(done))))
  end.
  repeat (match goal with H : ?x = Ok _ |- rbind ?x _ = Ok _ => rewrite H
          | H : ?x = Ok _ |- context [rbind ?x _] => rewrite H end; cbn [rbind]).
  eexists. split; [reflexivity|]. subst f. cbn [bytes_of] in *. apply Ok_inj in Hm26 as ->.
  rewrite app_nil_r, <-!app_assoc. reflexivity.
Qed.

(** [ptp_suffix_tlv]: an even length field that covers everything behind it, and
    the data at octet 10. *)
Theorem suffix_tlv_shape data t : ptp_suffix_tlv data = Ok t ->
  rd_be 0 2 t = 3 /\ rd_be 2 2 t = zlen t - 4 /\ zlen t mod 2 = 0 /\
  zslice 10 (zlen data) t = data /\ zlen t - 10 - zlen data <= 1.
Proof.
  unfold ptp_suffix_tlv. intros H. pose proof (zlen_nonneg data).
  set (v0 := [0x00; 0x80; 0xc2] ++ [0x7f; 0x00; 0x01] ++ data) in *.
  assert (zlen v0 = 6 + zlen data) as Hv0 by (unfold v0; autorewrite with zlen; lia).
  assert (exists pad, (if Z.land (zlen v0) 1 =? 0 then v0 else v0 ++ [0]) = v0 ++ pad /\
    zlen pad <= 1 /\ zlen (v0 ++ pad) mod 2 = 0) as (pad & E & Hp & Hev).
  { masks. destruct (Z.eqb_spec (zlen v0 mod 2) 0) as [E|E].
    - exists []. rewrite app_nil_r. done.
    - exists [0]. split_and!; [done..|]. rewrite zlen_app. change (zlen [0]) with 1.
      Z.div_mod_to_equations; lia. }
  rewrite E in H. rsplit H. packed. subst t. rewrite zlen_app in *. pose proof (zlen_nonneg pad).
  split_and!.
  - unfold rd_be. rewrite zslice_hit by apply zlen_be_bytes. done.
  - unfold rd_be. read_field. rewrite of_be_be_bytes_id by assumption. autorewrite with zlen. lia.
  - autorewrite with zlen. Z.div_mod_to_equations; lia.
  - unfold v0. by read_field.
  - autorewrite with zlen. lia.
Qed.
