(* ===== verification/AecpEngine.v ===== *)
(** The offline AECP engine ([tests/steps/aecp_engine_model.py]) with the served
    inventory it is constructed with ([tests/steps/aecp_engine_steps.py]).

    [deliver] takes one Ethernet frame and returns the response frame, or nothing
    when the engine frees the frame without a reply.  The counters are the state;
    a Python exception leaves the counters as they were when it was raised, so
    the handler is a state transformer with an error result.  The microprograms
    write into a response buffer that is threaded through them as a byte list.
    The image is the descriptor store as the engine sees it: which descriptors
    exist and how long they are. *)
From S2P Require Import Prelude Text Packing.

Definition ETHERTYPE_AVTP := 0x22F0.
Definition SUBTYPE_AECP := 0xFB.

Definition MT_AEM_COMMAND := 0.
Definition MT_AEM_RESPONSE := 1.
Definition MT_AA_COMMAND := 2.
Definition MT_VU_COMMAND := 6.

Definition ST_SUCCESS := 0.
Definition ST_NOT_IMPLEMENTED := 1.
Definition ST_NO_SUCH_DESCRIPTOR := 2.
Definition ST_BAD_ARGUMENTS := 7.
Definition ST_NOT_SUPPORTED := 11.

Definition OP_ACQUIRE_ENTITY := 0x0000.
Definition OP_READ_DESCRIPTOR := 0x0004.
Definition OP_IDENTIFY_NOTIFICATION := 0x0026.
Definition OP_GET_DYNAMIC_INFO := 0x004B.
Definition OP_START_STREAMING := 0x0022.
Definition OP_STOP_STREAMING := 0x0023.
Definition DT_STREAM_INPUT := 0x0005.

Definition MILAN_PROTOCOL_ID : bytes := [0x00; 0x1B; 0xC5; 0x0A; 0xC1; 0x00].
Definition MVU_GET_MILAN_INFO := 0x0000.
Definition MVU_CMD_PLD := 8.
Definition MILAN_PROTOCOL_VERSION := 1.
Definition MILAN_FEATURES_FLAGS := 0x00000000.
Definition MILAN_CERTIFICATION_VERSION := 0x00000000.

Definition ETH_HDR := 14.
Definition AECP_HDR := 24.
Definition FRAME_HDR := ETH_HDR + AECP_HDR.
Definition ETH_MIN := 60.
Definition LINE_BYTES := 576.
Definition TX_STD_BYTES := 576.
Definition RESP_BUF := Z.land ((16 + LINE_BYTES) + 15) (Z.lnot 15).
Definition PLD_MAX := RESP_BUF - 12.

Definition ENTITY_ID := 0x001B92FFFE001122.
Definition OWN_MAC : bytes := [0x00; 0x1b; 0x92; 0x00; 0x11; 0x22].
Definition CONTROLLER_MAC : bytes := [0x02; 0x03; 0x04; 0x05; 0x06; 0xff].
Definition CONTROLLER_EID := 0x0011223344556677.

Definition D_ENTITY := 0x0000.
Definition D_CONFIGURATION := 0x0001.
Definition D_AUDIO_UNIT := 0x0002.
Definition D_STREAM_INPUT := 0x0005.
Definition D_STREAM_OUTPUT := 0x0006.
Definition D_AVB_INTERFACE := 0x0009.
Definition D_CLOCK_SOURCE := 0x000A.
Definition D_CLOCK_DOMAIN := 0x0024.

(** * The descriptor image *)

(** [entries]: (configuration, type) to (count, length). *)
Record image := Image { valid : bool; n_config : Z; entries : gmap (Z * Z) (Z * Z) }.

Definition MILAN_8 : gmap (Z * Z) (Z * Z) := list_to_map
  [((0, D_ENTITY), (1, 312)); ((0, D_CONFIGURATION), (1, 74 + 4 * 6));
   ((0, D_AUDIO_UNIT), (1, 144 + 4 * 2)); ((0, D_STREAM_INPUT), (1, 136 + 8 * 2));
   ((0, D_STREAM_OUTPUT), (1, 136 + 8 * 2)); ((0, D_AVB_INTERFACE), (1, 102));
   ((0, D_CLOCK_SOURCE), (1, 86)); ((0, D_CLOCK_DOMAIN), (1, 76 + 2 * 1))].

(** [DescriptorImage(entries, configurations_count, valid)]. *)
Definition descriptor_image (entries : option (gmap (Z * Z) (Z * Z))) (configurations_count : Z)
    (valid : bool) : image :=
  Image valid configurations_count (default MILAN_8 entries).

Definition configurations_count (img : image) : Z := if valid img then n_config img else 0.

Definition locate (img : image) (cfg dtype index : Z) : option Z :=
  if negb (valid img) then None
  else match entries img !! (cfg, dtype) with
       | None => None
       | Some (count, length) =>
           if count <=? index then None
           else if LINE_BYTES <? length then None
           else Some length
       end.

Definition descriptor_bytes (dtype index length : Z) : result py_error bytes :=
  let* body := to_bytes (VInt length) in
  let* t := pack 2 dtype in
  let body := set_slice 0 2 t body in
  let* i := pack 2 index in
  let body := set_slice 2 4 i body in
  foldR (fun body k => set_octet body k (Z.land (dtype * 31 + index * 7 + k * 13) 0xFF))
    body (zrange 4 (Z.to_nat (length - 4))).

(** * The engine *)

(** A row of the served inventory; [cdl] is the response's length, [None] where
    it varies. *)
Record served_row := Served { name : string; clause : string; verdict : Z; cdl : option Z }.

Record engine := Engine {
  served : gmap Z served_row;
  mvu_served : gmap Z (string * string);
  img : image;
  entity_id : Z;
  own_mac : bytes
}.

(** What [deliver] changes; [opcode_served] has no value before the first
    command. *)
Record counters := Counters {
  cmd_count : Z;
  resp_count : Z;
  drop_count : Z;
  last_oversize : bool;
  opcode_served : option Z
}.

Definition reset : counters := Counters 0 0 0 false None.

(** A handler: it changes the counters and returns or raises. *)
Definition handler (A : Type) : Type := counters -> counters * result py_error A.

Definition ret {A} (a : A) : handler A := fun st => (st, Ok a).
Definition lift {A} (m : result py_error A) : handler A := fun st => (st, m).
Definition update (f : counters -> counters) : handler unit := fun st => (f st, Ok tt).
Definition hbind {A B} (m : handler A) (k : A -> handler B) : handler B :=
  fun st => match m st with
            | (st', Ok a) => k a st'
            | (st', Err e) => (st', Err e)
            end.

Notation "'let!' x := m 'in' k" := (hbind m (fun x => k))
  (at level 10, x pattern, m at level 100, k at level 200) : milan_scope.

Definition dropped (st : counters) : counters :=
  Counters (cmd_count st) (resp_count st) (drop_count st + 1) (last_oversize st) (opcode_served st).
Definition commanded (st : counters) : counters :=
  Counters (cmd_count st + 1) (resp_count st) (drop_count st) (last_oversize st) (opcode_served st).
Definition responded (st : counters) : counters :=
  Counters (cmd_count st) (resp_count st + 1) (drop_count st) (last_oversize st) (opcode_served st).
Definition serving (opcode : Z) (st : counters) : counters :=
  Counters (cmd_count st) (resp_count st) (drop_count st) (last_oversize st) (Some opcode).
Definition oversize (b : bool) (st : counters) : counters :=
  Counters (cmd_count st) (resp_count st) (drop_count st) b (opcode_served st).

(** [_Echoed]. *)
Record echoed := Echoed { req_mac : bytes; msg_type : Z; raw_ct : bytes; ctlr_eid : bytes; seq : bytes }.

(** [_be16]: zero where the payload ends. *)
Definition be16_at (buf : bytes) (off : Z) : Z :=
  let hi := if off <? zlen buf then raw_at buf off else 0 in
  let lo := if off + 1 <? zlen buf then raw_at buf (off + 1) else 0 in
  Z.lor (Z.shiftl hi 8) lo.

(** [_mvu_command_type]. *)
Definition mvu_command_type (msg_type : Z) (raw_ct cmd_payload : bytes) : option Z :=
  if negb (msg_type =? MT_VU_COMMAND) || (zlen cmd_payload <? MVU_CMD_PLD) then None
  else if negb (bool_decide (raw_ct ++ take 4 cmd_payload = MILAN_PROTOCOL_ID)) then None
  else Some (be16_at cmd_payload 4).

Inductive program := RDESC | BADARG | SERVED_ROW | MVU | NOTIMPL.

#[export] Instance program_eq_dec : EqDecision program.
Proof. solve_decision. Defined.

(** The dispatch decision: the program, and whether it answers with the echo. *)
Definition dispatch (e : engine) (msg_type opcode : Z) (short : bool) (raw_ct cmd_payload : bytes) :
    program * bool :=
  let aem := msg_type =? MT_AEM_COMMAND in
  if aem && (opcode =? OP_READ_DESCRIPTOR) && negb short then (RDESC, false)
  else if aem && ((opcode =? OP_IDENTIFY_NOTIFICATION) || (opcode =? OP_READ_DESCRIPTOR) && short)
  then (BADARG, true)
  else if (msg_type =? MT_AEM_COMMAND) && bool_decide (is_Some (served e !! opcode))
  then (SERVED_ROW, false)
  else if match mvu_command_type msg_type raw_ct cmd_payload with
          | Some t => bool_decide (is_Some (mvu_served e !! t))
          | None => false
          end then (MVU, false)
  else (NOTIMPL, true).

(** * The microprograms: status, response length and buffer *)

Definition stub (buf : bytes) (cfg_ix desc_ty desc_ix status : Z) : result py_error (Z * Z * bytes) :=
  let cur := 12 in
  let* c := pack 2 cfg_ix in
  let buf := set_slice cur (cur + 2) c buf in
  let cur := cur + 2 in
  let buf := set_slice cur (cur + 2) [0x00; 0x00] buf in
  let cur := cur + 2 in
  let* t := pack 2 desc_ty in
  let* i := pack 2 desc_ix in
  let buf := set_slice cur (cur + 4) (t ++ i) buf in
  let cur := cur + 4 in
  Ok (status, cur, buf).

Definition read_descriptor (e : engine) (buf : bytes) (cfg_ix desc_ty desc_ix : Z) :
    result py_error (Z * Z * bytes) :=
  if configurations_count (img e) <=? cfg_ix
  then stub buf cfg_ix desc_ty desc_ix ST_BAD_ARGUMENTS
  else match locate (img e) cfg_ix desc_ty desc_ix with
       | None => stub buf cfg_ix desc_ty desc_ix ST_NO_SUCH_DESCRIPTOR
       | Some length =>
           let cur := 12 in
           let* c := pack 2 cfg_ix in
           let buf := set_slice cur (cur + 2) c buf in
           let cur := cur + 2 in
           let buf := set_slice cur (cur + 2) [0x00; 0x00] buf in
           let cur := cur + 2 in
           let* d := descriptor_bytes desc_ty desc_ix length in
           let buf := set_slice cur (cur + length) d buf in
           let cur := cur + length in
           Ok (ST_SUCCESS, cur, buf)
       end.

Definition mvu_program (buf : bytes) (command_type : Z) : result py_error (Z * Z * bytes) :=
  let* _ := raise_if (negb (command_type =? MVU_GET_MILAN_INFO)) AssertionFailed in
  let* ct := pack 2 MVU_GET_MILAN_INFO in
  let* reserved := pack 2 0 in
  let* version := pack 4 MILAN_PROTOCOL_VERSION in
  let* features := pack 4 MILAN_FEATURES_FLAGS in
  let* certification := pack 4 MILAN_CERTIFICATION_VERSION in
  let body := zslice 2 4 MILAN_PROTOCOL_ID ++ ct ++ reserved ++ version ++ features ++ certification in
  Ok (ST_SUCCESS, 12 + zlen body, set_slice 12 (12 + zlen body) body buf).

Definition run (e : engine) (opcode : option Z) (p : program) (buf : bytes)
    (cfg_ix desc_ty desc_ix : Z) : result py_error (Z * Z * bytes) :=
  match p with
  | NOTIMPL => Ok (ST_NOT_IMPLEMENTED, 12, buf)
  | BADARG => Ok (ST_BAD_ARGUMENTS, 12, buf)
  | SERVED_ROW =>
      match opcode with
      | None => Err (KeyError "opcode_served")
      | Some op =>
          match served e !! op with
          | None => Err (KeyError "opcode")
          | Some row =>
              if (op =? OP_START_STREAMING) || (op =? OP_STOP_STREAMING)
              then Ok ((if cfg_ix =? DT_STREAM_INPUT then ST_SUCCESS else ST_NOT_SUPPORTED), 16, buf)
              else Ok (verdict row, default 12 (cdl row), buf)
          end
      end
  | MVU => mvu_program buf desc_ty
  | RDESC => read_descriptor e buf cfg_ix desc_ty desc_ix
  end.

(** [_assemble], without the attribute it sets. *)
Definition frame_of (e : engine) (ec : echoed) (status : Z) (buf : bytes) (pld : Z) :
    result py_error bytes :=
  let cdl := 12 + pld in
  let f := req_mac ec ++ own_mac e in
  let* et := pack 2 ETHERTYPE_AVTP in
  let f := f ++ et in
  let* f := append f SUBTYPE_AECP in
  let* f := append f (Z.land (Z.lor (msg_type ec) 1) 0x0F) in
  let* f := append f (Z.lor (Z.shiftl (Z.land status 0x1F) 3) (Z.land (Z.shiftr cdl 8) 0x07)) in
  let* f := append f (Z.land cdl 0xFF) in
  let* eid := pack 8 (entity_id e) in
  let f := f ++ eid ++ ctlr_eid ec ++ seq ec in
  let* c0 := octet (raw_ct ec) 0 in
  let* f := append f (if msg_type ec =? MT_AEM_COMMAND then Z.land c0 0x7F else c0) in
  let* c1 := octet (raw_ct ec) 1 in
  let* f := append f c1 in
  Ok (pad_to ETH_MIN (f ++ zslice 12 pld buf)).

Definition assemble (e : engine) (ec : echoed) (status : Z) (buf : bytes) (pld : Z) : handler bytes :=
  let! f := lift (frame_of e ec status buf pld) in
  let! _ := update (oversize (TX_STD_BYTES <? zlen f)) in
  ret f.

(** * The pop face *)

Definition deliver (e : engine) (frame : bytes) : handler (option bytes) :=
  let pdu := drop (Z.to_nat ETH_HDR) frame in
  let req_mac := zslice 6 6 frame in
  let! b1 := lift (octet pdu 1) in
  let msg_type := Z.land b1 0x0F in
  let! b2 := lift (octet pdu 2) in
  let! b3 := lift (octet pdu 3) in
  let cdl := Z.lor (Z.shiftl (Z.land b2 0x07) 8) b3 in
  let target_eid := rd_be 4 8 pdu in
  let ctlr_eid := zslice 12 8 pdu in
  let seq := zslice 20 2 pdu in
  let raw_ct := zslice 22 2 pdu in
  let! b22 := lift (octet pdu 22) in
  let! b23 := lift (octet pdu 23) in
  let opcode := Z.lor (Z.shiftl (Z.land b22 0x3F) 8) b23 in
  if negb (Z.land msg_type 1 =? 0) || negb (target_eid =? entity_id e) then
    let! _ := update dropped in ret None
  else
    let! _ := update commanded in
    let cdl_pld := if 12 <? cdl then cdl - 12 else 0 in
    let slot_pld := Z.max (zlen pdu - AECP_HDR) 0 in
    let pld_cmd := Z.min (Z.min cdl_pld PLD_MAX) slot_pld in
    let cmd_payload := zslice AECP_HDR pld_cmd pdu in
    let cfg_ix := be16_at cmd_payload 0 in
    let desc_ty := be16_at cmd_payload 4 in
    let desc_ix := be16_at cmd_payload 6 in
    let short := cdl <? 20 in
    let! _ := update (serving opcode) in
    let '(program, echo) := dispatch e msg_type opcode short raw_ct cmd_payload in
    let buf := set_slice 12 (12 + pld_cmd) cmd_payload (zeros (Z.to_nat RESP_BUF)) in
    let! answer :=
      (fun st => lift (run e (opcode_served st) program buf cfg_ix desc_ty desc_ix) st) in
    let '(status, resp_len, buf) := answer in
    let pld := if echo : bool then pld_cmd else Z.min (Z.max (resp_len - 12) 0) PLD_MAX in
    let! _ := update responded in
    let! r := assemble e (Echoed req_mac msg_type raw_ct ctlr_eid seq) status buf pld in
    ret (Some r).

(** * Command frames *)

(** [FrameEnvelope], with its defaults. *)
Record envelope := Envelope {
  target_eid : Z;
  env_ctlr_eid : Z;
  env_seq : Z;
  env_cdl : option Z;
  src_mac : bytes;
  dst_mac : bytes
}.

Definition FrameEnvelope : envelope :=
  Envelope ENTITY_ID CONTROLLER_EID 0x1234 None CONTROLLER_MAC OWN_MAC.

Definition build_command (msg_type ct_word : Z) (payload : bytes) (env : envelope) :
    result py_error bytes :=
  let* pdu := append [] SUBTYPE_AECP in
  let* pdu := append pdu (Z.land msg_type 0x0F) in
  let real_cdl := default (12 + zlen payload) (env_cdl env) in
  let* pdu := append pdu (Z.lor (Z.shiftl (Z.land 0 0x1F) 3) (Z.land (Z.shiftr real_cdl 8) 0x07)) in
  let* pdu := append pdu (Z.land real_cdl 0xFF) in
  let* target := pack 8 (target_eid env) in
  let* controller := pack 8 (env_ctlr_eid env) in
  let* seq := pack 2 (env_seq env) in
  let* ct := pack 2 ct_word in
  let pdu := pdu ++ target ++ controller ++ seq ++ ct ++ payload in
  let* et := pack 2 ETHERTYPE_AVTP in
  let frame := pad_to ETH_MIN (dst_mac env ++ src_mac env ++ et ++ pdu) in
  let* _ := raise_if (negb (real_cdl + 12 <=? zlen frame - ETH_HDR)) AssertionFailed in
  Ok frame.

(** [struct.pack(">HHHH", ...)]. *)
Definition pack_halfwords (l : list Z) : result py_error bytes :=
  let* bs := mapR (pack 2) l in Ok (concat bs).

Definition build_read_descriptor (cfg dtype index : Z) (env : envelope) : result py_error bytes :=
  let* payload := pack_halfwords [cfg; 0; dtype; index] in
  build_command MT_AEM_COMMAND OP_READ_DESCRIPTOR payload env.

Definition build_aem_command (opcode : Z) (payload : option bytes) (env : envelope) :
    result py_error bytes :=
  let* payload := match payload with
                  | None => pack_halfwords [0; 0; D_ENTITY; 0]
                  | Some p => Ok p
                  end in
  build_command MT_AEM_COMMAND opcode payload env.

Definition build_get_dynamic_info (env : envelope) : result py_error bytes :=
  let* a := pack 2 0 in let* b := pack 2 0 in
  let* s := pack 1 ST_SUCCESS in let* z := pack 1 0 in let* op := pack 2 0x0007 in
  build_command MT_AEM_COMMAND OP_GET_DYNAMIC_INFO (a ++ b ++ s ++ z ++ op) env.

Definition build_acquire_entity (owner_id : Z) (env : envelope) : result py_error bytes :=
  let* flags := pack 4 0 in
  let* owner := pack 8 owner_id in
  let* t := pack 2 D_ENTITY in
  let* i := pack 2 0 in
  build_command MT_AEM_COMMAND OP_ACQUIRE_ENTITY (flags ++ owner ++ t ++ i) env.

Definition build_address_access (tlv_count : Z) (env : envelope) : result py_error bytes :=
  let* mode := pack 2 (Z.lor (Z.shiftl 0 12) 0) in
  let* address := pack 8 0xDEADBEEF in
  build_command MT_AA_COMMAND tlv_count
    (concat (repeat (mode ++ address) (Z.to_nat tlv_count))) env.

Definition build_mvu_command (mvu_command_type : Z) (protocol_id : bytes) (reserved : Z)
    (from_32 : bytes) (env : envelope) : result py_error bytes :=
  let* p0 := octet protocol_id 0 in
  let* p1 := octet protocol_id 1 in
  let ct_word := Z.lor (Z.shiftl p0 8) p1 in
  let* ct := pack 2 mvu_command_type in
  let* r := pack 2 reserved in
  build_command MT_VU_COMMAND ct_word (zslice 2 4 protocol_id ++ ct ++ r ++ from_32) env.

(** The figure of a command, its @30 halfword and the octets from @32. *)
Definition MVU_COMMAND_FORMS : gmap Z (string * Z * bytes) := list_to_map
  [(0x0000, ("Figure 5.3"%string, 0, []));
   (0x0001, ("Figure 5.5"%string, 0, be_bytes 8 0x0102030405060708));
   (0x0002, ("Figure 5.3"%string, 0, []));
   (0x0003, ("Figure 5.6"%string, 0, [0x03; 0; 0; 0x80] ++ be_bytes 4 0
             ++ [68; 69; 70; 65; 85; 76; 84] ++ zeros 57));
   (0x0004, ("Figure 5.7"%string, 0, []))].

(** * Decoding *)

Record response := Response {
  r_dst_mac : bytes; r_src_mac : bytes; r_ethertype : Z; r_subtype : Z; r_sv_version : Z;
  r_message_type : Z; r_status : Z; r_cdl : Z; r_target : Z; r_controller : Z; r_sequence : Z;
  r_u : Z; r_cr : Z; r_command_type : Z; r_payload : bytes; r_frame_len : Z
}.

Definition decode (frame : bytes) : result py_error response :=
  let* b16 := octet frame 16 in
  let* b17 := octet frame 17 in
  let cdl := Z.lor (Z.shiftl (Z.land b16 0x07) 8) b17 in
  let* b14 := octet frame 14 in
  let* b15 := octet frame 15 in
  let* b36 := octet frame 36 in
  let* b37 := octet frame 37 in
  Ok (Response (zslice 0 6 frame) (zslice 6 6 frame) (rd_be 12 2 frame) b14
        (Z.shiftr b15 4) (Z.land b15 0x0F) (Z.shiftr b16 3) cdl (rd_be 18 8 frame)
        (rd_be 26 8 frame) (rd_be 34 2 frame) (Z.shiftr b36 7) (Z.land (Z.shiftr b36 6) 1)
        (Z.lor (Z.shiftl (Z.land b36 0x3F) 8) b37)
        (zslice FRAME_HDR (Z.max (cdl - 12) 0) frame) (zlen frame)).

Record command := Command {
  c_src_mac : bytes; c_message_type : Z; c_cdl : Z; c_target : Z; c_controller : Z;
  c_sequence : Z; c_command_type : Z; c_payload : bytes
}.

Definition decode_command (frame : bytes) : result py_error command :=
  let pdu := drop (Z.to_nat ETH_HDR) frame in
  let* b2 := octet pdu 2 in
  let* b3 := octet pdu 3 in
  let cdl := Z.lor (Z.shiftl (Z.land b2 0x07) 8) b3 in
  let* b1 := octet pdu 1 in
  let* b22 := octet pdu 22 in
  let* b23 := octet pdu 23 in
  Ok (Command (zslice 6 6 frame) (Z.land b1 0x0F) cdl (rd_be 4 8 pdu) (rd_be 12 8 pdu)
        (rd_be 20 2 pdu) (Z.lor (Z.shiftl (Z.land b22 0x3F) 8) b23)
        (zslice AECP_HDR (Z.max (cdl - 12) 0) pdu)).

(** What makes a response malformed, a constructor per message. *)
Inductive complaint :=
  | NoResponse
  | ShortFrame (octets : Z)
  | Ethertype (v : Z)
  | Subtype (v : Z)
  | SvVersion (v : Z)
  | MessageType (got sent : Z)
  | CdlBelowHeader (cdl : Z)
  | CdlPastFrame (claims carried : Z)
  | ForeignTarget (v : Z)
  | ControllerNotEchoed
  | SequenceNotEchoed (got sent : Z)
  | USet
  | NotUnicast.

Definition complaints (frame : option bytes) (cmd_frame : bytes) (eid : Z) :
    result py_error (list complaint) :=
  match frame with
  | None => Ok [NoResponse]
  | Some f =>
      let bad := if zlen f <? ETH_MIN then [ShortFrame (zlen f)] else [] in
      let* r := decode f in
      let* c := decode_command cmd_frame in
      let carried := zlen f - FRAME_HDR in
      let when (b : bool) (x : complaint) := if b then [x] else [] in
      Ok (bad
          ++ when (negb (r_ethertype r =? ETHERTYPE_AVTP)) (Ethertype (r_ethertype r))
          ++ when (negb (r_subtype r =? SUBTYPE_AECP)) (Subtype (r_subtype r))
          ++ when (negb (r_sv_version r =? 0)) (SvVersion (r_sv_version r))
          ++ when (negb (r_message_type r =? Z.lor (c_message_type c) 1))
               (MessageType (r_message_type r) (c_message_type c))
          ++ when (r_cdl r <? 12) (CdlBelowHeader (r_cdl r))
          ++ when (carried <? r_cdl r - 12) (CdlPastFrame (r_cdl r - 12) carried)
          ++ when (negb (r_target r =? eid)) (ForeignTarget (r_target r))
          ++ when (negb (r_controller r =? c_controller c)) ControllerNotEchoed
          ++ when (negb (r_sequence r =? c_sequence c)) (SequenceNotEchoed (r_sequence r) (c_sequence c))
          ++ when ((r_message_type r =? MT_AEM_RESPONSE) && negb (r_u r =? 0)) USet
          ++ when (negb (bool_decide (r_dst_mac r = c_src_mac c))) NotUnicast)
  end.

(** * The served inventory *)

Definition SERVED : gmap Z served_row := list_to_map
  [(0x0000, Served "ACQUIRE_ENTITY" "Milan 5.4.2.1" ST_NOT_SUPPORTED (Some 28));
   (0x0001, Served "LOCK_ENTITY" "Milan 5.4.2.2" ST_SUCCESS (Some 28));
   (0x0002, Served "ENTITY_AVAILABLE" "Milan 5.4.2.3" ST_SUCCESS (Some 32));
   (0x0004, Served "READ_DESCRIPTOR" "Milan 5.4.2.4" ST_SUCCESS None);
   (0x0006, Served "SET_CONFIGURATION" "Milan 5.4.2.5" ST_SUCCESS (Some 16));
   (0x0007, Served "GET_CONFIGURATION" "Milan 5.4.2.6" ST_SUCCESS (Some 16));
   (0x0008, Served "SET_STREAM_FORMAT" "Milan 5.4.2.7" ST_BAD_ARGUMENTS (Some 24));
   (0x0009, Served "GET_STREAM_FORMAT" "Milan 5.4.2.8" ST_SUCCESS (Some 24));
   (0x000E, Served "SET_STREAM_INFO" "Milan 5.4.2.9" ST_BAD_ARGUMENTS (Some 96));
   (0x000F, Served "GET_STREAM_INFO" "Milan 5.4.2.10" ST_SUCCESS (Some 68));
   (0x0010, Served "SET_NAME" "Milan 5.4.2.11" ST_SUCCESS (Some 84));
   (0x0011, Served "GET_NAME" "Milan 5.4.2.12" ST_SUCCESS (Some 84));
   (0x0015, Served "GET_SAMPLING_RATE" "Milan 5.4.2.14" ST_SUCCESS (Some 20));
   (0x0014, Served "SET_SAMPLING_RATE" "Milan 5.4.2.13" ST_SUCCESS (Some 20));
   (0x0016, Served "SET_CLOCK_SOURCE" "Milan 5.4.2.15" ST_SUCCESS (Some 20));
   (0x0017, Served "GET_CLOCK_SOURCE" "Milan 5.4.2.16" ST_SUCCESS (Some 20));
   (0x0018, Served "SET_CONTROL" "Milan 5.4.2.17" ST_SUCCESS (Some 17));
   (0x0019, Served "GET_CONTROL" "Milan 5.4.2.18" ST_SUCCESS (Some 17));
   (0x0022, Served "START_STREAMING" "Milan 5.4.2.19" ST_NOT_SUPPORTED (Some 16));
   (0x0023, Served "STOP_STREAMING" "Milan 5.4.2.20" ST_NOT_SUPPORTED (Some 16));
   (0x0024, Served "REGISTER_UNSOLICITED_NOTIFICATION" "Milan 5.4.2.21" ST_SUCCESS (Some 16));
   (0x0025, Served "DEREGISTER_UNSOLICITED_NOTIFICATION" "Milan 5.4.2.22" ST_SUCCESS (Some 12));
   (0x0026, Served "IDENTIFY_NOTIFICATION" "IEEE 7.4.39.2" ST_BAD_ARGUMENTS None);
   (0x0027, Served "GET_AVB_INFO" "Milan 5.4.2.23" ST_SUCCESS None);
   (0x0028, Served "GET_AS_PATH" "Milan 5.4.2.24" ST_SUCCESS None);
   (0x0029, Served "GET_COUNTERS" "Milan 5.4.2.25" ST_SUCCESS (Some 148));
   (0x002A, Served "REBOOT" "IEEE 7.4.43" ST_SUCCESS (Some 16));
   (0x002B, Served "GET_AUDIO_MAP" "Milan 5.4.2.26" ST_SUCCESS None);
   (0x002C, Served "ADD_AUDIO_MAPPINGS" "Milan 5.4.2.27" ST_SUCCESS None);
   (0x002D, Served "REMOVE_AUDIO_MAPPINGS" "Milan 5.4.2.28" ST_SUCCESS None);
   (0x004B, Served "GET_DYNAMIC_INFO" "Milan 5.4.2.29" ST_SUCCESS None)]%string.

Definition SERVED_MVU : gmap Z (string * string) :=
  list_to_map [(0x0000, ("GET_MILAN_INFO", "Milan 5.4.4.1"))]%string.

(** [AecpEngineModel(SERVED, mvu_served=SERVED_MVU)]. *)
Definition default_engine : engine :=
  Engine SERVED SERVED_MVU (descriptor_image None 1 true) ENTITY_ID OWN_MAC.
