(* ===== verification/AecpResponses.v ===== *)
(** What the AECP engine answers.

    The handler of [AecpEngine] is first turned into its decision table
    ([deliver_eq]): too short a frame raises, an odd message type or a foreign
    target is dropped, and everything else runs one program whose result is
    framed.  The theorems then speak about responses: they are never malformed,
    never provoke another response, the counters account for every frame, a
    descriptor is read as the store holds it, and the served inventory describes
    the answer to every opcode. *)
From S2P Require Import Prelude Text Packing AecpEngine.

(** * The fields of a command frame *)

Section Fields.
Context (frame : bytes).

Definition cmd_pdu : bytes := drop 14 frame.
Definition cmd_type : Z := Z.land (raw_at cmd_pdu 1) 0x0F.
Definition cmd_cdl : Z := Z.lor (Z.shiftl (Z.land (raw_at cmd_pdu 2) 0x07) 8) (raw_at cmd_pdu 3).
Definition cmd_target : Z := rd_be 4 8 cmd_pdu.
Definition cmd_opcode : Z := Z.lor (Z.shiftl (Z.land (raw_at cmd_pdu 22) 0x3F) 8) (raw_at cmd_pdu 23).
Definition cmd_raw_ct : bytes := zslice 22 2 cmd_pdu.
Definition cmd_pld : Z :=
  Z.min (Z.min (if 12 <? cmd_cdl then cmd_cdl - 12 else 0) PLD_MAX) (Z.max (zlen cmd_pdu - AECP_HDR) 0).
Definition cmd_payload : bytes := zslice AECP_HDR cmd_pld cmd_pdu.
Definition cmd_echoed : echoed :=
  Echoed (zslice 6 6 frame) cmd_type cmd_raw_ct (zslice 12 8 cmd_pdu) (zslice 20 2 cmd_pdu).
Definition cmd_buffer : bytes := set_slice 12 (12 + cmd_pld) cmd_payload (zeros (Z.to_nat RESP_BUF)).

Definition cmd_dispatch (e : engine) : program * bool :=
  dispatch e cmd_type cmd_opcode (cmd_cdl <? 20) cmd_raw_ct cmd_payload.

Definition cmd_run (e : engine) : result py_error (Z * Z * bytes) :=
  run e (Some cmd_opcode) (fst (cmd_dispatch e)) cmd_buffer
    (be16_at cmd_payload 0) (be16_at cmd_payload 4) (be16_at cmd_payload 6).

(** Whether the frame is freed without a reply. *)
Definition cmd_refused (e : engine) : bool :=
  negb (Z.land cmd_type 1 =? 0) || negb (cmd_target =? entity_id e).

Definition answer_length (e : engine) (resp_len : Z) : Z :=
  if snd (cmd_dispatch e) then cmd_pld else Z.min (Z.max (resp_len - 12) 0) PLD_MAX.
End Fields.

Lemma octet_raw_at b i : 0 <= i < zlen b -> octet b i = Ok (raw_at b i).
Proof.
  intros Hi. unfold octet, raw_at, zlen in *. rewrite nth_lookup.
  destruct (lookup_lt_is_Some_2 b (Z.to_nat i) ltac:(lia)) as [x ->]. done.
Qed.

Lemma octet_out b i : zlen b <= i -> 0 <= i -> octet b i = Err IndexError.
Proof. intros H Hi. unfold octet, zlen in *. by rewrite lookup_ge_None_2 by lia. Qed.

Lemma cmd_pdu_length frame : 38 <= zlen frame -> 24 <= zlen (cmd_pdu frame).
Proof. unfold cmd_pdu, zlen. rewrite length_drop. lia. Qed.

(** The handler as a decision table. *)
Lemma deliver_eq e frame st : 38 <= zlen frame ->
  deliver e frame st =
  if cmd_refused frame e then (dropped st, Ok None)
  else
    let st1 := serving (cmd_opcode frame) (commanded st) in
    match cmd_run frame e with
    | Err x => (st1, Err x)
    | Ok (status, resp_len, buf) =>
        match frame_of e (cmd_echoed frame) status buf (answer_length frame e resp_len) with
        | Err x => (responded st1, Err x)
        | Ok f => (oversize (TX_STD_BYTES <? zlen f) (responded st1), Ok (Some f))
        end
    end.
Proof.
  intros Hl. apply cmd_pdu_length in Hl. unfold deliver. fold (cmd_pdu frame). change (Z.to_nat ETH_HDR) with 14%nat.
  fold (cmd_pdu frame). unfold hbind, lift, update, ret. rewrite !octet_raw_at by lia.
  fold (cmd_type frame). fold (cmd_cdl frame). fold (cmd_target frame). fold (cmd_opcode frame).
  fold (cmd_refused frame e). destruct (cmd_refused frame e); [done|].
  fold (cmd_pld frame). fold (cmd_payload frame). fold (cmd_raw_ct frame). fold (cmd_buffer frame).
  unfold cmd_run, answer_length, cmd_dispatch.
  destruct (dispatch e _ _ _ _ _) as [p echo]. cbn [fst snd opcode_served serving].
  destruct (run e _ p _ _ _ _) as [[[status resp_len] buf]|x]; [|done].
  unfold assemble, hbind, lift, update, ret, cmd_echoed.
  by destruct (frame_of e _ status buf _).
Qed.

Lemma deliver_short e frame st : zlen frame < 38 -> deliver e frame st = (st, Err IndexError).
Proof.
  intros Hl. unfold deliver, hbind, lift.
  assert (zlen (drop (Z.to_nat ETH_HDR) frame) < 24) as Hp
    by (unfold zlen in *; rewrite length_drop; change (Z.to_nat ETH_HDR) with 14%nat; lia).
  generalize dependent (drop (Z.to_nat ETH_HDR) frame). intros pdu Hp.
  repeat match goal with
  | |- context [octet pdu ?i] =>
      destruct (Z.ltb_spec i (zlen pdu));
        [rewrite (octet_raw_at pdu i) by lia | by rewrite (octet_out pdu i) by lia]
  end.
  lia.
Qed.

(** * The response frame *)

(** The header of a response to [ec], the first octet of the echoed word after
    the masking of an AEM response. *)
Definition ct_octet (ec : echoed) : Z :=
  if msg_type ec =? MT_AEM_COMMAND then Z.land (raw_at (raw_ct ec) 0) 0x7F else raw_at (raw_ct ec) 0.

Definition response_header (e : engine) (ec : echoed) (status cdl : Z) : bytes :=
  req_mac ec ++ own_mac e ++ be_bytes 2 ETHERTYPE_AVTP
  ++ [SUBTYPE_AECP; Z.lor (msg_type ec) 1;
      8 * (status mod 32) + cdl / 256; cdl mod 256]
  ++ be_bytes 8 (entity_id e) ++ ctlr_eid ec ++ seq ec ++ [ct_octet ec; raw_at (raw_ct ec) 1].

(** What [deliver] hands to [_assemble]: the fields of an addressed command. *)
Record echo_ok (e : engine) (ec : echoed) : Prop := {
  ok_mac : zlen (req_mac ec) = 6;
  ok_own : zlen (own_mac e) = 6;
  ok_eid : 0 <= entity_id e < 2 ^ 64;
  ok_type : 0 <= msg_type ec < 16;
  ok_even : Z.land (msg_type ec) 1 = 0;
  ok_ctlr : zlen (ctlr_eid ec) = 8 /\ Forall is_byte (ctlr_eid ec);
  ok_seq : zlen (seq ec) = 2 /\ Forall is_byte (seq ec);
  ok_ct : zlen (raw_ct ec) = 2 /\ Forall is_byte (raw_ct ec)
}.

Lemma raw_at_byte b i : Forall is_byte b -> is_byte (raw_at b i).
Proof.
  intros H. unfold raw_at. destruct (lt_dec (Z.to_nat i) (length b)) as [Hi|Hi].
  - rewrite List.Forall_forall in H. by apply H, nth_In.
  - rewrite nth_overflow by lia. by split.
Qed.

Lemma append_byte f v : is_byte v -> append f v = Ok (f ++ [v]).
Proof.
  intros [H1 H2]. unfold append, is_byteb.
  by rewrite (proj2 (Z.leb_le _ _) H1), (proj2 (Z.ltb_lt _ _) H2).
Qed.

Lemma odd_type t : 0 <= t < 16 -> Z.land (Z.lor t 1) 0x0F = Z.lor t 1 /\ 0 <= Z.lor t 1 < 16.
Proof. intros H. assert (In t (zrange 0 16)) as Hin by (apply zrange_In; lia).
  cbn in Hin. repeat (destruct Hin as [<-|Hin]; [by vm_compute|]). done.
Qed.

Lemma status_octet status cdl : 0 <= cdl < 2048 ->
  Z.lor (Z.shiftl (Z.land status 0x1F) 3) (Z.land (Z.shiftr cdl 8) 0x07) = 8 * (status mod 32) + cdl / 256.
Proof.
  intros H. masks. rewrite Z.shiftr_div_pow2 by done. change (2 ^ 8) with 256.
  rewrite (Z.mod_small (cdl / 256)) by (Z.div_mod_to_equations; lia).
  rewrite join_bits by (first [lia | Z.div_mod_to_equations; lia]). lia.
Qed.

Lemma ct_octet_byte e ec : echo_ok e ec -> is_byte (ct_octet ec).
Proof.
  intros [_ _ _ _ _ _ _ [_ H]]. unfold ct_octet. pose proof (raw_at_byte _ 0 H) as Hb. destruct (_ =? _); [|done].
  masks. unfold is_byte in *. pose proof (Z.mod_pos_bound (raw_at (raw_ct ec) 0) 128 ltac:(done)). lia.
Qed.

Lemma frame_of_Ok e ec status buf pld : echo_ok e ec -> 0 <= pld <= PLD_MAX ->
  frame_of e ec status buf pld =
  Ok (pad_to ETH_MIN (response_header e ec status (12 + pld) ++ zslice 12 pld buf)).
Proof.
  intros Hok Hp. pose proof (ct_octet_byte _ _ Hok) as Hct. destruct Hok as [H1 H2 H3 H4 H5 H6 H7 [H8 H9]].
  change PLD_MAX with 580 in Hp. unfold frame_of.
  rewrite (pack_total 2), (pack_total 8) by done. cbn [rbind].
  destruct (odd_type _ H4) as [E Ht]. rewrite E.
  rewrite status_octet by lia.
  rewrite append_byte by done. cbn [rbind]. rewrite append_byte by (unfold is_byte; lia). cbn [rbind].
  rewrite append_byte by (unfold is_byte; Z.div_mod_to_equations; lia). cbn [rbind].
  masks. rewrite append_byte by (apply Z.mod_pos_bound; done). cbn [rbind].
  rewrite !octet_raw_at by lia. cbn [rbind].
  assert (is_byte (raw_at (raw_ct ec) 0)) as Hb0 by (by apply raw_at_byte).
  rewrite append_byte; [|unfold ct_octet in Hct; revert Hct; destruct (_ =? _); [by masks|done]].
  cbn [rbind]. rewrite append_byte by (by apply raw_at_byte). cbn [rbind].
  unfold response_header, ct_octet. f_equal. rewrite <-!app_assoc. cbn [app].
  destruct (_ =? _); masks; reflexivity.
Qed.

Lemma response_header_length e ec status cdl : echo_ok e ec -> zlen (response_header e ec status cdl) = 38.
Proof.
  intros [H1 H2 _ _ _ [H6 _] [H7 _] _]. unfold response_header. autorewrite with zlen. lia.
Qed.

(** A response frame: header, payload, and octets of padding. *)
Section Response.
Context (e : engine) (ec : echoed) (status : Z) (data rest : bytes).
Hypothesis (Hok : echo_ok e ec) (Hdata : zlen data <= PLD_MAX).

Local Abbreviation hdr := (response_header e ec status (12 + zlen data)).
Local Abbreviation frame := (hdr ++ data ++ rest).

Lemma response_slice off n s : 0 <= off -> 0 <= n -> off + n <= 38 ->
  zslice off n hdr = s -> zslice off n frame = s.
Proof using All.
  intros Ho Hn Hl <-. apply zslice_app_l; [done..|]. by rewrite response_header_length.
Qed.

Lemma response_at i : 0 <= i < 38 -> raw_at frame i = raw_at hdr i.
Proof using All.
  intros Hi. unfold raw_at. rewrite app_nth1; [done|].
  pose proof (response_header_length e ec status (12 + zlen data) Hok). unfold zlen in *. lia.
Qed.

Lemma response_fields :
  zslice 0 6 frame = req_mac ec /\ zslice 6 6 frame = own_mac e /\
  zslice 12 2 frame = be_bytes 2 ETHERTYPE_AVTP /\
  zslice 14 4 frame = [SUBTYPE_AECP; Z.lor (msg_type ec) 1;
    8 * (status mod 32) + (12 + zlen data) / 256; (12 + zlen data) mod 256] /\
  zslice 18 8 frame = be_bytes 8 (entity_id e) /\ zslice 26 8 frame = ctlr_eid ec /\
  zslice 34 2 frame = seq ec /\ zslice 36 2 frame = [ct_octet ec; raw_at (raw_ct ec) 1] /\
  zslice 38 (zlen data) frame = data.
Proof using All.
  pose proof Hok as [H1 H2 _ _ _ [H6 _] [H7 _] _].
  split_and!; try (apply response_slice; [done..|]; unfold response_header; by read_field).
  rewrite (zslice_skip _ _ 38) by (done || by apply response_header_length).
  by apply zslice_hit.
Qed.
End Response.

Lemma raw_at_zslice f o n i l : zslice o n f = l -> 0 <= o -> 0 <= i < n -> raw_at f (o + i) = raw_at l i.
Proof. intros. apply (raw_at_slice f o n); [done..|]. lia. Qed.

(** The eleven bits of a length read from the octets it is written in. *)
Lemma cdl_octets status cdl : 0 <= cdl < 2048 ->
  Z.lor (Z.shiftl (Z.land (8 * (status mod 32) + cdl / 256) 0x07) 8) (cdl mod 256) = cdl /\
  Z.shiftr (8 * (status mod 32) + cdl / 256) 3 = status mod 32.
Proof.
  intros H. masks. rewrite Z.shiftr_div_pow2 by done. change (2 ^ 3) with 8.
  pose proof (Z.mod_pos_bound status 32 ltac:(done)). generalize dependent (status mod 32). intros s Hs.
  rewrite join_bits by first [lia | by apply Z.mod_pos_bound]. change (2 ^ 8) with 256.
  split; Z.div_mod_to_equations; lia.
Qed.

(** How the decoder reads a response frame. *)
Lemma decode_response e ec status data rest : echo_ok e ec -> zlen data <= PLD_MAX ->
  let ct0 := ct_octet ec in let ct1 := raw_at (raw_ct ec) 1 in
  decode (response_header e ec status (12 + zlen data) ++ data ++ rest) =
  Ok (Response (req_mac ec) (own_mac e) ETHERTYPE_AVTP SUBTYPE_AECP 0 (Z.lor (msg_type ec) 1)
        (status mod 32) (12 + zlen data) (entity_id e) (of_be (ctlr_eid ec)) (of_be (seq ec))
        (Z.shiftr ct0 7) (Z.land (Z.shiftr ct0 6) 1) (Z.lor (Z.shiftl (Z.land ct0 0x3F) 8) ct1)
        data (38 + zlen data + zlen rest)).
Proof.
  intros Hok Hd ct0 ct1. change PLD_MAX with 580 in Hd. pose proof (zlen_nonneg data) as Hd0.
  destruct (response_fields e ec status data rest Hok Hd)
    as (F0 & F6 & F12 & F14 & F18 & F26 & F34 & F36 & F38).
  pose proof Hok as [_ _ Heid Hmt _ _ _ _].
  set (f := response_header e ec status (12 + zlen data) ++ data ++ rest) in *.
  assert (zlen f = 38 + zlen data + zlen rest) as Hl
    by (unfold f; rewrite !zlen_app, response_header_length by done; lia).
  pose proof (zlen_nonneg rest). destruct (cdl_octets status (12 + zlen data) ltac:(lia)) as [Ec Es].
  unfold decode. rewrite !octet_raw_at by lia. cbn [rbind].
  rewrite (raw_at_zslice f 14 4 0 _ F14 ltac:(lia) ltac:(lia) : raw_at f 14 = SUBTYPE_AECP).
  rewrite (raw_at_zslice f 14 4 1 _ F14 ltac:(lia) ltac:(lia) : raw_at f 15 = Z.lor (msg_type ec) 1).
  rewrite (raw_at_zslice f 14 4 2 _ F14 ltac:(lia) ltac:(lia)
    : raw_at f 16 = 8 * (status mod 32) + (12 + zlen data) / 256).
  rewrite (raw_at_zslice f 14 4 3 _ F14 ltac:(lia) ltac:(lia) : raw_at f 17 = (12 + zlen data) mod 256).
  rewrite (raw_at_zslice f 36 2 0 _ F36 ltac:(lia) ltac:(lia) : raw_at f 36 = ct0).
  rewrite (raw_at_zslice f 36 2 1 _ F36 ltac:(lia) ltac:(lia) : raw_at f 37 = ct1).
  rewrite Ec, Es. unfold rd_be. rewrite F0, F6, F12, F18, F26, F34.
  destruct (odd_type _ Hmt) as [Eo Ho]. rewrite Eo, Hl.
  assert (Z.shiftr (Z.lor (msg_type ec) 1) 4 = 0) as ->
    by (rewrite Z.shiftr_div_pow2 by done; apply Z.div_small; done).
  rewrite (of_be_be_bytes_id 8) by done. change (of_be (be_bytes 2 ETHERTYPE_AVTP)) with ETHERTYPE_AVTP.
  replace (Z.max (12 + zlen data - 12) 0) with (zlen data) by lia.
  change FRAME_HDR with 38. by rewrite F38.
Qed.

(** * The programs leave a whole buffer *)

Lemma set_slice_length a b v buf : 0 <= a <= b -> b <= zlen buf ->
  zlen (set_slice a b v buf) = zlen buf - (b - a) + zlen v.
Proof.
  intros Ha Hb. unfold set_slice. rewrite !zlen_app. unfold zlen in *.
  rewrite length_take, length_drop. lia.
Qed.

Lemma foldR_set_length f ks (b b' : bytes) :
  foldR (fun b k => set_octet b k (f k)) b ks = Ok b' -> zlen b' = zlen b.
Proof.
  revert b. induction ks as [|k ks IH]; intros b; cbn [foldR]; [by intros [= <-]|].
  intros H. rsplit H. apply IH in H. rewrite H. unfold set_octet in Hm.
  destruct (_ <=? _); [done|]. destruct (is_byteb _); [|done]. injection Hm as <-.
  unfold zlen. by rewrite length_insert.
Qed.

Lemma descriptor_bytes_length dtype index length d :
  descriptor_bytes dtype index length = Ok d -> 0 <= length /\ zlen d = Z.max 4 length.
Proof.
  unfold descriptor_bytes, to_bytes. intros H.
  destruct (Z.leb_spec 0 length) as [Hl|]; [|done]. cbn [rbind] in H. rsplit H. unpack.
  split; [done|]. apply foldR_set_length in H. rewrite H. unfold set_slice, zlen.
  repeat rewrite ?length_app, ?length_take, ?length_drop, ?be_bytes_length, ?zeros_length. lia.
Qed.

(** Writing at least as many octets as the slice is wide keeps the buffer whole. *)
Lemma set_slice_room a b v buf : 592 <= zlen buf -> 0 <= a <= b -> b <= 592 -> b - a <= zlen v ->
  592 <= zlen (set_slice a b v buf).
Proof. intros. rewrite set_slice_length by lia. lia. Qed.

Lemma stub_buffer buf cfg ty ix st s l buf' :
  stub buf cfg ty ix st = Ok (s, l, buf') -> 592 <= zlen buf -> 592 <= zlen buf'.
Proof.
  intros H Hb. unfold stub in H. rsplit H. unpack. apply pair_eq in H as [_ <-].
  repeat (apply set_slice_room; [|lia|lia|autorewrite with zlen; lia]). done.
Qed.

Lemma locate_bound img cfg ty ix n : locate img cfg ty ix = Some n -> n <= LINE_BYTES.
Proof.
  unfold locate. destruct (negb _); [done|]. destruct (entries img !! _) as [[c len]|]; [|done].
  destruct (_ <=? _); [done|]. destruct (Z.ltb_spec LINE_BYTES len); [done|]. by intros [= <-].
Qed.

Lemma run_buffer e op p buf cfg ty ix s l buf' :
  run e op p buf cfg ty ix = Ok (s, l, buf') -> 592 <= zlen buf -> 592 <= zlen buf'.
Proof.
  destruct p; cbn [run]; intros H Hb.
  - unfold read_descriptor in H. destruct (_ <=? _); [by eapply stub_buffer|].
    destruct (locate _ _ _ _) as [len|] eqn:El; [|by eapply stub_buffer]. rsplit H. unpack.
    apply locate_bound in El. change LINE_BYTES with 576 in El.
    match goal with H : descriptor_bytes _ _ _ = Ok _ |- _ => apply descriptor_bytes_length in H as [? ?] end.
    apply pair_eq in H as [_ <-].
    repeat (apply set_slice_room; [|lia|lia|autorewrite with zlen; lia]). done.
  - by injection H as <- <- <-.
  - destruct op as [op|]; [|done]. destruct (served e !! op) as [row|]; [|done].
    by destruct (_ || _); injection H as <- <- <-.
  - unfold mvu_program in H. rsplit H. unpack. apply pair_eq in H as [_ <-].
    change (zslice 2 4 MILAN_PROTOCOL_ID) with [0xC5; 0x0A; 0xC1; 0x00].
    apply set_slice_room; [done|autorewrite with zlen; lia..].
  - by injection H as <- <- <-.
Qed.

(** * Every answer *)

Lemma Forall_pdu frame : Forall is_byte frame -> Forall is_byte (cmd_pdu frame).
Proof. apply Forall_drop. Qed.

Lemma cmd_target_range frame : 38 <= zlen frame -> Forall is_byte frame -> 0 <= cmd_target frame < 2 ^ 64.
Proof.
  intros Hl%cmd_pdu_length Hb%Forall_pdu. unfold cmd_target, rd_be, of_be.
  pose proof (of_le_bound (rev (zslice 4 8 (cmd_pdu frame)))) as H.
  rewrite zlen_rev, zslice_length in H by lia. apply H. by apply Forall_rev, Forall_zslice.
Qed.

Lemma cmd_type_range frame : 0 <= cmd_type frame < 16.
Proof. unfold cmd_type. masks. by apply Z.mod_pos_bound. Qed.

Lemma cmd_pld_range frame : 0 <= cmd_pld frame <= PLD_MAX.
Proof.
  unfold cmd_pld. change PLD_MAX with 580. destruct (Z.ltb_spec 12 (cmd_cdl frame)); lia.
Qed.

Lemma cmd_payload_length frame : 38 <= zlen frame -> zlen (cmd_payload frame) = cmd_pld frame.
Proof.
  intros Hl%cmd_pdu_length. pose proof (cmd_pld_range frame). unfold cmd_payload.
  change AECP_HDR with 24. apply zslice_length; [lia..|]. unfold cmd_pld. change AECP_HDR with 24. lia.
Qed.

Lemma cmd_buffer_length frame : 38 <= zlen frame -> zlen (cmd_buffer frame) = 592.
Proof.
  intros Hl. pose proof (cmd_pld_range frame) as Hp. change PLD_MAX with 580 in Hp. unfold cmd_buffer.
  rewrite set_slice_length; rewrite ?cmd_payload_length by done; rewrite ?zlen_zeros;
    change (Z.of_nat (Z.to_nat RESP_BUF)) with 592; lia.
Qed.

Lemma cmd_refused_false frame e : cmd_refused frame e = false ->
  Z.land (cmd_type frame) 1 = 0 /\ cmd_target frame = entity_id e.
Proof. unfold cmd_refused. intros H. bool_prop. done. Qed.

Lemma cmd_echo_ok e frame : 38 <= zlen frame -> Forall is_byte frame -> zlen (own_mac e) = 6 ->
  cmd_refused frame e = false -> echo_ok e (cmd_echoed frame).
Proof.
  intros Hl Hb Ho [Hev Ht]%cmd_refused_false. pose proof (cmd_pdu_length _ Hl) as Hp.
  pose proof (Forall_pdu _ Hb) as Hpb.
  constructor; cbn [cmd_echoed req_mac msg_type ctlr_eid seq raw_ct].
  - apply zslice_length; lia.
  - done.
  - rewrite <-Ht. by apply cmd_target_range.
  - apply cmd_type_range.
  - done.
  - split; [apply zslice_length; lia|by apply Forall_zslice].
  - split; [apply zslice_length; lia|by apply Forall_zslice].
  - split; [apply zslice_length; lia|by apply Forall_zslice].
Qed.

Lemma answer_length_range frame e l : 0 <= answer_length frame e l <= PLD_MAX.
Proof.
  unfold answer_length. pose proof (cmd_pld_range frame). change PLD_MAX with 580 in *.
  destruct (snd _); lia.
Qed.

(** The data a program leaves for the response. *)
Definition answer_data (frame : bytes) (e : engine) (l : Z) (buf : bytes) : bytes :=
  zslice 12 (answer_length frame e l) buf.

Lemma answer_data_length frame e s l buf : 38 <= zlen frame ->
  cmd_run frame e = Ok (s, l, buf) -> zlen (answer_data frame e l buf) = answer_length frame e l.
Proof.
  intros Hl Hr. pose proof (answer_length_range frame e l) as H. change PLD_MAX with 580 in H.
  apply run_buffer in Hr; [|by rewrite cmd_buffer_length]. apply zslice_length; lia.
Qed.

Definition padding (n : Z) : bytes := zeros (Z.to_nat (ETH_MIN - (38 + n))).

(** The frame the handler returns for the result of a program. *)
Definition response_frame (frame : bytes) (e : engine) (s : Z) (data : bytes) : bytes :=
  response_header e (cmd_echoed frame) s (12 + zlen data) ++ data ++ padding (zlen data).

Lemma deliver_answer e st frame s l buf :
  38 <= zlen frame -> Forall is_byte frame -> zlen (own_mac e) = 6 ->
  cmd_refused frame e = false -> cmd_run frame e = Ok (s, l, buf) ->
  let f := response_frame frame e s (answer_data frame e l buf) in
  deliver e frame st =
    (oversize (TX_STD_BYTES <? zlen f) (responded (serving (cmd_opcode frame) (commanded st))), Ok (Some f)).
Proof.
  intros Hl Hb Ho Href Hr f. pose proof (cmd_echo_ok _ _ Hl Hb Ho Href) as Hok.
  rewrite deliver_eq, Href, Hr by done. cbv zeta.
  pose proof (answer_length_range frame e l) as Hn.
  rewrite frame_of_Ok by done. fold (answer_data frame e l buf).
  rewrite <-(answer_data_length _ _ _ _ _ Hl Hr) in *.
  assert (pad_to ETH_MIN (response_header e (cmd_echoed frame) s
            (12 + zlen (answer_data frame e l buf)) ++ answer_data frame e l buf) = f) as ->; [|done].
  unfold pad_to, f, response_frame, padding. rewrite zlen_app, response_header_length by done.
  by rewrite <-app_assoc.
Qed.

(** A response is a frame with this shape, for a program that ran. *)
Lemma deliver_response e st frame st' f : Forall is_byte frame -> zlen (own_mac e) = 6 ->
  deliver e frame st = (st', Ok (Some f)) ->
  38 <= zlen frame /\ cmd_refused frame e = false /\
  exists s l buf, cmd_run frame e = Ok (s, l, buf) /\
    f = response_frame frame e s (answer_data frame e l buf) /\
    zlen (answer_data frame e l buf) <= PLD_MAX.
Proof.
  intros Hb Ho H. destruct (Z.ltb_spec (zlen frame) 38) as [Hs|Hl].
  - rewrite deliver_short in H by done. done.
  - split; [done|]. destruct (cmd_refused frame e) eqn:Href.
    { rewrite deliver_eq, Href in H by done. done. }
    destruct (cmd_run frame e) as [[[s l] buf]|x] eqn:Hr.
    + split; [done|]. exists s, l, buf. rewrite (answer_data_length _ _ _ _ _ Hl Hr).
      rewrite (deliver_answer _ _ _ _ _ _ Hl Hb Ho Href Hr) in H. apply pair_eq in H as [_ H].
      injection H as <-. split_and!; [done..|]. apply answer_length_range.
    + rewrite deliver_eq, Href, Hr in H by done. done.
Qed.

Lemma response_frame_length frame e s data : echo_ok e (cmd_echoed frame) ->
  zlen (response_frame frame e s data) = Z.max 60 (38 + zlen data).
Proof.
  intros Hok. unfold response_frame, padding. rewrite !zlen_app, response_header_length, zlen_zeros by done.
  change ETH_MIN with 60. pose proof (zlen_nonneg data). lia.
Qed.

Lemma decode_command_eq frame : 38 <= zlen frame ->
  decode_command frame = Ok (Command (zslice 6 6 frame) (cmd_type frame) (cmd_cdl frame)
    (cmd_target frame) (of_be (zslice 12 8 (cmd_pdu frame))) (of_be (zslice 20 2 (cmd_pdu frame)))
    (cmd_opcode frame) (zslice AECP_HDR (Z.max (cmd_cdl frame - 12) 0) (cmd_pdu frame))).
Proof.
  intros Hl%cmd_pdu_length. unfold decode_command. change (Z.to_nat ETH_HDR) with 14%nat.
  fold (cmd_pdu frame). by rewrite !octet_raw_at by lia.
Qed.

(** The u bit of an answer to an AEM command is clear. *)
Lemma response_u_clear frame : Z.land (cmd_type frame) 1 = 0 ->
  (Z.lor (cmd_type frame) 1 =? MT_AEM_RESPONSE) && negb (Z.shiftr (ct_octet (cmd_echoed frame)) 7 =? 0)
  = false.
Proof.
  intros Hev. destruct (Z.eqb_spec (cmd_type frame) 0) as [E|E].
  - unfold ct_octet. cbn [cmd_echoed msg_type raw_ct]. rewrite E. cbn [Z.eqb MT_AEM_COMMAND].
    apply andb_false_intro2, negb_false_iff, Z.eqb_eq. masks.
    rewrite Z.shiftr_div_pow2 by done. apply Z.div_small. by apply Z.mod_pos_bound.
  - apply andb_false_intro1, Z.eqb_neq. intros H. apply E. pose proof (cmd_type_range frame).
    assert (In (cmd_type frame) (zrange 0 16)) as Hin by (apply zrange_In; lia).
    cbn in Hin. change MT_AEM_RESPONSE with 1 in H.
    repeat (destruct Hin as [Hi|Hin]; [rewrite <-Hi in H, Hev; try done; by rewrite <-Hi|]). done.
Qed.

(** C6: No response is malformed: whatever command provoked it, the checks of the
    suite find nothing to complain about. *)
Theorem never_malformed e st frame st' f :
  Forall is_byte frame -> zlen (own_mac e) = 6 -> deliver e frame st = (st', Ok (Some f)) ->
  complaints (Some f) frame (entity_id e) = Ok [].
Proof.
  intros Hb Ho H. destruct (deliver_response _ _ _ _ _ Hb Ho H) as (Hl & Href & s & l & buf & Hr & -> & Hn).
  pose proof (cmd_echo_ok _ _ Hl Hb Ho Href) as Hok.
  unfold complaints. rewrite (response_frame_length _ _ _ _ Hok).
  set (data := answer_data frame e l buf) in *. pose proof (zlen_nonneg data).
  unfold response_frame. rewrite (decode_response _ _ _ _ _ Hok Hn), (decode_command_eq _ Hl).
  cbn [rbind r_ethertype r_subtype r_sv_version r_message_type r_cdl r_target r_controller r_sequence
       r_u r_dst_mac c_src_mac c_message_type c_controller c_sequence cmd_echoed msg_type req_mac
       ctlr_eid seq].
  rewrite !Z.eqb_refl. cbn [negb app]. change ETH_MIN with 60. change FRAME_HDR with 38.
  rewrite !(proj2 (Z.ltb_ge _ _)) by lia. rewrite bool_decide_true by done. rewrite response_u_clear.
  - done.
  - by destruct (cmd_refused_false _ _ Href).
Qed.

Lemma raw_at_drop b k i : 0 <= i -> raw_at (drop k b) i = raw_at b (Z.of_nat k + i).
Proof. intros Hi. unfold raw_at. rewrite !nth_lookup, lookup_drop. do 2 f_equal. lia. Qed.

(** C40: No response storm: a frame one engine sends, given to any engine in any state,
    the sender included, is not answered; it is counted as dropped and nothing
    else changes.  The sender has a MAC of six octets and its command was octets. *)
Theorem no_storm e st frame st' f e' s' :
  Forall is_byte frame -> zlen (own_mac e) = 6 -> deliver e frame st = (st', Ok (Some f)) ->
  deliver e' f s' = (dropped s', Ok None).
Proof.
  intros Hb Ho H. destruct (deliver_response _ _ _ _ _ Hb Ho H) as (Hl & Href & s & l & buf & Hr & -> & Hn).
  pose proof (cmd_echo_ok _ _ Hl Hb Ho Href) as Hok.
  set (data := answer_data frame e l buf) in *. pose proof (zlen_nonneg data).
  rewrite deliver_eq by (rewrite (response_frame_length _ _ _ _ Hok); lia).
  assert (cmd_type (response_frame frame e s data) = Z.lor (cmd_type frame) 1) as Ht.
  { destruct (response_fields e (cmd_echoed frame) s data (padding (zlen data)) Hok Hn)
      as (_ & _ & _ & F14 & _).
    unfold cmd_type at 1, cmd_pdu. rewrite (raw_at_drop _ 14 1) by done. change (Z.of_nat 14 + 1) with 15.
    rewrite (raw_at_zslice _ 14 4 1 _ F14 ltac:(lia) ltac:(lia)
      : raw_at (response_frame frame e s data) 15 = Z.lor (cmd_type frame) 1).
    by apply odd_type, cmd_type_range. }
  unfold cmd_refused. rewrite Ht, Z.land_lor_distr_l.
  by destruct (cmd_refused_false _ _ Href) as [-> _].
Qed.

(** * The handler answers *)

(** An engine whose declarations the programs can serve: an address of six
    octets, descriptors of a length, and no vendor-unique command but the one
    there is a program for. *)
Record engine_ok (e : engine) : Prop := {
  eng_mac : zlen (own_mac e) = 6;
  eng_lengths : map_Forall (fun _ cl => 0 <= snd cl) (entries (img e));
  eng_mvu : forall t, is_Some (mvu_served e !! t) -> t = MVU_GET_MILAN_INFO
}.

Lemma be16_at_range buf off : Forall is_byte buf -> 0 <= be16_at buf off < 65536.
Proof.
  intros Hb. unfold be16_at.
  assert (forall i, is_byte (if i <? zlen buf then raw_at buf i else 0)) as H
    by (intros i; destruct (_ <? _); [by apply raw_at_byte|by split]).
  pose proof (H off) as [? ?]. pose proof (H (off + 1)) as [? ?].
  rewrite join_bits by (change (2 ^ 8) with 256; lia). change (2 ^ 8) with 256. lia.
Qed.

Lemma foldR_set_total f ks (b : bytes) : (forall k, is_byte (f k)) -> Forall (fun k => 0 <= k < zlen b) ks ->
  exists b', foldR (fun b k => set_octet b k (f k)) b ks = Ok b'.
Proof.
  intros Hf. revert b. induction ks as [|k ks IH]; intros b H; cbn [foldR]; [by eexists|].
  inversion H as [|? ? Hk Hks]; subst. unfold set_octet at 1.
  rewrite (proj2 (Z.leb_gt _ _)) by lia. destruct (Hf k) as [H1 H2]. unfold is_byteb.
  rewrite (proj2 (Z.leb_le _ _) H1), (proj2 (Z.ltb_lt _ _) H2). cbn [andb rbind]. apply IH.
  unfold zlen in *. by rewrite length_insert.
Qed.

Lemma descriptor_bytes_total dtype index length :
  0 <= dtype < 65536 -> 0 <= index < 65536 -> 0 <= length ->
  exists d, descriptor_bytes dtype index length = Ok d.
Proof.
  intros Ht Hi Hl. unfold descriptor_bytes, to_bytes. rewrite (proj2 (Z.leb_le _ _) Hl). cbn [rbind].
  rewrite !(pack_total 2) by done. cbn [rbind].
  apply (foldR_set_total (fun k => Z.land (dtype * 31 + index * 7 + k * 13) 0xFF)).
  - intros k. masks. by apply Z.mod_pos_bound.
  - apply List.Forall_forall. intros k Hk. apply zrange_In in Hk. unfold set_slice, zlen.
    repeat rewrite ?length_app, ?length_take, ?length_drop, ?be_bytes_length, ?zeros_length. lia.
Qed.

Lemma stub_total buf cfg ty ix st : 0 <= cfg < 65536 -> 0 <= ty < 65536 -> 0 <= ix < 65536 ->
  exists r, stub buf cfg ty ix st = Ok r.
Proof. intros. unfold stub. rewrite !(pack_total 2) by done. cbn [rbind]. eexists. reflexivity. Qed.

Lemma locate_In img cfg ty ix n : locate img cfg ty ix = Some n ->
  exists c, entries img !! (cfg, ty) = Some (c, n).
Proof.
  unfold locate. destruct (negb _); [done|]. destruct (entries img !! _) as [[c len]|]; [|done].
  destruct (_ <=? _); [done|]. destruct (_ <? _); [done|]. intros [= <-]. by exists c.
Qed.

Lemma cmd_payload_bytes frame : Forall is_byte frame -> Forall is_byte (cmd_payload frame).
Proof. intros H. by apply Forall_zslice, Forall_pdu. Qed.

Lemma cmd_run_total e frame : engine_ok e -> Forall is_byte frame -> exists r, cmd_run frame e = Ok r.
Proof.
  intros [_ Hlen Hmvu] Hb%cmd_payload_bytes.
  pose proof (be16_at_range _ 0 Hb). pose proof (be16_at_range _ 4 Hb). pose proof (be16_at_range _ 6 Hb).
  unfold cmd_run, cmd_dispatch, dispatch.
  destruct (_ && _ && _); cbn [fst run].
  { unfold read_descriptor. destruct (_ <=? _); [by apply stub_total|].
    destruct (locate _ _ _ _) as [n|] eqn:El; [|by apply stub_total].
    apply locate_In in El as [c El]. apply Hlen in El. cbn [snd] in El.
    rewrite pack_total by done. cbn [rbind].
    match goal with |- context [descriptor_bytes ?t ?i n] =>
      destruct (descriptor_bytes_total t i n ltac:(done) ltac:(done) El) as [d ->] end. by eexists. }
  destruct (_ && _); cbn [fst run]; [by eexists|].
  destruct (_ && bool_decide _) eqn:Es; cbn [fst run].
  { apply andb_true_iff in Es as [_ Es]. bool_prop. destruct Es as [row ->].
    destruct (_ || _); by eexists. }
  destruct (mvu_command_type _ _ _) as [t|] eqn:Et; [|by eexists].
  destruct (bool_decide (is_Some (mvu_served e !! t))) eqn:Em; cbn [fst run]; [|by eexists]. bool_prop. apply Hmvu in Em.
  unfold mvu_command_type in Et. destruct (_ || _); [done|]. destruct (negb _); [done|]. injection Et as <-.
  unfold mvu_program. rewrite Em. by eexists.
Qed.

(** Every frame that holds an AECP header is dealt with: a response or a command
    for another entity is freed and counted as dropped, any other command draws
    one frame of 60 to 618 octets, counted once as command and once as response,
    and flagged when it exceeds the standard transmit slot. *)
Theorem deliver_answers e frame st : engine_ok e -> Forall is_byte frame -> 38 <= zlen frame ->
  if cmd_refused frame e then deliver e frame st = (dropped st, Ok None)
  else exists f st', deliver e frame st = (st', Ok (Some f)) /\ 60 <= zlen f <= 618 /\
    cmd_count st' = cmd_count st + 1 /\ resp_count st' = resp_count st + 1 /\
    drop_count st' = drop_count st /\ last_oversize st' = (TX_STD_BYTES <? zlen f).
Proof.
  intros He Hb Hl. destruct (cmd_refused frame e) eqn:Href; [by rewrite deliver_eq, Href|].
  destruct (cmd_run_total e frame He Hb) as [[[s l] buf] Hr].
  pose proof (eng_mac e He) as Ho. pose proof (cmd_echo_ok _ _ Hl Hb Ho Href) as Hok.
  eexists _, _. split; [by eapply deliver_answer|].
  rewrite (response_frame_length _ _ _ _ Hok), (answer_data_length _ _ _ _ _ Hl Hr).
  pose proof (answer_length_range frame e l) as Hn. change PLD_MAX with 580 in Hn.
  split_and!; try done; lia.
Qed.

(** * Runs *)

(** The engine fed a sequence of frames, none of which raised. *)
Inductive steps (e : engine) : counters -> list bytes -> list (option bytes) -> counters -> Prop :=
  | steps_nil st : steps e st [] [] st
  | steps_cons st frame r st1 frames rs st2 :
      deliver e frame st = (st1, Ok r) -> steps e st1 frames rs st2 ->
      steps e st (frame :: frames) (r :: rs) st2.

Definition answered (rs : list (option bytes)) : Z := zlen (filter is_Some rs).
Definition freed (rs : list (option bytes)) : Z := zlen (filter (fun r => r = None) rs).

Lemma deliver_counts e frame st st' r : deliver e frame st = (st', Ok r) ->
  cmd_count st' = cmd_count st + answered [r] /\ resp_count st' = resp_count st + answered [r] /\
  drop_count st' = drop_count st + freed [r].
Proof.
  destruct (Z.ltb_spec (zlen frame) 38) as [Hs|Hl]; [by rewrite deliver_short|].
  rewrite deliver_eq by done. destruct (cmd_refused frame e).
  - intros [= <- <-]. change (answered [None]) with 0. change (freed [None]) with 1. cbn. lia.
  - cbv zeta. destruct (cmd_run frame e) as [[[s l] buf]|x]; [|done].
    destruct (frame_of _ _ _ _ _) as [f|x]; [|done]. intros [= <- <-].
    change (answered [Some f]) with 1. change (freed [Some f]) with 0. cbn. lia.
Qed.

(** C17: After any run from power-up, every frame is accounted for: as many responses
    as commands, one for each frame that was answered, and a drop for each frame
    that was freed. *)
Theorem counters_account e frames rs st : steps e reset frames rs st ->
  cmd_count st = answered rs /\ resp_count st = answered rs /\ drop_count st = freed rs /\
  answered rs + freed rs = zlen frames.
Proof.
  assert (forall st0, steps e st0 frames rs st ->
    cmd_count st = cmd_count st0 + answered rs /\ resp_count st = resp_count st0 + answered rs /\
    drop_count st = drop_count st0 + freed rs /\ answered rs + freed rs = zlen frames) as H.
  { induction 1 as [st0|st0 frame r st1 frames rs st2 Hd _ (I1 & I2 & I3 & I4)].
    - change (answered []) with 0. change (freed []) with 0. split_and!; first [lia | reflexivity].
    - apply deliver_counts in Hd as (D1 & D2 & D3).
      assert (answered (r :: rs) = answered [r] + answered rs /\ freed (r :: rs) = freed [r] + freed rs /\
              answered [r] + freed [r] = 1) as (A & F & S).
      { unfold answered, freed. change (r :: rs) with ([r] ++ rs). rewrite !filter_app, !zlen_app.
        destruct r; split_and!; reflexivity || done. }
      rewrite A, F, zlen_cons. lia. }
  intros Hs. destruct (H reset Hs) as (? & ? & ? & ?). cbn in *. lia.
Qed.

(** * The commands of the suite, as the engine sees them *)

(** A command frame: addresses, header, payload and padding. *)
Lemma build_command_Ok mt ct payload env f : build_command mt ct payload env = Ok f ->
  let real_cdl := default (12 + zlen payload) (env_cdl env) in
  0 <= target_eid env < 2 ^ 64 /\ 0 <= env_ctlr_eid env < 2 ^ 64 /\ 0 <= env_seq env < 2 ^ 16 /\
  0 <= ct < 2 ^ 16 /\
  exists rest, f = dst_mac env ++ src_mac env ++ be_bytes 2 ETHERTYPE_AVTP
    ++ [SUBTYPE_AECP; mt mod 16; real_cdl / 256 mod 8; real_cdl mod 256]
    ++ be_bytes 8 (target_eid env) ++ be_bytes 8 (env_ctlr_eid env) ++ be_bytes 2 (env_seq env)
    ++ be_bytes 2 ct ++ payload ++ zeros rest.
Proof.
  intros H real_cdl. unfold build_command in H. fold real_cdl in H.
  revert H. masks. rewrite Z.shiftr_div_pow2 by done. change (2 ^ 8) with 256.
  change (Z.shiftl (0 mod 32) 3) with 0. rewrite Z.lor_0_l.
  assert (forall a m, 0 < m <= 256 -> is_byte (a mod m)) as Hb
    by (intros a m Hm; unfold is_byte; pose proof (Z.mod_pos_bound a m ltac:(lia)); lia).
  do 4 (rewrite append_byte by (first [apply Hb; lia | by split]); cbn [rbind]).
  intros H. rsplit H. unpack. subst f. split_and!; try assumption; try lia.
  unfold pad_to. eexists. rewrite <-!app_assoc. cbn [app]. reflexivity.
Qed.

(** What the engine reads from such a frame, when the length is left to the
    builder and the payload fits the response buffer. *)
Record command_fields (mt ct : Z) (payload : bytes) (env : envelope) (f : bytes) : Prop := {
  cf_length : 38 <= zlen f;
  cf_mac : zslice 6 6 f = src_mac env;
  cf_type : cmd_type f = mt mod 16;
  cf_cdl : cmd_cdl f = 12 + zlen payload;
  cf_target : cmd_target f = target_eid env;
  cf_ctlr : zslice 12 8 (cmd_pdu f) = be_bytes 8 (env_ctlr_eid env);
  cf_seq : zslice 20 2 (cmd_pdu f) = be_bytes 2 (env_seq env);
  cf_ct : cmd_raw_ct f = be_bytes 2 ct;
  cf_opcode : cmd_opcode f = ct mod 2 ^ 14;
  cf_payload : cmd_payload f = payload;
  cf_pld : cmd_pld f = zlen payload
}.

Lemma build_command_fields mt ct payload env f :
  build_command mt ct payload env = Ok f -> env_cdl env = None -> zlen payload <= PLD_MAX ->
  zlen (dst_mac env) = 6 -> zlen (src_mac env) = 6 -> command_fields mt ct payload env f.
Proof.
  intros H Hc Hp Hd Hs. apply build_command_Ok in H as (Ht & Hct & Hsq & Hw & rest & E).
  rewrite Hc in E. cbn [default from_option] in E. unfold id in E. change PLD_MAX with 580 in Hp.
  pose proof (zlen_nonneg payload) as Hp0.
  set (cdl := 12 + zlen payload) in *.
  assert (cmd_pdu f = [SUBTYPE_AECP; mt mod 16; cdl / 256 mod 8; cdl mod 256]
    ++ be_bytes 8 (target_eid env) ++ be_bytes 8 (env_ctlr_eid env) ++ be_bytes 2 (env_seq env)
    ++ be_bytes 2 ct ++ payload ++ zeros rest) as Epdu.
  { unfold cmd_pdu. rewrite E.
    rewrite (app_assoc (dst_mac env)), (app_assoc (dst_mac env ++ src_mac env)).
    apply drop_app_length'. rewrite !length_app, be_bytes_length. unfold zlen in *. lia. }
  assert (zlen f = 38 + zlen payload + Z.of_nat rest) as Hl
    by (rewrite E; autorewrite with zlen; lia).
  assert (Z.lor (Z.shiftl (Z.land (cdl / 256 mod 8) 0x07) 8) (cdl mod 256) = cdl) as Ecdl.
  { masks. rewrite Z.mod_mod by done. rewrite join_bits by first [lia | by apply Z.mod_pos_bound].
    change (2 ^ 8) with 256. Z.div_mod_to_equations; lia. }
  assert (forall i, raw_at (cmd_pdu f) i = raw_at ([SUBTYPE_AECP; mt mod 16; cdl / 256 mod 8; cdl mod 256]
    ++ be_bytes 8 (target_eid env) ++ be_bytes 8 (env_ctlr_eid env) ++ be_bytes 2 (env_seq env)
    ++ be_bytes 2 ct ++ payload ++ zeros rest) i) as Eat by (intros i; by rewrite Epdu).
  assert (cmd_cdl f = cdl) as Hcdl by (unfold cmd_cdl; rewrite !Eat; exact Ecdl).
  assert (zslice 22 2 (cmd_pdu f) = be_bytes 2 ct) as Hraw by (rewrite Epdu; by read_field).
  assert (cmd_pld f = zlen payload) as Hpld.
  { unfold cmd_pld. rewrite Hcdl, Epdu. autorewrite with zlen. change AECP_HDR with 24. change PLD_MAX with 580.
    unfold cdl. destruct (Z.ltb_spec 12 (12 + zlen payload)); lia. }
  constructor; try done.
  - lia.
  - rewrite E. rewrite (zslice_skip _ _ 6) by done. by apply zslice_hit.
  - unfold cmd_type. rewrite Eat. change (raw_at (_ ++ _) 1) with (mt mod 16). masks. by apply Z.mod_mod.
  - unfold cmd_target, rd_be. rewrite Epdu. read_field. by apply of_be_be_bytes_id.
  - rewrite Epdu. by read_field.
  - rewrite Epdu. by read_field.
  - unfold cmd_opcode.
    rewrite (raw_at_zslice (cmd_pdu f) 22 2 0 _ Hraw ltac:(lia) ltac:(lia)
      : raw_at (cmd_pdu f) 22 = ct / 256 mod 256).
    rewrite (raw_at_zslice (cmd_pdu f) 22 2 1 _ Hraw ltac:(lia) ltac:(lia)
      : raw_at (cmd_pdu f) 23 = ct mod 256).
    masks. rewrite join_bits by first [lia | by apply Z.mod_pos_bound].
    change (2 ^ 8) with 256. change (2 ^ 14) with 16384. Z.div_mod_to_equations; lia.
  - unfold cmd_payload. rewrite Hpld, Epdu. change AECP_HDR with 24. by read_field.
Qed.

Lemma build_command_bytes mt ct payload env f : build_command mt ct payload env = Ok f ->
  Forall is_byte payload -> Forall is_byte (dst_mac env) -> Forall is_byte (src_mac env) ->
  Forall is_byte f.
Proof.
  intros H Hp Hd Hs. apply build_command_Ok in H as (_ & _ & _ & _ & rest & ->).
  assert (forall a m, 0 < m <= 256 -> is_byte (a mod m)) as Hb
    by (intros a m Hm; unfold is_byte; pose proof (Z.mod_pos_bound a m ltac:(lia)); lia).
  rewrite !Forall_app. split_and!; try done; try apply be_bytes_bytes.
  - do 4 (apply List.Forall_cons; [first [by apply Hb | by split]|]). apply List.Forall_nil.
  - unfold zeros. apply List.Forall_forall. intros x Hx%repeat_spec. subst. by split.
Qed.

(** An envelope a controller could use: addresses of six octets, the length left
    to the builder. *)
Record envelope_ok (env : envelope) : Prop := {
  env_len : env_cdl env = None;
  env_dst : zlen (dst_mac env) = 6 /\ Forall is_byte (dst_mac env);
  env_src : zlen (src_mac env) = 6 /\ Forall is_byte (src_mac env)
}.

(** The decoded answer to a command of the suite. *)
Record answers (mt : Z) (env : envelope) (status : Z) (data : bytes) (r : bytes) : Prop := {
  ans_resp : exists resp, decode r = Ok resp /\
    r_dst_mac resp = src_mac env /\ r_message_type resp = Z.lor mt 1 /\
    r_status resp = status mod 32 /\ r_cdl resp = 12 + zlen data /\
    r_controller resp = env_ctlr_eid env /\ r_sequence resp = env_seq env /\
    r_payload resp = data
}.

Lemma built_answer e st mt ct payload env f s l buf :
  build_command mt ct payload env = Ok f -> envelope_ok env -> Forall is_byte payload ->
  zlen payload <= PLD_MAX -> zlen (own_mac e) = 6 -> 0 <= mt < 16 -> Z.land mt 1 = 0 ->
  target_eid env = entity_id e -> cmd_run f e = Ok (s, l, buf) ->
  exists st' r, deliver e f st = (st', Ok (Some r)) /\ answers mt env s (answer_data f e l buf) r.
Proof.
  intros H [Hc [Hd Hdb] [Hs Hsb]] Hpb Hp Ho Hmt Hev Ht Hr.
  pose proof (build_command_bytes _ _ _ _ _ H Hpb Hdb Hsb) as Hb.
  destruct (build_command_fields _ _ _ _ _ H Hc Hp Hd Hs) as [Fl Fm Ft Fc Ftg Fe Fs Fw Fo Fp Fd].
  apply build_command_Ok in H as (_ & He & Hq & _). rewrite Z.mod_small in Ft by done.
  assert (cmd_refused f e = false) as Href
    by (unfold cmd_refused; by rewrite Ft, Hev, Ftg, Ht, !Z.eqb_refl).
  pose proof (cmd_echo_ok _ _ Fl Hb Ho Href) as Hok.
  eexists _, _. split; [by eapply deliver_answer|]. constructor.
  eexists. split.
  { apply (decode_response _ _ _ _ _ Hok). rewrite (answer_data_length _ _ _ _ _ Fl Hr).
    apply answer_length_range. }
  cbn [r_dst_mac r_message_type r_status r_cdl r_controller r_sequence r_payload cmd_echoed req_mac
       msg_type ctlr_eid seq].
  rewrite Fm, Ft, Fe, Fs, (of_be_be_bytes_id 8 _ He), (of_be_be_bytes_id 2 _ Hq). done.
Qed.

(** * Reading a descriptor *)

(** [struct.pack(">HHHH", cfg, 0, type, index)], also the failure descriptor. *)
Definition selector (cfg ty ix : Z) : bytes :=
  be_bytes 2 cfg ++ [0; 0] ++ be_bytes 2 ty ++ be_bytes 2 ix.

Lemma set_slice_at (pre post : bytes) a b (v : bytes) : zlen pre = a -> a <= b ->
  set_slice a b v (pre ++ post) = pre ++ v ++ drop (Z.to_nat (b - a)) post.
Proof.
  intros <- Hb. unfold set_slice, zlen in *. rewrite Nat2Z.id, take_app_length.
  do 2 f_equal. rewrite drop_app_ge by lia. f_equal. lia.
Qed.

(** The buffer, its twelve header octets first. *)
Lemma buffer_split (buf : bytes) : 592 <= zlen buf -> buf = take 12 buf ++ drop 12 buf /\ zlen (take 12 buf) = 12.
Proof. intros H. split; [by rewrite take_drop|]. unfold zlen in *. rewrite length_take. lia. Qed.

Lemma stub_result buf cfg ty ix st : 592 <= zlen buf ->
  0 <= cfg < 65536 -> 0 <= ty < 65536 -> 0 <= ix < 65536 ->
  exists buf', stub buf cfg ty ix st = Ok (st, 20, buf') /\ zslice 12 8 buf' = selector cfg ty ix.
Proof.
  intros Hb Hc Ht Hi. unfold stub. rewrite !(pack_total 2) by done. cbn [rbind].
  eexists. split; [reflexivity|].
  destruct (buffer_split buf Hb) as [E Hpre]. rewrite E. set (pre := take 12 buf) in *. clearbody pre.
  rewrite (set_slice_at pre) by done. rewrite app_assoc.
  rewrite (set_slice_at (pre ++ be_bytes 2 cfg)) by first [done | autorewrite with zlen; lia]. rewrite app_assoc.
  rewrite (set_slice_at ((pre ++ be_bytes 2 cfg) ++ [0; 0])) by first [done | autorewrite with zlen; lia].
  rewrite <-!app_assoc. rewrite (zslice_skip pre _ 12) by done.
  rewrite (app_assoc (be_bytes 2 ty)), (app_assoc [0; 0]), (app_assoc (be_bytes 2 cfg)).
  apply zslice_hit. by autorewrite with zlen.
Qed.

Lemma be16_at_field pre v rest off : zlen pre = off -> 0 <= v < 65536 ->
  be16_at (pre ++ be_bytes 2 v ++ rest) off = v.
Proof.
  intros Ho Hv. pose proof (zlen_nonneg pre). pose proof (zlen_nonneg rest).
  assert (zslice off 2 (pre ++ be_bytes 2 v ++ rest) = [v / 256; v mod 256]) as Hs.
  { rewrite (zslice_skip pre _ off) by (done || lia). rewrite Z.sub_diag, zslice_hit by apply zlen_be_bytes.
    unfold be_bytes. cbn [le_bytes rev app]. f_equal. apply Z.mod_small. Z.div_mod_to_equations; lia. }
  unfold be16_at. rewrite !(proj2 (Z.ltb_lt _ _)) by (autorewrite with zlen; lia).
  rewrite <-(Z.add_0_r off) at 1.
  rewrite (raw_at_zslice _ off 2 0 _ Hs), (raw_at_zslice _ off 2 1 _ Hs) by lia.
  change (raw_at [v / 256; v mod 256] 0) with (v / 256).
  change (raw_at [v / 256; v mod 256] 1) with (v mod 256).
  rewrite join_bits by first [lia | by apply Z.mod_pos_bound]. change (2 ^ 8) with 256.
  Z.div_mod_to_equations; lia.
Qed.

Lemma rdesc_result e buf cfg ty ix n d : 592 <= zlen buf ->
  0 <= cfg < 65536 -> cfg < configurations_count (img e) ->
  locate (img e) cfg ty ix = Some n -> descriptor_bytes ty ix n = Ok d ->
  exists buf', read_descriptor e buf cfg ty ix = Ok (ST_SUCCESS, 16 + n, buf') /\
    zslice 12 (4 + n) buf' = be_bytes 2 cfg ++ [0; 0] ++ take (Z.to_nat n) d.
Proof.
  intros Hb Hc Hcc Hl Hd. unfold read_descriptor. rewrite (proj2 (Z.leb_gt _ _) Hcc), Hl.
  rewrite pack_total by done. cbn [rbind]. rewrite Hd. cbn [rbind]. eexists. split; [reflexivity|].
  apply descriptor_bytes_length in Hd as [Hn Hdl].
  destruct (buffer_split buf Hb) as [E Hpre]. rewrite E. set (pre := take 12 buf) in *. clearbody pre.
  rewrite (set_slice_at pre) by done. rewrite app_assoc.
  rewrite (set_slice_at (pre ++ be_bytes 2 cfg)) by first [done | autorewrite with zlen; lia].
  rewrite app_assoc.
  rewrite (set_slice_at ((pre ++ be_bytes 2 cfg) ++ [0; 0])) by first [lia | autorewrite with zlen; lia].
  rewrite <-!app_assoc. rewrite (zslice_skip pre _ 12) by done.
  change (12 - 12) with 0. replace (4 + n) with (2 + (2 + n)) by lia.
  rewrite !(zslice_split _ _ 2) by lia.
  rewrite zslice_hit by apply zlen_be_bytes.
  rewrite (zslice_skip (be_bytes 2 cfg) _ 2) by (first [apply zlen_be_bytes | lia]).
  change (0 + 2 - 2) with 0. rewrite zslice_hit by done. do 2 f_equal.
  rewrite (zslice_skip (be_bytes 2 cfg) _ 2) by (first [apply zlen_be_bytes | lia]).
  rewrite (zslice_skip [0; 0] _ 2) by (first [done | lia]). cbn [Z.add Z.sub Z.opp Z.pos_sub].
  unfold zslice. cbn [Z.to_nat]. rewrite drop_0. apply take_app_le. unfold zlen in Hdl. lia.
Qed.

(** The dispatch of a whole READ_DESCRIPTOR. *)
Lemma rdesc_command e env cfg ty ix f :
  0 <= cfg < 65536 -> 0 <= ty < 65536 -> 0 <= ix < 65536 ->
  command_fields MT_AEM_COMMAND OP_READ_DESCRIPTOR (selector cfg ty ix) env f ->
  cmd_dispatch f e = (RDESC, false) /\ cmd_run f e = read_descriptor e (cmd_buffer f) cfg ty ix.
Proof.
  intros Hc Ht Hi [_ _ Ft Fc _ _ _ _ Fo Fp _].
  assert (cmd_dispatch f e = (RDESC, false)) as Hd.
  { unfold cmd_dispatch, dispatch. rewrite Ft, Fo, Fc. reflexivity. }
  split; [done|]. unfold cmd_run. rewrite Hd, Fp. cbn [fst run].
  assert (be16_at (selector cfg ty ix) 0 = cfg) as -> by (by apply (be16_at_field [])).
  assert (be16_at (selector cfg ty ix) 4 = ty) as ->.
  { unfold selector. rewrite (app_assoc (be_bytes 2 cfg)). by apply be16_at_field. }
  assert (be16_at (selector cfg ty ix) 6 = ix) as ->; [|done].
  unfold selector. rewrite (app_assoc (be_bytes 2 cfg)), (app_assoc (_ ++ [0; 0])).
  rewrite <-(app_nil_r (be_bytes 2 ix)). by apply be16_at_field.
Qed.

Lemma selector_bytes cfg ty ix : Forall is_byte (selector cfg ty ix).
Proof.
  unfold selector. rewrite !Forall_app. split_and!; try apply be_bytes_bytes.
  do 2 (apply List.Forall_cons; [by split|]). apply List.Forall_nil.
Qed.

(** The answer of a program that does not echo. *)
Lemma answer_data_of f e l buf data : snd (cmd_dispatch f e) = false -> 12 <= l <= 592 ->
  zslice 12 (l - 12) buf = data -> answer_data f e l buf = data.
Proof.
  intros Hd Hl <-. unfold answer_data, answer_length. rewrite Hd. change PLD_MAX with 580. f_equal. lia.
Qed.

(** C14: READ_DESCRIPTOR: a configuration the image does not have is BAD_ARGUMENTS
    before anything is located, a descriptor the store does not have is
    NO_SUCH_DESCRIPTOR, both with the selector echoed as the failure descriptor;
    otherwise the answer is the selector's configuration, the reserved word and
    the descriptor, whole. *)
Theorem read_descriptor_answer e st cfg ty ix env f :
  engine_ok e -> envelope_ok env -> target_eid env = entity_id e ->
  build_read_descriptor cfg ty ix env = Ok f ->
  exists st' r, deliver e f st = (st', Ok (Some r)) /\
    if configurations_count (img e) <=? cfg
    then answers MT_AEM_COMMAND env ST_BAD_ARGUMENTS (selector cfg ty ix) r
    else match locate (img e) cfg ty ix with
         | None => answers MT_AEM_COMMAND env ST_NO_SUCH_DESCRIPTOR (selector cfg ty ix) r
         | Some n => exists d, descriptor_bytes ty ix n = Ok d /\
             answers MT_AEM_COMMAND env ST_SUCCESS
               (be_bytes 2 cfg ++ [0; 0] ++ take (Z.to_nat n) d) r
         end.
Proof.
  intros [Ho Hlen _] Henv Ht H. unfold build_read_descriptor, pack_halfwords in H.
  cbn [mapR] in H. rsplit H. unpack. subst.
  change (256 ^ Z.of_nat 2) with 65536 in *. cbn [concat] in H. rewrite app_nil_r in H.
  change (be_bytes 2 0) with [0; 0] in H. fold (selector cfg ty ix) in H.
  assert (zlen (selector cfg ty ix) <= PLD_MAX) as Hp by (unfold selector; by autorewrite with zlen).
  destruct Henv as [Hc Hd Hs]. pose proof (build_command_fields _ _ _ _ _ H Hc Hp (proj1 Hd) (proj1 Hs)) as Hf.
  destruct (rdesc_command e env cfg ty ix f ltac:(assumption) ltac:(assumption) ltac:(assumption) Hf) as [Hdis Hrun].
  pose proof (cmd_buffer_length f (cf_length _ _ _ _ _ Hf)) as Hb.
  assert (forall s l buf data, read_descriptor e (cmd_buffer f) cfg ty ix = Ok (s, l, buf) ->
    12 <= l <= 592 -> zslice 12 (l - 12) buf = data ->
    exists st' r, deliver e f st = (st', Ok (Some r)) /\ answers MT_AEM_COMMAND env s data r) as Hans.
  { intros s l buf data Hr Hl Hz. rewrite <-Hrun in Hr.
    destruct (built_answer e st _ _ _ _ _ _ _ _ H (Build_envelope_ok _ Hc Hd Hs) (selector_bytes cfg ty ix)
      Hp Ho ltac:(done) ltac:(done) Ht Hr) as (st' & r & ? & Ha).
    exists st', r. split; [done|].
    by rewrite (answer_data_of f e l buf data) in Ha by (by rewrite ?Hdis). }
  destruct (Z.leb_spec (configurations_count (img e)) cfg) as [Hcc|Hcc].
  - destruct (stub_result (cmd_buffer f) cfg ty ix ST_BAD_ARGUMENTS) as (buf & E & Hz); [lia|done..|].
    apply (Hans _ 20 buf); [|lia|exact Hz]. unfold read_descriptor. by rewrite (proj2 (Z.leb_le _ _) Hcc).
  - destruct (locate (img e) cfg ty ix) as [n|] eqn:El.
    + pose proof (locate_bound _ _ _ _ _ El) as Hn. change LINE_BYTES with 576 in Hn.
      destruct (locate_In _ _ _ _ _ El) as [c Hin]. apply Hlen in Hin. cbn [snd] in Hin.
      destruct (descriptor_bytes_total ty ix n ltac:(assumption) ltac:(assumption) Hin) as [d Ed].
      destruct (rdesc_result e (cmd_buffer f) cfg ty ix n d) as (buf & E & Hz); [lia|done..|].
      destruct (Hans _ (16 + n) buf _ E ltac:(lia) eq_refl) as (st' & r & Hd' & Ha).
      exists st', r. split; [done|]. exists d. split; [done|].
      replace (16 + n - 12) with (4 + n) in Ha by lia. by rewrite Hz in Ha.
    + destruct (stub_result (cmd_buffer f) cfg ty ix ST_NO_SUCH_DESCRIPTOR) as (buf & E & Hz); [lia|done..|].
      apply (Hans _ 20 buf); [|lia|exact Hz]. unfold read_descriptor.
      by rewrite (proj2 (Z.leb_gt _ _) Hcc), El.
Qed.

(** * Every other AEM command *)

(** What the programs that do not write leave in the response: the payload of the
    command, then zeros. *)
Lemma cmd_buffer_data f payload n : cmd_payload f = payload -> zlen payload = cmd_pld f -> 0 <= n ->
  zslice 12 n (cmd_buffer f) = take (Z.to_nat n) (payload ++ zeros (Z.to_nat (PLD_MAX - zlen payload))).
Proof.
  intros Hp Hl Hn. pose proof (cmd_pld_range f) as Hr. change PLD_MAX with 580 in *. unfold cmd_buffer.
  rewrite Hp, <-Hl in *. change (Z.to_nat RESP_BUF) with (12 + 580)%nat. unfold zeros. rewrite repeat_app.
  rewrite (set_slice_at (repeat 0 12)) by (done || lia).
  replace (drop _ (repeat 0 580)) with (repeat 0 (Z.to_nat (580 - zlen payload))).
  2:{ replace 580%nat with (Z.to_nat (12 + zlen payload - 12) + Z.to_nat (580 - zlen payload))%nat by lia.
      rewrite repeat_app. symmetry. apply drop_app_length'. by rewrite repeat_length. }
  rewrite (zslice_skip (repeat 0 12) _ 12) by done. rewrite Z.sub_diag. unfold zslice.
  cbn [Z.to_nat]. by rewrite drop_0.
Qed.

(** The length a served row answers with, and its status: the two streaming
    commands are NOT_SUPPORTED unless the descriptor is a STREAM_INPUT. *)
Definition row_length (op : Z) (row : served_row) : Z :=
  if (op =? OP_START_STREAMING) || (op =? OP_STOP_STREAMING) then 16 else default 12 (cdl row).

Definition row_status (op : Z) (row : served_row) (payload : bytes) : Z :=
  if (op =? OP_START_STREAMING) || (op =? OP_STOP_STREAMING)
  then if be16_at payload 0 =? DT_STREAM_INPUT then ST_SUCCESS else ST_NOT_SUPPORTED
  else verdict row.

Definition row_data (op : Z) (row : served_row) (payload : bytes) : bytes :=
  take (Z.to_nat (Z.min (Z.max (row_length op row - 12) 0) PLD_MAX))
    (payload ++ zeros (Z.to_nat (PLD_MAX - zlen payload))).

(** C39: The inventory is what the engine does with an AEM command built for its own
    entity, of any 14-bit opcode and any payload that fits, a READ_DESCRIPTOR with
    its whole selector apart.  A READ_DESCRIPTOR too short for its selector and
    IDENTIFY_NOTIFICATION, which no controller may send, are BAD_ARGUMENTS with the
    command echoed; an opcode of the inventory answers with its row's length and
    verdict, and for the two streaming commands with success on a STREAM_INPUT and
    NOT_SUPPORTED on anything else; any other opcode is NOT_IMPLEMENTED with the
    command echoed. *)
Theorem aem_answer e st op payload env f :
  engine_ok e -> envelope_ok env -> target_eid env = entity_id e ->
  0 <= op < 2 ^ 14 -> Forall is_byte payload -> zlen payload <= PLD_MAX ->
  (op = OP_READ_DESCRIPTOR -> zlen payload < 8) ->
  build_aem_command op (Some payload) env = Ok f ->
  exists st' r, deliver e f st = (st', Ok (Some r)) /\ opcode_served st' = Some op /\
    if (op =? OP_READ_DESCRIPTOR) || (op =? OP_IDENTIFY_NOTIFICATION)
    then answers MT_AEM_COMMAND env ST_BAD_ARGUMENTS payload r
    else match served e !! op with
         | Some row =>
             answers MT_AEM_COMMAND env (row_status op row payload) (row_data op row payload) r
         | None => answers MT_AEM_COMMAND env ST_NOT_IMPLEMENTED payload r
         end.
Proof.
  intros [Ho _ _] Henv Ht Hop Hpb Hp Hshort H. cbn [build_aem_command rbind] in H.
  destruct Henv as [Hc Hd Hs].
  pose proof (build_command_fields _ _ _ _ _ H Hc Hp (proj1 Hd) (proj1 Hs)) as [Fl _ Ft Fc Ftg _ _ _ Fo Fp Fn].
  rewrite Z.mod_small in Fo by done. pose proof (zlen_nonneg payload) as Hp0.
  assert (forall echo s l buf data, cmd_dispatch f e = (fst (cmd_dispatch f e), echo) ->
    cmd_run f e = Ok (s, l, buf) ->
    zslice 12 (if echo : bool then zlen payload else Z.min (Z.max (l - 12) 0) PLD_MAX) buf = data ->
    exists st' r, deliver e f st = (st', Ok (Some r)) /\ opcode_served st' = Some op /\
      answers MT_AEM_COMMAND env s data r) as Hans.
  { intros echo s l buf data Hdis Hr <-.
    destruct (built_answer e st _ _ _ _ _ _ _ _ H (Build_envelope_ok _ Hc Hd Hs) Hpb Hp Ho
      ltac:(done) ltac:(done) Ht Hr) as (st' & r & E & Ha).
    exists st', r. split; [done|]. unfold answer_data, answer_length in Ha. rewrite Hdis in Ha.
    cbn [snd] in Ha. rewrite Fn in Ha. split; [|done].
    rewrite (deliver_answer e st f s l buf Fl) in E; [|..].
    - apply pair_eq in E as [<- _]. cbn. by rewrite Fo.
    - by apply (build_command_bytes _ _ _ _ _ H Hpb); [apply Hd|apply Hs].
    - done.
    - unfold cmd_refused. rewrite Ft, Ftg, Ht, (Z.eqb_refl (entity_id e)). done.
    - done. }
  assert (forall s, cmd_run f e = Ok (s, 12, cmd_buffer f) -> snd (cmd_dispatch f e) = true ->
    exists st' r, deliver e f st = (st', Ok (Some r)) /\ opcode_served st' = Some op /\
      answers MT_AEM_COMMAND env s payload r) as Hecho.
  { intros s Hr Hsnd. apply (Hans true s 12 (cmd_buffer f)); [by rewrite <-Hsnd, <-surjective_pairing|done|].
    rewrite (cmd_buffer_data f payload) by done. unfold zlen. rewrite Nat2Z.id. apply take_app_length. }
  unfold cmd_run, cmd_dispatch, dispatch in Hecho, Hans. rewrite Ft, Fo, Fc, Fp in *.
  change (MT_AEM_COMMAND mod 16 =? MT_AEM_COMMAND) with true in *. cbn [andb] in *.
  destruct (Z.eqb_spec op OP_READ_DESCRIPTOR) as [Hrd|Hrd].
  { cbn [orb]. rewrite (proj2 (Z.ltb_lt _ _) : _ -> (12 + zlen payload <? 20) = true) in Hecho
      by (specialize (Hshort Hrd); lia).
    cbn [negb andb] in Hecho. rewrite orb_true_r in Hecho. by apply Hecho. }
  cbn [andb orb] in *. rewrite orb_false_r in *.
  destruct (Z.eqb_spec op OP_IDENTIFY_NOTIFICATION) as [Hid|Hid]; [by apply Hecho|].
  destruct (served e !! op) as [row|] eqn:Hrow.
  - rewrite bool_decide_true in * by (by eexists). cbn [fst snd run] in *. rewrite Hrow in *.
    destruct (Hans false (row_status op row payload) (row_length op row) (cmd_buffer f)
      (row_data op row payload)) as (st' & r & ?); [done|..|by exists st', r].
    + unfold row_status, row_length. by destruct (_ || _).
    + unfold row_data. apply cmd_buffer_data; [done|done|]. change PLD_MAX with 580. lia.
  - rewrite bool_decide_false in * by (by intros [? ?]). cbn [fst snd run] in *.
    assert (forall t, mvu_command_type (MT_AEM_COMMAND mod 16) t payload = None) as Hm by done.
    rewrite Hm in Hecho. by apply Hecho.
Qed.

(** * Vendor-unique commands *)

(** The payload of an MVU command frame, after the first two octets of its
    protocol identifier. *)
Definition mvu_payload (protocol_id : bytes) (t reserved : Z) (from_32 : bytes) : bytes :=
  zslice 2 4 protocol_id ++ be_bytes 2 t ++ be_bytes 2 reserved ++ from_32.

(** GET_MILAN_INFO's answer, from the rest of the protocol identifier on. *)
Definition milan_info : bytes :=
  zslice 2 4 MILAN_PROTOCOL_ID ++ be_bytes 2 MVU_GET_MILAN_INFO ++ be_bytes 2 0
  ++ be_bytes 4 MILAN_PROTOCOL_VERSION ++ be_bytes 4 MILAN_FEATURES_FLAGS
  ++ be_bytes 4 MILAN_CERTIFICATION_VERSION.

Lemma six_octets (id : bytes) : zlen id = 6 ->
  exists a b c d x y, id = [a; b; c; d; x; y].
Proof.
  unfold zlen. intros H. do 6 (destruct id as [|? id]; [cbn in H; lia|]).
  destruct id; [by eexists _, _, _, _, _, _|cbn in H; lia].
Qed.

Lemma mvu_type_of id t reserved from_32 : zlen id = 6 -> 0 <= t < 65536 ->
  mvu_command_type MT_VU_COMMAND (zslice 0 2 id) (mvu_payload id t reserved from_32) =
  if decide (id = MILAN_PROTOCOL_ID) then Some t else None.
Proof.
  intros Hid Ht. unfold mvu_command_type.
  assert (zlen (mvu_payload id t reserved from_32) = 8 + zlen from_32) as Hl.
  { unfold mvu_payload. autorewrite with zlen. rewrite zslice_length by lia. lia. }
  rewrite Hl, (proj2 (Z.ltb_ge _ _)) by (pose proof (zlen_nonneg from_32); change MVU_CMD_PLD with 8; lia).
  change (MT_VU_COMMAND =? MT_VU_COMMAND) with true. cbn [negb orb].
  assert (zslice 0 2 id ++ take 4 (mvu_payload id t reserved from_32) = id) as ->.
  { unfold mvu_payload. destruct (six_octets id Hid) as (a & b & c & d & x & y & ->). reflexivity. }
  destruct (decide (id = MILAN_PROTOCOL_ID)) as [E|E]; [rewrite bool_decide_true by done|by rewrite bool_decide_false].
  cbn [negb]. f_equal. apply be16_at_field; [|done]. apply zslice_length; lia.
Qed.

Lemma build_mvu_command_eq t id reserved from_32 env f : zlen id = 6 -> Forall is_byte id ->
  build_mvu_command t id reserved from_32 env = Ok f ->
  0 <= t < 65536 /\ exists w, 0 <= w < 65536 /\ be_bytes 2 w = zslice 0 2 id /\
    build_command MT_VU_COMMAND w (mvu_payload id t reserved from_32) env = Ok f.
Proof.
  intros Hid Hb H. destruct (six_octets id Hid) as (a & b & c & d & x & y & ->).
  unfold build_mvu_command in H. cbn [octet] in H. rsplit H. unpack. subst.
  inversion Hb as [|? ? [Ha Ha'] Hb']; subst. inversion Hb' as [|? ? [Hb1 Hb2] _]; subst. split; [done|].
  exists (a * 256 + b). split; [lia|]. split.
  - change (zslice 0 2 [a; b; c; d; x; y]) with [a; b].
    change (be_bytes 2 (a * 256 + b)) with [(a * 256 + b) / 256 mod 256; (a * 256 + b) mod 256].
    f_equal; [|f_equal]; Z.div_mod_to_equations; lia.
  - unfold octet in Hm, Hm0. cbn in Hm, Hm0. injection Hm as <-. injection Hm0 as <-.
    rewrite join_bits in H by (change (2 ^ 8) with 256; lia). change (2 ^ 8) with 256 in H. exact H.
Qed.

(** An MVU command: the Milan identifier and a command the engine serves answer
    GET_MILAN_INFO's figure; anything else is NOT_IMPLEMENTED, echoed octet for
    octet. *)
Theorem mvu_answer e st t id reserved from_32 env f :
  engine_ok e -> envelope_ok env -> target_eid env = entity_id e ->
  zlen id = 6 -> Forall is_byte id -> Forall is_byte from_32 -> zlen from_32 <= PLD_MAX - 8 ->
  build_mvu_command t id reserved from_32 env = Ok f ->
  exists st' r, deliver e f st = (st', Ok (Some r)) /\
    if decide (id = MILAN_PROTOCOL_ID /\ is_Some (mvu_served e !! t))
    then answers MT_VU_COMMAND env ST_SUCCESS milan_info r
    else answers MT_VU_COMMAND env ST_NOT_IMPLEMENTED (mvu_payload id t reserved from_32) r.
Proof.
  intros [Ho _ Hmvu] Henv Htg Hid Hib Hfb Hfl H.
  apply build_mvu_command_eq in H as (Ht & w & Hw & Ew & H); [|done..].
  set (payload := mvu_payload id t reserved from_32) in *.
  assert (zlen payload = 8 + zlen from_32) as Hl.
  { unfold payload, mvu_payload. autorewrite with zlen. rewrite zslice_length by lia. lia. }
  assert (Forall is_byte payload) as Hpb.
  { unfold payload, mvu_payload. rewrite !Forall_app. split_and!; try apply be_bytes_bytes; [|done].
    by apply Forall_zslice. }
  destruct Henv as [Hc Hd Hs]. change PLD_MAX with 580 in Hfl.
  assert (zlen payload <= PLD_MAX) as Hp by (change PLD_MAX with 580; lia).
  pose proof (build_command_fields _ _ _ _ _ H Hc Hp (proj1 Hd) (proj1 Hs)) as [Fl _ Ft _ _ _ _ Fr Fo Fp Fn].
  rewrite Ew in Fr.
  assert (cmd_dispatch f e = if decide (id = MILAN_PROTOCOL_ID /\ is_Some (mvu_served e !! t))
    then (MVU, false) else (NOTIMPL, true)) as Hdis.
  { unfold cmd_dispatch, dispatch. rewrite Ft, Fp, Fr.
    change (MT_VU_COMMAND mod 16) with MT_VU_COMMAND. cbn [Z.eqb MT_VU_COMMAND MT_AEM_COMMAND andb].
    change 6 with MT_VU_COMMAND. unfold payload. rewrite mvu_type_of by done.
    destruct (decide (id = _)) as [E|E]; destruct (decide (_ /\ _)) as [[? ?]|Hn]; try done.
    - by rewrite bool_decide_true.
    - rewrite bool_decide_false; [done|]. intros Hsv. by apply Hn. }
  assert (forall s l buf data, cmd_run f e = Ok (s, l, buf) ->
    zslice 12 (if snd (cmd_dispatch f e) then zlen payload else Z.min (Z.max (l - 12) 0) PLD_MAX) buf = data ->
    exists st' r, deliver e f st = (st', Ok (Some r)) /\ answers MT_VU_COMMAND env s data r) as Hans.
  { intros s l buf data Hr <-.
    destruct (built_answer e st _ _ _ _ _ _ _ _ H (Build_envelope_ok _ Hc Hd Hs) Hpb Hp Ho
      ltac:(done) ltac:(done) Htg Hr) as (st' & r & E & Ha).
    exists st', r. split; [done|]. unfold answer_data, answer_length in Ha. by rewrite Fn in Ha. }
  unfold cmd_run in Hans. rewrite Hdis in Hans. destruct (decide (_ /\ _)) as [[E Hsv]|Hn]; cbn [fst snd run] in Hans.
  - assert (be16_at (cmd_payload f) 4 = t) as Et.
    { rewrite Fp. unfold payload, mvu_payload. apply be16_at_field; [apply zslice_length; lia|done]. }
    rewrite Et, (Hmvu t Hsv) in Hans.
    apply (Hans ST_SUCCESS 32 (set_slice 12 32 milan_info (cmd_buffer f))); [reflexivity|].
    destruct (buffer_split (cmd_buffer f)) as [Eb Hpre]; [by rewrite cmd_buffer_length|].
    rewrite Eb, (set_slice_at (take 12 (cmd_buffer f))) by done.
    rewrite (zslice_skip _ _ 12) by done. by apply zslice_hit.
  - apply (Hans ST_NOT_IMPLEMENTED 12 (cmd_buffer f)); [done|].
    rewrite (cmd_buffer_data f payload); [|done|done|apply zlen_nonneg].
    unfold zlen. rewrite Nat2Z.id. apply take_app_length.
Qed.

(** * The octets of a descriptor *)

Lemma foldR_set_range f n k0 (pre : bytes) : zlen pre = k0 -> 0 <= k0 -> (forall k, is_byte (f k)) ->
  foldR (fun b k => set_octet b k (f k)) (pre ++ zeros n) (zrange k0 n) =
  Ok (pre ++ map f (zrange k0 n)).
Proof.
  intros Hk H0 Hf. revert k0 pre Hk H0. induction n as [|n IH]; intros k0 pre Hk H0; [done|].
  cbn [zrange foldR map]. unfold set_octet at 1.
  assert (zlen (pre ++ zeros (S n)) = k0 + Z.of_nat (S n)) as Hl by (autorewrite with zlen; lia).
  rewrite Hl, (proj2 (Z.leb_gt _ _)) by lia. destruct (Hf k0) as [H1 H2]. unfold is_byteb.
  rewrite (proj2 (Z.leb_le _ _) H1), (proj2 (Z.ltb_lt _ _) H2). cbn [andb rbind].
  assert (<[Z.to_nat k0:=f k0]> (pre ++ zeros (S n)) = (pre ++ [f k0]) ++ zeros n) as ->.
  { rewrite <-app_assoc. unfold zlen in Hk. replace (Z.to_nat k0) with (length pre + 0)%nat by lia.
    by rewrite insert_app_r. }
  rewrite IH; [by rewrite <-app_assoc|autorewrite with zlen; lia|lia].
Qed.

(** A stored descriptor opens with its type and index, and every further octet
    is a function of them and of its place. *)
Lemma descriptor_bytes_eq dtype index length :
  0 <= dtype < 65536 -> 0 <= index < 65536 -> 4 <= length ->
  descriptor_bytes dtype index length =
  Ok (be_bytes 2 dtype ++ be_bytes 2 index
      ++ map (fun k => (dtype * 31 + index * 7 + k * 13) mod 256) (zrange 4 (Z.to_nat (length - 4)))).
Proof.
  intros Ht Hi Hl. unfold descriptor_bytes, to_bytes. rewrite (proj2 (Z.leb_le _ _)) by lia. cbn [rbind].
  rewrite !pack_total by done. cbn [rbind].
  replace (Z.to_nat length) with (4 + Z.to_nat (length - 4))%nat by lia. unfold zeros. rewrite repeat_app.
  set (rest := repeat 0 (Z.to_nat (length - 4))).
  change (set_slice 0 2 (be_bytes 2 dtype) (repeat 0 4 ++ rest)) with (be_bytes 2 dtype ++ [0; 0] ++ rest).
  rewrite (set_slice_at (be_bytes 2 dtype) _ 2 4) by done.
  change (drop (Z.to_nat (4 - 2)) ([0; 0] ++ rest)) with (zeros (Z.to_nat (length - 4))).
  rewrite (app_assoc (be_bytes 2 dtype)).
  pose proof (foldR_set_range (fun k => Z.land (dtype * 31 + index * 7 + k * 13) 0xFF)
    (Z.to_nat (length - 4)) 4 (be_bytes 2 dtype ++ be_bytes 2 index) eq_refl ltac:(done)) as H.
  rewrite H by (intros k; masks; by apply Z.mod_pos_bound).
  rewrite <-app_assoc. do 3 f_equal. apply map_ext. intros k. by masks.
Qed.

(** A READ_DESCRIPTOR that claims its selector but does not carry it reads the
    descriptor of zeros, the ENTITY: the length test looks at the claim. *)
Example short_is_the_claim :
  match build_read_descriptor 0xFFFF 0xFFFF 0xFFFF FrameEnvelope with
  | Ok f => match deliver default_engine (take 38 f) reset with
            | (_, Ok (Some r)) =>
                match decode r with Ok a => (r_status a =? ST_SUCCESS) && (r_cdl a =? 16 + 312) | _ => false end
            | _ => false
            end
  | _ => false
  end = true.
Proof. vm_compute. reflexivity. Qed.

(** * The suite's engine and commands *)

Lemma default_engine_ok : engine_ok default_engine.
Proof.
  split.
  - done.
  - intros k [c n] H. cbn [img default_engine descriptor_image entries default from_option] in H.
    unfold MILAN_8 in H. apply elem_of_list_to_map_2, list_elem_of_In in H. cbn [In] in H.
    destruct H as [[= <- <- <-]|[[= <- <- <-]|[[= <- <- <-]|[[= <- <- <-]|[[= <- <- <-]|[[= <- <- <-]
      |[[= <- <- <-]|[[= <- <- <-]|[]]]]]]]]]; done.
  - intros t [v H]. cbn [mvu_served default_engine] in H.
    apply elem_of_list_to_map_2, list_elem_of_In in H. cbn [In] in H. by destruct H as [[= <- <-]|[]].
Qed.

Lemma FrameEnvelope_ok : envelope_ok FrameEnvelope.
Proof.
  split; [done|split; [done|]..]; apply List.Forall_forall; intros x Hx;
    cbn [In FrameEnvelope dst_mac src_mac OWN_MAC CONTROLLER_MAC] in Hx; unfold is_byte; lia.
Qed.

Definition built (r : result py_error bytes) : bytes := match r with Ok f => f | Err _ => [] end.
Definition sample_command : bytes := built (build_read_descriptor 0 0 0 FrameEnvelope).
Definition sample_identify : bytes :=
  built (build_aem_command OP_IDENTIFY_NOTIFICATION None FrameEnvelope).
Definition response_of (e : engine) (frame : bytes) (st : counters) : bytes :=
  match snd (deliver e frame st) with Ok (Some f) => f | _ => [] end.

Lemma never_malformed_witness :
  complaints (Some (response_of default_engine sample_command reset)) sample_command ENTITY_ID = Ok [].
Proof.
  apply (never_malformed default_engine reset sample_command
    (fst (deliver default_engine sample_command reset))).
  - apply Forall_is_byteb. by vm_compute.
  - done.
  - vm_compute. reflexivity.
Defined.

Lemma no_storm_witness :
  deliver default_engine (response_of default_engine sample_command reset) reset = (dropped reset, Ok None).
Proof.
  apply (no_storm default_engine reset sample_command (fst (deliver default_engine sample_command reset))).
  - apply Forall_is_byteb. by vm_compute.
  - done.
  - vm_compute. reflexivity.
Defined.

Lemma deliver_answers_witness :
  exists f st', deliver default_engine sample_command reset = (st', Ok (Some f)) /\ 60 <= zlen f <= 618 /\
    cmd_count st' = 1 /\ resp_count st' = 1 /\ drop_count st' = 0 /\
    last_oversize st' = (TX_STD_BYTES <? zlen f).
Proof.
  apply (deliver_answers default_engine sample_command reset default_engine_ok).
  - apply Forall_is_byteb. by vm_compute.
  - by vm_compute.
Defined.

(** A run of a command, its own response handed back, and the command again. *)
Definition sample_run : list bytes :=
  [sample_command; response_of default_engine sample_command reset; sample_command].

Lemma counters_account_witness : exists rs st, steps default_engine reset sample_run rs st /\
  cmd_count st = 2 /\ drop_count st = 1.
Proof.
  eexists _, _.
  assert (steps default_engine reset sample_run _ _) as H
    by (repeat (eapply steps_cons; [vm_compute; reflexivity|]); apply steps_nil).
  split; [exact H|]. destruct (counters_account _ _ _ _ H) as (-> & _ & -> & _). by vm_compute.
Defined.

Lemma read_descriptor_answer_witness : exists st' r,
  deliver default_engine sample_command reset = (st', Ok (Some r)) /\
  exists d, descriptor_bytes 0 0 312 = Ok d /\
    answers MT_AEM_COMMAND FrameEnvelope ST_SUCCESS (be_bytes 2 0 ++ [0; 0] ++ take (Z.to_nat 312) d) r.
Proof.
  apply (read_descriptor_answer default_engine reset 0 0 0 FrameEnvelope sample_command
    default_engine_ok FrameEnvelope_ok).
  - done.
  - vm_compute. reflexivity.
Defined.

Lemma aem_answer_witness : exists st' r,
  deliver default_engine sample_identify reset = (st', Ok (Some r)) /\
  opcode_served st' = Some OP_IDENTIFY_NOTIFICATION /\
  answers MT_AEM_COMMAND FrameEnvelope ST_BAD_ARGUMENTS [0; 0; 0; 0; 0; 0; 0; 0] r.
Proof.
  apply (aem_answer default_engine reset OP_IDENTIFY_NOTIFICATION [0; 0; 0; 0; 0; 0; 0; 0] FrameEnvelope
    sample_identify default_engine_ok FrameEnvelope_ok).
  - done.
  - done.
  - apply Forall_is_byteb. by vm_compute.
  - by vm_compute.
  - done.
  - vm_compute. reflexivity.
Defined.

Lemma mvu_answer_witness : exists st' r,
  deliver default_engine (built (build_mvu_command 0 MILAN_PROTOCOL_ID 0 [] FrameEnvelope)) reset
    = (st', Ok (Some r)) /\
  answers MT_VU_COMMAND FrameEnvelope ST_SUCCESS milan_info r.
Proof.
  apply (mvu_answer default_engine reset 0 MILAN_PROTOCOL_ID 0 [] FrameEnvelope
    (built (build_mvu_command 0 MILAN_PROTOCOL_ID 0 [] FrameEnvelope)) default_engine_ok FrameEnvelope_ok).
  - done.
  - done.
  - apply Forall_is_byteb. by vm_compute.
  - constructor.
  - by vm_compute.
  - vm_compute. reflexivity.
Defined.
