(* ===== verification/AecpAgree.v ===== *)
(** The two halves of the command tests agree: the field campaign's AECP codecs
    ([tb/verilator/tsn_fuzz/wire.py]) and the offline engine's own
    ([tests/steps/aecp_engine_model.py]) were written apart, build the same
    frames from the same fields and read the same fields from the same frames. *)
From S2P Require Import Prelude Text Packing TsnWire AecpEngine AecpResponses.

(** * Building *)

(** The envelope of the engine tests as keywords of the campaign's builder. *)
Definition campaign_fields (mt : Z) (env : envelope) : kwargs :=
  kw [("msg_type", VInt mt); ("target", VInt (target_eid env)); ("controller", VInt (env_ctlr_eid env));
      ("seq", VInt (env_seq env)); ("dst", VBytes (dst_mac env)); ("src", VBytes (src_mac env));
      ("cdl", match env_cdl env with Some c => VInt c | None => VNone end);
      ("pad60", VBool true)]%string.

Lemma campaign_kinded mt env : 0 <= target_eid env < 2 ^ 64 -> 0 <= env_ctlr_eid env < 2 ^ 64 ->
  kinded AECP_CMD_KINDS (campaign_fields mt env).
Proof.
  intros Ht Hc n v Hv. unfold campaign_fields, kw in Hv. apply elem_of_list_to_map_2 in Hv.
  apply list_elem_of_In in Hv. cbn [In] in Hv.
  destruct Hv as [[= <- <-]|[[= <- <-]|[[= <- <-]|[[= <- <-]|[[= <- <-]|[[= <- <-]|[[= <- <-]|[[= <- <-]|[]]]]]]]]];
    (eexists; split; [reflexivity|]); cbn [has_kind];
    first [reflexivity | by apply andb_true_iff; rewrite Z.leb_le, Z.ltb_lt | by destruct (env_cdl env)].
Qed.

(** The dictionary the builder works on. *)
Lemma campaign_merged mt env : 0 <= target_eid env < 2 ^ 64 -> 0 <= env_ctlr_eid env < 2 ^ 64 ->
  exists fld, with_defaults AECP_CMD_FIELDS (campaign_fields mt env) "aecp_cmd" = Ok fld /\
    fld !! "u" = Some (VInt 0) /\ fld !! "status" = Some (VInt 0) /\
    forall n v, campaign_fields mt env !! n = Some v -> fld !! n = Some v.
Proof.
  intros Ht Hc.
  destruct (with_defaults_total AECP_CMD_KINDS AECP_CMD_FIELDS (campaign_fields mt env)
    (names_declared AECP_CMD_KINDS AECP_CMD_FIELDS ltac:(by vm_compute))
    (kindedb_kinded AECP_CMD_KINDS AECP_CMD_FIELDS ltac:(by vm_compute))
    (campaign_kinded mt env Ht Hc) "aecp_cmd") as (fld & E & _ & _).
  exists fld. split; [exact E|]. pose proof (with_defaults_spec AECP_CMD_FIELDS (campaign_fields mt env) "aecp_cmd") as H.
  rewrite E in H. destruct H as [_ H]. rewrite !H. split_and!; [reflexivity..|].
  intros n v Hn. by rewrite H, Hn.
Qed.

(** The engine tests' frame, whole. *)
Definition command_frame (mt ct : Z) (payload : bytes) (env : envelope) : bytes :=
  let real_cdl := default (12 + zlen payload) (env_cdl env) in
  dst_mac env ++ src_mac env ++ be_bytes 2 AecpEngine.ETHERTYPE_AVTP
  ++ [AecpEngine.SUBTYPE_AECP; mt mod 16; real_cdl / 256 mod 8; real_cdl mod 256]
  ++ be_bytes 8 (target_eid env) ++ be_bytes 8 (env_ctlr_eid env) ++ be_bytes 2 (env_seq env)
  ++ be_bytes 2 ct ++ payload ++ zeros (Z.to_nat (60 - (38 + zlen payload))).

Lemma build_command_eq mt ct payload env :
  0 <= target_eid env < 2 ^ 64 -> 0 <= env_ctlr_eid env < 2 ^ 64 ->
  0 <= env_seq env < 2 ^ 16 -> 0 <= ct < 2 ^ 16 ->
  zlen (dst_mac env) = 6 -> zlen (src_mac env) = 6 ->
  default (12 + zlen payload) (env_cdl env) <= Z.max 34 (12 + zlen payload) ->
  build_command mt ct payload env = Ok (command_frame mt ct payload env).
Proof.
  intros Ht Hc Hs Hct Hd Hsrc Hcdl. unfold build_command, command_frame.
  set (real_cdl := default _ _) in *. masks. rewrite Z.shiftr_div_pow2 by done. change (2 ^ 8) with 256.
  change (Z.shiftl (0 mod 32) 3) with 0. rewrite Z.lor_0_l.
  assert (forall a m, 0 < m <= 256 -> is_byte (a mod m)) as Hb
    by (intros a m Hm; unfold is_byte; pose proof (Z.mod_pos_bound a m ltac:(lia)); lia).
  do 4 (rewrite append_byte by (first [apply Hb; lia | by split]); cbn [rbind]).
  rewrite !pack_total by done. cbn [rbind]. change ETH_MIN with 60. change ETH_HDR with 14.
  set (f := pad_to 60 _).
  assert (f = command_frame mt ct payload env) as Ef.
  { unfold f, pad_to, command_frame. fold real_cdl. rewrite <-!app_assoc. cbn [app].
    repeat (f_equal; []).
    rewrite !zlen_app, !zlen_cons, !zlen_app, !zlen_be_bytes. lia. }
  assert (zlen f = Z.max 60 (38 + zlen payload)) as Hl.
  { rewrite Ef. unfold command_frame.
    autorewrite with zlen. lia. }
  rewrite Hl, (proj2 (Z.leb_le _ _)) by lia. cbn [negb raise_if rbind]. by rewrite Ef.
Qed.

(** C28: The campaign's builder and the engine tests' make the same frame of the same
    command. *)
Theorem commands_agree mt ct payload env :
  0 <= target_eid env < 2 ^ 64 -> 0 <= env_ctlr_eid env < 2 ^ 64 ->
  0 <= env_seq env < 2 ^ 16 -> 0 <= ct < 2 ^ 15 ->
  zlen (dst_mac env) = 6 -> zlen (src_mac env) = 6 ->
  default (12 + zlen payload) (env_cdl env) <= Z.max 34 (12 + zlen payload) ->
  aecp_cmd ct payload (campaign_fields mt env) = build_command mt ct payload env.
Proof.
  intros Ht Hc Hs Hct Hd Hsrc Hcdl. rewrite build_command_eq by lia.
  destruct (aecp_total ct payload _ (campaign_kinded mt env Ht Hc)) as [f E]. rewrite E.
  destruct (campaign_merged mt env Ht Hc) as (fld & Edef & Hu & Hst & Hget).
  pose proof (Hget "msg_type" _ eq_refl) as Gmt. pose proof (Hget "target" _ eq_refl) as Gt.
  pose proof (Hget "controller" _ eq_refl) as Gc. pose proof (Hget "seq" _ eq_refl) as Gs.
  pose proof (Hget "dst" _ eq_refl) as Gd. pose proof (Hget "src" _ eq_refl) as Gsrc.
  pose proof (Hget "cdl" _ eq_refl) as Gcdl. pose proof (Hget "pad60" _ eq_refl) as Gp.
  assert (cdl_of fld payload = default (12 + zlen payload) (env_cdl env)) as Ecdl.
  { unfold cdl_of, int_field. rewrite Gcdl. by destruct (env_cdl env). }
  cbn [snd] in *.
  destruct (aecp_cmd_frame _ _ _ _ _ Edef E) as (_ & _ & ->); [unfold byte_field; by rewrite ?Gd, ?Gsrc..|].
  rewrite Ecdl. unfold aecp_body, aecp_padding, int_field, byte_field.
  rewrite Gmt, Gt, Gc, Gs, Gd, Gsrc, Gp, Hu, Hst. cbn [default from_option id truth andb].
  cbn [int_of]. unfold command_frame. f_equal. set (cdl := default _ _).
  change (Z.shiftl (Z.land 0 31) 11) with 0. change (Z.shiftl (Z.land 0 1) 15) with 0. rewrite !Z.lor_0_l.
  masks. rewrite (Z.mod_small (env_seq env)), (Z.mod_small ct) by done.
  assert ((if 38 + zlen payload <? 60 then zeros (Z.to_nat (22 - zlen payload)) else [])
    = zeros (Z.to_nat (60 - (38 + zlen payload)))) as ->.
  { destruct (Z.ltb_spec (38 + zlen payload) 60); [do 2 f_equal; lia|].
    by replace (Z.to_nat (60 - (38 + zlen payload))) with 0%nat by lia. }
  unfold avtpdu. rewrite <-!app_assoc. do 3 f_equal.
  change (be_bytes 1 (mt mod 16)) with [mt mod 16 mod 256].
  change (be_bytes 2 (cdl mod 2048)) with [cdl mod 2048 / 256 mod 256; cdl mod 2048 mod 256].
  cbn [app]. change (be_bytes 1 TsnWire.SUBTYPE_AECP) with [AecpEngine.SUBTYPE_AECP]. cbn [app].
  do 2 f_equal; [|f_equal; [|f_equal]]; Z.div_mod_to_equations; lia.
Qed.

(** * Reading *)

(** Both readers see the same fields of a frame that holds a header; the engine
    tests split the command type's fifteen bits after the first, and stop the
    payload where its length says. *)
Theorem views_agree raw : 38 <= zlen raw -> Forall is_byte raw ->
  exists r, decode raw = Ok r /\
    resp_subtype raw = r_subtype r /\ resp_message_type raw = r_message_type r /\
    8 * resp_sv raw + resp_version raw = r_sv_version r /\
    resp_status raw = r_status r /\ resp_cdl raw = r_cdl r /\
    resp_target_entity_id raw = r_target r /\ resp_controller_entity_id raw = r_controller r /\
    resp_sequence_id raw = r_sequence r /\ resp_u raw = r_u r /\
    resp_command_type raw = 2 ^ 14 * r_cr r + r_command_type r /\
    take (Z.to_nat (Z.max (r_cdl r - 12) 0)) (resp_payload raw) = r_payload r /\
    zlen raw = r_frame_len r.
Proof.
  intros Hl Hb. unfold decode. rewrite !octet_raw_at by lia. cbn [rbind].
  eexists. split; [reflexivity|].
  cbn [r_subtype r_message_type r_sv_version r_status r_cdl r_target r_controller r_sequence r_u r_cr
       r_command_type r_payload r_frame_len].
  unfold resp_subtype, resp_message_type, resp_sv, resp_version, resp_status, resp_cdl,
    resp_target_entity_id, resp_controller_entity_id, resp_sequence_id, resp_u, resp_command_type, view_be.
  rewrite !(proj2 (Z.ltb_lt _ (zlen raw))) by lia. rewrite !(proj2 (Z.leb_le _ (zlen raw))) by lia.
  pose proof (raw_at_byte raw 15 Hb) as [? ?]. pose proof (raw_at_byte raw 16 Hb) as [? ?].
  pose proof (raw_at_byte raw 36 Hb) as [? ?]. pose proof (raw_at_byte raw 37 Hb) as [? ?].
  masks. rewrite !Z.shiftr_div_pow2 by done.
  rewrite (join_bits (raw_at raw 36 mod 128)), (join_bits (raw_at raw 36 mod 64)) by done.
  change (2 ^ 1) with 2. change (2 ^ 3) with 8. change (2 ^ 4) with 16. change (2 ^ 5) with 32.
  change (2 ^ 6) with 64. change (2 ^ 7) with 128. change (2 ^ 8) with 256.
  split_and!; try reflexivity; Z.div_mod_to_equations; lia.
Qed.

(** * Witnesses *)

Lemma commands_agree_witness :
  aecp_cmd OP_READ_DESCRIPTOR (zeros 8) (campaign_fields MT_AEM_COMMAND FrameEnvelope) =
  build_command MT_AEM_COMMAND OP_READ_DESCRIPTOR (zeros 8) FrameEnvelope.
Proof. by apply (commands_agree MT_AEM_COMMAND OP_READ_DESCRIPTOR (zeros 8) FrameEnvelope). Defined.

Lemma views_agree_witness : exists r, decode sample_command = Ok r /\ resp_sequence_id sample_command = r_sequence r.
Proof.
  destruct (views_agree sample_command) as (r & E & _ & _ & _ & _ & _ & _ & _ & Hs & _).
  - by vm_compute.
  - apply Forall_is_byteb. by vm_compute.
  - by exists r.
Defined.
