(* ===== verification/WireTruth.v ===== *)
(** What the octets of a capture say: [tb/tools/avtp_wire_truth_wire.py].

    The capture readers, the Ethernet and MRP decoders, the AVTP decoders and the
    two stream-format words.  Nothing here judges; [WireChecks] does.  A field the
    source spells as a hexadecimal string ([stream_mac], [destination_address],
    [failure_bridge_id]) is kept as its octets.  Timestamps are Python floats
    computed from the integers of a record, so the type and the two computations
    are arguments of the readers. *)
From S2P Require Import Prelude Unicode Text Packing.

Definition ETH_P_AVTP := 0x22F0.
Definition TPID_C_TAG := 0x8100.

Definition SUBTYPE_AAF := 0x02.
Definition SUBTYPE_CRF := 0x04.
Definition SUBTYPE_ADP := 0xFA.
Definition SUBTYPE_AECP := 0xFB.
Definition SUBTYPE_ACMP := 0xFC.
Definition SUBTYPE_MAAP := 0xFE.
Definition CONTROL_SUBTYPES : list Z := [SUBTYPE_ADP; SUBTYPE_AECP; SUBTYPE_ACMP; SUBTYPE_MAAP].

Definition SR_CLASS_A_PCP := 3.
Definition SR_VID_DEFAULT := 2.

Definition NSR_HZ : gmap Z (option Z) := list_to_map
  [(0x0, None); (0x1, Some 8000); (0x2, Some 16000); (0x3, Some 32000); (0x4, Some 44100);
   (0x5, Some 48000); (0x6, Some 88200); (0x7, Some 96000); (0x8, Some 176400);
   (0x9, Some 192000); (0xA, Some 24000)].
Definition AAF_FORMAT_NAMES : gmap Z string := list_to_map
  [(0x0, "USER"); (0x1, "FLOAT_32BIT"); (0x2, "INT_32BIT"); (0x3, "INT_24BIT");
   (0x4, "INT_16BIT"); (0x5, "AES3_32BIT")]%string.
Definition AAF_FORMAT_BITS : gmap Z Z :=
  list_to_map [(0x1, 32); (0x2, 32); (0x3, 24); (0x4, 16); (0x5, 32)].

Definition MILAN_CRF_FORMAT := 0x041060010000BB80.

Definition ADP_CDL := 56.
Definition ADP_FRAME_LEN := 82.
Definition ADP_ENTITY_DEPARTING := 1.

Definition ETH_P_MSRP := 0x22EA.
Definition ETH_P_MVRP := 0x88F5.

Definition MSRP_TALKER_ADVERTISE := 1.
Definition MSRP_TALKER_FAILED := 2.
Definition MSRP_LISTENER := 3.
Definition MSRP_DOMAIN := 4.
Definition MSRP_ATTR_NAMES : gmap Z string := list_to_map
  [(1, "Talker Advertise"); (2, "Talker Failed"); (3, "Listener"); (4, "Domain")]%string.
Definition MSRP_LISTENER_DECL : gmap Z string := list_to_map
  [(0, "Ignore"); (1, "Asking Failed"); (2, "Ready"); (3, "Ready Failed")]%string.
Definition MRP_ATTR_EVENT : gmap Z string := list_to_map
  [(0, "New"); (1, "JoinIn"); (2, "In"); (3, "JoinMt"); (4, "Mt"); (5, "Lv")]%string.
Definition MRP_DECLARING_EVENTS : list string := ["New"; "JoinIn"; "In"; "JoinMt"]%string.

Definition CLASS_A_MAX_TRANSIT_NS := 2000000.
Definition AVTP_TS_MOD := Z.shiftl 1 32.

(** * Captures *)

Section Captures.
Context {T : Type} (stamp : bool -> Z -> Z -> T) (stamp_ng : Z -> Z -> T).

(** The records of a classic pcap from [off]; a truncated last record is dropped. *)
Fixpoint pcap_loop (fuel : nat) (rd : Z -> Z -> bytes -> Z) (nano : bool) (blob : bytes) (off : Z) :
    list (T * bytes) :=
  match fuel with
  | O => []
  | S fuel =>
      if off + 16 <=? zlen blob then
        let s := rd off 4 blob in
        let us := rd (off + 4) 4 blob in
        let caplen := rd (off + 8) 4 blob in
        let off := off + 16 in
        if zlen blob - off <? caplen then []
        else (stamp nano s us, zslice off caplen blob) :: pcap_loop fuel rd nano blob (off + caplen)
      else []
  end.

(** How the integers of a file are read and whether its fractions are
    nanoseconds, by its magic. *)
Definition pcap_order (magic : bytes) : result py_error ((Z -> Z -> bytes -> Z) * bool) :=
  if bool_decide (magic = [0xd4; 0xc3; 0xb2; 0xa1]) || bool_decide (magic = [0x4d; 0x3c; 0xb2; 0xa1])
  then Ok (rd_le, raw_at magic 0 =? 0x4D)
  else if bool_decide (magic = [0xa1; 0xb2; 0xc3; 0xd4]) || bool_decide (magic = [0xa1; 0xb2; 0x3c; 0x4d])
  then Ok (rd_be, raw_at magic 3 =? 0x4D)
  else Err ValueError.

Definition pcap_records (blob : bytes) : result py_error (list (T * bytes)) :=
  let* order := pcap_order (take 4 blob) in
  Ok (pcap_loop (length blob) (fst order) (snd order) blob 24).

(** The timestamp resolution after the options of an interface description; an
    option 9 cut off after its length has no first octet. *)
Fixpoint idb_options (fuel : nat) (rd : Z -> Z -> bytes -> Z) (body : bytes) (o tsres : Z) :
    result py_error Z :=
  match fuel with
  | O => Ok tsres
  | S fuel =>
      if o + 4 <=? zlen body then
        let code := rd o 2 body in
        let olen := rd (o + 2) 2 body in
        let val := zslice (o + 4) olen body in
        let* tsres := if (code =? 9) && (1 <=? olen)
                      then let* v := octet val 0 in Ok (Z.land v 0x7F) else Ok tsres in
        let o := o + (4 + Z.land (olen + 3) (Z.lnot 3)) in
        if code =? 0 then Ok tsres else idb_options fuel rd body o tsres
      else Ok tsres
  end.

(** The blocks of a pcapng from [off]: the byte order of the current section and
    the resolution of the last interface carry over. *)
Fixpoint pcapng_loop (fuel : nat) (blob : bytes) (off : Z) (little : bool) (tsres : Z) :
    result py_error (list (T * bytes)) :=
  match fuel with
  | O => Ok []
  | S fuel =>
      if off + 12 <=? zlen blob then
        let word (little : bool) o (b : bytes) := if little then rd_le o 4 b else rd_be o 4 b in
        let btype := word little off blob in
        let little := if btype =? 0x0A0D0D0A
                      then bool_decide (zslice (off + 8) 4 blob = [0x4d; 0x3c; 0x2b; 0x1a])
                      else little in
        let blen := word little (off + 4) blob in
        if (blen <? 12) || (zlen blob <? off + blen) then Ok []
        else
          let body := zslice (off + 8) (blen - 12) blob in
          if (btype =? 0x00000001) && (8 <=? zlen body) then
            let* tsres := idb_options (length body) (if little then rd_le else rd_be) body 8 tsres in
            pcapng_loop fuel blob (off + blen) little tsres
          else if (btype =? 0x00000006) && (20 <=? zlen body) then
            let tsh := word little 4 body in
            let tsl := word little 8 body in
            let caplen := word little 12 body in
            let ts := stamp_ng (Z.lor (Z.shiftl tsh 32) tsl) tsres in
            let* rest := pcapng_loop fuel blob (off + blen) little tsres in
            Ok ((ts, zslice 20 caplen body) :: rest)
          else pcapng_loop fuel blob (off + blen) little tsres
      else Ok []
  end.

Definition pcapng_records (blob : bytes) : result py_error (list (T * bytes)) :=
  pcapng_loop (length blob) blob 0 true 6.

(** [read_capture], from the octets of the file. *)
Definition read_capture (blob : bytes) (tap_header : Z) (strip_fcs : bool) :
    result py_error (list (T * bytes)) :=
  let* recs := if bool_decide (take 4 blob = [0x0a; 0x0d; 0x0d; 0x0a])
               then pcapng_records blob else pcap_records blob in
  Ok (omap (fun '(ts, data) =>
        if negb (tap_header =? 0) && (zlen data <=? tap_header) then None
        else
          let data := if negb (tap_header =? 0) then drop (Z.to_nat tap_header) data else data in
          Some (ts, if strip_fcs && (4 <? zlen data) then take (length data - 4) data else data)) recs).
End Captures.

(** * Ethernet *)

Record EthFrame := MkEthFrame {
  e_dst : bytes; e_src : bytes; tagged : bool; pcp : option Z; dei : option Z; vid : option Z;
  e_ethertype : Z; e_payload : bytes; wire_len : Z
}.

Definition eth_subtype (f : EthFrame) : option Z :=
  if negb (e_ethertype f =? ETH_P_AVTP) || (zlen (e_payload f) =? 0) then None
  else Some (raw_at (e_payload f) 0).

Definition decode_eth (frame : bytes) : option EthFrame :=
  if zlen frame <? 14 then None
  else
    let dst := zslice 0 6 frame in
    let src := zslice 6 6 frame in
    let et := rd_be 12 2 frame in
    if et =? TPID_C_TAG then
      if zlen frame <? 18 then None
      else
        let tci := rd_be 14 2 frame in
        Some (MkEthFrame dst src true (Some (Z.land (Z.shiftr tci 13) 0x7))
                (Some (Z.land (Z.shiftr tci 12) 0x1)) (Some (Z.land tci 0x0FFF))
                (rd_be 16 2 frame) (drop 18 frame) (zlen frame))
    else Some (MkEthFrame dst src false None None None et (drop 14 frame) (zlen frame)).

(** * MRP *)

Inductive protocol := MSRP | MVRP.

#[export] Instance protocol_eq_dec : EqDecision protocol.
Proof. solve_decision. Defined.

(** The fields of a value; [at_declaration], which only a Listener value gets, is a
    field of the attribute. *)
Record talker := Talker {
  t_stream_id : Z; t_stream_mac : bytes; t_unique_id : Z; destination_address : bytes;
  vlan_identifier : Z; max_frame_size : Z; max_interval_frames : Z; priority : Z; rank : Z;
  accumulated_latency : Z; failure : option (bytes * Z)
}.

Inductive mrp_fields :=
  | NoFields
  | TalkerFields (t : talker)
  | ListenerFields (stream_id : Z) (stream_mac : bytes) (unique_id : Z)
  | DomainFields (sr_class_id sr_class_priority sr_class_vid : Z)
  | VidField (vid : option Z).

Record MrpAttribute := MkMrpAttribute {
  at_protocol : protocol; at_type : Z; at_name : string; at_index : Z; at_event : string;
  at_leave_all : Z; at_value : bytes; at_fields : mrp_fields; at_declaration : option string
}.

Definition declaring (a : MrpAttribute) : bool := bool_decide (at_event a ∈ MRP_DECLARING_EVENTS).

Definition three_packed (octet : Z) : list Z :=
  let a := octet / 36 in
  let rest := octet mod 36 in
  let b := rest / 6 in
  let c := rest mod 6 in
  [a; b; c].

Definition four_packed (octet : Z) : list Z :=
  [Z.land (Z.shiftr octet 6) 3; Z.land (Z.shiftr octet 4) 3; Z.land (Z.shiftr octet 2) 3; Z.land octet 3].

Definition advance_stream_id (first : bytes) (n : Z) : bytes :=
  if (n =? 0) || (zlen first <? 8) then first
  else
    let sid := rd_be 0 8 first in
    be_bytes 8 (Z.land (sid + n) (Z.shiftl 1 64 - 1)) ++ drop 8 first.

Definition decode_msrp_fields (attr_type : Z) (val : bytes) : mrp_fields :=
  if ((attr_type =? MSRP_TALKER_ADVERTISE) || (attr_type =? MSRP_TALKER_FAILED)) && (25 <=? zlen val) then
    TalkerFields (Talker (rd_be 0 8 val) (zslice 0 6 val) (rd_be 6 2 val) (zslice 8 6 val)
      (rd_be 14 2 val) (rd_be 16 2 val) (rd_be 18 2 val)
      (Z.land (Z.shiftr (raw_at val 20) 5) 0x7) (Z.land (Z.shiftr (raw_at val 20) 4) 0x1)
      (rd_be 21 4 val)
      (if (attr_type =? MSRP_TALKER_FAILED) && (34 <=? zlen val)
       then Some (zslice 25 8 val, raw_at val 33) else None))
  else if (attr_type =? MSRP_LISTENER) && (8 <=? zlen val) then
    ListenerFields (rd_be 0 8 val) (zslice 0 6 val) (rd_be 6 2 val)
  else if (attr_type =? MSRP_DOMAIN) && (4 <=? zlen val) then
    DomainFields (raw_at val 0) (raw_at val 1) (rd_be 2 2 val)
  else NoFields.

(** Where the vector loop goes after one vector: on to the next, or out of the
    message. *)
Inductive vector_end := NextVector (off : Z) | LeaveMessage (off : Z).

Section Mrpdu.
Context (payload : bytes) (proto : protocol).

Definition typed (atype : Z) : bool :=
  (atype =? MSRP_TALKER_ADVERTISE) || (atype =? MSRP_TALKER_FAILED) || (atype =? MSRP_LISTENER).

(** The attribute of one value of a vector. *)
Definition attribute (atype leave_all : Z) (first : bytes) (events decls : list Z) (i : Z) : MrpAttribute :=
  let val := if typed atype then advance_stream_id first i else first in
  let f := match proto with
           | MSRP => decode_msrp_fields atype val
           | MVRP => VidField (if 2 <=? zlen val then Some (of_be (take 2 val)) else None)
           end in
  let d := if i <? zlen decls
           then Some (default (pretty (raw_at decls i)) (MSRP_LISTENER_DECL !! raw_at decls i)) else None in
  MkMrpAttribute proto atype
    (match proto with
     | MSRP => default ("type" +:+ pretty atype)%string (MSRP_ATTR_NAMES !! atype)
     | MVRP => "VID"
     end)
    i (default "?"%string (MRP_ATTR_EVENT !! (if i <? zlen events then raw_at events i else -1)))
    leave_all val f d.

(** One vector of a message, from its header on. *)
Definition vector (atype alen off : Z) : list MrpAttribute * vector_end :=
  let vh := rd_be off 2 payload in
  if vh =? 0 then ([], LeaveMessage (off + 2))
  else
    let leave_all := Z.land (Z.shiftr vh 13) 0x7 in
    let nvals := Z.land vh 0x1FFF in
    let off := off + 2 in
    if (nvals =? 0) || (zlen payload <? off + alen) then ([], LeaveMessage (zlen payload))
    else
      let first := zslice off alen payload in
      let off := off + alen in
      let nev := (nvals + 2) / 3 in
      if zlen payload <? off + nev then ([], LeaveMessage off)
      else
        let events := concat (map three_packed (zslice off nev payload)) in
        let off := off + nev in
        let attributes decls := map (attribute atype leave_all first events decls) (zrange 0 (Z.to_nat nvals)) in
        match proto with
        | MSRP =>
            if atype =? MSRP_LISTENER then
              let nfp := (nvals + 3) / 4 in
              if zlen payload <? off + nfp then ([], LeaveMessage off)
              else (attributes (concat (map four_packed (zslice off nfp payload))), NextVector (off + nfp))
            else (attributes [], NextVector off)
        | MVRP => (attributes [], NextVector off)
        end.

(** The vectors of a message, and where it ends. *)
Fixpoint vectors (fuel : nat) (atype alen off : Z) : list MrpAttribute * Z :=
  match fuel with
  | O => ([], off)
  | S fuel =>
      if off + 2 <=? zlen payload then
        match vector atype alen off with
        | (l, NextVector off) => let '(rest, off) := vectors fuel atype alen off in (l ++ rest, off)
        | (l, LeaveMessage off) => (l, off)
        end
      else ([], off)
  end.

Fixpoint messages (fuel : nat) (off : Z) : list MrpAttribute :=
  match fuel with
  | O => []
  | S fuel =>
      if off + 1 <? zlen payload then
        let atype := raw_at payload off in
        if atype =? 0 then []
        else
          let alen := raw_at payload (off + 1) in
          let off := off + 2 in
          if bool_decide (proto = MSRP) && (zlen payload <? off + 2) then []
          else
            let off := if decide (proto = MSRP) then off + 2 else off in
            if alen =? 0 then []
            else
              let '(l, off) := vectors (length payload) atype alen off in
              l ++ messages fuel off
      else []
  end.

Definition decode_mrpdu : list MrpAttribute :=
  if zlen payload <? 2 then [] else messages (length payload) 1.
End Mrpdu.

(** * AVTP *)

Record AafPdu := MkAafPdu {
  a_sv : Z; a_version : Z; a_mr : Z; a_tv : Z; a_sequence_num : Z; a_tu : Z; a_stream_id : Z;
  a_avtp_timestamp : Z; a_fmt : Z; a_nsr : Z; a_channels_per_frame : Z; a_bit_depth : Z;
  a_stream_data_length : Z; a_sp : Z; a_evt : Z; a_payload : bytes
}.

Definition sample_bits (p : AafPdu) : option Z := AAF_FORMAT_BITS !! a_fmt p.

Definition sample_frames (p : AafPdu) : option Z :=
  match sample_bits p with
  | None => None
  | Some bits =>
      if (bits =? 0) || (a_channels_per_frame p =? 0) then None
      else
        let per := bits / 8 * a_channels_per_frame p in
        if (per =? 0) || negb (a_stream_data_length p mod per =? 0) then None
        else Some (a_stream_data_length p / per)
  end.

(** [sample]; both positions count from zero. *)
Definition sample (p : AafPdu) (frame_idx channel : nat) : option Z :=
  match sample_bits p with
  | None => None
  | Some bits =>
      if a_channels_per_frame p <=? Z.of_nat channel then None
      else
        let w := bits / 8 in
        let off := (Z.of_nat frame_idx * a_channels_per_frame p + Z.of_nat channel) * w in
        if zlen (a_payload p) <? off + w then None
        else
          let raw := rd_be off w (a_payload p) in
          Some (if negb (Z.shiftr raw (bits - 1) =? 0) then raw - Z.shiftl 1 bits else raw)
  end.

Definition decode_aaf (pdu : bytes) : option AafPdu :=
  if (zlen pdu <? 24) || negb (raw_at pdu 0 =? SUBTYPE_AAF) then None
  else
    let b1 := raw_at pdu 1 in
    let sdl := rd_be 20 2 pdu in
    Some (MkAafPdu (Z.land (Z.shiftr b1 7) 1) (Z.land (Z.shiftr b1 4) 0x7) (Z.land (Z.shiftr b1 3) 1)
            (Z.land b1 1) (raw_at pdu 2) (Z.land (raw_at pdu 3) 1) (rd_be 4 8 pdu) (rd_be 12 4 pdu)
            (raw_at pdu 16) (Z.land (Z.shiftr (raw_at pdu 17) 4) 0xF)
            (Z.lor (Z.shiftl (Z.land (raw_at pdu 17) 0x03) 8) (raw_at pdu 18)) (raw_at pdu 19) sdl
            (Z.land (Z.shiftr (raw_at pdu 22) 4) 1) (Z.land (raw_at pdu 22) 0x0F)
            (if sdl =? 0 then drop 24 pdu else zslice 24 sdl pdu)).

Record CrfPdu := MkCrfPdu {
  c_sv : Z; c_version : Z; c_mr : Z; c_fs : Z; c_tu : Z; c_sequence_num : Z; c_type : Z;
  c_stream_id : Z; c_pull : Z; c_base_frequency : Z; c_crf_data_length : Z;
  c_timestamp_interval : Z; c_timestamps : list Z
}.

Definition decode_crf (pdu : bytes) : option CrfPdu :=
  if (zlen pdu <? 20) || negb (raw_at pdu 0 =? SUBTYPE_CRF) then None
  else
    let b1 := raw_at pdu 1 in
    let dlen := rd_be 16 2 pdu in
    let body := if dlen =? 0 then [] else zslice 20 dlen pdu in
    let ts := map (fun i => rd_be (8 * i) 8 body) (zrange 0 (Z.to_nat (zlen body / 8))) in
    Some (MkCrfPdu (Z.land (Z.shiftr b1 7) 1) (Z.land (Z.shiftr b1 4) 0x7) (Z.land (Z.shiftr b1 3) 1)
            (Z.land (Z.shiftr b1 1) 1) (Z.land b1 1) (raw_at pdu 2) (raw_at pdu 3) (rd_be 4 8 pdu)
            (Z.land (Z.shiftr (raw_at pdu 12) 5) 0x7) (Z.land (rd_be 12 4 pdu) 0x1FFFFFFF) dlen
            (rd_be 18 2 pdu) ts).

Record ControlPdu := MkControlPdu {
  k_subtype : Z; k_sv : Z; k_version : Z; k_message_type : Z; k_valid_time_or_status : Z;
  k_control_data_length : Z; k_target_entity_id : Z; k_avtpdu_len : Z
}.

Definition declared_avtpdu_len (c : ControlPdu) : Z := 12 + k_control_data_length c.

Definition decode_control (pdu : bytes) : option ControlPdu :=
  if (zlen pdu <? 12) || negb (bool_decide (raw_at pdu 0 ∈ CONTROL_SUBTYPES)) then None
  else
    let b1 := raw_at pdu 1 in
    let w := rd_be 2 2 pdu in
    Some (MkControlPdu (raw_at pdu 0) (Z.land (Z.shiftr b1 7) 1) (Z.land (Z.shiftr b1 4) 0x7)
            (Z.land b1 0x0F) (Z.land (Z.shiftr w 11) 0x1F) (Z.land w 0x07FF) (rd_be 4 8 pdu) (zlen pdu)).

(** * Stream formats *)

(** [int | str]: a string is read in base 16. *)
Inductive qword := QInt (n : Z) | QStr (s : pystr).

Definition qword_int (q : qword) : result py_error Z :=
  match q with
  | QInt n => Ok n
  | QStr s => match py_int16 s with Some n => Ok n | None => Err ValueError end
  end.

Record AafStreamFormat := MkAafStreamFormat {
  f_ut : Z; f_nsr : Z; f_fmt : Z; f_bit_depth : Z; f_channels_per_frame : Z; f_samples_per_frame : Z
}.

Definition rate_hz (f : AafStreamFormat) : option Z := default None (NSR_HZ !! f_nsr f).

Definition aaf_of_qword (n : Z) : option AafStreamFormat :=
  if negb (Z.land (Z.shiftr n 56) 0x7F =? SUBTYPE_AAF) then None
  else Some (MkAafStreamFormat (Z.land (Z.shiftr n 52) 1) (Z.land (Z.shiftr n 48) 0xF)
               (Z.land (Z.shiftr n 40) 0xFF) (Z.land (Z.shiftr n 32) 0xFF)
               (Z.land (Z.shiftr n 22) 0x3FF) (Z.land (Z.shiftr n 12) 0x3FF)).

Definition parse_aaf_stream_format (q : qword) : result py_error (option AafStreamFormat) :=
  let* n := qword_int q in Ok (aaf_of_qword n).

Record CrfStreamFormat := MkCrfStreamFormat {
  g_type : Z; g_timestamp_interval : Z; g_timestamps_per_pdu : Z; g_pull : Z; g_base_frequency : Z
}.

Definition crf_of_qword (n : Z) : option CrfStreamFormat :=
  if negb (Z.land (Z.shiftr n 56) 0x7F =? SUBTYPE_CRF) then None
  else Some (MkCrfStreamFormat (Z.land (Z.shiftr n 52) 0xF) (Z.land (Z.shiftr n 40) 0xFFF)
               (Z.land (Z.shiftr n 32) 0xFF) (Z.land (Z.shiftr n 29) 0x7) (Z.land n 0x1FFFFFFF)).

Definition parse_crf_stream_format (q : qword) : result py_error (option CrfStreamFormat) :=
  let* n := qword_int q in Ok (crf_of_qword n).

(** * Expectations *)

Record Expectation := MkExpectation {
  aaf_format : option Z; crf_format : option Z; sr_vid : option Z; sr_class_a_pcp : Z;
  silent_stream_ids : list Z; fed_stream_ids : list Z; gptp_ref_ns : option Z;
  adp_entity_ids : list Z; max_transit_ns : Z; talker_stream_ids : list Z
}.

Definition default_expectation : Expectation :=
  MkExpectation None None (Some SR_VID_DEFAULT) SR_CLASS_A_PCP [] [] None [] CLASS_A_MAX_TRANSIT_NS [].

Definition mod_delta (a b mod_ : Z) : Z := (a - b) mod mod_.

(** * What the decoders owe a frame laid out field by field *)

(** An Ethernet frame, with the tag control information of its C-TAG if it has
    one. *)
Definition framed (d s : bytes) (tci : option Z) (et : Z) (body : bytes) : bytes :=
  d ++ s ++ match tci with Some t => be_bytes 2 TPID_C_TAG ++ be_bytes 2 t | None => [] end
  ++ be_bytes 2 et ++ body.

Lemma decode_eth_framed d s tci et body : zlen d = 6 -> zlen s = 6 ->
  match tci with Some t => 0 <= t < 65536 | None => True end -> 0 <= et < 65536 -> et <> TPID_C_TAG ->
  decode_eth (framed d s tci et body) =
  Some (MkEthFrame d s (bool_decide (is_Some tci)) ((fun t => t / 8192) <$> tci) ((fun t => t / 4096 mod 2) <$> tci)
          ((fun t => t mod 4096) <$> tci) et body (zlen (framed d s tci et body))).
Proof.
  intros Hd Hs Ht He Hne. pose proof (zlen_nonneg body) as Hb. set (f := framed d s tci et body).
  assert (zslice 0 6 f = d) as E0 by (by apply zslice_hit).
  assert (zslice 6 6 f = s) as E6 by (unfold f, framed; by read_field).
  unfold decode_eth. rewrite E0, E6. destruct tci as [t|].
  - assert (zlen f = 18 + zlen body) as Hl by (unfold f, framed; autorewrite with zlen; lia).
    assert (rd_be 12 2 f = TPID_C_TAG) as -> by (unfold f, framed, rd_be; rewrite <-!app_assoc; by read_field).
    assert (rd_be 14 2 f = t) as ->.
    { unfold f, framed, rd_be. rewrite <-!app_assoc. read_field. by apply of_be_be_bytes_id. }
    assert (rd_be 16 2 f = et) as ->.
    { unfold f, framed, rd_be. rewrite <-!app_assoc. read_field. by apply of_be_be_bytes_id. }
    assert (drop 18 f = body) as ->.
    { unfold f, framed. rewrite !app_assoc. apply drop_app_length'.
      rewrite !length_app, !be_bytes_length. unfold zlen in *. lia. }
    rewrite !(proj2 (Z.ltb_ge _ _)) by lia. change (TPID_C_TAG =? TPID_C_TAG) with true. cbv iota.
    masks. rewrite !Z.shiftr_div_pow2 by done. change (2 ^ 13) with 8192. change (2 ^ 12) with 4096.
    cbn [fmap option_fmap option_map]. rewrite bool_decide_true by by eexists.
    rewrite (Z.mod_small (t / 8192)); [done|]. Z.div_mod_to_equations; lia.
  - assert (zlen f = 14 + zlen body) as Hl by (unfold f, framed; autorewrite with zlen; lia).
    assert (rd_be 12 2 f = et) as ->.
    { unfold f, framed, rd_be. cbn [app]. read_field. by apply of_be_be_bytes_id. }
    assert (drop 14 f = body) as ->.
    { unfold f, framed. cbn [app]. rewrite !app_assoc. apply drop_app_length'.
      rewrite !length_app, be_bytes_length. unfold zlen in *. lia. }
    rewrite (proj2 (Z.ltb_ge _ _)) by lia. rewrite (proj2 (Z.eqb_neq _ _)) by done.
    cbn [fmap option_fmap option_map]. rewrite bool_decide_false; [done|]. by intros [? ?].
Qed.
