(* ===== verification/MrpWire.v ===== *)
(** The MRP decoder of the wire reader ([decode_mrpdu]).

    A reference encoder writes a list of messages as 802.1Q lays them out; the
    decoder returns every value of every vector with its event and its
    declaration, whatever follows the end mark.  On any other input it still
    ends, and it never returns more than three values for an octet. *)
From S2P Require Import Prelude Unicode Text Packing WireTruth.

(** * A reference encoder *)

(** A vector: the first value, an event for each value and, in a Listener
    attribute, a declaration for each. *)
Record vector_of_values := VectorOf {
  vo_leave_all : Z; vo_first : bytes; vo_events : list Z; vo_decls : list Z
}.

Record message := Message { mg_type : Z; mg_vectors : list vector_of_values; mg_length : Z }.

(** Three events to an octet, the last octet filled up with [pad]. *)
Fixpoint pack_three (pad : Z) (l : list Z) : bytes :=
  match l with
  | a :: b :: c :: l => a * 36 + b * 6 + c :: pack_three pad l
  | [a; b] => [a * 36 + b * 6 + pad]
  | [a] => [a * 36 + pad * 6 + pad]
  | [] => []
  end.

Fixpoint pack_four (l : list Z) : bytes :=
  match l with
  | a :: b :: c :: d :: l => a * 64 + b * 16 + c * 4 + d :: pack_four l
  | [a; b; c] => [a * 64 + b * 16 + c * 4]
  | [a; b] => [a * 64 + b * 16]
  | [a] => [a * 64]
  | [] => []
  end.

Section Encoder.
Context (pad : Z) (proto : protocol).

Definition listens (atype : Z) : bool := bool_decide (proto = MSRP) && (atype =? MSRP_LISTENER).

Definition encode_vector (atype : Z) (v : vector_of_values) : bytes :=
  be_bytes 2 (vo_leave_all v * 8192 + zlen (vo_events v)) ++ vo_first v
  ++ pack_three pad (vo_events v) ++ (if listens atype then pack_four (vo_decls v) else []).

Definition encode_message (m : message) : bytes :=
  let body := concat (map (encode_vector (mg_type m)) (mg_vectors m)) ++ [0; 0] in
  [mg_type m; mg_length m]
  ++ match proto with MSRP => be_bytes 2 (zlen body) | MVRP => [] end ++ body.

Definition encode_mrpdu (version : Z) (ms : list message) : bytes :=
  [version] ++ concat (map encode_message ms) ++ [0; 0].

Record vector_fits (atype alen : Z) (v : vector_of_values) : Prop := {
  vf_leave : 0 <= vo_leave_all v < 8;
  vf_first : zlen (vo_first v) = alen;
  vf_count : 1 <= zlen (vo_events v) < 8192;
  vf_events : Forall (fun e => 0 <= e < 6) (vo_events v);
  vf_decls : if listens atype then zlen (vo_decls v) = zlen (vo_events v) /\
                                   Forall (fun d => 0 <= d < 4) (vo_decls v)
             else vo_decls v = []
}.

Record message_fits (m : message) : Prop := {
  mf_type : 1 <= mg_type m < 256;
  mf_length : 1 <= mg_length m < 256;
  mf_vectors : Forall (vector_fits (mg_type m) (mg_length m)) (mg_vectors m)
}.

(** What the decoder owes for a message: each value of each vector in turn. *)
Definition vector_values (atype : Z) (v : vector_of_values) : list MrpAttribute :=
  map (attribute proto atype (vo_leave_all v) (vo_first v) (vo_events v) (vo_decls v))
    (zrange 0 (length (vo_events v))).

Definition message_values (m : message) : list MrpAttribute :=
  concat (map (vector_values (mg_type m)) (mg_vectors m)).
End Encoder.

(** * Packed events *)

Lemma pack_three_length pad l : zlen (pack_three pad l) = (zlen l + 2) / 3.
Proof.
  cut (forall n l, (length l <= n)%nat -> zlen (pack_three pad l) = (zlen l + 2) / 3); [eauto|].
  intros n. induction n as [|n IH]; intros [|a [|b [|c r]]] Hn; try reflexivity; cbn in Hn; try lia.
  cbn [pack_three]. rewrite !zlen_cons, IH by lia.
  replace (1 + (1 + (1 + zlen r)) + 2) with (zlen r + 2 + 1 * 3) by lia. rewrite Z.div_add by done. lia.
Qed.

Lemma pack_four_length l : zlen (pack_four l) = (zlen l + 3) / 4.
Proof.
  cut (forall n l, (length l <= n)%nat -> zlen (pack_four l) = (zlen l + 3) / 4); [eauto|].
  intros n. induction n as [|n IH]; intros [|a [|b [|c [|d r]]]] Hn; try reflexivity; cbn in Hn; try lia.
  cbn [pack_four]. rewrite !zlen_cons, IH by lia.
  replace (1 + (1 + (1 + (1 + zlen r))) + 3) with (zlen r + 3 + 1 * 4) by lia. rewrite Z.div_add by done. lia.
Qed.

(** Unpacking gives the events back, then the padding. *)
Lemma three_packed_of a b c : 0 <= a -> 0 <= b < 6 -> 0 <= c < 6 ->
  three_packed (a * 36 + b * 6 + c) = [a; b; c].
Proof.
  intros Ha Hb Hc. unfold three_packed.
  assert ((a * 36 + b * 6 + c) / 36 = a) as -> by (Z.div_mod_to_equations; lia).
  assert ((a * 36 + b * 6 + c) mod 36 = b * 6 + c) as -> by (Z.div_mod_to_equations; lia).
  f_equal. f_equal; [|f_equal]; Z.div_mod_to_equations; lia.
Qed.

Lemma four_packed_of a b c d : 0 <= a < 4 -> 0 <= b < 4 -> 0 <= c < 4 -> 0 <= d < 4 ->
  four_packed (a * 64 + b * 16 + c * 4 + d) = [a; b; c; d].
Proof.
  intros. unfold four_packed. masks. rewrite !Z.shiftr_div_pow2 by done.
  change (2 ^ 6) with 64. change (2 ^ 4) with 16. change (2 ^ 2) with 4.
  f_equal; [|f_equal; [|f_equal; [|f_equal]]]; Z.div_mod_to_equations; lia.
Qed.

Lemma unpack_three pad l : 0 <= pad < 6 -> Forall (fun e => 0 <= e < 6) l ->
  exists n, concat (map three_packed (pack_three pad l)) = l ++ repeat pad n.
Proof.
  intros Hp.
  cut (forall k l, (length l <= k)%nat -> Forall (fun e => 0 <= e < 6) l ->
    exists n, concat (map three_packed (pack_three pad l)) = l ++ repeat pad n); [eauto|].
  intros k. induction k as [|k IH]; intros [|a [|b [|c r]]] Hk H; cbn in Hk; try lia;
    try (by exists 0%nat); rewrite ?List.Forall_cons_iff in H; cbn [pack_three map concat].
  - exists 2%nat. by rewrite three_packed_of by lia.
  - exists 1%nat. by rewrite three_packed_of by lia.
  - destruct H as (H1 & H2 & H3 & Hr). destruct (IH r ltac:(lia) Hr) as [n E]. exists n.
    rewrite three_packed_of by lia. by rewrite E.
Qed.

Lemma unpack_four l : Forall (fun e => 0 <= e < 4) l ->
  exists n, concat (map four_packed (pack_four l)) = l ++ repeat 0 n.
Proof.
  cut (forall k l, (length l <= k)%nat -> Forall (fun e => 0 <= e < 4) l ->
    exists n, concat (map four_packed (pack_four l)) = l ++ repeat 0 n); [eauto|].
  intros k. induction k as [|k IH]; intros [|a [|b [|c [|d r]]]] Hk H; cbn in Hk; try lia;
    try (by exists 0%nat); rewrite ?List.Forall_cons_iff in H; cbn [pack_four map concat].
  - exists 3%nat. destruct H as (H1 & _). replace (a * 64) with (a * 64 + 0 * 16 + 0 * 4 + 0) by lia.
    by rewrite four_packed_of by lia.
  - exists 2%nat. destruct H as (H1 & H2 & _).
    replace (a * 64 + b * 16) with (a * 64 + b * 16 + 0 * 4 + 0) by lia. by rewrite four_packed_of by lia.
  - exists 1%nat. destruct H as (H1 & H2 & H3 & _).
    replace (a * 64 + b * 16 + c * 4) with (a * 64 + b * 16 + c * 4 + 0) by lia. by rewrite four_packed_of by lia.
  - destruct H as (H1 & H2 & H3 & H4 & Hr). destruct (IH r ltac:(lia) Hr) as [n E]. exists n.
    rewrite four_packed_of by lia. by rewrite E.
Qed.

Lemma raw_at_app_l (l r : bytes) i : 0 <= i < zlen l -> raw_at (l ++ r) i = raw_at l i.
Proof. intros Hi. unfold raw_at, zlen in *. apply app_nth1. lia. Qed.

Lemma raw_at_mid (pre : bytes) x post i : zlen pre = i -> raw_at (pre ++ x :: post) i = x.
Proof. intros <-. unfold raw_at, zlen. rewrite Nat2Z.id. apply nth_middle. Qed.

Lemma attribute_padded proto atype la first events decls r1 r2 i :
  0 <= i < zlen events -> decls = [] /\ r2 = [] \/ zlen decls = zlen events ->
  attribute proto atype la first (events ++ r1) (decls ++ r2) i = attribute proto atype la first events decls i.
Proof.
  intros Hi Hd. unfold attribute. rewrite raw_at_app_l by done.
  pose proof (zlen_nonneg r1). pose proof (zlen_nonneg r2).
  rewrite (proj2 (Z.ltb_lt i (zlen (events ++ r1)))) by (rewrite zlen_app; lia).
  rewrite (proj2 (Z.ltb_lt i (zlen events))) by lia.
  f_equal. destruct Hd as [[-> ->]|Hd]; [done|].
  rewrite (raw_at_app_l decls) by lia.
  rewrite (proj2 (Z.ltb_lt i (zlen (decls ++ r2)))) by (rewrite zlen_app; lia).
  by rewrite (proj2 (Z.ltb_lt i (zlen decls))) by lia.
Qed.

(** * Decoding what was encoded *)

(** Read what stands at [off] of a payload. *)
Lemma zslice_mid (pre x post : bytes) off n : zlen pre = off -> zlen x = n ->
  zslice off n (pre ++ x ++ post) = x.
Proof. intros Ho Hn. rewrite (zslice_skip pre _ off) by (done || lia). rewrite Z.sub_diag. by apply zslice_hit. Qed.

Lemma vector_header la n : 0 <= la < 8 -> 0 <= n < 8192 ->
  Z.land (Z.shiftr (la * 8192 + n) 13) 0x7 = la /\ Z.land (la * 8192 + n) 0x1FFF = n.
Proof.
  intros. masks. rewrite Z.shiftr_div_pow2 by done. change (2 ^ 13) with 8192.
  split; Z.div_mod_to_equations; lia.
Qed.

Lemma encode_vector_length pad proto atype alen v : vector_fits proto atype alen v ->
  3 <= zlen (encode_vector pad proto atype v).
Proof.
  intros [_ _ Hn _ _]. unfold encode_vector. rewrite !zlen_app, zlen_be_bytes, pack_three_length.
  pose proof (zlen_nonneg (vo_first v)). pose proof (zlen_nonneg (if listens proto atype then pack_four (vo_decls v) else [])).
  Z.div_mod_to_equations; lia.
Qed.

Lemma vector_encoded pad proto atype alen v pre post off : 0 <= pad < 6 ->
  vector_fits proto atype alen v -> zlen pre = off ->
  vector (pre ++ encode_vector pad proto atype v ++ post) proto atype alen off =
  (vector_values proto atype v, NextVector (off + zlen (encode_vector pad proto atype v))).
Proof.
  intros Hpad [Hla Hfirst Hn Hev Hde] Hoff. unfold vector_values. destruct v as [la first events decls].
  cbn [vo_leave_all vo_first vo_events vo_decls] in *.
  set (head := be_bytes 2 (la * 8192 + zlen events)).
  set (dl := if listens proto atype then pack_four decls else []) in *.
  assert (encode_vector pad proto atype (VectorOf la first events decls)
    = head ++ first ++ pack_three pad events ++ dl) as -> by done.
  set (P := pre ++ (head ++ first ++ pack_three pad events ++ dl) ++ post).
  assert (zlen head = 2) as Hh by apply zlen_be_bytes.
  pose proof (zlen_nonneg pre). pose proof (zlen_nonneg post). pose proof (zlen_nonneg dl). pose proof (zlen_nonneg first).
  assert (0 <= la * 8192 + zlen events < 65536) as Hr by lia.
  unfold vector. cbv zeta. unfold rd_be.
  replace (zslice off 2 P) with head
    by (symmetry; unfold P; rewrite <-!app_assoc; by apply zslice_mid).
  unfold head. rewrite (of_be_be_bytes_id 2) by done. fold head.
  rewrite (proj2 (Z.eqb_neq _ 0)) by lia.
  destruct (vector_header la (zlen events)) as [E1 E2]; [lia..|]. rewrite E1, E2.
  assert (zlen (pack_three pad events) = (zlen events + 2) / 3) as Hp3 by apply pack_three_length.
  assert (0 <= (zlen events + 2) / 3) by (Z.div_mod_to_equations; lia).
  assert (zlen P = off + (2 + (alen + ((zlen events + 2) / 3 + zlen dl))) + zlen post) as HP
    by (unfold P; rewrite !zlen_app; lia).
  rewrite (proj2 (Z.eqb_neq _ 0)) by lia. rewrite !(proj2 (Z.ltb_ge (zlen P) _)) by lia. cbn [orb].
  replace (zslice (off + 2) alen P) with first.
  2:{ symmetry. unfold P. rewrite <-!app_assoc, (app_assoc pre). apply zslice_mid; [rewrite zlen_app; lia|done]. }
  replace (zslice (off + 2 + alen) ((zlen events + 2) / 3) P) with (pack_three pad events).
  2:{ symmetry. unfold P. rewrite <-!app_assoc, (app_assoc pre), (app_assoc (pre ++ head)).
      apply zslice_mid; [rewrite !zlen_app; lia|done]. }
  destruct (unpack_three pad events Hpad Hev) as [n3 ->].
  assert (Z.to_nat (zlen events) = length events) as -> by (unfold zlen; lia).
  assert (forall r2, decls = [] /\ r2 = [] \/ zlen decls = zlen events ->
    map (attribute proto atype la first (events ++ repeat pad n3) (decls ++ r2)) (zrange 0 (length events)) =
    map (attribute proto atype la first events decls) (zrange 0 (length events))) as Hmap.
  { intros r2 Hd. apply map_ext_in. intros i Hi%zrange_In. apply attribute_padded; [unfold zlen; lia|done]. }
  destruct proto.
  - subst dl. unfold listens in *. rewrite bool_decide_true in * by done. cbn [andb] in *.
    destruct (atype =? MSRP_LISTENER).
    + destruct Hde as [Hdl Hdr]. rewrite pack_four_length, Hdl in *.
      rewrite (proj2 (Z.ltb_ge (zlen P) _)) by lia.
      replace (zslice (off + 2 + alen + (zlen events + 2) / 3) ((zlen events + 3) / 4) P) with (pack_four decls).
      2:{ symmetry. unfold P. rewrite <-!app_assoc, (app_assoc pre), (app_assoc (pre ++ head)), (app_assoc ((pre ++ head) ++ first)).
          apply zslice_mid; [rewrite !zlen_app; lia|]. rewrite pack_four_length. by rewrite Hdl. }
      destruct (unpack_four decls Hdr) as [n4 ->]. rewrite Hmap by (by right).
      do 2 f_equal. rewrite !zlen_app, pack_four_length, Hdl. lia.
    + subst decls. rewrite <-(app_nil_r []) at 1. rewrite Hmap by (by left).
      do 2 f_equal. rewrite !zlen_app. change (zlen (@nil Z)) with 0. lia.
  - subst dl. unfold listens in *. rewrite bool_decide_false in * by done. cbn [andb] in *.
    subst decls. rewrite <-(app_nil_r []) at 1. rewrite Hmap by (by left).
    do 2 f_equal. rewrite !zlen_app. change (zlen (@nil Z)) with 0. lia.
Qed.

Lemma vectors_encoded pad proto atype alen vs pre post off fuel : 0 <= pad < 6 ->
  Forall (vector_fits proto atype alen) vs -> zlen pre = off -> (length vs < fuel)%nat ->
  vectors (pre ++ (concat (map (encode_vector pad proto atype) vs) ++ [0; 0]) ++ post) proto fuel atype alen off =
  (concat (map (vector_values proto atype) vs), off + zlen (concat (map (encode_vector pad proto atype) vs)) + 2).
Proof.
  intros Hpad Hv. revert pre off fuel. induction Hv as [|v vs Hv Hvs IH]; intros pre off fuel Hoff Hf;
    (destruct fuel as [|fuel]; [lia|]); cbn [map concat length] in *.
  - cbn [app vectors]. rewrite (proj2 (Z.leb_le _ _)) by (autorewrite with zlen; pose proof (zlen_nonneg post); lia).
    unfold vector, rd_be.
    assert (zslice off 2 (pre ++ 0 :: 0 :: post) = [0; 0]) as -> by (by apply (zslice_mid pre [0; 0] post)).
    cbn [of_be rev app of_le Z.mul Z.add Z.eqb]. change (of_be [0; 0] =? 0) with true. f_equal.
    change (zlen (@nil Z)) with 0. lia.
  - cbn [vectors].
    pose proof (encode_vector_length pad _ _ _ _ Hv) as Hlen.
    set (rest := concat (map (encode_vector pad proto atype) vs)) in *.
    rewrite (proj2 (Z.leb_le _ _)) by (rewrite !zlen_app; pose proof (zlen_nonneg rest); pose proof (zlen_nonneg post); pose proof (zlen_nonneg [0; 0]); lia).
    replace (pre ++ ((encode_vector pad proto atype v ++ rest) ++ [0; 0]) ++ post)
      with (pre ++ encode_vector pad proto atype v ++ (rest ++ [0; 0]) ++ post) by (by rewrite <-!app_assoc).
    rewrite (vector_encoded pad _ _ alen) by done.
    rewrite (app_assoc pre), IH by (rewrite ?zlen_app; lia).
    f_equal. rewrite zlen_app. lia.
Qed.

(** A message is at least its type, its length and its end mark long. *)
Lemma encode_message_length pad proto m : 4 <= zlen (encode_message pad proto m).
Proof.
  unfold encode_message. rewrite !zlen_app. pose proof (zlen_nonneg (concat (map (encode_vector pad proto (mg_type m)) (mg_vectors m)))).
  assert (0 <= zlen match proto with MSRP => be_bytes 2 (zlen (concat (map (encode_vector pad proto (mg_type m)) (mg_vectors m))) + zlen [0; 0]) | MVRP => [] end) by apply zlen_nonneg.
  change (zlen [mg_type m; mg_length m]) with 2. change (zlen [0; 0]) with 2 in *.
  destruct proto; rewrite ?zlen_app; autorewrite with zlen; lia.
Qed.

Lemma vectors_count pad proto atype alen vs : Forall (vector_fits proto atype alen) vs ->
  3 * Z.of_nat (length vs) <= zlen (concat (map (encode_vector pad proto atype) vs)).
Proof.
  induction 1 as [|v vs Hv _ IH]; [done|]. cbn [map concat length]. rewrite zlen_app.
  pose proof (encode_vector_length pad _ _ _ _ Hv). lia.
Qed.

Lemma messages_encoded pad proto ms pre post off fuel : 0 <= pad < 6 ->
  Forall (message_fits proto) ms -> 1 <= zlen pre -> zlen pre = off -> (length ms < fuel)%nat ->
  messages (pre ++ (concat (map (encode_message pad proto) ms) ++ [0; 0]) ++ post) proto fuel off =
  concat (map (message_values proto) ms).
Proof.
  intros Hpad Hm. revert pre off fuel. induction Hm as [|m ms [Ht Hl Hv] Hms IH]; intros pre off fuel Hpre Hoff Hf;
    (destruct fuel as [|fuel]; [lia|]); cbn [map concat length] in *.
  - cbn [app messages]. rewrite (proj2 (Z.ltb_lt _ _)) by (autorewrite with zlen; pose proof (zlen_nonneg post); lia).
    by rewrite raw_at_mid.
  - set (rest := concat (map (encode_message pad proto) ms)) in *.
    set (vs := concat (map (encode_vector pad proto (mg_type m)) (mg_vectors m))).
    set (ll := match proto with MSRP => be_bytes 2 (zlen (vs ++ [0; 0])) | MVRP => [] end).
    assert (zlen ll = if decide (proto = MSRP) then 2 else 0) as Hll
      by (destruct proto; [apply zlen_be_bytes|done]).
    assert (pre ++ ((encode_message pad proto m ++ rest) ++ [0; 0]) ++ post =
      (pre ++ [mg_type m; mg_length m] ++ ll) ++ (vs ++ [0; 0]) ++ ((rest ++ [0; 0]) ++ post)) as Eall.
    { unfold encode_message. fold vs. fold ll. by rewrite <-!app_assoc. }
    rewrite Eall. set (P := (pre ++ [mg_type m; mg_length m] ++ ll) ++ (vs ++ [0; 0]) ++ ((rest ++ [0; 0]) ++ post)).
    assert (zlen P = off + (2 + zlen ll) + (zlen vs + 2) + (zlen rest + 2 + zlen post)) as HP
      by (unfold P; rewrite !zlen_app; change (zlen [mg_type m; mg_length m]) with 2; change (zlen [0; 0]) with 2; lia).
    pose proof (zlen_nonneg vs). pose proof (zlen_nonneg rest). pose proof (zlen_nonneg post). pose proof (zlen_nonneg ll).
    assert (raw_at P off = mg_type m) as Etype
      by (unfold P; rewrite <-!app_assoc; cbn [app]; by apply raw_at_mid).
    assert (raw_at P (off + 1) = mg_length m) as Elen.
    { assert (P = (pre ++ [mg_type m]) ++ mg_length m :: (ll ++ (vs ++ [0; 0]) ++ ((rest ++ [0; 0]) ++ post))) as ->
        by (unfold P; by rewrite <-!app_assoc).
      apply raw_at_mid. autorewrite with zlen. lia. }
    cbn [messages]. rewrite (proj2 (Z.ltb_lt _ _)) by lia. cbv zeta. rewrite Etype, Elen.
    rewrite (proj2 (Z.eqb_neq (mg_type m) 0)), (proj2 (Z.eqb_neq (mg_length m) 0)) by lia.
    assert (bool_decide (proto = MSRP) && (zlen P <? off + 2 + 2) = false) as ->.
    { destruct (decide (proto = MSRP)) as [E|E]; [|by rewrite bool_decide_false].
      apply andb_false_intro2, Z.ltb_ge. lia. }
    assert ((if decide (proto = MSRP) then off + 2 + 2 else off + 2) = off + 2 + zlen ll) as ->
      by (rewrite Hll; destruct (decide _); lia).
    assert (vectors P proto (length P) (mg_type m) (mg_length m) (off + 2 + zlen ll) =
      (concat (map (vector_values proto (mg_type m)) (mg_vectors m)), off + 2 + zlen ll + zlen vs + 2)) as ->.
    { apply vectors_encoded; [done|done|rewrite !zlen_app; change (zlen [mg_type m; mg_length m]) with 2; lia|].
      pose proof (vectors_count pad _ _ _ _ Hv) as Hc. fold vs in Hc. unfold zlen at 1 in HP. lia. }
    unfold message_values at 1. f_equal.
    unfold P. rewrite app_assoc. apply IH; [| |lia];
      rewrite !zlen_app; change (zlen [mg_type m; mg_length m]) with 2; change (zlen [0; 0]) with 2; lia.
Qed.

(** Every value that was declared is read: the decoder returns, for an encoded
    MRPDU, each value of each vector of each message in order with its event and
    declaration, and looks at nothing behind the end mark. *)
Theorem mrpdu_round_trip pad proto version ms padding : 0 <= pad < 6 -> Forall (message_fits proto) ms ->
  decode_mrpdu (encode_mrpdu pad proto version ms ++ padding) proto = concat (map (message_values proto) ms).
Proof.
  intros Hpad Hm. unfold decode_mrpdu, encode_mrpdu.
  assert (([version] ++ concat (map (encode_message pad proto) ms) ++ [0; 0]) ++ padding =
    [version] ++ (concat (map (encode_message pad proto) ms) ++ [0; 0]) ++ padding) as -> by (by rewrite <-!app_assoc).
  set (P := [version] ++ _).
  assert (zlen P = 1 + (zlen (concat (map (encode_message pad proto) ms)) + 2 + zlen padding)) as HP
    by (unfold P; rewrite !zlen_app; done).
  assert (4 * Z.of_nat (length ms) <= zlen (concat (map (encode_message pad proto) ms))) as Hc.
  { clear. induction ms as [|m ms IH]; [done|]. cbn [map concat length]. rewrite zlen_app.
    pose proof (encode_message_length pad proto m). lia. }
  pose proof (zlen_nonneg padding).
  rewrite (proj2 (Z.ltb_ge _ _)) by lia. unfold P at 1. apply messages_encoded; [done..|].
  unfold zlen at 1 in HP. lia.
Qed.

(** * Any input *)

Section AnyInput.
Context (payload : bytes) (proto : protocol).
Hypothesis (Hb : Forall is_byte payload).

Local Abbreviation n := (zlen payload).

(** One vector moves the offset on, stays in the payload, and returns at most
    three values for each octet it used. *)
Lemma vector_progress atype alen off l e : 0 <= alen -> 0 <= off -> off + 2 <= n ->
  vector payload proto atype alen off = (l, e) ->
  match e with
  | NextVector off' => off + 2 < off' <= n /\ zlen l <= 3 * (off' - off)
  | LeaveMessage off' => off + 2 <= off' <= n /\ l = []
  end.
Proof using Type.
  intros Ha Ho Hn H. unfold vector in H. cbv zeta in H. revert H.
  set (vh := rd_be off 2 payload). destruct (vh =? 0); [intros [= <- <-]; split; [lia|done]|].
  assert (0 <= Z.land vh 0x1FFF) as Hv0 by (masks; by apply Z.mod_pos_bound).
  set (nv := Z.land vh 0x1FFF) in *. clearbody nv.
  destruct (Z.eqb_spec nv 0) as [E|E]; cbn [orb]; [intros [= <- <-]; split; [lia|done]|].
  destruct (Z.ltb_spec n (off + 2 + alen)); [intros [= <- <-]; split; [lia|done]|].
  assert (1 <= (nv + 2) / 3 /\ nv <= 3 * ((nv + 2) / 3)) as [Hq1 Hq2] by (Z.div_mod_to_equations; lia).
  destruct (Z.ltb_spec n (off + 2 + alen + (nv + 2) / 3)); [intros [= <- <-]; split; [lia|done]|].
  assert (forall f : Z -> MrpAttribute, zlen (map f (zrange 0 (Z.to_nat nv))) = nv) as Hl
    by (intros f; rewrite zlen_map; unfold zlen; rewrite zrange_length; lia).
  destruct proto; [destruct (atype =? MSRP_LISTENER)|].
  - assert (0 <= (nv + 3) / 4) by (Z.div_mod_to_equations; lia).
    destruct (Z.ltb_spec n (off + 2 + alen + (nv + 2) / 3 + (nv + 3) / 4)); intros [= <- <-]; [split; [lia|done]|].
    rewrite Hl. lia.
  - intros [= <- <-]. rewrite Hl. lia.
  - intros [= <- <-]. rewrite Hl. lia.
Qed.

Lemma vectors_progress fuel atype alen off l off' : 0 <= alen -> 0 <= off ->
  vectors payload proto fuel atype alen off = (l, off') ->
  off <= off' <= Z.max off n /\ zlen l <= 3 * (off' - off).
Proof using Type.
  intros Ha. revert off l off'. induction fuel as [|fuel IH]; intros off l off' Ho; cbn [vectors].
  { intros [= <- <-]. change (zlen (@nil MrpAttribute)) with 0. lia. }
  destruct (Z.leb_spec (off + 2) n); [|intros [= <- <-]; change (zlen (@nil MrpAttribute)) with 0; lia].
  destruct (vector payload proto atype alen off) as [l1 e] eqn:E.
  apply vector_progress in E; [|lia..]. destruct e as [o1|o1].
  - destruct (vectors payload proto fuel atype alen o1) as [rest o2] eqn:Er. intros [= <- <-].
    apply IH in Er; [|lia]. rewrite zlen_app. lia.
  - intros [= <- <-]. destruct E as [? ->]. change (zlen (@nil MrpAttribute)) with 0. lia.
Qed.

(** Fuel past the octets that are left changes nothing. *)
Lemma vectors_fuel f1 f2 atype alen off : 0 <= alen -> 0 <= off ->
  n - off < Z.of_nat f1 -> n - off < Z.of_nat f2 ->
  vectors payload proto f1 atype alen off = vectors payload proto f2 atype alen off.
Proof using Type.
  intros Ha. revert f2 off. induction f1 as [|f1 IH]; intros f2 off Ho H1 H2.
  - destruct f2 as [|f2]; [done|]. cbn [vectors]. by rewrite (proj2 (Z.leb_gt _ _)) by lia.
  - destruct f2 as [|f2]; cbn [vectors]; [by rewrite (proj2 (Z.leb_gt _ _)) by lia|].
    destruct (Z.leb_spec (off + 2) n); [|done].
    destruct (vector payload proto atype alen off) as [l1 [o1|o1]] eqn:E; [|done].
    apply vector_progress in E; [|lia..]. rewrite (IH f2 o1) by lia. done.
Qed.

Lemma messages_fuel f1 f2 off : 0 <= off -> n - off < Z.of_nat f1 -> n - off < Z.of_nat f2 ->
  messages payload proto f1 off = messages payload proto f2 off.
Proof using All.
  revert f2 off. induction f1 as [|f1 IH]; intros f2 off Ho H1 H2.
  - destruct f2 as [|f2]; [done|]. cbn [messages]. by rewrite (proj2 (Z.ltb_ge _ _)) by lia.
  - destruct f2 as [|f2]; cbn [messages]; [by rewrite (proj2 (Z.ltb_ge _ _)) by lia|].
    destruct (Z.ltb_spec (off + 1) n); [|done].
    destruct (raw_at payload off =? 0); [done|].
    destruct (bool_decide _ && _); [done|].
    set (o := if decide (proto = MSRP) then off + 2 + 2 else off + 2).
    assert (off + 2 <= o) by (unfold o; destruct (decide _); lia).
    destruct (raw_at payload (off + 1) =? 0); [done|].
    destruct (vectors payload proto (length payload) (raw_at payload off) (raw_at payload (off + 1)) o)
      as [l o2] eqn:E.
    assert (0 <= raw_at payload (off + 1)) as Hp.
    { unfold raw_at. rewrite nth_lookup. destruct (payload !! _) as [x|] eqn:Ex; [|done].
      apply (Forall_lookup_1 _ _ _ _ Hb) in Ex. unfold is_byte in Ex. cbn. lia. }
    apply vectors_progress in E; [|lia..]. by rewrite (IH f2 o2) by lia.
Qed.

Lemma messages_bound fuel off : 0 <= off <= n -> zlen (messages payload proto fuel off) <= 3 * (n - off).
Proof using All.
  revert off. induction fuel as [|fuel IH]; intros off Ho; cbn [messages];
    [change (zlen (@nil MrpAttribute)) with 0; lia|].
  assert (zlen (@nil MrpAttribute) <= 3 * (n - off)) as Hnil by (change (zlen (@nil MrpAttribute)) with 0; lia).
  destruct (Z.ltb_spec (off + 1) n); [|done]. destruct (raw_at payload off =? 0); [done|].
  destruct (bool_decide (proto = MSRP) && (n <? off + 2 + 2)) eqn:Hs; [done|].
  set (o := if decide (proto = MSRP) then off + 2 + 2 else off + 2).
  assert (off + 2 <= o <= n) as Hoo.
  { unfold o. destruct (decide (proto = MSRP)) as [Em|Em]; [|lia].
    rewrite bool_decide_true in Hs by done. cbn [andb] in Hs. apply Z.ltb_ge in Hs. lia. }
  destruct (raw_at payload (off + 1) =? 0); [done|].
  destruct (vectors payload proto (length payload) (raw_at payload off) (raw_at payload (off + 1)) o)
    as [l o2] eqn:E.
  assert (0 <= raw_at payload (off + 1)) as Hp.
  { unfold raw_at. rewrite nth_lookup. destruct (payload !! _) as [x|] eqn:Ex; [|done].
    apply (Forall_lookup_1 _ _ _ _ Hb) in Ex. unfold is_byte in Ex. cbn. lia. }
  apply vectors_progress in E; [|lia..]. rewrite zlen_app. specialize (IH o2 ltac:(lia)). lia.
Qed.
End AnyInput.

(** The decoder ends on every input: both loops stop before their fuel does, so
    that more of it changes nothing, and what is returned is at most three values
    for each octet of the PDU. *)
Theorem decode_mrpdu_ends payload proto more : Forall is_byte payload ->
  (forall atype alen off, 0 <= alen -> 1 <= off ->
     vectors payload proto (length payload + more) atype alen off =
     vectors payload proto (length payload) atype alen off) /\
  messages payload proto (length payload + more) 1 = messages payload proto (length payload) 1 /\
  zlen (decode_mrpdu payload proto) <= 3 * zlen payload.
Proof.
  intros Hb. split_and!.
  - intros atype alen off Ha Ho. apply vectors_fuel; unfold zlen; lia.
  - apply messages_fuel; [done|lia|unfold zlen; lia..].
  - unfold decode_mrpdu. destruct (Z.ltb_spec (zlen payload) 2);
      [change (zlen (@nil MrpAttribute)) with 0; pose proof (zlen_nonneg payload); lia|].
    pose proof (messages_bound payload proto Hb (length payload) 1 ltac:(lia)). lia.
Qed.

(** * What the decoder does that its description does not say *)

(** A vector cut short in its events is left where its events begin, and they are
    read as the next message: here the announced values never arrive, and the
    first octets of their vector name a Domain that was not declared. *)
Example events_read_as_message :
  decode_mrpdu ([0; 1; 2] ++ be_bytes 2 100 ++ [9; 9] ++ [4; 2; 0; 1; 7; 7; 0; 0; 0; 0]) MVRP
  = [attribute MVRP 4 0 [7; 7] [0; 0; 0] [] 0].
Proof. vm_compute. reflexivity. Qed.

(** The values of an MVRP vector are all given the first value's identifier. *)
Example mvrp_values_repeat :
  map at_fields (decode_mrpdu (encode_mrpdu 0 MVRP 0 [Message 1 [VectorOf 0 [0; 2] [1; 1; 1] []] 2]) MVRP)
  = [VidField (Some 2); VidField (Some 2); VidField (Some 2)].
Proof. vm_compute. reflexivity. Qed.

(** * Witness *)

(** A Talker Advertise vector of two streams and a Listener of four. *)
Definition sample_messages : list message :=
  [Message 1 [VectorOf 0 (be_bytes 8 0x020000FFFE010000 ++ [0x91; 0xe0; 0xf0; 0; 1; 2] ++ be_bytes 2 2
                          ++ be_bytes 2 224 ++ be_bytes 2 1 ++ [0x70] ++ be_bytes 4 1000) [1; 1] []] 25;
   Message 3 [VectorOf 1 (be_bytes 8 0x020000FFFE010000) [0; 1; 5; 2] [2; 3; 0; 1]] 8].

Lemma sample_messages_fit : Forall (message_fits MSRP) sample_messages.
Proof.
  repeat apply List.Forall_cons; [..|apply List.Forall_nil]; (constructor; [done..|]);
    repeat apply List.Forall_cons; try apply List.Forall_nil; constructor; cbn;
    first [done | repeat constructor; done | split; [done|]; repeat constructor; done].
Qed.

Lemma mrpdu_round_trip_witness :
  decode_mrpdu (encode_mrpdu 4 MSRP 0 sample_messages ++ [0; 0]) MSRP
  = concat (map (message_values MSRP) sample_messages).
Proof. apply (mrpdu_round_trip 4 MSRP 0 sample_messages [0; 0]); [lia|apply sample_messages_fit]. Defined.

Lemma decode_mrpdu_ends_witness : zlen (decode_mrpdu [0; 1; 2; 0; 4] MVRP) <= 3 * 5.
Proof.
  apply (decode_mrpdu_ends [0; 1; 2; 0; 4] MVRP 0). repeat constructor; by vm_compute.
Defined.
