(* ===== verification/WireFrames.v ===== *)
(** Frames built by hand from the figures of the standards: the byte-vector
    oracle of [tb/tools/avtp_wire_truth_frames.py], which shares no code with the
    decoders it is the reference for.

    A builder takes one record of fields; [replace] of a call site is an update of
    the record.  Addresses are the text [bytes.fromhex] reads. *)
From S2P Require Import Prelude Descriptors Unicode Text Packing WireTruth.

(** [bytes.fromhex]: pairs of digits, with spaces between the pairs. *)
Fixpoint from_hex (s : pystr) : result py_error bytes :=
  match s with
  | [] => Ok []
  | c :: s =>
      if ascii_space c then from_hex s
      else
        match s with
        | d :: s =>
            match hex_digit c, hex_digit d with
            | Some h, Some l => let* rest := from_hex s in Ok (h * 16 + l :: rest)
            | _, _ => Err ValueError
            end
        | [] => Err ValueError
        end
  end.

(** [bytes([a, b, ...])]. *)
Definition bytes_list (l : list Z) : result py_error bytes :=
  if forallb is_byteb l then Ok l else Err ValueError.

(** The Ethernet header of a stream frame, with its C-TAG. *)
Definition stream_header (dmac smac : pystr) (is_tagged : bool) (p v : Z) : result py_error bytes :=
  let* d := from_hex dmac in
  let* s := from_hex smac in
  let* tag := if is_tagged
              then let* t := pack 2 TPID_C_TAG in
                   let* tci := pack 2 (Z.lor (Z.shiftl p 13) (Z.land v 0xFFF)) in
                   Ok (t ++ tci)
              else Ok [] in
  let* e := pack 2 ETH_P_AVTP in
  Ok (d ++ s ++ tag ++ e).

(** * AAF *)

Record AafFrame := MkAafFrame {
  fr_dmac : pystr; fr_smac : pystr; fr_vid : Z; fr_pcp : Z; fr_tagged : bool; fr_seq : Z;
  fr_sid : Z; fr_ts : Z; fr_channels : Z; fr_fmt : Z; fr_bit_depth : Z; fr_nsr : Z;
  fr_sample_frames : Z; fr_samples : option (list (list Z)); fr_tv : Z; fr_tu : Z; fr_sp : Z; fr_mr : Z
}.

Definition default_aaf_frame : AafFrame :=
  MkAafFrame (lit "91e0f000fe01") (lit "020000000002") 2 3 true 0 0x0200000000020000 0 2 0x02 32 5 6 None 1 0 0 0.

(** The octets of a sample: those of its format, 32 bits when it has none. *)
Definition sample_width (f : AafFrame) : nat := Z.to_nat (default 32 (AAF_FORMAT_BITS !! fr_fmt f) / 8).

Definition aaf_pdu_head (f : AafFrame) : result py_error bytes :=
  let sdl := fr_sample_frames f * fr_channels f * Z.of_nat (sample_width f) in
  let pdu := zeros 24 in
  let* pdu := set_octet pdu 0 SUBTYPE_AAF in
  let* pdu := set_octet pdu 1 (Z.lor (Z.lor (Z.shiftl 1 7) (Z.shiftl (fr_mr f) 3)) (Z.land (fr_tv f) 1)) in
  let* pdu := set_octet pdu 2 (Z.land (fr_seq f) 0xFF) in
  let* pdu := set_octet pdu 3 (Z.land (fr_tu f) 1) in
  let* sid := to_be 8 (fr_sid f) in
  let pdu := set_slice 4 12 sid pdu in
  let* ts := pack 4 (Z.land (fr_ts f) 0xFFFFFFFF) in
  let pdu := set_slice 12 16 ts pdu in
  let* pdu := set_octet pdu 16 (fr_fmt f) in
  let* pdu := set_octet pdu 17 (Z.lor (Z.shiftl (Z.land (fr_nsr f) 0xF) 4)
                                  (Z.land (Z.shiftr (fr_channels f) 8) 0x3)) in
  let* pdu := set_octet pdu 18 (Z.land (fr_channels f) 0xFF) in
  let* pdu := set_octet pdu 19 (fr_bit_depth f) in
  let* sdl := pack 2 sdl in
  let pdu := set_slice 20 22 sdl pdu in
  set_octet pdu 22 (Z.shiftl (fr_sp f) 4).

(** [f.samples[n][c]], or silence. *)
Definition sample_at (f : AafFrame) (n c : Z) : result py_error Z :=
  match fr_samples f with
  | None => Ok 0
  | Some l =>
      match l !! Z.to_nat n with
      | Some row => match row !! Z.to_nat c with Some v => Ok v | None => Err IndexError end
      | None => Err IndexError
      end
  end.

Definition sample_octets (f : AafFrame) (n c : Z) : result py_error bytes :=
  let* v := sample_at f n c in
  to_be (sample_width f) (Z.land (Z.shiftl v 8) 0xFFFFFFFF).

Definition aaf_body (f : AafFrame) : result py_error bytes :=
  let* rows := mapR (fun n =>
      let* row := mapR (sample_octets f n) (zrange 0 (Z.to_nat (fr_channels f))) in
      Ok (concat row)) (zrange 0 (Z.to_nat (fr_sample_frames f))) in
  Ok (concat rows).

Definition build_aaf_frame (f : AafFrame) : result py_error bytes :=
  let* hdr := stream_header (fr_dmac f) (fr_smac f) (fr_tagged f) (fr_pcp f) (fr_vid f) in
  let* pdu := aaf_pdu_head f in
  let* body := aaf_body f in
  Ok (pad_to 60 (hdr ++ pdu ++ body)).

(** * CRF *)

Record CrfFrame := MkCrfFrame {
  fc_dmac : pystr; fc_smac : pystr; fc_vid : Z; fc_pcp : Z; fc_tagged : bool; fc_seq : Z;
  fc_sid : Z; fc_ts : Z; fc_base_hz : Z; fc_interval : Z; fc_pull : Z; fc_ctype : Z; fc_tu : Z; fc_n_ts : Z
}.

Definition default_crf_frame : CrfFrame :=
  MkCrfFrame (lit "91e0f000fe02") (lit "020000000002") 2 3 true 0 0x0200000000020001 0 48000 96 0 1 0 1.

Definition crf_pdu_head (f : CrfFrame) : result py_error bytes :=
  let pdu := zeros 20 in
  let* pdu := set_octet pdu 0 SUBTYPE_CRF in
  let* pdu := set_octet pdu 1 (Z.lor (Z.shiftl 1 7) (Z.land (fc_tu f) 1)) in
  let* pdu := set_octet pdu 2 (Z.land (fc_seq f) 0xFF) in
  let* pdu := set_octet pdu 3 (fc_ctype f) in
  let* sid := to_be 8 (fc_sid f) in
  let pdu := set_slice 4 12 sid pdu in
  let* base := pack 4 (Z.lor (Z.shiftl (Z.land (fc_pull f) 7) 29) (Z.land (fc_base_hz f) 0x1FFFFFFF)) in
  let pdu := set_slice 12 16 base pdu in
  let* dlen := pack 2 (8 * fc_n_ts f) in
  let pdu := set_slice 16 18 dlen pdu in
  let* interval := pack 2 (fc_interval f) in
  Ok (set_slice 18 20 interval pdu).

(** The timestamp of event [i]: the division is of everything before it. *)
Definition crf_timestamp (f : CrfFrame) (i : Z) : result py_error bytes :=
  if fc_base_hz f =? 0 then Err ZeroDivision
  else to_be 8 (fc_ts f + i * fc_interval f * 1000000000 / fc_base_hz f).

Definition build_crf_frame (f : CrfFrame) : result py_error bytes :=
  let* hdr := stream_header (fc_dmac f) (fc_smac f) (fc_tagged f) (fc_pcp f) (fc_vid f) in
  let* pdu := crf_pdu_head f in
  let* body := mapR (crf_timestamp f) (zrange 0 (Z.to_nat (fc_n_ts f))) in
  Ok (pad_to 60 (hdr ++ pdu ++ concat body)).

(** * MRP *)

Definition MRP_GROUP_DMAC : bytes := [0x01; 0x80; 0xc2; 0x00; 0x00; 0x0e].
Definition MVRP_VID : Z := 1.
Definition MSRP_ATTR_LEN : gmap Z Z := list_to_map [(1, 25); (2, 34); (3, 8); (4, 4)].

(** One entry of [attrs]: the type, the first value, and an event and, in a
    Listener attribute, a declaration for each value. *)
Record msrp_attr := MsrpAttr { ma_type : Z; ma_first : bytes; ma_events : list Z; ma_decls : list Z }.

(** [bytearray.append] of a number. *)
Definition one_octet (v : Z) : result py_error Z := if is_byteb v then Ok v else Err ValueError.

(** Octet [k] of the events, three to an octet, filled up with Mt ... *)
Definition event_octet (events : list Z) (k : Z) : result py_error Z :=
  let trio := zslice (3 * k) 3 (events ++ [4; 4]) in
  let* a := octet trio 0 in
  let* b := octet trio 1 in
  let* c := octet trio 2 in
  one_octet ((a * 6 + b) * 6 + c).

(** ... and of the declarations, four to an octet. *)
Definition decl_octet (decls : list Z) (k : Z) : result py_error Z :=
  let q := zslice (4 * k) 4 (decls ++ [0; 0; 0]) in
  let* a := octet q 0 in
  let* b := octet q 1 in
  let* c := octet q 2 in
  let* d := octet q 3 in
  one_octet (Z.lor (Z.lor (Z.lor (Z.shiftl a 6) (Z.shiftl b 4)) (Z.shiftl c 2)) d).

(** The message of one entry, with its single vector. *)
Definition msrp_message (a : msrp_attr) : result py_error bytes :=
  let alen := default (zlen (ma_first a)) (MSRP_ATTR_LEN !! ma_type a) in
  let n := zlen (ma_events a) in
  let* vec := mapR (event_octet (ma_events a)) (zrange 0 (Z.to_nat ((n + 2) / 3))) in
  let* fp := if ma_type a =? MSRP_LISTENER
             then mapR (decl_octet (ma_decls a)) (zrange 0 (Z.to_nat ((n + 3) / 4))) else Ok [] in
  let* count := pack 2 (Z.land n 0x1FFF) in
  let vector := count ++ ma_first a ++ vec ++ fp in
  let* head := bytes_list [ma_type a; alen] in
  let* len := pack 2 (zlen vector + 2) in
  Ok (head ++ len ++ vector ++ [0; 0]).

Definition build_msrp_frame (smac : pystr) (attrs : list msrp_attr) : result py_error bytes :=
  let* messages := mapR msrp_message attrs in
  let body := [0] ++ concat messages ++ [0; 0] in
  let* s := from_hex smac in
  let* e := pack 2 ETH_P_MSRP in
  Ok (pad_to 60 (MRP_GROUP_DMAC ++ s ++ e ++ body)).

Record TalkerAdvertise := MkTalkerAdvertise {
  ta_stream_id : Z; ta_dmac : pystr; ta_vid : Z; ta_max_frame : Z; ta_max_interval : Z;
  ta_pcp : Z; ta_rank : Z; ta_latency : Z
}.

Definition default_talker_advertise : TalkerAdvertise :=
  MkTalkerAdvertise 0x0200000000020000 (lit "91e0f000fe01") 2 1024 1 3 1 0.

Definition msrp_talker_advertise_value (t : TalkerAdvertise) : result py_error bytes :=
  let* sid := to_be 8 (ta_stream_id t) in
  let* d := from_hex (ta_dmac t) in
  let* v := pack 2 (ta_vid t) in
  let* mf := pack 2 (ta_max_frame t) in
  let* mi := pack 2 (ta_max_interval t) in
  let* pr := bytes_list [Z.lor (Z.shiftl (Z.land (ta_pcp t) 7) 5) (Z.shiftl (Z.land (ta_rank t) 1) 4)] in
  let* lat := pack 4 (ta_latency t) in
  Ok (sid ++ d ++ (v ++ mf ++ mi) ++ pr ++ lat).

Definition msrp_listener_value (stream_id : Z) : result py_error bytes := to_be 8 stream_id.

Definition msrp_domain_value (class_id priority vid : Z) : result py_error bytes :=
  let* head := bytes_list [class_id; priority] in
  let* v := pack 2 vid in
  Ok (head ++ v).

(** One VID: a vector of one value, with JoinIn in its first place. *)
Definition mvrp_vector (v : Z) : result py_error bytes :=
  let* n := pack 2 1 in
  let* v := pack 2 v in
  Ok (n ++ v ++ [36]).

Definition build_mvrp_frame (smac : pystr) (vids : list Z) : result py_error bytes :=
  let* vectors := mapR mvrp_vector vids in
  let body := [0; MVRP_VID; 2] ++ concat vectors ++ [0; 0; 0; 0] in
  let* s := from_hex smac in
  let* e := pack 2 ETH_P_MVRP in
  Ok (pad_to 60 (MRP_GROUP_DMAC ++ s ++ e ++ body)).

(** * ADP *)

Definition build_adp_frame (smac : pystr) (eid available_index cdl body_len message_type : Z) :
    result py_error bytes :=
  let* d := from_hex (lit "91e0f0010000") in
  let* s := from_hex smac in
  let* e := pack 2 ETH_P_AVTP in
  let pdu := zeros 4 in
  let* pdu := set_octet pdu 0 SUBTYPE_ADP in
  let* pdu := set_octet pdu 1 (Z.lor (Z.shiftl 1 7) (Z.land message_type 0x0F)) in
  let* w := pack 2 (Z.lor (Z.shiftl 31 11) (Z.land cdl 0x7FF)) in
  let pdu := set_slice 2 4 w pdu in
  let* body := to_bytes (VInt body_len) in
  let* id := to_be 8 eid in
  let body := set_slice 0 8 id body in
  let* body := if 36 <=? body_len
               then let* ai := pack 4 available_index in Ok (set_slice 32 36 ai body) else Ok body in
  Ok ((d ++ s ++ e) ++ pdu ++ body).
