(* ===== verification/WireOracle.v ===== *)
(** The decoders against the byte-vector oracle: a frame built from the figures
    ([WireFrames]) decodes to the fields it was built from ([WireTruth]).  The
    two share no code, in the source as here. *)
From S2P Require Import Prelude Descriptors Unicode Text Packing WireTruth MrpWire WireFrames.

(** * Builders that succeed *)

Lemma set_octet_Ok b i v b' : set_octet b i v = Ok b' ->
  is_byte v /\ b' = <[Z.to_nat i := v]> b.
Proof.
  unfold set_octet. destruct (_ <=? _); [done|]. destruct (is_byteb v) eqn:E; [|done].
  intros [= <-]. split; [|done]. unfold is_byteb in E. bool_prop. unfold is_byte. lia.
Qed.

Lemma to_be_Ok n v b : to_be n v = Ok b -> 0 <= v < 256 ^ Z.of_nat n /\ b = be_bytes n v.
Proof. unfold to_be. destruct (_ && _) eqn:E; [|done]. intros [= <-]. bool_prop. split; [lia|done]. Qed.

Lemma bytes_list_Ok l b : bytes_list l = Ok b -> b = l /\ Forall is_byte l.
Proof.
  unfold bytes_list. destruct (forallb _ _) eqn:E; [|done]. intros [= <-]. split; [done|].
  rewrite forallb_forall in E. apply List.Forall_forall. intros x Hx%E. unfold is_byteb in Hx. bool_prop.
  unfold is_byte. lia.
Qed.

(** Open a builder: its steps as facts, its octets as an explicit list. *)
Ltac built H :=
  rsplit H;
  repeat match goal with
  | H : set_octet _ _ _ = Ok _ |- _ => apply set_octet_Ok in H; destruct H as [? ->]
  | H : to_be _ _ = Ok _ |- _ => apply to_be_Ok in H; destruct H as [? ->]
  | H : pack _ _ = Ok _ |- _ => apply pack_Ok in H; destruct H as [? ->]
  | H : bytes_list _ = Ok _ |- _ => apply bytes_list_Ok in H; destruct H as [-> ?]
  end.

(** The header of a stream frame is that of a [framed] one. *)
Lemma stream_header_Ok dmac smac is_tagged p v h d s body :
  stream_header dmac smac is_tagged p v = Ok h -> from_hex dmac = Ok d -> from_hex smac = Ok s ->
  (is_tagged = true -> 0 <= p < 8) /\
  h ++ body = framed d s (if is_tagged then Some (p * 8192 + v mod 4096) else None) ETH_P_AVTP body.
Proof.
  intros H Hd Hs. unfold stream_header in H. rewrite Hd, Hs in H. cbn [rbind] in H.
  pose proof (Z.mod_pos_bound v 4096 ltac:(done)). unfold framed. destruct is_tagged; built H; subst.
  - match goal with H : 0 <= Z.lor _ _ < _ |- _ => revert H end.
    masks. rewrite join_bits by (change (2 ^ 13) with 8192; lia). change (2 ^ 13) with 8192.
    change (256 ^ Z.of_nat 2) with 65536. intros Hr. split; [intros _; lia|]. by rewrite <-!app_assoc.
  - split; [done|]. by rewrite <-!app_assoc.
Qed.

Lemma tci_fields p m : 0 <= m < 4096 ->
  (p * 8192 + m) / 8192 = p /\ (p * 8192 + m) / 4096 mod 2 = 0 /\ (p * 8192 + m) mod 4096 = m.
Proof. intros. split_and!; Z.div_mod_to_equations; lia. Qed.

Lemma pad_to_app n f : exists k, pad_to n f = f ++ zeros k.
Proof. unfold pad_to. by eexists. Qed.

(** * AAF *)

Definition aaf_head_octets (f : AafFrame) (sdl : Z) : bytes :=
  [SUBTYPE_AAF; Z.lor (Z.lor (Z.shiftl 1 7) (Z.shiftl (fr_mr f) 3)) (Z.land (fr_tv f) 1);
   Z.land (fr_seq f) 0xFF; Z.land (fr_tu f) 1]
  ++ be_bytes 8 (fr_sid f) ++ be_bytes 4 (Z.land (fr_ts f) 0xFFFFFFFF)
  ++ [fr_fmt f; Z.lor (Z.shiftl (Z.land (fr_nsr f) 0xF) 4) (Z.land (Z.shiftr (fr_channels f) 8) 0x3);
      Z.land (fr_channels f) 0xFF; fr_bit_depth f]
  ++ be_bytes 2 sdl ++ [Z.shiftl (fr_sp f) 4; 0].

Lemma aaf_head_Ok f pdu : aaf_pdu_head f = Ok pdu ->
  let sdl := fr_sample_frames f * fr_channels f * Z.of_nat (sample_width f) in
  pdu = aaf_head_octets f sdl /\ 0 <= fr_sid f < 2 ^ 64 /\ 0 <= sdl < 65536.
Proof.
  intros H. unfold aaf_pdu_head in H. built H.
  split; [reflexivity|]. split; [assumption|]. assumption.
Qed.

(** A sample in its octets. *)
Definition slot (w : nat) (v : Z) : bytes := be_bytes w (Z.land (Z.shiftl v 8) 0xFFFFFFFF).

Lemma mapR_zrange_Ok {B} (g : Z -> result py_error B) n l : mapR g (zrange 0 n) = Ok l ->
  length l = n /\ forall k y, l !! k = Some y -> g (Z.of_nat k) = Ok y.
Proof.
  intros H. pose proof (mapR_length _ _ _ H) as Hlen. rewrite zrange_length in Hlen. split; [done|].
  intros k y Hy. apply mapR_Ok in H. destruct (Forall2_lookup_r _ _ _ _ _ H Hy) as (x & Hx & Hgx).
  rewrite zrange_lookup in Hx. destruct (decide (k < n)%nat); [|done]. injection Hx as <-. exact Hgx.
Qed.

Lemma row_octets f n octets : mapR (sample_octets f n) (zrange 0 (Z.to_nat (fr_channels f))) = Ok octets ->
  exists row, length row = Z.to_nat (fr_channels f) /\ octets = map (slot (sample_width f)) row /\
    forall c v, row !! c = Some v -> sample_at f n (Z.of_nat c) = Ok v.
Proof.
  intros H. apply mapR_zrange_Ok in H as [Hlen H].
  exists (map (fun b => match sample_at f n (Z.of_nat b) with Ok v => v | Err _ => 0 end) (seq 0 (Z.to_nat (fr_channels f)))).
  assert (forall c o, octets !! c = Some o -> exists v, sample_at f n (Z.of_nat c) = Ok v /\ o = slot (sample_width f) v) as Hc.
  { intros c o Ho. specialize (H c o Ho). unfold sample_octets in H. rsplit H.
    apply to_be_Ok in H as [_ ->]. by exists v. }
  split; [by rewrite length_map, length_seq|]. split.
  - apply list_eq. intros k. rewrite map_map, list_lookup_fmap. destruct (octets !! k) as [o|] eqn:Eo.
    + destruct (Hc k o Eo) as (v & Hv & ->). pose proof (lookup_lt_Some _ _ _ Eo) as Hk. rewrite Hlen in Hk.
      rewrite lookup_seq_lt by done. cbn [fmap option_fmap option_map]. by rewrite Nat.add_0_l, Hv.
    + apply lookup_ge_None in Eo. by rewrite lookup_seq_ge by lia.
  - intros c v Hv. rewrite list_lookup_fmap in Hv. apply fmap_Some in Hv as (k & Hk & ->).
    apply lookup_seq in Hk as [-> Hk]. cbn [Nat.add]. rewrite <-Hlen in Hk.
    destruct (lookup_lt_is_Some_2 octets c Hk) as [o Ho]. destruct (Hc c o Ho) as (v & Hv & _). by rewrite Hv.
Qed.

(** The body is the slots of a matrix, row by row, each entry the sample that was
    asked for. *)
Lemma aaf_body_Ok f body : aaf_body f = Ok body ->
  exists rows, length rows = Z.to_nat (fr_sample_frames f) /\
    Forall (fun row => length row = Z.to_nat (fr_channels f)) rows /\
    body = concat (map (slot (sample_width f)) (concat rows)) /\
    forall n row c v, rows !! n = Some row -> row !! c = Some v -> sample_at f (Z.of_nat n) (Z.of_nat c) = Ok v.
Proof.
  intros H. unfold aaf_body in H. rsplit H. subst body. apply mapR_zrange_Ok in Hm as [Hlen H].
  revert H. rewrite <-Hlen. clear Hlen. induction v as [|b bs IH] using rev_ind; intros H.
  { exists []. split_and!; try done. }
  destruct IH as (rows & Hl & Hr & Hb & Hv).
  { intros k y Hy. apply H. by apply lookup_app_l_Some. }
  specialize (H (length bs) b (list_lookup_middle bs [] b _ eq_refl)). rsplit H.
  apply row_octets in Hm as (row & Hrow & -> & Hc). subst b.
  exists (rows ++ [row]). split_and!.
  - by rewrite !length_app, Hl.
  - apply Forall_app. split; [done|]. by apply Forall_singleton.
  - rewrite !concat_app, Hb. cbn [concat]. rewrite !app_nil_r, map_app, concat_app. done.
  - intros n r c v Hn. apply lookup_app_Some in Hn as [Hn|[Hge Hn]]; [by apply Hv|].
    rewrite Hl in Hge, Hn. destruct (n - length bs)%nat as [|k] eqn:E; [|by destruct k].
    injection Hn as <-. replace n with (length bs) by lia. apply Hc.
Qed.

(** The fields a stream of 32-bit samples can carry. *)
Record aaf_fits (f : AafFrame) : Prop := {
  af_fmt : AAF_FORMAT_BITS !! fr_fmt f = Some 32;
  af_frames : 0 < fr_sample_frames f;
  af_channels : 0 < fr_channels f < 1024;
  af_mr : 0 <= fr_mr f < 2;
  af_sp : 0 <= fr_sp f < 2
}.

(** What the figure says a reader sees. *)
Definition aaf_seen (f : AafFrame) (body : bytes) : AafPdu :=
  MkAafPdu 1 0 (fr_mr f) (fr_tv f mod 2) (fr_seq f mod 256) (fr_tu f mod 2) (fr_sid f) (fr_ts f mod 2 ^ 32)
    (fr_fmt f) (fr_nsr f mod 16) (fr_channels f) (fr_bit_depth f)
    (fr_sample_frames f * fr_channels f * 4) (fr_sp f) 0 body.

Lemma b1_fields mr tv : 0 <= mr < 2 ->
  let b := Z.lor (Z.lor (Z.shiftl 1 7) (Z.shiftl mr 3)) (Z.land tv 1) in
  Z.land (Z.shiftr b 7) 1 = 1 /\ Z.land (Z.shiftr b 4) 0x7 = 0 /\ Z.land (Z.shiftr b 3) 1 = mr /\
  Z.land b 1 = tv mod 2.
Proof.
  intros Hm. change (Z.land tv 1) with (Z.land tv (Z.ones 1)). rewrite Z.land_ones by done. change (2 ^ 1) with 2.
  pose proof (Z.mod_pos_bound tv 2 ltac:(done)) as Ht.
  assert (tv mod 2 = 0 \/ tv mod 2 = 1) as [-> | ->] by lia;
  assert (mr = 0 \/ mr = 1) as [-> | ->] by lia; done.
Qed.

Lemma channel_fields nsr ch : 0 <= ch < 1024 ->
  let b := Z.lor (Z.shiftl (Z.land nsr 0xF) 4) (Z.land (Z.shiftr ch 8) 0x3) in
  Z.land (Z.shiftr b 4) 0xF = nsr mod 16 /\
  Z.lor (Z.shiftl (Z.land b 0x03) 8) (Z.land ch 0xFF) = ch.
Proof.
  intros Hc. cbv zeta. masks. rewrite !Z.shiftr_div_pow2 by done. change (2 ^ 8) with 256. change (2 ^ 4) with 16.
  pose proof (Z.mod_pos_bound (ch / 256) 4 ltac:(done)).
  pose proof (Z.mod_pos_bound nsr 16 ltac:(done)).
  pose proof (Z.mod_pos_bound ch 256 ltac:(done)).
  rewrite join_bits by (change (2 ^ 4) with 16; lia). rewrite join_bits by (change (2 ^ 8) with 256; lia).
  change (2 ^ 8) with 256. change (2 ^ 4) with 16. split; Z.div_mod_to_equations; lia.
Qed.

Lemma decode_aaf_head f body pad : aaf_fits f -> 0 <= fr_sid f < 2 ^ 64 ->
  fr_sample_frames f * fr_channels f * 4 < 65536 -> zlen body = fr_sample_frames f * fr_channels f * 4 ->
  decode_aaf (aaf_head_octets f (zlen body) ++ body ++ pad) = Some (aaf_seen f body).
Proof.
  intros [Hf Hsf Hch Hmr Hsp] Hsid Hsdl Hb. set (h := aaf_head_octets f (zlen body)).
  set (pdu := h ++ body ++ pad).
  assert (zlen h = 24) as Hh by reflexivity.
  pose proof (zlen_nonneg body). pose proof (zlen_nonneg pad).
  unfold decode_aaf. rewrite (proj2 (Z.ltb_ge _ _)) by (unfold pdu; rewrite !zlen_app; lia).
  change (raw_at pdu 0) with SUBTYPE_AAF.
  change (raw_at pdu 1) with (Z.lor (Z.lor (Z.shiftl 1 7) (Z.shiftl (fr_mr f) 3)) (Z.land (fr_tv f) 1)).
  change (raw_at pdu 2) with (Z.land (fr_seq f) 0xFF). change (raw_at pdu 3) with (Z.land (fr_tu f) 1).
  change (raw_at pdu 16) with (fr_fmt f).
  change (raw_at pdu 17) with (Z.lor (Z.shiftl (Z.land (fr_nsr f) 0xF) 4) (Z.land (Z.shiftr (fr_channels f) 8) 0x3)).
  change (raw_at pdu 18) with (Z.land (fr_channels f) 0xFF). change (raw_at pdu 19) with (fr_bit_depth f).
  change (raw_at pdu 22) with (Z.shiftl (fr_sp f) 4).
  change (rd_be 4 8 pdu) with (of_be (be_bytes 8 (fr_sid f))).
  change (rd_be 12 4 pdu) with (of_be (be_bytes 4 (Z.land (fr_ts f) 0xFFFFFFFF))).
  change (rd_be 20 2 pdu) with (of_be (be_bytes 2 (zlen body))).
  rewrite (of_be_be_bytes_id 8), (of_be_be_bytes_id 2) by (try assumption; change (256 ^ Z.of_nat 2) with 65536; lia).
  rewrite (Z.eqb_refl SUBTYPE_AAF), (proj2 (Z.eqb_neq (zlen body) 0)) by nia. cbn [negb orb].
  destruct (b1_fields (fr_mr f) (fr_tv f) Hmr) as (-> & -> & -> & ->).
  destruct (channel_fields (fr_nsr f) (fr_channels f) ltac:(lia)) as (-> & ->).
  assert (zslice 24 (zlen body) pdu = body) as ->
    by (unfold pdu; rewrite (zslice_skip h _ 24) by done; rewrite Z.sub_diag; by apply zslice_hit).
  rewrite Hb. unfold aaf_seen. masks.
  rewrite of_be_be_bytes_id by (by apply Z.mod_pos_bound).
  assert (fr_sp f = 0 \/ fr_sp f = 1) as [-> | ->] by lia;
    rewrite ?Z.mod_mod by done; reflexivity.
Qed.

(** A sample as a reader sees it: shifted left by eight and signed, in 32 bits. *)
Definition wide (v : Z) : Z := (256 * v + 2 ^ 31) mod 2 ^ 32 - 2 ^ 31.

Lemma slot_read v : let raw := of_be (slot 4 v) in
  (if negb (Z.shiftr raw 31 =? 0) then raw - Z.shiftl 1 32 else raw) = wide v.
Proof.
  intros raw. assert (raw = (256 * v) mod 2 ^ 32) as Er.
  { unfold raw, slot. masks. rewrite Z.shiftl_mul_pow2 by done. rewrite of_be_be_bytes_id by (by apply Z.mod_pos_bound).
    f_equal. change (2 ^ 8) with 256. lia. }
  clearbody raw. rewrite Z.shiftr_div_pow2 by done. unfold wide. change (Z.shiftl 1 32) with (2 ^ 32).
  change (2 ^ 31) with 2147483648. change (2 ^ 32) with 4294967296 in *.
  destruct (Z.eqb_spec (raw / 2147483648) 0); cbn [negb]; Z.div_mod_to_equations; lia.
Qed.

Lemma sample_read f rows body n row c v : aaf_fits f ->
  Forall (fun row => length row = Z.to_nat (fr_channels f)) rows -> body = concat (map (slot 4) (concat rows)) ->
  rows !! n = Some row -> row !! c = Some v -> sample (aaf_seen f body) n c = Some (wide v).
Proof.
  intros [Hf Hsf Hch _ _] Hrows -> Hn Hc. unfold sample, sample_bits. cbn [aaf_seen a_fmt a_channels_per_frame a_payload].
  rewrite Hf. set (ch := fr_channels f) in *.
  assert (length row = Z.to_nat ch) as Hrow by (eapply (Forall_lookup_1 _ _ _ _ Hrows Hn)).
  pose proof (lookup_lt_Some _ _ _ Hc) as Hcl. rewrite Hrow in Hcl.
  rewrite (proj2 (Z.leb_gt _ _)) by lia. change (32 / 8) with 4. change (32 - 1) with 31.
  assert (concat rows !! (Z.to_nat (Z.of_nat n * ch + Z.of_nat c)) = Some v) as Hk.
  { rewrite <-(concat_lookup rows n row c v Hn Hc). f_equal.
    rewrite (length_concat_const _ (Z.to_nat ch)) by (by apply Forall_take).
    rewrite length_take_le by (apply lookup_lt_Some in Hn; lia). nia. }
  pose proof (zslice_array (slot 4) 4 [] (concat rows) (Z.of_nat n * ch + Z.of_nat c) v
    (fun _ => zlen_be_bytes _ _) ltac:(lia) Hk ltac:(nia)) as Hz.
  cbn [app] in Hz. rewrite zlen_nil, Z.add_0_l, (Z.mul_comm 4) in Hz.
  assert (zlen (concat (map (slot 4) (concat rows))) = 4 * zlen (concat rows)) as Hl
    by (apply zlen_concat_const; intros; apply zlen_be_bytes).
  assert (Z.of_nat n * ch + Z.of_nat c < zlen (concat rows)) as Hlt
    by (apply lookup_lt_Some in Hk; unfold zlen; lia).
  rewrite (proj2 (Z.ltb_ge _ _)) by lia. unfold rd_be. rewrite Hz. by rewrite slot_read.
Qed.

(** Every frame the oracle builds decodes to the figure it was built from: the
    envelope, every header field at its width, the number of sample frames, and
    each sample, left-justified and signed, at its place in its channel. *)
Theorem aaf_frame_reads f frame d s :
  build_aaf_frame f = Ok frame -> aaf_fits f ->
  from_hex (fr_dmac f) = Ok d -> zlen d = 6 -> from_hex (fr_smac f) = Ok s -> zlen s = 6 ->
  exists eth p, decode_eth frame = Some eth /\ decode_aaf (e_payload eth) = Some p /\
    (e_dst eth, e_src eth, tagged eth, e_ethertype eth) = (d, s, fr_tagged f, ETH_P_AVTP) /\
    (fr_tagged f = true -> (pcp eth, dei eth, vid eth) = (Some (fr_pcp f), Some 0, Some (fr_vid f mod 4096))) /\
    p = aaf_seen f (a_payload p) /\ sample_frames p = Some (fr_sample_frames f) /\
    forall n c, 0 <= n < fr_sample_frames f -> 0 <= c < fr_channels f ->
      exists v, sample_at f n c = Ok v /\ sample p (Z.to_nat n) (Z.to_nat c) = Some (wide v).
Proof.
  intros H Hfit Hd Hd6 Hs Hs6. unfold build_aaf_frame in H. rsplit H. subst frame.
  destruct Hfit as [Hf Hsf Hch Hmr Hsp] eqn:Efit. clear Efit.
  assert (sample_width f = 4%nat) as Hw by (unfold sample_width; by rewrite Hf).
  apply aaf_head_Ok in Hm0 as (-> & Hsid & Hsdl). rewrite Hw in *. change (Z.of_nat 4) with 4 in *.
  apply aaf_body_Ok in Hm1 as (rows & Hlen & Hrows & Hbody & Hval). rewrite Hw in Hbody.
  assert (zlen v1 = fr_sample_frames f * fr_channels f * 4) as Hb.
  { rewrite Hbody, (zlen_concat_const _ 4) by (intros; apply zlen_be_bytes). unfold zlen.
    rewrite (length_concat_const _ (Z.to_nat (fr_channels f))), Hlen by done. nia. }
  rewrite <-Hb. destruct (pad_to_app 60 (v ++ aaf_head_octets f (zlen v1) ++ v1)) as [k ->].
  rewrite <-!app_assoc.
  destruct (stream_header_Ok _ _ _ _ _ _ d s (aaf_head_octets f (zlen v1) ++ v1 ++ zeros k) Hm Hd Hs) as [Hp ->].
  pose proof (Z.mod_pos_bound (fr_vid f) 4096 ltac:(done)) as Hv.
  rewrite decode_eth_framed; [|done|done|destruct (fr_tagged f); [specialize (Hp eq_refl); lia|done]|done|done].
  eexists. exists (aaf_seen f v1). split; [reflexivity|]. cbn [e_payload e_dst e_src tagged pcp dei vid e_ethertype].
  split; [apply decode_aaf_head; [done|done|lia|done]|]. split; [by destruct (fr_tagged f)|].
  split; [intros Ht; rewrite Ht in *; specialize (Hp eq_refl); cbn [fmap option_fmap option_map];
    by destruct (tci_fields (fr_pcp f) (fr_vid f mod 4096)) as (-> & -> & ->)|].
  split; [done|]. split.
  { unfold sample_frames, sample_bits. cbn [aaf_seen a_fmt a_channels_per_frame a_stream_data_length]. rewrite Hf.
    rewrite (proj2 (Z.eqb_neq (fr_channels f) 0)) by lia. change (32 =? 0) with false. change (32 / 8) with 4. cbn [orb].
    replace (fr_sample_frames f * fr_channels f * 4) with (fr_sample_frames f * (4 * fr_channels f)) by lia.
    rewrite Z.mod_mul, Z.div_mul, (proj2 (Z.eqb_neq (4 * fr_channels f) 0)) by lia. done. }
  intros n c Hn Hc.
  destruct (lookup_lt_is_Some_2 rows (Z.to_nat n)) as [row Hrow]; [lia|].
  assert (length row = Z.to_nat (fr_channels f)) as Hrl by (eapply (Forall_lookup_1 _ _ _ _ Hrows Hrow)).
  destruct (lookup_lt_is_Some_2 row (Z.to_nat c)) as [x Hx]; [lia|].
  exists x. split; [rewrite <-(Hval _ _ _ _ Hrow Hx); f_equal; lia|].
  by apply (sample_read f rows v1 _ row).
Qed.

(** * MRP *)

Lemma mapR_shift {B} (g : Z -> result py_error B) a n :
  mapR g (zrange (a + 1) n) = mapR (fun k => g (k + 1)) (zrange a n).
Proof.
  revert a. induction n as [|n IH]; intros a; [done|]. cbn [zrange mapR]. by rewrite IH.
Qed.

Lemma one_octet_total v : 0 <= v < 256 -> one_octet v = Ok v.
Proof.
  intros H. unfold one_octet, is_byteb. by rewrite (proj2 (Z.leb_le 0 v)), (proj2 (Z.ltb_lt v 256)) by lia.
Qed.

Lemma zslice_drop {A} (a b : list A) k o n : zlen a = k -> 0 <= o -> zslice (k + o) n (a ++ b) = zslice o n b.
Proof. intros Ha Ho. rewrite (zslice_skip a b k) by lia. f_equal. lia. Qed.

Lemma mapR_ext_range {B} (g g' : Z -> result py_error B) a n :
  (forall k, a <= k -> g k = g' k) -> mapR g (zrange a n) = mapR g' (zrange a n).
Proof.
  revert a. induction n as [|n IH]; intros a H; [done|]. cbn [zrange mapR]. rewrite H by lia.
  destruct (g' a); [|done]. cbn [rbind]. rewrite IH; [done|]. intros k Hk. apply H. lia.
Qed.

(** The events of a vector are packed as the encoder of [MrpWire] packs them. *)
Lemma event_octets events : Forall (fun e => 0 <= e < 6) events ->
  mapR (event_octet events) (zrange 0 (Z.to_nat ((zlen events + 2) / 3))) = Ok (pack_three 4 events).
Proof.
  cut (forall n events, (length events <= n)%nat -> Forall (fun e => 0 <= e < 6) events ->
    mapR (event_octet events) (zrange 0 (Z.to_nat ((zlen events + 2) / 3))) = Ok (pack_three 4 events)); [eauto|].
  intros n. induction n as [|n IH]; intros [|a [|b [|c r]]] Hn H; cbn in Hn; try lia; try reflexivity;
    rewrite ?List.Forall_cons_iff in H.
  - change (Z.to_nat ((zlen [a] + 2) / 3)) with 1%nat. cbn [zrange mapR].
    change (event_octet [a] 0) with (one_octet ((a * 6 + 4) * 6 + 4)). rewrite one_octet_total by lia.
    cbn [rbind pack_three]. do 2 f_equal. lia.
  - change (Z.to_nat ((zlen [a; b] + 2) / 3)) with 1%nat. cbn [zrange mapR].
    change (event_octet [a; b] 0) with (one_octet ((a * 6 + b) * 6 + 4)). rewrite one_octet_total by lia.
    cbn [rbind pack_three]. do 2 f_equal. lia.
  - destruct H as (Ha & Hb & Hc & Hr). rewrite !zlen_cons.
    replace (1 + (1 + (1 + zlen r)) + 2) with (zlen r + 2 + 1 * 3) by lia. rewrite Z.div_add by done.
    rewrite Z2Nat.inj_add by first [lia | pose proof (zlen_nonneg r); apply Z.div_pos; lia].
    rewrite Nat.add_comm. change (Z.to_nat 1) with 1%nat. cbn [Nat.add zrange mapR].
    change (event_octet (a :: b :: c :: r) 0) with (one_octet ((a * 6 + b) * 6 + c)). rewrite one_octet_total by lia.
    cbn [rbind]. change 1 with (0 + 1) at 1. rewrite mapR_shift.
    rewrite (mapR_ext_range _ (event_octet r)).
    2:{ intros k Hk. unfold event_octet. replace (3 * (k + 1)) with (3 + 3 * k) by lia.
        by rewrite (zslice_drop [a; b; c] (r ++ [4; 4]) 3 (3 * k)) by (done || lia). }
    rewrite IH by (done || lia). cbn [rbind pack_three]. do 2 f_equal. lia.
Qed.

Lemma decl_octet_join a b c d : 0 <= a < 4 -> 0 <= b < 4 -> 0 <= c < 4 -> 0 <= d < 4 ->
  one_octet (Z.lor (Z.lor (Z.lor (Z.shiftl a 6) (Z.shiftl b 4)) (Z.shiftl c 2)) d) = Ok (a * 64 + b * 16 + c * 4 + d).
Proof.
  intros Ha Hb Hc Hd. rewrite <-one_octet_total by lia. f_equal.
  assert (forall x, 0 <= x < 4 -> x = 0 \/ x = 1 \/ x = 2 \/ x = 3) as Hx by (intros; lia).
  destruct (Hx a Ha) as [-> | [-> | [-> | ->]]], (Hx b Hb) as [-> | [-> | [-> | ->]]],
    (Hx c Hc) as [-> | [-> | [-> | ->]]], (Hx d Hd) as [-> | [-> | [-> | ->]]]; reflexivity.
Qed.

Lemma decl_octets decls : Forall (fun e => 0 <= e < 4) decls ->
  mapR (decl_octet decls) (zrange 0 (Z.to_nat ((zlen decls + 3) / 4))) = Ok (pack_four decls).
Proof.
  cut (forall n decls, (length decls <= n)%nat -> Forall (fun e => 0 <= e < 4) decls ->
    mapR (decl_octet decls) (zrange 0 (Z.to_nat ((zlen decls + 3) / 4))) = Ok (pack_four decls)); [eauto|].
  intros n. induction n as [|n IH]; intros [|a [|b [|c [|d r]]]] Hn H; cbn in Hn; try lia; try reflexivity;
    rewrite ?List.Forall_cons_iff in H.
  - change (mapR (decl_octet [a]) _) with
      (let* x := one_octet (Z.lor (Z.lor (Z.lor (Z.shiftl a 6) (Z.shiftl 0 4)) (Z.shiftl 0 2)) 0) in Ok [x]).
    rewrite decl_octet_join by lia. cbn [rbind pack_four]. do 2 f_equal. lia.
  - change (mapR (decl_octet [a; b]) _) with
      (let* x := one_octet (Z.lor (Z.lor (Z.lor (Z.shiftl a 6) (Z.shiftl b 4)) (Z.shiftl 0 2)) 0) in Ok [x]).
    rewrite decl_octet_join by lia. cbn [rbind pack_four]. do 2 f_equal. lia.
  - change (mapR (decl_octet [a; b; c]) _) with
      (let* x := one_octet (Z.lor (Z.lor (Z.lor (Z.shiftl a 6) (Z.shiftl b 4)) (Z.shiftl c 2)) 0) in Ok [x]).
    rewrite decl_octet_join by lia. cbn [rbind pack_four]. do 2 f_equal. lia.
  - destruct H as (Ha & Hb & Hc & Hd & Hr). rewrite !zlen_cons.
    replace (1 + (1 + (1 + (1 + zlen r))) + 3) with (zlen r + 3 + 1 * 4) by lia. rewrite Z.div_add by done.
    rewrite Z2Nat.inj_add by first [lia | pose proof (zlen_nonneg r); apply Z.div_pos; lia].
    rewrite Nat.add_comm. change (Z.to_nat 1) with 1%nat. cbn [Nat.add zrange mapR].
    change (decl_octet (a :: b :: c :: d :: r) 0) with
      (one_octet (Z.lor (Z.lor (Z.lor (Z.shiftl a 6) (Z.shiftl b 4)) (Z.shiftl c 2)) d)).
    rewrite decl_octet_join by lia. cbn [rbind]. change 1 with (0 + 1) at 1. rewrite mapR_shift.
    rewrite (mapR_ext_range _ (decl_octet r)).
    2:{ intros k Hk. unfold decl_octet. replace (4 * (k + 1)) with (4 + 4 * k) by lia.
        by rewrite (zslice_drop [a; b; c; d] (r ++ [0; 0; 0]) 4 (4 * k)) by (done || lia). }
    rewrite IH by (done || lia). cbn [rbind pack_four]. done.
Qed.

(** An entry the layout has room for. *)
Definition attr_message (a : msrp_attr) : message :=
  Message (ma_type a)
    [VectorOf 0 (ma_first a) (ma_events a) (if ma_type a =? MSRP_LISTENER then ma_decls a else [])]
    (zlen (ma_first a)).

Record attr_fits (a : msrp_attr) : Prop := {
  at_length : default (zlen (ma_first a)) (MSRP_ATTR_LEN !! ma_type a) = zlen (ma_first a);
  at_octets : 1 <= ma_type a < 256 /\ 1 <= zlen (ma_first a) < 256;
  at_count : 1 <= zlen (ma_events a) < 8192;
  at_events : Forall (fun e => 0 <= e < 6) (ma_events a);
  at_decls : ma_type a = MSRP_LISTENER ->
    zlen (ma_decls a) = zlen (ma_events a) /\ Forall (fun d => 0 <= d < 4) (ma_decls a)
}.

Lemma attr_message_fits a : attr_fits a -> message_fits MSRP (attr_message a).
Proof.
  intros [Hl [Ht Hf] Hn He Hd]. constructor; cbn [attr_message mg_type mg_length mg_vectors]; [done..|].
  apply List.Forall_cons; [|apply List.Forall_nil]. constructor; cbn [vo_leave_all vo_first vo_events vo_decls]; try done.
  unfold listens. rewrite bool_decide_true by done. cbn [andb].
  destruct (Z.eqb_spec (ma_type a) MSRP_LISTENER); [by apply Hd|done].
Qed.

(** The oracle's message is the reference encoder's, filled up with Mt. *)
Lemma msrp_message_encoded a b : attr_fits a -> msrp_message a = Ok b -> b = encode_message 4 MSRP (attr_message a).
Proof.
  intros [Hl [Ht Hf] Hn He Hd] H. unfold msrp_message in H. rewrite Hl, event_octets in H by done.
  assert ((if ma_type a =? MSRP_LISTENER
           then mapR (decl_octet (ma_decls a)) (zrange 0 (Z.to_nat ((zlen (ma_events a) + 3) / 4)))
           else Ok []) = Ok (if ma_type a =? MSRP_LISTENER then pack_four (ma_decls a) else [])) as E.
  { destruct (Z.eqb_spec (ma_type a) MSRP_LISTENER) as [El|]; [|done]. destruct (Hd El) as [<- ?]. by apply decl_octets. }
  rewrite E in H. cbn [rbind] in H. built H. subst b.
  unfold encode_message, encode_vector, attr_message, listens.
  cbn [mg_type mg_vectors mg_length map concat vo_leave_all vo_first vo_events vo_decls].
  rewrite bool_decide_true by done. cbn [andb]. rewrite app_nil_r.
  assert (Z.land (zlen (ma_events a)) 0x1FFF = 0 * 8192 + zlen (ma_events a)) as ->
    by (masks; rewrite Z.mod_small by lia; lia).
  by destruct (ma_type a =? MSRP_LISTENER); rewrite (zlen_app (_ ++ _) [0; 0]).
Qed.

(** What the decoder owes for an entry: its values in turn. *)
Definition attr_values (a : msrp_attr) : list MrpAttribute := message_values MSRP (attr_message a).

(** An MSRP frame of the oracle, read back: every value of every entry in order,
    with its event and its declaration, and nothing of the padding. *)
Theorem msrp_frame_reads smac attrs frame s : Forall attr_fits attrs ->
  build_msrp_frame smac attrs = Ok frame -> from_hex smac = Ok s -> zlen s = 6 ->
  exists eth, decode_eth frame = Some eth /\ e_ethertype eth = ETH_P_MSRP /\
    decode_mrpdu (e_payload eth) MSRP = concat (map attr_values attrs).
Proof.
  intros Hfit H Hs Hs6. unfold build_msrp_frame in H. rewrite Hs in H. cbn [rbind] in H. built H. subst frame.
  assert (concat v = concat (map (encode_message 4 MSRP) (map attr_message attrs))) as ->.
  { f_equal. apply mapR_Ok in Hm. clear -Hfit Hm. induction Hm as [|a b attrs v Ha _ IH]; [done|].
    apply List.Forall_cons_iff in Hfit as [Hf Hfit]. cbn [map]. rewrite <-IH by done. f_equal.
    by apply msrp_message_encoded. }
  match goal with |- context [pad_to 60 ?f] => destruct (pad_to_app 60 f) as [k ->] end.
  change MRP_GROUP_DMAC with ([0x01; 0x80; 0xc2; 0x00; 0x00; 0x0e] : bytes). rewrite <-!app_assoc.
  set (body := [0] ++ _ ++ [0; 0] ++ zeros k).
  change (decode_eth _) with (decode_eth (framed [0x01; 0x80; 0xc2; 0x00; 0x00; 0x0e] s None ETH_P_MSRP body)).
  rewrite decode_eth_framed by done. eexists. split; [reflexivity|]. split; [reflexivity|]. cbn [e_payload].
  pose proof (mrpdu_round_trip 4 MSRP 0 (map attr_message attrs) (zeros k) ltac:(lia)) as Hr.
  unfold encode_mrpdu in Hr. rewrite <-!app_assoc in Hr. unfold body. rewrite Hr, map_map; [done|].
  apply List.Forall_map. eapply List.Forall_impl; [|exact Hfit]. apply attr_message_fits.
Qed.

Lemma priority_fields p r : let b := Z.lor (Z.shiftl (Z.land p 7) 5) (Z.shiftl (Z.land r 1) 4) in
  Z.land (Z.shiftr b 5) 0x7 = p mod 8 /\ Z.land (Z.shiftr b 4) 0x1 = r mod 2.
Proof.
  cbv zeta. masks. pose proof (Z.mod_pos_bound p 8 ltac:(done)) as Hp. pose proof (Z.mod_pos_bound r 2 ltac:(done)) as Hr.
  rewrite (Z.shiftl_mul_pow2 (r mod 2)) by done. change (2 ^ 4) with 16.
  rewrite join_bits by (change (2 ^ 5) with 32; lia). change (2 ^ 5) with 32.
  rewrite !Z.shiftr_div_pow2 by done. change (2 ^ 5) with 32. change (2 ^ 4) with 16.
  set (a := p mod 8) in *. set (b := r mod 2) in *. clearbody a b. split; Z.div_mod_to_equations; lia.
Qed.

(** A Talker Advertise first value is 25 octets, and value [i] of its vector
    declares stream identifier [i] further on, with everything else unchanged. *)
Lemma talker_value_read t v d : msrp_talker_advertise_value t = Ok v -> from_hex (ta_dmac t) = Ok d -> zlen d = 6 ->
  zlen v = 25 /\ v = be_bytes 8 (ta_stream_id t) ++ drop 8 v /\ 0 <= ta_stream_id t < 2 ^ 64 /\
  forall sid, 0 <= sid < 2 ^ 64 ->
  exists tk, decode_msrp_fields MSRP_TALKER_ADVERTISE (be_bytes 8 sid ++ drop 8 v) = TalkerFields tk /\
    t_stream_id tk = sid /\ destination_address tk = d /\
    (vlan_identifier tk, max_frame_size tk, max_interval_frames tk, accumulated_latency tk)
      = (ta_vid t, ta_max_frame t, ta_max_interval t, ta_latency t) /\
    (priority tk, rank tk) = (ta_pcp t mod 8, ta_rank t mod 2) /\ failure tk = None.
Proof.
  intros H Hd Hd6. unfold msrp_talker_advertise_value in H. rewrite Hd in H. cbn [rbind] in H. built H. subst v.
  destruct d as [|d0 [|d1 [|d2 [|d3 [|d4 [|d5 [|d6 d]]]]]]]; try done;
    [|rewrite !zlen_cons in Hd6; pose proof (zlen_nonneg d); lia].
  split; [reflexivity|]. split; [reflexivity|]. split; [assumption|]. intros sid Hsid.
  eexists. split; [reflexivity|]. cbn [t_stream_id destination_address vlan_identifier max_frame_size
    max_interval_frames accumulated_latency priority rank failure].
  split; [exact (of_be_be_bytes_id 8 sid Hsid)|]. split; [reflexivity|]. split.
  { transitivity (of_be (be_bytes 2 (ta_vid t)), of_be (be_bytes 2 (ta_max_frame t)),
      of_be (be_bytes 2 (ta_max_interval t)), of_be (be_bytes 4 (ta_latency t))); [reflexivity|].
    by rewrite !of_be_be_bytes_id. }
  split; [|reflexivity]. destruct (priority_fields (ta_pcp t) (ta_rank t)) as [<- <-]. reflexivity.
Qed.

(** * CRF *)

Definition crf_head_octets (f : CrfFrame) : bytes :=
  [SUBTYPE_CRF; Z.lor (Z.shiftl 1 7) (Z.land (fc_tu f) 1); Z.land (fc_seq f) 0xFF; fc_ctype f]
  ++ be_bytes 8 (fc_sid f)
  ++ be_bytes 4 (Z.lor (Z.shiftl (Z.land (fc_pull f) 7) 29) (Z.land (fc_base_hz f) 0x1FFFFFFF))
  ++ be_bytes 2 (8 * fc_n_ts f) ++ be_bytes 2 (fc_interval f).

Lemma crf_head_Ok f pdu : crf_pdu_head f = Ok pdu ->
  pdu = crf_head_octets f /\ 0 <= fc_sid f < 2 ^ 64 /\ 0 <= 8 * fc_n_ts f < 65536 /\ 0 <= fc_interval f < 65536.
Proof. intros H. unfold crf_pdu_head in H. built H. subst pdu. split_and!; try tauto; reflexivity. Qed.

Lemma tu_fields tu : let b := Z.lor (Z.shiftl 1 7) (Z.land tu 1) in
  Z.land (Z.shiftr b 7) 1 = 1 /\ Z.land (Z.shiftr b 4) 0x7 = 0 /\ Z.land (Z.shiftr b 3) 1 = 0 /\
  Z.land (Z.shiftr b 1) 1 = 0 /\ Z.land b 1 = tu mod 2.
Proof.
  change (Z.land tu 1) with (Z.land tu (Z.ones 1)). rewrite Z.land_ones by done. change (2 ^ 1) with 2.
  pose proof (Z.mod_pos_bound tu 2 ltac:(done)) as Ht. assert (tu mod 2 = 0 \/ tu mod 2 = 1) as [-> | ->] by lia; done.
Qed.

(** What the figure says a reader sees, with the timestamps of the events. *)
Definition crf_seen (f : CrfFrame) : CrfPdu :=
  MkCrfPdu 1 0 0 0 (fc_tu f mod 2) (fc_seq f mod 256) (fc_ctype f) (fc_sid f) (fc_pull f mod 8)
    (fc_base_hz f mod 2 ^ 29) (8 * fc_n_ts f) (fc_interval f)
    (map (fun i => fc_ts f + i * fc_interval f * 1000000000 / fc_base_hz f) (zrange 0 (Z.to_nat (fc_n_ts f)))).

Lemma timestamps_Ok f l : mapR (crf_timestamp f) (zrange 0 (Z.to_nat (fc_n_ts f))) = Ok l ->
  exists ts, ts = c_timestamps (crf_seen f) /\ l = map (be_bytes 8) ts /\ Forall (fun t => 0 <= t < 2 ^ 64) ts.
Proof.
  intros H. eexists. split; [reflexivity|]. unfold crf_seen. cbn [c_timestamps]. apply mapR_Ok in H.
  revert H. generalize (zrange 0 (Z.to_nat (fc_n_ts f))). intros ks H.
  induction H as [|i o ks l Hi _ [IH1 IH2]]; [done|]. unfold crf_timestamp in Hi.
  destruct (fc_base_hz f =? 0); [done|]. apply to_be_Ok in Hi as [Hr ->]. cbn [map]. split; [by rewrite IH1|].
  by apply List.Forall_cons.
Qed.

Lemma read_timestamps ts : Forall (fun t => 0 <= t < 2 ^ 64) ts ->
  map (fun i => rd_be (8 * i) 8 (concat (map (be_bytes 8) ts))) (zrange 0 (length ts)) = ts.
Proof.
  intros H. apply list_eq. intros k. rewrite list_lookup_fmap, zrange_lookup.
  destruct (decide (k < length ts)%nat) as [Hk|Hk].
  - destruct (lookup_lt_is_Some_2 ts k Hk) as [t Ht]. rewrite Ht. cbn [fmap option_fmap option_map]. f_equal.
    unfold rd_be. pose proof (zslice_array (be_bytes 8) 8 [] ts (Z.of_nat k) t (fun _ => zlen_be_bytes _ _) ltac:(lia)
      ltac:(rewrite Nat2Z.id; exact Ht) ltac:(lia)) as Hz.
    cbn [app] in Hz. rewrite zlen_nil, Z.add_0_l in Hz. rewrite Z.add_0_l, Hz.
    apply of_be_be_bytes_id. exact (Forall_lookup_1 _ _ _ _ H Ht).
  - cbn [fmap option_fmap option_map]. symmetry. by apply lookup_ge_None_2, Nat.nlt_ge.
Qed.

(** Pull and base frequency share a word. *)
Lemma base_word pull base : let w := Z.lor (Z.shiftl (Z.land pull 7) 29) (Z.land base 0x1FFFFFFF) in
  0 <= w < 2 ^ 32 /\ Z.land (Z.shiftr (w / 256 / 256 / 256 mod 256) 5) 0x7 = pull mod 8 /\
  Z.land w 0x1FFFFFFF = base mod 2 ^ 29.
Proof.
  intros w. assert (w = pull mod 8 * 2 ^ 29 + base mod 2 ^ 29) as ->.
  { unfold w. masks. by rewrite join_bits by first [done | by apply Z.mod_pos_bound]. }
  pose proof (Z.mod_pos_bound pull 8 ltac:(done)). pose proof (Z.mod_pos_bound base (2 ^ 29) ltac:(done)).
  masks. rewrite Z.shiftr_div_pow2, !Z.div_div by done. change (2 ^ 5) with 32. change (2 ^ 32) with 4294967296.
  change (2 ^ 29) with 536870912 in *. change (256 * (256 * 256)) with 16777216.
  split_and!; Z.div_mod_to_equations; lia.
Qed.

Lemma decode_crf_head f ts pad : 0 <= fc_sid f < 2 ^ 64 -> 0 <= 8 * fc_n_ts f < 65536 -> 0 <= fc_interval f < 65536 ->
  ts = c_timestamps (crf_seen f) -> Forall (fun t => 0 <= t < 2 ^ 64) ts ->
  decode_crf (crf_head_octets f ++ concat (map (be_bytes 8) ts) ++ pad) = Some (crf_seen f).
Proof.
  intros Hsid Hn Hi Ets Hts. set (h := crf_head_octets f). set (body := concat (map (be_bytes 8) ts)).
  set (pdu := h ++ body ++ pad). assert (zlen h = 20) as Hh by reflexivity.
  assert (Z.of_nat (length ts) = fc_n_ts f) as Hlen
    by (rewrite Ets; cbn [crf_seen c_timestamps]; rewrite length_map, zrange_length; lia).
  assert (zlen body = 8 * fc_n_ts f) as Hb
    by (unfold body; rewrite (zlen_concat_const _ 8) by (intros; apply zlen_be_bytes); unfold zlen; lia).
  pose proof (zlen_nonneg pad). unfold decode_crf.
  rewrite (proj2 (Z.ltb_ge _ _)) by (unfold pdu; rewrite !zlen_app; lia).
  change (raw_at pdu 0) with SUBTYPE_CRF. rewrite (Z.eqb_refl SUBTYPE_CRF). cbn [negb orb].
  change (raw_at pdu 1) with (Z.lor (Z.shiftl 1 7) (Z.land (fc_tu f) 1)).
  change (raw_at pdu 2) with (Z.land (fc_seq f) 0xFF). change (raw_at pdu 3) with (fc_ctype f).
  set (w := Z.lor (Z.shiftl (Z.land (fc_pull f) 7) 29) (Z.land (fc_base_hz f) 0x1FFFFFFF)).
  destruct (base_word (fc_pull f) (fc_base_hz f)) as (Hw & Hpull & Hbase). fold w in Hw, Hpull, Hbase.
  change (raw_at pdu 12) with (w / 256 / 256 / 256 mod 256).
  change (rd_be 4 8 pdu) with (of_be (be_bytes 8 (fc_sid f))). change (rd_be 12 4 pdu) with (of_be (be_bytes 4 w)).
  change (rd_be 16 2 pdu) with (of_be (be_bytes 2 (8 * fc_n_ts f))).
  change (rd_be 18 2 pdu) with (of_be (be_bytes 2 (fc_interval f))).
  rewrite (of_be_be_bytes_id 8), !(of_be_be_bytes_id 2) by assumption.
  rewrite (of_be_be_bytes_id 4) by exact Hw.
  assert ((if 8 * fc_n_ts f =? 0 then [] else zslice 20 (8 * fc_n_ts f) pdu) = body) as ->.
  { destruct (Z.eqb_spec (8 * fc_n_ts f) 0) as [E|E].
    - destruct body; [done|]. rewrite zlen_cons in Hb. pose proof (zlen_nonneg body). lia.
    - unfold pdu. rewrite (zslice_skip h _ 20) by done. rewrite Z.sub_diag. by apply zslice_hit. }
  rewrite Hb, (Z.mul_comm 8), Z.div_mul by done. rewrite (Z.mul_comm _ 8), <-Hlen, Nat2Z.id. unfold body.
  rewrite (read_timestamps ts Hts), Hlen, Ets. destruct (tu_fields (fc_tu f)) as (-> & -> & -> & -> & ->).
  rewrite Hpull, Hbase. unfold crf_seen. cbn [c_timestamps]. masks. reflexivity.
Qed.

(** A CRF frame of the oracle reads back: its envelope, its format fields, and
    the timestamp of every event it carries. *)
Theorem crf_frame_reads f frame d s : build_crf_frame f = Ok frame ->
  from_hex (fc_dmac f) = Ok d -> zlen d = 6 -> from_hex (fc_smac f) = Ok s -> zlen s = 6 ->
  exists eth, decode_eth frame = Some eth /\ e_ethertype eth = ETH_P_AVTP /\ tagged eth = fc_tagged f /\
    decode_crf (e_payload eth) = Some (crf_seen f).
Proof.
  intros H Hd Hd6 Hs Hs6. unfold build_crf_frame in H. rsplit H. subst frame.
  apply crf_head_Ok in Hm0 as (-> & Hsid & Hn & Hi). apply timestamps_Ok in Hm1 as (ts & Ets & -> & Hts).
  match goal with |- context [pad_to 60 ?x] => destruct (pad_to_app 60 x) as [k ->] end. rewrite <-!app_assoc.
  destruct (stream_header_Ok _ _ _ _ _ _ d s (crf_head_octets f ++ concat (map (be_bytes 8) ts) ++ zeros k) Hm Hd Hs)
    as [Hp ->].
  pose proof (Z.mod_pos_bound (fc_vid f) 4096 ltac:(done)) as Hv.
  rewrite decode_eth_framed; [|done|done|destruct (fc_tagged f); [specialize (Hp eq_refl); lia|done]|done|done].
  eexists. split; [reflexivity|]. cbn [e_ethertype tagged e_payload]. split; [done|].
  split; [by destruct (fc_tagged f)|]. by apply decode_crf_head.
Qed.

(** * Witness *)

Lemma crf_frame_reads_witness :
  exists frame eth, build_crf_frame default_crf_frame = Ok frame /\ decode_eth frame = Some eth /\
    decode_crf (e_payload eth) = Some (crf_seen default_crf_frame) /\ c_timestamps (crf_seen default_crf_frame) = [0].
Proof.
  assert (is_ok (build_crf_frame default_crf_frame) = true) as Ho by (vm_compute; reflexivity).
  destruct (build_crf_frame default_crf_frame) as [frame|] eqn:E; [|discriminate Ho].
  destruct (crf_frame_reads default_crf_frame frame [0x91; 0xe0; 0xf0; 0; 0xfe; 2] [2; 0; 0; 0; 0; 2] E
    eq_refl eq_refl eq_refl eq_refl) as (eth & He & _ & _ & Hc).
  exists frame, eth. exact (conj eq_refl (conj He (conj Hc eq_refl))).
Defined.
