(* ===== verification/WireChecks.v ===== *)
(** The verdicts over a capture: [WireTruth] of
    [tb/tools/avtp_wire_truth_checks.py].

    [feed] files one frame, [checks] renders the verdicts of every family in the
    order of the source.  A verdict is its check, the stream or entity the check's
    name ends with (the source prints it as [{sid:016x}]) and its outcome; clause
    and detail are text for the reader of a log and are left out.  What the source
    computes in floating point from two timestamps is an argument: the elapsed
    nanoseconds of the transit check and the comparison of the PDU rate. *)
From S2P Require Import Prelude Unicode Text Packing WireTruth.

Inductive outcome := PASS | FAIL | SKIP | INFO.

#[export] Instance outcome_eq_dec : EqDecision outcome.
Proof. solve_decision. Defined.

Record Verdict := MkVerdict { check : string; subject : option Z; verdict : outcome }.

(** [_v] and [_nothing_to_check]. *)
Definition v_ (check : string) (subject : option Z) (ok : bool) : Verdict :=
  MkVerdict check subject (if ok then PASS else FAIL).
Definition nothing_to_check (check : string) : Verdict := MkVerdict check None SKIP.

(** [sorted(d.items())]: the keys are distinct, so they decide. *)
Definition key_le {A} (a b : Z * A) : Prop := fst a <= fst b.
#[export] Instance key_le_dec {A} : RelDecision (@key_le A) := fun a b => decide (fst a <= fst b).
Definition items {A} (m : gmap Z A) : list (Z * A) := merge_sort key_le (map_to_list m).
Definition keys {A} (m : gmap Z A) : list Z := map fst (items m).

(** [d.setdefault(k, []).append(x)]. *)
Definition file {A} (k : Z) (x : A) (m : gmap Z (list A)) : gmap Z (list A) :=
  <[k := default [] (m !! k) ++ [x]]> m.

(** [l[0]] and [l[-1]]. *)
Definition first_of {A} (l : list A) : result py_error A :=
  match l with x :: _ => Ok x | [] => Err IndexError end.
Definition last_of_list {A} (l : list A) : result py_error A :=
  match last l with Some x => Ok x | None => Err IndexError end.

(** [round] of the quotient of two integers: both are below 2^53 and the
    quotient is nearest to the same integer as the float the source rounds, ties
    to even. *)
Definition round_div (n d : Z) : Z :=
  let q := n / d in
  match 2 * (n mod d) ?= d with
  | Lt => q
  | Gt => q + 1
  | Eq => if Z.even q then q else q + 1
  end.

Section WireTruth.
Context {T : Type}.

Local Abbreviation rec A := (T * EthFrame * A)%type.

Record WireTruth := MkWireTruth {
  w_frames : Z; w_non_avtp : Z;
  w_aaf : gmap Z (list (rec AafPdu)); w_crf : gmap Z (list (rec CrfPdu));
  w_adp : gmap Z (list (T * Z * ControlPdu * option Z)); w_control : list (rec ControlPdu);
  w_untagged_stream_frames : Z; w_short_frames : Z;
  w_mrp : list (rec MrpAttribute); w_msrp_frames : Z; w_mvrp_frames : Z
}.

(** [__init__]. *)
Definition empty_capture : WireTruth := MkWireTruth 0 0 ∅ ∅ ∅ [] 0 0 [] 0 0.

(** * Ingest *)

Definition count_frame (w : WireTruth) : WireTruth :=
  let 'MkWireTruth n na a c d k u s m ms mv := w in MkWireTruth (n + 1) na a c d k u s m ms mv.
Definition count_short (w : WireTruth) : WireTruth :=
  let 'MkWireTruth n na a c d k u s m ms mv := w in MkWireTruth n na a c d k u (s + 1) m ms mv.
Definition count_non_avtp (w : WireTruth) : WireTruth :=
  let 'MkWireTruth n na a c d k u s m ms mv := w in MkWireTruth n (na + 1) a c d k u s m ms mv.
Definition file_mrp (p : protocol) (l : list (rec MrpAttribute)) (w : WireTruth) : WireTruth :=
  let 'MkWireTruth n na a c d k u s m ms mv := w in
  MkWireTruth n na a c d k u s (m ++ l)
    (if decide (p = MSRP) then ms + 1 else ms) (if decide (p = MSRP) then mv else mv + 1).
Definition file_aaf (sid : Z) (r : rec AafPdu) (untagged : bool) (w : WireTruth) : WireTruth :=
  let 'MkWireTruth n na a c d k u s m ms mv := w in
  MkWireTruth n na (file sid r a) c d k (if untagged then u + 1 else u) s m ms mv.
Definition file_crf (sid : Z) (r : rec CrfPdu) (untagged : bool) (w : WireTruth) : WireTruth :=
  let 'MkWireTruth n na a c d k u s m ms mv := w in
  MkWireTruth n na a (file sid r c) d k (if untagged then u + 1 else u) s m ms mv.
Definition file_control (r : rec ControlPdu) (w : WireTruth) : WireTruth :=
  let 'MkWireTruth n na a c d k u s m ms mv := w in MkWireTruth n na a c d (k ++ [r]) u s m ms mv.
Definition file_adp (eid : Z) (r : T * Z * ControlPdu * option Z) (w : WireTruth) : WireTruth :=
  let 'MkWireTruth n na a c d k u s m ms mv := w in MkWireTruth n na a c (file eid r d) k u s m ms mv.

Definition feed (w : WireTruth) (ts : T) (raw : bytes) : WireTruth :=
  let w := count_frame w in
  match decode_eth raw with
  | None => count_short w
  | Some eth =>
      if (e_ethertype eth =? ETH_P_MSRP) || (e_ethertype eth =? ETH_P_MVRP) then
        let proto := if e_ethertype eth =? ETH_P_MSRP then MSRP else MVRP in
        file_mrp proto (map (fun a => (ts, eth, a)) (decode_mrpdu (e_payload eth) proto)) w
      else if negb (e_ethertype eth =? ETH_P_AVTP) then count_non_avtp w
      else
        match eth_subtype eth with
        | None => w
        | Some st =>
            if st =? SUBTYPE_AAF then
              match decode_aaf (e_payload eth) with
              | Some pdu => file_aaf (a_stream_id pdu) (ts, eth, pdu) (negb (tagged eth)) w
              | None => w
              end
            else if st =? SUBTYPE_CRF then
              match decode_crf (e_payload eth) with
              | Some pdu => file_crf (c_stream_id pdu) (ts, eth, pdu) (negb (tagged eth)) w
              | None => w
              end
            else if bool_decide (st ∈ CONTROL_SUBTYPES) then
              match decode_control (e_payload eth) with
              | Some c =>
                  let w := file_control (ts, eth, c) w in
                  if st =? SUBTYPE_ADP then
                    let ai := if 40 <=? zlen (e_payload eth) then Some (rd_be 36 4 (e_payload eth)) else None in
                    file_adp (k_target_entity_id c) (ts, wire_len eth, c, ai) w
                  else w
              | None => w
              end
            else w
        end
  end.

Definition feed_capture (w : WireTruth) (records : list (T * bytes)) : WireTruth :=
  fold_left (fun w r => feed w (fst r) (snd r)) records w.

(** * Families *)

Context (expect : Expectation).

(** [round((ts - t0) * 1e9)], and whether the rate of [n] intervals between two
    timestamps is within the tolerance of [base / per]: nothing when no time
    passed. *)
Context (elapsed_ns : T -> T -> Z) (rate_within : Z -> T -> T -> Z -> Z -> option bool).

(** A verdict for each stream, or one for their absence. *)
Definition per_stream {A} (table : gmap Z (list A)) (absent : list Verdict)
    (f : Z -> list A -> result py_error (list Verdict)) : result py_error (list Verdict) :=
  match items table with
  | [] => Ok absent
  | l => let* vs := mapR (fun '(sid, recs) => f sid recs) l in Ok (concat vs)
  end.

Definition check_capture_shape (w : WireTruth) : list Verdict :=
  let n := sum_z (map (fun kv => zlen (snd kv)) (map_to_list (w_aaf w)))
           + sum_z (map (fun kv => zlen (snd kv)) (map_to_list (w_crf w))) in
  [v_ "wt.capture.stream-frames-present" None (negb (n =? 0))].

(** The fields of the declared format the first frame does not carry. *)
Definition format_mismatches (p : AafPdu) (d : AafStreamFormat) : list string :=
  (if a_channels_per_frame p =? f_channels_per_frame d then [] else ["channels_per_frame"%string])
  ++ (if a_nsr p =? f_nsr d then [] else ["nsr"%string])
  ++ (if a_fmt p =? f_fmt d then [] else ["format"%string])
  ++ (if a_bit_depth p =? f_bit_depth d then [] else ["bit_depth"%string])
  ++ match sample_frames p with
     | Some spf => if negb (f_samples_per_frame d =? 0) && negb (spf =? f_samples_per_frame d)
                   then ["samples_per_frame"%string] else []
     | None => []
     end.

Definition check_aaf_declared_vs_wire (w : WireTruth) : result py_error (list Verdict) :=
  match aaf_format expect with
  | None => Ok [nothing_to_check "wt.aaf.declared-vs-wire"]
  | Some want =>
      match aaf_of_qword want with
      | None => Ok [v_ "wt.aaf.declared-vs-wire" None false]
      | Some d =>
          per_stream (w_aaf w) [nothing_to_check "wt.aaf.declared-vs-wire"] (fun sid recs =>
            let* r := first_of recs in let '(_, _, p) := r in
            Ok [v_ "wt.aaf.declared-vs-wire" (Some sid) (bool_decide (format_mismatches p d = []))])
      end
  end.

Inductive header_violation :=
  | NoChannels | NoBitDepth | DeeperThanFormat (depth width : Z) | ReservedFormat (fmt : Z)
  | ReservedNsr (nsr : Z) | SvClear | VersionSet (version : Z).

#[export] Instance header_violation_eq_dec : EqDecision header_violation.
Proof. solve_decision. Defined.

Definition header_violations (p : AafPdu) : list header_violation :=
  (if a_channels_per_frame p =? 0 then [NoChannels] else [])
  ++ (if a_bit_depth p =? 0 then [NoBitDepth] else [])
  ++ match sample_bits p with
     | Some sb => if negb (sb =? 0) && (sb <? a_bit_depth p) then [DeeperThanFormat (a_bit_depth p) sb] else []
     | None => []
     end
  ++ (if bool_decide (is_Some (AAF_FORMAT_NAMES !! a_fmt p)) then [] else [ReservedFormat (a_fmt p)])
  ++ (if bool_decide (is_Some (NSR_HZ !! a_nsr p)) then [] else [ReservedNsr (a_nsr p)])
  ++ (if a_sv p =? 1 then [] else [SvClear])
  ++ (if a_version p =? 0 then [] else [VersionSet (a_version p)]).

(** The violations of the first frame that has any. *)
Fixpoint first_bad {A B} (f : A -> list B) (l : list A) : list B :=
  match l with
  | [] => []
  | x :: l => match f x with [] => first_bad f l | bad => bad end
  end.

Definition check_aaf_header_legality (w : WireTruth) : result py_error (list Verdict) :=
  per_stream (w_aaf w) [nothing_to_check "wt.aaf.header-legal"] (fun sid recs =>
    Ok [v_ "wt.aaf.header-legal" (Some sid)
          (bool_decide (first_bad (fun '(_, _, p) => header_violations p) recs = []))]).

Inductive payload_violation := DataPastPayload (sdl octets : Z) | PartialSample (sdl channels : Z).

#[export] Instance payload_violation_eq_dec : EqDecision payload_violation.
Proof. solve_decision. Defined.

Definition payload_violations (p : AafPdu) : list payload_violation :=
  (if zlen (a_payload p) <? a_stream_data_length p
   then [DataPastPayload (a_stream_data_length p) (zlen (a_payload p))] else [])
  ++ match sample_frames p with
     | None => [PartialSample (a_stream_data_length p) (a_channels_per_frame p)]
     | Some _ => []
     end.

Definition check_aaf_payload_arithmetic (w : WireTruth) : result py_error (list Verdict) :=
  per_stream (w_aaf w) [nothing_to_check "wt.aaf.payload-arithmetic"] (fun sid recs =>
    Ok [v_ "wt.aaf.payload-arithmetic" (Some sid)
          (bool_decide (first_bad (fun '(_, _, p) => payload_violations p) recs = []))]).

(** The frames whose sequence number does not follow the one before. *)
Fixpoint seq_gaps (i : Z) (prev : option Z) (l : list Z) : list (Z * Z * Z * Z) :=
  match l with
  | [] => []
  | n :: l =>
      match prev with
      | None => []
      | Some p => let step := mod_delta n p 256 in if step =? 1 then [] else [(i, p, n, step)]
      end ++ seq_gaps (i + 1) (Some n) l
  end.

Definition seq_verdicts {A} (name : string) (seq : A -> Z) (table : gmap Z (list A)) :
    result py_error (list Verdict) :=
  per_stream table [nothing_to_check name] (fun sid recs =>
    Ok [v_ name (Some sid) (bool_decide (seq_gaps 0 None (map seq recs) = []))]).

Definition check_sequence_continuity (w : WireTruth) : result py_error (list Verdict) :=
  let* a := seq_verdicts "wt.aaf.seq-continuity" (fun '(_, _, p) => a_sequence_num p) (w_aaf w) in
  let* c := seq_verdicts "wt.crf.seq-continuity" (fun '(_, _, p) => c_sequence_num p) (w_crf w) in
  Ok (a ++ c).

(** The consecutive pairs of a list. *)
Definition pairs {A} (l : list A) : list (A * A) := zip l (tail l).

Definition tv_verdict (sid : Z) (recs : list (rec AafPdu)) : Verdict :=
  v_ "wt.aaf.tv-set" (Some sid)
    (bool_decide (List.filter (fun '(_, _, p) => (a_sp p =? 0) && (a_tv p =? 0)) recs = [])).

(** Whether one step is a frame of media long, a sample period of jitter aside. *)
Definition step_within (fs want : Z) (steps : Z) : bool :=
  Z.abs (steps - want) <=? round_div 1000000000 fs + 1.

Definition pts_verdict (sid : Z) (recs : list (rec AafPdu)) : result py_error Verdict :=
  let* r0 := first_of recs in let '(_, _, p0) := r0 in
  let fs := default 0 (default None (NSR_HZ !! a_nsr p0)) in
  let spf := default 0 (sample_frames p0) in
  if negb (fs =? 0) && negb (spf =? 0) then
    let want := round_div (spf * 1000000000) fs in
    let steps := map (fun '((_, _, a), (_, _, b)) =>
                   mod_delta (a_avtp_timestamp b) (a_avtp_timestamp a) AVTP_TS_MOD) (pairs recs) in
    Ok (v_ "wt.aaf.pts-step" (Some sid) (forallb (step_within fs want) steps && (0 <? zlen steps)))
  else Ok (MkVerdict "wt.aaf.pts-step" (Some sid) SKIP).

Definition transit_verdict (sid : Z) (recs : list (rec AafPdu)) : result py_error Verdict :=
  match gptp_ref_ns expect with
  | None => Ok (MkVerdict "wt.aaf.class-a-transit" (Some sid) SKIP)
  | Some ref =>
      let* r0 := first_of recs in let '(t0, _, _) := r0 in
      Ok (v_ "wt.aaf.class-a-transit" (Some sid)
            (forallb (fun '(ts, _, p) =>
               let now := (ref + elapsed_ns ts t0) mod AVTP_TS_MOD in
               mod_delta (a_avtp_timestamp p) now AVTP_TS_MOD <=? max_transit_ns expect) recs))
  end.

Definition check_aaf_timestamps (w : WireTruth) : result py_error (list Verdict) :=
  per_stream (w_aaf w)
    (map nothing_to_check ["wt.aaf.tv-set"; "wt.aaf.pts-step"; "wt.aaf.class-a-transit"]%string)
    (fun sid recs =>
       let* step := pts_verdict sid recs in
       let* transit := transit_verdict sid recs in
       Ok [tv_verdict sid recs; step; transit]).

(** [sorted({...})] of the tagged frames. *)
Definition tag_values (f : EthFrame -> option Z) (es : list EthFrame) : list Z :=
  sorted_z (remove_dups (omap f (List.filter tagged es))).

Definition vlan_verdicts {A} (kind : string) (frame : A -> EthFrame) (table : gmap Z (list A)) :
    result py_error (list Verdict) :=
  let name what := ("wt." +:+ kind +:+ ".c-tag-" +:+ what)%string in
  per_stream table (map (fun what => nothing_to_check (name what)) ["present"; "pcp"; "dei"; "vid"]%string)
    (fun sid recs =>
       let es := map frame recs in
       Ok [v_ (name "present"%string) (Some sid) (forallb tagged es);
           v_ (name "pcp"%string) (Some sid) (bool_decide (tag_values pcp es = [sr_class_a_pcp expect]));
           v_ (name "dei"%string) (Some sid)
             (bool_decide (tag_values dei es = [0]) || bool_decide (tag_values dei es = []));
           match sr_vid expect with
           | None => MkVerdict (name "vid"%string) (Some sid) SKIP
           | Some v => v_ (name "vid"%string) (Some sid) (bool_decide (tag_values vid es = [v]))
           end]).

Definition check_vlan_class (w : WireTruth) : result py_error (list Verdict) :=
  let* a := vlan_verdicts "aaf" (fun '(_, e, _) => e) (w_aaf w) in
  let* c := vlan_verdicts "crf" (fun '(_, e, _) => e) (w_crf w) in
  Ok (a ++ c).

Definition non_silent (r : rec AafPdu) : bool :=
  let '(_, _, p) := r in existsb (fun b => negb (b =? 0)) (a_payload p).

Definition check_zero_fill (w : WireTruth) : list Verdict :=
  let recs_of sid := default [] (w_aaf w !! sid) in
  (if bool_decide (silent_stream_ids expect = []) && bool_decide (fed_stream_ids expect = [])
   then [nothing_to_check "wt.aaf.zero-fill"] else [])
  ++ map (fun sid =>
       match recs_of sid with
       | [] => v_ "wt.aaf.zero-fill-present" (Some sid) false
       | recs => v_ "wt.aaf.zero-fill-silent" (Some sid) (negb (existsb non_silent recs))
       end) (silent_stream_ids expect)
  ++ map (fun sid =>
       let recs := recs_of sid in
       v_ "wt.aaf.fed-non-silent" (Some sid)
         (negb (bool_decide (recs = [])) && (zlen (List.filter non_silent recs) =? zlen recs)))
       (fed_stream_ids expect).

(** * CRF, ADP and control frames *)

Definition crf_mismatches (p : CrfPdu) (d : CrfStreamFormat) : list string :=
  (if c_base_frequency p =? g_base_frequency d then [] else ["base_frequency"%string])
  ++ (if c_timestamp_interval p =? g_timestamp_interval d then [] else ["timestamp_interval"%string])
  ++ (if c_type p =? g_type d then [] else ["type"%string])
  ++ (if c_pull p =? g_pull d then [] else ["pull"%string])
  ++ (if c_crf_data_length p / 8 =? g_timestamps_per_pdu d then [] else ["timestamps_per_pdu"%string])
  ++ (if c_crf_data_length p mod 8 =? 0 then [] else ["crf_data_length"%string]).

(** The declared format is not asked for its subtype: a word that is not a CRF
    format has no [base_frequency]. *)
Definition check_crf_format (w : WireTruth) : result py_error (list Verdict) :=
  let want := default MILAN_CRF_FORMAT (crf_format expect) in
  per_stream (w_crf w) [nothing_to_check "wt.crf.milan-format"] (fun sid recs =>
    let* r := first_of recs in let '(_, _, p) := r in
    match crf_of_qword want with
    | None => Err (AttributeError "base_frequency")
    | Some d => Ok [v_ "wt.crf.milan-format" (Some sid) (bool_decide (crf_mismatches p d = []))]
    end).

(** The media time between two consecutive PDUs, where both carry timestamps. *)
Definition crf_steps (recs : list (rec CrfPdu)) : list Z :=
  omap (fun '((_, _, a), (_, _, b)) =>
          match last (c_timestamps a), head (c_timestamps b) with
          | Some x, Some y => Some (y - x)
          | _, _ => None
          end) (pairs recs).

Definition check_crf_rate (w : WireTruth) : result py_error (list Verdict) :=
  per_stream (w_crf w) (map nothing_to_check ["wt.crf.pdu-rate"; "wt.crf.timestamp-step"]%string)
    (fun sid recs =>
       let* r := first_of recs in let '(t0, _, p) := r in
       let per := Z.max 1 (c_crf_data_length p / 8) in
       if (c_timestamp_interval p =? 0) || (c_base_frequency p =? 0)
       then Ok [MkVerdict "wt.crf.pdu-rate" (Some sid) SKIP]
       else
         let* r1 := last_of_list recs in let '(t1, _, _) := r1 in
         let rate := match rate_within (zlen recs - 1) t1 t0 (c_base_frequency p)
                             (c_timestamp_interval p * per) with
                     | Some true => PASS | Some false => FAIL | None => SKIP
                     end in
         let step_ns := round_div (c_timestamp_interval p * 1000000000) (c_base_frequency p) in
         Ok [MkVerdict "wt.crf.pdu-rate" (Some sid) rate;
             v_ "wt.crf.timestamp-step" (Some sid)
               (forallb (fun d => Z.abs (d - step_ns * per) <=? step_ns) (crf_steps recs))]).

(** The positions where the index did not move, the reset after a departure
    aside. *)
Definition index_repeats (idx : list (Z * Z)) : list ((Z * Z) * (Z * Z)) :=
  List.filter (fun '((mt, a), (_, b)) =>
    (mod_delta b a (Z.shiftl 1 32) =? 0) && negb ((mt =? ADP_ENTITY_DEPARTING) && (b =? 0))) (pairs idx).

Definition check_adp_frame_rule (w : WireTruth) : list Verdict :=
  match items (w_adp w) with
  | [] => map nothing_to_check ["wt.adp.frame-82"; "wt.adp.available-index-advances"]%string
  | _ => []
  end
  ++ concat (map (fun '(eid, recs) =>
       let idx := omap (fun '(_, _, c, ai) => (fun a => (k_message_type c, a)) <$> ai) recs in
       [v_ "wt.adp.frame-82" (Some eid)
          (forallb (fun '(_, l, c, _) => (l =? ADP_FRAME_LEN) && (k_control_data_length c =? ADP_CDL)) recs);
        v_ "wt.adp.available-index-advances" (Some eid)
          (bool_decide (index_repeats idx = []) && (1 <? zlen idx))]) (items (w_adp w)))
  ++ map (fun e => v_ "wt.adp.alive" (Some e) (bool_decide (is_Some (w_adp w !! e)))) (adp_entity_ids expect).

Definition check_control_length_honesty (w : WireTruth) : list Verdict :=
  match w_control w with
  | [] => [nothing_to_check "wt.control.length-honest"]
  | l => [v_ "wt.control.length-honest" None
            (forallb (fun '(_, _, c) => declared_avtpdu_len c <=? k_avtpdu_len c) l)]
  end.

(** * SRP *)

Record talker_state := TalkerState {
  advertise : bool; failed : bool; withdrawn : bool; declared : talker; last_event : string
}.

Record listener_state := ListenerState { declarations : list (string * option string); ready : bool }.

Record srp := Srp {
  talkers : gmap Z talker_state; listeners : gmap Z listener_state;
  domains : list mrp_fields; mvrp_vids : list Z
}.

Definition ready_declared (a : MrpAttribute) : bool :=
  declaring a && (bool_decide (at_declaration a = Some "Ready"%string)
                  || bool_decide (at_declaration a = Some "Ready Failed"%string)).

Definition srp_step (st : srp) (a : MrpAttribute) : srp :=
  let 'Srp talkers listeners domains vids := st in
  match at_protocol a with
  | MVRP =>
      match at_fields a with
      | VidField (Some v) => if declaring a then Srp talkers listeners domains (vids ++ [v]) else st
      | _ => st
      end
  | MSRP =>
      if (at_type a =? MSRP_TALKER_ADVERTISE) || (at_type a =? MSRP_TALKER_FAILED) then
        match at_fields a with
        | TalkerFields t =>
            let r := default (TalkerState false false false t "") (talkers !! t_stream_id t) in
            let adv := at_type a =? MSRP_TALKER_ADVERTISE in
            let r := TalkerState (if adv then advertise r || declaring a else advertise r)
                       (if adv then failed r else failed r || declaring a)
                       (if declaring a then withdrawn r else true) t (at_event a) in
            Srp (<[t_stream_id t := r]> talkers) listeners domains vids
        | _ => st
        end
      else if at_type a =? MSRP_LISTENER then
        match at_fields a with
        | ListenerFields sid _ _ =>
            let r := default (ListenerState [] false) (listeners !! sid) in
            let r := ListenerState (declarations r ++ [(at_event a, at_declaration a)])
                       (ready r || ready_declared a) in
            Srp talkers (<[sid := r]> listeners) domains vids
        | _ => st
        end
      else if (at_type a =? MSRP_DOMAIN) && declaring a
      then Srp talkers listeners (domains ++ [at_fields a]) vids
      else st
  end.

Definition srp_state (w : WireTruth) : srp :=
  let st := fold_left srp_step (map (fun '(_, _, a) => a) (w_mrp w)) (Srp ∅ ∅ [] []) in
  Srp (talkers st) (listeners st) (domains st) (sorted_z (remove_dups (mvrp_vids st))).

Definition srp_talker_advertise (st : srp) (expected : list Z) : Verdict :=
  let name := "wt.msrp.talker-advertise-declared"%string in
  match expected with
  | [] => nothing_to_check name
  | _ => v_ name None
           (forallb (fun s => match talkers st !! s with Some r => advertise r | None => false end) expected)
  end.

Definition srp_listener_licence (st : srp) (streaming : list Z) : Verdict :=
  let name := "wt.msrp.listener-declaration-present"%string in
  match streaming with
  | [] => nothing_to_check name
  | _ => v_ name None
           (forallb (fun s => match listeners st !! s with Some r => ready r | None => false end) streaming)
  end.

(** Whether each declared stream's first frame agrees with its declaration. *)
Definition declared_agreements {A} (agree : talker -> EthFrame -> bool) (frame : A -> EthFrame) (st : srp)
    (table : gmap Z (list A)) : result py_error (list bool) :=
  let* l := mapR (fun '(sid, recs) =>
              match talkers st !! sid with
              | None => Ok None
              | Some r => let* x := first_of recs in Ok (Some (agree (declared r) (frame x)))
              end) (items table) in
  Ok (omap id l).

Definition declaration_verdict (name : string) (agree : talker -> EthFrame -> bool) (st : srp) (w : WireTruth) :
    result py_error Verdict :=
  let* a := declared_agreements agree (fun '(_, e, _) => e) st (w_aaf w) in
  let* c := declared_agreements agree (fun '(_, e, _) => e) st (w_crf w) in
  match a ++ c with
  | [] => Ok (nothing_to_check name)
  | l => Ok (v_ name None (forallb id l))
  end.

Definition srp_declaration_matches_wire (st : srp) (w : WireTruth) : result py_error (list Verdict) :=
  let* d := declaration_verdict "wt.msrp.declared-dmac-matches-wire"
              (fun t e => bool_decide (e_dst e = destination_address t)) st w in
  let* v := declaration_verdict "wt.msrp.declared-vid-matches-wire"
              (fun t e => bool_decide (vid e = Some (vlan_identifier t))) st w in
  Ok [d; v].

(** [max] over the payloads of the stream's records: a CRF record has none, and
    the maximum of nothing raises. *)
Definition largest_avtpdu (w : WireTruth) (sid : Z) : result py_error (option Z) :=
  match default [] (w_aaf w !! sid) with
  | (_ :: _) as recs => Ok (Some (max_z 0 (map (fun '(_, _, p) => zlen (a_payload p) + 24) recs)))
  | [] =>
      match default [] (w_crf w !! sid) with
      | _ :: _ => Err ValueError
      | [] => Ok None
      end
  end.

Definition srp_tspec (st : srp) (w : WireTruth) : result py_error Verdict :=
  let name := "wt.msrp.tspec-declared"%string in
  let* oks := mapR (fun '(sid, r) =>
                let f := declared r in
                let* big := largest_avtpdu w sid in
                Ok (match big with
                    | Some b => (max_frame_size f =? 0) || (b <=? max_frame_size f)
                    | None => true
                    end && negb (max_interval_frames f =? 0))) (items (talkers st)) in
  match oks with
  | [] => Ok (nothing_to_check name)
  | _ => Ok (v_ name None (forallb id oks))
  end.

Definition srp_domain_and_vid (st : srp) : list Verdict :=
  [match domains st with
   | [] => nothing_to_check "wt.msrp.domain-declared"
   | l => v_ "wt.msrp.domain-declared" None
            (forallb (fun d => match d with
                               | DomainFields 6 p _ => p =? sr_class_a_pcp expect
                               | _ => true
                               end) l)
   end;
   match mvrp_vids st, sr_vid expect with
   | [], _ => nothing_to_check "wt.mvrp.sr-vid-declared"
   | _, None => nothing_to_check "wt.mvrp.sr-vid-declared"
   | l, Some v => v_ "wt.mvrp.sr-vid-declared" None (bool_decide (v ∈ l))
   end].

Definition check_srp_declarations (w : WireTruth) : result py_error (list Verdict) :=
  match w_mrp w with
  | [] => Ok (map nothing_to_check
      ["wt.msrp.talker-advertise-declared"; "wt.msrp.listener-declaration-present";
       "wt.msrp.declared-dmac-matches-wire"; "wt.msrp.declared-vid-matches-wire";
       "wt.msrp.tspec-declared"; "wt.msrp.domain-declared"; "wt.mvrp.sr-vid-declared"]%string)
  | _ =>
      let st := srp_state w in
      let streaming := keys (w_aaf w) ++ keys (w_crf w) in
      let expected := match sorted_z (talker_stream_ids expect) with [] => streaming | l => l end in
      let* matches := srp_declaration_matches_wire st w in
      let* tspec := srp_tspec st w in
      Ok ([srp_talker_advertise st expected; srp_listener_licence st streaming]
          ++ matches ++ [tspec] ++ srp_domain_and_vid st)
  end.

(** * The verdicts of a capture *)

Definition checks (w : WireTruth) : result py_error (list Verdict) :=
  let* declared := check_aaf_declared_vs_wire w in
  let* legal := check_aaf_header_legality w in
  let* arithmetic := check_aaf_payload_arithmetic w in
  let* sequence := check_sequence_continuity w in
  let* timestamps := check_aaf_timestamps w in
  let* vlan := check_vlan_class w in
  let* format := check_crf_format w in
  let* rate := check_crf_rate w in
  let* srp := check_srp_declarations w in
  Ok (check_capture_shape w ++ declared ++ legal ++ arithmetic ++ sequence ++ timestamps ++ vlan
      ++ check_zero_fill w ++ format ++ rate ++ check_adp_frame_rule w
      ++ check_control_length_honesty w ++ srp).
End WireTruth.
Arguments WireTruth : clear implicits.
