(* ===== verification/WireIdentity.v ===== *)
(** Which audio channel is which, decided from the payload alone:
    [tb/tools/avtp_wire_truth_identity.py].

    The verdicts pass exactly when every channel of every frame carries its own
    tag; for a frame of the byte-vector oracle that is a statement about the
    samples it was built from. *)
From S2P Require Import Prelude Descriptors Unicode Text Packing WireTruth WireFrames WireOracle WireChecks.

(** * The source *)

(** [channel_identity]. *)
Definition channel_identity (pdu : AafPdu) (shift : Z) : list (list Z) :=
  let n := default 0 (sample_frames pdu) in
  map (fun c => map (fun f => Z.shiftr (default 0 (sample pdu f c)) shift) (seq 0 (Z.to_nat n)))
    (seq 0 (Z.to_nat (a_channels_per_frame pdu))).

Definition silent_channel (vals : list Z) : bool := negb (existsb (fun v => negb (v =? 0)) vals).

Definition crossed_channel (want : Z) (vals : list Z) : bool :=
  negb (silent_channel vals) && negb (forallb (fun v => v =? want) vals).

(** [(n, c)] for every channel of every frame that is silent, is crossed, or
    repeats its lower neighbour. *)
Definition silent (pdus : list AafPdu) : list (Z * Z) :=
  concat (map (fun '(n, p) =>
    omap (fun '(c, vals) => if silent_channel vals then Some (n, c) else None) (enumerate (channel_identity p 8)))
    (enumerate pdus)).

Definition crossed (tag_of : Z -> Z) (pdus : list AafPdu) : list (Z * Z) :=
  concat (map (fun '(n, p) =>
    omap (fun '(c, vals) => if crossed_channel (tag_of c) vals then Some (n, c) else None)
      (enumerate (channel_identity p 8))) (enumerate pdus)).

Definition duplicated (pdus : list AafPdu) : list (Z * Z) :=
  concat (map (fun '(n, p) =>
    let chans := channel_identity p 8 in
    omap (fun '(c, (a, b)) => if bool_decide (b <> []) && bool_decide (b = a) then Some (n, c) else None)
      (enum_from 1 (zip chans (tail chans)))) (enumerate pdus)).

(** The tag of the tone generator. *)
Definition walking_tag (c : Z) : Z := Z.shiftl 1 c.

Definition check_walking_tone (pdus : list AafPdu) (expect_channels : Z) (tag_of : Z -> Z) : list Verdict :=
  match pdus with
  | [] => [MkVerdict "audio.identity" None FAIL]
  | _ =>
      [v_ "audio.identity.channel-count" None
         (bool_decide ((list_to_set (map a_channels_per_frame pdus) : gset Z) = {[ expect_channels ]}));
       v_ "audio.identity.uncrossed" None (bool_decide (crossed tag_of pdus = []));
       v_ "audio.identity.no-duplicate-neighbour" None (bool_decide (duplicated pdus = []));
       v_ "audio.identity.no-silent-channel" None (bool_decide (silent pdus = []))]
  end.

(** * What the verdicts say *)

Definition passes (vs : list Verdict) : Prop := Forall (fun v => verdict v = PASS) vs.

(** Every channel of the frame carries its tag, in at least one sample, and the
    tags of neighbours differ. *)
Definition identified (tag_of : Z -> Z) (p : AafPdu) : Prop :=
  forall c vals, channel_identity p 8 !! c = Some vals ->
    vals <> [] /\ tag_of (Z.of_nat c) <> 0 /\ Forall (fun v => v = tag_of (Z.of_nat c)) vals /\
    (c <> 0%nat -> tag_of (Z.of_nat c) <> tag_of (Z.of_nat c - 1)).

Lemma concat_nil {A B} (f : A -> list B) l : concat (map f l) = [] <-> forall x, In x l -> f x = [].
Proof.
  induction l as [|x l IH]; cbn [map concat In]; [done|]. split.
  - intros [Hx Hl]%app_eq_nil y [<-|Hy]; [done|]. by apply IH.
  - intros H. rewrite (H x) by (by left). apply IH. intros y Hy. apply H. by right.
Qed.

Lemma enumerated {A} k (l : list A) (P : Z -> A -> Prop) :
  (forall x, In x (enum_from k l) -> P (fst x) (snd x)) <->
  forall i a, l !! i = Some a -> P (k + Z.of_nat i) a.
Proof.
  split.
  - intros H i a Hi. apply (H (k + Z.of_nat i, a)). apply list_elem_of_In.
    apply (list_elem_of_lookup_2 _ i). by rewrite enum_from_lookup, Hi.
  - intros H [i a] Hx. apply list_elem_of_In, list_elem_of_lookup_1 in Hx as [j Hj].
    rewrite enum_from_lookup in Hj. apply fmap_Some in Hj as (b & Hb & [= -> ->]). by apply H.
Qed.

(** One report over the channels of the frames is empty when no channel is
    reported. *)
Lemma report_nil (bad : Z -> list Z -> bool) pdus :
  concat (map (fun '(n, p) =>
    omap (fun '(c, vals) => if bad c vals then Some ((n, c) : Z * Z) else None) (enumerate (channel_identity p 8)))
    (enumerate pdus)) = [] <->
  forall p, In p pdus -> forall c vals, channel_identity p 8 !! c = Some vals -> bad (Z.of_nat c) vals = false.
Proof.
  rewrite concat_nil. split.
  - intros H p Hp c vals Hc. apply list_elem_of_In, list_elem_of_lookup_1 in Hp as [k Hk].
    assert (In (0 + Z.of_nat k, p) (enumerate pdus)) as Hin.
    { apply list_elem_of_In, (list_elem_of_lookup_2 _ k). unfold enumerate. by rewrite enum_from_lookup, Hk. }
    specialize (H _ Hin). cbn beta iota in H. rewrite omap_nil in H.
    assert (In (Z.of_nat c, vals) (enumerate (channel_identity p 8))) as Hv.
    { apply list_elem_of_In, (list_elem_of_lookup_2 _ c). unfold enumerate. by rewrite enum_from_lookup, Hc. }
    specialize (H _ Hv). cbn beta iota in H. by destruct (bad (Z.of_nat c) vals).
  - intros H [n p] Hp. apply enum_from_In in Hp as [_ Hp]. apply omap_nil. intros [c vals] Hc.
    apply list_elem_of_In, list_elem_of_lookup_1 in Hc as [j Hj]. unfold enumerate in Hj.
    rewrite enum_from_lookup in Hj. apply fmap_Some in Hj as (b & Hb & [= -> ->]).
    rewrite Z.add_0_l. by rewrite (H p Hp j b Hb).
Qed.

Lemma duplicated_nil pdus : duplicated pdus = [] <->
  forall p, In p pdus -> forall c a b, channel_identity p 8 !! c = Some a -> channel_identity p 8 !! S c = Some b ->
    b <> [] -> b <> a.
Proof.
  unfold duplicated. rewrite concat_nil.
  assert (forall (n : Z) chans, omap (fun '(c, (a, b)) =>
      if bool_decide (b <> []) && bool_decide (b = a) then Some ((n, c) : Z * Z) else None)
      (enum_from 1 (zip chans (tail chans))) = [] <->
    forall c (a b : list Z), chans !! c = Some a -> chans !! S c = Some b -> b <> [] -> b <> a) as Hone.
  { intros n chans. rewrite omap_nil.
    assert (forall c (a b : list Z), zip chans (tail chans) !! c = Some (a, b) <->
      chans !! c = Some a /\ chans !! S c = Some b) as Hz.
    { intros c a b. rewrite lookup_zip_with_Some. assert (tail chans !! c = chans !! S c) as -> by (by destruct chans).
      split; [by intros (x & y & [= -> ->] & ? & ?)|]. intros [? ?]. by exists a, b. }
    split.
    - intros H c a b Ha Hb Hne ->.
      assert (In (1 + Z.of_nat c, (a, a)) (enum_from 1 (zip chans (tail chans)))) as Hin.
      { apply list_elem_of_In, (list_elem_of_lookup_2 _ c). rewrite enum_from_lookup.
        by rewrite (proj2 (Hz c a a) (conj Ha Hb)). }
      specialize (H _ Hin). cbn beta iota in H. by rewrite !bool_decide_true in H by done.
    - intros H [c [a b]] Hc. apply list_elem_of_In, list_elem_of_lookup_1 in Hc as [j Hj].
      rewrite enum_from_lookup in Hj. apply fmap_Some in Hj as ([x y] & [Hx Hy]%Hz & [= -> -> ->]).
      destruct (decide (y = [])) as [->|Hne]; [done|]. rewrite (bool_decide_false (y = x)) by (by apply (H j)).
      by rewrite andb_false_r. }
  split.
  - intros H p Hp. apply list_elem_of_In, list_elem_of_lookup_1 in Hp as [k Hk]. apply (Hone (0 + Z.of_nat k)).
    apply (H (0 + Z.of_nat k, p)). apply list_elem_of_In, (list_elem_of_lookup_2 _ k). unfold enumerate.
    by rewrite enum_from_lookup, Hk.
  - intros H [n p] Hp. apply enum_from_In in Hp as [_ Hp]. by apply Hone, H.
Qed.

Lemma silent_channel_spec vals : silent_channel vals = false <-> exists v, In v vals /\ v <> 0.
Proof.
  unfold silent_channel. rewrite negb_false_iff, existsb_exists.
  split; intros (v & Hv & H); exists v; (split; [done|]); [by apply negb_true_iff, Z.eqb_neq in H|].
  by apply negb_true_iff, Z.eqb_neq.
Qed.

(** The channels of a frame all have as many samples as the frame has. *)
Lemma channel_length p c vals : channel_identity p 8 !! c = Some vals ->
  length vals = Z.to_nat (default 0 (sample_frames p)).
Proof.
  unfold channel_identity. rewrite list_lookup_fmap. intros (x & _ & ->)%fmap_Some. by rewrite length_map, length_seq.
Qed.

Lemma all_equal (vals : list Z) t : Forall (fun v => v = t) vals -> vals = repeat t (length vals).
Proof. induction 1 as [|v l -> _ IH]; [done|]. cbn [length repeat]. by f_equal. Qed.

(** The four verdicts, as statements. *)
Lemma verdicts_pass p0 ps expect_channels tag_of : let pdus := p0 :: ps in
  passes (check_walking_tone pdus expect_channels tag_of) <->
  (forall p, In p pdus -> a_channels_per_frame p = expect_channels) /\
  (forall p, In p pdus -> forall c vals, channel_identity p 8 !! c = Some vals ->
     crossed_channel (tag_of (Z.of_nat c)) vals = false) /\
  (forall p, In p pdus -> forall c a b, channel_identity p 8 !! c = Some a -> channel_identity p 8 !! S c = Some b ->
     b <> [] -> b <> a) /\
  (forall p, In p pdus -> forall c vals, channel_identity p 8 !! c = Some vals -> silent_channel vals = false).
Proof.
  intros pdus. rewrite <-duplicated_nil, <-(report_nil (fun c => crossed_channel (tag_of c))), <-(report_nil (fun _ => silent_channel)).
  change (concat _) with (crossed tag_of pdus) at 1. change (concat _) with (silent pdus) at 1.
  assert ((list_to_set (map a_channels_per_frame pdus) : gset Z) = {[expect_channels]} <->
    forall p, In p pdus -> a_channels_per_frame p = expect_channels) as <-.
  { split.
    - intros H p Hp. assert (a_channels_per_frame p ∈ (list_to_set (map a_channels_per_frame pdus) : gset Z)) as Hin
        by (apply elem_of_list_to_set, list_elem_of_In; by apply in_map).
      rewrite H in Hin. by apply elem_of_singleton in Hin.
    - intros H. apply set_eq. intros x. rewrite elem_of_list_to_set, elem_of_singleton, list_elem_of_In, in_map_iff.
      split; [by intros (p & <- & Hp%H)|]. intros ->. exists p0. split; [apply H|]; by left. }
  assert (forall P `{Decision P}, (if bool_decide P then PASS else FAIL) = PASS <-> P) as Hb
    by (intros P HP; destruct (bool_decide P) eqn:E; bool_prop; split; done).
  unfold passes, check_walking_tone, pdus. rewrite !List.Forall_cons_iff. unfold v_. cbn [verdict]. rewrite !Hb.
  split; [by intros (H1 & H2 & H3 & H4 & _)|]. intros (H1 & H2 & H3 & H4). by split_and!.
Qed.

(** A channel that is neither silent nor crossed carries its tag. *)
Lemma carries_tag want vals : silent_channel vals = false -> crossed_channel want vals = false ->
  vals <> [] /\ want <> 0 /\ Forall (fun v => v = want) vals.
Proof.
  intros Hs Hx. unfold crossed_channel in Hx. rewrite Hs in Hx. cbn [negb andb] in Hx.
  apply negb_false_iff in Hx. rewrite forallb_forall in Hx. apply silent_channel_spec in Hs as (v & Hv & Hne).
  assert (Forall (fun v => v = want) vals) as Hf by (apply List.Forall_forall; intros w Hw%Hx; by apply Z.eqb_eq).
  split_and!; [by destruct vals| |done]. rewrite List.Forall_forall in Hf. by rewrite <-(Hf v Hv).
Qed.

(** The verdicts of the identity property pass exactly when there are frames, all
    of the expected width, in which every channel carries its own tag and nothing
    else, and the tags tell neighbours apart. *)
Theorem walking_tone_exact pdus expect_channels tag_of :
  passes (check_walking_tone pdus expect_channels tag_of) <->
  pdus <> [] /\ forall p, In p pdus -> a_channels_per_frame p = expect_channels /\ identified tag_of p.
Proof.
  destruct pdus as [|p0 ps]; [split; [by inversion 1|by intros [? _]]|]. rewrite verdicts_pass.
  set (pdus := p0 :: ps). split.
  - intros (Hch & Hcross & Hdup & Hsil). split; [done|]. intros p Hp. split; [by apply Hch|].
    assert (forall c vals, channel_identity p 8 !! c = Some vals -> _) as Hall
      by (intros c vals Hc; exact (carries_tag _ _ (Hsil p Hp c vals Hc) (Hcross p Hp c vals Hc))).
    intros c vals Hc. destruct (Hall c vals Hc) as (H1 & H2 & H3). split_and!; try done. intros Hc0 Heq.
    destruct c as [|c]; [done|].
    destruct (lookup_lt_is_Some_2 (channel_identity p 8) c) as [prev Hprev]; [apply lookup_lt_Some in Hc; lia|].
    destruct (Hall c prev Hprev) as (_ & _ & H4). apply (Hdup p Hp c prev vals Hprev Hc H1).
    rewrite (all_equal _ _ H3), (all_equal _ _ H4), (channel_length _ _ _ Hc), (channel_length _ _ _ Hprev), Heq.
    f_equal. f_equal. lia.
  - intros [_ H]. split_and!; intros p Hp; [by apply H|..].
    all: destruct (H p Hp) as [_ Hid]; intros c.
    + intros vals Hc. destruct (Hid c vals Hc) as (_ & _ & Hf & _). unfold crossed_channel.
      apply andb_false_intro2, negb_false_iff, forallb_forall. rewrite List.Forall_forall in Hf.
      intros v Hv%Hf. by apply Z.eqb_eq.
    + intros a b Ha Hb Hne ->. destruct (Hid c a Ha) as (_ & _ & Hfa & _), (Hid (S c) a Hb) as (_ & _ & Hfb & Hd).
      destruct a as [|x a]; [done|]. apply List.Forall_cons_iff in Hfa as [-> _], Hfb as [Hx _].
      apply Hd; [done|]. rewrite <-Hx. f_equal. lia.
    + intros vals Hc. destruct (Hid c vals Hc) as (Hne & Ht & Hf & _). apply silent_channel_spec.
      destruct vals as [|v vals]; [done|]. apply List.Forall_cons_iff in Hf as [-> _]. eexists. split; [by left|done].
Qed.

(** * Frames of the oracle *)

(** A sample as the verdicts see it: signed, in 24 bits. *)
Definition narrow (v : Z) : Z := (v + 2 ^ 23) mod 2 ^ 24 - 2 ^ 23.

Lemma wide_narrow v : Z.shiftr (wide v) 8 = narrow v.
Proof.
  rewrite Z.shiftr_div_pow2 by done. unfold wide, narrow. change (2 ^ 8) with 256. change (2 ^ 23) with 8388608.
  change (2 ^ 24) with 16777216. change (2 ^ 31) with 2147483648. change (2 ^ 32) with 4294967296.
  Z.div_mod_to_equations; lia.
Qed.

(** [p] is what a reader makes of the frame built from [f]. *)
Definition read_back (f : AafFrame) (p : AafPdu) : Prop :=
  exists frame d s eth, build_aaf_frame f = Ok frame /\ aaf_fits f /\
    from_hex (fr_dmac f) = Ok d /\ zlen d = 6 /\ from_hex (fr_smac f) = Ok s /\ zlen s = 6 /\
    decode_eth frame = Some eth /\ decode_aaf (e_payload eth) = Some p.

Lemma read_back_spec f p : read_back f p ->
  aaf_fits f /\ p = aaf_seen f (a_payload p) /\ sample_frames p = Some (fr_sample_frames f) /\
  forall n c, 0 <= n < fr_sample_frames f -> 0 <= c < fr_channels f ->
    exists v, sample_at f n c = Ok v /\ sample p (Z.to_nat n) (Z.to_nat c) = Some (wide v).
Proof.
  intros (frame & d & s & eth & H & Hfit & Hd & Hd6 & Hs & Hs6 & He & Hp). split; [done|].
  destruct (aaf_frame_reads f frame d s H Hfit Hd Hd6 Hs Hs6) as (eth' & p' & He' & Hp' & _ & _ & Hrest).
  assert (eth' = eth) as -> by congruence. assert (p' = p) as -> by congruence. exact Hrest.
Qed.

(** The samples [f] was built from carry the tags. *)
Definition tagged_samples (tag_of : Z -> Z) (f : AafFrame) : Prop :=
  forall c, 0 <= c < fr_channels f ->
    tag_of c <> 0 /\ (c <> 0 -> tag_of c <> tag_of (c - 1)) /\
    forall n, 0 <= n < fr_sample_frames f -> exists v, sample_at f n c = Ok v /\ narrow v = tag_of c.

Lemma identified_read_back tag_of f p : read_back f p -> identified tag_of p <-> tagged_samples tag_of f.
Proof.
  intros H. apply read_back_spec in H as ([_ Hsf Hch _ _] & Ep & Hn & Hs).
  assert (a_channels_per_frame p = fr_channels f) as Hc by (by rewrite Ep).
  assert (forall c, 0 <= c < fr_channels f -> exists vals, channel_identity p 8 !! Z.to_nat c = Some vals /\
    length vals = Z.to_nat (fr_sample_frames f) /\
    forall n, 0 <= n < fr_sample_frames f ->
      exists v, sample_at f n c = Ok v /\ vals !! Z.to_nat n = Some (narrow v)) as Hvals.
  { intros c Hc0. unfold channel_identity. rewrite Hn, Hc, list_lookup_fmap, lookup_seq_lt by lia.
    eexists. split; [reflexivity|]. cbn [default from_option id]. split; [by rewrite length_map, length_seq|].
    intros n Hn0. destruct (Hs n c Hn0 Hc0) as (v & Hv & Hw). exists v. split; [done|].
    rewrite list_lookup_fmap, lookup_seq_lt by lia. cbn [fmap option_fmap option_map Nat.add].
    rewrite Hw. cbn [default from_option id]. by rewrite wide_narrow. }
  split.
  - intros Hid c Hc0. destruct (Hvals c Hc0) as (vals & Hl & Hlen & Hv).
    destruct (Hid _ _ Hl) as (Hne & Ht & Hf & Hd). rewrite Z2Nat.id in * by lia.
    split; [done|]. split; [intros; apply Hd; lia|]. intros n Hn0. destruct (Hv n Hn0) as (v & Hv1 & Hv2).
    exists v. split; [done|]. exact (Forall_lookup_1 _ _ _ _ Hf Hv2).
  - intros Htag k vals Hk.
    assert (0 <= Z.of_nat k < fr_channels f) as Hk0.
    { apply lookup_lt_Some in Hk. unfold channel_identity in Hk. rewrite length_map, length_seq in Hk. lia. }
    destruct (Hvals _ Hk0) as (vals' & Hl & Hlen & Hv). rewrite Nat2Z.id in Hl. rewrite Hk in Hl. injection Hl as <-.
    destruct (Htag _ Hk0) as (Ht & Hd & Ha). split_and!; [by destruct vals; cbn in Hlen; [lia|]|done| |intros; apply Hd; lia].
    apply Forall_lookup_2. intros i x Hx. assert (i < length vals)%nat by (by eapply lookup_lt_Some).
    destruct (Hv (Z.of_nat i)) as (v & Hv1 & Hv2); [lia|]. destruct (Ha (Z.of_nat i)) as (v' & Hv3 & Hv4); [lia|].
    rewrite Nat2Z.id in Hv2. congruence.
Qed.

(** Frames built by hand pass when they are of the expected width and tagged. *)
Lemma tone_frames_pass fs ps expect_channels tag_of : Forall2 read_back fs ps ->
  passes (check_walking_tone ps expect_channels tag_of) <->
  fs <> [] /\ Forall (fun f => fr_channels f = expect_channels /\ tagged_samples tag_of f) fs.
Proof.
  intros H. rewrite walking_tone_exact. rewrite <-List.Forall_forall.
  assert (ps <> [] <-> fs <> []) as -> by (destruct H; done).
  assert (Forall (fun p => a_channels_per_frame p = expect_channels /\ identified tag_of p) ps <->
    Forall (fun f => fr_channels f = expect_channels /\ tagged_samples tag_of f) fs) as ->; [|done].
  induction H as [|f p fs ps Hf _ IH]; [done|]. rewrite !List.Forall_cons_iff, IH.
  rewrite (identified_read_back tag_of f p Hf). apply read_back_spec in Hf as (_ & Ep & _). by rewrite Ep.
Qed.

(** The sample [v] of channel [c], at the instant [n] of [f], is not the one of its
    channel: nothing was sent there, what was sent belongs to a channel of
    another tag, or it is what the channel below carries. *)
Definition misplaced (tag_of : Z -> Z) (f : AafFrame) (n c v : Z) : Prop :=
  narrow v = 0 \/
  (exists d, 0 <= d < fr_channels f /\ narrow v = tag_of d /\ tag_of d <> tag_of c) \/
  (0 < c /\ exists u, sample_at f n (c - 1) = Ok u /\ narrow u = narrow v).

Lemma misplaced_not_tagged tag_of f n c v : tagged_samples tag_of f -> 0 <= c < fr_channels f ->
  0 <= n < fr_sample_frames f -> sample_at f n c = Ok v -> ~ misplaced tag_of f n c v.
Proof.
  intros Ht Hc Hn Hv Hm. destruct (Ht c Hc) as (Hne & Hd & Hs). destruct (Hs n Hn) as (w & Hw & Etag).
  assert (w = v) as -> by congruence. destruct Hm as [E|[(d & _ & E & Hdc)|(Hc0 & u & Hu & E)]]; [congruence..|].
  destruct (Ht (c - 1) ltac:(lia)) as (_ & _ & Hs'). destruct (Hs' n Hn) as (w & Hw' & Etag').
  apply Hd; [lia|]. congruence.
Qed.


(** The tags of the tone generator are powers of two, which 24 bits hold below the
    sign. *)
Lemma walking_tag_pow c : 0 <= c -> walking_tag c = 2 ^ c.
Proof. intros Hc. unfold walking_tag. by rewrite Z.shiftl_1_l. Qed.

Lemma walking_tag_neighbours c : 0 <= c -> walking_tag c <> 0 /\ (c <> 0 -> walking_tag c <> walking_tag (c - 1)).
Proof.
  intros Hc. rewrite walking_tag_pow by done. split; [by apply Z.pow_nonzero|]. intros Hc0.
  rewrite walking_tag_pow by lia. intros E. apply Z.pow_inj_r in E; lia.
Qed.

Lemma narrow_walking_tag c : 0 <= c < 23 -> narrow (walking_tag c) = walking_tag c.
Proof.
  intros Hc. rewrite walking_tag_pow by lia. unfold narrow. rewrite Z.mod_small; [lia|].
  assert (2 ^ c < 2 ^ 23) by (apply Z.pow_lt_mono_r; lia). pose proof (Z.pow_nonneg 2 c ltac:(done)).
  change (2 ^ 24) with (2 ^ 23 + 2 ^ 23). lia.
Qed.

Lemma walking_tag_tops v : narrow v <> walking_tag 23.
Proof.
  unfold narrow. change (walking_tag 23) with (2 ^ 23).
  pose proof (Z.mod_pos_bound (v + 2 ^ 23) (2 ^ 24) ltac:(done)). change (2 ^ 24) with (2 ^ 23 + 2 ^ 23) in *. lia.
Qed.


(** * Witnesses *)

(** Two channels with their tags, and twenty-four. *)
Definition tone (channels : Z) : AafFrame :=
  MkAafFrame (lit "91e0f000fe01") (lit "020000000002") 2 3 true 0 9 0 channels 2 24 5 2
    (Some (repeat (map walking_tag (zrange 0 (Z.to_nat channels))) 2)) 1 0 0 0.

Definition read_of (f : AafFrame) : AafPdu :=
  match build_aaf_frame f with
  | Ok frame => match decode_eth frame with
                | Some eth => default (aaf_seen f []) (decode_aaf (e_payload eth))
                | None => aaf_seen f []
                end
  | Err _ => aaf_seen f []
  end.

Lemma tone_read_back n : 0 < n < 1024 -> forall frame d s eth p,
  build_aaf_frame (tone n) = Ok frame -> from_hex (lit "91e0f000fe01") = Ok d -> zlen d = 6 ->
  from_hex (lit "020000000002") = Ok s -> zlen s = 6 -> decode_eth frame = Some eth ->
  decode_aaf (e_payload eth) = Some p -> read_back (tone n) p.
Proof.
  intros Hn frame d s eth p H1 H2 H3 H4 H5 H6 H7. exists frame, d, s, eth.
  assert (aaf_fits (tone n)) as Hfit by (constructor; [reflexivity|cbn; lia..]).
  exact (conj H1 (conj Hfit (conj H2 (conj H3 (conj H4 (conj H5 (conj H6 H7))))))).
Qed.

(** The two channels of [tone 2], exchanged. *)
Definition crossed_tone : AafFrame :=
  MkAafFrame (lit "91e0f000fe01") (lit "020000000002") 2 3 true 0 9 0 2 2 24 5 2 (Some [[2; 1]; [2; 1]]) 1 0 0 0.

Lemma crossed_read_back : forall frame d s eth p,
  build_aaf_frame crossed_tone = Ok frame -> from_hex (lit "91e0f000fe01") = Ok d -> zlen d = 6 ->
  from_hex (lit "020000000002") = Ok s -> zlen s = 6 -> decode_eth frame = Some eth ->
  decode_aaf (e_payload eth) = Some p -> read_back crossed_tone p.
Proof.
  intros frame d s eth p H1 H2 H3 H4 H5 H6 H7. exists frame, d, s, eth.
  assert (aaf_fits crossed_tone) as Hfit by (constructor; [reflexivity|cbn; lia..]).
  exact (conj H1 (conj Hfit (conj H2 (conj H3 (conj H4 (conj H5 (conj H6 H7))))))).
Qed.

Lemma Forall2_one {A B} (R : A -> B -> Prop) x y : R x y -> Forall2 R [x] [y].
Proof. intros H. by apply Forall2_cons. Qed.

(** The tags in a frame of two or twenty-three channels. *)
Lemma tone_samples k n c : (k = 2 \/ k = 23) -> 0 <= n < 2 -> 0 <= c < k -> sample_at (tone k) n c = Ok (walking_tag c).
Proof.
  intros Hk Hn Hc.
  assert (forallb (fun n => forallb (fun c => match sample_at (tone k) n c with
    | Ok v => v =? walking_tag c | Err _ => false end) (zrange 0 (Z.to_nat k))) [0; 1] = true) as Hb
    by (destruct Hk as [-> | ->]; vm_compute; reflexivity).
  rewrite forallb_forall in Hb. specialize (Hb n ltac:(cbn; lia)). rewrite forallb_forall in Hb.
  specialize (Hb c ltac:(apply zrange_In; lia)). destruct (sample_at (tone k) n c); [|done].
  by apply Z.eqb_eq in Hb as ->.
Qed.


