(* ===== verification/WireVerdicts.v ===== *)
(** What the verdicts over a capture mean.

    Filing first: after any capture a stream's records are the frames of that
    stream in the order of the wire, and every frame is counted once.  Then the
    verdicts: no family passes on what it did not see, the two SRP halves of a
    licence are the declarations on the wire, a sequence verdict is the continuity
    of the numbers, and the run raises in exactly two cases. *)
From S2P Require Import Prelude Unicode Text Packing WireTruth WireChecks.

Section Filing.
Context {T : Type}.

Local Abbreviation rec A := (T * EthFrame * A)%type.
Local Abbreviation captured := (list (T * bytes)).
Local Abbreviation adp_rec := (T * Z * ControlPdu * option Z)%type.

(** The AVTP frame of a record, with its subtype. *)
Definition avtp_frame (r : T * bytes) : option (EthFrame * Z) :=
  match decode_eth (snd r) with
  | Some eth => if e_ethertype eth =? ETH_P_AVTP then pair eth <$> eth_subtype eth else None
  | None => None
  end.

(** The record a decoder of one subtype makes of a frame. *)
Definition record_of {A} (wanted : Z -> bool) (decode : bytes -> option A) (r : T * bytes) : option (rec A) :=
  match avtp_frame r with
  | Some (eth, st) => if wanted st then pair (fst r, eth) <$> decode (e_payload eth) else None
  | None => None
  end.

Definition aaf_record := record_of (Z.eqb SUBTYPE_AAF) decode_aaf.
Definition crf_record := record_of (Z.eqb SUBTYPE_CRF) decode_crf.
Definition control_record := record_of (fun st => bool_decide (st ∈ CONTROL_SUBTYPES)) decode_control.

Definition adp_record (r : T * bytes) : option (T * Z * ControlPdu * option Z) :=
  match record_of (Z.eqb SUBTYPE_ADP) decode_control r with
  | Some (ts, eth, c) =>
      Some (ts, wire_len eth, c,
            if 40 <=? zlen (e_payload eth) then Some (rd_be 36 4 (e_payload eth)) else None)
  | None => None
  end.

(** The MRP records of a frame. *)
Definition mrp_records (r : T * bytes) : list (rec MrpAttribute) :=
  match decode_eth (snd r) with
  | Some eth =>
      if e_ethertype eth =? ETH_P_MSRP
      then map (pair (fst r, eth)) (decode_mrpdu (e_payload eth) MSRP)
      else if e_ethertype eth =? ETH_P_MVRP
      then map (pair (fst r, eth)) (decode_mrpdu (e_payload eth) MVRP)
      else []
  | None => []
  end.

(** One step, component by component. *)
Ltac feed_cases w raw :=
  unfold feed, aaf_record, crf_record, control_record, adp_record, mrp_records, record_of, avtp_frame; cbn [fst snd];
  destruct w; destruct (decode_eth raw) as [eth|]; cbn [option_bind]; [|by rewrite ?app_nil_r];
  destruct (Z.eqb_spec (e_ethertype eth) ETH_P_MSRP) as [Em|Em]; cbn [orb];
    [rewrite ?Em; by rewrite ?app_nil_r|];
  destruct (Z.eqb_spec (e_ethertype eth) ETH_P_MVRP) as [Ev|Ev]; cbn [orb];
    [rewrite ?Ev; by rewrite ?app_nil_r|];
  destruct (e_ethertype eth =? ETH_P_AVTP); cbn [negb]; [|by rewrite ?app_nil_r];
  destruct (eth_subtype eth) as [st|]; cbn [fmap option_fmap option_map]; [|by rewrite ?app_nil_r];
  destruct (Z.eqb_spec st SUBTYPE_AAF) as [->|Ea];
    [change (SUBTYPE_AAF =? SUBTYPE_AAF) with true; cbn [fst snd];
     destruct (decode_aaf _); by rewrite ?app_nil_r|];
  destruct (Z.eqb_spec st SUBTYPE_CRF) as [->|Ec];
    [change (SUBTYPE_CRF =? SUBTYPE_CRF) with true; cbn [fst snd];
     destruct (decode_crf _); by rewrite ?app_nil_r|];
  rewrite ?(proj2 (Z.eqb_neq SUBTYPE_AAF st)), ?(proj2 (Z.eqb_neq SUBTYPE_CRF st)) by done;
  destruct (bool_decide (st ∈ CONTROL_SUBTYPES)) eqn:Ek;
    [destruct (decode_control _) as [c|] | ]; cbn [fmap option_fmap option_map];
  (destruct (Z.eqb_spec st SUBTYPE_ADP) as [->|Ed];
    [try discriminate Ek; by rewrite ?app_nil_r
    |rewrite ?(proj2 (Z.eqb_neq SUBTYPE_ADP st)) by done; by rewrite ?app_nil_r]).

Lemma feed_aaf w ts raw : w_aaf (feed w ts raw) =
  match aaf_record (ts, raw) with Some r => file (a_stream_id (snd r)) r (w_aaf w) | None => w_aaf w end.
Proof. feed_cases w raw. Qed.

Lemma feed_crf w ts raw : w_crf (feed w ts raw) =
  match crf_record (ts, raw) with Some r => file (c_stream_id (snd r)) r (w_crf w) | None => w_crf w end.
Proof. feed_cases w raw. Qed.

Lemma feed_control w ts raw : w_control (feed w ts raw) =
  w_control w ++ match control_record (ts, raw) with Some r => [r] | None => [] end.
Proof. feed_cases w raw. Qed.
Lemma feed_adp w ts raw : w_adp (feed w ts raw) =
  match adp_record (ts, raw) with
  | Some r => file (k_target_entity_id (snd (fst r))) r (w_adp w)
  | None => w_adp w
  end.
Proof. feed_cases w raw. Qed.

Lemma feed_mrp w ts raw : w_mrp (feed w ts raw) = w_mrp w ++ mrp_records (ts, raw).
Proof. feed_cases w raw. Qed.

(** * A whole capture *)

Definition nonempty {A} (l : list A) : option (list A) := match l with [] => None | _ => Some l end.

(** The records of one stream, in the order of the capture. *)
Definition of_stream {A} (key : A -> Z) (k : Z) (l : list A) : list A := List.filter (fun a => key a =? k) l.

Lemma file_lookup {A} (key : A -> Z) (k : Z) (l : list A) :
  fold_left (fun m a => file (key a) a m) l ∅ !! k = nonempty (of_stream key k l).
Proof.
  induction l as [|a l IH] using rev_ind; [done|].
  rewrite fold_left_app. cbn [fold_left]. unfold file, of_stream in *. rewrite List.filter_app. cbn [List.filter].
  destruct (Z.eqb_spec (key a) k) as [<-|E].
  - rewrite lookup_insert_eq. rewrite IH.
    destruct (List.filter _ l); reflexivity.
  - rewrite lookup_insert_ne by done. by rewrite IH, app_nil_r.
Qed.

(** Filing through a partial function is filing what it makes. *)
Lemma file_omap {A B} (f : B -> option A) (key : A -> Z) (l : list B) :
  fold_left (fun m b => match f b with Some a => file (key a) a m | None => m end) l ∅ =
  fold_left (fun m a => file (key a) a m) (omap f l) ∅.
Proof.
  induction l as [|b l IH] using rev_ind; [done|].
  rewrite fold_left_app, IH, omap_app, fold_left_app. cbn [fold_left omap list_omap].
  by destruct (f b).
Qed.

Lemma feed_capture_snoc (w : WireTruth T) (recs : captured) r : feed_capture w (recs ++ [r]) = feed (feed_capture w recs) (fst r) (snd r).
Proof. unfold feed_capture. by rewrite fold_left_app. Qed.

(** The filed tables as folds over what the capture's frames decode to. *)
Lemma capture_folds (recs : captured) :
  let w := feed_capture empty_capture recs in
  w_aaf w = fold_left (fun m (a : rec AafPdu) => file (a_stream_id (snd a)) a m) (omap aaf_record recs) ∅ /\
  w_crf w = fold_left (fun m (a : rec CrfPdu) => file (c_stream_id (snd a)) a m) (omap crf_record recs) ∅ /\
  w_adp w = fold_left (fun m (a : adp_rec) => file (k_target_entity_id (snd (fst a))) a m) (omap adp_record recs) ∅ /\
  w_control w = omap control_record recs /\ w_mrp w = concat (map mrp_records recs).
Proof.
  induction recs as [|[ts raw] recs (I1 & I2 & I3 & I4 & I5)] using rev_ind; [done|].
  rewrite feed_capture_snoc. cbn [fst snd].
  rewrite feed_aaf, feed_crf, feed_adp, feed_control, feed_mrp, I1, I2, I3, I4, I5.
  rewrite !omap_app, !fold_left_app, map_app, concat_app. cbn [omap list_omap map concat].
  rewrite app_nil_r. split_and!; [..|done].
  - by destruct (aaf_record _).
  - by destruct (crf_record _).
  - by destruct (adp_record _).
  - by destruct (control_record _).
Qed.

(** After any capture, a stream's records are the frames of the capture that
    decode to it, in order; so are an entity's advertisements, the control frames
    and the MRP values, and nothing else is filed. *)
Theorem captured_records (recs : captured) :
  let w := feed_capture empty_capture recs in
  (forall sid, w_aaf w !! sid =
     nonempty (of_stream (fun r : rec AafPdu => a_stream_id (snd r)) sid (omap aaf_record recs))) /\
  (forall sid, w_crf w !! sid =
     nonempty (of_stream (fun r : rec CrfPdu => c_stream_id (snd r)) sid (omap crf_record recs))) /\
  (forall eid, w_adp w !! eid =
     nonempty (of_stream (fun r : adp_rec => k_target_entity_id (snd (fst r))) eid (omap adp_record recs))) /\
  w_control w = omap control_record recs /\ w_mrp w = concat (map mrp_records recs).
Proof.
  cbv zeta. destruct (capture_folds recs) as (-> & -> & -> & H). split_and!; try apply H; intros k; apply file_lookup.
Qed.

(** No stream is filed without a frame. *)
Lemma captured_nonempty (recs : captured) :
  let w := feed_capture empty_capture recs in
  map_Forall (fun _ l => l <> []) (w_aaf w) /\ map_Forall (fun _ l => l <> []) (w_crf w).
Proof.
  cbv zeta. destruct (capture_folds recs) as (-> & -> & _).
  split; intros k l; rewrite file_lookup; unfold nonempty; by destruct (of_stream _ _ _); intros [= <-].
Qed.

Definition count_of {A} (p : A -> bool) (l : list A) : Z := zlen (List.filter p l).

Definition is_avtp (r : T * bytes) : bool :=
  match decode_eth (snd r) with Some eth => e_ethertype eth =? ETH_P_AVTP | None => false end.

(** Every frame is counted once: too short for Ethernet, MSRP, MVRP, AVTP, or
    another protocol. *)
Theorem captured_counts (recs : captured) :
  let w := feed_capture empty_capture recs in
  w_frames w = zlen recs /\
  w_frames w = w_short_frames w + w_msrp_frames w + w_mvrp_frames w + w_non_avtp w + count_of is_avtp recs /\
  w_short_frames w = count_of (fun r => bool_decide (decode_eth (snd r) = None)) recs.
Proof.
  induction recs as [|[ts raw] recs (I1 & I2 & I3)] using rev_ind; [done|].
  rewrite feed_capture_snoc. cbn [fst snd]. set (w := feed_capture empty_capture recs) in *. clearbody w.
  cbv zeta. unfold count_of in *. rewrite !List.filter_app, !zlen_app. cbn [List.filter]. unfold is_avtp at 2. cbn [snd].
  unfold feed. destruct w as [n na a c d k u s m ms mv]. cbn in I1, I2, I3.
  destruct (decode_eth raw) as [eth|].
  2: { cbn. rewrite !zlen_cons, !zlen_nil. lia. }
  rewrite (bool_decide_false (Some eth = None)) by done.
  destruct (e_ethertype eth =? ETH_P_MSRP) eqn:Em; cbn [orb].
  { apply Z.eqb_eq in Em. rewrite Em. cbn. rewrite !zlen_cons, !zlen_nil, !decide_True by done. lia. }
  destruct (e_ethertype eth =? ETH_P_MVRP) eqn:Ev; cbn [orb].
  { apply Z.eqb_eq in Ev. rewrite Ev. cbn. rewrite !zlen_cons, !zlen_nil, !decide_False by done. lia. }
  destruct (e_ethertype eth =? ETH_P_AVTP); cbn [negb]; [|cbn; rewrite !zlen_cons, !zlen_nil; lia].
  assert (forall (w : WireTruth T), w_frames w = n + 1 -> w_short_frames w = s -> w_msrp_frames w = ms ->
    w_mvrp_frames w = mv -> w_non_avtp w = na ->
    w_frames w = zlen recs + zlen [(ts, raw)] /\
    w_frames w = w_short_frames w + w_msrp_frames w + w_mvrp_frames w + w_non_avtp w
      + (zlen (List.filter is_avtp recs) + zlen [(ts, raw)]) /\
    w_short_frames w = zlen (List.filter (fun r => bool_decide (decode_eth (snd r) = None)) recs) + zlen (@nil (T * bytes)))
    as Hw.
  { intros w' -> -> -> -> ->. rewrite !zlen_cons, !zlen_nil. lia. }
  destruct (eth_subtype eth) as [st|]; [|by apply Hw].
  destruct (st =? SUBTYPE_AAF); [destruct (decode_aaf _); by apply Hw|].
  destruct (st =? SUBTYPE_CRF); [destruct (decode_crf _); by apply Hw|].
  destruct (bool_decide (st ∈ CONTROL_SUBTYPES)); [|by apply Hw].
  destruct (decode_control _) as [ctl|]; [|by apply Hw]. destruct (st =? SUBTYPE_ADP); by apply Hw.
Qed.
End Filing.

(** * Which captures raise *)

Lemma is_ok_bind {E A B} (m : result E A) (k : A -> result E B) :
  (forall a, is_ok (k a) = true) -> is_ok (rbind m k) = is_ok m.
Proof. intros H. destruct m as [a|e]; [apply H|done]. Qed.

Lemma is_ok_mapR {E A B} (f : A -> result E B) l :
  is_ok (mapR f l) = true <-> forall x, In x l -> is_ok (f x) = true.
Proof.
  induction l as [|x l IH]; cbn [mapR In]; [split; [intros _ x []|done]|].
  split.
  - intros H y [<-|Hy]; destruct (f _) as [b|e] eqn:Ef; try done; cbn [rbind] in H.
    apply IH; [|done]. by destruct (mapR f l).
  - intros H. destruct (f x) as [b|e] eqn:Ef; [|specialize (H x (or_introl eq_refl)); by rewrite Ef in H].
    cbn [rbind]. rewrite is_ok_bind by done. apply IH. auto.
Qed.

Lemma items_In {A} (m : gmap Z A) k v : In (k, v) (items m) <-> m !! k = Some v.
Proof.
  unfold items. rewrite <-list_elem_of_In, (merge_sort_Permutation key_le). apply elem_of_map_to_list.
Qed.

Lemma items_nil {A} (m : gmap Z A) : items m = [] <-> m = ∅.
Proof.
  unfold items. split; [|by intros ->].
  intros H. apply map_to_list_empty_iff. pose proof (merge_sort_Permutation key_le (map_to_list m)) as Hp.
  rewrite H in Hp. by apply Permutation_nil in Hp.
Qed.

Lemma is_ok_per_stream {A} (table : gmap Z (list A)) absent f :
  is_ok (per_stream table absent f) = true <-> forall sid recs, table !! sid = Some recs -> is_ok (f sid recs) = true.
Proof.
  unfold per_stream. destruct (items table) as [|x l] eqn:E.
  - apply items_nil in E. subst. split; [intros _ sid recs; by rewrite lookup_empty|done].
  - rewrite <-E, is_ok_bind, is_ok_mapR by done. split.
    + intros H sid recs Hs. by apply (H (sid, recs)), items_In.
    + intros H [sid recs] Hs%items_In. by apply H.
Qed.

Lemma first_of_Ok {A} (l : list A) : l <> [] -> exists x, first_of l = Ok x.
Proof. destruct l; [done|]. by eexists. Qed.

Lemma last_of_Ok {A} (l : list A) : l <> [] -> exists x, last_of_list l = Ok x.
Proof.
  intros H. unfold last_of_list. destruct (last l) as [x|] eqn:E; [by eexists|].
  by apply last_None in E.
Qed.

Lemma is_ok_mapR_false {E A B} (f : A -> result E B) l :
  is_ok (mapR f l) = false -> exists x, In x l /\ is_ok (f x) = false.
Proof.
  induction l as [|x l IH]; cbn [mapR]; [done|].
  destruct (f x) as [b|e] eqn:Ef; [|intros _; exists x; split; [by left|by rewrite Ef]].
  cbn [rbind]. rewrite is_ok_bind by done. intros (y & Hy & Hf)%IH. exists y. split; [by right|done].
Qed.

Section Raises.
Context {T : Type} (expect : Expectation).
Context (elapsed_ns : T -> T -> Z) (rate_within : Z -> T -> T -> Z -> Z -> option bool).
Context (w : WireTruth T).
Hypothesis (Haaf : map_Forall (fun _ l => l <> []) (w_aaf w)).
Hypothesis (Hcrf : map_Forall (fun _ l => l <> []) (w_crf w)).

(** Take the first or last record of a filed stream. *)
Ltac filed H :=
  lazymatch goal with
  | |- context [first_of ?l] => destruct (first_of_Ok l H) as [[[? ?] ?] ->]
  | |- context [last_of_list ?l] => destruct (last_of_Ok l H) as [[[? ?] ?] ->]
  end; cbn [rbind].

Lemma declared_ok : is_ok (check_aaf_declared_vs_wire expect w) = true.
Proof using All.
  unfold check_aaf_declared_vs_wire. destruct (aaf_format expect) as [n|]; [|done].
  destruct (aaf_of_qword n) as [d|]; [|done]. apply is_ok_per_stream.
  intros sid recs Hs%Haaf. by filed Hs.
Qed.

Lemma timestamps_ok : is_ok (check_aaf_timestamps expect elapsed_ns w) = true.
Proof using All.
  apply is_ok_per_stream. intros sid recs Hs%Haaf. unfold pts_verdict, transit_verdict.
  filed Hs. destruct (negb _ && negb _); cbn [rbind];
    by destruct (gptp_ref_ns expect).
Qed.

Lemma sequence_ok : is_ok (check_sequence_continuity w) = true.
Proof using Type.
  unfold check_sequence_continuity.
  rewrite is_ok_bind; [by apply is_ok_per_stream|]. intros a.
  rewrite is_ok_bind; [by apply is_ok_per_stream|done].
Qed.

Lemma vlan_ok : is_ok (check_vlan_class expect w) = true.
Proof using Type.
  unfold check_vlan_class.
  rewrite is_ok_bind; [by apply is_ok_per_stream|]. intros a.
  rewrite is_ok_bind; [by apply is_ok_per_stream|done].
Qed.

Lemma rate_ok : is_ok (check_crf_rate rate_within w) = true.
Proof using All.
  apply is_ok_per_stream. intros sid recs Hs%Hcrf. filed Hs.
  destruct (_ || _); [done|]. by filed Hs.
Qed.

Lemma format_ok : is_ok (check_crf_format expect w) = true <->
  w_crf w = ∅ \/ is_Some (crf_of_qword (default MILAN_CRF_FORMAT (crf_format expect))).
Proof using All.
  unfold check_crf_format. rewrite is_ok_per_stream. split.
  - intros H. destruct (map_choose_or_empty (w_crf w)) as [(sid & recs & Hs)|E]; [|by left].
    right. specialize (H sid recs Hs). apply Hcrf in Hs. revert H. filed Hs.
    by destruct (crf_of_qword _).
  - intros [E|[d E]] sid recs Hs; [rewrite E in Hs; by rewrite lookup_empty in Hs|].
    apply Hcrf in Hs. filed Hs. by rewrite E.
Qed.

Lemma agreements_ok {A} agree frame st (table : gmap Z (list A)) : map_Forall (fun _ l => l <> []) table ->
  is_ok (declared_agreements agree frame st table) = true.
Proof using Type.
  intros Ht. unfold declared_agreements. rewrite is_ok_bind; [|done]. apply is_ok_mapR.
  intros [sid recs] Hs%items_In%Ht. destruct (talkers st !! sid); [|done].
  by destruct (first_of_Ok recs Hs) as [x ->].
Qed.

Lemma matches_ok st : is_ok (srp_declaration_matches_wire st w) = true.
Proof using All.
  assert (forall name agree, is_ok (declaration_verdict name agree st w) = true) as Hd.
  { intros name agree. unfold declaration_verdict.
    rewrite is_ok_bind; [by apply agreements_ok|]. intros a.
    rewrite is_ok_bind; [by apply agreements_ok|]. intros c. by destruct (a ++ c). }
  unfold srp_declaration_matches_wire. rewrite is_ok_bind; [done|]. intros a.
  rewrite is_ok_bind; [done|done].
Qed.

Lemma largest_ok sid : is_ok (largest_avtpdu w sid) = false <->
  w_aaf w !! sid = None /\ is_Some (w_crf w !! sid).
Proof using All.
  unfold largest_avtpdu. destruct (w_aaf w !! sid) as [l|] eqn:Ea; cbn [default from_option id].
  - apply Haaf in Ea. destruct l; [done|]. split; [done|by intros [? _]].
  - destruct (w_crf w !! sid) as [l|] eqn:Ec; cbn [default from_option id].
    + apply Hcrf in Ec. destruct l; [done|]. split; [by eauto|done].
    + split; [done|by intros [_ [? ?]]].
Qed.

(** A declared talker whose frames are CRF. *)
Definition declared_crf (st : srp) : Prop :=
  exists sid, is_Some (talkers st !! sid) /\ w_aaf w !! sid = None /\ is_Some (w_crf w !! sid).

Lemma tspec_ok st : is_ok (srp_tspec st w) = true <-> ~ declared_crf st.
Proof using All.
  unfold srp_tspec. rewrite is_ok_bind by (intros [|a l]; done). rewrite is_ok_mapR. split.
  - intros H (sid & [r Hr] & Hl). apply items_In in Hr. specialize (H _ Hr). cbn in H.
    apply largest_ok in Hl. by destruct (largest_avtpdu w sid).
  - intros H [sid r] Hr%items_In. destruct (is_ok (largest_avtpdu w sid)) eqn:E.
    + by destruct (largest_avtpdu w sid).
    + apply largest_ok in E. destruct H. exists sid. split; [by eexists|done].
Qed.

Lemma tspec_failed st : is_ok (srp_tspec st w) = false -> declared_crf st.
Proof using All.
  unfold srp_tspec. rewrite is_ok_bind by (intros [|a l]; done).
  intros ([sid r] & Hr%items_In & Hf)%is_ok_mapR_false. exists sid. split; [by eexists|].
  apply largest_ok. by destruct (largest_avtpdu w sid).
Qed.

Lemma srp_ok : is_ok (check_srp_declarations expect w) = true <-> w_mrp w = [] \/ ~ declared_crf (srp_state w).
Proof using All.
  unfold check_srp_declarations. destruct (w_mrp w) as [|x l] eqn:E; [split; [by left|done]|].
  transitivity (is_ok (srp_tspec (srp_state w) w) = true).
  - pose proof (matches_ok (srp_state w)) as Hm.
    destruct (srp_declaration_matches_wire _ w); [|done]. cbn [rbind].
    rewrite is_ok_bind; done.
  - rewrite tspec_ok. split; [by right|]. by intros [?|?].
Qed.

Lemma no_mrp_no_talker : w_mrp w = [] -> ~ declared_crf (srp_state w).
Proof using Type.
  intros E (sid & [r Hr] & _). unfold srp_state in Hr. rewrite E in Hr. cbn in Hr. by rewrite lookup_empty in Hr.
Qed.

Lemma checks_ok : is_ok (checks expect elapsed_ns rate_within w) = true <->
  (w_crf w = ∅ \/ is_Some (crf_of_qword (default MILAN_CRF_FORMAT (crf_format expect)))) /\
  ~ declared_crf (srp_state w).
Proof using All.
  unfold checks.
  pose proof declared_ok. destruct (check_aaf_declared_vs_wire expect w); [|done]. cbn [rbind].
  assert (is_ok (check_aaf_header_legality w) = true) by (by apply is_ok_per_stream).
  destruct (check_aaf_header_legality w); [|done]. cbn [rbind].
  assert (is_ok (check_aaf_payload_arithmetic w) = true) by (by apply is_ok_per_stream).
  destruct (check_aaf_payload_arithmetic w); [|done]. cbn [rbind].
  pose proof sequence_ok. destruct (check_sequence_continuity w); [|done]. cbn [rbind].
  pose proof timestamps_ok. destruct (check_aaf_timestamps expect elapsed_ns w); [|done]. cbn [rbind].
  pose proof vlan_ok. destruct (check_vlan_class expect w); [|done]. cbn [rbind].
  rewrite <-format_ok. destruct (check_crf_format expect w); [|split; [done|by intros [? _]]]. cbn [rbind is_ok].
  pose proof rate_ok. destruct (check_crf_rate rate_within w); [|done]. cbn [rbind].
  rewrite is_ok_bind by done. rewrite srp_ok. pose proof no_mrp_no_talker. tauto.
Qed.
End Raises.

(** C19: The verdicts of a capture raise in exactly two cases: a CRF stream is on the
    wire and the declared CRF format is not one, or a talker was declared for a
    stream that is on the wire as CRF only. *)
Theorem checks_raise_iff {T} (recs : list (T * bytes)) expect elapsed rate :
  let w := feed_capture empty_capture recs in
  is_ok (checks expect elapsed rate w) = false <->
  (w_crf w <> ∅ /\ crf_of_qword (default MILAN_CRF_FORMAT (crf_format expect)) = None) \/
  declared_crf w (srp_state w).
Proof.
  intros w. destruct (captured_nonempty recs) as [Ha Hc]. fold w in Ha, Hc.
  pose proof (checks_ok expect elapsed rate w Ha Hc) as H.
  rewrite <-not_true_iff_false, H. clear H.
  assert (declared_crf w (srp_state w) \/ ~ declared_crf w (srp_state w)) as Hd.
  { destruct (is_ok (srp_tspec (srp_state w) w)) eqn:E.
    - right. by apply (tspec_ok expect elapsed rate w Ha Hc).
    - left. by apply (tspec_failed expect elapsed rate w Ha Hc). }
  destruct (crf_of_qword _) as [d|].
  - split; [|intros [[_ ?]|?]; [done|]; by intros [_ ?]]. intros H. right. destruct Hd; [done|].
    destruct H. split; [right; by eexists|done].
  - destruct (decide (w_crf w = ∅)) as [E|E].
    + split; [|intros [[? _]|?]; [done|]; by intros [_ ?]]. intros H. right. destruct Hd; [done|].
      destruct H. split; [by left|done].
    + split; [intros _; by left|]. intros _ [[?|[? ?]] _]; done.
Qed.

(** * What is not seen does not pass *)

Lemma per_stream_empty {A} absent (f : Z -> list A -> result py_error (list Verdict)) :
  per_stream ∅ absent f = Ok absent.
Proof. done. Qed.

(** A frame of no protocol the checks read. *)
Definition foreign {T} (r : T * bytes) : Prop :=
  match decode_eth (snd r) with
  | Some eth => e_ethertype eth <> ETH_P_AVTP /\ e_ethertype eth <> ETH_P_MSRP /\ e_ethertype eth <> ETH_P_MVRP
  | None => True
  end.

Lemma foreign_files_nothing {T} (w : WireTruth T) ts raw : foreign (ts, raw) ->
  let w' := feed w ts raw in
  w_aaf w' = w_aaf w /\ w_crf w' = w_crf w /\ w_adp w' = w_adp w /\ w_control w' = w_control w /\ w_mrp w' = w_mrp w.
Proof.
  unfold foreign, feed. cbn [snd]. destruct w. destruct (decode_eth raw) as [eth|]; [|done].
  intros (H1 & H2 & H3). by rewrite !(proj2 (Z.eqb_neq _ _)) by done.
Qed.

(** What a run says when it has seen nothing, family by family. *)
Definition unseen_verdicts (expect : Expectation) : list Verdict :=
  let skip := map nothing_to_check in
  let fail check ids := map (fun i => MkVerdict check (Some i) FAIL) ids in
  [MkVerdict "wt.capture.stream-frames-present" None FAIL]
  ++ [match aaf_format expect with
      | Some want => match aaf_of_qword want with
                     | None => MkVerdict "wt.aaf.declared-vs-wire" None FAIL
                     | Some _ => nothing_to_check "wt.aaf.declared-vs-wire"
                     end
      | None => nothing_to_check "wt.aaf.declared-vs-wire"
      end]
  ++ skip ["wt.aaf.header-legal"; "wt.aaf.payload-arithmetic"; "wt.aaf.seq-continuity"; "wt.crf.seq-continuity";
           "wt.aaf.tv-set"; "wt.aaf.pts-step"; "wt.aaf.class-a-transit";
           "wt.aaf.c-tag-present"; "wt.aaf.c-tag-pcp"; "wt.aaf.c-tag-dei"; "wt.aaf.c-tag-vid";
           "wt.crf.c-tag-present"; "wt.crf.c-tag-pcp"; "wt.crf.c-tag-dei"; "wt.crf.c-tag-vid"]%string
  ++ match silent_stream_ids expect, fed_stream_ids expect with
     | [], [] => skip ["wt.aaf.zero-fill"%string]
     | silent, fed => fail "wt.aaf.zero-fill-present"%string silent ++ fail "wt.aaf.fed-non-silent"%string fed
     end
  ++ skip ["wt.crf.milan-format"; "wt.crf.pdu-rate"; "wt.crf.timestamp-step";
           "wt.adp.frame-82"; "wt.adp.available-index-advances"]%string
  ++ fail "wt.adp.alive"%string (adp_entity_ids expect)
  ++ skip ["wt.control.length-honest"; "wt.msrp.talker-advertise-declared"; "wt.msrp.listener-declaration-present";
           "wt.msrp.declared-dmac-matches-wire"; "wt.msrp.declared-vid-matches-wire";
           "wt.msrp.tspec-declared"; "wt.msrp.domain-declared"; "wt.mvrp.sr-vid-declared"]%string.

Lemma unseen_zero_fill {T} expect (w : WireTruth T) : w_aaf w = ∅ ->
  check_zero_fill expect w =
  match silent_stream_ids expect, fed_stream_ids expect with
  | [], [] => map nothing_to_check ["wt.aaf.zero-fill"%string]
  | silent, fed => map (fun i => MkVerdict "wt.aaf.zero-fill-present" (Some i) FAIL) silent
                   ++ map (fun i => MkVerdict "wt.aaf.fed-non-silent" (Some i) FAIL) fed
  end.
Proof.
  intros E. unfold check_zero_fill. rewrite E.
  rewrite (map_ext _ (fun i => MkVerdict "wt.aaf.zero-fill-present" (Some i) FAIL)) by (intros i; by rewrite lookup_empty).
  rewrite (map_ext (fun sid => v_ "wt.aaf.fed-non-silent" _ _) (fun i => MkVerdict "wt.aaf.fed-non-silent" (Some i) FAIL))
    by (intros i; by rewrite lookup_empty).
  destruct (silent_stream_ids expect), (fed_stream_ids expect); try done; cbn [map app]; by rewrite ?app_nil_r.
Qed.

Lemma unseen_adp {T} expect (w : WireTruth T) : w_adp w = ∅ ->
  check_adp_frame_rule expect w =
  map nothing_to_check ["wt.adp.frame-82"; "wt.adp.available-index-advances"]%string
  ++ map (fun e => MkVerdict "wt.adp.alive" (Some e) FAIL) (adp_entity_ids expect).
Proof.
  intros E. unfold check_adp_frame_rule. rewrite E. reflexivity.
Qed.

Lemma unseen_never_passes expect : Forall (fun v => verdict v <> PASS) (unseen_verdicts expect).
Proof.
  assert (forall c ids, Forall (fun v => verdict v <> PASS) (map (fun i => MkVerdict c (Some i) FAIL) ids)) as Hf
    by (intros c ids; apply Forall_map, Forall_true; done).
  unfold unseen_verdicts. cbv zeta. repeat (apply Forall_app; split); try apply Hf; try (by repeat constructor).
  - destruct (aaf_format expect) as [n|]; [destruct (aaf_of_qword n)|]; by repeat constructor.
  - destruct (silent_stream_ids expect), (fed_stream_ids expect); [by repeat constructor|apply Forall_app; by split..].
Qed.

(** C22: A capture without a single AVTP or MRP frame passes nothing, whatever was
    expected of it, and no family is left out: the verdicts are exactly one FAIL
    for the stream count, one for a declared format that is none, one for every
    stream declared silent or fed and every entity declared present, and a SKIP
    for each check of every other family. *)
Theorem nothing_unseen_passes {T} (recs : list (T * bytes)) expect elapsed rate : Forall foreign recs ->
  checks expect elapsed rate (feed_capture empty_capture recs) = Ok (unseen_verdicts expect) /\
  Forall (fun v => verdict v <> PASS) (unseen_verdicts expect).
Proof.
  intros Hf. split; [|apply unseen_never_passes]. set (w := feed_capture empty_capture recs).
  assert (w_aaf w = ∅ /\ w_crf w = ∅ /\ w_adp w = ∅ /\ w_control w = [] /\ w_mrp w = []) as (Ea & Ec & Ed & Ek & Em).
  { unfold w. clear w. induction recs as [|[ts raw] recs IH] using rev_ind; [done|].
    apply Forall_app in Hf as [Hf Hr]. rewrite feed_capture_snoc. cbn [fst snd].
    inversion Hr as [|? ? Hr1 _]; subst.
    destruct (foreign_files_nothing (feed_capture empty_capture recs) ts raw Hr1) as (-> & -> & -> & -> & ->).
    by apply IH. }
  unfold checks, check_capture_shape, check_aaf_declared_vs_wire, check_aaf_header_legality,
    check_aaf_payload_arithmetic, check_sequence_continuity, seq_verdicts, check_aaf_timestamps,
    check_vlan_class, vlan_verdicts, check_crf_format, check_crf_rate,
    check_control_length_honesty, check_srp_declarations.
  rewrite (unseen_zero_fill expect w Ea), (unseen_adp expect w Ed), Ea, Ec, Ek, Em, !per_stream_empty. cbn [rbind].
  unfold unseen_verdicts.
  by destruct (aaf_format expect) as [n|]; [destruct (aaf_of_qword n)|].
Qed.

(** * Sequence numbers *)

Lemma seq_gaps_nil i prev l : seq_gaps i prev l = [] <->
  (forall p n, prev = Some p -> head l = Some n -> (n - p) mod 256 = 1) /\
  forall k a b, l !! k = Some a -> l !! S k = Some b -> (b - a) mod 256 = 1.
Proof.
  revert i prev. induction l as [|n l IH]; intros i prev; cbn [seq_gaps].
  { split; [|done]. intros _. split; [done|]. intros k a b H. by rewrite lookup_nil in H. }
  assert (forall (x y : list (Z * Z * Z * Z)), x ++ y = [] <-> x = [] /\ y = []) as Happ
    by (intros x y; split; [apply app_eq_nil|by intros [-> ->]]).
  rewrite Happ, (IH (i + 1) (Some n)). split.
  - intros [Hp [Hn Hk]]. split.
    + intros p n' -> [= <-]. unfold mod_delta in Hp. by destruct (Z.eqb_spec ((n - p) mod 256) 1).
    + intros [|k] a b Ha Hb; [|by apply (Hk k)]. injection Ha as <-. apply (Hn n b); [done|].
      change (l !! 0%nat = Some b) in Hb. by destruct l.
  - intros [Hp Hk]. split; [|split].
    + destruct prev as [p|]; [|done]. unfold mod_delta. by rewrite (Hp p n), Z.eqb_refl.
    + intros p n' [= <-] Hn. apply (Hk 0%nat); [done|]. by destruct l.
    + intros k a b. apply (Hk (S k)).
Qed.

(** The sequence verdict of a stream passes exactly when each number of its
    records follows the one before, wrapping at 256; there is one verdict for
    each stream that was seen. *)
Theorem sequence_verdicts {A} name (seq : A -> Z) (table : gmap Z (list A)) vs : table <> ∅ ->
  seq_verdicts name seq table = Ok vs ->
  map subject vs = map Some (keys table) /\
  forall sid recs, table !! sid = Some recs ->
    (In (MkVerdict name (Some sid) PASS) vs <->
     forall k a b, recs !! k = Some a -> recs !! S k = Some b -> (seq b - seq a) mod 256 = 1) /\
    (In (MkVerdict name (Some sid) FAIL) vs <->
     ~ forall k a b, recs !! k = Some a -> recs !! S k = Some b -> (seq b - seq a) mod 256 = 1).
Proof.
  intros Hne H.
  set (good := fun recs : list A => bool_decide (seq_gaps 0 None (map seq recs) = [])).
  assert (vs = map (fun kv => v_ name (Some (fst kv)) (good (snd kv))) (items table)) as ->.
  { revert H. unfold seq_verdicts, per_stream. destruct (items table) as [|x l] eqn:E; [by apply items_nil in E|].
    rewrite <-E. generalize (items table). intros l'.
    rewrite (mapR_pure _ (fun kv => [v_ name (Some (fst kv)) (good (snd kv))])) by (by intros [? ?]).
    cbn [rbind]. intros [= <-]. induction l' as [|y l' IH]; [done|]. cbn [map concat app]. by rewrite IH. }
  split; [rewrite map_map; unfold keys; by rewrite map_map|].
  intros sid recs Hs.
  assert (good recs = true <->
    forall k a b, recs !! k = Some a -> recs !! S k = Some b -> (seq b - seq a) mod 256 = 1) as Hgood.
  { unfold good. rewrite bool_decide_eq_true, seq_gaps_nil. split.
    - intros [_ H'] k a b Ha Hb. apply (H' k); rewrite list_lookup_fmap, ?Ha, ?Hb; done.
    - intros H'. split; [done|]. intros k a b Ha Hb.
      rewrite list_lookup_fmap in Ha, Hb.
      apply fmap_Some in Ha as (x & Hx & ->), Hb as (y & Hy & ->). by apply (H' k). }
  assert (forall o, In (MkVerdict name (Some sid) o) (map (fun kv => v_ name (Some (fst kv)) (good (snd kv))) (items table))
    <-> (if good recs then PASS else FAIL) = o) as Hin.
  { intros o. rewrite in_map_iff. split.
    - intros ([sid' recs'] & E & Hin%items_In). unfold v_ in E. cbn [fst snd] in E.
      injection E as -> E. rewrite Hs in Hin. by injection Hin as ->.
    - intros <-. exists (sid, recs). split; [done|]. by apply items_In. }
  rewrite !Hin, <-Hgood. destruct (good recs); split; split; try done; by intros ?.
Qed.

(** * The two halves of a streaming licence *)

(** A declared Talker Advertise for a stream, a declared Listener Ready or Ready
    Failed, a declared VLAN. *)
Definition talker_declared (sid : Z) (a : MrpAttribute) : bool :=
  bool_decide (at_protocol a = MSRP) && (at_type a =? MSRP_TALKER_ADVERTISE)
  && match at_fields a with TalkerFields t => t_stream_id t =? sid | _ => false end && declaring a.

Definition listener_declared (sid : Z) (a : MrpAttribute) : bool :=
  bool_decide (at_protocol a = MSRP) && (at_type a =? MSRP_LISTENER)
  && match at_fields a with ListenerFields s _ _ => s =? sid | _ => false end && ready_declared a.

Definition vlan_declared (v : Z) (a : MrpAttribute) : bool :=
  bool_decide (at_protocol a = MVRP)
  && match at_fields a with VidField (Some v') => v' =? v | _ => false end && declaring a.

Definition advertised (st : srp) (sid : Z) : bool :=
  match talkers st !! sid with Some r => advertise r | None => false end.
Definition licensed (st : srp) (sid : Z) : bool :=
  match listeners st !! sid with Some r => ready r | None => false end.

Ltac srp_cases st a :=
  destruct st as [ts ls ds vs]; destruct a as [[] ty nm ix ev la vl f d];
  unfold talker_declared, listener_declared, vlan_declared, advertised, licensed, srp_step;
  cbn [at_protocol at_type at_fields talkers listeners mvrp_vids domains];
  rewrite ?(bool_decide_true (MSRP = MSRP)), ?(bool_decide_true (MVRP = MVRP)),
    ?(bool_decide_false (MSRP = MVRP)), ?(bool_decide_false (MVRP = MSRP)) by done; cbn [andb].

Lemma advertised_step st a sid : advertised (srp_step st a) sid = advertised st sid || talker_declared sid a.
Proof.
  srp_cases st a.
  - destruct (Z.eqb_spec ty MSRP_TALKER_ADVERTISE) as [->|E1]; cbn [orb andb].
    + destruct f; cbn [talkers andb]; rewrite ?orb_false_r; try done.
      destruct (Z.eqb_spec (t_stream_id t) sid) as [<-|Hs]; cbn [andb].
      * rewrite lookup_insert_eq. cbn [advertise]. destruct (ts !! t_stream_id t); [done|].
        cbn [default from_option id advertise]. done.
      * rewrite lookup_insert_ne by done. by rewrite orb_false_r.
    + rewrite orb_false_r. destruct (ty =? MSRP_TALKER_FAILED) eqn:E2.
      * apply Z.eqb_eq in E2. subst ty. destruct f; cbn [talkers]; try done.
        change (MSRP_TALKER_FAILED =? MSRP_TALKER_ADVERTISE) with false. cbn [advertise].
        destruct (decide (t_stream_id t = sid)) as [<-|Hs].
        -- rewrite lookup_insert_eq. cbn [advertise]. by destruct (ts !! t_stream_id t).
        -- by rewrite lookup_insert_ne.
      * destruct (ty =? MSRP_LISTENER); [by destruct f|]. by destruct (_ && _).
  - rewrite orb_false_r. destruct f as [| | | |[v|]]; try done. by destruct (declaring _).
Qed.

Lemma licensed_step st a sid : licensed (srp_step st a) sid = licensed st sid || listener_declared sid a.
Proof.
  srp_cases st a.
  - destruct (Z.eqb_spec ty MSRP_LISTENER) as [->|E1]; cbn [andb].
    + change ((MSRP_LISTENER =? MSRP_TALKER_ADVERTISE) || (MSRP_LISTENER =? MSRP_TALKER_FAILED)) with false.
      destruct f as [|t|s m u| |]; cbn [listeners andb]; rewrite ?orb_false_r; try done.
      destruct (Z.eqb_spec s sid) as [<-|Hs]; cbn [andb].
      * rewrite lookup_insert_eq. cbn [ready]. by destruct (ls !! s).
      * rewrite lookup_insert_ne by done. by rewrite orb_false_r.
    + rewrite orb_false_r. destruct (_ || _); [by destruct f|]. by destruct (_ && _).
  - rewrite orb_false_r. destruct f as [| | | |[v|]]; try done. by destruct (declaring _).
Qed.

Lemma vlan_step st a v : In v (mvrp_vids (srp_step st a)) <-> In v (mvrp_vids st) \/ vlan_declared v a = true.
Proof.
  srp_cases st a.
  - assert (In v vs <-> In v vs \/ false = true) as H by (split; [by left|by intros [?|?]]).
    destruct (_ || _); [by destruct f|]. destruct (_ =? _); [by destruct f|]. by destruct (_ && _).
  - assert (In v vs <-> In v vs \/ false = true) as H by (split; [by left|by intros [?|?]]).
    destruct f as [| | | |[v'|]]; try done.
    destruct (declaring _); cbn [mvrp_vids]; rewrite ?andb_true_r, ?andb_false_r; [|done].
    rewrite in_app_iff, Z.eqb_eq. cbn [In]. tauto.
Qed.

(** The SRP state of a capture is what its MRP values declare: a stream counts as
    advertised, licensed or registered exactly when some value on the wire
    declares it so. *)
Lemma srp_state_declares {T} (w : WireTruth T) :
  let attributes := map (fun '(_, _, a) => a) (w_mrp w) in
  (forall sid, advertised (srp_state w) sid = existsb (talker_declared sid) attributes) /\
  (forall sid, licensed (srp_state w) sid = existsb (listener_declared sid) attributes) /\
  (forall v, In v (mvrp_vids (srp_state w)) <-> existsb (vlan_declared v) attributes = true).
Proof.
  intros attributes. unfold srp_state. fold attributes.
  assert (forall l, let st := fold_left srp_step l (Srp ∅ ∅ [] []) in
    (forall sid, advertised st sid = existsb (talker_declared sid) l) /\
    (forall sid, licensed st sid = existsb (listener_declared sid) l) /\
    (forall v, In v (mvrp_vids st) <-> existsb (vlan_declared v) l = true)) as H.
  { intros l. induction l as [|a l (I1 & I2 & I3)] using rev_ind; [done|].
    rewrite fold_left_app. cbn [fold_left]. cbv zeta. split_and!; intros k.
    - by rewrite advertised_step, existsb_app, I1; cbn [existsb]; rewrite orb_false_r.
    - by rewrite licensed_step, existsb_app, I2; cbn [existsb]; rewrite orb_false_r.
    - by rewrite vlan_step, existsb_app, orb_true_iff, I3; cbn [existsb]; rewrite orb_false_r. }
  destruct (H attributes) as (H1 & H2 & H3). split_and!; [exact H1|exact H2|].
  intros v. rewrite <-H3. cbn [mvrp_vids]. rewrite In_sorted_z, <-!list_elem_of_In. apply elem_of_remove_dups.
Qed.

(** The verdicts over the licence: every expected stream has a Talker Advertise
    declared on the wire, every stream on the wire a Listener Ready or Ready
    Failed, and the expected VLAN is registered; without a stream to ask about,
    or a registration, there is no verdict. *)
Theorem licence_verdicts {T} (w : WireTruth T) expect expected streaming :
  let attributes := map (fun '(_, _, a) => a) (w_mrp w) in
  let st := srp_state w in
  (verdict (srp_talker_advertise st expected) = PASS <->
     expected <> [] /\ forall sid, In sid expected -> exists a, In a attributes /\ talker_declared sid a = true) /\
  (verdict (srp_listener_licence st streaming) = PASS <->
     streaming <> [] /\ forall sid, In sid streaming -> exists a, In a attributes /\ listener_declared sid a = true) /\
  (forall v, sr_vid expect = Some v ->
     In (MkVerdict "wt.mvrp.sr-vid-declared" None PASS) (srp_domain_and_vid expect st) <->
     exists a, In a attributes /\ vlan_declared v a = true).
Proof.
  intros attributes st. destruct (srp_state_declares w) as (H1 & H2 & H3). fold attributes st in H1, H2, H3.
  split_and!.
  - unfold srp_talker_advertise. destruct expected as [|e l] eqn:E; [split; [done|by intros [? _]]|].
    rewrite <-E. fold (advertised st). unfold v_. cbn [verdict].
    transitivity (forallb (advertised st) expected = true); [by destruct (forallb _ _)|].
    rewrite forallb_forall. split.
    + intros H. split; [by rewrite E|]. intros sid Hs%H. rewrite H1 in Hs. by apply existsb_exists.
    + intros [_ H] sid Hs%H. rewrite H1. by apply existsb_exists.
  - unfold srp_listener_licence. destruct streaming as [|e l] eqn:E; [split; [done|by intros [? _]]|].
    rewrite <-E. fold (licensed st). unfold v_. cbn [verdict].
    transitivity (forallb (licensed st) streaming = true); [by destruct (forallb _ _)|].
    rewrite forallb_forall. split.
    + intros H. split; [by rewrite E|]. intros sid Hs%H. rewrite H2 in Hs. by apply existsb_exists.
    + intros [_ H] sid Hs%H. rewrite H2. by apply existsb_exists.
  - intros v Hv. unfold srp_domain_and_vid. rewrite Hv.
    transitivity (In v (mvrp_vids st)); [|rewrite H3; by rewrite existsb_exists].
    destruct (mvrp_vids st) as [|x l]; cbn [In].
    + split; [|done]. intros [E|[E|[]]]; [|done]. by destruct (domains st).
    + split.
      * intros [E|[E|[]]]; [by destruct (domains st)|]. unfold v_ in E. injection E as E.
        destruct (bool_decide (v ∈ x :: l)) eqn:Ed; [|done]. bool_prop. apply list_elem_of_In in Ed. exact Ed.
      * intros H. right. left. unfold v_. rewrite bool_decide_true; [done|]. apply list_elem_of_In. exact H.
Qed.

(** * Witnesses *)

(** A CRF frame of the stream with identifier 9, and an MSRP frame that declares
    a talker for it. *)
Definition crf_frame : bytes :=
  [1; 2; 3; 4; 5; 6] ++ [2; 0; 0; 0; 0; 1] ++ be_bytes 2 ETH_P_AVTP
  ++ [SUBTYPE_CRF; 0x80; 0; 1] ++ be_bytes 8 9 ++ be_bytes 4 48000 ++ be_bytes 2 0 ++ be_bytes 2 96.

Definition talker_frame : bytes :=
  [1; 0x80; 0xc2; 0; 0; 0x0e] ++ [2; 0; 0; 0; 0; 1] ++ be_bytes 2 ETH_P_MSRP
  ++ [0; 1; 25] ++ be_bytes 2 30 ++ be_bytes 2 1 ++ be_bytes 8 9 ++ [0x91; 0xe0; 0xf0; 0; 1; 2] ++ be_bytes 2 2
  ++ be_bytes 2 84 ++ be_bytes 2 1 ++ [0x70] ++ be_bytes 4 1000 ++ [36] ++ be_bytes 2 0 ++ be_bytes 2 0.

Definition no_elapsed (_ _ : Z) : Z := 0.
Definition no_rate (_ _ _ _ _ : Z) : option bool := None.

(** Both causes of the second direction: a declared CRF talker raises, and so
    does an expected CRF format that is an AAF one. *)
Example crf_talker_raises :
  checks default_expectation no_elapsed no_rate (feed_capture empty_capture [(0, talker_frame); (1, crf_frame)])
  = Err ValueError.
Proof. vm_compute. reflexivity. Qed.

Example crf_format_raises :
  is_ok (checks (MkExpectation None (Some 0x0205022000A03C00) (Some 2) 3 [] [] None [] 2000000 [])
    no_elapsed no_rate (feed_capture empty_capture [(1, crf_frame)])) = false.
Proof. vm_compute. reflexivity. Qed.

(** A frame of another protocol, and one that is too short for Ethernet. *)
Lemma nothing_unseen_passes_witness :
  checks default_expectation no_elapsed no_rate
    (feed_capture empty_capture [(0, zeros 12 ++ [8; 6] ++ zeros 46); (1, [1; 2])])
    = Ok (unseen_verdicts default_expectation) /\
  length (unseen_verdicts default_expectation) = 31%nat.
Proof.
  split; [|vm_compute; reflexivity].
  apply (nothing_unseen_passes [(0, zeros 12 ++ [8; 6] ++ zeros 46); (1, [1; 2])] default_expectation).
  repeat apply List.Forall_cons; [vm_compute; split_and!; discriminate|vm_compute; exact I|apply List.Forall_nil].
Defined.

(** Two streams, one of which lost a record. *)
Lemma sequence_verdicts_witness :
  In (MkVerdict "seq" (Some 1) PASS) [MkVerdict "seq" (Some 1) PASS; MkVerdict "seq" (Some 2) FAIL].
Proof.
  pose (table := {[ 1 := [254; 255; 0]; 2 := [7; 9] ]} : gmap Z (list Z)).
  destruct (sequence_verdicts "seq" id table [MkVerdict "seq" (Some 1) PASS; MkVerdict "seq" (Some 2) FAIL]
    ltac:(discriminate) ltac:(vm_compute; reflexivity)) as [_ H].
  apply (H 1 [254; 255; 0]); [vm_compute; reflexivity|].
  intros [|[|[|k]]] a b Ha Hb; cbn in Ha, Hb; first [discriminate|injection Ha as <-; injection Hb as <-; reflexivity].
Defined.

Lemma licence_verdicts_witness :
  verdict (srp_talker_advertise (srp_state (feed_capture empty_capture [(0, talker_frame)])) [9]) = PASS /\
  ~ In (MkVerdict "wt.mvrp.sr-vid-declared" None PASS)
      (srp_domain_and_vid default_expectation (srp_state (feed_capture empty_capture [(0, talker_frame)]))).
Proof.
  destruct (licence_verdicts (feed_capture empty_capture [(0, talker_frame)]) default_expectation [9] [])
    as (H1 & _ & H3). split.
  - apply H1. split; [discriminate|]. intros sid [<-|[]].
    eexists. split; [left; vm_compute; reflexivity|vm_compute; reflexivity].
  - rewrite (H3 2 eq_refl). intros (a & Ha & Hv). vm_compute in Ha. destruct Ha as [<-|[]]. discriminate Hv.
Defined.
