(* ===== verification/WireLicence.v ===== *)
(** From a declaration built by hand to the licence the checks read off a
    capture: an MSRP frame of the oracle ([WireFrames]) through the decoder, the
    filing and the SRP state ([WireChecks]). *)
From S2P Require Import Prelude Descriptors Unicode Text Packing WireTruth MrpWire WireFrames WireOracle WireChecks WireVerdicts.

(** The events that declare: New, JoinIn, In and JoinMt. *)
Lemma event_declares e : 0 <= e < 6 ->
  bool_decide (default "?"%string (MRP_ATTR_EVENT !! e) ∈ MRP_DECLARING_EVENTS) = (e <? 4).
Proof.
  intros H. assert (e = 0 \/ e = 1 \/ e = 2 \/ e = 3 \/ e = 4 \/ e = 5) as [->|[->|[->|[->|[->| ->]]]]] by lia;
    vm_compute; reflexivity.
Qed.

(** The identifier value [i] of a vector stands for. *)
Definition stream_of (t : TalkerAdvertise) (i : Z) : Z := (ta_stream_id t + i) mod 2 ^ 64.

Lemma advanced t v d i : msrp_talker_advertise_value t = Ok v -> from_hex (ta_dmac t) = Ok d -> zlen d = 6 ->
  0 <= i -> advance_stream_id v i = be_bytes 8 (stream_of t i) ++ drop 8 v.
Proof.
  intros Hv Hd Hd6 Hi. destruct (talker_value_read t v d Hv Hd Hd6) as (Hl & Ev & Hs & _).
  unfold advance_stream_id, stream_of. rewrite (proj2 (Z.ltb_ge (zlen v) 8)) by lia. rewrite orb_false_r.
  destruct (Z.eqb_spec i 0) as [->|].
  - rewrite Z.add_0_r, Z.mod_small by done. exact Ev.
  - assert (rd_be 0 8 v = ta_stream_id t) as ->.
    { rewrite Ev. unfold rd_be. rewrite zslice_hit by apply zlen_be_bytes. by apply of_be_be_bytes_id. }
    change (Z.shiftl 1 64 - 1) with (Z.ones 64). by rewrite Z.land_ones.
Qed.

(** One value of the vector declares its stream, and no other. *)
Lemma value_declares t v d events i e sid : msrp_talker_advertise_value t = Ok v ->
  from_hex (ta_dmac t) = Ok d -> zlen d = 6 -> Forall (fun e => 0 <= e < 6) events ->
  events !! Z.to_nat i = Some e -> 0 <= i ->
  talker_declared sid (attribute MSRP MSRP_TALKER_ADVERTISE 0 v events [] i) = (stream_of t i =? sid) && (e <? 4).
Proof.
  intros Hv Hd Hd6 Hev He Hi. destruct (talker_value_read t v d Hv Hd Hd6) as (_ & _ & _ & Hread).
  destruct (Hread (stream_of t i)) as (tk & Htk & Hsid & _); [by apply Z.mod_pos_bound|].
  unfold talker_declared, attribute. change (typed MSRP_TALKER_ADVERTISE) with true. cbv iota.
  rewrite (advanced t v d i Hv Hd Hd6 Hi), Htk. unfold declaring. cbn [at_protocol at_type at_fields at_event].
  rewrite bool_decide_true, Z.eqb_refl, Hsid by done. cbn [andb].
  assert (i < zlen events) by (apply lookup_lt_Some in He; unfold zlen; lia).
  rewrite (proj2 (Z.ltb_lt i _)) by done.
  assert (raw_at events i = e) as -> by (unfold raw_at; rewrite nth_lookup, He; reflexivity).
  by rewrite event_declares by exact (Forall_lookup_1 _ _ _ _ Hev He).
Qed.

(** A Talker Advertise frame built by hand, captured: a stream counts as advertised
    exactly when the frame has a value for it, counting up from the first in 64
    bits, whose event declares. *)
Lemma advertise_frame_declares {T} (ts : T) smac t v events frame s d :
  msrp_talker_advertise_value t = Ok v -> from_hex (ta_dmac t) = Ok d -> zlen d = 6 ->
  build_msrp_frame smac [MsrpAttr MSRP_TALKER_ADVERTISE v events []] = Ok frame ->
  from_hex smac = Ok s -> zlen s = 6 ->
  1 <= zlen events < 8192 -> Forall (fun e => 0 <= e < 6) events ->
  forall sid, advertised (srp_state (feed_capture empty_capture [(ts, frame)])) sid = true <->
    exists i e, events !! i = Some e /\ e < 4 /\ stream_of t (Z.of_nat i) = sid.
Proof.
  intros Hv Hd Hd6 Hf Hs Hs6 Hn Hev sid. pose proof (talker_value_read t v d Hv Hd Hd6) as (Hl & _).
  destruct (msrp_frame_reads smac [MsrpAttr MSRP_TALKER_ADVERTISE v events []] frame s) as (eth & E & Het & Hdec);
    [|done..|].
  { apply List.Forall_cons; [|apply List.Forall_nil]. constructor; cbn [ma_first ma_type ma_events ma_decls]; try done; rewrite Hl; done. }
  destruct (srp_state_declares (feed_capture empty_capture [(ts, frame)])) as (Hadv & _). rewrite Hadv.
  destruct (capture_folds [(ts, frame)]) as (_ & _ & _ & _ & Hmrp). rewrite Hmrp. cbn [map concat].
  unfold mrp_records. cbn [fst snd]. rewrite E, Het, Z.eqb_refl, Hdec, app_nil_r, map_map, map_id. cbn [map concat].
  rewrite app_nil_r. unfold attr_values, message_values, attr_message, vector_values.
  cbn [mg_vectors mg_type map concat vo_leave_all vo_first vo_events vo_decls ma_type ma_first ma_events].
  change (MSRP_TALKER_ADVERTISE =? MSRP_LISTENER) with false. cbv iota. rewrite app_nil_r, existsb_exists. split.
  - intros (a & Ha & Hdecl). apply in_map_iff in Ha as (i & <- & Hi%zrange_In).
    destruct (lookup_lt_is_Some_2 events (Z.to_nat i)) as [e He]; [lia|].
    rewrite (value_declares t v d events i e) in Hdecl by (done || lia). bool_prop.
    exists (Z.to_nat i), e. rewrite Z2Nat.id by lia. split_and!; [done|lia|]. done.
  - intros (i & e & He & He4 & <-). exists (attribute MSRP MSRP_TALKER_ADVERTISE 0 v events [] (Z.of_nat i)).
    split; [apply in_map, zrange_In; apply lookup_lt_Some in He; lia|].
    assert (events !! Z.to_nat (Z.of_nat i) = Some e) as He' by (by rewrite Nat2Z.id).
    rewrite (value_declares t v d events (Z.of_nat i) e _ Hv Hd Hd6 Hev He' ltac:(lia)).
    rewrite Z.eqb_refl. by apply Z.ltb_lt.
Qed.

(** Where the unique id has no room for the values of the vector the count carries
    into the station's address: the values of one vector name streams of two
    stations. *)
Lemma stream_id_carries t i : 0 <= ta_stream_id t < 2 ^ 64 - 65536 -> 0 <= i < 65536 ->
  65536 <= ta_stream_id t mod 65536 + i -> stream_of t i / 65536 = ta_stream_id t / 65536 + 1.
Proof.
  intros Hs Hi Hc. unfold stream_of. change (2 ^ 64) with 18446744073709551616 in *.
  rewrite Z.mod_small by lia. Z.div_mod_to_equations; lia.
Qed.

Lemma stream_id_fits t i : 0 <= ta_stream_id t < 2 ^ 64 -> 0 <= i -> ta_stream_id t mod 65536 + i < 65536 ->
  stream_of t i = ta_stream_id t + i /\ stream_of t i / 65536 = ta_stream_id t / 65536.
Proof.
  intros Hs Hi Hc. unfold stream_of. change (2 ^ 64) with 18446744073709551616 in *.
  assert (ta_stream_id t + i < 18446744073709551616) by (Z.div_mod_to_equations; lia).
  rewrite Z.mod_small by lia. split; [done|]. Z.div_mod_to_equations; lia.
Qed.

(** C12: A Talker Advertise frame built by hand, captured, of one to 8191 values
    whose unique ids all fit the 16 bits of the identifier: a stream counts as advertised
    exactly when the frame has a value for it, counting up from the first, whose
    event declares; every one of them has the station's address the first has.
    (A vector without that room is not covered: there the reader counts on in the
    address, [stream_id_carries].) *)
Theorem advertise_frame_licences {T} (ts : T) smac t v events frame s d :
  msrp_talker_advertise_value t = Ok v -> from_hex (ta_dmac t) = Ok d -> zlen d = 6 ->
  build_msrp_frame smac [MsrpAttr MSRP_TALKER_ADVERTISE v events []] = Ok frame ->
  from_hex smac = Ok s -> zlen s = 6 ->
  1 <= zlen events < 8192 -> Forall (fun e => 0 <= e < 6) events ->
  ta_stream_id t mod 65536 + zlen events <= 65536 ->
  forall sid,
    (advertised (srp_state (feed_capture empty_capture [(ts, frame)])) sid = true <->
     exists i e, events !! i = Some e /\ e < 4 /\ sid = ta_stream_id t + Z.of_nat i) /\
    (advertised (srp_state (feed_capture empty_capture [(ts, frame)])) sid = true ->
     sid / 65536 = ta_stream_id t / 65536).
Proof.
  intros Hv Hd Hd6 Hf Hs Hs6 Hn Hev Hroom sid. destruct (talker_value_read t v d Hv Hd Hd6) as (_ & _ & Hid & _).
  pose proof (advertise_frame_declares ts smac t v events frame s d Hv Hd Hd6 Hf Hs Hs6 Hn Hev sid) as H.
  assert (forall i e, events !! i = Some e -> stream_of t (Z.of_nat i) = ta_stream_id t + Z.of_nat i /\
    stream_of t (Z.of_nat i) / 65536 = ta_stream_id t / 65536) as Hfit.
  { intros i e Hi%lookup_lt_Some. apply stream_id_fits; [done|lia|]. unfold zlen in Hroom. lia. }
  rewrite H. split; [split; intros (i & e & Hi & He & E); exists i, e; split_and!; try done; destruct (Hfit i e Hi); congruence|].
  intros (i & e & Hi & _ & <-). by apply (Hfit i e).
Qed.

(** * Witness *)

Lemma advertise_frame_licences_witness :
  exists v frame, msrp_talker_advertise_value default_talker_advertise = Ok v /\
    build_msrp_frame (lit "020000000002") [MsrpAttr MSRP_TALKER_ADVERTISE v [1; 5; 0] []] = Ok frame /\
    advertised (srp_state (feed_capture empty_capture [(0, frame)])) 0x0200000000020002 = true /\
    advertised (srp_state (feed_capture empty_capture [(0, frame)])) 0x0200000000020001 = false.
Proof.
  destruct (msrp_talker_advertise_value default_talker_advertise) as [v|] eqn:Ev; [|vm_compute in Ev; discriminate Ev].
  destruct (build_msrp_frame (lit "020000000002") [MsrpAttr MSRP_TALKER_ADVERTISE v [1; 5; 0] []]) as [f|] eqn:Ef;
    [|vm_compute in Ev; injection Ev as <-; vm_compute in Ef; discriminate Ef].
  pose proof (fun s d Hd => advertise_frame_licences 0 (lit "020000000002") default_talker_advertise v [1; 5; 0] f s d Ev Hd)
    as H.
  specialize (H [2; 0; 0; 0; 0; 2] [0x91; 0xe0; 0xf0; 0; 0xfe; 1] eq_refl eq_refl Ef eq_refl eq_refl
    ltac:(split; [discriminate|reflexivity]) ltac:(repeat constructor; lia) ltac:(vm_compute; discriminate)).
  exists v, f. split; [reflexivity|]. split; [exact Ef|]. split.
  - apply (proj2 (proj1 (H 0x0200000000020002))). exists 2%nat, 0. split_and!; reflexivity.
  - apply not_true_iff_false. rewrite (proj1 (H 0x0200000000020001)). intros (i & e & He & He4 & Hs).
    destruct i as [|[|[|i]]]; try discriminate Hs; [injection He as <-; discriminate He4|].
    change (([] : list Z) !! i = Some e) in He. rewrite lookup_nil in He. discriminate He.
Defined.
