(* ===== verification/WireAgree.v ===== *)
(** The wire reader and the campaign's builder: what [aaf_pdu] of
    [tsn_fuzz/wire.py] puts on the wire, read back by [decode_eth] and
    [decode_aaf] of [avtp_wire_truth_wire.py], which share no code. *)
From S2P Require Import Prelude Unicode Text Packing TsnWire WireTruth.

Lemma raw_at_slice_list f o n i l : zslice o n f = l -> 0 <= o -> 0 <= i < n -> raw_at f (o + i) = raw_at l i.
Proof. intros. apply (raw_at_slice f o n); [done..|]. lia. Qed.

(** An AVTPDU of the builder is an Ethernet frame to the reader, tagged when a
    VLAN was given. *)
Lemma campaign_eth fld body : zlen (byte_field fld "dst") = 6 -> zlen (byte_field fld "src") = 6 ->
  let f := byte_field fld "dst" ++ byte_field fld "src" ++ aaf_tag fld ++ be_bytes 2 ETH_P_AVTP ++ body in
  exists eth, decode_eth f = Some eth /\ e_ethertype eth = ETH_P_AVTP /\ e_payload eth = body /\
    e_dst eth = byte_field fld "dst" /\ e_src eth = byte_field fld "src" /\
    match fld !! "vlan"%string with
    | Some VNone => tagged eth = false /\ vid eth = None
    | _ => tagged eth = true /\ pcp eth = Some 0 /\ dei eth = Some 0 /\
           vid eth = Some (int_field fld "vlan" mod 4096)
    end.
Proof.
  intros Hd Hs f. set (v := int_field fld "vlan" mod 4096) in *.
  assert (0 <= v < 65536) as Hv by (pose proof (Z.mod_pos_bound (int_field fld "vlan") 4096 ltac:(done)); lia).
  assert (v < 4096) as Hv' by (by apply Z.mod_pos_bound).
  assert (fld !! "vlan"%string = Some VNone \/ fld !! "vlan"%string <> Some VNone) as [Ev|Ev]
    by (destruct (fld !! "vlan"%string) as [[]|]; (by left) || (by right)).
  - rewrite Ev. assert (f = framed (byte_field fld "dst") (byte_field fld "src") None ETH_P_AVTP body) as ->
      by (unfold f, framed, aaf_tag; by rewrite Ev).
    rewrite decode_eth_framed by done. by eexists.
  - assert (f = framed (byte_field fld "dst") (byte_field fld "src") (Some v) ETH_P_AVTP body /\
      forall P Q : Prop, match fld !! "vlan"%string with Some VNone => P | _ => Q end = Q) as [-> Eq]
      by (unfold f, framed, aaf_tag, v; destruct (fld !! "vlan"%string) as [[]|]; done).
    rewrite decode_eth_framed by done. eexists. split; [reflexivity|].
    cbn [e_ethertype e_payload e_dst e_src tagged vid pcp dei fmap option_fmap option_map].
    rewrite Eq. split_and!; try done; f_equal; [|rewrite Z.div_small|apply Z.mod_small]; Z.div_mod_to_equations; lia.
Qed.

Lemma octet_split v : 0 <= v < 65536 -> be_bytes 2 v = [v / 256; v mod 256].
Proof.
  intros Hv. change (be_bytes 2 v) with [v / 256 mod 256; v mod 256]. f_equal.
  apply Z.mod_small. Z.div_mod_to_equations; lia.
Qed.

Lemma word_split v : 0 <= v < 2 ^ 32 ->
  be_bytes 4 v = [v / 2 ^ 24; v / 2 ^ 16 mod 256; v / 2 ^ 8 mod 256; v mod 256].
Proof.
  intros Hv.
  change (be_bytes 4 v) with [v / 256 / 256 / 256 mod 256; v / 256 / 256 mod 256; v / 256 mod 256; v mod 256].
  rewrite !Z.div_div by done. f_equal. change (256 * 256 * 256) with (2 ^ 24). apply Z.mod_small.
  change (2 ^ 32) with 4294967296 in Hv. change (2 ^ 24) with 16777216.
  split; [apply Z.div_pos; lia|]. apply Z.div_lt_upper_bound; lia.
Qed.

(** Name a reduced field and its bounds. *)
Ltac reduced n name m :=
  pose proof (Z.mod_pos_bound (n name) m ltac:(done));
  let r := fresh "r" in set (r := n name mod m) in *; clearbody r.

(** The format word, octet by octet. *)
Lemma format_octets n : let w := aaf_format_word n in
  0 <= w < 2 ^ 32 /\ w / 2 ^ 24 = n "aaf_format"%string mod 256 /\
  Z.land (Z.shiftr (w / 2 ^ 16 mod 256) 4) 0xF = n "nsr"%string mod 16 /\
  Z.lor (Z.shiftl (Z.land (w / 2 ^ 16 mod 256) 0x03) 8) (w / 2 ^ 8 mod 256) = n "channels_per_frame"%string mod 1024 /\
  w mod 256 = n "bit_depth"%string mod 256.
Proof.
  intros w. unfold w, aaf_format_word. masks.
  reduced n "aaf_format"%string 256. reduced n "nsr"%string 16.
  reduced n "channels_per_frame"%string 1024. reduced n "bit_depth"%string 256.
  rewrite Z.shiftr_div_pow2 by done.
  change (2 ^ 32) with 4294967296. change (2 ^ 24) with 16777216. change (2 ^ 20) with 1048576.
  change (2 ^ 16) with 65536. change (2 ^ 8) with 256. change (2 ^ 4) with 16.
  rewrite join_bits by first [done | by apply Z.mod_pos_bound]. change (2 ^ 8) with 256.
  split_and!; Z.div_mod_to_equations; lia.
Qed.

Lemma flags_bits n : let b := aaf_flags n in
  0 <= b < 256 /\ Z.land (Z.shiftr b 7) 1 = n "sv"%string mod 2 /\
  Z.land (Z.shiftr b 4) 0x7 = n "version"%string mod 8 /\ Z.land (Z.shiftr b 3) 1 = n "mr"%string mod 2 /\
  Z.land b 1 = n "tv"%string mod 2.
Proof.
  intros b. unfold b, aaf_flags. masks. rewrite !Z.shiftr_div_pow2 by done.
  reduced n "sv"%string 2. reduced n "version"%string 8. reduced n "mr"%string 2.
  reduced n "gv"%string 2. reduced n "tv"%string 2.
  change (2 ^ 7) with 128. change (2 ^ 4) with 16. change (2 ^ 3) with 8.
  split_and!; Z.div_mod_to_equations; lia.
Qed.

Lemma aaf_header_length fld : zlen (aaf_header fld) = 24.
Proof. unfold aaf_header. by autorewrite with zlen. Qed.

Lemma sparse_word n : let w := 4096 * (n "sparse"%string mod 2) + n "evt"%string mod 16 in
  0 <= w < 65536 /\ Z.land (Z.shiftr (w / 256) 4) 1 = n "sparse"%string mod 2 /\ Z.land (w / 256) 0x0F = 0.
Proof.
  intros w. unfold w. masks. reduced n "sparse"%string 2. reduced n "evt"%string 16.
  rewrite Z.shiftr_div_pow2 by done. change (2 ^ 4) with 16.
  split_and!; Z.div_mod_to_equations; lia.
Qed.

(** A stream PDU with another event. *)
Definition with_evt (e : Z) (p : AafPdu) : AafPdu :=
  MkAafPdu (a_sv p) (a_version p) (a_mr p) (a_tv p) (a_sequence_num p) (a_tu p) (a_stream_id p) (a_avtp_timestamp p)
    (a_fmt p) (a_nsr p) (a_channels_per_frame p) (a_bit_depth p) (a_stream_data_length p) (a_sp p) e (a_payload p).

(** What the builder was given, every field at its width. *)
Definition aaf_as_built (fld : kwargs) : AafPdu :=
  let n := int_field fld in
  MkAafPdu (n "sv"%string mod 2) (n "version"%string mod 8) (n "mr"%string mod 2) (n "tv"%string mod 2)
    (n "sequence_num"%string mod 256) (n "tu"%string mod 2) (n "stream_id"%string)
    (n "avtp_timestamp"%string mod 2 ^ 32) (n "aaf_format"%string mod 256) (n "nsr"%string mod 16)
    (n "channels_per_frame"%string mod 1024) (n "bit_depth"%string mod 256)
    (n "stream_data_length"%string mod 65536) (n "sparse"%string mod 2) (n "evt"%string mod 16)
    (if n "stream_data_length"%string mod 65536 =? 0 then aaf_payload fld
     else take (Z.to_nat (n "stream_data_length"%string mod 65536)) (aaf_payload fld)).

(** What the reader makes of it: the same, but for the event, which the builder
    puts in the octet behind the one it is read from. *)
Definition aaf_as_read (fld : kwargs) : AafPdu := with_evt 0 (aaf_as_built fld).

Lemma as_read_evt_zero fld : int_field fld "evt" mod 16 = 0 -> aaf_as_read fld = aaf_as_built fld.
Proof. intros E. unfold aaf_as_read, with_evt, aaf_as_built. cbn. by rewrite E. Qed.

Section StreamPdu.
Variable fld : kwargs.
Let n := int_field fld.
Let pdu := aaf_header fld ++ aaf_payload fld.
Hypothesis Hid : 0 <= n "stream_id" < 2 ^ 64.

(** The single octets of the header ... *)
Lemma head_octets : raw_at pdu 0 = SUBTYPE_AAF /\ raw_at pdu 1 = aaf_flags n /\
  raw_at pdu 2 = n "sequence_num"%string mod 256 /\ raw_at pdu 3 = n "tu"%string mod 128.
Proof using Type.
  destruct (flags_bits n) as (Hfr & _).
  pose proof (Z.mod_pos_bound (n "tu"%string) 128 ltac:(done)).
  assert (zslice 0 4 pdu = [SUBTYPE_AAF; aaf_flags n; n "sequence_num"%string mod 256; n "tu"%string mod 128]) as Z0.
  { unfold pdu, aaf_header. fold n.
    change (be_bytes 1 TsnWire.SUBTYPE_AAF) with [SUBTYPE_AAF].
    change (be_bytes 1 (aaf_flags n)) with [aaf_flags n mod 256].
    change (be_bytes 1 (n "sequence_num"%string mod 256)) with [n "sequence_num"%string mod 256 mod 256].
    change (be_bytes 1 (n "tu"%string mod 128)) with [n "tu"%string mod 128 mod 256].
    rewrite (Z.mod_small (aaf_flags n)), (Z.mod_small (n "tu"%string mod 128)), Z.mod_mod by lia.
    reflexivity. }
  split_and!; [exact (raw_at_slice_list pdu 0 4 0 _ Z0 ltac:(lia) ltac:(lia))
    |exact (raw_at_slice_list pdu 0 4 1 _ Z0 ltac:(lia) ltac:(lia))
    |exact (raw_at_slice_list pdu 0 4 2 _ Z0 ltac:(lia) ltac:(lia))
    |exact (raw_at_slice_list pdu 0 4 3 _ Z0 ltac:(lia) ltac:(lia))].
Qed.

(** ... those of the format word and of the word behind the length ... *)
Lemma format_and_sparse_octets :
  raw_at pdu 16 = aaf_format_word n / 2 ^ 24 /\ raw_at pdu 17 = aaf_format_word n / 2 ^ 16 mod 256 /\
  raw_at pdu 18 = aaf_format_word n / 2 ^ 8 mod 256 /\ raw_at pdu 19 = aaf_format_word n mod 256 /\
  raw_at pdu 22 = (4096 * (n "sparse"%string mod 2) + n "evt"%string mod 16) / 256.
Proof using Type.
  destruct (format_octets n) as (Hwr & _). destruct (sparse_word n) as (Hsr & _).
  assert (zslice 16 4 pdu = be_bytes 4 (aaf_format_word n)) as Z16 by (unfold pdu, aaf_header; fold n; by read_field).
  rewrite word_split in Z16 by done.
  assert (zslice 22 2 pdu = be_bytes 2 (4096 * (n "sparse"%string mod 2) + n "evt"%string mod 16)) as Z22
    by (unfold pdu, aaf_header; fold n; by read_field).
  rewrite octet_split in Z22 by done.
  split_and!; [exact (raw_at_slice_list pdu 16 4 0 _ Z16 ltac:(lia) ltac:(lia))
    |exact (raw_at_slice_list pdu 16 4 1 _ Z16 ltac:(lia) ltac:(lia))
    |exact (raw_at_slice_list pdu 16 4 2 _ Z16 ltac:(lia) ltac:(lia))
    |exact (raw_at_slice_list pdu 16 4 3 _ Z16 ltac:(lia) ltac:(lia))
    |exact (raw_at_slice_list pdu 22 2 0 _ Z22 ltac:(lia) ltac:(lia))].
Qed.

(** ... and the multi-octet fields. *)
Lemma wide_fields : rd_be 4 8 pdu = n "stream_id"%string /\
  rd_be 12 4 pdu = n "avtp_timestamp"%string mod 2 ^ 32 /\ rd_be 20 2 pdu = n "stream_data_length"%string mod 65536.
Proof using Hid.
  pose proof (Z.mod_pos_bound (n "stream_data_length"%string) 65536 ltac:(done)).
  pose proof (Z.mod_pos_bound (n "avtp_timestamp"%string) (2 ^ 32) ltac:(done)).
  unfold pdu, aaf_header, rd_be. fold n. split_and!; read_field; by apply of_be_be_bytes_id.
Qed.

Lemma decode_aaf_pdu : decode_aaf pdu = Some (aaf_as_read fld).
Proof using Hid.
  assert (zlen pdu = 24 + zlen (aaf_payload fld)) as Hl by (unfold pdu; rewrite zlen_app, aaf_header_length; lia).
  pose proof (zlen_nonneg (aaf_payload fld)).
  destruct (flags_bits n) as (_ & F7 & F4 & F3 & F0).
  destruct (format_octets n) as (_ & W0 & W1 & W2 & W3). destruct (sparse_word n) as (_ & S1 & S2).
  destruct head_octets as (B0 & B1 & B2 & B3).
  destruct format_and_sparse_octets as (B16 & B17 & B18 & B19 & B22).
  destruct wide_fields as (R4 & R12 & R20).
  unfold decode_aaf. rewrite (proj2 (Z.ltb_ge _ _)) by lia.
  rewrite B0, Z.eqb_refl, R4, R12, R20, B1, B2, B3, B16, B17, B18, B19, B22. cbn [negb orb].
  rewrite F7, F4, F3, F0, W0, W1, W2, W3, S1, S2.
  assert (Z.land (n "tu"%string mod 128) 1 = n "tu"%string mod 2) as ->.
  { masks. change 128 with (2 * 64). rewrite Z.rem_mul_r by done.
    rewrite Z.add_mod, (Z.mul_comm 2), Z.mod_mul, Z.add_0_r, !Z.mod_mod by done. done. }
  assert (drop 24 pdu = aaf_payload fld) as Edrop.
  { apply drop_app_length'. pose proof (aaf_header_length fld). unfold zlen in *. lia. }
  unfold zslice. change (Z.to_nat 24) with 24%nat. by rewrite Edrop.
Qed.
End StreamPdu.

(** The reader gets back what the builder was given: every field of a stream PDU
    of the campaign, at the width the builder masks it to, the stream's tag and
    its samples.  [evt] is the exception: the builder puts it in the octet behind
    the one it is read from, and the reader sees 0 whatever was asked for. *)
Theorem campaign_stream_read fields fld f :
  with_defaults AAF_PDU_FIELDS fields "aaf_pdu" = Ok fld -> aaf_pdu fields = Ok f ->
  zlen (byte_field fld "dst") = 6 -> zlen (byte_field fld "src") = 6 ->
  exists eth, decode_eth f = Some eth /\ eth_subtype eth = Some WireTruth.SUBTYPE_AAF /\
    decode_aaf (e_payload eth) = Some (aaf_as_read fld) /\
    e_dst eth = byte_field fld "dst" /\ e_src eth = byte_field fld "src" /\
    match fld !! "vlan"%string with
    | Some VNone => tagged eth = false /\ vid eth = None
    | _ => tagged eth = true /\ pcp eth = Some 0 /\ dei eth = Some 0 /\
           vid eth = Some (int_field fld "vlan" mod 4096)
    end.
Proof.
  intros Hd H Hdst Hsrc. destruct (aaf_frame _ _ _ Hd H) as [Hid ->].
  destruct (campaign_eth fld (aaf_header fld ++ aaf_payload fld) Hdst Hsrc)
    as (eth & E & Het & Hpl & Hed & Hes & Hv).
  destruct (head_octets fld) as (B0 & _).
  exists eth. split_and!; try done; [|by rewrite Hpl; apply decode_aaf_pdu].
  unfold eth_subtype. rewrite Het, Hpl, Z.eqb_refl. cbn [negb orb].
  rewrite (proj2 (Z.eqb_neq (zlen _) 0)); [by rewrite B0|].
  rewrite zlen_app, aaf_header_length. pose proof (zlen_nonneg (aaf_payload fld)). lia.
Qed.

(** * Witness *)

Definition sample_stream : kwargs :=
  list_to_map [("sequence_num", VInt 263); ("vlan", VInt 2); ("evt", VInt 5); ("payload", VBytes [1; 2; 3; 4])]%string.

Lemma campaign_stream_read_witness :
  exists f fld eth, aaf_pdu sample_stream = Ok f /\ decode_eth f = Some eth /\ vid eth = Some 2 /\
    decode_aaf (e_payload eth) = Some (aaf_as_read fld) /\
    (a_sequence_num (aaf_as_read fld), a_evt (aaf_as_read fld), a_payload (aaf_as_read fld)) = (7, 0, [1; 2; 3; 4]).
Proof.
  assert (is_ok (aaf_pdu sample_stream) = true /\
    is_ok (with_defaults AAF_PDU_FIELDS sample_stream "aaf_pdu") = true) as [Of Od] by (split; vm_compute; reflexivity).
  destruct (with_defaults AAF_PDU_FIELDS sample_stream "aaf_pdu") as [fld|] eqn:Hd; [|discriminate Od].
  destruct (aaf_pdu sample_stream) as [f|] eqn:Hf; [|discriminate Of].
  assert (fld = match with_defaults AAF_PDU_FIELDS sample_stream "aaf_pdu" with Ok d => d | Err _ => ∅ end) as E0
    by (by rewrite Hd).
  assert (zlen (byte_field fld "dst") = 6 /\ zlen (byte_field fld "src") = 6 /\ fld !! "vlan"%string = Some (VInt 2) /\
    int_field fld "vlan" mod 4096 = 2 /\
    (a_sequence_num (aaf_as_read fld), a_evt (aaf_as_read fld), a_payload (aaf_as_read fld)) = (7, 0, [1; 2; 3; 4]))
    as (Hdst & Hsrc & Hv & Hv2 & Hread) by (rewrite E0; split_and!; vm_compute; reflexivity).
  destruct (campaign_stream_read sample_stream fld f Hd Hf Hdst Hsrc) as (eth & E & _ & Hp & _ & _ & Hvid).
  rewrite Hv, Hv2 in Hvid. destruct Hvid as (_ & _ & _ & Hvid).
  exists f, fld, eth. exact (conj eq_refl (conj E (conj Hvid (conj Hp Hread)))).
Defined.
