(* ===== verification/CaptureFiles.v ===== *)
(** Capture files: what the classic pcap reader of the wire checks returns for a
    file of records, in both byte orders and both resolutions, with or without an
    inline tap's record header and checksum; and a capture of the campaign's stream
    PDUs from the file to the checks' tables. *)
From S2P Require Import Prelude Unicode Text Packing TsnWire WireTruth WireChecks WireVerdicts WireAgree.

(** The four variants of the format: the magic, how its integers are read and
    written, and whether its fractions are nanoseconds. *)
Record variant := Variant {
  va_magic : bytes; va_read : Z -> Z -> bytes -> Z; va_write : Z -> bytes; va_nano : bool
}.

Definition variants : list variant :=
  [Variant [0xd4; 0xc3; 0xb2; 0xa1] rd_le (le_bytes 4) false;
   Variant [0x4d; 0x3c; 0xb2; 0xa1] rd_le (le_bytes 4) true;
   Variant [0xa1; 0xb2; 0xc3; 0xd4] rd_be (be_bytes 4) false;
   Variant [0xa1; 0xb2; 0x3c; 0x4d] rd_be (be_bytes 4) true].

(** One record: seconds, fraction, and the captured octets. *)
Record captured := Captured { ca_seconds : Z; ca_fraction : Z; ca_data : bytes }.

Record captured_fits (c : captured) : Prop := {
  ca_s : 0 <= ca_seconds c < 2 ^ 32;
  ca_f : 0 <= ca_fraction c < 2 ^ 32;
  ca_n : zlen (ca_data c) < 2 ^ 32
}.

Definition encode_record (v : variant) (original : Z) (c : captured) : bytes :=
  va_write v (ca_seconds c) ++ va_write v (ca_fraction c) ++ va_write v (zlen (ca_data c))
  ++ va_write v original ++ ca_data c.

Definition encode_pcap (v : variant) (header : bytes) (original : Z) (cs : list captured) : bytes :=
  va_magic v ++ header ++ concat (map (encode_record v original) cs).

(** A last record that is not all there. *)
Definition cut_off (v : variant) (rest : bytes) : Prop :=
  zlen rest < 16 \/ zlen rest - 16 < va_read v 8 4 rest.

Lemma rd_at_be pre post off v : zlen pre = off -> 0 <= v < 2 ^ 32 ->
  rd_be off 4 (pre ++ be_bytes 4 v ++ post) = v.
Proof.
  intros Ho Hv. unfold rd_be. rewrite (zslice_skip pre _ off) by (done || lia).
  rewrite Z.sub_diag, zslice_hit by apply zlen_be_bytes. by apply of_be_be_bytes_id.
Qed.

Lemma rd_at_le pre post off v : zlen pre = off -> 0 <= v < 2 ^ 32 ->
  rd_le off 4 (pre ++ le_bytes 4 v ++ post) = v.
Proof.
  intros Ho Hv. unfold rd_le. rewrite (zslice_skip pre _ off) by (done || lia).
  rewrite Z.sub_diag, zslice_hit by done. by apply of_le_le_bytes_id.
Qed.

Lemma variant_reads v : In v variants ->
  (forall x, zlen (va_write v x) = 4) /\
  (forall pre post off x, zlen pre = off -> 0 <= x < 2 ^ 32 ->
     va_read v off 4 (pre ++ va_write v x ++ post) = x) /\
  (forall pre post off o, zlen pre = off -> 0 <= o -> va_read v (off + o) 4 (pre ++ post) = va_read v o 4 post).
Proof.
  intros H. cbn in H.
  assert (forall (pre post : bytes) off o n, zlen pre = off -> 0 <= o ->
    zslice (off + o) n (pre ++ post) = zslice o n post) as Hskip.
  { intros pre post off o n Ho Hn. rewrite (zslice_skip pre _ off) by (done || lia). f_equal. lia. }
  destruct H as [<-|[<-|[<-|[<-|[]]]]]; cbn [va_write va_read]; split_and!;
    first [ done | apply rd_at_le | apply rd_at_be
          | intros; unfold rd_le, rd_be; by rewrite Hskip ].
Qed.

Section Reading.
Context {T : Type} (stamp : bool -> Z -> Z -> T) (stamp_ng : Z -> Z -> T).

(** What the reader owes for a record. *)
Definition reading (v : variant) (c : captured) : T * bytes :=
  (stamp (va_nano v) (ca_seconds c) (ca_fraction c), ca_data c).

Lemma encode_record_length v original c : In v variants -> zlen (encode_record v original c) = 16 + zlen (ca_data c).
Proof.
  intros Hv%variant_reads. destruct Hv as (Hw & _). unfold encode_record. rewrite !zlen_app, !Hw. lia.
Qed.

Lemma loop_reads v original cs pre rest off fuel : In v variants -> Forall captured_fits cs ->
  0 <= original < 2 ^ 32 -> zlen pre = off -> cut_off v rest -> (length cs < fuel)%nat ->
  pcap_loop stamp fuel (va_read v) (va_nano v)
    (pre ++ concat (map (encode_record v original) cs) ++ rest) off = map (reading v) cs.
Proof.
  intros Hv Hcs Horig. revert pre off fuel.
  induction Hcs as [|c cs [Hs Hf Hn] Hcs IH]; intros pre off fuel Hoff Hrest Hfuel;
    (destruct fuel as [|fuel]; [lia|]); cbn [map concat length pcap_loop] in *.
  - cbn [app]. destruct (variant_reads v Hv) as (_ & _ & Hskip).
    destruct (Z.leb_spec (off + 16) (zlen (pre ++ rest))) as [Hl|]; [|done].
    rewrite zlen_app in *. destruct Hrest as [Hr|Hr]; [lia|].
    rewrite Hskip by done. rewrite (proj2 (Z.ltb_lt _ _)) by lia. done.
  - pose proof (encode_record_length v original c Hv) as Hel.
    destruct (variant_reads v Hv) as (Hw & Hrd & Hskip).
    set (tail := concat (map (encode_record v original) cs)) in *.
    pose proof (zlen_nonneg tail). pose proof (zlen_nonneg rest). pose proof (zlen_nonneg (ca_data c)).
    set (blob := pre ++ (encode_record v original c ++ tail) ++ rest).
    assert (zlen blob = off + (16 + zlen (ca_data c)) + zlen tail + zlen rest) as Hbl
      by (unfold blob; rewrite !zlen_app; lia).
    rewrite (proj2 (Z.leb_le _ _)) by lia.
    assert (va_read v off 4 blob = ca_seconds c) as ->
      by (unfold blob, encode_record; rewrite <-!app_assoc; by apply Hrd).
    assert (va_read v (off + 4) 4 blob = ca_fraction c) as ->.
    { unfold blob, encode_record. rewrite <-!app_assoc, (app_assoc pre). apply Hrd; [|done].
      rewrite zlen_app, Hw. lia. }
    assert (va_read v (off + 8) 4 blob = zlen (ca_data c)) as ->.
    { unfold blob, encode_record. rewrite <-!app_assoc, (app_assoc pre), (app_assoc (pre ++ _)).
      apply Hrd; [|lia]. rewrite !zlen_app, !Hw. lia. }
    rewrite (proj2 (Z.ltb_ge _ _)) by lia. unfold reading at 1. f_equal; [f_equal|].
    + unfold blob, encode_record.
      rewrite <-!app_assoc, (app_assoc pre), (app_assoc (pre ++ _)), (app_assoc ((pre ++ _) ++ _)),
        (app_assoc (((pre ++ _) ++ _) ++ _)).
      rewrite (zslice_skip _ _ (off + 16)) by (try lia; rewrite !zlen_app, !Hw; lia).
      rewrite Z.sub_diag. by apply zslice_hit.
    + unfold blob. rewrite <-app_assoc, app_assoc.
      replace (off + 16 + zlen (ca_data c)) with (off + zlen (encode_record v original c)) by lia.
      apply IH; [by rewrite zlen_app, Hoff|done|lia].
Qed.

(** A file reads back as it was written: every record in order with its stamp
    and its octets, and a record cut off at the end is dropped. *)
Lemma pcap_reads v header original cs rest : In v variants -> zlen header = 20 ->
  Forall captured_fits cs -> 0 <= original < 2 ^ 32 -> cut_off v rest ->
  pcap_records stamp (encode_pcap v header original cs ++ rest) = Ok (map (reading v) cs).
Proof.
  intros Hv Hh Hcs Ho Hr. unfold pcap_records, encode_pcap.
  set (body := concat (map (encode_record v original) cs)).
  assert (length cs < length ((va_magic v ++ header ++ body) ++ rest))%nat as Hfuel.
  { rewrite !length_app. assert (length cs <= length body)%nat; [|unfold zlen in *; lia].
    unfold body. clear -Hv. induction cs as [|c cs IH]; [done|]. cbn [map concat length]. rewrite length_app.
    pose proof (encode_record_length v original c Hv) as Hl. pose proof (zlen_nonneg (ca_data c)).
    unfold zlen in *. lia. }
  assert (take 4 ((va_magic v ++ header ++ body) ++ rest) = va_magic v) as Hmagic
    by (destruct Hv as [<-|[<-|[<-|[<-|[]]]]]; reflexivity).
  rewrite Hmagic.
  assert (zlen (va_magic v ++ header) = 24) as Hpre
    by (rewrite zlen_app, Hh; destruct Hv as [<-|[<-|[<-|[<-|[]]]]]; reflexivity).
  pose proof (loop_reads v original cs (va_magic v ++ header) rest 24
    (length ((va_magic v ++ header ++ body) ++ rest)) Hv Hcs Ho Hpre Hr Hfuel) as Hl.
  fold body in Hl. rewrite <-!app_assoc in *.
  assert (pcap_order (va_magic v) = Ok (va_read v, va_nano v)) as ->
    by (destruct Hv as [<-|[<-|[<-|[<-|[]]]]]; reflexivity).
  cbn [rbind fst snd]. by rewrite Hl.
Qed.

Lemma read_capture_pcap v header original cs rest tap strip : In v variants -> zlen header = 20 ->
  Forall captured_fits cs -> 0 <= original < 2 ^ 32 -> cut_off v rest ->
  read_capture stamp stamp_ng (encode_pcap v header original cs ++ rest) tap strip =
  Ok (omap (fun '(ts, data) =>
        if negb (tap =? 0) && (zlen data <=? tap) then None
        else
          let data := if negb (tap =? 0) then drop (Z.to_nat tap) data else data in
          Some (ts, if strip && (4 <? zlen data) then take (length data - 4) data else data))
      (map (reading v) cs)).
Proof.
  intros Hv Hh Hcs Ho Hr. unfold read_capture. rewrite (bool_decide_false (take 4 _ = _)).
  - by rewrite pcap_reads.
  - unfold encode_pcap. destruct Hv as [<-|[<-|[<-|[<-|[]]]]]; done.
Qed.

Lemma omap_map_some {A B C} (f : B -> option C) (g : A -> B) (h : A -> C) l :
  Forall (fun x => f (g x) = Some (h x)) l -> omap f (map g l) = map h l.
Proof.
  induction 1 as [|x l Hx _ IH]; [done|]. cbn [map omap list_omap]. rewrite Hx. f_equal. exact IH.
Qed.

(** A file of frames reads as its frames, stamps and all, in either byte order
    and resolution; a last record that is not all there is dropped. *)
Theorem capture_round_trip v header original cs rest : In v variants -> zlen header = 20 ->
  Forall captured_fits cs -> 0 <= original < 2 ^ 32 -> cut_off v rest ->
  read_capture stamp stamp_ng (encode_pcap v header original cs ++ rest) 0 false = Ok (map (reading v) cs).
Proof.
  intros Hv Hh Hcs Ho Hr. rewrite read_capture_pcap by done. f_equal.
  apply omap_map_some, Forall_true. by intros [].
Qed.

(** What an inline tap writes for a frame: a header of its own, the frame, and
    the frame's checksum. *)
Definition tapped (head fcs : bytes) (c : captured) : captured :=
  Captured (ca_seconds c) (ca_fraction c) (head ++ ca_data c ++ fcs).

(** The frames of an inline tap come out as they were on the link: header and
    checksum are stripped from each record. *)
Theorem tap_capture_read v header original head fcs cs rest : In v variants -> zlen header = 20 ->
  0 < zlen head -> zlen fcs = 4 -> Forall (fun c => ca_data c <> []) cs ->
  Forall captured_fits (map (tapped head fcs) cs) -> 0 <= original < 2 ^ 32 -> cut_off v rest ->
  read_capture stamp stamp_ng (encode_pcap v header original (map (tapped head fcs) cs) ++ rest) (zlen head) true =
  Ok (map (reading v) cs).
Proof.
  intros Hv Hh Hhead Hfcs Hne Hcs Ho Hr. rewrite read_capture_pcap by done. f_equal. rewrite map_map.
  apply omap_map_some. eapply List.Forall_impl; [|exact Hne]. cbn beta. intros c Hc.
  assert (0 < zlen (ca_data c)) as Hd.
  { destruct (ca_data c) as [|x l]; [done|]. rewrite zlen_cons. pose proof (zlen_nonneg l). lia. }
  unfold reading. cbn [tapped ca_seconds ca_fraction ca_data].
  rewrite (proj2 (Z.eqb_neq (zlen head) 0)) by lia. cbn [negb andb].
  rewrite (proj2 (Z.leb_gt (zlen (head ++ ca_data c ++ fcs)) (zlen head))) by (rewrite !zlen_app; lia).
  assert (drop (Z.to_nat (zlen head)) (head ++ ca_data c ++ fcs) = ca_data c ++ fcs) as ->
    by (unfold zlen; rewrite Nat2Z.id; apply drop_app_length).
  rewrite (proj2 (Z.ltb_lt 4 _)) by (rewrite zlen_app; lia). do 2 f_equal.
  rewrite length_app. unfold zlen in Hfcs. apply take_app_length'. lia.
Qed.
End Reading.

(** * Any file *)

(** Close a bound on no records at all. *)
Ltac no_records := unfold zlen in *; cbn [length] in *; lia.

Section AnyFile.
Context {T : Type} (stamp : bool -> Z -> Z -> T) (stamp_ng : Z -> Z -> T) (blob : bytes).
Hypothesis (Hb : Forall is_byte blob).

(** Fuel past the octets that are left changes nothing. *)
Lemma pcap_loop_fuel rd nano f1 f2 off : (forall o, 0 <= rd o 4 blob) ->
  zlen blob - off < Z.of_nat f1 -> zlen blob - off < Z.of_nat f2 ->
  pcap_loop stamp f1 rd nano blob off = pcap_loop stamp f2 rd nano blob off.
Proof using Type.
  intros Hrd. revert f2 off. induction f1 as [|f1 IH]; intros [|f2] off H1 H2; cbn [pcap_loop]; try done.
  - by rewrite (proj2 (Z.leb_gt _ _)) by lia.
  - by rewrite (proj2 (Z.leb_gt _ _)) by lia.
  - destruct (Z.leb_spec (off + 16) (zlen blob)); [|done]. destruct (_ <? _); [done|]. f_equal.
    specialize (Hrd (off + 8)). apply IH; lia.
Qed.

Lemma pcap_loop_count fuel rd nano off : (forall o, 0 <= rd o 4 blob) -> 0 <= off <= zlen blob ->
  16 * zlen (pcap_loop stamp fuel rd nano blob off) <= zlen blob - off.
Proof using Type.
  intros Hrd. revert off. induction fuel as [|fuel IH]; intros off Ho; cbn [pcap_loop]; [no_records|].
  destruct (Z.leb_spec (off + 16) (zlen blob)); [|no_records].
  destruct (Z.ltb_spec (zlen blob - (off + 16)) (rd (off + 8) 4 blob)); [no_records|].
  rewrite zlen_cons. specialize (IH (off + 16 + rd (off + 8) 4 blob)). specialize (Hrd (off + 8)). lia.
Qed.

Lemma option_step olen : 0 <= olen -> 4 <= 4 + Z.land (olen + 3) (Z.lnot 3).
Proof using Type. intros H. assert (0 <= Z.land (olen + 3) (Z.lnot 3)); [|lia]. apply Z.land_nonneg. lia. Qed.

Lemma idb_options_fuel rd body f1 f2 o tsres : (forall o, 0 <= rd o 2 body) ->
  zlen body - o < Z.of_nat f1 -> zlen body - o < Z.of_nat f2 ->
  idb_options f1 rd body o tsres = idb_options f2 rd body o tsres.
Proof using Type.
  intros Hrd. revert f2 o tsres. induction f1 as [|f1 IH]; intros [|f2] o tsres H1 H2; cbn [idb_options]; try done.
  - by rewrite (proj2 (Z.leb_gt _ _)) by lia.
  - by rewrite (proj2 (Z.leb_gt _ _)) by lia.
  - destruct (Z.leb_spec (o + 4) (zlen body)); [|done]. cbv zeta.
    pose proof (option_step (rd (o + 2) 2 body) (Hrd (o + 2))).
    destruct (if _ : bool then _ else _) as [t|]; [|done]. cbn [rbind]. destruct (_ =? 0); [done|]. apply IH; lia.
Qed.

Lemma pcapng_loop_fuel f1 f2 off little tsres :
  zlen blob - off < Z.of_nat f1 + 12 -> zlen blob - off < Z.of_nat f2 + 12 ->
  pcapng_loop stamp_ng f1 blob off little tsres = pcapng_loop stamp_ng f2 blob off little tsres.
Proof using Type.
  revert f2 off little tsres. induction f1 as [|f1 IH]; intros [|f2] off little tsres H1 H2; cbn [pcapng_loop]; try done.
  - by rewrite (proj2 (Z.leb_gt _ _)) by lia.
  - by rewrite (proj2 (Z.leb_gt _ _)) by lia.
  - destruct (Z.leb_spec (off + 12) (zlen blob)); [|done]. cbv zeta.
    set (le := if _ =? 0x0A0D0D0A then _ else _). set (blen := if le then _ else _).
    destruct (Z.ltb_spec blen 12); [done|]. cbn [orb]. destruct (zlen blob <? off + blen); [done|].
    assert (forall t, pcapng_loop stamp_ng f1 blob (off + blen) le t = pcapng_loop stamp_ng f2 blob (off + blen) le t)
      as E by (intros t; apply IH; lia).
    destruct (_ && _).
    + destruct (idb_options _ _ _ _ _) as [t|]; [|done]. cbn [rbind]. apply E.
    + destruct (_ && _); [by rewrite E|apply E].
Qed.

Lemma pcapng_loop_count fuel off little tsres l : 0 <= off <= zlen blob ->
  pcapng_loop stamp_ng fuel blob off little tsres = Ok l -> 12 * zlen l <= zlen blob - off.
Proof using Type.
  revert off little tsres l. induction fuel as [|fuel IH]; intros off little tsres l Ho; cbn [pcapng_loop];
    [intros [= <-]; no_records|].
  destruct (Z.leb_spec (off + 12) (zlen blob)); [|intros [= <-]; no_records]. cbv zeta.
  set (le := if _ =? 0x0A0D0D0A then _ else _). set (blen := if le then _ else _).
  destruct (Z.ltb_spec blen 12); [intros [= <-]; no_records|]. cbn [orb].
  destruct (Z.ltb_spec (zlen blob) (off + blen)); [intros [= <-]; no_records|].
  destruct (_ && _).
  - destruct (idb_options _ _ _ _ _) as [t|]; [|done]. cbn [rbind]. intros Hl. apply IH in Hl; lia.
  - destruct (_ && _).
    + intros Hl. rsplit Hl. subst l. rewrite zlen_cons. apply IH in Hm; lia.
    + intros Hl. apply IH in Hl; lia.
Qed.

Lemma reading_nonneg magic rd nano : pcap_order magic = Ok (rd, nano) -> forall o n, 0 <= rd o n blob.
Proof using Hb.
  unfold pcap_order. destruct (_ || _); [intros [= <- _] o n; by apply rd_le_nonneg|].
  destruct (_ || _); [intros [= <- _] o n; by apply rd_be_nonneg|done].
Qed.
End AnyFile.

(** Reading a capture ends on every file: neither loop, nor the one over the
    options of an interface, spends its fuel, so more of it changes nothing, and
    no file has more records than one for each twelve of its octets. *)
Theorem read_capture_ends {T} (stamp : bool -> Z -> Z -> T) stamp_ng blob more : Forall is_byte blob ->
  (forall rd nano, pcap_order (take 4 blob) = Ok (rd, nano) ->
     pcap_loop stamp (length blob + more) rd nano blob 24 = pcap_loop stamp (length blob) rd nano blob 24) /\
  pcapng_loop stamp_ng (length blob + more) blob 0 true 6 = pcapng_loop stamp_ng (length blob) blob 0 true 6 /\
  (forall o n little, let body := zslice o n blob in let rd := if little : bool then rd_le else rd_be in
     idb_options (length body + more) rd body 8 6 = idb_options (length body) rd body 8 6) /\
  forall tap strip l, read_capture stamp stamp_ng blob tap strip = Ok l -> 12 * zlen l <= zlen blob.
Proof.
  intros Hb. split_and!.
  - intros rd nano Hr. apply pcap_loop_fuel; [|unfold zlen; lia..]. intros o. by apply (reading_nonneg blob Hb _ _ _ Hr).
  - apply pcapng_loop_fuel; unfold zlen; lia.
  - intros o n little body rd. apply idb_options_fuel; [|unfold zlen; lia..].
    assert (Forall is_byte body) by (by apply Forall_zslice).
    intros k. destruct little; [by apply rd_le_nonneg|by apply rd_be_nonneg].
  - intros tap strip l Hl. unfold read_capture in Hl. rsplit Hl. subst l.
    assert (12 * zlen v <= zlen blob) as Hv.
    { pose proof (zlen_nonneg blob). destruct (bool_decide _).
      - apply pcapng_loop_count in Hm; lia.
      - unfold pcap_records in Hm. rsplit Hm. subst v. destruct v0 as [rd nano]. cbn [fst snd].
        destruct (Z.leb_spec 24 (zlen blob)).
        + pose proof (pcap_loop_count stamp blob (length blob) rd nano 24
            (fun o => reading_nonneg blob Hb _ _ _ Hm0 o 4) ltac:(lia)).
          pose proof (zlen_nonneg (pcap_loop stamp (length blob) rd nano blob 24)). lia.
        + destruct (length blob); cbn [pcap_loop]; [no_records|].
          rewrite (proj2 (Z.leb_gt _ _)) by lia. no_records. }
    etransitivity; [|exact Hv]. apply Z.mul_le_mono_nonneg_l; [done|].
    match goal with |- context [omap ?f v] => generalize f end. intros f. clear.
    induction v as [|x v IH]; [done|]. cbn [omap list_omap]. destruct (f x); rewrite ?zlen_cons; lia.
Qed.

(** * From the file to the tables of the checks *)

(** A frame the campaign built from the fields [fld]. *)
Definition campaign_frame (fld : kwargs) (f : bytes) : Prop :=
  exists fields, with_defaults AAF_PDU_FIELDS fields "aaf_pdu" = Ok fld /\ aaf_pdu fields = Ok f /\
    zlen (byte_field fld "dst") = 6 /\ zlen (byte_field fld "src") = 6.

Lemma campaign_recorded {T} (ts : T) fld f : campaign_frame fld f ->
  exists eth, aaf_record (ts, f) = Some (ts, eth, aaf_as_read fld).
Proof.
  intros (fields & Hd & Hf & Hdst & Hsrc).
  destruct (campaign_stream_read fields fld f Hd Hf Hdst Hsrc) as (eth & E & Hst & Hp & _).
  exists eth. unfold aaf_record, record_of, avtp_frame. cbn [fst snd]. rewrite E.
  assert (e_ethertype eth = ETH_P_AVTP) as ->.
  { revert Hst. unfold eth_subtype. by destruct (Z.eqb_spec (e_ethertype eth) ETH_P_AVTP). }
  rewrite Z.eqb_refl, Hst. cbn [fmap option_fmap option_map]. rewrite Hp. reflexivity.
Qed.

Lemma campaign_records {T} (reading : captured -> T * bytes) flds cs :
  (forall c, snd (reading c) = ca_data c) -> Forall2 (fun fld c => campaign_frame fld (ca_data c)) flds cs ->
  map snd (omap aaf_record (map reading cs)) = map aaf_as_read flds.
Proof.
  intros Hr. induction 1 as [|fld c flds cs Hc _ IH]; [done|]. cbn [map omap list_omap].
  specialize (Hr c). destruct (reading c) as [ts data]. cbn [snd] in Hr. subst data.
  destruct (campaign_recorded ts fld _ Hc) as [eth ->]. cbn [map snd]. f_equal. exact IH.
Qed.

Lemma filter_map_swap {A B} (p : B -> bool) (f : A -> B) l :
  List.filter p (map f l) = map f (List.filter (fun x => p (f x)) l).
Proof. induction l as [|x l IH]; [done|]. cbn. destruct (p (f x)); cbn; by rewrite IH. Qed.

(** C8: A capture file of the campaign's stream PDUs ends in the checks' tables as
    what was built, but for the event: the records of a stream are the PDUs given
    its identifier, in the order they were sent, every field but [evt] the one the
    builder was given at its width, and [evt] 0 whatever was asked for, as builder
    and reader place it in different octets; they are what was built in every field
    when no PDU of the stream carries an event.  Whatever the byte order and
    resolution of the file, and with its last record cut off. *)
Theorem campaign_capture_filed {T} (stamp : bool -> Z -> Z -> T) stamp_ng v header original flds cs rest :
  In v variants -> zlen header = 20 -> Forall captured_fits cs -> 0 <= original < 2 ^ 32 -> cut_off v rest ->
  Forall2 (fun fld c => campaign_frame fld (ca_data c)) flds cs ->
  exists recs, read_capture stamp stamp_ng (encode_pcap v header original cs ++ rest) 0 false = Ok recs /\
    forall sid,
      let sent := List.filter (fun fld => int_field fld "stream_id" =? sid) flds in
      let filed := map snd (default [] (w_aaf (feed_capture empty_capture recs) !! sid)) in
      filed = map (fun fld => with_evt 0 (aaf_as_built fld)) sent /\
      ((forall fld, In fld sent -> int_field fld "evt" mod 16 = 0) -> filed = map aaf_as_built sent).
Proof.
  intros Hv Hh Hcs Ho Hr Hf. exists (map (reading stamp v) cs). split.
  { rewrite read_capture_pcap by done. f_equal. apply omap_map_some, Forall_true. by intros []. }
  intros sid sent filed. assert (filed = map aaf_as_read sent) as E.
  { unfold filed. destruct (capture_folds (map (reading stamp v) cs)) as (-> & _). rewrite file_lookup.
    transitivity (map snd (of_stream (fun r : T * EthFrame * AafPdu => a_stream_id (snd r)) sid
      (omap aaf_record (map (reading stamp v) cs)))); [by destruct (of_stream _ _ _)|].
    unfold of_stream. rewrite <-(filter_map_swap (fun p => a_stream_id p =? sid) snd).
    rewrite (campaign_records (reading stamp v) flds cs (fun c => eq_refl) Hf). apply filter_map_swap. }
  split; [exact E|]. intros Hz. rewrite E. apply map_ext_in. intros fld Hin. by apply as_read_evt_zero, Hz.
Qed.

(** * Witnesses *)

Definition sample_variant : variant := Variant [0xd4; 0xc3; 0xb2; 0xa1] rd_le (le_bytes 4) false.
Definition sample_captured : list captured := [Captured 1 500000 [1; 2; 3]; Captured 2 0 [4]].

Lemma capture_round_trip_witness :
  read_capture (fun _ s f => s * 1000000 + f) (fun n _ => n)
    (encode_pcap sample_variant (zeros 20) 60 sample_captured ++ [0; 0]) 0 false
  = Ok [(1500000, [1; 2; 3]); (2000000, [4])].
Proof.
  apply (capture_round_trip (fun _ s f => s * 1000000 + f) (fun n _ => n) sample_variant (zeros 20) 60 sample_captured [0; 0]).
  - by left.
  - done.
  - repeat constructor; done.
  - done.
  - by left.
Defined.

Lemma tap_capture_read_witness :
  read_capture (fun _ s f => s * 1000000 + f) (fun n _ => n)
    (encode_pcap sample_variant (zeros 20) 60 (map (tapped (zeros 28) (zeros 4)) sample_captured) ++ []) 28 true
  = Ok [(1500000, [1; 2; 3]); (2000000, [4])].
Proof.
  apply (tap_capture_read (fun _ s f => s * 1000000 + f) (fun n _ => n) sample_variant (zeros 20) 60
    (zeros 28) (zeros 4) sample_captured []).
  - by left.
  - done.
  - done.
  - done.
  - repeat constructor; done.
  - repeat constructor; done.
  - done.
  - by left.
Defined.

(** One frame of a stream in a file of microseconds, and one that carries no event. *)
Definition quiet_stream : kwargs := <["evt"%string := VInt 0]> sample_stream.
Definition fields_of (fields : kwargs) : kwargs :=
  match with_defaults AAF_PDU_FIELDS fields "aaf_pdu" with Ok d => d | Err _ => ∅ end.
Definition frame_bytes (fields : kwargs) : bytes := match aaf_pdu fields with Ok f => f | Err _ => [] end.

Lemma one_captured fld f : campaign_frame fld f ->
  Forall2 (fun fld c => campaign_frame fld (ca_data c)) [fld] [Captured 1 0 f].
Proof. intros H. by apply Forall2_cons. Qed.

Lemma built_frame fields : is_ok (with_defaults AAF_PDU_FIELDS fields "aaf_pdu") = true ->
  is_ok (aaf_pdu fields) = true ->
  zlen (byte_field (fields_of fields) "dst") = 6 -> zlen (byte_field (fields_of fields) "src") = 6 ->
  campaign_frame (fields_of fields) (frame_bytes fields).
Proof.
  unfold campaign_frame, fields_of, frame_bytes. intros Hd Hf Hdst Hsrc. exists fields.
  destruct (with_defaults _ _ _); [|done]. by destruct (aaf_pdu _).
Qed.

Lemma campaign_capture_filed_witness :
  exists recs, read_capture (fun _ s f => s * 1000000 + f) (fun n _ => n)
      (encode_pcap sample_variant (zeros 20) 60 [Captured 1 0 (frame_bytes sample_stream)] ++ []) 0 false = Ok recs /\
    map snd (default [] (w_aaf (feed_capture empty_capture recs) !! 0x0200000000010000)) =
      [with_evt 0 (aaf_as_built (fields_of sample_stream))] /\
    a_evt (aaf_as_built (fields_of sample_stream)) = 5 /\
  (exists recs', read_capture (fun _ s f => s * 1000000 + f) (fun n _ => n)
      (encode_pcap sample_variant (zeros 20) 60 [Captured 1 0 (frame_bytes quiet_stream)] ++ []) 0 false = Ok recs' /\
    map snd (default [] (w_aaf (feed_capture empty_capture recs') !! 0x0200000000010000)) =
      [aaf_as_built (fields_of quiet_stream)]).
Proof.
  assert (forall fields, In fields [sample_stream; quiet_stream] ->
    campaign_frame (fields_of fields) (frame_bytes fields) /\ zlen (frame_bytes fields) = 46 /\
    int_field (fields_of fields) "stream_id" = 0x0200000000010000) as Hs.
  { intros fields [<-|[<-|[]]]; (split; [apply built_frame|split]); vm_compute; reflexivity. }
  assert (forall fields, zlen (frame_bytes fields) = 46 -> captured_fits (Captured 1 0 (frame_bytes fields))) as Hc
    by (intros fields Hl; constructor; cbn [ca_seconds ca_fraction ca_data]; rewrite ?Hl; lia).
  assert (a_evt (aaf_as_built (fields_of sample_stream)) = 5 /\
    int_field (fields_of quiet_stream) "evt" mod 16 = 0) as [He Hq] by (split; vm_compute; reflexivity).
  destruct (Hs _ (or_introl eq_refl)) as (F1 & C1%Hc & I1).
  destruct (Hs _ (or_intror (or_introl eq_refl))) as (F2 & C2%Hc & I2).
  assert (In sample_variant variants) as Hv by (left; reflexivity).
  assert (zlen (zeros 20) = 20) as Hh by reflexivity.
  assert (0 <= 60 < 2 ^ 32) as Ho by lia.
  assert (cut_off sample_variant []) as Hr by (left; reflexivity).
  destruct (campaign_capture_filed (fun _ s f => s * 1000000 + f) (fun n _ => n) sample_variant (zeros 20) 60
    [fields_of sample_stream] [Captured 1 0 (frame_bytes sample_stream)] []
    Hv Hh (proj2 (Forall_singleton _ _) C1) Ho Hr
    (one_captured _ _ F1)) as (recs & Hrecs & Htable).
  destruct (campaign_capture_filed (fun _ s f => s * 1000000 + f) (fun n _ => n) sample_variant (zeros 20) 60
    [fields_of quiet_stream] [Captured 1 0 (frame_bytes quiet_stream)] []
    Hv Hh (proj2 (Forall_singleton _ _) C2) Ho Hr
    (one_captured _ _ F2)) as (recs' & Hrecs' & Htable').
  exists recs. split; [exact Hrecs|]. specialize (Htable 0x0200000000010000). specialize (Htable' 0x0200000000010000).
  cbv zeta in Htable, Htable'. cbn [List.filter] in Htable, Htable'. rewrite I1, Z.eqb_refl in Htable.
  rewrite I2, Z.eqb_refl in Htable'. destruct Htable as [Htable _]. destruct Htable' as [_ Htable'].
  split; [exact Htable|]. split; [exact He|]. exists recs'. split; [exact Hrecs'|].
  apply Htable'. intros fld [<-|[]]. exact Hq.
Defined.

(** One whole record, then a record header cut short. *)
Definition cut_file : bytes :=
  [0xd4; 0xc3; 0xb2; 0xa1] ++ zeros 20 ++ concat (map (le_bytes 4) [3; 5; 2; 2]) ++ [7; 8] ++ zeros 9.

Lemma read_capture_ends_witness :
  exists l, read_capture (fun _ s f => s * 1000000 + f) (fun n _ => n) cut_file 0 false = Ok l /\
    length l = 1%nat /\ 12 * zlen l <= zlen cut_file.
Proof.
  assert (is_ok (read_capture (fun _ s f => s * 1000000 + f) (fun n _ => n) cut_file 0 false) = true /\
    match read_capture (fun _ s f => s * 1000000 + f) (fun n _ => n) cut_file 0 false with
    | Ok l => length l | Err _ => 0%nat end = 1%nat) as [Hok Hn] by (split; vm_compute; reflexivity).
  destruct (read_capture_ends (fun _ s f => s * 1000000 + f) (fun n _ => n) cut_file 0) as (_ & _ & _ & H).
  - apply Forall_is_byteb. vm_compute. reflexivity.
  - destruct (read_capture _ _ cut_file 0 false) as [l|] eqn:E; [|discriminate Hok].
    exists l. split; [reflexivity|]. split; [exact Hn|exact (H 0 false l E)].
Defined.
